(* ===== verification/_CoqProject ===== *)
-Q . S2P
Prelude.v
PyStr.v
IpAddr.v
Models.v
Session.v
Broker.v
Demo.v
Ipam.v
ProxyProtocol.v
Ratelimit.v
Locks.v
TenantScope.v
Hashing.v
Base64.v
Json.v
IsoTime.v
AuditLog.v
Enrollment.v
Wireguard.v
Tasks.v
Reconfig.v
RouterServers.v
RouterClients.v
RouterSshKeys.v
RouterTenants.v
Auth.v
ApiVersion.v
RouterAudit.v
Pki.v
Config.v
SshCa.v
PkiBootstrap.v
Ssh.v
BootstrapSsh.v
Crypto.v
RouterCerts.v
CliCerts.v
Cli.v
Backup.v
RouterTokens.v
EnrollMetrics.v
Metrics.v
EnrollApp.v
Invariant.v
Keeps.v
KeepsRegistry.v
Evidence.v
Api.v
Routes.v
CliHttp.v
Migrations.v
Revisions.v
Upgrades.v
SchemaHead.v
UpgradesKeep.v
Views.v
VaultOps.v
Failover.v
Rotation.v
Listeners.v
