(* ===== verification/Prelude.v ===== *)
(** * wg-manager: a verification library

    wg-manager is a control plane for WireGuard networks: a FastAPI service
    and Celery workers over one SQL database.  Operators register hubs
    ([Server] rows) and spokes ([Client] rows) that belong to tenants; workers
    install and reconfigure the machines over SSH; hosts may enroll by
    themselves on a separate listener by redeeming a token.  This library
    models the parts of [src/src/wg_manager] that carry that logic, the schema
    migrations of [src/alembic/versions] and the operational tools of
    [src/scripts], and proves what makes them correct.  Paths below are relative
    to [src/src/wg_manager] unless they name another directory.

    ** How the code is modelled

    - A request handler or a task is a function in a state and exception monad
      ([Session.v]).  The state holds the committed database, the view of the
      open session, the queue of dispatched tasks, the audit lines, and what
      lies outside the database: issued and revoked leaves of the PKI, files
      on disk, HTTP samples and enrollment outcomes for the metrics, and the
      broker, which may refuse a message: queueing a task then raises, also
      after a commit.
      [session.commit] copies the view to the committed database; an exception
      that leaves the handler drops the view.  Handlers are translated
      statement by statement, guards and raised exceptions included.
    - The database ([Models.v]) has one [table] (rows by primary key, next
      auto-increment key) per model class.  Foreign keys are those a database
      that enforces them (MySQL) checks; rows that depend on a deleted row are
      deleted before it, as SQLAlchemy orders them.
    - Python values: [str] is a string of Latin-1 characters (text outside
      Latin-1 in a literal is written as its UTF-8 bytes), [int] is [Z],
      [bytes] is a list of bytes, date-times are microseconds since the epoch,
      a dict used as a map is a [gmap].  An expression that may raise one
      known exception is an [option], one with several is an [outcome].  The
      text of exceptions raised inside the Python standard library is not
      modelled.  One request reads the clock once ([now]).
    - Code outside the repository is a parameter: pydantic's [model_dump]
      (class [Dumps]) and JSON decoding, X.509 and SSH signing and parsing,
      Vault, Fernet, AES-GCM, PKCS#12, the paramiko transport, the node a task talks
      to ([node_env]), the X25519 operation, the CORS layer, the Redis server
      ([RedisServer], [RedisLaws], [RedisHash], [RedisHashLaws]), MySQL's named
      locks ([NamedLocks], [NamedLocksLaws]), the administration calls of Vault
      ([VaultAdmin], [TransitAdmin], [AuditAdmin] with their laws, and the raft
      node that [follows] describes), pydantic's coercion of values of another
      type and its writing of times, the loaders of keys and PEM files, and for
      the evidence pack the archive format and the readers of the Vault log.
      The hypotheses on them state documented behaviour and each is met by a
      concrete instance in a witness.  The repository's
      own interfaces are classes with laws that both backends discharge:
      [Limiter], [EnrollMetrics], [PKIBackend]/[PKILaws], [SSHCABackend]/[SSHCALaws],
      [CryptoBackend]/[CryptoLaws].  The parts of the Python
      standard library that matter are written out and executable:
      [ipaddress] ([IpAddr.v]), string methods and [int] ([PyStr.v]),
      SHA-256, JSON, base64 and ISO 8601 ([Hashing.v], [Json.v],
      [Base64.v], [IsoTime.v]).

    ** Files

    - [Prelude] (this file): notation scope, tactics, hint database, generic
      lemmas.  [PyStr], [IpAddr], [Hashing], [Base64], [Json], [IsoTime]:
      Python's library.
    - [Models]: [models.py].  [Session]: sessions, exceptions, the monad and
      its reasoning rules.  [Broker]: programs under a broker that refuses
      messages.  [Demo]: a small deployment for the witnesses.
    - [Ipam]: [ipam.py], and subnet validation of [schemas.py].
    - [ProxyProtocol]: [proxy_protocol.py]; the parser and the connection
      state machine.
    - [Ratelimit]: [ratelimit.py]; the [Limiter] interface with its laws, the
      memory and the Redis backend.  [Locks]: [locks.py].
    - [TenantScope]: [tenant_scope.py].  [AuditLog]: [audit.py].
    - [Enrollment]: [enrollment.py], and a step relation for concurrent
      redemptions of one token.
    - [Wireguard]: [wireguard.py].  [Tasks]: [tasks.py].  [Reconfig]: the
      interleavings of reconfigure requests, task runs and other
      transactions on one hub, over the operations of [Tasks].
    - [RouterServers], [RouterClients], [RouterSshKeys], [RouterTenants],
      [RouterTokens]: [routers/servers.py], [clients.py], [ssh_keys.py],
      [tenants.py], [enrollment_tokens.py], with their payloads.
    - [Auth]: [auth.py] and [_tls_uvicorn.py]: from the peer certificate to the
      admitted operator.  [ApiVersion]: [api_versioning.py], the middleware
      stack of [main.py], the HTTP layer of [metrics.py], [routers/health.py].
    - [RouterAudit]: [routers/audit.py].  [RouterCerts]: [routers/certs.py].
      [Pki]: [pki.py].  [CliCerts], [Cli]: the commands of [cli.py] that work
      on certificates, and on operators, tenants and tasks.  [Backup]: its
      [db backup] and [db restore], over the columns of [models.py].
    - [SshCa]: [ssh_ca.py].  [Ssh]: [ssh.py], [host_ssh.py], [bootstrap_host]
      and [_open_runner].  [Crypto]: [crypto.py].  [Config]: validation of
      [config.py], [db.py], start-up guards of [main.py], and a step relation
      for host-certificate rotation.
    - [EnrollMetrics]: [enroll_metrics.py]; the interface of the outcome
      counters with its laws and both stores.  [Metrics]: the collectors and
      the Celery and Vault accounting of [metrics.py].  [EnrollApp]:
      [enroll_app.py]: the enroll endpoint, its rate-limit and its metrics
      middleware.
    - [Evidence]: [evidence.py] and [evidence pack].
    - [PkiBootstrap]: [VaultPKI.bootstrap] and pinned hierarchies of [pki.py].
      [BootstrapSsh]: [bootstrap_ssh.py] and [bootstrap-host].
    - [Routes]: the route tables of the routers, path matching and the
      decoding of payloads.  [CliHttp]: the commands of [cli.py] that send a
      request, and their way through [Routes] to the handlers.  [Listeners]:
      [tls_listeners.py], [__main__.py], [enroll_listener.py], the application
      of the enrollment port, the beat schedule, [routers/tasks.py] and the
      patch of uvicorn.  [Views]: the read models of [schemas.py] and the
      listings of [cli.py].
    - [Migrations]: the SQL statements that migrations use, on a schema with
      rows, for SQLite and MySQL.  [Revisions]: the revisions of
      [src/alembic/versions], both ways, and the walk along them.  [Upgrades]: a
      simulation logic for statements.  [SchemaHead], [UpgradesKeep]: the
      theorems about the whole chain.
    - [VaultOps]: [vault_audit.py] and the bootstrap scripts of [src/scripts].
      [Failover]: [vault_snapshot.py] and [vault_restore.py] there.
      [Rotation]: [certs_due.py], [bootstrap_mysql_tls_files.py] and
      [extract_changelog.py] there.
    - [Invariant]: the database invariant and the writes that keep it.
      [Keeps], [KeepsRegistry]: a small program logic, and that every handler,
      task, command and the authentication keep the invariant.  [Api]: all of
      them as one type of events, and the theorems about every history.

    ** What the theorems show

    - The whole system: any history of requests, tasks, commands and
      authentications keeps the database consistent; revocation is final under
      any history while the registry can be read; what a history reaches
      survives backup and restore; a failed request changes nothing, unless
      the broker fails it after its commit; the scoped endpoints refuse other
      tenants' rows ([Api]).  A restored backup replaces the database and is
      not an event of a history.
    - Addresses: allocation returns the lowest free host, fails exactly when
      there is none, and hubs of disjoint pools never share an address
      ([Ipam]); pools stay disjoint ([RouterTenants]); a registered hub lies
      in its tenant's pool ([RouterServers]).
    - Hub reconfiguration: no update is lost ([Reconfig]).
    - Enrollment: a token is never redeemed too often ([Enrollment]); the
      endpoint admits exactly as documented, is all or nothing up to a broker
      that fails after the commit, answers token failures uniformly, bounds
      guessing by interleaved requests and cannot inject configuration
      ([EnrollApp]).
    - Authentication: the middleware decides as a declarative policy does,
      also while lookups fail; while they work, the application runs for active operators with live certificates only
      ([Auth]), and a rejected request stops there ([ApiVersion]).
    - Certificates: what is issued is recorded, revocation is final and
      closes the door, registry and the revocation list of one backend agree
      under any history of API and CLI operations (the in-process backend has
      a list per process), renewal replaces ([RouterCerts],
      [CliCerts]); serials, bundles and identities survive the backends
      ([Pki]).
    - SSH: sessions open exactly to hosts with a certificate of the CA for
      their name, issued certificates are accepted while valid and, on hubs
      that are ready, rotated in time, files are installed in order and paths cannot inject commands
      ([Ssh], [SshCa], [Config]); bootstrap keys reach the worker and nobody
      else ([Crypto]).
    - Command line: same effect on the registry as the API, and waiting for
      a task ends ([Cli]); every HTTP command reaches the handler it stands for
      ([CliHttp]); listings read back as the API's responses, which mirror the
      rows ([Views]); a backup, encrypted or not, restores to its
      database, and a restore that fails changes nothing ([Backup]).
    - Observability: a scrape shows what the listener answered ([EnrollApp],
      [EnrollMetrics]); the host-certificate gauge watches what the sweep
      renews ([Metrics]); an evidence pack verifies and is tamper-evident, and
      its slice of the Vault log is exact ([Evidence]); walking the audit
      log misses no event, also while it grows ([RouterAudit]).
    - Tenancy: visibility, role gate and tenant resolution are exact
      ([TenantScope]).
    - Protocols and formats: PROXY headers and [wg] dumps are read back,
      independently of segmentation, within fixed bounds ([ProxyProtocol],
      [Wireguard]); rendered configurations list exactly the clients, when no
      field has a line break.
    - Upgrades: a database of the first release comes up at the head with every
      row owned, an upgrade that stops anywhere loses nothing, and the migrated
      schema is the one of the models ([SchemaHead], [UpgradesKeep]).
    - Set-up and recovery: the bootstraps converge and can be repeated
      ([PkiBootstrap], [VaultOps]), a bootstrapped host can be dialed by every
      process ([BootstrapSsh]), failover recovers the primary's Vault
      ([Failover]), one rotation of the MySQL files holds for half of their
      lifetime ([Rotation]); a refused peer of the enrollment port changes
      nothing ([Listeners]).
    - Infrastructure: rate-limit bounds for every backend that satisfies the
      interface, mutual exclusion of row locks, serial numbers in signed
      columns ([Ratelimit], [Locks], [Models]).

    ** Fuel and bounds

    The address search stops after one host more than there are taken
    addresses; [next_free_hosts] proves that this is the loop over all hosts.
    Printing and parsing of integers use the bit length as fuel.  SHA-256
    blocks and the zero-run search of IPv6 text are bounded by their input.
    [wait_task] takes the number of polls as fuel;
    [wait_task_terminates] shows that timeout / interval + 2 polls are enough.
    [json_loads] takes the length of the text as fuel, which [json_cost_le]
    shows to be enough.  The polling loops of the failover take the number of
    polls as fuel; [failover_recovers] states how many are enough.  Every other
    recursion is structural.

    ** Not modelled

    Clocks are integers and percentages rationals, so the rounding of
    floating-point numbers is not modelled; [casefold] is lower-casing, which
    it is on ASCII; Celery task ids, logging other than the audit log, the
    exposition format of the metrics and tracing; collations (string columns compare by
    equality).  Requests in [Api] are served one at a time; the races that
    the code guards against have step relations of their own.  The JSON
    reader has no floats and no code points above 255, the date-time reader
    only the forms that [isoformat] prints; a restored value that does not
    fit its column is refused.  Left out:
    reading settings from the environment and parsing of command-line
    arguments, the Celery application object and the dependency providers,
    the decoding of the payloads for updates, certificates and tenants, and
    [src/scripts/vault_smoke.py], a script marked as throwaway.  The two
    dialects of the migrations are as far written out as the revisions use
    them. *)

From stdpp Require sorting.
From stdpp Require Export base relations numbers list list_numbers gmap strings.
From Stdlib Require Export ZArith Lia.

#[export] Set Warnings "-clear-no-such-hyp".
#[global] Open Scope Z_scope.


Declare Scope wg_scope.
Delimit Scope wg_scope with wg.

(** ** Automation *)

(** Case analysis on every [if] and [match] scrutinee of the goal that is a
    variable-free boolean test, keeping the equation. *)
Ltac split_ifs :=
  repeat match goal with
  | |- context [if ?b then _ else _] => destruct b eqn:?
  end.

(** Case analysis on the innermost [match] scrutinee of hypothesis [H]. *)
Ltac break_match_in H :=
  match type of H with
  | context [match ?x with _ => _ end] =>
      lazymatch x with
      | context [match _ with _ => _ end] => fail
      | _ => destruct x eqn:?
      end
  end.

(** Repeatedly split [H] until no [match] is left, dropping the branches in
    which [H] is absurd. *)
Ltac break_all H :=
  repeat (break_match_in H; try discriminate H; simplify_eq).

(** Turn boolean comparisons of the context into propositions for [lia]. *)
Ltac bool_to_prop :=
  repeat match goal with
  | H : (_ && _)%bool = true |- _ => apply andb_true_iff in H as [? ?]
  | H : (_ || _)%bool = false |- _ => apply orb_false_iff in H as [? ?]
  | H : negb _ = true |- _ => apply negb_true_iff in H
  | H : negb _ = false |- _ => apply negb_false_iff in H
  | H : (_ <=? _)%Z = true |- _ => apply Z.leb_le in H
  | H : (_ <=? _)%Z = false |- _ => apply Z.leb_gt in H
  | H : (_ <? _)%Z = true |- _ => apply Z.ltb_lt in H
  | H : (_ <? _)%Z = false |- _ => apply Z.ltb_ge in H
  | H : (_ =? _)%Z = true |- _ => apply Z.eqb_eq in H
  | H : (_ =? _)%Z = false |- _ => apply Z.eqb_neq in H
  | H : bool_decide _ = true |- _ => apply bool_decide_eq_true in H
  | H : bool_decide _ = false |- _ => apply bool_decide_eq_false in H
  end.

Ltac blia := bool_to_prop; lia.

Create HintDb wg discriminated.
#[export] Hint Extern 1 (_ <= _)%Z => lia : wg.
#[export] Hint Extern 1 (_ < _)%Z => lia : wg.

(** ** Options as Python's fallible expressions *)

(** [e] that raises is [None]; sequencing is stdpp's option bind. *)
Definition guard_opt {A} (b : bool) (k : option A) : option A :=
  if b then k else None.

Lemma guard_opt_Some {A} b (k : option A) x :
  guard_opt b k = Some x <-> b = true /\ k = Some x.
Proof. unfold guard_opt. destruct b; naive_solver. Qed.

(** [mapM] for options with Python's left-to-right evaluation. *)
Lemma mapM_Some_cons {A B} (f : A -> option B) x xs y ys :
  mapM f (x :: xs) = Some (y :: ys) <-> f x = Some y /\ mapM f xs = Some ys.
Proof.
  simpl. destruct (f x) as [y'|]; simpl; [|split; [done|intros [? ?]; done]].
  destruct (mapM f xs); simpl; split;
    [intros [= -> ->]; done | intros [[= ->] [= ->]]; done
    | done | intros [? ?]; done].
Qed.

(** ** Lists *)

(** Python's [xs\[i:j\]] on lists for [0 <= i <= j]. *)
Definition slice {A} (i j : nat) (l : list A) : list A := take (j - i) (drop i l).

Lemma length_slice {A} i j (l : list A) :
  (i <= j <= length l)%nat -> length (slice i j l) = (j - i)%nat.
Proof. intros ?. unfold slice. rewrite length_take, length_drop. lia. Qed.

Lemma take_app_prefix {A} n (l k : list A) :
  (n <= length l)%nat -> take n (l ++ k) = take n l.
Proof. intros. rewrite take_app_le by lia. done. Qed.

Lemma slice_app {A} i j (l k : list A) :
  (i <= j <= length l)%nat -> slice i j (l ++ k) = slice i j l.
Proof.
  intros. unfold slice. rewrite drop_app_le by lia.
  rewrite take_app_le; [done|]. rewrite length_drop. lia.
Qed.

(** The first element satisfying a boolean test: a [for] loop that returns. *)
Fixpoint find_first {A} (p : A -> bool) (l : list A) : option A :=
  match l with
  | [] => None
  | x :: l' => if p x then Some x else find_first p l'
  end.

Lemma find_first_Some {A} (p : A -> bool) l x :
  find_first p l = Some x ->
  exists l1 l2, l = l1 ++ x :: l2 /\ p x = true /\ Forall (fun y => p y = false) l1.
Proof.
  induction l as [|y l IH]; simpl; [done|]. destruct (p y) eqn:E; intros H.
  - simplify_eq. exists [], l. split_and!; [done|done|constructor].
  - destruct (IH H) as (l1 & l2 & -> & ? & ?).
    exists (y :: l1), l2. split_and!; [done|done|by constructor].
Qed.

Lemma find_first_None {A} (p : A -> bool) l :
  find_first p l = None <-> Forall (fun y => p y = false) l.
Proof.
  induction l as [|y l IH]; simpl; [done|]. rewrite Forall_cons.
  destruct (p y); [split; [done|intros [? ?]; done]|]. rewrite IH. tauto.
Qed.

Lemma find_first_app {A} (p : A -> bool) l1 l2 x :
  find_first p l1 = Some x -> find_first p (l1 ++ l2) = Some x.
Proof. induction l1 as [|y l1 IH]; simpl; [done|]. destruct (p y); auto. Qed.

Lemma find_first_snoc {A} (p : A -> bool) l x :
  find_first p l = None -> p x = true -> find_first p (l ++ [x]) = Some x.
Proof. induction l as [|y l IH]; simpl; [by intros _ ->|]. destruct (p y); [done|auto]. Qed.

Lemma existsb_elem {A} (p : A -> bool) (l : list A) :
  existsb p l = true <-> exists x, x ∈ l /\ p x = true.
Proof.
  rewrite existsb_exists. split; intros (x & ? & ?); exists x;
    (split; [by apply list_elem_of_In | done]).
Qed.

Lemma existsb_none {A} (p : A -> bool) (l : list A) :
  existsb p l = false <-> forall x, x ∈ l -> p x = false.
Proof.
  split.
  - intros H x Hx. destruct (p x) eqn:E; [|done].
    assert (existsb p l = true); [|congruence]. apply existsb_elem; eauto.
  - intros H. destruct (existsb p l) eqn:E; [|done].
    apply existsb_elem in E as (x & ? & ?). rewrite H in *; done.
Qed.

(** [elem x l] as a boolean, for the [in] operator on tuples and lists. *)
Definition mem {A} `{EqDecision A} (x : A) (l : list A) : bool := bool_decide (x ∈ l).

Lemma mem_true {A} `{EqDecision A} (x : A) l : mem x l = true <-> x ∈ l.
Proof. apply bool_decide_eq_true. Qed.

Lemma mem_false {A} `{EqDecision A} (x : A) l : mem x l = false <-> x ∉ l.
Proof. apply bool_decide_eq_false. Qed.

(** ** Powers of two and masks *)

Lemma land_ones_mod (x n : Z) : 0 <= n -> Z.land x (Z.ones n) = x mod 2 ^ n.
Proof. intros. by apply Z.land_ones. Qed.

Lemma pow2_pos n : 0 <= n -> 0 < 2 ^ n.
Proof. intros. apply Z.pow_pos_nonneg; lia. Qed.
#[export] Hint Resolve pow2_pos : wg.

Lemma div_interval (x d q : Z) : 0 < d -> q * d <= x < q * d + d <-> x / d = q.
Proof.
  intros Hd. split.
  - intros. symmetry. apply (Z.div_unique x d q (x - q * d)); lia.
  - intros <-. pose proof (Z.div_mod x d ltac:(lia)).
    pose proof (Z.mod_pos_bound x d ltac:(lia)). lia.
Qed.

(** ** Sorting *)

(** Python's [sorted] on integers. *)
Definition sort_z (l : list Z) : list Z := sorting.merge_sort Z.le l.

Lemma sort_z_elem x l : x ∈ sort_z l <-> x ∈ l.
Proof. unfold sort_z. by rewrite sorting.merge_sort_Permutation. Qed.

Lemma sort_z_sorted l : Sorted.StronglySorted Z.le (sort_z l).
Proof. apply sorting.StronglySorted_merge_sort; [intros x y z; lia|intros x y; lia]. Qed.
