(* ===== verification/PyStr.v ===== *)
(** * Python strings, integers and bytes

    The fragment of Python's [str], [int] and [bytes] that the modelled code
    uses.  A Python [str] is a [string]: each [ascii] stands for the code
    point of the same number, so the model covers the code points 0..255
    (Latin-1) exactly, including the white space, line boundaries and
    "digits" that lie outside ASCII.  [bytes] is a list of [Byte.byte].
    An expression that raises [ValueError] is [None]. *)

From S2P Require Import Prelude.
From Stdlib Require Import Ascii.
From Stdlib Require String.
Export Stdlib.Strings.Ascii (ascii(..)).
Export (notations) Stdlib.Strings.Ascii.

Abbreviation bytes := (list Byte.byte).
#[global] Instance byte_eq_decision : EqDecision Byte.byte := Byte.byte_eq_dec.

(** ** Code points *)

Definition code (c : ascii) : Z := Z.of_N (N_of_ascii c).
Definition chr (n : Z) : ascii := ascii_of_N (Z.to_N n).

Lemma code_range c : 0 <= code c < 256.
Proof. unfold code. pose proof (N_ascii_bounded c). lia. Qed.

Lemma chr_code c : chr (code c) = c.
Proof. unfold chr, code. rewrite N2Z.id. apply ascii_N_embedding. Qed.

Lemma code_chr n : 0 <= n < 256 -> code (chr n) = n.
Proof.
  intros. unfold chr, code. rewrite N_ascii_embedding; [lia|].
  change 256%N with (Z.to_N 256). lia.
Qed.

Lemma code_inj c d : code c = code d -> c = d.
Proof. intros H. by rewrite <- (chr_code c), H, chr_code. Qed.

Definition ceqb (c d : ascii) : bool := code c =? code d.

Lemma ceqb_eq c d : ceqb c d = true <-> c = d.
Proof.
  unfold ceqb. rewrite Z.eqb_eq. split; [apply code_inj|by intros ->].
Qed.

Lemma ceqb_refl c : ceqb c c = true.
Proof. by apply ceqb_eq. Qed.

Lemma ceqb_neq c d : ceqb c d = false <-> c <> d.
Proof. rewrite <- ceqb_eq. by destruct (ceqb c d). Qed.

(** [str.isspace] on one code point. *)
Definition is_space (c : ascii) : bool :=
  let n := code c in
  ((9 <=? n) && (n <=? 13)) || ((28 <=? n) && (n <=? 32)) || (n =? 133) || (n =? 160).

(** Line boundaries of [str.splitlines]. *)
Definition is_linebreak (c : ascii) : bool :=
  let n := code c in
  ((10 <=? n) && (n <=? 13)) || ((28 <=? n) && (n <=? 30)) || (n =? 133).

(** The decimal digits (Unicode category Nd) below 256. *)
Definition is_decimal (c : ascii) : bool := (48 <=? code c) && (code c <=? 57).

(** [str.isdigit] also holds of the superscripts two, three and one. *)
Definition is_digit (c : ascii) : bool :=
  is_decimal c || (code c =? 178) || (code c =? 179) || (code c =? 185).

Definition lower_chr (c : ascii) : ascii :=
  let n := code c in
  if ((65 <=? n) && (n <=? 90)) || ((192 <=? n) && (n <=? 222) && negb (n =? 215))
  then chr (n + 32) else c.

(** ** Strings *)

Fixpoint str_forall (p : ascii -> bool) (s : string) : bool :=
  match s with
  | "" => true
  | String c s' => p c && str_forall p s'
  end.

Fixpoint str_map (f : ascii -> ascii) (s : string) : string :=
  match s with
  | "" => ""
  | String c s' => String (f c) (str_map f s')
  end.

Definition len (s : string) : Z := Z.of_nat (String.length s).
Definition nonempty (s : string) : bool := negb (bool_decide (s = "")).
Definition lower (s : string) : string := str_map lower_chr s.
Definition isascii (s : string) : bool := str_forall (fun c => code c <? 128) s.
Definition isdigit (s : string) : bool := nonempty s && str_forall is_digit s.
Definition char_in (c : ascii) (s : string) : bool := negb (str_forall (fun d => negb (ceqb c d)) s).

Fixpoint startswith (s p : string) : bool :=
  match p with
  | "" => true
  | String c p' =>
      match s with
      | String d s' => ceqb d c && startswith s' p'
      | "" => false
      end
  end.

Fixpoint lstrip (s : string) : string :=
  match s with
  | "" => ""
  | String c s' => if is_space c then lstrip s' else s
  end.

Fixpoint rstrip (s : string) : string :=
  match s with
  | "" => ""
  | String c s' =>
      match rstrip s' with
      | "" => if is_space c then "" else String c ""
      | r => String c r
      end
  end.

Definition strip (s : string) : string := rstrip (lstrip s).

(** [s.split(sep)] for a one-character separator. *)
Fixpoint split_on (sep : ascii) (s : string) : list string :=
  match s with
  | "" => [""]
  | String c s' =>
      if ceqb c sep then "" :: split_on sep s'
      else match split_on sep s' with
           | [] => [String c ""]
           | h :: t => String c h :: t
           end
  end.

(** [sep.join(parts)]. *)
Fixpoint join (sep : string) (parts : list string) : string :=
  match parts with
  | [] => ""
  | [p] => p
  | p :: ps => p +:+ sep +:+ join sep ps
  end.

(** [s.partition(sep)] for a one-character separator: the part before, whether
    the separator was found, and the part after. *)
Fixpoint partition (sep : ascii) (s : string) : string * bool * string :=
  match s with
  | "" => ("", false, "")
  | String c s' =>
      if ceqb c sep then ("", true, s')
      else let '(a, f, b) := partition sep s' in (String c a, f, b)
  end.

(** [s.splitlines()]: [\r\n] is one boundary and there is no empty line after
    the last boundary. *)
Fixpoint splitlines_go (cur : string) (started : bool) (s : string) : list string :=
  match s with
  | "" => if started then [String.rev cur] else []
  | String c s' =>
      if is_linebreak c then
        String.rev cur ::
        match s' with
        | String d s'' =>
            if (code c =? 13) && (code d =? 10) then splitlines_go "" false s''
            else splitlines_go "" false s'
        | "" => []
        end
      else splitlines_go (String c cur) true s'
  end.
Definition splitlines (s : string) : list string := splitlines_go "" false s.

(** ** Integers *)

Definition digit_chr (d : Z) : ascii := chr (48 + d).

Fixpoint dec_go (fuel : nat) (n : Z) (acc : string) : string :=
  match fuel with
  | O => acc
  | S f =>
      let acc' := String (digit_chr (n mod 10)) acc in
      if n <? 10 then acc' else dec_go f (n / 10) acc'
  end.

(** [str(n)]; the fuel is the number of bits, which is never too small
    ([dec_value]). *)
Definition dec (n : Z) : string :=
  if n <? 0 then String (chr 45) (dec_go (S (Z.to_nat (Z.log2 (- n)))) (- n) "")
  else dec_go (S (Z.to_nat (Z.log2 n))) n "".

Definition digit_value (c : ascii) : option Z :=
  let n := code c in
  if (48 <=? n) && (n <=? 57) then Some (n - 48)
  else if (97 <=? n) && (n <=? 122) then Some (n - 87)
  else if (65 <=? n) && (n <=? 90) then Some (n - 55)
  else None.

(** Digits of [base] with single underscores between them. *)
Fixpoint digits_value (base acc : Z) (after_digit : bool) (s : string) : option Z :=
  match s with
  | "" => if after_digit then Some acc else None
  | String c s' =>
      if code c =? 95 then
        if after_digit then digits_value base acc false s' else None
      else match digit_value c with
           | Some d => if d <? base then digits_value base (acc * base + d) true s' else None
           | None => None
           end
  end.

Fixpoint count_digits (s : string) : Z :=
  match s with
  | "" => 0
  | String c s' => (if code c =? 95 then 0 else 1) + count_digits s'
  end.

(** The interpreter refuses decimal literals of more than 4300 digits. *)
Definition max_str_digits : Z := 4300.

Definition with_sign (f : string -> option Z) (s : string) : option Z :=
  match s with
  | String c s' =>
      if code c =? 45 then Z.opp <$> f s'
      else if code c =? 43 then f s' else f s
  | "" => f s
  end.

(** [int(s)]. *)
Definition py_int (s : string) : option Z :=
  with_sign (fun t => if max_str_digits <? count_digits t then None
                      else digits_value 10 0 false t) (strip s).

(** [int(s, 16)], with its optional [0x] prefix. *)
Definition py_int16 (s : string) : option Z :=
  with_sign (fun t =>
    match t with
    | String z (String x t') =>
        if (code z =? 48) && ((code x =? 120) || (code x =? 88)) then
          match t' with
          | String u t'' => if code u =? 95 then digits_value 16 0 false t''
                            else digits_value 16 0 false t'
          | "" => None
          end
        else digits_value 16 0 false t
    | _ => digits_value 16 0 false t
    end) (strip s).

(** ** Representation *)

Definition hex_digit (d : Z) : ascii := if d <? 10 then chr (48 + d) else chr (87 + d).

Definition repr_chr (quote_code : Z) (c : ascii) : string :=
  let n := code c in
  if n =? quote_code then String (chr 92) (String c "")
  else if n =? 92 then "\\"
  else if n =? 9 then "\t" else if n =? 10 then "\n" else if n =? 13 then "\r"
  else if ((32 <=? n) && (n <=? 126)) || ((161 <=? n) && negb (n =? 173)) then String c ""
  else "\x" +:+ String (hex_digit (n / 16)) (String (hex_digit (n mod 16)) "").

Fixpoint repr_body (q : Z) (s : string) : string :=
  match s with
  | "" => ""
  | String c s' => repr_chr q c +:+ repr_body q s'
  end.

(** [repr(s)]: single quotes unless [s] has one and no double quote. *)
Definition repr (s : string) : string :=
  let q := if negb (str_forall (fun c => negb (code c =? 39)) s) &&
              str_forall (fun c => negb (code c =? 34)) s then 34 else 39 in
  String (chr q) (repr_body q s +:+ String (chr q) "").

(** ** Bytes *)

Definition byte_z (b : Byte.byte) : Z := Z.of_N (Byte.to_N b).
Definition str_bytes (s : string) : bytes := String.list_byte_of_string s.

(** [int.from_bytes(b, "big")] and [struct.unpack("!H", b)]. *)
Definition be_int (b : bytes) : Z := fold_left (fun acc x => acc * 256 + byte_z x) b 0.

Definition z_byte (n : Z) : Byte.byte := from_option id Byte.x00 (Byte.of_N (Z.to_N n)).

(** [n.to_bytes(k, "big")] for [0 <= n < 256^k]. *)
Fixpoint be_bytes (k : nat) (n : Z) : bytes :=
  match k with
  | O => []
  | S k' => be_bytes k' (n / 256) ++ [z_byte (n mod 256)]
  end.

(** [b.decode("ascii")]. *)
Definition decode_ascii (b : bytes) : option string :=
  let s := String.string_of_list_byte b in
  if isascii s then Some s else None.

#[global] Arguments split_on sep%_char_scope s.
#[global] Arguments partition sep%_char_scope s.
#[global] Arguments char_in c%_char_scope s.
#[global] Arguments ceqb c%_char_scope d%_char_scope.
#[global] Arguments code c%_char_scope.

(** ** Lemmas: appending, splitting and joining *)

Lemma append_nil_r s : s +:+ "" = s.
Proof. induction s as [|c s IH]; [done|]. simpl. change (String c (s +:+ "") = String c s). by rewrite IH. Qed.

Lemma append_cons c s t : String c s +:+ t = String c (s +:+ t).
Proof. done. Qed.

Lemma append_assoc s t u : (s +:+ t) +:+ u = s +:+ (t +:+ u).
Proof. induction s as [|c s IH]; [done|]. rewrite !append_cons. by rewrite IH. Qed.

Lemma str_forall_app p s t : str_forall p (s +:+ t) = str_forall p s && str_forall p t.
Proof.
  induction s as [|c s IH]; [done|]. rewrite append_cons. simpl.
  by rewrite IH, andb_assoc.
Qed.

Lemma str_forall_impl (p q : ascii -> bool) s :
  (forall c, p c = true -> q c = true) -> str_forall p s = true -> str_forall q s = true.
Proof.
  intros Hpq. induction s as [|c s IH]; simpl; [done|].
  intros [? ?]%andb_true_iff. apply andb_true_iff; auto.
Qed.

Lemma nonempty_true s : nonempty s = true <-> s <> "".
Proof. unfold nonempty. rewrite negb_true_iff, bool_decide_eq_false. done. Qed.

Lemma char_in_false c s : char_in c s = false <-> str_forall (fun d => negb (ceqb c d)) s = true.
Proof. unfold char_in. by rewrite negb_false_iff. Qed.

Lemma char_in_cons c d s : char_in c (String d s) = ceqb c d || char_in c s.
Proof. unfold char_in. simpl. by rewrite negb_andb, negb_involutive. Qed.

Lemma split_on_nonnil sep s : split_on sep s <> [].
Proof.
  destruct s as [|c s]; simpl; [done|]. destruct (ceqb c sep); [done|].
  by destruct (split_on sep s).
Qed.

Lemma ceqb_sym c d : ceqb c d = ceqb d c.
Proof. unfold ceqb. apply Z.eqb_sym. Qed.

(** A part without the separator is one field; followed by the separator it is
    the first field. *)
Lemma split_on_none sep s : char_in sep s = false -> split_on sep s = [s].
Proof.
  induction s as [|c s IH]; simpl; [done|]. rewrite char_in_cons.
  intros [H1 H2]%orb_false_iff. rewrite ceqb_sym, H1, IH; done.
Qed.

Lemma split_on_app sep p s :
  char_in sep p = false -> split_on sep (p +:+ String sep s) = p :: split_on sep s.
Proof.
  induction p as [|c p IH]; intros H.
  - simpl. by rewrite ceqb_refl.
  - rewrite char_in_cons in H. apply orb_false_iff in H as [H1 H2].
    rewrite append_cons. simpl. rewrite ceqb_sym, H1, IH; done.
Qed.

Lemma split_on_join sep parts :
  parts <> [] -> Forall (fun p => char_in sep p = false) parts ->
  split_on sep (join (String sep "") parts) = parts.
Proof.
  induction parts as [|p [|q ps] IH]; intros Hne HF; [done| |].
  - apply Forall_cons in HF as [? _]. by apply split_on_none.
  - apply Forall_cons in HF as [Hp HF].
    change (join (String sep "") (p :: q :: ps))
      with (p +:+ (String sep "" +:+ join (String sep "") (q :: ps))).
    rewrite append_cons. change ("" +:+ ?x) with x.
    rewrite split_on_app by done. by rewrite IH.
Qed.

Lemma split_on_parts sep s : Forall (fun p => char_in sep p = false) (split_on sep s).
Proof.
  induction s as [|c s IH]; simpl; [by repeat constructor|].
  destruct (ceqb c sep) eqn:E; [by constructor|].
  destruct (split_on sep s) as [|h t]; simpl in *.
  - repeat constructor. rewrite char_in_cons, ceqb_sym, E. done.
  - apply Forall_cons in IH as [? ?]. constructor; [|done].
    rewrite char_in_cons, ceqb_sym, E. done.
Qed.

Lemma join_split_on sep s : join (String sep "") (split_on sep s) = s.
Proof.
  induction s as [|c s IH]; simpl; [done|].
  destruct (ceqb c sep) eqn:E.
  - apply ceqb_eq in E as ->.
    destruct (split_on sep s) as [|h t] eqn:Es; [by apply split_on_nonnil in Es|].
    rewrite <- IH. done.
  - destruct (split_on sep s) as [|h t] eqn:Es; [by apply split_on_nonnil in Es|].
    rewrite <- IH. destruct t; done.
Qed.

Lemma str_forall_join p sep parts :
  str_forall p sep = true -> Forall (fun s => str_forall p s = true) parts ->
  str_forall p (join sep parts) = true.
Proof.
  intros Hs. induction parts as [|a [|b ps] IH]; intros HF; [done| |].
  - by apply Forall_cons in HF as [? _].
  - apply Forall_cons in HF as [Ha HF].
    change (join sep (a :: b :: ps)) with (a +:+ (sep +:+ join sep (b :: ps))).
    rewrite !str_forall_app, Ha, Hs, IH; done.
Qed.

(** ** Lemmas: stripping *)

Lemma lstrip_no_space s : str_forall (fun c => negb (is_space c)) s = true -> lstrip s = s.
Proof.
  destruct s as [|c s]; simpl; [done|]. intros [H _]%andb_true_iff.
  apply negb_true_iff in H. by rewrite H.
Qed.

Lemma rstrip_no_space s : str_forall (fun c => negb (is_space c)) s = true -> rstrip s = s.
Proof.
  induction s as [|c s IH]; simpl; [done|]. intros [H1 H2]%andb_true_iff.
  apply negb_true_iff in H1. rewrite IH by done. rewrite H1. by destruct s.
Qed.

Lemma strip_no_space s : str_forall (fun c => negb (is_space c)) s = true -> strip s = s.
Proof. intros. unfold strip. rewrite lstrip_no_space, rstrip_no_space; done. Qed.

(** ** Lemmas: decimal rendering *)

Fixpoint val10 (acc : Z) (s : string) : Z :=
  match s with
  | "" => acc
  | String c s' => val10 (acc * 10 + (code c - 48)) s'
  end.

Lemma digit_chr_code d : 0 <= d < 10 -> code (digit_chr d) = 48 + d.
Proof. intros. unfold digit_chr. apply code_chr. lia. Qed.

Lemma digit_chr_decimal n : is_decimal (digit_chr (n mod 10)) = true.
Proof.
  pose proof (Z.mod_pos_bound n 10 ltac:(lia)).
  unfold is_decimal. rewrite digit_chr_code by lia.
  apply andb_true_iff; split; apply Z.leb_le; lia.
Qed.

Lemma dec_go_decimal fuel n acc :
  str_forall is_decimal acc = true -> str_forall is_decimal (dec_go fuel n acc) = true.
Proof.
  revert n acc. induction fuel as [|f IH]; intros n acc H; simpl; [done|].
  assert (H' : str_forall is_decimal (String (digit_chr (n mod 10)) acc) = true).
  { simpl. by rewrite digit_chr_decimal. }
  destruct (n <? 10); [done|]. by apply IH.
Qed.

Lemma dec_go_value fuel n acc :
  0 <= n < 2 ^ Z.of_nat fuel -> val10 0 (dec_go fuel n acc) = val10 n acc.
Proof.
  revert n acc. induction fuel as [|f IH]; intros n acc H.
  - simpl in H. assert (n = 0) as -> by lia. done.
  - simpl. destruct (Z.ltb_spec n 10).
    + simpl. rewrite digit_chr_code by (rewrite Z.mod_small; lia).
      rewrite Z.mod_small by lia. f_equal. lia.
    + rewrite IH.
      * simpl. pose proof (Z.mod_pos_bound n 10 ltac:(lia)).
        rewrite digit_chr_code by lia. f_equal.
        pose proof (Z.div_mod n 10 ltac:(lia)). lia.
      * rewrite Nat2Z.inj_succ, Z.pow_succ_r in H by lia.
        split; [apply Z.div_pos; lia|]. apply Z.div_lt_upper_bound; lia.
Qed.

Lemma log2_fuel n : 0 <= n -> n < 2 ^ Z.of_nat (S (Z.to_nat (Z.log2 n))).
Proof.
  intros H. destruct (Z.eq_dec n 0) as [->|]; [done|].
  rewrite Nat2Z.inj_succ, Z2Nat.id by apply Z.log2_nonneg.
  apply Z.log2_spec. lia.
Qed.

(** The digits printed by [str(n)] denote [n]. *)
Lemma dec_value n : 0 <= n -> val10 0 (dec n) = n.
Proof.
  intros H. unfold dec. destruct (Z.ltb_spec n 0); [lia|].
  rewrite dec_go_value; [done|]. split; [done|by apply log2_fuel].
Qed.

Lemma dec_decimal n : 0 <= n -> str_forall is_decimal (dec n) = true.
Proof.
  intros H. unfold dec. destruct (Z.ltb_spec n 0); [lia|]. by apply dec_go_decimal.
Qed.

Lemma dec_go_nonnil fuel n acc : (0 < fuel)%nat -> dec_go fuel n acc <> "".
Proof.
  revert n acc. induction fuel as [|f IH]; intros n acc ?; [lia|]. simpl.
  destruct (n <? 10); [done|]. destruct f; [done|]. apply IH. lia.
Qed.

Lemma dec_nonnil n : 0 <= n -> dec n <> "".
Proof.
  intros H. unfold dec. destruct (Z.ltb_spec n 0); [lia|]. apply dec_go_nonnil. lia.
Qed.

Lemma dec_inj n m : 0 <= n -> 0 <= m -> dec n = dec m -> n = m.
Proof. intros Hn Hm H. by rewrite <- (dec_value n), <- (dec_value m), H. Qed.

(** [str(n)] has no leading zero unless it is ["0"]. *)
Lemma dec_go_head fuel n acc :
  1 <= n < 2 ^ Z.of_nat fuel ->
  exists c s, dec_go fuel n acc = String c s /\ code c <> 48.
Proof.
  revert n acc. induction fuel as [|f IH]; intros n acc H; [simpl in H; lia|].
  simpl. destruct (Z.ltb_spec n 10).
  - exists (digit_chr (n mod 10)), acc. split; [done|].
    rewrite Z.mod_small by lia. rewrite digit_chr_code by lia. lia.
  - apply IH. rewrite Nat2Z.inj_succ, Z.pow_succ_r in H by lia.
    split; [|apply Z.div_lt_upper_bound; lia].
    apply Z.div_le_lower_bound; lia.
Qed.

Lemma dec_head n : 1 <= n -> exists c s, dec n = String c s /\ code c <> 48.
Proof.
  intros H. unfold dec. destruct (Z.ltb_spec n 0); [lia|].
  apply dec_go_head. split; [done|]. apply log2_fuel. lia.
Qed.

Lemma is_decimal_not_space c : is_decimal c = true -> negb (is_space c) = true.
Proof.
  unfold is_decimal, is_space. intros [H1 H2]%andb_true_iff. bool_to_prop.
  apply negb_true_iff. repeat (apply orb_false_iff; split).
  all: try apply andb_false_iff; rewrite ?Z.leb_gt, ?Z.eqb_neq; lia.
Qed.

Lemma digits_value_decimal acc b s :
  str_forall is_decimal s = true -> (b = true \/ s <> "") ->
  digits_value 10 acc b s = Some (val10 acc s).
Proof.
  revert acc b. induction s as [|c s IH]; intros acc b Hs Hb; simpl.
  - destruct Hb as [->|]; done.
  - simpl in Hs. apply andb_true_iff in Hs as [Hc Hs].
    pose proof Hc as Hc'. unfold is_decimal in Hc'. bool_to_prop.
    assert ((code c =? 95) = false) as -> by (apply Z.eqb_neq; lia).
    unfold digit_value. unfold is_decimal in Hc. rewrite Hc.
    assert ((code c - 48 <? 10) = true) as -> by (apply Z.ltb_lt; lia).
    apply IH; auto.
Qed.

Lemma count_digits_decimal s : str_forall is_decimal s = true -> count_digits s = len s.
Proof.
  unfold len. induction s as [|c s IH]; simpl; [done|].
  intros [Hc Hs]%andb_true_iff. rewrite IH by done.
  unfold is_decimal in Hc. bool_to_prop.
  assert ((code c =? 95) = false) as -> by (apply Z.eqb_neq; lia). lia.
Qed.

(** [int] of a short digit string is its value. *)
Lemma py_int_decimal s :
  s <> "" -> str_forall is_decimal s = true -> len s <= max_str_digits ->
  py_int s = Some (val10 0 s).
Proof.
  intros Hne Hs Hlen. unfold py_int.
  rewrite strip_no_space by (eapply str_forall_impl; [apply is_decimal_not_space|done]).
  destruct s as [|c s]; [done|]. unfold with_sign.
  pose proof Hs as Hc. simpl in Hc. apply andb_true_iff in Hc as [Hc _].
  unfold is_decimal in Hc. bool_to_prop.
  assert ((code c =? 45) = false) as -> by (apply Z.eqb_neq; lia).
  assert ((code c =? 43) = false) as -> by (apply Z.eqb_neq; lia).
  rewrite count_digits_decimal by done.
  assert ((max_str_digits <? len (String c s)) = false) as -> by (apply Z.ltb_ge; lia).
  apply digits_value_decimal; auto.
Qed.

Lemma len_cons c s : len (String c s) = 1 + len s.
Proof. unfold len. simpl. lia. Qed.

Lemma len_nonneg s : 0 <= len s.
Proof. unfold len. lia. Qed.

Lemma dec_go_len fuel n acc k :
  0 <= n < 10 ^ k -> 1 <= k -> len (dec_go fuel n acc) <= k + len acc.
Proof.
  revert n acc k. induction fuel as [|f IH]; intros n acc k Hn Hk; simpl; [lia|].
  destruct (Z.ltb_spec n 10); [rewrite len_cons; lia|].
  assert (Hk2 : 2 <= k).
  { destruct (Z.eq_dec k 1) as [->|]; [rewrite Z.pow_1_r in Hn; lia|lia]. }
  transitivity ((k - 1) + len (String (digit_chr (n mod 10)) acc)); [|rewrite len_cons; lia].
  apply IH; [|lia]. split; [apply Z.div_pos; lia|].
  apply Z.div_lt_upper_bound; [lia|].
  rewrite <- Z.pow_succ_r by lia. replace (Z.succ (k - 1)) with k by lia. lia.
Qed.

(** A number below [10^k] prints in at most [k] characters. *)
Lemma dec_len n k : 0 <= n < 10 ^ k -> 1 <= k -> len (dec n) <= k.
Proof.
  intros Hn Hk. unfold dec. destruct (Z.ltb_spec n 0); [lia|].
  pose proof (dec_go_len (S (Z.to_nat (Z.log2 n))) n "" k Hn Hk) as Hl.
  change (len "") with 0 in Hl. lia.
Qed.

Lemma decimal_no_char c s :
  is_decimal c = false -> str_forall is_decimal s = true -> char_in c s = false.
Proof.
  intros Hc Hs. apply char_in_false. eapply str_forall_impl; [|done].
  intros d Hd. apply negb_true_iff, ceqb_neq. intros ->. congruence.
Qed.

Lemma is_decimal_is_digit c : is_decimal c = true -> is_digit c = true.
Proof. unfold is_digit. by intros ->. Qed.

Lemma is_decimal_ascii c : is_decimal c = true -> (code c <? 128) = true.
Proof. unfold is_decimal. intros. bool_to_prop. apply Z.ltb_lt. lia. Qed.

Lemma dec_isdigit n : 0 <= n -> isdigit (dec n) = true.
Proof.
  intros H. unfold isdigit. apply andb_true_iff. split.
  - apply nonempty_true. by apply dec_nonnil.
  - eapply str_forall_impl; [apply is_decimal_is_digit|by apply dec_decimal].
Qed.

Lemma dec_isascii n : 0 <= n -> isascii (dec n) = true.
Proof.
  intros H. eapply str_forall_impl; [apply is_decimal_ascii|by apply dec_decimal].
Qed.

(** [int(str(n)) == n] for the integers whose rendering the interpreter
    accepts back. *)
Lemma py_int_dec n : 0 <= n < 10 ^ max_str_digits -> py_int (dec n) = Some n.
Proof.
  intros H. rewrite py_int_decimal.
  - rewrite dec_value; [done|apply H].
  - apply dec_nonnil, H.
  - apply dec_decimal, H.
  - apply dec_len; [exact H|unfold max_str_digits; lia].
Qed.

(** ASCII digits only: [int] cannot raise and is not negative. *)
Lemma isdigit_ascii_decimal s :
  isdigit s = true -> isascii s = true -> s <> "" /\ str_forall is_decimal s = true.
Proof.
  unfold isdigit, isascii. intros [H1 H2]%andb_true_iff H3.
  split; [by apply nonempty_true|].
  clear H1. induction s as [|c s IH]; simpl in *; [done|].
  apply andb_true_iff in H2 as [Hc H2], H3 as [Ha H3].
  apply andb_true_iff. split; [|by apply IH].
  unfold is_digit in Hc. bool_to_prop.
  apply orb_true_iff in Hc as [Hc|Hc]; [|blia].
  apply orb_true_iff in Hc as [Hc|Hc]; [|blia].
  apply orb_true_iff in Hc as [Hc|Hc]; [done|blia].
Qed.

Lemma val10_nonneg acc s : 0 <= acc -> str_forall is_decimal s = true -> 0 <= val10 acc s.
Proof.
  revert acc. induction s as [|c s IH]; intros acc Ha Hs; simpl in *; [done|].
  apply andb_true_iff in Hs as [Hc Hs]. unfold is_decimal in Hc. bool_to_prop.
  apply IH; [lia|done].
Qed.

(** ** Lemmas: bytes *)

Lemma byte_z_range b : 0 <= byte_z b < 256.
Proof. unfold byte_z. pose proof (Byte.to_N_bounded b). lia. Qed.

Lemma byte_z_z_byte n : 0 <= n < 256 -> byte_z (z_byte n) = n.
Proof.
  intros H. unfold byte_z, z_byte.
  destruct (Byte.of_N (Z.to_N n)) as [b|] eqn:E.
  - apply Byte.to_of_N in E. simpl. rewrite E. lia.
  - apply Byte.of_N_None_iff in E. lia.
Qed.

Lemma z_byte_byte_z b : z_byte (byte_z b) = b.
Proof. unfold z_byte, byte_z. rewrite N2Z.id, Byte.of_to_N. done. Qed.

Lemma length_be_bytes k n : length (be_bytes k n) = k.
Proof.
  revert n. induction k as [|k IH]; intros n; simpl; [done|].
  rewrite length_app, IH. simpl. lia.
Qed.

Lemma be_int_app a b : be_int (a ++ [b]) = be_int a * 256 + byte_z b.
Proof. unfold be_int. by rewrite fold_left_app. Qed.

Lemma be_int_bytes k n : 0 <= n < 256 ^ Z.of_nat k -> be_int (be_bytes k n) = n.
Proof.
  revert n. induction k as [|k IH]; intros n Hn.
  - simpl in *. unfold be_int. simpl. lia.
  - rewrite Nat2Z.inj_succ, Z.pow_succ_r in Hn by lia.
    simpl. rewrite be_int_app, IH, byte_z_z_byte.
    + pose proof (Z.div_mod n 256 ltac:(lia)). lia.
    + apply Z.mod_pos_bound. lia.
    + split; [apply Z.div_pos; lia|apply Z.div_lt_upper_bound; lia].
Qed.

Lemma be_int_range b : 0 <= be_int b < 256 ^ Z.of_nat (length b).
Proof.
  induction b as [|x b IH] using rev_ind; [done|].
  rewrite be_int_app, length_app, Nat2Z.inj_add. simpl (Z.of_nat (length [x])).
  rewrite Z.pow_add_r by lia. pose proof (byte_z_range x). lia.
Qed.

(** ** Prefixes and case *)

Lemma startswith_app p s : startswith (p +:+ s) p = true.
Proof. induction p as [|c p IH]; [by destruct s|]. rewrite append_cons. simpl. by rewrite ceqb_refl. Qed.

Lemma startswith_prefix s p : startswith s p = true -> exists r, s = p +:+ r.
Proof.
  revert s. induction p as [|c p IH]; intros s H; [by exists s|]. destruct s as [|c' s]; [done|].
  simpl in H. apply andb_true_iff in H as [->%ceqb_eq H]. destruct (IH _ H) as [r ->]. by exists r.
Qed.

Lemma startswith_iff_prefix s p : startswith s p = true <-> exists r, s = p +:+ r.
Proof. split; [apply startswith_prefix|]. intros [r ->]. apply startswith_app. Qed.

Lemma lower_lower s : lower (lower s) = lower s.
Proof.
  unfold lower. induction s as [|c s IH]; simpl; [done|]. rewrite IH. f_equal.
  by destruct c as [[] [] [] [] [] [] [] []].
Qed.

Lemma rstrip_rstrip s : rstrip (rstrip s) = rstrip s.
Proof.
  induction s as [|c s IH]; simpl; [done|]. destruct (rstrip s) as [|d r] eqn:E.
  - destruct (is_space c) eqn:Ec; simpl; [done|]. by rewrite Ec.
  - cbn [rstrip] in *. by rewrite IH.
Qed.

Lemma strip_strip s : strip (strip s) = strip s.
Proof.
  unfold strip. induction s as [|c s IH]; simpl; [done|]. destruct (is_space c) eqn:E; [done|].
  assert (H : exists r, rstrip (String c s) = String c r).
  { simpl. destruct (rstrip s); [rewrite E|]; eauto. }
  destruct H as [r H]. rewrite H. cbn [lstrip]. rewrite E, <- H. apply rstrip_rstrip.
Qed.

(** ** Leading digits *)

(** The leading decimal digits, and what follows. *)
Fixpoint span_digits (s : string) : string * string :=
  match s with
  | String c s' => if is_decimal c then let '(a, b) := span_digits s' in (String c a, b) else ("", s)
  | "" => ("", "")
  end.

Lemma span_digits_app s rest : str_forall is_decimal s = true ->
  match rest with "" => True | String c _ => is_decimal c = false end ->
  span_digits (s +:+ rest) = (s, rest).
Proof.
  intros Hs Hr. induction s as [|c s IH].
  - change ("" +:+ rest) with rest. destruct rest as [|c r]; [done|]. simpl. by rewrite Hr.
  - simpl in Hs. apply andb_true_iff in Hs as [Hc Hs]. rewrite append_cons. cbn [span_digits].
    by rewrite Hc, (IH Hs).
Qed.
