(* ===== verification/IpAddr.v ===== *)
(** * Python's [ipaddress]

    The part of the standard-library module [ipaddress] (Python 3.13) that
    wg-manager calls: addresses and networks of both families, their text
    forms, membership, containment and overlap.  Functions that raise
    [ValueError] (or its subclasses [AddressValueError] and
    [NetmaskValueError]) return [None]. *)

From S2P Require Import Prelude PyStr.

(** ** Addresses *)

(** [IPv4Address] and [IPv6Address]; the latter carries its scope id. *)
Inductive ip :=
| V4 (n : Z)
| V6 (n : Z) (scope : option string).

#[global] Instance ip_eq_dec : EqDecision ip.
Proof. solve_decision. Defined.

Definition ip_int (a : ip) : Z := match a with V4 n => n | V6 n _ => n end.
Definition ip_version (a : ip) : Z := match a with V4 _ => 4 | V6 _ _ => 6 end.

(** [IPv4Address._parse_octet] *)
Definition v4_parse_octet (s : string) : option Z :=
  if negb (nonempty s) then None
  else if negb (isascii s && isdigit s) then None
  else if 3 <? len s then None
  else if negb (bool_decide (s = "0")) && startswith s "0" then None
  else n ← py_int s; if 255 <? n then None else Some n.

(** [IPv4Address._ip_int_from_string] *)
Definition v4_parse (s : string) : option Z :=
  if negb (nonempty s) then None
  else match split_on "." s with
       | [a; b; c; d] =>
           a ← v4_parse_octet a; b ← v4_parse_octet b;
           c ← v4_parse_octet c; d ← v4_parse_octet d;
           Some (a * 2 ^ 24 + b * 2 ^ 16 + c * 2 ^ 8 + d)
       | _ => None
       end.

(** [IPv4Address(str)] *)
Definition IPv4Address (s : string) : option Z :=
  if char_in "/" s then None else v4_parse s.

(** [str(IPv4Address)] *)
Definition v4_str (n : Z) : string :=
  join "." [dec (n / 2 ^ 24 mod 256); dec (n / 2 ^ 16 mod 256);
            dec (n / 2 ^ 8 mod 256); dec (n mod 256)].

(** [IPv6Address._parse_hextet] *)
Definition is_hex (c : ascii) : bool :=
  let n := code c in
  ((48 <=? n) && (n <=? 57)) || ((97 <=? n) && (n <=? 102)) || ((65 <=? n) && (n <=? 70)).

Definition v6_parse_hextet (s : string) : option Z :=
  if negb (str_forall is_hex s) then None
  else if 4 <? len s then None
  else digits_value 16 0 false s.

Fixpoint v6_hextets (acc : Z) (parts : list string) : option Z :=
  match parts with
  | [] => Some acc
  | p :: ps => h ← v6_parse_hextet p; v6_hextets (acc * 2 ^ 16 + h) ps
  end.

(** Lower-case hexadecimal, as the [%x] conversion. *)
Definition hex_chr (d : Z) : ascii := if d <? 10 then chr (48 + d) else chr (87 + d).

Fixpoint hex_go (fuel : nat) (n : Z) (acc : string) : string :=
  match fuel with
  | O => acc
  | S f =>
      let acc' := String (hex_chr (n mod 16)) acc in
      if n <? 16 then acc' else hex_go f (n / 16) acc'
  end.
Definition hex (n : Z) : string := hex_go (S (Z.to_nat (Z.log2 n))) n "".

(** An IPv4 suffix becomes two hextets. *)
Definition v6_embed_v4 (parts : list string) : option (list string) :=
  match last parts with
  | Some l =>
      if char_in "." l then
        n ← IPv4Address l;
        Some (take (length parts - 1) parts ++ [hex (n / 2 ^ 16 mod 2 ^ 16); hex (n mod 2 ^ 16)])
      else Some parts
  | None => Some parts
  end.

(** Indices [1 .. len(parts)-2] of the empty parts: the ["::"]s. *)
Definition v6_skips (parts : list string) : list nat :=
  List.filter (fun i => bool_decide (parts !! i = Some "")) (seq 1 (length parts - 2)).

(** [IPv6Address._ip_int_from_string] *)
Definition v6_parse (s : string) : option Z :=
  if negb (nonempty s) then None else
  let parts0 := split_on ":" s in
  if (length parts0 <? 3)%nat then None else
  parts ← v6_embed_v4 parts0;
  let n := length parts in
  if (9 <? n)%nat then None else
  let first_empty := bool_decide (parts !! O = Some "") in
  let last_empty := bool_decide (last parts = Some "") in
  match v6_skips parts with
  | [] =>
      if negb (n =? 8)%nat || first_empty || last_empty then None
      else v6_hextets 0 parts
  | [skip_index] =>
      let hi := (if first_empty then skip_index - 1 else skip_index)%nat in
      let lo := (if last_empty then n - skip_index - 2 else n - skip_index - 1)%nat in
      if first_empty && negb (hi =? 0)%nat then None
      else if last_empty && negb (lo =? 0)%nat then None
      else if (8 <? hi + lo + 1)%nat then None
      else high ← v6_hextets 0 (take hi parts);
           v6_hextets (high * 2 ^ (16 * Z.of_nat (8 - (hi + lo)))) (drop (n - lo) parts)
  | _ => None
  end.

(** [IPv6Address(str)] *)
Definition IPv6Address (s : string) : option ip :=
  if char_in "/" s then None else
  let '(addr, sep, scope) := partition "%" s in
  if sep then
    if negb (nonempty scope) || char_in "%" scope then None
    else n ← v6_parse addr; Some (V6 n (Some scope))
  else n ← v6_parse addr; Some (V6 n None).

(** [_compress_hextets]: the longest leftmost run of at least two zero hextets
    becomes an empty part. [best] and [cur] are (start, length) pairs. *)
Fixpoint longest_zero_run (i : nat) (best cur : nat * nat) (hs : list Z) : nat * nat :=
  match hs with
  | [] => best
  | h :: hs' =>
      if h =? 0 then
        let cur' := (if (cur.2 =? 0)%nat then i else cur.1, S cur.2) in
        let best' := if (best.2 <? cur'.2)%nat then cur' else best in
        longest_zero_run (S i) best' cur' hs'
      else longest_zero_run (S i) best (O, O) hs'
  end.

Definition compress_hextets (hs : list Z) : list string :=
  let '(start, n) := longest_zero_run 0 (O, O) (O, O) hs in
  let texts := hex <$> hs in
  if (n <? 2)%nat then texts
  else
    let stop := (start + n)%nat in
    let tail := if (stop =? length hs)%nat then [""] else [] in
    let out := take start texts ++ [""] ++ drop stop texts ++ tail in
    if (start =? 0)%nat then "" :: out else out.

Definition hextets_of (n : Z) : list Z :=
  (fun i => n / 2 ^ (16 * (7 - i)) mod 2 ^ 16) <$> [0; 1; 2; 3; 4; 5; 6; 7].

(** [_string_from_ip_int] *)
Definition v6_text (n : Z) : string := join ":" (compress_hextets (hextets_of n)).

(** [IPv6Address.ipv4_mapped] *)
Definition ipv4_mapped (n : Z) : option Z :=
  if n / 2 ^ 32 =? 65535 then Some (n mod 2 ^ 32) else None.

(** [str(addr)]; an IPv4-mapped address prints its last 32 bits dotted. *)
Definition ip_str (a : ip) : string :=
  match a with
  | V4 n => v4_str n
  | V6 n scope =>
      let base := match ipv4_mapped n with
                  | Some m => v6_text (n / 2 ^ 32) +:+ ":" +:+ v4_str m
                  | None => v6_text n
                  end in
      match scope with
      | Some sc => if nonempty sc then base +:+ "%" +:+ sc else base
      | None => base
      end
  end.

(** [ip_address(str)]: IPv4 first, then IPv6. *)
Definition ip_address (s : string) : option ip :=
  match IPv4Address s with
  | Some n => Some (V4 n)
  | None => IPv6Address s
  end.

(** [ip_address(bytes)]: four or sixteen packed bytes. *)
Definition ip_address_packed (b : bytes) : option ip :=
  if (length b =? 4)%nat then Some (V4 (be_int b))
  else if (length b =? 16)%nat then Some (V6 (be_int b) None)
  else None.

(** ** Networks *)

Record net := mkNet { nv6 : bool; naddr : Z; nplen : Z }.

#[global] Instance net_eq_dec : EqDecision net.
Proof. solve_decision. Defined.

Definition net_bits (v6 : bool) : Z := if v6 then 128 else 32.

(** [_ip_int_from_prefix]: [_ALL_ONES ^ (_ALL_ONES >> prefixlen)] *)
Definition netmask (v6 : bool) (p : Z) : Z :=
  Z.lxor (Z.ones (net_bits v6)) (Z.shiftr (Z.ones (net_bits v6)) p).

(** [network.broadcast_address]: [network_address | hostmask] *)
Definition broadcast (n : net) : Z :=
  Z.lor (naddr n) (Z.lxor (netmask (nv6 n) (nplen n)) (Z.ones (net_bits (nv6 n)))).

(** [_prefix_from_prefix_string] *)
Definition prefix_from_string (v6 : bool) (s : string) : option Z :=
  if negb (isascii s && isdigit s) then None
  else n ← py_int s; if n <=? net_bits v6 then Some n else None.

(** [_count_righthand_zero_bits(number, bits)] *)
Fixpoint trailing_zeros (fuel : nat) (n : Z) : Z :=
  match fuel with
  | O => 0
  | S f => if Z.odd n then 0 else 1 + trailing_zeros f (n / 2)
  end.

(** [_prefix_from_ip_int], for the 32-bit masks *)
Definition prefix_from_int (n : Z) : option Z :=
  let tz := if n =? 0 then 32 else Z.min 32 (trailing_zeros 32 n) in
  let p := 32 - tz in
  if Z.shiftr n tz =? Z.shiftl 1 p - 1 then Some p else None.

(** [_prefix_from_ip_string]: a dotted netmask, else a dotted hostmask *)
Definition prefix_from_ip_string (s : string) : option Z :=
  n ← v4_parse s;
  match prefix_from_int n with
  | Some p => Some p
  | None => prefix_from_int (Z.lxor n (Z.ones 32))
  end.

(** [_make_netmask] *)
Definition make_netmask (v6 : bool) (s : string) : option Z :=
  match prefix_from_string v6 s with
  | Some p => Some p
  | None => if v6 then None else prefix_from_ip_string s
  end.

(** [_split_addr_prefix]: the address text and the mask text, if any. *)
Definition split_addr_prefix (s : string) : option (string * option string) :=
  match split_on "/" s with
  | [a] => Some (a, None)
  | [a; m] => Some (a, Some m)
  | _ => None
  end.

(** Common tail of [IPv4Network.__init__] and [IPv6Network.__init__]. *)
Definition make_network (v6 strict : bool) (addr p : Z) : option net :=
  let masked := Z.land addr (netmask v6 p) in
  if negb (masked =? addr) && strict then None
  else Some (mkNet v6 masked p).

Definition mask_or_host (v6 : bool) (m : option string) : option Z :=
  match m with Some m => make_netmask v6 m | None => Some (net_bits v6) end.

(** [IPv4Network(str, strict)] *)
Definition IPv4Network (strict : bool) (s : string) : option net :=
  '(a, m) ← split_addr_prefix s;
  addr ← IPv4Address a; p ← mask_or_host false m;
  make_network false strict addr p.

(** [IPv6Network(str, strict)]; the scope id is not part of the network. *)
Definition IPv6Network (strict : bool) (s : string) : option net :=
  '(a, m) ← split_addr_prefix s;
  addr ← IPv6Address a; p ← mask_or_host true m;
  make_network true strict (ip_int addr) p.

(** [ip_network(str, strict)] *)
Definition ip_network (strict : bool) (s : string) : option net :=
  match IPv4Network strict s with
  | Some n => Some n
  | None => IPv6Network strict s
  end.

(** [ip_interface(str).ip] *)
Definition ip_interface_ip (s : string) : option ip :=
  match ('(a, m) ← split_addr_prefix s; n ← IPv4Address a;
         _ ← mask_or_host false m; Some (V4 n)) with
  | Some r => Some r
  | None => '(a, m) ← split_addr_prefix s; r ← IPv6Address a;
            _ ← mask_or_host true m; Some r
  end.

(** [str(network)] *)
Definition net_str (n : net) : string :=
  (if nv6 n then ip_str (V6 (naddr n) None) else v4_str (naddr n)) +:+ "/" +:+ dec (nplen n).

(** [addr in network] *)
Definition net_contains (n : net) (a : ip) : bool :=
  (ip_version a =? (if nv6 n then 6 else 4)) &&
  (Z.land (ip_int a) (netmask (nv6 n) (nplen n)) =? naddr n).

(** [network.hosts()] for IPv4: the first host and the number of hosts. *)
Definition hosts_first (n : net) : Z :=
  if nplen n <? 31 then naddr n + 1 else naddr n.
Definition hosts_count (n : net) : Z :=
  if nplen n <? 31 then broadcast n - naddr n - 1 else broadcast n - naddr n + 1.

Definition hosts (n : net) : list Z := seqZ (hosts_first n) (hosts_count n).

(** [a.subnet_of(b)] for two IPv4 networks *)
Definition subnet_of (a b : net) : bool :=
  (naddr b <=? naddr a) && (broadcast a <=? broadcast b).

(** [a.overlaps(b)] for two IPv4 networks *)
Definition overlaps (a b : net) : bool :=
  net_contains a (V4 (naddr b)) || net_contains a (V4 (broadcast b)) ||
  net_contains b (V4 (naddr a)) || net_contains b (V4 (broadcast a)).

(** ** Lemmas: masks and intervals *)

Lemma ones_testbit n i : 0 <= n -> 0 <= i -> Z.testbit (Z.ones n) i = (i <? n).
Proof.
  intros. destruct (Z.ltb_spec i n).
  - apply Z.ones_spec_low. lia.
  - apply Z.ones_spec_high. lia.
Qed.

Lemma testbit_above a b i : 0 <= a < 2 ^ b -> 0 <= b <= i -> Z.testbit a i = false.
Proof.
  intros Ha Hi. rewrite Z.testbit_eqb by lia.
  rewrite Z.div_small; [done|]. split; [lia|].
  eapply Z.lt_le_trans; [apply Ha|]. apply Z.pow_le_mono_r; lia.
Qed.

Lemma ones_shiftr b p : 0 <= p <= b -> Z.shiftr (Z.ones b) p = Z.ones (b - p).
Proof. intros. rewrite Z.shiftr_div_pow2 by lia. apply Z.ones_div_pow2. lia. Qed.

(** Masking a [b]-bit number by a [p]-bit prefix clears its low bits. *)
Lemma land_prefix a b p :
  0 <= p <= b -> 0 <= a < 2 ^ b ->
  Z.land a (Z.lxor (Z.ones b) (Z.shiftr (Z.ones b) p)) = a - a mod 2 ^ (b - p).
Proof.
  intros Hp Ha. rewrite ones_shiftr by lia.
  set (h := b - p).
  replace (a - a mod 2 ^ h) with (Z.shiftl (Z.shiftr a h) h).
  2:{ rewrite Z.shiftl_mul_pow2, Z.shiftr_div_pow2 by lia.
      pose proof (Z.div_mod a (2 ^ h) ltac:(apply Z.pow_nonzero; lia)). lia. }
  apply Z.bits_inj'. intros i Hi.
  rewrite Z.land_spec, Z.lxor_spec, !ones_testbit, Z.shiftl_spec by lia.
  destruct (Z.ltb_spec i h).
  - rewrite (Z.testbit_neg_r _ (i - h)) by lia.
    assert ((i <? b) = true) as -> by (apply Z.ltb_lt; lia). simpl. apply andb_false_r.
  - rewrite Z.shiftr_spec by lia. replace (i - h + h) with i by lia.
    destruct (Z.ltb_spec i b); simpl; [apply andb_true_r|].
    rewrite (testbit_above a b i); [done|done|lia].
Qed.

Lemma lor_low a h : 0 <= h -> 0 <= a -> a mod 2 ^ h = 0 -> Z.lor a (Z.ones h) = a + 2 ^ h - 1.
Proof.
  intros Hh Ha Hm. replace (a + 2 ^ h - 1) with (a + Z.ones h).
  2:{ rewrite Z.ones_equiv. lia. }
  assert (Hl : Z.land a (Z.ones h) = 0) by (by rewrite Z.land_ones).
  rewrite Z.add_nocarry_lxor by done. symmetry. by apply Z.lxor_lor.
Qed.

(** A network whose address has no host bits. *)
Record wf_net (n : net) : Prop := {
  wf_plen : 0 <= nplen n <= net_bits (nv6 n);
  wf_addr : 0 <= naddr n < 2 ^ net_bits (nv6 n);
  wf_aligned : naddr n mod 2 ^ (net_bits (nv6 n) - nplen n) = 0
}.

Definition net_size (n : net) : Z := 2 ^ (net_bits (nv6 n) - nplen n).

Lemma net_bits_pos v : 0 <= net_bits v.
Proof. by destruct v. Qed.

Lemma net_size_pos n : wf_net n -> 0 < net_size n.
Proof. intros []. apply pow2_pos. lia. Qed.
#[export] Hint Resolve net_size_pos : wg.

Lemma netmask_hostmask v p :
  0 <= p <= net_bits v ->
  Z.lxor (netmask v p) (Z.ones (net_bits v)) = Z.ones (net_bits v - p).
Proof.
  intros. unfold netmask. rewrite ones_shiftr by lia.
  rewrite Z.lxor_comm, <- Z.lxor_assoc, Z.lxor_nilpotent. apply Z.lxor_0_l.
Qed.

Lemma broadcast_eq n : wf_net n -> broadcast n = naddr n + net_size n - 1.
Proof.
  intros [Hp Ha Hm]. unfold broadcast. rewrite netmask_hostmask by done.
  apply lor_low; [lia|lia|done].
Qed.

Lemma make_network_wf v strict a p n :
  0 <= p <= net_bits v -> 0 <= a < 2 ^ net_bits v ->
  make_network v strict a p = Some n -> wf_net n.
Proof.
  intros Hp Ha. unfold make_network. case_match; [done|]. intros [= <-].
  pose proof (land_prefix a (net_bits v) p Hp Ha) as E.
  assert (Hpos : 0 < 2 ^ (net_bits v - p)) by (apply pow2_pos; lia).
  pose proof (Z.mod_pos_bound a _ Hpos). unfold netmask in *.
  split; simpl; [done| |].
  - rewrite E. split; [|lia].
    pose proof (Z.mod_le a (2 ^ (net_bits v - p)) ltac:(lia) ltac:(lia)). lia.
  - rewrite E. rewrite Zminus_mod, Z.mod_mod by lia.
    by rewrite Z.sub_diag, Z.mod_0_l by lia.
Qed.

(** Membership is membership in the interval from the network address to the
    broadcast address. *)
Lemma net_contains_v4 n x :
  wf_net n -> nv6 n = false -> 0 <= x < 2 ^ 32 ->
  net_contains n (V4 x) = true <-> naddr n <= x <= broadcast n.
Proof.
  intros Hwf Hv Hx. rewrite broadcast_eq by done.
  pose proof (net_size_pos n Hwf) as Hpos.
  destruct Hwf as [Hp Ha Hm]. unfold net_size in *. unfold net_contains. rewrite Hv in *.
  simpl ip_version. simpl ip_int. rewrite Z.eqb_refl. simpl andb.
  unfold netmask. rewrite land_prefix by (simpl in *; lia). rewrite Z.eqb_eq.
  set (d := 2 ^ (net_bits false - nplen n)) in *.
  pose proof (Z.div_mod x d ltac:(lia)). pose proof (Z.mod_pos_bound x d Hpos).
  pose proof (Z.div_mod (naddr n) d ltac:(lia)).
  split; intros H'; [nia|].
  assert (x / d = naddr n / d); [|nia].
  apply div_interval; lia.
Qed.

Lemma broadcast_range n : wf_net n -> naddr n <= broadcast n < 2 ^ net_bits (nv6 n).
Proof.
  intros Hwf. rewrite broadcast_eq by done. pose proof (net_size_pos n Hwf).
  destruct Hwf as [Hp Ha Hm]. split; [lia|]. unfold net_size in *.
  set (b := net_bits (nv6 n)) in *. set (p := nplen n) in *. set (a := naddr n) in *.
  assert (E : 2 ^ b = 2 ^ p * 2 ^ (b - p)) by (rewrite <- Z.pow_add_r by lia; f_equal; lia).
  set (d := 2 ^ (b - p)) in *. pose proof (Z.div_mod a d ltac:(lia)).
  assert (a / d < 2 ^ p); [|nia].
  apply Z.div_lt_upper_bound; [lia|]. nia.
Qed.

(** [subnet_of] is inclusion of the address sets. *)
Lemma subnet_of_spec a b :
  wf_net a -> subnet_of a b = true <->
  forall x, naddr a <= x <= broadcast a -> naddr b <= x <= broadcast b.
Proof.
  intros Ha. pose proof (broadcast_range a Ha). unfold subnet_of.
  rewrite andb_true_iff, !Z.leb_le. split; [intros; lia|].
  intros H'. pose proof (H' (naddr a)). pose proof (H' (broadcast a)). lia.
Qed.

(** [overlaps] is non-empty intersection of the address sets. *)
Lemma overlaps_spec a b :
  wf_net a -> wf_net b -> nv6 a = false -> nv6 b = false ->
  overlaps a b = true <->
  exists x, naddr a <= x <= broadcast a /\ naddr b <= x <= broadcast b.
Proof.
  intros Ha Hb Va Vb. unfold overlaps.
  pose proof (broadcast_range a Ha) as Ra. pose proof (broadcast_range b Hb) as Rb.
  pose proof (wf_addr _ Ha) as Aa. pose proof (wf_addr _ Hb) as Ab.
  rewrite Va in Ra, Aa. rewrite Vb in Rb, Ab. simpl in *.
  rewrite !orb_true_iff, !net_contains_v4 by (done || lia).
  split.
  - intros [[[H|H]|H]|H]; [exists (naddr b)|exists (broadcast b)|exists (naddr a)|exists (broadcast a)]; lia.
  - intros (x & H1 & H2). lia.
Qed.

Lemma overlaps_sym a b : overlaps a b = overlaps b a.
Proof.
  unfold overlaps.
  destruct (net_contains a (V4 (naddr b))), (net_contains a (V4 (broadcast b))),
    (net_contains b (V4 (naddr a))), (net_contains b (V4 (broadcast a))); done.
Qed.

(** ** Lemmas: IPv4 text *)

Lemma v4_parse_octet_range s n : v4_parse_octet s = Some n -> 0 <= n < 256.
Proof.
  unfold v4_parse_octet. intros H. break_all H.
  destruct (py_int s) as [m|] eqn:E; simpl in H; [|done].
  destruct (Z.ltb_spec 255 m); [done|]. simplify_eq. split; [|lia].
  bool_to_prop.
  destruct (isdigit_ascii_decimal s) as [Hne Hd]; [done|done|].
  rewrite py_int_decimal in E; [|done|done|unfold max_str_digits; lia].
  simplify_eq. by apply val10_nonneg.
Qed.

Lemma v4_parse_range s n : v4_parse s = Some n -> 0 <= n < 2 ^ 32.
Proof.
  unfold v4_parse. intros H. destruct (negb (nonempty s)); [done|].
  destruct (split_on "." s) as [|a [|b [|c [|d [|? ?]]]]]; try done.
  destruct (v4_parse_octet a) eqn:Ea; [|done]. destruct (v4_parse_octet b) eqn:Eb; [|done].
  destruct (v4_parse_octet c) eqn:Ec; [|done]. destruct (v4_parse_octet d) eqn:Ed; [|done].
  apply v4_parse_octet_range in Ea, Eb, Ec, Ed. simpl in H. simplify_eq. lia.
Qed.

Lemma dec_octet n : 0 <= n < 256 -> v4_parse_octet (dec n) = Some n.
Proof.
  intros Hn. unfold v4_parse_octet.
  assert (nonempty (dec n) = true) as -> by (apply nonempty_true, dec_nonnil; lia).
  rewrite dec_isascii, dec_isdigit by lia. simpl negb. cbv iota.
  assert (Hl : len (dec n) <= 3) by (apply dec_len; lia).
  assert ((3 <? len (dec n)) = false) as -> by (apply Z.ltb_ge; lia).
  assert ((negb (bool_decide (dec n = "0")) && startswith (dec n) "0") = false) as ->.
  { destruct (Z.eq_dec n 0) as [->|]; [done|].
    destruct (dec_head n ltac:(lia)) as (c & s & E & Hc). rewrite E.
    apply andb_false_iff. right. simpl.
    assert (ceqb c "0" = false) as ->; [|done].
    apply ceqb_neq. intros ->. by apply Hc. }
  rewrite py_int_dec; [simpl|].
  - destruct (Z.ltb_spec 255 n); [lia|done].
  - split; [lia|]. eapply Z.lt_trans; [apply (proj2 Hn)|].
    change 256 with (10 ^ 2 + 156). unfold max_str_digits.
    eapply Z.lt_le_trans; [|apply (Z.pow_le_mono_r 10 3 4300); lia]. done.
Qed.

Lemma dec_no_char n c : 0 <= n -> is_decimal c = false -> char_in c (dec n) = false.
Proof. intros. apply decimal_no_char; [done|by apply dec_decimal]. Qed.

Lemma v4_str_split n :
  split_on "." (v4_str n) =
  [dec (n / 2 ^ 24 mod 256); dec (n / 2 ^ 16 mod 256); dec (n / 2 ^ 8 mod 256); dec (n mod 256)].
Proof.
  unfold v4_str. apply split_on_join; [done|].
  repeat constructor; apply dec_no_char; try done; apply Z.mod_pos_bound; lia.
Qed.

Lemma octets_sum n :
  0 <= n < 2 ^ 32 ->
  n / 2 ^ 24 mod 256 * 2 ^ 24 + n / 2 ^ 16 mod 256 * 2 ^ 16 + n / 2 ^ 8 mod 256 * 2 ^ 8 + n mod 256 = n.
Proof.
  intros H. change (2 ^ 24) with (256 * 256 * 256). change (2 ^ 16) with (256 * 256).
  change (2 ^ 8) with 256. change (2 ^ 32) with (256 * 256 * 256 * 256) in H.
  rewrite <- !Z.div_div by lia.
  pose proof (Z.div_mod n 256 ltac:(lia)).
  pose proof (Z.div_mod (n / 256) 256 ltac:(lia)).
  pose proof (Z.div_mod (n / 256 / 256) 256 ltac:(lia)).
  assert (n / 256 / 256 / 256 < 256) by (repeat (apply Z.div_lt_upper_bound; [lia|]); lia).
  assert (0 <= n / 256 / 256 / 256) by (repeat (apply Z.div_pos; [|lia]); lia).
  rewrite (Z.mod_small (n / 256 / 256 / 256)) by lia. lia.
Qed.

Lemma v4_str_nonempty n : nonempty (v4_str n) = true.
Proof.
  apply nonempty_true. intros E. pose proof (v4_str_split n) as H. rewrite E in H. done.
Qed.

(** Printing an IPv4 address and parsing it back is the identity. *)
Lemma v4_parse_str n : 0 <= n < 2 ^ 32 -> v4_parse (v4_str n) = Some n.
Proof.
  intros H. unfold v4_parse. rewrite v4_str_nonempty. simpl negb. cbv iota.
  rewrite v4_str_split.
  rewrite !dec_octet by (apply Z.mod_pos_bound; lia). simpl mbind.
  f_equal. by apply octets_sum.
Qed.

(** The characters of a printed IPv4 address are digits and dots. *)
Lemma v4_str_no_char n c :
  is_decimal c = false -> c <> "."%char -> char_in c (v4_str n) = false.
Proof.
  intros Hc Hd. apply char_in_false. unfold v4_str. apply str_forall_join.
  - simpl. rewrite andb_true_r. by apply negb_true_iff, ceqb_neq.
  - repeat constructor; apply char_in_false, dec_no_char; try done; apply Z.mod_pos_bound; lia.
Qed.

Lemma IPv4Address_str n : 0 <= n < 2 ^ 32 -> IPv4Address (v4_str n) = Some n.
Proof.
  intros H. unfold IPv4Address. rewrite v4_str_no_char by done. by apply v4_parse_str.
Qed.

Lemma v4_str_inj n m : 0 <= n < 2 ^ 32 -> 0 <= m < 2 ^ 32 -> v4_str n = v4_str m -> n = m.
Proof. intros Hn Hm E. apply v4_parse_str in Hn, Hm. rewrite E in Hn. congruence. Qed.

Lemma ip_address_v4_str n : 0 <= n < 2 ^ 32 -> ip_address (v4_str n) = Some (V4 n).
Proof. intros. unfold ip_address. by rewrite IPv4Address_str. Qed.
