(* ===== verification/Models.v ===== *)
(** * The data model ([src/wg_manager/models.py])

    The enumerations, the table rows and the database.  A row does not carry
    its surrogate primary key: the key is the index of the row in its
    [table].  Date-times are UTC instants in microseconds since the epoch,
    the resolution of Python's [datetime]. *)

From S2P Require Import Prelude PyStr.

(** ** [UnsignedBigInteger]: 64-bit serials on signed and unsigned columns *)

Definition UINT64_LIMIT : Z := 2 ^ 64.
Definition INT64_LIMIT : Z := 2 ^ 63.

(** The dialects whose [BIGINT UNSIGNED] stores the value as it is. *)
Definition native_dialect (dialect : string) : bool :=
  bool_decide (dialect = "mysql") || bool_decide (dialect = "mariadb").

(** [process_bind_param]: [None] is the [ValueError] of an out-of-range value;
    the inner option is SQL's [NULL]. *)
Definition process_bind_param (dialect : string) (value : option Z) : option (option Z) :=
  match value with
  | None => Some None
  | Some v =>
      if negb ((0 <=? v) && (v <? UINT64_LIMIT)) then None
      else if negb (native_dialect dialect) && (INT64_LIMIT <=? v)
           then Some (Some (v - UINT64_LIMIT))
           else Some (Some v)
  end.

(** [process_result_value] *)
Definition process_result_value (dialect : string) (value : option Z) : option Z :=
  match value with
  | None => None
  | Some v => if native_dialect dialect then Some v
              else Some (if v <? 0 then v + UINT64_LIMIT else v)
  end.

(** What the column can hold: an unsigned or a signed 64-bit integer. *)
Definition column_range (dialect : string) (v : Z) : Prop :=
  if native_dialect dialect then 0 <= v < UINT64_LIMIT else - INT64_LIMIT <= v < INT64_LIMIT.

(** ** Enumerations *)

Inductive NodeStatus := pending | ready | error.
Inductive OperatorRole := admin | operator | auditor.
Inductive CertificateType := ct_api | ct_cli | ct_dashboard | ct_mysql | ct_mysql_client.
Inductive OperatorStatus := active | disabled.
Inductive SSHKeyMode := legacy | ca.
Inductive EnrollmentTokenStatus := ts_active | ts_revoked | ts_expired | ts_exhausted.

#[global] Instance NodeStatus_eq_dec : EqDecision NodeStatus.
Proof. solve_decision. Defined.
#[global] Instance OperatorRole_eq_dec : EqDecision OperatorRole.
Proof. solve_decision. Defined.
#[global] Instance OperatorStatus_eq_dec : EqDecision OperatorStatus.
Proof. solve_decision. Defined.
#[global] Instance SSHKeyMode_eq_dec : EqDecision SSHKeyMode.
Proof. solve_decision. Defined.
#[global] Instance CertificateType_eq_dec : EqDecision CertificateType.
Proof. solve_decision. Defined.
#[global] Instance EnrollmentTokenStatus_eq_dec : EqDecision EnrollmentTokenStatus.
Proof. solve_decision. Defined.

(** The [value] of a string-valued enumeration member. *)
Definition NodeStatus_value (s : NodeStatus) : string :=
  match s with pending => "pending" | ready => "ready" | error => "error" end.
Definition OperatorRole_value (r : OperatorRole) : string :=
  match r with admin => "admin" | operator => "operator" | auditor => "auditor" end.

Definition CertificateType_value (t : CertificateType) : string :=
  match t with
  | ct_api => "api" | ct_cli => "cli" | ct_dashboard => "dashboard" | ct_mysql => "mysql"
  | ct_mysql_client => "mysql-client"
  end.

(** [OperatorRole(text)] *)
Definition OperatorRole_of (s : string) : option OperatorRole :=
  if bool_decide (s = "admin") then Some admin
  else if bool_decide (s = "operator") then Some operator
  else if bool_decide (s = "auditor") then Some auditor
  else None.

(** ** Rows *)

Record Tenant := mkTenant {
  tn_name : string; tn_slug : string; tn_subnet_pool : string; tn_created_at : Z
}.

(** The default of the [subnet_pool] column. *)
Definition default_subnet_pool : string := "10.0.0.0/8".

Record SSHKey := mkSSHKey {
  key_tenant_id : option Z; key_name : string; key_mode : SSHKeyMode; key_created_at : Z
}.

(** The six [host_cert_*] columns that [Server] and [Client] share. *)
Record HostCertCols := mkHostCertCols {
  hc_pem : option string; hc_serial : option Z; hc_principals : option string;
  hc_valid_after : option Z; hc_valid_before : option Z; hc_ca_public_key : option string
}.
Definition no_host_cert : HostCertCols := mkHostCertCols None None None None None None.

Record Server := mkServer {
  srv_tenant_id : option Z;
  srv_hostname : string; srv_ssh_port : Z; srv_ssh_username : string; srv_ssh_key_id : Z;
  srv_endpoint_host : string; srv_endpoint_port : Z; srv_interface : string;
  srv_subnet : string; srv_address : string; srv_public_key : string;
  srv_status : NodeStatus; srv_created_at : Z; srv_host_cert : HostCertCols;
  srv_reconfig_requested_gen : Z; srv_reconfig_applied_gen : Z
}.

Record Client := mkClient {
  cl_tenant_id : option Z; cl_name : string; cl_hostname : option string; cl_ssh_port : Z;
  cl_ssh_username : option string; cl_ssh_key_id : option Z; cl_server_id : Z;
  cl_address : string; cl_public_key : string; cl_is_manual : bool;
  cl_status : NodeStatus; cl_created_at : Z; cl_host_cert : HostCertCols
}.

Record Operator := mkOperator {
  op_tenant_id : option Z; op_cn : string; op_display_name : option string;
  op_role : OperatorRole; op_status : OperatorStatus; op_created_at : Z
}.

Record OperatorTenant := mkOperatorTenant {
  ot_operator_id : Z; ot_tenant_id : Z; ot_role : OperatorRole; ot_created_at : Z
}.

Record DiscoveredPeer := mkDiscoveredPeer {
  dp_server_id : Z; dp_public_key : string; dp_allowed_ips : string;
  dp_endpoint : option string; dp_last_handshake_at : option Z;
  dp_rx_bytes : Z; dp_tx_bytes : Z; dp_persistent_keepalive : option Z;
  dp_is_managed : bool; dp_first_seen_at : Z; dp_last_seen_at : Z
}.

Record Certificate := mkCertificate {
  crt_tenant_id : option Z; crt_serial : string; crt_type : CertificateType;
  crt_operator_id : option Z; crt_common_name : string; crt_sans : string;
  crt_not_before : Z; crt_not_after : Z; crt_revoked : bool; crt_revoked_at : option Z;
  crt_created_at : Z;
  crt_out_cert_path : option string; crt_out_key_path : option string;
  crt_out_chain_path : option string
}.

Record AuditEvent := mkAuditEvent {
  ev_tenant_id : option Z; ev_ts : Z; ev_event : string; ev_actor_cn : option string;
  ev_actor_serial : option string; ev_actor_role : option string;
  ev_resource_type : string; ev_resource_id : option Z; ev_action : string;
  ev_before_hash : option string; ev_after_hash : option string;
  ev_payload : option string; ev_request_id : option string
}.

Record EnrollmentToken := mkEnrollmentToken {
  tok_tenant_id : option Z; tok_server_id : Z; tok_ssh_key_id : Z; tok_ssh_username : string;
  tok_name_prefix : string; tok_token_hash : string; tok_max_uses : Z; tok_use_count : Z;
  tok_expires_at : Z; tok_created_by_cn : option string; tok_created_at : Z;
  tok_revoked_at : option Z; tok_revoked_by_cn : option string; tok_allowed_cidrs : option string
}.

(** Attribute assignment on rows. *)
Definition set_srv_status (x : NodeStatus) (s : Server) : Server :=
  mkServer (srv_tenant_id s) (srv_hostname s) (srv_ssh_port s) (srv_ssh_username s)
    (srv_ssh_key_id s) (srv_endpoint_host s) (srv_endpoint_port s) (srv_interface s)
    (srv_subnet s) (srv_address s) (srv_public_key s) x (srv_created_at s) (srv_host_cert s)
    (srv_reconfig_requested_gen s) (srv_reconfig_applied_gen s).

Definition set_srv_public_key (x : string) (s : Server) : Server :=
  mkServer (srv_tenant_id s) (srv_hostname s) (srv_ssh_port s) (srv_ssh_username s)
    (srv_ssh_key_id s) (srv_endpoint_host s) (srv_endpoint_port s) (srv_interface s)
    (srv_subnet s) (srv_address s) x (srv_status s) (srv_created_at s) (srv_host_cert s)
    (srv_reconfig_requested_gen s) (srv_reconfig_applied_gen s).

Definition set_srv_host_cert (x : HostCertCols) (s : Server) : Server :=
  mkServer (srv_tenant_id s) (srv_hostname s) (srv_ssh_port s) (srv_ssh_username s)
    (srv_ssh_key_id s) (srv_endpoint_host s) (srv_endpoint_port s) (srv_interface s)
    (srv_subnet s) (srv_address s) (srv_public_key s) (srv_status s) (srv_created_at s) x
    (srv_reconfig_requested_gen s) (srv_reconfig_applied_gen s).

Definition set_srv_gens (requested applied : Z) (s : Server) : Server :=
  mkServer (srv_tenant_id s) (srv_hostname s) (srv_ssh_port s) (srv_ssh_username s)
    (srv_ssh_key_id s) (srv_endpoint_host s) (srv_endpoint_port s) (srv_interface s)
    (srv_subnet s) (srv_address s) (srv_public_key s) (srv_status s) (srv_created_at s)
    (srv_host_cert s) requested applied.

Definition set_cl_status (x : NodeStatus) (c : Client) : Client :=
  mkClient (cl_tenant_id c) (cl_name c) (cl_hostname c) (cl_ssh_port c) (cl_ssh_username c)
    (cl_ssh_key_id c) (cl_server_id c) (cl_address c) (cl_public_key c) (cl_is_manual c)
    x (cl_created_at c) (cl_host_cert c).

Definition set_cl_public_key (x : string) (c : Client) : Client :=
  mkClient (cl_tenant_id c) (cl_name c) (cl_hostname c) (cl_ssh_port c) (cl_ssh_username c)
    (cl_ssh_key_id c) (cl_server_id c) (cl_address c) x (cl_is_manual c)
    (cl_status c) (cl_created_at c) (cl_host_cert c).

Definition set_cl_host_cert (x : HostCertCols) (c : Client) : Client :=
  mkClient (cl_tenant_id c) (cl_name c) (cl_hostname c) (cl_ssh_port c) (cl_ssh_username c)
    (cl_ssh_key_id c) (cl_server_id c) (cl_address c) (cl_public_key c) (cl_is_manual c)
    (cl_status c) (cl_created_at c) x.

Definition set_crt_revoked (revoked : bool) (at_ : option Z) (c : Certificate) : Certificate :=
  mkCertificate (crt_tenant_id c) (crt_serial c) (crt_type c) (crt_operator_id c) (crt_common_name c)
    (crt_sans c) (crt_not_before c) (crt_not_after c) revoked at_ (crt_created_at c)
    (crt_out_cert_path c) (crt_out_key_path c) (crt_out_chain_path c).

Definition set_tn_subnet_pool (x : string) (t : Tenant) : Tenant :=
  mkTenant (tn_name t) (tn_slug t) x (tn_created_at t).

Definition set_tok_use_count (x : Z) (t : EnrollmentToken) : EnrollmentToken :=
  mkEnrollmentToken (tok_tenant_id t) (tok_server_id t) (tok_ssh_key_id t) (tok_ssh_username t)
    (tok_name_prefix t) (tok_token_hash t) (tok_max_uses t) x (tok_expires_at t)
    (tok_created_by_cn t) (tok_created_at t) (tok_revoked_at t) (tok_revoked_by_cn t)
    (tok_allowed_cidrs t).

Definition set_tok_revoked (at_ : option Z) (by_ : option string) (t : EnrollmentToken)
  : EnrollmentToken :=
  mkEnrollmentToken (tok_tenant_id t) (tok_server_id t) (tok_ssh_key_id t) (tok_ssh_username t)
    (tok_name_prefix t) (tok_token_hash t) (tok_max_uses t) (tok_use_count t) (tok_expires_at t)
    (tok_created_by_cn t) (tok_created_at t) at_ by_ (tok_allowed_cidrs t).

(** ** Tables and the database *)

(** A table: its rows by primary key, and the next auto-increment key. *)
Record table (A : Type) := mkTable { rows : gmap Z A; next_id : Z }.
Arguments mkTable {A}.
Arguments rows {A}.
Arguments next_id {A}.

Definition empty_table {A} : table A := mkTable ∅ 1.

Definition tbl_insert {A} (r : A) (t : table A) : table A :=
  mkTable (<[next_id t := r]> (rows t)) (next_id t + 1).
Definition tbl_set {A} (i : Z) (r : A) (t : table A) : table A :=
  mkTable (<[i := r]> (rows t)) (next_id t).
Definition tbl_delete {A} (i : Z) (t : table A) : table A :=
  mkTable (delete i (rows t)) (next_id t).

(** [UPDATE ... WHERE id = i]: nothing happens when there is no such row. *)
Definition tbl_update {A} (i : Z) (f : A -> A) (t : table A) : table A :=
  mkTable (alter f i (rows t)) (next_id t).

(** [SELECT ... WHERE p]: key and row of every match. *)
Definition tbl_select {A} (p : Z -> A -> bool) (t : table A) : list (Z * A) :=
  List.filter (fun ir => p ir.1 ir.2) (map_to_list (rows t)).

(** [SELECT ... WHERE p], first result. *)
Definition tbl_first {A} (p : Z -> A -> bool) (t : table A) : option (Z * A) :=
  head (tbl_select p t).

(** Keys are positive and below the auto-increment counter. *)
Definition wf_table {A} (t : table A) : Prop :=
  1 <= next_id t /\ forall i r, rows t !! i = Some r -> 1 <= i < next_id t.

Lemma tbl_select_spec {A} (p : Z -> A -> bool) t i r :
  (i, r) ∈ tbl_select p t <-> rows t !! i = Some r /\ p i r = true.
Proof.
  unfold tbl_select. rewrite list_elem_of_In, filter_In, <- list_elem_of_In. simpl.
  by rewrite elem_of_map_to_list.
Qed.

Lemma tbl_select_nil {A} (p : Z -> A -> bool) t :
  tbl_select p t = [] <-> forall i r, rows t !! i = Some r -> p i r = false.
Proof.
  split.
  - intros E i r Hr. destruct (p i r) eqn:Hp; [|done].
    assert (Hin : (i, r) ∈ tbl_select p t) by (by apply tbl_select_spec).
    rewrite E in Hin. by apply elem_of_nil in Hin.
  - intros H. destruct (tbl_select p t) as [|[i r] l] eqn:E; [done|].
    assert (Hin : (i, r) ∈ tbl_select p t) by (rewrite E; by left).
    apply tbl_select_spec in Hin as [? Hp]. rewrite H in Hp; done.
Qed.

Lemma tbl_first_Some {A} (p : Z -> A -> bool) t i r :
  tbl_first p t = Some (i, r) -> rows t !! i = Some r /\ p i r = true.
Proof.
  unfold tbl_first. intros H. apply tbl_select_spec.
  destruct (tbl_select p t) as [|x l]; simpl in H; simplify_eq. by left.
Qed.

Lemma tbl_first_None {A} (p : Z -> A -> bool) t :
  tbl_first p t = None <-> forall i r, rows t !! i = Some r -> p i r = false.
Proof.
  rewrite <- tbl_select_nil. unfold tbl_first. by destruct (tbl_select p t).
Qed.

(** When at most one row matches, the first result is that row. *)
Lemma tbl_first_unique {A} (p : Z -> A -> bool) t i r :
  rows t !! i = Some r -> p i r = true ->
  (forall j x, rows t !! j = Some x -> p j x = true -> j = i) -> tbl_first p t = Some (i, r).
Proof.
  intros Hi Hp Hu. destruct (tbl_first p t) as [[j x]|] eqn:E.
  - apply tbl_first_Some in E as [Hj Hx]. assert (j = i) as -> by eauto. by simplify_eq.
  - rewrite (proj1 (tbl_first_None p t) E i r Hi) in Hp. done.
Qed.

(** A column without repetitions identifies rows; decidable on a concrete
    table. *)
Lemma column_NoDup {A B} (f : A -> B) (t : table A) :
  NoDup ((fun ir => f ir.2) <$> map_to_list (rows t)) ->
  forall i j r r', rows t !! i = Some r -> rows t !! j = Some r' -> f r = f r' -> i = j.
Proof.
  intros Hnd i j r r' Hi Hj E. apply elem_of_map_to_list in Hi, Hj.
  apply list_elem_of_lookup in Hi as [a Ha], Hj as [b Hb].
  assert (a = b) as ->; [|by simplify_eq].
  eapply NoDup_lookup; [exact Hnd| |]; rewrite list_lookup_fmap, ?Ha, ?Hb; simpl; by f_equal.
Qed.

Lemma wf_table_empty {A} : wf_table (@empty_table A).
Proof. split; simpl; [lia|]. intros i r Hr. by rewrite lookup_empty in Hr. Qed.

Lemma wf_table_fresh {A} (t : table A) : wf_table t -> rows t !! next_id t = None.
Proof.
  intros [_ H]. destruct (rows t !! next_id t) eqn:E; [|done]. apply H in E. lia.
Qed.

Lemma wf_table_insert {A} (t : table A) r : wf_table t -> wf_table (tbl_insert r t).
Proof.
  intros [H1 H2]. split; simpl; [lia|]. intros i x.
  rewrite lookup_insert. case_decide as E; [intros _; lia|].
  intros Hx. apply H2 in Hx. lia.
Qed.

Lemma wf_table_set {A} (t : table A) i r r' :
  wf_table t -> rows t !! i = Some r' -> wf_table (tbl_set i r t).
Proof.
  intros [H1 H2] Hi. split; simpl; [lia|]. intros j x.
  rewrite lookup_insert. case_decide as E; [intros _; subst; by apply H2 in Hi|apply H2].
Qed.

Lemma wf_table_delete {A} (t : table A) i : wf_table t -> wf_table (tbl_delete i t).
Proof.
  intros [H1 H2]. split; simpl; [lia|]. intros j x Hx.
  apply lookup_delete_Some in Hx as [_ ?]. eauto.
Qed.
#[export] Hint Resolve wf_table_empty wf_table_fresh wf_table_insert wf_table_set
  wf_table_delete : wg.

Record DB := mkDB {
  tenants : table Tenant; sshkeys : table SSHKey; servers : table Server;
  clients : table Client; operators : table Operator; operator_tenants : table OperatorTenant;
  discovered : table DiscoveredPeer; certificates : table Certificate;
  audit_events : table AuditEvent; tokens : table EnrollmentToken
}.

Definition empty_db : DB :=
  mkDB empty_table empty_table empty_table empty_table empty_table empty_table empty_table
    empty_table empty_table empty_table.

Definition on_tenants (f : table Tenant -> table Tenant) (d : DB) : DB :=
  mkDB (f (tenants d)) (sshkeys d) (servers d) (clients d) (operators d) (operator_tenants d)
    (discovered d) (certificates d) (audit_events d) (tokens d).
Definition on_sshkeys (f : table SSHKey -> table SSHKey) (d : DB) : DB :=
  mkDB (tenants d) (f (sshkeys d)) (servers d) (clients d) (operators d) (operator_tenants d)
    (discovered d) (certificates d) (audit_events d) (tokens d).
Definition on_servers (f : table Server -> table Server) (d : DB) : DB :=
  mkDB (tenants d) (sshkeys d) (f (servers d)) (clients d) (operators d) (operator_tenants d)
    (discovered d) (certificates d) (audit_events d) (tokens d).
Definition on_clients (f : table Client -> table Client) (d : DB) : DB :=
  mkDB (tenants d) (sshkeys d) (servers d) (f (clients d)) (operators d) (operator_tenants d)
    (discovered d) (certificates d) (audit_events d) (tokens d).
Definition on_operators (f : table Operator -> table Operator) (d : DB) : DB :=
  mkDB (tenants d) (sshkeys d) (servers d) (clients d) (f (operators d)) (operator_tenants d)
    (discovered d) (certificates d) (audit_events d) (tokens d).
Definition on_operator_tenants (f : table OperatorTenant -> table OperatorTenant) (d : DB) : DB :=
  mkDB (tenants d) (sshkeys d) (servers d) (clients d) (operators d) (f (operator_tenants d))
    (discovered d) (certificates d) (audit_events d) (tokens d).
Definition on_discovered (f : table DiscoveredPeer -> table DiscoveredPeer) (d : DB) : DB :=
  mkDB (tenants d) (sshkeys d) (servers d) (clients d) (operators d) (operator_tenants d)
    (f (discovered d)) (certificates d) (audit_events d) (tokens d).
Definition on_certificates (f : table Certificate -> table Certificate) (d : DB) : DB :=
  mkDB (tenants d) (sshkeys d) (servers d) (clients d) (operators d) (operator_tenants d)
    (discovered d) (f (certificates d)) (audit_events d) (tokens d).
Definition on_audit_events (f : table AuditEvent -> table AuditEvent) (d : DB) : DB :=
  mkDB (tenants d) (sshkeys d) (servers d) (clients d) (operators d) (operator_tenants d)
    (discovered d) (certificates d) (f (audit_events d)) (tokens d).
Definition on_tokens (f : table EnrollmentToken -> table EnrollmentToken) (d : DB) : DB :=
  mkDB (tenants d) (sshkeys d) (servers d) (clients d) (operators d) (operator_tenants d)
    (discovered d) (certificates d) (audit_events d) (f (tokens d)).

(** ** Theorems: serial numbers survive the column *)

(** C40. A 64-bit serial written through [UnsignedBigInteger] and read back is
    the serial itself, on every dialect, and the stored integer fits the
    dialect's column; any other integer is refused at bind time. *)
Theorem serial_roundtrip dialect v :
  (0 <= v < UINT64_LIMIT ->
     exists stored, process_bind_param dialect (Some v) = Some (Some stored) /\
       column_range dialect stored /\ process_result_value dialect (Some stored) = Some v) /\
  ((v < 0 \/ UINT64_LIMIT <= v) -> process_bind_param dialect (Some v) = None).
Proof.
  unfold process_bind_param, process_result_value, column_range, UINT64_LIMIT, INT64_LIMIT.
  split; intros H.
  - destruct (Z.leb_spec 0 v), (Z.ltb_spec v (2 ^ 64)); simpl negb; cbv iota; try lia.
    destruct (native_dialect dialect); simpl andb.
    + exists v. split_and!; [done|lia|lia|done].
    + destruct (Z.leb_spec (2 ^ 63) v).
      * exists (v - 2 ^ 64). split_and!; [done|lia|lia|].
        destruct (Z.ltb_spec (v - 2 ^ 64) 0); f_equal; lia.
      * exists v. split_and!; [done|lia|lia|].
        destruct (Z.ltb_spec v 0); f_equal; lia.
  - destruct (Z.leb_spec 0 v), (Z.ltb_spec v (2 ^ 64)); simpl; done || lia.
Qed.

Lemma serial_roundtrip_witness :
  process_bind_param "sqlite" (Some (2 ^ 63 + 5)) = Some (Some (5 - 2 ^ 63)) /\
  exists stored, process_bind_param "mysql" (Some (2 ^ 64 - 1)) = Some (Some stored) /\
    column_range "mysql" stored /\ process_result_value "mysql" (Some stored) = Some (2 ^ 64 - 1).
Proof.
  split; [reflexivity|].
  apply (proj1 (serial_roundtrip "mysql" (2 ^ 64 - 1))). unfold UINT64_LIMIT. lia.
Defined.
