(* ===== verification/Session.v ===== *)
(** * Requests, sessions and exceptions

    FastAPI handlers and Celery tasks run as functions in a small state and
    exception monad.  The state is the world a request can change: the
    committed database, the database as the open SQLAlchemy session sees it
    (the committed state plus what has been flushed), the tasks put on the
    Celery queue and the lines of the audit logger.  [session.commit()] makes the
    session's view permanent; an exception that leaves the handler closes
    the session and so drops what was not committed. *)

From S2P Require Import Prelude PyStr Models.

(** ** Exceptions *)

Inductive exn :=
| HTTPException (status_code : Z) (detail : string) (headers : list (string * string))
| RequestValidationError
| ValueError (message : string)
| RuntimeError (message : string)
| IPPoolExhausted (message : string)
| IntegrityError
| SSHCAError (message : string)
| SSHError (message : string) (** connection, command, host-cert install, timeout, OS errors *)
| RateLimitBackendError
| EnrollMetricsBackendError
| OperationalError (** the database driver cannot reach the server *)
| BrokerError (** the message broker refuses a task, or cannot be reached *)
| PKIError (message : string)
| CryptoError (message : string)
| DecryptError (message : string)
| AttributeError (message : string)
| KeyError (key : string)
| TypeError (message : string)
| VaultError (message : string)
| OverflowError (** a date out of range *)
| OSError (message : string)
| Exit (code : Z) (stderr : string) (** [typer.Exit], with what the command wrote to stderr *)
| Retry (countdown : Z).

#[global] Instance exn_eq_dec : EqDecision exn.
Proof. solve_decision. Defined.

(** An [HTTPException] without extra headers. *)
Definition http_error (code : Z) (detail : string) : exn := HTTPException code detail [].

(** ** Tasks *)

(** Ciphertext and context of the optional bootstrap key and passphrase. *)
Record bootstrap_kwargs := mkBootstrapKwargs {
  pem_ciphertext : option string; pem_context : option string;
  passphrase_ciphertext : option string; passphrase_context : option string
}.
Definition no_bootstrap : bootstrap_kwargs := mkBootstrapKwargs None None None None.

(** Messages on the Celery queue. *)
Inductive task_msg :=
| ProvisionServer (server_id : Z) (b : bootstrap_kwargs)
| ProvisionClient (client_id : Z) (b : bootstrap_kwargs)
| ReconfigureServer (server_id generation : Z)
| RotateHostCert (server_id : Z)
| RotateClientHostCert (client_id : Z)
| DiscoverPeers (server_id : Z)
| DiscoverAllPeers.


(** ** The world and the monad *)

(** What a program changes outside the database and never rolls back: the
    serials the PKI backend has issued and revoked, and files (path to
    contents and mode). *)
Record Outside := mkOutside {
  issued : list Z; revoked_serials : list Z; files : gmap string (string * Z);
  samples : list (string * string * string); (** HTTP metrics: method, path, status *)
  outcomes : list string; (** enrollment outcomes handed to the metrics store *)
  broker : task_msg -> bool (** which messages the broker accepts *)
}.
Definition all_accepted (t : task_msg) : bool := true.
Definition nothing_outside : Outside := mkOutside [] [] ∅ [] [] all_accepted.

Record World := mkWorld {
  committed : DB; view : DB; queue : list task_msg; audit_log : list string; outside : Outside
}.

(** The world of a request that starts on database [d], in any surroundings and
    with nothing around it but a broker that accepts every message. *)
Definition start_in (o : Outside) (d : DB) : World := mkWorld d d [] [] o.
Definition start (d : DB) : World := mkWorld d d [] [] nothing_outside.

Inductive outcome (A : Type) := Ok (a : A) | Raise (e : exn).
Arguments Ok {A}.
Arguments Raise {A}.

Definition M (A : Type) : Type := World -> outcome A * World.

Definition ret {A} (a : A) : M A := fun w => (Ok a, w).
Definition raise {A} (e : exn) : M A := fun w => (Raise e, w).
Definition bind {A B} (m : M A) (k : A -> M B) : M B := fun w =>
  match m w with
  | (Ok a, w') => k a w'
  | (Raise e, w') => (Raise e, w')
  end.

Notation "x <- m ;; k" := (bind m (fun x => k))
  (at level 100, m at next level, right associativity) : wg_scope.
Notation "m ;; k" := (bind m (fun _ => k))
  (at level 100, right associativity) : wg_scope.
Open Scope wg_scope.

(** [try: m except e: h e] *)
Definition try_except {A} (m : M A) (h : exn -> M A) : M A := fun w =>
  match m w with
  | (Ok a, w') => (Ok a, w')
  | (Raise e, w') => h e w'
  end.

(** An outcome computed outside the session. *)
Definition lift {A} (o : outcome A) : M A := fun w => (o, w).

Definition raise_if (b : bool) (e : exn) : M unit := if b then raise e else ret tt.

(** Unwrap an option, raising when it is [None]. *)
Definition some_or_raise {A} (o : option A) (e : exn) : M A :=
  match o with Some a => ret a | None => raise e end.

(** ** The session *)

Definition get_db : M DB := fun w => (Ok (view w), w).

(** [session.add / update / delete] followed by a flush. *)
Definition modify_db (f : DB -> DB) : M unit := fun w =>
  (Ok tt, mkWorld (committed w) (f (view w)) (queue w) (audit_log w) (outside w)).

(** A flush that violates a constraint raises and changes nothing. *)
Definition flush_checked (ok : DB -> bool) (f : DB -> DB) : M unit := fun w =>
  if ok (view w) then modify_db f w else (Raise IntegrityError, w).

Definition commit : M unit := fun w =>
  (Ok tt, mkWorld (view w) (view w) (queue w) (audit_log w) (outside w)).
Definition rollback : M unit := fun w =>
  (Ok tt, mkWorld (committed w) (committed w) (queue w) (audit_log w) (outside w)).

(** [task.delay(...)] / [task.apply_async(...)]; raises when the broker does not
    take the message. *)
Definition dispatch (t : task_msg) : M unit := fun w =>
  if broker (outside w) t
  then (Ok tt, mkWorld (committed w) (view w) (queue w ++ [t]) (audit_log w) (outside w))
  else (Raise BrokerError, w).

(** One line on the audit logger; never rolled back. *)
Definition log (l : string) : M unit := fun w =>
  (Ok tt, mkWorld (committed w) (view w) (queue w) (audit_log w ++ [l]) (outside w)).

(** One outcome counted; the store answers or not, the caller goes on. *)
Definition count_outcome (name : string) : M unit := fun w =>
  (Ok tt, mkWorld (committed w) (view w) (queue w) (audit_log w)
     (mkOutside (issued (outside w)) (revoked_serials (outside w)) (files (outside w)) (samples (outside w))
        (outcomes (outside w) ++ [name]) (broker (outside w)))).

(** [with Session(engine) as session: m]: the block starts on the committed
    state, and leaving it, normally or by an exception, drops what was not
    committed. *)
Definition with_session {A} (m : M A) : M A := fun w =>
  let '(r, w') := m (mkWorld (committed w) (committed w) (queue w) (audit_log w) (outside w)) in
  (r, mkWorld (committed w') (committed w') (queue w') (audit_log w') (outside w')).

(** Transactions of other requests that commit while the session has no
    pending write. *)
Definition others_commit (f : DB -> DB) : M unit := fun w =>
  (Ok tt, mkWorld (f (committed w)) (f (committed w)) (queue w) (audit_log w) (outside w)).

(** Running a handler on database [d]: the response, and the world once the
    request's session is closed; with any broker, and with one that accepts
    every message. *)
Definition run_in {A} (o : Outside) (m : M A) (d : DB) : outcome A * World :=
  let '(r, w) := m (start_in o d) in
  (r, mkWorld (committed w) (committed w) (queue w) (audit_log w) (outside w)).
Definition run {A} (m : M A) (d : DB) : outcome A * World :=
  let '(r, w) := m (start d) in
  (r, mkWorld (committed w) (committed w) (queue w) (audit_log w) (outside w)).

Definition result {A} (m : M A) (d : DB) : outcome A := (run m d).1.
Definition final_db {A} (m : M A) (d : DB) : DB := committed (run m d).2.
Definition dispatched {A} (m : M A) (d : DB) : list task_msg := queue (run m d).2.

(** ** Reasoning about runs *)

Lemma bind_Ok {A B} (m : M A) (k : A -> M B) w r w' :
  (x <- m ;; k x) w = (Ok r, w') ->
  exists a w1, m w = (Ok a, w1) /\ k a w1 = (Ok r, w').
Proof. unfold bind. destruct (m w) as [[a|e] w1]; intros H; [eauto|done]. Qed.

Lemma bind_Raise {A B} (m : M A) (k : A -> M B) w e w' :
  (x <- m ;; k x) w = (Raise e, w') ->
  m w = (Raise e, w') \/ exists a w1, m w = (Ok a, w1) /\ k a w1 = (Raise e, w').
Proof.
  unfold bind. destruct (m w) as [[a|e'] w1]; intros H; [right; eauto|left; by simplify_eq].
Qed.

(** Run the first command of a sequence. *)
Lemma bind_step {A B} (m : M A) (k : A -> M B) w a w' :
  m w = (Ok a, w') -> (x <- m ;; k x) w = k a w'.
Proof. unfold bind. by intros ->. Qed.

Lemma bind_ret {A B} (a : A) (k : A -> M B) w : (x <- ret a ;; k x) w = k a w.
Proof. done. Qed.

Lemma bind_get_db {B} (k : DB -> M B) w : (d <- get_db ;; k d) w = k (view w) w.
Proof. done. Qed.

(** A computation that commits nothing and queues nothing, whatever its
    outcome. *)
Definition quiet {A} (m : M A) : Prop :=
  forall w r w', m w = (r, w') -> committed w' = committed w /\ queue w' = queue w.

(** A computation that always returns. *)
Definition never_raises {A} (m : M A) : Prop := forall w e w', m w <> (Raise e, w').

(** All or nothing: if it raises, nothing was committed and no task queued. *)
Definition atomic {A} (m : M A) : Prop :=
  forall w e w', m w = (Raise e, w') -> committed w' = committed w /\ queue w' = queue w.

Section effects.
Context {A B : Type}.

Lemma quiet_ret (a : A) : quiet (ret a).
Proof. by intros w r w' [= <- <-]. Qed.

Lemma quiet_raise e : quiet (@raise A e).
Proof. by intros w r w' [= <- <-]. Qed.

Lemma quiet_bind (m : M A) (k : A -> M B) :
  quiet m -> (forall a, quiet (k a)) -> quiet (x <- m ;; k x).
Proof.
  intros Hm Hk w r w'. unfold bind. destruct (m w) as [[a|e] w1] eqn:E; intros H.
  - apply Hm in E as [<- <-]. by apply Hk in H.
  - simplify_eq. by apply Hm in E.
Qed.

Lemma quiet_some (o : option A) e : quiet (some_or_raise o e).
Proof. destruct o; [apply quiet_ret|apply quiet_raise]. Qed.

Lemma quiet_lift (o : outcome A) : quiet (lift o).
Proof. by intros w r w' [= <- <-]. Qed.

Lemma never_ret (a : A) : never_raises (ret a).
Proof. by intros w e w'. Qed.

Lemma never_bind (m : M A) (k : A -> M B) :
  never_raises m -> (forall a, never_raises (k a)) -> never_raises (x <- m ;; k x).
Proof.
  intros Hm Hk w e w' H. apply bind_Raise in H as [H|(a & w1 & _ & H)]; [by eapply Hm|by eapply Hk].
Qed.

Lemma atomic_quiet (m : M A) : quiet m -> atomic m.
Proof. intros H w e w'. apply H. Qed.

Lemma atomic_total (m : M A) : never_raises m -> atomic m.
Proof. intros H w e w' E. by apply H in E. Qed.

Lemma atomic_bind (m : M A) (k : A -> M B) :
  quiet m -> (forall a, atomic (k a)) -> atomic (x <- m ;; k x).
Proof.
  intros Hm Hk w e w' H. apply bind_Raise in H as [H|(a & w1 & E & H)]; [by apply Hm in H|].
  apply Hm in E as [<- <-]. by eapply Hk.
Qed.

(** An atomic prefix that always returns in the end. *)
Lemma atomic_bind_total (m : M A) (k : A -> M B) :
  atomic m -> (forall a, never_raises (k a)) -> atomic (x <- m ;; k x).
Proof.
  intros Hm Hk w e w' H. apply bind_Raise in H as [H|(a & w1 & E & H)]; [by apply Hm in H|].
  by apply Hk in H.
Qed.
End effects.

Lemma quiet_raise_if b e : quiet (raise_if b e).
Proof. destruct b; [apply quiet_raise|apply quiet_ret]. Qed.
Lemma quiet_get_db : quiet get_db.
Proof. by intros w r w' [= <- <-]. Qed.
Lemma quiet_count name : quiet (count_outcome name).
Proof. by intros w r w' [= <- <-]. Qed.
Lemma never_count name : never_raises (count_outcome name).
Proof. by intros w e w'. Qed.
Lemma quiet_modify f : quiet (modify_db f).
Proof. by intros w r w' [= <- <-]. Qed.
Lemma quiet_flush ok f : quiet (flush_checked ok f).
Proof. intros w r w'. unfold flush_checked. case_match; by intros [= <- <-]. Qed.
Lemma quiet_rollback : quiet rollback.
Proof. by intros w r w' [= <- <-]. Qed.
Lemma quiet_log l : quiet (log l).
Proof. by intros w r w' [= <- <-]. Qed.
Lemma never_get_db : never_raises get_db.
Proof. by intros w e w'. Qed.
Lemma never_modify f : never_raises (modify_db f).
Proof. by intros w e w'. Qed.
Lemma never_commit : never_raises commit.
Proof. by intros w e w'. Qed.
Lemma never_log l : never_raises (log l).
Proof. by intros w e w'. Qed.
#[export] Hint Resolve quiet_ret quiet_raise quiet_bind quiet_some quiet_lift quiet_raise_if
  quiet_get_db quiet_modify quiet_flush quiet_rollback quiet_log quiet_count never_count never_ret never_get_db never_modify
  never_commit never_log : wg.

(** Discharge [quiet], [never_raises] and [atomic] goals by following the
    program's text; an atomic program is a quiet prefix and a total rest. *)
Ltac solve_effect :=
  repeat first
    [ progress intros
    | progress cbv zeta
    | solve [eauto 3 with wg]
    | apply quiet_bind | apply never_bind
    | apply atomic_bind; [solve_effect; fail|]
    | apply atomic_quiet; solve [solve_effect]
    | apply atomic_total; solve [solve_effect]
    | match goal with
      | |- quiet (match ?x with _ => _ end) => destruct x
      | |- never_raises (match ?x with _ => _ end) => destruct x
      | |- atomic (match ?x with _ => _ end) => destruct x
      end ].

(** Step through a successful run: split every bind of hypothesis [H]. *)
Ltac step_ok H :=
  repeat match type of H with
  | (bind _ _) _ = (Ok _, _) =>
      let a := fresh "a" in let w := fresh "w" in let H1 := fresh "Hm" in
      apply bind_Ok in H as (a & w & H1 & H)
  end.

Lemma raise_if_Ok b e w u w' : raise_if b e w = (Ok u, w') <-> b = false /\ w' = w /\ u = tt.
Proof. destruct b, u; unfold raise_if, raise, ret; split; intros H; naive_solver. Qed.

Lemma some_or_raise_Ok {A} (o : option A) e w a w' :
  some_or_raise o e w = (Ok a, w') <-> o = Some a /\ w' = w.
Proof. destruct o; unfold some_or_raise, raise, ret; split; intros H; naive_solver. Qed.

Lemma lift_Ok {A} (o : outcome A) w a w' : lift o w = (Ok a, w') <-> o = Ok a /\ w' = w.
Proof. unfold lift. split; [intros [= -> ->]; done|intros [-> ->]; done]. Qed.

Lemma dispatch_Ok t w u w' : dispatch t w = (Ok u, w') <-> broker (outside w) t = true /\ u = tt /\
  w' = mkWorld (committed w) (view w) (queue w ++ [t]) (audit_log w) (outside w).
Proof. destruct u. unfold dispatch. destruct (broker (outside w) t); split; intros H; naive_solver. Qed.

Lemma get_db_Ok w d w' : get_db w = (Ok d, w') <-> d = view w /\ w' = w.
Proof. unfold get_db. split; intros H; naive_solver. Qed.

(** Simplify the primitive steps left by [step_ok]. *)
Ltac prim_ok :=
  repeat match goal with
  | H : raise_if _ _ _ = (Ok _, _) |- _ => apply raise_if_Ok in H as (? & ? & ?); subst
  | H : some_or_raise _ _ _ = (Ok _, _) |- _ => apply some_or_raise_Ok in H as (? & ?); subst
  | H : lift _ _ = (Ok _, _) |- _ => apply lift_Ok in H as (? & ?); subst
  | H : get_db _ = (Ok _, _) |- _ => apply get_db_Ok in H as (? & ?); subst
  | H : modify_db _ _ = (Ok _, _) |- _ => unfold modify_db in H; simplify_eq
  | H : commit _ = (Ok _, _) |- _ => unfold commit in H; simplify_eq
  | H : dispatch _ _ = (Ok _, _) |- _ => apply dispatch_Ok in H as (? & ? & ?); subst
  | H : log _ _ = (Ok _, _) |- _ => unfold log in H; simplify_eq
  | H : ret _ _ = (Ok _, _) |- _ => unfold ret in H; simplify_eq
  | H : raise _ _ = (Ok _, _) |- _ => discriminate H
  end.

Lemma run_in_world {A} o (m : M A) d r w : run_in o m d = (r, w) ->
  exists w1, m (start_in o d) = (r, w1) /\ committed w = committed w1 /\ queue w = queue w1 /\
    audit_log w = audit_log w1.
Proof. unfold run_in. destruct (m (start_in o d)) as [r1 w1]. intros [= <- <-]. eauto. Qed.

Lemma run_world {A} (m : M A) d r w : run m d = (r, w) ->
  exists w1, m (start d) = (r, w1) /\ committed w = committed w1 /\ queue w = queue w1 /\
    audit_log w = audit_log w1.
Proof. unfold run. destruct (m (start d)) as [r1 w1]. intros [= <- <-]. eauto. Qed.
