(* ===== verification/Broker.v ===== *)
(** * When the broker refuses a message

    Handlers queue their task after they have committed, so a broker that does
    not take the message makes a request fail whose transaction stands.  This
    file relates the run of a program under any broker to its run under one
    that accepts every message: a handler is [late] when the only difference is
    that the message is missing and the answer is the broker's error. *)

From S2P Require Import Prelude PyStr Models Session.

Definition with_broker (b : task_msg -> bool) (w : World) : World :=
  mkWorld (committed w) (view w) (queue w) (audit_log w)
    (mkOutside (issued (outside w)) (revoked_serials (outside w)) (files (outside w)) (samples (outside w))
       (outcomes (outside w)) b).

Definition accepting (w : World) : Prop := forall t, broker (outside w) t = true.

(** The same surroundings with a broker that accepts everything. *)
Definition open_broker (o : Outside) : Outside :=
  mkOutside (issued o) (revoked_serials o) (files o) (samples o) (outcomes o) all_accepted.

Lemma start_in_eq o d : start_in o d = with_broker (broker o) (start_in (open_broker o) d).
Proof. by destruct o. Qed.
Lemma accepting_start o d : accepting (start_in (open_broker o) d).
Proof. done. Qed.

(** ** Programs that do not use the broker *)

Definition steady {A} (m : M A) : Prop := forall w, queue (m w).2 = queue w /\
  broker (outside (m w).2) = broker (outside w) /\
  forall b, m (with_broker b w) = ((m w).1, with_broker b (m w).2).

Section steady.
Context {A B : Type}.

Lemma steady_ret (a : A) : steady (ret a).
Proof. done. Qed.
Lemma steady_raise e : steady (@raise A e).
Proof. done. Qed.
Lemma steady_lift (o : outcome A) : steady (lift o).
Proof. done. Qed.
Lemma steady_some (o : option A) e : steady (some_or_raise o e).
Proof. by destruct o. Qed.

Lemma steady_bind (m : M A) (k : A -> M B) : steady m -> (forall a, steady (k a)) -> steady (x <- m ;; k x).
Proof.
  intros Hm Hk w. unfold bind. destruct (Hm w) as (Hq & Hb & Ho). destruct (m w) as [[a|e] w1] eqn:E; cbn [fst snd] in *.
  - destruct (Hk a w1) as (Hq1 & Hb1 & Ho1). split_and!; [congruence|congruence|].
    intros b. by rewrite Ho, Ho1.
  - split_and!; [done|done|]. intros b. by rewrite Ho.
Qed.

Lemma steady_try (m : M A) h : steady m -> (forall e, steady (h e)) -> steady (try_except m h).
Proof.
  intros Hm Hh w. unfold try_except. destruct (Hm w) as (Hq & Hb & Ho). destruct (m w) as [[a|e] w1] eqn:E; cbn [fst snd] in *.
  - split_and!; [done|done|]. intros b. by rewrite Ho.
  - destruct (Hh e w1) as (Hq1 & Hb1 & Ho1). split_and!; [congruence|congruence|]. intros b. by rewrite Ho, Ho1.
Qed.
End steady.

Lemma steady_raise_if b e : steady (raise_if b e).
Proof. by destruct b. Qed.
Lemma steady_get_db : steady get_db.
Proof. done. Qed.
Lemma steady_modify f : steady (modify_db f).
Proof. done. Qed.
Lemma steady_flush ok f : steady (flush_checked ok f).
Proof. intros w. unfold flush_checked, modify_db. cbn [view with_broker]. by destruct (ok (view w)). Qed.
Lemma steady_commit : steady commit.
Proof. done. Qed.
Lemma steady_rollback : steady rollback.
Proof. done. Qed.
Lemma steady_log l : steady (log l).
Proof. done. Qed.
Lemma steady_count name : steady (count_outcome name).
Proof. done. Qed.
#[export] Hint Resolve steady_ret steady_raise steady_lift steady_some steady_raise_if steady_get_db steady_modify
  steady_flush steady_commit steady_rollback steady_log steady_count : wg.

Ltac solve_steady :=
  repeat first
    [ progress intros | progress cbv zeta | solve [eauto 2 with wg] | apply steady_bind | apply steady_try
    | match goal with |- steady (match ?x with _ => _ end) => destruct x end ].

(** ** Programs that queue last *)

(** Under an accepting broker [m] returns; under another one it returns the
    same, or raises the broker's error on the same committed database with
    nothing queued. *)
Definition late_total {A} (m : M A) (w : World) : Prop := forall b, exists a w1, m w = (Ok a, w1) /\
  (m (with_broker b w) = (Ok a, with_broker b w1) \/
   exists w', m (with_broker b w) = (Raise BrokerError, w') /\ queue w' = queue w /\ committed w' = committed w1).

(** The same, or [m] raises under both and has changed nothing. *)
Definition late {A} (m : M A) (w : World) : Prop := late_total m w \/
  exists e w1, m w = (Raise e, w1) /\ committed w1 = committed w /\ queue w1 = queue w /\
    forall b, m (with_broker b w) = (Raise e, with_broker b w1).

Section late.
Context {A B : Type}.

Lemma late_quiet (m : M A) (k : A -> M B) w : steady m -> quiet m -> accepting w ->
  (forall a w1, accepting w1 -> committed w1 = committed w -> m w = (Ok a, w1) -> late (k a) w1) -> late (x <- m ;; k x) w.
Proof.
  intros Hs Hq Ha Hk. unfold late, late_total, bind. destruct (Hs w) as (Hqu & Hb & Ho).
  destruct (m w) as [[a|e] w1] eqn:E; cbn [fst snd] in *; pose proof (Hq _ _ _ E) as [Hc _].
  - destruct (Hk a w1) as [Ht|(e & w2 & E2 & Hc2 & Hq2 & Hr)]; [intros t; by rewrite Hb|done|done| |].
    + left. intros b. rewrite Ho. destruct (Ht b) as (x & w2 & E2 & [Hsame|(w' & Hr & Hq' & Hc')]); exists x, w2;
        (split; [done|]); [by left|]. right. exists w'. split_and!; [done|congruence|done].
    + right. exists e, w2. split_and!; [done|congruence|congruence|]. intros b. by rewrite Ho.
  - right. exists e, w1. split_and!; [done|done|done|]. intros b. by rewrite Ho.
Qed.

(** Steps without effect, and a transaction that all happens or does not. *)
Lemma late_only_quiet (m : M A) w : steady m -> quiet m -> late m w.
Proof.
  intros Hs Hq. destruct (Hs w) as (_ & _ & Ho). destruct (m w) as [[a|e] w1] eqn:E.
  - left. intros b. exists a, w1. split; [done|]. left. by rewrite Ho.
  - right. exists e, w1. pose proof (Hq _ _ _ E) as [Hc Hqu]. split_and!; [done..|]. intros b. by rewrite Ho.
Qed.

Lemma late_atomic (m : M A) (k : A -> M B) w : steady m -> atomic m -> accepting w ->
  (forall a w1, accepting w1 -> m w = (Ok a, w1) -> late_total (k a) w1) -> late (x <- m ;; k x) w.
Proof.
  intros Hs Hat Ha Hk. unfold late, late_total, bind. destruct (Hs w) as (Hqu & Hb & Ho).
  destruct (m w) as [[a|e] w1] eqn:E; cbn [fst snd] in *.
  - left. intros b. rewrite Ho. destruct (Hk a w1) with (b := b) as (x & w2 & E2 & Hr); [intros t; by rewrite Hb|done|].
    exists x, w2. split; [done|]. destruct Hr as [?|(w' & Hr & Hq' & Hc')]; [by left|].
    right. exists w'. split_and!; [done|congruence|done].
  - right. exists e, w1. pose proof (Hat _ _ _ E) as [Hc Hq]. split_and!; [done..|]. intros b. by rewrite Ho.
Qed.

Lemma late_total_steady (m : M A) (k : A -> M B) w : steady m -> never_raises m -> accepting w ->
  (forall a w1, accepting w1 -> m w = (Ok a, w1) -> late_total (k a) w1) -> late_total (x <- m ;; k x) w.
Proof.
  intros Hs Hn Ha Hk b. unfold bind. destruct (Hs w) as (Hqu & Hb & Ho).
  destruct (m w) as [[a|e] w1] eqn:E; cbn [fst snd] in *; [|by apply Hn in E].
  rewrite Ho. destruct (Hk a w1) with (b := b) as (x & w2 & E2 & Hr); [intros t; by rewrite Hb|done|].
  exists x, w2. split; [done|]. destruct Hr as [?|(w' & Hr & Hq' & Hc')]; [by left|].
  right. exists w'. split_and!; [done|congruence|done].
Qed.

Lemma late_total_ret (m : M A) w : steady m -> never_raises m -> late_total m w.
Proof.
  intros Hs Hn b. destruct (Hs w) as (_ & _ & Ho). destruct (m w) as [[a|e] w1] eqn:E; [|by apply Hn in E].
  exists a, w1. split; [done|]. left. by rewrite Ho.
Qed.

(** What follows the message only returns. *)
Lemma late_total_then (m : M A) (k : A -> M B) w : late_total m w ->
  (forall a, steady (k a) /\ quiet (k a) /\ never_raises (k a)) -> late_total (x <- m ;; k x) w.
Proof.
  intros Hm Hk b. unfold bind. destruct (Hm b) as (a & w1 & E & Hr). rewrite E.
  destruct (Hk a) as (Hs & Hq & Hn). destruct (Hs w1) as (_ & _ & Ho).
  destruct (k a w1) as [[x|e] w2] eqn:Ek; [|by apply Hn in Ek]. pose proof (Hq _ _ _ Ek) as [Hc2 _].
  exists x, w2. split; [done|]. destruct Hr as [->|(w' & -> & Hq' & Hc')]; [left; by rewrite Ho|].
  right. exists w'. split_and!; [done|done|congruence].
Qed.

Lemma late_then (m : M A) (k : A -> M B) w : late m w ->
  (forall a, steady (k a) /\ quiet (k a) /\ never_raises (k a)) -> late (x <- m ;; k x) w.
Proof.
  intros [Hm|(e & w1 & E & Hc & Hq & Hr)] Hk; [left; by apply late_total_then|].
  right. exists e, w1. unfold bind. rewrite E. split_and!; [done..|]. intros b. by rewrite Hr.
Qed.
End late.

Lemma late_total_dispatch t w : accepting w -> late_total (dispatch t) w.
Proof.
  intros Ha b. unfold dispatch. rewrite (Ha t). eexists _, _. split; [done|]. cbn [outside with_broker broker].
  destruct (b t); [left; done|]. right. eexists. by split_and!.
Qed.

(** Follow a handler: quiet steps, then the transaction, then the message. *)
Ltac solve_late_total :=
  repeat first
    [ progress intros | progress cbv zeta
    | apply late_total_dispatch; assumption
    | apply late_total_ret; [solve [solve_steady]|solve [solve_effect]]
    | apply late_total_steady; [solve [solve_steady]|solve [solve_effect]|assumption|]
    | apply late_total_then; [|intros; split_and!; [solve [solve_steady]|solve [solve_effect]|solve [solve_effect]]]
    | match goal with |- late_total (match ?x with _ => _ end) _ => destruct x end ].
Ltac solve_late :=
  repeat first
    [ progress intros | progress cbv zeta
    | left; solve [solve_late_total]
    | apply late_only_quiet; [solve [solve_steady]|solve [solve_effect]]
    | apply late_quiet; [solve [solve_steady]|solve [solve_effect]|assumption|]
    | apply late_then; [|intros; split_and!; [solve [solve_steady]|solve [solve_effect]|solve [solve_effect]]]
    | match goal with |- late (match ?x with _ => _ end) _ => destruct x end ].

(** A failed run under any broker. *)
Lemma late_run {A} (m : M A) o d e w : late m (start_in (open_broker o) d) -> run_in o m d = (Raise e, w) ->
  queue w = [] /\
  (committed w = d \/
   e = BrokerError /\ exists a w1, run_in (open_broker o) m d = (Ok a, w1) /\ committed w = committed w1).
Proof.
  intros Hl (w1 & E & -> & -> & _)%run_in_world. rewrite start_in_eq in E.
  destruct Hl as [Ht|(e' & w2 & E2 & Hc & Hq & Hr)].
  - destruct (Ht (broker o)) as (a & w2 & E2 & [Hs|(w' & Hr & Hq & Hc)]); [by rewrite Hs in E|].
    rewrite Hr in E. injection E as <- <-. split; [done|]. right. split; [done|]. eexists a, _. unfold run_in. rewrite E2. by split.
  - rewrite Hr in E. injection E as <- <-. split; [done|]. by left.
Qed.
