(* ===== verification/Demo.v ===== *)
(** * A small concrete deployment

    One tenant, one SSH role, one ready hub on [10.9.0.0/29] with two
    clients, and two operators.  The witnesses of the later files evaluate
    the modelled code on it. *)

From S2P Require Import Prelude PyStr Models Session.

Definition demo_tenant : Tenant := mkTenant "Default" "default" "10.9.0.0/16" 0.
Definition demo_tenant2 : Tenant := mkTenant "Lab" "lab" "10.42.0.0/16" 0.
Definition demo_key : SSHKey := mkSSHKey (Some 1) "ops" ca 0.

Definition demo_server : Server :=
  mkServer (Some 1) "hub.example" 22 "ubuntu" 1 "vpn.example" 51820 "wg0"
    "10.9.0.0/29" "10.9.0.1/29" "hubkey=" ready 0 no_host_cert 3 2.

Definition demo_server2 : Server :=
  mkServer (Some 2) "hub2.example" 22 "ubuntu" 1 "vpn2.example" 51820 "wg0"
    "10.42.0.0/24" "10.42.0.1/24" "hub2key=" ready 0 no_host_cert 0 0.

Definition demo_client (name address key : string) (s : NodeStatus) : Client :=
  mkClient (Some 1) name (Some "host.example") 22 (Some "ubuntu") (Some 1) 1 address key false
    s 0 no_host_cert.

Definition demo_operator : Operator := mkOperator None "alice" None admin active 0.
Definition demo_operator2 : Operator := mkOperator None "bob" None operator active 0.

Definition demo_db : DB :=
  mkDB (mkTable {[1 := demo_tenant; 2 := demo_tenant2]} 3)
       (mkTable {[1 := demo_key]} 2)
       (mkTable {[1 := demo_server; 2 := demo_server2]} 3)
       (mkTable {[1 := demo_client "a" "10.9.0.2/32" "ka=" ready;
                  2 := demo_client "b" "10.9.0.4/32" "kb=" pending]} 3)
       (mkTable {[1 := demo_operator; 2 := demo_operator2]} 3)
       (mkTable {[1 := mkOperatorTenant 2 1 operator 0]} 2)
       empty_table empty_table empty_table empty_table.
