(* ===== verification/Ipam.v ===== *)
(** * IP address management ([src/wg_manager/ipam.py])

    The two predicates on tenant pools and the allocation of client
    addresses, together with the subnet validation of the server schema
    ([schemas._parse_strict_subnet]). *)

From S2P Require Import Prelude PyStr IpAddr Models Session Demo.

(** ** The operations *)

(** [_parse_pool] *)
Definition parse_pool (value : string) : option net := IPv4Network true value.

(** [subnet_in_pool]; [None] is the [ValueError] of a malformed argument. *)
Definition subnet_in_pool (subnet pool : string) : option bool :=
  s ← parse_pool subnet; p ← parse_pool pool; Some (subnet_of s p).

(** [pools_overlap] *)
Definition pools_overlap (a b : string) : option bool :=
  pa ← parse_pool a; pb ← parse_pool b; Some (overlaps pa pb).

(** [_host_from_cidr] *)
Definition host_from_cidr (value : string) : option ip := ip_interface_ip value.

(** [select(Client.address).where(Client.server_id == server.id)] *)
Definition client_addresses (d : DB) (server_id : Z) : list string :=
  (fun ic => cl_address ic.2) <$> tbl_select (fun _ c => cl_server_id c =? server_id) (clients d).

(** The host parts of the non-empty addresses of [rows]. *)
Definition row_hosts (addrs : list string) : option (list ip) :=
  mapM host_from_cidr (List.filter nonempty addrs).

(** [for host in network.hosts(): if host not in taken: return host], without
    materialising the range.  One step more than [len(taken)] decides the loop
    ([next_free_hosts]), so that is the fuel. *)
Fixpoint next_free (fuel : nat) (h last : Z) (taken : list ip) : option Z :=
  match fuel with
  | O => None
  | S f =>
      if last <? h then None
      else if mem (V4 h) taken then next_free f (h + 1) last taken
      else Some h
  end.

(** [allocate_client_ip(session, server)] *)
Definition allocate_client_ip (d : DB) (server_id : Z) (server : Server) : outcome Z :=
  match IPv4Network false (srv_subnet server) with
  | None => Raise (ValueError "subnet")
  | Some network =>
  match host_from_cidr (srv_address server) with
  | None => Raise (ValueError "address")
  | Some server_ip =>
  match row_hosts (client_addresses d server_id) with
  | None => Raise (ValueError "address")
  | Some used =>
      let taken := V4 (naddr network) :: V4 (broadcast network) :: server_ip :: used in
      match next_free (S (length taken)) (hosts_first network)
              (hosts_first network + hosts_count network - 1) taken with
      | Some host => Ok host
      | None => Raise (IPPoolExhausted ("No free addresses remain in " +:+ srv_subnet server))
      end
  end end end.

(** [schemas._parse_strict_subnet]: the subnet of a new server. *)
Definition MAX_SUBNET_PREFIX : Z := 30.
Definition parse_strict_subnet (value : string) : option net :=
  network ← IPv4Network true value;
  if MAX_SUBNET_PREFIX <? nplen network then None else Some network.

(** ** Networks produced by the parser *)

Lemma prefix_from_string_range v s p :
  prefix_from_string v s = Some p -> 0 <= p <= net_bits v.
Proof.
  unfold prefix_from_string. destruct (isascii s) eqn:Ha, (isdigit s) eqn:Hd; simpl; try done.
  destruct (py_int s) as [n|] eqn:E; simpl; [|done].
  destruct (Z.leb_spec n (net_bits v)); intros [= <-]. split; [|done].
  destruct (isdigit_ascii_decimal s Hd Ha) as [Hne Hdec].
  unfold py_int in E.
  rewrite strip_no_space in E by (eapply str_forall_impl; [apply is_decimal_not_space|done]).
  destruct s as [|c s]; [done|]. unfold with_sign in E.
  pose proof Hdec as Hc. simpl in Hc. apply andb_true_iff in Hc as [Hc _].
  unfold is_decimal in Hc. bool_to_prop.
  rewrite (proj2 (Z.eqb_neq (code c) 45)), (proj2 (Z.eqb_neq (code c) 43)) in E by lia.
  case_match; [done|]. rewrite digits_value_decimal in E by auto.
  simplify_eq. by apply val10_nonneg.
Qed.

Lemma trailing_zeros_nonneg f n : 0 <= trailing_zeros f n.
Proof. revert n. induction f as [|f IH]; intros n; simpl; [lia|]. case_match; [lia|]. specialize (IH (n / 2)). lia. Qed.

Lemma prefix_from_int_range n p : prefix_from_int n = Some p -> 0 <= p <= 32.
Proof.
  unfold prefix_from_int. pose proof (trailing_zeros_nonneg 32 n) as Ht.
  set (tz := if n =? 0 then 32 else Z.min 32 (trailing_zeros 32 n)).
  assert (0 <= tz <= 32) by (unfold tz; destruct (n =? 0); lia).
  clearbody tz. clear Ht. cbv zeta. destruct (Z.shiftr n tz =? _); [|done].
  intros H'. injection H' as <-. lia.
Qed.

Lemma mask_or_host_range v m p : mask_or_host v m = Some p -> 0 <= p <= net_bits v.
Proof.
  unfold mask_or_host, make_netmask. destruct m as [m|].
  2:{ intros [= <-]. pose proof (net_bits_pos v). lia. }
  destruct (prefix_from_string v m) eqn:E.
  - intros [= <-]. by apply prefix_from_string_range in E.
  - destruct v; [done|]. unfold prefix_from_ip_string.
    destruct (v4_parse m); simpl; [|done].
    case_match; intros; simplify_eq; by eapply prefix_from_int_range.
Qed.

Lemma IPv4Network_wf strict s n : IPv4Network strict s = Some n -> wf_net n /\ nv6 n = false.
Proof.
  unfold IPv4Network. destruct (split_addr_prefix s) as [[a m]|]; simpl; [|done].
  destruct (IPv4Address a) as [addr|] eqn:Ea; simpl; [|done].
  destruct (mask_or_host false m) as [p|] eqn:Ep; simpl; [|done]. intros H.
  unfold IPv4Address in Ea. case_match; [done|]. apply v4_parse_range in Ea.
  apply mask_or_host_range in Ep. split.
  - by eapply make_network_wf.
  - unfold make_network in H. case_match; [done|]. by simplify_eq.
Qed.

Lemma IPv4Network_strict s n : IPv4Network true s = Some n -> IPv4Network false s = Some n.
Proof.
  unfold IPv4Network. destruct (split_addr_prefix _) as [[a m]|]; simpl; [|done].
  destruct (IPv4Address a); simpl; [|done]. destruct (mask_or_host false m); simpl; [|done].
  unfold make_network. destruct (negb _ && true) eqn:Eb; [done|].
  rewrite andb_true_r in Eb. by rewrite Eb.
Qed.

(** ** The search loop *)

Definition free (taken : list ip) (h : Z) : bool := negb (mem (V4 h) taken).

Lemma next_free_take fuel h n taken :
  0 <= n ->
  next_free fuel h (h + n - 1) taken = find_first (free taken) (take fuel (seqZ h n)).
Proof.
  revert h n. induction fuel as [|f IH]; intros h n Hn; [done|]. simpl.
  destruct (Z.ltb_spec (h + n - 1) h).
  - assert (n = 0) as -> by lia. done.
  - rewrite (seqZ_cons h n) by lia. simpl. unfold free at 1.
    destruct (mem (V4 h) taken) eqn:E; simpl; [|done].
    rewrite <- (IH (Z.succ h) (Z.pred n)) by lia. f_equal; lia.
Qed.

(** Pigeonhole: among [length taken + 1] distinct hosts one is free. *)
Lemma free_exists (taken : list ip) (l : list Z) :
  NoDup l -> (length taken < length l)%nat -> exists h, h ∈ l /\ free taken h = true.
Proof.
  intros Hnd Hlen. destruct (find_first (free taken) l) as [h|] eqn:E.
  - apply find_first_Some in E as (l1 & l2 & -> & Hf & _).
    exists h. split; [set_solver|done].
  - exfalso. apply find_first_None in E. rewrite Forall_forall in E.
    assert (Hsub : (V4 <$> l) ⊆ taken).
    { intros x Hx. apply list_elem_of_fmap in Hx as (h & -> & Hh).
      apply E in Hh. unfold free in Hh. apply negb_false_iff in Hh. by apply mem_true. }
    assert (Hnd' : NoDup (V4 <$> l)) by (apply NoDup_fmap; [intros ?? [=]; done|done]).
    pose proof (NoDup_submseteq _ _ Hnd' ltac:(intros x; apply Hsub)) as Hs.
    apply submseteq_length in Hs. rewrite length_fmap in Hs. lia.
Qed.

(** The bounded loop is the loop over [network.hosts()]. *)
Lemma next_free_hosts network taken :
  wf_net network -> nv6 network = false ->
  next_free (S (length taken)) (hosts_first network)
    (hosts_first network + hosts_count network - 1) taken =
  find_first (free taken) (hosts network).
Proof.
  intros Hwf Hv. assert (Hc : 0 <= hosts_count network).
  { unfold hosts_count. rewrite broadcast_eq by done. pose proof (net_size_pos _ Hwf).
    case_match; [|lia]. bool_to_prop. unfold net_size in *. rewrite Hv in *. simpl in *.
    assert (2 ^ 2 <= 2 ^ (32 - nplen network)) by (apply Z.pow_le_mono_r; lia). lia. }
  rewrite next_free_take by done. unfold hosts.
  set (l := seqZ _ _). set (k := S (length taken)).
  destruct (decide (length l <= k)%nat) as [Hle|Hgt]; [by rewrite take_ge|].
  destruct (free_exists taken (take k l)) as (h & Hh & Hf).
  - eapply sublist_NoDup; [apply NoDup_seqZ|apply sublist_take].
  - rewrite length_take. lia.
  - destruct (find_first (free taken) (take k l)) as [x|] eqn:E.
    + rewrite <- (take_drop k l). symmetry. by apply find_first_app.
    + apply find_first_None in E. rewrite Forall_forall in E. apply E in Hh. congruence.
Qed.

(** ** Inversion of an allocation *)

Definition reserved (network : net) (server_ip : ip) (used : list ip) : list ip :=
  V4 (naddr network) :: V4 (broadcast network) :: server_ip :: used.

Lemma allocate_inv d sid server r :
  allocate_client_ip d sid server = r ->
  (exists msg, r = Raise (ValueError msg)) \/
  exists network server_ip used,
    IPv4Network false (srv_subnet server) = Some network /\
    host_from_cidr (srv_address server) = Some server_ip /\
    row_hosts (client_addresses d sid) = Some used /\
    r = match find_first (free (reserved network server_ip used)) (hosts network) with
        | Some h => Ok h
        | None => Raise (IPPoolExhausted ("No free addresses remain in " +:+ srv_subnet server))
        end.
Proof.
  unfold allocate_client_ip.
  destruct (IPv4Network false (srv_subnet server)) as [network|] eqn:En; [|eauto].
  destruct (host_from_cidr (srv_address server)) as [sip|] eqn:Es; [|eauto].
  destruct (row_hosts (client_addresses d sid)) as [used|] eqn:Eu; [|eauto].
  intros <-. right. exists network, sip, used. split_and!; [done..|].
  destruct (IPv4Network_wf _ _ _ En) as [Hwf Hv].
  rewrite <- (next_free_hosts network (reserved network sip used)) by done. done.
Qed.

Lemma row_hosts_spec addrs used :
  row_hosts addrs = Some used ->
  (forall s, s ∈ addrs -> s <> "" -> exists a, host_from_cidr s = Some a /\ a ∈ used) /\
  (forall a, a ∈ used -> exists s, s ∈ addrs /\ s <> "" /\ host_from_cidr s = Some a) /\
  (length used <= length addrs)%nat.
Proof.
  unfold row_hosts. intros H. apply mapM_Some in H.
  assert (Hin : forall s, s ∈ List.filter nonempty addrs <-> s ∈ addrs /\ s <> "").
  { intros s. rewrite !list_elem_of_In, filter_In, nonempty_true. done. }
  split_and!.
  - intros s Hs Hne. assert (Hf : s ∈ List.filter nonempty addrs) by (by apply Hin).
    apply list_elem_of_lookup in Hf as [k Hk].
    destruct (Forall2_lookup_l _ _ _ _ _ H Hk) as (a & Ha & E).
    exists a. split; [done|]. by eapply list_elem_of_lookup_2.
  - intros a Ha. apply list_elem_of_lookup in Ha as [k Hk].
    destruct (Forall2_lookup_r _ _ _ _ _ H Hk) as (s & Hs & E).
    apply list_elem_of_lookup_2, Hin in Hs as [? ?]. eauto.
  - rewrite <- (Forall2_length _ _ _ H). apply List.filter_length_le.
Qed.

Lemma client_addresses_spec d sid s :
  s ∈ client_addresses d sid <->
  exists i c, rows (clients d) !! i = Some c /\ cl_server_id c = sid /\ cl_address c = s.
Proof.
  unfold client_addresses. rewrite list_elem_of_fmap. split.
  - intros ([i c] & -> & H). apply tbl_select_spec in H as [? ?%Z.eqb_eq]. eauto.
  - intros (i & c & Hr & Hs & <-). exists (i, c). split; [done|].
    apply tbl_select_spec. split; [done|by apply Z.eqb_eq].
Qed.

(** Host [h] is in use on hub [sid]: by the hub itself or by a client row. *)
Definition in_use (d : DB) (sid : Z) (server : Server) (h : Z) : Prop :=
  host_from_cidr (srv_address server) = Some (V4 h) \/
  exists i c, rows (clients d) !! i = Some c /\ cl_server_id c = sid /\ cl_address c <> "" /\
    host_from_cidr (cl_address c) = Some (V4 h).

Lemma free_reserved d sid server network sip used h :
  host_from_cidr (srv_address server) = Some sip ->
  row_hosts (client_addresses d sid) = Some used ->
  free (reserved network sip used) h = true <->
  h <> naddr network /\ h <> broadcast network /\ ~ in_use d sid server h.
Proof.
  intros Hs Hu. destruct (row_hosts_spec _ _ Hu) as (H1 & H2 & _).
  unfold free. rewrite negb_true_iff, mem_false. unfold reserved.
  rewrite !not_elem_of_cons. split.
  - intros (Ha & Hb & Hc & Hd). split_and!; [congruence..|].
    intros [E|(i & c & Hr & Hi & Hne & E)]; [congruence|].
    destruct (H1 (cl_address c)) as (a & Ea & Hin); [apply client_addresses_spec; eauto|done|].
    congruence.
  - intros (Ha & Hb & Hn). split_and!; [congruence..| |].
    + intros E. apply Hn. left. congruence.
    + intros Hin. apply H2 in Hin as (s & Hin & Hne & E).
      apply client_addresses_spec in Hin as (i & c & ? & ? & <-).
      apply Hn. right. eauto 10.
Qed.

Lemma taken_reserved d sid server network sip used h :
  host_from_cidr (srv_address server) = Some sip ->
  row_hosts (client_addresses d sid) = Some used ->
  free (reserved network sip used) h = false ->
  h = naddr network \/ h = broadcast network \/ in_use d sid server h.
Proof.
  intros Hs Hu Hf. unfold free in Hf. apply negb_false_iff, mem_true in Hf.
  unfold reserved in Hf. rewrite !elem_of_cons in Hf.
  destruct Hf as [[= ->]|[[= ->]|[<-|Hf]]]; [auto|auto|right; right; by left|].
  destruct (row_hosts_spec _ _ Hu) as (_ & Hback & _). apply Hback in Hf as (s & Hin & ? & ?).
  apply client_addresses_spec in Hin as (i & c & ? & ? & <-). right; right; right. eauto 10.
Qed.

(** What an allocated address is, before minimality. *)
Lemma allocate_facts d sid server a :
  allocate_client_ip d sid server = Ok a ->
  exists network l1 l2, IPv4Network false (srv_subnet server) = Some network /\
    hosts network = l1 ++ a :: l2 /\ a <> naddr network /\ a <> broadcast network /\
    ~ in_use d sid server a /\
    forall h, h ∈ l1 -> h = naddr network \/ h = broadcast network \/ in_use d sid server h.
Proof.
  intros H. destruct (allocate_inv _ _ _ _ H) as [[? ?]|(n & sip & used & En & Es & Eu & E)]; [done|].
  destruct (find_first _ _) as [x|] eqn:Ef; [|done]. simplify_eq.
  apply find_first_Some in Ef as (l1 & l2 & El & Hx & Hl1). exists n, l1, l2. split; [done|].
  apply (free_reserved d sid server) in Hx as (? & ? & ?); [|done..].
  split_and!; try done.
  intros h Hh. rewrite Forall_forall in Hl1. by eapply taken_reserved, Hl1.
Qed.

Lemma allocate_in_hosts d sid server a :
  allocate_client_ip d sid server = Ok a ->
  exists network, IPv4Network false (srv_subnet server) = Some network /\
    a ∈ hosts network /\ ~ in_use d sid server a.
Proof.
  intros (n & l1 & l2 & ? & E & ? & ? & ? & ?)%allocate_facts. exists n.
  split_and!; [done|rewrite E; set_solver|done].
Qed.

(** C8. The address handed out lies in the hub's subnet, is neither the
    network address, the broadcast address, the hub's own address nor the
    address of any client row of the hub, and is the lowest such host. *)
Theorem allocate_lowest_free d sid server a :
  allocate_client_ip d sid server = Ok a ->
  exists network, IPv4Network false (srv_subnet server) = Some network /\
    a ∈ hosts network /\ a <> naddr network /\ a <> broadcast network /\
    ~ in_use d sid server a /\
    forall h, h ∈ hosts network -> h < a ->
      h = naddr network \/ h = broadcast network \/ in_use d sid server h.
Proof.
  intros (n & l1 & l2 & En & El & ? & ? & ? & Hl1)%allocate_facts. exists n.
  split_and!; [done|rewrite El; set_solver|done..|].
  intros h Hh Hlt. apply Hl1. rewrite El in Hh.
  apply elem_of_app in Hh as [?|Hh]; [done|]. exfalso.
  apply list_elem_of_lookup in Hh as [k Hk].
  assert (Hk' : hosts n !! (length l1 + k)%nat = Some h)
    by (rewrite El, lookup_app_r by lia; rewrite <- Hk; f_equal; lia).
  assert (Hx' : hosts n !! length l1 = Some a) by (rewrite El; apply list_lookup_middle; done).
  unfold hosts in *. apply lookup_seqZ in Hk' as [-> _], Hx' as [-> _]. lia.
Qed.

Lemma hosts_elem network h :
  wf_net network -> nplen network <= 30 ->
  h ∈ hosts network <-> naddr network < h < broadcast network.
Proof.
  intros Hwf Hp. unfold hosts, hosts_first, hosts_count. rewrite elem_of_seqZ.
  destruct (Z.ltb_spec (nplen network) 31); lia.
Qed.

Lemma hosts_length network :
  wf_net network -> nv6 network = false -> nplen network <= 30 ->
  length (hosts network) = Z.to_nat (net_size network - 2).
Proof.
  intros Hwf Hv Hp. unfold hosts, hosts_count. rewrite length_seqZ, broadcast_eq by done.
  destruct (Z.ltb_spec (nplen network) 31); f_equal; lia.
Qed.

(** Allocation raises [IPPoolExhausted] exactly when every host of a
    well-formed hub's subnet is reserved or in use. *)
Theorem allocate_exhausted_iff d sid server network :
  IPv4Network false (srv_subnet server) = Some network ->
  is_Some (host_from_cidr (srv_address server)) ->
  is_Some (row_hosts (client_addresses d sid)) ->
  (exists msg, allocate_client_ip d sid server = Raise (IPPoolExhausted msg)) <->
  forall h, h ∈ hosts network ->
    h = naddr network \/ h = broadcast network \/ in_use d sid server h.
Proof.
  intros En [sip Es] [used Eu].
  destruct (allocate_inv d sid server _ eq_refl) as [[msg E]|(n & sip' & used' & En' & Es' & Eu' & E)].
  { unfold allocate_client_ip in E. rewrite En, Es, Eu in E. case_match; done. }
  simplify_eq. rewrite E.
  destruct (find_first _ _) as [x|] eqn:Ef.
  - split; [intros [? ?]; done|]. intros Hall. exfalso.
    apply find_first_Some in Ef as (l1 & l2 & El & Hx & _).
    apply (free_reserved d sid server) in Hx as (? & ? & ?); [|done..].
    destruct (Hall x) as [?|[?|?]]; [rewrite El; set_solver|done..].
  - split; [|eauto]. intros _ h Hh. apply find_first_None in Ef.
    rewrite Forall_forall in Ef. by eapply taken_reserved, Ef.
Qed.

(** A hub whose subnet passes the registration check ([/30] or wider) can
    hold [2^(32-p) - 3] clients: while it has fewer client rows, allocation
    succeeds. *)
Theorem allocate_capacity d sid server network :
  parse_strict_subnet (srv_subnet server) = Some network ->
  is_Some (host_from_cidr (srv_address server)) ->
  is_Some (row_hosts (client_addresses d sid)) ->
  Z.of_nat (length (client_addresses d sid)) < 2 ^ (32 - nplen network) - 3 ->
  exists a, allocate_client_ip d sid server = Ok a.
Proof.
  intros Hp [sip Es] [used Eu] Hlt. unfold parse_strict_subnet in Hp.
  destruct (IPv4Network true (srv_subnet server)) as [n|] eqn:En; simpl in Hp; [|done].
  destruct (Z.ltb_spec MAX_SUBNET_PREFIX (nplen n)); [done|]. simplify_eq.
  unfold MAX_SUBNET_PREFIX in *. destruct (IPv4Network_wf _ _ _ En) as [Hwf Hv].
  pose proof (IPv4Network_strict _ _ En) as En'.
  destruct (allocate_inv d sid server _ eq_refl) as [[msg E]|(n' & sip' & used' & E1 & E2 & E3 & E)].
  { unfold allocate_client_ip in E. rewrite En', Es, Eu in E. case_match; done. }
  simplify_eq. rewrite E.
  destruct (row_hosts_spec _ _ Eu) as (_ & _ & Hlen).
  destruct (free_exists (sip :: used) (hosts network)) as (h & Hh & Hf).
  { apply NoDup_seqZ. }
  { rewrite hosts_length by done. unfold net_size. rewrite Hv. simpl. lia. }
  assert (Hf' : free (reserved network sip used) h = true).
  { apply hosts_elem in Hh; [|done..]. unfold free in *. rewrite negb_true_iff, mem_false in *.
    unfold reserved. rewrite !not_elem_of_cons in *. split_and!; [intros [=]; lia..|tauto|tauto]. }
  destruct (find_first _ _) as [x|] eqn:Ef; [eauto|].
  apply find_first_None in Ef. rewrite Forall_forall in Ef. apply Ef in Hh. congruence.
Qed.

(** ** Tenant pools *)

Lemma host_in_network n h : wf_net n -> nv6 n = false -> h ∈ hosts n -> naddr n <= h <= broadcast n.
Proof.
  intros Hwf Hv. pose proof (broadcast_range n Hwf). unfold hosts. rewrite elem_of_seqZ.
  unfold hosts_first, hosts_count. destruct (nplen n <? 31); lia.
Qed.

(** Address-space isolation between tenants: two hubs whose subnets lie in
    non-overlapping tenant pools are never handed the same client address,
    whatever the state of the database. *)
Theorem pools_isolate_tenants d1 d2 id1 id2 s1 s2 pool1 pool2 a b :
  subnet_in_pool (srv_subnet s1) pool1 = Some true ->
  subnet_in_pool (srv_subnet s2) pool2 = Some true ->
  pools_overlap pool1 pool2 = Some false ->
  allocate_client_ip d1 id1 s1 = Ok a ->
  allocate_client_ip d2 id2 s2 = Ok b ->
  a <> b.
Proof.
  unfold subnet_in_pool, pools_overlap, parse_pool. intros H1 H2 Hov Ha Hb <-.
  apply allocate_in_hosts in Ha as (n1 & En1 & Hin1 & _), Hb as (n2 & En2 & Hin2 & _).
  destruct (IPv4Network true (srv_subnet s1)) as [m1|] eqn:E1; simpl in H1; [|done].
  destruct (IPv4Network true (srv_subnet s2)) as [m2|] eqn:E2; simpl in H2; [|done].
  destruct (IPv4Network true pool1) as [p1|] eqn:P1; simpl in *; [|done].
  destruct (IPv4Network true pool2) as [p2|] eqn:P2; simpl in *; [|done].
  pose proof (IPv4Network_strict _ _ E1). pose proof (IPv4Network_strict _ _ E2). simplify_eq.
  apply IPv4Network_wf in E1 as [? ?], E2 as [? ?], P1 as [? ?], P2 as [? ?].
  apply host_in_network in Hin1, Hin2; try done.
  assert (Hx : overlaps p1 p2 = true); [|congruence].
  apply overlaps_spec; [done..|]. exists a. split.
  - eapply (proj1 (subnet_of_spec n1 p1 ltac:(done))); [done|lia].
  - eapply (proj1 (subnet_of_spec n2 p2 ltac:(done))); [done|lia].
Qed.

(** ** Allocation keeps client addresses distinct *)

(** The [address] column of a freshly allocated client: [f"{address}/32"]. *)
Definition client_cidr (a : Z) : string := v4_str a +:+ "/32".

Lemma client_cidr_nonempty a : client_cidr a <> "".
Proof.
  unfold client_cidr. pose proof (v4_str_nonempty a) as H. apply nonempty_true in H.
  by destruct (v4_str a).
Qed.

Lemma host_from_client_cidr a : 0 <= a < 2 ^ 32 -> host_from_cidr (client_cidr a) = Some (V4 a).
Proof.
  intros Ha. unfold host_from_cidr, ip_interface_ip, split_addr_prefix, client_cidr.
  rewrite (split_on_app "/" (v4_str a) "32") by (by apply v4_str_no_char).
  simpl split_on. simpl mbind. by rewrite IPv4Address_str.
Qed.

Lemma allocate_range d sid server a : allocate_client_ip d sid server = Ok a -> 0 <= a < 2 ^ 32.
Proof.
  intros H. apply allocate_in_hosts in H as (n & En & Hin & _).
  apply IPv4Network_wf in En as [Hwf Hv]. apply host_in_network in Hin; [|done..].
  pose proof (broadcast_range n Hwf) as Hb. pose proof (wf_addr n Hwf). rewrite Hv in *. simpl in *. lia.
Qed.

(** No two clients of a hub have the same host address. *)
Definition unique_addresses (d : DB) : Prop :=
  forall i j ci cj h, i <> j ->
    rows (clients d) !! i = Some ci -> rows (clients d) !! j = Some cj ->
    cl_server_id ci = cl_server_id cj -> cl_address ci <> "" -> cl_address cj <> "" ->
    host_from_cidr (cl_address ci) = Some h -> host_from_cidr (cl_address cj) = Some h -> False.

(** Inserting a client with the address allocated for its hub in the same
    database state keeps every hub's client addresses distinct. *)
Lemma insert_allocated_unique d sid server a c :
  unique_addresses d ->
  allocate_client_ip d sid server = Ok a ->
  cl_server_id c = sid -> cl_address c = client_cidr a ->
  unique_addresses (on_clients (tbl_insert c) d).
Proof.
  intros Hu Ha Hs Hc i j ci cj h Hij. simpl.
  pose proof (allocate_range _ _ _ _ Ha) as Hr.
  apply allocate_in_hosts in Ha as (n & _ & _ & Hfree).
  assert (Hnew : forall k ck, rows (clients d) !! k = Some ck -> cl_server_id ck = sid ->
    cl_address ck <> "" -> host_from_cidr (cl_address ck) <> Some (V4 a)).
  { intros k ck Hk Hks Hne E. apply Hfree. right. eauto 10. }
  rewrite !lookup_insert. do 2 case_decide; subst; try done.
  - intros [= <-] Hj E1 _ Hne E2 E3. rewrite Hc, host_from_client_cidr in E2 by done.
    simplify_eq. by eapply Hnew.
  - intros Hi [= <-] E1 Hne _ E2 E3. rewrite Hc, host_from_client_cidr in E3 by done.
    simplify_eq. by eapply Hnew.
  - eauto.
Qed.

(** ** Witnesses *)

Lemma allocate_lowest_free_witness :
  allocate_client_ip demo_db 1 demo_server = Ok 168361987 /\ v4_str 168361987 = "10.9.0.3" /\
  exists network, IPv4Network false (srv_subnet demo_server) = Some network /\
    168361987 ∈ hosts network /\ 168361987 <> naddr network /\ 168361987 <> broadcast network /\
    ~ in_use demo_db 1 demo_server 168361987 /\
    forall h, h ∈ hosts network -> h < 168361987 ->
      h = naddr network \/ h = broadcast network \/ in_use demo_db 1 demo_server h.
Proof.
  split; [vm_compute; reflexivity|]. split; [vm_compute; reflexivity|].
  apply (allocate_lowest_free demo_db 1 demo_server). vm_compute. reflexivity.
Defined.

Definition full_db : DB :=
  on_clients (fun _ => mkTable {[1 := demo_client "a" "10.9.0.2/32" "k" ready]} 2) demo_db.
Definition tiny_server : Server :=
  mkServer (Some 1) "h" 22 "u" 1 "e" 51820 "wg0" "10.9.0.0/30" "10.9.0.1/30" "k" ready 0
    no_host_cert 0 0.

Lemma allocate_exhausted_iff_witness :
  (exists msg, allocate_client_ip full_db 1 tiny_server = Raise (IPPoolExhausted msg)) /\
  forall h, h ∈ hosts (mkNet false 168361984 30) ->
    h = 168361984 \/ h = broadcast (mkNet false 168361984 30) \/ in_use full_db 1 tiny_server h.
Proof.
  assert (H : exists msg, allocate_client_ip full_db 1 tiny_server = Raise (IPPoolExhausted msg)).
  { eexists. vm_compute. reflexivity. }
  split; [exact H|].
  apply (allocate_exhausted_iff full_db 1 tiny_server (mkNet false 168361984 30)).
  - vm_compute. reflexivity.
  - eexists. vm_compute. reflexivity.
  - eexists. vm_compute. reflexivity.
  - exact H.
Defined.

Lemma allocate_capacity_witness :
  exists a, allocate_client_ip demo_db 1 demo_server = Ok a.
Proof.
  apply (allocate_capacity demo_db 1 demo_server (mkNet false 168361984 29)).
  - vm_compute. reflexivity.
  - eexists. vm_compute. reflexivity.
  - eexists. vm_compute. reflexivity.
  - vm_compute. reflexivity.
Defined.

Lemma pools_isolate_tenants_witness :
  168361987 <> 170524674.
Proof.
  apply (pools_isolate_tenants demo_db demo_db 1 2 demo_server demo_server2
           "10.9.0.0/16" "10.42.0.0/16"); vm_compute; reflexivity.
Defined.
