(* ===== verification/ProxyProtocol.v ===== *)
(** * PROXY protocol on the enrollment listener

    [src/src/wg_manager/proxy_protocol.py]: the v1/v2 header parser, the
    trusted-proxy check and the connection state machine that reads the
    header, starts TLS and reports the real client's address.

    The parser's three outcomes are the values of [parse_result]: an
    exception, [None] (more bytes needed), or a client with the number of
    bytes consumed.  The transport, the TLS engine and uvicorn's HTTP
    protocol are outside the repository: the model records what the code asks
    of them (abort, the bytes fed to TLS) and takes the sizes of the TLS
    engine's buffers as a parameter. *)

From S2P Require Import Prelude PyStr IpAddr.
From Stdlib Require Ascii String.

(** ** The parser *)

Definition ProxyClient : Type := string * Z.

(** [ProxyProtocolError] is the exception the listener catches; any other
    exception would be [UncaughtValueError]. *)
Inductive pp_exn := ProxyProtocolError | UncaughtValueError.

Inductive parse_result :=
| Raised (e : pp_exn)
| Incomplete
| Header (client : option ProxyClient) (consumed : Z).

Definition V1_PREFIX : bytes := str_bytes "PROXY ".
Definition V1_MAX_LEN : Z := 107.
Definition V2_SIGNATURE : bytes :=
  [Byte.x0d; Byte.x0a; Byte.x0d; Byte.x0a; Byte.x00; Byte.x0d; Byte.x0a;
   Byte.x51; Byte.x55; Byte.x49; Byte.x54; Byte.x0a].
Definition V2_HEADER_LEN : Z := 16.
Definition V2_MAX_BODY : Z := 4096.
Definition V2_CMD_LOCAL : Z := 0.
Definition V2_CMD_PROXY : Z := 1.
Definition V2_AF_UNSPEC : Z := 0.
Definition V2_TCP4 : Z := 17.
Definition V2_TCP6 : Z := 33.

(** [_V2_ADDR]: family to (address bytes needed, address length). *)
Definition V2_ADDR (family : Z) : option (Z * Z) :=
  if family =? V2_TCP4 then Some (12, 4)
  else if family =? V2_TCP6 then Some (36, 16)
  else None.

Definition blen (b : bytes) : Z := Z.of_nat (length b).

(** [b.startswith(p)]. *)
Definition bytes_startswith (b p : bytes) : bool := bool_decide (take (length p) b = p).

(** [b.find(b"\r\n")]. *)
Fixpoint find_crlf (b : bytes) : option nat :=
  match b with
  | x :: (y :: _) as r =>
      if (byte_z x =? 13) && (byte_z y =? 10) then Some O else S <$> find_crlf r
  | _ => None
  end.

(** Python's [b\[i:j\]]. *)
Definition bslice (i j : Z) (b : bytes) : bytes := slice (Z.to_nat i) (Z.to_nat j) b.
Definition byte_at (b : bytes) (i : Z) : Z := be_int (bslice i (i + 1) b).

Definition v1_address (text : string) (version : Z) : string + pp_exn :=
  match ip_address text with
  | None => inr ProxyProtocolError
  | Some addr =>
      if negb (ip_version addr =? version) || char_in "%" text then inr ProxyProtocolError
      else inl (ip_str addr)
  end.

Definition v1_port (text : string) : Z + pp_exn :=
  if negb (isdigit text) || ((1 <? len text) && startswith text "0") then inr ProxyProtocolError
  else match py_int text with
       | None => inr UncaughtValueError
       | Some port => if 65535 <? port then inr ProxyProtocolError else inl port
       end.

(** Python's sequencing of expressions that may raise. *)
Definition bind_pp {A} (m : A + pp_exn) (k : A -> parse_result) : parse_result :=
  match m with inl a => k a | inr e => Raised e end.

Definition parse_v1 (buf : bytes) : parse_result :=
  if negb (bytes_startswith buf (take (length buf) V1_PREFIX)) then Raised ProxyProtocolError
  else match find_crlf (take (Z.to_nat V1_MAX_LEN) buf) with
  | None => if V1_MAX_LEN <=? blen buf then Raised ProxyProtocolError else Incomplete
  | Some end_ =>
      match decode_ascii (take end_ buf) with
      | None => Raised ProxyProtocolError
      | Some line =>
          let parts := split_on " " line in
          let consumed := Z.of_nat end_ + 2 in
          if (2 <=? Z.of_nat (length parts)) && bool_decide (parts !! 1%nat = Some "UNKNOWN")
          then Header None consumed
          else match parts with
          | [_; proto; p2; p3; p4; p5] =>
              if negb (bool_decide (proto = "TCP4")) && negb (bool_decide (proto = "TCP6"))
              then Raised ProxyProtocolError
              else
                let version := if bool_decide (proto = "TCP4") then 4 else 6 in
                bind_pp (v1_address p2 version) (fun src =>
                bind_pp (v1_address p3 version) (fun _ =>
                bind_pp (v1_port p4) (fun sport =>
                bind_pp (v1_port p5) (fun _ =>
                Header (Some (src, sport)) consumed))))
          | _ => Raised ProxyProtocolError
          end
      end
  end.

Definition parse_v2 (buf : bytes) : parse_result :=
  if negb (bytes_startswith buf (take (length buf) V2_SIGNATURE)) then Raised ProxyProtocolError
  else if blen buf <? V2_HEADER_LEN then Incomplete
  else
    let ver_cmd := byte_at buf 12 in
    let family := byte_at buf 13 in
    let length_ := be_int (bslice 14 16 buf) in
    if negb (Z.shiftr ver_cmd 4 =? 2) then Raised ProxyProtocolError
    else
      let command := Z.land ver_cmd 15 in
      if negb (command =? V2_CMD_LOCAL) && negb (command =? V2_CMD_PROXY)
      then Raised ProxyProtocolError
      else if V2_MAX_BODY <? length_ then Raised ProxyProtocolError
      else
        let proxied := (command =? V2_CMD_PROXY) && negb (family =? V2_AF_UNSPEC) in
        let bad_family := match V2_ADDR family with
                          | None => true
                          | Some (needed, _) => length_ <? needed
                          end in
        if proxied && bad_family then Raised ProxyProtocolError
        else
          let total := V2_HEADER_LEN + length_ in
          if blen buf <? total then Incomplete
          else if (command =? V2_CMD_LOCAL) || (family =? V2_AF_UNSPEC) then Header None total
          else match V2_ADDR family with
          | None => Raised UncaughtValueError
          | Some (_, addr_len) =>
              let body := bslice V2_HEADER_LEN total buf in
              match ip_address_packed (bslice 0 addr_len body) with
              | None => Raised UncaughtValueError
              | Some src =>
                  Header (Some (ip_str src, be_int (bslice (2 * addr_len) (2 * addr_len + 2) body)))
                    total
              end
          end.

Definition parse_header (buf : bytes) : parse_result :=
  if (length buf =? 0)%nat then Incomplete
  else if bool_decide (take 1 buf = take 1 V1_PREFIX) then parse_v1 buf
  else if bool_decide (take 1 buf = take 1 V2_SIGNATURE) then parse_v2 buf
  else Raised ProxyProtocolError.

(** ** The trusted-proxy check *)

Definition is_trusted (host : string) (trusted : list net) : bool :=
  match ip_address host with
  | None => false
  | Some addr =>
      let addr := match addr with
                  | V6 n _ => match ipv4_mapped n with Some m => V4 m | None => addr end
                  | V4 _ => addr
                  end in
      existsb (fun n => net_contains n addr) trusted
  end.

(** ** The connection *)

(** What TLS and the HTTP protocol have been given: the client address set
    before the first request, and the bytes of the encrypted stream so far. *)
Record tls_session := mkTLS { proxied_client : option ProxyClient; tls_input : bytes }.

(** One [ProxyProtocolTLS] object and the transport it drives. *)
Record conn := mkConn {
  peer : string; aborted : bool; lost : bool; buf : bytes; timer : bool;
  tls : option tls_session
}.

Definition new_conn : conn := mkConn "?" false false [] false None.

Definition cancel_timer (c : conn) : conn :=
  mkConn (peer c) (aborted c) (lost c) (buf c) false (tls c).
Definition abort (c : conn) : conn :=
  mkConn (peer c) true (lost c) (buf c) (timer c) (tls c).
Definition close (c : conn) : conn := abort (cancel_timer c).

(** [peername] is what [get_extra_info] returns for the socket. *)
Definition connection_made (trusted : list net) (peername : option (string * Z)) (c : conn) : conn :=
  let host := match peername with Some (h, _) => h | None => "?" end in
  let c := mkConn host (aborted c) (lost c) (buf c) (timer c) (tls c) in
  if negb (is_trusted host trusted) then abort c
  else mkConn (peer c) (aborted c) (lost c) (buf c) true (tls c).

(** The copying loop of [_start_tls]: pieces fed to the TLS engine, whose
    [get_buffer(k)] returns a buffer of [get_buffer i k] bytes on call [i]. *)
Fixpoint feed_tls (get_buffer : nat -> nat -> nat) (fuel i : nat) (view : bytes)
  : option (list bytes) :=
  match view, fuel with
  | [], _ => Some []
  | _, O => None
  | _, S f =>
      let n := Nat.min (get_buffer i (length view)) (length view) in
      cons (take n view) <$> feed_tls get_buffer f (S i) (drop n view)
  end.

Definition start_tls (client : option ProxyClient) (leftover : bytes) (c : conn) : conn :=
  mkConn (peer c) (aborted c) (lost c) [] (timer c) (Some (mkTLS client leftover)).

Definition data_received (data : bytes) (c : conn) : conn :=
  let c := mkConn (peer c) (aborted c) (lost c) (buf c ++ data) (timer c) (tls c) in
  match parse_header (buf c) with
  | Raised ProxyProtocolError => close c
  | Raised UncaughtValueError => abort c (* asyncio closes the transport *)
  | Incomplete => c
  | Header client consumed =>
      start_tls client (drop (Z.to_nat consumed) (buf c)) (cancel_timer c)
  end.

Definition on_timeout (c : conn) : conn := close c.
Definition connection_lost (c : conn) : conn :=
  let c := cancel_timer c in mkConn (peer c) (aborted c) true (buf c) (timer c) (tls c).

(** The address uvicorn reports as [request.client]: the proxied client when
    the header names one, the TCP peer otherwise. *)
Definition http_client (s : tls_session) (tcp_peer : option ProxyClient) : option ProxyClient :=
  match proxied_client s with Some c => Some c | None => tcp_peer end.

(** [make_proxy_protocol_class] refuses an empty list of networks. *)
Definition make_proxy_protocol_class (trusted : list net) : option (list net) :=
  match trusted with [] => None | _ => Some trusted end.

(** ** The event loop's calls *)

(** asyncio delivers data to the current protocol only while the transport is
    open: to [ProxyProtocolTLS] until [set_protocol], then to TLS; it fires a
    timer only while the handle is not cancelled. *)
Definition open_conn (c : conn) : bool := negb (aborted c) && negb (lost c).

Definition deliver (data : bytes) (c : conn) : conn :=
  if negb (open_conn c) then c
  else match tls c with
       | None => data_received data c
       | Some s => mkConn (peer c) (aborted c) (lost c) (buf c) (timer c)
                     (Some (mkTLS (proxied_client s) (tls_input s ++ data)))
       end.

(** Connections reachable from an accepted socket, with every byte the peer
    has sent while the connection was open. *)
Inductive reachable (trusted : list net) (peername : option (string * Z)) : bytes -> conn -> Prop :=
| ReachMade : reachable trusted peername [] (connection_made trusted peername new_conn)
| ReachData bs data c :
    reachable trusted peername bs c -> open_conn c = true ->
    reachable trusted peername (bs ++ data) (deliver data c)
| ReachTimeout bs c :
    reachable trusted peername bs c -> timer c = true ->
    reachable trusted peername bs (on_timeout c)
| ReachLost bs c :
    reachable trusted peername bs c -> lost c = false ->
    reachable trusted peername bs (connection_lost c).

(** ** Lemmas: the parser only looks at what it has been given *)

Lemma startswith_iff b p :
  bytes_startswith b (take (length b) p) = true <-> take (length p) b = take (length b) p.
Proof.
  unfold bytes_startswith. rewrite bool_decide_eq_true, length_take.
  destruct (le_lt_dec (length p) (length b)).
  - rewrite Nat.min_r by lia. done.
  - rewrite Nat.min_l by lia. rewrite !(take_ge b) by lia. done.
Qed.

(** A buffer that cannot start with [p] never will. *)
Lemma startswith_ext b x p :
  bytes_startswith b (take (length b) p) = false ->
  bytes_startswith (b ++ x) (take (length (b ++ x)) p) = false.
Proof.
  rewrite <- !not_true_iff_false, !startswith_iff. intros H1 H2. apply H1.
  apply (f_equal (take (length b))) in H2. revert H2.
  rewrite !take_take, length_app, !(Nat.min_l (length b) (length b + _)) by lia.
  intros <-. destruct (le_lt_dec (length p) (length b)).
  - rewrite Nat.min_r by lia. by rewrite take_app_le by lia.
  - rewrite Nat.min_l, take_app_le, !take_ge by lia. done.
Qed.

(** Once the buffer is at least as long as [p], the answer is final. *)
Lemma startswith_long b x p :
  (length p <= length b)%nat ->
  bytes_startswith (b ++ x) (take (length (b ++ x)) p) = bytes_startswith b (take (length b) p).
Proof.
  intros H. rewrite length_app. unfold bytes_startswith.
  rewrite !(take_ge p) by lia. rewrite take_app_le by lia. done.
Qed.

Lemma find_crlf_Some b k : find_crlf b = Some k ->
  (k + 2 <= length b)%nat /\ forall x, find_crlf (b ++ x) = Some k.
Proof.
  revert k. induction b as [|x [|y r] IH]; intros k H; [done..|].
  change (find_crlf (x :: y :: r)) with
    (if (byte_z x =? 13) && (byte_z y =? 10) then Some O else S <$> find_crlf (y :: r)) in H.
  destruct ((byte_z x =? 13) && (byte_z y =? 10)) eqn:E.
  - simplify_eq. split; [simpl; lia|]. intros z. simpl. by rewrite E.
  - destruct (find_crlf (y :: r)) as [k'|] eqn:Ek; simpl in H; [|done]. simplify_eq.
    destruct (IH k' eq_refl) as [Hl Hx]. split; [simpl in *; lia|].
    intros z. specialize (Hx z).
    change (find_crlf ((x :: y :: r) ++ z)) with
      (if (byte_z x =? 13) && (byte_z y =? 10) then Some O else S <$> find_crlf ((y :: r) ++ z)).
    by rewrite E, Hx.
Qed.

Lemma find_crlf_107 b k n :
  find_crlf (take n b) = Some k ->
  (k + 2 <= length b)%nat /\ (k + 2 <= n)%nat /\ forall x, find_crlf (take n (b ++ x)) = Some k.
Proof.
  intros H. pose proof (find_crlf_Some _ _ H) as [Hl Hx]. rewrite length_take in Hl.
  split_and!; [lia..|]. intros x. rewrite take_app. apply Hx.
Qed.

Lemma bslice_app i j b x : 0 <= i <= j -> j <= blen b -> bslice i j (b ++ x) = bslice i j b.
Proof. unfold bslice, blen. intros. apply slice_app. lia. Qed.

Lemma blen_app b x : blen (b ++ x) = blen b + blen x.
Proof. unfold blen. rewrite length_app. lia. Qed.

Lemma blen_nonneg b : 0 <= blen b.
Proof. unfold blen. lia. Qed.

(** The outcome is settled: more bytes do not change it. *)
Definition settled (r : parse_result) : Prop := r <> Incomplete.

Lemma v1_crlf_long b k :
  bytes_startswith b (take (length b) V1_PREFIX) = true ->
  find_crlf (take (Z.to_nat V1_MAX_LEN) b) = Some k -> (length V1_PREFIX <= length b)%nat.
Proof.
  intros Hs Hk. apply startswith_iff in Hs.
  destruct (le_lt_dec (length V1_PREFIX) (length b)) as [|Hlt]; [done|].
  rewrite take_ge in Hs by lia. rewrite Hs in Hk. change (length V1_PREFIX) with 6%nat in Hlt.
  destruct (length b) as [|[|[|[|[|[|n]]]]]]; (lia || vm_compute in Hk; discriminate).
Qed.

Lemma parse_v1_ext b x : settled (parse_v1 b) -> parse_v1 (b ++ x) = parse_v1 b.
Proof.
  unfold settled, parse_v1. intros H.
  destruct (bytes_startswith b _) eqn:E1; simpl negb in *; cbv iota in *.
  2: { by rewrite (startswith_ext _ _ _ E1). }
  destruct (find_crlf (take (Z.to_nat V1_MAX_LEN) b)) as [k|] eqn:Ek.
  - pose proof (v1_crlf_long _ _ E1 Ek) as Hlong.
    apply find_crlf_107 in Ek as (Hk1 & Hk2 & Hx).
    rewrite startswith_long, E1, Hx, take_app_le by lia. done.
  - destruct (Z.leb_spec V1_MAX_LEN (blen b)) as [Hl|]; [|done]. clear H.
    unfold blen, V1_MAX_LEN in *. change (length V1_PREFIX) with 6%nat in *.
    rewrite startswith_long, E1, take_app_le, Ek by (change (length V1_PREFIX) with 6%nat; lia).
    destruct (Z.leb_spec 107 (Z.of_nat (length (b ++ x)))); [done|]. rewrite length_app in *. lia.
Qed.

Lemma parse_v2_ext b x : settled (parse_v2 b) -> parse_v2 (b ++ x) = parse_v2 b.
Proof.
  unfold settled, parse_v2. intros H.
  destruct (bytes_startswith b _) eqn:E1; simpl negb in *; cbv iota in *.
  2: { by rewrite (startswith_ext _ _ _ E1). }
  destruct (Z.ltb_spec (blen b) V2_HEADER_LEN) as [|Hlen]; [done|].
  unfold V2_HEADER_LEN in *.
  rewrite startswith_long, E1 by (unfold blen in *; change (length V2_SIGNATURE) with 12%nat; lia).
  simpl negb. cbv iota. rewrite blen_app.
  destruct (Z.ltb_spec (blen b + blen x) 16); [pose proof (blen_nonneg x); lia|].
  unfold byte_at in *. rewrite !(bslice_app _ _ b x) by lia.
  pose proof (be_int_range (bslice 14 16 b)) as Hr. set (L := be_int (bslice 14 16 b)) in *.
  destruct (negb (Z.shiftr _ _ =? 2)); [done|]. destruct (negb _ && negb _); [done|].
  destruct (V2_MAX_BODY <? L); [done|]. destruct (_ && _ && _); [done|].
  destruct (Z.ltb_spec (blen b) (16 + L)); [done|].
  destruct (Z.ltb_spec (blen b + blen x) (16 + L)); [pose proof (blen_nonneg x); lia|].
  destruct (_ || _); [done|]. destruct (V2_ADDR _) as [[needed al]|]; [|done].
  rewrite (bslice_app 16 (16 + L) b x) by lia. done.
Qed.

Lemma parse_header_ext b x : settled (parse_header b) -> parse_header (b ++ x) = parse_header b.
Proof.
  unfold parse_header. destruct b as [|c b]; [done|].
  change (length ((c :: b) ++ x) =? 0)%nat with false.
  change (length (c :: b) =? 0)%nat with false. cbv iota.
  change (take 1 ((c :: b) ++ x)) with (take 1 (c :: b)).
  case_bool_decide; [apply parse_v1_ext|]. case_bool_decide; [apply parse_v2_ext|]. done.
Qed.

(** ** Lemmas: bounds and exceptions *)

Definition in_bounds (b : bytes) (r : parse_result) : Prop :=
  match r with
  | Raised e => e = ProxyProtocolError
  | Incomplete => blen b < V2_HEADER_LEN + V2_MAX_BODY
  | Header c n => 2 <= n <= blen b /\ n <= V2_HEADER_LEN + V2_MAX_BODY /\
      match c with Some (_, port) => 0 <= port <= 65535 | None => True end
  end.

Lemma v1_port_spec s : isascii s = true -> len s <= max_str_digits ->
  match v1_port s with inl p => 0 <= p <= 65535 | inr e => e = ProxyProtocolError end.
Proof.
  intros Ha Hl. unfold v1_port. destruct (isdigit s) eqn:Hd; simpl; [|done].
  destruct ((1 <? len s) && _); [done|].
  destruct (isdigit_ascii_decimal s Hd Ha) as [Hne Hdec].
  rewrite py_int_decimal by done. pose proof (val10_nonneg 0 s ltac:(lia) Hdec).
  destruct (Z.ltb_spec 65535 (val10 0 s)); [done|lia].
Qed.

Lemma split_on_forall p sep s :
  str_forall p s = true -> Forall (fun q => str_forall p q = true /\ len q <= len s) (split_on sep s).
Proof.
  induction s as [|c s IH]; intros H; [constructor; [split; [done|lia]|constructor]|].
  simpl in H. apply andb_true_iff in H as [Hc Hs]. specialize (IH Hs). rewrite len_cons.
  assert (IH' : Forall (fun q => str_forall p q = true /\ len q <= 1 + len s) (split_on sep s)).
  { eapply Forall_impl; [exact IH|]. intros q [? ?]. split; [done|lia]. }
  simpl. destruct (ceqb c sep); [constructor; [pose proof (len_nonneg s); split; [done|]|done]|].
  { change (len ("")) with 0. lia. }
  destruct (split_on sep s) as [|h t] eqn:Es; [by apply split_on_nonnil in Es|].
  apply Forall_cons in IH as [[? ?] _], IH' as [_ ?]. constructor; [|done].
  split; [simpl; by rewrite Hc|rewrite len_cons; lia].
Qed.

Lemma decode_ascii_spec b s :
  decode_ascii b = Some s -> isascii s = true /\ len s = blen b.
Proof.
  unfold decode_ascii. destruct (isascii _) eqn:E; [|done]. intros [= <-].
  split; [done|]. unfold len, blen. f_equal. clear E. induction b as [|x b IH]; [done|].
  simpl. by f_equal.
Qed.

Lemma parse_v1_bounds b : in_bounds b (parse_v1 b).
Proof.
  unfold parse_v1. destruct (negb _); [done|].
  destruct (find_crlf _) as [k|] eqn:Ek.
  2: { destruct (Z.leb_spec V1_MAX_LEN (blen b)); [done|]. unfold V1_MAX_LEN in *. simpl.
       unfold V2_HEADER_LEN, V2_MAX_BODY. lia. }
  apply find_crlf_107 in Ek as (Hk1 & Hk2 & _).
  assert (Hc : 2 <= Z.of_nat k + 2 <= blen b /\ Z.of_nat k + 2 <= V2_HEADER_LEN + V2_MAX_BODY).
  { unfold blen, V1_MAX_LEN, V2_HEADER_LEN, V2_MAX_BODY in *. lia. }
  destruct (decode_ascii _) as [line|] eqn:Ed; [|done].
  apply decode_ascii_spec in Ed as [Ha Hl].
  pose proof (split_on_forall _ " " _ Ha) as HF.
  destruct (_ && _); [simpl; tauto|].
  destruct (split_on " " line) as [|p0 [|p1 [|p2 [|p3 [|p4 [|p5 [|p6 ps]]]]]]]; try done.
  destruct (negb _ && negb _); [done|]. generalize (if bool_decide (p1 = "TCP4") then 4 else 6) as version; intros version.
  rewrite !Forall_cons in HF. destruct HF as (_ & _ & _ & _ & [H4 L4] & [H5 L5] & _).
  assert (Hlen : len line <= max_str_digits).
  { rewrite Hl. unfold blen. rewrite length_take. unfold V1_MAX_LEN, max_str_digits in *. lia. }
  assert (Hv : forall q v, match v1_address q v with inl _ => True | inr e => e = ProxyProtocolError end).
  { intros q v. unfold v1_address. destruct (ip_address q); [|done]. by destruct (_ || _). }
  pose proof (Hv p2 version). destruct (v1_address p2 version); simpl; [|done].
  pose proof (Hv p3 version). destruct (v1_address p3 version); simpl; [|done].
  pose proof (v1_port_spec p4 H4 ltac:(lia)). destruct (v1_port p4); simpl; [|done].
  pose proof (v1_port_spec p5 H5 ltac:(lia)). destruct (v1_port p5); simpl; [|done].
  tauto.
Qed.

Lemma length_bslice i j b : 0 <= i <= j -> j <= blen b -> length (bslice i j b) = Z.to_nat (j - i).
Proof. unfold bslice, blen. intros. rewrite length_slice by lia. lia. Qed.

Lemma parse_v2_bounds b : in_bounds b (parse_v2 b).
Proof.
  unfold parse_v2. destruct (negb _); [done|].
  destruct (Z.ltb_spec (blen b) V2_HEADER_LEN) as [|Hlen].
  { simpl. unfold V2_MAX_BODY. lia. }
  destruct (negb _); [done|]. destruct (negb _ && negb _) eqn:Ec; [done|].
  pose proof (be_int_range (bslice 14 16 b)) as [HL _]. set (L := be_int (bslice 14 16 b)) in *.
  destruct (Z.ltb_spec V2_MAX_BODY L) as [|HL2]; [done|].
  destruct (_ && _ && _) eqn:Ef; [done|].
  destruct (Z.ltb_spec (blen b) (V2_HEADER_LEN + L)) as [|HB]; [simpl; lia|].
  assert (Hc : 2 <= V2_HEADER_LEN + L <= blen b /\ V2_HEADER_LEN + L <= V2_HEADER_LEN + V2_MAX_BODY).
  { unfold V2_HEADER_LEN in *. lia. }
  destruct (_ || _) eqn:El; [simpl; tauto|]. apply orb_false_iff in El as [El1 El2].
  rewrite El1, El2 in *. simpl in Ec. apply negb_false_iff in Ec. rewrite Ec in Ef. simpl in Ef.
  set (fam := byte_at b 13) in *. clearbody fam.
  assert (Hb : blen (bslice V2_HEADER_LEN (V2_HEADER_LEN + L) b) = L).
  { unfold blen. rewrite length_bslice by (unfold V2_HEADER_LEN in *; lia). lia. }
  destruct (V2_ADDR fam) as [[needed al]|] eqn:Ea; [|done].
  assert (Hn : (al = 4 /\ needed = 12) \/ (al = 16 /\ needed = 36)).
  { unfold V2_ADDR in Ea. destruct (fam =? V2_TCP4); [naive_solver|].
    destruct (fam =? V2_TCP6); naive_solver. }
  apply Z.ltb_ge in Ef. set (body := bslice V2_HEADER_LEN _ b) in *.
  pose proof (length_bslice 0 al body ltac:(lia) ltac:(lia)) as H0.
  assert (exists src, ip_address_packed (bslice 0 al body) = Some src) as [src ->].
  { unfold ip_address_packed. rewrite H0. destruct Hn as [[-> _]|[-> _]]; simpl; eauto. }
  pose proof (be_int_range (bslice (2 * al) (2 * al + 2) body)) as Hp.
  rewrite length_bslice in Hp by lia. replace (2 * al + 2 - 2 * al) with 2 in Hp by lia.
  change (256 ^ Z.of_nat (Z.to_nat 2)) with 65536 in Hp. simpl. split_and!; lia.
Qed.

Lemma parse_header_in_bounds b : in_bounds b (parse_header b).
Proof.
  unfold parse_header. destruct (_ =? _)%nat eqn:E.
  { apply Nat.eqb_eq in E. simpl. unfold blen, V2_HEADER_LEN, V2_MAX_BODY. lia. }
  case_bool_decide; [apply parse_v1_bounds|]. case_bool_decide; [apply parse_v2_bounds|done].
Qed.

(** ** Theorems: the parser *)

(** Every buffer is classified within fixed bounds: the only exception is
    [ProxyProtocolError] (which the listener catches), a request for more
    bytes is made only below 4112 buffered bytes, and an accepted header
    consumes at least 2 and at most 4112 bytes, all of them received, with a
    port that fits 16 bits. *)
Theorem parse_header_bounded b : in_bounds b (parse_header b).
Proof. apply parse_header_in_bounds. Qed.

(** A v1 header for TCP over IPv4, as the specification prints it. *)
Definition v1_line (src dst sport dport : Z) : string :=
  join " " ["PROXY"; "TCP4"; v4_str src; v4_str dst; dec sport; dec dport].
Definition v1_header (src dst sport dport : Z) : bytes :=
  str_bytes (v1_line src dst sport dport) ++ [Byte.x0d; Byte.x0a].

Lemma byte_of_ascii_code c : byte_z (Ascii.byte_of_ascii c) = code c.
Proof. unfold byte_z, code. f_equal. by destruct c as [[] [] [] [] [] [] [] []]. Qed.

Lemma find_crlf_app l r :
  Forall (fun x => byte_z x <> 13) l -> find_crlf (l ++ Byte.x0d :: Byte.x0a :: r) = Some (length l).
Proof.
  induction l as [|x l IH]; intros H; [done|]. apply Forall_cons in H as [Hx Hl].
  specialize (IH Hl). change ((x :: l) ++ ?k) with (x :: (l ++ k)).
  destruct (l ++ Byte.x0d :: Byte.x0a :: r) as [|y r'] eqn:E; [by destruct l|].
  change (find_crlf (x :: y :: r')) with
    (if (byte_z x =? 13) && (byte_z y =? 10) then Some O else S <$> find_crlf (y :: r')).
  rewrite IH. destruct (Z.eqb_spec (byte_z x) 13); [done|]. done.
Qed.

Lemma str_bytes_forall (p : ascii -> bool) (q : Byte.byte -> Prop) s :
  (forall c, p c = true -> q (Ascii.byte_of_ascii c)) -> str_forall p s = true -> Forall q (str_bytes s).
Proof.
  intros H. induction s as [|c s IH]; simpl; intros Hs; [constructor|].
  apply andb_true_iff in Hs as [? ?]. constructor; [by apply H|by apply IH].
Qed.

Lemma length_str_bytes s : Z.of_nat (length (str_bytes s)) = len s.
Proof.
  unfold len, str_bytes. f_equal. induction s as [|c s IH]; [done|]. simpl. by f_equal.
Qed.

Lemma len_app s t : len (s +:+ t) = len s + len t.
Proof. induction s as [|c s IH]; [unfold len; simpl; done|]. rewrite append_cons, !len_cons, IH. lia. Qed.

Lemma len_join sep parts k :
  len sep = 1 -> parts <> [] -> Forall (fun s => len s <= k) parts ->
  len (join sep parts) + 1 <= Z.of_nat (length parts) * (k + 1).
Proof.
  intros Hs Hne HF. induction parts as [|a [|b ps] IH]; [done| |].
  - apply Forall_cons in HF as [? _]. simpl. lia.
  - apply Forall_cons in HF as [Ha HF]. specialize (IH ltac:(done) HF).
    change (join sep (a :: b :: ps)) with (a +:+ (sep +:+ join sep (b :: ps))).
    rewrite !len_app. cbn [length] in *. lia.
Qed.

Lemma v4_str_len n : len (v4_str n) <= 15.
Proof.
  assert (Ho : forall k, len (dec (k mod 256)) <= 3).
  { intros k. pose proof (Z.mod_pos_bound k 256 ltac:(lia)). apply dec_len; lia. }
  unfold v4_str. match goal with |- len (join "." ?l) <= _ => pose proof (len_join "." l 3) as H end.
  cbn [length] in H. enough (len "." = 1) as E; [|done].
  specialize (H E ltac:(done) ltac:(repeat constructor; apply Ho)). lia.
Qed.

(** Upper-case letters, digits, dots and spaces. *)
Definition v1_chr (c : ascii) : bool := (32 <=? code c) && (code c <=? 90).

Lemma dec_v1_chr n : 0 <= n -> str_forall v1_chr (dec n) = true.
Proof.
  intros H. eapply str_forall_impl; [|by apply dec_decimal].
  intros c Hc. unfold is_decimal, v1_chr in *. bool_to_prop.
  apply andb_true_iff; split; apply Z.leb_le; lia.
Qed.

Lemma v4_str_v1_chr n : str_forall v1_chr (v4_str n) = true.
Proof.
  unfold v4_str. apply str_forall_join; [done|].
  repeat constructor; apply dec_v1_chr; apply Z.mod_pos_bound; lia.
Qed.

Section v1_roundtrip.
Context (src dst sport dport : Z).
Hypothesis Hsrc : 0 <= src < 2 ^ 32.
Hypothesis Hdst : 0 <= dst < 2 ^ 32.
Hypothesis Hsport : 0 <= sport <= 65535.
Hypothesis Hdport : 0 <= dport <= 65535.

Lemma v1_line_chr : str_forall v1_chr (v1_line src dst sport dport) = true.
Proof.
  apply str_forall_join; [done|].
  repeat constructor; try apply v4_str_v1_chr; apply dec_v1_chr; lia.
Qed.

Lemma v1_line_len : len (v1_line src dst sport dport) <= 96.
Proof.
  assert (Hd : forall p, 0 <= p <= 65535 -> len (dec p) <= 15).
  { intros p Hp. enough (len (dec p) <= 5) by lia. apply dec_len; lia. }
  unfold v1_line. match goal with |- len (join " " ?l) <= _ => pose proof (len_join " " l 15) as H end.
  cbn [length] in H. enough (len " " = 1) as E; [|done]. specialize (H E ltac:(done)). simpl in H.
  enough (len (join " " ["PROXY"; "TCP4"; v4_str src; v4_str dst; dec sport; dec dport]) + 1 <= 96) by lia.
  apply H. repeat constructor; try apply v4_str_len; try (by apply Hd); unfold len; simpl; lia.
Qed.

Lemma v1_line_split :
  split_on " " (v1_line src dst sport dport) =
  ["PROXY"; "TCP4"; v4_str src; v4_str dst; dec sport; dec dport].
Proof.
  apply split_on_join; [done|].
  repeat constructor; try done; try (by apply v4_str_no_char); apply dec_no_char; done || lia.
Qed.

Lemma v1_address_v4 n : 0 <= n < 2 ^ 32 -> v1_address (v4_str n) 4 = inl (v4_str n).
Proof.
  intros H. unfold v1_address. rewrite ip_address_v4_str by done. simpl.
  by rewrite v4_str_no_char by done.
Qed.

Lemma v1_port_dec p : 0 <= p <= 65535 -> v1_port (dec p) = inl p.
Proof.
  intros H. unfold v1_port. rewrite dec_isdigit by lia. simpl negb.
  assert (Hz : ((1 <? len (dec p)) && startswith (dec p) "0")%bool = false).
  { destruct (Z.eq_dec p 0) as [->|]; [reflexivity|].
    destruct (dec_head p ltac:(lia)) as (c & s & -> & Hc). apply andb_false_iff. right.
    simpl. unfold ceqb. apply andb_false_iff. left. by apply Z.eqb_neq. }
  rewrite Hz. simpl. rewrite py_int_dec.
  - destruct (Z.ltb_spec 65535 p); [lia|done].
  - split; [lia|]. eapply Z.lt_le_trans; [|apply (Z.pow_le_mono_r 10 5 max_str_digits)];
      unfold max_str_digits; lia.
Qed.

Lemma parse_v1_header rest :
  parse_header (v1_header src dst sport dport ++ rest) =
  Header (Some (v4_str src, sport)) (blen (v1_header src dst sport dport)).
Proof.
  pose proof v1_line_chr as Hc. pose proof v1_line_len as Hl. pose proof v1_line_split as Hsp.
  set (line := v1_line src dst sport dport) in *.
  assert (Hp : exists t, line = "PROXY " +:+ t).
  { unfold line, v1_line. exists (join " " ["TCP4"; v4_str src; v4_str dst; dec sport; dec dport]). done. }
  unfold v1_header. fold line. rewrite <- app_assoc. cbn [app].
  set (l := str_bytes line) in *.
  assert (Hlen : Z.of_nat (length l) = len line) by apply length_str_bytes.
  assert (Hcr : Forall (fun x => byte_z x <> 13) l).
  { eapply str_bytes_forall; [|exact Hc]. intros c Hcc. rewrite byte_of_ascii_code.
    unfold v1_chr in Hcc. bool_to_prop. lia. }
  assert (Hv1 : parse_header (l ++ Byte.x0d :: Byte.x0a :: rest) =
                parse_v1 (l ++ Byte.x0d :: Byte.x0a :: rest)).
  { unfold l. destruct Hp as [t ->]. reflexivity. }
  rewrite Hv1. unfold parse_v1.
  assert (Hs : bytes_startswith (l ++ Byte.x0d :: Byte.x0a :: rest)
    (take (length (l ++ Byte.x0d :: Byte.x0a :: rest)) V1_PREFIX) = true).
  { apply startswith_iff. rewrite (take_ge V1_PREFIX).
    - unfold l. destruct Hp as [t ->]. reflexivity.
    - unfold l. destruct Hp as [t ->]. simpl. lia. }
  rewrite Hs. simpl negb. cbv iota.
  replace (take (Z.to_nat V1_MAX_LEN) (l ++ Byte.x0d :: Byte.x0a :: rest)) with
    (l ++ Byte.x0d :: Byte.x0a :: take (Z.to_nat V1_MAX_LEN - length l - 2) rest).
  2: { rewrite take_app_ge by (unfold V1_MAX_LEN; lia).
       replace (Z.to_nat V1_MAX_LEN - length l)%nat
         with (S (S (Z.to_nat V1_MAX_LEN - length l - 2))) by (unfold V1_MAX_LEN; lia).
       cbn [take]. do 4 f_equal. lia. }
  rewrite find_crlf_app by done. rewrite take_app_length.
  assert (Hd : decode_ascii l = Some line).
  { unfold decode_ascii, l, str_bytes. rewrite String.string_of_list_byte_of_string.
    replace (isascii line) with true; [done|]. symmetry. eapply str_forall_impl; [|exact Hc].
    intros c Hcc. unfold v1_chr in Hcc. bool_to_prop. apply Z.ltb_lt. lia. }
  rewrite Hd, Hsp. cbv zeta.
  change (bool_decide (["PROXY"; "TCP4"; v4_str src; v4_str dst; dec sport; dec dport] !! 1%nat
            = Some "UNKNOWN")) with false.
  rewrite andb_false_r. cbv iota.
  change (negb (bool_decide ("TCP4" = "TCP4")) && negb (bool_decide ("TCP4" = "TCP6"))) with false.
  change (bool_decide ("TCP4" = "TCP4")) with true. cbv iota.
  rewrite !v1_address_v4, !v1_port_dec by done. cbn [bind_pp]. f_equal.
  unfold blen. rewrite length_app. cbn [length]. lia.
Qed.
End v1_roundtrip.

(** A v1 [TCP4] header printed for any addresses and ports, followed by any
    bytes, is parsed back to its source address and port, and exactly the
    header's bytes are consumed. *)
Theorem v1_header_roundtrip src dst sport dport rest :
  0 <= src < 2 ^ 32 -> 0 <= dst < 2 ^ 32 -> 0 <= sport <= 65535 -> 0 <= dport <= 65535 ->
  parse_header (v1_header src dst sport dport ++ rest) =
  Header (Some (v4_str src, sport)) (blen (v1_header src dst sport dport)).
Proof. intros. by apply parse_v1_header. Qed.

(** A v2 [PROXY] header for TCP over IPv4 or IPv6 with [tlvs] after the
    addresses. *)
Definition v2_header (v6 : bool) (src dst sport dport : Z) (tlvs : bytes) : bytes :=
  let al := if v6 then 16%nat else 4%nat in
  V2_SIGNATURE ++ [Byte.x21; if v6 then Byte.x21 else Byte.x11] ++
  be_bytes 2 (2 * Z.of_nat al + 4 + blen tlvs) ++
  be_bytes al src ++ be_bytes al dst ++ be_bytes 2 sport ++ be_bytes 2 dport ++ tlvs.

(** Slicing out the middle of a concatenation. *)
Lemma bslice_mid i j (a b c : bytes) :
  i = blen a -> j = blen a + blen b -> bslice i j (a ++ b ++ c) = b.
Proof.
  intros -> ->. unfold bslice, slice, blen. rewrite Nat2Z.id, drop_app_length.
  replace (Z.to_nat _ - length a)%nat with (length b) by lia. apply take_app_length.
Qed.

Lemma blen_be_bytes k n : blen (be_bytes k n) = Z.of_nat k.
Proof. unfold blen. by rewrite length_be_bytes. Qed.

Lemma v2_header_len v6 src dst sport dport tlvs :
  blen (v2_header v6 src dst sport dport tlvs) = (if v6 then 52 else 28) + blen tlvs.
Proof.
  unfold v2_header. rewrite !blen_app, !blen_be_bytes.
  unfold blen. simpl. destruct v6; simpl; lia.
Qed.

(** A well-formed [PROXY] header in front of [rest], field by field. *)
Lemma parse_v2_fields fam lenb body rest needed al :
  V2_ADDR (byte_z fam) = Some (needed, al) -> length lenb = 2%nat -> be_int lenb = blen body ->
  needed <= blen body <= V2_MAX_BODY ->
  parse_header (V2_SIGNATURE ++ [Byte.x21; fam] ++ lenb ++ body ++ rest) =
  match ip_address_packed (bslice 0 al body) with
  | None => Raised UncaughtValueError
  | Some src => Header (Some (ip_str src, be_int (bslice (2 * al) (2 * al + 2) body)))
                  (V2_HEADER_LEN + blen body)
  end.
Proof.
  intros Ha Hl HL [Hn HM].
  set (b := V2_SIGNATURE ++ [Byte.x21; fam] ++ lenb ++ body ++ rest).
  change (parse_header b) with (parse_v2 b). unfold parse_v2.
  assert (Hbl : blen b = V2_HEADER_LEN + blen body + blen rest).
  { unfold b. rewrite !blen_app. unfold blen. rewrite Hl. cbn [length]. unfold V2_HEADER_LEN.
    change (length V2_SIGNATURE) with 12%nat. lia. }
  assert (Hst : bytes_startswith b (take (length b) V2_SIGNATURE) = true).
  { apply startswith_iff. rewrite (take_ge V2_SIGNATURE); [reflexivity|].
    unfold b. rewrite length_app. lia. }
  assert (H12 : byte_at b 12 = 33) by reflexivity.
  assert (H13 : byte_at b 13 = byte_z fam) by reflexivity.
  assert (H14 : bslice 14 16 b = lenb).
  { change b with ((V2_SIGNATURE ++ [Byte.x21; fam]) ++ lenb ++ body ++ rest).
    apply bslice_mid; [reflexivity|]. unfold blen. rewrite Hl. reflexivity. }
  assert (H16 : bslice V2_HEADER_LEN (V2_HEADER_LEN + blen body) b = body).
  { replace b with ((V2_SIGNATURE ++ [Byte.x21; fam] ++ lenb) ++ body ++ rest)
      by (unfold b; by rewrite <- !app_assoc).
    assert (V2_HEADER_LEN = blen (V2_SIGNATURE ++ [Byte.x21; fam] ++ lenb)).
    { unfold blen. rewrite !length_app, Hl. reflexivity. }
    apply bslice_mid; lia. }
  rewrite Hst, Hbl, H12, H13, H14, HL, H16, Ha. simpl negb. cbv iota.
  pose proof (blen_nonneg body). pose proof (blen_nonneg rest).
  destruct (Z.ltb_spec (V2_HEADER_LEN + blen body + blen rest) V2_HEADER_LEN); [lia|].
  change (Z.land 33 15) with 1. change (1 =? V2_CMD_LOCAL) with false.
  change (1 =? V2_CMD_PROXY) with true. cbn [negb andb orb].
  destruct (Z.ltb_spec V2_MAX_BODY (blen body)); [lia|].
  destruct (Z.ltb_spec (blen body) needed); [lia|]. rewrite andb_false_r.
  destruct (Z.ltb_spec (V2_HEADER_LEN + blen body + blen rest) (V2_HEADER_LEN + blen body)); [lia|].
  destruct (Z.eqb_spec (byte_z fam) V2_AF_UNSPEC) as [E|]; [|done]. by rewrite E in Ha.
Qed.

(** A v2 header for TCP over IPv4 or IPv6, with at most 4 KiB of address
    and TLV data and followed by any bytes, is parsed to the packed source
    address and port, and exactly the header's bytes are consumed. *)
Theorem v2_header_roundtrip v6 src dst sport dport tlvs rest :
  0 <= src < 2 ^ net_bits v6 -> 0 <= sport <= 65535 ->
  blen (v2_header v6 src dst sport dport tlvs) <= V2_HEADER_LEN + V2_MAX_BODY ->
  parse_header (v2_header v6 src dst sport dport tlvs ++ rest) =
  Header (Some (ip_str (if v6 then V6 src None else V4 src), sport))
    (blen (v2_header v6 src dst sport dport tlvs)).
Proof.
  intros Hs Hp Hl. rewrite v2_header_len in *.
  assert (Ht := blen_nonneg tlvs). unfold V2_HEADER_LEN, V2_MAX_BODY in Hl.
  set (al := if v6 then 16%nat else 4%nat).
  set (body := be_bytes al src ++ be_bytes al dst ++ be_bytes 2 sport ++ be_bytes 2 dport ++ tlvs).
  assert (Hb : blen body = 2 * Z.of_nat al + 4 + blen tlvs).
  { unfold body. rewrite !blen_app, !blen_be_bytes. lia. }
  assert (Heq : v2_header v6 src dst sport dport tlvs ++ rest = V2_SIGNATURE ++
    [Byte.x21; if v6 then Byte.x21 else Byte.x11] ++ be_bytes 2 (blen body) ++ body ++ rest).
  { unfold v2_header. fold al. rewrite Hb. unfold body. by rewrite <- !app_assoc. }
  rewrite Heq.
  rewrite (parse_v2_fields _ _ _ _ (2 * Z.of_nat al + 4) (Z.of_nat al)).
  - assert (H0 : bslice 0 (Z.of_nat al) body = be_bytes al src).
    { apply (bslice_mid 0 (Z.of_nat al) []); rewrite ?blen_be_bytes; done. }
    rewrite H0.
    replace body with ((be_bytes al src ++ be_bytes al dst) ++ be_bytes 2 sport ++ be_bytes 2 dport ++ tlvs)
      by (unfold body; by rewrite <- !app_assoc).
    rewrite (bslice_mid (2 * Z.of_nat al)) by (rewrite ?blen_app, ?blen_be_bytes; lia).
    unfold ip_address_packed. rewrite length_be_bytes, !be_int_bytes by (unfold al; destruct v6; simpl in *; lia).
    rewrite !blen_app, !blen_be_bytes. unfold al, V2_HEADER_LEN. destruct v6; simpl; f_equal; lia.
  - by destruct v6.
  - apply length_be_bytes.
  - apply be_int_bytes. rewrite Hb. unfold al. destruct v6; simpl; lia.
  - rewrite Hb. unfold V2_MAX_BODY, al. destruct v6; simpl; lia.
Qed.

(** ** Theorems: the connection *)

Lemma fold_deliver_closed chunks c :
  open_conn c = false -> fold_left (fun c d => deliver d c) chunks c = c.
Proof.
  intros H. induction chunks as [|d ds IH]; simpl; [done|].
  unfold deliver at 2. by rewrite H.
Qed.

Lemma fold_deliver_tls chunks c s :
  open_conn c = true -> tls c = Some s ->
  fold_left (fun c d => deliver d c) chunks c =
  mkConn (peer c) (aborted c) (lost c) (buf c) (timer c)
    (Some (mkTLS (proxied_client s) (tls_input s ++ concat chunks))).
Proof.
  revert c s. induction chunks as [|d ds IH]; intros c s Ho Ht; simpl.
  - rewrite app_nil_r. destruct c, s; simpl in *. by subst.
  - unfold deliver at 2. rewrite Ho, Ht. simpl.
    rewrite (IH _ (mkTLS (proxied_client s) (tls_input s ++ d))) by done.
    simpl. by rewrite <- app_assoc.
Qed.

(** The state a connection ends in, given all the bytes of the stream. *)
Definition conn_after (host : string) (bs : bytes) : conn :=
  match parse_header bs with
  | Incomplete => mkConn host false false bs true None
  | Raised _ => mkConn host true false [] false None
  | Header cl n => mkConn host false false [] false (Some (mkTLS cl (drop (Z.to_nat n) bs)))
  end.

(** Equality of connections up to the buffer of an aborted one, which is
    never read again. *)
Definition conn_equiv (c1 c2 : conn) : Prop :=
  peer c1 = peer c2 /\ aborted c1 = aborted c2 /\ lost c1 = lost c2 /\ timer c1 = timer c2 /\
  tls c1 = tls c2 /\ (aborted c1 = false -> buf c1 = buf c2).

#[global] Instance conn_equiv_equivalence : Equivalence conn_equiv.
Proof.
  split.
  - intros c. unfold conn_equiv. tauto.
  - intros c1 c2 (? & E & ? & ? & ? & H). unfold conn_equiv. rewrite E in H.
    split_and!; try done. intros. symmetry. by apply H.
  - intros c1 c2 c3 (? & E & ? & ? & ? & H) (? & E' & ? & ? & ? & H').
    unfold conn_equiv. split_and!; try congruence.
    intros Ha. rewrite H by done. apply H'. congruence.
Qed.

Lemma drop_consumed b x cl n :
  parse_header b = Header cl n -> drop (Z.to_nat n) (b ++ x) = drop (Z.to_nat n) b ++ x.
Proof.
  intros E. pose proof (parse_header_in_bounds b) as Hb. rewrite E in Hb. simpl in Hb.
  unfold blen in Hb. apply drop_app_le. lia.
Qed.

Lemma feed_chunks host bs chunks :
  parse_header bs = Incomplete ->
  conn_equiv (fold_left (fun c d => deliver d c) chunks (mkConn host false false bs true None))
    (conn_after host (bs ++ concat chunks)).
Proof.
  revert bs. induction chunks as [|d ds IH]; intros bs Hi; simpl.
  { rewrite app_nil_r. unfold conn_after. by rewrite Hi. }
  unfold deliver at 2, data_received. simpl. rewrite app_assoc.
  destruct (parse_header (bs ++ d)) as [e| |cl n] eqn:E.
  - pose proof (parse_header_in_bounds (bs ++ d)) as Hb. rewrite E in Hb. simpl in Hb. subst e.
    rewrite fold_deliver_closed by done. unfold conn_after.
    rewrite parse_header_ext, E by (by rewrite E). done.
  - by apply IH.
  - rewrite (fold_deliver_tls _ _ (mkTLS cl (drop (Z.to_nat n) (bs ++ d)))) by done. unfold conn_after.
    rewrite parse_header_ext, E by (by rewrite E).
    rewrite (drop_consumed _ _ _ _ E). done.
Qed.

Definition peer_host (peername : option (string * Z)) : string :=
  match peername with Some (h, _) => h | None => "?" end.

(** C36. How the network cuts the stream into segments does not matter: for a
    trusted peer, after any sequence of reads the connection is in the state
    given by parsing all received bytes at once: waiting with the timer
    armed, aborted, or in TLS with the header's client and, as TLS input,
    exactly the bytes after the header. *)
Theorem segmentation_independence trusted peername chunks :
  is_trusted (peer_host peername) trusted = true ->
  conn_equiv
    (fold_left (fun c d => deliver d c) chunks (connection_made trusted peername new_conn))
    (conn_after (peer_host peername) (concat chunks)).
Proof.
  intros Ht. unfold connection_made. fold (peer_host peername). rewrite Ht. simpl.
  by apply (feed_chunks (peer_host peername) []).
Qed.

(** What holds of every reachable connection. *)
Definition conn_inv (trusted : list net) (host : string) (bs : bytes) (c : conn) : Prop :=
  peer c = host /\
  (timer c = true -> open_conn c = true /\ tls c = None) /\
  (is_trusted host trusted = false -> aborted c = true /\ tls c = None) /\
  match tls c with
  | Some s => exists n, parse_header bs = Header (proxied_client s) n /\
                tls_input s = drop (Z.to_nat n) bs
  | None => open_conn c = true -> timer c = true /\ buf c = bs /\ parse_header bs = Incomplete
  end.

Lemma conn_inv_made trusted peername :
  conn_inv trusted (peer_host peername) [] (connection_made trusted peername new_conn).
Proof.
  unfold connection_made, conn_inv. fold (peer_host peername).
  destruct (is_trusted _ _) eqn:E; simpl; rewrite ?E; repeat split; try done.
Qed.

Lemma open_conn_true c : open_conn c = true <-> aborted c = false /\ lost c = false.
Proof. unfold open_conn. destruct (aborted c), (lost c); simpl; split; try done; by intros []. Qed.

Lemma conn_inv_data trusted host bs data c :
  conn_inv trusted host bs c -> open_conn c = true -> conn_inv trusted host (bs ++ data) (deliver data c).
Proof.
  intros (Hp & Ht & Hu & Hs) Ho. unfold deliver. rewrite Ho. simpl negb. cbv iota.
  pose proof (proj1 (open_conn_true c) Ho) as [Ha Hl].
  assert (Htr : is_trusted host trusted = true).
  { destruct (is_trusted host trusted); [done|]. destruct (Hu eq_refl). congruence. }
  destruct (tls c) as [s|] eqn:Es.
  - destruct Hs as (n & En & Ei). split_and!; simpl; [done| |congruence|].
    + intros Hti. destruct (Ht Hti); congruence.
    + exists n. rewrite parse_header_ext, En by (by rewrite En).
      by rewrite (drop_consumed _ _ _ _ En), Ei.
  - destruct (Hs Ho) as (Hti & Hb & Hi). unfold data_received. simpl. rewrite Hb.
    destruct (parse_header (bs ++ data)) as [[]| |cl n] eqn:E;
      unfold conn_inv, close, abort, start_tls, cancel_timer, open_conn; simpl;
      rewrite ?Ha, ?Hl, ?Es, ?Htr, ?Hti; simpl; split_and!; eauto; try done.
    pose proof (parse_header_in_bounds (bs ++ data)) as HB. by rewrite E in HB.
Qed.

Lemma conn_inv_close trusted host bs c :
  conn_inv trusted host bs c -> timer c = true -> conn_inv trusted host bs (on_timeout c).
Proof.
  intros (Hp & Ht & Hu & Hs) Hti. destruct (Ht Hti) as [Ho Hn]. rewrite Hn in Hs.
  unfold conn_inv, on_timeout, close, abort, cancel_timer, open_conn. simpl.
  rewrite Hn. simpl. by split_and!.
Qed.

Lemma conn_inv_lost trusted host bs c :
  conn_inv trusted host bs c -> conn_inv trusted host bs (connection_lost c).
Proof.
  intros (Hp & Ht & Hu & Hs).
  unfold conn_inv, connection_lost, cancel_timer, open_conn. simpl.
  rewrite andb_false_r. split_and!; try done. by destruct (tls c).
Qed.

Lemma reachable_inv trusted peername bs c :
  reachable trusted peername bs c -> conn_inv trusted (peer_host peername) bs c.
Proof.
  induction 1; eauto using conn_inv_made, conn_inv_data, conn_inv_close, conn_inv_lost.
Qed.

(** C13. On every reachable connection: TLS is entered only for a trusted peer
    that sent a complete valid header, it is given the header's client
    address and exactly the bytes that followed the header, and the header
    timer can no longer abort it. *)
Theorem tls_only_after_trusted_header trusted peername bs c s :
  reachable trusted peername bs c -> tls c = Some s ->
  is_trusted (peer_host peername) trusted = true /\ timer c = false /\
  exists n, parse_header bs = Header (proxied_client s) n /\
    tls_input s = drop (Z.to_nat n) bs.
Proof.
  intros (_ & Ht & Hu & Hs)%reachable_inv Es. rewrite Es in Hs, Ht, Hu. split_and!; [| |done].
  - destruct (is_trusted _ _); [done|]. by destruct (Hu eq_refl).
  - destruct (timer c); [|done]. by destruct (Ht eq_refl).
Qed.

(** A peer cannot hold the listener open before TLS: while the connection
    is open and the header incomplete, the timeout is armed, fewer than
    4112 bytes are buffered, and firing the timeout aborts the connection. *)
Theorem header_wait_is_bounded trusted peername bs c :
  reachable trusted peername bs c -> open_conn c = true -> tls c = None ->
  timer c = true /\ blen (buf c) < V2_HEADER_LEN + V2_MAX_BODY /\
  reachable trusted peername bs (on_timeout c) /\ aborted (on_timeout c) = true.
Proof.
  intros Hr Ho Hn. pose proof (reachable_inv _ _ _ _ Hr) as (_ & _ & _ & Hs). rewrite Hn in Hs.
  destruct (Hs Ho) as (Ht & -> & Hi).
  pose proof (parse_header_in_bounds bs) as Hb. rewrite Hi in Hb.
  split_and!; [done|done|by apply ReachTimeout|done].
Qed.

Lemma feed_tls_complete_gen get_buffer fuel i view :
  (forall i k, (0 < k -> 0 < get_buffer i k)%nat) -> (length view <= fuel)%nat ->
  exists pieces, feed_tls get_buffer fuel i view = Some pieces /\ concat pieces = view.
Proof.
  intros Hpos. revert i view. induction fuel as [|f IH]; intros i view Hl.
  - destruct view; [by exists []|simpl in Hl; lia].
  - destruct view as [|x v]; [by exists []|]. cbn [feed_tls].
    set (n := Nat.min _ _). assert (Hn : (1 <= n <= length (x :: v))%nat).
    { unfold n. pose proof (Hpos i (length (x :: v)) ltac:(simpl; lia)). simpl in *. lia. }
    destruct (IH (S i) (drop n (x :: v))) as (ps & -> & Hc).
    { rewrite length_drop. simpl in *. lia. }
    eexists. split; [done|]. simpl. rewrite Hc. apply take_drop.
Qed.

(** The copying loop of [_start_tls] terminates within one iteration per
    byte and feeds the TLS engine all left-over bytes, in order, whatever the
    sizes of the buffers it returns (which must not be empty, the documented
    contract of [BufferedProtocol.get_buffer]). *)
Theorem feed_tls_complete get_buffer leftover :
  (forall i k, (0 < k -> 0 < get_buffer i k)%nat) ->
  exists pieces, feed_tls get_buffer (length leftover) 0 leftover = Some pieces /\
    concat pieces = leftover.
Proof. intros. by apply feed_tls_complete_gen. Qed.

(** ** Witnesses *)

Lemma v1_header_roundtrip_witness :
  v1_line 3221225985 167772161 56324 443 = "PROXY TCP4 192.0.2.1 10.0.0.1 56324 443" /\
  parse_header (v1_header 3221225985 167772161 56324 443 ++ [Byte.x16]) =
  Header (Some (v4_str 3221225985, 56324)) (blen (v1_header 3221225985 167772161 56324 443)).
Proof. split; [reflexivity|]. apply v1_header_roundtrip; lia. Defined.

Lemma v2_header_roundtrip_witness :
  parse_header (v2_header true 1 2 3 4 [Byte.x03] ++ [Byte.x16]) =
  Header (Some (ip_str (V6 1 None), 3)) (blen (v2_header true 1 2 3 4 [Byte.x03])).
Proof. apply (v2_header_roundtrip true 1 2 3 4 [Byte.x03]); simpl; lia || (vm_compute; congruence). Defined.

Definition demo_trusted : list net := [mkNet false 167772160 8].
Definition demo_chunks : list bytes :=
  [str_bytes "PROXY TCP4 192.0.2.1 10.0."; str_bytes "0.1 56324 443" ++ [Byte.x0d];
   [Byte.x0a; Byte.x16; Byte.x03]; [Byte.x01]].

Lemma segmentation_independence_witness :
  conn_after "10.0.0.9" (concat demo_chunks) =
    mkConn "10.0.0.9" false false [] false
      (Some (mkTLS (Some ("192.0.2.1", 56324)) [Byte.x16; Byte.x03; Byte.x01])) /\
  conn_equiv
    (fold_left (fun c d => deliver d c) demo_chunks
       (connection_made demo_trusted (Some ("10.0.0.9", 1)) new_conn))
    (conn_after "10.0.0.9" (concat demo_chunks)).
Proof.
  split; [vm_compute; reflexivity|].
  apply (segmentation_independence demo_trusted (Some ("10.0.0.9", 1))). vm_compute. reflexivity.
Defined.

Definition demo_conn : conn :=
  deliver (concat demo_chunks) (connection_made demo_trusted (Some ("10.0.0.9", 1)) new_conn).

Lemma tls_only_after_trusted_header_witness :
  exists s, tls demo_conn = Some s /\
  is_trusted "10.0.0.9" demo_trusted = true /\ timer demo_conn = false /\
  exists n, parse_header ([] ++ concat demo_chunks) = Header (proxied_client s) n /\
    tls_input s = drop (Z.to_nat n) ([] ++ concat demo_chunks).
Proof.
  eexists. split; [vm_compute; reflexivity|].
  apply (tls_only_after_trusted_header demo_trusted (Some ("10.0.0.9", 1)) _ demo_conn).
  - apply ReachData; [apply ReachMade|vm_compute; reflexivity].
  - vm_compute. reflexivity.
Defined.

Lemma header_wait_is_bounded_witness :
  let c := connection_made demo_trusted (Some ("10.0.0.9", 1)) new_conn in
  timer c = true /\ blen (buf c) < V2_HEADER_LEN + V2_MAX_BODY /\
  reachable demo_trusted (Some ("10.0.0.9", 1)) [] (on_timeout c) /\ aborted (on_timeout c) = true.
Proof.
  apply header_wait_is_bounded; [apply ReachMade|vm_compute; reflexivity|vm_compute; reflexivity].
Defined.

Lemma feed_tls_complete_witness :
  exists pieces, feed_tls (fun _ _ => 2%nat) (length (str_bytes "hello")) 0 (str_bytes "hello")
    = Some pieces /\ concat pieces = str_bytes "hello".
Proof. apply (feed_tls_complete (fun _ _ => 2%nat)). lia. Defined.
