(* ===== verification/Ratelimit.v ===== *)
(** * Fixed-window rate limiting

    [src/src/wg_manager/ratelimit.py].  [Limiter] is the interface both
    backends implement; its laws say what a client may rely on, in terms of
    the window that is open for a key at a given time.  [MemoryLimiter] is
    modelled in full.  [RedisLimiter] is modelled over a Redis server that is
    a parameter: the class [RedisServer] states the documented behaviour of
    the four commands the code sends, and [reference_redis] is one server
    that has it.

    Clocks are integers: nanoseconds for [time.monotonic] (the rounding of
    binary floating point is not modelled), milliseconds for the server. *)

From S2P Require Import Prelude PyStr Session.

Record Decision_ := mkDecision { allowed : bool; count : Z; retry_after : Z }.

(** What a call meets: the clock readings it makes, in order, and whether the
    store answers, fails before executing the command, or fails after. *)
Inductive backend_fate := Answers | FailsBefore | FailsAfter.
#[global] Instance backend_fate_eq_dec : EqDecision backend_fate.
Proof. solve_decision. Defined.
Record call_env := mkEnv { t_read : Z; t_start : Z; t_retry : Z; fate : backend_fate }.

Definition env_ok (e : call_env) : Prop := t_read e <= t_start e <= t_retry e.

(** ** The interface *)

(** [None] is [RateLimitBackendError]. *)
Class Limiter (S : Type) := {
  hit : call_env -> string -> Z -> Z -> S -> option Decision_ * S;
  peek : call_env -> string -> Z -> Z -> S -> option Decision_ * S;
  (** ticks of the backend's clock in a second *)
  second : Z;
  (** the count and end of the window open for a key at a time *)
  live : S -> Z -> string -> option (Z * Z);
  (** states the backend can be in at a time *)
  limiter_ok : Z -> S -> Prop
}.

(** A window seen at an earlier time, at time [t]. *)
Definition at_time (t : Z) (w : option (Z * Z)) : option (Z * Z) :=
  match w with
  | Some (c, r) => if r <=? t then None else Some (c, r)
  | None => None
  end.

(** Two states whose open windows agree from [t] on. *)
Definition same_windows {S} `{Limiter S} (t : Z) (s s' : S) : Prop :=
  forall t' k, t <= t' -> live s' t' k = live s t' k.

(** The window of [k] after counting one more event: the open one, or a new
    one that ends [window] seconds after the call. *)
Definition counted {S} `{Limiter S} (e : call_env) (k : string) (window : Z) (s : S)
  (c r : Z) : Prop :=
  match live s (t_read e) k with
  | Some (c0, r0) => c = c0 + 1 /\ r = r0
  | None => c = 1 /\ t_read e + window * second <= r <= t_start e + window * second
  end.

Definition hit_counts {S} `{Limiter S} (e : call_env) (k : string) (window : Z) (s s' : S)
  (c r : Z) : Prop :=
  counted e k window s c r /\
  (forall t', t_start e <= t' -> live s' t' k = at_time t' (Some (c, r))) /\
  (forall t' k', t_start e <= t' -> k' <> k -> live s' t' k' = live s t' k').

Class LimiterLaws (S : Type) `{Limiter S} := {
  second_pos : 0 < second;
  live_later s t t' k : limiter_ok t s -> t <= t' -> live s t' k = at_time t' (live s t k);
  live_count s t k c r : limiter_ok t s -> live s t k = Some (c, r) -> 1 <= c /\ t < r;
  ok_later s t t' : limiter_ok t s -> t <= t' -> limiter_ok t' s;
  hit_ok e k limit window s :
    limiter_ok (t_read e) s -> env_ok e -> limiter_ok (t_start e) (hit e k limit window s).2;
  peek_ok e k limit window s :
    limiter_ok (t_read e) s -> env_ok e -> limiter_ok (t_start e) (peek e k limit window s).2;
  (** a hit is decided on the count it makes; a failing one may or may not be counted *)
  hit_law e k limit window s d s' :
    limiter_ok (t_read e) s -> env_ok e -> hit e k limit window s = (d, s') ->
    match d with
    | Some d => exists r, hit_counts e k window s s' (count d) r /\
                  allowed d = (count d <=? limit) /\ (1 <= window -> 1 <= retry_after d)
    | None => same_windows (t_start e) s s' \/ exists c r, hit_counts e k window s s' c r
    end;
  (** a peek decides on the open window and changes nothing *)
  peek_law e k limit window s d s' :
    limiter_ok (t_read e) s -> env_ok e -> peek e k limit window s = (d, s') ->
    same_windows (t_start e) s s' /\
    forall d', d = Some d' ->
      match live s (t_read e) k with
      | Some (c, _) => allowed d' = (c <? limit) /\ count d' = c
      | None => allowed d' = true /\ count d' = 0 /\ retry_after d' = 0
      end
}.

(** ** MemoryLimiter *)

(** [int(round(n / d))]: ties go to the even integer. *)
Definition round_div (n d : Z) : Z :=
  let q := n / d in
  let r := n mod d in
  if 2 * r <? d then q else if d <? 2 * r then q + 1 else if Z.even q then q else q + 1.

Definition ns : Z := 1000000000.

(** [_windows]: count and [reset_at] per key. *)
Abbreviation windows := (gmap string (Z * Z)).

Definition current (now : Z) (key : string) (w : windows) : option (Z * Z) * windows :=
  match w !! key with
  | Some (c, reset_at) => if reset_at <=? now then (None, delete key w) else (Some (c, reset_at), w)
  | None => (None, w)
  end.

Definition mem_retry_after (now reset_at : Z) : Z := Z.max 1 (round_div (reset_at - now) ns).

Definition mem_hit (e : call_env) (key : string) (limit window : Z) (w : windows)
  : Decision_ * windows :=
  let '(entry, w) := current (t_read e) key w in
  let '(c0, reset_at) := default (0, t_start e + window * ns) entry in
  let c := c0 + 1 in
  (mkDecision (c <=? limit) c (mem_retry_after (t_retry e) reset_at), <[key := (c, reset_at)]> w).

Definition mem_peek (e : call_env) (key : string) (limit window : Z) (w : windows)
  : Decision_ * windows :=
  let '(entry, w) := current (t_read e) key w in
  match entry with
  | None => (mkDecision true 0 0, w)
  | Some (c, reset_at) => (mkDecision (c <? limit) c (mem_retry_after (t_start e) reset_at), w)
  end.

#[global] Instance MemoryLimiter : Limiter windows := {
  hit e k l w s := let '(d, s') := mem_hit e k l w s in (Some d, s');
  peek e k l w s := let '(d, s') := mem_peek e k l w s in (Some d, s');
  second := ns;
  live s t k := at_time t (s !! k);
  limiter_ok _ s := forall k c r, s !! k = Some (c, r) -> 1 <= c
}.

(** ** RedisLimiter *)

(** Documented behaviour of the commands.  [r_key s t k] is what the server
    holds under [k] at time [t]: the integer and the expiry time, if set. *)
Class RedisServer (R : Type) := {
  r_key : R -> Z -> string -> option (Z * option Z);
  r_incr : Z -> string -> R -> Z * R;
  r_expire_nx : Z -> string -> Z -> R -> R;
  r_ttl : Z -> string -> R -> Z
}.

(** Keys disappear by themselves only when their expiry time is reached. *)
Definition expired_at (t : Z) (x : option (Z * option Z)) : option (Z * option Z) :=
  match x with
  | Some (v, Some e) => if e <=? t then None else Some (v, Some e)
  | _ => x
  end.

Class RedisLaws (R : Type) `{RedisServer R} := {
  r_key_later s t t' k : t <= t' -> r_key s t' k = expired_at t' (r_key s t k);
  r_key_open s t k v x : r_key s t k = Some (v, Some x) -> t < x;
  (** INCR creates the key at 0, adds one and keeps the expiry *)
  r_incr_law s t k n s' : r_incr t k s = (n, s') ->
    n = from_option fst 0 (r_key s t k) + 1 /\
    r_key s' t k = Some (n, from_option snd None (r_key s t k)) /\
    forall t' k', t <= t' -> k' <> k -> r_key s' t' k' = r_key s t' k';
  (** EXPIRE NX sets an expiry only on a key without one; a time to live that
      is not positive deletes the key *)
  r_expire_law s t k w :
    r_key (r_expire_nx t k w s) t k =
      match r_key s t k with
      | Some (v, None) => if w <=? 0 then None else Some (v, Some (t + w * 1000))
      | x => x
      end /\
    forall t' k', t <= t' -> k' <> k -> r_key (r_expire_nx t k w s) t' k' = r_key s t' k'
}.

Section redis_limiter.
Context {R : Type} `{RedisServer R}.

Definition KEY_PREFIX : string := "wgm:rl:".

Definition redis_retry_after (ttl window : Z) : Z := if 0 <? ttl then Z.max 1 ttl else window.

(** INCR, EXPIRE NX and TTL in one transaction. *)
Definition redis_hit_tx (now : Z) (k : string) (window : Z) (s : R) : Z * Z * R :=
  let '(n, s1) := r_incr now k s in
  let s2 := r_expire_nx now k window s1 in
  (n, r_ttl now k s2, s2).

Definition redis_hit (e : call_env) (key : string) (limit window : Z) (s : R)
  : option Decision_ * R :=
  let k := KEY_PREFIX +:+ key in
  let '(n, ttl, s') := redis_hit_tx (t_read e) k window s in
  match fate e with
  | FailsBefore => (None, s)
  | FailsAfter => (None, s')
  | Answers => (Some (mkDecision (n <=? limit) n (redis_retry_after ttl window)), s')
  end.

Definition redis_peek (e : call_env) (key : string) (limit window : Z) (s : R)
  : option Decision_ * R :=
  let k := KEY_PREFIX +:+ key in
  match fate e with
  | Answers =>
      let n := from_option fst 0 (r_key s (t_read e) k) in
      let ttl := r_ttl (t_read e) k s in
      (Some (if n =? 0 then mkDecision true 0 0
             else mkDecision (n <? limit) n (redis_retry_after ttl window)), s)
  | _ => (None, s)
  end.

Definition redis_live (s : R) (t : Z) (k : string) : option (Z * Z) :=
  match r_key s t (KEY_PREFIX +:+ k) with
  | Some (c, Some r) => Some (c, r)
  | _ => None
  end.

(** Every limiter key the server holds is a positive counter with an expiry. *)
Definition redis_ok (t0 : Z) (s : R) : Prop := forall t k v x, t0 <= t ->
  r_key s t (KEY_PREFIX +:+ k) = Some (v, x) -> 1 <= v /\ exists r, x = Some r.

#[global] Instance RedisLimiter : Limiter R := {
  hit := redis_hit; peek := redis_peek; second := 1000;
  live := redis_live; limiter_ok := redis_ok
}.
End redis_limiter.

(** One server with the documented behaviour: expired keys are dropped on
    access. *)
Abbreviation redis_store := (gmap string (Z * option Z)).

#[global] Instance reference_redis : RedisServer redis_store := {
  r_key s t k := expired_at t (s !! k);
  r_incr t k s :=
    let x := expired_at t (s !! k) in
    let n := from_option fst 0 x + 1 in (n, <[k := (n, from_option snd None x)]> s);
  r_expire_nx t k w s :=
    match expired_at t (s !! k) with
    | Some (v, None) => if w <=? 0 then delete k s else <[k := (v, Some (t + w * 1000))]> s
    | _ => s
    end;
  r_ttl t k s :=
    match expired_at t (s !! k) with
    | Some (_, Some x) => (x - t + 500) / 1000
    | Some (_, None) => -1
    | None => -2
    end
}.

(** ** Lemmas: windows over time *)

Lemma at_time_later t t' w : t <= t' -> at_time t' (at_time t w) = at_time t' w.
Proof.
  intros H. destruct w as [[c r]|]; [|done]. simpl.
  destruct (Z.leb_spec r t); simpl; [|done]. destruct (Z.leb_spec r t'); [done|lia].
Qed.

Lemma at_time_Some t w c r : at_time t w = Some (c, r) <-> w = Some (c, r) /\ t < r.
Proof.
  destruct w as [[c0 r0]|]; simpl; [|split; [done|intros [? ?]; done]].
  destruct (Z.leb_spec r0 t); split; [done|intros [[= <- <-] ?]; lia|intros [= <- <-]; done|].
  intros [[= <- <-] ?]. done.
Qed.

(** ** The in-memory backend satisfies the interface *)

Lemma current_spec now key w :
  (current now key w).1 = at_time now (w !! key) /\
  (forall k c r, (current now key w).2 !! k = Some (c, r) -> w !! k = Some (c, r)) /\
  (forall t k, now <= t -> at_time t ((current now key w).2 !! k) = at_time t (w !! k)).
Proof.
  unfold current. destruct (w !! key) as [[c r]|] eqn:E; [|done].
  simpl. destruct (Z.leb_spec r now); [|done]. simpl. split_and!; [done| |].
  - intros k c' r' Hk. by apply lookup_delete_Some in Hk as [_ ?].
  - intros t k Ht. destruct (decide (k = key)) as [->|]; [|by rewrite lookup_delete_ne].
    rewrite lookup_delete_eq, E. simpl. destruct (Z.leb_spec r t); [done|lia].
Qed.

Lemma mem_hit_eq e k limit window w :
  let '(c0, r) := default (0, t_start e + window * ns) (at_time (t_read e) (w !! k)) in
  mem_hit e k limit window w =
    (mkDecision (c0 + 1 <=? limit) (c0 + 1) (mem_retry_after (t_retry e) r),
     <[k := (c0 + 1, r)]> (current (t_read e) k w).2).
Proof.
  unfold mem_hit. destruct (current_spec (t_read e) k w) as [E _].
  destruct (current (t_read e) k w) as [en w1]. simpl in *. subst en.
  by destruct (default _ _).
Qed.

#[global] Instance MemoryLimiterLaws : LimiterLaws windows.
Proof.
  split.
  - done.
  - intros s t t' k _ Ht. simpl. by rewrite at_time_later.
  - intros s t k c r Hok [E ?]%at_time_Some. split; [by eapply Hok|done].
  - done.
  - intros e k l wd s Hok He k' c r. simpl. pose proof (mem_hit_eq e k l wd s) as E.
    destruct (current_spec (t_read e) k s) as (_ & Hc & _).
    destruct (default _ _) as [c0 r0] eqn:Ed. rewrite E. simpl.
    rewrite lookup_insert. case_decide; [intros [= <- <-]|intros Hk; eapply Hok, Hc, Hk].
    destruct (at_time _ _) as [[c1 r1]|] eqn:Ea; simpl in Ed; simplify_eq; [|lia].
    apply at_time_Some in Ea as [Ea _]. pose proof (Hok _ _ _ Ea). lia.
  - intros e k l wd s Hok He k' c r. simpl. unfold mem_peek.
    destruct (current_spec (t_read e) k s) as (_ & Hc & _).
    destruct (current (t_read e) k s) as [[[c1 r1]|] w1]; simpl in *; eauto.
  - intros e k l wd s d s' Hok He. simpl. pose proof (mem_hit_eq e k l wd s) as E.
    destruct (current_spec (t_read e) k s) as (_ & _ & Hc).
    destruct (default _ _) as [c0 r0] eqn:Ed. rewrite E. intros [= <- <-]. simpl.
    exists r0. split_and!; [|done|intros; unfold mem_retry_after; lia].
    unfold hit_counts, counted. simpl. split_and!.
    + destruct (at_time _ _) as [[c1 r1]|] eqn:Ea; simpl in Ed; simplify_eq; [done|].
      unfold env_ok in He. unfold ns in *. lia.
    + intros t' Ht. by rewrite lookup_insert_eq.
    + intros t' k' Ht Hk. rewrite lookup_insert_ne by done. apply Hc. unfold env_ok in He. lia.
  - intros e k l wd s d s' Hok He. simpl. unfold mem_peek.
    destruct (current_spec (t_read e) k s) as (E1 & _ & Hc).
    destruct (current (t_read e) k s) as [en w1]. simpl in *. subst en.
    assert (Hw : same_windows (t_start e) s w1).
    { intros t' k' Ht. apply Hc. unfold env_ok in He. lia. }
    destruct (at_time (t_read e) (s !! k)) as [[c r]|]; intros [= <- <-];
      (split; [exact Hw|]); intros d' [= <-]; done.
Qed.

(** ** The Redis backend satisfies the interface *)

Section redis_laws.
Context {R : Type} `{RedisLaws R}.

Lemma prefix_inj (k k' : string) : KEY_PREFIX +:+ k = KEY_PREFIX +:+ k' -> k = k'.
Proof. by intros [= ?]. Qed.

(** The key of a window after the hit transaction, and the other keys. *)
Lemma redis_hit_tx_spec now k window s n ttl s' :
  redis_hit_tx now k window s = (n, ttl, s') ->
  n = from_option fst 0 (r_key s now k) + 1 /\
  (forall t', now <= t' -> r_key s' t' k = expired_at t'
     match r_key s now k with
     | Some (_, Some r) => Some (n, Some r)
     | _ => if window <=? 0 then None else Some (n, Some (now + window * 1000))
     end) /\
  (forall t' k', now <= t' -> k' <> k -> r_key s' t' k' = r_key s t' k').
Proof.
  unfold redis_hit_tx. destruct (r_incr now k s) as [m s1] eqn:E. intros [= <- <- <-].
  destruct (r_incr_law _ _ _ _ _ E) as (Hm & Hk & Hother).
  destruct (r_expire_law s1 now k window) as [He Heo]. split_and!; [done| |].
  - intros t' Ht. rewrite (r_key_later _ now t') by done. rewrite He, Hk.
    destruct (r_key s now k) as [[v [r|]]|]; simpl; try done; by destruct (window <=? 0).
  - intros t' k' Ht Hne. by rewrite Heo, Hother.
Qed.

Lemma redis_live_expired s t t' k :
  redis_ok t s -> t <= t' -> redis_live s t' k = at_time t' (redis_live s t k).
Proof.
  intros Hok Ht. unfold redis_live. rewrite (r_key_later s t t') by done.
  destruct (r_key s t _) as [[v [r|]]|] eqn:E; simpl; try done. by destruct (r <=? t').
Qed.

Lemma redis_ok_later s t t' : redis_ok t s -> t <= t' -> redis_ok t' s.
Proof. intros Hok Ht t1 k v x H1. apply Hok. lia. Qed.

Lemma redis_ok_tx e k window s n ttl s' :
  redis_ok (t_read e) s ->
  redis_hit_tx (t_read e) (KEY_PREFIX +:+ k) window s = (n, ttl, s') -> redis_ok (t_read e) s'.
Proof.
  intros Hok (Hn & Hk & Ho)%redis_hit_tx_spec t k' v x Ht.
  destruct (decide (k' = k)) as [->|Hne].
  - rewrite Hk by done. destruct (r_key s (t_read e) (KEY_PREFIX +:+ k)) as [[v0 x0]|] eqn:E.
    + destruct (Hok _ _ _ _ (Z.le_refl _) E) as [Hv [r ->]]. simpl in *.
      destruct (r <=? t); [done|]. intros [= <- <-]. split; [lia|eauto].
    + simpl in *. destruct (window <=? 0); [done|]. simpl.
      destruct (_ <=? t); [done|]. intros [= <- <-]. split; [lia|eauto].
  - rewrite Ho; [by apply Hok|done|]. intros ?%prefix_inj. done.
Qed.

Lemma redis_hit_counts e k window s n ttl s' :
  redis_ok (t_read e) s -> env_ok e ->
  redis_hit_tx (t_read e) (KEY_PREFIX +:+ k) window s = (n, ttl, s') ->
  exists r, hit_counts e k window s s' n r.
Proof.
  intros Hok He (Hn & Hk & Ho)%redis_hit_tx_spec. unfold env_ok in He.
  assert (Hother : forall t' k', t_start e <= t' -> k' <> k -> live s' t' k' = live s t' k').
  { intros t' k' Ht Hne. simpl. unfold redis_live. rewrite Ho; [done|lia|].
    intros ?%prefix_inj. done. }
  unfold hit_counts, counted. simpl in *. unfold redis_live at 1 3.
  destruct (r_key s (t_read e) (KEY_PREFIX +:+ k)) as [[v x]|] eqn:E; simpl in *.
  - destruct (Hok _ _ _ _ (Z.le_refl _) E) as [Hv [r ->]]. exists r. split; [done|split; [|done]].
    intros t' Ht. unfold redis_live. rewrite Hk by lia. simpl. by destruct (r <=? t').
  - exists (t_read e + window * 1000). split; [lia|split; [|done]].
    intros t' Ht. unfold redis_live. rewrite Hk by lia.
    destruct (Z.leb_spec window 0); simpl; destruct (Z.leb_spec (t_read e + window * 1000) t');
      done || lia.
Qed.

#[global] Instance RedisLimiterLaws : LimiterLaws R.
Proof.
  split.
  - done.
  - intros s t t' k. apply redis_live_expired.
  - intros s t k c r Hok. simpl. unfold redis_live.
    destruct (r_key s t _) as [[v [x|]]|] eqn:E; try done. intros [= <- <-].
    destruct (Hok _ _ _ _ (Z.le_refl _) E) as [? _]. split; [done|by eapply r_key_open].
  - intros s t t'. apply redis_ok_later.
  - intros e k l wd s Hok He. simpl. unfold redis_hit.
    destruct (redis_hit_tx _ _ _ _) as [[n ttl] s'] eqn:E.
    pose proof (redis_ok_tx _ _ _ _ _ _ _ Hok E) as Hok'. unfold env_ok in He.
    destruct (fate e); simpl;
      (apply (redis_ok_later _ (t_read e)); [first [exact Hok'|exact Hok]|lia]).
  - intros e k l wd s Hok He. simpl. unfold redis_peek, env_ok in *.
    destruct (fate e); simpl; (apply (redis_ok_later _ (t_read e)); [exact Hok|lia]).
  - intros e k l wd s d s' Hok He. simpl. unfold redis_hit.
    destruct (redis_hit_tx _ _ _ _) as [[n ttl] s1] eqn:E.
    destruct (redis_hit_counts _ _ _ _ _ _ _ Hok He E) as [r Hr].
    destruct (fate e); intros [= <- <-].
    + exists r. split_and!; [done|done|]. simpl. unfold redis_retry_after.
      intros. destruct (0 <? ttl); lia.
    + left. intros t' k' _. done.
    + right. eauto.
  - intros e k l wd s d s' Hok He. simpl. unfold redis_peek, redis_live.
    destruct (fate e); intros [= <- <-]; (split; [intros t' k' _; done|]); [|done..].
    intros d' [= <-].
    destruct (r_key s (t_read e) (KEY_PREFIX +:+ k)) as [[v x]|] eqn:E; [|done].
    destruct (Hok _ _ _ _ (Z.le_refl _) E) as [Hv [r ->]]. simpl.
    destruct (Z.eqb_spec v 0); [lia|done].
Qed.
End redis_laws.

Lemma expired_at_later t t' x : t <= t' -> expired_at t' (expired_at t x) = expired_at t' x.
Proof.
  intros Ht. destruct x as [[v [e|]]|]; simpl; try done.
  destruct (Z.leb_spec e t); simpl; [|done]. destruct (Z.leb_spec e t'); [done|lia].
Qed.

#[global] Instance reference_redis_laws : RedisLaws redis_store.
Proof.
  split; simpl.
  - intros s t t' k Ht. by rewrite expired_at_later.
  - intros s t k v x. destruct (s !! k) as [[v' [e|]]|]; simpl; try done.
    destruct (Z.leb_spec e t); [done|]. by intros [= -> ->].
  - intros s t k n s' [= <- <-]. split_and!; [done| |].
    + rewrite lookup_insert_eq. destruct (expired_at t (s !! k)) as [[v [x|]]|] eqn:E; simpl; try done.
      destruct (s !! k) as [[v' [x'|]]|]; simpl in E; try done.
      destruct (x' <=? t) eqn:Ex; [done|]. simplify_eq. by rewrite Ex.
    + intros t' k' Ht Hne. by rewrite lookup_insert_ne.
  - intros s t k w. destruct (expired_at t (s !! k)) as [[v [x|]]|] eqn:E.
    + by rewrite E.
    + destruct (Z.leb_spec w 0).
      * split; [by rewrite lookup_delete_eq|]. intros t' k' _ Hne. by rewrite lookup_delete_ne.
      * split; [rewrite lookup_insert_eq; simpl; destruct (Z.leb_spec (t + w * 1000) t); [lia|done]|].
        intros t' k' _ Hne. by rewrite lookup_insert_ne.
    + by rewrite E.
Qed.

(** ** Clients of the interface: how many requests get through *)

Section client.
Context {S : Type} `{LimiterLaws S}.

(** One call on the limiter, by any replica. *)
Record request := mkRequest {
  rq_env : call_env; rq_hit : bool; rq_key : string; rq_limit : Z; rq_window : Z
}.

Definition serve (q : request) (s : S) : option Decision_ * S :=
  if rq_hit q then hit (rq_env q) (rq_key q) (rq_limit q) (rq_window q) s
  else peek (rq_env q) (rq_key q) (rq_limit q) (rq_window q) s.

Fixpoint serve_all (qs : list request) (s : S) : S :=
  match qs with
  | [] => s
  | q :: qs' => serve_all qs' (serve q s).2
  end.

(** Hits on [k] that were allowed. *)
Fixpoint admitted (k : string) (qs : list request) (s : S) : Z :=
  match qs with
  | [] => 0
  | q :: qs' =>
      let '(d, s') := serve q s in
      (if rq_hit q && bool_decide (rq_key q = k) && from_option allowed false d then 1 else 0) +
      admitted k qs' s'
  end.

(** Calls in order: each reads the clock after the one before it. *)
Fixpoint in_order (t : Z) (qs : list request) : Prop :=
  match qs with
  | [] => True
  | q :: qs' => t <= t_read (rq_env q) /\ env_ok (rq_env q) /\ in_order (t_start (rq_env q)) qs'
  end.

(** Every hit on [k] uses the same limit and window, as in the callers. *)
Definition uniform (k : string) (limit window : Z) (qs : list request) : Prop :=
  Forall (fun q => rq_hit q = true -> rq_key q = k -> rq_limit q = limit /\ rq_window q = window) qs.

Lemma serve_ok q s : limiter_ok (t_read (rq_env q)) s -> env_ok (rq_env q) ->
  limiter_ok (t_start (rq_env q)) (serve q s).2.
Proof. intros. unfold serve. destruct (rq_hit q); [by apply hit_ok|by apply peek_ok]. Qed.

(** What one call does to the window of [k], by cases. *)
Lemma serve_window k limit window q s d s' :
  limiter_ok (t_read (rq_env q)) s -> env_ok (rq_env q) -> serve q s = (d, s') ->
  (rq_hit q = true -> rq_key q = k -> rq_limit q = limit /\ rq_window q = window) ->
  ((forall t', t_start (rq_env q) <= t' -> live s' t' k = live s t' k) /\
   rq_hit q && bool_decide (rq_key q = k) && from_option allowed false d = false) \/
  (exists c r, counted (rq_env q) k window s c r /\
    (forall t', t_start (rq_env q) <= t' -> live s' t' k = at_time t' (Some (c, r))) /\
    (rq_hit q && bool_decide (rq_key q = k) && from_option allowed false d = true -> c <= limit)).
Proof.
  intros Hok He Es Hu. unfold serve in Es. destruct (rq_hit q) eqn:Eh.
  2: { left. split; [|done]. apply peek_law in Es as [Hs _]; [|done..]. intros. by apply Hs. }
  pose proof (hit_law _ _ _ _ _ _ _ Hok He Es) as Hl.
  destruct (decide (rq_key q = k)) as [Ek|Hne].
  2: { left. rewrite bool_decide_eq_false_2 by done. split; [|done]. intros t' Ht.
       destruct d as [d|]; [destruct Hl as (r & (_ & _ & Ho) & _); by apply Ho|].
       destruct Hl as [Hs|(c & r & _ & _ & Ho)]; [by apply Hs|by apply Ho]. }
  destruct (Hu eq_refl Ek) as [<- <-]. subst k. rewrite bool_decide_eq_true_2 by done. simpl.
  destruct d as [d|]; simpl.
  - destruct Hl as (r & (Hc & Hk & _) & Ha & _). right. exists (count d), r. split_and!; [done..|].
    rewrite Ha. intros. blia.
  - destruct Hl as [Hs|(c & r & Hc & Hk & _)].
    + left. split; [|done]. intros. by apply Hs.
    + right. exists c, r. split_and!; done.
Qed.

(** Inside the window open at [t], at most [limit - c] more hits pass. *)
Lemma admitted_same_window k limit window qs t s c r :
  limiter_ok t s -> in_order t qs -> uniform k limit window qs ->
  Forall (fun q => t_start (rq_env q) < r) qs ->
  live s t k = Some (c, r) -> admitted k qs s <= Z.max 0 (limit - c).
Proof.
  revert t s c. induction qs as [|q qs IH]; intros t s c Hok Ho Hu Hr Hl; [simpl; lia|].
  destruct Ho as (Ht & He & Ho). apply Forall_cons in Hu as [Hq Hu], Hr as [Hrq Hr].
  assert (Hok' : limiter_ok (t_read (rq_env q)) s) by (by eapply ok_later).
  pose proof (serve_ok q s Hok' He) as Hok2. simpl. destruct (serve q s) as [d s'] eqn:Es.
  assert (Hnow : live s (t_read (rq_env q)) k = Some (c, r)).
  { rewrite (live_later s t) by done. rewrite Hl. apply at_time_Some. unfold env_ok in He. split; [done|lia]. }
  assert (Hst : live s (t_start (rq_env q)) k = Some (c, r)).
  { unfold env_ok in He. rewrite (live_later s t) by (done || lia). rewrite Hl. by apply at_time_Some. }
  destruct (serve_window _ _ _ _ _ _ _ Hok' He Es Hq) as [[Hk Ha]|(c' & r' & Hc & Hk & Ha)].
  - rewrite Ha. specialize (IH _ s' c Hok2 Ho Hu Hr). rewrite Hk in IH by done. specialize (IH Hst). lia.
  - unfold counted in Hc. rewrite Hnow in Hc. destruct Hc as [-> ->].
    specialize (IH _ s' (c + 1) Hok2 Ho Hu Hr).
    rewrite Hk in IH by done. specialize (IH ltac:(by apply at_time_Some)).
    destruct (_ && _ && _); [specialize (Ha eq_refl); lia|lia].
Qed.

(** From a time with no window open, at most [limit] hits pass within one
    window length. *)
Lemma admitted_fresh k limit window T qs t s :
  limiter_ok t s -> in_order t qs -> uniform k limit window qs ->
  Forall (fun q => T <= t_read (rq_env q) /\ t_start (rq_env q) < T + window * second) qs ->
  live s t k = None -> admitted k qs s <= Z.max 0 limit.
Proof.
  revert t s. induction qs as [|q qs IH]; intros t s Hok Ho Hu Hr Hl; [simpl; lia|].
  destruct Ho as (Ht & He & Ho). apply Forall_cons in Hu as [Hq Hu], Hr as [[Hr1 Hr2] Hr].
  assert (Hok' : limiter_ok (t_read (rq_env q)) s) by (by eapply ok_later).
  pose proof (serve_ok q s Hok' He) as Hok2. simpl. destruct (serve q s) as [d s'] eqn:Es.
  assert (Hnow : forall t', t <= t' -> live s t' k = None).
  { intros t' Ht'. rewrite (live_later s t) by done. by rewrite Hl. }
  unfold env_ok in He.
  destruct (serve_window _ _ _ _ _ _ _ Hok' He Es Hq) as [[Hk Ha]|(c' & r' & Hc & Hk & Ha)].
  - rewrite Ha. specialize (IH _ s' Hok2 Ho Hu Hr). rewrite Hk, Hnow in IH by lia.
    specialize (IH eq_refl). lia.
  - unfold counted in Hc. rewrite Hnow in Hc by done. destruct Hc as [-> Hc].
    pose proof (admitted_same_window k limit window qs _ s' 1 r' Hok2 Ho Hu) as IH2.
    rewrite Hk in IH2 by lia.
    specialize (IH2 ltac:(eapply Forall_impl; [exact Hr|]; simpl; intros ? [? ?]; lia)
                    ltac:(apply at_time_Some; split; [done|lia])).
    destruct (_ && _ && _); [specialize (Ha eq_refl); lia|lia].
Qed.

(** With a window open, the rest of it and one more: [2 * limit]. *)
Lemma admitted_two_windows k limit window T qs t s c r :
  limiter_ok t s -> in_order t qs -> uniform k limit window qs ->
  Forall (fun q => T <= t_read (rq_env q) /\ t_start (rq_env q) < T + window * second) qs ->
  live s t k = Some (c, r) -> admitted k qs s <= Z.max 0 (limit - c) + Z.max 0 limit.
Proof.
  revert t s c. induction qs as [|q qs IH]; intros t s c Hok Ho Hu Hr Hl; [simpl; lia|].
  destruct (Z.le_gt_cases r (t_read (rq_env q))) as [Hexp|Hlive].
  { pose proof Ho as (Ht & He & _).
    enough (admitted k (q :: qs) s <= Z.max 0 limit) by lia.
    apply (admitted_fresh k limit window T (q :: qs) (t_read (rq_env q)));
      [by eapply ok_later| |done|done|].
    - destruct Ho as (_ & ? & ?). split_and!; [lia|done|done].
    - rewrite (live_later s t) by done. rewrite Hl. simpl. destruct (Z.leb_spec r (t_read (rq_env q))); [done|lia]. }
  destruct Ho as (Ht & He & Ho). apply Forall_cons in Hu as [Hq Hu], Hr as [[Hr1 Hr2] Hr].
  assert (Hok' : limiter_ok (t_read (rq_env q)) s) by (by eapply ok_later).
  pose proof (serve_ok q s Hok' He) as Hok2. simpl. destruct (serve q s) as [d s'] eqn:Es.
  assert (Hnow : live s (t_read (rq_env q)) k = Some (c, r)).
  { rewrite (live_later s t) by done. rewrite Hl. apply at_time_Some. split; [done|lia]. }
  pose proof He as He'. unfold env_ok in He'.
  assert (Hst : live s (t_start (rq_env q)) k = at_time (t_start (rq_env q)) (Some (c, r))).
  { rewrite (live_later s t) by (done || lia). by rewrite Hl. }
  assert (Hrest : forall c', live s' (t_start (rq_env q)) k = at_time (t_start (rq_env q)) (Some (c', r)) ->
    admitted k qs s' <= Z.max 0 (limit - c') + Z.max 0 limit).
  { intros c' Hc'. simpl in Hc'. destruct (r <=? _).
    - pose proof (admitted_fresh k limit window T qs _ s' Hok2 Ho Hu Hr Hc'). lia.
    - by apply (IH _ s' c' Hok2). }
  destruct (serve_window _ _ _ _ _ _ _ Hok' He Es Hq) as [[Hk Ha]|(c' & r' & Hc & Hk & Ha)].
  - rewrite Ha. specialize (Hrest c). rewrite Hk, Hst in Hrest by lia. specialize (Hrest eq_refl). lia.
  - unfold counted in Hc. rewrite Hnow in Hc. destruct Hc as [-> ->].
    specialize (Hrest (c + 1)). rewrite Hk in Hrest by lia. specialize (Hrest eq_refl).
    destruct (_ && _ && _); [specialize (Ha eq_refl); lia|lia].
Qed.

Lemma serve_all_ok qs t s : limiter_ok t s -> in_order t qs ->
  forall t', Forall (fun q => t_start (rq_env q) <= t') qs -> t <= t' -> limiter_ok t' (serve_all qs s).
Proof.
  revert t s. induction qs as [|q qs IH]; intros t s Hok Ho t' Hq Ht; simpl; [by eapply ok_later|].
  destruct Ho as (H1 & He & Ho). apply Forall_cons in Hq as [Hq1 Hq].
  apply (IH (t_start (rq_env q))); try done. apply serve_ok; [by eapply ok_later|done].
Qed.

(** C33. Any backend that satisfies the interface, used by any number of
    callers in any order and with store failures at any call, admits at most
    [2 * limit] hits on a key within an interval of one window length, and at
    most [limit] of them if no window was open when the interval began. *)
Theorem window_burst_bound k limit window T before during t0 s0 :
  limiter_ok t0 s0 -> in_order t0 before -> t0 <= T ->
  Forall (fun q => t_start (rq_env q) <= T) before ->
  in_order T during -> uniform k limit window during -> 0 <= limit ->
  Forall (fun q => t_start (rq_env q) < T + window * second) during ->
  admitted k during (serve_all before s0) <= 2 * limit /\
  (live (serve_all before s0) T k = None -> admitted k during (serve_all before s0) <= limit).
Proof.
  intros Hok Hb HtT HbT Hd Hu Hlim HdT.
  assert (HokT : limiter_ok T (serve_all before s0)) by (by eapply serve_all_ok).
  assert (HF : Forall (fun q => T <= t_read (rq_env q) /\ t_start (rq_env q) < T + window * second) during).
  { clear -Hd HdT. assert (Hle : T <= T) by lia. revert Hd Hle. generalize T at 1 3 as u.
    induction HdT as [|q qs Hq HdT IH]; intros u Ho Hu; [constructor|].
    destruct Ho as (? & He & ?). unfold env_ok in He. constructor; [lia|].
    apply (IH (t_start (rq_env q))); [done|lia]. }
  split.
  - destruct (live (serve_all before s0) T k) as [[c r]|] eqn:El.
    + pose proof (admitted_two_windows _ _ _ _ _ _ _ _ _ HokT Hd Hu HF El).
      destruct (live_count _ _ _ _ _ HokT El). lia.
    + pose proof (admitted_fresh _ _ _ _ _ _ _ HokT Hd Hu HF El). lia.
  - intros El. pose proof (admitted_fresh _ _ _ _ _ _ _ HokT Hd Hu HF El). lia.
Qed.

(** The lock-out check agrees with the counter: when a peek and a hit meet
    the same state at the same time and the store answers, the peek allows
    exactly when the hit would be allowed, for every positive limit. *)
Theorem peek_predicts_hit e k limit window s dp sp dh sh :
  limiter_ok (t_read e) s -> env_ok e -> 1 <= limit ->
  peek e k limit window s = (Some dp, sp) -> hit e k limit window s = (Some dh, sh) ->
  allowed dp = allowed dh /\ count dh = count dp + 1.
Proof.
  intros Hok He Hlim [_ Hp]%peek_law Hh; [|done..].
  apply hit_law in Hh as (r & (Hc & _) & -> & _); [|done..]. specialize (Hp dp eq_refl).
  unfold counted in Hc. destruct (live s (t_read e) k) as [[c r0]|].
  - destruct Hc as [-> _], Hp as [-> ->]. split; [|done].
    apply eq_true_iff_eq. rewrite Z.ltb_lt, Z.leb_le. lia.
  - destruct Hc as [-> _], Hp as (-> & -> & _). split; [|done]. symmetry. apply Z.leb_le. lia.
Qed.
End client.

(** ** Witnesses *)

Definition demo_env (t : Z) : call_env := mkEnv t t t Answers.
Definition demo_hits (ts : list Z) : list request :=
  map (fun t => mkRequest (demo_env t) true "ip" 2 1) ts.

Lemma window_burst_bound_witness :
  admitted "ip" (demo_hits [1999; 2000; 2001; 2002; 2003])
    (serve_all (demo_hits [1000]) (∅ : redis_store)) = 3 /\
  admitted "ip" (demo_hits [1999; 2000; 2001; 2002; 2003])
    (serve_all (demo_hits [1000]) (∅ : redis_store)) <= 2 * 2 /\
  (live (serve_all (demo_hits [1000]) (∅ : redis_store)) 1999 "ip" = None ->
   admitted "ip" (demo_hits [1999; 2000; 2001; 2002; 2003])
    (serve_all (demo_hits [1000]) (∅ : redis_store)) <= 2).
Proof.
  split; [vm_compute; reflexivity|].
  apply (window_burst_bound "ip" 2 1 1999 (demo_hits [1000]) _ 1000).
  - intros t k v x _ Hx. simpl in Hx. rewrite lookup_empty in Hx. done.
  - repeat split; simpl; lia.
  - lia.
  - repeat constructor; simpl; lia.
  - repeat split; simpl; lia.
  - repeat constructor.
  - lia.
  - repeat constructor; simpl; lia.
Defined.

Lemma peek_predicts_hit_witness :
  let s : windows := {["ip" := (2, 1000000005)]} in
  exists dp sp dh sh, peek (demo_env 7) "ip" 2 1 s = (Some dp, sp) /\
    hit (demo_env 7) "ip" 2 1 s = (Some dh, sh) /\ allowed dh = false /\
    allowed dp = allowed dh /\ count dh = count dp + 1.
Proof.
  intros s. do 4 eexists. split; [vm_compute; reflexivity|]. split; [vm_compute; reflexivity|].
  split; [reflexivity|].
  eapply (peek_predicts_hit (S := windows) (demo_env 7) "ip" 2 1 s).
  - intros k c r [_ [= <- <-]]%lookup_singleton_Some. lia.
  - repeat split; simpl; lia.
  - lia.
  - vm_compute; reflexivity.
  - vm_compute; reflexivity.
Defined.
