(* ===== verification/Locks.v ===== *)
(** * Per-row advisory locks

    [src/src/wg_manager/locks.py].  The named locks of the MySQL server are a
    parameter: [NamedLocks] states the documented behaviour of [GET_LOCK],
    [RELEASE_LOCK] and of closing a connection.  [task_row_lock] is a context
    manager, so it is two steps, entering and leaving the [with] block, and
    workers interleave these steps in any order. *)

From S2P Require Import Prelude PyStr Session.

(** ** Lock names *)

Definition lock_name_for (scope : string) (row_id : Z) : outcome string :=
  if negb (nonempty scope) then Raise (ValueError "lock scope must be a non-empty string")
  else if row_id <=? 0 then
    Raise (ValueError ("lock row_id must be positive; got " +:+ dec row_id))
  else Ok ("wgm:" +:+ scope +:+ ":" +:+ dec row_id).

Definition is_mysql_session (dialect : string) : bool := mem dialect ["mysql"; "mariadb"].

(** ** Named locks of the database server *)

Class NamedLocks (L : Type) := {
  owner : L -> string -> option Z;
  (** the reply: [Some 1], [Some 0] or [None] (NULL) *)
  get_lock : Z -> string -> Z -> L -> option Z * L;
  release_lock : Z -> string -> L -> option Z * L;
  close_server_side : Z -> L -> L
}.

Class NamedLocksLaws (L : Type) `{NamedLocks L} := {
  get_lock_law c n timeout l r l' : get_lock c n timeout l = (r, l') ->
    (forall m, m <> n -> owner l' m = owner l m) /\
    (if decide (r = Some 1) then (owner l n = None \/ owner l n = Some c) /\ owner l' n = Some c
     else owner l' n = owner l n);
  release_lock_law c n l r l' : release_lock c n l = (r, l') ->
    (forall m, m <> n -> owner l' m = owner l m) /\
    (if decide (r = Some 1) then owner l' n = None else owner l' n = owner l n);
  close_law c l n :
    owner (close_server_side c l) n = (if decide (owner l n = Some c) then None else owner l n)
}.

Section locks.
Context {L : Type} `{NamedLocks L} (dialect : string).

(** A worker inside the [with] block: its dedicated connection, the lock name
    and the yielded boolean. *)
Record holder := mkHolder { h_conn : Z; h_name : string; h_acquired : bool }.

(** The [GET_LOCK] call: anything but 1 is not acquired. *)
Definition acquire (conn : Z) (name : string) (timeout_seconds : Z) (l : L) : holder * L :=
  let '(r, l') := get_lock conn name timeout_seconds l in
  (mkHolder conn name (bool_decide (r = Some 1)), l').

(** Entering: on SQLite [True] is yielded and no lock is taken. *)
Definition task_row_lock_enter (conn : Z) (scope : string) (row_id timeout_seconds : Z) (l : L)
  : outcome holder * L :=
  match lock_name_for scope row_id with
  | Raise e => (Raise e, l)
  | Ok name =>
      if negb (is_mysql_session dialect) then (Ok (mkHolder conn name true), l)
      else let '(h, l') := acquire conn name timeout_seconds l in (Ok h, l')
  end.

(** Leaving, normally or by an exception: on MySQL, release; if the reply is
    not 1 (or the statement raises, [None]) the connection is invalidated,
    which closes it on the server; [conn.close()] then returns it to the
    pool. *)
Definition task_row_lock_exit (h : holder) (l : L) : L :=
  if negb (is_mysql_session dialect) then l
  else if h_acquired h then
    let '(released, l') := release_lock (h_conn h) (h_name h) l in
    if bool_decide (released = Some 1) then l' else close_server_side (h_conn h) l'
  else l.

(** ** Interleaved workers *)

Record lock_state := mkLS { server_locks : L; inside : gmap Z holder }.

(** The pool hands a connection to one user at a time. *)
Inductive lock_step : lock_state -> lock_state -> Prop :=
| StepEnter w conn scope row_id timeout l ins h l' :
    ins !! w = None ->
    (forall w' h, ins !! w' = Some h -> h_conn h <> conn) ->
    task_row_lock_enter conn scope row_id timeout l = (Ok h, l') ->
    lock_step (mkLS l ins) (mkLS l' (<[w := h]> ins))
| StepExit w h l ins :
    ins !! w = Some h ->
    lock_step (mkLS l ins) (mkLS (task_row_lock_exit h l) (delete w ins))
| StepCrash w h l ins :
    ins !! w = Some h ->
    lock_step (mkLS l ins) (mkLS (close_server_side (h_conn h) l) (delete w ins)).

Inductive lock_reachable (l0 : L) : lock_state -> Prop :=
| LockInit : lock_reachable l0 (mkLS l0 ∅)
| LockNext s s' : lock_reachable l0 s -> lock_step s s' -> lock_reachable l0 s'.
End locks.

(** A server with the documented behaviour. *)
#[global] Instance reference_locks : NamedLocks (gmap string Z) := {
  owner l n := l !! n;
  get_lock c n _ l :=
    match l !! n with
    | None => (Some 1, <[n := c]> l)
    | Some c' => if c =? c' then (Some 1, l) else (Some 0, l)
    end;
  release_lock c n l :=
    match l !! n with
    | None => (None, l)
    | Some c' => if c =? c' then (Some 1, delete n l) else (Some 0, l)
    end;
  close_server_side c l := filter (fun nc => nc.2 <> c) l
}.

#[global] Instance reference_locks_laws : NamedLocksLaws (gmap string Z).
Proof.
  split; simpl.
  - intros c n _ l r l'. destruct (l !! n) as [c'|] eqn:E.
    + destruct (Z.eqb_spec c c'); intros [= <- <-]; split; try done; case_decide; simplify_eq; eauto.
    + intros [= <- <-]. split; [intros; by apply lookup_insert_ne|].
      case_decide; [|done]. rewrite lookup_insert_eq. eauto.
  - intros c n l r l'. destruct (l !! n) as [c'|] eqn:E.
    + destruct (Z.eqb_spec c c'); intros [= <- <-]; (split; [intros; by rewrite ?lookup_delete_ne|]);
        case_decide; simplify_eq; rewrite ?lookup_delete_eq; done.
    + intros [= <- <-]. split; [done|]. case_decide; done.
  - intros c l n. rewrite map_lookup_filter. destruct (l !! n) as [c'|] eqn:E; simpl.
    + destruct (decide (c' = c)) as [->|Hne].
      * rewrite option_guard_False by (simpl; tauto). by rewrite decide_True by done.
      * rewrite option_guard_True by done. by rewrite decide_False by congruence.
    + done.
Qed.

(** ** Theorems *)

Lemma append_inj_l s t u : s +:+ t = s +:+ u -> t = u.
Proof. induction s as [|c s IH]; [done|]. rewrite !append_cons. intros [= ?]. auto. Qed.

(** Scopes and ids cannot be confused: the id has no colon. *)
Lemma scope_id_inj s s' i j : str_forall (fun c => negb (ceqb ":" c)) i = true ->
  str_forall (fun c => negb (ceqb ":" c)) j = true ->
  s +:+ String ":" i = s' +:+ String ":" j -> s = s' /\ i = j.
Proof.
  intros Hi Hj. revert s'. induction s as [|c s IH]; intros [|c' s'] E.
  - by simplify_eq.
  - rewrite append_cons in E. change ("" +:+ ?x) with x in E. injection E as Ec E. subst.
    rewrite str_forall_app in Hi. apply andb_true_iff in Hi as [_ Hi]. done.
  - rewrite append_cons in E. change ("" +:+ ?x) with x in E. injection E as Ec E. subst.
    rewrite str_forall_app in Hj. apply andb_true_iff in Hj as [_ Hj]. done.
  - rewrite !append_cons in E. injection E as <- E. apply IH in E as [<- <-]. done.
Qed.

Lemma lock_name_inj scope row_id scope' row_id' name :
  lock_name_for scope row_id = Ok name -> lock_name_for scope' row_id' = Ok name ->
  scope = scope' /\ row_id = row_id'.
Proof.
  unfold lock_name_for. intros H1 H2.
  destruct (negb (nonempty scope)); [done|]. destruct (Z.leb_spec row_id 0); [done|].
  destruct (negb (nonempty scope')); [done|]. destruct (Z.leb_spec row_id' 0); [done|].
  injection H1 as <-. injection H2 as E.
  apply scope_id_inj in E as [-> E].
  - apply dec_inj in E; [done|lia..].
  - apply char_in_false, decimal_no_char, dec_decimal; [done|lia].
  - apply char_in_false, decimal_no_char, dec_decimal; [done|lia].
Qed.

Section lock_invariant.
Context {L : Type} `{NamedLocksLaws L} (dialect : string) (l0 : L).

(** A lock is owned exactly by the connection of the worker that was told it
    has it, and connections are not shared. *)
Definition lock_inv (s : lock_state) : Prop :=
  (forall n c, owner (server_locks s) n = Some c <->
     exists w, inside s !! w = Some (mkHolder c n true)) /\
  (forall w w' h h', inside s !! w = Some h -> inside s !! w' = Some h' ->
     h_conn h = h_conn h' -> w = w').

Lemma lock_inv_enter s w conn name timeout :
  lock_inv s -> inside s !! w = None ->
  (forall w' h, inside s !! w' = Some h -> h_conn h <> conn) ->
  lock_inv (mkLS (acquire conn name timeout (server_locks s)).2
              (<[w := (acquire conn name timeout (server_locks s)).1]> (inside s))).
Proof.
  intros [Ho Hd] Hw Hc. unfold acquire.
  destruct (get_lock conn name timeout (server_locks s)) as [r l'] eqn:E.
  apply get_lock_law in E as [Hother Hn]. split; simpl.
  - intros n c. destruct (decide (n = name)) as [->|Hne].
    + case_decide as Hr.
      * destruct Hn as [Hfree ->]. rewrite bool_decide_eq_true_2 by done. split.
        { intros [= <-]. exists w. by rewrite lookup_insert_eq. }
        intros [w' Hw']. rewrite lookup_insert in Hw'. case_decide; [by simplify_eq|].
        assert (Hown : owner (server_locks s) name = Some c) by (apply Ho; eauto).
        destruct Hfree as [Hf|Hf]; rewrite Hf in Hown; simplify_eq. exfalso.
        by eapply (Hc w' _ Hw').
      * rewrite Hn, Ho, bool_decide_eq_false_2 by done. split; intros [w' Hw']; exists w'.
        { by rewrite lookup_insert_ne by congruence. }
        rewrite lookup_insert in Hw'. case_decide; [done|done].
    + rewrite Hother, Ho by done. split; intros [w' Hw']; exists w'.
      * by rewrite lookup_insert_ne by congruence.
      * rewrite lookup_insert in Hw'. case_decide; simplify_eq; done.
  - intros w1 w2 h1 h2 H1 H2 Heq. rewrite lookup_insert in H1, H2.
    do 2 case_decide; simplify_eq; try done; simpl in *.
    + exfalso. by eapply Hc.
    + exfalso. by eapply Hc.
    + eauto.
Qed.

(** Dropping exactly the locks of worker [w]'s connection. *)
Lemma lock_inv_drop s w h l' :
  lock_inv s -> inside s !! w = Some h ->
  (forall n, owner l' n = if decide (owner (server_locks s) n = Some (h_conn h))
                          then None else owner (server_locks s) n) ->
  lock_inv (mkLS l' (delete w (inside s))).
Proof.
  intros [Ho Hd] Hw Hl. split; simpl.
  - intros n c. rewrite Hl. case_decide as E.
    + split; [done|]. intros [w' Hw']. apply lookup_delete_Some in Hw' as [Hne Hw'].
      exfalso. apply Hne. assert (E' : owner (server_locks s) n = Some c) by (apply Ho; eauto).
      rewrite E in E'. simplify_eq. by eapply Hd.
    + rewrite Ho. split; intros [w' Hw']; exists w'.
      * apply lookup_delete_Some. split; [|done]. intros ->. simplify_eq. apply E. apply Ho. eauto.
      * by apply lookup_delete_Some in Hw' as [_ ?].
  - intros w1 w2 h1 h2 [_ H1]%lookup_delete_Some [_ H2]%lookup_delete_Some. eauto.
Qed.

Lemma exit_drops s w h n :
  is_mysql_session dialect = true -> lock_inv s -> inside s !! w = Some h ->
  owner (task_row_lock_exit dialect h (server_locks s)) n =
    if decide (owner (server_locks s) n = Some (h_conn h)) then None else owner (server_locks s) n.
Proof.
  intros Hmy [Ho Hd] Hw. unfold task_row_lock_exit. rewrite Hmy. cbn [negb].
  assert (Hmine : forall m, owner (server_locks s) m = Some (h_conn h) <-> h_acquired h = true /\ m = h_name h).
  { intros m. rewrite Ho. split.
    - intros [w' Hw']. rewrite (Hd w' w _ _ Hw' Hw eq_refl) in Hw'.
      destruct h. simpl in *. rewrite Hw in Hw'. by injection Hw' as -> ->.
    - intros [Ha ->]. exists w. rewrite Hw. destruct h; simpl in *. by subst. }
  destruct (h_acquired h) eqn:Ea.
  2: { case_decide as E; [|done]. apply Hmine in E as [E _]. done. }
  destruct (release_lock _ _ _) as [r l'] eqn:E. apply release_lock_law in E as [Hother Hn].
  case_bool_decide as Hr.
  - rewrite decide_True in Hn by done. destruct (decide (n = h_name h)) as [->|Hne].
    + rewrite Hn, decide_True; [done|]. by apply Hmine.
    + rewrite Hother by done. case_decide as E; [|done]. apply Hmine in E as [_ E]. done.
  - rewrite decide_False in Hn by done. rewrite close_law.
    assert (owner l' n = owner (server_locks s) n) as ->; [|done].
    destruct (decide (n = h_name h)) as [->|]; [done|by apply Hother].
Qed.

Lemma lock_reachable_inv s : is_mysql_session dialect = true ->
  (forall n, owner l0 n = None) -> lock_reachable dialect l0 s -> lock_inv s.
Proof.
  intros Hmy Hl0. induction 1 as [|s s' Hr IH Hs].
  - split; simpl.
    + intros n c. rewrite Hl0. split; [done|]. intros [w Hw]. by rewrite lookup_empty in Hw.
    + intros w w' h h' Hw. by rewrite lookup_empty in Hw.
  - destruct Hs as [w conn scope row_id timeout l ins h l' Hw Hc Hn|w h l ins Hw|w h l ins Hw].
    + unfold task_row_lock_enter in Hn. destruct (lock_name_for scope row_id) as [name|]; [|done].
      rewrite Hmy in Hn. cbn [negb] in Hn. pose proof (lock_inv_enter (mkLS l ins) w conn name timeout IH Hw Hc) as Hi.
      simpl in Hi. destruct (acquire conn name timeout l) as [h0 l0']. by injection Hn as <- <-.
    + apply (lock_inv_drop (mkLS l ins) w h); [done|done|]. intros n. by apply (exit_drops (mkLS l ins) w).
    + apply (lock_inv_drop (mkLS l ins) w h); [done|done|]. intros n. apply close_law.
Qed.

(** C37. Mutual exclusion and no stranded locks: on MySQL, however workers enter,
    leave, fail to release or crash, at most one worker at a time is told it holds
    the lock of a row, and a lock is owned on the server only while the worker
    that acquired it is inside the block. *)
Theorem row_lock_exclusive s w w' h h' :
  is_mysql_session dialect = true -> (forall n, owner l0 n = None) -> lock_reachable dialect l0 s ->
  inside s !! w = Some h -> inside s !! w' = Some h' ->
  h_acquired h = true -> h_acquired h' = true -> h_name h = h_name h' ->
  w = w' /\ (forall n c, owner (server_locks s) n = Some c ->
             exists v, inside s !! v = Some (mkHolder c n true)).
Proof.
  intros Hmy Hl0 Hr Hw Hw' Ha Ha' Hn. destruct (lock_reachable_inv s Hmy Hl0 Hr) as [Ho Hd].
  split; [|intros n c; apply Ho].
  apply (Hd w w' h h' Hw Hw').
  assert (H1 : owner (server_locks s) (h_name h) = Some (h_conn h)).
  { apply Ho. exists w. destruct h; simpl in *. by subst. }
  assert (H2 : owner (server_locks s) (h_name h') = Some (h_conn h')).
  { apply Ho. exists w'. destruct h'; simpl in *. by subst. }
  rewrite Hn in H1. congruence.
Qed.
End lock_invariant.

(** Lock names identify rows: two valid (scope, row id) pairs with the same
    lock name are the same pair, and a name is produced exactly for a
    non-empty scope and a positive id. *)
Theorem lock_names_distinct scope row_id scope' row_id' :
  (is_Some (match lock_name_for scope row_id with Ok n => Some n | Raise _ => None end) <->
     scope <> "" /\ 1 <= row_id) /\
  (forall name, lock_name_for scope row_id = Ok name -> lock_name_for scope' row_id' = Ok name ->
     scope = scope' /\ row_id = row_id').
Proof.
  split; [|intros name; apply lock_name_inj]. unfold lock_name_for.
  destruct (nonempty scope) eqn:En; simpl.
  - apply nonempty_true in En. destruct (Z.leb_spec row_id 0).
    + split; [by intros [? ?]|lia].
    + split; [intros _; split; [done|lia]|eauto].
  - split; [by intros [? ?]|]. intros [Hs _]. apply nonempty_true in Hs. congruence.
Qed.

(** ** Witnesses *)

Lemma lock_names_distinct_witness :
  lock_name_for "server" 7 = Ok "wgm:server:7" /\
  ("server" = "server" /\ 7 = 7).
Proof. split; [reflexivity|]. by apply (proj2 (lock_names_distinct "server" 7 "server" 7) "wgm:server:7"). Defined.

Definition demo_locks : lock_state (L := gmap string Z) :=
  mkLS {["wgm:server:7" := 10]} {[1 := mkHolder 10 "wgm:server:7" true]}.

Lemma demo_locks_reachable : lock_reachable "mysql" ∅ demo_locks.
Proof.
  eapply LockNext; [apply LockInit|].
  apply (StepEnter "mysql" 1 10 "server" 7 5 ∅ ∅ (mkHolder 10 "wgm:server:7" true)); [done| |reflexivity].
  intros w h Hw. by rewrite lookup_empty in Hw.
Qed.

Lemma row_lock_exclusive_witness :
  inside demo_locks !! 1 = Some (mkHolder 10 "wgm:server:7" true) /\
  (1 = 1 /\ forall n c, owner (server_locks demo_locks) n = Some c ->
     exists v, inside demo_locks !! v = Some (mkHolder c n true)).
Proof.
  split; [reflexivity|].
  apply (row_lock_exclusive "mysql" ∅ demo_locks 1 1 (mkHolder 10 "wgm:server:7" true)
           (mkHolder 10 "wgm:server:7" true));
    [reflexivity|intros n; apply lookup_empty|apply demo_locks_reachable|reflexivity..].
Defined.
