(* ===== verification/TenantScope.v ===== *)
(** * Tenant scope of a request

    [src/src/wg_manager/tenant_scope.py]: the scope of the calling operator,
    the row filter of the list endpoints, the role gate of the mutating ones
    and the tenant a new resource lands in. *)

From S2P Require Import Prelude PyStr Models Session Demo.

Record TenantScope := mkScope {
  is_super_admin : bool; tenant_ids : list Z; tenant_roles : gmap Z OperatorRole
}.

Definition unscoped : TenantScope := mkScope true [] ∅.

Definition role_in (s : TenantScope) (tenant_id : Z) : option OperatorRole :=
  tenant_roles s !! tenant_id.

(** The slots of [request.state] that the middleware fills. *)
Record request_state := mkRequestState {
  rs_operator : option (Z * Operator);
  rs_is_super_admin : option bool;
  rs_tenant_ids : option (list Z);
  rs_tenant_roles : option (gmap Z OperatorRole)
}.

Definition operator_joins (d : DB) (op_id : Z) : list OperatorTenant :=
  snd <$> tbl_select (fun _ r => ot_operator_id r =? op_id) (operator_tenants d).

(** A dict built in order: a later row for the same tenant replaces an earlier. *)
Definition roles_dict (rows : list OperatorTenant) : gmap Z OperatorRole :=
  fold_left (fun m r => <[ot_tenant_id r := ot_role r]> m) rows ∅.

Definition scope_from_db (d : DB) (actor : Z * Operator) : TenantScope :=
  let '(op_id, op) := actor in
  let rows := operator_joins d op_id in
  mkScope (bool_decide (op_role op = admin))
    (sort_z (ot_tenant_id <$> rows)) (roles_dict rows).

Definition get_tenant_scope (d : DB) (rs : request_state) : TenantScope :=
  match rs_is_super_admin rs with
  | Some b => mkScope b (default [] (rs_tenant_ids rs)) (default ∅ (rs_tenant_roles rs))
  | None =>
      match rs_operator rs with
      | None => unscoped
      | Some actor => scope_from_db d actor
      end
  end.

(** [None] when no filter applies; otherwise a test on the row's [tenant_id]
    ([NULL IN (...)] is not true). *)
Definition scope_filter (s : TenantScope) : option (option Z -> bool) :=
  if is_super_admin s then None
  else Some (fun tid => match tid with Some t => mem t (tenant_ids s) | None => false end).

(** A list endpoint: the rows the filter lets through. *)
Definition visible (s : TenantScope) (tenant_id : option Z) : bool :=
  match scope_filter s with None => true | Some p => p tenant_id end.

Definition require_tenant_role (s : TenantScope) (tenant_id : option Z)
  (allowed : list OperatorRole) : M unit :=
  match allowed with
  | [] => raise (ValueError "require_tenant_role() must be called with at least one role")
  | _ =>
      if is_super_admin s then ret tt
      else match tenant_id with
      | None => raise (http_error 403 "super-admin role required")
      | Some t =>
          match role_in s t with
          | None => raise (http_error 403 ("operator not attached to tenant " +:+ dec t))
          | Some role =>
              if negb (mem role allowed) then raise (http_error 403 "role not permitted")
              else ret tt
          end
      end
  end.

Definition DEFAULT_TENANT_ID : Z := 1.

Definition not_attached_detail : string :=
  "operator is not attached to any tenant — ask an admin to run `wg-manager operators attach-tenant`".

(** The id a new resource's tenant is looked up by. *)
Definition resolve_target_id (s : TenantScope) (explicit : option Z) : outcome Z :=
  match explicit with
  | Some t => Ok t
  | None =>
      if is_super_admin s then Ok DEFAULT_TENANT_ID
      else match tenant_ids s with
      | [t] => Ok t
      | ts => Raise (http_error 422
                ("tenant_id is required: operator is attached to multiple tenants (" +:+
                 join ", " (map dec ts) +:+ "); pick one in the body"))
      end
  end.

Definition create_roles : list OperatorRole := [admin; operator].

Definition resolve_create_tenant (s : TenantScope) (explicit : option Z)
  (allowed_roles : list OperatorRole) : M (Z * Tenant) :=
  raise_if (negb (is_super_admin s) && bool_decide (tenant_ids s = []))
    (http_error 403 not_attached_detail) ;;
  target_id <- lift (resolve_target_id s explicit) ;;
  d <- get_db ;;
  tenant <- some_or_raise (rows (tenants d) !! target_id)
    (http_error 404 ("tenant_id " +:+ dec target_id +:+ " not found")) ;;
  (if is_super_admin s then ret tt
   else
     raise_if (negb (mem target_id (tenant_ids s)))
       (http_error 403 ("operator is not attached to tenant " +:+ dec target_id)) ;;
     match role_in s target_id with
     | Some role =>
         if negb (mem role allowed_roles) then raise (http_error 403 "role not permitted") else ret tt
     | None => raise (http_error 403 "role not permitted")
     end) ;;
  ret (target_id, tenant).

(** ** Lemmas *)

(** The operator has a join row for [tid] with role [r]. *)
Definition attached (d : DB) (op_id tid : Z) (r : OperatorRole) : Prop :=
  exists i row, rows (operator_tenants d) !! i = Some row /\
    ot_operator_id row = op_id /\ ot_tenant_id row = tid /\ ot_role row = r.

Lemma operator_joins_spec d op_id tid r :
  (exists row, row ∈ operator_joins d op_id /\ ot_tenant_id row = tid /\ ot_role row = r) <->
  attached d op_id tid r.
Proof.
  unfold operator_joins, attached. split.
  - intros (row & Hin & Ht & Hr). apply list_elem_of_fmap in Hin as ([i row'] & -> & Hin).
    apply tbl_select_spec in Hin as [Hi Hb]. bool_to_prop. eauto 10.
  - intros (i & row & Hi & Ho & Ht & Hr). exists row. split; [|done].
    apply list_elem_of_fmap. exists (i, row). split; [done|]. apply tbl_select_spec.
    split; [done|]. by apply Z.eqb_eq.
Qed.

Lemma roles_dict_spec rs t :
  (forall r, roles_dict rs !! t = Some r -> exists row, row ∈ rs /\ ot_tenant_id row = t /\ ot_role row = r) /\
  (roles_dict rs !! t = None -> forall row, row ∈ rs -> ot_tenant_id row <> t).
Proof.
  unfold roles_dict. induction rs as [|row rs IH] using rev_ind; simpl.
  - split; [intros r Hr; by rewrite lookup_empty in Hr|]. intros _ row Hrow. by apply elem_of_nil in Hrow.
  - rewrite fold_left_app. simpl. rewrite lookup_insert. destruct IH as [IH1 IH2]. case_decide as E.
    + split; [|done]. intros r [= <-]. exists row. set_solver.
    + split.
      * intros r (row' & ? & ?)%IH1. exists row'. set_solver.
      * intros H row' [?| ->%list_elem_of_singleton]%elem_of_app; [by apply IH2|done].
Qed.

Lemma tenant_ids_spec d op_id op tid :
  tid ∈ tenant_ids (scope_from_db d (op_id, op)) <-> exists r, attached d op_id tid r.
Proof.
  simpl. rewrite sort_z_elem, list_elem_of_fmap. split.
  - intros (row & -> & Hin). exists (ot_role row). apply operator_joins_spec. eauto.
  - intros (r & (row & Hin & Ht & _)%operator_joins_spec). eauto.
Qed.

Lemma role_in_spec d op_id op tid r :
  role_in (scope_from_db d (op_id, op)) tid = Some r -> attached d op_id tid r.
Proof.
  unfold role_in. simpl. intros (row & ? & ? & ?)%(proj1 (roles_dict_spec _ _)).
  apply operator_joins_spec. eauto.
Qed.

Lemma resolve_create_facts s explicit roles w tid tn w' :
  resolve_create_tenant s explicit roles w = (Ok (tid, tn), w') ->
  w' = w /\ rows (tenants (view w)) !! tid = Some tn /\
  (explicit = Some tid \/ explicit = None /\
     (if is_super_admin s then tid = DEFAULT_TENANT_ID else tenant_ids s = [tid])) /\
  (is_super_admin s = true \/
   tid ∈ tenant_ids s /\ exists r, role_in s tid = Some r /\ r ∈ roles).
Proof.
  unfold resolve_create_tenant. intros H. step_ok H. prim_ok.
  match goal with |- _ = ?u /\ _ => rename u into w end.
  assert (Hgate : w' = w /\ (is_super_admin s = true \/
    tid ∈ tenant_ids s /\ exists r, role_in s tid = Some r /\ r ∈ roles)).
  { destruct (is_super_admin s); [by prim_ok; auto|].
    step_ok Hm3. prim_ok. destruct (role_in s tid) as [r|]; [|done].
    destruct (negb (mem r roles)) eqn:Er; [done|]. prim_ok.
    apply negb_false_iff, mem_true in Er. bool_to_prop.
    match goal with E : mem tid _ = true |- _ => apply mem_true in E end. eauto 10. }
  destruct Hgate as [-> Hgate]. split_and!; try done. clear Hgate.
  match goal with E : resolve_target_id _ _ = _ |- _ => rename E into Hr end.
  unfold resolve_target_id in Hr. destruct explicit; [left; congruence|]. right. split; [done|].
  destruct (is_super_admin s); [congruence|].
  destruct (tenant_ids s) as [|t [|]]; congruence.
Qed.

(** ** Theorems *)

(** List endpoints show exactly the operator's tenants: with the scope read
    from the database, a row is visible if and only if the operator is a
    global admin or has a join row for the row's tenant; rows without a
    tenant are visible to admins only. *)
Theorem scope_shows_exactly_own_tenants d op_id op tid :
  visible (get_tenant_scope d (mkRequestState (Some (op_id, op)) None None None)) tid = true <->
  op_role op = admin \/ exists t r, tid = Some t /\ attached d op_id t r.
Proof.
  unfold get_tenant_scope, visible, scope_filter. cbn [rs_is_super_admin rs_operator].
  destruct (is_super_admin (scope_from_db d (op_id, op))) eqn:Ea; simpl in Ea; bool_to_prop.
  - tauto.
  - destruct tid as [t|].
    + rewrite mem_true, tenant_ids_spec. split; [intros [r Hr]; right; eauto|].
      intros [?|(t' & r & [= <-] & Hr)]; [done|eauto].
    + split; [done|]. intros [?|(t' & r & ? & _)]; done.
Qed.

(** What the gate lets through. *)
Definition permits (s : TenantScope) (tid : option Z) (allowed : list OperatorRole) : Prop :=
  is_super_admin s = true \/ exists t r, tid = Some t /\ role_in s t = Some r /\ r ∈ allowed.

Lemma require_tenant_role_spec s tid allowed w :
  allowed <> [] ->
  (require_tenant_role s tid allowed w = (Ok tt, w) /\ permits s tid allowed) \/
  (exists detail, require_tenant_role s tid allowed w = (Raise (http_error 403 detail), w) /\
     ~ permits s tid allowed).
Proof.
  intros Hne. unfold require_tenant_role, permits. destruct allowed as [|a al]; [done|].
  destruct (is_super_admin s) eqn:Ea; [by left; auto|].
  destruct tid as [t|].
  2: { right. eexists. split; [done|]. intros [?|(? & ? & ? & _)]; done. }
  destruct (role_in s t) as [r|] eqn:Er.
  2: { right. eexists. split; [done|]. intros [?|(? & ? & [= <-] & ? & _)]; congruence. }
  destruct (mem r (a :: al)) eqn:Em; simpl.
  - left. apply mem_true in Em. split; [done|]. right. eauto.
  - right. eexists. split; [done|]. apply mem_false in Em.
    intros [?|(? & ? & [= <-] & ? & ?)]; [done|]. congruence.
Qed.

(** The role gate is sound and complete: called with at least one role, it
    returns without touching the database exactly when the scope is
    super-admin or has one of the roles on that tenant, and answers 403
    otherwise. *)
Theorem role_gate_exact s tid allowed w :
  allowed <> [] ->
  (require_tenant_role s tid allowed w = (Ok tt, w) <-> permits s tid allowed) /\
  (~ permits s tid allowed ->
     exists detail, require_tenant_role s tid allowed w = (Raise (http_error 403 detail), w)).
Proof.
  intros Hne. destruct (require_tenant_role_spec s tid allowed w Hne) as [[-> Hp]|(dt & -> & Hp)].
  - split; [done|]. intros. exfalso. auto.
  - split; [|eauto]. split; [done|]. intros. exfalso. auto.
Qed.

(** A new resource lands only in a tenant the caller may create in: if
    [resolve_create_tenant] returns, the tenant exists, it is the one asked
    for (or the default, or the operator's only one), and the operator is a
    global admin or holds one of the allowed roles there. *)
Theorem create_lands_in_permitted_tenant op_id op explicit roles w tid tn w' :
  resolve_create_tenant (scope_from_db (view w) (op_id, op)) explicit roles w = (Ok (tid, tn), w') ->
  w' = w /\ rows (tenants (view w)) !! tid = Some tn /\
  (forall t, explicit = Some t -> t = tid) /\
  (op_role op = admin \/ exists r, attached (view w) op_id tid r /\ r ∈ roles).
Proof.
  intros (-> & Ht & Hres & Hg)%resolve_create_facts. split_and!; [done|done| |].
  - intros t ->. destruct Hres as [[= ->]|[? _]]; done.
  - destruct Hg as [Ha|(_ & r & Hr & Hin)].
    + left. simpl in Ha. by bool_to_prop.
    + right. exists r. split; [by eapply role_in_spec|done].
Qed.

(** The error answers of [resolve_create_tenant]: it changes nothing and
    raises 403 for an operator without tenants or without the role there, 422
    exactly when no tenant is named and the operator has several, and 404 only
    when the tenant does not exist. *)
Theorem create_tenant_error_codes s explicit roles w e w' :
  resolve_create_tenant s explicit roles w = (Raise e, w') ->
  w' = w /\ exists code detail, e = http_error code detail /\
   ((code = 403 /\ is_super_admin s = false) \/
    (code = 422 /\ explicit = None /\ is_super_admin s = false /\ (2 <= length (tenant_ids s))%nat) \/
    (code = 404 /\ exists t, resolve_target_id s explicit = Ok t /\ rows (tenants (view w)) !! t = None)).
Proof.
  unfold resolve_create_tenant, bind, raise_if, lift, get_db, some_or_raise, ret, raise.
  destruct (is_super_admin s) eqn:Ea; simpl.
  - destruct (resolve_target_id s explicit) as [t|e'] eqn:Et.
    + destruct (rows (tenants (view w)) !! t) eqn:Er; intros [= <- <-]. eauto 12.
    + unfold resolve_target_id in Et. rewrite Ea in Et. by destruct explicit.
  - case_bool_decide as Hn; [intros [= <- <-]; eauto 10|].
    destruct (resolve_target_id s explicit) as [t|e'] eqn:Et.
    + destruct (rows (tenants (view w)) !! t) eqn:Er; [|intros [= <- <-]; eauto 12].
      destruct (negb (mem t (tenant_ids s))); [intros [= <- <-]; eauto 10|].
      destruct (role_in s t); [|intros [= <- <-]; eauto 10].
      destruct (negb (mem _ roles)); intros [= <- <-]; eauto 10.
    + intros [= <- <-]. unfold resolve_target_id in Et. rewrite Ea in Et.
      destruct explicit; [done|]. destruct (tenant_ids s) as [|x [|y l]]; try done.
      injection Et as <-. split; [done|]. do 2 eexists. split; [done|]. right. left.
      split_and!; try done. simpl. lia.
Qed.

(** ** Witnesses *)

Definition bob_scope : TenantScope := scope_from_db demo_db (2, demo_operator2).

Lemma role_gate_exact_witness :
  ((require_tenant_role bob_scope (Some 1) [admin; operator] (start demo_db) = (Ok tt, start demo_db)
     <-> permits bob_scope (Some 1) [admin; operator]) /\
   (~ permits bob_scope (Some 1) [admin; operator] ->
      exists detail, require_tenant_role bob_scope (Some 1) [admin; operator] (start demo_db) =
        (Raise (http_error 403 detail), start demo_db))) /\
  (require_tenant_role bob_scope (Some 1) [admin; operator] (start demo_db)).1 = Ok tt.
Proof. split; [by apply role_gate_exact|vm_compute; reflexivity]. Defined.

Lemma create_lands_in_permitted_tenant_witness :
  start demo_db = start demo_db /\ rows (tenants demo_db) !! 1 = Some demo_tenant /\
  (forall t, None = Some t -> t = 1) /\
  (op_role demo_operator2 = admin \/
   exists r, attached (view (start demo_db)) 2 1 r /\ r ∈ [admin; operator]).
Proof.
  apply (create_lands_in_permitted_tenant 2 demo_operator2 None [admin; operator]
           (start demo_db) 1 demo_tenant (start demo_db)).
  vm_compute. reflexivity.
Defined.

Lemma create_tenant_error_codes_witness :
  start demo_db = start demo_db /\ exists code detail,
    http_error 404 "tenant_id 9 not found" = http_error code detail /\
   ((code = 403 /\ is_super_admin unscoped = false) \/
    (code = 422 /\ Some 9 = None /\ is_super_admin unscoped = false /\
       (2 <= length (tenant_ids unscoped))%nat) \/
    (code = 404 /\ exists t, resolve_target_id unscoped (Some 9) = Ok t /\
       rows (tenants demo_db) !! t = None)).
Proof.
  apply (create_tenant_error_codes unscoped (Some 9) [admin] (start demo_db)).
  vm_compute. reflexivity.
Defined.
