(* ===== verification/Hashing.v ===== *)
(** * SHA-256, base64 and canonical JSON

    The parts of Python's [hashlib], [base64] and [json] that the audit log
    and the enrollment tokens use.  Words are integers kept modulo [2^32]. *)

From S2P Require Import Prelude PyStr.
From Stdlib Require Ascii String.

(** ** SHA-256 *)

Definition w32 (x : Z) : Z := x mod 2 ^ 32.
Definition add32 (x y : Z) : Z := w32 (x + y).
Definition rotr (n x : Z) : Z := Z.lor (Z.shiftr x n) (w32 (Z.shiftl x (32 - n))).

Definition sha_ch (x y z : Z) : Z := Z.lxor (Z.land x y) (Z.land (2 ^ 32 - 1 - x) z).
Definition sha_maj (x y z : Z) : Z := Z.lxor (Z.lxor (Z.land x y) (Z.land x z)) (Z.land y z).
Definition big_sigma0 (x : Z) : Z := Z.lxor (Z.lxor (rotr 2 x) (rotr 13 x)) (rotr 22 x).
Definition big_sigma1 (x : Z) : Z := Z.lxor (Z.lxor (rotr 6 x) (rotr 11 x)) (rotr 25 x).
Definition small_sigma0 (x : Z) : Z := Z.lxor (Z.lxor (rotr 7 x) (rotr 18 x)) (Z.shiftr x 3).
Definition small_sigma1 (x : Z) : Z := Z.lxor (Z.lxor (rotr 17 x) (rotr 19 x)) (Z.shiftr x 10).

(** The standard's constants, from their definition: the first 32 bits of the
    fractional parts of the cube roots of the first 64 primes, and of the
    square roots of the first eight. *)
Definition is_prime (n : Z) : bool := forallb (fun m => negb (n mod m =? 0)) (seqZ 2 (n - 2)).
Definition sha_primes : list Z := List.filter is_prime (seqZ 2 310).

(** The integer cube root, bit by bit from [2^(bits-1)] down. *)
Fixpoint cube_root (bits : nat) (acc n : Z) : Z :=
  match bits with
  | O => acc
  | S b =>
      let x := acc + 2 ^ Z.of_nat b in
      cube_root b (if x * x * x <=? n then x else acc) n
  end.

Definition sha_k : list Z :=
  Eval vm_compute in map (fun p => w32 (cube_root 36 0 (p * 2 ^ 96))) sha_primes.

Definition sha_h0 : list Z :=
  Eval vm_compute in map (fun p => w32 (Z.sqrt (p * 2 ^ 64))) (take 8 sha_primes).

(** The message schedule: [n] more words, from the last sixteen (newest first). *)
Fixpoint sha_extend (n : nat) (rev_w : list Z) : list Z :=
  match n with
  | O => reverse rev_w
  | S n' =>
      let g i := default 0 (rev_w !! i) in
      sha_extend n' (add32 (add32 (small_sigma1 (g 1%nat)) (g 6%nat))
                       (add32 (small_sigma0 (g 14%nat)) (g 15%nat)) :: rev_w)
  end.

Definition sha_round (st : list Z) (kw : Z * Z) : list Z :=
  match st with
  | [a; b; c; d; e; f; g; h] =>
      let t1 := add32 (add32 (add32 h (big_sigma1 e)) (sha_ch e f g)) (add32 kw.1 kw.2) in
      let t2 := add32 (big_sigma0 a) (sha_maj a b c) in
      [add32 t1 t2; a; b; c; add32 d t1; e; f; g]
  | _ => st
  end.

Fixpoint words (n : nat) (b : bytes) : list Z :=
  match n with
  | O => []
  | S n' => be_int (take 4 b) :: words n' (drop 4 b)
  end.

Definition sha_block (st : list Z) (block : bytes) : list Z :=
  let w := sha_extend 48 (reverse (words 16 block)) in
  zip_with add32 st (fold_left sha_round (zip sha_k w) st).

Definition sha_pad (msg : bytes) : bytes :=
  let n := Z.of_nat (length msg) in
  msg ++ [Byte.x80] ++ replicate (Z.to_nat ((55 - n) mod 64)) Byte.x00 ++ be_bytes 8 (8 * n).

Fixpoint sha_blocks (fuel : nat) (st : list Z) (b : bytes) : list Z :=
  match fuel with
  | O => st
  | S f => match b with [] => st | _ => sha_blocks f (sha_block st (take 64 b)) (drop 64 b) end
  end.

(** One round of fuel per block; the padded message has at most
    [length / 64 + 2] blocks. *)
Definition sha256 (msg : bytes) : bytes :=
  let st := sha_blocks (S (S (Nat.div (length msg) 64))) sha_h0 (sha_pad msg) in
  concat (map (be_bytes 4) st).

Fixpoint hex_bytes (b : bytes) : string :=
  match b with
  | [] => ""
  | x :: b' => String (hex_digit (byte_z x / 16)) (String (hex_digit (byte_z x mod 16)) (hex_bytes b'))
  end.

(** [s.encode("utf-8")]: code points above 127 take two bytes. *)
Fixpoint utf8 (s : string) : bytes :=
  match s with
  | "" => []
  | String c s' =>
      let n := code c in
      (if n <? 128 then [z_byte n] else [z_byte (192 + n / 64); z_byte (128 + n mod 64)]) ++ utf8 s'
  end.

(** [hashlib.sha256(s.encode("utf-8")).hexdigest()] *)
Definition sha256_hex (s : string) : string := hex_bytes (sha256 (utf8 s)).

Example sha256_abc :
  sha256_hex "abc" = "ba7816bf8f01cfea414140de5dae2223b00361a396177a9cb410ff61f20015ad".
Proof. vm_compute. reflexivity. Qed.

Example sha256_two_blocks :
  sha256_hex "abcdbcdecdefdefgefghfghighijhijkijkljklmklmnlmnomnopnopq" =
  "248d6a61d20638b8e5c026930c3e6039a33ce45964ff2167f6ecedd419db06c1".
Proof. vm_compute. reflexivity. Qed.

(** ** URL-safe base64 without padding *)

Definition b64_chr (n : Z) : ascii :=
  if n <? 26 then chr (65 + n) else if n <? 52 then chr (71 + n)
  else if n <? 62 then chr (n - 4) else if n =? 62 then "-"%char else "_"%char.

Fixpoint base64url (b : bytes) : string :=
  match b with
  | x :: y :: z :: b' =>
      let n := be_int [x; y; z] in
      String (b64_chr (n / 2 ^ 18)) (String (b64_chr (n / 2 ^ 12 mod 64))
        (String (b64_chr (n / 64 mod 64)) (String (b64_chr (n mod 64)) (base64url b'))))
  | [x; y] =>
      let n := be_int [x; y] * 4 in
      String (b64_chr (n / 2 ^ 12)) (String (b64_chr (n / 64 mod 64)) (String (b64_chr (n mod 64)) ""))
  | [x] =>
      let n := byte_z x * 16 in
      String (b64_chr (n / 64)) (String (b64_chr (n mod 64)) "")
  | [] => ""
  end.

Example base64url_hello : base64url (str_bytes "hello?>") = "aGVsbG8_Pg".
Proof. vm_compute. reflexivity. Qed.

(** ** JSON *)

(** Values the code serialises; a dict is its items in insertion order. *)
Inductive json :=
| JNull
| JBool (b : bool)
| JInt (n : Z)
| JStr (s : string)
| JList (l : list json)
| JObj (items : list (string * json)).

Definition json_escape_chr (c : ascii) : string :=
  let n := code c in
  if n =? 34 then String "\" (String (chr 34) "")
  else if n =? 92 then "\\"
  else if n =? 8 then "\b" else if n =? 9 then "\t" else if n =? 10 then "\n"
  else if n =? 12 then "\f" else if n =? 13 then "\r"
  else if (n <? 32) || (126 <? n) then
    "\u00" +:+ String (hex_digit (n / 16)) (String (hex_digit (n mod 16)) "")
  else String c "".

Fixpoint json_escape (s : string) : string :=
  match s with
  | "" => ""
  | String c s' => json_escape_chr c +:+ json_escape s'
  end.

Definition quote : string := String (chr 34) "".
Definition json_str (s : string) : string := quote +:+ json_escape s +:+ quote.

(** Code-point order of strings. *)
Fixpoint str_leb (s t : string) : bool :=
  match s, t with
  | "", _ => true
  | String _ _, "" => false
  | String c s', String d t' =>
      if code c <? code d then true else if code d <? code c then false else str_leb s' t'
  end.

Fixpoint insert_item {A} (x : string * A) (l : list (string * A)) : list (string * A) :=
  match l with
  | [] => [x]
  | y :: l' => if str_leb x.1 y.1 then x :: l else y :: insert_item x l'
  end.
Definition sort_items {A} (l : list (string * A)) : list (string * A) :=
  foldr insert_item [] l.

(** [json.dumps(j, sort_keys=..., separators=(",", ":"))]. *)
Fixpoint json_dumps (sort_keys : bool) (j : json) : string :=
  match j with
  | JNull => "null"
  | JBool true => "true"
  | JBool false => "false"
  | JInt n => dec n
  | JStr s => json_str s
  | JList l => "[" +:+ join "," (map (json_dumps sort_keys) l) +:+ "]"
  | JObj items =>
      let rendered := map (fun kv => (kv.1, json_str kv.1 +:+ ":" +:+ json_dumps sort_keys kv.2)) items in
      "{" +:+ join "," (map snd (if sort_keys then sort_items rendered else rendered)) +:+ "}"
  end.
