(* ===== verification/Base64.v ===== *)
(** * Standard base64

    [base64.b64encode] and [base64.b64decode(..., validate=True)], as
    WireGuard keys are written. *)

From S2P Require Import Prelude PyStr.

Definition b64std_chr (n : Z) : ascii :=
  if n <? 26 then chr (65 + n) else if n <? 52 then chr (71 + n)
  else if n <? 62 then chr (n - 4) else if n =? 62 then "+"%char else "/"%char.

(** The value of an alphabet character. *)
Definition b64_val (c : ascii) : option Z :=
  let n := code c in
  if (65 <=? n) && (n <=? 90) then Some (n - 65)
  else if (97 <=? n) && (n <=? 122) then Some (n - 71)
  else if (48 <=? n) && (n <=? 57) then Some (n + 4)
  else if n =? 43 then Some 62
  else if n =? 47 then Some 63
  else None.

Definition b64_pad : ascii := "="%char.

Fixpoint b64encode (b : bytes) : string :=
  match b with
  | x :: y :: z :: b' =>
      let n := be_int [x; y; z] in
      String (b64std_chr (n / 2 ^ 18)) (String (b64std_chr (n / 2 ^ 12 mod 64))
        (String (b64std_chr (n / 64 mod 64)) (String (b64std_chr (n mod 64)) (b64encode b'))))
  | [x; y] =>
      let n := be_int [x; y] * 4 in
      String (b64std_chr (n / 2 ^ 12)) (String (b64std_chr (n / 64 mod 64))
        (String (b64std_chr (n mod 64)) (String b64_pad "")))
  | [x] =>
      let n := byte_z x * 16 in
      String (b64std_chr (n / 64)) (String (b64std_chr (n mod 64)) (String b64_pad (String b64_pad "")))
  | [] => ""
  end.

(** Strict decoding: alphabet characters in groups of four, padding at the end
    of the last group only. *)
Fixpoint b64decode (s : string) : option bytes :=
  match s with
  | "" => Some []
  | String a (String b (String c (String d rest))) =>
      va ← b64_val a;
      vb ← b64_val b;
      if bool_decide (rest = "") && ceqb d b64_pad then
        if ceqb c b64_pad then Some (be_bytes 1 (va * 4 + vb / 16))
        else vc ← b64_val c; Some (be_bytes 2 (va * 2 ^ 10 + vb * 16 + vc / 4))
      else
        vc ← b64_val c;
        vd ← b64_val d;
        r ← b64decode rest;
        Some (be_bytes 3 (va * 2 ^ 18 + vb * 2 ^ 12 + vc * 64 + vd) ++ r)
  | _ => None
  end.

Example b64_examples :
  b64encode (str_bytes "hello?>") = "aGVsbG8/Pg==" /\
  b64decode "aGVsbG8/Pg==" = Some (str_bytes "hello?>") /\
  b64decode "aGVsbG8/Pg=" = None /\ b64decode "aGVs bG8" = None /\ b64decode "YQ==YQ==" = None.
Proof. split_and!; vm_compute; reflexivity. Qed.

(** What decodes is written in the alphabet and the padding sign only. *)
Lemma b64_val_alphabet c v : b64_val c = Some v -> 43 <= code c <= 122.
Proof.
  unfold b64_val. destruct (_ && _) eqn:E1; [intros; bool_to_prop; lia|].
  destruct ((97 <=? _) && _) eqn:E2; [intros; bool_to_prop; lia|].
  destruct ((48 <=? _) && _) eqn:E3; [intros; bool_to_prop; lia|].
  destruct (code c =? 43) eqn:E4; [intros; bool_to_prop; lia|].
  destruct (code c =? 47) eqn:E5; [intros; bool_to_prop; lia|done].
Qed.

Lemma b64decode_alphabet s b :
  b64decode s = Some b -> str_forall (fun c => (43 <=? code c) && (code c <=? 122)) s = true.
Proof.
  assert (Hv : forall c v, b64_val c = Some v -> (43 <=? code c) && (code c <=? 122) = true).
  { intros c v [? ?]%b64_val_alphabet. apply andb_true_iff. by split; apply Z.leb_le. }
  assert (Hp : forall c, ceqb c b64_pad = true -> (43 <=? code c) && (code c <=? 122) = true).
  { intros c E. apply Z.eqb_eq in E. by rewrite E. }
  revert b. induction s as [s IH] using (induction_ltof1 _ String.length).
  destruct s as [|c1 [|c2 [|c3 [|c4 rest]]]]; intros b; simpl; try done.
  destruct (b64_val c1) eqn:E1; simpl; [|done]. destruct (b64_val c2) eqn:E2; simpl; [|done].
  rewrite (Hv _ _ E1), (Hv _ _ E2). simpl.
  destruct (bool_decide (rest = "") && ceqb c4 b64_pad) eqn:E4.
  - apply andb_true_iff in E4 as [->%bool_decide_eq_true E4]. rewrite (Hp _ E4). simpl.
    destruct (ceqb c3 b64_pad) eqn:E3; [by rewrite (Hp _ E3)|].
    destruct (b64_val c3) eqn:E3'; simpl; [|done]. by rewrite (Hv _ _ E3').
  - destruct (b64_val c3) eqn:E3; simpl; [|done]. destruct (b64_val c4) eqn:E5; simpl; [|done].
    destruct (b64decode rest) as [r|] eqn:Er; simpl; [|done]. intros _.
    rewrite (Hv _ _ E3), (Hv _ _ E5). simpl. apply (IH rest) with r; [|done].
    unfold ltof. simpl. lia.
Qed.

(** ** Decoding inverts encoding *)

Lemma b64_chr_val n : 0 <= n < 64 -> b64_val (b64std_chr n) = Some n /\ ceqb (b64std_chr n) b64_pad = false.
Proof.
  intros H. assert (Hall : forallb (fun n => bool_decide (b64_val (b64std_chr n) = Some n) &&
    negb (ceqb (b64std_chr n) b64_pad)) (seqZ 0 64) = true) by (vm_compute; reflexivity).
  rewrite forallb_forall in Hall. specialize (Hall n).
  rewrite <- list_elem_of_In, elem_of_seqZ in Hall. specialize (Hall H).
  apply andb_true_iff in Hall as [H1%bool_decide_eq_true H2%negb_true_iff]. done.
Qed.

Lemma be_bytes_int b : be_bytes (length b) (be_int b) = b.
Proof.
  induction b as [|x b IH] using rev_ind; [done|]. rewrite length_app, Nat.add_comm. cbn [length Nat.add be_bytes].
  rewrite be_int_app. pose proof (byte_z_range x).
  replace ((be_int b * 256 + byte_z x) / 256) with (be_int b) by (Z.div_mod_to_equations; lia).
  replace ((be_int b * 256 + byte_z x) mod 256) with (byte_z x) by (Z.div_mod_to_equations; lia).
  by rewrite IH, z_byte_byte_z.
Qed.

Lemma be_bytes_eq k n b : k = length b -> n = be_int b -> be_bytes k n = b.
Proof. intros -> ->. apply be_bytes_int. Qed.

Ltac b64_digits :=
  repeat match goal with
  | |- context [b64_val (b64std_chr ?n)] =>
      rewrite (proj1 (b64_chr_val n ltac:(Z.div_mod_to_equations; lia)))
  | |- context [ceqb (b64std_chr ?n) b64_pad] =>
      rewrite (proj2 (b64_chr_val n ltac:(Z.div_mod_to_equations; lia)))
  end.

Lemma b64_decode_encode b : b64decode (b64encode b) = Some b.
Proof.
  induction b as [b IH] using (induction_ltof1 _ (@length _)).
  destruct b as [|x [|y [|z b]]]; [done| | |]; cbn [b64encode]; cbv zeta; cbn [b64decode]; rewrite ?ceqb_refl.
  - pose proof (byte_z_range x). b64_digits. cbn -[be_bytes Z.mul Z.div Z.modulo Z.add Z.pow]. f_equal. apply be_bytes_eq; [done|].
    unfold be_int. cbn [fold_left]. Z.div_mod_to_equations. lia.
  - pose proof (byte_z_range x). pose proof (byte_z_range y). unfold be_int. cbn [fold_left]. b64_digits.
    cbn -[be_bytes Z.mul Z.div Z.modulo Z.add Z.pow]. f_equal. apply be_bytes_eq; [done|]. unfold be_int. cbn [fold_left]. Z.div_mod_to_equations. lia.
  - pose proof (byte_z_range x). pose proof (byte_z_range y). pose proof (byte_z_range z).
    unfold be_int. cbn [fold_left]. b64_digits. rewrite andb_false_r. cbn [mbind option_bind].
    rewrite IH by (unfold ltof; simpl; lia). cbn [mbind option_bind]. f_equal.
    change (x :: y :: z :: b) with ([x; y; z] ++ b). f_equal. apply be_bytes_eq; [done|].
    unfold be_int. cbn [fold_left]. Z.div_mod_to_equations. lia.
Qed.

Lemma b64encode_inj b b' : b64encode b = b64encode b' -> b = b'.
Proof. intros H. assert (E : Some b = Some b') by (by rewrite <- !b64_decode_encode, H). congruence. Qed.
