(* ===== verification/Json.v ===== *)
(** * JSON text

    What the backup commands use of Python's [json]: [json.dumps] with
    [indent=2, sort_keys=True] and [json.loads], with the theorem that
    the reader inverts the writer up to the order of keys.  Dictionaries keep
    insertion order.  Floats, and code points above 255, which the model has no
    values for, are refused by the reader. *)

From S2P Require Import Prelude PyStr Hashing.

(** ** Dictionaries in insertion order *)

Fixpoint dict_get {A} (k : string) (l : list (string * A)) : option A :=
  match l with
  | [] => None
  | (k', v) :: l' => if bool_decide (k' = k) then Some v else dict_get k l'
  end.

(** [d[k] = v]: in place, or appended. *)
Fixpoint dict_set {A} (k : string) (v : A) (l : list (string * A)) : list (string * A) :=
  match l with
  | [] => [(k, v)]
  | (k', v') :: l' => if bool_decide (k' = k) then (k, v) :: l' else (k', v') :: dict_set k v l'
  end.

(** [dict(pairs)]: a repeated key keeps its place and takes the last value. *)
Definition py_dict {A} (pairs : list (string * A)) : list (string * A) :=
  fold_left (fun d kv => dict_set kv.1 kv.2 d) pairs [].

(** ** Writing *)

Definition lf : string := String (chr 10) "".

(** [json.dumps(j, indent=2, sort_keys=True)]; [ind] is a line feed and the
    indentation of the line [j] starts on. *)
Fixpoint json_indent (ind : string) (j : json) : string :=
  let ind' := ind +:+ "  " in
  match j with
  | JList ((_ :: _) as l) =>
      "[" +:+ ind' +:+ join ("," +:+ ind') (map (json_indent ind') l) +:+ ind +:+ "]"
  | JObj ((_ :: _) as items) =>
      let rendered := map (fun kv => (kv.1, json_str kv.1 +:+ ": " +:+ json_indent ind' kv.2)) items in
      "{" +:+ ind' +:+ join ("," +:+ ind') (map snd (sort_items rendered)) +:+ ind +:+ "}"
  | _ => json_dumps true j
  end.

Definition json_pretty (j : json) : string := json_indent lf j.

(** ** Reading *)

Definition is_json_ws (c : ascii) : bool :=
  (code c =? 32) || (code c =? 9) || (code c =? 10) || (code c =? 13).

Fixpoint skip_ws (s : string) : string :=
  match s with
  | String c s' => if is_json_ws c then skip_ws s' else s
  | "" => ""
  end.

(** Remove the prefix [p]. *)
Fixpoint eat (p s : string) : option string :=
  match p, s with
  | "", _ => Some s
  | String a p', String b s' => if ceqb a b then eat p' s' else None
  | _, "" => None
  end.

Definition hex_value (c : ascii) : option Z :=
  match digit_value c with Some d => if d <? 16 then Some d else None | None => None end.

Definition hex4 (a b c d : ascii) : option Z :=
  match hex_value a, hex_value b, hex_value c, hex_value d with
  | Some x, Some y, Some z, Some w => Some (((x * 16 + y) * 16 + z) * 16 + w)
  | _, _, _, _ => None
  end.

Definition unescape (c : ascii) : option ascii :=
  let n := code c in
  if (n =? 34) || (n =? 92) || (n =? 47) then Some c
  else if n =? 98 then Some (chr 8) else if n =? 102 then Some (chr 12)
  else if n =? 110 then Some (chr 10) else if n =? 114 then Some (chr 13)
  else if n =? 116 then Some (chr 9) else None.

(** The text of a string literal after its opening quote, and what follows. *)
Fixpoint json_chars (s : string) : option (string * string) :=
  match s with
  | "" => None
  | String c s' =>
      if code c =? 34 then Some ("", s')
      else if code c =? 92 then
        match s' with
        | "" => None
        | String e s'' =>
            if code e =? 117 then
              match s'' with
              | String a (String b (String x (String y t))) =>
                  match hex4 a b x y with
                  | Some n => if n <? 256 then (fun r => (String (chr n) r.1, r.2)) <$> json_chars t else None
                  | None => None
                  end
              | _ => None
              end
            else match unescape e with
                 | Some c' => (fun r => (String c' r.1, r.2)) <$> json_chars s''
                 | None => None
                 end
        end
      else if code c <? 32 then None
      else (fun r => (String c r.1, r.2)) <$> json_chars s'
  end.

Definition is_float_chr (c : ascii) : bool := (code c =? 46) || (code c =? 101) || (code c =? 69).

(** Digits without a leading zero, not followed by a fraction or exponent. *)
Definition json_nat (s : string) : option (Z * string) :=
  match span_digits s with
  | (String c ds as digits, rest) =>
      let '(digits, rest) := if code c =? 48 then (String c "", ds +:+ rest) else (digits, rest) in
      match rest with
      | String d _ => if is_float_chr d then None else (fun n => (n, rest)) <$> py_int digits
      | "" => (fun n => (n, rest)) <$> py_int digits
      end
  | ("", _) => None
  end.

Definition json_number (s : string) : option (json * string) :=
  match eat "-" s with
  | Some s' => (fun r => (JInt (- r.1), r.2)) <$> json_nat s'
  | None => (fun r => (JInt r.1, r.2)) <$> json_nat s
  end.

Definition json_word (s : string) : option (json * string) :=
  match eat "null" s with
  | Some r => Some (JNull, r)
  | None =>
      match eat "true" s with
      | Some r => Some (JBool true, r)
      | None => match eat "false" s with Some r => Some (JBool false, r) | None => json_number s end
      end
  end.

(** One value; [fuel] bounds the nested and the consecutive calls. *)
Fixpoint json_value (fuel : nat) (s : string) : option (json * string) :=
  match fuel, s with
  | S f, String c r =>
      if code c =? 34 then (fun x => (JStr x.1, x.2)) <$> json_chars r
      else if code c =? 123 then
        match eat "}" (skip_ws r) with
        | Some r' => Some (JObj [], r')
        | None => (fun x => (JObj (py_dict x.1), x.2)) <$> json_members f (skip_ws r)
        end
      else if code c =? 91 then
        match eat "]" (skip_ws r) with
        | Some r' => Some (JList [], r')
        | None => (fun x => (JList x.1, x.2)) <$> json_elements f (skip_ws r)
        end
      else json_word s
  | _, _ => None
  end
with json_members (fuel : nat) (s : string) : option (list (string * json) * string) :=
  match fuel with
  | O => None
  | S f =>
      match eat quote s with
      | None => None
      | Some r =>
          match json_chars r with
          | None => None
          | Some (k, r1) =>
              match eat ":" (skip_ws r1) with
              | None => None
              | Some r2 =>
                  match json_value f (skip_ws r2) with
                  | None => None
                  | Some (v, r3) =>
                      match eat "," (skip_ws r3) with
                      | Some r4 => (fun x => ((k, v) :: x.1, x.2)) <$> json_members f (skip_ws r4)
                      | None => (fun r4 => ([(k, v)], r4)) <$> eat "}" (skip_ws r3)
                      end
                  end
              end
          end
      end
  end
with json_elements (fuel : nat) (s : string) : option (list json * string) :=
  match fuel with
  | O => None
  | S f =>
      match json_value f s with
      | None => None
      | Some (v, r) =>
          match eat "," (skip_ws r) with
          | Some r' => (fun x => (v :: x.1, x.2)) <$> json_elements f (skip_ws r')
          | None => (fun r' => ([v], r')) <$> eat "]" (skip_ws r)
          end
      end
  end.

(** [json.loads(s)]: [None] is [JSONDecodeError]. *)
Definition json_loads (s : string) : option json :=
  match json_value (S (String.length s)) (skip_ws s) with
  | Some (j, rest) => if bool_decide (skip_ws rest = "") then Some j else None
  | None => None
  end.

Example json_loads_example :
  json_loads (json_pretty (JObj [("b", JList [JInt (-5); JNull; JBool true]); ("a", JStr (String (chr 233) (String (chr 10) "x")))]))
  = Some (JObj [("a", JStr (String (chr 233) (String (chr 10) "x"))); ("b", JList [JInt (-5); JNull; JBool true])]).
Proof. vm_compute. reflexivity. Qed.

(** ** Lemmas: dictionaries *)

Lemma dict_get_set {A} k k' (v : A) l :
  dict_get k (dict_set k' v l) = if decide (k = k') then Some v else dict_get k l.
Proof.
  induction l as [|[x y] l IH]; simpl.
  - by repeat case_decide; repeat case_bool_decide.
  - case_bool_decide as Hx; simpl; repeat case_bool_decide; repeat case_decide; simplify_eq; try done.
    all: rewrite IH; by rewrite ?decide_True, ?decide_False by congruence.
Qed.

Lemma dict_set_new {A} k (v : A) l : k ∉ map fst l -> dict_set k v l = l ++ [(k, v)].
Proof.
  induction l as [|[x y] l IH]; simpl; [done|]. intros [? ?]%not_elem_of_cons.
  rewrite bool_decide_eq_false_2 by done. by rewrite IH.
Qed.

Lemma py_dict_NoDup {A} (l : list (string * A)) : NoDup (map fst l) -> py_dict l = l.
Proof.
  intros H. unfold py_dict.
  enough (G : forall acc, NoDup (map fst (acc ++ l)) -> fold_left (fun d kv => dict_set kv.1 kv.2 d) l acc = acc ++ l)
    by (apply (G [] H)).
  clear H. induction l as [|[k v] l IH]; intros acc Hnd; simpl; [by rewrite app_nil_r|].
  rewrite dict_set_new.
  - rewrite IH, <- app_assoc; [done|]. by rewrite <- app_assoc.
  - rewrite map_app in Hnd. apply NoDup_app in Hnd as (_ & Hd & _). intros Hk.
    apply (Hd k Hk). simpl. by left.
Qed.

Lemma insert_item_perm {A} (x : string * A) l : insert_item x l ≡ₚ x :: l.
Proof. induction l as [|y l IH]; simpl; [done|]. destruct (str_leb _ _); [done|]. rewrite IH. constructor. Qed.

Lemma sort_items_self {A} (l : list (string * A)) : sort_items l ≡ₚ l.
Proof. induction l as [|x l IH]; simpl; [done|]. by rewrite insert_item_perm, IH. Qed.

Lemma sort_items_map {A B} (f : string -> A -> B) l :
  sort_items (map (fun kv => (kv.1, f kv.1 kv.2)) l) = map (fun kv => (kv.1, f kv.1 kv.2)) (sort_items l).
Proof.
  induction l as [|x l IH]; simpl; [done|]. rewrite IH. generalize (sort_items l). intros m.
  induction m as [|y m IHm]; simpl; [done|]. destruct (str_leb _ _); simpl; [done|]. by rewrite IHm.
Qed.

Lemma dict_get_Some {A} k (v : A) l : dict_get k l = Some v -> (k, v) ∈ l.
Proof.
  induction l as [|[x y] l IH]; simpl; [done|]. case_bool_decide; [intros [= ->]; subst; by left|].
  intros. right. auto.
Qed.

Lemma dict_get_elem {A} k (v : A) l : NoDup (map fst l) -> (k, v) ∈ l -> dict_get k l = Some v.
Proof.
  induction l as [|[x y] l IH]; simpl; [by intros _ ?%elem_of_nil|]. intros [Hx Hnd]%NoDup_cons.
  intros [[= -> ->]|Hin]%elem_of_cons; [by rewrite bool_decide_eq_true_2|].
  rewrite bool_decide_eq_false_2; [by apply IH|]. intros ->. apply Hx.
  rewrite list_elem_of_In, in_map_iff. exists (k, v). rewrite <- list_elem_of_In. done.
Qed.

(** Sorting the items does not change what a dictionary maps keys to. *)
Lemma dict_get_sorted {A} k (l : list (string * A)) : NoDup (map fst l) -> dict_get k (sort_items l) = dict_get k l.
Proof.
  intros Hnd. assert (Hs : NoDup (map fst (sort_items l))) by (by rewrite sort_items_self).
  destruct (dict_get k l) as [v|] eqn:E.
  - apply dict_get_elem; [done|]. rewrite sort_items_self. by apply dict_get_Some.
  - destruct (dict_get k (sort_items l)) as [v|] eqn:E'; [|done].
    apply dict_get_Some in E'. rewrite sort_items_self in E'. by rewrite (dict_get_elem _ _ _ Hnd E') in E.
Qed.

(** ** Lemmas: tokens *)

Lemma eat_app p s : eat p (p +:+ s) = Some s.
Proof. induction p as [|c p IH]; [done|]. rewrite append_cons. simpl. by rewrite ceqb_refl. Qed.

Definition is_ws (s : string) : Prop := str_forall is_json_ws s = true.

Lemma skip_ws_app w s : is_ws w -> skip_ws (w +:+ s) = skip_ws s.
Proof.
  unfold is_ws. induction w as [|c w IH]; [done|]. rewrite append_cons. simpl. intros [-> H]%andb_true_iff. auto.
Qed.

Lemma json_chars_escape_chr c t :
  json_chars (json_escape_chr c +:+ t) = (fun r => (String c r.1, r.2)) <$> json_chars t.
Proof. destruct c as [[] [] [] [] [] [] [] []]; reflexivity. Qed.

Lemma json_chars_escape s rest : json_chars (json_escape s +:+ quote +:+ rest) = Some (s, rest).
Proof.
  induction s as [|c s IH]; [done|]. cbn [json_escape]. rewrite append_assoc, json_chars_escape_chr, IH. done.
Qed.

(** What may follow a number. *)
Definition stops (s : string) : Prop :=
  match s with "" => True | String c _ => is_decimal c = false /\ is_float_chr c = false end.

Lemma ws_stops c : is_json_ws c = true -> is_decimal c = false /\ is_float_chr c = false.
Proof. unfold is_json_ws, is_decimal, is_float_chr. intros H. split; bool_to_prop; lia. Qed.

Lemma stops_app w s : is_ws w -> stops s -> stops (w +:+ s).
Proof.
  unfold is_ws. destruct w as [|c w]; [done|]. rewrite append_cons. simpl.
  intros [H _]%andb_true_iff _. by apply ws_stops.
Qed.

Lemma json_nat_dec n rest : 0 <= n < 10 ^ max_str_digits -> stops rest ->
  json_nat (dec n +:+ rest) = Some (n, rest).
Proof.
  intros Hn Hr. unfold json_nat.
  rewrite span_digits_app; [|apply dec_decimal; lia|destruct rest; [done|apply Hr]].
  pose proof (py_int_dec n Hn) as Hi. destruct (Z.eq_dec n 0) as [->|].
  - destruct rest as [|d r]; [reflexivity|]. destruct Hr as [_ Hf].
    transitivity (if is_float_chr d then None else Some (0, String d r)); [reflexivity|]. by rewrite Hf.
  - destruct (dec_head n) as (c & s & E & Hc); [lia|]. rewrite E in *.
    rewrite (proj2 (Z.eqb_neq (code c) 48) Hc), Hi.
    destruct rest as [|d r]; [done|]. by destruct Hr as [_ ->].
Qed.

(** ** The reader inverts the writer *)

(** Induction over values with the hypothesis for every element and item. *)
Section json_induction.
Context (P : json -> Prop).
Hypothesis (Hnull : P JNull) (Hbool : forall b, P (JBool b)) (Hint : forall n, P (JInt n)) (Hstr : forall s, P (JStr s)).
Hypothesis (Hlist : forall l, Forall P l -> P (JList l)).
Hypothesis (Hobj : forall items, Forall (fun kv => P kv.2) items -> P (JObj items)).

Fixpoint json_nested_ind (j : json) : P j :=
  match j with
  | JNull => Hnull | JBool b => Hbool b | JInt n => Hint n | JStr s => Hstr s
  | JList l => Hlist l ((fix go l := match l return Forall P l with
      | [] => Forall_nil_2 _ | x :: l' => Forall_cons_2 _ x l' (json_nested_ind x) (go l') end) l)
  | JObj items => Hobj items ((fix go l := match l return Forall (fun kv => P kv.2) l with
      | [] => Forall_nil_2 _ | x :: l' => Forall_cons_2 _ x l' (json_nested_ind x.2) (go l') end) items)
  end.
End json_induction.

(** Every object has distinct keys, and integers have at most 4300 digits. *)
Fixpoint json_ok (j : json) : bool :=
  match j with
  | JInt n => Z.abs n <? 10 ^ max_str_digits
  | JList l => forallb json_ok l
  | JObj items => bool_decide (NoDup (map fst items)) && forallb (fun kv => json_ok kv.2) items
  | _ => true
  end.

(** The value with the items of every object in key order. *)
Fixpoint json_sorted (j : json) : json :=
  match j with
  | JList l => JList (map json_sorted l)
  | JObj items => JObj (sort_items (map (fun kv => (kv.1, json_sorted kv.2)) items))
  | _ => j
  end.

(** The fuel that reading [j] takes. *)
Fixpoint json_cost (j : json) : nat :=
  match j with
  | JList l => S (list_sum (map (fun v => S (json_cost v)) l))
  | JObj items => S (list_sum (map (fun kv => S (json_cost kv.2)) items))
  | _ => 1
  end.

(** What the value parser has to do on the text of [j]. *)
Definition reads_back (j : json) : Prop := forall ind fuel rest,
  is_ws ind -> (json_cost j <= fuel)%nat -> stops rest ->
  json_value fuel (json_indent ind j +:+ rest) = Some (json_sorted j, rest).

Lemma is_ws_deeper ind : is_ws ind -> is_ws (ind +:+ "  ").
Proof. unfold is_ws. intros H. by rewrite str_forall_app, H. Qed.

(** The text of a value starts with a character of its own. *)
Lemma json_indent_head ind j :
  exists c s, json_indent ind j = String c s /\ is_json_ws c = false /\ ceqb "]" c = false.
Proof.
  assert (Hd : forall n, exists c s, dec n = String c s /\ is_json_ws c = false /\ ceqb "]" c = false).
  { intros n. unfold dec. destruct (Z.ltb_spec n 0) as [|Hn]; [by eexists _, _|].
    assert (Hdig : forall s, s <> "" -> str_forall is_decimal s = true ->
      exists c r, s = String c r /\ is_json_ws c = false /\ ceqb "]" c = false).
    { intros [|c r]; [done|]. intros _ [Hc _]%andb_true_iff. exists c, r. split; [done|].
      unfold is_json_ws, is_decimal, ceqb in *. change (code "]") with 93. split; bool_to_prop; lia. }
    apply Hdig; [apply dec_go_nonnil; lia|by apply dec_go_decimal]. }
  destruct j as [|[]|n|s|[|x l]|[|x l]]; cbn [json_indent json_dumps]; try by eexists _, _.
  apply Hd.
Qed.

Lemma skip_to_value w ind j rest : is_ws w ->
  skip_ws (w +:+ json_indent ind j +:+ rest) = json_indent ind j +:+ rest /\
  eat "]" (json_indent ind j +:+ rest) = None.
Proof.
  intros Hw. rewrite skip_ws_app by done. destruct (json_indent_head ind j) as (c & s & -> & Hc & Hb).
  rewrite append_cons. simpl. by rewrite Hc, Hb.
Qed.

Lemma json_number_dec n rest : Z.abs n < 10 ^ max_str_digits -> stops rest ->
  json_number (dec n +:+ rest) = Some (JInt n, rest).
Proof.
  intros Hn Hr. unfold json_number. destruct (Z.ltb_spec n 0) as [H|H].
  - assert (E : dec n = "-" +:+ dec (- n)).
    { unfold dec. destruct (Z.ltb_spec n 0), (Z.ltb_spec (- n) 0); done || lia. }
    rewrite E, append_assoc, eat_app, json_nat_dec by (done || lia). simpl. by rewrite Z.opp_involutive.
  - assert (E : eat "-" (dec n +:+ rest) = None).
    { pose proof (dec_decimal n H) as Hd. pose proof (dec_nonnil n H). destruct (dec n) as [|c s]; [done|].
      simpl in Hd. apply andb_true_iff in Hd as [Hc _]. rewrite append_cons. simpl.
      assert (ceqb "-" c = false) as ->; [|done]. unfold ceqb, is_decimal in *. change (code "-") with 45. bool_to_prop; lia. }
    by rewrite E, json_nat_dec by (done || lia).
Qed.

Lemma json_value_number f c r : is_decimal c || ceqb c "-" = true ->
  json_value (S f) (String c r) = json_number (String c r).
Proof.
  intros H. assert (Hc : code c = 45 \/ 48 <= code c <= 57).
  { unfold is_decimal, ceqb in H. change (code "-") with 45 in H. bool_to_prop; lia. }
  cbn [json_value]. unfold json_word. cbn [eat]. unfold ceqb.
  change (code "n") with 110. change (code "t") with 116. change (code "f") with 102.
  repeat match goal with |- context [?x =? ?y] => destruct (Z.eqb_spec x y); [lia|] end. done.
Qed.

Lemma reads_int n : json_ok (JInt n) = true -> reads_back (JInt n).
Proof.
  intros Hn ind [|f] rest _ Hf Hr; [simpl in Hf; lia|]. simpl in Hn. cbn [json_indent json_dumps json_sorted].
  rewrite <- (json_number_dec n rest) by (done || blia).
  destruct (dec n) as [|c s] eqn:E.
  - exfalso. unfold dec in E. destruct (n <? 0); [done|]. apply dec_go_nonnil in E; [done|lia].
  - rewrite append_cons. apply json_value_number. unfold dec in E. destruct (Z.ltb_spec n 0).
    + injection E as <- _. apply orb_true_r.
    + assert (Hd : str_forall is_decimal (dec_go (S (Z.to_nat (Z.log2 n))) n "") = true) by (by apply dec_go_decimal).
      rewrite E in Hd. simpl in Hd. apply andb_true_iff in Hd as [-> _]. done.
Qed.

Lemma reads_elements ind ind' l fuel rest : is_ws ind -> is_ws ind' ->
  Forall reads_back l -> l <> [] -> (list_sum (map (fun v => S (json_cost v)) l) <= fuel)%nat ->
  json_elements fuel (join ("," +:+ ind') (map (json_indent ind') l) +:+ ind +:+ "]" +:+ rest)
  = Some (map json_sorted l, rest).
Proof.
  intros Hi Hi' Hl. revert fuel. induction Hl as [|x l Hx Hl IH]; intros [|f] Hn Hf; try done;
    simpl in Hf; [lia|].
  destruct l as [|y l].
  - cbn [map join json_elements]. rewrite Hx; [|done|lia|by apply stops_app].
    rewrite skip_ws_app by done. done.
  - assert (E : join ("," +:+ ind') (map (json_indent ind') (x :: y :: l)) =
      json_indent ind' x +:+ "," +:+ ind' +:+ join ("," +:+ ind') (map (json_indent ind') (y :: l))).
    { cbn [map join]. by rewrite !append_assoc. }
    rewrite E, !append_assoc. clear E. cbn [json_elements]. rewrite Hx; [|done|lia|by split].
    set (tl := join _ _ +:+ _) in *.
    assert (Et : eat "," (skip_ws ("," +:+ ind' +:+ tl)) = Some (ind' +:+ tl)) by done.
    rewrite Et. assert (Es : skip_ws (ind' +:+ tl) = tl).
    { unfold tl. destruct l as [|z l]; cbn [map join]; rewrite ?append_assoc; by apply skip_to_value. }
    rewrite Es. unfold tl. rewrite IH; [done|done|simpl in *; lia].
Qed.

(** The text of one item. *)
Definition item_text (ind : string) (kv : string * json) : string :=
  json_str kv.1 +:+ ": " +:+ json_indent ind kv.2.

Lemma reads_members ind ind' l fuel rest : is_ws ind -> is_ws ind' ->
  Forall (fun kv => reads_back kv.2) l -> l <> [] -> (list_sum (map (fun kv => S (json_cost kv.2)) l) <= fuel)%nat ->
  json_members fuel (join ("," +:+ ind') (map (item_text ind') l) +:+ ind +:+ "}" +:+ rest)
  = Some (map (fun kv => (kv.1, json_sorted kv.2)) l, rest).
Proof.
  intros Hi Hi' Hl. revert fuel. induction Hl as [|[k x] l Hx Hl IH]; intros [|f] Hn Hf; try done;
    simpl in Hf, Hx; [lia|].
  assert (Hone : forall t, stops t -> json_members (S f) (item_text ind' (k, x) +:+ t) =
    match eat "," (skip_ws t) with
    | Some r4 => (fun y => ((k, json_sorted x) :: y.1, y.2)) <$> json_members f (skip_ws r4)
    | None => (fun r4 => ([(k, json_sorted x)], r4)) <$> eat "}" (skip_ws t)
    end).
  { intros t Ht. unfold item_text, json_str. cbn [json_members fst snd]. rewrite !append_assoc, eat_app, json_chars_escape.
    change (eat ":" (skip_ws (": " +:+ json_indent ind' x +:+ t))) with (Some (" " +:+ json_indent ind' x +:+ t)).
    cbv beta iota. rewrite (proj1 (skip_to_value " " ind' x t eq_refl)).
    by rewrite Hx by (done || lia). }
  destruct l as [|y l].
  - cbn [map join]. rewrite Hone by (by apply stops_app). rewrite skip_ws_app by done. done.
  - assert (E : join ("," +:+ ind') (map (item_text ind') ((k, x) :: y :: l)) =
      item_text ind' (k, x) +:+ "," +:+ ind' +:+ join ("," +:+ ind') (map (item_text ind') (y :: l))).
    { cbn [map join]. by rewrite !append_assoc. }
    rewrite E, !append_assoc. clear E. rewrite Hone by (by split).
    set (tl := join _ _ +:+ _) in *.
    assert (Et : eat "," (skip_ws ("," +:+ ind' +:+ tl)) = Some (ind' +:+ tl)) by done.
    rewrite Et. assert (Es : skip_ws (ind' +:+ tl) = tl).
    { rewrite skip_ws_app by done. unfold tl. by destruct l. }
    rewrite Es. unfold tl. rewrite IH; [done|done|simpl in *; lia].
Qed.

Lemma item_texts ind items :
  map snd (sort_items (map (fun kv => (kv.1, json_str kv.1 +:+ ": " +:+ json_indent ind kv.2)) items))
  = map (item_text ind) (sort_items items).
Proof.
  rewrite (sort_items_map (fun k v => json_str k +:+ ": " +:+ json_indent ind v)), map_map. done.
Qed.

Lemma open_list f w t : is_ws w -> skip_ws t = t -> eat "]" t = None ->
  json_value (S f) ("[" +:+ w +:+ t) = (fun x => (JList x.1, x.2)) <$> json_elements f t.
Proof.
  intros Hw Ht He. change ("[" +:+ w +:+ t) with (String "[" (w +:+ t)). cbn [json_value].
  rewrite skip_ws_app, Ht, He by done. done.
Qed.

Lemma open_object f w t : is_ws w -> skip_ws t = t -> eat "}" t = None ->
  json_value (S f) ("{" +:+ w +:+ t) = (fun x => (JObj (py_dict x.1), x.2)) <$> json_members f t.
Proof.
  intros Hw Ht He. change ("{" +:+ w +:+ t) with (String "{" (w +:+ t)). cbn [json_value].
  rewrite skip_ws_app, Ht, He by done. done.
Qed.

Lemma reads_list l : Forall reads_back l -> reads_back (JList l).
Proof.
  intros Hl ind [|f] rest Hi Hf Hr; [simpl in Hf; lia|]. destruct l as [|x l]; [done|].
  cbn [json_indent]. cbv zeta. rewrite !append_assoc.
  assert (Hs : forall t, skip_ws (join ("," +:+ ind +:+ "  ") (map (json_indent (ind +:+ "  ")) (x :: l)) +:+ t) =
      join ("," +:+ ind +:+ "  ") (map (json_indent (ind +:+ "  ")) (x :: l)) +:+ t /\
      eat "]" (join ("," +:+ ind +:+ "  ") (map (json_indent (ind +:+ "  ")) (x :: l)) +:+ t) = None).
  { intros t. destruct l as [|y l]; cbn [map join]; rewrite ?append_assoc; by apply (skip_to_value ""). }
  rewrite <- (append_assoc ind "  "), open_list; [|by apply is_ws_deeper|apply Hs|apply Hs].
  rewrite reads_elements; [done|done|by apply is_ws_deeper|done|done|simpl in *; lia].
Qed.

Lemma reads_object items : NoDup (map fst items) -> Forall (fun kv => reads_back kv.2) items ->
  reads_back (JObj items).
Proof.
  intros Hnd Hl ind [|f] rest Hi Hf Hr; [simpl in Hf; lia|]. destruct items as [|x items]; [done|].
  cbn [json_indent]. cbv zeta. rewrite item_texts. set (l := x :: items) in *.
  assert (Hl0 : sort_items l <> []).
  { intros E. pose proof (sort_items_self l) as Hp. rewrite E in Hp. by apply Permutation_nil_l in Hp. }
  assert (Hs : forall t, skip_ws (join ("," +:+ ind +:+ "  ") (map (item_text (ind +:+ "  ")) (sort_items l)) +:+ t) =
      join ("," +:+ ind +:+ "  ") (map (item_text (ind +:+ "  ")) (sort_items l)) +:+ t /\
      eat "}" (join ("," +:+ ind +:+ "  ") (map (item_text (ind +:+ "  ")) (sort_items l)) +:+ t) = None).
  { intros t. by destruct (sort_items l) as [|y [|z m]]. }
  rewrite !append_assoc, <- (append_assoc ind "  "), open_object; [|by apply is_ws_deeper|apply Hs|apply Hs].
  rewrite reads_members; [|done|by apply is_ws_deeper|by rewrite sort_items_self|done|].
  - cbn [fmap option_fmap option_map fst snd json_sorted]. rewrite py_dict_NoDup.
    + by rewrite <- (sort_items_map (fun _ v => json_sorted v)).
    + rewrite map_map. cbn [fst]. by rewrite (sort_items_self l).
  - rewrite sort_items_self. cbn [json_cost] in Hf. lia.
Qed.

Lemma reads_back_ok j : json_ok j = true -> reads_back j.
Proof.
  induction j as [|b|n|s|l IH|items IH] using json_nested_ind; intros Hok.
  1,2,4: intros ind [|f] rest Hi Hf Hr; simpl in Hf; [lia|].
  - done.
  - by destruct b.
  - cbn [json_indent json_dumps]. unfold json_str. rewrite !append_assoc.
    change (quote +:+ json_escape s +:+ quote +:+ rest) with (String (chr 34) (json_escape s +:+ quote +:+ rest)).
    cbn [json_value]. change (code (chr 34) =? 34) with true. cbv iota. by rewrite json_chars_escape.
  - by apply reads_int.
  - apply reads_list. simpl in Hok. rewrite forallb_forall in Hok. rewrite Forall_forall in IH |- *.
    intros x Hx. apply IH; [done|]. apply Hok. by rewrite <- list_elem_of_In.
  - simpl in Hok. apply andb_true_iff in Hok as [Hnd%bool_decide_eq_true Hok]. apply reads_object; [done|].
    rewrite forallb_forall in Hok. rewrite Forall_forall in IH |- *.
    intros x Hx. apply IH; [done|]. apply Hok. by rewrite <- list_elem_of_In.
Qed.

(** The text is at least as long as the fuel that reading it takes. *)
Lemma length_append s t : String.length (s +:+ t) = (String.length s + String.length t)%nat.
Proof. induction s as [|c s IH]; [done|]. rewrite append_cons. simpl. by rewrite IH. Qed.

Lemma length_join sep parts : (1 <= String.length sep)%nat ->
  (list_sum (map (fun p => S (String.length p)) parts) <= S (String.length (join sep parts)))%nat.
Proof.
  intros Hs. induction parts as [|p [|q ps] IH]; simpl in *; [lia|lia|]. rewrite !length_append. lia.
Qed.

Lemma list_sum_le {A} (f g : A -> nat) l : Forall (fun x => (f x <= g x)%nat) l ->
  (list_sum (map f l) <= list_sum (map g l))%nat.
Proof. induction 1; simpl; lia. Qed.

Lemma list_sum_sorted {A} (f : string * A -> nat) l : list_sum (map f (sort_items l)) = list_sum (map f l).
Proof. by rewrite sort_items_self. Qed.

(** The cost of the parts is below the length of their joined texts. *)
Lemma parts_cost {A} (cost : A -> nat) (text : A -> string) sep l : (1 <= String.length sep)%nat ->
  Forall (fun x => (cost x <= String.length (text x))%nat) l ->
  (list_sum (map (fun x => S (cost x)) l) <= S (String.length (join sep (map text l))))%nat.
Proof.
  intros Hs Hl. pose proof (length_join sep (map text l) Hs) as H. rewrite map_map in H.
  etransitivity; [|exact H]. apply list_sum_le. eapply Forall_impl; [exact Hl|]. intros x Hx. simpl in *. lia.
Qed.

Lemma json_cost_le ind j : (json_cost j <= String.length (json_indent ind j))%nat.
Proof.
  revert ind. induction j as [|b|n|s|l IH|items IH] using json_nested_ind; intros ind.
  - simpl; lia.
  - destruct b; simpl; lia.
  - destruct (json_indent_head ind (JInt n)) as (c & s & -> & _). simpl. lia.
  - destruct (json_indent_head ind (JStr s)) as (c & t & -> & _). simpl. lia.
  - destruct l as [|x l]; [simpl; lia|]. cbn [json_indent json_cost]. cbv zeta. rewrite !length_append.
    pose proof (parts_cost json_cost (json_indent (ind +:+ "  ")) ("," +:+ ind +:+ "  ") (x :: l)
      ltac:(rewrite length_append; simpl; lia) ltac:(eapply Forall_impl; [exact IH|]; auto)) as H.
    change (String.length "[") with 1%nat. change (String.length "]") with 1%nat. lia.
  - destruct items as [|x items]; [simpl; lia|]. cbn [json_indent json_cost]. cbv zeta.
    rewrite item_texts, !length_append, <- list_sum_sorted.
    pose proof (parts_cost (fun kv => json_cost kv.2) (item_text (ind +:+ "  ")) ("," +:+ ind +:+ "  ")
      (sort_items (x :: items)) ltac:(rewrite length_append; simpl; lia)) as H.
    change (String.length "{") with 1%nat. change (String.length "}") with 1%nat.
    enough (list_sum (map (fun kv => S (json_cost kv.2)) (sort_items (x :: items))) <=
      S (String.length (join ("," +:+ ind +:+ "  ") (map (item_text (ind +:+ "  ")) (sort_items (x :: items))))))%nat by lia.
    apply H. rewrite sort_items_self. eapply Forall_impl; [exact IH|]. intros y Hy. unfold item_text.
    rewrite !length_append. specialize (Hy (ind +:+ "  ")). simpl in *. lia.
Qed.

(** Text written by [json.dumps] with indentation and sorted keys is read back
    by [json.loads] as the same value, with the items of every object in key
    order. *)
Theorem json_loads_pretty j : json_ok j = true -> json_loads (json_pretty j) = Some (json_sorted j).
Proof.
  intros Hok. unfold json_loads, json_pretty.
  pose proof (skip_to_value "" lf j "" eq_refl) as [Hs _]. rewrite append_nil_r in Hs.
  change ("" +:+ json_indent lf j) with (json_indent lf j) in Hs. rewrite Hs.
  pose proof (reads_back_ok j Hok lf (S (String.length (json_indent lf j))) "" eq_refl) as H.
  rewrite append_nil_r in H. rewrite H; [done|pose proof (json_cost_le lf j); lia|done].
Qed.

Lemma json_loads_pretty_witness :
  json_loads (json_pretty (JObj [("b", JInt 1); ("a", JStr "x")])) = Some (JObj [("a", JStr "x"); ("b", JInt 1)]).
Proof. apply (json_loads_pretty (JObj [("b", JInt 1); ("a", JStr "x")])). vm_compute. reflexivity. Defined.
