(* ===== verification/IsoTime.v ===== *)
(** * ISO 8601 times

    [datetime.isoformat] and [datetime.fromisoformat] as the audit log and the
    backup commands use them, on instants in microseconds since the epoch,
    with the theorem that reading inverts writing.  The reader knows the
    extended format with seconds, which is what [isoformat] writes, with or
    without a fraction and an offset; the other ISO 8601 forms that Python
    accepts are outside the model. *)

From S2P Require Import Prelude PyStr.

(** ** Writing *)

Fixpoint zeros (k : nat) (s : string) : string :=
  match k with O => s | S k' => String "0" (zeros k' s) end.

(** [x] with at least [n] digits. *)
Definition pad (n : nat) (x : Z) : string := let s := dec x in zeros (n - String.length s) s.

(** Year, month and day of a day number counted from 1970-01-01. *)
Definition civil_from_days (z : Z) : Z * Z * Z :=
  let z := z + 719468 in
  let era := z / 146097 in
  let doe := z mod 146097 in
  let yoe := (doe - doe / 1460 + doe / 36524 - doe / 146096) / 365 in
  let doy := doe - (365 * yoe + yoe / 4 - yoe / 100) in
  let mp := (5 * doy + 2) / 153 in
  let day := doy - (153 * mp + 2) / 5 + 1 in
  let month := if mp <? 10 then mp + 3 else mp - 9 in
  let year := yoe + era * 400 + (if month <=? 2 then 1 else 0) in
  (year, month, day).

(** Date and time of day up to the second. *)
Definition iso_seconds (t : Z) : string :=
  let s := t / 1000000 in
  let '(y, m, d) := civil_from_days (s / 86400) in
  let sec := s mod 86400 in
  pad 4 y +:+ "-" +:+ pad 2 m +:+ "-" +:+ pad 2 d +:+ "T" +:+ pad 2 (sec / 3600) +:+ ":" +:+
  pad 2 (sec / 60 mod 60) +:+ ":" +:+ pad 2 (sec mod 60).

(** [isoformat(timespec="microseconds")] of an aware UTC time. *)
Definition isoformat_us (t : Z) : string :=
  iso_seconds t +:+ "." +:+ pad 6 (t mod 1000000) +:+ "+00:00".

(** [isoformat()]: the fraction is left out when it is zero. *)
Definition isoformat (t : Z) : string :=
  if t mod 1000000 =? 0 then iso_seconds t +:+ "+00:00" else isoformat_us t.

Example isoformat_example : isoformat_us 1709210096000456 = "2024-02-29T12:34:56.000456+00:00".
Proof. vm_compute. reflexivity. Qed.

(** ** Reading *)

Definition is_leap (y : Z) : bool := (y mod 4 =? 0) && (negb (y mod 100 =? 0) || (y mod 400 =? 0)).

Definition days_in_month (y m : Z) : Z :=
  if m =? 2 then (if is_leap y then 29 else 28)
  else if mem m [4; 6; 9; 11] then 30 else 31.

Definition days_from_civil (y m d : Z) : Z :=
  let y := y - (if m <=? 2 then 1 else 0) in
  let era := y / 400 in
  let yoe := y mod 400 in
  let mp := if 2 <? m then m - 3 else m + 9 in
  let doy := (153 * mp + 2) / 5 + d - 1 in
  era * 146097 + (365 * yoe + yoe / 4 - yoe / 100 + doy) - 719468.

(** Exactly [n] decimal digits. *)
Fixpoint read_digits (n : nat) (acc : Z) (s : string) : option (Z * string) :=
  match n, s with
  | O, _ => Some (acc, s)
  | S n', String c s' => if is_decimal c then read_digits n' (acc * 10 + (code c - 48)) s' else None
  | S _, "" => None
  end.

Definition read_char (c : ascii) (s : string) : option string :=
  match s with String d s' => if ceqb c d then Some s' else None | "" => None end.

(** A fraction: one or more digits, of which six count. *)
Definition read_fraction (s : string) : option (Z * string) :=
  match read_char "." s with
  | None => Some (0, s)
  | Some r =>
      let '(ds, rest) := span_digits r in
      match ds with
      | "" => None
      | _ => Some (val10 0 (String.substring 0 6 (ds +:+ "00000")), rest)
      end
  end.

(** The offset from UTC in seconds; [None] inside for a naive time. *)
Definition read_offset (s : string) : option (option Z) :=
  match s with
  | "" => Some None
  | String c r =>
      if (code c =? 90) && bool_decide (r = "") then Some (Some 0)
      else if (code c =? 43) || (code c =? 45) then
        match read_digits 2 0 r with
        | Some (hh, r1) =>
            match read_char ":" r1 with
            | Some r2 =>
                match read_digits 2 0 r2 with
                | Some (mm, "") => if (hh <? 24) && (mm <? 60)
                                   then Some (Some ((if code c =? 43 then 1 else -1) * (hh * 3600 + mm * 60))) else None
                | _ => None
                end
            | None => None
            end
        | None => None
        end
      else None
  end.

(** Two digits and a colon, below the bound. *)
Definition read_field (n : nat) (sep : ascii) (s : string) : option (Z * string) :=
  match read_digits n 0 s with
  | Some (x, r) => (fun r' => (x, r')) <$> read_char sep r
  | None => None
  end.

(** The instant of a date and time at an offset, if the fields are in range. *)
Definition instant (y m d hh mm ss us off : Z) : option Z :=
  if (1 <=? y) && (1 <=? m) && (m <=? 12) && (1 <=? d) && (d <=? days_in_month y m) &&
     (hh <? 24) && (mm <? 60) && (ss <? 60)
  then Some ((days_from_civil y m d * 86400 + hh * 3600 + mm * 60 + ss - off) * 1000000 + us)
  else None.

(** [datetime.fromisoformat(s)], and [replace(tzinfo=utc)] on a naive result:
    [None] is the [ValueError]. *)
Definition fromisoformat (s : string) : option Z :=
  match read_field 4 "-" s with
  | Some (y, s1) =>
      match read_field 2 "-" s1 with
      | Some (m, s2) =>
          match read_digits 2 0 s2 with
          | Some (d, String _ s3) =>
              match read_field 2 ":" s3 with
              | Some (hh, s4) =>
                  match read_field 2 ":" s4 with
                  | Some (mm, s5) =>
                      match read_digits 2 0 s5 with
                      | Some (ss, s6) =>
                          match read_fraction s6 with
                          | Some (us, s7) =>
                              match read_offset s7 with
                              | Some off => instant y m d hh mm ss us (default 0 off)
                              | None => None
                              end
                          | None => None
                          end
                      | None => None
                      end
                  | None => None
                  end
              | None => None
              end
          | _ => None
          end
      | None => None
      end
  | None => None
  end.

Example fromisoformat_examples :
  fromisoformat "2024-02-29T12:34:56.000456+00:00" = Some 1709210096000456 /\
  fromisoformat "2024-02-29 12:34:56" = Some 1709210096000000 /\
  fromisoformat "2024-02-29T14:34:56.5+02:00" = Some 1709210096500000 /\
  fromisoformat "2023-02-29T12:34:56" = None.
Proof. vm_compute. split_and!; reflexivity. Qed.

(** ** Lemmas: the calendar *)

(** Year and day of the year inside a cycle of 400 years. *)
Lemma cycle_day doe : 0 <= doe < 146097 ->
  let yoe := (doe - doe / 1460 + doe / 36524 - doe / 146096) / 365 in
  let doy := doe - (365 * yoe + yoe / 4 - yoe / 100) in
  0 <= yoe < 400 /\ 0 <= doy <= 365 /\
  (doy = 365 -> is_leap (yoe + 1) = true).
Proof.
  intros H yoe doy. assert (Hy : 0 <= yoe < 400) by (unfold yoe; Z.div_mod_to_equations; lia).
  split; [done|].
  assert (Hd : 0 <= doy <= 365) by (unfold doy, yoe in *; Z.div_mod_to_equations; lia).
  split; [done|]. intros Hl. unfold is_leap.
  assert ((yoe + 1) mod 4 = 0) by (unfold doy, yoe in *; Z.div_mod_to_equations; lia).
  assert ((yoe + 1) mod 100 = 0 -> yoe = 399) by (unfold doy, yoe in *; Z.div_mod_to_equations; lia).
  rewrite (proj2 (Z.eqb_eq _ 0)) by done. simpl. destruct (Z.eqb_spec ((yoe + 1) mod 100) 0); [|done].
  by replace (yoe + 1) with 400 by lia.
Qed.

(** Month and day from the day of a year that starts in March. *)
Lemma month_day doy : 0 <= doy <= 365 ->
  let mp := (5 * doy + 2) / 153 in
  let day := doy - (153 * mp + 2) / 5 + 1 in
  0 <= mp < 12 /\ 1 <= day <= 31 /\ (mp = 1 \/ mp = 3 \/ mp = 6 \/ mp = 8 -> day <= 30) /\
  (mp = 11 -> day <= 29 /\ (day = 29 -> doy = 365)).
Proof. intros H mp day. unfold day, mp. Z.div_mod_to_equations. lia. Qed.

Lemma is_leap_cycle y era : is_leap (y + era * 400) = is_leap y.
Proof.
  unfold is_leap. replace ((y + era * 400) mod 4) with (y mod 4) by (Z.div_mod_to_equations; lia).
  replace ((y + era * 400) mod 100) with (y mod 100) by (Z.div_mod_to_equations; lia).
  replace ((y + era * 400) mod 400) with (y mod 400) by (Z.div_mod_to_equations; lia). done.
Qed.

(** The calendar date of a day is valid, and is a date of that day. *)
Lemma civil_roundtrip z y m d : civil_from_days z = (y, m, d) ->
  days_from_civil y m d = z /\ 1 <= m <= 12 /\ 1 <= d <= days_in_month y m.
Proof.
  unfold civil_from_days. set (doe := (z + 719468) mod 146097). set (era := (z + 719468) / 146097).
  destruct (cycle_day doe) as (Hy & Hd & Hleap); [apply Z.mod_pos_bound; lia|].
  set (yoe := (doe - doe / 1460 + doe / 36524 - doe / 146096) / 365) in *.
  set (doy := doe - (365 * yoe + yoe / 4 - yoe / 100)) in *.
  destruct (month_day doy Hd) as (Hm & Hday & H30 & Hfeb). set (mp := (5 * doy + 2) / 153) in *.
  set (day := doy - (153 * mp + 2) / 5 + 1) in *. cbv zeta. intros [= <- Em <-].
  assert (Ez : z + 719468 = era * 146097 + doe) by (unfold era, doe; pose proof (Z.div_mod (z + 719468) 146097); lia).
  pose proof (eq_sym Em) as Hmm.
  assert (E2 : (m <=? 2) = negb (mp <? 10)) by (rewrite Hmm; destruct (Z.ltb_spec mp 10); simpl; [apply Z.leb_gt|apply Z.leb_le]; lia).
  assert (E3 : (2 <? m) = (mp <? 10)) by (rewrite Z.ltb_antisym, E2; by destruct (mp <? 10)).
  rewrite Em. split; [|split].
  - unfold days_from_civil. rewrite E3, E2.
    replace (yoe + era * 400 + (if negb (mp <? 10) then 1 else 0) - (if negb (mp <? 10) then 1 else 0))
      with (era * 400 + yoe) by lia.
    replace ((era * 400 + yoe) / 400) with era by (Z.div_mod_to_equations; lia).
    replace ((era * 400 + yoe) mod 400) with yoe by (Z.div_mod_to_equations; lia).
    replace (if mp <? 10 then m - 3 else m + 9) with mp by (rewrite Hmm; destruct (mp <? 10); lia).
    unfold day. unfold doy in *. lia.
  - rewrite Hmm. destruct (Z.ltb_spec mp 10); lia.
  - split; [lia|]. unfold days_in_month. rewrite E2. destruct (Z.eqb_spec m 2) as [Hm2|Hm2].
    + assert (mp = 11) by (rewrite Hmm in Hm2; destruct (Z.ltb_spec mp 10); lia).
      destruct Hfeb as [H29 H365]; [done|]. assert (Hneg : (mp <? 10) = false) by (apply Z.ltb_ge; lia).
      rewrite Hneg. simpl negb. cbv iota. replace (yoe + era * 400 + 1) with (yoe + 1 + era * 400) by lia.
      rewrite is_leap_cycle. destruct (is_leap (yoe + 1)) eqn:El; [lia|].
      assert (day <> 29); [|lia]. intros Hd29. specialize (Hleap (H365 Hd29)). congruence.
    + unfold mem. case_bool_decide as Hin; [|lia]. apply H30. rewrite Hmm in Hin.
      destruct (Z.ltb_spec mp 10); set_unfold in Hin; lia.
Qed.

(** ** Lemmas: fields *)

Lemma zeros_decimal k s : str_forall is_decimal s = true -> str_forall is_decimal (zeros k s) = true.
Proof. intros H. induction k; simpl; [done|]. by rewrite IHk. Qed.

Lemma zeros_value k s : val10 0 (zeros k s) = val10 0 s.
Proof. induction k; simpl; [done|]. change (code "0" - 48) with 0. done. Qed.

Lemma zeros_length k s : String.length (zeros k s) = (k + String.length s)%nat.
Proof. induction k; simpl; [done|]. by rewrite IHk. Qed.

Lemma pad_spec n x : (0 < n)%nat -> 0 <= x < 10 ^ Z.of_nat n ->
  str_forall is_decimal (pad n x) = true /\ String.length (pad n x) = n /\ val10 0 (pad n x) = x.
Proof.
  intros Hn Hx. unfold pad. split_and!.
  - apply zeros_decimal, dec_decimal. lia.
  - rewrite zeros_length. pose proof (dec_len x (Z.of_nat n) Hx ltac:(lia)) as Hl. unfold len in Hl. lia.
  - rewrite zeros_value. apply dec_value. lia.
Qed.

Lemma read_digits_app s acc rest : str_forall is_decimal s = true ->
  read_digits (String.length s) acc (s +:+ rest) = Some (val10 acc s, rest).
Proof.
  revert acc. induction s as [|c s IH]; intros acc; [done|]. rewrite append_cons. simpl.
  intros [-> H]%andb_true_iff. by apply IH.
Qed.

Lemma read_pad n x rest : (0 < n)%nat -> 0 <= x < 10 ^ Z.of_nat n ->
  read_digits n 0 (pad n x +:+ rest) = Some (x, rest).
Proof.
  intros Hn Hx. destruct (pad_spec n x Hn Hx) as (Hd & Hl & Hv).
  pose proof (read_digits_app (pad n x) 0 rest Hd) as H. by rewrite Hl, Hv in H.
Qed.

Lemma read_field_pad n x sep rest : (0 < n)%nat -> 0 <= x < 10 ^ Z.of_nat n ->
  read_field n sep (pad n x +:+ String sep "" +:+ rest) = Some (x, rest).
Proof.
  intros Hn Hx. unfold read_field. rewrite read_pad by done. change (String sep "" +:+ rest) with (String sep rest).
  simpl. by rewrite ceqb_refl.
Qed.

(** [datetime.min] to [datetime.max], in UTC. *)
Definition DAY_MIN : Z := -719162.
Definition DAY_MAX : Z := 2932896.
Definition representable (t : Z) : bool := (DAY_MIN <=? t / 86400000000) && (t / 86400000000 <=? DAY_MAX).

Lemma civil_year z y m d : DAY_MIN <= z <= DAY_MAX -> civil_from_days z = (y, m, d) -> 1 <= y <= 9999.
Proof.
  unfold DAY_MIN, DAY_MAX, civil_from_days. intros Hz.
  set (doe := (z + 719468) mod 146097). set (era := (z + 719468) / 146097).
  assert (Ez : z + 719468 = era * 146097 + doe /\ 0 <= doe < 146097).
  { unfold era, doe. pose proof (Z.div_mod (z + 719468) 146097). pose proof (Z.mod_pos_bound (z + 719468) 146097). lia. }
  clearbody doe era. destruct (cycle_day doe) as (Hy & Hd & _); [lia|].
  set (yoe := (doe - doe / 1460 + doe / 36524 - doe / 146096) / 365) in *. clearbody yoe.
  set (doy := doe - (365 * yoe + yoe / 4 - yoe / 100)) in *.
  destruct (month_day doy Hd) as (Hm & _). set (mp := (5 * doy + 2) / 153) in *. cbv zeta. intros [= <- _ _].
  assert (Hlo : yoe + era * 400 >= 0) by (unfold doy in *; Z.div_mod_to_equations; lia).
  assert (Hhi : yoe + era * 400 <= 9999) by (unfold doy in *; Z.div_mod_to_equations; lia).
  assert (Hmar : mp < 10 -> doy < 306) by (unfold mp; Z.div_mod_to_equations; lia).
  assert (Hjan : 10 <= mp -> 306 <= doy) by (unfold mp; Z.div_mod_to_equations; lia).
  clearbody mp. unfold doy in *. destruct (Z.ltb_spec mp 10).
  - destruct (Z.leb_spec (mp + 3) 2); [lia|]. Z.div_mod_to_equations; lia.
  - destruct (Z.leb_spec (mp - 9) 2); [|lia]. Z.div_mod_to_equations; lia.
Qed.

Lemma read_fraction_none s : read_fraction (String "+" s) = Some (0, String "+" s).
Proof. done. Qed.

Lemma substring_prefix s t : String.substring 0 (String.length s) (s +:+ t) = s.
Proof. induction s as [|c s IH]; [by destruct t|]. rewrite append_cons. simpl. by rewrite IH. Qed.

Lemma read_fraction_pad x s : 0 <= x < 1000000 ->
  read_fraction ("." +:+ pad 6 x +:+ String "+" s) = Some (x, String "+" s).
Proof.
  intros Hx. destruct (pad_spec 6 x ltac:(lia) Hx) as (Hd & Hl & Hv). unfold read_fraction.
  change (read_char "." ("." +:+ pad 6 x +:+ String "+" s)) with (Some (pad 6 x +:+ String "+" s)).
  cbv iota beta. rewrite span_digits_app by done.
  destruct (pad 6 x) as [|c p] eqn:E; [done|]. rewrite <- Hl, substring_prefix. by rewrite Hv.
Qed.

Lemma clock_fields sec : sec = sec / 3600 * 3600 + sec / 60 mod 60 * 60 + sec mod 60.
Proof.
  change 3600 with (60 * 60) at 1. rewrite <- (Z.div_div sec 60 60) by lia. pose proof (Z.div_mod sec 60 ltac:(lia)).
  pose proof (Z.div_mod (sec / 60) 60 ltac:(lia)). lia.
Qed.

(** Reading a date and time with a fraction [f] gives the instant. *)
Lemma read_iso t f s us : representable t = true ->
  read_fraction f = Some (us, "+00:00") -> us = t mod 1000000 -> s = iso_seconds t +:+ f ->
  fromisoformat s = Some t.
Proof.
  intros Hr Hf Hus ->. unfold iso_seconds. destruct (civil_from_days (t / 1000000 / 86400)) as [[y m] d] eqn:Ec.
  assert (Hz : DAY_MIN <= t / 1000000 / 86400 <= DAY_MAX).
  { unfold representable in Hr. rewrite Z.div_div by lia. change (1000000 * 86400) with 86400000000. blia. }
  pose proof (civil_year _ _ _ _ Hz Ec) as Hy. destruct (civil_roundtrip _ _ _ _ Ec) as (Hdays & Hm & Hd).
  set (sec := (t / 1000000) mod 86400) in *. assert (Hsec : 0 <= sec < 86400) by (apply Z.mod_pos_bound; lia).
  assert (Hd31 : d <= 31) by (unfold days_in_month in Hd; repeat case_match; lia).
  assert (H1 : 0 <= sec / 3600 < 24) by (Z.div_mod_to_equations; lia).
  assert (H2 : 0 <= sec / 60 mod 60 < 60) by (Z.div_mod_to_equations; lia).
  assert (H3 : 0 <= sec mod 60 < 60) by (Z.div_mod_to_equations; lia).
  rewrite !append_assoc. unfold fromisoformat.
  rewrite (read_field_pad 4 y "-") by (simpl; lia). rewrite (read_field_pad 2 m "-") by (simpl; lia).
  rewrite read_pad by (simpl; lia). cbv beta iota. change ("T" +:+ ?x) with (String "T" x). cbv beta iota.
  rewrite (read_field_pad 2 _ ":") by (simpl; lia). rewrite (read_field_pad 2 _ ":") by (simpl; lia).
  rewrite read_pad by (simpl; lia). rewrite Hf. change (read_offset "+00:00") with (Some (Some 0)). cbn [default].
  unfold instant. replace (_ && _) with true by (symmetry; repeat (apply andb_true_iff; split); blia).
  f_equal. rewrite Hdays, Hus. pose proof (Z.div_mod t 1000000 ltac:(lia)).
  pose proof (Z.div_mod (t / 1000000) 86400 ltac:(lia)) as Ht. fold sec in Ht. pose proof (clock_fields sec). unfold id. lia.
Qed.

(** Every instant that [isoformat] can write is read back by
    [fromisoformat], with and without a fraction of a second. *)
Theorem isoformat_roundtrip t : representable t = true ->
  fromisoformat (isoformat t) = Some t /\ fromisoformat (isoformat_us t) = Some t.
Proof.
  intros Hr. assert (Hus : 0 <= t mod 1000000 < 1000000) by (apply Z.mod_pos_bound; lia).
  assert (H : fromisoformat (isoformat_us t) = Some t).
  { eapply read_iso; [done|apply (read_fraction_pad _ "00:00" Hus)|done|done]. }
  split; [|done]. unfold isoformat. destruct (Z.eqb_spec (t mod 1000000) 0) as [E|]; [|done].
  eapply (read_iso t "+00:00"); [done|apply read_fraction_none|done|done].
Qed.

Lemma isoformat_roundtrip_witness : fromisoformat (isoformat 1709210096000000) = Some 1709210096000000.
Proof. apply (isoformat_roundtrip 1709210096000000). vm_compute. reflexivity. Defined.
