(* ===== verification/AuditLog.v ===== *)
(** * The audit log

    [src/src/wg_manager/audit.py]: the one-line JSON records on the audit
    logger, the canonical hashes of row contents and the persisted
    [AuditEvent] rows.  [model_dump] belongs to pydantic and is a parameter
    ([Dumps]). *)

From S2P Require Import Prelude PyStr Hashing IsoTime Models Session.

(** ** Emission *)

Definition jopt (o : option string) : json := from_option JStr JNull o.
Definition jopt_int (o : option Z) : json := from_option JInt JNull o.

(** The line [emit] writes at time [now]. *)
Definition emit_line (now : Z) (event : string) (fields : list (string * json)) : string :=
  json_dumps false (JObj (("ts", JStr (isoformat_us now)) :: ("event", JStr event) :: fields)).

Definition emit (now : Z) (event : string) (fields : list (string * json)) : M unit :=
  log (emit_line now event fields).

(** ** Canonical hashes *)

Definition canonical_json_hash (obj : option json) : option string :=
  (fun j => sha256_hex (json_dumps true j)) <$> obj.

(** ** Actors *)

(** What the middleware stashes on the request: the operator and the serial of
    the client certificate. *)
Record actor := mkActor { actor_operator : option (Z * Operator); actor_subject_serial : option Z }.

Record actor_fields := mkActorFields {
  actor_cn : option string; actor_serial : option string; actor_role : option string
}.

Definition actor_from_request (a : actor) : actor_fields :=
  mkActorFields ((fun o => op_cn o.2) <$> actor_operator a) (dec <$> actor_subject_serial a)
    ((fun o => OperatorRole_value (op_role o.2)) <$> actor_operator a).

Definition no_actor : actor_fields := mkActorFields None None None.

(** ** Persistence *)

Record audit_args := mkAuditArgs {
  aa_event : string; aa_actor : actor_fields; aa_resource_type : string;
  aa_resource_id : option Z; aa_action : string; aa_before : option json;
  aa_after : option json; aa_payload : option json; aa_request_id : option string;
  aa_tenant_id : option Z
}.

Definition audit_row (now : Z) (a : audit_args) : AuditEvent :=
  mkAuditEvent (aa_tenant_id a) now (aa_event a) (actor_cn (aa_actor a)) (actor_serial (aa_actor a))
    (actor_role (aa_actor a)) (aa_resource_type a) (aa_resource_id a) (aa_action a)
    (canonical_json_hash (aa_before a)) (canonical_json_hash (aa_after a))
    (json_dumps false <$> aa_payload a) (aa_request_id a).

Definition audit_line (now : Z) (a : audit_args) : string :=
  emit_line now (aa_event a)
    [("actor_cn", jopt (actor_cn (aa_actor a))); ("actor_serial", jopt (actor_serial (aa_actor a)));
     ("actor_role", jopt (actor_role (aa_actor a))); ("resource_type", JStr (aa_resource_type a));
     ("resource_id", jopt_int (aa_resource_id a)); ("action", JStr (aa_action a));
     ("before_hash", jopt (canonical_json_hash (aa_before a)));
     ("after_hash", jopt (canonical_json_hash (aa_after a)));
     ("request_id", jopt (aa_request_id a)); ("tenant_id", jopt_int (aa_tenant_id a))].

Definition persist (now : Z) (a : audit_args) : M unit :=
  modify_db (on_audit_events (tbl_insert (audit_row now a))) ;;
  log (audit_line now a).

(** [row.model_dump(mode="json")] for each audited row type. *)
Class Dumps := {
  dump_tenant : Z -> Tenant -> json; dump_sshkey : Z -> SSHKey -> json;
  dump_server : Z -> Server -> json; dump_client : Z -> Client -> json;
  dump_token : Z -> EnrollmentToken -> json; dump_certificate : Z -> Certificate -> json
}.

(** Rows dumped to their id only. *)
Definition id_dumps : Dumps := {|
  dump_tenant i _ := JObj [("id", JInt i)]; dump_sshkey i _ := JObj [("id", JInt i)];
  dump_server i _ := JObj [("id", JInt i)]; dump_client i _ := JObj [("id", JInt i)];
  dump_token i _ := JObj [("id", JInt i)]; dump_certificate i _ := JObj [("id", JInt i)]
|}.

(** ** Theorems: canonical hashing *)

Lemma str_leb_total s t : str_leb s t = true \/ str_leb t s = true.
Proof.
  revert t. induction s as [|c s IH]; intros [|d t]; simpl; eauto.
  destruct (Z.ltb_spec (code c) (code d)); [eauto|].
  destruct (Z.ltb_spec (code d) (code c)); eauto.
Qed.

Lemma str_leb_antisym s t : str_leb s t = true -> str_leb t s = true -> s = t.
Proof.
  revert t. induction s as [|c s IH]; intros [|d t]; simpl; try done.
  destruct (Z.ltb_spec (code c) (code d)), (Z.ltb_spec (code d) (code c)); try done; try lia.
  intros. f_equal; [apply code_inj; lia|by apply IH].
Qed.

Lemma str_leb_trans s t u : str_leb s t = true -> str_leb t u = true -> str_leb s u = true.
Proof.
  revert t u. induction s as [|c s IH]; intros [|d t] [|e u]; simpl; try done.
  destruct (Z.ltb_spec (code c) (code d)), (Z.ltb_spec (code d) (code c)); try done; try lia;
  destruct (Z.ltb_spec (code d) (code e)), (Z.ltb_spec (code e) (code d)); try done; try lia;
  destruct (Z.ltb_spec (code c) (code e)), (Z.ltb_spec (code e) (code c)); try done; try lia.
  apply IH.
Qed.

Lemma insert_item_comm {A} (x y : string * A) l :
  x.1 <> y.1 -> insert_item x (insert_item y l) = insert_item y (insert_item x l).
Proof.
  intros Hne.
  assert (Hxy : str_leb x.1 y.1 = true -> str_leb y.1 x.1 = true -> False).
  { intros. by apply Hne, str_leb_antisym. }
  induction l as [|z l IH]; simpl.
  - destruct (str_leb_total x.1 y.1) as [E|E]; rewrite E;
      [destruct (str_leb y.1 x.1) eqn:E'|destruct (str_leb x.1 y.1) eqn:E']; tauto || done.
  - destruct (str_leb y.1 z.1) eqn:Eyz, (str_leb x.1 z.1) eqn:Exz; simpl; rewrite ?Eyz, ?Exz.
    + destruct (str_leb_total x.1 y.1) as [E|E]; rewrite E;
        [destruct (str_leb y.1 x.1) eqn:E'|destruct (str_leb x.1 y.1) eqn:E']; tauto || done.
    + destruct (str_leb x.1 y.1) eqn:E; [|done].
      by rewrite (str_leb_trans _ _ _ E Eyz) in Exz.
    + destruct (str_leb y.1 x.1) eqn:E; [|done].
      by rewrite (str_leb_trans _ _ _ E Exz) in Eyz.
    + by rewrite IH.
Qed.

(** Sorting by key forgets the order of a dict's items. *)
Lemma sort_items_perm {A} (l l' : list (string * A)) :
  l ≡ₚ l' -> NoDup (map fst l) -> sort_items l = sort_items l'.
Proof.
  induction 1 as [|x l l' Hp IH|x y l|l1 l2 l3 H1 IH1 H2 IH2]; intros Hnd; simpl in *.
  - done.
  - apply NoDup_cons in Hnd as [_ Hnd]. by rewrite IH.
  - apply NoDup_cons in Hnd as [Hx _]. apply insert_item_comm. set_solver.
  - rewrite IH1 by done. apply IH2. by rewrite <- H1.
Qed.

(** Audit hashes do not depend on the order in which a dict was built: two
    dicts with the same items (keys are unique) have the same canonical
    hash. *)
Theorem canonical_hash_order_insensitive items items' :
  items ≡ₚ items' -> NoDup (map fst items) ->
  canonical_json_hash (Some (JObj items)) = canonical_json_hash (Some (JObj items')).
Proof.
  intros Hp Hnd. unfold canonical_json_hash. cbn [fmap option_fmap option_map json_dumps].
  do 2 f_equal. do 4 f_equal. apply sort_items_perm; [by rewrite Hp|].
  by rewrite map_map.
Qed.

Lemma canonical_hash_order_insensitive_witness :
  canonical_json_hash (Some (JObj [("id", JInt 1); ("name", JStr "a")])) =
  canonical_json_hash (Some (JObj [("name", JStr "a"); ("id", JInt 1)])).
Proof.
  apply (canonical_hash_order_insensitive [("id", JInt 1); ("name", JStr "a")]).
  - apply Permutation_swap.
  - repeat constructor; set_solver.
Defined.
