(* ===== verification/Enrollment.v ===== *)
(** * Enrollment tokens

    [src/src/wg_manager/enrollment.py].  Times are microseconds since the
    epoch; [now] and the random bytes of a new token are arguments.  An
    expression that raises [ValueError] is [None]. *)

From S2P Require Import Prelude PyStr IpAddr Hashing Models Session Demo.

Definition TOKEN_PREFIX : string := "wgmenr_".

(** [rnd] is what [secrets.token_urlsafe(32)] draws. *)
Definition generate_token (rnd : bytes) : string := TOKEN_PREFIX +:+ base64url rnd.

Definition hash_token (token : string) : string := sha256_hex token.

(** The unique index on [token_hash]. *)
Definition hash_free (h : string) (d : DB) : bool :=
  bool_decide (tbl_select (fun _ r => bool_decide (tok_token_hash r = h)) (tokens d) = []).

Definition new_token_row (now : Z) (token : string) (server : Server) (server_id ssh_key_id : Z)
  (ssh_username name_prefix : string) (ttl_seconds max_uses : Z) (created_by_cn : option string)
  (allowed_cidrs : option (list string)) : EnrollmentToken :=
  mkEnrollmentToken (srv_tenant_id server) server_id ssh_key_id ssh_username name_prefix
    (hash_token token) max_uses 0 (now + ttl_seconds * 1000000) created_by_cn now None None
    (match allowed_cidrs with Some (c :: cs) => Some (join "," (c :: cs)) | _ => None end).

(** The id of the new row and the plaintext. *)
Definition mint_token (now : Z) (rnd : bytes) (server : Server) (server_id ssh_key_id : Z)
  (ssh_username name_prefix : string) (ttl_seconds max_uses : Z) (created_by_cn : option string)
  (allowed_cidrs : option (list string)) : M (Z * string) :=
  let token := generate_token rnd in
  let row := new_token_row now token server server_id ssh_key_id ssh_username name_prefix
               ttl_seconds max_uses created_by_cn allowed_cidrs in
  d <- get_db ;;
  flush_checked (hash_free (hash_token token)) (on_tokens (tbl_insert row)) ;;
  ret (next_id (tokens d), token).

Definition find_token (d : DB) (token : string) : option (Z * EnrollmentToken) :=
  head (tbl_select (fun _ r => bool_decide (tok_token_hash r = hash_token token)) (tokens d)).

Definition is_expired (now : Z) (row : EnrollmentToken) : bool := tok_expires_at row <=? now.

Definition token_status (now : Z) (row : EnrollmentToken) : EnrollmentTokenStatus :=
  match tok_revoked_at row with
  | Some _ => ts_revoked
  | None =>
      if is_expired now row then ts_expired
      else if tok_max_uses row <=? tok_use_count row then ts_exhausted
      else ts_active
  end.

(** The SQL condition, on a row. *)
Definition active_filter (now : Z) (row : EnrollmentToken) : bool :=
  bool_decide (tok_revoked_at row = None) && (now <? tok_expires_at row) &&
  (tok_use_count row <? tok_max_uses row).

Definition revoke_token (now : Z) (id : Z) (row : EnrollmentToken) (revoked_by_cn : option string)
  : M bool :=
  match tok_revoked_at row with
  | Some _ => ret false
  | None =>
      modify_db (on_tokens (tbl_set id (set_tok_revoked (Some now) revoked_by_cn row))) ;;
      ret true
  end.

(** The guarded [UPDATE] on one row: the new row, or no match. *)
Definition consume_row (row : EnrollmentToken) : option EnrollmentToken :=
  if (tok_use_count row <? tok_max_uses row) && bool_decide (tok_revoked_at row = None)
  then Some (set_tok_use_count (tok_use_count row + 1) row) else None.

Definition consume_token (id : Z) : M bool :=
  d <- get_db ;;
  match rows (tokens d) !! id ≫= consume_row with
  | Some row' => modify_db (on_tokens (tbl_set id row')) ;; ret true
  | None => ret false
  end.

(** [dead]: a NULL [revoked_at] does not compare. *)
Definition dead (cutoff : Z) (row : EnrollmentToken) : bool :=
  (tok_expires_at row <? cutoff) ||
  match tok_revoked_at row with Some t => t <? cutoff | None => false end.

Definition tbl_delete_all {A} (ids : list Z) (t : table A) : table A :=
  foldr tbl_delete t ids.

Definition delete_dead_tokens (retention_seconds now : Z) : M (list Z) :=
  d <- get_db ;;
  let cutoff := now - retention_seconds * 1000000 in
  let ids := sort_z (fst <$> tbl_select (fun _ r => dead cutoff r) (tokens d)) in
  modify_db (on_tokens (tbl_delete_all ids)) ;;
  ret ids.

Fixpoint normalize_go (out values : list string) : option (list string) :=
  match values with
  | [] => Some out
  | v :: vs =>
      n ← ip_network true (strip v);
      let text := net_str n in
      normalize_go (if mem text out then out else out ++ [text]) vs
  end.
Definition normalize_cidrs (values : list string) : option (list string) := normalize_go [] values.

(** [Some None]: the token is not bound. *)
Definition allowed_networks (row : EnrollmentToken) : option (option (list net)) :=
  match tok_allowed_cidrs row with
  | None => Some None
  | Some s =>
      if negb (nonempty s) then Some None
      else Some <$> mapM (ip_network true) (split_on "," s)
  end.

Definition source_allowed (row : EnrollmentToken) (host : option string) : option bool :=
  networks ← allowed_networks row;
  match networks with
  | None => Some true
  | Some nets =>
      match ip_address (default "" host) with
      | None => Some false
      | Some addr =>
          let addr := match addr with
                      | V6 n _ => match ipv4_mapped n with Some m => V4 m | None => addr end
                      | V4 _ => addr
                      end in
          Some (existsb (fun n => net_contains n addr) nets)
      end
  end.

(** ** Concurrent redemptions of one token *)

(** A redemption is a transaction: the guarded [UPDATE], then a commit or a
    rollback.  The [UPDATE] locks the row until its transaction ends, so the
    [UPDATE]s (and a revoke) of other transactions wait for it: [writer] is
    the transaction that holds the row, with its uncommitted version. *)
Record token_race := mkRace {
  stored : EnrollmentToken; writer : option (Z * EnrollmentToken); redeemed : list Z
}.

Inductive race_step : token_race -> token_race -> Prop :=
| RaceConsume txn r row' :
    writer r = None -> consume_row (stored r) = Some row' ->
    race_step r (mkRace (stored r) (Some (txn, row')) (redeemed r))
| RaceReject r :
    writer r = None -> consume_row (stored r) = None -> race_step r r
| RaceCommit txn row' r :
    writer r = Some (txn, row') -> race_step r (mkRace row' None (txn :: redeemed r))
| RaceRollback txn row' r :
    writer r = Some (txn, row') -> race_step r (mkRace (stored r) None (redeemed r))
| RaceRevoke now by_cn r :
    writer r = None -> tok_revoked_at (stored r) = None ->
    race_step r (mkRace (set_tok_revoked (Some now) by_cn (stored r)) None (redeemed r)).

Inductive race_reachable (row0 : EnrollmentToken) : token_race -> Prop :=
| RaceInit : race_reachable row0 (mkRace row0 None [])
| RaceNext r r' : race_reachable row0 r -> race_step r r' -> race_reachable row0 r'.

(** ** Lemmas *)

Lemma hash_free_spec h d : hash_free h d = true <->
  forall i r, rows (tokens d) !! i = Some r -> tok_token_hash r <> h.
Proof.
  unfold hash_free. rewrite bool_decide_eq_true, tbl_select_nil.
  setoid_rewrite bool_decide_eq_false. done.
Qed.

Lemma find_token_Some d token i r :
  find_token d token = Some (i, r) -> rows (tokens d) !! i = Some r /\ tok_token_hash r = hash_token token.
Proof.
  unfold find_token. intros H. assert (Hin : (i, r) ∈ tbl_select
    (fun _ r => bool_decide (tok_token_hash r = hash_token token)) (tokens d)).
  { destruct (tbl_select _ _); simpl in H; [done|]. simplify_eq. by left. }
  apply tbl_select_spec in Hin as [? ?]. by bool_to_prop.
Qed.

Lemma find_token_unique d token i r :
  rows (tokens d) !! i = Some r -> tok_token_hash r = hash_token token ->
  (forall j r', rows (tokens d) !! j = Some r' -> tok_token_hash r' = hash_token token -> j = i) ->
  find_token d token = Some (i, r).
Proof.
  intros Hi Hh Hu. destruct (find_token d token) as [[j r']|] eqn:E.
  - apply find_token_Some in E as [Hj Hh']. pose proof (Hu j r' Hj Hh') as ->.
    rewrite Hi in Hj. by injection Hj as ->.
  - exfalso. unfold find_token in E. destruct (tbl_select _ _) as [|? ?] eqn:Es; [|done].
    rewrite tbl_select_nil in Es. specialize (Es i r Hi). bool_to_prop. done.
Qed.

Lemma consume_row_Some row row' : consume_row row = Some row' <->
  tok_use_count row < tok_max_uses row /\ tok_revoked_at row = None /\
  row' = set_tok_use_count (tok_use_count row + 1) row.
Proof.
  unfold consume_row. destruct (Z.ltb_spec (tok_use_count row) (tok_max_uses row)); simpl.
  - case_bool_decide; split; try done; [by intros [= <-]|by intros (_ & _ & ->)|by intros (_ & ? & _)].
  - split; [done|lia].
Qed.

Lemma tbl_delete_all_lookup {A} ids (t : table A) i :
  rows (tbl_delete_all ids t) !! i = if bool_decide (i ∈ ids) then None else rows t !! i.
Proof.
  unfold tbl_delete_all. induction ids as [|j ids IH]; simpl; [done|].
  destruct (decide (j = i)) as [->|E].
  - rewrite lookup_delete_eq. by rewrite bool_decide_eq_true_2 by (by left).
  - rewrite lookup_delete_ne, IH by done. destruct (decide (i ∈ ids));
      [rewrite !bool_decide_eq_true_2 by set_solver|rewrite !bool_decide_eq_false_2 by set_solver]; done.
Qed.

(** ** Theorems *)

(** The SQL filter of the list endpoint agrees with the derived status: at
    any time it selects exactly the tokens whose status is [active]. *)
Theorem active_filter_is_status_active now row :
  active_filter now row = true <-> token_status now row = ts_active.
Proof.
  unfold active_filter, token_status, is_expired.
  destruct (tok_revoked_at row) as [t|]; [by simpl|]. rewrite bool_decide_eq_true_2 by done. simpl.
  destruct (Z.ltb_spec now (tok_expires_at row)), (Z.leb_spec (tok_expires_at row) now); try lia; [|done].
  destruct (Z.ltb_spec (tok_use_count row) (tok_max_uses row)),
    (Z.leb_spec (tok_max_uses row) (tok_use_count row)); simpl; done || lia.
Qed.

(** Minting then looking up: a token minted into a database stores only the
    hash, bound to the hub's tenant with no use taken and the requested
    lifetime, and looking up the plaintext finds exactly that row. *)
Theorem mint_then_find now rnd server sid kid user prefix ttl uses cn cidrs w id token w' :
  wf_table (tokens (view w)) ->
  mint_token now rnd server sid kid user prefix ttl uses cn cidrs w = (Ok (id, token), w') ->
  exists row, find_token (view w') token = Some (id, row) /\
    tok_token_hash row = hash_token token /\ tok_tenant_id row = srv_tenant_id server /\
    tok_server_id row = sid /\ tok_use_count row = 0 /\ tok_revoked_at row = None /\
    (forall t, is_expired t row = true <-> now + ttl * 1000000 <= t).
Proof.
  intros Hwf H. unfold mint_token in H. step_ok H. prim_ok.
  unfold flush_checked in *. destruct (hash_free _ _) eqn:Ef; [|done].
  unfold modify_db in *. simplify_eq. simpl. rewrite hash_free_spec in Ef.
  eexists. split.
  - apply find_token_unique; simpl.
    + by rewrite lookup_insert_eq.
    + done.
    + intros j r'. rewrite lookup_insert. case_decide as E; [done|].
      intros Hj Hh. by apply Ef in Hj.
  - split_and!; try done. intros t. unfold is_expired. simpl. apply Z.leb_le.
Qed.

(** C4. No over-redemption: in every interleaving of concurrent redemptions,
    rollbacks and a revoke, the stored use count never exceeds the maximum and
    is exactly the initial count plus the number of redemptions that
    committed; so at most [max_uses] hosts enroll with the token. *)
Theorem token_never_over_redeemed row0 r :
  tok_use_count row0 <= tok_max_uses row0 -> race_reachable row0 r ->
  tok_max_uses (stored r) = tok_max_uses row0 /\
  tok_use_count (stored r) = tok_use_count row0 + Z.of_nat (length (redeemed r)) /\
  Z.of_nat (length (redeemed r)) <= tok_max_uses row0 - tok_use_count row0.
Proof.
  intros H0 Hr.
  assert (Hinv : tok_max_uses (stored r) = tok_max_uses row0 /\
    tok_use_count (stored r) = tok_use_count row0 + Z.of_nat (length (redeemed r)) /\
    tok_use_count (stored r) <= tok_max_uses row0 /\
    match writer r with
    | Some (_, row') => tok_use_count row' = tok_use_count (stored r) + 1 /\
        tok_max_uses row' = tok_max_uses row0 /\ tok_use_count row' <= tok_max_uses row0
    | None => True
    end).
  { induction Hr as [|r r' Hr IH Hs]; [simpl; lia|]. destruct IH as (Hm & Hc & Hle & Hw).
    destruct Hs as [txn r row' Hn Hrow|r Hn Hrow|txn row' r Hw'|txn row' r Hw'|now cn r Hn Hrev]; simpl.
    - apply consume_row_Some in Hrow as (? & ? & ->). simpl. lia.
    - by rewrite Hn.
    - rewrite Hw' in Hw. simpl. lia.
    - lia.
    - lia. }
  lia.
Qed.

(** A revoke that has committed wins over every later redemption: once the
    stored row is revoked, no further redemption ever takes a use. *)
Theorem revoked_token_stays_dead row0 r r' :
  race_reachable row0 r -> tok_revoked_at (stored r) <> None -> writer r = None ->
  rtc race_step r r' -> redeemed r' = redeemed r.
Proof.
  intros _ Hrev Hw Hs.
  induction Hs as [r|r r1 r' Hstep Hs IH]; [done|].
  assert (Hone : redeemed r1 = redeemed r /\ tok_revoked_at (stored r1) <> None /\ writer r1 = None).
  { destruct Hstep as [txn r row' Hn Hrow|r Hn Hrow|txn row' r Hw'|txn row' r Hw'|now cn r Hn Hr];
      simpl; try congruence; [|done].
    apply consume_row_Some in Hrow as (_ & ? & _). done. }
  destruct Hone as (E & ? & ?). rewrite IH; done.
Qed.

(** The sweep removes exactly the dead: with a non-negative retention, a
    row is deleted if and only if it expired or was revoked more than the
    retention ago; in particular a token that could still be redeemed, or
    that is exhausted but not expired, always survives.  The ids it reports
    are those of the deleted rows. *)
Theorem sweep_deletes_exactly_dead retention now w ids w' i row :
  0 <= retention ->
  delete_dead_tokens retention now w = (Ok ids, w') ->
  rows (tokens (view w)) !! i = Some row ->
  (rows (tokens (view w')) !! i = None <-> dead (now - retention * 1000000) row = true) /\
  (i ∈ ids <-> rows (tokens (view w')) !! i = None) /\
  (token_status now row = ts_active \/ token_status now row = ts_exhausted ->
   rows (tokens (view w')) !! i = Some row).
Proof.
  intros Hret H Hi. unfold delete_dead_tokens in H. step_ok H. prim_ok. simpl.
  match type of Hi with rows (tokens (view ?u)) !! _ = _ => rename u into w0 end.
  rewrite tbl_delete_all_lookup.
  match goal with |- context [bool_decide (i ∈ sort_z ?l)] => set (ids := sort_z l) end.
  assert (Hin : i ∈ ids <-> dead (now - retention * 1000000) row = true).
  { unfold ids. rewrite sort_z_elem, list_elem_of_fmap. split.
    - intros ([j r] & -> & [Hj Hd]%tbl_select_spec). simpl in *. congruence.
    - intros Hd. exists (i, row). split; [done|]. by apply tbl_select_spec. }
  assert (Hlk : (if bool_decide (i ∈ ids) then None else rows (tokens (view w0)) !! i) = None <-> i ∈ ids).
  { case_bool_decide; [done|]. rewrite Hi. done. }
  rewrite Hlk, <- Hin. split_and!; [done|done|].
  intros Hst. rewrite bool_decide_eq_false_2; [done|]. rewrite Hin.
  unfold token_status, is_expired, dead in *. destruct (tok_revoked_at row); [by destruct Hst|].
  destruct (Z.leb_spec (tok_expires_at row) now); [by destruct Hst|].
  rewrite orb_false_r. intros. bool_to_prop. lia.
Qed.

(** ** Witnesses *)

Definition demo_token_row : EnrollmentToken :=
  mkEnrollmentToken (Some 1) 1 1 "ubuntu" "web" "h" 2 0 5000000 None 0 None None None.
Definition demo_rnd : bytes := replicate 32 Byte.x07.

Lemma mint_then_find_witness :
  exists id token w' row, find_token (view w') token = Some (id, row) /\
    tok_token_hash row = hash_token token /\ tok_tenant_id row = srv_tenant_id demo_server /\
    tok_server_id row = 1 /\ tok_use_count row = 0 /\ tok_revoked_at row = None /\
    (forall t, is_expired t row = true <-> 100 + 60 * 1000000 <= t).
Proof.
  destruct (mint_token 100 demo_rnd demo_server 1 1 "ubuntu" "web" 60 3 None None (start demo_db))
    as [[[id token]|e] w'] eqn:E; [|vm_compute in E; discriminate].
  exists id, token, w'.
  apply (mint_then_find _ _ _ _ _ _ _ _ _ _ _ (start demo_db) _ _ _ wf_table_empty E).
Defined.

Lemma token_never_over_redeemed_witness :
  let r := mkRace (set_tok_use_count 1 demo_token_row) None [7] in
  race_reachable demo_token_row r /\
  (tok_max_uses (stored r) = tok_max_uses demo_token_row /\
   tok_use_count (stored r) = tok_use_count demo_token_row + Z.of_nat (length (redeemed r)) /\
   Z.of_nat (length (redeemed r)) <= tok_max_uses demo_token_row - tok_use_count demo_token_row).
Proof.
  intros r.
  assert (Hr : race_reachable demo_token_row r).
  { eapply RaceNext; [eapply RaceNext; [apply RaceInit|]|].
    - apply (RaceConsume 7); reflexivity.
    - apply (RaceCommit 7). reflexivity. }
  split; [exact Hr|]. apply (token_never_over_redeemed demo_token_row r); [simpl; lia|exact Hr].
Defined.

Lemma revoked_token_stays_dead_witness :
  let r := mkRace (set_tok_revoked (Some 3) None demo_token_row) None [] in
  redeemed r = redeemed r.
Proof.
  intros r. apply (revoked_token_stays_dead demo_token_row r r).
  - eapply RaceNext; [apply RaceInit|]. apply (RaceRevoke 3 None); reflexivity.
  - done.
  - done.
  - apply rtc_once. apply RaceReject; reflexivity.
Defined.

Lemma sweep_deletes_exactly_dead_witness :
  let d := on_tokens (fun _ => mkTable {[1 := demo_token_row]} 2) demo_db in
  exists w', delete_dead_tokens 1 7000001 (start d) = (Ok [1], w') /\
  ((rows (tokens (view w')) !! 1 = None <-> dead (7000001 - 1 * 1000000) demo_token_row = true) /\
   (1 ∈ [1] <-> rows (tokens (view w')) !! 1 = None) /\
   (token_status 7000001 demo_token_row = ts_active \/ token_status 7000001 demo_token_row = ts_exhausted ->
    rows (tokens (view w')) !! 1 = Some demo_token_row)).
Proof.
  intros d. destruct (delete_dead_tokens 1 7000001 (start d)) as [o w'] eqn:E.
  assert (Ho : o = Ok [1]) by (vm_compute in E; congruence). subst o.
  exists w'. split; [done|].
  apply (sweep_deletes_exactly_dead 1 7000001 (start d) [1] w' 1 demo_token_row);
    [lia|exact E|reflexivity].
Defined.
