(* ===== verification/Wireguard.v ===== *)
(** * WireGuard configuration and provisioning

    [src/src/wg_manager/wireguard.py]: the configuration templates, the
    command sequences run on a node and the parser of [wg show dump].

    A node is reached through [SSHRunner]; what it answers is outside the
    repository, so the runner is a parameter: [exec] takes a command and the
    node's state to the command's standard output (or an exception) and the
    new state.  The key generator of the [cryptography] package is not
    modelled; key pairs are arguments. *)

From S2P Require Import Prelude PyStr Models Session Demo.

(** ** Text *)

Definition nl : string := String (chr 10) "".
Definition tab : string := String (chr 9) "".
Definition dq : string := String (chr 34) "".

(** Lines, each ended by a newline. *)
Fixpoint unlines (l : list string) : string :=
  match l with
  | [] => ""
  | x :: l' => x +:+ nl +:+ unlines l'
  end.

(** ** Configuration files *)

Definition server_interface_template (address : string) (listen_port : Z) (interface subnet : string)
  : string := unlines
  ["[Interface]";
   "Address = " +:+ address;
   "ListenPort = " +:+ dec listen_port;
   "PrivateKey = $(cat /etc/wireguard/privatekey)";
   "PostUp = iptables -A FORWARD -i " +:+ interface +:+ " -j ACCEPT; iptables -A FORWARD -o " +:+
     interface +:+ " -j ACCEPT; iptables -t nat -A POSTROUTING -s " +:+ subnet +:+
     " -o eth0 -j MASQUERADE";
   "PostDown = iptables -D FORWARD -i " +:+ interface +:+ " -j ACCEPT; iptables -D FORWARD -o " +:+
     interface +:+ " -j ACCEPT; iptables -t nat -D POSTROUTING -s " +:+ subnet +:+
     " -o eth0 -j MASQUERADE"].

Definition server_peer_template (name public_key allowed_ips : string) : string := unlines
  ["";
   "[Peer]";
   "# " +:+ name;
   "PublicKey = " +:+ public_key;
   "AllowedIPs = " +:+ allowed_ips].

Definition peer_lines (server_pubkey endpoint_host : string) (endpoint_port : Z) (subnet : string)
  : list string :=
  ["[Peer]";
   "PublicKey = " +:+ server_pubkey;
   "Endpoint = " +:+ endpoint_host +:+ ":" +:+ dec endpoint_port;
   "AllowedIPs = " +:+ subnet;
   "PersistentKeepalive = 25"].

Definition hub_peer_lines (s : Server) : list string :=
  peer_lines (srv_public_key s) (srv_endpoint_host s) (srv_endpoint_port s) (srv_subnet s).

Definition client_conf_template (client : Client) (server : Server) : string := unlines
  (["[Interface]"; "Address = " +:+ cl_address client;
    "PrivateKey = $(cat /etc/wireguard/privatekey)"; ""] ++ hub_peer_lines server).

Definition render_manual_client_config (client : Client) (server : Server) (private_key : string)
  : outcome string :=
  if negb (cl_is_manual client) then
    Raise (ValueError "render_manual_client_config requires a manual client")
  else if negb (nonempty private_key) then
    Raise (ValueError "manual client has no stored private key")
  else Ok (unlines
    (["[Interface]"; "PrivateKey = " +:+ private_key; "Address = " +:+ cl_address client; ""] ++
     hub_peer_lines server)).

Definition render_enrolled_client_config (client : Client) (server : Server) : string := unlines
  (["[Interface]"; "Address = " +:+ cl_address client;
    "PostUp = wg set %i private-key /etc/wireguard/privatekey"; ""] ++ hub_peer_lines server).

(** The loop that appends one block per client. *)
Definition render_server_config (server : Server) (clients : list Client) : string :=
  fold_left (fun body peer =>
      body +:+ server_peer_template (cl_name peer) (cl_public_key peer) (cl_address peer))
    clients
    (server_interface_template (srv_address server) (srv_endpoint_port server)
       (srv_interface server) (srv_subnet server)).

(** ** Provisioning *)

(** Calls on [SSHRunner]. *)
Inductive ssh_cmd :=
| Sudo (command : string) (check : bool)
| WriteFile (path contents mode : string) (sudo : bool).

Section provisioning.
Context {H : Type} (exec : ssh_cmd -> H -> outcome string * H).

(** Computations on a node, with Python's exceptions. *)
Definition on_node (A : Type) : Type := H -> outcome A * H.
Definition node_ret {A} (a : A) : on_node A := fun h => (Ok a, h).
Definition node_bind {A B} (m : on_node A) (k : A -> on_node B) : on_node B := fun h =>
  match m h with
  | (Ok a, h') => k a h'
  | (Raise e, h') => (Raise e, h')
  end.
Definition sudo (command : string) : on_node string := exec (Sudo command true).
Definition sudo_unchecked (command : string) : on_node string := exec (Sudo command false).
Definition write_file (path contents mode : string) : on_node string :=
  exec (WriteFile path contents mode true).

(** Commands in sequence, their output ignored. *)
Fixpoint node_seq (ms : list (on_node string)) : on_node unit :=
  match ms with
  | [] => node_ret tt
  | m :: ms' => node_bind m (fun _ => node_seq ms')
  end.

Definition install_wireguard : on_node unit := node_seq
  [sudo "apt-get update -y";
   sudo "DEBIAN_FRONTEND=noninteractive apt-get install -y wireguard iptables"].

Definition ensure_keypair : on_node string :=
  node_bind (node_seq
    [sudo "mkdir -p /etc/wireguard";
     sudo "chmod 700 /etc/wireguard";
     sudo "sh -c 'umask 077; test -s /etc/wireguard/privatekey || wg genkey > /etc/wireguard/privatekey'";
     sudo "chmod 600 /etc/wireguard/privatekey"]) (fun _ =>
  node_bind (sudo "sh -c 'wg pubkey < /etc/wireguard/privatekey | tee /etc/wireguard/publickey'")
    (fun stdout => node_ret (strip stdout))).

(** The template is written with a quoted here-document and the key is
    substituted on the node. *)
Definition heredoc_command (conf : string) : string :=
  "sh -c 'cat > /tmp/wg0.conf.tpl <<" +:+ dq +:+ "WGEOF" +:+ dq +:+ nl +:+ conf +:+ "WGEOF'".
Definition substitute_command (conf_path : string) : string :=
  "sh -c 'PK=$(cat /etc/wireguard/privatekey) && sed " +:+ dq +:+
  "s|\$(cat /etc/wireguard/privatekey)|$PK|" +:+ dq +:+ " /tmp/wg0.conf.tpl > " +:+ conf_path +:+ "'".

Definition install_conf (conf conf_path : string) : on_node unit := node_seq
  [sudo (heredoc_command conf);
   sudo (substitute_command conf_path);
   sudo ("chmod 600 " +:+ conf_path);
   sudo "rm -f /tmp/wg0.conf.tpl"].

Definition write_server_config (server : Server) (clients : list Client) : on_node unit :=
  install_conf (render_server_config server clients)
    ("/etc/wireguard/" +:+ srv_interface server +:+ ".conf").

Definition enable_ip_forwarding : on_node unit := node_seq
  [sudo "sysctl -w net.ipv4.ip_forward=1";
   write_file "/etc/sysctl.d/99-wg-manager.conf" ("net.ipv4.ip_forward=1" +:+ nl) "644"].

Definition restart_interface (interface : string) : on_node unit := node_seq
  [sudo ("systemctl enable wg-quick@" +:+ interface);
   sudo ("sh -c 'systemctl restart wg-quick@" +:+ interface +:+ " || systemctl start wg-quick@" +:+
         interface +:+ "'")].

Definition ensure_interface_down (interface : string) : on_node unit :=
  let conf_path := "/etc/wireguard/" +:+ interface +:+ ".conf" in
  node_seq
  [sudo_unchecked ("systemctl stop wg-quick@" +:+ interface);
   sudo ("sh -c 'test -f " +:+ conf_path +:+ " && wg-quick down " +:+ interface +:+ " || true'");
   sudo ("sh -c 'ip link show " +:+ interface +:+ " >/dev/null 2>&1 && ip link delete " +:+
         interface +:+ " || true'")].

Definition provision_server (server : Server) (clients : list Client) : on_node string :=
  node_bind install_wireguard (fun _ =>
  node_bind ensure_keypair (fun public_key =>
  node_bind (ensure_interface_down (srv_interface server)) (fun _ =>
  node_bind (write_server_config server clients) (fun _ =>
  node_bind enable_ip_forwarding (fun _ =>
  node_bind (restart_interface (srv_interface server)) (fun _ =>
  node_ret public_key)))))).

Definition reconfigure_server (server : Server) (clients : list Client) : on_node unit :=
  node_bind (write_server_config server clients) (fun _ =>
  restart_interface (srv_interface server)).

Definition provision_client (client : Client) (server : Server) : on_node string :=
  node_bind install_wireguard (fun _ =>
  node_bind ensure_keypair (fun public_key =>
  node_bind (ensure_interface_down "wg0") (fun _ =>
  node_bind (install_conf (client_conf_template client server) "/etc/wireguard/wg0.conf") (fun _ =>
  node_bind (restart_interface "wg0") (fun _ =>
  node_ret public_key))))).
End provisioning.

(** ** Peer discovery *)

Record InterfaceInfo := mkInterfaceInfo {
  if_public_key : string; if_listen_port : Z; if_fwmark : option Z
}.
Record PeerInfo := mkPeerInfo {
  pi_public_key : string; pi_preshared_key : option string; pi_endpoint : option string;
  pi_allowed_ips : string; pi_last_handshake_epoch : Z; pi_rx_bytes : Z; pi_tx_bytes : Z;
  pi_persistent_keepalive : option Z
}.

Definition nullable (value : string) : option string :=
  if mem value ["(none)"; "off"; ""] then None else Some value.

(** [int(s) if s.isdigit() else d]; outer [None] is [ValueError]. *)
Definition int_if_digit {A} (f : Z -> A) (d : A) (s : string) : option A :=
  if isdigit s then f <$> py_int s else Some d.

Definition parse_fwmark (fwmark : string) : option (option Z) :=
  if bool_decide (fwmark = "off") then Some None
  else if startswith fwmark "0x" then Some <$> py_int16 fwmark
  else Some <$> py_int fwmark.

(** [Some None]: a row with too few columns, which is skipped. *)
Definition parse_peer (line : string) : option (option PeerInfo) :=
  match split_on "009" line with
  | public_key :: preshared :: endpoint :: allowed_ips :: handshake :: rx :: tx :: keepalive :: _ =>
      hs ← int_if_digit id 0 handshake;
      rxb ← int_if_digit id 0 rx;
      txb ← int_if_digit id 0 tx;
      ka ← int_if_digit Some None keepalive;
      Some (Some (mkPeerInfo public_key (nullable preshared) (nullable endpoint) allowed_ips
                    hs rxb txb ka))
  | _ => Some None
  end.

Fixpoint parse_peers (lines : list string) : option (list PeerInfo) :=
  match lines with
  | [] => Some []
  | l :: ls =>
      p ← parse_peer l;
      ps ← parse_peers ls;
      Some (match p with Some p => p :: ps | None => ps end)
  end.

Definition parse_wg_dump (dump : string) : option (InterfaceInfo * list PeerInfo) :=
  match List.filter (fun l => nonempty (strip l)) (splitlines dump) with
  | [] => None
  | first :: rest =>
      match split_on "009" first with
      | _ :: pub :: listen_port :: fwmark :: _ =>
          port ← py_int listen_port;
          mark ← parse_fwmark fwmark;
          peers ← parse_peers rest;
          Some (mkInterfaceInfo pub port mark, peers)
      | _ => None
      end
  end.

Definition discover_peers {H} (exec : ssh_cmd -> H -> outcome string * H) (server : Server)
  : on_node (H := H) (InterfaceInfo * list PeerInfo) :=
  node_bind (sudo exec ("wg show " +:+ srv_interface server +:+ " dump")) (fun stdout h =>
    match parse_wg_dump stdout with
    | Some r => (Ok r, h)
    | None => (Raise (ValueError "malformed wg dump output"), h)
    end).

(** ** Lemmas: lines *)

Definition no_newline (s : string) : Prop := char_in "010" s = false.

Lemma unlines_app l k : unlines (l ++ k) = unlines l +:+ unlines k.
Proof. induction l as [|x l IH]; simpl; [done|]. by rewrite IH, !append_assoc. Qed.

Lemma split_unlines ls :
  Forall no_newline ls -> split_on "010" (unlines ls) = ls ++ [""].
Proof.
  induction ls as [|x ls IH]; intros HF; [done|]. apply Forall_cons in HF as [Hx HF].
  simpl unlines. change (nl +:+ ?t) with (String (chr 10) t).
  change (chr 10) with "010"%char. rewrite split_on_app by done. by rewrite IH.
Qed.

(** Any text, cut at every line end. *)
Lemma split_on_sep sep p s : split_on sep (p +:+ String sep s) = split_on sep p ++ split_on sep s.
Proof.
  induction p as [|c p IH].
  - change ("" +:+ ?t) with t. cbn [split_on]. by rewrite ceqb_refl.
  - rewrite append_cons. cbn [split_on]. rewrite IH. destruct (ceqb c sep); [done|].
    destruct (split_on sep p) as [|h t] eqn:E; [by apply split_on_nonnil in E|done].
Qed.

Lemma split_unlines_any ls : split_on "010" (unlines ls) = concat (map (split_on "010") ls) ++ [""].
Proof.
  induction ls as [|x ls IH]; [done|]. simpl unlines. change (nl +:+ ?t) with (String "010" t).
  rewrite split_on_sep, IH. cbn [map concat]. by rewrite app_assoc.
Qed.

Lemma rev_app_spec s t : String.rev_app s t = String.rev s +:+ t.
Proof.
  unfold String.rev. revert t. induction s as [|c s IH]; intros t; [done|]. simpl.
  rewrite IH. rewrite (IH (String c "")). by rewrite append_assoc.
Qed.

Lemma rev_cons c s : String.rev (String c s) = String.rev s +:+ String c "".
Proof. unfold String.rev at 1. simpl. apply rev_app_spec. Qed.

Lemma splitlines_go_line s cur b rest :
  str_forall (fun c => negb (is_linebreak c)) s = true ->
  splitlines_go cur b (s +:+ String "010" rest) =
  (String.rev cur +:+ s) :: splitlines_go "" false rest.
Proof.
  revert cur b. induction s as [|c s IH]; intros cur b Hs.
  - change ("" +:+ ?x) with x. rewrite append_nil_r. cbn [splitlines_go].
    change (is_linebreak "010") with true. change (code "010" =? 13) with false. cbn [andb].
    by destruct rest.
  - simpl in Hs. apply andb_true_iff in Hs as [Hc Hs]. apply negb_true_iff in Hc.
    rewrite append_cons. cbn [splitlines_go]. rewrite Hc, IH by done.
    by rewrite rev_cons, append_assoc.
Qed.

Lemma splitlines_unlines ls :
  Forall (fun s => str_forall (fun c => negb (is_linebreak c)) s = true) ls ->
  splitlines (unlines ls) = ls.
Proof.
  unfold splitlines. induction ls as [|x ls IH]; intros HF; [done|].
  apply Forall_cons in HF as [Hx HF]. simpl unlines.
  change (x +:+ nl +:+ unlines ls) with (x +:+ String "010" (unlines ls)).
  rewrite splitlines_go_line by done. by rewrite IH.
Qed.

(** ** Reading a configuration back *)

(** What [wg setconf] sees of the peers: key and allowed addresses of each
    [\[Peer\]] section. *)
Fixpoint conf_peers (cur : option (string * string)) (lines : list string)
  : list (string * string) :=
  match lines with
  | [] => match cur with Some p => [p] | None => [] end
  | l :: ls =>
      if bool_decide (l = "[Peer]") then
        (match cur with Some p => [p] | None => [] end) ++ conf_peers (Some ("", "")) ls
      else match cur with
      | None => conf_peers None ls
      | Some (k, ips) =>
          if startswith l "PublicKey = " then conf_peers (Some (String.substring 12 (String.length l) l, ips)) ls
          else if startswith l "AllowedIPs = " then
            conf_peers (Some (k, String.substring 13 (String.length l) l)) ls
          else conf_peers (Some (k, ips)) ls
      end
  end.

Definition server_lines (s : Server) : list string :=
  ["[Interface]";
   "Address = " +:+ srv_address s;
   "ListenPort = " +:+ dec (srv_endpoint_port s);
   "PrivateKey = $(cat /etc/wireguard/privatekey)";
   "PostUp = iptables -A FORWARD -i " +:+ srv_interface s +:+ " -j ACCEPT; iptables -A FORWARD -o " +:+
     srv_interface s +:+ " -j ACCEPT; iptables -t nat -A POSTROUTING -s " +:+ srv_subnet s +:+
     " -o eth0 -j MASQUERADE";
   "PostDown = iptables -D FORWARD -i " +:+ srv_interface s +:+ " -j ACCEPT; iptables -D FORWARD -o " +:+
     srv_interface s +:+ " -j ACCEPT; iptables -t nat -D POSTROUTING -s " +:+ srv_subnet s +:+
     " -o eth0 -j MASQUERADE"].

Definition block_lines (c : Client) : list string :=
  [""; "[Peer]"; "# " +:+ cl_name c; "PublicKey = " +:+ cl_public_key c;
   "AllowedIPs = " +:+ cl_address c].

Lemma render_server_lines server clients :
  render_server_config server clients = unlines (server_lines server ++ concat (map block_lines clients)).
Proof.
  unfold render_server_config. rewrite unlines_app.
  change (server_interface_template _ _ _ _) with (unlines (server_lines server)).
  generalize (unlines (server_lines server)) as body. induction clients as [|c cs IH]; intros body.
  - simpl. by rewrite append_nil_r.
  - cbn [fold_left map concat]. rewrite IH, unlines_app.
    change (server_peer_template _ _ _) with (unlines (block_lines c)). by rewrite append_assoc.
Qed.

Lemma no_newline_app s t : no_newline s -> no_newline t -> no_newline (s +:+ t).
Proof.
  unfold no_newline. rewrite !char_in_false, str_forall_app. intros -> ->. done.
Qed.

Lemma no_newline_dec n : 0 <= n -> no_newline (dec n).
Proof. intros. apply decimal_no_char; [done|by apply dec_decimal]. Qed.
#[export] Hint Resolve no_newline_app no_newline_dec : wg.

Ltac solve_nonl := repeat (apply no_newline_app); solve [done | assumption | by apply no_newline_dec].

(** Text fields without line ends. *)
Definition clean_server (s : Server) : Prop :=
  no_newline (srv_address s) /\ no_newline (srv_interface s) /\ no_newline (srv_subnet s) /\
  0 <= srv_endpoint_port s.
Definition clean_client (c : Client) : Prop :=
  no_newline (cl_name c) /\ no_newline (cl_public_key c) /\ no_newline (cl_address c).

Lemma substring_all s : String.substring 0 (String.length s) s = s.
Proof. induction s as [|c s IH]; [done|]. simpl. by rewrite IH. Qed.

Lemma substring_skip p s n : (String.length s <= n)%nat ->
  String.substring (String.length p) n (p +:+ s) = s.
Proof.
  intros Hn. induction p as [|c p IH]; simpl; [|done].
  change ("" +:+ s) with s. revert n Hn. induction s as [|c s IHs]; intros [|n] Hn; simpl in *; try done; try lia.
  rewrite IHs by lia. done.
Qed.

Lemma conf_peers_comment cur s ls : conf_peers cur (("# " +:+ s) :: ls) = conf_peers cur ls.
Proof.
  cbn [conf_peers]. rewrite bool_decide_eq_false_2 by done. by destruct cur as [[k ips]|].
Qed.

Lemma conf_peers_key k0 ips key ls :
  conf_peers (Some (k0, ips)) (("PublicKey = " +:+ key) :: ls) = conf_peers (Some (key, ips)) ls.
Proof.
  cbn [conf_peers]. rewrite bool_decide_eq_false_2 by done. rewrite startswith_app.
  assert (E : String.substring 12 (String.length ("PublicKey = " +:+ key)) ("PublicKey = " +:+ key) = key).
  { apply (substring_skip "PublicKey = "). simpl. change ("" +:+ key) with key. lia. }
  by rewrite E.
Qed.

Lemma conf_peers_ips k ips0 ips ls :
  conf_peers (Some (k, ips0)) (("AllowedIPs = " +:+ ips) :: ls) = conf_peers (Some (k, ips)) ls.
Proof.
  cbn [conf_peers]. rewrite bool_decide_eq_false_2 by done. rewrite startswith_app.
  change (startswith ("AllowedIPs = " +:+ ips) "PublicKey = ") with false.
  assert (E : String.substring 13 (String.length ("AllowedIPs = " +:+ ips)) ("AllowedIPs = " +:+ ips) = ips).
  { apply (substring_skip "AllowedIPs = "). simpl. change ("" +:+ ips) with ips. lia. }
  by rewrite E.
Qed.

Lemma conf_peers_section cur ls :
  conf_peers cur ("[Peer]" :: ls) =
  (match cur with Some p => [p] | None => [] end) ++ conf_peers (Some ("", "")) ls.
Proof. done. Qed.

Lemma conf_peers_blocks clients cur :
  conf_peers cur (concat (map block_lines clients) ++ [""]) =
  (match cur with Some p => [p] | None => [] end) ++
  map (fun c => (cl_public_key c, cl_address c)) clients.
Proof.
  revert cur. induction clients as [|c cs IH]; intros cur.
  - simpl. by destruct cur as [[k ips]|].
  - cbn [map concat]. rewrite <- app_assoc. unfold block_lines at 1. cbn [app].
    assert (E : forall ls, conf_peers cur ("" :: ls) = conf_peers cur ls).
    { intros ls. simpl. by destruct cur as [[k ips]|]. }
    rewrite E. rewrite conf_peers_section. f_equal.
    rewrite conf_peers_comment, conf_peers_key, conf_peers_ips, IH. done.
Qed.

Lemma server_config_clean server clients :
  clean_server server -> Forall clean_client clients ->
  conf_peers None (split_on "010" (render_server_config server clients)) =
  map (fun c => (cl_public_key c, cl_address c)) clients.
Proof.
  intros (Ha & Hi & Hs & Hp) HF. rewrite render_server_lines, split_unlines.
  - rewrite <- app_assoc.
    assert (E : forall ls, conf_peers None (server_lines server ++ ls) = conf_peers None ls).
    { intros ls. unfold server_lines. cbn [app conf_peers].
      rewrite !bool_decide_eq_false_2 by done. done. }
    rewrite E. apply (conf_peers_blocks clients None).
  - apply Forall_app. split.
    + unfold server_lines. repeat constructor; solve_nonl.
    + induction HF as [|c cs (Hn & Hk & Had) HF IH]; [constructor|]. cbn [map concat].
      apply Forall_app. split; [|done]. unfold block_lines. repeat constructor; solve_nonl.
Qed.

(** *** One clean client among any others *)

Definition open_peer (cur : option (string * string)) : list (string * string) :=
  match cur with Some p => [p] | None => [] end.

Lemma conf_peers_blank cur ls : conf_peers cur ("" :: ls) = conf_peers cur ls.
Proof. simpl. by destruct cur as [[k ips]|]. Qed.

Lemma conf_peers_app l1 : forall cur, exists out cur', forall ls,
  conf_peers cur (l1 ++ ls) = out ++ conf_peers cur' ls.
Proof.
  induction l1 as [|l l1 IH]; intros cur; [by exists [], cur|]. cbn [app conf_peers].
  destruct (bool_decide (l = "[Peer]")).
  - destruct (IH (Some ("", ""))) as (out & cur' & E). exists (open_peer cur ++ out), cur'.
    intros ls. by rewrite E, app_assoc.
  - destruct cur as [[k ips]|]; [|apply IH]. destruct (startswith l "PublicKey = "); [apply IH|].
    destruct (startswith l "AllowedIPs = "); apply IH.
Qed.

(** Peer blocks close the section before them, whatever their text. *)
Lemma conf_peers_closes clients cur :
  let ls := concat (map (split_on "010") (concat (map block_lines clients))) ++ [""] in
  conf_peers cur ls = open_peer cur ++ conf_peers None ls.
Proof.
  intros ls. subst ls. destruct clients as [|c cs]; [simpl; by destruct cur as [[k ips]|]|].
  cbn [map concat block_lines app]. change (split_on "010" "") with [""]. change (split_on "010" "[Peer]") with ["[Peer]"].
  cbn [app]. by rewrite !conf_peers_blank, !conf_peers_section.
Qed.

Lemma split_block c : clean_client c -> concat (map (split_on "010") (block_lines c)) = block_lines c.
Proof.
  intros (Hn & Hk & Ha). unfold block_lines. cbn [map concat].
  change (split_on "010" "") with [""]. change (split_on "010" "[Peer]") with ["[Peer]"].
  rewrite !split_on_none; [done|solve_nonl..].
Qed.

(** A client whose own fields have no line break adds exactly its peer to the
    configuration, whatever the text of the hub and of the other clients. *)
Lemma clean_client_adds_peer server cs1 c cs2 : clean_client c -> exists before after,
  conf_peers None (split_on "010" (render_server_config server (cs1 ++ c :: cs2))) =
    before ++ (cl_public_key c, cl_address c) :: after /\
  conf_peers None (split_on "010" (render_server_config server (cs1 ++ cs2))) = before ++ after.
Proof.
  intros Hc. rewrite !render_server_lines, !map_app, !concat_app, !app_assoc, !split_unlines_any.
  cbn [map concat]. rewrite !map_app, !concat_app, split_block by done. rewrite <- !app_assoc, !(app_assoc (concat (map _ (server_lines _)))).
  set (front := concat (map _ (server_lines server)) ++ _).
  destruct (conf_peers_app front None) as (out & cur & E). rewrite !E.
  set (rest := concat (map (split_on "010") (concat (map block_lines cs2))) ++ [""]).
  exists (out ++ open_peer cur), (conf_peers None rest). unfold block_lines. cbn [app].
  rewrite conf_peers_blank, conf_peers_section, conf_peers_comment, conf_peers_key, conf_peers_ips.
  subst rest. rewrite (conf_peers_closes cs2 (Some _)), (conf_peers_closes cs2 cur). by rewrite <- !app_assoc.
Qed.

(** The hub's configuration lists exactly its clients: reading the rendered
    file back gives, in order, one peer per client with the client's key and
    address, provided no field contains a line break. *)
Theorem server_config_lists_clients server clients :
  clean_server server -> Forall clean_client clients ->
  conf_peers None (split_on "010" (render_server_config server clients)) =
  map (fun c => (cl_public_key c, cl_address c)) clients.
Proof. apply server_config_clean. Qed.

(** A client whose name carries line breaks adds a peer of its choosing: the
    hypothesis on names is needed, and the API does not enforce it. *)
Lemma name_injects_peer :
  exists c, cl_public_key c = "kc=" /\
    conf_peers None (split_on "010" (render_server_config demo_server [c])) =
    [("evil=", "0.0.0.0/0"); ("kc=", "10.9.0.9/32")].
Proof.
  exists (demo_client ("x" +:+ nl +:+ "PublicKey = evil=" +:+ nl +:+ "AllowedIPs = 0.0.0.0/0" +:+ nl +:+
                       "[Peer]") "10.9.0.9/32" "kc=" ready).
  split; [done|]. vm_compute. reflexivity.
Qed.

(** ** Theorems: the dump parser *)

(** One line of [wg show dump]. *)
Definition print_peer (p : PeerInfo) : string := join tab
  [pi_public_key p; default "(none)" (pi_preshared_key p); default "(none)" (pi_endpoint p);
   pi_allowed_ips p; dec (pi_last_handshake_epoch p); dec (pi_rx_bytes p); dec (pi_tx_bytes p);
   match pi_persistent_keepalive p with Some k => dec k | None => "off" end].

(** The whole dump, for an interface without a firewall mark. *)
Definition print_dump (private_key public_key : string) (listen_port : Z) (peers : list PeerInfo)
  : string :=
  unlines (join tab [private_key; public_key; dec listen_port; "off"] :: map print_peer peers).

(** Text that is one column of one line. *)
Definition column (s : string) : Prop :=
  str_forall (fun c => negb (is_linebreak c) && negb (ceqb "009" c)) s = true.
Definition optional_column (o : option string) : Prop :=
  forall s, o = Some s -> column s /\ s ∉ ["(none)"; "off"; ""].
Definition counter (n : Z) : Prop := 0 <= n < 10 ^ max_str_digits.

Record printable_peer (p : PeerInfo) : Prop := {
  pp_key : column (pi_public_key p); pp_psk : optional_column (pi_preshared_key p);
  pp_endpoint : optional_column (pi_endpoint p); pp_ips : column (pi_allowed_ips p);
  pp_hs : counter (pi_last_handshake_epoch p); pp_rx : counter (pi_rx_bytes p);
  pp_tx : counter (pi_tx_bytes p);
  pp_ka : forall k, pi_persistent_keepalive p = Some k -> counter k
}.

Lemma column_no_tab s : column s -> char_in "009" s = false.
Proof.
  unfold column. rewrite char_in_false. apply str_forall_impl. intros c [_ ?]%andb_true_iff. done.
Qed.

Lemma column_no_break s : column s -> str_forall (fun c => negb (is_linebreak c)) s = true.
Proof. apply str_forall_impl. intros c [? _]%andb_true_iff. done. Qed.

Lemma column_dec n : 0 <= n -> column (dec n).
Proof.
  intros H. eapply str_forall_impl; [|by apply dec_decimal]. intros c Hc.
  unfold is_decimal, is_linebreak, ceqb in *. bool_to_prop.
  apply andb_true_iff. split; apply negb_true_iff; [|apply Z.eqb_neq; change (code "009") with 9; lia].
  repeat (apply orb_false_iff; split); try (apply andb_false_iff);
    rewrite ?Z.leb_gt, ?Z.eqb_neq; lia.
Qed.

Lemma column_optional o : optional_column o -> column (default "(none)" o).
Proof. intros H. destruct o as [s|]; [by apply H|done]. Qed.

Lemma nullable_optional o : optional_column o -> nullable (default "(none)" o) = o.
Proof.
  intros H. destruct o as [s|]; [|done]. destruct (H s eq_refl) as [_ Hn]. simpl.
  unfold nullable. by rewrite (proj2 (mem_false _ _) Hn).
Qed.

Lemma int_if_digit_dec {A} (f : Z -> A) d n : counter n -> int_if_digit f d (dec n) = Some (f n).
Proof. intros H. unfold int_if_digit. rewrite dec_isdigit by (exact (proj1 H)). rewrite py_int_dec by exact H. reflexivity. Qed.

Definition peer_columns (p : PeerInfo) : list string :=
  [pi_public_key p; default "(none)" (pi_preshared_key p); default "(none)" (pi_endpoint p);
   pi_allowed_ips p; dec (pi_last_handshake_epoch p); dec (pi_rx_bytes p); dec (pi_tx_bytes p);
   match pi_persistent_keepalive p with Some k => dec k | None => "off" end].

Lemma peer_columns_ok p : printable_peer p -> Forall column (peer_columns p).
Proof.
  intros []. unfold peer_columns.
  repeat first [apply Forall_nil_2 | apply Forall_cons_2];
    first [assumption | by apply column_optional
          | apply column_dec; eapply proj1; eassumption | idtac].
  destruct (pi_persistent_keepalive p) as [k|]; [|reflexivity].
  apply column_dec. exact (proj1 (pp_ka0 k eq_refl)).
Qed.

Lemma parse_print_peer p : printable_peer p -> parse_peer (print_peer p) = Some (Some p).
Proof.
  intros Hp. pose proof (peer_columns_ok p Hp) as HF. destruct Hp.
  unfold parse_peer, print_peer. fold (peer_columns p).
  change tab with (String "009" "").
  rewrite split_on_join by (done || (eapply Forall_impl; [exact HF|apply column_no_tab])).
  unfold peer_columns. rewrite !int_if_digit_dec by assumption. simpl.
  rewrite !nullable_optional by done.
  destruct p as [pk psk ep ips hs rx tx [k|]]; simpl in *; [|done].
  rewrite int_if_digit_dec by (exact (pp_ka0 k eq_refl)). reflexivity.
Qed.

Lemma parse_print_peers ps : Forall printable_peer ps -> parse_peers (map print_peer ps) = Some ps.
Proof.
  induction 1 as [|p ps Hp HF IH]; [done|]. cbn [map parse_peers].
  rewrite parse_print_peer by done. simpl. by rewrite IH.
Qed.

Lemma lstrip_cases s : (lstrip s = "" /\ str_forall is_space s = true) \/
  exists c s', lstrip s = String c s' /\ is_space c = false.
Proof.
  induction s as [|c s IH]; simpl; [by left|]. destruct (is_space c) eqn:E; [done|]. right. eauto.
Qed.

Lemma strip_blank s : strip s = "" -> str_forall is_space s = true.
Proof.
  unfold strip. destruct (lstrip_cases s) as [[_ H]|(c & s' & -> & Hc)]; [done|].
  simpl. destruct (rstrip s'); [|done]. by rewrite Hc.
Qed.

Lemma join_forall_inv p sep parts :
  str_forall p (join sep parts) = true -> Forall (fun s => str_forall p s = true) parts.
Proof.
  induction parts as [|a [|b ps] IH]; intros H; [constructor|by repeat constructor|].
  change (join sep (a :: b :: ps)) with (a +:+ (sep +:+ join sep (b :: ps))) in H.
  rewrite !str_forall_app in H. apply andb_true_iff in H as [Ha H]. apply andb_true_iff in H as [_ H].
  constructor; [done|by apply IH].
Qed.

(** A line with a number on it is not blank. *)
Lemma numbered_line_nonblank parts n :
  0 <= n -> dec n ∈ parts -> nonempty (strip (join tab parts)) = true.
Proof.
  intros Hn Hin. apply nonempty_true. intros H%strip_blank%join_forall_inv.
  rewrite Forall_forall in H. specialize (H _ Hin).
  pose proof (dec_decimal n Hn) as Hd. pose proof (dec_nonnil n Hn) as Hne.
  destruct (dec n) as [|c s]; [done|]. simpl in *. apply andb_true_iff in H as [Hs _], Hd as [Hc _].
  apply is_decimal_not_space in Hc. rewrite Hs in Hc. done.
Qed.

Lemma column_line parts : Forall column parts ->
  str_forall (fun c => negb (is_linebreak c)) (join tab parts) = true.
Proof.
  intros HF. apply str_forall_join; [done|]. eapply Forall_impl; [exact HF|]. apply column_no_break.
Qed.

Lemma filter_all {A} (p : A -> bool) l : Forall (fun x => p x = true) l -> List.filter p l = l.
Proof. induction 1 as [|x l Hx HF IH]; simpl; [done|]. by rewrite Hx, IH. Qed.

(** Discovery reads back what [wg] prints: for any interface keys and port
    and any peers whose text fields are single columns and whose counters are
    non-negative, parsing the printed dump gives exactly the interface and the
    list of peers. *)
Theorem wg_dump_roundtrip private_key public_key listen_port peers :
  column private_key -> column public_key -> counter listen_port ->
  Forall printable_peer peers ->
  parse_wg_dump (print_dump private_key public_key listen_port peers) =
  Some (mkInterfaceInfo public_key listen_port None, peers).
Proof.
  intros Hpriv Hpub Hport HF. unfold parse_wg_dump, print_dump.
  set (ic := [private_key; public_key; dec listen_port; "off"]).
  assert (Hic : Forall column ic).
  { unfold ic. repeat first [apply Forall_nil_2 | apply Forall_cons_2];
      first [assumption | apply column_dec; exact (proj1 Hport) | reflexivity]. }
  rewrite splitlines_unlines.
  2: { constructor; [by apply column_line|]. apply List.Forall_map.
       eapply Forall_impl; [exact HF|]. intros p Hp. by apply column_line, peer_columns_ok. }
  rewrite filter_all.
  2: { constructor.
       - apply (numbered_line_nonblank ic listen_port (proj1 Hport)). unfold ic. set_solver.
       - apply List.Forall_map. eapply Forall_impl; [exact HF|]. intros p Hp.
         apply (numbered_line_nonblank (peer_columns p) (pi_rx_bytes p) (proj1 (pp_rx _ Hp))).
         unfold peer_columns. set_solver. }
  change tab with (String "009" "").
  rewrite split_on_join by (done || (eapply Forall_impl; [exact Hic|apply column_no_tab])).
  unfold ic. rewrite py_int_dec by exact Hport. simpl. by rewrite parse_print_peers.
Qed.

(** ** Witnesses *)

Lemma server_config_lists_clients_witness :
  conf_peers None (split_on "010" (render_server_config demo_server
    [demo_client "a" "10.9.0.2/32" "ka=" ready; demo_client "b" "10.9.0.4/32" "kb=" ready])) =
  [("ka=", "10.9.0.2/32"); ("kb=", "10.9.0.4/32")].
Proof.
  apply (server_config_lists_clients demo_server
    [demo_client "a" "10.9.0.2/32" "ka=" ready; demo_client "b" "10.9.0.4/32" "kb=" ready]).
  - repeat split; reflexivity || (simpl; lia).
  - repeat constructor.
Defined.

Definition demo_peer : PeerInfo :=
  mkPeerInfo "pk=" None (Some "192.0.2.9:51820") "10.9.0.2/32" 1700000000 12 34 (Some 25).

Lemma counter_small n : 0 <= n < 10 ^ 20 -> counter n.
Proof.
  intros [H1 H2]. split; [done|]. eapply Z.lt_le_trans; [exact H2|].
  apply Z.pow_le_mono_r; unfold max_str_digits; lia.
Qed.

Lemma wg_dump_roundtrip_witness :
  parse_wg_dump (print_dump "sk=" "ik=" 51820 [demo_peer]) =
  Some (mkInterfaceInfo "ik=" 51820 None, [demo_peer]).
Proof.
  apply (wg_dump_roundtrip "sk=" "ik=" 51820 [demo_peer]).
  - reflexivity.
  - reflexivity.
  - apply counter_small. lia.
  - constructor; [|constructor]. split; simpl;
      try reflexivity; try (apply counter_small; lia); intros s [= <-].
    + split; [reflexivity|]. by apply (bool_decide_unpack _).
    + apply counter_small. lia.
Defined.
