(* ===== verification/Tasks.v ===== *)
(** * Celery tasks

    [src/src/wg_manager/tasks.py].  A task runs in a worker: it takes the
    advisory lock of its row, reads the database, works on a node over SSH
    and commits the outcome.

    Whether the lock was acquired is an argument ([Locks.v] models the lock
    itself).  What a task meets outside the database is a [node_env]: opening
    the session (minting the user certificate, connecting), the node's answers
    to commands, the host-certificate installation of [host_ssh.py], the crypto
    backend's [decrypt] and the bootstrap session. *)

From S2P Require Import Prelude PyStr Models Session Demo Enrollment Wireguard.

Record HostCert := mkHostCert {
  cert_pem : string; valid_after : Z; valid_before : Z; serial : Z; principals : list string
}.

Record node_env := mkNodeEnv {
  ne_state : Type;
  ne_exec : ssh_cmd -> ne_state -> outcome string * ne_state;
  ne_node : ne_state;
  ne_open : outcome unit;
  ne_install_host_cert : outcome HostCert;
  ne_ca_public_key : string;
  ne_decrypt : string -> string -> outcome string;
  ne_bootstrap : string -> option string -> outcome unit
}.

Inductive task_result :=
| Skipped
| ServerProvisioned (public_key address : string) (peer_count : Z)
| CertRotated (serial valid_before : option Z)
| Coalesced (generation applied_generation : Z)
| Applied (generation : Z) (peers : list string)
| ClientProvisioned (address public_key : string) (server_id : Z)
| Discovered (peer_count new updated pruned : Z)
| DiscoverFailed (error : string)
| DiscoveredAll (total ok failed peers : Z)
| RotationSweep (servers clients : list Z) (failed : list (string * Z))
| TokensDeleted (ids : list Z).

(** ** Helpers *)

(** Running on the node of the environment. *)
Definition on_runner {A} (e : node_env) (m : on_node (H := ne_state e) A) : M A :=
  lift (fst (m (ne_node e))).

Definition is_ssh_expected (e : exn) : bool :=
  match e with SSHError _ | SSHCAError _ => true | _ => false end.

Definition exn_str (e : exn) : string :=
  match e with
  | HTTPException _ d _ => d
  | ValueError m | RuntimeError m | IPPoolExhausted m | SSHError m | SSHCAError m => m
  | _ => ""
  end.

Definition alter_server (id : Z) (f : Server -> Server) : M unit :=
  modify_db (on_servers (tbl_update id f)).
Definition alter_client (id : Z) (f : Client -> Client) : M unit :=
  modify_db (on_clients (tbl_update id f)).

Definition mark_error_server (id : Z) : M unit := alter_server id (set_srv_status error) ;; commit.
Definition mark_error_client (id : Z) : M unit := alter_client id (set_cl_status error) ;; commit.

(** The [host_cert_*] columns after [_persist_host_cert]. *)
Definition persist_host_cert (cert : HostCert) (ca_public_key : string) : HostCertCols :=
  mkHostCertCols (Some (cert_pem cert)) (Some (serial cert)) (Some (join "," (principals cert)))
    (Some (valid_after cert)) (Some (valid_before cert)) (Some ca_public_key).

Definition install_host_cert_cols (e : node_env) : M HostCertCols :=
  cert <- lift (ne_install_host_cert e) ;;
  ret (persist_host_cert cert (ne_ca_public_key e)).

Definition ready_clients_for (d : DB) (server_id : Z) : list Client :=
  snd <$> tbl_select (fun _ c => (cl_server_id c =? server_id) && bool_decide (cl_status c = ready))
            (clients d).

Definition run_bootstrap_if_supplied (e : node_env) (b : bootstrap_kwargs) : M unit :=
  match pem_ciphertext b with
  | None => ret tt
  | Some ct =>
      ctx <- some_or_raise (pem_context b)
        (ValueError "bootstrap_pem_context is required when bootstrap_pem_ciphertext is supplied") ;;
      pem <- lift (ne_decrypt e ct ctx) ;;
      passphrase <-
        match passphrase_ciphertext b with
        | None => ret None
        | Some pct =>
            pctx <- some_or_raise (passphrase_context b)
              (ValueError "bootstrap_passphrase_context is required when bootstrap_passphrase_ciphertext is supplied") ;;
            p <- lift (ne_decrypt e pct pctx) ;;
            ret (Some p)
        end ;;
      lift (ne_bootstrap e pem passphrase)
  end.

Definition not_found (what : string) (id : Z) : exn := ValueError (what +:+ " " +:+ dec id +:+ " not found").

(** ** Provisioning a hub *)

Definition provision_server_task (acquired : bool) (e : node_env) (server_id : Z)
  (b : bootstrap_kwargs) : M task_result :=
  if negb acquired then ret Skipped
  else
    d <- get_db ;;
    server <- some_or_raise (rows (servers d) !! server_id) (not_found "Server" server_id) ;;
    match rows (sshkeys d) !! srv_ssh_key_id server with
    | None => mark_error_server server_id ;; raise (not_found "SSH key" (srv_ssh_key_id server))
    | Some _ =>
        let peers := ready_clients_for d server_id in
        r <- try_except
          (run_bootstrap_if_supplied e b ;;
           lift (ne_open e) ;;
           public_key <- on_runner e (provision_server (ne_exec e) server peers) ;;
           cols <- install_host_cert_cols e ;;
           ret (public_key, cols))
          (fun exc =>
             mark_error_server server_id ;;
             raise (if is_ssh_expected exc then
                      RuntimeError ("server " +:+ dec server_id +:+ " (" +:+ srv_hostname server +:+
                                    ") provisioning failed: " +:+ exn_str exc)
                    else exc)) ;;
        alter_server server_id (fun s =>
          set_srv_status ready (set_srv_public_key r.1 (set_srv_host_cert r.2 s))) ;;
        commit ;;
        ret (ServerProvisioned r.1 (srv_address server) (Z.of_nat (length peers)))
    end.

(** ** Host-certificate rotation *)

Definition rotate_host_cert_task (acquired : bool) (e : node_env) (server_id : Z) : M task_result :=
  if negb acquired then ret Skipped
  else
    d <- get_db ;;
    server <- some_or_raise (rows (servers d) !! server_id) (not_found "Server" server_id) ;;
    some_or_raise (rows (sshkeys d) !! srv_ssh_key_id server)
      (not_found "SSH key" (srv_ssh_key_id server)) ;;
    cols <- try_except (lift (ne_open e) ;; install_host_cert_cols e)
      (fun exc =>
         raise (if is_ssh_expected exc then
                  RuntimeError ("host-cert rotation failed for server " +:+ dec server_id +:+ " (" +:+
                                srv_hostname server +:+ "): " +:+ exn_str exc)
                else exc)) ;;
    alter_server server_id (set_srv_host_cert cols) ;;
    commit ;;
    ret (CertRotated (hc_serial cols) (hc_valid_before cols)).

Definition rotate_client_host_cert_task (acquired : bool) (e : node_env) (client_id : Z)
  : M task_result :=
  if negb acquired then ret Skipped
  else
    d <- get_db ;;
    client <- some_or_raise (rows (clients d) !! client_id) (not_found "Client" client_id) ;;
    raise_if (cl_is_manual client || bool_decide (cl_hostname client = None))
      (ValueError ("Client " +:+ dec client_id +:+ " is a manual client; no SSH access to rotate a host cert on")) ;;
    raise_if (bool_decide (cl_ssh_key_id client = None) || bool_decide (cl_ssh_username client = None))
      (ValueError ("Client " +:+ dec client_id +:+ " has no SSH credentials")) ;;
    let key_id := default 0 (cl_ssh_key_id client) in
    some_or_raise (rows (sshkeys d) !! key_id) (not_found "SSH key" key_id) ;;
    cols <- try_except (lift (ne_open e) ;; install_host_cert_cols e)
      (fun exc =>
         raise (if is_ssh_expected exc then
                  RuntimeError ("host-cert rotation failed for client " +:+ dec client_id +:+ " (" +:+
                                default "" (cl_hostname client) +:+ "): " +:+ exn_str exc)
                else exc)) ;;
    alter_client client_id (set_cl_host_cert cols) ;;
    commit ;;
    ret (CertRotated (hc_serial cols) (hc_valid_before cols)).

(** A certificate the sweep renews: unknown, or expiring before the cutoff. *)
Definition cert_due (cutoff : Z) (c : HostCertCols) : bool :=
  match hc_valid_before c with None => true | Some t => t <? cutoff end.

(** The loop over the rows of one kind: a message that cannot be queued is
    noted, and the loop goes on. *)
Fixpoint dispatch_each (mk : Z -> task_msg) (ids : list Z) : M (list Z * list Z) :=
  match ids with
  | [] => ret ([], [])
  | i :: ids' =>
      queued <- try_except (dispatch (mk i) ;; ret true) (fun _ => ret false) ;;
      r <- dispatch_each mk ids' ;;
      ret (if (queued : bool) then (i :: r.1, r.2) else (r.1, i :: r.2))
  end.

Definition rotate_expiring_host_certs_task (now renew_before_seconds : Z) : M task_result :=
  let cutoff := now + renew_before_seconds * 1000000 in
  d <- get_db ;;
  let server_ids := fst <$> tbl_select (fun _ s =>
        bool_decide (srv_status s = ready) && cert_due cutoff (srv_host_cert s)) (servers d) in
  let client_ids := fst <$> tbl_select (fun _ c =>
        bool_decide (cl_status c = ready) && negb (cl_is_manual c) &&
        cert_due cutoff (cl_host_cert c)) (clients d) in
  s <- dispatch_each RotateHostCert server_ids ;;
  c <- dispatch_each RotateClientHostCert client_ids ;;
  ret (RotationSweep s.1 c.1 (((fun i => ("server", i)) <$> s.2) ++ ((fun i => ("client", i)) <$> c.2))).

(** ** Reconfiguring a hub *)

Definition RECONFIGURE_RETRY_SECONDS : Z := 10.
Definition RECONFIGURE_MAX_RETRIES : Z := 30.

(** The [UPDATE] of [request_reconfigure]. *)
Definition bump_generation (server_id : Z) (d : DB) : DB :=
  on_servers (tbl_update server_id (fun s =>
    set_srv_gens (srv_reconfig_requested_gen s + 1) (srv_reconfig_applied_gen s) s)) d.

Definition request_reconfigure (server_id : Z) : M Z :=
  d <- get_db ;;
  match rows (servers d) !! server_id with
  | None => rollback ;; raise (not_found "Server" server_id)
  | Some _ =>
      modify_db (bump_generation server_id) ;;
      commit ;;
      d' <- get_db ;;
      let generation := from_option srv_reconfig_requested_gen 0 (rows (servers d') !! server_id) in
      dispatch (ReconfigureServer server_id generation) ;;
      ret generation
  end.

(** What the task decides from the rows it reads under the lock: the server,
    then the generation it will cover, then the clients. *)
Inductive reconfig_plan :=
| PlanFails (e : exn)
| PlanCoalesced (applied : Z)
| PlanRun (server : Server) (target : Z) (peers : list Client).

Definition reconfig_begin (server_id : Z) (generation : option Z) (d : DB) : reconfig_plan :=
  match rows (servers d) !! server_id with
  | None => PlanFails (not_found "Server" server_id)
  | Some server =>
      if match generation with Some g => g <=? srv_reconfig_applied_gen server | None => false end
      then PlanCoalesced (srv_reconfig_applied_gen server)
      else match rows (sshkeys d) !! srv_ssh_key_id server with
      | None => PlanFails (not_found "SSH key" (srv_ssh_key_id server))
      | Some _ =>
          let target := srv_reconfig_requested_gen server in
          PlanRun server target (ready_clients_for d server_id)
      end
  end.

(** The guarded [UPDATE] that marks [target] applied. *)
Definition mark_applied (server_id target : Z) (d : DB) : DB :=
  on_servers (tbl_update server_id (fun s =>
    if srv_reconfig_applied_gen s <? target
    then set_srv_gens (srv_reconfig_requested_gen s) target s else s)) d.

Definition reconfigure_server_task (acquired : bool) (e : node_env) (server_id : Z)
  (generation : option Z) : M task_result :=
  if negb acquired then raise (Retry RECONFIGURE_RETRY_SECONDS)
  else
    d <- get_db ;;
    match reconfig_begin server_id generation d with
    | PlanFails exc => raise exc
    | PlanCoalesced applied => ret (Coalesced (default 0 generation) applied)
    | PlanRun server target peers =>
        try_except
          (lift (ne_open e) ;; on_runner e (reconfigure_server (ne_exec e) server peers))
          (fun exc =>
             raise (if is_ssh_expected exc then
                      RuntimeError ("server " +:+ dec server_id +:+ " (" +:+ srv_hostname server +:+
                                    ") reconfigure failed: " +:+ exn_str exc)
                    else exc)) ;;
        modify_db (mark_applied server_id target) ;;
        commit ;;
        ret (Applied target (cl_name <$> peers))
    end.

(** ** Provisioning a client *)

Definition provision_client_task (acquired : bool) (e : node_env) (client_id : Z)
  (b : bootstrap_kwargs) : M task_result :=
  if negb acquired then ret Skipped
  else
    d <- get_db ;;
    client <- some_or_raise (rows (clients d) !! client_id) (not_found "Client" client_id) ;;
    match rows (servers d) !! cl_server_id client with
    | None => mark_error_client client_id ;; raise (not_found "Server" (cl_server_id client))
    | Some server =>
        match cl_ssh_key_id client ≫= (fun k => rows (sshkeys d) !! k) with
        | None => mark_error_client client_id ;; raise (ValueError "SSH key for client is missing")
        | Some _ =>
            r <- try_except
              (run_bootstrap_if_supplied e b ;;
               lift (ne_open e) ;;
               public_key <- on_runner e (provision_client (ne_exec e) client server) ;;
               cols <- install_host_cert_cols e ;;
               ret (public_key, cols))
              (fun exc =>
                 mark_error_client client_id ;;
                 raise (if is_ssh_expected exc then
                          RuntimeError ("client " +:+ dec client_id +:+ " (" +:+
                                        default "None" (cl_hostname client) +:+
                                        ") provisioning failed: " +:+ exn_str exc)
                        else exc)) ;;
            alter_client client_id (fun c =>
              set_cl_status ready (set_cl_public_key r.1 (set_cl_host_cert r.2 c))) ;;
            commit ;;
            request_reconfigure (cl_server_id client) ;;
            ret (ClientProvisioned (cl_address client) r.1 (cl_server_id client))
        end
    end.

(** ** Discovery *)

Definition peer_row (server_id now first_seen : Z) (managed : list string) (p : PeerInfo)
  : DiscoveredPeer :=
  mkDiscoveredPeer server_id (pi_public_key p) (pi_allowed_ips p) (pi_endpoint p)
    (if 0 <? pi_last_handshake_epoch p then Some (pi_last_handshake_epoch p * 1000000) else None)
    (pi_rx_bytes p) (pi_tx_bytes p) (pi_persistent_keepalive p)
    (mem (pi_public_key p) managed) first_seen now.

Definition find_discovered (server_id : Z) (key : string) (t : table DiscoveredPeer)
  : option (Z * DiscoveredPeer) :=
  head (tbl_select (fun _ r => (dp_server_id r =? server_id) && bool_decide (dp_public_key r = key)) t).

(** Update in place, or insert; the counts of new and updated rows. *)
Definition upsert_peer (server_id now : Z) (managed : list string)
  (acc : table DiscoveredPeer * Z * Z) (p : PeerInfo) : table DiscoveredPeer * Z * Z :=
  let '(t, new, updated) := acc in
  match find_discovered server_id (pi_public_key p) t with
  | None => (tbl_insert (peer_row server_id now now managed p) t, new + 1, updated)
  | Some (i, old) =>
      (tbl_set i (peer_row server_id now (dp_first_seen_at old) managed p) t, new, updated + 1)
  end.

Definition stale_ids (server_id : Z) (observed : list string) (t : table DiscoveredPeer) : list Z :=
  fst <$> tbl_select (fun _ r => (dp_server_id r =? server_id) && negb (mem (dp_public_key r) observed)) t.

(** The whole database effect of a successful pass. *)
Definition record_peers (server_id now : Z) (managed : list string) (peers : list PeerInfo)
  (t : table DiscoveredPeer) : table DiscoveredPeer * (Z * Z * Z) :=
  let '(t1, new, updated) := fold_left (upsert_peer server_id now managed) peers (t, 0, 0) in
  let stale := stale_ids server_id (pi_public_key <$> peers) t1 in
  (tbl_delete_all stale t1, (new, updated, Z.of_nat (length stale))).

Definition managed_keys (d : DB) (server_id : Z) : list string :=
  List.filter nonempty (cl_public_key <$>
    (snd <$> tbl_select (fun _ c => cl_server_id c =? server_id) (clients d))).

Definition discover_peers_task (e : node_env) (now server_id : Z) : M task_result :=
  d <- get_db ;;
  server <- some_or_raise (rows (servers d) !! server_id) (not_found "Server" server_id) ;;
  some_or_raise (rows (sshkeys d) !! srv_ssh_key_id server)
    (not_found "SSH key" (srv_ssh_key_id server)) ;;
  match (lift (ne_open e) ;; on_runner e (discover_peers (ne_exec e) server)) (start d) with
  | (Raise exc, _) =>
      if is_ssh_expected exc then
        ret (DiscoverFailed ("discovery on server " +:+ dec server_id +:+ " (" +:+
                             srv_hostname server +:+ ") failed: " +:+ exn_str exc))
      else raise exc
  | (Ok (_, peers), _) =>
      let '(t, (new, updated, pruned)) :=
        record_peers server_id now (managed_keys d server_id) peers (discovered d) in
      modify_db (on_discovered (fun _ => t)) ;;
      commit ;;
      ret (Discovered (Z.of_nat (length peers)) new updated pruned)
  end.

(** One server after another; the environment of each is [env]. *)
Fixpoint discover_each (env : Z -> node_env) (now : Z) (ids : list Z) (acc : Z * Z * Z)
  : M (Z * Z * Z) :=
  match ids with
  | [] => ret acc
  | sid :: ids' =>
      let '(ok, failed, peers) := acc in
      r <- try_except (discover_peers_task (env sid) now sid)
             (fun exc => ret (DiscoverFailed (exn_str exc))) ;;
      discover_each env now ids'
        (match r with
         | Discovered n _ _ _ => (ok + 1, failed, peers + n)
         | _ => (ok, failed + 1, peers)
         end)
  end.

Definition discover_all_peers_task (env : Z -> node_env) (now : Z) : M task_result :=
  d <- get_db ;;
  let server_ids := List.filter (fun i => negb (i =? 0)) (fst <$> map_to_list (rows (servers d))) in
  acc <- discover_each env now server_ids (0, 0, 0) ;;
  let '(ok, failed, peers) := acc in
  ret (DiscoveredAll (Z.of_nat (length server_ids)) ok failed peers).

Definition sweep_enrollment_tokens_task (retention_seconds now : Z) : M task_result :=
  deleted <- delete_dead_tokens retention_seconds now ;;
  commit ;;
  ret (TokensDeleted deleted).

(** ** Lemmas: discovery *)

(** The table has a row for [key] on the hub. *)
Definition known (sid : Z) (key : string) (t : table DiscoveredPeer) : Prop :=
  exists i r, rows t !! i = Some r /\ dp_server_id r = sid /\ dp_public_key r = key.

(** Rows of other hubs are the same in both tables. *)
Definition same_others (sid : Z) (t t' : table DiscoveredPeer) : Prop :=
  forall i r, dp_server_id r <> sid -> rows t' !! i = Some r <-> rows t !! i = Some r.

(** A sweep with a broker that takes every message queues them all. *)
Lemma dispatch_each_all mk ids w : (forall t, broker (outside w) t = true) -> dispatch_each mk ids w =
  (Ok (ids, []), mkWorld (committed w) (view w) (queue w ++ (mk <$> ids)) (audit_log w) (outside w)).
Proof.
  revert w. induction ids as [|i ids IH]; intros [c v q l o] Hb; cbn [dispatch_each].
  - simpl. by rewrite app_nil_r.
  - unfold bind, try_except, dispatch, ret. cbn [committed view queue audit_log outside] in *. rewrite Hb, IH by done.
    cbn. by rewrite <- app_assoc.
Qed.

Lemma find_discovered_Some sid key t i r :
  find_discovered sid key t = Some (i, r) ->
  rows t !! i = Some r /\ dp_server_id r = sid /\ dp_public_key r = key.
Proof.
  unfold find_discovered. intros H.
  assert (Hin : (i, r) ∈ tbl_select (fun _ r => (dp_server_id r =? sid) && bool_decide (dp_public_key r = key)) t).
  { destruct (tbl_select _ t) as [|x l]; simpl in H; [done|]. simplify_eq. by left. }
  apply tbl_select_spec in Hin as [? ?]. by bool_to_prop.
Qed.

Lemma upsert_spec sid now managed t n u p t' n' u' :
  wf_table t -> upsert_peer sid now managed (t, n, u) p = (t', n', u') ->
  wf_table t' /\ same_others sid t t' /\
  (forall key, known sid key t' <-> known sid key t \/ key = pi_public_key p) /\
  n' + u' = n + u + 1.
Proof.
  intros Hwf H. unfold upsert_peer in H.
  destruct (find_discovered sid (pi_public_key p) t) as [[i old]|] eqn:E; simplify_eq.
  - apply find_discovered_Some in E as (Hi & Hs & Hk). split_and!; [by eapply wf_table_set| | |lia].
    + intros j r Hne. simpl. rewrite lookup_insert. case_decide as Ej; [|done]. subst j.
      split; intros Hr; simplify_eq; done.
    + intros key. unfold known. simpl. split.
      * intros (j & r & Hj & Hrs & Hrk). rewrite lookup_insert in Hj.
        case_decide; [right; injection Hj as <-; by rewrite <- Hrk|left; eauto 10].
      * intros [(j & r & Hj & Hrs & Hrk)| ->].
        -- destruct (decide (i = j)) as [->|Hne].
           ++ exists j. eexists. rewrite lookup_insert_eq. split_and!; [done|done|].
              simpl. congruence.
           ++ exists j, r. by rewrite lookup_insert_ne.
        -- exists i. eexists. rewrite lookup_insert_eq. done.
  - split_and!; [by apply wf_table_insert| | |lia].
    + intros j r Hne. simpl. rewrite lookup_insert. case_decide as Ej; [|done]. subst j.
      rewrite (wf_table_fresh t Hwf). split; intros Hr; simplify_eq; done.
    + intros key. unfold known. simpl. split.
      * intros (j & r & Hj & Hrs & Hrk). rewrite lookup_insert in Hj.
        case_decide; [right; injection Hj as <-; by rewrite <- Hrk|left; eauto 10].
      * intros [(j & r & Hj & Hrs & Hrk)| ->].
        -- exists j, r. rewrite lookup_insert_ne; [done|].
           intros <-. by rewrite (wf_table_fresh t Hwf) in Hj.
        -- exists (next_id t). eexists. by rewrite lookup_insert_eq.
Qed.

Lemma same_others_trans sid t1 t2 t3 :
  same_others sid t1 t2 -> same_others sid t2 t3 -> same_others sid t1 t3.
Proof. intros H1 H2 i r Hne. specialize (H1 i r Hne). specialize (H2 i r Hne). tauto. Qed.

Lemma upserts_spec sid now managed peers : forall t n u t' n' u',
  wf_table t -> fold_left (upsert_peer sid now managed) peers (t, n, u) = (t', n', u') ->
  wf_table t' /\ same_others sid t t' /\
  (forall key, known sid key t' <-> known sid key t \/ key ∈ (pi_public_key <$> peers)) /\
  n' + u' = n + u + Z.of_nat (length peers).
Proof.
  induction peers as [|p peers IH]; intros t n u t' n' u' Hwf H.
  - simpl in H. simplify_eq. split_and!; [done|by intros i r _| |simpl; lia].
    intros key. split; [tauto|]. intros [?|Hin]; [done|by apply elem_of_nil in Hin].
  - cbn [fold_left] in H. destruct (upsert_peer sid now managed (t, n, u) p) as [[t1 n1] u1] eqn:E.
    apply upsert_spec in E as (Hwf1 & Ho1 & Hk1 & Hc1); [|done].
    apply IH in H as (Hwf2 & Ho2 & Hk2 & Hc2); [|done].
    split_and!; [done|by eapply same_others_trans| |cbn [length]; lia].
    intros key. rewrite Hk2, Hk1. rewrite fmap_cons, elem_of_cons. tauto.
Qed.

Lemma stale_ids_spec sid observed t i :
  i ∈ stale_ids sid observed t <->
  exists r, rows t !! i = Some r /\ dp_server_id r = sid /\ dp_public_key r ∉ observed.
Proof.
  unfold stale_ids. rewrite list_elem_of_fmap. split.
  - intros ([j r] & -> & [Hj Hb]%tbl_select_spec). bool_to_prop. exists r. split_and!; try done.
    by apply mem_false.
  - intros (r & Hi & Hs & Hn). exists (i, r). split; [done|]. apply tbl_select_spec. split; [done|].
    apply andb_true_iff. split; [by apply Z.eqb_eq|]. apply negb_true_iff. by apply mem_false.
Qed.

(** A successful discovery pass is authoritative for its hub and only for
    it: afterwards the hub's recorded peers are exactly the observed ones,
    the rows of every other hub are untouched, and every observed peer was
    counted once as new or updated. *)
Theorem discovery_is_authoritative sid now managed peers t t' new updated pruned :
  wf_table t ->
  record_peers sid now managed peers t = (t', (new, updated, pruned)) ->
  (forall key, known sid key t' <-> key ∈ (pi_public_key <$> peers)) /\
  same_others sid t t' /\ new + updated = Z.of_nat (length peers).
Proof.
  intros Hwf H. unfold record_peers in H.
  destruct (fold_left _ peers (t, 0, 0)) as [[t1 n] u] eqn:E.
  apply upserts_spec in E as (Hwf1 & Ho & Hk & Hc); [|done]. simplify_eq.
  set (stale := stale_ids sid (pi_public_key <$> peers) t1).
  split_and!; [| |lia].
  - intros key. split.
    + intros (i & r & Hi & Hs & <-). rewrite tbl_delete_all_lookup in Hi.
      case_bool_decide as Hst; [done|]. destruct (decide (dp_public_key r ∈ (pi_public_key <$> peers)));
        [done|]. exfalso. apply Hst, stale_ids_spec. eauto.
    + intros Hin. destruct (proj2 (Hk key) (or_intror Hin)) as (i & r & Hi & Hs & <-).
      exists i, r. split_and!; try done. rewrite tbl_delete_all_lookup, bool_decide_eq_false_2; [done|].
      intros (r' & Hr' & _ & Hn)%stale_ids_spec. simplify_eq. done.
  - eapply same_others_trans; [exact Ho|]. intros i r Hne. rewrite tbl_delete_all_lookup.
    case_bool_decide as Hst; [|done]. apply stale_ids_spec in Hst as (r' & Hr' & Hs' & _).
    rewrite Hr'. split; intros; simplify_eq; done.
Qed.

(** ** Theorems: provisioning *)

(** What a provisioning task leaves behind: without the lock it does
    nothing; if it returns otherwise, the hub is [ready] with the key its node
    reported and the installed host certificate; if it raises for an existing
    hub, the hub is in [error] with no other column changed.  In every case
    no other row of any table changes. *)
Theorem provision_server_outcome acquired e sid b d server :
  rows (servers d) !! sid = Some server ->
  match result (provision_server_task acquired e sid b) d with
  | Ok Skipped => acquired = false /\ final_db (provision_server_task acquired e sid b) d = d
  | Ok (ServerProvisioned pk _ _) => exists cert,
      ne_install_host_cert e = Ok cert /\
      final_db (provision_server_task acquired e sid b) d =
      on_servers (tbl_update sid (fun s => set_srv_status ready (set_srv_public_key pk
        (set_srv_host_cert (persist_host_cert cert (ne_ca_public_key e)) s)))) d
  | Ok _ => False
  | Raise _ => final_db (provision_server_task acquired e sid b) d =
      on_servers (tbl_update sid (set_srv_status error)) d
  end.
Proof.
  intros Hs. unfold result, final_db, run, provision_server_task, bind, get_db, some_or_raise.
  destruct acquired; cbn [negb]; [|done]. cbn [view start]. rewrite Hs.
  unfold ret, raise, mark_error_server, alter_server, bind, modify_db, commit.
  destruct (rows (sshkeys d) !! srv_ssh_key_id server); [|reflexivity].
  unfold try_except.
  destruct (run_bootstrap_if_supplied e b (start d)) as [[[]|exc] w] eqn:Eb.
  all: assert (Hw : w = start d).
  1, 3: revert Eb; unfold run_bootstrap_if_supplied, bind, some_or_raise, lift, ret, raise;
    repeat case_match; intros; simplify_eq; done.
  all: subst w.
  2: destruct (is_ssh_expected exc); done.
  unfold lift, on_runner, install_host_cert_cols, lift, bind, ret.
  destruct (ne_open e) as [[]|exc]; [|by destruct (is_ssh_expected exc)].
  unfold lift. destruct (provision_server _ _ _ _) as [[pk|exc] h]; cbn [fst];
    [|by destruct (is_ssh_expected exc)].
  destruct (ne_install_host_cert e) as [cert|exc] eqn:Ec; [|by destruct (is_ssh_expected exc)].
  exists cert. done.
Qed.

(** ** Witnesses *)

(** A node where every command succeeds with empty output. *)
Definition quiet_env : node_env :=
  mkNodeEnv unit (fun _ h => (Ok "", h)) tt (Ok tt)
    (Ok (mkHostCert "cert" 0 86400000000 7 ["hub.example"])) "ca-key"
    (fun _ _ => Ok "") (fun _ _ => Ok tt).

Definition seen_peer (key : string) : PeerInfo := mkPeerInfo key None None "10.9.0.2/32" 0 1 2 None.
Definition old_peers : table DiscoveredPeer :=
  mkTable {[1 := peer_row 1 5 5 [] (seen_peer "gone="); 2 := peer_row 1 5 5 [] (seen_peer "ka=");
            3 := peer_row 2 5 5 [] (seen_peer "other=")]} 4.

Lemma discovery_is_authoritative_witness :
  exists t' new updated pruned,
  record_peers 1 9 ["ka="] [seen_peer "ka="; seen_peer "kb="] old_peers = (t', (new, updated, pruned)) /\
  (new, updated, pruned) = (1, 1, 1) /\
  ((forall key, known 1 key t' <-> key ∈ (pi_public_key <$> [seen_peer "ka="; seen_peer "kb="])) /\
   same_others 1 old_peers t' /\ new + updated = Z.of_nat (length [seen_peer "ka="; seen_peer "kb="])).
Proof.
  destruct (record_peers 1 9 ["ka="] [seen_peer "ka="; seen_peer "kb="] old_peers)
    as [t' [[new updated] pruned]] eqn:E.
  exists t', new, updated, pruned. split; [done|]. split; [vm_compute in E; congruence|].
  apply (discovery_is_authoritative 1 9 ["ka="] _ old_peers t' new updated pruned); [|exact E].
  split; [simpl; lia|]. intros i r Hi. simpl in Hi.
  rewrite !lookup_insert, lookup_singleton in Hi. simpl. repeat case_decide; done || lia.
Defined.

Lemma provision_server_outcome_witness :
  result (provision_server_task true quiet_env 1 no_bootstrap) demo_db =
    Ok (ServerProvisioned "" "10.9.0.1/29" 1) /\
  exists cert, ne_install_host_cert quiet_env = Ok cert /\
    final_db (provision_server_task true quiet_env 1 no_bootstrap) demo_db =
    on_servers (tbl_update 1 (fun s => set_srv_status ready (set_srv_public_key ""
      (set_srv_host_cert (persist_host_cert cert (ne_ca_public_key quiet_env)) s)))) demo_db.
Proof.
  assert (H : result (provision_server_task true quiet_env 1 no_bootstrap) demo_db =
    Ok (ServerProvisioned "" "10.9.0.1/29" 1)) by (vm_compute; reflexivity).
  split; [exact H|].
  pose proof (provision_server_outcome true quiet_env 1 no_bootstrap demo_db demo_server eq_refl) as Hp.
  rewrite H in Hp. exact Hp.
Defined.
