(* ===== verification/Reconfig.v ===== *)
(** * Hub reconfiguration under concurrency

    [request_reconfigure] and [reconfigure_server_task] of
    [src/src/wg_manager/tasks.py] as a transition system over one hub: any
    number of requests and task runs interleave with any other committed
    change of the database.  A run holds the hub's lock ([Locks.v]), so at
    most one is in flight; it reads the requested generation and the clients
    from one snapshot, writes the hub's configuration over SSH and then marks
    the generation applied; it may fail at any point.  Re-provisioning the
    hub takes the same lock and writes the same file without marking a
    generation.

    The history of committed databases is kept, so that a theorem can say how
    recent the configuration on the hub is. *)

From S2P Require Import Prelude PyStr Models Session Demo Wireguard Tasks.

Record flight := mkFlight {
  fl_target : option Z;       (* generation to mark applied; none for a provision *)
  fl_source : nat;            (* index of the snapshot it read *)
  fl_peers : list Client;
  fl_written : bool           (* the hub has the new configuration *)
}.

Record hub_state := mkHub {
  history : list DB;                        (* committed databases, oldest first *)
  hub_peers : option (nat * list Client);   (* configuration on the hub and the snapshot it is from *)
  requests : list (Z * nat);                (* generation, and the database it must cover *)
  in_flight : option flight
}.

Definition current (s : hub_state) : DB := default empty_db (last (history s)).
Definition now_index (s : hub_state) : nat := pred (length (history s)).
Definition requested (server_id : Z) (d : DB) : Z :=
  from_option srv_reconfig_requested_gen 0 (rows (servers d) !! server_id).
Definition applied (server_id : Z) (d : DB) : Z :=
  from_option srv_reconfig_applied_gen 0 (rows (servers d) !! server_id).

Definition commit_db (d : DB) (s : hub_state) : hub_state :=
  mkHub (history s ++ [d]) (hub_peers s) (requests s) (in_flight s).

Section hub.
Context (sid : Z).

Inductive hub_step : hub_state -> hub_state -> Prop :=
(** another transaction commits; it does not touch the hub's generations *)
| HubChange d s :
    requested sid d = requested sid (current s) -> applied sid d = applied sid (current s) ->
    hub_step s (commit_db d s)
(** [request_reconfigure]: the change it announces is already committed *)
| HubRequest s :
    is_Some (rows (servers (current s)) !! sid) ->
    let d := bump_generation sid (current s) in
    hub_step s (mkHub (history s ++ [d]) (hub_peers s)
                  ((requested sid d, now_index s) :: requests s) (in_flight s))
(** a run takes the lock and reads its snapshot *)
| HubBegin generation server target peers s :
    in_flight s = None ->
    reconfig_begin sid generation (current s) = PlanRun server target peers ->
    hub_step s (mkHub (history s) (hub_peers s) (requests s)
                  (Some (mkFlight (Some target) (now_index s) peers false)))
(** a provision of the hub takes the lock and reads its snapshot *)
| HubProvision s :
    in_flight s = None ->
    hub_step s (mkHub (history s) (hub_peers s) (requests s)
                  (Some (mkFlight None (now_index s) (ready_clients_for (current s) sid) false)))
(** the configuration arrives on the hub *)
| HubWrite f s :
    in_flight s = Some f ->
    hub_step s (mkHub (history s) (Some (fl_source f, fl_peers f)) (requests s)
                  (Some (mkFlight (fl_target f) (fl_source f) (fl_peers f) true)))
(** the run marks its generation applied and releases the lock *)
| HubFinish f target s :
    in_flight s = Some f -> fl_written f = true -> fl_target f = Some target ->
    hub_step s (mkHub (history s ++ [mark_applied sid target (current s)]) (hub_peers s)
                  (requests s) None)
(** a failure, before or after the write, or the end of a provision *)
| HubAbandon f s :
    in_flight s = Some f ->
    hub_step s (mkHub (history s) (hub_peers s) (requests s) None).

Inductive hub_reachable (d0 : DB) : hub_state -> Prop :=
| HubInit : hub_reachable d0 (mkHub [d0] None [] None)
| HubNext s s' : hub_reachable d0 s -> hub_step s s' -> hub_reachable d0 s'.

(** ** The invariant *)

Definition covers (s : hub_state) (g : Z) (i : nat) : Prop := forall g' j,
  (g', j) ∈ requests s -> g' <= g -> (j <= i)%nat.

Record hub_inv (s : hub_state) : Prop := {
  inv_nonempty : (1 <= length (history s))%nat;
  inv_requests : forall g i, (g, i) ∈ requests s ->
    g <= requested sid (current s) /\ (i <= now_index s)%nat;
  inv_applied : forall g i, (g, i) ∈ requests s -> g <= applied sid (current s) ->
    exists h peers, hub_peers s = Some (h, peers) /\ (i <= h)%nat;
  inv_hub : forall h peers, hub_peers s = Some (h, peers) ->
    (h <= now_index s)%nat /\ exists d, history s !! h = Some d /\ peers = ready_clients_for d sid;
  inv_flight : forall f, in_flight s = Some f ->
    (fl_source f <= now_index s)%nat /\
    (exists d, history s !! fl_source f = Some d /\ fl_peers f = ready_clients_for d sid) /\
    (forall h peers, hub_peers s = Some (h, peers) -> (h <= fl_source f)%nat) /\
    (forall t, fl_target f = Some t -> t <= requested sid (current s) /\ covers s t (fl_source f)) /\
    (fl_written f = true -> hub_peers s = Some (fl_source f, fl_peers f))
}.

Lemma current_app l d h r f : current (mkHub (l ++ [d]) h r f) = d.
Proof. unfold current. simpl. by rewrite last_snoc. Qed.

Lemma now_index_app l (d : DB) h r f : now_index (mkHub (l ++ [d]) h r f) = length l.
Proof. unfold now_index. simpl. rewrite length_app. simpl. lia. Qed.

Lemma current_lookup s : (1 <= length (history s))%nat ->
  history s !! now_index s = Some (current s).
Proof.
  intros H. unfold current, now_index. rewrite <- last_lookup.
  destruct (last (history s)) eqn:E; [done|]. apply last_None in E. rewrite E in H. simpl in H. lia.
Qed.

Lemma requested_bump d : is_Some (rows (servers d) !! sid) ->
  requested sid (bump_generation sid d) = requested sid d + 1 /\
  applied sid (bump_generation sid d) = applied sid d.
Proof.
  intros [s Hs]. unfold requested, applied, bump_generation. simpl.
  by rewrite lookup_alter_eq, Hs.
Qed.

Lemma mark_applied_gens target d :
  requested sid (mark_applied sid target d) = requested sid d /\
  (applied sid (mark_applied sid target d) = applied sid d \/
   applied sid (mark_applied sid target d) = target).
Proof.
  unfold requested, applied, mark_applied. simpl. rewrite lookup_alter_eq.
  destruct (rows (servers d) !! sid) as [s|]; simpl; [|auto].
  destruct (_ <? target); simpl; auto.
Qed.

(** Appending a database keeps what is known of older ones. *)
Lemma inv_extend s d reqs' :
  hub_inv s ->
  (forall g i, (g, i) ∈ reqs' -> (g, i) ∈ requests s \/
     (requested sid (current s) < g <= requested sid d /\ i = now_index s)) ->
  requested sid (current s) <= requested sid d -> applied sid d = applied sid (current s) ->
  applied sid (current s) <= requested sid (current s) ->
  hub_inv (mkHub (history s ++ [d]) (hub_peers s) reqs' (in_flight s)).
Proof.
  intros [H1 H2 H3 H4 H5] Hr Hreq Happ Hle.
  assert (Hidx : (now_index s < length (history s))%nat) by (unfold now_index; lia).
  split; cbn [history hub_peers requests in_flight]; rewrite ?current_app, ?now_index_app.
  - rewrite length_app. lia.
  - intros g i [Hin|[? ->]]%Hr; [apply H2 in Hin; lia|lia].
  - intros g i [Hin|[? ->]]%Hr Hg; [|lia]. rewrite Happ in Hg. eauto.
  - intros h peers Hh. destruct (H4 h peers Hh) as (Hle' & d' & Hd & ->). split; [lia|].
    exists d'. split; [by apply lookup_app_l_Some|done].
  - intros f Hf. destruct (H5 f Hf) as (Ha & (d' & Hd & Hp) & Hb & Hc & Hw).
    split_and!; [lia| |done| |done].
    + exists d'. split; [by apply lookup_app_l_Some|done].
    + intros t Ht. destruct (Hc t Ht) as [Ht1 Ht2]. split; [lia|].
      intros g j [Hin|[? ->]]%Hr Hg; [by eapply Ht2|lia].
Qed.

Lemma hub_inv_step s s' :
  hub_inv s -> applied sid (current s) <= requested sid (current s) -> hub_step s s' ->
  hub_inv s' /\ applied sid (current s') <= requested sid (current s').
Proof.
  intros Hinv Hle Hs.
  destruct Hs as [d s Hreq Happ|s Hsome d|gen server target peers s Hn Hb|s Hn|f s Hf|f target s Hf Hw Ht|f s Hf].
  - unfold commit_db. rewrite current_app. split; [|lia].
    apply inv_extend; try done; [tauto|lia].
  - destruct (requested_bump _ Hsome) as [Hr Ha]. rewrite current_app. split; [|unfold d; lia].
    apply inv_extend; try done; [|unfold d; lia].
    intros g i [[= -> ->]|Hin]%elem_of_cons; [right; unfold d; lia|tauto].
  - destruct Hinv as [H1 H2 H3 H4 H5]. split; [|done]. split; simpl; try done.
    intros f [= <-]. simpl. unfold reconfig_begin in Hb.
    destruct (rows (servers (current s)) !! sid) as [srv|] eqn:Es; [|done].
    destruct (match gen with Some _ => _ | None => _ end); [done|].
    destruct (rows (sshkeys (current s)) !! srv_ssh_key_id srv); [|done]. simplify_eq.
    split_and!; try done.
    + exists (current s). split; [by apply current_lookup|done].
    + intros h peers Hh. by apply H4 in Hh as [? _].
    + intros t [= <-]. split; [unfold requested; change (current _) with (current s); by rewrite Es|].
      intros g j Hin _. by apply H2 in Hin as [_ ?].
  - destruct Hinv as [H1 H2 H3 H4 H5]. split; [|done]. split; simpl; try done.
    intros f [= <-]. simpl. split_and!; try done.
    + exists (current s). split; [by apply current_lookup|done].
    + intros h peers Hh. by apply H4 in Hh as [? _].
  - destruct Hinv as [H1 H2 H3 H4 H5]. destruct (H5 f Hf) as (Ha & Hd & Hb & Hc & _).
    split; [|done]. split; simpl; try done.
    + intros g i Hin Hg. destruct (H3 g i Hin Hg) as (h & p & Hh & Hi).
      pose proof (Hb h p Hh). exists (fl_source f), (fl_peers f). split; [done|lia].
    + intros h p [= <- <-]. done.
    + intros f' [= <-]. simpl. split_and!; try done. intros h p [= <- <-]. done.
  - destruct Hinv as [H1 H2 H3 H4 H5]. destruct (H5 f Hf) as (Ha & Hd & Hb & Hc & Hwr).
    destruct (Hc target Ht) as [Hc1 Hc2]. specialize (Hwr Hw).
    destruct (mark_applied_gens target (current s)) as [Hr Happ].
    assert (Hidx : (now_index s < length (history s))%nat) by (unfold now_index; lia).
    rewrite current_app, Hr. split; [|destruct Happ as [-> | ->]; lia].
    split; cbn [history hub_peers requests in_flight]; rewrite ?current_app, ?now_index_app, ?Hr.
    + rewrite length_app. lia.
    + intros g i Hin. apply H2 in Hin. lia.
    + intros g i Hin Hg. destruct Happ as [E|E]; rewrite E in Hg; [eauto|].
      exists (fl_source f), (fl_peers f). split; [done|]. by eapply Hc2.
    + intros h p Hh. destruct (H4 h p Hh) as (? & d' & Hd' & ->). split; [lia|].
      exists d'. split; [by apply lookup_app_l_Some|done].
    + done.
  - destruct Hinv as [H1 H2 H3 H4 H5]. split; [|done]. by split.
Qed.

Lemma hub_reachable_inv d0 s :
  applied sid d0 <= requested sid d0 -> hub_reachable d0 s ->
  hub_inv s /\ applied sid (current s) <= requested sid (current s).
Proof.
  intros H0. induction 1 as [|s s' Hr IH Hs].
  - split; [|done]. split; simpl; try done; intros g i Hin; by apply elem_of_nil in Hin.
  - destruct IH. by eapply hub_inv_step.
Qed.

(** C3. No lost updates: however requests, task runs, failures and other
    transactions interleave, once the hub's applied generation has reached a
    request's generation, the configuration on the hub was rendered from the
    ready clients of a committed database at least as recent as the one the
    request announced. *)
Theorem reconfigure_no_lost_updates d0 s g i :
  applied sid d0 <= requested sid d0 -> hub_reachable d0 s ->
  (g, i) ∈ requests s -> g <= applied sid (current s) ->
  exists h d, hub_peers s = Some (h, ready_clients_for d sid) /\
    history s !! h = Some d /\ (i <= h)%nat.
Proof.
  intros H0 Hr Hin Hg. destruct (hub_reachable_inv d0 s H0 Hr) as [[_ _ H3 H4 _] _].
  destruct (H3 g i Hin Hg) as (h & p & Hh & Hi). destruct (H4 h p Hh) as (_ & d & Hd & ->). eauto 10.
Qed.

(** The generations stay in step: the applied generation never exceeds the
    requested one, never decreases, and every request gets a generation above
    all earlier ones. *)
Theorem generations_monotone d0 s s' :
  applied sid d0 <= requested sid d0 -> hub_reachable d0 s -> hub_step s s' ->
  applied sid (current s) <= applied sid (current s') <= requested sid (current s') /\
  requested sid (current s) <= requested sid (current s') /\
  (forall g i, (g, i) ∈ requests s' -> (g, i) ∉ requests s -> requested sid (current s) < g).
Proof.
  intros H0 Hr Hs. destruct (hub_reachable_inv d0 s H0 Hr) as [Hinv Hle].
  destruct (hub_inv_step s s' Hinv Hle Hs) as [_ Hle'].
  destruct Hs as [d s Hreq Happ|s Hsome d|gen server target peers s Hn Hb|s Hn|f s Hf|f target s Hf Hw Ht|f s Hf];
    unfold commit_db in *; rewrite ?current_app in *; try (split_and!; [done|done|done|]; simpl; tauto).
  - split_and!; [lia|lia|lia|]. simpl. tauto.
  - destruct (requested_bump _ Hsome) as [Hr' Ha']. fold d in Hr', Ha'. split_and!; [lia|lia|lia|].
    simpl. intros g i [[= -> ->]|Hin]%elem_of_cons Hnin; [lia|done].
  - assert (Hm : applied sid (current s) <= applied sid (mark_applied sid target (current s))).
    { unfold applied, mark_applied. simpl. rewrite lookup_alter_eq.
      destruct (rows (servers (current s)) !! sid) as [srv|]; simpl; [|lia].
      destruct (Z.ltb_spec (srv_reconfig_applied_gen srv) target); simpl; lia. }
    destruct (mark_applied_gens target (current s)) as [Hr' _].
    split_and!; [done|done|lia|]. simpl. tauto.
Qed.
End hub.

(** ** The task as a whole *)

(** A reconfigure task that reports success has done its job: it ran with
    the lock, the committed applied generation covers the generation it was
    queued with, and when it reports [applied] the peers it reports are the
    ready clients it read.  Without the lock it asks to be retried and
    changes nothing. *)
Theorem successful_task_covers_generation acquired e sid g d r :
  g <= requested sid d ->
  result (reconfigure_server_task acquired e sid (Some g)) d = Ok r ->
  acquired = true /\
  g <= applied sid (final_db (reconfigure_server_task acquired e sid (Some g)) d) /\
  (forall t names, r = Applied t names -> names = cl_name <$> ready_clients_for d sid).
Proof.
  unfold result, final_db, run, reconfigure_server_task, bind, get_db, reconfig_begin. intros Hg.
  destruct acquired; cbn [negb]; [|done]. cbn [view start].
  destruct (rows (servers d) !! sid) as [srv|] eqn:Es; [|done].
  assert (Hreq : requested sid d = srv_reconfig_requested_gen srv) by (unfold requested; by rewrite Es).
  destruct (Z.leb_spec g (srv_reconfig_applied_gen srv)).
  { intros [= <-]. split_and!; [done| |done]. simpl. unfold applied. by rewrite Es. }
  destruct (rows (sshkeys d) !! srv_ssh_key_id srv); [|done].
  unfold try_except, on_runner, lift, raise. destruct (ne_open e) as [[]|]; [|done].
  destruct (reconfigure_server (ne_exec e) srv (ready_clients_for d sid) (ne_node e))
    as [[[]|exc] h']; cbn [fst]; [|done].
  intros [= <-]. split_and!; [done| |by intros t names [= <- <-]].
  unfold applied. cbn. rewrite lookup_alter_eq, Es. cbn.
  destruct (Z.ltb_spec (srv_reconfig_applied_gen srv) (srv_reconfig_requested_gen srv)); cbn; lia.
Qed.

(** ** Witnesses *)

Definition hub1 : DB := bump_generation 1 demo_db.
Definition demo_hub : hub_state :=
  mkHub [demo_db; hub1; mark_applied 1 4 hub1] (Some (1%nat, ready_clients_for hub1 1)) [(4, 0%nat)] None.

Lemma demo_hub_reachable : hub_reachable 1 demo_db demo_hub.
Proof.
  assert (H1 : hub_reachable 1 demo_db (mkHub [demo_db; hub1] None [(4, 0%nat)] None)).
  { eapply HubNext; [apply HubInit|]. apply (HubRequest 1 (mkHub [demo_db] None [] None)). eexists. reflexivity. }
  assert (H2 : hub_reachable 1 demo_db (mkHub [demo_db; hub1] None [(4, 0%nat)]
    (Some (mkFlight (Some 4) 1 (ready_clients_for hub1 1) false)))).
  { eapply HubNext; [exact H1|]. eapply (HubBegin 1 (Some 4)); [done|]. reflexivity. }
  assert (H3 : hub_reachable 1 demo_db (mkHub [demo_db; hub1] (Some (1%nat, ready_clients_for hub1 1))
    [(4, 0%nat)] (Some (mkFlight (Some 4) 1 (ready_clients_for hub1 1) true)))).
  { eapply HubNext; [exact H2|]. exact (HubWrite 1 (mkFlight (Some 4) 1 (ready_clients_for hub1 1) false)
      (mkHub [demo_db; hub1] None [(4, 0%nat)] (Some (mkFlight (Some 4) 1 (ready_clients_for hub1 1) false)))
      eq_refl). }
  eapply HubNext; [exact H3|].
  apply (HubFinish 1 (mkFlight (Some 4) 1 (ready_clients_for hub1 1) true) 4 (mkHub [demo_db; hub1]
    (Some (1%nat, ready_clients_for hub1 1)) [(4, 0%nat)]
    (Some (mkFlight (Some 4) 1 (ready_clients_for hub1 1) true)))); reflexivity.
Qed.

Lemma reconfigure_no_lost_updates_witness :
  exists h d, hub_peers demo_hub = Some (h, ready_clients_for d 1) /\
    history demo_hub !! h = Some d /\ (0 <= h)%nat.
Proof.
  apply (reconfigure_no_lost_updates 1 demo_db demo_hub 4 0).
  - vm_compute. discriminate.
  - apply demo_hub_reachable.
  - left.
  - vm_compute. discriminate.
Defined.

Lemma generations_monotone_witness :
  let s := mkHub [demo_db] None [] None in
  let s' := mkHub [demo_db; hub1] None [(4, 0%nat)] None in
  applied 1 (current s) <= applied 1 (current s') <= requested 1 (current s') /\
  requested 1 (current s) <= requested 1 (current s') /\
  (forall g i, (g, i) ∈ requests s' -> (g, i) ∉ requests s -> requested 1 (current s) < g).
Proof.
  apply (generations_monotone 1 demo_db).
  - vm_compute. discriminate.
  - apply HubInit.
  - apply (HubRequest 1 (mkHub [demo_db] None [] None)). eexists. reflexivity.
Defined.

Lemma successful_task_covers_generation_witness :
  result (reconfigure_server_task true quiet_env 1 (Some 3)) demo_db = Ok (Applied 3 ["a"]) /\
  (true = true /\
   3 <= applied 1 (final_db (reconfigure_server_task true quiet_env 1 (Some 3)) demo_db) /\
   (forall t names, Applied 3 ["a"] = Applied t names -> names = cl_name <$> ready_clients_for demo_db 1)).
Proof.
  assert (H : result (reconfigure_server_task true quiet_env 1 (Some 3)) demo_db = Ok (Applied 3 ["a"]))
    by (vm_compute; reflexivity).
  split; [exact H|].
  apply (successful_task_covers_generation true quiet_env 1 3 demo_db); [vm_compute; discriminate|exact H].
Defined.
