(* ===== verification/RouterServers.v ===== *)
(** * The servers router

    [src/src/wg_manager/routers/servers.py] and [_bootstrap.py].  A handler is
    a computation in the session monad; its arguments are the validated
    payload, the tenant scope of the caller and the actor recorded in the
    audit log.  Task ids are not modelled: a response is the row it shows. *)

From S2P Require Import Prelude PyStr IpAddr Hashing Models Session Demo Ipam TenantScope AuditLog Enrollment Wireguard Tasks.

(** ** Shared by the routers *)

(** [not scope.is_super_admin and row.tenant_id not in scope.tenant_ids] *)
Definition out_of_scope (s : TenantScope) (tenant_id : option Z) : bool :=
  negb (is_super_admin s) &&
  match tenant_id with Some t => negb (mem t (tenant_ids s)) | None => true end.

(** [GET]: 404 when the row does not exist or is out of scope. *)
Definition load_visible {A} (tbl : DB -> table A) (tenant : A -> option Z) (what : string)
  (s : TenantScope) (id : Z) : M A :=
  d <- get_db ;;
  row <- some_or_raise (rows (tbl d) !! id) (http_error 404 what) ;;
  raise_if (out_of_scope s (tenant row)) (http_error 404 what) ;;
  ret row.

(** [PATCH] and [DELETE]: the same, then the per-tenant role gate. *)
Definition load_mutable {A} (tbl : DB -> table A) (tenant : A -> option Z) (what : string)
  (s : TenantScope) (id : Z) : M A :=
  row <- load_visible tbl tenant what s id ;;
  require_tenant_role s (tenant row) [admin; operator] ;;
  ret row.

(** [list(session.exec(select(Model).where(scope_filter)))] *)
Definition list_visible {A} (tbl : DB -> table A) (tenant : A -> option Z) (s : TenantScope)
  : M (list (Z * A)) :=
  d <- get_db ;;
  ret (tbl_select (fun _ r => match scope_filter s with None => true | Some p => p (tenant r) end) (tbl d)).

(** ** Bootstrap material *)

Record BootstrapKeyFields := mkBootstrapKeyFields {
  bootstrap_ssh_key_pem : option string; bootstrap_ssh_key_passphrase : option string
}.

(** [encrypt] is the crypto backend: plaintext and context to ciphertext, or
    the backend's error. *)
Definition encrypt_bootstrap_kwargs (encrypt : string -> string -> outcome string)
  (node_kind : string) (p : BootstrapKeyFields) : M bootstrap_kwargs :=
  match bootstrap_ssh_key_pem p with
  | None => ret no_bootstrap
  | Some pem =>
      let pem_context := "provision-" +:+ node_kind +:+ ":bootstrap-pem" in
      pem_ct <- lift (encrypt pem pem_context) ;;
      match bootstrap_ssh_key_passphrase p with
      | None => ret (mkBootstrapKwargs (Some pem_ct) (Some pem_context) None None)
      | Some pass =>
          let pass_context := "provision-" +:+ node_kind +:+ ":bootstrap-passphrase" in
          pass_ct <- lift (encrypt pass pass_context) ;;
          ret (mkBootstrapKwargs (Some pem_ct) (Some pem_context) (Some pass_ct) (Some pass_context))
      end
  end.

(** [_validate_passphrase_requires_pem] *)
Definition passphrase_requires_pem (p : BootstrapKeyFields) : bool :=
  match bootstrap_ssh_key_passphrase p with
  | None => true
  | Some _ => nonempty (default "" (bootstrap_ssh_key_pem p))
  end.

(** ** Payloads *)

Record ServerCreate := mkServerCreate {
  sc_hostname : string; sc_ssh_port : Z; sc_ssh_username : string; sc_ssh_key_id : Z;
  sc_endpoint_host : string; sc_endpoint_port : Z; sc_interface : string;
  sc_subnet : option string; sc_tenant_id : option Z; sc_bootstrap : BootstrapKeyFields
}.

(** The [subnet] validator: the canonical text, or a validation error. *)
Definition validate_subnet (subnet : option string) : option (option string) :=
  match subnet with
  | None => Some None
  | Some v => (fun n => Some (net_str n)) <$> parse_strict_subnet v
  end.

Record ServerUpdate := mkServerUpdate {
  su_hostname : option string; su_ssh_port : option Z; su_ssh_username : option string;
  su_ssh_key_id : option Z; su_endpoint_host : option string; su_endpoint_port : option Z
}.

(** [setattr] for every field that was set. *)
Definition apply_server_update (u : ServerUpdate) (s : Server) : Server :=
  mkServer (srv_tenant_id s) (default (srv_hostname s) (su_hostname u))
    (default (srv_ssh_port s) (su_ssh_port u)) (default (srv_ssh_username s) (su_ssh_username u))
    (default (srv_ssh_key_id s) (su_ssh_key_id u))
    (default (srv_endpoint_host s) (su_endpoint_host u))
    (default (srv_endpoint_port s) (su_endpoint_port u)) (srv_interface s) (srv_subnet s)
    (srv_address s) (srv_public_key s) (srv_status s) (srv_created_at s) (srv_host_cert s)
    (srv_reconfig_requested_gen s) (srv_reconfig_applied_gen s).

(** [sorted(updates.keys())] *)
Definition server_update_fields (u : ServerUpdate) : list string :=
  (if su_endpoint_host u then ["endpoint_host"] else []) ++
  (if su_endpoint_port u then ["endpoint_port"] else []) ++
  (if su_hostname u then ["hostname"] else []) ++
  (if su_ssh_key_id u then ["ssh_key_id"] else []) ++
  (if su_ssh_port u then ["ssh_port"] else []) ++
  (if su_ssh_username u then ["ssh_username"] else []).

(** ** Foreign keys to a server *)

Definition client_ids_of (d : DB) (server_id : Z) : list Z :=
  fst <$> tbl_select (fun _ c => cl_server_id c =? server_id) (clients d).
Definition discovered_ids_of (d : DB) (server_id : Z) : list Z :=
  fst <$> tbl_select (fun _ p => dp_server_id p =? server_id) (discovered d).
Definition token_ids_of (d : DB) (server_id : Z) : list Z :=
  fst <$> tbl_select (fun _ t => tok_server_id t =? server_id) (tokens d).

(** The constraints under which the database lets the row go. *)
Definition server_unreferenced (server_id : Z) (d : DB) : bool :=
  bool_decide (client_ids_of d server_id = []) && bool_decide (discovered_ids_of d server_id = []) &&
  bool_decide (token_ids_of d server_id = []).

Section servers.
Context `{Dumps} (encrypt : string -> string -> outcome string) (default_subnet : string) (now : Z).

(** ** Handlers *)

Definition register_server (payload : ServerCreate) (a : actor) (s : TenantScope) : M (Z * Server) :=
  t <- resolve_create_tenant s (sc_tenant_id payload) create_roles ;;
  d <- get_db ;;
  some_or_raise (rows (sshkeys d) !! sc_ssh_key_id payload) (http_error 404 "SSH key not found") ;;
  let subnet_cidr := match sc_subnet payload with
                     | Some v => if nonempty v then v else default_subnet
                     | None => default_subnet
                     end in
  network <- some_or_raise (IPv4Network false subnet_cidr) (ValueError "invalid IPv4 network") ;;
  let address := v4_str (hosts_first network) +:+ "/" +:+ dec (nplen network) in
  inside <- some_or_raise (subnet_in_pool (net_str network) (tn_subnet_pool t.2))
              (ValueError "invalid IPv4 network") ;;
  raise_if (negb inside)
    (http_error 422 ("subnet " +:+ repr (net_str network) +:+ " is outside tenant " +:+
                     repr (tn_slug t.2) +:+ "'s pool " +:+ repr (tn_subnet_pool t.2))) ;;
  let row := mkServer (Some t.1) (sc_hostname payload) (sc_ssh_port payload) (sc_ssh_username payload)
               (sc_ssh_key_id payload) (sc_endpoint_host payload) (sc_endpoint_port payload)
               (sc_interface payload) (net_str network) address "" pending now no_host_cert 0 0 in
  let id := next_id (servers d) in
  modify_db (on_servers (tbl_insert row)) ;;
  persist now (mkAuditArgs "server.create" (actor_from_request a) "server" (Some id) "create" None
    (Some (dump_server id row)) (Some (JObj [("hostname", JStr (srv_hostname row))])) None
    (srv_tenant_id row)) ;;
  commit ;;
  b <- encrypt_bootstrap_kwargs encrypt "server" (sc_bootstrap payload) ;;
  dispatch (ProvisionServer id b) ;;
  ret (id, row).

Definition reprovision_server (server_id : Z) : M Server :=
  d <- get_db ;;
  row <- some_or_raise (rows (servers d) !! server_id) (http_error 404 "Server not found") ;;
  let row' := set_srv_status pending row in
  modify_db (on_servers (tbl_set server_id row')) ;;
  commit ;;
  dispatch (ProvisionServer server_id no_bootstrap) ;;
  ret row'.

Definition list_servers (s : TenantScope) : M (list (Z * Server)) := list_visible servers srv_tenant_id s.

Definition get_server (server_id : Z) (s : TenantScope) : M Server :=
  load_visible servers srv_tenant_id "Server not found" s server_id.

Definition update_server (server_id : Z) (u : ServerUpdate) (a : actor) (s : TenantScope) : M Server :=
  row <- load_mutable servers srv_tenant_id "Server not found" s server_id ;;
  d <- get_db ;;
  match su_ssh_key_id u with
  | Some k => some_or_raise (rows (sshkeys d) !! k) (http_error 404 "SSH key not found") ;; ret tt
  | None => ret tt
  end ;;
  let row' := apply_server_update u row in
  modify_db (on_servers (tbl_set server_id row')) ;;
  persist now (mkAuditArgs "server.update" (actor_from_request a) "server" (Some server_id) "update"
    (Some (dump_server server_id row)) (Some (dump_server server_id row'))
    (Some (JObj [("hostname", JStr (srv_hostname row'));
                 ("fields", JList (JStr <$> server_update_fields u))])) None (srv_tenant_id row')) ;;
  commit ;;
  ret row'.

Definition delete_server (server_id : Z) (s : TenantScope) (force : bool) : M unit :=
  load_mutable servers srv_tenant_id "Server not found" s server_id ;;
  d <- get_db ;;
  let attached := client_ids_of d server_id in
  raise_if (negb (bool_decide (attached = [])) && negb force)
    (http_error 409 ("Server still has " +:+ dec (Z.of_nat (length attached)) +:+
                     " managed client(s); pass ?force=true to cascade-delete them.")) ;;
  (if force then
     modify_db (on_clients (tbl_delete_all attached)) ;;
     modify_db (on_discovered (tbl_delete_all (discovered_ids_of d server_id)))
   else ret tt) ;;
  flush_checked (server_unreferenced server_id) (on_servers (tbl_delete server_id)) ;;
  commit.

Definition discover_server_peers (server_id : Z) : M Server :=
  d <- get_db ;;
  row <- some_or_raise (rows (servers d) !! server_id) (http_error 404 "Server not found") ;;
  dispatch (DiscoverPeers server_id) ;;
  ret row.

Definition list_server_discovered_peers (server_id : Z) : M (list (Z * DiscoveredPeer)) :=
  d <- get_db ;;
  some_or_raise (rows (servers d) !! server_id) (http_error 404 "Server not found") ;;
  ret (tbl_select (fun _ p => dp_server_id p =? server_id) (discovered d)).

Definition list_all_discovered_peers : M (list (Z * DiscoveredPeer)) :=
  d <- get_db ;;
  ret (map_to_list (rows (discovered d))).

Definition rotate_server_host_cert (server_id : Z) : M Server :=
  d <- get_db ;;
  row <- some_or_raise (rows (servers d) !! server_id) (http_error 404 "Server not found") ;;
  some_or_raise (rows (sshkeys d) !! srv_ssh_key_id row)
    (http_error 409 ("server " +:+ dec server_id +:+ " references SSHKey " +:+ dec (srv_ssh_key_id row) +:+
                     " which no longer exists; reassign before rotating")) ;;
  dispatch (RotateHostCert server_id) ;;
  ret row.

Definition discover_all_servers : M Z :=
  d <- get_db ;;
  dispatch DiscoverAllPeers ;;
  ret (Z.of_nat (size (rows (servers d)))).
End servers.


(** ** Lemmas *)

(** The row exists, its tenant is in scope and the caller may change it. *)
Definition may_change {A} (t : table A) (tenant : A -> option Z) (s : TenantScope) (id : Z) (row : A) : Prop :=
  rows t !! id = Some row /\ out_of_scope s (tenant row) = false /\
  permits s (tenant row) [admin; operator].

Lemma load_visible_spec {A} (tbl : DB -> table A) tenant what s id w :
  (exists row, rows (tbl (view w)) !! id = Some row /\ out_of_scope s (tenant row) = false /\
     load_visible tbl tenant what s id w = (Ok row, w)) \/
  (load_visible tbl tenant what s id w = (Raise (http_error 404 what), w) /\
   forall row, rows (tbl (view w)) !! id = Some row -> out_of_scope s (tenant row) = true).
Proof.
  unfold load_visible, bind, get_db, some_or_raise, raise_if, ret, raise.
  destruct (rows (tbl (view w)) !! id) as [row|] eqn:E; [|by right].
  destruct (out_of_scope s (tenant row)) eqn:Eo; [right|left; eauto].
  split; [done|]. intros row' [= <-]. done.
Qed.

Lemma load_mutable_spec {A} (tbl : DB -> table A) tenant what s id w :
  (exists row, may_change (tbl (view w)) tenant s id row /\
     load_mutable tbl tenant what s id w = (Ok row, w)) \/
  (exists code detail, (code = 404 \/ code = 403) /\
     load_mutable tbl tenant what s id w = (Raise (http_error code detail), w) /\
     forall row, ~ may_change (tbl (view w)) tenant s id row).
Proof.
  unfold load_mutable.
  destruct (load_visible_spec tbl tenant what s id w) as [(row & Hr & Ho & E)|[E Hn]].
  - destruct (require_tenant_role_spec s (tenant row) [admin; operator] w ltac:(done))
      as [[E' Hp]|(dt & E' & Hp)]; unfold bind; rewrite E, E'.
    + left. exists row. done.
    + right. exists 403, dt. split_and!; [auto|done|]. intros row' (Hr' & _ & Hp').
      rewrite Hr in Hr'. by simplify_eq.
  - right. unfold bind. rewrite E. exists 404, what. split_and!; [auto|done|].
    intros row (Hr & Ho & _). by rewrite (Hn _ Hr) in Ho.
Qed.

Lemma load_mutable_Ok {A} (tbl : DB -> table A) tenant what s id w row w' :
  load_mutable tbl tenant what s id w = (Ok row, w') ->
  w' = w /\ may_change (tbl (view w)) tenant s id row.
Proof.
  intros H. destruct (load_mutable_spec tbl tenant what s id w) as [(r & Hm & E)|(c & dt & _ & E & _)];
    rewrite E in H; by simplify_eq.
Qed.

Lemma load_visible_Ok {A} (tbl : DB -> table A) tenant what s id w row w' :
  load_visible tbl tenant what s id w = (Ok row, w') ->
  w' = w /\ rows (tbl (view w)) !! id = Some row /\ out_of_scope s (tenant row) = false.
Proof.
  intros H. destruct (load_visible_spec tbl tenant what s id w) as [(r & Hr & Ho & E)|(E & _)];
    rewrite E in H; by simplify_eq.
Qed.

Lemma quiet_load_visible {A} (tbl : DB -> table A) tenant what s id :
  quiet (load_visible tbl tenant what s id).
Proof. unfold load_visible. solve_effect. Qed.

Lemma quiet_require s tid allowed : quiet (require_tenant_role s tid allowed).
Proof. unfold require_tenant_role. solve_effect. Qed.
#[export] Hint Resolve quiet_load_visible quiet_require : wg.

Lemma quiet_load_mutable {A} (tbl : DB -> table A) tenant what s id :
  quiet (load_mutable tbl tenant what s id).
Proof. unfold load_mutable. solve_effect. Qed.

Lemma quiet_persist now a : quiet (persist now a).
Proof. unfold persist. solve_effect. Qed.

Lemma quiet_resolve s t roles : quiet (resolve_create_tenant s t roles).
Proof. unfold resolve_create_tenant. solve_effect. Qed.
#[export] Hint Resolve quiet_load_mutable quiet_persist quiet_resolve : wg.

Lemma never_encrypt encrypt kind p :
  (forall t c, exists x, encrypt t c = Ok x) -> never_raises (encrypt_bootstrap_kwargs encrypt kind p).
Proof.
  intros He. assert (Hl : forall t c, never_raises (lift (encrypt t c))).
  { intros t c w e w'. unfold lift. destruct (He t c) as [x ->]. done. }
  unfold encrypt_bootstrap_kwargs. solve_effect.
Qed.

(** Rows that survive the deletion of the rows in [ids]. *)
Lemma delete_all_select {A} (p : Z -> A -> bool) (t : table A) i r :
  rows (tbl_delete_all (fst <$> tbl_select p t) t) !! i = Some r <->
  rows t !! i = Some r /\ p i r = false.
Proof.
  rewrite tbl_delete_all_lookup. case_bool_decide as Hin.
  - split; [done|]. intros [Hr Hp]. apply list_elem_of_fmap in Hin as ([j r'] & -> & Hj).
    apply tbl_select_spec in Hj as [Hj Hp']. simpl in *. congruence.
  - split; [|tauto]. intros Hr. split; [done|]. destruct (p i r) eqn:E; [|done].
    destruct Hin. apply list_elem_of_fmap. exists (i, r). split; [done|]. by apply tbl_select_spec.
Qed.

Lemma select_fst_nil {A} (p : Z -> A -> bool) (t : table A) :
  fst <$> tbl_select p t = [] -> forall i r, rows t !! i = Some r -> p i r = false.
Proof. intros H%fmap_nil_inv. by apply tbl_select_nil. Qed.

Lemma server_unreferenced_spec sid d :
  server_unreferenced sid d = true ->
  (forall i c, rows (clients d) !! i = Some c -> cl_server_id c <> sid) /\
  (forall i p, rows (discovered d) !! i = Some p -> dp_server_id p <> sid) /\
  (forall i t, rows (tokens d) !! i = Some t -> tok_server_id t <> sid).
Proof.
  unfold server_unreferenced, client_ids_of, discovered_ids_of, token_ids_of. intros H. bool_to_prop.
  split_and!; intros i r Hr; apply Z.eqb_neq.
  - by apply (select_fst_nil (fun _ c => cl_server_id c =? sid) (clients d)) with i.
  - by apply (select_fst_nil (fun _ p => dp_server_id p =? sid) (discovered d)) with i.
  - by apply (select_fst_nil (fun _ t => tok_server_id t =? sid) (tokens d)) with i.
Qed.

Lemma flush_checked_Ok ok f w u w' :
  flush_checked ok f w = (Ok u, w') ->
  ok (view w) = true /\ w' = mkWorld (committed w) (f (view w)) (queue w) (audit_log w) (outside w).
Proof. unfold flush_checked. destruct (ok (view w)); intros [= <- <-]. done. Qed.

Lemma encrypt_world encrypt kind p w b w' :
  encrypt_bootstrap_kwargs encrypt kind p w = (Ok b, w') -> w' = w.
Proof.
  unfold encrypt_bootstrap_kwargs. destruct (bootstrap_ssh_key_pem p); [|by intros [= <- <-]].
  intros H. step_ok H. prim_ok. destruct (bootstrap_ssh_key_passphrase p); [step_ok H|]; by prim_ok.
Qed.

(** ** Theorems *)

Section theorems.
Context `{Dumps} (encrypt : string -> string -> outcome string) (default_subnet : string) (now : Z).

(** What a successful registration does. *)
Lemma register_server_Ok payload a s w id row w' :
  register_server encrypt default_subnet now payload a s w = (Ok (id, row), w') ->
  exists tid tn b ev,
    rows (tenants (view w)) !! tid = Some tn /\ srv_tenant_id row = Some tid /\
    permits s (Some tid) create_roles /\
    subnet_in_pool (srv_subnet row) (tn_subnet_pool tn) = Some true /\
    is_Some (rows (sshkeys (view w)) !! srv_ssh_key_id row) /\ srv_status row = pending /\
    id = next_id (servers (view w)) /\
    committed w' = on_audit_events (tbl_insert ev) (on_servers (tbl_insert row) (view w)) /\
    view w' = committed w' /\
    ev_event ev = "server.create" /\ ev_resource_id ev = Some id /\ ev_tenant_id ev = Some tid /\
    queue w' = queue w ++ [ProvisionServer id b].
Proof.
  unfold register_server. intros H0. step_ok H0. unfold persist in *.
  match goal with Hr : resolve_create_tenant _ _ _ _ = (Ok ?t, _) |- _ => destruct t as [tid tn]; rename Hr into Ht end.
  apply resolve_create_facts in Ht as (-> & Ht & _ & Hg).
  repeat match goal with Hb : (bind _ _) _ = (Ok _, _) |- _ => step_ok Hb end.
  match goal with Hb : encrypt_bootstrap_kwargs _ _ _ _ = (Ok ?b, _) |- _ =>
    apply encrypt_world in Hb as ->; rename b into bk end.
  prim_ok. simpl in *. bool_to_prop. subst. exists tid, tn, bk. eexists.
  split_and!; try done; eauto.
  destruct Hg as [?|(_ & r & ? & ?)]; [by left|right; eauto].
Qed.

(** A registered hub stays inside its tenant's address pool: a successful
    [POST /servers] inserts one pending server under a fresh id, for a tenant
    that exists and in which the caller may create, with a subnet inside that
    tenant's pool and an existing SSH key, together with its audit row in one
    commit, changes no other table, and queues the provisioning of that
    server and nothing else. *)
Theorem register_server_in_pool payload a s d id row w :
  run (register_server encrypt default_subnet now payload a s) d = (Ok (id, row), w) ->
  exists tid tn b ev,
    rows (tenants d) !! tid = Some tn /\ srv_tenant_id row = Some tid /\
    permits s (Some tid) create_roles /\
    subnet_in_pool (srv_subnet row) (tn_subnet_pool tn) = Some true /\
    is_Some (rows (sshkeys d) !! srv_ssh_key_id row) /\ srv_status row = pending /\
    id = next_id (servers d) /\
    committed w = on_audit_events (tbl_insert ev) (on_servers (tbl_insert row) d) /\
    ev_event ev = "server.create" /\ ev_resource_id ev = Some id /\ ev_tenant_id ev = Some tid /\
    queue w = [ProvisionServer id b].
Proof.
  intros (w1 & E & -> & -> & _)%run_world.
  apply register_server_Ok in E as (tid & tn & b & ev & ?). exists tid, tn, b, ev. simpl in *. tauto.
Qed.

End theorems.

(** The effect of a successful deletion. *)
Lemma delete_server_Ok sid s force w w' :
  delete_server sid s force w = (Ok tt, w') ->
  exists row dmid,
    may_change (servers (view w)) srv_tenant_id s sid row /\
    (if force then
       dmid = on_discovered (tbl_delete_all (discovered_ids_of (view w) sid))
                (on_clients (tbl_delete_all (client_ids_of (view w) sid)) (view w))
     else dmid = view w) /\
    server_unreferenced sid dmid = true /\
    committed w' = on_servers (tbl_delete sid) dmid /\ view w' = committed w' /\ queue w' = queue w.
Proof.
  unfold delete_server. intros H0. step_ok H0. unfold commit in H0. injection H0 as <-.
  match goal with Hl : load_mutable _ _ _ _ _ _ = _ |- _ => apply load_mutable_Ok in Hl as [-> Hc] end.
  prim_ok.
  match goal with Hf : flush_checked _ _ _ = _ |- _ => apply flush_checked_Ok in Hf as [Hu ->] end.
  destruct force; [match goal with Hb : (bind _ _) _ = (Ok _, _) |- _ => step_ok Hb end|];
    prim_ok; eexists a, _; by split_and!.
Qed.

(** Deleting a hub leaves nothing dangling: after a successful
    [DELETE /servers/{id}] the hub is gone, no client, discovered peer or
    enrollment token refers to it, and every row that did not refer to it is
    still there; without [force] no client or peer is deleted at all. *)
Theorem delete_server_no_dangling d s sid force w :
  run (delete_server sid s force) d = (Ok tt, w) ->
  rows (servers (committed w)) = delete sid (rows (servers d)) /\
  (forall i c, rows (clients (committed w)) !! i = Some c <->
     rows (clients d) !! i = Some c /\ cl_server_id c <> sid) /\
  (forall i p, rows (discovered (committed w)) !! i = Some p <->
     rows (discovered d) !! i = Some p /\ dp_server_id p <> sid) /\
  (tokens (committed w) = tokens d /\
   forall i t, rows (tokens d) !! i = Some t -> tok_server_id t <> sid) /\
  (force = false -> clients (committed w) = clients d /\ discovered (committed w) = discovered d).
Proof.
  intros (w1 & E & -> & _)%run_world.
  apply delete_server_Ok in E as (row & dmid & _ & Hd & Hu & -> & _). cbn [start view] in Hd.
  apply server_unreferenced_spec in Hu as (Hc & Hp & Ht). destruct force; subst dmid; simpl in *.
  - split_and!; try done; intros i r; unfold client_ids_of, discovered_ids_of;
      by rewrite delete_all_select, Z.eqb_neq.
  - split_and!; try done; intros i r; naive_solver.
Qed.

(** Without [force] a hub that still has clients is never deleted: the
    answer is 409 (or the refusal of the tenant gate), and nothing changes. *)
Theorem delete_server_refuses_attached d s sid w r i c :
  rows (clients d) !! i = Some c -> cl_server_id c = sid ->
  run (delete_server sid s false) d = (r, w) ->
  (exists code detail, r = Raise (http_error code detail) /\ (code = 409 \/ code = 404 \/ code = 403)) /\
  committed w = d /\ queue w = [].
Proof.
  intros Hi Hs (w1 & E & -> & -> & _)%run_world. revert E. unfold delete_server, bind.
  destruct (load_mutable_spec servers srv_tenant_id "Server not found" s sid (start d))
    as [(row & _ & ->)|(code & dt & Hcode & -> & _)].
  - unfold get_db, raise_if, raise, ret. simpl view.
    rewrite (bool_decide_eq_false_2 (client_ids_of d sid = [])).
    + simpl. intros [= <- <-]. split_and!; eauto 10.
    + intros Hn. unfold client_ids_of in Hn.
      pose proof (select_fst_nil _ _ Hn i c Hi) as Hx. by apply Z.eqb_neq in Hx.
  - intros [= <- <-]. split_and!; [|done|done]. exists code, dt. destruct Hcode; eauto.
Qed.
(** A backend error while the bootstrap key is encrypted comes after the
    commit: the request fails, its row and audit row stay, no task runs. *)
Lemma register_server_crypto_failure : exists payload w e,
  run (@register_server id_dumps (fun _ _ => Raise (RuntimeError "vault sealed")) "10.9.0.0/24" 0
         payload (mkActor None None) unscoped) demo_db = (Raise e, w) /\
  is_Some (rows (servers (committed w)) !! 3) /\ is_Some (rows (audit_events (committed w)) !! 1) /\
  queue w = [].
Proof.
  exists (mkServerCreate "h" 22 "u" 1 "e" 51820 "wg0" (Some "10.9.8.0/24") None
            (mkBootstrapKeyFields (Some "key") None)).
  eexists _, _. split; [vm_compute; reflexivity|].
  split_and!; [eexists; vm_compute; reflexivity|eexists; vm_compute; reflexivity|reflexivity].
Qed.

(** ** Witnesses *)

Definition demo_actor : actor := mkActor (Some (2, demo_operator2)) (Some 77).
Definition demo_payload : ServerCreate :=
  mkServerCreate "hub3" 22 "ubuntu" 1 "vpn3" 51820 "wg0" (Some "10.9.8.0/24") None
    (mkBootstrapKeyFields None None).
Definition plain_encrypt (t c : string) : outcome string := Ok (c +:+ ":" +:+ t).

Lemma register_server_in_pool_witness :
  let res := run (@register_server id_dumps plain_encrypt "10.9.0.0/24" 5 demo_payload demo_actor bob_scope)
               demo_db in
  exists id row, res.1 = Ok (id, row) /\ id = 3 /\ srv_address row = "10.9.8.1/24" /\
  exists tid tn b ev,
    rows (tenants demo_db) !! tid = Some tn /\ srv_tenant_id row = Some tid /\
    permits bob_scope (Some tid) create_roles /\
    subnet_in_pool (srv_subnet row) (tn_subnet_pool tn) = Some true /\
    is_Some (rows (sshkeys demo_db) !! srv_ssh_key_id row) /\ srv_status row = pending /\
    id = next_id (servers demo_db) /\
    committed res.2 = on_audit_events (tbl_insert ev) (on_servers (tbl_insert row) demo_db) /\
    ev_event ev = "server.create" /\ ev_resource_id ev = Some id /\ ev_tenant_id ev = Some tid /\
    queue res.2 = [ProvisionServer id b].
Proof.
  intros res.
  exists 3, (mkServer (Some 1) "hub3" 22 "ubuntu" 1 "vpn3" 51820 "wg0" "10.9.8.0/24" "10.9.8.1/24" ""
               pending 5 no_host_cert 0 0).
  split; [vm_compute; reflexivity|]. split; [reflexivity|]. split; [reflexivity|].
  apply (@register_server_in_pool id_dumps plain_encrypt "10.9.0.0/24" 5 demo_payload demo_actor bob_scope).
  vm_compute. reflexivity.
Defined.

Lemma delete_server_no_dangling_witness :
  let w := (run (delete_server 1 unscoped true) demo_db).2 in
  rows (servers (committed w)) = delete 1 (rows (servers demo_db)) /\
  (forall i c, rows (clients (committed w)) !! i = Some c <->
     rows (clients demo_db) !! i = Some c /\ cl_server_id c <> 1) /\
  (forall i p, rows (discovered (committed w)) !! i = Some p <->
     rows (discovered demo_db) !! i = Some p /\ dp_server_id p <> 1) /\
  (tokens (committed w) = tokens demo_db /\
   forall i t, rows (tokens demo_db) !! i = Some t -> tok_server_id t <> 1) /\
  (true = false -> clients (committed w) = clients demo_db /\ discovered (committed w) = discovered demo_db).
Proof.
  intros w. apply (delete_server_no_dangling demo_db unscoped 1 true w). vm_compute. reflexivity.
Defined.

Lemma delete_server_refuses_attached_witness :
  let res := run (delete_server 1 bob_scope false) demo_db in
  (exists code detail, res.1 = Raise (http_error code detail) /\ (code = 409 \/ code = 404 \/ code = 403)) /\
  committed res.2 = demo_db /\ queue res.2 = [].
Proof.
  intros res.
  apply (delete_server_refuses_attached demo_db bob_scope 1 res.2 res.1 1
           (demo_client "a" "10.9.0.2/32" "ka=" ready));
    [vm_compute; reflexivity|reflexivity|apply surjective_pairing].
Defined.
