(* ===== verification/RouterClients.v ===== *)
(** * The clients router

    [src/src/wg_manager/routers/clients.py].  The key material of a manual
    client comes from [cryptography]: the private bytes that were drawn and
    the X25519 base-point multiplication are arguments. *)

From S2P Require Import Prelude PyStr IpAddr Hashing Base64 Models Session Broker Demo Ipam TenantScope AuditLog Enrollment Wireguard Tasks RouterServers.

(** ** Payloads *)

Record ClientCreate := mkClientCreate {
  cc_name : string; cc_hostname : string; cc_ssh_port : Z; cc_ssh_username : string;
  cc_ssh_key_id : Z; cc_server_id : Z; cc_bootstrap : BootstrapKeyFields
}.

Record ClientUpdate := mkClientUpdate {
  cu_name : option string; cu_hostname : option string; cu_ssh_port : option Z;
  cu_ssh_username : option string; cu_ssh_key_id : option Z
}.

Record ClientManualCreate := mkClientManualCreate { mc_name : string; mc_server_id : Z }.

Definition or_else {A} (u o : option A) : option A := match u with Some _ => u | None => o end.

(** [setattr] for every field that was set. *)
Definition apply_client_update (u : ClientUpdate) (c : Client) : Client :=
  mkClient (cl_tenant_id c) (default (cl_name c) (cu_name u)) (or_else (cu_hostname u) (cl_hostname c))
    (default (cl_ssh_port c) (cu_ssh_port u)) (or_else (cu_ssh_username u) (cl_ssh_username c))
    (or_else (cu_ssh_key_id u) (cl_ssh_key_id c)) (cl_server_id c) (cl_address c) (cl_public_key c)
    (cl_is_manual c) (cl_status c) (cl_created_at c) (cl_host_cert c).

(** ** Helpers *)

(** [select(Client).where(Client.name == name)] is not empty. *)
Definition client_name_taken (d : DB) (name : string) : bool :=
  negb (bool_decide (tbl_select (fun _ c => bool_decide (cl_name c = name)) (clients d) = [])).

(** [allocate_client_ip], with exhaustion answered as 409. *)
Definition allocate_or_409 (d : DB) (server_id : Z) (server : Server) : M Z :=
  match allocate_client_ip d server_id server with
  | Ok a => ret a
  | Raise (IPPoolExhausted msg) => raise (http_error 409 msg)
  | Raise e => raise e
  end.

(** Rows in primary-key order. *)
Definition rows_by_id {A} (t : table A) : list (Z * A) :=
  omap (fun i => (fun r => (i, r)) <$> rows t !! i) (sort_z (fst <$> map_to_list (rows t))).

(** Private and public key, from the private bytes drawn. *)
Definition generate_wireguard_keypair (x25519_base : bytes -> bytes) (priv_raw : bytes) : string * string :=
  (b64encode priv_raw, b64encode (x25519_base priv_raw)).

Section clients.
Context `{Dumps} (encrypt : string -> string -> outcome string) (x25519_base : bytes -> bytes) (now : Z).

(** ** Handlers *)

Definition register_client (payload : ClientCreate) : M (Z * Client) :=
  d <- get_db ;;
  raise_if (client_name_taken d (cc_name payload))
    (http_error 409 ("Client named " +:+ repr (cc_name payload) +:+ " already exists")) ;;
  some_or_raise (rows (sshkeys d) !! cc_ssh_key_id payload) (http_error 404 "SSH key not found") ;;
  server <- some_or_raise (rows (servers d) !! cc_server_id payload) (http_error 404 "Server not found") ;;
  raise_if (negb (bool_decide (srv_status server = ready)))
    (http_error 400 ("Server is not ready (status=" +:+ NodeStatus_value (srv_status server) +:+ ")")) ;;
  allocated <- allocate_or_409 d (cc_server_id payload) server ;;
  let row := mkClient None (cc_name payload) (Some (cc_hostname payload)) (cc_ssh_port payload)
               (Some (cc_ssh_username payload)) (Some (cc_ssh_key_id payload)) (cc_server_id payload)
               (client_cidr allocated) "" false pending now no_host_cert in
  let id := next_id (clients d) in
  modify_db (on_clients (tbl_insert row)) ;;
  commit ;;
  b <- encrypt_bootstrap_kwargs encrypt "client" (cc_bootstrap payload) ;;
  dispatch (ProvisionClient id b) ;;
  ret (id, row).

(** The response also carries the rendered configuration. *)
Definition register_manual_client (priv_raw : bytes) (payload : ClientManualCreate)
  : M (Z * Client * string) :=
  d <- get_db ;;
  raise_if (client_name_taken d (mc_name payload))
    (http_error 409 ("Client named " +:+ repr (mc_name payload) +:+ " already exists")) ;;
  server <- some_or_raise (rows (servers d) !! mc_server_id payload) (http_error 404 "Server not found") ;;
  raise_if (negb (bool_decide (srv_status server = ready)))
    (http_error 400 ("Server is not ready (status=" +:+ NodeStatus_value (srv_status server) +:+
                     "); manual clients require a server whose public key is known")) ;;
  allocated <- allocate_or_409 d (mc_server_id payload) server ;;
  let '(private_key, public_key) := generate_wireguard_keypair x25519_base priv_raw in
  let row := mkClient None (mc_name payload) None 22 None None (mc_server_id payload)
               (client_cidr allocated) public_key true ready now no_host_cert in
  let id := next_id (clients d) in
  modify_db (on_clients (tbl_insert row)) ;;
  commit ;;
  wg_config <- lift (render_manual_client_config row server private_key) ;;
  request_reconfigure (mc_server_id payload) ;;
  ret (id, row, wg_config).

Definition reprovision_client (client_id : Z) : M Client :=
  d <- get_db ;;
  row <- some_or_raise (rows (clients d) !! client_id) (http_error 404 "Client not found") ;;
  raise_if (cl_is_manual row)
    (http_error 400 "Cannot reprovision a manual client — delete and re-register to mint a fresh keypair and config") ;;
  let row' := set_cl_status pending row in
  modify_db (on_clients (tbl_set client_id row')) ;;
  commit ;;
  dispatch (ProvisionClient client_id no_bootstrap) ;;
  ret row'.

Definition rotate_client_host_cert (client_id : Z) : M Client :=
  d <- get_db ;;
  row <- some_or_raise (rows (clients d) !! client_id) (http_error 404 "Client not found") ;;
  raise_if (cl_is_manual row)
    (http_error 400 "Cannot rotate a host cert on a manual client — no SSH access") ;;
  some_or_raise (cl_ssh_key_id row ≫= (fun k => rows (sshkeys d) !! k))
    (http_error 409 ("client " +:+ dec client_id +:+ " references SSHKey " +:+
                     from_option dec "None" (cl_ssh_key_id row) +:+
                     " which no longer exists; reassign before rotating")) ;;
  dispatch (RotateClientHostCert client_id) ;;
  ret row.

Definition list_clients (s : TenantScope) : M (list (Z * Client)) := list_visible clients cl_tenant_id s.

(** One [Host] block. *)
Definition ssh_config_block (c : Client) : option string :=
  host_ip ← (if nonempty (cl_address c) then ip_str <$> ip_interface_ip (cl_address c) else Some "");
  Some (unlines ["Host " +:+ cl_name c +:+ ".vpn"; "    HostName " +:+ host_ip;
                 "    User " +:+ default "None" (cl_ssh_username c)]).

Definition export_ssh_config : M string :=
  d <- get_db ;;
  let managed := List.filter (fun ic => negb (cl_is_manual ic.2)) (rows_by_id (clients d)) in
  blocks <- some_or_raise (mapM (fun ic => ssh_config_block ic.2) managed) (ValueError "address") ;;
  ret (join nl blocks).

Definition get_client (client_id : Z) (s : TenantScope) : M Client :=
  load_visible clients cl_tenant_id "Client not found" s client_id.

Definition update_client (client_id : Z) (u : ClientUpdate) (s : TenantScope) : M Client :=
  row <- load_mutable clients cl_tenant_id "Client not found" s client_id ;;
  d <- get_db ;;
  match cu_ssh_key_id u with
  | Some k => some_or_raise (rows (sshkeys d) !! k) (http_error 404 "SSH key not found") ;; ret tt
  | None => ret tt
  end ;;
  match cu_name u with
  | Some name =>
      raise_if (negb (bool_decide (name = cl_name row)) && client_name_taken d name)
        (http_error 409 ("Client named " +:+ repr name +:+ " already exists"))
  | None => ret tt
  end ;;
  let row' := apply_client_update u row in
  modify_db (on_clients (tbl_set client_id row')) ;;
  commit ;;
  ret row'.

Definition delete_client (client_id : Z) (a : actor) (s : TenantScope) : M (Z * Z) :=
  row <- load_mutable clients cl_tenant_id "Client not found" s client_id ;;
  modify_db (on_clients (tbl_delete client_id)) ;;
  persist now (mkAuditArgs "client.delete" (actor_from_request a) "client" (Some client_id) "delete"
    (Some (dump_client client_id row)) None
    (Some (JObj [("name", JStr (cl_name row)); ("server_id", JInt (cl_server_id row))])) None
    (cl_tenant_id row)) ;;
  commit ;;
  request_reconfigure (cl_server_id row) ;;
  ret (client_id, cl_server_id row).
End clients.

(** ** Lemmas *)

Lemma client_name_taken_false d name :
  client_name_taken d name = false <-> forall i c, rows (clients d) !! i = Some c -> cl_name c <> name.
Proof.
  unfold client_name_taken. rewrite negb_false_iff, bool_decide_eq_true, tbl_select_nil.
  setoid_rewrite bool_decide_eq_false. done.
Qed.

Lemma allocate_or_409_Ok d sid server w a w' :
  allocate_or_409 d sid server w = (Ok a, w') -> w' = w /\ allocate_client_ip d sid server = Ok a.
Proof.
  unfold allocate_or_409. destruct (allocate_client_ip d sid server) as [x|[]];
    intros H; unfold ret, raise in H; by simplify_eq.
Qed.

Lemma quiet_allocate d sid server : quiet (allocate_or_409 d sid server).
Proof. unfold allocate_or_409. solve_effect. Qed.
#[export] Hint Resolve quiet_allocate : wg.

Lemma rows_by_id_elem {A} (t : table A) i r : (i, r) ∈ rows_by_id t <-> rows t !! i = Some r.
Proof.
  unfold rows_by_id. rewrite list_elem_of_omap. split.
  - intros (j & _ & E). destruct (rows t !! j) as [r'|] eqn:Ej; simpl in E; [|done]. by simplify_eq.
  - intros E. exists i. rewrite E, sort_z_elem. split; [|done]. apply list_elem_of_fmap.
    exists (i, r). split; [done|]. by apply elem_of_map_to_list.
Qed.

(** [request_reconfigure] on an existing hub: the generation is committed before
    the broker is asked. *)
Lemma request_reconfigure_eq sid s w :
  rows (servers (view w)) !! sid = Some s ->
  let d' := bump_generation sid (view w) in
  let msg := ReconfigureServer sid (srv_reconfig_requested_gen s + 1) in
  request_reconfigure sid w =
    if broker (outside w) msg
    then (Ok (srv_reconfig_requested_gen s + 1), mkWorld d' d' (queue w ++ [msg]) (audit_log w) (outside w))
    else (Raise BrokerError, mkWorld d' d' (queue w) (audit_log w) (outside w)).
Proof.
  intros Hs d' msg. unfold request_reconfigure, bind, get_db, modify_db, commit, dispatch, ret. rewrite Hs.
  simpl. rewrite lookup_alter_eq, Hs. simpl. fold msg. by destruct (broker (outside w) msg).
Qed.

Lemma late_total_reconfigure sid s w :
  rows (servers (view w)) !! sid = Some s -> accepting w -> late_total (request_reconfigure sid) w.
Proof.
  intros Hs Ha b. rewrite (request_reconfigure_eq sid s w Hs), (Ha _). eexists _, _. split; [done|].
  rewrite (request_reconfigure_eq sid s (with_broker b w) Hs). cbn [outside with_broker broker].
  destruct (b _); [by left|]. right. eexists. by split_and!.
Qed.
