(* ===== verification/RouterSshKeys.v ===== *)
(** * The SSH-keys router

    [src/src/wg_manager/routers/ssh_keys.py]: named SSH roles.  The unique
    names and the foreign keys of the database are part of the model. *)

From S2P Require Import Prelude PyStr IpAddr Hashing Models Session Demo TenantScope AuditLog RouterServers.

Record SSHKeyCreate := mkSSHKeyCreate { kc_name : string; kc_tenant_id : option Z }.
Record SSHKeyUpdate := mkSSHKeyUpdate { ku_name : option string }.

(** [select(SSHKey).where(SSHKey.name == name)] is not empty. *)
Definition key_name_taken (d : DB) (name : string) : bool :=
  negb (bool_decide (tbl_select (fun _ k => bool_decide (key_name k = name)) (sshkeys d) = [])).

(** Servers, clients and enrollment tokens that refer to the key. *)
Definition key_servers (d : DB) (key_id : Z) : list Z :=
  fst <$> tbl_select (fun _ s => srv_ssh_key_id s =? key_id) (servers d).
Definition key_clients (d : DB) (key_id : Z) : list Z :=
  fst <$> tbl_select (fun _ c => bool_decide (cl_ssh_key_id c = Some key_id)) (clients d).
Definition key_tokens (d : DB) (key_id : Z) : list Z :=
  fst <$> tbl_select (fun _ t => tok_ssh_key_id t =? key_id) (tokens d).

(** The constraints under which the database lets the row go. *)
Definition key_unreferenced (key_id : Z) (d : DB) : bool :=
  bool_decide (key_servers d key_id = []) && bool_decide (key_clients d key_id = []) &&
  bool_decide (key_tokens d key_id = []).

Section ssh_keys.
Context `{Dumps} (now : Z).

Definition create_ssh_key (payload : SSHKeyCreate) (a : actor) (s : TenantScope) : M (Z * SSHKey) :=
  t <- resolve_create_tenant s (kc_tenant_id payload) create_roles ;;
  d <- get_db ;;
  raise_if (key_name_taken d (kc_name payload))
    (http_error 409 ("SSH key named " +:+ repr (kc_name payload) +:+ " already exists")) ;;
  let row := mkSSHKey (Some t.1) (kc_name payload) ca now in
  let id := next_id (sshkeys d) in
  modify_db (on_sshkeys (tbl_insert row)) ;;
  persist now (mkAuditArgs "ssh_key.create" (actor_from_request a) "ssh_key" (Some id) "create" None
    (Some (dump_sshkey id row)) (Some (JObj [("name", JStr (key_name row))])) None (key_tenant_id row)) ;;
  commit ;;
  ret (id, row).

Definition list_ssh_keys (s : TenantScope) : M (list (Z * SSHKey)) := list_visible sshkeys key_tenant_id s.

Definition get_ssh_key (key_id : Z) (s : TenantScope) : M SSHKey :=
  load_visible sshkeys key_tenant_id "SSH key not found" s key_id.

Definition update_ssh_key (key_id : Z) (u : SSHKeyUpdate) (s : TenantScope) : M SSHKey :=
  row <- load_mutable sshkeys key_tenant_id "SSH key not found" s key_id ;;
  d <- get_db ;;
  match ku_name u with
  | Some name =>
      raise_if (negb (bool_decide (name = key_name row)) && key_name_taken d name)
        (http_error 409 ("SSH key named " +:+ repr name +:+ " already exists"))
  | None => ret tt
  end ;;
  let row' := mkSSHKey (key_tenant_id row) (default (key_name row) (ku_name u)) (key_mode row)
                (key_created_at row) in
  modify_db (on_sshkeys (tbl_set key_id row')) ;;
  commit ;;
  ret row'.

Definition delete_ssh_key (key_id : Z) (s : TenantScope) : M unit :=
  load_mutable sshkeys key_tenant_id "SSH key not found" s key_id ;;
  d <- get_db ;;
  raise_if (negb (bool_decide (key_servers d key_id = [])) || negb (bool_decide (key_clients d key_id = [])))
    (http_error 409 "SSH key is still referenced by a server or client") ;;
  flush_checked (key_unreferenced key_id) (on_sshkeys (tbl_delete key_id)) ;;
  commit.
End ssh_keys.

(** ** Lemmas *)

Lemma key_unreferenced_spec key_id d :
  key_unreferenced key_id d = true ->
  (forall i s, rows (servers d) !! i = Some s -> srv_ssh_key_id s <> key_id) /\
  (forall i c, rows (clients d) !! i = Some c -> cl_ssh_key_id c <> Some key_id) /\
  (forall i t, rows (tokens d) !! i = Some t -> tok_ssh_key_id t <> key_id).
Proof.
  unfold key_unreferenced, key_servers, key_clients, key_tokens. intros H.
  apply andb_true_iff in H as [[Hs%bool_decide_eq_true Hc%bool_decide_eq_true]%andb_true_iff
    Ht%bool_decide_eq_true].
  split_and!; intros i r Hr.
  - pose proof (select_fst_nil _ _ Hs i r Hr) as E. by apply Z.eqb_neq in E.
  - pose proof (select_fst_nil _ _ Hc i r Hr) as E. cbn beta in E. by apply bool_decide_eq_false in E.
  - pose proof (select_fst_nil _ _ Ht i r Hr) as E. by apply Z.eqb_neq in E.
Qed.

Lemma key_name_taken_false d name :
  key_name_taken d name = false -> forall i k, rows (sshkeys d) !! i = Some k -> key_name k <> name.
Proof.
  unfold key_name_taken. rewrite negb_false_iff, bool_decide_eq_true, tbl_select_nil.
  setoid_rewrite bool_decide_eq_false. done.
Qed.

(** The pre-check looks at servers and clients only: a key that an enrollment
    token refers to fails on the foreign key instead of with 409. *)
Lemma delete_key_with_token : exists d w,
  rows (sshkeys d) !! 2 = Some demo_key /\ key_servers d 2 = [] /\ key_clients d 2 = [] /\
  run (delete_ssh_key 2 unscoped) d = (Raise IntegrityError, w).
Proof.
  exists (on_tokens (tbl_insert (mkEnrollmentToken (Some 1) 1 2 "u" "node" "h" 1 0 9 None 0 None None None))
            (on_sshkeys (tbl_insert demo_key) demo_db)).
  eexists. split; [reflexivity|]. split; [vm_compute; reflexivity|]. split; [vm_compute; reflexivity|].
  vm_compute. reflexivity.
Qed.
