(* ===== verification/RouterTenants.v ===== *)
(** * The tenants router

    [src/src/wg_manager/routers/tenants.py]: the tenant registry, the pools
    and the operators attached to a tenant. *)

From S2P Require Import Prelude PyStr IpAddr Models Session Demo Ipam TenantScope Wireguard RouterClients.

(** ** Role gates *)

Definition get_operator (op : option (Z * Operator)) : M (Z * Operator) :=
  some_or_raise op (http_error 401 "operator unknown").

Definition RequireAdmin (op : option (Z * Operator)) : M (Z * Operator) :=
  o <- get_operator op ;;
  raise_if (negb (bool_decide (op_role o.2 = admin))) (http_error 403 "role not permitted") ;;
  ret o.

Definition RequireAdminOrAuditor (op : option (Z * Operator)) : M (Z * Operator) :=
  o <- get_operator op ;;
  raise_if (negb (mem (op_role o.2) [admin; auditor])) (http_error 403 "role not permitted") ;;
  ret o.

(** ** Slugs *)

(** [[^a-z0-9]] *)
Definition slug_chr (c : ascii) : bool := is_decimal c || ((97 <=? code c) && (code c <=? 122)).

(** [_SLUG_RE.sub("-", s)]: every maximal run of other characters becomes one
    dash; [in_run] says that the run has already been replaced. *)
Fixpoint slug_sub (in_run : bool) (s : string) : string :=
  match s with
  | "" => ""
  | String c s' =>
      if slug_chr c then String c (slug_sub false s')
      else if in_run then slug_sub true s'
      else String "-" (slug_sub true s')
  end.

(** [s.strip("-")] *)
Fixpoint lstrip_dash (s : string) : string :=
  match s with
  | String c s' => if ceqb c "-" then lstrip_dash s' else s
  | "" => ""
  end.
Definition strip_dash (s : string) : string := String.rev (lstrip_dash (String.rev (lstrip_dash s))).

Definition slugify (name : string) : string :=
  let slug := strip_dash (slug_sub false (lower name)) in
  if nonempty slug then slug else "tenant".

(** ** Helpers *)

(** The first row that matches. *)
Definition find_tenant (d : DB) (p : Tenant -> bool) : option (Z * Tenant) :=
  tbl_first (fun _ t => p t) (tenants d).

Definition require_tenant (d : DB) (slug : string) : M (Z * Tenant) :=
  some_or_raise (find_tenant d (fun t => bool_decide (tn_slug t = slug)))
    (http_error 404 ("no tenant with slug " +:+ repr slug)).

Definition find_operator (d : DB) (cn : string) : option (Z * Operator) :=
  tbl_first (fun _ o => bool_decide (op_cn o = cn)) (operators d).

Definition require_operator (d : DB) (cn : string) : M (Z * Operator) :=
  some_or_raise (find_operator d cn)
    (http_error 422 ("no operator registered with CN " +:+ repr cn +:+
       " — register the operator first via `wg-manager operators add --cn " +:+ cn +:+ "`")).

Record OperatorTenantRead := mkOperatorTenantRead {
  otr_id : Z; otr_tenant_id : Z; otr_tenant_slug : string; otr_tenant_name : string;
  otr_operator_id : Z; otr_operator_cn : string; otr_role : OperatorRole; otr_created_at : Z
}.

Definition to_attach_read (join : Z * OperatorTenant) (tenant : Z * Tenant) (operator : Z * Operator)
  : OperatorTenantRead :=
  mkOperatorTenantRead join.1 tenant.1 (tn_slug tenant.2) (tn_name tenant.2) operator.1
    (op_cn operator.2) (ot_role join.2) (ot_created_at join.2).

(** [for other in rows]: the first overlap raises; a stored pool that does not
    parse raises as well. *)
Fixpoint reject_pool_overlap (pool : string) (exclude_id : option Z) (others : list (Z * Tenant)) : M unit :=
  match others with
  | [] => ret tt
  | (id, other) :: rest =>
      if bool_decide (exclude_id = Some id) || negb (nonempty (tn_subnet_pool other))
      then reject_pool_overlap pool exclude_id rest
      else
        b <- some_or_raise (pools_overlap pool (tn_subnet_pool other)) (ValueError "invalid IPv4 network") ;;
        raise_if b (http_error 409 ("subnet_pool " +:+ repr pool +:+ " overlaps tenant " +:+
                     repr (tn_slug other) +:+ "'s pool " +:+ repr (tn_subnet_pool other))) ;;
        reject_pool_overlap pool exclude_id rest
  end.

(** The 422 of a malformed pool; [exc] stands for the parser's message. *)
Definition require_pool_shape (exc : string) (pool : string) : M unit :=
  raise_if (bool_decide (IPv4Network true pool = None))
    (http_error 422 ("invalid subnet_pool " +:+ repr pool +:+ ": " +:+ exc)).

Definition find_join (d : DB) (operator_id tenant_id : Z) : option (Z * OperatorTenant) :=
  tbl_first (fun _ j => (ot_operator_id j =? operator_id) && (ot_tenant_id j =? tenant_id))
    (operator_tenants d).

(** ** Payloads *)

Record TenantCreate := mkTenantCreate {
  tc_name : string; tc_slug : option string; tc_subnet_pool : option string
}.
Record TenantUpdate := mkTenantUpdate { tu_subnet_pool : option string }.
Record OperatorTenantAttachRequest := mkAttachRequest { at_cn : string; at_role : OperatorRole }.

(** ** Handlers *)

Section tenants.
Context (now : Z) (exc : string).

Definition list_tenants (op : option (Z * Operator)) : M (list (Z * Tenant)) :=
  RequireAdminOrAuditor op ;;
  d <- get_db ;;
  ret (rows_by_id (tenants d)).

Definition get_tenant (slug : string) (op : option (Z * Operator)) : M (Z * Tenant) :=
  RequireAdminOrAuditor op ;;
  d <- get_db ;;
  require_tenant d slug.

Definition create_tenant (body : TenantCreate) (op : option (Z * Operator)) : M (Z * Tenant) :=
  RequireAdmin op ;;
  d <- get_db ;;
  let target_slug := match tc_slug body with
                     | Some sl => if nonempty sl then sl else slugify (tc_name body)
                     | None => slugify (tc_name body)
                     end in
  match find_tenant d (fun t => bool_decide (tn_slug t = target_slug)) with
  | Some existing => raise (http_error 409 ("tenant with slug " +:+ repr target_slug +:+
                       " already exists (id=" +:+ dec existing.1 +:+ ")"))
  | None => ret tt
  end ;;
  match find_tenant d (fun t => bool_decide (tn_name t = tc_name body)) with
  | Some existing => raise (http_error 409 ("tenant with name " +:+ repr (tc_name body) +:+
                       " already exists (id=" +:+ dec existing.1 +:+ ")"))
  | None => ret tt
  end ;;
  match tc_subnet_pool body with
  | Some pool => require_pool_shape exc pool ;; reject_pool_overlap pool None (rows_by_id (tenants d))
  | None => ret tt
  end ;;
  let row := mkTenant (tc_name body) target_slug (default default_subnet_pool (tc_subnet_pool body)) now in
  let id := next_id (tenants d) in
  modify_db (on_tenants (tbl_insert row)) ;;
  commit ;;
  ret (id, row).

Definition update_tenant (slug : string) (body : TenantUpdate) (op : option (Z * Operator))
  : M (Z * Tenant) :=
  RequireAdmin op ;;
  d <- get_db ;;
  t <- require_tenant d slug ;;
  match tu_subnet_pool body with
  | Some pool =>
      require_pool_shape exc pool ;; reject_pool_overlap pool (Some t.1) (rows_by_id (tenants d))
  | None => ret tt
  end ;;
  let row' := set_tn_subnet_pool (default (tn_subnet_pool t.2) (tu_subnet_pool body)) t.2 in
  modify_db (on_tenants (tbl_set t.1 row')) ;;
  commit ;;
  ret (t.1, row').

Definition attach_operator (slug : string) (body : OperatorTenantAttachRequest)
  (op : option (Z * Operator)) : M OperatorTenantRead :=
  RequireAdmin op ;;
  d <- get_db ;;
  tenant <- require_tenant d slug ;;
  o <- require_operator d (at_cn body) ;;
  match find_join d o.1 tenant.1 with
  | Some existing => raise (http_error 409 ("operator " +:+ repr (at_cn body) +:+
      " already attached to tenant " +:+ repr slug +:+ " (role=" +:+
      OperatorRole_value (ot_role existing.2) +:+ ")"))
  | None => ret tt
  end ;;
  let join := mkOperatorTenant o.1 tenant.1 (at_role body) now in
  let id := next_id (operator_tenants d) in
  modify_db (on_operator_tenants (tbl_insert join)) ;;
  commit ;;
  ret (to_attach_read (id, join) tenant o).

Definition detach_operator (slug cn : string) (op : option (Z * Operator)) : M unit :=
  RequireAdmin op ;;
  d <- get_db ;;
  tenant <- require_tenant d slug ;;
  o <- some_or_raise (find_operator d cn) (http_error 404 ("no operator with CN " +:+ repr cn)) ;;
  join <- some_or_raise (find_join d o.1 tenant.1)
    (http_error 404 ("operator " +:+ repr cn +:+ " is not attached to tenant " +:+ repr slug)) ;;
  modify_db (on_operator_tenants (tbl_delete join.1)) ;;
  commit.

(** The inner join on [operator] drops rows whose operator is gone. *)
Definition list_tenant_operators (slug : string) (op : option (Z * Operator)) : M (list OperatorTenantRead) :=
  RequireAdminOrAuditor op ;;
  d <- get_db ;;
  tenant <- require_tenant d slug ;;
  ret (omap (fun j => if ot_tenant_id j.2 =? tenant.1
                      then (fun o => to_attach_read j tenant (ot_operator_id j.2, o)) <$>
                             rows (operators d) !! ot_operator_id j.2
                      else None)
         (rows_by_id (operator_tenants d))).
End tenants.

(** ** Slugs: lemmas *)

(** Characters of a slug. *)
Definition slug_or_dash (c : ascii) : bool := slug_chr c || ceqb c "-".

(** No two dashes in a row; [prev] says whether the character before is one. *)
Fixpoint no_double_dash (prev : bool) (s : string) : bool :=
  match s with
  | "" => true
  | String c s' => negb (prev && ceqb c "-") && no_double_dash (ceqb c "-") s'
  end.

Lemma slug_chr_not_dash c : slug_chr c = true -> ceqb c "-" = false.
Proof.
  unfold slug_chr, is_decimal, ceqb. change (code "-") with 45. intros H. apply Z.eqb_neq. intros E.
  by rewrite E in H.
Qed.

Lemma slug_sub_shape s : forall b,
  str_forall slug_or_dash (slug_sub b s) = true /\ no_double_dash b (slug_sub b s) = true.
Proof.
  induction s as [|c s IH]; intros b; [done|]. simpl. destruct (slug_chr c) eqn:E; simpl.
  - rewrite (slug_chr_not_dash c E), andb_false_r. unfold slug_or_dash at 1. rewrite E. simpl. apply IH.
  - destruct b; [apply IH|]. simpl. apply IH.
Qed.

Lemma no_double_dash_spec s : forall b, no_double_dash b s = true ->
  forall x y, s <> x +:+ "--" +:+ y.
Proof.
  induction s as [|c s IH]; intros b Hs x y E; [by destruct x|].
  simpl in Hs. apply andb_true_iff in Hs as [_ Hs]. destruct x as [|d x].
  - injection E as -> ->. done.
  - rewrite append_cons in E. injection E as -> ->. by eapply IH.
Qed.

Lemma lstrip_dash_suffix s : exists k, s = k +:+ lstrip_dash s.
Proof.
  induction s as [|c s [k IH]]; [by exists ""|]. simpl. destruct (ceqb c "-"); [|by exists ""].
  exists (String c k). rewrite append_cons. by rewrite <- IH.
Qed.

Lemma lstrip_dash_head s y : lstrip_dash s <> "-" +:+ y.
Proof.
  induction s as [|c s IH]; [done|]. simpl. destruct (ceqb c "-") eqn:E; [done|].
  intros [= -> _]. done.
Qed.

Lemma rev_append s t : String.rev (s +:+ t) = String.rev t +:+ String.rev s.
Proof.
  induction s as [|c s IH]; [by rewrite append_nil_r|].
  rewrite append_cons, !rev_cons, IH. apply append_assoc.
Qed.

Lemma rev_involutive s : String.rev (String.rev s) = s.
Proof. induction s as [|c s IH]; [done|]. rewrite rev_cons, rev_append, IH. done. Qed.

(** [s.strip("-")] cuts [s] at both ends and leaves no dash there. *)
Lemma strip_dash_spec s :
  (exists k k', s = k +:+ strip_dash s +:+ k') /\
  (forall y, strip_dash s <> "-" +:+ y) /\ (forall x, strip_dash s <> x +:+ "-").
Proof.
  unfold strip_dash. destruct (lstrip_dash_suffix s) as [k Hk].
  destruct (lstrip_dash_suffix (String.rev (lstrip_dash s))) as [k' Hk'].
  set (m := lstrip_dash (String.rev (lstrip_dash s))) in *.
  assert (Hl : lstrip_dash s = String.rev m +:+ String.rev k').
  { rewrite <- (rev_involutive (lstrip_dash s)), Hk'. apply rev_append. }
  split_and!.
  - exists k, (String.rev k'). by rewrite <- Hl.
  - intros y E. apply (lstrip_dash_head s (y +:+ String.rev k')). by rewrite Hl, E, append_assoc.
  - intros x E. apply (lstrip_dash_head (String.rev (lstrip_dash s)) (String.rev x)).
    fold m. rewrite <- (rev_involutive m), E, rev_append. done.
Qed.

(** A slug is always a well-formed kebab-case identifier: whatever the
    name, [_slugify] returns a non-empty text of lower-case letters, digits
    and single dashes that neither starts nor ends with a dash. *)
Theorem slugify_shape name :
  let s := slugify name in
  s <> "" /\ str_forall slug_or_dash s = true /\ (forall x y, s <> x +:+ "--" +:+ y) /\
  (forall y, s <> "-" +:+ y) /\ (forall x, s <> x +:+ "-").
Proof.
  unfold slugify. set (sub := slug_sub false (lower name)).
  destruct (slug_sub_shape (lower name) false) as [Hc Hd]. fold sub in Hc, Hd.
  destruct (strip_dash_spec sub) as ((k & k' & Hk) & Hhead & Hlast).
  destruct (nonempty (strip_dash sub)) eqn:En; simpl.
  - apply nonempty_true in En. split_and!; try done.
    + rewrite Hk, !str_forall_app in Hc. by bool_to_prop.
    + intros x y E. apply (no_double_dash_spec sub false Hd (k +:+ x) (y +:+ k')).
      rewrite Hk, E. by rewrite !append_assoc.
  - split_and!; try done.
    + intros x y E. by apply (no_double_dash_spec "tenant" false eq_refl x y).
    + intros x E. assert (Hx : String.rev "tenant" = String.rev (x +:+ "-")) by (by rewrite <- E).
      rewrite rev_append in Hx. discriminate Hx.
Qed.

(** ** Pools: lemmas *)

Definition pools_disjoint (d : DB) : Prop :=
  forall i j ti tj, i <> j -> rows (tenants d) !! i = Some ti -> rows (tenants d) !! j = Some tj ->
    tn_subnet_pool ti <> "" -> tn_subnet_pool tj <> "" ->
    pools_overlap (tn_subnet_pool ti) (tn_subnet_pool tj) = Some false.

Lemma pools_overlap_sym a b x : pools_overlap a b = Some x -> pools_overlap b a = Some x.
Proof.
  unfold pools_overlap, parse_pool. destruct (IPv4Network true a) as [na|] eqn:Ea; simpl; [|done].
  destruct (IPv4Network true b) as [nb|] eqn:Eb; simpl; [|done]. intros [= <-]. f_equal.
  apply IPv4Network_wf in Ea as [? ?], Eb as [? ?]. apply eq_true_iff_eq.
  rewrite !overlaps_spec by congruence. split; intros (h & ? & ?); eauto.
Qed.

Lemma reject_pool_overlap_Ok pool ex others w u w' :
  reject_pool_overlap pool ex others w = (Ok u, w') ->
  w' = w /\ forall i t, (i, t) ∈ others -> ex <> Some i -> tn_subnet_pool t <> "" ->
    pools_overlap pool (tn_subnet_pool t) = Some false.
Proof.
  induction others as [|[id other] rest IH]; simpl; intros H.
  { unfold ret in H. simplify_eq. split; [done|]. intros i t Hin. by apply elem_of_nil in Hin. }
  destruct (bool_decide (ex = Some id) || negb (nonempty (tn_subnet_pool other))) eqn:E.
  - destruct (IH H) as [-> Hall]. split; [done|]. intros i t [[= -> ->]|Hin]%elem_of_cons Hne Hp; [|eauto].
    apply orb_true_iff in E as [E|E]; bool_to_prop; [done|].
    apply nonempty_true in Hp. congruence.
  - step_ok H. prim_ok. destruct (IH H) as [-> Hall]. split; [done|].
    intros i t [[= -> ->]|Hin]%elem_of_cons Hne Hp; eauto.
Qed.

Lemma RequireAdmin_Ok op w o w' : RequireAdmin op w = (Ok o, w') ->
  w' = w /\ op = Some o /\ op_role o.2 = admin.
Proof. unfold RequireAdmin, get_operator. intros H. step_ok H. prim_ok. by bool_to_prop. Qed.

Lemma require_tenant_Ok d slug w t w' : require_tenant d slug w = (Ok t, w') ->
  w' = w /\ rows (tenants d) !! t.1 = Some t.2 /\ tn_slug t.2 = slug.
Proof.
  unfold require_tenant, find_tenant. intros H. prim_ok. destruct t as [i r].
  match goal with E : tbl_first _ _ = _ |- _ => apply tbl_first_Some in E as [? ?] end. by bool_to_prop.
Qed.

(** Giving tenant [i] a pool that overlaps no other one. *)
Lemma set_pool_disjoint d i row :
  pools_disjoint d ->
  (forall j t, rows (tenants d) !! j = Some t -> j <> i -> tn_subnet_pool t <> "" ->
     tn_subnet_pool row <> "" -> pools_overlap (tn_subnet_pool row) (tn_subnet_pool t) = Some false) ->
  forall d', rows (tenants d') = <[i := row]> (rows (tenants d)) -> pools_disjoint d'.
Proof.
  intros Hd Hnew d' E x y tx ty Hxy. rewrite E, !lookup_insert. do 2 case_decide; subst; try done.
  - intros [= <-] Hy Hr Hp. by eapply Hnew.
  - intros Hx [= <-] Hp Hr. apply pools_overlap_sym. by eapply Hnew.
  - intros. by eapply (Hd x y).
Qed.

Section pool_theorems.
Context (now : Z) (exc : string).

Lemma find_tenant_None d p : find_tenant d p = None ->
  forall i t, rows (tenants d) !! i = Some t -> p t = false.
Proof.
  exact (proj1 (tbl_first_None (fun _ t => p t) (tenants d))).
Qed.

Lemma create_tenant_Ok body op w id row w' :
  create_tenant now exc body op w = (Ok (id, row), w') ->
  id = next_id (tenants (view w)) /\
  committed w' = on_tenants (tbl_insert row) (view w) /\ view w' = committed w' /\ queue w' = queue w /\
  tn_subnet_pool row = default default_subnet_pool (tc_subnet_pool body) /\
  (forall i t, rows (tenants (view w)) !! i = Some t -> tn_slug t <> tn_slug row /\ tn_name t <> tn_name row) /\
  (forall pool, tc_subnet_pool body = Some pool -> is_Some (parse_pool pool) /\
     forall i t, rows (tenants (view w)) !! i = Some t -> tn_subnet_pool t <> "" ->
       pools_overlap pool (tn_subnet_pool t) = Some false).
Proof.
  unfold create_tenant. intros E. step_ok E.
  match goal with Ha : RequireAdmin _ _ = _ |- _ => apply RequireAdmin_Ok in Ha as (-> & _) end.
  prim_ok. match goal with |- context [mkTenant _ ?sl _ _] => set (slug := sl) in * end.
  match goal with Hs : match find_tenant _ ?p with _ => _ end _ = _ |- _ =>
    destruct (find_tenant _ p) eqn:Eslug in Hs; [done|]; unfold ret in Hs; simplify_eq end.
  match goal with Hs : match find_tenant _ ?p with _ => _ end _ = _ |- _ =>
    destruct (find_tenant _ p) eqn:Ename in Hs; [done|]; unfold ret in Hs; simplify_eq end.
  match goal with Hs : match tc_subnet_pool body with _ => _ end _ = _ |- _ => rename Hs into Hpool end.
  match type of Hpool with _ ?u = (Ok _, ?v) => rename u into w, v into w4; assert (Hv : w4 = w /\
    forall pool, tc_subnet_pool body = Some pool -> is_Some (parse_pool pool) /\
     forall i t, rows (tenants (view w)) !! i = Some t -> tn_subnet_pool t <> "" ->
       pools_overlap pool (tn_subnet_pool t) = Some false) end.
  { destruct (tc_subnet_pool body) as [pool|]; [|by unfold ret in Hpool; simplify_eq].
    step_ok Hpool. unfold require_pool_shape in *. prim_ok. bool_to_prop.
    apply reject_pool_overlap_Ok in Hpool as [-> Hall]. split; [done|]. intros p [= <-].
    split; [unfold parse_pool; by apply not_eq_None_Some|]. intros i t Ht. apply (Hall i); [|done]. by apply rows_by_id_elem. }
  destruct Hv as [-> Hv]. split_and!; try done. intros i t Hi. split.
  - pose proof (find_tenant_None _ _ Ename i t Hi) as Hx. cbn beta in Hx. by bool_to_prop.
  - pose proof (find_tenant_None _ _ Eslug i t Hi) as Hx. cbn beta in Hx. by bool_to_prop.
Qed.

(** Tenant pools stay disjoint: creating a tenant with an explicit pool, or
    changing a tenant's pool, succeeds only for a well-formed pool that
    overlaps no other tenant's, so pairwise disjoint pools remain pairwise
    disjoint. *)
Theorem explicit_pools_stay_disjoint d op w :
  pools_disjoint d ->
  (forall name slug pool id row,
     run (create_tenant now exc (mkTenantCreate name slug (Some pool)) op) d = (Ok (id, row), w) ->
     pools_disjoint (committed w) /\ is_Some (parse_pool pool) /\ tn_subnet_pool row = pool) /\
  (forall slug body id row,
     run (update_tenant exc slug body op) d = (Ok (id, row), w) -> pools_disjoint (committed w)).
Proof.
  intros Hd. split.
  - intros name slug pool id row (w1 & E & -> & _)%run_world.
    apply create_tenant_Ok in E as (_ & -> & _ & _ & Hr & _ & Hp).
    destruct (Hp pool eq_refl) as [Hs Hall]. simpl in Hr. split_and!; [|done|done].
    eapply set_pool_disjoint; [exact Hd| |reflexivity]. intros j t Hj _ Ht _. rewrite Hr. by apply (Hall j).
  - intros slug body id row (w1 & E & -> & _)%run_world. unfold update_tenant in E. step_ok E.
    match goal with Ha : RequireAdmin _ _ = _ |- _ => apply RequireAdmin_Ok in Ha as (-> & _) end.
    prim_ok.
    match goal with Ha : require_tenant _ _ _ = (Ok ?t, _) |- _ =>
      apply require_tenant_Ok in Ha as (-> & Ht & _); destruct t as [tid tn] end.
    destruct (tu_subnet_pool body) as [pool|]; prim_ok.
    + match goal with Hb : (bind _ _) _ = (Ok _, _) |- _ => step_ok Hb end.
      unfold require_pool_shape in *. prim_ok. bool_to_prop.
      match goal with Hb : reject_pool_overlap _ _ _ _ = _ |- _ =>
        apply reject_pool_overlap_Ok in Hb as [-> Hall] end.
      eapply set_pool_disjoint; [exact Hd| |reflexivity]. intros j t Hj Hne Hp _. apply (Hall j); [|congruence|done].
      by apply rows_by_id_elem.
    + eapply set_pool_disjoint; [exact Hd| |reflexivity]. intros j t Hj Hne Hp Hr. simpl in *.
      by apply (Hd tid j).
Qed.
End pool_theorems.

(** A tenant created without a pool gets the column default, which is not
    checked against the other pools. *)
Lemma default_pool_unchecked :
  pools_disjoint demo_db /\
  exists w id row,
    run (create_tenant 0 "" (mkTenantCreate "New" None None) (Some (1, demo_operator))) demo_db =
      (Ok (id, row), w) /\ ~ pools_disjoint (committed w).
Proof.
  split.
  - intros i j ti tj Hij Hi Hj _ _. simpl in Hi, Hj.
    apply lookup_insert_Some in Hi as [[<- <-]|[_ [<- <-]%lookup_singleton_Some]];
      apply lookup_insert_Some in Hj as [[<- <-]|[_ [<- <-]%lookup_singleton_Some]];
      first [by destruct Hij|vm_compute; reflexivity].
  - do 3 eexists. split; [vm_compute; reflexivity|]. intros Hd.
    assert (Hx : pools_overlap "10.9.0.0/16" default_subnet_pool = Some false).
    { apply (Hd 1 3 demo_tenant (mkTenant "New" "new" default_subnet_pool 0)); done || (vm_compute; reflexivity). }
    vm_compute in Hx. discriminate Hx.
Qed.

(** Changing a pool does not look at the tenant's servers: one can be left
    outside. *)
Lemma update_tenant_strands_servers :
  exists w id row srv,
    run (update_tenant "" "default" (mkTenantUpdate (Some "172.16.0.0/16")) (Some (1, demo_operator))) demo_db =
      (Ok (id, row), w) /\ rows (servers (committed w)) !! 1 = Some srv /\ srv_tenant_id srv = Some id /\
    subnet_in_pool (srv_subnet srv) (tn_subnet_pool row) = Some false.
Proof.
  eexists _, _, _, demo_server. split; [vm_compute; reflexivity|].
  split; [vm_compute; reflexivity|]. split; [reflexivity|vm_compute; reflexivity].
Qed.

(** ** Witness *)

Lemma explicit_pools_stay_disjoint_witness :
  let w := (run (create_tenant 0 "" (mkTenantCreate "New Team!" None (Some "10.77.0.0/16"))
                  (Some (1, demo_operator))) demo_db).2 in
  slugify "New Team!" = "new-team" /\
  pools_disjoint (committed w) /\ is_Some (parse_pool "10.77.0.0/16") /\ "10.77.0.0/16" = "10.77.0.0/16".
Proof.
  intros w. split; [reflexivity|].
  apply (proj1 (explicit_pools_stay_disjoint 0 "" demo_db (Some (1, demo_operator)) w
                  (proj1 default_pool_unchecked)) "New Team!" None "10.77.0.0/16" 3
           (mkTenant "New Team!" "new-team" "10.77.0.0/16" 0)).
  vm_compute. reflexivity.
Defined.
