(* ===== verification/Auth.v ===== *)
(** * The mTLS authentication layer

    [src/src/wg_manager/auth.py], with the health-probe paths of
    [routers/health.py] and the scope enrichment of [_tls_uvicorn.py]: from
    the client certificate of a connection to the operator, role and tenant
    set that the handlers read from [request.state].  X.509 parsing belongs to
    the cryptography package and is a parameter; what it returns is the record
    [x509_cert].  A database whose driver fails is the record [db_faults]. *)

From S2P Require Import Prelude PyStr IpAddr Hashing Models Session Demo AuditLog TenantScope RouterClients RouterTenants.

(** ** Certificates *)

(** Entries of a SubjectAlternativeName extension. *)
Inductive general_name :=
| DNSName (value : string)
| IPAddressName (value : ip)
| IPNetworkName (value : net)
| OtherName.

(** A parsed certificate: subject attributes (OID and value), the SAN
    extension if there is one, serial number and validity. *)
Record x509_cert := mkX509 {
  x_subject : list (string * string); x_san : option (list general_name);
  x_serial : Z; x_not_before : Z; x_not_after : Z
}.

Definition COMMON_NAME_OID : string := "2.5.4.3".

Record CertSubject := mkSubject {
  cs_common_name : string; cs_sans : list string; cs_serial : Z;
  cs_not_before : Z; cs_not_after : Z; cs_cert_pem : string
}.

Definition san_text (n : general_name) : option string :=
  match n with
  | DNSName v => Some v
  | IPAddressName a => Some (ip_str a)
  | IPNetworkName n => Some (net_str n)
  | OtherName => None
  end.

Definition sans_from_cert (cert : x509_cert) : list string :=
  match x_san cert with None => [] | Some entries => omap san_text entries end.

Definition common_name (cert : x509_cert) : string :=
  match find_first (fun a => bool_decide (a.1 = COMMON_NAME_OID)) (x_subject cert) with
  | Some a => a.2
  | None => ""
  end.

(** ** The ASGI scope *)

Record tls_extension := mkTlsExtension { client_cert_chain : option (list string) }.
Record asgi_extensions := mkExtensions { ext_tls : option tls_extension }.
Record asgi_scope := mkAsgiScope { sc_type : string; sc_extensions : option asgi_extensions }.

(** [_ssl_object_to_chain]: [getpeercert] of the TLS object, if there is one,
    gives the DER bytes, nothing, or an exception ([None]);
    [load_der] re-encodes what parses as PEM. *)
Definition ssl_object_to_chain (load_der : bytes -> option string)
  (ssl_object : option (option bytes)) : list string :=
  match ssl_object with
  | None => []
  | Some None => []
  | Some (Some []) => []
  | Some (Some der) => match load_der der with Some pem => [pem] | None => [] end
  end.

Definition inject_tls_extension (load_der : bytes -> option string)
  (ssl_object : option (option bytes)) (scope : asgi_scope) : asgi_scope :=
  if negb (bool_decide (sc_type scope = "http")) then scope
  else match ssl_object_to_chain load_der ssl_object with
  | [] => scope
  | chain => mkAsgiScope (sc_type scope) (Some (mkExtensions (Some (mkTlsExtension (Some chain)))))
  end.

Section parsing.
Context (load_pem : string -> option x509_cert).

(** [None] is the [ValueError]. *)
Definition parse_subject_from_pem (pem : string) : option CertSubject :=
  if negb (nonempty pem) || negb (nonempty (strip pem)) then None
  else match load_pem pem with
  | None => None
  | Some cert => Some (mkSubject (common_name cert) (sans_from_cert cert) (x_serial cert)
                         (x_not_before cert) (x_not_after cert) pem)
  end.

Definition extract_subject_from_scope (scope : asgi_scope) : option CertSubject :=
  match (e ← sc_extensions scope; t ← ext_tls e; client_cert_chain t) with
  | None | Some [] => None
  | Some (first :: _) => if negb (nonempty first) then None else parse_subject_from_pem first
  end.
End parsing.

(** ** Settings, requests and replies *)

Record auth_settings := mkAuthSettings {
  tls_required : bool;
  auth_bootstrap_operator_cn : option string; auth_bootstrap_operator_role : string
}.

Record http_request := mkRequest { rq_method : string; rq_path : string; rq_scope : asgi_scope }.

(** What the middleware leaves on [request.state]. *)
Record auth_state := mkAuthState { as_subject : option CertSubject; as_request : request_state }.

Definition anonymous : auth_state := mkAuthState None (mkRequestState None None None None).

(** Which of the middleware's own lookups hit a driver error. *)
Record db_faults := mkFaults {
  operator_lookup_fails : bool; serial_lookup_fails : bool; tenant_lookup_fails : bool
}.
Definition no_faults : db_faults := mkFaults false false false.

(** The answer: the application's, or the middleware's own JSON error. *)
Inductive reply (R : Type) := Forwarded (r : R) | JSONResponse (status_code : Z) (detail : string).
Arguments Forwarded {R}.
Arguments JSONResponse {R}.

Definition HEALTH_PATHS : list string := ["/healthz"; "/readyz"; "/v1/healthz"; "/v1/readyz"].
Definition is_health_path (path : string) : bool := mem path HEALTH_PATHS.

(** ** The middleware *)

Section middleware.
Context (load_pem : string -> option x509_cert) (cfg : auth_settings) (now : Z) (faults : db_faults)
  (others : DB -> DB). (** what other requests commit before a bootstrap insert *)

Definition cn_free (cn : string) (d : DB) : bool := bool_decide (find_operator d cn = None).

(** [session.add(row); session.commit(); session.refresh(row)]: the unique
    index on [operator.cn] may refuse. *)
Definition insert_operator (row : Operator) : M (Z * Operator) :=
  d <- get_db ;;
  flush_checked (cn_free (op_cn row)) (on_operators (tbl_insert row)) ;;
  commit ;;
  ret (next_id (operators d), row).

Definition maybe_bootstrap (s : CertSubject) : M (option (Z * Operator)) :=
  match auth_bootstrap_operator_cn cfg with
  | None => ret None
  | Some bootstrap_cn =>
      if negb (nonempty bootstrap_cn) || negb (bool_decide (bootstrap_cn = cs_common_name s)) then ret None
      else match OperatorRole_of (auth_bootstrap_operator_role cfg) with
      | None => ret None
      | Some role =>
          others_commit others ;;
          try_except
            (row <- insert_operator (mkOperator None (cs_common_name s)
                      (Some ("bootstrap:" +:+ cs_common_name s)) role active now) ;;
             ret (Some row))
            (fun e => match e with
               | IntegrityError => rollback ;; d <- get_db ;; ret (find_operator d (cs_common_name s))
               | _ => raise e
               end)
      end
  end.

(** The detached copy of the row: [tenant_id] is left at its default. *)
Definition operator_snapshot (o : Operator) : Operator :=
  mkOperator None (op_cn o) (op_display_name o) (op_role o) (op_status o) (op_created_at o).

Definition resolve_operator (s : CertSubject) : M (option (Z * Operator)) :=
  with_session (
    raise_if (operator_lookup_fails faults) OperationalError ;;
    d <- get_db ;;
    row <- match find_operator d (cs_common_name s) with
           | Some row => ret (Some row)
           | None => maybe_bootstrap s
           end ;;
    ret ((fun r => (r.1, operator_snapshot r.2)) <$> row)).

Definition find_certificate (d : DB) (serial : string) : option (Z * Certificate) :=
  tbl_first (fun _ c => bool_decide (crt_serial c = serial)) (certificates d).

Definition serial_is_revoked (serial : Z) : M bool :=
  with_session (
    if serial_lookup_fails faults then ret false
    else
      d <- get_db ;;
      ret (match find_certificate d (dec serial) with Some row => crt_revoked row.2 | None => false end)).

Definition resolve_tenant_set (o : Z * Operator) : M (list Z * gmap Z OperatorRole) :=
  with_session (
    if tenant_lookup_fails faults then ret ([], ∅)
    else
      d <- get_db ;;
      let rows := operator_joins d o.1 in
      ret (sort_z (ot_tenant_id <$> rows), roles_dict rows)).

(** One [auth.reject] line, and the 401 with [detail]. *)
Definition reject_auth {A} (reason detail : string) (fields : list (string * json)) : M (string + A) :=
  emit now "auth.reject" (("reason", JStr reason) :: fields) ;; ret (inl detail).

(** The decision chain of [dispatch] up to [call_next]: the detail of the 401,
    or the state the request continues with. *)
Definition authenticate (rq : http_request) : M (string + auth_state) :=
  if is_health_path (rq_path rq) then ret (inr anonymous)
  else if negb (tls_required cfg) then ret (inr anonymous)
  else if bool_decide (rq_method rq = "OPTIONS") then ret (inr anonymous)
  else
    let where_ := [("method", JStr (rq_method rq)); ("path", JStr (rq_path rq))] in
    match extract_subject_from_scope load_pem (rq_scope rq) with
    | None => reject_auth "client-cert-required" "client cert required" where_
    | Some s =>
        let who := [("cn", JStr (cs_common_name s)); ("serial", JStr (dec (cs_serial s)))] in
        op <- resolve_operator s ;;
        match op with
        | None => reject_auth "operator-not-registered" "operator not registered" (who ++ where_)
        | Some o =>
            if negb (bool_decide (op_status o.2 = active))
            then reject_auth "operator-disabled" "operator disabled" (who ++ where_)
            else
              revoked <- serial_is_revoked (cs_serial s) ;;
              if (revoked : bool)
              then reject_auth "operator-cert-revoked" "operator cert revoked" (who ++ where_)
              else
                tenants <- resolve_tenant_set o ;;
                emit now "auth.admit" (who ++ ("role", JStr (OperatorRole_value (op_role o.2))) :: where_) ;;
                ret (inr (mkAuthState (Some s)
                  (mkRequestState (Some o) (Some (bool_decide (op_role o.2 = admin)))
                     (Some tenants.1) (Some tenants.2))))
        end
    end.

(** [dispatch]: a rejected request never reaches the application [app], which
    has a session of its own. *)
Definition mtls_dispatch {R} (app : auth_state -> M R) (rq : http_request) : M (reply R) :=
  decision <- authenticate rq ;;
  match decision with
  | inl detail => ret (JSONResponse 401 detail)
  | inr st => r <- with_session (app st) ;; ret (Forwarded r)
  end.
End middleware.

(** ** Router-side dependencies *)

Definition AuthError (detail : string) : exn := http_error 401 detail.

Definition require_subject (st : auth_state) : M CertSubject :=
  some_or_raise (as_subject st) (AuthError "client cert required").

(** [require_role]: without roles the factory itself raises. *)
Definition require_role (roles : list OperatorRole) : outcome (auth_state -> M CertSubject) :=
  match roles with
  | [] => Raise (ValueError "require_role() must be called with at least one OperatorRole")
  | _ => Ok (fun st =>
      s <- require_subject st ;;
      op <- some_or_raise (rs_operator (as_request st)) (AuthError "operator unknown") ;;
      raise_if (negb (mem (op_role op.2) roles)) (http_error 403 "role not permitted") ;;
      ret s)
  end.

(** ** Lemmas *)

Lemma find_operator_Some d cn i o :
  find_operator d cn = Some (i, o) -> rows (operators d) !! i = Some o /\ op_cn o = cn.
Proof. intros [? ?]%tbl_first_Some. by bool_to_prop. Qed.

Lemma find_operator_None d cn :
  find_operator d cn = None <-> forall i o, rows (operators d) !! i = Some o -> op_cn o <> cn.
Proof.
  unfold find_operator. rewrite tbl_first_None. split; intros H i o Hi.
  - specialize (H i o Hi). by bool_to_prop.
  - apply bool_decide_eq_false. by eapply H.
Qed.

(** An operator inserted under a free CN is found by that CN. *)
Lemma find_operator_insert d row :
  find_operator d (op_cn row) = None ->
  find_operator (on_operators (tbl_insert row) d) (op_cn row) = Some (next_id (operators d), row).
Proof.
  intros Hf. unfold find_operator. apply tbl_first_unique; simpl.
  - apply lookup_insert_eq.
  - by apply bool_decide_eq_true.
  - intros j x. rewrite lookup_insert. case_decide; [done|]. intros Hx Hc. bool_to_prop.
    by eapply (proj1 (find_operator_None d (op_cn row)) Hf) in Hx.
Qed.

(** The row the bootstrap path registers, when it applies to [cn]. *)
Definition bootstrap_row (cfg : auth_settings) (now : Z) (cn : string) : option Operator :=
  match auth_bootstrap_operator_cn cfg, OperatorRole_of (auth_bootstrap_operator_role cfg) with
  | Some c, Some role =>
      if nonempty c && bool_decide (c = cn)
      then Some (mkOperator None cn (Some ("bootstrap:" +:+ cn)) role active now) else None
  | _, _ => None
  end.

Section facts.
Context (load_pem : string -> option x509_cert) (cfg : auth_settings) (now : Z) (faults : db_faults)
  (others : DB -> DB).

Lemma maybe_bootstrap_eq s w :
  maybe_bootstrap cfg now others s w =
  match bootstrap_row cfg now (cs_common_name s) with
  | None => (Ok None, w)
  | Some row =>
      let d := others (committed w) in
      if cn_free (cs_common_name s) d
      then let d' := on_operators (tbl_insert row) d in
           (Ok (Some (next_id (operators d), row)), mkWorld d' d' (queue w) (audit_log w) (outside w))
      else (Ok (find_operator d (cs_common_name s)), mkWorld d d (queue w) (audit_log w) (outside w))
  end.
Proof.
  unfold maybe_bootstrap, bootstrap_row. destruct (auth_bootstrap_operator_cn cfg) as [c|]; [|done].
  destruct (OperatorRole_of _) as [role|], (nonempty c); simpl;
    try case_bool_decide; try done; simpl.
  unfold try_except, insert_operator, bind, others_commit, get_db, flush_checked, modify_db. simpl.
  by destruct (cn_free _ _).
Qed.

(** Where the committed database of an authentication attempt can end up. *)
Definition bootstrapped (cn : string) (d d' : DB) : Prop :=
  d' = d \/
  find_operator d cn = None /\ exists row, bootstrap_row cfg now cn = Some row /\
    ((d' = others d /\ is_Some (find_operator (others d) cn)) \/
     (d' = on_operators (tbl_insert row) (others d) /\ find_operator (others d) cn = None)).

(** Looking up the operator, bootstrap included, gives what the operator table
    holds afterwards for that CN. *)
Lemma resolve_operator_spec s w :
  operator_lookup_fails faults = false ->
  exists d', resolve_operator cfg now faults others s w =
      (Ok ((fun r => (r.1, operator_snapshot r.2)) <$> find_operator d' (cs_common_name s)),
       mkWorld d' d' (queue w) (audit_log w) (outside w)) /\
    bootstrapped (cs_common_name s) (committed w) d'.
Proof.
  intros Hf. unfold resolve_operator, with_session, bind, get_db. rewrite Hf. simpl.
  destruct (find_operator (committed w) (cs_common_name s)) as [o|] eqn:E.
  { exists (committed w). simpl. rewrite E. split; [done|by left]. }
  rewrite maybe_bootstrap_eq. cbn [committed queue audit_log].
  destruct (bootstrap_row cfg now (cs_common_name s)) as [row|] eqn:Er.
  2: { exists (committed w). simpl. rewrite E. split; [done|by left]. }
  assert (Hcn : op_cn row = cs_common_name s).
  { unfold bootstrap_row in Er. repeat case_match; by simplify_eq. }
  set (d := others (committed w)). cbv zeta. unfold cn_free.
  case_bool_decide as Hd.
  - exists (on_operators (tbl_insert row) d). simpl. rewrite <- Hcn in Hd |- *.
    rewrite (find_operator_insert d row Hd). split; [done|]. right. rewrite Hcn in *. eauto 10.
  - exists d. simpl. split; [by destruct (find_operator _ _)|]. right. split; [done|].
    exists row. split; [done|]. left. split; [done|]. by apply not_eq_None_Some.
Qed.

Lemma serial_is_revoked_eq n w :
  view w = committed w ->
  serial_is_revoked faults n w =
    (Ok (negb (serial_lookup_fails faults) &&
         from_option (fun r => crt_revoked r.2) false (find_certificate (committed w) (dec n))), w).
Proof.
  intros Hv. destruct w as [c v q l]. simpl in Hv. subst v.
  unfold serial_is_revoked, with_session, bind, get_db. simpl.
  destruct (serial_lookup_fails faults); [done|]. simpl. by destruct (find_certificate _ _).
Qed.

Lemma resolve_tenant_set_eq o w :
  view w = committed w ->
  resolve_tenant_set faults o w =
    (Ok (if tenant_lookup_fails faults then ([], ∅)
         else (tenant_ids (scope_from_db (committed w) o), tenant_roles (scope_from_db (committed w) o))), w).
Proof.
  intros Hv. destruct w as [c v q l], o as [i o]. simpl in Hv. subst v.
  unfold resolve_tenant_set, with_session, bind, get_db. simpl. by destruct (tenant_lookup_fails faults).
Qed.

(** ** The admission policy *)

(** A request the middleware must authenticate. *)
Definition protected (rq : http_request) : Prop :=
  tls_required cfg = true /\ rq_path rq ∉ HEALTH_PATHS /\ rq_method rq <> "OPTIONS".

(** The certificate registry lists the serial as revoked. *)
Definition serial_revoked (d : DB) (n : Z) : Prop :=
  exists i c, rows (certificates d) !! i = Some c /\ crt_serial c = dec n /\ crt_revoked c = true.

(** The rules of admission, over the database and the lookups that fail.
    [decides d rq v]: on database [d] the request gets the 401 detail [inl _]
    or goes on with the state [inr _].  A revoked serial is refused when the
    registry can be read; the tenants are empty when theirs cannot. *)
Inductive decides (d : DB) (rq : http_request) : string + auth_state -> Prop :=
| decide_open : ~ protected rq -> decides d rq (inr anonymous)
| decide_no_cert : protected rq -> extract_subject_from_scope load_pem (rq_scope rq) = None ->
    decides d rq (inl "client cert required")
| decide_unknown s : protected rq -> extract_subject_from_scope load_pem (rq_scope rq) = Some s ->
    (forall i o, rows (operators d) !! i = Some o -> op_cn o <> cs_common_name s) ->
    decides d rq (inl "operator not registered")
| decide_disabled s i o : protected rq -> extract_subject_from_scope load_pem (rq_scope rq) = Some s ->
    rows (operators d) !! i = Some o -> op_cn o = cs_common_name s -> op_status o <> active ->
    decides d rq (inl "operator disabled")
| decide_revoked s i o : protected rq -> extract_subject_from_scope load_pem (rq_scope rq) = Some s ->
    rows (operators d) !! i = Some o -> op_cn o = cs_common_name s -> op_status o = active ->
    serial_lookup_fails faults = false -> serial_revoked d (cs_serial s) -> decides d rq (inl "operator cert revoked")
| decide_admit s i o : protected rq -> extract_subject_from_scope load_pem (rq_scope rq) = Some s ->
    rows (operators d) !! i = Some o -> op_cn o = cs_common_name s -> op_status o = active ->
    serial_lookup_fails faults = true \/ ~ serial_revoked d (cs_serial s) ->
    decides d rq (inr (mkAuthState (Some s) (mkRequestState (Some (i, operator_snapshot o))
      (Some (bool_decide (op_role o = admin)))
      (Some (if tenant_lookup_fails faults then [] else tenant_ids (scope_from_db d (i, o))))
      (Some (if tenant_lookup_fails faults then ∅ else tenant_roles (scope_from_db d (i, o))))))).

(** CNs and serials identify rows, as the unique indexes demand. *)
Definition unique_identities (d : DB) : Prop :=
  (forall i j o o', rows (operators d) !! i = Some o -> rows (operators d) !! j = Some o' ->
     op_cn o = op_cn o' -> i = j) /\
  (forall i j c c', rows (certificates d) !! i = Some c -> rows (certificates d) !! j = Some c' ->
     crt_serial c = crt_serial c' -> i = j).

Lemma decides_functional d rq v v' :
  unique_identities d -> decides d rq v -> decides d rq v' -> v = v'.
Proof.
  intros [Hop _] H H'.
  destruct H as [Hp|Hp He|s Hp He Hn|s i o Hp He Hi Hc Hs|s i o Hp He Hi Hc Hs Hf Hr|s i o Hp He Hi Hc Hs Hr];
    destruct H' as [Hp'|Hp' He'|s' Hp' He' Hn'|s' i' o' Hp' He' Hi' Hc' Hs'
                   |s' i' o' Hp' He' Hi' Hc' Hs' Hf' Hr'|s' i' o' Hp' He' Hi' Hc' Hs' Hr'];
    try done; rewrite He in He'; simplify_eq; try (by destruct (Hn _ _ Hi')); try (by destruct (Hn' _ _ Hi));
    assert (i = i') as <- by (eapply Hop; [done|done|congruence]); simplify_eq; try done;
    exfalso; first [destruct Hr as [?|?]; [congruence|done] | destruct Hr' as [?|?]; [congruence|done]].
Qed.

Lemma find_certificate_revoked d n :
  unique_identities d ->
  from_option (fun r => crt_revoked r.2) false (find_certificate d (dec n)) = true <-> serial_revoked d n.
Proof.
  intros [_ Hu]. unfold find_certificate, serial_revoked. split.
  - destruct (tbl_first _ _) as [[i c]|] eqn:E; [|done]. simpl. intros Hr.
    apply tbl_first_Some in E as [? ?]. bool_to_prop. eauto.
  - intros (i & c & Hi & Hs & Hr).
    rewrite (tbl_first_unique _ (certificates d) i c Hi); [done|by apply bool_decide_eq_true|].
    intros j x Hx E. bool_to_prop. eapply Hu; [done|done|congruence].
Qed.

Lemma protected_dec rq :
  if is_health_path (rq_path rq) || negb (tls_required cfg) || bool_decide (rq_method rq = "OPTIONS")
  then ~ protected rq else protected rq.
Proof.
  unfold is_health_path, protected. destruct (mem _ _) eqn:Eh, (tls_required cfg); simpl;
    rewrite ?mem_true, ?mem_false in Eh; try case_bool_decide; tauto || (intros (? & ? & ?); done).
Qed.

Lemma bootstrap_row_cn cn row : bootstrap_row cfg now cn = Some row -> op_cn row = cn.
Proof. unfold bootstrap_row. intros E. repeat case_match; by simplify_eq. Qed.

(** Bootstrap keeps CNs unique. *)
Lemma bootstrapped_unique cn d d' :
  unique_identities d -> unique_identities (others d) -> bootstrapped cn d d' -> unique_identities d'.
Proof.
  intros Hu [Huo Huc] [->|(Hn & row & Hr & [(-> & Hs)|(-> & Hs)])]; [done|done|].
  apply bootstrap_row_cn in Hr. split; [|done]. intros i j o o'. simpl. rewrite !lookup_insert.
  pose proof (proj1 (find_operator_None _ _) Hs) as Hfree.
  do 2 case_decide; subst; try done; intros Hi Hj Eo; simplify_eq; try (exfalso; by eapply Hfree).
  by eapply Huo.
Qed.
End facts.

(** ** Theorems *)

Section theorems.
Context (load_pem : string -> option x509_cert) (cfg : auth_settings) (now : Z) (others : DB -> DB).

(** The operator lookup is not needed, or does not fail. *)
Definition operators_readable (faults : db_faults) (rq : http_request) : Prop :=
  operator_lookup_fails faults = false \/ ~ protected cfg rq \/ extract_subject_from_scope load_pem (rq_scope rq) = None.

(** The middleware decides by the rules; see [authenticate_refines_policy]. *)
Lemma authenticate_decides faults rq w : operators_readable faults rq ->
  unique_identities (committed w) -> unique_identities (others (committed w)) ->
  exists v w', authenticate load_pem cfg now faults others rq w = (Ok v, w') /\
    decides load_pem cfg faults (committed w') rq v /\
    (forall v', decides load_pem cfg faults (committed w') rq v' -> v' = v) /\
    queue w' = queue w /\
    (committed w' = committed w \/
     exists s row, extract_subject_from_scope load_pem (rq_scope rq) = Some s /\
       bootstrap_row cfg now (cs_common_name s) = Some row /\
       bootstrapped cfg now others (cs_common_name s) (committed w) (committed w')).
Proof.
  intros Hf Hu0 Huo. assert (Hu : forall d cn, bootstrapped cfg now others cn (committed w) d -> unique_identities d)
    by (intros d cn; by apply bootstrapped_unique).
  enough (exists v w', authenticate load_pem cfg now faults others rq w = (Ok v, w') /\
    decides load_pem cfg faults (committed w') rq v /\ unique_identities (committed w') /\
    queue w' = queue w /\
    (committed w' = committed w \/
     exists s row, extract_subject_from_scope load_pem (rq_scope rq) = Some s /\
       bootstrap_row cfg now (cs_common_name s) = Some row /\
       bootstrapped cfg now others (cs_common_name s) (committed w) (committed w'))) as
    (v & w' & E & Hd & Hui & Hrest).
  { exists v, w'. split_and!; try done; try apply Hrest. intros v' Hv'. by eapply decides_functional. }
  unfold authenticate. pose proof (protected_dec cfg rq) as Hp.
  destruct (is_health_path (rq_path rq)), (tls_required cfg); simpl orb in Hp; cbn [negb];
    try (exists (inr anonymous), w; split_and!; try done; [by apply decide_open|by left]).
  destruct (bool_decide (rq_method rq = "OPTIONS"));
    [exists (inr anonymous), w; split_and!; try done; [by apply decide_open|by left]|].
  destruct (extract_subject_from_scope load_pem (rq_scope rq)) as [s|] eqn:Es.
  2: { eexists _, _. split; [reflexivity|]. simpl. split_and!; [by constructor|done|done|by left]. }
  assert (Hf' : operator_lookup_fails faults = false) by (destruct Hf as [?|[?|?]]; [done|done|congruence]).
  destruct (resolve_operator_spec cfg now faults others s w Hf') as (d & E & Hb).
  assert (Hud : unique_identities d) by eauto.
  assert (Hchg : d = committed w \/ exists s' row, Some s = Some s' /\
    bootstrap_row cfg now (cs_common_name s') = Some row /\
    bootstrapped cfg now others (cs_common_name s') (committed w) d).
  { destruct Hb as [?|(Hn & row & Hr & Hc)]; [by left|]. right. exists s, row. split_and!; [done|done|].
    right. eauto. }
  rewrite (bind_step _ _ _ _ _ E).
  destruct (find_operator d (cs_common_name s)) as [[i o]|] eqn:Eo; cbn [fmap option_fmap option_map fst snd].
  2: { eexists _, _. split; [reflexivity|]. simpl. split_and!; try done. eapply decide_unknown; [done|done|].
       by apply find_operator_None. }
  apply find_operator_Some in Eo as [Hi Hc].
  change (op_status (operator_snapshot o)) with (op_status o).
  change (op_role (operator_snapshot o)) with (op_role o).
  case_bool_decide as Hs; cbn [negb].
  2: { eexists _, _. split; [reflexivity|]. simpl. split_and!; try done. by eapply decide_disabled. }
  erewrite bind_step by (by apply serial_is_revoked_eq). simpl.
  pose proof (find_certificate_revoked d (cs_serial s) Hud) as Hrev.
  destruct (negb (serial_lookup_fails faults) && _) eqn:Er.
  - apply andb_true_iff in Er as [Hs1%negb_true_iff Hs2].
    eexists _, _. split; [reflexivity|]. simpl. split_and!; try done. eapply decide_revoked; try done. by apply Hrev.
  - erewrite bind_step by (by apply resolve_tenant_set_eq). eexists _, _. split; [reflexivity|].
    simpl. split_and!; try done. apply andb_false_iff in Er as [Er%negb_false_iff|Er].
    all: destruct (tenant_lookup_fails faults) eqn:Et; simpl;
      match goal with |- decides _ _ _ ?d ?rq ?v => pose proof (decide_admit load_pem cfg faults d rq s i o) as Hadm end;
      rewrite Et in Hadm; apply Hadm; try done; first [by left | right; intros ?%Hrev; congruence].
Qed.

(** A driver error at the operator lookup fails the request. *)
Lemma authenticate_raises faults rq w : ~ operators_readable faults rq ->
  exists w', authenticate load_pem cfg now faults others rq w = (Raise OperationalError, w') /\
    committed w' = committed w /\ queue w' = queue w.
Proof.
  unfold operators_readable. intros Hn. unfold authenticate. pose proof (protected_dec cfg rq) as Hp.
  destruct (is_health_path (rq_path rq)), (tls_required cfg); cbn [orb negb] in *; try tauto.
  destruct (bool_decide (rq_method rq = "OPTIONS")); [tauto|].
  destruct (extract_subject_from_scope load_pem (rq_scope rq)) as [s|]; [|tauto].
  destruct (operator_lookup_fails faults) eqn:Ef; [|tauto].
  unfold resolve_operator, with_session, bind. rewrite Ef. eexists. split; [reflexivity|done].
Qed.

Lemma operators_readable_dec faults rq : operators_readable faults rq \/ ~ operators_readable faults rq.
Proof.
  unfold operators_readable. pose proof (protected_dec cfg rq) as Hp.
  destruct (operator_lookup_fails faults); [|by left; left].
  destruct (extract_subject_from_scope load_pem (rq_scope rq)); [|by left; right; right].
  destruct (_ || _); [by left; right; left|]. right. intros [?|[?|?]]; done.
Qed.


(** C12. The middleware implements the admission rules, also while lookups
    fail: unless the operator table cannot be read, it reaches a decision, the
    one the rules prescribe for the lookups that work and the database as it
    stands after a possible bootstrap registration; it queues nothing, and the
    database is unchanged unless the certificate carries the configured
    bootstrap CN and nobody was registered under it.  The rules allow one
    decision only.  When the operator table cannot be read, a protected request
    with a certificate raises the driver's error and nothing is changed. *)
Theorem authenticate_refines_policy faults rq w :
  unique_identities (committed w) -> unique_identities (others (committed w)) ->
  (operators_readable faults rq ->
   exists v w', authenticate load_pem cfg now faults others rq w = (Ok v, w') /\
     decides load_pem cfg faults (committed w') rq v /\
     (forall v', decides load_pem cfg faults (committed w') rq v' -> v' = v) /\
     queue w' = queue w /\
     (committed w' = committed w \/
      exists s row, extract_subject_from_scope load_pem (rq_scope rq) = Some s /\
        bootstrap_row cfg now (cs_common_name s) = Some row /\
        bootstrapped cfg now others (cs_common_name s) (committed w) (committed w'))) /\
  (~ operators_readable faults rq ->
   exists w', authenticate load_pem cfg now faults others rq w = (Raise OperationalError, w') /\
     committed w' = committed w /\ queue w' = queue w).
Proof. intros Hu Huo. split; [intros Hf; by apply authenticate_decides|apply authenticate_raises]. Qed.

(** The scope the handlers compute from the state the middleware left is the
    scope read from the database. *)
Lemma admitted_scope d rq st id o :
  decides load_pem cfg no_faults d rq (inr st) -> rs_operator (as_request st) = Some (id, o) ->
  get_tenant_scope d (as_request st) = scope_from_db d (id, o).
Proof.
  intros H Ho. inversion H as [| | | | |s i o' Hp He Hi Hc Hs Hr]; subst; simpl in Ho; simplify_eq. done.
Qed.

(** A request that presents a revoked serial never reaches the application
    while the registry can be read. *)
Lemma revoked_serial_rejected {R} faults (app : auth_state -> M R) rq w s : serial_lookup_fails faults = false ->
  unique_identities (committed w) -> unique_identities (others (committed w)) -> protected cfg rq ->
  extract_subject_from_scope load_pem (rq_scope rq) = Some s ->
  serial_revoked (committed w) (cs_serial s) -> serial_revoked (others (committed w)) (cs_serial s) ->
  exists r w', mtls_dispatch load_pem cfg now faults others app rq w = (r, w') /\
    ((exists detail, r = Ok (JSONResponse 401 detail)) \/
     operator_lookup_fails faults = true /\ r = Raise OperationalError).
Proof.
  intros Hsf Hu Hu' Hp Hs (i & row & Hi & Hrow) (j & row' & Hj & Hrow'). unfold mtls_dispatch.
  destruct (operators_readable_dec faults rq) as [Hf|Hf].
  2: { destruct (authenticate_raises faults rq w Hf) as (w1 & E & _). unfold bind. rewrite E. eexists _, _.
       split; [done|]. right. split; [|done]. unfold operators_readable in Hf. destruct (operator_lookup_fails faults); [done|].
       destruct Hf. by left. }
  destruct (authenticate_decides faults rq w Hf Hu Hu') as (v & w1 & Ea & Hd & _ & _ & Hc).
  assert (Hr1 : serial_revoked (committed w1) (cs_serial s)).
  { destruct Hc as [->|(s' & o & _ & _ & [->|(_ & x & _ & [(-> & _)|(-> & _)])])];
      first [by exists i, row|by exists j, row']. }
  rewrite (bind_step _ _ _ _ _ Ea). destruct v as [detail|st]; [by eexists _, w1; eauto|]. exfalso.
  inversion Hd as [| | | | |s' k o _ He _ _ _ Hnr]; subst; [done|].
  rewrite Hs in He. injection He as <-. destruct Hnr; [congruence|done].
Qed.

(** C2. The application runs only for an authenticated caller: if a protected
    request is forwarded, the connection presented a certificate whose CN is
    that of an active operator and whose serial the registry does not list
    as revoked, and the application gets that operator's identity, role and
    exactly the tenant scope of the database.  Any other protected request
    is answered 401 without running the application. *)
Theorem forwarded_only_if_authenticated {R} (app : auth_state -> M R) rq w r w' :
  unique_identities (committed w) -> unique_identities (others (committed w)) ->
  protected cfg rq ->
  mtls_dispatch load_pem cfg now no_faults others app rq w = (Ok r, w') ->
  (exists detail, r = JSONResponse 401 detail) \/
  (exists x st s i o w1, r = Forwarded x /\ with_session (app st) w1 = (Ok x, w') /\
     extract_subject_from_scope load_pem (rq_scope rq) = Some s /\
     as_subject st = Some s /\ rs_operator (as_request st) = Some (i, operator_snapshot o) /\
     rows (operators (committed w1)) !! i = Some o /\ op_cn o = cs_common_name s /\ op_status o = active /\
     ~ serial_revoked (committed w1) (cs_serial s) /\
     get_tenant_scope (committed w1) (as_request st) = scope_from_db (committed w1) (i, o)).
Proof.
  intros Hu Huo Hp E. destruct (authenticate_decides no_faults rq w (or_introl eq_refl) Hu Huo) as (v & w1 & Ea & Hd & _).
  unfold mtls_dispatch in E. rewrite (bind_step _ _ _ _ _ Ea) in E. destruct v as [detail|st].
  - left. exists detail. by unfold ret in E; simplify_eq.
  - right. apply bind_Ok in E as (x & w2 & E & Er). unfold ret in Er. simplify_eq.
    inversion Hd as [| | | | |s i o Hp' He Hi Hc Hs Hr]; subst; [done|]. destruct Hr as [Hr|Hr]; [done|].
    exists x, (mkAuthState (Some s) (mkRequestState (Some (i, operator_snapshot o))
      (Some (bool_decide (op_role o = admin)))
      (Some (tenant_ids (scope_from_db (committed w1) (i, o))))
      (Some (tenant_roles (scope_from_db (committed w1) (i, o)))))), s, i, o, w1.
    split_and!; done.
Qed.

(** Concurrent first contacts: whatever other requests commit between the
    lookup and the insert, a certificate with the bootstrap CN resolves to an
    operator row of that CN, and if CNs were unique among what the others
    committed they stay unique: the loser of the race adds no second row. *)
Theorem bootstrap_race_resolves s row w :
  bootstrap_row cfg now (cs_common_name s) = Some row ->
  unique_identities (others (committed w)) -> unique_identities (committed w) ->
  exists i o w', resolve_operator cfg now no_faults others s w = (Ok (Some (i, operator_snapshot o)), w') /\
    rows (operators (committed w')) !! i = Some o /\ op_cn o = cs_common_name s /\
    unique_identities (committed w') /\
    (committed w' = committed w \/ committed w' = others (committed w) \/
     (forall j x, rows (operators (others (committed w))) !! j = Some x -> op_cn x <> cs_common_name s) /\
     committed w' = on_operators (tbl_insert row) (others (committed w))).
Proof.
  intros Hrow Huo Hu. destruct (resolve_operator_spec cfg now no_faults others s w eq_refl) as (d & E & Hb).
  pose proof (bootstrap_row_cn _ _ _ _ Hrow) as Hcn.
  assert (Hud : unique_identities d) by (by eapply bootstrapped_unique).
  assert (Hf : is_Some (find_operator d (cs_common_name s)) /\
    (d = committed w \/ d = others (committed w) \/
     find_operator (others (committed w)) (cs_common_name s) = None /\
     d = on_operators (tbl_insert row) (others (committed w)))).
  { destruct Hb as [->|(Hn & row' & Hr & [(-> & Hs)|(-> & Hs)])].
    - (* found at once *)
      destruct (find_operator (committed w) (cs_common_name s)) eqn:Eo; [eauto|].
      exfalso. unfold resolve_operator, with_session, bind, get_db in E. simpl in E. rewrite Eo in E.
      rewrite maybe_bootstrap_eq, Hrow in E. cbv zeta in E. simpl in E. unfold cn_free in E.
      case_bool_decide as Hd; injection E as E1 _; try done.
      destruct (find_operator (others (committed w)) (cs_common_name s)); done.
    - eauto.
    - rewrite Hrow in Hr. simplify_eq. rewrite <- Hcn in Hs |- *.
      rewrite find_operator_insert by done. eauto. }
  destruct Hf as ([[i o] Hio] & Hwhere). rewrite Hio in E.
  pose proof (find_operator_Some _ _ _ _ Hio) as [Hi Hc].
  exists i, o, (mkWorld d d (queue w) (audit_log w) (outside w)). split_and!; try done. simpl.
  destruct Hwhere as [?|[?|[Hn ?]]]; [by left|by right; left|right; right].
  split; [by apply find_operator_None|done].
Qed.

(** The role dependency: built only for a non-empty list of roles, and then it
    passes exactly the callers that have a certificate and an operator with
    one of the roles. *)
Theorem require_role_exact roles st w s :
  (require_role [] = Raise (ValueError "require_role() must be called with at least one OperatorRole")) /\
  (roles <> [] -> exists dep, require_role roles = Ok dep /\
     (dep st w = (Ok s, w) <->
      as_subject st = Some s /\ exists o, rs_operator (as_request st) = Some o /\ op_role o.2 ∈ roles)).
Proof.
  split; [done|]. intros Hne. destruct roles as [|r rs]; [done|]. eexists. split; [reflexivity|].
  unfold require_subject, bind, some_or_raise, raise_if, ret, raise.
  destruct (as_subject st) as [s'|]; [|naive_solver].
  destruct (rs_operator (as_request st)) as [o|]; [|naive_solver].
  destruct (mem (op_role o.2) (r :: rs)) eqn:Em; simpl.
  - apply mem_true in Em. split; [intros [= <-]; eauto|]. intros ([= <-] & _). done.
  - apply mem_false in Em. split; [done|]. intros (_ & o' & [= <-] & ?). done.
Qed.
End theorems.

(** A driver error during the registry lookup admits a revoked certificate. *)
Definition demo_load_pem (pem : string) : option x509_cert :=
  if bool_decide (pem = "PEM alice") then Some (mkX509 [("2.5.4.10", "ops"); ("2.5.4.3", "alice")]
    (Some [DNSName "alice.example"; OtherName; IPAddressName (V4 167772161)]) 77 0 100)
  else if bool_decide (pem = "PEM root") then Some (mkX509 [("2.5.4.3", "root")] None 5 0 100)
  else None.

Definition demo_request (pem : string) : http_request :=
  mkRequest "GET" "/v1/servers"
    (inject_tls_extension (fun _ => Some pem) (Some (Some [Byte.x30])) (mkAsgiScope "http" None)).

Definition demo_auth : auth_settings := mkAuthSettings true (Some "root") "admin".

Definition demo_certificate (serial : string) (revoked : bool) : Certificate :=
  mkCertificate None serial ct_cli (Some 1) "alice" "alice" 0 100 revoked None 0 None None None.

Definition revoked_db : DB := on_certificates (tbl_insert (demo_certificate "77" true)) demo_db.

Lemma revocation_check_fails_open :
  (authenticate demo_load_pem demo_auth 0 no_faults id (demo_request "PEM alice") (start revoked_db)).1 =
    Ok (inl "operator cert revoked") /\
  exists st, (authenticate demo_load_pem demo_auth 0 (mkFaults false true false) id
                (demo_request "PEM alice") (start revoked_db)).1 = Ok (inr st) /\
    is_Some (rs_operator (as_request st)).
Proof. split; [vm_compute; reflexivity|]. eexists. split; [vm_compute; reflexivity|done]. Qed.

(** ** Witnesses *)

Lemma demo_identities : unique_identities demo_db.
Proof.
  split.
  - apply (column_NoDup op_cn). apply (bool_decide_unpack _). vm_compute. exact I.
  - apply (column_NoDup crt_serial). apply (bool_decide_unpack _). vm_compute. exact I.
Qed.

Definition demo_authenticate (pem : string) :=
  authenticate demo_load_pem demo_auth 9 no_faults id (demo_request pem) (start demo_db).

Lemma authenticate_refines_policy_witness :
  (demo_authenticate "PEM root").1 = Ok (inr (mkAuthState
     (Some (mkSubject "root" [] 5 0 100 "PEM root"))
     (mkRequestState (Some (3, mkOperator None "root" (Some "bootstrap:root") admin active 9))
        (Some true) (Some []) (Some ∅)))) /\
  ((operators_readable demo_load_pem demo_auth no_faults (demo_request "PEM root") ->
    exists v w', demo_authenticate "PEM root" = (Ok v, w') /\
      decides demo_load_pem demo_auth no_faults (committed w') (demo_request "PEM root") v /\
      (forall v', decides demo_load_pem demo_auth no_faults (committed w') (demo_request "PEM root") v' -> v' = v) /\
      queue w' = [] /\
      (committed w' = demo_db \/
       exists s row, extract_subject_from_scope demo_load_pem (rq_scope (demo_request "PEM root")) = Some s /\
         bootstrap_row demo_auth 9 (cs_common_name s) = Some row /\
         bootstrapped demo_auth 9 id (cs_common_name s) demo_db (committed w'))) /\
   (~ operators_readable demo_load_pem demo_auth no_faults (demo_request "PEM root") ->
    exists w', demo_authenticate "PEM root" = (Raise OperationalError, w') /\ committed w' = demo_db /\ queue w' = [])).
Proof.
  split; [vm_compute; reflexivity|].
  apply (authenticate_refines_policy demo_load_pem demo_auth 9 id no_faults (demo_request "PEM root") (start demo_db));
    exact demo_identities.
Defined.

Lemma forwarded_only_if_authenticated_witness :
  let app := fun st : auth_state => ret (as_subject st) in
  let res := mtls_dispatch demo_load_pem demo_auth 9 no_faults id app (demo_request "PEM alice") (start demo_db) in
  res.1 = Ok (Forwarded (Some (mkSubject "alice" ["alice.example"; "10.0.0.1"] 77 0 100 "PEM alice"))) /\
  ((exists detail, @Forwarded (option CertSubject)
       (Some (mkSubject "alice" ["alice.example"; "10.0.0.1"] 77 0 100 "PEM alice")) = JSONResponse 401 detail) \/
   (exists x st s i o w1, @Forwarded (option CertSubject)
       (Some (mkSubject "alice" ["alice.example"; "10.0.0.1"] 77 0 100 "PEM alice")) = Forwarded x /\
     with_session (app st) w1 = (Ok x, res.2) /\
     extract_subject_from_scope demo_load_pem (rq_scope (demo_request "PEM alice")) = Some s /\
     as_subject st = Some s /\ rs_operator (as_request st) = Some (i, operator_snapshot o) /\
     rows (operators (committed w1)) !! i = Some o /\ op_cn o = cs_common_name s /\ op_status o = active /\
     ~ serial_revoked (committed w1) (cs_serial s) /\
     get_tenant_scope (committed w1) (as_request st) = scope_from_db (committed w1) (i, o))).
Proof.
  intros app res. split; [vm_compute; reflexivity|].
  apply (forwarded_only_if_authenticated demo_load_pem demo_auth 9 id app (demo_request "PEM alice") (start demo_db)).
  - exact demo_identities.
  - exact demo_identities.
  - split; [reflexivity|]. split; [apply mem_false; reflexivity|discriminate].
  - vm_compute. reflexivity.
Defined.

(** Another request registered the bootstrap operator first. *)
Definition rival_row : Operator := mkOperator None "root" (Some "bootstrap:root") admin active 8.
Definition rival : DB -> DB := on_operators (tbl_insert rival_row).

Lemma bootstrap_race_resolves_witness :
  let s := mkSubject "root" [] 5 0 100 "PEM root" in
  (resolve_operator demo_auth 9 no_faults rival s (start demo_db)).1 = Ok (Some (3, rival_row)) /\
  exists i o w', resolve_operator demo_auth 9 no_faults rival s (start demo_db) =
      (Ok (Some (i, operator_snapshot o)), w') /\
    rows (operators (committed w')) !! i = Some o /\ op_cn o = "root" /\
    unique_identities (committed w') /\
    (committed w' = demo_db \/ committed w' = rival demo_db \/
     (forall j x, rows (operators (rival demo_db)) !! j = Some x -> op_cn x <> "root") /\
     committed w' = on_operators (tbl_insert (mkOperator None "root" (Some "bootstrap:root") admin active 9))
                      (rival demo_db)).
Proof.
  intros s. split; [vm_compute; reflexivity|].
  apply (bootstrap_race_resolves demo_auth 9 rival s
           (mkOperator None "root" (Some "bootstrap:root") admin active 9) (start demo_db)).
  - reflexivity.
  - split.
    + apply (column_NoDup op_cn). apply (bool_decide_unpack _). vm_compute. exact I.
    + apply (column_NoDup crt_serial). apply (bool_decide_unpack _). vm_compute. exact I.
  - exact demo_identities.
Defined.
