(* ===== verification/ApiVersion.v ===== *)
(** * API versioning, health probes and the middleware stack

    [src/src/wg_manager/api_versioning.py], the handlers of
    [routers/health.py], [MetricsMiddleware] of [metrics.py] and the stack
    that [create_app] of [main.py] builds around the routers.  Starlette's CORS
    layer and its rendering of JSON bodies are parameters. *)

From S2P Require Import Prelude PyStr Hashing Json Models Session Demo AuditLog TenantScope Auth.

(** ** Responses and layers *)

Record response := mkResponse {
  rsp_status : Z; rsp_headers : list (string * string); rsp_body : json
}.

(** [MutableHeaders.__setitem__]: names compare in lower case, the first
    match is replaced and later ones are dropped. *)
Fixpoint set_header (name value : string) (hs : list (string * string)) : list (string * string) :=
  match hs with
  | [] => [(lower name, value)]
  | h :: hs' =>
      if bool_decide (lower h.1 = lower name)
      then (lower name, value) :: List.filter (fun x => negb (bool_decide (lower x.1 = lower name))) hs'
      else h :: set_header name value hs'
  end.

Definition get_header (name : string) (hs : list (string * string)) : option string :=
  snd <$> find_first (fun h => bool_decide (lower h.1 = lower name)) hs.

(** What a layer sees of the layers below: their response or exception, and
    the route template that the router left in the scope. *)
Record answer := mkAnswer { ans : outcome response; ans_route : option string }.
Definition http_app : Type := http_request -> auth_state -> M answer.

(** ** Deprecation of unprefixed paths *)

Definition EXEMPT_PREFIXES : list string :=
  ["/v1"; "/openapi.json"; "/v1/openapi.json"; "/docs"; "/redoc"; "/metrics"; "/healthz"; "/readyz"].

Definition exempt_by (path prefix : string) : bool :=
  bool_decide (path = prefix) || startswith path (prefix +:+ "/").

Definition is_legacy_path (path : string) : bool :=
  if negb (nonempty path) || bool_decide (path = "/") then false
  else negb (existsb (exempt_by path) EXEMPT_PREFIXES).

Record versioning_settings := mkVersioning { api_legacy_sunset_date : string; api_deprecation_doc_url : string }.

Definition quote : string := String (chr 34) "".
Definition deprecation_link (s : versioning_settings) : string :=
  "<" +:+ api_deprecation_doc_url s +:+ ">; rel=" +:+ quote +:+ "deprecation" +:+ quote +:+
  "; type=" +:+ quote +:+ "text/html" +:+ quote.

Definition stamp (s : versioning_settings) (r : response) : response :=
  mkResponse (rsp_status r)
    (set_header "Link" (deprecation_link s)
       (set_header "Sunset" (api_legacy_sunset_date s) (set_header "Deprecation" "true" (rsp_headers r))))
    (rsp_body r).

Definition deprecation_dispatch (s : versioning_settings) (now : Z) (call_next : http_app) : http_app :=
  fun rq st =>
    a <- call_next rq st ;;
    match ans a with
    | Raise _ => ret a
    | Ok r =>
        if negb (is_legacy_path (rq_path rq)) then ret a
        else
          emit now "api.deprecation" [("path", JStr (rq_path rq)); ("method", JStr (rq_method rq));
                                      ("sunset", JStr (api_legacy_sunset_date s))] ;;
          ret (mkAnswer (Ok (stamp s r)) (ans_route a))
    end.

(** ** The metrics layer *)

Definition record_sample (x : string * string * string) : M unit := fun w =>
  (Ok tt, mkWorld (committed w) (view w) (queue w) (audit_log w)
     (mkOutside (issued (outside w)) (revoked_serials (outside w)) (files (outside w))
        (samples (outside w) ++ [x]) (outcomes (outside w)) (broker (outside w)))).

(** The sample is recorded in a [finally]: also when the layers below raise,
    with the status 500 that no response start has replaced. *)
Definition metrics_call (app : http_app) : http_app := fun rq st =>
  if negb (bool_decide (sc_type (rq_scope rq) = "http")) then app rq st
  else if bool_decide (rq_method rq = "OPTIONS") || bool_decide (rq_path rq = "/metrics") then app rq st
  else
    a <- app rq st ;;
    record_sample (rq_method rq, default (rq_path rq) (ans_route a),
                   dec (match ans a with Ok r => rsp_status r | Raise _ => 500 end)) ;;
    ret a.

(** ** The stack of [create_app] *)

Section stack.
Context (load_pem : string -> option x509_cert) (cfg : auth_settings) (vs : versioning_settings) (now : Z)
  (faults : db_faults) (others : DB -> DB)
  (json_headers : json -> list (string * string)).

Definition error_body (detail : string) : json := JObj [("detail", JStr detail)].

Definition mtls_layer (app : http_app) : http_app := fun rq _ =>
  r <- mtls_dispatch load_pem cfg now faults others (app rq) rq ;;
  match r with
  | Forwarded a => ret a
  | JSONResponse code detail =>
      ret (mkAnswer (Ok (mkResponse code (json_headers (error_body detail)) (error_body detail))) None)
  end.

(** [add_middleware] puts a layer at the front of the list and the stack is
    wrapped from the back: the layer added first is next to the router. *)
Definition build_middleware_stack (added : list (http_app -> http_app)) (router : http_app) : http_app :=
  foldl (fun app layer => layer app) router added.

Definition create_app (cors : http_app -> http_app) (router : http_app) : http_app :=
  build_middleware_stack [cors; mtls_layer; metrics_call; deprecation_dispatch vs now] router.
End stack.

(** ** The versioned OpenAPI document *)

Definition as_object (j : json) : option (list (string * json)) :=
  match j with JObj l => Some l | _ => None end.

(** [full] is the document of [app.openapi()]; a member of the wrong type is
    an [AttributeError] or [TypeError] ([None]). *)
Definition build_v1_openapi (full : list (string * json)) : option (list (string * json)) :=
  paths ← as_object (default (JObj []) (dict_get "paths" full));
  let full1 := dict_set "paths" (JObj (List.filter (fun p => startswith p.1 "/v1") paths)) full in
  info ← as_object (default (JObj []) (dict_get "info" full1));
  let info1 := dict_set "version" (JStr "1.0") info in
  title ← match default (JStr "wg-manager") (dict_get "title" info1) with JStr t => Some t | _ => None end;
  Some (dict_set "info" (JObj (dict_set "title" (JStr (title +:+ " (v1)")) info1)) full1).

(** The two [include_router] loops. *)
Definition mounted (routes : list string) : list string := routes ++ (String.append "/v1" <$> routes).

(** ** Health probes *)

Definition healthz : json := JObj [("status", JStr "ok")].

(** [probe] is the outcome of [SELECT 1]; [exc_text] is [str] of a driver
    error. *)
Definition readyz (exc_text : exn -> string) (probe : outcome unit) : Z * json :=
  match probe with
  | Ok _ => (200, JObj [("status", JStr "ok"); ("checks", JObj [("db", JStr "ok")])])
  | Raise e =>
      let msg := exc_text e in
      let msg := if (200 <? len msg) then String.substring 0 200 msg +:+ "…" else msg in
      (503, JObj [("status", JStr "degraded"); ("checks", JObj [("db", JStr ("error: " +:+ msg))])])
  end.

(** ** Headers *)

Lemma get_set_header n m v hs :
  get_header n (set_header m v hs) = if decide (lower n = lower m) then Some v else get_header n hs.
Proof.
  unfold get_header. case_decide as Hn.
  - rewrite Hn. induction hs as [|h hs IH]; simpl.
    + by rewrite bool_decide_eq_true_2 by apply lower_lower.
    + case_bool_decide as E; simpl; [by rewrite bool_decide_eq_true_2 by apply lower_lower|].
      by rewrite bool_decide_eq_false_2.
  - induction hs as [|h hs IH]; simpl.
    + rewrite bool_decide_eq_false_2; [done|]. rewrite lower_lower. congruence.
    + case_bool_decide as E; simpl.
      * rewrite !bool_decide_eq_false_2; [|congruence|rewrite lower_lower; congruence]. f_equal.
        clear IH. induction hs as [|x hs IH]; simpl; [done|].
        case_bool_decide as Ex; simpl.
        -- by rewrite bool_decide_eq_false_2 by congruence.
        -- by case_bool_decide.
      * by case_bool_decide.
Qed.

Definition deprecation_headers : list string := ["Deprecation"; "Sunset"; "Link"].

Lemma stamp_headers s r n :
  get_header n (rsp_headers (stamp s r)) =
  if decide (lower n = "link") then Some (deprecation_link s)
  else if decide (lower n = "sunset") then Some (api_legacy_sunset_date s)
  else if decide (lower n = "deprecation") then Some "true" else get_header n (rsp_headers r).
Proof. unfold stamp. cbn [rsp_headers]. by rewrite !get_set_header. Qed.

(** The audit line of a hit on a legacy path. *)
Definition deprecation_line (s : versioning_settings) (now : Z) (rq : http_request) : string :=
  emit_line now "api.deprecation" [("path", JStr (rq_path rq)); ("method", JStr (rq_method rq));
    ("sunset", JStr (api_legacy_sunset_date s))].

(** The deprecation layer touches exactly the responses of legacy paths:
    those keep status, body, route and every other header, get the three
    headers with the configured values (replacing any the application set)
    and cost one audit line; any other response, and an exception, passes
    through as it is and logs nothing.  Nothing else of the world changes. *)
Theorem deprecation_envelope s now app rq st w a w1 :
  app rq st w = (Ok a, w1) ->
  exists a' w', deprecation_dispatch s now app rq st w = (Ok a', w') /\
    ans_route a' = ans_route a /\ committed w' = committed w1 /\ view w' = view w1 /\
    queue w' = queue w1 /\ outside w' = outside w1 /\
    match ans a with
    | Ok r =>
        if is_legacy_path (rq_path rq) then
          exists r', ans a' = Ok r' /\ rsp_status r' = rsp_status r /\ rsp_body r' = rsp_body r /\
            get_header "Deprecation" (rsp_headers r') = Some "true" /\
            get_header "Sunset" (rsp_headers r') = Some (api_legacy_sunset_date s) /\
            get_header "Link" (rsp_headers r') = Some (deprecation_link s) /\
            (forall n, ~ lower n ∈ lower <$> deprecation_headers ->
               get_header n (rsp_headers r') = get_header n (rsp_headers r)) /\
            audit_log w' = audit_log w1 ++ [deprecation_line s now rq]
        else a' = a /\ w' = w1
    | Raise _ => a' = a /\ w' = w1
    end.
Proof.
  intros E. unfold deprecation_dispatch. rewrite (bind_step _ _ _ _ _ E).
  destruct (ans a) as [r|e] eqn:Ea; [|by exists a, w1].
  destruct (is_legacy_path (rq_path rq)); simpl; [|by exists a, w1].
  do 2 eexists. split; [reflexivity|]. simpl. split_and!; [done..|].
  exists (stamp s r). split; [done|]. split; [done|]. split; [done|].
  rewrite !stamp_headers. split; [done|]. split; [done|]. split; [done|].
  split; [|done]. intros n Hn. rewrite stamp_headers.
  change (lower <$> deprecation_headers) with ["deprecation"; "sunset"; "link"] in Hn.
  by rewrite !decide_False by (intros Hx; apply Hn; rewrite Hx; set_solver).
Qed.

(** Stamping twice is stamping once, as far as a header lookup shows. *)
Lemma stamp_idempotent s r n :
  get_header n (rsp_headers (stamp s (stamp s r))) = get_header n (rsp_headers (stamp s r)).
Proof. rewrite !stamp_headers. by repeat case_decide. Qed.

(** The versioned twin of a route is never deprecated. *)
Lemma v1_twin_not_legacy r : startswith r "/" = true -> is_legacy_path ("/v1" +:+ r) = false.
Proof.
  intros [r' ->]%startswith_prefix. unfold is_legacy_path. destruct (negb _ || _); [done|].
  apply negb_false_iff, existsb_exists. exists "/v1". split; [by left|].
  unfold exempt_by. apply orb_true_iff. right. by apply (startswith_app "/v1/").
Qed.

(** ** The OpenAPI document *)

Lemma twins_filtered routes : Forall (fun r => startswith r "/v1" = false) routes ->
  List.filter (fun p => startswith p "/v1") (mounted routes) = String.append "/v1" <$> routes.
Proof.
  intros H. unfold mounted. rewrite List.filter_app.
  assert (E1 : List.filter (fun p => startswith p "/v1") routes = []).
  { induction H as [|r l Hr _ IH]; simpl; [done|]. by rewrite Hr. }
  rewrite E1. clear. simpl. induction routes as [|r l IH]; [done|].
  rewrite fmap_cons. cbn [List.filter]. rewrite (startswith_app "/v1" r). by f_equal.
Qed.

Lemma filter_keys {A} (p : string -> bool) (l : list (string * A)) :
  (List.filter (fun x => p x.1) l).*1 = List.filter p l.*1.
Proof. induction l as [|[k v] l IH]; simpl; [done|]. destruct (p k); [rewrite fmap_cons|]; by rewrite IH. Qed.

(** For an application that mounts every route twice, the versioned
    document lists exactly the [/v1] twin of every route, in order, with the
    operations of the full document, pins the version to 1.0, marks the title,
    and leaves every other member of the document alone. *)
Theorem v1_openapi_lists_the_twins full paths info title routes :
  dict_get "paths" full = Some (JObj paths) -> dict_get "info" full = Some (JObj info) ->
  dict_get "title" info = Some (JStr title) -> paths.*1 = mounted routes ->
  Forall (fun r => startswith r "/v1" = false) routes ->
  exists doc ops info', build_v1_openapi full = Some doc /\
    dict_get "paths" doc = Some (JObj ops) /\ ops.*1 = (String.append "/v1" <$> routes) /\
    (forall x, x ∈ ops <-> x ∈ paths /\ startswith x.1 "/v1" = true) /\
    dict_get "info" doc = Some (JObj info') /\ dict_get "version" info' = Some (JStr "1.0") /\
    dict_get "title" info' = Some (JStr (title +:+ " (v1)")) /\
    (forall k, k <> "paths" -> k <> "info" -> dict_get k doc = dict_get k full).
Proof.
  intros Hp Hi Ht Hm Hr. unfold build_v1_openapi. rewrite Hp. simpl.
  rewrite dict_get_set, decide_False by done. rewrite Hi. simpl.
  rewrite dict_get_set, decide_False by done. rewrite Ht. simpl.
  eexists _, (List.filter (fun p => startswith p.1 "/v1") paths),
    (dict_set "title" (JStr (title +:+ " (v1)")) (dict_set "version" (JStr "1.0") info)).
  split; [reflexivity|]. rewrite !dict_get_set.
  split; [reflexivity|]. split; [by rewrite (filter_keys (fun p => startswith p "/v1")), Hm, twins_filtered|].
  split; [intros x; by rewrite !list_elem_of_In, filter_In|].
  split; [reflexivity|]. split; [reflexivity|]. split; [reflexivity|].
  intros k H1 H2. rewrite dict_get_set, (decide_False _ _ H2), dict_get_set, (decide_False _ _ H1). reflexivity.
Qed.

(** The prefix test has no slash, so a route such as [/v10/x] counts as
    versioned here, and as legacy for the middleware. *)
Lemma v10_counts_as_v1 :
  startswith "/v10/x" "/v1" = true /\ is_legacy_path "/v10/x" = true.
Proof. done. Qed.

(** ** The stack *)

Section stack_props.
Context (load_pem : string -> option x509_cert) (cfg : auth_settings) (vs : versioning_settings) (now : Z)
  (faults : db_faults) (others : DB -> DB) (json_headers : json -> list (string * string)).

Definition reject_response (detail : string) : response :=
  mkResponse 401 (json_headers (error_body detail)) (error_body detail).

(** A request that authentication rejects is answered 401 by the whole
    application whatever the routers and the CORS layer are: they do not run.
    The request is counted once with status 401 under its raw path, a legacy
    path also gets the deprecation headers and its audit line, and no state
    changes beyond what authentication itself did. *)
Theorem rejected_stops_at_auth cors router rq st w detail w1 :
  sc_type (rq_scope rq) = "http" -> rq_method rq <> "OPTIONS" -> rq_path rq <> "/metrics" ->
  authenticate load_pem cfg now faults others rq w = (Ok (inl detail), w1) ->
  exists w', create_app load_pem cfg vs now faults others json_headers cors router rq st w =
    (Ok (mkAnswer (Ok (if is_legacy_path (rq_path rq) then stamp vs (reject_response detail)
                       else reject_response detail)) None), w') /\
    committed w' = committed w1 /\ queue w' = queue w1 /\
    samples (outside w') = samples (outside w1) ++ [(rq_method rq, rq_path rq, "401")] /\
    audit_log w' = audit_log w1 ++
      (if is_legacy_path (rq_path rq) then [deprecation_line vs now rq] else []).
Proof.
  intros Ht Hm Hp Ha. unfold create_app, build_middleware_stack. cbn [foldl].
  assert (E : mtls_layer load_pem cfg now faults others json_headers (cors router) rq st w =
    (Ok (mkAnswer (Ok (reject_response detail)) None), w1)).
  { unfold mtls_layer, mtls_dispatch. unfold bind at 1. by rewrite (bind_step _ _ _ _ _ Ha). }
  assert (Em : exists w2, metrics_call (mtls_layer load_pem cfg now faults others json_headers (cors router)) rq st w =
    (Ok (mkAnswer (Ok (reject_response detail)) None), w2) /\
    committed w2 = committed w1 /\ queue w2 = queue w1 /\ audit_log w2 = audit_log w1 /\
    samples (outside w2) = samples (outside w1) ++ [(rq_method rq, rq_path rq, "401")]).
  { unfold metrics_call. rewrite (bool_decide_eq_true_2 _ Ht), !bool_decide_eq_false_2 by done. simpl.
    rewrite (bind_step _ _ _ _ _ E). eexists. split; [reflexivity|]. done. }
  destruct Em as (w2 & Em & Hc & Hq & Hl & Hs). unfold deprecation_dispatch.
  rewrite (bind_step _ _ _ _ _ Em). simpl. destruct (is_legacy_path (rq_path rq)); simpl.
  - eexists. split; [reflexivity|]. simpl. by rewrite Hl.
  - exists w2. by rewrite Hl, app_nil_r.
Qed.
End stack_props.

(** ** Witnesses *)

Definition demo_versioning : versioning_settings := mkVersioning "2027-01-01" "https://docs.example/versioning".
Definition demo_router : http_app := fun rq st =>
  ret (mkAnswer (Ok (mkResponse 200 [("sunset", "never"); ("ETag", "x")] (JStr "body"))) (Some "/servers/{id}")).
Definition demo_legacy (path : string) : http_request :=
  mkRequest "GET" path (mkAsgiScope "http" None).

Lemma deprecation_envelope_witness :
  exists a' w', deprecation_dispatch demo_versioning 9 demo_router (demo_legacy "/servers/7") anonymous (start demo_db)
    = (Ok a', w') /\
    exists r', ans a' = Ok r' /\ get_header "Sunset" (rsp_headers r') = Some "2027-01-01" /\
      get_header "etag" (rsp_headers r') = Some "x" /\
      audit_log w' = [deprecation_line demo_versioning 9 (demo_legacy "/servers/7")].
Proof.
  destruct (deprecation_envelope demo_versioning 9 demo_router (demo_legacy "/servers/7") anonymous
    (start demo_db) _ (start demo_db) eq_refl)
    as (a' & w' & E & _ & _ & _ & _ & _ & r' & Hr & _ & _ & _ & Hs & _ & Ho & Hl).
  exists a', w'. split; [exact E|]. exists r'. split; [exact Hr|]. split; [exact Hs|]. split; [|exact Hl].
  rewrite (Ho "etag"); [reflexivity|]. set_solver.
Defined.

Lemma v1_openapi_lists_the_twins_witness :
  exists doc ops info', build_v1_openapi
    [("openapi", JStr "3.1.0"); ("info", JObj [("title", JStr "wg-manager"); ("version", JStr "0.1.0")]);
     ("paths", JObj [("/servers", JInt 1); ("/clients", JInt 2); ("/v1/servers", JInt 1); ("/v1/clients", JInt 2)])]
    = Some doc /\
    dict_get "paths" doc = Some (JObj ops) /\ ops.*1 = ["/v1/servers"; "/v1/clients"] /\
    dict_get "info" doc = Some (JObj info') /\ dict_get "title" info' = Some (JStr "wg-manager (v1)").
Proof.
  destruct (v1_openapi_lists_the_twins
    [("openapi", JStr "3.1.0"); ("info", JObj [("title", JStr "wg-manager"); ("version", JStr "0.1.0")]);
     ("paths", JObj [("/servers", JInt 1); ("/clients", JInt 2); ("/v1/servers", JInt 1); ("/v1/clients", JInt 2)])]
    _ _ "wg-manager" ["/servers"; "/clients"] eq_refl eq_refl eq_refl eq_refl)
    as (doc & ops & info' & E & Hp & Hk & _ & Hi & _ & Ht & _).
  { by repeat constructor. }
  by exists doc, ops, info'.
Defined.

(** A legacy request without a client certificate: 401 with the deprecation
    headers, and no CORS headers although the CORS layer would add them. *)
Lemma rejected_stops_at_auth_witness :
  exists w', create_app demo_load_pem demo_auth demo_versioning 9 no_faults id (fun _ => [])
    (fun app rq st => a <- app rq st ;; ret (mkAnswer (match ans a with
       | Ok r => Ok (mkResponse (rsp_status r) (("access-control-allow-origin", "*") :: rsp_headers r) (rsp_body r))
       | Raise e => Raise e end) (ans_route a)))
    demo_router (demo_legacy "/servers/7") anonymous (start demo_db) =
    (Ok (mkAnswer (Ok (mkResponse 401 [("deprecation", "true"); ("sunset", "2027-01-01");
        ("link", deprecation_link demo_versioning)] (error_body "client cert required"))) None), w') /\
    samples (outside w') = [("GET", "/servers/7", "401")].
Proof.
  destruct (rejected_stops_at_auth demo_load_pem demo_auth demo_versioning 9 no_faults id (fun _ => [])
    (fun app rq st => a <- app rq st ;; ret (mkAnswer (match ans a with
       | Ok r => Ok (mkResponse (rsp_status r) (("access-control-allow-origin", "*") :: rsp_headers r) (rsp_body r))
       | Raise e => Raise e end) (ans_route a)))
    demo_router (demo_legacy "/servers/7") anonymous (start demo_db) "client cert required"
    (authenticate demo_load_pem demo_auth 9 no_faults id (demo_legacy "/servers/7") (start demo_db)).2)
    as (w' & E & _ & _ & Hs & _).
  - reflexivity.
  - discriminate.
  - discriminate.
  - vm_compute. reflexivity.
  - exists w'. split; [exact E|exact Hs].
Defined.
