(* ===== verification/RouterAudit.v ===== *)
(** * The audit router

    [src/src/wg_manager/routers/audit.py]: the filtered, paginated listing of
    [AuditEvent] rows.  [json.loads] of a stored payload is a parameter. *)

From stdpp Require Import sorting.
From S2P Require Import Prelude PyStr Hashing Models Session Demo AuditLog TenantScope RouterServers RouterClients RouterTenants.

Definition MAX_LIMIT : Z := 500.

(** The query string after FastAPI's parsing. *)
Record audit_query := mkAuditQuery {
  aq_event : option string; aq_actor_cn : option string; aq_resource_type : option string;
  aq_resource_id : option Z; aq_since : option Z; aq_until : option Z; aq_limit : Z; aq_offset : Z
}.

Definition short_enough (n : Z) (o : option string) : bool :=
  match o with Some s => len s <=? n | None => true end.

(** The [Query(...)] constraints: 422 when they fail. *)
Definition valid_query (q : audit_query) : bool :=
  short_enough 64 (aq_event q) && short_enough 255 (aq_actor_cn q) && short_enough 32 (aq_resource_type q) &&
  (0 <? aq_limit q) && (aq_limit q <=? MAX_LIMIT) && (0 <=? aq_offset q).

Definition test {A B} (o : option A) (p : A -> B -> bool) (x : B) : bool :=
  match o with Some a => p a x | None => true end.

(** The WHERE clauses; a comparison with a [NULL] column is not true. *)
Definition event_matches (q : audit_query) (ev : AuditEvent) : bool :=
  test (aq_event q) (fun x e => bool_decide (ev_event e = x)) ev &&
  test (aq_actor_cn q) (fun x e => bool_decide (ev_actor_cn e = Some x)) ev &&
  test (aq_resource_type q) (fun x e => bool_decide (ev_resource_type e = x)) ev &&
  test (aq_resource_id q) (fun x e => bool_decide (ev_resource_id e = Some x)) ev &&
  test (aq_since q) (fun x e => x <=? ev_ts e) ev &&
  test (aq_until q) (fun x e => ev_ts e <? x) ev.

(** [ORDER BY ts DESC, id DESC] *)
Definition newer (x y : Z * AuditEvent) : Prop :=
  ev_ts y.2 < ev_ts x.2 \/ ev_ts y.2 = ev_ts x.2 /\ y.1 < x.1.
Definition newer_eq (x y : Z * AuditEvent) : Prop :=
  ev_ts y.2 < ev_ts x.2 \/ ev_ts y.2 = ev_ts x.2 /\ y.1 <= x.1.
#[global] Instance newer_eq_dec : RelDecision newer_eq.
Proof. intros x y. unfold newer_eq. apply _. Defined.

Definition matching (q : audit_query) (d : DB) : list (Z * AuditEvent) :=
  tbl_select (fun _ ev => event_matches q ev) (audit_events d).

Definition sorted_events (q : audit_query) (d : DB) : list (Z * AuditEvent) :=
  merge_sort newer_eq (matching q d).

Record AuditEventRead := mkAuditEventRead {
  aer_id : Z; aer_ts : Z; aer_event : string; aer_actor_cn : option string;
  aer_actor_serial : option string; aer_actor_role : option string; aer_resource_type : string;
  aer_resource_id : option Z; aer_action : string; aer_before_hash : option string;
  aer_after_hash : option string; aer_payload : option json; aer_request_id : option string
}.

Record AuditEventListResponse := mkAuditEventList {
  ael_items : list AuditEventRead; ael_total : Z; ael_limit : Z; ael_offset : Z
}.

Section audit.
Context (loads : string -> option json).

Definition row_to_read (row : Z * AuditEvent) : outcome AuditEventRead :=
  let '(id, ev) := row in
  let read payload := mkAuditEventRead id (ev_ts ev) (ev_event ev) (ev_actor_cn ev) (ev_actor_serial ev)
    (ev_actor_role ev) (ev_resource_type ev) (ev_resource_id ev) (ev_action ev) (ev_before_hash ev)
    (ev_after_hash ev) payload (ev_request_id ev) in
  match ev_payload ev with
  | None => Ok (read None)
  | Some text => match loads text with
                 | Some j => Ok (read (Some j))
                 | None => Raise (ValueError "JSONDecodeError")
                 end
  end.

Fixpoint read_all (rows : list (Z * AuditEvent)) : outcome (list AuditEventRead) :=
  match rows with
  | [] => Ok []
  | r :: rest =>
      match row_to_read r with
      | Raise e => Raise e
      | Ok x => match read_all rest with Raise e => Raise e | Ok xs => Ok (x :: xs) end
      end
  end.

(** [LIMIT limit OFFSET offset] *)
Definition page {A} (limit offset : Z) (l : list A) : list A := take (Z.to_nat limit) (drop (Z.to_nat offset) l).

Definition list_audit_events (q : audit_query) (op : option (Z * Operator)) : M AuditEventListResponse :=
  RequireAdminOrAuditor op ;;
  raise_if (negb (valid_query q)) RequestValidationError ;;
  d <- get_db ;;
  let total := Z.of_nat (length (matching q d)) in
  items <- lift (read_all (page (aq_limit q) (aq_offset q) (sorted_events q d))) ;;
  ret (mkAuditEventList items total (aq_limit q) (aq_offset q)).
End audit.

(** ** Lemmas *)

Lemma newer_eq_total x y : newer_eq x y \/ newer_eq y x.
Proof. unfold newer_eq. lia. Qed.
#[global] Instance newer_eq_trans : Transitive newer_eq.
Proof. intros x y z. unfold newer_eq. lia. Qed.
#[global] Instance newer_eq_Total : Total newer_eq.
Proof. intros x y. apply newer_eq_total. Qed.

Lemma matching_spec q d i ev :
  (i, ev) ∈ matching q d <-> rows (audit_events d) !! i = Some ev /\ event_matches q ev = true.
Proof. exact (tbl_select_spec (fun _ ev => event_matches q ev) (audit_events d) i ev). Qed.

Lemma sorted_events_perm q d : sorted_events q d ≡ₚ matching q d.
Proof. apply merge_sort_Permutation. Qed.

Lemma NoDup_filter_list {A} (p : A -> bool) l : NoDup l -> NoDup (List.filter p l).
Proof.
  induction 1 as [|x l Hx Hl IH]; simpl; [constructor|]. destruct (p x); [|done]. constructor; [|done].
  rewrite list_elem_of_In, filter_In, <- list_elem_of_In. tauto.
Qed.

Lemma sorted_events_NoDup q d : NoDup (sorted_events q d).
Proof. rewrite sorted_events_perm. apply NoDup_filter_list, NoDup_map_to_list. Qed.

(** Newest first, ids deciding between equal times: the order is strict. *)
Lemma sorted_events_strict q d : StronglySorted newer (sorted_events q d).
Proof.
  assert (Hs : StronglySorted newer_eq (sorted_events q d)) by (apply StronglySorted_merge_sort; apply _).
  pose proof (sorted_events_NoDup q d) as Hnd.
  assert (Hm : forall x, x ∈ sorted_events q d -> x ∈ matching q d) by (intros x; by rewrite sorted_events_perm).
  assert (Hkey : forall x y, x ∈ matching q d -> y ∈ matching q d -> x.1 = y.1 -> x = y).
  { intros [i a] [j b] Ha%matching_spec Hb%matching_spec E. simpl in E. subst.
    destruct Ha as [Ha _], Hb as [Hb _]. rewrite Ha in Hb. by simplify_eq. }
  induction Hs as [|x l Hl IH Hx]; [constructor|]. apply NoDup_cons in Hnd as [Hnin Hnd].
  constructor; [apply IH; [done|]; intros y Hy; apply Hm; by right|].
  rewrite Forall_forall in Hx |- *. intros y Hy. destruct (Hx y Hy) as [?|[Et Hle]]; [by left|]. right.
  split; [done|]. destruct (decide (y.1 = x.1)) as [E|]; [|lia]. exfalso. apply Hnin.
  assert (y = x) as <-; [|done]. apply Hkey; [| |done]; apply Hm; [by right|by left].
Qed.

Lemma read_all_Ok loads rs items :
  read_all loads rs = Ok items -> Forall2 (fun r x => row_to_read loads r = Ok x) rs items.
Proof.
  revert items. induction rs as [|r rs IH]; simpl; intros items; [intros [= <-]; constructor|].
  destruct (row_to_read loads r) eqn:E; [|done]. destruct (read_all loads rs); [|done].
  intros [= <-]. constructor; auto.
Qed.

Lemma row_to_read_key loads i ev x : row_to_read loads (i, ev) = Ok x ->
  aer_id x = i /\ aer_ts x = ev_ts ev /\ aer_event x = ev_event ev.
Proof. unfold row_to_read. repeat case_match; intros [= <-]; done. Qed.

(** Consecutive pages of a list. *)
Lemma pages_concat {A} (l : list A) (k n : nat) :
  mjoin ((fun i => page (Z.of_nat k) (Z.of_nat (i * k)) l) <$> seq 0 n) = take (n * k) l.
Proof.
  unfold page. induction n as [|n IH]; [done|].
  rewrite seq_S, fmap_app. simpl. rewrite join_app, IH. simpl. rewrite app_nil_r, !Nat2Z.id.
  rewrite take_take_drop. f_equal. lia.
Qed.

(** The query for page [i] of [k] rows. *)
Definition page_query (q : audit_query) (k i : nat) : audit_query :=
  mkAuditQuery (aq_event q) (aq_actor_cn q) (aq_resource_type q) (aq_resource_id q) (aq_since q) (aq_until q)
    (Z.of_nat k) (Z.of_nat (i * k)).

Definition read_newer (x y : AuditEventRead) : Prop :=
  aer_ts y < aer_ts x \/ aer_ts y = aer_ts x /\ aer_id y < aer_id x.

Section pages.
Context (loads : string -> option json) (d : DB).

(** Every stored payload parses, as those that [persist] writes do. *)
Definition payloads_parse : Prop := forall i ev text,
  rows (audit_events d) !! i = Some ev -> ev_payload ev = Some text -> loads text <> None.

Definition read_row (r : Z * AuditEvent) : AuditEventRead :=
  match row_to_read loads r with
  | Ok x => x
  | Raise _ => mkAuditEventRead 0 0 "" None None None "" None "" None None None None
  end.

Lemma read_all_total q rs :
  payloads_parse -> (forall r, r ∈ rs -> r ∈ matching q d) -> read_all loads rs = Ok (read_row <$> rs).
Proof.
  intros Hp. induction rs as [|[i ev] rs IH]; intros Hin; [done|].
  assert (Hr : row_to_read loads (i, ev) = Ok (read_row (i, ev))).
  { assert (Hm : (i, ev) ∈ matching q d) by (apply Hin; by left). apply matching_spec in Hm as [Hi _].
    unfold read_row, row_to_read. destruct (ev_payload ev) as [t|] eqn:Et; [|done].
    destruct (loads t) eqn:El; [done|]. by destruct (Hp i ev t Hi Et). }
  cbn [read_all]. rewrite Hr, IH; [done|]. intros r Hr'. apply Hin. by right.
Qed.

Lemma read_row_key q i ev : payloads_parse -> (i, ev) ∈ matching q d ->
  aer_id (read_row (i, ev)) = i /\ aer_ts (read_row (i, ev)) = ev_ts ev.
Proof.
  intros Hp Hm. assert (H : read_all loads [(i, ev)] = Ok (read_row <$> [(i, ev)])).
  { apply (read_all_total q); [done|]. by intros r ->%list_elem_of_singleton. }
  cbn [read_all] in H. unfold read_row in *.
  destruct (row_to_read loads (i, ev)) as [x|] eqn:E.
  - by apply row_to_read_key in E as (-> & -> & _).
  - discriminate H.
Qed.

Lemma sorted_map_read q l : payloads_parse -> (forall r, r ∈ l -> r ∈ matching q d) ->
  StronglySorted newer l -> StronglySorted read_newer (read_row <$> l).
Proof.
  intros Hp Hin Hs. induction Hs as [|[i ev] l Hl IH Hx]; [constructor|]. rewrite fmap_cons. constructor.
  - apply IH. intros r Hr. apply Hin. by right.
  - rewrite Forall_fmap, Forall_forall in *. intros [j ev'] Hj. specialize (Hx _ Hj). unfold compose, read_newer.
    destruct (read_row_key q i ev Hp) as [-> ->]; [apply Hin; by left|].
    destruct (read_row_key q j ev' Hp) as [-> ->]; [apply Hin; by right|]. done.
Qed.
End pages.

(** *** A log that grows between two requests *)

(** Events are only added, and those added sort before those that were there. *)
Definition log_grows (d d' : DB) : Prop :=
  (forall i ev, rows (audit_events d) !! i = Some ev -> rows (audit_events d') !! i = Some ev) /\
  (forall i ev j ev', rows (audit_events d) !! i = Some ev -> rows (audit_events d') !! j = Some ev' ->
     rows (audit_events d) !! j = None -> newer (j, ev') (i, ev)).

Lemma StronglySorted_filter_list {A} (R : A -> A -> Prop) (p : A -> bool) l :
  StronglySorted R l -> StronglySorted R (List.filter p l).
Proof.
  induction 1 as [|x l Hl IH Hx]; [constructor|]. simpl. destruct (p x); [|done]. constructor; [done|].
  rewrite Forall_forall in *. intros y [Hy _]%list_elem_of_In%filter_In. by apply Hx, list_elem_of_In.
Qed.

Lemma grown_on_top q d d' : log_grows d d' -> exists fresh, sorted_events q d' = fresh ++ sorted_events q d.
Proof.
  intros [Hsub Hnew]. set (fresh := List.filter (fun x => bool_decide (rows (audit_events d) !! x.1 = None)) (sorted_events q d')).
  assert (Hf : forall x, x ∈ fresh <-> x ∈ sorted_events q d' /\ rows (audit_events d) !! x.1 = None).
  { intros x. unfold fresh. by rewrite list_elem_of_In, filter_In, bool_decide_eq_true, <- list_elem_of_In. }
  assert (Hin : forall dd i ev, (i, ev) ∈ sorted_events q dd <-> rows (audit_events dd) !! i = Some ev /\ event_matches q ev = true)
    by (intros dd i ev; by rewrite sorted_events_perm, matching_spec).
  exists fresh. apply (StronglySorted_unique_strong newer); [| | |].
  - intros x y _ _. unfold newer. lia.
  - apply sorted_events_strict.
  - apply StronglySorted_app_2; [|apply StronglySorted_filter_list, sorted_events_strict|apply sorted_events_strict].
    intros [j ev'] [i ev] [[Hj _]%Hin Hn]%Hf [Hi _]%Hin. by eapply Hnew.
  - apply NoDup_Permutation; [apply sorted_events_NoDup| |].
    + apply NoDup_app. split_and!; [apply NoDup_filter_list, sorted_events_NoDup| |apply sorted_events_NoDup].
      intros [i ev] [_ Hn]%Hf [Hi _]%Hin. simpl in Hn. congruence.
    + intros [i ev]. rewrite elem_of_app, Hf, !Hin. simpl. split.
      * intros [Hi Hm]. destruct (rows (audit_events d) !! i) as [ev0|] eqn:E; [|tauto]. right.
        apply Hsub in E as E'. rewrite Hi in E'. by simplify_eq.
      * intros [[[? ?] _]|[Hi Hm]]; [done|]. split; [by apply Hsub|done].
Qed.

(** The response to the request for page [i], asked of database [d]. *)
Definition page_resp (loads : string -> option json) (q : audit_query) (k : nat) (d : DB) (i : nat) : AuditEventListResponse :=
  mkAuditEventList (read_row loads <$> page (Z.of_nat k) (Z.of_nat (i * k)) (sorted_events q d))
    (Z.of_nat (length (matching q d))) (Z.of_nat k) (Z.of_nat (i * k)).

Lemma page_incl q d k i x : x ∈ page (Z.of_nat k) (Z.of_nat (i * k)) (sorted_events q d) -> x ∈ matching q d.
Proof.
  unfold page. intros Hx. apply elem_of_take in Hx as (j & Hj & _). rewrite lookup_drop in Hj.
  rewrite <- sorted_events_perm. by eapply list_elem_of_lookup_2.
Qed.

Lemma list_page loads d q o k i : op_role o.2 ∈ [admin; auditor] -> valid_query (page_query q k 0) = true -> payloads_parse loads d ->
  result (list_audit_events loads (page_query q k i) (Some o)) d = Ok (page_resp loads q k d i).
Proof.
  intros Hrole Hv Hp. unfold result, run, list_audit_events, bind, RequireAdminOrAuditor, get_operator.
  cbn [some_or_raise]. unfold bind, ret, raise_if.
  match goal with |- context [negb ?b] => assert (b = true) as -> by (by apply bool_decide_eq_true) end.
  cbn [negb]. assert (Hvi : valid_query (page_query q k i) = true).
  { unfold valid_query in Hv |- *. simpl in *. bool_to_prop. rewrite !andb_true_iff. split_and!; try done; [lia|lia|].
    apply Z.leb_le, Nat2Z.is_nonneg. }
  rewrite Hvi. simpl. change (sorted_events (page_query q k i) d) with (sorted_events q d).
  rewrite (read_all_total loads d q); [done|done|]. apply page_incl.
Qed.

(** A position that only moves back is met by some page. *)
Lemma some_page_meets (g : nat -> nat) k n : (forall i, g i <= g (S i))%nat -> (1 <= n)%nat -> (g (pred n) < n * k)%nat ->
  exists i, (i < n)%nat /\ (i * k <= g i < i * k + k)%nat.
Proof.
  intros Hg Hn Hlt. induction n as [|n IH]; [lia|]. destruct (decide (n * k <= g n)%nat) as [Hge|Hge].
  - exists n. simpl in *. lia.
  - destruct n as [|n]; [simpl in Hge; lia|]. destruct IH as (i & Hi & Hr).
    + lia.
    + simpl pred. specialize (Hg n). lia.
    + exists i. split; [lia|done].
Qed.

(** ** Theorems *)

Lemma mjoin_fmap_fmap {A B} (f : A -> B) (ls : list (list A)) : mjoin ((fun l => f <$> l) <$> ls) = f <$> mjoin ls.
Proof. induction ls as [|l ls IH]; [done|]. rewrite fmap_cons. cbn [mjoin list_join]. rewrite fmap_app. f_equal. exact IH. Qed.

Lemma frozen_items loads q d k n : (length (matching q d) <= n * k)%nat ->
  mjoin (ael_items <$> (page_resp loads q k d <$> seq 0 n)) = read_row loads <$> sorted_events q d.
Proof.
  intros Hn. rewrite <- list_fmap_compose.
  change (ael_items ∘ page_resp loads q k d) with
    ((fun l => read_row loads <$> l) ∘ (fun i => page (Z.of_nat k) (Z.of_nat (i * k)) (sorted_events q d))).
  rewrite list_fmap_compose, mjoin_fmap_fmap, pages_concat, take_ge; [done|]. by rewrite sorted_events_perm.
Qed.

(** Where an event of the first database is in the later ones. *)
Lemma walk_position q (ds : nat -> DB) p x : (forall i, log_grows (ds i) (ds (S i))) ->
  sorted_events q (ds 0%nat) !! p = Some x -> exists g : nat -> nat, g 0%nat = p /\ (forall i, g i <= g (S i))%nat /\
    forall i, sorted_events q (ds i) !! g i = Some x.
Proof.
  intros Hgrow Hx. exists (fun i => length (sorted_events q (ds i)) - length (sorted_events q (ds 0%nat)) + p)%nat.
  assert (Htop : forall i, exists fresh, sorted_events q (ds i) = fresh ++ sorted_events q (ds 0%nat)).
  { induction i as [|i [fresh IH]]; [by exists []|]. destruct (grown_on_top q _ _ (Hgrow i)) as [f2 E].
    exists (f2 ++ fresh). by rewrite E, IH, app_assoc. }
  split_and!; [lia| |].
  - intros i. destruct (grown_on_top q _ _ (Hgrow i)) as [f ->]. rewrite length_app. lia.
  - intros i. destruct (Htop i) as [f ->]. rewrite length_app, lookup_app_r by lia. rewrite <- Hx. f_equal. lia.
Qed.

Lemma walk_meets loads (ds : nat -> DB) q k n i ev : (1 <= n)%nat ->
  (forall i, log_grows (ds i) (ds (S i))) -> (forall i, payloads_parse loads (ds i)) ->
  (length (matching q (ds (pred n))) <= n * k)%nat ->
  rows (audit_events (ds 0%nat)) !! i = Some ev -> event_matches q ev = true ->
  i ∈ aer_id <$> mjoin (ael_items <$> ((fun i => page_resp loads q k (ds i) i) <$> seq 0 n)).
Proof.
  intros Hn Hgrow Hp Hlen Hi Hm. assert (Hx : (i, ev) ∈ sorted_events q (ds 0%nat)).
  { rewrite sorted_events_perm. by apply matching_spec. }
  apply list_elem_of_lookup in Hx as [p Hx]. destruct (walk_position q ds p _ Hgrow Hx) as (g & _ & Hg & Hat).
  destruct (some_page_meets g k n Hg Hn) as (j & Hj & Hr).
  { rewrite <- sorted_events_perm in Hlen. pose proof (lookup_lt_Some _ _ _ (Hat (pred n))). lia. }
  assert (Hin : (i, ev) ∈ page (Z.of_nat k) (Z.of_nat (j * k)) (sorted_events q (ds j))).
  { unfold page. rewrite !Nat2Z.id. apply elem_of_take. exists (g j - j * k)%nat.
    rewrite lookup_drop. split; [rewrite <- (Hat j); f_equal; lia|lia]. }
  apply list_elem_of_fmap. exists (read_row loads (i, ev)).
  split; [symmetry; by apply (read_row_key loads (ds j) q), (page_incl _ _ k j)|].
  apply list_elem_of_join. exists (ael_items (page_resp loads q k (ds j) j)). split.
  - apply list_elem_of_fmap. eauto.
  - apply list_elem_of_fmap. exists (page_resp loads q k (ds j) j). split; [done|].
    apply list_elem_of_fmap. exists j. split; [done|]. apply elem_of_seq. lia.
Qed.

(** C32. Walking GET /audit page by page misses nothing: for an admin or
    auditor, a page size of at most 500 and payloads that parse, every page
    answers with the events of its moment and their full count, and an event
    that matches the filter when the walk begins is on one of the pages, also
    when events are written during the walk, as long as they sort before the
    older ones; every event shown matches.  When nothing is written during the
    walk the pages list each matching event exactly once, strictly newest
    first; otherwise the offsets shift and an event may be shown again. *)
Theorem audit_pages_complete loads (ds : nat -> DB) q o k n :
  op_role o.2 ∈ [admin; auditor] -> (1 <= n)%nat -> valid_query (page_query q k 0) = true ->
  (forall i, log_grows (ds i) (ds (S i))) -> (forall i, payloads_parse loads (ds i)) ->
  (length (matching q (ds (pred n))) <= n * k)%nat ->
  exists pages, length pages = n /\
    (forall i resp, pages !! i = Some resp ->
       result (list_audit_events loads (page_query q k i) (Some o)) (ds i) = Ok resp /\
       ael_total resp = Z.of_nat (length (matching q (ds i))) /\
       forall x, x ∈ ael_items resp ->
         exists ev, rows (audit_events (ds i)) !! aer_id x = Some ev /\ event_matches q ev = true) /\
    (forall i ev, rows (audit_events (ds 0%nat)) !! i = Some ev -> event_matches q ev = true ->
       i ∈ aer_id <$> mjoin (ael_items <$> pages)) /\
    ((forall i, ds i = ds 0%nat) ->
       StronglySorted read_newer (mjoin (ael_items <$> pages)) /\ NoDup (aer_id <$> mjoin (ael_items <$> pages))).
Proof.
  intros Hrole Hn Hv Hgrow Hp Hlen. exists ((fun i => page_resp loads q k (ds i) i) <$> seq 0 n). split_and!.
  - by rewrite length_fmap, length_seq.
  - intros i resp Hr. apply list_lookup_fmap_Some in Hr as (j & -> & Hj). apply lookup_seq in Hj as [-> _]. simpl.
    split; [by apply list_page|]. split; [done|]. intros x Hx.
    apply list_elem_of_fmap in Hx as ([j ev] & -> & Hx%page_incl).
    destruct (read_row_key loads (ds i) q j ev (Hp i) Hx) as [-> _]. apply matching_spec in Hx. eauto.
  - intros i ev Hi Hm. by eapply walk_meets.
  - intros Hfrozen.
    assert (E : mjoin (ael_items <$> ((fun i => page_resp loads q k (ds i) i) <$> seq 0 n)) =
      read_row loads <$> sorted_events q (ds 0%nat)).
    { rewrite <- (frozen_items loads q (ds 0%nat) k n) by (by rewrite <- (Hfrozen (pred n))). do 2 f_equal.
      apply list_fmap_ext. intros j x _. by rewrite Hfrozen. }
    rewrite E. split; [apply (sorted_map_read loads (ds 0%nat) q); [done|by intros r; rewrite sorted_events_perm|apply sorted_events_strict]|].
    rewrite <- list_fmap_compose. apply NoDup_fmap_2_strong; [|apply sorted_events_NoDup].
    intros [i a] [j b]. rewrite !sorted_events_perm. intros Ha Hb. unfold compose.
    destruct (read_row_key loads _ q i a (Hp 0%nat) Ha) as [-> _], (read_row_key loads _ q j b (Hp 0%nat) Hb) as [-> _].
    intros ->. apply matching_spec in Ha as [Ha _], Hb as [Hb _]. rewrite Ha in Hb. by simplify_eq.
Qed.

(** The query restricted to the half-open window from [a] to [b]. *)
Definition window_query (q : audit_query) (a b : option Z) : audit_query :=
  mkAuditQuery (aq_event q) (aq_actor_cn q) (aq_resource_type q) (aq_resource_id q) a b (aq_limit q) (aq_offset q).

Lemma filter_split_perm {A} (p p1 p2 : A -> bool) l :
  (forall x, p x = p1 x || p2 x) -> (forall x, p1 x && p2 x = false) ->
  List.filter p l ≡ₚ List.filter p1 l ++ List.filter p2 l.
Proof.
  intros Hp Hd. induction l as [|x l IH]; [done|]. simpl. rewrite Hp. specialize (Hd x).
  destruct (p1 x), (p2 x); simpl in *; try done.
  - by rewrite IH.
  - rewrite IH. apply Permutation_middle.
Qed.

(** Adjacent windows neither lose nor repeat events: splitting a time window
    at any instant inside it splits the matching events, so the totals of
    GET /audit add up and no event is listed in both halves. *)
Theorem audit_windows_split q d a m b :
  (forall x, a = Some x -> x <= m) -> (forall x, b = Some x -> m <= x) ->
  matching (window_query q a b) d ≡ₚ
    matching (window_query q a (Some m)) d ++ matching (window_query q (Some m) b) d /\
  (forall r, r ∈ matching (window_query q a (Some m)) d -> r ∉ matching (window_query q (Some m) b) d).
Proof.
  intros Ha Hb.
  assert (Hsplit : forall ev,
    event_matches (window_query q a b) ev =
      event_matches (window_query q a (Some m)) ev || event_matches (window_query q (Some m) b) ev /\
    event_matches (window_query q a (Some m)) ev && event_matches (window_query q (Some m) b) ev = false).
  { intros ev. unfold event_matches. simpl.
    destruct (test (aq_event q) _ ev), (test (aq_actor_cn q) _ ev), (test (aq_resource_type q) _ ev),
      (test (aq_resource_id q) _ ev); try done.
    destruct a as [x|], b as [y|]; cbn [test];
      try specialize (Ha _ eq_refl); try specialize (Hb _ eq_refl);
      repeat match goal with
      | |- context [?u <=? ?v] => destruct (Z.leb_spec u v)
      | |- context [?u <? ?v] => destruct (Z.ltb_spec u v)
      end; try done; lia. }
  split.
  - unfold matching, tbl_select. apply filter_split_perm; intros [i ev]; apply Hsplit.
  - intros [i ev] [_ H1]%matching_spec [_ H2]%matching_spec. destruct (Hsplit ev) as [_ H]. by rewrite H1, H2 in H.
Qed.

(** The listing is read-only and gated. *)
Lemma list_audit_events_quiet loads q op : quiet (list_audit_events loads q op).
Proof. unfold list_audit_events, RequireAdminOrAuditor, get_operator. solve_effect. Qed.

(** ** Witnesses *)

Definition demo_event (ts : Z) (name : string) : AuditEvent :=
  mkAuditEvent None ts name (Some "alice") None None "server" (Some 1) "create" None None None None.
Definition audit_db : DB :=
  on_audit_events (fun _ => mkTable {[1 := demo_event 10 "a"; 2 := demo_event 10 "b"; 3 := demo_event 7 "c"]} 4) demo_db.
Definition any_query : audit_query := mkAuditQuery None (Some "alice") None None None None 2 0.

(** An event is written between the first and the second request. *)
Definition later_log : DB := on_audit_events (tbl_insert (demo_event 11 "d")) audit_db.
Definition walked (i : nat) : DB := match i with O => audit_db | _ => later_log end.

Definition shown (i : nat) : list string :=
  match result (list_audit_events (fun _ => None) (page_query any_query 2 i) (Some (1, demo_operator))) (walked i) with
  | Ok r => aer_event <$> ael_items r | Raise _ => [] end.

Lemma audit_pages_complete_witness :
  shown 0 ++ shown 1 = ["b"; "a"; "a"; "c"] /\
  exists pages, length pages = 2%nat /\
    (forall i resp, pages !! i = Some resp ->
       result (list_audit_events (fun _ => None) (page_query any_query 2 i) (Some (1, demo_operator))) (walked i) = Ok resp /\
       ael_total resp = Z.of_nat (length (matching any_query (walked i))) /\
       forall x, x ∈ ael_items resp ->
         exists ev, rows (audit_events (walked i)) !! aer_id x = Some ev /\ event_matches any_query ev = true) /\
    (forall i ev, rows (audit_events (walked 0%nat)) !! i = Some ev -> event_matches any_query ev = true ->
       i ∈ aer_id <$> mjoin (ael_items <$> pages)) /\
    ((forall i, walked i = walked 0%nat) ->
       StronglySorted read_newer (mjoin (ael_items <$> pages)) /\ NoDup (aer_id <$> mjoin (ael_items <$> pages))).
Proof.
  split; [vm_compute; reflexivity|].
  assert (Hrows : forall i ev, rows (audit_events audit_db) !! i = Some ev -> ev_payload ev = None /\ ev_ts ev <= 10 /\ i <= 3).
  { intros i ev Hi. simpl in Hi. apply lookup_insert_Some in Hi as [[<- <-]|[_ Hi]]; [by split_and!|].
    apply lookup_insert_Some in Hi as [[<- <-]|[_ [<- <-]%lookup_singleton_Some]]; by split_and!. }
  apply (audit_pages_complete (fun _ => None) walked any_query (1, demo_operator) 2 2).
  - by left.
  - lia.
  - vm_compute. reflexivity.
  - intros [|i]; cbn [walked].
    + split; [intros i ev Hi; simpl; rewrite lookup_insert_ne; [done|]; destruct (Hrows _ _ Hi); lia|].
      intros i ev j ev' Hi Hj Hn. unfold later_log in Hj. cbn [audit_events on_audit_events tbl_insert rows] in Hj. apply lookup_insert_Some in Hj as [[<- <-]|[_ Hj]]; [|congruence].
      destruct (Hrows _ _ Hi) as (_ & ? & _). left. simpl. lia.
    + split; [done|]. intros i0 ev j ev' Hi Hj Hn. congruence.
  - intros [|i] j ev t Hi Ht; cbn [walked] in Hi.
    + destruct (Hrows _ _ Hi) as [? _]. congruence.
    + unfold later_log in Hi. cbn [audit_events on_audit_events tbl_insert rows] in Hi. apply lookup_insert_Some in Hi as [[<- <-]|[_ Hi]]; [done|]. destruct (Hrows _ _ Hi) as [? _]. congruence.
  - vm_compute. lia.
Defined.

Lemma audit_windows_split_witness :
  length (matching (window_query any_query (Some 5) (Some 20)) audit_db) = 3%nat /\
  matching (window_query any_query (Some 5) (Some 20)) audit_db ≡ₚ
    matching (window_query any_query (Some 5) (Some 10)) audit_db ++
    matching (window_query any_query (Some 10) (Some 20)) audit_db /\
  (forall r, r ∈ matching (window_query any_query (Some 5) (Some 10)) audit_db ->
     r ∉ matching (window_query any_query (Some 10) (Some 20)) audit_db).
Proof.
  split; [vm_compute; reflexivity|].
  apply (audit_windows_split any_query audit_db (Some 5) 10 (Some 20)); intros x [= <-]; lia.
Defined.
