(* ===== verification/Pki.v ===== *)
(** * The X.509 PKI layer

    [src/src/wg_manager/pki.py]: the [PKIBackend] protocol, the in-process
    [LocalDevPKI], the Vault backend and the factory.  Building and signing
    certificates is the cryptography package's and Vault's work and is a
    parameter; the requests the code makes of them are the records [tbs] and
    [vault_issue_request]. *)

From S2P Require Import Prelude PyStr IpAddr Models Session Demo RouterClients RouterTenants Auth.

Record Cert := mkCert {
  cert_pem : string; private_pem : string; chain_pem : string; cert_serial : Z;
  cert_cn : string; cert_sans : list string; cert_not_before : Z; cert_not_after : Z
}.

(** ** The protocol *)

(** A backend answers from what it has issued or revoked before. *)
Class PKIBackend := {
  pki_issue : list Z -> bool -> string -> list string -> Z -> outcome Cert;
    (** serials issued so far, [serverAuth] or [clientAuth], CN, SANs, TTL in seconds *)
  pki_revoke : list Z -> Z -> outcome (list Z)
    (** its revocation list and the serial; the list afterwards *)
}.

(** What its clients rely on: an issued certificate names the identity that
    was asked for. *)
Class PKILaws `{PKIBackend} := {
  pki_issue_identity h srv cn sans ttl c :
    pki_issue h srv cn sans ttl = Ok c -> cert_cn c = cn /\ cert_sans c = sans;
  pki_issue_window h srv cn sans ttl c :
    pki_issue h srv cn sans ttl = Ok c -> 0 < ttl -> cert_not_before c < cert_not_after c
}.

(** A serial that was revoked is on the backend's list, and stays there.  X.509
    serials are not negative. *)
Class RevocationLaws `{PKIBackend} := {
  pki_revoke_lists l n l' : pki_revoke l n = Ok l' -> l ⊆ l' /\ (0 <= n -> n ∈ l')
}.

Definition issue_leaf `{PKIBackend} (server_eku : bool) (cn : string) (sans : list string)
  (ttl_seconds : Z) : M Cert := fun w =>
  match pki_issue (issued (outside w)) server_eku cn sans ttl_seconds with
  | Ok c => (Ok c, mkWorld (committed w) (view w) (queue w) (audit_log w)
      (mkOutside (cert_serial c :: issued (outside w)) (revoked_serials (outside w)) (files (outside w)) (samples (outside w)) (outcomes (outside w)) (broker (outside w))))
  | Raise e => (Raise e, w)
  end.

Definition revoke_leaf `{PKIBackend} (serial : Z) : M unit := fun w =>
  match pki_revoke (revoked_serials (outside w)) serial with
  | Ok revoked => (Ok tt, mkWorld (committed w) (view w) (queue w) (audit_log w)
      (mkOutside (issued (outside w)) revoked (files (outside w)) (samples (outside w)) (outcomes (outside w)) (broker (outside w))))
  | Raise e => (Raise e, w)
  end.

(** ** PEM bundles *)

Definition newline : string := String (chr 10) "".

(** [pem.rstrip("\n")] *)
Fixpoint rstrip_nl (s : string) : string :=
  match s with
  | "" => ""
  | String c s' =>
      match rstrip_nl s' with
      | "" => if code c =? 10 then "" else String c ""
      | r => String c r
      end
  end.

Definition blank (s : string) : bool := negb (nonempty (strip s)).

Fixpoint join_pems (pems : list string) : string :=
  match pems with
  | [] => ""
  | pem :: rest =>
      if negb (nonempty pem) || blank pem then join_pems rest
      else rstrip_nl pem +:+ newline +:+ join_pems rest
  end.

(** ** Names *)

Definition san_extension (sans : list string) : list general_name :=
  (fun raw => match ip_address raw with Some a => IPAddressName a | None => DNSName raw end) <$> sans.

(** ** Serials as Vault writes them *)

Fixpoint remove_colons (s : string) : string :=
  match s with
  | "" => ""
  | String c s' => if ceqb c ":" then remove_colons s' else String c (remove_colons s')
  end.

(** [None] is the [ValueError] of a malformed text. *)
Definition hex_colon_to_int (serial_hex : string) : option Z := py_int16 (remove_colons serial_hex).

(** [\[raw\[i:i+2\] for i in range(0, len(raw), 2)\]] *)
Fixpoint chunks2 (s : string) : list string :=
  match s with
  | "" => []
  | String a "" => [String a ""]
  | String a (String b s') => String a (String b "") :: chunks2 s'
  end.

Definition int_to_hex_colon (serial : Z) : string :=
  let raw := (if serial <? 0 then "-" +:+ hex (- serial) else hex serial) in
  let raw := if len raw mod 2 =? 0 then raw else "0" +:+ raw in
  join ":" (chunks2 raw).

(** ** [LocalDevPKI] *)

(** A certificate to be signed. *)
Record tbs := mkTbs {
  tbs_subject : string; tbs_issuer : string; tbs_serial : Z; tbs_not_before : Z; tbs_not_after : Z;
  tbs_ca : bool; tbs_path_length : option Z; tbs_sans : list general_name;
  tbs_server_auth : bool; tbs_client_auth : bool; tbs_cert_sign : bool
}.

(** Keys, random serials and signatures; [sign] is [None] where building or
    signing raises [ValueError] or [TypeError]. *)
Record signer := mkSigner {
  random_serial : list Z -> Z; fresh_key_pem : list Z -> string; sign : tbs -> option string
}.

Definition seconds (n : Z) : Z := n * 1000000.
Definition minutes (n : Z) : Z := seconds (60 * n).
Definition days (n : Z) : Z := seconds (86400 * n).

Definition DEV_ROOT_CN : string := "wg-manager dev root".
Definition DEV_INT_CN : string := "wg-manager dev intermediate".

Record LocalDevPKI := mkLocalDevPKI { root_pem : string; intermediate_pem : string }.

Section local.
Context (sg : signer) (now : Z).

(** [generate]: a self-signed root and an intermediate signed by it. *)
Definition root_tbs : tbs :=
  mkTbs DEV_ROOT_CN DEV_ROOT_CN (random_serial sg []) (now - minutes 1) (now + days (365 * 10))
    true (Some 1) [] false false true.
Definition intermediate_tbs : tbs :=
  mkTbs DEV_INT_CN (tbs_subject root_tbs) (random_serial sg [random_serial sg []])
    (now - minutes 1) (now + days 365) true (Some 0) [] false false true.

Definition local_generate : option LocalDevPKI :=
  r ← sign sg root_tbs;
  i ← sign sg intermediate_tbs;
  Some (mkLocalDevPKI r i).

Definition local_ca_bundle_pem (hier : LocalDevPKI) : string := intermediate_pem hier +:+ root_pem hier.

Definition leaf_tbs (h : list Z) (server_eku : bool) (cn : string) (sans : list string)
  (ttl_seconds : Z) : tbs :=
  mkTbs cn DEV_INT_CN (random_serial sg h) (now - minutes 1) (now + seconds ttl_seconds)
    false None (san_extension sans) server_eku (negb server_eku) false.

Definition local_issue (hier : LocalDevPKI) (h : list Z) (server_eku : bool) (cn : string)
  (sans : list string) (ttl_seconds : Z) : outcome Cert :=
  let leaf := leaf_tbs h server_eku cn sans ttl_seconds in
  match sign sg leaf with
  | None => Raise (PKIError "failed to sign leaf")
  | Some pem => Ok (mkCert pem (fresh_key_pem sg h) (join_pems [intermediate_pem hier; root_pem hier])
                      (tbs_serial leaf) cn sans (tbs_not_before leaf) (tbs_not_after leaf))
  end.

(** [revoke_cert]: [self._revoked.add(serial)], a set of this process. *)
Definition local_revoke (revoked : list Z) (serial : Z) : outcome (list Z) :=
  Ok (if mem serial revoked then revoked else serial :: revoked).

(** The serials of the CRL, in the order they are added. *)
Definition local_crl (revoked : list Z) : list Z := sort_z (remove_dups revoked).

Definition LocalDevPKI_backend (hier : LocalDevPKI) : PKIBackend := {|
  pki_issue := local_issue hier; pki_revoke := local_revoke
|}.
End local.

(** ** [VaultPKI] *)

(** The parameters of a [generate_certificate] call. *)
Record vault_issue_request := mkVaultIssueRequest {
  vq_role : string; vq_common_name : string; vq_mount : string; vq_ttl : string;
  vq_alt_names : option string; vq_ip_sans : option string
}.

(** [ca_chain] is a list in current and a text in older versions. *)
Inductive vault_chain := ChainList (l : list string) | ChainText (s : string) | ChainMissing.
Record vault_issue_data := mkVaultIssueData {
  vd_certificate : string; vd_private_key : string; vd_serial_number : string;
  vd_ca_chain : vault_chain; vd_issuing_ca : option string
}.

(** The Vault server: issuing from what it issued before, revoking by serial
    text, with its revocation list before and after; [inl] is the text of the
    [VaultError]. *)
Record vault_server := mkVaultServer {
  vault_issue : list Z -> vault_issue_request -> string + vault_issue_data;
  vault_revoke : list Z -> string -> string + list Z
}.

Record VaultPKI := mkVaultPKI {
  int_mount : string; server_role : string; client_role : string
}.

Section vault.
Context (load_pem : string -> option x509_cert) (server : vault_server) (pki : VaultPKI).

Definition is_ip_text (raw : string) : bool := bool_decide (ip_address raw <> None).

Definition vault_request (role cn : string) (sans : list string) (ttl_seconds : Z) : vault_issue_request :=
  let dns_sans := List.filter (fun raw => negb (is_ip_text raw)) sans in
  let ip_sans := List.filter is_ip_text sans in
  mkVaultIssueRequest role cn (int_mount pki) (dec ttl_seconds +:+ "s")
    (if bool_decide (dns_sans = []) then None else Some (join "," dns_sans))
    (if bool_decide (ip_sans = []) then None else Some (join "," ip_sans)).

Definition vault_chain_pem (d : vault_issue_data) : string :=
  let chain := match vd_ca_chain d with
               | ChainList l => join_pems l
               | ChainText s => join_pems [s]
               | ChainMissing => join_pems []
               end in
  if nonempty chain then chain else join_pems [default "" (vd_issuing_ca d)].

Definition vault_issue_cert (h : list Z) (server_eku : bool) (cn : string) (sans : list string)
  (ttl_seconds : Z) : outcome Cert :=
  let role := if server_eku then server_role pki else client_role pki in
  match vault_issue server h (vault_request role cn sans ttl_seconds) with
  | inl exc => Raise (PKIError ("vault refused to issue (" +:+ role +:+ ", cn=" +:+ repr cn +:+ "): " +:+ exc))
  | inr d =>
      match hex_colon_to_int (vd_serial_number d) with
      | None => Raise (ValueError "invalid literal for int() with base 16")
      | Some serial =>
          match load_pem (vd_certificate d) with
          | None => Raise (ValueError "not a certificate")
          | Some parsed =>
              Ok (mkCert (vd_certificate d) (vd_private_key d) (vault_chain_pem d) serial cn sans
                    (x_not_before parsed) (x_not_after parsed))
          end
      end
  end.

Definition vault_revoke_cert (revoked : list Z) (serial : Z) : outcome (list Z) :=
  match vault_revoke server revoked (int_to_hex_colon serial) with
  | inl exc => Raise (PKIError ("vault refused to revoke serial " +:+ dec serial +:+ ": " +:+ exc))
  | inr revoked' => Ok revoked'
  end.

Definition VaultPKI_backend : PKIBackend := {|
  pki_issue := vault_issue_cert; pki_revoke := vault_revoke_cert
|}.
End vault.

(** [_upsert_role]: the policy fields of a leaf role. *)
Record vault_role := mkVaultRole {
  vr_max_ttl : string; vr_server_flag : bool; vr_client_flag : bool;
  vr_allowed_domains : option (list string); vr_allow_any_name : bool;
  vr_allow_ip_sans : bool; vr_allow_subdomains : bool; vr_allow_bare_domains : bool;
  vr_enforce_hostnames : bool
}.

Definition upsert_role (allowed_domains : string) (server_flag client_flag : bool) (max_ttl : string)
  : vault_role :=
  let '(domains, any) :=
    if nonempty allowed_domains
    then (Some (List.filter nonempty (strip <$> split_on "," allowed_domains)), client_flag)
    else (None, true) in
  mkVaultRole max_ttl server_flag client_flag domains any true true true false.

(** ** The factory *)

Record pki_settings := mkPkiSettings {
  pki_backend : string;
  pki_local_dev_root_pem : option string; pki_local_dev_root_key_pem : option string;
  pki_local_dev_int_pem : option string; pki_local_dev_int_key_pem : option string;
  crypto_vault_token : option string;
  pki_vault_int_mount : string; pki_vault_server_role : string; pki_vault_client_role : string
}.

Inductive pki_instance := LocalInstance (hier : LocalDevPKI) | VaultInstance (v : VaultPKI) (bundle : string).

Definition truthy (o : option string) : bool := from_option nonempty false o.

Definition pinned_pems (s : pki_settings) : list (option string) :=
  [pki_local_dev_root_pem s; pki_local_dev_root_key_pem s; pki_local_dev_int_pem s; pki_local_dev_int_key_pem s].

(** The cache of local hierarchies, by pinned PEMs. *)
Definition pki_cache : Type := list (list (option string) * LocalDevPKI).

(** [generate] and [from_pem] build a hierarchy; [read_int_ca_chain] asks
    Vault for the intermediate's chain. *)
Definition make_pki_backend (generate : outcome LocalDevPKI) (from_pem : list string -> outcome LocalDevPKI)
  (read_int_ca_chain : string -> outcome string) (s : pki_settings) (cache : pki_cache)
  : outcome pki_instance * pki_cache :=
  let backend := lower (pki_backend s) in
  if bool_decide (backend = "local") then
    let pinned := pinned_pems s in
    match find_first (fun e => bool_decide (e.1 = pinned)) cache with
    | Some e => (Ok (LocalInstance e.2), cache)
    | None =>
        if existsb truthy pinned && negb (forallb truthy pinned)
        then (Raise (PKIError "PKI_LOCAL_DEV_* must be set as a complete set (root_pem, root_key_pem, int_pem, int_key_pem) or none"), cache)
        else
          match (if forallb truthy pinned then from_pem (omap id pinned) else generate) with
          | Raise e => (Raise e, cache)
          | Ok hier => (Ok (LocalInstance hier), cache ++ [(pinned, hier)])
          end
    end
  else if bool_decide (backend = "vault") then
    if negb (truthy (crypto_vault_token s))
    then (Raise (PKIError "VAULT_TOKEN (or CRYPTO_VAULT_TOKEN) is required for the vault PKI backend"), cache)
    else
      match read_int_ca_chain (pki_vault_int_mount s) with
      | Raise e => (Raise e, cache)
      | Ok bundle =>
          if negb (nonempty bundle)
          then (Raise (PKIError ("intermediate at " +:+ repr (pki_vault_int_mount s) +:+
                  " is not bootstrapped — run `make pki-bootstrap` first")), cache)
          else (Ok (VaultInstance (mkVaultPKI (pki_vault_int_mount s) (pki_vault_server_role s)
                                     (pki_vault_client_role s)) bundle), cache)
      end
  else (Raise (ValueError ("unknown PKI backend " +:+ repr (pki_backend s) +:+ "; expected 'local' or 'vault'")), cache).

(** ** Lemmas: hexadecimal *)

(** Lower-case hexadecimal digits. *)
Definition is_hexlow (c : ascii) : bool := is_decimal c || ((97 <=? code c) && (code c <=? 102)).
Definition hex_val (c : ascii) : Z := if is_decimal c then code c - 48 else code c - 87.

Fixpoint val16 (acc : Z) (s : string) : Z :=
  match s with
  | "" => acc
  | String c s' => val16 (acc * 16 + hex_val c) s'
  end.

Lemma hex_chr_spec d : 0 <= d < 16 -> is_hexlow (hex_chr d) = true /\ hex_val (hex_chr d) = d.
Proof.
  intros Hd. unfold hex_chr, is_hexlow, hex_val, is_decimal.
  destruct (Z.ltb_spec d 10); rewrite code_chr by lia;
    repeat match goal with |- context [?a <=? ?b] => destruct (Z.leb_spec a b) end; simpl; lia || (split; [done|lia]).
Qed.

Lemma hex_go_spec fuel n acc :
  0 <= n < 2 ^ Z.of_nat fuel -> str_forall is_hexlow acc = true ->
  str_forall is_hexlow (hex_go fuel n acc) = true /\ val16 0 (hex_go fuel n acc) = val16 n acc.
Proof.
  revert n acc. induction fuel as [|f IH]; intros n acc H Ha.
  - simpl in H. assert (n = 0) as -> by lia. done.
  - pose proof (Z.mod_pos_bound n 16 ltac:(lia)) as Hm. destruct (hex_chr_spec _ Hm) as [Hc Hv].
    simpl. destruct (Z.ltb_spec n 16).
    + simpl. rewrite Hc, Hv, Z.mod_small by lia. split; [done|]. by f_equal.
    + destruct (IH (n / 16) (String (hex_chr (n mod 16)) acc)) as [I1 I2].
      * rewrite Nat2Z.inj_succ, Z.pow_succ_r in H by lia.
        split; [apply Z.div_pos; lia|]. apply Z.div_lt_upper_bound; lia.
      * simpl. by rewrite Hc.
      * split; [done|]. rewrite I2. simpl. rewrite Hv. f_equal. pose proof (Z.div_mod n 16 ltac:(lia)). lia.
Qed.

Lemma hex_spec n : 0 <= n -> str_forall is_hexlow (hex n) = true /\ val16 0 (hex n) = n.
Proof. intros H. apply hex_go_spec; [split; [done|by apply log2_fuel]|done]. Qed.

Lemma hex_go_nonempty fuel n acc : (0 < fuel)%nat -> hex_go fuel n acc <> "".
Proof.
  destruct fuel as [|f]; [lia|]. intros _. simpl.
  destruct (n <? 16); [done|]. generalize (n / 16) as m, (hex_chr (n mod 16)) as c.
  intros m c. revert m c acc. induction f as [|f IH]; intros m c acc; simpl; [done|]. destruct (m <? 16); [done|apply IH].
Qed.

Ltac hexlow_bounds H :=
  let H' := fresh in pose proof H as H'; unfold is_hexlow, is_decimal in H';
  apply orb_true_iff in H' as [H'|H']; bool_to_prop.

Lemma digits_value_hex acc b s :
  str_forall is_hexlow s = true -> (b = true \/ s <> "") -> digits_value 16 acc b s = Some (val16 acc s).
Proof.
  revert acc b. induction s as [|c s IH]; intros acc b Hs Hb; simpl.
  - destruct Hb as [->|]; done.
  - simpl in Hs. apply andb_true_iff in Hs as [Hc Hs].
    assert (Hd : (code c =? 95) = false /\ digit_value c = Some (hex_val c) /\ (hex_val c <? 16) = true).
    { unfold hex_val, digit_value, is_decimal. hexlow_bounds Hc;
        repeat match goal with |- context [?a <=? ?b] => destruct (Z.leb_spec a b) end; simpl;
        rewrite ?Z.eqb_neq, ?Z.ltb_lt; try lia; (split; [lia|]); (split; [done|lia]). }
    destruct Hd as (-> & -> & ->). apply IH; auto.
Qed.

Lemma is_hexlow_not_space c : is_hexlow c = true -> negb (is_space c) = true.
Proof.
  intros Hc. unfold is_space. apply negb_true_iff.
  hexlow_bounds Hc; repeat (apply orb_false_iff; split);
    try apply andb_false_iff; rewrite ?Z.leb_gt, ?Z.eqb_neq; lia.
Qed.

Lemma py_int16_hex s : s <> "" -> str_forall is_hexlow s = true -> py_int16 s = Some (val16 0 s).
Proof.
  intros Hne Hs. unfold py_int16.
  rewrite strip_no_space by (eapply str_forall_impl; [apply is_hexlow_not_space|done]).
  destruct s as [|c s]; [done|]. unfold with_sign. pose proof Hs as Hs'. simpl in Hs'.
  apply andb_true_iff in Hs' as [Hc Hs'].
  assert ((code c =? 45) = false /\ (code c =? 43) = false) as [-> ->]
    by (rewrite !Z.eqb_neq; hexlow_bounds Hc; lia).
  destruct s as [|x t]; [by apply digits_value_hex; auto|].
  simpl in Hs'. apply andb_true_iff in Hs' as [Hx _].
  assert ((code x =? 120) = false /\ (code x =? 88) = false) as [-> ->]
    by (rewrite !Z.eqb_neq; hexlow_bounds Hx; lia).
  rewrite andb_false_r. apply digits_value_hex; auto.
Qed.

(** Induction two characters at a time. *)
Lemma string_ind2 (P : string -> Prop) :
  P "" -> (forall a, P (String a "")) -> (forall a b s, P s -> P (String a (String b s))) -> forall s, P s.
Proof.
  intros H0 H1 H2. assert (forall n s, (String.length s <= n)%nat -> P s) as H; [|eauto].
  induction n as [|n IH]; intros s Hs; [by destruct s; [|simpl in Hs; lia]|].
  destruct s as [|a [|b s]]; auto. apply H2, IH. simpl in Hs. lia.
Qed.

Lemma join_cons sep p ps : ps <> [] -> join sep (p :: ps) = p +:+ sep +:+ join sep ps.
Proof. by destruct ps. Qed.

Lemma remove_colons_app s t : remove_colons (s +:+ t) = remove_colons s +:+ remove_colons t.
Proof. induction s as [|c s IH]; [done|]. rewrite append_cons. simpl. rewrite IH. by destruct (ceqb c ":"). Qed.

Lemma remove_colons_join s : str_forall is_hexlow s = true -> remove_colons (join ":" (chunks2 s)) = s.
Proof.
  assert (Hnc : forall c, is_hexlow c = true -> ceqb c ":" = false).
  { intros c Hc. unfold ceqb. apply Z.eqb_neq. change (code ":") with 58. hexlow_bounds Hc; lia. }
  induction s as [|a|a b s IH] using string_ind2; intros Hs; simpl in Hs; [done| |].
  - apply andb_true_iff in Hs as [Ha _]. simpl. by rewrite (Hnc a Ha).
  - apply andb_true_iff in Hs as [Ha [Hb Hs]%andb_true_iff].
    destruct (decide (s = "")) as [->|Hne]; [simpl; by rewrite (Hnc a Ha), (Hnc b Hb)|].
    cbn [chunks2]. rewrite join_cons by (by destruct s as [|? [|? ?]]).
    rewrite !remove_colons_app, IH by done. simpl. by rewrite (Hnc a Ha), (Hnc b Hb).
Qed.

(** ** Lemmas: PEM bundles *)

Lemma rstrip_nl_app s t : rstrip_nl t <> "" -> rstrip_nl (s +:+ t) = s +:+ rstrip_nl t.
Proof.
  intros Ht. induction s as [|c s IH]; [done|]. rewrite append_cons. simpl. rewrite IH.
  rewrite append_cons. destruct (s +:+ rstrip_nl t) eqn:E; [|done]. exfalso.
  destruct s; [by apply Ht|done].
Qed.

Lemma rstrip_nl_newline s : rstrip_nl (s +:+ newline) = rstrip_nl s.
Proof. induction s as [|c s IH]; [reflexivity|]. rewrite append_cons. simpl. by rewrite IH. Qed.

Lemma rstrip_nl_idemp s : rstrip_nl (rstrip_nl s) = rstrip_nl s.
Proof.
  induction s as [|c s IH]; [done|]. simpl. destruct (rstrip_nl s) as [|d r] eqn:E.
  - destruct (code c =? 10) eqn:Ec; [done|]. simpl. by rewrite Ec.
  - set (t := String d r) in *. change (rstrip_nl (String c t)) with
      (match rstrip_nl t with "" => if code c =? 10 then "" else String c "" | r' => String c r' end).
    by rewrite IH.
Qed.

Lemma blank_spec s : blank s = str_forall is_space s.
Proof.
  unfold blank, strip. assert (Hr : forall t, nonempty (rstrip t) = negb (str_forall is_space t)).
  { intros t. induction t as [|c t IH]; [done|]. simpl. destruct (rstrip t) eqn:E.
    - simpl in IH. destruct (str_forall is_space t); [|done]. rewrite andb_true_r. by destruct (is_space c).
    - simpl in IH. destruct (str_forall is_space t); [done|]. by rewrite andb_false_r. }
  rewrite Hr, negb_involutive. induction s as [|c s IH]; [done|]. simpl.
  destruct (is_space c) eqn:E; [done|]. simpl. by rewrite E.
Qed.

Lemma blank_rstrip_nl s : blank (rstrip_nl s) = blank s.
Proof.
  rewrite !blank_spec. induction s as [|c s IH]; [done|]. simpl.
  assert (Hc : (code c =? 10) = true -> is_space c = true).
  { intros E%Z.eqb_eq. unfold is_space. by rewrite E. }
  destruct (rstrip_nl s); [|simpl in *; by rewrite <- IH].
  simpl in IH. rewrite <- IH, andb_true_r. destruct (code c =? 10) eqn:E; simpl; [by rewrite Hc|by rewrite andb_true_r].
Qed.

Lemma join_pems_app xs ys : join_pems (xs ++ ys) = join_pems xs +:+ join_pems ys.
Proof.
  induction xs as [|x xs IH]; [done|]. simpl. destruct (negb (nonempty x) || blank x); [done|].
  rewrite IH. by rewrite !append_assoc.
Qed.

(** A bundle is empty, or a non-blank text and one line feed. *)
Lemma join_pems_shape xs :
  join_pems xs = "" \/
  exists s, join_pems xs = s +:+ newline /\ rstrip_nl s = s /\ blank s = false.
Proof.
  induction xs as [|x xs IH]; [by left|]. simpl. destruct (negb (nonempty x) || blank x) eqn:E; [done|].
  apply orb_false_iff in E as [_ Hb]. right. destruct IH as [->|(s & -> & Hs & Hsb)].
  - exists (rstrip_nl x). rewrite append_nil_r. split_and!; [done|apply rstrip_nl_idemp|by rewrite blank_rstrip_nl].
  - exists (rstrip_nl x +:+ newline +:+ s). split_and!.
    + by rewrite !append_assoc.
    + rewrite <- append_assoc, rstrip_nl_app, Hs; [done|]. rewrite Hs. by intros ->.
    + rewrite blank_spec, !str_forall_app, <- !blank_spec, Hsb. by rewrite !andb_false_r.
Qed.

Lemma join_pems_single xs : join_pems [join_pems xs] = join_pems xs.
Proof.
  destruct (join_pems_shape xs) as [->|(s & -> & Hs & Hb)]; [done|].
  simpl. assert (nonempty (s +:+ newline) = true) as ->.
  { apply nonempty_true. by destruct s. }
  assert (blank (s +:+ newline) = false) as ->.
  { by rewrite blank_spec, str_forall_app, <- blank_spec, Hb. }
  simpl. by rewrite rstrip_nl_newline, Hs.
Qed.

(** ** Theorems *)

(** Serials survive the trip through Vault's notation: reading back the
    colon-separated hexadecimal text that is sent to revoke a serial gives
    that serial, for serials of any size. *)
Theorem serial_hex_roundtrip n : 0 <= n -> hex_colon_to_int (int_to_hex_colon n) = Some n.
Proof.
  intros Hn. unfold hex_colon_to_int, int_to_hex_colon. destruct (Z.ltb_spec n 0); [lia|].
  destruct (hex_spec n Hn) as [Hh Hv]. pose proof (hex_go_nonempty _ n "" (Nat.lt_0_succ (Z.to_nat (Z.log2 n)))) as Hne.
  fold (hex n) in Hne. destruct (len (hex n) mod 2 =? 0).
  - rewrite remove_colons_join, py_int16_hex by done. by rewrite Hv.
  - assert (str_forall is_hexlow ("0" +:+ hex n) = true) by (rewrite str_forall_app, Hh; done).
    rewrite remove_colons_join, py_int16_hex; [|by destruct (hex n)|done|done].
    change (val16 0 ("0" +:+ hex n)) with (val16 0 (hex n)). by rewrite Hv.
Qed.

(** Bundles concatenate safely: joining bundles gives the same text as
    joining all their blocks at once, and a bundle is either empty or ends in
    exactly one line feed, so a block appended to it starts at column 0. *)
Theorem join_pems_composes xs ys :
  join_pems [join_pems xs; join_pems ys] = join_pems (xs ++ ys) /\
  (join_pems xs = "" \/ exists s, join_pems xs = s +:+ newline /\ rstrip_nl s = s /\ s <> "").
Proof.
  split.
  - change [join_pems xs; join_pems ys] with ([join_pems xs] ++ [join_pems ys]).
    by rewrite !join_pems_app, !join_pems_single.
  - destruct (join_pems_shape xs) as [?|(s & ? & ? & Hb)]; [by left|]. right. exists s.
    split_and!; [done|done|]. by intros ->.
Qed.

(** What a signed certificate holds when it is parsed again. *)
Definition x509_of (t : tbs) : x509_cert :=
  mkX509 [(COMMON_NAME_OID, tbs_subject t)] (Some (tbs_sans t)) (tbs_serial t)
    (tbs_not_before t) (tbs_not_after t).

(** Signing and parsing agree, and a PEM text is not blank. *)
Record signer_agrees (sg : signer) (load_pem : string -> option x509_cert) : Prop := mkAgrees {
  agree_load t pem : sign sg t = Some pem -> load_pem pem = Some (x509_of t);
  agree_pem t pem : sign sg t = Some pem -> nonempty pem = true /\ nonempty (strip pem) = true
}.

(** An IP address written the way Python prints it, or not an IP address. *)
Definition canonical_san (s : string) : Prop := forall a, ip_address s = Some a -> ip_str a = s.

Lemma san_roundtrip sans : Forall canonical_san sans -> omap san_text (san_extension sans) = sans.
Proof.
  induction 1 as [|s sans Hs _ IH]; [done|]. unfold canonical_san in Hs.
  unfold san_extension in *. rewrite fmap_cons.
  destruct (ip_address s) as [a|].
  - etrans; [|exact (f_equal2 cons (Hs a eq_refl) IH)]. done.
  - etrans; [|exact (f_equal (cons s) IH)]. done.
Qed.

Section local_theorems.
Context (sg : signer) (now : Z) (hier : LocalDevPKI).

(** The identity a [LocalDevPKI] leaf is issued for is the identity the
    middleware reads from it: the certificate parses back to the requested
    CN and SANs (with IP addresses in canonical form), and to the serial and
    validity that the registry records. *)
Theorem issued_cert_parses_back load_pem h srv cn sans ttl c :
  signer_agrees sg load_pem -> Forall canonical_san sans ->
  local_issue sg now hier h srv cn sans ttl = Ok c ->
  parse_subject_from_pem load_pem (cert_pem c) =
    Some (mkSubject cn sans (cert_serial c) (cert_not_before c) (cert_not_after c) (cert_pem c)).
Proof.
  intros [Hl Hp] Hs. unfold local_issue. destruct (sign sg _) as [pem|] eqn:E; [|done].
  intros [= <-]. unfold parse_subject_from_pem. cbn [cert_pem].
  destruct (Hp _ _ E) as [-> ->]. rewrite (Hl _ _ E).
  do 2 f_equal. exact (san_roundtrip sans Hs).
Qed.

#[global] Instance LocalDevPKI_laws : @PKILaws (LocalDevPKI_backend sg now hier).
Proof.
  split; simpl; unfold local_issue; intros h srv cn sans ttl c;
    (destruct (sign sg _); [|done]); intros [= <-]; simpl; [done|].
  unfold minutes, seconds. lia.
Qed.

#[global] Instance LocalDevPKI_revocation : @RevocationLaws (LocalDevPKI_backend sg now hier).
Proof.
  split. cbn. unfold local_revoke. intros l n l' [= <-]. destruct (mem n l) eqn:E; [by apply mem_true in E|set_solver].
Qed.

(** The validity of a leaf is its TTL and the minute it is backdated by. *)
Lemma local_window h srv cn sans ttl c :
  local_issue sg now hier h srv cn sans ttl = Ok c ->
  cert_not_after c - cert_not_before c = seconds (ttl + 60).
Proof.
  unfold local_issue. destruct (sign sg _); [|done]. intros [= <-]. simpl. unfold minutes, seconds. lia.
Qed.

(** The hierarchy is a path: leaves name the intermediate, it names the root,
    and only the two of them may sign. *)
Lemma hierarchy_path h srv cn sans ttl :
  tbs_issuer (leaf_tbs sg now h srv cn sans ttl) = tbs_subject (intermediate_tbs sg now) /\
  tbs_issuer (intermediate_tbs sg now) = tbs_subject (root_tbs sg now) /\
  tbs_issuer (root_tbs sg now) = tbs_subject (root_tbs sg now) /\
  tbs_ca (leaf_tbs sg now h srv cn sans ttl) = false.
Proof. done. Qed.
End local_theorems.

(** A SAN that is not canonical does not come back. *)
Lemma san_not_canonical : omap san_text (san_extension ["::0001"]) = ["::1"].
Proof. vm_compute. reflexivity. Qed.

Section vault_theorems.
Context (load_pem : string -> option x509_cert) (server : vault_server) (pki : VaultPKI).

(** Vault never returns a certificate with an empty validity. *)
Hypothesis vault_window : forall h q d x, vault_issue server h q = inr d ->
  load_pem (vd_certificate d) = Some x -> x_not_before x < x_not_after x.

Lemma VaultPKI_laws : @PKILaws (VaultPKI_backend load_pem server pki).
Proof.
  split; simpl; unfold vault_issue_cert; intros h srv cn sans ttl c;
    destruct (vault_issue _ _ _) eqn:E; try done;
    destruct (hex_colon_to_int _); try done; destruct (load_pem _) eqn:El; try done;
    intros [= <-]; simpl; [done|]. intros _. eauto.
Qed.

(** [POST /<mount>/revoke] lists the certificate of the serial it is given, and
    takes none off the list. *)
Hypothesis vault_lists : forall l text l', vault_revoke server l text = inr l' ->
  l ⊆ l' /\ forall n, hex_colon_to_int text = Some n -> n ∈ l'.

Lemma VaultPKI_revocation : @RevocationLaws (VaultPKI_backend load_pem server pki).
Proof.
  split. cbn. unfold vault_revoke_cert. intros l n l'. destruct (vault_revoke _ _ _) as [|r] eqn:E; [done|]. intros [= <-].
  apply vault_lists in E as [Hs Hn]. split; [done|]. intros H0. by apply Hn, serial_hex_roundtrip.
Qed.
End vault_theorems.

(** Every SAN that is asked for goes to Vault, as a name or as an address. *)
Lemma vault_request_covers pki role cn sans ttl s :
  s ∈ sans <->
  (is_ip_text s = false /\ s ∈ List.filter (fun raw => negb (is_ip_text raw)) sans /\
   vq_alt_names (vault_request pki role cn sans ttl) <> None) \/
  (is_ip_text s = true /\ s ∈ List.filter is_ip_text sans /\
   vq_ip_sans (vault_request pki role cn sans ttl) <> None).
Proof.
  rewrite !list_elem_of_In, !filter_In, negb_true_iff. unfold vault_request. simpl.
  assert (Hf : forall p : string -> bool, In s sans -> p s = true -> List.filter p sans <> []).
  { intros p Hin Hp E. assert (Hx : In s (List.filter p sans)) by (by apply filter_In). by rewrite E in Hx. }
  destruct (is_ip_text s) eqn:E; (split; [|tauto]); intros Hin; [right|left]; split_and!; try done;
    rewrite bool_decide_eq_false_2; try done; apply Hf; try done. by rewrite E.
Qed.

(** One hierarchy per process: once the factory has returned a local
    backend, every later call with the same settings returns that very
    hierarchy and builds nothing, whatever other configurations were asked for
    in between. *)
Theorem make_pki_backend_memoised gen gen' from_pem from_pem' rd rd' s cache hier cache' others :
  make_pki_backend gen from_pem rd s cache = (Ok (LocalInstance hier), cache') ->
  make_pki_backend gen' from_pem' rd' s (cache' ++ others) = (Ok (LocalInstance hier), cache' ++ others).
Proof.
  unfold make_pki_backend. case_bool_decide as Hb.
  - destruct (find_first _ cache) as [e|] eqn:E.
    + intros [= <- <-]. by rewrite (find_first_app _ _ _ _ E).
    + destruct (_ && _); [done|]. destruct (if forallb truthy _ then _ else _) as [ca'|] eqn:Eb; [|done].
      intros [= <- <-]. rewrite (find_first_app _ _ _ (pinned_pems s, ca')); [done|].
      apply find_first_snoc; [done|]. by rewrite bool_decide_eq_true_2.
  - case_bool_decide; [|done]. repeat case_match; intros; simplify_eq.
Qed.

(** Server roles with pinned domains do not accept any name; client roles do. *)
Lemma upsert_role_names domains srv cli ttl :
  domains <> "" -> vr_allow_any_name (upsert_role domains srv cli ttl) = cli.
Proof. intros H%nonempty_true. unfold upsert_role. by rewrite H. Qed.

(** ** Witnesses *)

Lemma serial_hex_roundtrip_witness :
  int_to_hex_colon 703710 = "0a:bc:de" /\ hex_colon_to_int (int_to_hex_colon 703710) = Some 703710.
Proof. split; [vm_compute; reflexivity|]. apply (serial_hex_roundtrip 703710). lia. Defined.

#[global] Instance general_name_eq_dec : EqDecision general_name.
Proof. solve_decision. Defined.
#[global] Instance tbs_eq_dec : EqDecision tbs.
Proof. solve_decision. Defined.

(** A signer that knows one certificate, and its parser. *)
Definition demo_leaf : tbs :=
  mkTbs "carol" DEV_INT_CN 1000 (0 - minutes 1) (0 + seconds 60) false None
    (san_extension ["carol.example"; "10.0.0.9"]) false true false.
Definition demo_signer : signer :=
  mkSigner (fun h => 1000 + Z.of_nat (length h)) (fun _ => "KEY")
    (fun t => if bool_decide (t = demo_leaf) then Some "PEM carol" else None).
Definition demo_parse (pem : string) : option x509_cert :=
  if bool_decide (pem = "PEM carol") then Some (x509_of demo_leaf) else None.
Definition demo_hierarchy : LocalDevPKI := mkLocalDevPKI "ROOT" "INT".

Lemma demo_signer_agrees : signer_agrees demo_signer demo_parse.
Proof.
  split; intros t pem; simpl; case_bool_decide; try done; intros [= <-]; subst; done.
Qed.

Lemma issued_cert_parses_back_witness :
  exists c, local_issue demo_signer 0 demo_hierarchy [] false "carol" ["carol.example"; "10.0.0.9"] 60 = Ok c /\
    parse_subject_from_pem demo_parse (cert_pem c) =
      Some (mkSubject "carol" ["carol.example"; "10.0.0.9"] (cert_serial c) (cert_not_before c)
              (cert_not_after c) (cert_pem c)).
Proof.
  eexists. split; [vm_compute; reflexivity|].
  apply (issued_cert_parses_back demo_signer 0 demo_hierarchy demo_parse [] false "carol"
           ["carol.example"; "10.0.0.9"] 60).
  - apply demo_signer_agrees.
  - constructor; [|constructor; [|constructor]]; intros a Ha; vm_compute in Ha; [discriminate Ha|].
    injection Ha as <-. vm_compute. reflexivity.
  - vm_compute. reflexivity.
Defined.

Definition demo_pki_settings : pki_settings :=
  mkPkiSettings "Local" None None None None None "pki_int" "server" "client".

Lemma make_pki_backend_memoised_witness :
  make_pki_backend (Raise (PKIError "no second root")) (fun _ => Raise (PKIError "not pinned")) (fun _ => Ok "")
    demo_pki_settings ([([None; None; None; None], demo_hierarchy)] ++ []) =
  (Ok (LocalInstance demo_hierarchy), [([None; None; None; None], demo_hierarchy)] ++ []).
Proof.
  apply (make_pki_backend_memoised (Ok demo_hierarchy) _ (fun _ => Raise (PKIError "not pinned")) _
           (fun _ => Ok "") _ demo_pki_settings [] demo_hierarchy).
  vm_compute. reflexivity.
Defined.
