(* ===== verification/Config.v ===== *)
(** * Settings, start-up checks and engine options

    The validators of [src/src/wg_manager/config.py], the TLS options of
    [db.py], the start-up guards of [main.py] and the limiter factory of
    [ratelimit.py].  A [Settings] object is a record of the fields that these
    functions read; files on disk are a predicate. *)

From S2P Require Import Prelude PyStr IpAddr Models Session Demo Ipam Tasks RouterClients RouterTenants Auth Pki.

(** ** Validators *)

(** [_parse_cidrs]: a malformed entry raises. *)
Definition parse_cidrs (value : string) : option (list net) :=
  mapM (fun part => ip_network true (strip part))
    (List.filter (fun part => nonempty (strip part)) (split_on "," value)).

Record settings := mkSettings {
  enroll_proxy_protocol : bool; enroll_proxy_trusted_cidrs : string;
  ssh_host_cert_ttl_seconds : Z; ssh_host_cert_renew_before_seconds : Z;
  ssh_host_cert_rotation_interval_seconds : Z; default_subnet : string
}.

(** The validators in the order pydantic runs them: fields, then the model. *)
Definition validate_settings (s : settings) : outcome settings :=
  match parse_cidrs (enroll_proxy_trusted_cidrs s) with
  | None => Raise (ValueError "enroll_proxy_trusted_cidrs")
  | Some networks =>
      match parse_strict_subnet (default_subnet s) with
      | None => Raise (ValueError "default_subnet")
      | Some subnet =>
          if enroll_proxy_protocol s && bool_decide (networks = [])
          then Raise (ValueError "ENROLL_PROXY_PROTOCOL=true requires ENROLL_PROXY_TRUSTED_CIDRS (the networks your load balancers connect from)")
          else if ssh_host_cert_ttl_seconds s <=? ssh_host_cert_renew_before_seconds s
          then Raise (ValueError ("SSH_HOST_CERT_RENEW_BEFORE_SECONDS (" +:+ dec (ssh_host_cert_renew_before_seconds s) +:+
                 ") must be less than SSH_HOST_CERT_TTL_SECONDS (" +:+ dec (ssh_host_cert_ttl_seconds s) +:+ ")"))
          else if ssh_host_cert_renew_before_seconds s <=? ssh_host_cert_rotation_interval_seconds s
          then Raise (ValueError ("SSH_HOST_CERT_ROTATION_INTERVAL_SECONDS (" +:+
                 dec (ssh_host_cert_rotation_interval_seconds s) +:+
                 ") must be less than SSH_HOST_CERT_RENEW_BEFORE_SECONDS (" +:+
                 dec (ssh_host_cert_renew_before_seconds s) +:+ ")"))
          else Ok (mkSettings (enroll_proxy_protocol s) (enroll_proxy_trusted_cidrs s)
                     (ssh_host_cert_ttl_seconds s) (ssh_host_cert_renew_before_seconds s)
                     (ssh_host_cert_rotation_interval_seconds s) (net_str subnet))
      end
  end.

(** ** The database engine *)

(** The text before the first occurrence of [sep]; all of it if there is none. *)
Fixpoint before (sep s : string) : string :=
  if startswith s sep then ""
  else match s with "" => "" | String c s' => String c (before sep s') end.

Definition MYSQL_DRIVERS : list string := ["mysql"; "mariadb"].

Definition is_mysql_url (url : string) : bool :=
  let scheme := lower (before "://" url) in
  mem (before "+" scheme) MYSQL_DRIVERS.

Record db_tls_settings := mkDbTls {
  database_tls_required : bool; database_tls_ca_pem : option string;
  database_tls_cert_pem : option string; database_tls_key_pem : option string
}.

(** pymysql's [ssl] dict. *)
Record mysql_ssl := mkMysqlSsl { ssl_ca : string; ssl_cert : string; ssl_key : string; ssl_check_hostname : bool }.

Definition check_pem (isfile : string -> bool) (env_var : string) (value : option string) : outcome string :=
  match value with
  | Some v =>
      if negb (nonempty v) then Raise (RuntimeError (env_var +:+ " is required when DATABASE_TLS_REQUIRED=true"))
      else if negb (isfile v) then Raise (RuntimeError (env_var +:+ " path " +:+ repr v +:+ " not found on disk"))
      else Ok v
  | None => Raise (RuntimeError (env_var +:+ " is required when DATABASE_TLS_REQUIRED=true"))
  end.

Definition resolve_mysql_ssl (isfile : string -> bool) (url : string) (s : db_tls_settings)
  : outcome (option mysql_ssl) :=
  if negb (is_mysql_url url) then Ok None
  else if negb (database_tls_required s) then Ok None
  else match check_pem isfile "DATABASE_TLS_CA_PEM" (database_tls_ca_pem s) with
  | Raise e => Raise e
  | Ok ca_pem =>
      match check_pem isfile "DATABASE_TLS_CERT_PEM" (database_tls_cert_pem s) with
      | Raise e => Raise e
      | Ok cert_pem =>
          match check_pem isfile "DATABASE_TLS_KEY_PEM" (database_tls_key_pem s) with
          | Raise e => Raise e
          | Ok key_pem => Ok (Some (mkMysqlSsl ca_pem cert_pem key_pem true))
          end
      end
  end.

(** The [connect_args] of the engine. *)
Record engine_args := mkEngineArgs { check_same_thread : option bool; engine_ssl : option mysql_ssl }.

Definition build_engine (isfile : string -> bool) (url : string) (s : db_tls_settings) : outcome engine_args :=
  match resolve_mysql_ssl isfile url s with
  | Raise e => Raise e
  | Ok ssl => Ok (mkEngineArgs (if startswith url "sqlite" then Some false else None) ssl)
  end.

(** ** Start-up guards *)

Record ssh_ca_settings := mkSshCaSettings { ssh_ca_backend : string; ssh_ca_local_dev_pem : option string }.

Definition pki_guard_message : string :=
  "PKI_BACKEND=local in production posture (TLS_REQUIRED=true) requires PKI_LOCAL_DEV_ROOT_PEM, PKI_LOCAL_DEV_ROOT_KEY_PEM, PKI_LOCAL_DEV_INT_PEM, PKI_LOCAL_DEV_INT_KEY_PEM to be set (otherwise each replica generates its own divergent root). Use PKI_BACKEND=vault for production, or pin the four PEMs across every replica.".
Definition ssh_ca_guard_message : string :=
  "SSH_CA_BACKEND=local in production posture (TLS_REQUIRED=true) requires SSH_CA_LOCAL_DEV_PEM to be set (otherwise each replica generates its own divergent CA). Use SSH_CA_BACKEND=vault for production, or pin the PEM across every replica.".

Definition enforce_ha_startup_guards (tls_required : bool) (pki : pki_settings) (ssh : ssh_ca_settings)
  : outcome unit :=
  if negb tls_required then Ok tt
  else if bool_decide (pki_backend pki = "local") && negb (truthy (pki_local_dev_root_pem pki))
  then Raise (RuntimeError pki_guard_message)
  else if bool_decide (ssh_ca_backend ssh = "local") && negb (truthy (ssh_ca_local_dev_pem ssh))
  then Raise (RuntimeError ssh_ca_guard_message)
  else Ok tt.

Definition parse_cors_origins (raw : string) : list string :=
  List.filter nonempty (strip <$> split_on "," raw).

(** ** The limiter factory *)

Inductive limiter_choice := MemoryLimiter | RedisLimiter (url : string).

Record limiter_settings := mkLimiterSettings {
  enroll_rate_limit_backend : string; enroll_rate_limit_redis_url : option string; celery_broker_url : string
}.

Definition make_limiter (s : limiter_settings) : outcome limiter_choice :=
  let backend := enroll_rate_limit_backend s in
  if bool_decide (backend = "memory") then Ok MemoryLimiter
  else if bool_decide (backend = "redis")
  then Ok (RedisLimiter (if truthy (enroll_rate_limit_redis_url s)
                         then default "" (enroll_rate_limit_redis_url s) else celery_broker_url s))
  else Raise (ValueError ("ENROLL_RATE_LIMIT_BACKEND must be 'redis' or 'memory', got " +:+ repr backend)).

(** ** Host certificates do not lapse

    One hub [i] under the periodic sweep.  [lag] bounds the time between the
    sweep that queues a rotation and its commit, [skew] the time between the
    minting of a certificate and the commit that records it. *)

Definition rotation_of (i : Z) (m : task_msg) : bool :=
  match m with RotateHostCert j => j =? i | _ => false end.

Definition sweep_queues (s : settings) (now i : Z) (d : DB) : bool :=
  existsb (rotation_of i) (dispatched
    (rotate_expiring_host_certs_task now (ssh_host_cert_renew_before_seconds s)) d).

(** The hub is ready with a certificate that ends at [t]. *)
Definition holds_cert (i t : Z) (d : DB) : Prop :=
  exists srv, rows (servers d) !! i = Some srv /\ srv_status srv = ready /\
    hc_valid_before (srv_host_cert srv) = Some t.

(** A CA that grants the requested lifetime from the time of minting. *)
Definition full_ttl (s : settings) (skew now : Z) (e : node_env) : Prop :=
  forall cert, ne_install_host_cert e = Ok cert -> now - skew + seconds (ssh_host_cert_ttl_seconds s) <= valid_before cert.

(** What other transactions do to the hub: it stays ready with the same
    certificate, or it is not ready afterwards (a reprovision, a failed one, a
    deletion). *)
Definition hub_frame (i : Z) (d d' : DB) : Prop := forall srv',
  rows (servers d') !! i = Some srv' -> srv_status srv' = ready ->
  exists srv, rows (servers d) !! i = Some srv /\ srv_status srv = ready /\
    hc_valid_before (srv_host_cert srv') = hc_valid_before (srv_host_cert srv).

Record host_state := mkHostState { hs_now : Z; hs_swept : Z; hs_queued : option Z; hs_db : DB }.

(** A sweep whose message the broker refuses and a rotation that fails change
    nothing and are waiting. *)
Inductive host_step (s : settings) (lag skew i : Z) : host_state -> host_state -> Prop :=
| step_wait now now' swept queued d d' :
    now <= now' -> now' <= swept + seconds (ssh_host_cert_rotation_interval_seconds s) ->
    (forall q, queued = Some q -> now' <= q + lag) -> hub_frame i d d' ->
    host_step s lag skew i (mkHostState now swept queued d) (mkHostState now' swept queued d')
| step_drop now swept queued d :
    (forall srv, rows (servers d) !! i = Some srv -> srv_status srv <> ready) ->
    host_step s lag skew i (mkHostState now swept queued d) (mkHostState now swept None d)
| step_sweep now swept queued d :
    host_step s lag skew i (mkHostState now swept queued d)
      (mkHostState now now
         (if queued then queued else if sweep_queues s now i d then Some now else None) d)
| step_rotate now swept queued d e serial t w :
    full_ttl s skew now e -> run (rotate_host_cert_task true e i) d = (Ok (CertRotated serial t), w) ->
    host_step s lag skew i (mkHostState now swept queued d) (mkHostState now swept None (committed w))
| step_provision now swept queued d acquired e b :
    full_ttl s skew now e ->
    host_step s lag skew i (mkHostState now swept queued d)
      (mkHostState now swept queued (final_db (provision_server_task acquired e i b) d)).

Lemma dispatch_each_queue mk ids w : (forall t, broker (outside w) t = true) ->
  exists w', dispatch_each mk ids w = (Ok (ids, []), w') /\
    queue w' = queue w ++ (mk <$> ids) /\ view w' = view w /\ outside w' = outside w.
Proof. intros Hb. rewrite dispatch_each_all by done. eauto. Qed.

Lemma existsb_rotations i ids : existsb (rotation_of i) (RotateHostCert <$> ids) = bool_decide (i ∈ ids).
Proof.
  apply eq_true_iff_eq. rewrite existsb_exists, bool_decide_eq_true. split.
  - intros (m & Hm & E). apply list_elem_of_In, list_elem_of_fmap in Hm as (j & -> & Hj).
    simpl in E. by apply Z.eqb_eq in E as ->.
  - intros H. exists (RotateHostCert i). split; [|by apply Z.eqb_eq]. apply list_elem_of_In, list_elem_of_fmap. eauto.
Qed.

Lemma existsb_client_rotations i ids : existsb (rotation_of i) (RotateClientHostCert <$> ids) = false.
Proof. by induction ids. Qed.

(** The sweep queues a rotation for exactly the ready hubs whose certificate
    is due. *)
Lemma sweep_queues_iff s now i t d : holds_cert i t d ->
  sweep_queues s now i d = (t <? now + seconds (ssh_host_cert_renew_before_seconds s)).
Proof.
  intros (srv & Hi & Hr & Ht). unfold sweep_queues, dispatched, run, rotate_expiring_host_certs_task. cbv zeta.
  rewrite bind_get_db.
  set (sids := fst <$> tbl_select _ (servers (view (start d)))).
  set (cids := fst <$> tbl_select _ (clients (view (start d)))).
  destruct (dispatch_each_queue RotateHostCert sids (start d)) as (w1 & E1 & Hq1 & _ & Ho1); [done|].
  destruct (dispatch_each_queue RotateClientHostCert cids w1) as (w2 & E2 & Hq2 & _); [by rewrite Ho1|].
  rewrite (bind_step _ _ _ _ _ E1), (bind_step _ _ _ _ _ E2). simpl. rewrite Hq2, Hq1. simpl.
  rewrite existsb_app, existsb_rotations, existsb_client_rotations, orb_false_r.
  apply eq_true_iff_eq. rewrite bool_decide_eq_true. subst sids cids. rewrite list_elem_of_fmap.
  unfold seconds. split.
  - intros ([j r] & -> & [Hj Hp]%tbl_select_spec). simpl in *. simplify_eq.
    apply andb_true_iff in Hp as [_ Hp]. unfold cert_due in Hp. by rewrite Ht in Hp.
  - intros Hd. exists (i, srv). split; [done|]. apply tbl_select_spec. split; [done|].
    rewrite bool_decide_eq_true_2 by done. unfold cert_due. by rewrite Ht.
Qed.

(** A rotation that succeeds has stored the expiry of the certificate it
    installed, and left the status alone. *)
Lemma rotate_stores e i d serial t w :
  run (rotate_host_cert_task true e i) d = (Ok (CertRotated serial t), w) ->
  exists srv srv' cert, rows (servers d) !! i = Some srv /\ rows (servers (committed w)) !! i = Some srv' /\
    srv_status srv' = srv_status srv /\ ne_install_host_cert e = Ok cert /\
    hc_valid_before (srv_host_cert srv') = Some (valid_before cert).
Proof.
  intros (w1 & H & -> & _)%run_world. unfold rotate_host_cert_task in H. simpl in H.
  step_ok H. prim_ok. unfold try_except in *.
  match goal with H : (match ?m with _ => _ end) = (Ok _, _) |- _ =>
    let E := fresh "E" in destruct m as [[cols|x] wx] eqn:E; [simplify_eq|by unfold raise in H] end.
  unfold install_host_cert_cols in *. step_ok E. prim_ok. unfold alter_server in *. prim_ok. simpl in *. simplify_eq.
  match goal with Hs : rows (servers d) !! i = Some ?x |- _ => rename Hs into Hi; destruct x end.
  eexists _, _, _. split; [done|]. rewrite lookup_alter_eq, Hi. by split_and!.
Qed.

(** A provisioning task leaves the hub with the certificate it installed, not
    ready, or as it was. *)
Lemma provision_certifies acquired e i b d srv' :
  rows (servers (final_db (provision_server_task acquired e i b) d)) !! i = Some srv' -> srv_status srv' = ready ->
  (exists cert, ne_install_host_cert e = Ok cert /\ hc_valid_before (srv_host_cert srv') = Some (valid_before cert)) \/
  rows (servers d) !! i = Some srv'.
Proof.
  destruct (rows (servers d) !! i) as [srv|] eqn:Hi.
  - pose proof (provision_server_outcome acquired e i b d srv Hi) as Ho.
    destruct (result _ d) as [[]|x]; try done.
    + destruct Ho as [_ ->]. rewrite Hi. by right.
    + destruct Ho as (cert & Hc & ->). simpl. rewrite lookup_alter_eq, Hi. simpl. intros [= <-] _. left. exists cert.
      split; [done|]. by destruct srv.
    + rewrite Ho. simpl. rewrite lookup_alter_eq, Hi. simpl. intros [= <-]. by destruct srv.
  - unfold final_db, run, provision_server_task. destruct acquired; simpl; [|by rewrite Hi].
    unfold bind, get_db, some_or_raise. simpl. rewrite Hi. simpl. by rewrite Hi.
Qed.

(** What [validate_settings] guarantees. *)
Lemma validate_settings_ok s s' : validate_settings s = Ok s' ->
  ssh_host_cert_rotation_interval_seconds s < ssh_host_cert_renew_before_seconds s /\
  ssh_host_cert_renew_before_seconds s < ssh_host_cert_ttl_seconds s /\
  (exists nets, parse_cidrs (enroll_proxy_trusted_cidrs s) = Some nets /\
     (enroll_proxy_protocol s = true -> nets <> [])) /\
  exists n, parse_strict_subnet (default_subnet s) = Some n /\ default_subnet s' = net_str n.
Proof.
  unfold validate_settings. destruct (parse_cidrs _) as [nets|]; [|done].
  destruct (parse_strict_subnet _) as [n|]; [|done].
  destruct (_ && _) eqn:Ep; [done|]. destruct (_ <=? _) eqn:E1; [done|].
  destruct (ssh_host_cert_renew_before_seconds s <=? _) eqn:E2; [done|]. intros [= <-].
  apply Z.leb_gt in E1, E2. split; [done|]. split; [done|]. split; [|by exists n].
  exists nets. split; [done|]. intros H ->. by rewrite H in Ep.
Qed.

(** While the hub is ready, its certificate outlives both the pending rotation
    and the wait for the next sweep. *)
Definition host_covered (s : settings) (lag i : Z) (h : host_state) : Prop :=
  hs_swept h <= hs_now h <= hs_swept h + seconds (ssh_host_cert_rotation_interval_seconds s) /\
  (forall q, hs_queued h = Some q -> q <= hs_now h <= q + lag) /\
  forall srv, rows (servers (hs_db h)) !! i = Some srv -> srv_status srv = ready ->
  exists t, hc_valid_before (srv_host_cert srv) = Some t /\ hs_now h < t /\
    match hs_queued h with
    | Some q => q + lag < t
    | None => hs_swept h + seconds (ssh_host_cert_rotation_interval_seconds s) + lag < t
    end.

Section covered.
Context (s s' : settings) (lag skew i : Z).
Hypothesis valid : validate_settings s = Ok s'.
Hypothesis interval_nonneg : 0 <= ssh_host_cert_rotation_interval_seconds s.
Hypothesis lag_nonneg : 0 <= lag.
Hypothesis lag_slack : lag < seconds (ssh_host_cert_renew_before_seconds s - ssh_host_cert_rotation_interval_seconds s).
Hypothesis skew_slack : skew <= seconds (ssh_host_cert_ttl_seconds s - ssh_host_cert_renew_before_seconds s).

(** A certificate just recorded covers the hub. *)
Lemma fresh_covers now swept queued t :
  swept <= now <= swept + seconds (ssh_host_cert_rotation_interval_seconds s) ->
  (forall q, queued = Some q -> q <= now <= q + lag) ->
  now - skew + seconds (ssh_host_cert_ttl_seconds s) <= t ->
  now < t /\ match queued with
             | Some q => q + lag < t
             | None => swept + seconds (ssh_host_cert_rotation_interval_seconds s) + lag < t end.
Proof using valid interval_nonneg lag_nonneg lag_slack skew_slack.
  destruct (validate_settings_ok _ _ valid) as (Hi & Hr & _). unfold seconds in *. intros Hs Hq Ht.
  destruct queued as [q|]; [specialize (Hq q eq_refl)|]; lia.
Qed.

Lemma host_step_covered h h' : host_covered s lag i h -> host_step s lag skew i h h' -> host_covered s lag i h'.
Proof using valid interval_nonneg lag_nonneg lag_slack skew_slack.
  intros (Hs & Hq & Hc) Hstep. unfold host_covered.
  destruct Hstep as [now now' swept queued d d' ? ? Hw Hf|now swept queued d Hd|now swept queued d
    |now swept queued d e serial t w Hfull H|now swept queued d acq e b Hfull]; cbn [hs_now hs_swept hs_queued hs_db] in *.
  - split; [lia|]. split; [intros q E; specialize (Hq q E); specialize (Hw q E); lia|]. intros srv' Hi' Hr'.
    destruct (Hf srv' Hi' Hr') as (srv & Hi & Hr & ->). destruct (Hc srv Hi Hr) as (t & Ht & Hlt & Hm). exists t.
    split; [done|]. destruct queued as [q|]; [specialize (Hw q eq_refl); lia|]. split; [lia|done].
  - split; [done|]. split; [done|]. intros srv Hi Hr. by destruct (Hd srv Hi).
  - split; [unfold seconds; lia|]. split.
    { intros q. destruct queued as [q0|]; [intros [= <-]; by apply Hq|]. destruct (sweep_queues _ _ _ _); [|done].
      intros [= <-]. lia. }
    intros srv Hi Hr. destruct (Hc srv Hi Hr) as (t & Ht & Hlt & Hm). exists t. split; [done|]. split; [done|].
    destruct queued as [q|]; [done|]. rewrite (sweep_queues_iff s now i t d) by (by exists srv).
    unfold seconds in *. destruct (Z.ltb_spec t (now + ssh_host_cert_renew_before_seconds s * 1000000)); lia.
  - apply rotate_stores in H as (srv0 & srv1 & cert & H0 & H1 & Hst & Hcert & Hvb). split; [done|]. split; [done|].
    intros srv Hi Hr. rewrite H1 in Hi. injection Hi as <-. exists (valid_before cert). split; [done|].
    apply (fresh_covers now swept None); [done|done|by apply Hfull].
  - split; [done|]. split; [done|]. intros srv Hi Hr.
    destruct (provision_certifies _ _ _ _ _ _ Hi Hr) as [(cert & Hcert & Hvb)|Hsame]; [|by apply Hc].
    exists (valid_before cert). split; [done|]. apply fresh_covers; [done|done|by apply Hfull].
Qed.

(** C14. With settings that pass validation, the periodic sweep keeps the host
    certificate of a hub valid at all times at which the hub is ready,
    whatever is provisioned, reprovisioned, failed, renewed or deleted in
    between: provided the certificate of a hub that is ready at the start is
    fresh, sweeps whose messages the broker takes run at least once per
    interval, the rotation of a ready hub commits within the slack between
    the renew window and the interval, and the CA grants the requested
    lifetime, counted from a minting that precedes its commit by no more than
    the slack between lifetime and renew window.  A hub that a failed
    reprovision has left in [error] is not covered, as the sweep skips it. *)
Theorem host_certs_never_lapse now d h :
  (forall srv, rows (servers d) !! i = Some srv -> srv_status srv = ready ->
   exists t, hc_valid_before (srv_host_cert srv) = Some t /\ now - skew + seconds (ssh_host_cert_ttl_seconds s) <= t) ->
  rtc (host_step s lag skew i) (mkHostState now now None d) h ->
  forall srv, rows (servers (hs_db h)) !! i = Some srv -> srv_status srv = ready ->
  exists t, hc_valid_before (srv_host_cert srv) = Some t /\ hs_now h < t.
Proof using valid interval_nonneg lag_nonneg lag_slack skew_slack.
  intros Hc Hrun.
  assert (Hg : host_covered s lag i h).
  { revert h Hrun. apply rtc_ind_r; [|eauto using host_step_covered].
    assert (Hb : now <= now <= now + seconds (ssh_host_cert_rotation_interval_seconds s)) by (unfold seconds; lia).
    split; [exact Hb|]. split; [done|]. intros srv Hi Hr. destruct (Hc srv Hi Hr) as (t & Ht & Hge). exists t. split; [done|].
    by apply (fresh_covers now now None). }
  intros srv Hi Hr. destruct Hg as (_ & _ & Hg). destruct (Hg srv Hi Hr) as (t & ? & ? & _). eauto.
Qed.
End covered.

(** ** The production posture *)

(** Behind the start-up guard a backend spelled [local] is built from the
    pinned material, the same on every replica, and never generated. *)
Lemma guarded_local_is_pinned tls pki ssh u gen gen' from_pem rd cache :
  enforce_ha_startup_guards tls pki ssh = Ok u -> tls = true -> pki_backend pki = "local" ->
  make_pki_backend gen from_pem rd pki cache = make_pki_backend gen' from_pem rd pki cache.
Proof.
  intros H -> Hl. unfold enforce_ha_startup_guards in H. simpl in H. rewrite Hl in H. simpl in H.
  destruct (truthy (pki_local_dev_root_pem pki)) eqn:Er; [|done].
  unfold make_pki_backend. rewrite Hl. simpl.
  destruct (find_first _ cache); [done|]. unfold pinned_pems. simpl. rewrite Er. simpl.
  by destruct (truthy (pki_local_dev_root_key_pem pki) && _).
Qed.

(** The guard compares the spelling while the factory lowers it: [LOCAL]
    without pinned material passes the guard, and every replica generates a
    hierarchy of its own. *)
Lemma guard_misses_other_spellings (pki : pki_settings) ssh gen from_pem rd :
  pki = mkPkiSettings "LOCAL" None None None None None "" "" "" -> ssh_ca_backend ssh <> "local" ->
  enforce_ha_startup_guards true pki ssh = Ok tt /\
  (make_pki_backend gen from_pem rd pki []).1 = (match gen with Ok hier => Ok (LocalInstance hier) | Raise e => Raise e end).
Proof.
  intros -> Hs. split.
  - unfold enforce_ha_startup_guards. simpl. by rewrite bool_decide_eq_false_2.
  - by destruct gen.
Qed.

(** ** Database TLS *)

Lemma check_pem_Ok isfile var value v :
  check_pem isfile var value = Ok v <-> value = Some v /\ v <> "" /\ isfile v = true.
Proof.
  unfold check_pem. destruct value as [x|]; [|naive_solver].
  destruct (nonempty x) eqn:En; simpl.
  - apply nonempty_true in En. destruct (isfile x) eqn:Ef; simpl; (split; [intros H|intros (H & ? & ?)]; simplify_eq; auto; congruence).
  - split; [done|]. intros ([= ->] & Hv%nonempty_true & _). congruence.
Qed.

Lemma sqlite_not_mysql url : startswith url "sqlite" = true -> is_mysql_url url = false.
Proof.
  intros (r & ->)%startswith_prefix. unfold is_mysql_url.
  assert (E : exists t, before "+" (lower (before "://" ("sqlite" +:+ r))) = String "s" t) by (simpl; eauto).
  destruct E as [t ->]. done.
Qed.

(** With [DATABASE_TLS_REQUIRED=true] an engine for a MySQL URL is built
    exactly when the three PEM settings name files on disk, and it then
    connects with those three files and hostname checking; the start-up never
    falls back to a plaintext connection. *)
Theorem mysql_tls_enforced isfile url s a :
  is_mysql_url url = true -> database_tls_required s = true ->
  build_engine isfile url s = Ok a <->
  exists ca_pem cert_pem key_pem,
    (database_tls_ca_pem s = Some ca_pem /\ database_tls_cert_pem s = Some cert_pem /\
     database_tls_key_pem s = Some key_pem) /\
    Forall (fun f => f <> "" /\ isfile f = true) [ca_pem; cert_pem; key_pem] /\
    a = mkEngineArgs None (Some (mkMysqlSsl ca_pem cert_pem key_pem true)).
Proof.
  intros Hu Hr. unfold build_engine, resolve_mysql_ssl. rewrite Hu, Hr. simpl.
  assert (Hs : startswith url "sqlite" = false).
  { destruct (startswith url "sqlite") eqn:E; [|done]. exfalso. by rewrite (sqlite_not_mysql _ E) in Hu. }
  rewrite Hs. split.
  - destruct (check_pem isfile "DATABASE_TLS_CA_PEM" _) as [x|] eqn:E1; [|done].
    destruct (check_pem isfile "DATABASE_TLS_CERT_PEM" _) as [y|] eqn:E2; [|done].
    destruct (check_pem isfile "DATABASE_TLS_KEY_PEM" _) as [z|] eqn:E3; [|done].
    intros [= <-]. apply check_pem_Ok in E1, E2, E3. exists x, y, z. rewrite !Forall_cons. naive_solver.
  - intros (x & y & z & (Hx & Hy & Hz) & Hf & ->). rewrite !Forall_cons in Hf. destruct Hf as (? & ? & ? & _).
    rewrite (proj2 (check_pem_Ok _ _ _ x)), (proj2 (check_pem_Ok _ _ _ y)), (proj2 (check_pem_Ok _ _ _ z)); naive_solver.
Qed.

(** ** Witnesses *)

Definition demo_settings : settings :=
  mkSettings true "10.0.0.0/8, 192.168.7.0/24" 100 80 30 "10.9.0.0/16".

Definition demo_node (t : Z) : node_env :=
  mkNodeEnv unit (fun _ n => (Ok "", n)) tt (Ok tt) (Ok (mkHostCert "cert" 0 t 7 ["edge"])) "ca"
    (fun _ _ => Ok "") (fun _ _ => Ok tt).

(** The demo hub with a certificate that ends at [t]. *)
Definition demo_hub_db (t : Z) : DB := final_db (rotate_host_cert_task true (demo_node t) 1) demo_db.

Definition demo_renewed : World :=
  (run (rotate_host_cert_task true (demo_node (seconds 125)) 1) (demo_hub_db (seconds 100))).2.

(** A sweep finds the certificate due, and the rotation that it queued
    renews it a second later, with a certificate minted the second before. *)
Lemma host_certs_never_lapse_witness :
  exists srv, rows (servers (committed demo_renewed)) !! 1 = Some srv /\ srv_status srv = ready /\
  exists t, hc_valid_before (srv_host_cert srv) = Some t /\ seconds 26 < t.
Proof.
  eexists. split; [vm_compute; reflexivity|]. split; [reflexivity|].
  apply (host_certs_never_lapse demo_settings demo_settings (seconds 5) (seconds 1) 1 ltac:(vm_compute; reflexivity)
    ltac:(discriminate) ltac:(discriminate) ltac:(reflexivity) ltac:(discriminate) 0 (demo_hub_db (seconds 100))
    (mkHostState (seconds 26) (seconds 25) None (committed demo_renewed))).
  - intros srv Hi _. change (rows (servers (demo_hub_db (seconds 100))) !! 1) with
      (Some (default demo_server (rows (servers (demo_hub_db (seconds 100))) !! 1))) in Hi. injection Hi as <-.
    exists (seconds 100). split; [reflexivity|]. discriminate.
  - assert (Hf : forall d, hub_frame 1 d d) by (intros d0 srv Hi Hr; eauto).
    eapply rtc_l; [apply (step_wait _ _ _ _ 0 (seconds 25) 0 None (demo_hub_db (seconds 100)) (demo_hub_db (seconds 100)));
      [discriminate|discriminate|discriminate|apply Hf]|].
    eapply rtc_l; [apply step_sweep|].
    replace (sweep_queues demo_settings (seconds 25) 1 (demo_hub_db (seconds 100))) with true by
      (vm_compute; reflexivity).
    eapply rtc_l; [apply (step_wait _ _ _ _ (seconds 25) (seconds 26) (seconds 25) (Some (seconds 25)) (demo_hub_db (seconds 100)) (demo_hub_db (seconds 100)));
      [discriminate|discriminate|intros q [= <-]; discriminate|apply Hf]|].
    apply rtc_once, (step_rotate _ _ _ _ (seconds 26) _ _ _ (demo_node (seconds 125)) (Some 7) (Some (seconds 125)) demo_renewed).
    + intros cert [= <-]. discriminate.
    + vm_compute. reflexivity.
  - vm_compute. reflexivity.
  - reflexivity.
Defined.

Lemma mysql_tls_enforced_witness :
  build_engine (fun _ => true) "mysql+pymysql://wg@db/wg"
    (mkDbTls true (Some "/tls/ca.pem") (Some "/tls/crt.pem") (Some "/tls/key.pem")) =
  Ok (mkEngineArgs None (Some (mkMysqlSsl "/tls/ca.pem" "/tls/crt.pem" "/tls/key.pem" true))).
Proof.
  apply (mysql_tls_enforced (fun _ => true) "mysql+pymysql://wg@db/wg").
  - vm_compute. reflexivity.
  - reflexivity.
  - do 3 eexists. split; [done|]. split; [by repeat constructor|done].
Defined.

