(* ===== verification/SshCa.v ===== *)
(** * The SSH certificate authority

    [src/src/wg_manager/ssh_ca.py]: the backend interface, the in-process and
    the Vault backend and the factory.  Signing and parsing of OpenSSH
    certificates (the cryptography package), key generation and Vault's API
    are parameters.  Certificates carry Unix seconds; the value objects carry
    datetimes, which are microseconds here. *)

From S2P Require Import Prelude PyStr Models Session Pki Config Tasks.

(** ** Certificates as parsed *)

Inductive ssh_cert_type := USER | HOST.
#[export] Instance ssh_cert_type_eq_dec : EqDecision ssh_cert_type.
Proof. solve_decision. Defined.

(** What [SSHCertificateBuilder] is asked to sign. *)
Record ssh_tbs := mkSshTbs {
  st_public_key : string; st_type : ssh_cert_type; st_serial : Z; st_key_id : string;
  st_principals : list string; st_valid_after : Z; st_valid_before : Z; st_extensions : list string
}.

(** A parsed certificate: its fields, the key named as signer, and whether the
    signature verifies under that key. *)
Record ssh_certificate := mkSshCertificate {
  sc_tbs : ssh_tbs; sc_signature_key : string; sc_signature_valid : bool
}.

(** [load_ssh_public_identity]. *)
Inductive ssh_identity := PlainKey (line : string) | Certificate_ (c : ssh_certificate).

Record UserCert := mkUserCert {
  uc_private_pem : string; uc_cert_pem : string; uc_valid_after : Z; uc_valid_before : Z;
  uc_serial : Z; uc_principals : list string
}.

(** ** The interface *)

Class SSHCABackend := {
  ca_public_key : string;
  mint_user_cert : list string -> Z -> outcome UserCert;
  mint_host_cert : string -> list string -> Z -> outcome HostCert
}.

Definition CERT_ALGO : string := "ssh-ed25519-cert-v01@openssh.com".

Section authority.
Context (load_identity : string -> option ssh_identity).

(** The second field of an OpenSSH public-key line. *)
Definition key_body (line : string) : option string := split_on " " line !! 1%nat.

(** A certificate of type [ty] for [names], signed by [key], valid from
    [va] to [vb] (seconds). *)
Definition is_cert_for (pem : string) (ty : ssh_cert_type) (names : list string)
  (ser va vb : Z) (key : string) : Prop :=
  exists c, load_identity pem = Some (Certificate_ c) /\ st_type (sc_tbs c) = ty /\
    st_principals (sc_tbs c) = names /\ st_serial (sc_tbs c) = ser /\ st_valid_after (sc_tbs c) = va /\
    st_valid_before (sc_tbs c) = vb /\ key_body (sc_signature_key c) = key_body key /\
    sc_signature_valid c = true.

(** Principals that a comma-separated list can carry. *)
Definition names_ok (names : list string) : Prop :=
  names <> [] /\ Forall (fun n => char_in "," n = false) names.

(** What a backend promises: certificates of the requested kind for exactly
    the requested principals, signed by the advertised key, whose value object
    repeats what the certificate says. *)
Class SSHCALaws (B : SSHCABackend) := {
  mint_user_laws names ttl u : names_ok names -> mint_user_cert names ttl = Ok u ->
    exists va vb, is_cert_for (uc_cert_pem u) USER names (uc_serial u) va vb ca_public_key /\
      uc_principals u = names /\ uc_valid_after u = seconds va /\ uc_valid_before u = seconds vb;
  mint_host_laws key names ttl c : names_ok names -> mint_host_cert key names ttl = Ok c ->
    exists va vb, is_cert_for (cert_pem c) HOST names (serial c) va vb ca_public_key /\
      principals c = names /\ valid_after c = seconds va /\ valid_before c = seconds vb
}.

(** ** The in-process backend *)

(** Ed25519 and the certificate builder: [ks_build] is the builder's own
    validation, [ks_sign] the signature. *)
Record key_signer := mkKeySigner {
  ks_public : string;
  ks_build : ssh_tbs -> outcome unit;
  ks_sign : ssh_tbs -> option string
}.

Section local.
Context (ks : key_signer) (now : Z) (randbits : Z) (ephemeral : string * string).

Definition local_sign (what : string) (t : ssh_tbs) : outcome string :=
  match ks_build ks t with
  | Raise e => Raise e
  | Ok _ => match ks_sign ks t with
            | None => Raise (SSHCAError ("failed to sign " +:+ what +:+ " cert"))
            | Some pem => Ok pem
            end
  end.

Definition local_user_tbs (names : list string) (ttl_seconds : Z) : ssh_tbs :=
  mkSshTbs ephemeral.2 USER randbits ("wg-manager-user-" +:+ dec randbits) names now (now + ttl_seconds)
    ["permit-pty"].

Definition local_mint_user_cert (names : list string) (ttl_seconds : Z) : outcome UserCert :=
  let t := local_user_tbs names ttl_seconds in
  match local_sign "user" t with
  | Raise e => Raise e
  | Ok pem => Ok (mkUserCert ephemeral.1 pem (seconds (st_valid_after t)) (seconds (st_valid_before t))
                    (st_serial t) names)
  end.

Definition local_host_tbs (pub : string) (names : list string) (ttl_seconds : Z) : ssh_tbs :=
  mkSshTbs pub HOST randbits ("wg-manager-host-" +:+ dec randbits) names now (now + ttl_seconds) [].

Definition local_mint_host_cert (public_key_openssh : string) (names : list string) (ttl_seconds : Z)
  : outcome HostCert :=
  match load_identity public_key_openssh with
  | None => Raise (SSHCAError "host public key is not parseable")
  | Some _ =>
      let t := local_host_tbs public_key_openssh names ttl_seconds in
      match local_sign "host" t with
      | Raise e => Raise e
      | Ok pem => Ok (mkHostCert pem (seconds (st_valid_after t)) (seconds (st_valid_before t)) (st_serial t) names)
      end
  end.

Definition LocalDevSSHCA_backend : SSHCABackend := {|
  ca_public_key := ks_public ks;
  mint_user_cert := local_mint_user_cert;
  mint_host_cert := local_mint_host_cert
|}.

(** The signature scheme: what is signed parses back, naming the signer. *)
Definition signs_faithfully : Prop :=
  forall t pem, ks_sign ks t = Some pem ->
    load_identity pem = Some (Certificate_ (mkSshCertificate t (ks_public ks) true)).

#[export] Instance LocalDevSSHCA_laws : signs_faithfully -> SSHCALaws LocalDevSSHCA_backend.
Proof.
  intros Hs. split.
  - intros names ttl u _ H. simpl in H. unfold local_mint_user_cert, local_sign in H.
    destruct (ks_build ks _); [|done]. destruct (ks_sign ks _) as [pem|] eqn:E; [|done]. simplify_eq.
    exists now, (now + ttl). split; [|done]. eexists. split; [by apply Hs|done].
  - intros key names ttl c _ H. simpl in H. unfold local_mint_host_cert, local_sign in H.
    destruct (load_identity key); [|done].
    destruct (ks_build ks _); [|done]. destruct (ks_sign ks _) as [pem|] eqn:E; [|done]. simplify_eq.
    exists now, (now + ttl). split; [|done]. eexists. split; [by apply Hs|done].
Qed.
End local.

(** ** Vault *)

(** The [sign_ssh_key] call. *)
Record sign_request := mkSignRequest {
  sr_role : string; sr_public_key : string; sr_valid_principals : string; sr_cert_type : string;
  sr_ttl : string; sr_mount_point : string
}.

Record VaultSSHCA := mkVaultSSHCA {
  vs_mount : string; vs_user_role : string; vs_host_role : string; vs_ca_public : string
}.

Section vault.
Context (v : VaultSSHCA) (vault : sign_request -> option string) (ephemeral : string * string).

(** [_sign]: the serial and the window are those of the certificate that
    Vault returned. *)
Definition vault_sign (role public_key : string) (names : list string) (ttl_seconds : Z) (cert_type : string)
  : outcome (string * Z * Z * Z) :=
  match vault (mkSignRequest role public_key (join "," names) cert_type (dec ttl_seconds +:+ "s") (vs_mount v)) with
  | None => Raise (SSHCAError ("vault refused to sign (" +:+ cert_type +:+ ")"))
  | Some data =>
      let signed_key := strip data in
      if negb (startswith signed_key (CERT_ALGO +:+ " ")) then Raise (SSHCAError "unexpected cert algo from vault")
      else match load_identity signed_key with
      | None => Raise (SSHCAError "vault returned an unparseable cert")
      | Some (PlainKey _) => Raise (AttributeError "serial")
      | Some (Certificate_ c) =>
          Ok (signed_key, st_serial (sc_tbs c), st_valid_after (sc_tbs c), st_valid_before (sc_tbs c))
      end
  end.

Definition vault_mint_user_cert (names : list string) (ttl_seconds : Z) : outcome UserCert :=
  match vault_sign (vs_user_role v) ephemeral.2 names ttl_seconds "user" with
  | Raise e => Raise e
  | Ok (signed, ser, va, vb) => Ok (mkUserCert ephemeral.1 signed (seconds va) (seconds vb) ser names)
  end.

Definition vault_mint_host_cert (public_key_openssh : string) (names : list string) (ttl_seconds : Z)
  : outcome HostCert :=
  match vault_sign (vs_host_role v) public_key_openssh names ttl_seconds "host" with
  | Raise e => Raise e
  | Ok (signed, ser, va, vb) => Ok (mkHostCert signed (seconds va) (seconds vb) ser names)
  end.

Definition VaultSSHCA_backend : SSHCABackend := {|
  ca_public_key := strip (vs_ca_public v);
  mint_user_cert := vault_mint_user_cert;
  mint_host_cert := vault_mint_host_cert
|}.

(** Vault's documented behaviour: a certificate of the requested type for the
    names of the comma-separated list, signed by the engine's key. *)
Definition vault_signs : Prop :=
  forall rq data c, vault rq = Some data -> load_identity (strip data) = Some (Certificate_ c) ->
    st_type (sc_tbs c) = (if bool_decide (sr_cert_type rq = "user") then USER else HOST) /\
    st_principals (sc_tbs c) = split_on "," (sr_valid_principals rq) /\
    key_body (sc_signature_key c) = key_body (strip (vs_ca_public v)) /\ sc_signature_valid c = true.

Lemma vault_sign_Ok role key names ttl ty pem ser va vb : vault_signs ->
  vault_sign role key names ttl ty = Ok (pem, ser, va, vb) ->
  is_cert_for pem (if bool_decide (ty = "user") then USER else HOST) (split_on "," (join "," names)) ser va vb
    (strip (vs_ca_public v)).
Proof.
  intros Hv H. unfold vault_sign in H. destruct (vault _) as [data|] eqn:E; [|done].
  destruct (negb _); [done|]. destruct (load_identity (strip data)) as [[l|c]|] eqn:El; [done| |done]. simplify_eq.
  destruct (Hv _ _ _ E El) as (? & ? & ? & ?). exists c. split_and!; done.
Qed.

#[export] Instance VaultSSHCA_laws : vault_signs -> SSHCALaws VaultSSHCA_backend.
Proof.
  intros Hv. split.
  - intros names ttl u [Hn Hc] H. simpl in H. unfold vault_mint_user_cert in H.
    destruct (vault_sign _ _ _ _ _) as [[[[pem ser] va] vb]|] eqn:E; [|done]. simplify_eq.
    apply vault_sign_Ok in E; [|done]. rewrite split_on_join in E by done. by exists va, vb.
  - intros key names ttl c [Hn Hc] H. simpl in H. unfold vault_mint_host_cert in H.
    destruct (vault_sign _ _ _ _ _) as [[[[pem ser] va] vb]|] eqn:E; [|done]. simplify_eq.
    apply vault_sign_Ok in E; [|done]. rewrite split_on_join in E by done. by exists va, vb.
Qed.
End vault.
End authority.

(** ** Configuring Vault's engine *)

Record user_role := mkUserRole {
  ur_default_user : string; ur_allowed_users : string; ur_extension : string; ur_ttl : string; ur_max_ttl : string
}.
Record host_role := mkHostRole {
  hr_allowed_domains : string; hr_allow_bare_domains : bool; hr_allow_subdomains : bool;
  hr_ttl : string; hr_max_ttl : string
}.

Definition host_payload (host_default_ttl allowed_host_domains : string) : host_role :=
  if nonempty allowed_host_domains
  then mkHostRole allowed_host_domains false true host_default_ttl host_default_ttl
  else mkHostRole "*" true true host_default_ttl host_default_ttl.

Definition user_payload (user_default_ttl allowed_users : string) : user_role :=
  mkUserRole (hd "" (split_on "," allowed_users)) allowed_users "permit-pty" user_default_ttl user_default_ttl.

Inductive vault_call :=
| EnableEngine (path : string)
| SubmitCA (mount_point : string)
| CreateUserRole (name : string) (r : user_role)
| CreateHostRole (name : string) (r : host_role).

(** What a call meets: [InvalidRequest], [InvalidPath] or another
    [VaultError], with its text. *)
Inductive vault_error := InvalidRequest (text : string) | InvalidPath (text : string) | OtherVaultError (text : string).
Definition vault_error_str (e : vault_error) : string :=
  match e with InvalidRequest s => s | InvalidPath s => s | OtherVaultError s => s end.

(** [sub in s]. *)
Fixpoint contains (sub s : string) : bool :=
  startswith s sub || match s with "" => false | String _ s' => contains sub s' end.

Section bootstrap.
Context {V : Type} (call : vault_call -> V -> option vault_error * V).

(** A call whose [InvalidRequest] mentioning [benign] is swallowed. *)
Definition call_tolerating (benign : string) (c : vault_call) (v : V) : option vault_error * V :=
  match call c v with
  | (Some (InvalidRequest s), v') => if contains benign s then (None, v') else (Some (InvalidRequest s), v')
  | r => r
  end.

Definition vault_steps (v : V) (steps : list (V -> option vault_error * V)) : option vault_error * V :=
  fold_left (fun acc step => match acc with (None, v) => step v | r => r end) steps (None, v).

Definition bootstrap (mount_point user_role_ host_role_ user_ttl host_ttl allowed_users domains : string)
  (read_ca_public : V -> outcome string) (v : V) : outcome VaultSSHCA * V :=
  match vault_steps v
    [call_tolerating "path is already in use" (EnableEngine mount_point);
     call_tolerating "keys are already configured" (SubmitCA mount_point);
     call (CreateUserRole user_role_ (user_payload user_ttl allowed_users));
     call (CreateHostRole host_role_ (host_payload host_ttl domains))] with
  | (Some e, v') => (Raise (SSHCAError ("bootstrap failed at " +:+ repr mount_point +:+ ": " +:+ vault_error_str e)), v')
  | (None, v') =>
      (match read_ca_public v' with
       | Raise e => Raise e
       | Ok key => Ok (mkVaultSSHCA mount_point user_role_ host_role_ (strip key))
       end, v')
  end.

(** Bootstrapping an engine that is already mounted and has its key succeeds,
    as long as the roles can be written. *)
Lemma bootstrap_again mount ur hr ut ht users domains key read v v1 v2 v3 v4 s1 s2 :
  call (EnableEngine mount) v = (Some (InvalidRequest s1), v1) -> contains "path is already in use" s1 = true ->
  call (SubmitCA mount) v1 = (Some (InvalidRequest s2), v2) -> contains "keys are already configured" s2 = true ->
  call (CreateUserRole ur (user_payload ut users)) v2 = (None, v3) ->
  call (CreateHostRole hr (host_payload ht domains)) v3 = (None, v4) -> read v4 = Ok key ->
  bootstrap mount ur hr ut ht users domains read v = (Ok (mkVaultSSHCA mount ur hr (strip key)), v4).
Proof.
  intros E1 C1 E2 C2 E3 E4 Er. unfold bootstrap, vault_steps, call_tolerating. simpl.
  by rewrite E1, C1, E2, C2, E3, E4, Er.
Qed.
End bootstrap.

(** ** The factory *)

Record ssh_vault_settings := mkSshVaultSettings {
  sv_token : option string; sv_mount : string; sv_user_role : string; sv_host_role : string
}.

(** A private key as [load_ssh_private_key] returns it. *)
Inductive private_key (K : Type) := Ed25519 (k : K) | OtherKey (type_name : string).
Arguments Ed25519 {K}.
Arguments OtherKey {K}.

Section factory.
Context {K : Type} (load_private : string -> option (private_key K)) (generate : K)
  (read_ca_public : string -> outcome string).

Definition local_from_pem (pem : string) : outcome K :=
  match load_private pem with
  | None => Raise (SSHCAError "could not load CA PEM")
  | Some (OtherKey ty) => Raise (SSHCAError ("SSH CA must be ed25519, got " +:+ ty))
  | Some (Ed25519 k) => Ok k
  end.

Inductive ssh_ca_instance := LocalCA (k : K) | VaultCA (v : VaultSSHCA).

Definition make_ssh_ca_backend (s : ssh_ca_settings) (vs : ssh_vault_settings)
  (cache : list (option string * K)) : outcome ssh_ca_instance * list (option string * K) :=
  let backend := lower (ssh_ca_backend s) in
  if bool_decide (backend = "local") then
    let pem := ssh_ca_local_dev_pem s in
    match find_first (fun e => bool_decide (e.1 = pem)) cache with
    | Some e => (Ok (LocalCA e.2), cache)
    | None =>
        match (if truthy pem then local_from_pem (default "" pem) else Ok generate) with
        | Raise e => (Raise e, cache)
        | Ok k => (Ok (LocalCA k), cache ++ [(pem, k)])
        end
    end
  else if bool_decide (backend = "vault") then
    if negb (truthy (sv_token vs))
    then (Raise (SSHCAError "VAULT_TOKEN (or CRYPTO_VAULT_TOKEN) is required for the vault SSH CA backend"), cache)
    else
      (match read_ca_public (sv_mount vs) with
       | Raise e => Raise e
       | Ok key => Ok (VaultCA (mkVaultSSHCA (sv_mount vs) (sv_user_role vs) (sv_host_role vs) (strip key)))
       end, cache)
  else (Raise (ValueError ("unknown SSH CA backend " +:+ repr (ssh_ca_backend s) +:+ "; expected 'local' or 'vault'")), cache).

(** Two calls with the same settings return the same local authority, so a
    host certificate installed by one session verifies in the next. *)
Lemma make_ssh_ca_backend_memoised s vs cache k cache' others :
  make_ssh_ca_backend s vs cache = (Ok (LocalCA k), cache') ->
  make_ssh_ca_backend s vs (cache' ++ others) = (Ok (LocalCA k), cache' ++ others).
Proof.
  unfold make_ssh_ca_backend. case_bool_decide as Hb.
  - destruct (find_first _ cache) as [e|] eqn:E.
    + intros [= <- <-]. by rewrite (find_first_app _ _ _ _ E).
    + destruct (if truthy _ then _ else _) as [k'|]; [|done]. intros [= <- <-].
      rewrite (find_first_app _ _ _ (ssh_ca_local_dev_pem s, k')); [done|].
      apply find_first_snoc; [done|]. by rewrite bool_decide_eq_true_2.
  - case_bool_decide; [|done]. repeat case_match; intros; simplify_eq.
Qed.
End factory.
