(* ===== verification/PkiBootstrap.v ===== *)
(** * Setting up the PKI

    [VaultPKI.bootstrap] with [_upsert_role], [_read_root_cert_pem] and
    [_read_int_ca_chain], and [LocalDevPKI.from_pem] of
    [src/src/wg_manager/pki.py].  The Vault server is an interface
    ([VaultAdmin]) whose laws ([VaultAdminLaws]) state what its documentation
    says of the calls the code makes; a small server in memory satisfies them.
    Loading PEM bodies is the cryptography package's work and a parameter. *)

From S2P Require Import Prelude PyStr Models Session Auth Pki SshCa.

(** ** The calls *)

(** The [hvac] calls of the bootstrap.  A read of a text endpoint answers
    [None] where the response has no text. *)
Class VaultAdmin (V : Type) := {
  va_enable : string -> string -> V -> (vault_error + unit) * V; (** path, max lease *)
  va_tune : string -> string -> V -> (vault_error + unit) * V;
  va_generate_root : string -> string -> string -> V -> (vault_error + unit) * V; (** mount, CN, TTL *)
  va_generate_intermediate : string -> string -> V -> (vault_error + string) * V; (** mount, CN; the CSR *)
  va_sign_intermediate : string -> string -> string -> string -> V -> (vault_error + string) * V;
    (** mount, CSR, CN, TTL; the certificate *)
  va_set_signed : string -> string -> V -> (vault_error + unit) * V; (** mount, certificate *)
  va_create_role : string -> string -> vault_role -> V -> (vault_error + unit) * V; (** mount, name *)
  va_get : string -> string -> V -> vault_error + option string (** [/v1/<mount>/<endpoint>] *)
}.

Section bootstrap.
Context {V : Type} `{VaultAdmin V}.

(** Calls in sequence: the first that fails ends the sequence. *)
Definition call (A : Type) : Type := V -> (vault_error + A) * V.
Definition done_with {A} (a : A) : call A := fun v => (inr a, v).
Definition fails {A} (e : vault_error) : call A := fun v => (inl e, v).
Definition then_ {A B} (m : call A) (k : A -> call B) : call B := fun v =>
  match m v with (inl e, v') => (inl e, v') | (inr a, v') => k a v' end.

(** [try: m except InvalidRequest as exc: if not benign: raise] *)
Definition tolerating (benign : string -> bool) (m : call unit) : call unit := fun v =>
  match m v with
  | (inl (InvalidRequest s), v') => if benign s then (inr tt, v') else (inl (InvalidRequest s), v')
  | r => r
  end.

Definition ROOT_LEASE : string := "87600h".
Definition INT_LEASE : string := "43800h".

(** One turn of the loop over the mounts. *)
Definition enable_mount (mount max_lease : string) : call unit :=
  then_ (tolerating (contains "path is already in use") (va_enable mount max_lease)) (fun _ => va_tune mount max_lease).

Definition root_exists (s : string) : bool := contains "already exists" (lower s) || contains "cannot be generated" (lower s).

Definition has_cert (text : string) : bool := contains "BEGIN CERTIFICATE" text.

Definition read_root_cert_pem (mount : string) (v : V) : vault_error + string :=
  match va_get mount "ca/pem" v with
  | inl (OtherVaultError s) => inl (OtherVaultError s)
  | inl _ => inr ""
  | inr text => inr (let text := default "" text in if has_cert text then text else "")
  end.

Definition read_int_ca_chain (mount : string) (v : V) : vault_error + string :=
  match va_get mount "ca_chain" v with
  | inl (OtherVaultError s) => if contains "no default issuer" (lower s) then inr "" else inl (OtherVaultError s)
  | inl _ => inr ""
  | inr text => inr (match text with Some t => if has_cert t then t else "" | None => "" end)
  end.

Definition reading {A} (r : V -> vault_error + A) : call A := fun v => (r v, v).

(** Steps 3 to 5: request, signature and installation, unless there is a
    chain. *)
Definition install_intermediate (root_mount intermediate_mount : string) : call unit :=
  then_ (reading (read_int_ca_chain intermediate_mount)) (fun existing_chain =>
  if nonempty existing_chain then done_with tt
  else
    then_ (va_generate_intermediate intermediate_mount "wg-manager PKI intermediate") (fun csr_pem =>
    then_ (va_sign_intermediate root_mount csr_pem "wg-manager PKI intermediate" INT_LEASE) (fun int_cert_pem =>
    then_ (reading (read_root_cert_pem root_mount)) (fun root_pem =>
    va_set_signed intermediate_mount (rstrip int_cert_pem +:+ newline +:+ root_pem))))).

Definition bootstrap_steps (root_mount intermediate_mount server_role client_role allowed_domains max_ttl : string) : call unit :=
  then_ (enable_mount root_mount ROOT_LEASE) (fun _ =>
  then_ (enable_mount intermediate_mount INT_LEASE) (fun _ =>
  then_ (tolerating root_exists (va_generate_root root_mount "wg-manager PKI root" ROOT_LEASE)) (fun _ =>
  then_ (install_intermediate root_mount intermediate_mount) (fun _ =>
  then_ (va_create_role intermediate_mount server_role (upsert_role allowed_domains true false max_ttl)) (fun _ =>
  va_create_role intermediate_mount client_role (upsert_role allowed_domains false true max_ttl)))))).

(** [VaultPKI.bootstrap]; the last read is outside the [try]. *)
Definition pki_bootstrap (root_mount intermediate_mount server_role client_role allowed_domains max_ttl : string) (v : V)
  : outcome (VaultPKI * string) * V :=
  match bootstrap_steps root_mount intermediate_mount server_role client_role allowed_domains max_ttl v with
  | (inl e, v') => (Raise (PKIError ("PKI bootstrap failed (root=" +:+ repr root_mount +:+ ", int=" +:+
                      repr intermediate_mount +:+ "): " +:+ vault_error_str e)), v')
  | (inr _, v') =>
      (match read_int_ca_chain intermediate_mount v' with
       | inl e => Raise (VaultError (vault_error_str e))
       | inr bundle =>
           if nonempty bundle then Ok (mkVaultPKI intermediate_mount server_role client_role, bundle)
           else Raise (PKIError ("intermediate at " +:+ repr intermediate_mount +:+
                  " reports no ca_chain — bootstrap installed nothing"))
       end, v')
  end.
End bootstrap.

(** The chain as [make_pki_backend] reads it. *)
Definition factory_chain {V} `{VaultAdmin V} (v : V) (mount : string) : outcome string :=
  match read_int_ca_chain mount v with inl e => Raise (VaultError (vault_error_str e)) | inr t => Ok t end.

(** ** What the code relies on *)

(** What a Vault server in service does ([va_up]): [ca v m] is the default
    issuer of a mount, [chain v m] what [ca_chain] returns, [role v m r] the
    policy of a role.  [render] is how installed certificates are returned. *)
Class VaultAdminLaws (V : Type) `{VaultAdmin V} := {
  va_up : V -> Prop;
  mounted : V -> string -> Prop;
  ca : V -> string -> option string;
  chain : V -> string -> option string;
  role : V -> string -> string -> option vault_role;
  render : string -> string;
  (** two states with the same issuers, chains and roles *)
  same_pki (v v' : V) : Prop := (forall m, ca v' m = ca v m) /\ (forall m, chain v' m = chain v m) /\
    (forall m r, role v' m r = role v m r) /\ (forall m, mounted v m -> mounted v' m);
  enable_law m lease v r v' : va_up v -> va_enable m lease v = (r, v') -> va_up v' /\ same_pki v v' /\ mounted v' m /\
    (r = inr tt \/ exists s, r = inl (InvalidRequest s) /\ contains "path is already in use" s = true);
  tune_law m lease v r v' : va_up v -> mounted v m -> va_tune m lease v = (r, v') -> va_up v' /\ same_pki v v' /\ r = inr tt;
  generate_root_law m cn ttl v r v' : va_up v -> mounted v m -> va_generate_root m cn ttl v = (r, v') ->
    va_up v' /\ (forall m', m' <> m -> ca v' m' = ca v m') /\ (forall m', m' <> m -> chain v' m' = chain v m') /\
    (forall m', mounted v m' -> mounted v' m') /\
    match ca v m with
    | None => r = inr tt /\ exists pem, ca v' m = Some pem /\ has_cert pem = true
    | Some pem => ca v' m = Some pem /\
        (r = inr tt \/ exists s, r = inl (InvalidRequest s) /\ root_exists s = true)
    end;
  generate_intermediate_law m cn v r v' : va_up v -> mounted v m -> va_generate_intermediate m cn v = (r, v') ->
    va_up v' /\ same_pki v v' /\ exists csr, r = inr csr;
  sign_intermediate_law m csr cn ttl v r v' : va_up v -> ca v m <> None -> va_sign_intermediate m csr cn ttl v = (r, v') ->
    va_up v' /\ same_pki v v' /\ exists cert, r = inr cert;
  set_signed_law m pem v r v' : va_up v -> mounted v m -> chain v m = None -> has_cert pem = true -> va_set_signed m pem v = (r, v') ->
    va_up v' /\ r = inr tt /\ chain v' m = Some (render pem) /\
    (forall m', m' <> m -> ca v' m' = ca v m') /\ (forall m', m' <> m -> chain v' m' = chain v m') /\
    (forall m', mounted v m' -> mounted v' m');
  create_role_law m n p v r v' : va_up v -> mounted v m -> va_create_role m n p v = (r, v') ->
    va_up v' /\ r = inr tt /\ (forall m', ca v' m' = ca v m') /\ (forall m', chain v' m' = chain v m') /\
    role v' m n = Some p /\ (forall m' n', (m', n') <> (m, n) -> role v' m' n' = role v m' n') /\
    (forall m', mounted v m' -> mounted v' m');
  get_ca_law m v : va_up v ->
    match ca v m with
    | Some pem => va_get m "ca/pem" v = inr (Some pem) /\ has_cert pem = true
    | None => True
    end;
  get_chain_law m v : va_up v ->
    match chain v m with
    | Some t => va_get m "ca_chain" v = inr (Some t) /\ has_cert t = true
    | None => va_get m "ca_chain" v = inr None \/
              exists s, va_get m "ca_chain" v = inl (InvalidPath s) \/
                        va_get m "ca_chain" v = inl (InvalidRequest s) \/
                        va_get m "ca_chain" v = inl (OtherVaultError s) /\
                          contains "no default issuer" (lower s) = true
    end
}.

(** ** Lemmas *)

Lemma contains_app_r sub s t : contains sub t = true -> contains sub (s +:+ t) = true.
Proof. intros Ht. induction s as [|c s IH]; [done|]. rewrite append_cons. cbn [contains]. rewrite IH. apply orb_true_r. Qed.

Section laws.
Context {V : Type} `{VaultAdminLaws V}.

Lemma same_pki_trans v1 v2 v3 : same_pki v1 v2 -> same_pki v2 v3 -> same_pki v1 v3.
Proof.
  intros (A1 & A2 & A3 & A4) (B1 & B2 & B3 & B4). split_and!; intros; [by rewrite B1|by rewrite B2|by rewrite B3|auto].
Qed.

Lemma read_chain_up m v : va_up v -> read_int_ca_chain m v = inr (default "" (chain v m)).
Proof.
  intros Hu. pose proof (get_chain_law m v Hu) as Hg. unfold read_int_ca_chain. destruct (chain v m) as [t|].
  - destruct Hg as [-> Ht]. by rewrite Ht.
  - destruct Hg as [->|(s & [->|[->|[-> Hs]]])]; [done..|]. by rewrite Hs.
Qed.

Lemma chain_nonempty m v t : va_up v -> chain v m = Some t -> nonempty t = true.
Proof. intros Hu E. pose proof (get_chain_law m v Hu) as Hg. rewrite E in Hg. destruct Hg as [_ Ht]. by destruct t. Qed.

Lemma read_root_up m v pem : va_up v -> ca v m = Some pem -> read_root_cert_pem m v = inr pem /\ has_cert pem = true.
Proof.
  intros Hu E. pose proof (get_ca_law m v Hu) as Hg. rewrite E in Hg. destruct Hg as [Hg Hc].
  unfold read_root_cert_pem. rewrite Hg. simpl. by rewrite Hc.
Qed.

Lemma enable_mount_up m lease v : va_up v ->
  exists v', enable_mount m lease v = (inr tt, v') /\ va_up v' /\ same_pki v v' /\ mounted v' m.
Proof.
  intros Hu. unfold enable_mount, then_, tolerating. destruct (va_enable m lease v) as [r v1] eqn:E1.
  destruct (enable_law _ _ _ _ _ Hu E1) as (Hu1 & Hs1 & Hm1 & Hr).
  destruct (va_tune m lease v1) as [r2 v2] eqn:E2. destruct (tune_law _ _ _ _ _ Hu1 Hm1 E2) as (Hu2 & Hs2 & ->).
  exists v2. split; [|split_and!; [done|by eapply same_pki_trans|by apply Hs2]].
  destruct Hr as [->|(s & -> & Hs)]; [exact E2|]. rewrite Hs. exact E2.
Qed.

(** The root is there afterwards, and it is the old one if there was one. *)
Lemma generate_root_up m cn ttl v : va_up v -> mounted v m ->
  exists v' root, tolerating root_exists (va_generate_root m cn ttl) v = (inr tt, v') /\ va_up v' /\
    ca v' m = Some root /\ (ca v m = None \/ ca v m = Some root) /\ (forall m', m' <> m -> chain v' m' = chain v m') /\
    (forall m', mounted v m' -> mounted v' m').
Proof.
  intros Hu Hm. unfold tolerating. destruct (va_generate_root m cn ttl v) as [r v'] eqn:E.
  destruct (generate_root_law _ _ _ _ _ _ Hu Hm E) as (Hu' & _ & Hc & Hm' & Hr). exists v'.
  destruct (ca v m) as [pem|].
  - destruct Hr as (Ha & Hr). exists pem. split; [|eauto 10]. destruct Hr as [->|(s & -> & Hs)]; [done|by rewrite Hs].
  - destruct Hr as (-> & pem & Ha & _). exists pem. eauto 10.
Qed.

Lemma install_intermediate_up rm im v root : rm <> im -> va_up v -> mounted v im -> ca v rm = Some root ->
  exists v', install_intermediate rm im v = (inr tt, v') /\ va_up v' /\ ca v' rm = Some root /\ (forall m, mounted v m -> mounted v' m) /\
    match chain v im with
    | Some t => v' = v
    | None => exists cert, chain v' im = Some (render (rstrip cert +:+ newline +:+ root))
    end.
Proof.
  intros Hne Hu Hm Hca. unfold install_intermediate, then_, reading, done_with. rewrite read_chain_up by done.
  destruct (chain v im) as [t|] eqn:Ec; cbn [from_option id].
  { pose proof (chain_nonempty im v t Hu Ec) as Hn. rewrite Hn. eauto 10. }
  change (nonempty "") with false. cbv beta iota. destruct (va_generate_intermediate im "wg-manager PKI intermediate" v) as [r1 v1] eqn:E1.
  destruct (generate_intermediate_law _ _ _ _ _ Hu Hm E1) as (Hu1 & (A1 & A2 & A3 & A4) & csr & ->).
  destruct (va_sign_intermediate rm csr "wg-manager PKI intermediate" INT_LEASE v1) as [r2 v2] eqn:E2.
  destruct (sign_intermediate_law _ _ _ _ _ _ _ Hu1 ltac:(by rewrite A1, Hca) E2) as (Hu2 & (B1 & B2 & B3 & B4) & cert & ->).
  destruct (read_root_up rm v2 root Hu2) as [-> Hc]; [by rewrite B1, A1|].
  destruct (va_set_signed im (rstrip cert +:+ newline +:+ root) v2) as [r3 v3] eqn:E3.
  assert (Hp : has_cert (rstrip cert +:+ newline +:+ root) = true) by (by do 2 apply contains_app_r).
  destruct (set_signed_law _ _ _ _ _ Hu2 (B4 _ (A4 _ Hm)) ltac:(by rewrite B2, A2) Hp E3) as (Hu3 & -> & Hch & Hca3 & _ & Hm3).
  exists v3. split_and!; [done..| |eauto|eauto]. by rewrite Hca3, B1, A1.
Qed.

(** A run from any state of a server in service. *)
Lemma bootstrap_steps_up rm im sr cr domains ttl v : rm <> im -> va_up v ->
  exists v' root, bootstrap_steps rm im sr cr domains ttl v = (inr tt, v') /\ va_up v' /\
    ca v' rm = Some root /\ (ca v rm = None \/ ca v rm = Some root) /\
    match chain v im with
    | Some t => chain v' im = Some t
    | None => exists cert, chain v' im = Some (render (rstrip cert +:+ newline +:+ root))
    end /\
    role v' im cr = Some (upsert_role domains false true ttl) /\
    (sr <> cr -> role v' im sr = Some (upsert_role domains true false ttl)).
Proof.
  intros Hne Hu. unfold bootstrap_steps. unfold then_ at 1.
  destruct (enable_mount_up rm ROOT_LEASE v Hu) as (v1 & -> & Hu1 & (A1 & A2 & _ & A4) & Hm1). unfold then_ at 1.
  destruct (enable_mount_up im INT_LEASE v1 Hu1) as (v2 & -> & Hu2 & (B1 & B2 & _ & B4) & Hm2). unfold then_ at 1.
  destruct (generate_root_up rm "wg-manager PKI root" ROOT_LEASE v2 Hu2 (B4 _ Hm1)) as (v3 & root & -> & Hu3 & Hca3 & Hold & Hch3 & Hm3).
  unfold then_ at 1.
  destruct (install_intermediate_up rm im v3 root Hne Hu3 (Hm3 _ Hm2) Hca3) as (v4 & -> & Hu4 & Hca4 & Hm4 & Hch4).
  unfold then_. destruct (va_create_role im sr _ v4) as [r5 v5] eqn:E5.
  destruct (create_role_law _ _ _ _ _ _ Hu4 (Hm4 _ (Hm3 _ Hm2)) E5) as (Hu5 & -> & C1 & C2 & C3 & C4 & C5).
  destruct (va_create_role im cr _ v5) as [r6 v6] eqn:E6.
  destruct (create_role_law _ _ _ _ _ _ Hu5 (C5 _ (Hm4 _ (Hm3 _ Hm2))) E6) as (Hu6 & -> & D1 & D2 & D3 & D4 & D5).
  exists v6, root. split_and!; try done.
  - by rewrite D1, C1.
  - by rewrite <- A1, <- B1.
  - rewrite (Hch3 im), B2, A2 in Hch4 by done. destruct (chain v im) as [t|] eqn:Ec; rewrite D2, C2; [|done].
    subst v4. by rewrite Hch3, B2, A2.
  - intros Hrr. rewrite D4 by congruence. exact C3.
Qed.

(** C22. Bootstrapping is safe to repeat.  On a Vault server in service, from any
    state, [bootstrap] succeeds; the root and the chain that were there are
    kept, and a new chain ends in the root; both roles have their policies.  A
    second run succeeds with the same bundle and keeps root and chain, and every
    process that starts afterwards gets that bundle from the factory. *)
Theorem bootstrap_converges rm im sr cr domains ttl v : rm <> im -> va_up v ->
  exists bundle v' root, pki_bootstrap rm im sr cr domains ttl v = (Ok (mkVaultPKI im sr cr, bundle), v') /\
    ca v' rm = Some root /\ (ca v rm = None \/ ca v rm = Some root) /\
    (chain v im = Some bundle \/ chain v im = None /\ exists cert, bundle = render (rstrip cert +:+ newline +:+ root)) /\
    role v' im cr = Some (upsert_role domains false true ttl) /\
    (sr <> cr -> role v' im sr = Some (upsert_role domains true false ttl)) /\
    (exists v2, pki_bootstrap rm im sr cr domains ttl v' = (Ok (mkVaultPKI im sr cr, bundle), v2) /\
       ca v2 rm = Some root /\ chain v2 im = Some bundle) /\
    (forall gen from_pem s cache, lower (pki_backend s) = "vault" -> truthy (crypto_vault_token s) = true ->
       pki_vault_int_mount s = im -> pki_vault_server_role s = sr -> pki_vault_client_role s = cr ->
       make_pki_backend gen from_pem (factory_chain v') s cache = (Ok (VaultInstance (mkVaultPKI im sr cr) bundle), cache)).
Proof.
  intros Hne Hu. destruct (bootstrap_steps_up rm im sr cr domains ttl v Hne Hu) as (v' & root & E & Hu' & Hca & Hold & Hch & Hc & Hs).
  assert (Hb : exists bundle, chain v' im = Some bundle /\
    (chain v im = Some bundle \/ chain v im = None /\ exists cert, bundle = render (rstrip cert +:+ newline +:+ root))).
  { destruct (chain v im) as [t|]; [eauto|]. destruct Hch as [cert ->]. eauto 10. }
  destruct Hb as (bundle & Eb & Hb). pose proof (chain_nonempty im v' bundle Hu' Eb) as Hn.
  exists bundle, v', root. split; [|split_and!; try done].
  - unfold pki_bootstrap. rewrite E, read_chain_up, Eb by done. simpl. by rewrite Hn.
  - destruct (bootstrap_steps_up rm im sr cr domains ttl v' Hne Hu') as (v2 & root2 & E2 & Hu2 & Hca2 & Hold2 & Hch2 & _).
    rewrite Eb in Hch2. exists v2. unfold pki_bootstrap. rewrite E2, read_chain_up, Hch2 by done. simpl. rewrite Hn.
    split_and!; [done| |done]. destruct Hold2; congruence.
  - intros gen fp s cache Hv Ht Hm Hsr Hcr. unfold make_pki_backend, factory_chain.
    rewrite Hv, Ht, Hm, Hsr, Hcr, read_chain_up, Eb by done. simpl. by rewrite Hn.
Qed.
End laws.

(** ** A server in memory *)

Record dev_vault := mkDevVault {
  dv_mounts : gset string; dv_ca : gmap string string; dv_chain : gmap string string;
  dv_roles : gmap (string * string) vault_role
}.

Definition dev_cert (cn : string) : string := "-----BEGIN CERTIFICATE-----" +:+ cn.
Definition in_use (m : string) : vault_error := InvalidRequest ("path is already in use" +:+ " at " +:+ m).
Definition no_handler (m : string) : vault_error := InvalidPath ("no handler for route " +:+ m).

Definition on_mount {A} (m : string) (a : A) (v v' : dev_vault) : (vault_error + A) * dev_vault :=
  if bool_decide (m ∈ dv_mounts v) then (inr a, v') else (inl (no_handler m), v).

#[export] Instance dev_vault_admin : VaultAdmin dev_vault := {|
  va_enable m _ v := if bool_decide (m ∈ dv_mounts v) then (inl (in_use m), v)
                     else (inr tt, mkDevVault ({[m]} ∪ dv_mounts v) (dv_ca v) (dv_chain v) (dv_roles v));
  va_tune m _ v := on_mount m tt v v;
  va_generate_root m cn _ v :=
    match dv_ca v !! m with
    | Some _ => (inl (InvalidRequest "The CA already exists"), v)
    | None => on_mount m tt v (mkDevVault (dv_mounts v) (<[m := dev_cert cn]> (dv_ca v)) (dv_chain v) (dv_roles v))
    end;
  va_generate_intermediate m cn v := on_mount m ("CSR " +:+ cn) v v;
  va_sign_intermediate m csr cn _ v :=
    if bool_decide (is_Some (dv_ca v !! m)) then (inr (dev_cert cn +:+ newline), v) else (inl (no_handler m), v);
  va_set_signed m pem v :=
    if has_cert pem then on_mount m tt v (mkDevVault (dv_mounts v) (dv_ca v) (<[m := pem]> (dv_chain v)) (dv_roles v))
    else (inl (InvalidRequest "no certificate"), v);
  va_create_role m n p v := on_mount m tt v (mkDevVault (dv_mounts v) (dv_ca v) (dv_chain v) (<[(m, n) := p]> (dv_roles v)));
  va_get m endpoint v :=
    if bool_decide (endpoint = "ca_chain") then inr (dv_chain v !! m)
    else match dv_ca v !! m with Some pem => inr (Some pem) | None => inl (no_handler m) end
|}.

(** Only certificates are stored. *)
Definition dev_ok (v : dev_vault) : Prop :=
  map_Forall (fun _ t => has_cert t = true) (dv_ca v) /\ map_Forall (fun _ t => has_cert t = true) (dv_chain v).

Lemma contains_start sub s : contains sub (sub +:+ s) = true.
Proof. destruct (sub +:+ s) as [|c t] eqn:E; cbn [contains]; rewrite <- E, startswith_app; done. Qed.

Lemma on_mount_in {A} m (a : A) v v' : m ∈ dv_mounts v -> on_mount m a v v' = (inr a, v').
Proof. intros Hm. unfold on_mount. by rewrite bool_decide_eq_true_2. Qed.

#[export] Instance dev_vault_laws : VaultAdminLaws dev_vault.
Proof.
  refine {| va_up := dev_ok; mounted v m := m ∈ dv_mounts v; ca v m := dv_ca v !! m; chain v m := dv_chain v !! m;
            role v m n := dv_roles v !! (m, n); render t := t |}.
  - intros m lease v r v' Hu E. cbn in E. case_bool_decide as Hm; injection E as <- <-.
    + split_and!; try done. right. eexists. split; [done|]. by apply contains_start.
    + split_and!; try done; cbn; [set_solver|set_solver|by left].
  - intros m lease v r v' Hu Hm E. cbn in E. rewrite on_mount_in in E by done. injection E as <- <-. done.
  - intros m cn ttl v r v' Hu Hm E. cbn in E. destruct (dv_ca v !! m) as [pem|] eqn:Ec.
    + injection E as <- <-. split_and!; try done. right. eexists. split; [done|reflexivity].
    + rewrite on_mount_in in E by done. injection E as <- <-. split_and!; cbn.
      * destruct Hu as [H1 H2]. split; [|done]. cbn. apply map_Forall_insert_2; [by apply contains_app_r with (s := "-----")|done].
      * intros m' Hne. by rewrite lookup_insert_ne.
      * done.
      * done.
      * done.
      * exists (dev_cert cn). split; [by rewrite lookup_insert_eq|reflexivity].
  - intros m cn v r v' Hu Hm E. cbn in E. rewrite on_mount_in in E by done. injection E as <- <-. split_and!; eauto.
  - intros m csr cn ttl v r v' Hu Hm E. cbn in E. rewrite bool_decide_eq_true_2 in E by (by apply not_eq_None_Some).
    injection E as <- <-. split_and!; eauto.
  - intros m pem v r v' Hu Hm Hc Hp E. cbn in E. rewrite Hp, on_mount_in in E by done. injection E as <- <-. cbn. split_and!; try done.
    + destruct Hu as [H1 H2]. split; [done|]. by apply map_Forall_insert_2.
    + by rewrite lookup_insert_eq.
    + intros m' Hne. by rewrite lookup_insert_ne.
  - intros m n p v r v' Hu Hm E. cbn in E. rewrite on_mount_in in E by done. injection E as <- <-. cbn. split_and!; try done.
    + by rewrite lookup_insert_eq.
    + intros m' n' Hne. by rewrite lookup_insert_ne.
  - intros m v [Hu _]. cbn. destruct (dv_ca v !! m) as [pem|] eqn:E; [|done]. split; [done|]. by apply (Hu m).
  - intros m v [_ Hu]. cbn. destruct (dv_chain v !! m) as [t|] eqn:E; [|by left]. split; [done|]. by apply (Hu m).
Defined.

Lemma bootstrap_converges_witness :
  exists v', pki_bootstrap "pki" "pki_int" "server" "client" "wg.local" "8760h" (mkDevVault ∅ ∅ ∅ ∅) =
    (Ok (mkVaultPKI "pki_int" "server" "client",
         dev_cert "wg-manager PKI intermediate" +:+ newline +:+ dev_cert "wg-manager PKI root"), v') /\
  exists v2, pki_bootstrap "pki" "pki_int" "server" "client" "wg.local" "8760h" v' =
    (Ok (mkVaultPKI "pki_int" "server" "client",
         dev_cert "wg-manager PKI intermediate" +:+ newline +:+ dev_cert "wg-manager PKI root"), v2).
Proof.
  destruct (bootstrap_converges "pki" "pki_int" "server" "client" "wg.local" "8760h" (mkDevVault ∅ ∅ ∅ ∅))
    as (bundle & v' & root & E & _ & _ & _ & _ & _ & (v2 & E2 & _) & _).
  - done.
  - split; apply map_Forall_empty.
  - assert (Hb : (pki_bootstrap "pki" "pki_int" "server" "client" "wg.local" "8760h" (mkDevVault ∅ ∅ ∅ ∅)).1 =
      Ok (mkVaultPKI "pki_int" "server" "client",
         dev_cert "wg-manager PKI intermediate" +:+ newline +:+ dev_cert "wg-manager PKI root")) by (vm_compute; reflexivity).
    rewrite E in Hb. cbn [fst] in Hb. injection Hb as ->. eauto.
Defined.

(** A root that cannot be read is not an error: the intermediate is installed
    without it. *)
Lemma rootless_chain_installed {V} `{VaultAdmin V} rm im v csr v1 cert v2 :
  read_int_ca_chain im v = inr "" -> va_generate_intermediate im "wg-manager PKI intermediate" v = (inr csr, v1) ->
  va_sign_intermediate rm csr "wg-manager PKI intermediate" INT_LEASE v1 = (inr cert, v2) ->
  va_get rm "ca/pem" v2 = inr None ->
  install_intermediate rm im v = va_set_signed im (rstrip cert +:+ newline) v2.
Proof.
  intros E1 E2 E3 E4. unfold install_intermediate, then_, reading. rewrite E1. change (nonempty "") with false. cbv beta iota.
  rewrite E2, E3. unfold read_root_cert_pem. rewrite E4. reflexivity.
Qed.

(** A Vault error at the last read, or in the factory, is not a [PKIError]. *)
Lemma vault_error_escapes {V} `{VaultAdmin V} (v : V) s gen from_pem settings cache :
  va_get (pki_vault_int_mount settings) "ca_chain" v = inl (OtherVaultError s) -> contains "no default issuer" (lower s) = false ->
  lower (pki_backend settings) = "vault" -> truthy (crypto_vault_token settings) = true ->
  make_pki_backend gen from_pem (factory_chain v) settings cache = (Raise (VaultError s), cache).
Proof.
  intros E Hs Hb Ht. unfold make_pki_backend, factory_chain, read_int_ca_chain. rewrite Hb, Ht, E, Hs. reflexivity.
Qed.

(** ** Pinned hierarchies *)

Section pinned.
(** Loading ([None] is [ValueError] or [TypeError]), the type of a key,
    [verify_directly_issued_by] and encoding. *)
Context {X K : Type} (load_cert : string -> option X) (load_key : string -> option K)
  (is_ec : K -> bool) (type_name : K -> string) (issued_by : X -> X -> bool) (encode : X -> string).

Definition pki_from_pem (root root_key intermediate intermediate_key : string) : outcome LocalDevPKI :=
  match load_cert root, load_key root_key, load_cert intermediate, load_key intermediate_key with
  | Some root_cert, Some rk, Some int_cert, Some ik =>
      if negb (is_ec rk) then Raise (PKIError ("root key must be EC P-256, got " +:+ type_name rk))
      else if negb (is_ec ik) then Raise (PKIError ("intermediate key must be EC P-256, got " +:+ type_name ik))
      else if negb (issued_by int_cert root_cert) then Raise (PKIError "pinned intermediate is not signed by pinned root")
      else Ok (mkLocalDevPKI (encode root_cert) (encode int_cert))
  | _, _, _, _ => Raise (PKIError "could not load pinned PEMs")
  end.

(** [from_pem] as [make_pki_backend] calls it, on the four pinned bodies. *)
Definition from_pinned (pinned : list string) : outcome LocalDevPKI :=
  match pinned with [r; rk; i; ik] => pki_from_pem r rk i ik | _ => Raise (PKIError "could not load pinned PEMs") end.

(** The four PEMs of a hierarchy, pinned, give the same hierarchy back, also
    through the factory: with them in the settings every process has the same
    CA. *)
Lemma pinned_hierarchy_restored x_root x_int rk ik s gen rd cache :
  (forall x, load_cert (encode x) = Some x) -> load_key rk <> None -> load_key ik <> None ->
  (forall k, load_key rk = Some k \/ load_key ik = Some k -> is_ec k = true) -> issued_by x_int x_root = true ->
  lower (pki_backend s) = "local" -> pinned_pems s = [Some (encode x_root); Some rk; Some (encode x_int); Some ik] ->
  forallb truthy (pinned_pems s) = true -> find_first (fun e => bool_decide (e.1 = pinned_pems s)) cache = None ->
  (make_pki_backend gen from_pinned rd s cache).1 = Ok (LocalInstance (mkLocalDevPKI (encode x_root) (encode x_int))).
Proof.
  intros Hl Hr Hi He Hv Hb Hp Ht Hc. unfold make_pki_backend. rewrite Hb, Hc, Ht, andb_false_r, Hp.
  rewrite bool_decide_eq_true_2 by done. cbn [omap list_omap from_pinned id].
  unfold pki_from_pem. rewrite !Hl. destruct (load_key rk) as [k1|], (load_key ik) as [k2|]; try done.
  rewrite !He, Hv by eauto. reflexivity.
Qed.
End pinned.

(** ** The revocation list *)

(** [VaultPKI.crl_pem] *)
Definition vault_crl_pem {V} `{VaultAdmin V} (pki : VaultPKI) (v : V) : outcome string :=
  match va_get (int_mount pki) "crl/pem" v with
  | inl e => Raise (PKIError ("could not read CRL: " +:+ vault_error_str e))
  | inr text =>
      let text := default "" text in
      if contains "BEGIN X509 CRL" text then Ok text
      else Raise (PKIError ("unexpected CRL body from vault (first 40 chars: " +:+ repr (String.substring 0 40 text) +:+ ")"))
  end.
