(* ===== verification/Ssh.v ===== *)
(** * SSH sessions and host trust

    [src/src/wg_manager/ssh.py] (the host-key policy and the command runner),
    [host_ssh.py] (installing a host certificate), the runner and the
    orchestration of [bootstrap_ssh.py], and [_open_runner] of [tasks.py].
    The SSH transport is paramiko's: what a connection meets is an argument,
    and a session is a function from commands to their results. *)

From S2P Require Import Prelude PyStr Hashing Base64 Models Session Demo AuditLog Wireguard Pki Config Tasks SshCa.

(** ** Names and keys *)

(** [str.split()]: the word being read and the words after it. *)
Fixpoint words_go (s : string) : string * list string :=
  match s with
  | "" => ("", [])
  | String c s' =>
      let '(w, ws) := words_go s' in
      if is_space c then ("", if nonempty w then w :: ws else ws) else (String c w, ws)
  end.
Definition words (s : string) : list string :=
  let '(w, ws) := words_go s in if nonempty w then w :: ws else ws.

Definition ca_pubkey_body (openssh_line : string) : outcome string :=
  match words (strip openssh_line) with
  | _ :: body :: _ => Ok body
  | _ => Raise (ValueError ("malformed CA public key: " +:+ repr openssh_line))
  end.

(** [rstrip(".")]. *)
Fixpoint rstrip_dots (s : string) : string :=
  match s with
  | "" => ""
  | String c s' => let r := rstrip_dots s' in if ceqb c "." && negb (nonempty r) then "" else String c r
  end.

(** Host names are ASCII, where [casefold] is [lower]. *)
Definition normalise_principal (name : string) : string := lower (rstrip_dots (strip name)).

Definition dialed_name (paramiko_hostname : string) : string :=
  if startswith paramiko_hostname "[" && contains "]:" paramiko_hostname
  then match paramiko_hostname with String _ rest => before "]:" rest | "" => "" end
  else paramiko_hostname.

(** ** The host-key policy *)

Record KnownHostsCAPolicy := mkPolicy {
  kp_ca_public_key : string; kp_ca_body : string; kp_principals : option (list string)
}.

Definition known_hosts_ca_policy (ca_key : string) (names : option (list string)) : outcome KnownHostsCAPolicy :=
  match ca_pubkey_body ca_key with
  | Raise e => Raise e
  | Ok body => Ok (mkPolicy ca_key body
      ((fun l => normalise_principal <$> List.filter (fun p => nonempty (strip p)) l) <$> names))
  end.

(** The key a server offers: the type and the body of its certificate blob,
    if it has one. *)
Record offered_key := mkOfferedKey { public_blob : option (string * bytes) }.

(** Why [UntrustedHostKeyError] is raised. *)
Inductive untrusted :=
| NoCertificate
| UnsupportedType (key_type : string)
| Unparseable
| NotACertificate
| IsUserCert
| NoSignerBody
| UntrustedCA
| NotYetValid (valid_after now : Z)
| Expired (valid_before now : Z)
| NoPrincipals
| NotIssuedFor (accepted principals : list string).

Section policy.
Context (load_identity : string -> option ssh_identity).

(** [missing_host_key]: [None] accepts. *)
Definition missing_host_key (p : KnownHostsCAPolicy) (now : Z) (hostname : string) (key : offered_key)
  : option untrusted :=
  match public_blob key with
  | None => Some NoCertificate
  | Some (key_type, key_blob) =>
      if negb (bool_decide (key_type = CERT_ALGO)) then Some (UnsupportedType key_type)
      else match load_identity (key_type +:+ " " +:+ b64encode key_blob) with
      | None => Some Unparseable
      | Some (PlainKey _) => Some NotACertificate
      | Some (Certificate_ cert) =>
          let t := sc_tbs cert in
          if negb (bool_decide (st_type t = HOST)) then Some IsUserCert
          else match key_body (sc_signature_key cert) with
          | None => Some NoSignerBody
          | Some signer_body =>
              if negb (bool_decide (signer_body = kp_ca_body p)) then Some UntrustedCA
              else if now <? st_valid_after t then Some (NotYetValid (st_valid_after t) now)
              else if st_valid_before t <=? now then Some (Expired (st_valid_before t) now)
              else if bool_decide (st_principals t = []) then Some NoPrincipals
              else
                let accepted := default [normalise_principal (dialed_name hostname)] (kp_principals p) in
                if negb (existsb (fun n => mem (normalise_principal n) accepted) (st_principals t))
                then Some (NotIssuedFor accepted (st_principals t))
                else None
          end
      end
  end.

(** ** Opening a session *)

Record SSHRunner := mkRunner {
  r_host : string; r_port : Z; r_username : string; r_pkey_pem : string;
  r_cert_pem : option string; r_ca_public_key : option string; r_accepted_principals : list string
}.

Definition ssh_runner (r : SSHRunner) : outcome SSHRunner :=
  match r_cert_pem r, r_ca_public_key r with
  | Some _, None =>
      Raise (ValueError "SSHRunner CA mode requires both cert_pem and ca_public_key; missing ca_public_key")
  | None, Some _ =>
      Raise (ValueError "SSHRunner CA mode requires both cert_pem and ca_public_key; missing cert_pem")
  | _, _ => Ok r
  end.

(** What [client.connect] meets: an error of the network or of the
    authentication, or a server that offers a key and then lets the login in,
    or refuses it with a text. *)
Inductive connect_event :=
| TimedOut
| AuthenticationFailed (text : string)
| TransportFailed (text : string)
| ServerOffers (key : offered_key) (refused : option string).

Definition at_host (r : SSHRunner) : string := r_host r +:+ ":" +:+ dec (r_port r).

(** [_load_pkey]: the Ed25519 loader, then the RSA loader. *)
Definition load_pkey {K} (ed25519 rsa : string -> option K) (pem : string) : outcome K :=
  match ed25519 pem with
  | Some k => Ok k
  | None => match rsa pem with Some k => Ok k | None => Raise (ValueError "could not parse SSH private key") end
  end.

(** [__enter__]; [attach] is [pkey.load_certificate]. *)
Definition enter {K} (ed25519 rsa : string -> option K) (attach : K -> string -> outcome K) (reject_text : untrusted -> string)
  (r : SSHRunner) (now : Z) (event : connect_event) : outcome unit :=
  match (match r_ca_public_key r with
         | Some key => match known_hosts_ca_policy key (Some (r_host r :: r_accepted_principals r)) with
                       | Ok p => Ok (Some p) | Raise e => Raise e end
         | None => Ok None
         end) with
  | Raise e => Raise e
  | Ok policy =>
      match load_pkey ed25519 rsa (r_pkey_pem r) with
      | Raise e => Raise e
      | Ok pkey =>
      match (match r_cert_pem r with Some cert => attach pkey cert | None => Ok pkey end) with
      | Raise e => Raise e
      | Ok _ =>
          let auth_failed text :=
            Raise (SSHError ("SSH authentication failed for " +:+ r_username r +:+ "@" +:+ r_host r +:+ ": " +:+ text)) in
          let login refused := match refused with None => Ok tt | Some text => auth_failed text end in
          match event with
          | TimedOut => Raise (SSHError ("SSH connection to " +:+ at_host r +:+ " timed out after 15.0s"))
          | AuthenticationFailed text => auth_failed text
          | TransportFailed text => Raise (SSHError ("SSH connection to " +:+ at_host r +:+ " failed: " +:+ text))
          | ServerOffers key refused =>
              match policy with
              | None => login refused (* AutoAddPolicy *)
              | Some p =>
                  let hostname := if r_port r =? 22 then r_host r else "[" +:+ r_host r +:+ "]:" +:+ dec (r_port r) in
                  match missing_host_key p now hostname key with
                  | None => login refused
                  | Some why => Raise (SSHError ("SSH connection to " +:+ at_host r +:+ " failed: " +:+ reject_text why))
                  end
              end
          end
      end
      end
  end.

(** [_open_runner]: every session uses a fresh user certificate of the CA and
    trusts hosts by the same CA's key. *)
Definition open_runner (ca : outcome SSHCABackend) (user_cert_ttl : Z)
  (host : string) (port : Z) (username : string) (known_principals : option string) : outcome SSHRunner :=
  match ca with
  | Raise e => Raise e
  | Ok B =>
      match mint_user_cert (SSHCABackend := B) [username] user_cert_ttl with
      | Raise e => Raise e
      | Ok u => ssh_runner (mkRunner host port username (uc_private_pem u) (Some (uc_cert_pem u))
          (Some (ca_public_key (SSHCABackend := B)))
          (strip <$> List.filter (fun n => nonempty (strip n)) (split_on "," (default "" known_principals))))
      end
  end.
End policy.

(** ** Commands *)

(** [shlex.quote]. *)
Definition shell_safe (c : ascii) : bool :=
  let n := code c in
  ((48 <=? n) && (n <=? 57)) || ((65 <=? n) && (n <=? 90)) || ((97 <=? n) && (n <=? 122)) ||
  char_in c "_@%+=:,./-".

Definition sq : ascii := chr 39.
Definition dq_chr : ascii := chr 34.

Fixpoint escape_sq (s : string) : string :=
  match s with
  | "" => ""
  | String c s' =>
      if ceqb c sq then String sq (String dq_chr (String sq (String dq_chr (String sq (escape_sq s')))))
      else String c (escape_sq s')
  end.

Definition shlex_quote (s : string) : string :=
  if negb (nonempty s) then String sq (String sq "")
  else if str_forall shell_safe s then s
  else String sq (escape_sq s +:+ String sq "").

Record CommandResult := mkResult { cr_cmd : string; cr_rc : Z; cr_stdout : string; cr_stderr : string }.

Section session.
(** An entered session: [exec_command] with what is sent to the command's
    stdin ([None]: closed at once). *)
Context {H : Type} (exec_command : string -> option string -> H -> (Z * string * string) * H).

Definition ssh_command_error (r : CommandResult) : exn :=
  SSHError ("command " +:+ repr (cr_cmd r) +:+ " failed (rc=" +:+ dec (cr_rc r) +:+ "): " +:+ strip (cr_stderr r)).

Definition runner_exec (cmd : string) (stdin : option string) (check : bool) (h : H)
  : outcome CommandResult * H :=
  let '((rc, out, err), h') := exec_command cmd stdin h in
  let r := mkResult cmd rc out err in
  (if check && negb (rc =? 0) then Raise (ssh_command_error r) else Ok r, h').

Definition runner_run (cmd : string) (check : bool) : H -> outcome CommandResult * H :=
  runner_exec cmd None check.

Definition runner_sudo (cmd : string) (check : bool) : H -> outcome CommandResult * H :=
  runner_run ("sudo -n " +:+ cmd) check.

Definition with_sudo (sudo : bool) (cmd : string) : string := if sudo then "sudo -n " +:+ cmd else cmd.
Definition tee_command (path : string) (sudo : bool) : string :=
  with_sudo sudo ("tee " +:+ shlex_quote path +:+ " > /dev/null").
Definition chmod_command (path mode : string) (sudo : bool) : string :=
  with_sudo sudo ("chmod " +:+ mode +:+ " " +:+ shlex_quote path).

Definition runner_write_file (path content mode : string) (sudo : bool) (h : H) : outcome CommandResult * H :=
  match runner_exec (tee_command path sudo) (Some content) true h with
  | (Raise e, h') => (Raise e, h')
  | (Ok r, h') =>
      match runner_run (chmod_command path mode sudo) true h' with
      | (Raise e, h'') => (Raise e, h'')
      | (Ok _, h'') => (Ok r, h'')
      end
  end.

(** The runner as the interpreter of the calls that provisioning makes. *)
Definition runner_calls (c : ssh_cmd) (h : H) : outcome string * H :=
  let '(r, h') := match c with
                  | Sudo cmd check => runner_sudo cmd check h
                  | WriteFile path content mode sudo => runner_write_file path content mode sudo h
                  end in
  (match r with Ok x => Ok (cr_stdout x) | Raise e => Raise e end, h').
End session.

(** ** Installing a host certificate *)

Definition HOST_CA_PUB_PATH : string := "/etc/ssh/wg-manager-user-ca.pub".
Definition HOST_CERT_PATH : string := "/etc/ssh/ssh_host_ed25519_key-cert.pub".
Definition SSHD_DROPIN_PATH : string := "/etc/ssh/sshd_config.d/wg-manager.conf".
Definition HOST_PUBKEY_PROBE : string := "/etc/ssh/ssh_host_ed25519_key.pub".

Definition SSHD_DROPIN_LINES : list string :=
  ["# Managed by wg-manager (Phase 2c CP3). Do not hand-edit.";
   "#";
   "# TrustedUserCAKeys tells sshd to accept user certificates signed by";
   "# the listed CA(s) as a substitute for entries in authorized_keys.";
   "# HostCertificate makes sshd present a CA-signed host certificate";
   "# during the SSH handshake so clients using KnownHostsCAPolicy can";
   "# verify the host without TOFU.";
   "TrustedUserCAKeys " +:+ HOST_CA_PUB_PATH;
   "HostCertificate " +:+ HOST_CERT_PATH].

Definition sshd_dropin : string := join nl SSHD_DROPIN_LINES +:+ nl.

Definition RELOAD_COMMAND : string :=
  "sh -c 'systemctl reload sshd || systemctl restart sshd || systemctl reload ssh || systemctl restart ssh || service ssh reload || service ssh restart || service sshd reload || service sshd restart || kill -HUP $(pidof sshd) || kill -HUP 1'".

Section install.
Context {H : Type} (exec : ssh_cmd -> H -> outcome string * H) (B : SSHCABackend).

Definition read_host_pubkey : on_node (H := H) string :=
  node_bind (sudo exec ("cat " +:+ HOST_PUBKEY_PROBE)) (fun stdout h =>
    let body := strip stdout in
    if nonempty body then (Ok body, h)
    else (Raise (SSHError ("target host has no ed25519 host public key at " +:+ repr HOST_PUBKEY_PROBE +:+
                           "; run `ssh-keygen -A` on the host before re-running provisioning")), h)).

Definition install_host_cert_files (names : list string) (ttl_seconds : Z) : on_node (H := H) HostCert :=
  node_bind read_host_pubkey (fun host_pubkey =>
  node_bind (fun h => (mint_host_cert host_pubkey names ttl_seconds, h)) (fun cert =>
  node_bind (node_seq
    [write_file exec HOST_CA_PUB_PATH (ca_public_key +:+ nl) "644";
     write_file exec HOST_CERT_PATH (cert_pem cert +:+ nl) "644";
     write_file exec SSHD_DROPIN_PATH sshd_dropin "644";
     sudo exec RELOAD_COMMAND]) (fun _ =>
  node_ret cert))).

Definition install_host_cert (hostname : string) (ttl_seconds : Z) : on_node (H := H) HostCert :=
  install_host_cert_files [hostname] ttl_seconds.

Definition bootstrap_principals (hostname principal : string) : list string :=
  hostname :: (if bool_decide (normalise_principal principal = normalise_principal hostname) then [] else [principal]).

(** The audit line follows the installation. *)
Definition bootstrap_host (now : Z) (hostname principal : string) (ttl_seconds : Z) (cn : string) (node : H)
  : M HostCert :=
  cert <- lift (fst (install_host_cert_files (bootstrap_principals hostname principal) ttl_seconds node)) ;;
  emit now "bootstrap.host" [("hostname", JStr hostname); ("principal", JStr principal);
                             ("cert_serial", JStr (dec (serial cert))); ("cn", JStr cn)] ;;
  ret cert.
End install.

(** ** The policy accepts exactly the trusted hosts *)

Section policy_props.
Context (load_identity : string -> option ssh_identity).

(** The offered key carries a host certificate that names the CA [body] as
    its signer, is inside its validity window and is issued for one of the
    [accepted] names. *)
Definition trusted (body : string) (accepted : list string) (now : Z) (key : offered_key) : Prop :=
  exists blob cert, public_blob key = Some (CERT_ALGO, blob) /\
    load_identity (CERT_ALGO +:+ " " +:+ b64encode blob) = Some (Certificate_ cert) /\
    st_type (sc_tbs cert) = HOST /\
    key_body (sc_signature_key cert) = Some body /\
    st_valid_after (sc_tbs cert) <= now < st_valid_before (sc_tbs cert) /\
    exists n, n ∈ st_principals (sc_tbs cert) /\ normalise_principal n ∈ accepted.

Definition accepted_names (p : KnownHostsCAPolicy) (hostname : string) : list string :=
  default [normalise_principal (dialed_name hostname)] (kp_principals p).

(** The policy accepts exactly the trusted keys. *)
Lemma policy_accepts_iff p now hostname key :
  missing_host_key load_identity p now hostname key = None <->
  trusted (kp_ca_body p) (accepted_names p hostname) now key.
Proof.
  unfold missing_host_key, trusted, accepted_names. destruct (public_blob key) as [[ty blob]|]; [|naive_solver].
  destruct (decide (ty = CERT_ALGO)) as [->|Hty]; [|rewrite bool_decide_eq_false_2 by done; naive_solver].
  rewrite bool_decide_eq_true_2 by done. cbn [negb].
  destruct (load_identity (CERT_ALGO +:+ " " +:+ b64encode blob)) as [[l|c]|] eqn:El; [naive_solver| |naive_solver].
  split.
  - case_bool_decide as Ht; [|done]. simpl. destruct (key_body _) as [b|] eqn:Es; [|done].
    case_bool_decide as Hb; [|done]. simpl. destruct (now <? _) eqn:E1; [done|]. destruct (_ <=? now) eqn:E2; [done|].
    case_bool_decide as Hn; [done|]. destruct (existsb _ _) eqn:Ex; [|done]. intros _.
    apply existsb_exists in Ex as (n & Hin & Hm). exists blob, c. subst b.
    split_and!; try done; [lia|lia|]. exists n. split; [by apply list_elem_of_In|by apply mem_true].
  - intros (blob' & c' & [= <-] & Hl & Ht & Hs & [Hv1 Hv2] & n & Hn & Ha). simplify_eq.
    rewrite bool_decide_eq_true_2 by done. simpl. rewrite Hs. rewrite bool_decide_eq_true_2 by done. simpl.
    rewrite (proj2 (Z.ltb_ge _ _)) by lia. rewrite (proj2 (Z.leb_gt _ _)) by lia.
    rewrite bool_decide_eq_false_2 by (intros E; rewrite E in Hn; set_solver).
    rewrite (proj2 (existsb_exists _ _)); [done|]. exists n. split; [by apply list_elem_of_In|by apply mem_true].
Qed.
(** The policy never looks at the signature itself: a certificate that merely
    names the CA as its signer is treated like one the CA signed. *)
Definition set_signature (b : bool) (i : ssh_identity) : ssh_identity :=
  match i with
  | PlainKey l => PlainKey l
  | Certificate_ c => Certificate_ (mkSshCertificate (sc_tbs c) (sc_signature_key c) b)
  end.

Lemma policy_ignores_signature b p now hostname key :
  missing_host_key (fun l => set_signature b <$> load_identity l) p now hostname key =
  missing_host_key load_identity p now hostname key.
Proof.
  unfold missing_host_key. destruct (public_blob key) as [[ty blob]|]; [|done].
  destruct (negb _); [done|]. by destruct (load_identity _) as [[|]|].
Qed.

(** ** Sessions *)

Lemma filter_stripped l :
  List.filter (fun n => nonempty (strip n)) (strip <$> List.filter (fun n => nonempty (strip n)) l) =
  strip <$> List.filter (fun n => nonempty (strip n)) l.
Proof.
  induction l as [|x l IH]; [done|]. cbn [List.filter]. destruct (nonempty (strip x)) eqn:E; [|done].
  rewrite fmap_cons. cbn [List.filter]. rewrite strip_strip, E. by f_equal.
Qed.

Lemma open_runner_Ok ca_ ttl host port user known r :
  open_runner ca_ ttl host port user known = Ok r ->
  exists B u, ca_ = Ok B /\ mint_user_cert [user] ttl = Ok u /\
    r = mkRunner host port user (uc_private_pem u) (Some (uc_cert_pem u)) (Some ca_public_key)
          (strip <$> List.filter (fun n => nonempty (strip n)) (split_on "," (default "" known))).
Proof.
  unfold open_runner. destruct ca_ as [B|]; [|done]. destruct (mint_user_cert _ _) as [u|] eqn:E; [|done].
  intros [= <-]. by exists B, u.
Qed.

(** The names under which a row may be reached: its host name and the
    principals recorded on its last certificate. *)
Definition row_names (host : string) (known : option string) : list string :=
  host :: (strip <$> List.filter (fun n => nonempty (strip n)) (split_on "," (default "" known))).

(** The private key of the runner parses and takes its certificate. *)
Definition credentials_load {K} (ed : string -> option K) (attach : K -> string -> outcome K) (r : SSHRunner) : Prop :=
  exists pkey, ed (r_pkey_pem r) = Some pkey /\ forall cert, r_cert_pem r = Some cert -> exists pkey', attach pkey cert = Ok pkey'.

Lemma enter_ca {K} (ed rsa : string -> option K) attach text r now event ca_key body :
  r_ca_public_key r = Some ca_key -> ca_pubkey_body ca_key = Ok body ->
  credentials_load ed attach r ->
  enter load_identity ed rsa attach text r now event = Ok tt <->
  exists key, event = ServerOffers key None /\
    trusted body (normalise_principal <$>
      List.filter (fun p => nonempty (strip p)) (r_host r :: r_accepted_principals r)) now key.
Proof.
  intros Hca Hb (k & Hk & Hatt). unfold enter. rewrite Hca. unfold known_hosts_ca_policy. rewrite Hb.
  unfold load_pkey. rewrite Hk.
  assert (Ha : exists k', (match r_cert_pem r with Some cert => attach k cert | None => Ok k end) = Ok k')
    by (destruct (r_cert_pem r); eauto).
  destruct Ha as [k' ->]. destruct event as [| | |key refused]; try naive_solver.
  set (p := mkPolicy _ _ _). cbv zeta.
  pose proof (policy_accepts_iff p now
    (if r_port r =? 22 then r_host r else "[" +:+ r_host r +:+ "]:" +:+ dec (r_port r)) key) as Hp.
  destruct (missing_host_key _ _ _ _ _) as [why|].
  - split; [done|]. intros (key' & [= <- ->] & Ht). by apply Hp in Ht.
  - destruct refused as [text'|]; [naive_solver|]. split; [|done]. intros _. exists key. split; [done|]. by apply Hp.
Qed.

(** C6. No trust on first use: a session that a task opens for a row succeeds
    exactly when the server lets the login in and offers an Ed25519 host
    certificate that names the CA as its signer, is inside its validity window
    and is issued for the row's host name or a name recorded on the row's last
    certificate. *)
Theorem session_opens_iff_trusted {K} (ed rsa : string -> option K) attach text ca_ ttl host port user known r now event body :
  open_runner ca_ ttl host port user known = Ok r ->
  (forall B, ca_ = Ok B -> ca_pubkey_body (ca_public_key (SSHCABackend := B)) = Ok body) ->
  credentials_load ed attach r -> strip host <> "" ->
  enter load_identity ed rsa attach text r now event = Ok tt <->
  exists key, event = ServerOffers key None /\
    trusted body (normalise_principal <$> row_names host known) now key.
Proof.
  intros (B & u & -> & Hu & ->)%open_runner_Ok Hb Hk Hh.
  rewrite (enter_ca ed rsa attach text _ now event (ca_public_key (SSHCABackend := B)) body);
    [|done|by apply Hb|done].
  cbn [r_host r_accepted_principals List.filter]. rewrite (proj2 (nonempty_true _) Hh).
  unfold row_names. by rewrite filter_stripped.
Qed.
(** ** Issued certificates are accepted *)

Definition plain_word (s : string) : Prop := s <> "" /\ str_forall (fun c => negb (is_space c)) s = true.

Lemma words_go_plain w s : str_forall (fun c => negb (is_space c)) w = true ->
  words_go (w +:+ s) = let '(v, vs) := words_go s in (w +:+ v, vs).
Proof.
  induction w as [|c w IH]; intros H; [change ("" +:+ s) with s; by destruct (words_go s)|]. simpl in H.
  apply andb_true_iff in H as [Hc Hw]. rewrite append_cons. cbn [words_go].
  rewrite (IH Hw). destruct (words_go s) as [v vs]. apply negb_true_iff in Hc. by rewrite Hc.
Qed.

Lemma rstrip_plain a b : plain_word b -> rstrip (a +:+ b) = a +:+ b.
Proof.
  intros [Hb Hp]. induction a as [|c a IH]; [change ("" +:+ b) with b; by apply rstrip_no_space|].
  rewrite append_cons. cbn [rstrip]. rewrite IH. destruct (a +:+ b) eqn:E; [|done].
  destruct a; [|done]. change (b = "") in E. done.
Qed.

(** A well-formed public-key line: its second field, by both readings. *)
Lemma key_line algo body : plain_word algo -> plain_word body ->
  ca_pubkey_body (algo +:+ " " +:+ body) = Ok body /\ key_body (algo +:+ " " +:+ body) = Some body.
Proof.
  intros [Ha Hap] Hb.
  assert (Hl : strip (algo +:+ " " +:+ body) = algo +:+ " " +:+ body).
  { unfold strip. destruct algo as [|c a]; [done|]. rewrite append_cons. simpl in Hap.
    apply andb_true_iff in Hap as [Hc _]. apply negb_true_iff in Hc. cbn [lstrip]. rewrite Hc.
    rewrite <- append_cons, <- append_assoc. by apply rstrip_plain. }
  split.
  - unfold ca_pubkey_body, words. rewrite Hl, words_go_plain by done.
    change (" " +:+ body) with (String " " body). cbn [words_go].
    pose proof (words_go_plain body "" (proj2 Hb)) as E. rewrite append_nil_r in E. rewrite E. simpl.
    rewrite !append_nil_r. destruct Hb as [Hb _]. rewrite (proj2 (nonempty_true body) Hb).
    by rewrite (proj2 (nonempty_true algo) Ha).
  - unfold key_body. change (" " +:+ body) with (String " " body).
    assert (Hsp : forall w, str_forall (fun c => negb (is_space c)) w = true -> char_in " " w = false).
    { intros w Hw. apply char_in_false. eapply str_forall_impl; [|exact Hw]. intros c Hc.
      apply negb_true_iff, ceqb_neq. intros <-. done. }
    rewrite split_on_app by (apply Hsp; done). simpl. rewrite split_on_none by (apply Hsp; apply Hb). done.
Qed.
End policy_props.

Section reachability.
Context (load_identity : string -> option ssh_identity) (B : SSHCABackend)
  `{!SSHCALaws load_identity B}.

Definition host_name_ok (n : string) : Prop := n <> "" /\ strip n = n /\ char_in "," n = false.

(** C17. A host that lets the login in and presents the certificate the control
    plane last issued to it stays reachable for the whole validity window, also after its row was
    renamed: the recorded principals are read back into the accepted names. *)
Theorem managed_host_stays_reachable {K} (ed rsa : string -> option K) attach text algo body name pub ttl c key blob
  uttl host port user r now :
  ca_public_key = algo +:+ " " +:+ body -> plain_word algo -> plain_word body -> host_name_ok name ->
  mint_host_cert pub [name] ttl = Ok c ->
  public_blob key = Some (CERT_ALGO, blob) -> CERT_ALGO +:+ " " +:+ b64encode blob = cert_pem c ->
  open_runner (Ok B) uttl host port user (hc_principals (persist_host_cert c ca_public_key)) = Ok r ->
  credentials_load ed attach r ->
  valid_after c <= seconds now < valid_before c ->
  enter load_identity ed rsa attach text r now (ServerOffers key None) = Ok tt.
Proof.
  intros Hca Ha Hb (Hn & Hs & Hc) Hm Hk Hp Ho Hed Hv.
  destruct (mint_host_laws load_identity pub [name] ttl c) as (va & vb & (cert & Hl & Ht & Hpr & _ & Hva & Hvb & Hkb & _) & Hpc & H1 & H2);
    [split; [done|by constructor]|done|].
  apply open_runner_Ok in Ho as (B' & u & [= <-] & Hu & ->).
  destruct (key_line algo body Ha Hb) as [Hk1 Hk2].
  apply (enter_ca load_identity ed rsa attach text _ now (ServerOffers key None) (algo +:+ " " +:+ body) body);
    [by rewrite <- Hca|done|done|].
  exists key. split; [done|]. exists blob, cert. rewrite Hp. split_and!; try done.
  - by rewrite Hkb, Hca.
  - unfold seconds in *. lia.
  - unfold seconds in *. lia.
  - exists name. split; [rewrite Hpr; by left|]. apply list_elem_of_fmap. exists name. split; [done|].
    apply list_elem_of_In, filter_In. rewrite Hs. split; [|by apply nonempty_true]. right.
    apply list_elem_of_In, list_elem_of_fmap. exists name. split; [done|]. apply list_elem_of_In, filter_In.
    rewrite Hs. split; [|by apply nonempty_true]. simpl. rewrite Hpc. simpl. rewrite split_on_none by done. by left.
Qed.
End reachability.

(** ** Quoting

    Token recognition of the POSIX shell, for the quoting that commands here
    use; a character that would start an expansion or a separator is out of
    the fragment ([None]). *)

Inductive sh_token := Word (w : string) | Redirect.
Inductive quoting := Plain | Single | Double.

Definition sh_special (c : ascii) : bool :=
  char_in c "|&;<()$`\*?[#~!{}" || (code c =? 9) || (code c =? 10).

Definition flush (cur : option string) (ts : list sh_token) : list sh_token :=
  match cur with None => ts | Some w => Word w :: ts end.

Definition push (cur : option string) (c : ascii) : option string :=
  Some (default "" cur +:+ String c "").

Fixpoint sh_lex (q : quoting) (cur : option string) (s : string) : option (list sh_token) :=
  match s with
  | "" => match q with Plain => Some (flush cur []) | _ => None end
  | String c s' =>
      match q with
      | Plain =>
          if ceqb c " " then flush cur <$> sh_lex Plain None s'
          else if ceqb c sq then sh_lex Single (Some (default "" cur)) s'
          else if ceqb c dq_chr then sh_lex Double (Some (default "" cur)) s'
          else if ceqb c ">" then (fun ts => flush cur (Redirect :: ts)) <$> sh_lex Plain None s'
          else if sh_special c then None
          else sh_lex Plain (push cur c) s'
      | Single => if ceqb c sq then sh_lex Plain cur s' else sh_lex Single (push cur c) s'
      | Double =>
          if ceqb c dq_chr then sh_lex Plain cur s'
          else if char_in c "$`\" then None else sh_lex Double (push cur c) s'
      end
  end.

Definition sh_tokens (s : string) : option (list sh_token) := sh_lex Plain None s.

Lemma safe_plain c : shell_safe c = true ->
  ceqb c " " = false /\ ceqb c sq = false /\ ceqb c dq_chr = false /\ ceqb c ">" = false /\ sh_special c = false.
Proof. destruct c as [[] [] [] [] [] [] [] []]; vm_compute; intros H; first [discriminate H|by repeat split]. Qed.

Lemma lex_safe w a s : str_forall shell_safe w = true ->
  sh_lex Plain (Some a) (w +:+ s) = sh_lex Plain (Some (a +:+ w)) s.
Proof.
  revert a. induction w as [|c w IH]; intros a H; [by rewrite append_nil_r|].
  simpl in H. apply andb_true_iff in H as [Hc Hw]. rewrite append_cons. cbn [sh_lex].
  destruct (safe_plain c Hc) as (-> & -> & -> & -> & ->). unfold push. cbn [default].
  rewrite (IH _ Hw). by rewrite append_assoc.
Qed.

Lemma lex_safe_word w s : w <> "" -> str_forall shell_safe w = true ->
  sh_lex Plain None (w +:+ s) = sh_lex Plain (Some w) s.
Proof.
  destruct w as [|c w]; [done|]. intros _ H. change (String c w) with ("" +:+ String c w) at 2.
  rewrite <- (lex_safe (String c w) "" s H).
  simpl in H. apply andb_true_iff in H as [Hc Hw]. rewrite append_cons. cbn [sh_lex].
  by destruct (safe_plain c Hc) as (-> & -> & -> & -> & ->).
Qed.

Lemma lex_escaped w a s :
  sh_lex Single (Some a) (escape_sq w +:+ String sq s) = sh_lex Plain (Some (a +:+ w)) s.
Proof.
  revert a. induction w as [|c w IH]; intros a; cbn [escape_sq].
  - change ("" +:+ String sq s) with (String sq s). cbn [sh_lex]. by rewrite ceqb_refl, append_nil_r.
  - destruct (ceqb c sq) eqn:Ec.
    + apply ceqb_eq in Ec as ->. rewrite !append_cons. cbn [sh_lex]. rewrite ceqb_refl.
      replace (ceqb dq_chr " ") with false by done. replace (ceqb dq_chr sq) with false by done.
      rewrite ceqb_refl. replace (ceqb sq dq_chr) with false by done.
      replace (char_in sq "$`\") with false by done. cbn [sh_lex].
      replace (ceqb sq " ") with false by done. unfold push. cbn [default]. unfold id. rewrite IH. by rewrite append_assoc.
    + rewrite append_cons. cbn [sh_lex]. rewrite Ec. unfold push. cbn [default]. unfold id. rewrite IH. by rewrite append_assoc.
Qed.

(** A quoted string is one word, the string itself. *)
Lemma lex_quoted p s : sh_lex Plain None (shlex_quote p +:+ s) = sh_lex Plain (Some p) s.
Proof.
  unfold shlex_quote. destruct (nonempty p) eqn:En; simpl negb; cbn iota.
  - destruct (str_forall shell_safe p) eqn:Es; [by apply lex_safe_word; [apply nonempty_true|]|].
    rewrite append_cons, append_assoc, append_cons. change ("" +:+ s) with s. cbn [sh_lex].
    replace (ceqb sq " ") with false by done. rewrite ceqb_refl. cbn [default]. apply lex_escaped.
  - unfold nonempty in En. apply negb_false_iff, bool_decide_eq_true in En as ->. done.
Qed.

Lemma lex_space a s : sh_lex Plain (Some a) (String " " s) = cons (Word a) <$> sh_lex Plain None s.
Proof. done. Qed.

Lemma lex_word w s : w <> "" -> str_forall shell_safe w = true ->
  sh_lex Plain None (w +:+ String " " s) = cons (Word w) <$> sh_lex Plain None s.
Proof. intros H1 H2. by rewrite lex_safe_word. Qed.

Definition sudo_words (sudo : bool) : list sh_token := if sudo then [Word "sudo"; Word "-n"] else [].

Lemma lex_sudo sudo cmd ts : sh_tokens cmd = Some ts ->
  sh_tokens (with_sudo sudo cmd) = Some (sudo_words sudo ++ ts).
Proof.
  intros H. destruct sudo; [|done]. unfold with_sudo, sh_tokens.
  change ("sudo -n " +:+ cmd) with ("sudo" +:+ String " " ("-n" +:+ String " " cmd)).
  rewrite !lex_word by done. unfold sh_tokens in H. by rewrite H.
Qed.

(** No path can change the commands that [write_file] runs: whatever
    characters it contains, the shell reads the [tee] and the [chmod] command
    as exactly the intended words, with the path as one argument. *)
Theorem write_file_cannot_inject path mode sudo :
  mode <> "" -> str_forall shell_safe mode = true ->
  sh_tokens (tee_command path sudo) =
    Some (sudo_words sudo ++ [Word "tee"; Word path; Redirect; Word "/dev/null"]) /\
  sh_tokens (chmod_command path mode sudo) =
    Some (sudo_words sudo ++ [Word "chmod"; Word mode; Word path]).
Proof.
  intros Hm Hs. split; apply lex_sudo; unfold sh_tokens.
  - change ("tee " +:+ shlex_quote path +:+ " > /dev/null")
      with ("tee" +:+ String " " (shlex_quote path +:+ " > /dev/null")).
    rewrite lex_word by done. by rewrite lex_quoted.
  - change ("chmod " +:+ mode +:+ " " +:+ shlex_quote path)
      with ("chmod" +:+ String " " (mode +:+ String " " (shlex_quote path))).
    rewrite !lex_word by done. pose proof (lex_quoted path "") as E. rewrite append_nil_r in E. by rewrite E.
Qed.

(** ** Order of the installation *)

Section install_props.
Context {H : Type} (exec : ssh_cmd -> H -> outcome string * H) (B : SSHCABackend).

(** The node with the list of the calls it received. *)
Definition traced (c : ssh_cmd) (hl : H * list ssh_cmd) : outcome string * (H * list ssh_cmd) :=
  let '(r, h') := exec c hl.1 in (r, (h', hl.2 ++ [c])).

Definition install_calls (cert : HostCert) : list ssh_cmd :=
  [Sudo ("cat " +:+ HOST_PUBKEY_PROBE) true;
   WriteFile HOST_CA_PUB_PATH (ca_public_key +:+ nl) "644" true;
   WriteFile HOST_CERT_PATH (cert_pem cert +:+ nl) "644" true;
   WriteFile SSHD_DROPIN_PATH sshd_dropin "644" true;
   Sudo RELOAD_COMMAND true].

Lemma node_seq_traced cmds h l r h' l' :
  node_seq (traced <$> cmds) (h, l) = (r, (h', l')) ->
  exists done, l' = l ++ done /\ done `prefix_of` cmds /\ (r = Ok tt -> done = cmds).
Proof.
  revert h l. induction cmds as [|c cmds IH]; intros h l E; simpl in E.
  - unfold node_ret in E. simplify_eq. exists []. by rewrite app_nil_r.
  - unfold node_bind, traced in E. simpl in E. destruct (exec c h) as [[o|e] h1].
    + apply IH in E as (d & -> & Hp & Hr). exists (c :: d). rewrite <- app_assoc. split; [done|].
      split; [by apply prefix_cons|]. intros Hr'. by rewrite Hr.
    + simplify_eq. exists [c]. split; [done|]. split; [by exists cmds|done].
Qed.

(** The calls of an installation are always a prefix of: read the host
    key, write the CA key, the certificate and the drop-in, reload sshd, with
    the contents of one minted certificate; all of them when it succeeds.  So
    sshd is never reloaded before the three files are written, and nothing is
    written before the CA has signed. *)
Theorem install_in_order names ttl h r h' calls :
  install_host_cert_files traced B names ttl (h, []) = (r, (h', calls)) ->
  match r with
  | Ok c => calls = install_calls c /\ exists pub, mint_host_cert pub names ttl = Ok c
  | Raise _ =>
      calls = [Sudo ("cat " +:+ HOST_PUBKEY_PROBE) true] \/
      exists pub c, mint_host_cert pub names ttl = Ok c /\ calls `prefix_of` install_calls c
  end.
Proof.
  unfold install_host_cert_files, read_host_pubkey. intros E. unfold node_bind at 1 2, sudo at 1, traced at 1 in E.
  cbn -[node_seq] in E. destruct (exec _ h) as [[o|e] h1]; [|simplify_eq; by left]. cbn -[node_seq] in E.
  destruct (nonempty (strip o)); [|simplify_eq; by left].
  unfold node_bind at 1 in E. destruct (mint_host_cert (strip o) names ttl) as [c|e] eqn:Em; [|simplify_eq; by left].
  match type of E with context [node_seq ?ms ?hl] => destruct (node_seq ms hl) as [rs [h2 l2]] eqn:Es end.
  apply (node_seq_traced (tail (install_calls c))) in Es as (d & -> & Hp & Hr).
  destruct rs as [[]|e].
  - unfold node_ret in E. simplify_eq. rewrite (Hr eq_refl). split; [done|eauto].
  - simplify_eq. right. exists (strip o), c. split; [done|]. by apply prefix_cons.
Qed.
End install_props.

(** ** Witnesses *)

#[export] Instance ssh_tbs_eq_dec : EqDecision ssh_tbs.
Proof. solve_decision. Defined.

Definition demo_ca_key : string := "ssh-ed25519 AAAAC3".
Definition demo_host_tbs : ssh_tbs :=
  mkSshTbs "ssh-ed25519 HOST" HOST 7 "wg-manager-host-7" ["edge.example"] 100 150 [].
Definition demo_user_tbs : ssh_tbs :=
  mkSshTbs "eph.pub" USER 7 "wg-manager-user-7" ["ubuntu"] 100 110 ["permit-pty"].
Definition demo_host_pem : string := CERT_ALGO +:+ " " +:+ b64encode (str_bytes "edge").
Definition demo_user_pem : string := CERT_ALGO +:+ " " +:+ b64encode (str_bytes "user").

Definition demo_signer : key_signer :=
  mkKeySigner demo_ca_key (fun _ => Ok tt) (fun t =>
    if bool_decide (t = demo_host_tbs) then Some demo_host_pem
    else if bool_decide (t = demo_user_tbs) then Some demo_user_pem else None).

Definition demo_identity (l : string) : option ssh_identity :=
  if bool_decide (l = demo_host_pem) then Some (Certificate_ (mkSshCertificate demo_host_tbs demo_ca_key true))
  else if bool_decide (l = demo_user_pem) then Some (Certificate_ (mkSshCertificate demo_user_tbs demo_ca_key true))
  else if bool_decide (l = "ssh-ed25519 HOST") then Some (PlainKey l) else None.

Definition demo_ca : SSHCABackend := LocalDevSSHCA_backend demo_identity demo_signer 100 7 ("eph.key", "eph.pub").

Lemma demo_signs : signs_faithfully demo_identity demo_signer.
Proof.
  intros t pem. unfold demo_signer. simpl. case_bool_decide as E1; [intros [= <-]; by subst|].
  case_bool_decide as E2; [intros [= <-]; by subst|done].
Qed.

Definition demo_offer : offered_key := mkOfferedKey (Some (CERT_ALGO, str_bytes "edge")).
Definition demo_runner (host : string) : SSHRunner :=
  mkRunner host 22 "ubuntu" "eph.key" (Some demo_user_pem) (Some demo_ca_key) ["edge.example"].

Definition attach_any (pkey cert : string) : outcome string := Ok (pkey +:+ cert).

Lemma session_opens_iff_trusted_witness :
  enter demo_identity Some Some attach_any (fun _ => "untrusted") (demo_runner "Edge.example.") 120 (ServerOffers demo_offer None)
    = Ok tt <->
  exists key, ServerOffers demo_offer None = ServerOffers key None /\
    trusted demo_identity "AAAAC3" (normalise_principal <$> row_names "Edge.example." (Some "edge.example")) 120 key.
Proof.
  apply (session_opens_iff_trusted demo_identity Some Some attach_any (fun _ => "untrusted") (Ok demo_ca) 10 "Edge.example." 22
           "ubuntu" (Some "edge.example") (demo_runner "Edge.example.")).
  - vm_compute. reflexivity.
  - intros B [= <-]. vm_compute. reflexivity.
  - eexists. split; [reflexivity|]. intros cert _. by eexists.
  - done.
Defined.

(** The row was renamed; the certificate still carries the old name. *)
Lemma managed_host_stays_reachable_witness :
  enter demo_identity Some Some attach_any (fun _ => "untrusted") (demo_runner "renamed.example") 120 (ServerOffers demo_offer None)
    = Ok tt.
Proof.
  apply (managed_host_stays_reachable demo_identity demo_ca
    (SSHCALaws0 := LocalDevSSHCA_laws _ _ _ _ _ demo_signs)
    Some Some attach_any (fun _ => "untrusted") "ssh-ed25519" "AAAAC3" "edge.example" "ssh-ed25519 HOST" 50
    (mkHostCert demo_host_pem (seconds 100) (seconds 150) 7 ["edge.example"]) demo_offer (str_bytes "edge")
    10 "renamed.example" 22 "ubuntu").
  - reflexivity.
  - split; [done|reflexivity].
  - split; [done|reflexivity].
  - split; [done|]. split; reflexivity.
  - vm_compute. reflexivity.
  - reflexivity.
  - reflexivity.
  - vm_compute. reflexivity.
  - eexists. split; [reflexivity|]. intros cert _. by eexists.
  - vm_compute. by split.
Defined.

Lemma write_file_cannot_inject_witness :
  sh_tokens (tee_command "/etc/x'; rm -rf / #" true) =
    Some [Word "sudo"; Word "-n"; Word "tee"; Word "/etc/x'; rm -rf / #"; Redirect; Word "/dev/null"].
Proof. apply (write_file_cannot_inject "/etc/x'; rm -rf / #" "644" true); [done|reflexivity]. Defined.

(** The CA key cannot be written: one call after the probe, no reload. *)
Definition demo_node_exec (c : ssh_cmd) (n : unit) : outcome string * unit :=
  match c with
  | Sudo _ _ => (Ok "ssh-ed25519 HOST", n)
  | WriteFile _ _ _ _ => (Raise (SSHError "read-only file system"), n)
  end.

Lemma install_in_order_witness :
  let calls := [Sudo ("cat " +:+ HOST_PUBKEY_PROBE) true;
                WriteFile HOST_CA_PUB_PATH (demo_ca_key +:+ nl) "644" true] in
  calls = [Sudo ("cat " +:+ HOST_PUBKEY_PROBE) true] \/
  exists pub c, mint_host_cert (SSHCABackend := demo_ca) pub ["edge.example"] 50 = Ok c /\
    calls `prefix_of` install_calls demo_ca c.
Proof.
  intros calls.
  apply (install_in_order demo_node_exec demo_ca ["edge.example"] 50 tt
           (Raise (SSHError "read-only file system")) tt calls).
  vm_compute. reflexivity.
Defined.
