(* ===== verification/BootstrapSsh.v ===== *)
(** * Bootstrapping a host

    [src/src/wg_manager/bootstrap_ssh.py], the session that trusts on first use
    and that only bootstrap opens, and the [bootstrap-host] command of [cli.py].
    Private-key loaders and the transport are parameters, as in [Ssh]. *)

From S2P Require Import Prelude PyStr Hashing Base64 Models Session Demo AuditLog Wireguard RouterClients RouterTenants Auth Pki Config Tasks SshCa Ssh.

(** ** Private keys *)

Section keys.
(** The Ed25519 and the RSA loader, on a body and a passphrase; [None] is
    paramiko's [SSHException]. *)
Context {K : Type} (ed25519 rsa : string -> option string -> option K).

Definition load_pkey_from_pem (pem : string) (passphrase : option string) (source_label : string) : outcome K :=
  match ed25519 pem passphrase with
  | Some k => Ok k
  | None => match rsa pem passphrase with
            | Some k => Ok k
            | None => Raise (ValueError ("could not parse SSH private key from " +:+ source_label))
            end
  end.

Definition load_pkey_from_path (key_path : string) (passphrase : option string) : M K := fun w =>
  match files (outside w) !! key_path with
  | Some (pem, _) => (load_pkey_from_pem pem passphrase (repr key_path), w)
  | None => (Raise (SSHError ("No such file or directory: " +:+ repr key_path)), w)
  end.
End keys.

(** ** The session *)

Record BootstrapSSHRunner := mkBootstrapRunner {
  b_host : string; b_port : Z; b_username : string; b_key_path : option string; b_key_pem : option string;
  b_passphrase : option string; b_connect_timeout : string (** as printed *)
}.

Definition bootstrap_ssh_runner (r : BootstrapSSHRunner) : outcome BootstrapSSHRunner :=
  match b_key_path r, b_key_pem r with
  | Some _, Some _ => Raise (ValueError "BootstrapSSHRunner requires exactly one of key_path or key_pem; got both")
  | None, None => Raise (ValueError "BootstrapSSHRunner requires exactly one of key_path or key_pem; got neither")
  | _, _ => Ok r
  end.

(** [__enter__]: whatever key the server offers is accepted. *)
Definition bootstrap_enter {K} (ed25519 rsa : string -> option string -> option K) (r : BootstrapSSHRunner)
  (event : connect_event) : M unit :=
  (match b_key_path r with
   | Some path => load_pkey_from_path ed25519 rsa path (b_passphrase r)
   | None => lift (load_pkey_from_pem ed25519 rsa (default "" (b_key_pem r)) (b_passphrase r) "<in-memory PEM>")
   end) ;;
  match event with
  | TimedOut => raise (SSHError ("SSH connection to " +:+ b_host r +:+ ":" +:+ dec (b_port r) +:+ " timed out after " +:+
                                 b_connect_timeout r +:+ "s"))
  | AuthenticationFailed text =>
      raise (SSHError ("SSH authentication failed for " +:+ b_username r +:+ "@" +:+ b_host r +:+ ": " +:+ text))
  | TransportFailed text =>
      raise (SSHError ("SSH connection to " +:+ b_host r +:+ ":" +:+ dec (b_port r) +:+ " failed: " +:+ text))
  | ServerOffers _ None => ret tt
  | ServerOffers _ (Some text) =>
      raise (SSHError ("SSH authentication failed for " +:+ b_username r +:+ "@" +:+ b_host r +:+ ": " +:+ text))
  end.

(** Commands.  [_client] is [None] outside the [with] block, where every call
    raises. *)
Section session.
Context {H : Type} (exec_command : string -> option string -> H -> (Z * string * string) * H).

Definition not_entered : exn := RuntimeError "BootstrapSSHRunner must be used as a context manager".

Definition bootstrap_exec (cmd : string) (stdin : option string) (check : bool) (client : option H)
  : outcome CommandResult * option H :=
  match client with
  | None => (Raise not_entered, None)
  | Some h =>
      let '((rc, out, err), h') := exec_command cmd stdin h in
      let result := mkResult cmd rc out err in
      (if check && negb (rc =? 0) then Raise (ssh_command_error result) else Ok result, Some h')
  end.

Definition bootstrap_run (cmd : string) (check : bool) : option H -> outcome CommandResult * option H :=
  bootstrap_exec cmd None check.

Definition bootstrap_sudo (cmd : string) (check : bool) : option H -> outcome CommandResult * option H :=
  bootstrap_run ("sudo -n " +:+ cmd) check.

Definition bootstrap_write_file (path content mode : string) (sudo : bool) (client : option H)
  : outcome CommandResult * option H :=
  let quoted := shlex_quote path in
  let tee := with_sudo sudo ("tee " +:+ quoted +:+ " > /dev/null") in
  let chmod := with_sudo sudo ("chmod " +:+ mode +:+ " " +:+ quoted) in
  match bootstrap_exec tee (Some content) true client with
  | (Raise e, client) => (Raise e, client)
  | (Ok result, client) =>
      match bootstrap_run chmod true client with
      | (Raise e, client) => (Raise e, client)
      | (Ok _, client) => (Ok result, client)
      end
  end.

(** The runner as the installer drives it. *)
Definition bootstrap_calls (c : ssh_cmd) (client : option H) : outcome string * option H :=
  let '(r, client) := match c with
                      | Sudo cmd check => bootstrap_sudo cmd check client
                      | WriteFile path content mode sudo => bootstrap_write_file path content mode sudo client
                      end in
  (match r with Ok x => Ok (cr_stdout x) | Raise e => Raise e end, client).

(** An entered bootstrap session serves the installer exactly as a session of
    the production runner does; outside its block it refuses. *)
Lemma bootstrap_calls_entered c h :
  bootstrap_calls c (Some h) = (let '(r, h') := runner_calls exec_command c h in (r, Some h')).
Proof.
  unfold bootstrap_calls, runner_calls. destruct c as [cmd check|path content mode sudo].
  - unfold bootstrap_sudo, bootstrap_run, bootstrap_exec, runner_sudo, runner_run, runner_exec.
    destruct (exec_command _ _ h) as [[[rc out] err] h']. by destruct (check && _).
  - unfold bootstrap_write_file, bootstrap_run, bootstrap_exec, runner_write_file, runner_run, runner_exec, tee_command, chmod_command.
    destruct (exec_command _ _ h) as [[[rc out] err] h']. destruct (true && _); [done|].
    destruct (exec_command _ _ h') as [[[rc2 out2] err2] h2]. by destruct (true && _).
Qed.

Lemma bootstrap_calls_closed c : bootstrap_calls c None = (Raise not_entered, None).
Proof. by destruct c. Qed.
End session.

(** ** The command *)

Record bootstrap_args := mkBootstrapArgs {
  ba_hostname : string; ba_ssh_key : string; ba_passphrase : option string; ba_ssh_user : string; ba_ssh_port : Z;
  ba_principal : option string; ba_ttl_seconds : option Z; ba_connect_timeout : string
}.

Definition ephemeral_ca_message : string :=
  "refusing to bootstrap with an ephemeral SSH CA: SSH_CA_BACKEND=local and SSH_CA_LOCAL_DEV_PEM is unset, so the host would trust a throwaway CA the worker never uses. Run bootstrap-host inside the stack (docker compose run ... api bootstrap-host, see docs/deploy/single-host-prod.md) or set SSH_CA_BACKEND=vault.".

Section command.
Context {K C H : Type} (ed25519 rsa : string -> option string -> option K)
  (load_private : string -> option (private_key C)) (generate : C) (read_ca_public : string -> outcome string)
  (backend_of : ssh_ca_instance (K := C) -> SSHCABackend)
  (exec_command : string -> option string -> H -> (Z * string * string) * H)
  (ca : ssh_ca_settings) (vs : ssh_vault_settings) (host_cert_ttl now : Z).

(** [exists=True] of the [--ssh-key] option. *)
Definition key_file_exists (path : string) : M unit := fun w =>
  match files (outside w) !! path with
  | Some _ => (Ok tt, w)
  | None => (Raise (Exit 2 ("Invalid value for '--ssh-key' / '-k': File " +:+ repr path +:+ " does not exist.")), w)
  end.

(** [bootstrap_host_cmd], in a process that has built no CA before; [event] and
    [node] are the host.  Errors of the key file and of the commands pass. *)
Definition bootstrap_host_cmd (a : bootstrap_args) (event : connect_event) (node : H) : M HostCert :=
  key_file_exists (ba_ssh_key a) ;;
  raise_if (bool_decide (lower (ssh_ca_backend ca) = "local") && negb (truthy (ssh_ca_local_dev_pem ca)))
    (Exit 1 ephemeral_ca_message) ;;
  inst <- lift (match (make_ssh_ca_backend load_private generate read_ca_public ca vs []).1 with
                | Raise (SSHCAError e) => Raise (Exit 1 ("failed to reach the SSH CA backend: " +:+ e))
                | r => r
                end) ;;
  let effective_principal := match ba_principal a with Some p => if nonempty p then p else ba_hostname a | None => ba_hostname a end in
  let effective_ttl := default host_cert_ttl (ba_ttl_seconds a) in
  runner <- lift (bootstrap_ssh_runner (mkBootstrapRunner (ba_hostname a) (ba_ssh_port a) (ba_ssh_user a) (Some (ba_ssh_key a)) None
              (ba_passphrase a) (ba_connect_timeout a))) ;;
  try_except (bootstrap_enter ed25519 rsa runner event) (fun e =>
    match e with
    | SSHError text => raise (Exit 1 ("SSH connection to " +:+ ba_hostname a +:+ ":" +:+ dec (ba_ssh_port a) +:+ " failed: " +:+ text))
    | _ => raise e
    end) ;;
  try_except (bootstrap_host (bootstrap_calls exec_command) (backend_of inst) now (ba_hostname a) effective_principal effective_ttl
                (ba_ssh_user a) (Some node)) (fun e =>
    match e with
    | SSHCAError text => raise (Exit 1 ("SSH CA refused to sign: " +:+ text))
    | _ => raise e
    end).
End command.

(** ** A bootstrapped host can be dialed *)

(** A certificate of the CA for a list of names with the dialed one is
    accepted by the production runner, whatever else it accepts. *)
Lemma named_host_accepted {K} load_identity (B : SSHCABackend) `{!SSHCALaws load_identity B} (ed rsa : string -> option K) attach text
  algo body name pub names ttl c key blob uttl port user known r now :
  ca_public_key = algo +:+ " " +:+ body -> plain_word algo -> plain_word body -> strip name <> "" -> name ∈ names -> names_ok names ->
  mint_host_cert pub names ttl = Ok c ->
  public_blob key = Some (CERT_ALGO, blob) -> CERT_ALGO +:+ " " +:+ b64encode blob = cert_pem c ->
  open_runner (Ok B) uttl name port user known = Ok r -> credentials_load ed attach r ->
  valid_after c <= seconds now < valid_before c ->
  enter load_identity ed rsa attach text r now (ServerOffers key None) = Ok tt.
Proof.
  intros Hca Ha Hb Hn Hin Hok Hm Hk Hp Ho Hed Hv.
  destruct (mint_host_laws load_identity pub names ttl c Hok Hm) as (va & vb & (cert & Hl & Ht & Hpr & _ & Hva & Hvb & Hkb & _) & Hpc & H1 & H2).
  apply open_runner_Ok in Ho as (B' & u & [= <-] & Hu & ->).
  destruct (key_line algo body Ha Hb) as [Hk1 Hk2].
  apply (enter_ca load_identity ed rsa attach text _ now (ServerOffers key None) (algo +:+ " " +:+ body) body); [by rewrite <- Hca|done|done|].
  exists key. split; [done|]. exists blob, cert. rewrite Hp. split_and!; try done.
  - by rewrite Hkb, Hca.
  - unfold seconds in *. lia.
  - unfold seconds in *. lia.
  - exists name. split; [by rewrite Hpr|]. apply list_elem_of_fmap. exists name. split; [done|].
    apply list_elem_of_In, filter_In. split; [by left|by apply nonempty_true].
Qed.

(** Behind the guard the CA does not depend on what a process would generate. *)
Lemma guarded_ca_is_stable {C} (load_private : string -> option (private_key C)) gen gen' rd ca vs :
  bool_decide (lower (ssh_ca_backend ca) = "local") && negb (truthy (ssh_ca_local_dev_pem ca)) = false ->
  (make_ssh_ca_backend load_private gen rd ca vs []).1 = (make_ssh_ca_backend load_private gen' rd ca vs []).1.
Proof.
  intros Hg. unfold make_ssh_ca_backend. destruct (bool_decide _); [|done].
  cbn [andb] in Hg. apply negb_false_iff in Hg. cbn [find_first]. rewrite Hg. by destruct (local_from_pem _ _).
Qed.

(** What installing through a session returns is what the CA signed for the
    names asked for. *)
Lemma install_files_Ok {H} (exec : ssh_cmd -> H -> outcome string * H) B names ttl h c h' :
  install_host_cert_files exec B names ttl h = (Ok c, h') -> exists pub, mint_host_cert (SSHCABackend := B) pub names ttl = Ok c.
Proof.
  unfold install_host_cert_files, node_bind at 1. destruct (read_host_pubkey exec h) as [[pub|e] h1]; [|done].
  unfold node_bind at 1. destruct (mint_host_cert pub names ttl) as [c'|e] eqn:Em; [|done].
  unfold node_bind, node_ret. destruct (node_seq _ h1) as [[u|e] h2]; [|done]. intros [= <- _]. eauto.
Qed.

Lemma try_except_Ok {A} (m : M A) h w a w' : (forall e w, exists e' w', h e w = (Raise e', w')) ->
  try_except m h w = (Ok a, w') -> m w = (Ok a, w').
Proof.
  intros Hh. unfold try_except. destruct (m w) as [[x|e] w1]; [done|]. destruct (Hh e w1) as (e' & w2 & ->). done.
Qed.

Lemma bootstrap_enter_Ok {K} (ed rsa : string -> option string -> option K) r event w u w' :
  bootstrap_enter ed rsa r event w = (Ok u, w') -> w' = w.
Proof.
  unfold bootstrap_enter. intros (k & w1 & E1 & E2)%bind_Ok.
  assert (w1 = w) as ->.
  { destruct (b_key_path r); [|by apply lift_Ok in E1 as [_ ->]]. unfold load_pkey_from_path in E1.
    destruct (files _ !! _) as [[pem ?]|]; by injection E1. }
  unfold raise, ret in E2. destruct event as [| | |key [text|]]; by simplify_eq.
Qed.

Section command_props.
Context {K C H : Type} (ed25519 rsa : string -> option string -> option K)
  (load_private : string -> option (private_key C)) (generate : C) (read_ca_public : string -> outcome string)
  (backend_of : ssh_ca_instance (K := C) -> SSHCABackend)
  (exec_command : string -> option string -> H -> (Z * string * string) * H)
  (ca : ssh_ca_settings) (vs : ssh_vault_settings) (host_cert_ttl now : Z).

Definition asked_principal (a : bootstrap_args) : string :=
  match ba_principal a with Some p => if nonempty p then p else ba_hostname a | None => ba_hostname a end.

Lemma bootstrap_cmd_Ok a event node w c w' :
  bootstrap_host_cmd ed25519 rsa load_private generate read_ca_public backend_of exec_command ca vs host_cert_ttl now a event node w
    = (Ok c, w') ->
  exists inst pub,
    bool_decide (lower (ssh_ca_backend ca) = "local") && negb (truthy (ssh_ca_local_dev_pem ca)) = false /\
    (make_ssh_ca_backend load_private generate read_ca_public ca vs []).1 = Ok inst /\
    mint_host_cert (SSHCABackend := backend_of inst) pub (bootstrap_principals (ba_hostname a) (asked_principal a))
      (default host_cert_ttl (ba_ttl_seconds a)) = Ok c /\
    committed w' = committed w.
Proof.
  unfold bootstrap_host_cmd. fold (asked_principal a). intros E.
  apply bind_Ok in E as (u0 & w0 & E0 & E). unfold key_file_exists in E0. destruct (files _ !! _); [|done]. injection E0 as _ <-.
  unfold raise_if in E. destruct (bool_decide _ && negb _) eqn:Eg; [by apply bind_Ok in E as (? & ? & ? & _)|].
  apply bind_Ok in E as (u1 & w1 & [= _ <-] & E). apply bind_Ok in E as (inst & w2 & [Hi ->]%lift_Ok & E).
  assert (Hinst : (make_ssh_ca_backend load_private generate read_ca_public ca vs []).1 = Ok inst) by (by repeat case_match; simplify_eq).
  apply bind_Ok in E as (runner & w3 & [Hr ->]%lift_Ok & E). injection Hr as <-.
  apply bind_Ok in E as (u2 & w4 & E1 & E). apply try_except_Ok in E1; [|intros [] ?; eexists _, _; reflexivity].
  apply try_except_Ok in E; [|intros [] ?; eexists _, _; reflexivity].
  apply bootstrap_enter_Ok in E1 as ->. unfold bootstrap_host in E.
  apply bind_Ok in E as (cert & w5 & [Hc ->]%lift_Ok & E).
  destruct (install_host_cert_files _ _ _ _ _) as [rc h'] eqn:Ei. cbn [fst] in Hc. subst rc.
  apply install_files_Ok in Ei as [pub Hm]. apply bind_Ok in E as (u3 & w6 & [= _ <-] & E). unfold ret in E. injection E as <- <-.
  exists inst, pub. split_and!; done.
Qed.

(** C21. After [bootstrap-host] the production runner can dial the host.  When
    the command succeeds, every other process of the deployment builds the CA
    that signed the installed certificate, whatever a process without pinned
    material would generate; and a host that lets the login in and presents that
    certificate is accepted by a session that is opened for the host name of the command, with
    or without names recorded on a row, as long as the certificate is valid.
    The database is not changed. *)
Theorem bootstrapped_host_is_dialable a event node w c w' :
  bootstrap_host_cmd ed25519 rsa load_private generate read_ca_public backend_of exec_command ca vs host_cert_ttl now a event node w
    = (Ok c, w') ->
  exists inst,
    (forall generate', (make_ssh_ca_backend load_private generate' read_ca_public ca vs []).1 = Ok inst) /\
    committed w' = committed w /\
    forall load_identity algo body (ed rsa' : string -> option K) attach text key blob uttl port user known r later,
      SSHCALaws load_identity (backend_of inst) ->
      ca_public_key (SSHCABackend := backend_of inst) = algo +:+ " " +:+ body -> plain_word algo -> plain_word body ->
      strip (ba_hostname a) <> "" -> names_ok (bootstrap_principals (ba_hostname a) (asked_principal a)) ->
      public_blob key = Some (CERT_ALGO, blob) -> CERT_ALGO +:+ " " +:+ b64encode blob = cert_pem c ->
      open_runner (Ok (backend_of inst)) uttl (ba_hostname a) port user known = Ok r -> credentials_load ed attach r ->
      valid_after c <= seconds later < valid_before c ->
      enter load_identity ed rsa' attach text r later (ServerOffers key None) = Ok tt.
Proof.
  intros (inst & pub & Hg & Hi & Hm & Hdb)%bootstrap_cmd_Ok. exists inst. split_and!; [|done|].
  - intros generate'. by rewrite (guarded_ca_is_stable load_private generate' generate).
  - intros li algo body ed rsa' attach text key blob uttl port user known r later HL Hk Ha Hb Hn Hok Hpb Hpem Hr Hed Hv.
    eapply (named_host_accepted li (backend_of inst) ed rsa' attach text algo body (ba_hostname a) pub); try done. by left.
Qed.
End command_props.

(** ** Witness *)

Definition fresh_box (cmd : string) (stdin : option string) (h : unit) : (Z * string * string) * unit := ((0, "ssh-ed25519 HOST", ""), h).

Definition bootstrap_demo (backend : string) (pinned : option string) : outcome HostCert * World :=
  bootstrap_host_cmd (K := string) (fun pem _ => Some pem) (fun pem _ => Some pem) (fun _ => Some (Ed25519 tt)) tt (fun _ => Ok "")
    (fun _ => demo_ca) fresh_box (mkSshCaSettings backend pinned) (mkSshVaultSettings None "" "" "") 50 0
    (mkBootstrapArgs "edge.example" "/root/.ssh/id" None "root" 22 (Some "Edge.Example.") None "15.0")
    (ServerOffers (mkOfferedKey None) None) tt
    (mkWorld demo_db demo_db [] [] (mkOutside [] [] {["/root/.ssh/id" := ("KEY", 384)]} [] [] all_accepted)).

(** An unpinned local CA is refused before the host is touched. *)
Example ephemeral_ca_refused : (bootstrap_demo "Local" None).1 = Raise (Exit 1 ephemeral_ca_message).
Proof. vm_compute. reflexivity. Qed.

Lemma bootstrapped_host_is_dialable_witness :
  let cert := mkHostCert demo_host_pem (seconds 100) (seconds 150) 7 ["edge.example"] in
  (bootstrap_demo "local" (Some "PEM")).1 = Ok cert /\
  enter demo_identity Some Some attach_any (fun _ => "untrusted")
    (mkRunner "edge.example" 22 "ubuntu" "eph.key" (Some demo_user_pem) (Some demo_ca_key) []) 120 (ServerOffers demo_offer None) = Ok tt.
Proof.
  intros cert. assert (E : (bootstrap_demo "local" (Some "PEM")).1 = Ok cert) by (vm_compute; reflexivity). split; [exact E|].
  destruct (bootstrapped_host_is_dialable (K := string) (fun pem _ => Some pem) (fun pem _ => Some pem) (fun _ => Some (Ed25519 tt)) tt
    (fun _ => Ok "") (fun _ => demo_ca) fresh_box (mkSshCaSettings "local" (Some "PEM")) (mkSshVaultSettings None "" "" "") 50 0
    (mkBootstrapArgs "edge.example" "/root/.ssh/id" None "root" 22 (Some "Edge.Example.") None "15.0")
    (ServerOffers (mkOfferedKey None) None) tt
    (mkWorld demo_db demo_db [] [] (mkOutside [] [] {["/root/.ssh/id" := ("KEY", 384)]} [] [] all_accepted))
    cert (bootstrap_demo "local" (Some "PEM")).2) as (inst & _ & _ & Hd).
  { rewrite <- E. apply surjective_pairing. }
  apply (Hd demo_identity "ssh-ed25519" "AAAAC3" Some Some attach_any (fun _ => "untrusted") demo_offer (str_bytes "edge") 10 22 "ubuntu" None).
  - exact (LocalDevSSHCA_laws _ _ _ _ _ demo_signs).
  - reflexivity.
  - split; [done|reflexivity].
  - split; [done|reflexivity].
  - done.
  - split; [done|]. vm_compute. repeat constructor.
  - reflexivity.
  - reflexivity.
  - vm_compute. reflexivity.
  - eexists. split; [reflexivity|]. intros cert' _. by eexists.
  - vm_compute. by split.
Defined.
