(* ===== verification/Crypto.v ===== *)
(** * Encryption at rest

    [src/src/wg_manager/crypto.py], [routers/crypto.py] and the way a bootstrap
    key travels from [routers/_bootstrap.py] to the worker of [tasks.py].
    Fernet and Vault's Transit engine are parameters. *)

From S2P Require Import Prelude PyStr Hashing Base64 Models Session Wireguard RouterServers Pki Tasks.

(** ** UTF-8 *)

(** [b.decode("utf-8")], for the code points that [utf8] produces; malformed
    input is a [UnicodeDecodeError] ([None]). *)
Fixpoint utf8_decode (b : bytes) : option string :=
  match b with
  | [] => Some ""
  | x :: b' =>
      if byte_z x <? 128 then String (chr (byte_z x)) <$> utf8_decode b'
      else match b' with
      | y :: b'' =>
          if ((byte_z x =? 194) || (byte_z x =? 195)) && (128 <=? byte_z y) && (byte_z y <? 192)
          then String (chr ((byte_z x - 192) * 64 + (byte_z y - 128))) <$> utf8_decode b''
          else None
      | [] => None
      end
  end.

Lemma utf8_decode_encode s : utf8_decode (utf8 s) = Some s.
Proof.
  induction s as [|c s IH]; [done|]. cbn [utf8]. cbv zeta. pose proof (code_range c).
  destruct (code c <? 128) eqn:E.
  - cbn [app utf8_decode]. rewrite byte_z_z_byte by lia. rewrite E, IH. simpl. by rewrite chr_code.
  - apply Z.ltb_ge in E. cbn [app utf8_decode].
    assert (Hd : 2 <= code c / 64 <= 3) by (Z.div_mod_to_equations; lia).
    assert (Hm : 0 <= code c mod 64 < 64) by (Z.div_mod_to_equations; lia).
    rewrite !byte_z_z_byte by lia. rewrite (proj2 (Z.ltb_ge _ _)) by lia.
    replace ((192 + code c / 64 =? 194) || (192 + code c / 64 =? 195)) with true.
    2: { symmetry. apply orb_true_iff. rewrite !Z.eqb_eq. lia. }
    rewrite (proj2 (Z.leb_le _ _)) by lia. rewrite (proj2 (Z.ltb_lt _ _)) by lia. simpl.
    rewrite IH. simpl. f_equal. f_equal. rewrite <- (chr_code c) at 3. f_equal. Z.div_mod_to_equations. lia.
Qed.

Lemma utf8_inj s s' : utf8 s = utf8 s' -> s = s'.
Proof. intros H. assert (E : Some s = Some s') by (by rewrite <- !utf8_decode_encode, H). congruence. Qed.

(** ** The interface *)

Class CryptoBackend := {
  cb_name : string;
  cb_blob_prefix : string;
  cb_key_version : outcome Z;
  cb_encrypt : bytes -> string -> outcome string;
  cb_decrypt : string -> string -> outcome bytes
}.

(** The contract: ciphertext carries the prefix, decrypts under its own
    context, and under no other. *)
Class CryptoLaws (B : CryptoBackend) := {
  blob_has_prefix p ctx blob : cb_encrypt p ctx = Ok blob -> startswith blob cb_blob_prefix = true;
  decrypt_encrypt p ctx blob : cb_encrypt p ctx = Ok blob -> cb_decrypt blob ctx = Ok p;
  decrypt_other_context p ctx ctx' blob : cb_encrypt p ctx = Ok blob -> ctx' <> ctx ->
    exists m, cb_decrypt blob ctx' = Raise (DecryptError m)
}.

Definition get_crypto_status `{CryptoBackend} : outcome (string * Z) :=
  match cb_key_version with Ok v => Ok (cb_name, v) | Raise e => Raise e end.

(** ** The local backend *)

Record fernet := mkFernet { fe_encrypt : bytes -> string; fe_decrypt : string -> option bytes }.

Definition LOCAL_PREFIX : string := "local:v1:".

(** [s[n:]]. *)
Fixpoint str_drop (n : nat) (s : string) : string :=
  match n, s with
  | S n', String _ s' => str_drop n' s'
  | _, _ => s
  end.

Section local.
Context (f : fernet).

Definition frame (context plaintext : bytes) : bytes :=
  be_bytes 2 (Z.of_nat (length context)) ++ context ++ plaintext.

Definition local_encrypt (plaintext : bytes) (context : string) : outcome string :=
  let context_bytes := utf8 context in
  let n := Z.of_nat (length context_bytes) in
  if 65535 <? n then Raise (ValueError ("context too long (" +:+ dec n +:+ " bytes > 65535)"))
  else Ok (LOCAL_PREFIX +:+ fe_encrypt f (frame context_bytes plaintext)).

Definition local_decrypt (blob context : string) : outcome bytes :=
  if negb (startswith blob LOCAL_PREFIX)
  then Raise (DecryptError "blob missing 'local:v1:' prefix; not a local-dev ciphertext")
  else
    let token := str_drop 9 blob in
    if negb (isascii token) then Raise (ValueError "'ascii' codec can't encode characters")
    else match fe_decrypt f token with
    | None => Raise (DecryptError "local-dev decrypt failed")
    | Some framed =>
        let context_len := Z.to_nat (be_int (take 2 framed)) in
        match utf8_decode (take context_len (drop 2 framed)) with
        | None => Raise (ValueError "'utf-8' codec can't decode bytes")
        | Some stored_context =>
            if negb (bool_decide (stored_context = context)) then Raise (DecryptError "local-dev decrypt failed")
            else Ok (drop (2 + context_len) framed)
        end
    end.

Definition LocalDevBackend : CryptoBackend := {|
  cb_name := "local-dev"; cb_blob_prefix := LOCAL_PREFIX; cb_key_version := Ok 1;
  cb_encrypt := local_encrypt; cb_decrypt := local_decrypt
|}.

(** Fernet's contract: tokens are ASCII and decrypt to what was encrypted. *)
Definition fernet_ok : Prop :=
  forall b, isascii (fe_encrypt f b) = true /\ fe_decrypt f (fe_encrypt f b) = Some b.

(** The stored context and the plaintext are read back from the frame. *)
Lemma unframe ctx p : Z.of_nat (length ctx) <= 65535 ->
  let framed := frame ctx p in
  let n := Z.to_nat (be_int (take 2 framed)) in
  take n (drop 2 framed) = ctx /\ drop (2 + n) framed = p.
Proof.
  intros Hn. cbv zeta. unfold frame. set (hd := be_bytes 2 (Z.of_nat (length ctx))).
  assert (Hl : length hd = 2%nat) by apply length_be_bytes.
  assert (Ht : take 2 (hd ++ ctx ++ p) = hd) by (rewrite <- Hl; apply take_app_length).
  assert (Hd : drop 2 (hd ++ ctx ++ p) = ctx ++ p) by (rewrite <- Hl; apply drop_app_length).
  assert (Hb : Z.to_nat (be_int hd) = length ctx) by (unfold hd; rewrite be_int_bytes by (simpl; lia); lia).
  rewrite Ht, Hb, Hd, <- drop_drop, Hd. split; [apply take_app_length|apply drop_app_length].
Qed.

Lemma local_decrypt_blob p ctx ctx' : fernet_ok -> Z.of_nat (length (utf8 ctx)) <= 65535 ->
  local_decrypt (LOCAL_PREFIX +:+ fe_encrypt f (frame (utf8 ctx) p)) ctx' =
  if bool_decide (ctx = ctx') then Ok p else Raise (DecryptError "local-dev decrypt failed").
Proof.
  intros Hf Hn. unfold local_decrypt. rewrite startswith_app. cbn [negb].
  change (str_drop 9 (LOCAL_PREFIX +:+ fe_encrypt f (frame (utf8 ctx) p)))
    with (fe_encrypt f (frame (utf8 ctx) p)).
  destruct (Hf (frame (utf8 ctx) p)) as [Ha Hd]. rewrite Ha, Hd. cbn [negb].
  destruct (unframe (utf8 ctx) p Hn) as [H1 H2]. cbv zeta in H1, H2. cbv zeta.
  rewrite H1, H2, utf8_decode_encode. by case_bool_decide.
Qed.

#[export] Instance LocalDevBackend_laws : fernet_ok -> CryptoLaws LocalDevBackend.
Proof.
  intros Hf. split; cbn [cb_encrypt cb_decrypt cb_blob_prefix LocalDevBackend]; intros p ctx.
  - intros blob. unfold local_encrypt. cbv zeta. destruct (_ <? _); [done|]. intros [= <-]. apply startswith_app.
  - intros blob. unfold local_encrypt. cbv zeta. destruct (_ <? _) eqn:E; [done|]. intros [= <-].
    rewrite local_decrypt_blob; [by rewrite bool_decide_eq_true_2|done|lia].
  - intros ctx' blob. unfold local_encrypt. cbv zeta. destruct (_ <? _) eqn:E; [done|]. intros [= <-] Hne.
    rewrite local_decrypt_blob; [rewrite bool_decide_eq_false_2 by congruence; eauto|done|lia].
Qed.
End local.

(** ** Vault Transit *)

Inductive transit_reply :=
| Plaintext (b64 : string)
| TransitRefused  (** [InvalidRequest] or another [VaultError] *)
| NetworkDown (e : exn).

Record transit := mkTransit {
  te_encrypt : string -> string -> outcome string;
  te_decrypt : string -> string -> transit_reply;
  te_latest_version : outcome Z
}.

Definition VAULT_PREFIX : string := "vault:".

Section vault.
Context (t : transit).

Definition vault_encrypt (plaintext : bytes) (context : string) : outcome string :=
  te_encrypt t (b64encode plaintext) (b64encode (utf8 context)).

Definition vault_decrypt (blob context : string) : outcome bytes :=
  if negb (startswith blob VAULT_PREFIX)
  then Raise (DecryptError "blob missing 'vault:' prefix; not a vault-transit ciphertext")
  else match te_decrypt t blob (b64encode (utf8 context)) with
  | TransitRefused => Raise (DecryptError "vault transit decrypt failed")
  | NetworkDown e => Raise e
  | Plaintext b64 => match b64decode b64 with
                     | Some b => Ok b
                     | None => Raise (ValueError "Incorrect padding")
                     end
  end.

Definition VaultTransitBackend : CryptoBackend := {|
  cb_name := "vault-transit"; cb_blob_prefix := VAULT_PREFIX; cb_key_version := te_latest_version t;
  cb_encrypt := vault_encrypt; cb_decrypt := vault_decrypt
|}.

(** Transit with a derived key: ciphertext is prefixed, decrypts under its own
    context and is refused under any other. *)
Definition transit_ok : Prop :=
  forall p ctx blob, te_encrypt t p ctx = Ok blob ->
    startswith blob VAULT_PREFIX = true /\ te_decrypt t blob ctx = Plaintext p /\
    forall ctx', ctx' <> ctx -> te_decrypt t blob ctx' = TransitRefused.

#[export] Instance VaultTransitBackend_laws : transit_ok -> CryptoLaws VaultTransitBackend.
Proof.
  intros Ht. split; cbn [cb_encrypt cb_decrypt cb_blob_prefix VaultTransitBackend]; intros p ctx.
  - intros blob E. by destruct (Ht _ _ _ E).
  - intros blob E. destruct (Ht _ _ _ E) as (Hp & Hd & _). unfold vault_decrypt.
    by rewrite Hp, Hd, b64_decode_encode.
  - intros ctx' blob E Hne. destruct (Ht _ _ _ E) as (Hp & _ & Ho). unfold vault_decrypt. rewrite Hp. cbn [negb].
    rewrite Ho; [eauto|]. intros Heq. by apply Hne, utf8_inj, b64encode_inj.
Qed.
End vault.

(** ** The factory *)

Record crypto_settings := mkCryptoSettings {
  crypto_backend : string; crypto_local_dev_key : option string; cs_vault_token : option string;
  crypto_vault_transit_key : string; crypto_vault_transit_mount : string
}.

Inductive crypto_choice := ChooseLocal (key : string) | ChooseVault (key_name mount_point : string).

(** [fernet_key_ok] is the check of [Fernet.__init__]. *)
Definition make_backend (fernet_key_ok : string -> bool) (s : crypto_settings) : outcome crypto_choice :=
  let kind := lower (crypto_backend s) in
  if bool_decide (kind = "local") then
    if negb (truthy (crypto_local_dev_key s))
    then Raise (ValueError "CRYPTO_BACKEND=local requires CRYPTO_LOCAL_DEV_KEY to be set.")
    else let key := default "" (crypto_local_dev_key s) in
         if fernet_key_ok key then Ok (ChooseLocal key)
         else Raise (ValueError "Fernet key must be 32 url-safe base64-encoded bytes.")
  else if bool_decide (kind = "vault") then
    if negb (truthy (cs_vault_token s))
    then Raise (ValueError "CRYPTO_BACKEND=vault requires CRYPTO_VAULT_TOKEN (or VAULT_TOKEN) to be set.")
    else Ok (ChooseVault (crypto_vault_transit_key s) (crypto_vault_transit_mount s))
  else Raise (ValueError ("unknown CRYPTO_BACKEND=" +:+ repr (crypto_backend s) +:+ "; must be 'local' or 'vault'")).

(** ** Bootstrap keys between router and worker *)

Section bootstrap.
Context (B : CryptoBackend) `{!CryptoLaws B}.

(** What the router encrypts and what the worker decrypts are texts. *)
Definition router_encrypt (text ctx : string) : outcome string := cb_encrypt (utf8 text) ctx.
Definition worker_decrypt (blob ctx : string) : outcome string :=
  match cb_decrypt blob ctx with
  | Raise e => Raise e
  | Ok b => match utf8_decode b with
            | Some s => Ok s
            | None => Raise (ValueError "'utf-8' codec can't decode bytes")
            end
  end.

Lemma worker_reads text ctx blob : router_encrypt text ctx = Ok blob -> worker_decrypt blob ctx = Ok text.
Proof.
  intros H. unfold worker_decrypt. rewrite (decrypt_encrypt _ _ _ H). by rewrite utf8_decode_encode.
Qed.

(** Blobs on the queue are ciphertext of the backend. *)
Definition sealed (o : option string) : Prop :=
  match o with None => True | Some blob => startswith blob cb_blob_prefix = true end.

(** C19. The operator's bootstrap key that a registration encrypts into the
    task arguments is exactly the key the worker opens its bootstrap session
    with, the passphrase included; the arguments that cross the broker carry
    backend ciphertext only, which no other context opens.  Without a key the
    worker does nothing. *)
Theorem bootstrap_key_roundtrip kind fields e w kw w' w1 :
  ne_decrypt e = worker_decrypt ->
  encrypt_bootstrap_kwargs router_encrypt kind fields w = (Ok kw, w') ->
  sealed (pem_ciphertext kw) /\ sealed (passphrase_ciphertext kw) /\
  run_bootstrap_if_supplied e kw w1 =
    match bootstrap_ssh_key_pem fields with
    | None => (Ok tt, w1)
    | Some pem => lift (ne_bootstrap e pem (bootstrap_ssh_key_passphrase fields)) w1
    end /\
  (forall blob ctx, pem_ciphertext kw = Some blob -> pem_context kw <> Some ctx ->
     exists m, worker_decrypt blob ctx = Raise (DecryptError m)).
Proof.
  intros Hd H. unfold encrypt_bootstrap_kwargs in H.
  destruct (bootstrap_ssh_key_pem fields) as [pem|]; [|unfold ret in H; simplify_eq; by repeat split].
  apply bind_Ok in H as (ct & w2 & [Hct ->]%lift_Ok & H).
  assert (Hother : forall ctx, Some ("provision-" +:+ kind +:+ ":bootstrap-pem") <> Some ctx ->
    exists m, worker_decrypt ct ctx = Raise (DecryptError m)).
  { intros ctx Hne. destruct (decrypt_other_context _ _ ctx _ Hct) as [m Hm]; [congruence|].
    exists m. unfold worker_decrypt. by rewrite Hm. }
  destruct (bootstrap_ssh_key_passphrase fields) as [pass|].
  - apply bind_Ok in H as (pt & w3 & [Hpt ->]%lift_Ok & H). unfold ret in H. simplify_eq. simpl.
    split; [by eapply blob_has_prefix|]. split; [by eapply blob_has_prefix|].
    split; [|intros blob ctx [= <-]; apply Hother].
    unfold run_bootstrap_if_supplied. simpl. rewrite Hd. unfold bind, some_or_raise, lift, ret.
    by rewrite (worker_reads _ _ _ Hct), (worker_reads _ _ _ Hpt).
  - unfold ret in H. simplify_eq. simpl. split; [by eapply blob_has_prefix|]. split; [done|].
    split; [|intros blob ctx [= <-]; apply Hother].
    unfold run_bootstrap_if_supplied. simpl. rewrite Hd. unfold bind, some_or_raise, lift, ret.
    by rewrite (worker_reads _ _ _ Hct).
Qed.
End bootstrap.

(** A blob with a character outside ASCII is not a [DecryptError]. *)
Lemma non_ascii_blob_escapes f ctx :
  local_decrypt f (LOCAL_PREFIX +:+ String (chr 233) "") ctx = Raise (ValueError "'ascii' codec can't encode characters").
Proof. reflexivity. Qed.

(** ** Witnesses *)

Definition demo_fernet : fernet := mkFernet b64encode b64decode.

Lemma demo_fernet_ok : fernet_ok demo_fernet.
Proof.
  intros b. simpl. split; [|apply b64_decode_encode].
  eapply str_forall_impl; [|exact (b64decode_alphabet _ _ (b64_decode_encode b))].
  intros c Hc. simpl in Hc. apply andb_true_iff in Hc as [_ ?%Z.leb_le]. apply Z.ltb_lt. lia.
Qed.

Definition demo_worker : node_env :=
  mkNodeEnv unit (fun _ n => (Ok "", n)) tt (Ok tt) (Raise (SSHError "")) "ca"
    (worker_decrypt (LocalDevBackend demo_fernet))
    (fun pem pass => if bool_decide (pem = "KEY" /\ pass = Some "pw") then Ok tt else Raise (SSHError "wrong key")).

Lemma bootstrap_key_roundtrip_witness :
  exists kw, encrypt_bootstrap_kwargs (router_encrypt (LocalDevBackend demo_fernet)) "server"
    (mkBootstrapKeyFields (Some "KEY") (Some "pw")) (start empty_db) = (Ok kw, start empty_db) /\
  run_bootstrap_if_supplied demo_worker kw (start empty_db) = (Ok tt, start empty_db).
Proof.
  eexists. split; [reflexivity|].
  refine (proj1 (proj2 (proj2 (bootstrap_key_roundtrip (LocalDevBackend demo_fernet)
    (CryptoLaws0 := LocalDevBackend_laws _ demo_fernet_ok) "server"
    (mkBootstrapKeyFields (Some "KEY") (Some "pw")) demo_worker (start empty_db) _ (start empty_db)
    (start empty_db) eq_refl _)))).
  reflexivity.
Defined.
