(* ===== verification/RouterCerts.v ===== *)
(** * The certificates router

    [src/src/wg_manager/routers/certs.py] with its payloads of [schemas.py]:
    issuing, renewing, revoking and listing leaf certificates.  PKCS#12
    serialisation is a parameter. *)

From S2P Require Import Prelude PyStr Hashing Base64 Models Session Demo AuditLog TenantScope RouterServers RouterClients RouterTenants Auth Pki.

(** ** Profiles *)

Record cert_profile := mkProfile {
  pr_ttl_days : Z; pr_default_sans : option (list string);
  pr_requires_operator : bool; pr_server_eku : bool
}.

Definition CERT_PROFILES (t : CertificateType) : cert_profile :=
  match t with
  | ct_api => mkProfile 30 (Some ["127.0.0.1"; "localhost"]) false true
  | ct_cli => mkProfile 365 None true false
  | ct_dashboard => mkProfile 365 None true false
  | ct_mysql => mkProfile 30 (Some ["mysql"; "127.0.0.1"; "localhost"]) false true
  | ct_mysql_client => mkProfile 30 None false false
  end.

(** ** Payloads *)

Record CertificateIssueRequest := mkIssueRequest {
  ci_cert_type : CertificateType; ci_common_name : string; ci_sans : option (list string);
  ci_ttl_days : option Z; ci_operator_cn : option string; ci_pkcs12_password : string;
  ci_tenant_slug : option string
}.

Record CertificateIssueResponse := mkIssueResponse {
  cr_certificate : Z * Certificate; cr_cert_pem : string; cr_private_pem : string;
  cr_chain_pem : string; cr_pkcs12_b64 : option string
}.

Record WhoAmIResponse := mkWhoAmI {
  wa_cn : string; wa_serial : string; wa_sans : list string; wa_not_before : Z; wa_not_after : Z;
  wa_operator_cn : string; wa_operator_role : OperatorRole; wa_operator_status : OperatorStatus
}.

(** ** Helpers *)

(** Python's [x or y] on an optional text. *)
Definition or_else (x : option string) (y : string) : string :=
  match x with Some s => if nonempty s then s else y | None => y end.

Definition resolve_sans (t : CertificateType) (cn : string) (sans : option (list string)) : list string :=
  match sans with
  | Some (s :: l) => s :: l
  | _ => match pr_default_sans (CERT_PROFILES t) with Some l => l | None => [cn] end
  end.

Definition resolve_operator_fk (t : CertificateType) (cn : string) (operator_cn : option string)
  : M (option Z) :=
  if negb (pr_requires_operator (CERT_PROFILES t)) then ret None
  else
    let target_cn := or_else operator_cn cn in
    d <- get_db ;;
    row <- some_or_raise (find_operator d target_cn)
      (http_error 422 ("no operator registered with CN " +:+ repr target_cn +:+
         " — register the operator first via the Operators page or `wg-manager operators add --cn " +:+
         target_cn +:+ "`")) ;;
    ret (Some row.1).

Definition mint_leaf `{PKIBackend} (t : CertificateType) (cn : string) (sans : list string)
  (ttl_seconds : Z) : M Cert :=
  issue_leaf (pr_server_eku (CERT_PROFILES t)) cn sans ttl_seconds.

(** [pkcs12]: friendly name, leaf, key, chain if there is one, password if
    there is one. *)
Definition build_pkcs12 (pkcs12 : string -> string -> string -> option string -> option string -> outcome bytes)
  (c : Cert) (password : string) : outcome string :=
  match pkcs12 (cert_cn c) (cert_pem c) (private_pem c)
          (if nonempty (strip (chain_pem c)) then Some (chain_pem c) else None)
          (if nonempty password then Some password else None) with
  | Ok blob => Ok (b64encode blob)
  | Raise e => Raise e
  end.

Definition serial_free (serial : string) (d : DB) : bool :=
  bool_decide (find_certificate d serial = None).

(** [session.add(row); session.commit()]: the serial column is unique. *)
Definition insert_certificate (row : Certificate) : M (Z * Certificate) :=
  d <- get_db ;;
  flush_checked (serial_free (crt_serial row)) (on_certificates (tbl_insert row)) ;;
  commit ;;
  ret (next_id (certificates d), row).

(** [max(1, int((not_after - not_before).total_seconds()))] *)
Definition window_seconds (row : Certificate) : Z :=
  Z.max 1 (Z.quot (crt_not_after row - crt_not_before row) 1000000).

Definition stored_sans (row : Certificate) : list string := List.filter nonempty (split_on "," (crt_sans row)).

(** ** Endpoints *)

Section certs.
Context `{Dumps} `{PKIBackend}
  (pkcs12 : string -> string -> string -> option string -> option string -> outcome bytes) (now : Z).

Definition whoami (st : auth_state) : M WhoAmIResponse :=
  s <- require_subject st ;;
  o <- get_operator (rs_operator (as_request st)) ;;
  ret (mkWhoAmI (cs_common_name s) (dec (cs_serial s)) (cs_sans s) (cs_not_before s) (cs_not_after s)
         (op_cn o.2) (op_role o.2) (op_status o.2)).

Definition list_certs (op : option (Z * Operator)) : M (list (Z * Certificate)) :=
  RequireAdminOrAuditor op ;;
  d <- get_db ;;
  ret (rows_by_id (certificates d)).

(** The tenant binding: its id, and the SANs with the [tenant:] entry. *)
Definition bind_tenant (slug : option string) (sans : list string) : M (option Z * list string) :=
  match slug with
  | None => ret (None, sans)
  | Some slug =>
      d <- get_db ;;
      t <- some_or_raise (find_tenant d (fun t => bool_decide (tn_slug t = slug)))
        (http_error 422 ("no tenant with slug " +:+ repr slug)) ;;
      ret (Some t.1, sans ++ ["tenant:" +:+ slug])
  end.

(** The [.p12] file of a dashboard certificate. *)
Definition dashboard_bundle (t : CertificateType) (c : Cert) (password : string) : M (option string) :=
  if bool_decide (t = ct_dashboard)
  then b <- lift (build_pkcs12 pkcs12 c password) ;; ret (Some b)
  else ret None.

Definition issue_cert (payload : CertificateIssueRequest) (op : option (Z * Operator))
  : M CertificateIssueResponse :=
  RequireAdmin op ;;
  let t := ci_cert_type payload in
  let profile := CERT_PROFILES t in
  raise_if (bool_decide (ci_tenant_slug payload <> None) && pr_server_eku profile)
    (http_error 422 ("tenant_slug is not allowed for cert_type " +:+ repr (CertificateType_value t) +:+
       " — only cli + dashboard certs carry a tenant binding")) ;;
  operator_id <- resolve_operator_fk t (ci_common_name payload) (ci_operator_cn payload) ;;
  let sans := resolve_sans t (ci_common_name payload) (ci_sans payload) in
  let ttl_days := match ci_ttl_days payload with
                  | Some n => if n =? 0 then pr_ttl_days profile else n
                  | None => pr_ttl_days profile
                  end in
  bound <- bind_tenant (ci_tenant_slug payload) sans ;;
  cert <- mint_leaf t (ci_common_name payload) bound.2 (ttl_days * 24 * 60 * 60) ;;
  p12 <- dashboard_bundle t cert (ci_pkcs12_password payload) ;;
  row <- insert_certificate (mkCertificate bound.1 (dec (cert_serial cert)) t operator_id (cert_cn cert)
    (join "," (cert_sans cert)) (cert_not_before cert) (cert_not_after cert) false None now None None None) ;;
  ret (mkIssueResponse row (cert_pem cert) (private_pem cert) (chain_pem cert) p12).

Definition certificate_not_found (cert_id : Z) : exn :=
  http_error 404 ("certificate id=" +:+ dec cert_id +:+ " not found").

Definition renew_cert (cert_id : Z) (op : option (Z * Operator)) : M CertificateIssueResponse :=
  RequireAdmin op ;;
  d <- get_db ;;
  row <- some_or_raise (rows (certificates d) !! cert_id) (certificate_not_found cert_id) ;;
  raise_if (crt_revoked row)
    (http_error 422 ("certificate id=" +:+ dec cert_id +:+ " is revoked; renewal is " +:+
       "not supported for revoked certs — issue a fresh leaf via POST /certs")) ;;
  cert <- mint_leaf (crt_type row) (crt_common_name row) (stored_sans row) (window_seconds row) ;;
  p12 <- dashboard_bundle (crt_type row) cert "" ;;
  new_row <- insert_certificate (mkCertificate None (dec (cert_serial cert)) (crt_type row)
    (crt_operator_id row) (cert_cn cert) (join "," (cert_sans cert)) (cert_not_before cert)
    (cert_not_after cert) false None now
    (crt_out_cert_path row) (crt_out_key_path row) (crt_out_chain_path row)) ;;
  ret (mkIssueResponse new_row (cert_pem cert) (private_pem cert) (chain_pem cert) p12).

Definition revoke_cert (cert_id : Z) (a : actor) (op : option (Z * Operator)) : M (Z * Certificate) :=
  RequireAdmin op ;;
  d <- get_db ;;
  row <- some_or_raise (rows (certificates d) !! cert_id) (certificate_not_found cert_id) ;;
  if crt_revoked row then ret (cert_id, row)
  else
    serial <- some_or_raise (py_int (crt_serial row)) (ValueError "invalid literal for int() with base 10") ;;
    revoke_leaf serial ;;
    let row' := set_crt_revoked true (Some now) row in
    modify_db (on_certificates (tbl_set cert_id row')) ;;
    persist now (mkAuditArgs "certificate.revoke" (actor_from_request a) "certificate" (Some cert_id)
      "revoke" (Some (dump_certificate cert_id row)) (Some (dump_certificate cert_id row'))
      (Some (JObj [("serial", JStr (crt_serial row)); ("common_name", JStr (crt_common_name row))]))
      None (crt_tenant_id row)) ;;
    commit ;;
    ret (cert_id, row').
End certs.

(** ** Lemmas: effects on the registry *)

(** Neither the database nor the revocation list is touched, whatever the
    outcome. *)
Definition calm {A} (m : M A) : Prop := forall w r w', m w = (r, w') ->
  committed w' = committed w /\ view w' = view w /\ queue w' = queue w /\
  revoked_serials (outside w') = revoked_serials (outside w).

Lemma calm_ret {A} (a : A) : calm (ret a).
Proof. by intros w r w' [= <- <-]. Qed.
Lemma calm_raise {A} e : calm (@raise A e).
Proof. by intros w r w' [= <- <-]. Qed.
Lemma calm_get_db : calm get_db.
Proof. by intros w r w' [= <- <-]. Qed.
Lemma calm_lift {A} (o : outcome A) : calm (lift o).
Proof. by intros w r w' [= <- <-]. Qed.
Lemma calm_some {A} (o : option A) e : calm (some_or_raise o e).
Proof. destruct o; [apply calm_ret|apply calm_raise]. Qed.
Lemma calm_raise_if b e : calm (raise_if b e).
Proof. destruct b; [apply calm_raise|apply calm_ret]. Qed.
Lemma calm_issue `{PKIBackend} srv cn sans ttl : calm (issue_leaf srv cn sans ttl).
Proof. intros w r w'. unfold issue_leaf. case_match; by intros [= <- <-]. Qed.

Lemma calm_bind {A B} (m : M A) (k : A -> M B) : calm m -> (forall a, calm (k a)) -> calm (x <- m ;; k x).
Proof.
  intros Hm Hk w r w'. unfold bind. destruct (m w) as [[a|e] w1] eqn:E; intros H.
  - apply Hm in E as (<- & <- & <- & <-). by apply Hk in H.
  - simplify_eq. by apply Hm in E.
Qed.
#[export] Hint Resolve calm_ret calm_raise calm_get_db calm_lift calm_some calm_raise_if calm_issue : wg.

Ltac solve_calm :=
  repeat first
    [ progress intros | progress cbv zeta | solve [eauto 2 with wg] | apply calm_bind
    | match goal with |- calm (match ?x with _ => _ end) => destruct x end ].

Lemma calm_operator_fk t cn ocn : calm (resolve_operator_fk t cn ocn).
Proof. unfold resolve_operator_fk. solve_calm. Qed.
Lemma calm_bind_tenant slug sans : calm (bind_tenant slug sans).
Proof. unfold bind_tenant. solve_calm. Qed.
Lemma calm_bundle pkcs12 t c p : calm (dashboard_bundle pkcs12 t c p).
Proof. unfold dashboard_bundle. solve_calm. Qed.
Lemma calm_admin op : calm (RequireAdmin op).
Proof. unfold RequireAdmin, get_operator. solve_calm. Qed.
#[export] Hint Resolve calm_operator_fk calm_bind_tenant calm_bundle calm_admin : wg.

Lemma insert_certificate_eq row w :
  insert_certificate row w =
  if serial_free (crt_serial row) (view w)
  then let d := on_certificates (tbl_insert row) (view w) in
       (Ok (next_id (certificates (view w)), row), mkWorld d d (queue w) (audit_log w) (outside w))
  else (Raise IntegrityError, w).
Proof.
  unfold insert_certificate, bind, get_db, flush_checked, modify_db. by destruct (serial_free _ _).
Qed.

Lemma serial_free_spec serial d :
  serial_free serial d = true <->
  forall i c, rows (certificates d) !! i = Some c -> crt_serial c <> serial.
Proof.
  unfold serial_free, find_certificate. rewrite bool_decide_eq_true, tbl_first_None.
  split; intros H i c Hi; specialize (H i c Hi); by (rewrite bool_decide_eq_false in * || bool_to_prop).
Qed.

(** What a handler may do to the registry and the revocation list: nothing, or
    add one live certificate under a new serial. *)
Definition adds_at_most_one (w w' : World) : Prop :=
  revoked_serials (outside w') = revoked_serials (outside w) /\ queue w' = queue w /\
  (committed w' = committed w \/
   exists row, serial_free (crt_serial row) (view w) = true /\ crt_revoked row = false /\
     committed w' = on_certificates (tbl_insert row) (view w)).

Definition adds {A} (m : M A) : Prop := forall w r w', m w = (r, w') -> adds_at_most_one w w'.

Lemma adds_calm {A} (m : M A) : calm m -> adds m.
Proof. intros Hm w r w' (Ec & _ & Eq & Er)%Hm. split_and!; auto. Qed.

Lemma adds_bind {A B} (m : M A) (k : A -> M B) : calm m -> (forall a, adds (k a)) -> adds (x <- m ;; k x).
Proof.
  intros Hm Hk w r w'. unfold bind. destruct (m w) as [[a|e] w1] eqn:E; intros H.
  - apply Hm in E as (Ec & Ev & Eq & Er). apply Hk in H as (Hr & Hq & H).
    split_and!; [congruence|congruence|]. rewrite Ev, Ec in H. done.
  - simplify_eq. apply Hm in E as (Ec & _ & Eq & Er). split_and!; auto.
Qed.

Lemma adds_insert {B} row (k : Z * Certificate -> M B) :
  crt_revoked row = false -> (forall i, calm (k i)) -> adds (i <- insert_certificate row ;; k i).
Proof.
  intros Hrow Hk w r w'. unfold bind. rewrite insert_certificate_eq.
  destruct (serial_free _ _) eqn:Ef; cbv zeta; intros E.
  - apply Hk in E as (Ec & _ & Eq & Er). cbn [committed queue outside] in *. split_and!; auto.
    right. exists row. auto.
  - simplify_eq. split_and!; auto.
Qed.

Ltac solve_adds :=
  repeat first
    [ progress intros | progress cbv zeta
    | apply adds_insert; [reflexivity|intros; solve [solve_calm]]
    | apply adds_bind; [solve [solve_calm]|]
    | apply adds_calm; solve [solve_calm]
    | match goal with |- adds (match ?x with _ => _ end) => destruct x end ].

Section adds_facts.
Context `{Dumps} `{PKIBackend}
  (pkcs12 : string -> string -> string -> option string -> option string -> outcome bytes) (now : Z).

Lemma issue_cert_adds payload op : adds (issue_cert pkcs12 now payload op).
Proof. unfold issue_cert, mint_leaf. solve_adds. Qed.

Lemma renew_cert_adds cert_id op : adds (renew_cert pkcs12 now cert_id op).
Proof. unfold renew_cert, mint_leaf. solve_adds. Qed.

(** Revocation: an error and a row that is already revoked leave everything
    alone but possibly the revocation list; otherwise the row is flipped,
    the serial is on the list and one audit row is written. *)
Lemma revoke_cert_cases cert_id a op w r w' :
  view w = committed w -> revoke_cert now cert_id a op w = (r, w') ->
  queue w' = queue w /\
      ((w' = w /\ exists e, r = Raise e) \/
   (exists row, w' = w /\ r = Ok (cert_id, row) /\ rows (certificates (committed w)) !! cert_id = Some row /\
      crt_revoked row = true) \/
   (exists row n ev revoked, rows (certificates (committed w)) !! cert_id = Some row /\ crt_revoked row = false /\
      py_int (crt_serial row) = Some n /\ r = Ok (cert_id, set_crt_revoked true (Some now) row) /\
      view w' = committed w' /\
      committed w' = on_audit_events (tbl_insert ev)
        (on_certificates (tbl_set cert_id (set_crt_revoked true (Some now) row)) (committed w)) /\
      pki_revoke (revoked_serials (outside w)) n = Ok revoked /\
      outside w' = mkOutside (issued (outside w)) revoked (files (outside w)) (samples (outside w)) (outcomes (outside w)) (broker (outside w)))).
Proof.
  intros Hv E. assert (Herr : forall e, (r, w') = (Raise e, w) -> queue w' = queue w /\
    ((w' = w /\ exists e, r = Raise e) \/ False)).
  { intros e [= -> ->]. split; [done|]. left. split; [done|by exists e]. }
  unfold revoke_cert, bind in E. destruct (RequireAdmin op w) as [[o|e] w1] eqn:Ea.
  2: { assert (w1 = w) as ->.
       { unfold RequireAdmin, get_operator, bind, some_or_raise, raise_if, raise, ret in Ea.
         repeat case_match; by simplify_eq. }
       destruct (Herr e) as [? [?|[]]]; [by rewrite <- E|]. split; [done|by left]. }
  apply RequireAdmin_Ok in Ea as (-> & _). unfold get_db, some_or_raise, revoke_leaf in E. rewrite Hv in E.
  destruct (rows (certificates (committed w)) !! cert_id) as [row|] eqn:Er.
  2: { destruct (Herr _ (eq_sym E)) as [? [?|[]]]. split; [done|by left]. }
  unfold ret, raise in E. destruct (crt_revoked row) eqn:Erev.
  { injection E as <- <-. split; [done|]. right. left. by exists row. }
  destruct (py_int (crt_serial row)) as [n|] eqn:En.
  2: { destruct (Herr _ (eq_sym E)) as [? [?|[]]]. split; [done|by left]. }
  destruct (pki_revoke _ _) as [u|e] eqn:Ep.
  2: { destruct (Herr _ (eq_sym E)) as [? [?|[]]]. split; [done|by left]. }
  unfold persist in E. revert E. generalize (audit_line now) as line. intros line.
  match goal with |- context [audit_row now ?x] => generalize x as args end. intros args. unfold modify_db, log, commit, bind. cbv beta iota. intros [= <- <-].
  cbn [committed view queue outside audit_log issued revoked_serials files]. split; [done|]. right. right.
  rewrite Hv. exists row, n, (audit_row now args), u. split_and!; done.
Qed.
End adds_facts.

(** ** Theorems *)

Lemma issue_leaf_Ok `{PKIBackend} srv cn sans ttl w c w' :
  issue_leaf srv cn sans ttl w = (Ok c, w') ->
  pki_issue (issued (outside w)) srv cn sans ttl = Ok c /\
  committed w' = committed w /\ view w' = view w /\ queue w' = queue w /\ audit_log w' = audit_log w /\
  outside w' = mkOutside (cert_serial c :: issued (outside w)) (revoked_serials (outside w)) (files (outside w)) (samples (outside w)) (outcomes (outside w)) (broker (outside w)).
Proof. unfold issue_leaf. case_match; intros; simplify_eq. done. Qed.

Lemma dashboard_bundle_Ok pkcs12 t c p w b w' :
  dashboard_bundle pkcs12 t c p w = (Ok b, w') -> w' = w /\ (is_Some b <-> t = ct_dashboard).
Proof.
  unfold dashboard_bundle. case_bool_decide; intros E.
  - step_ok E. prim_ok. done.
  - prim_ok. split; [done|]. split; [by intros [? ?]|done].
Qed.

Section cert_theorems.
Context `{Dumps} `{PKIBackend} `{!PKILaws}
  (pkcs12 : string -> string -> string -> option string -> option string -> outcome bytes) (now : Z).

(** The operator a certificate of this type is issued to. *)
Definition owner_of (d : DB) (payload : CertificateIssueRequest) (owner : option Z) : Prop :=
  if pr_requires_operator (CERT_PROFILES (ci_cert_type payload))
  then exists i o, owner = Some i /\ rows (operators d) !! i = Some o /\
         op_cn o = or_else (ci_operator_cn payload) (ci_common_name payload)
  else owner = None.

(** The tenant binding that was asked for, if any. *)
Definition tenant_of (d : DB) (payload : CertificateIssueRequest) (tid : option Z) (sans : string) : Prop :=
  let base := resolve_sans (ci_cert_type payload) (ci_common_name payload) (ci_sans payload) in
  match ci_tenant_slug payload with
  | None => tid = None /\ sans = join "," base
  | Some slug => pr_server_eku (CERT_PROFILES (ci_cert_type payload)) = false /\
      exists i t, tid = Some i /\ rows (tenants d) !! i = Some t /\ tn_slug t = slug /\
        sans = join "," (base ++ ["tenant:" +:+ slug])
  end.

(** POST /certs: on success the caller is an admin, exactly one leaf was
    issued and exactly one row added, in one commit: live, with the type and
    CN asked for, the SANs and tenant binding of the payload, the operator it
    belongs to exactly for operator certificates, under a serial no row had;
    the answer carries that row, and a PKCS#12 bundle exactly for dashboard
    certificates. *)
Theorem issue_cert_records payload op w resp w' :
  issue_cert pkcs12 now payload op w = (Ok resp, w') ->
  exists o row n, op = Some o /\ op_role o.2 = admin /\
    cr_certificate resp = (next_id (certificates (view w)), row) /\
    committed w' = on_certificates (tbl_insert row) (view w) /\ view w' = committed w' /\ queue w' = queue w /\
    issued (outside w') = n :: issued (outside w) /\ crt_serial row = dec n /\
    serial_free (dec n) (view w) = true /\
    crt_revoked row = false /\ crt_type row = ci_cert_type payload /\
    crt_common_name row = ci_common_name payload /\
    owner_of (view w) payload (crt_operator_id row) /\
    tenant_of (view w) payload (crt_tenant_id row) (crt_sans row) /\
    (is_Some (cr_pkcs12_b64 resp) <-> ci_cert_type payload = ct_dashboard).
Proof.
  unfold issue_cert, mint_leaf. intros E. step_ok E.
  match goal with Ha : RequireAdmin _ _ = (Ok ?o, _) |- _ =>
    apply RequireAdmin_Ok in Ha as (-> & Hop & Hadm); exists o end. prim_ok.
  match goal with Hf : resolve_operator_fk _ _ _ _ = (Ok ?oid, ?w1) |- _ =>
    assert (w1 = w /\ owner_of (view w) payload oid) as [-> Howner];
      [|clear Hf] end.
  { unfold resolve_operator_fk, owner_of in *. destruct (pr_requires_operator _); simpl in *; [|by prim_ok].
    match goal with Hf : (bind _ _) _ = _ |- _ => step_ok Hf end. prim_ok.
    match goal with Hf : find_operator _ _ = Some ?x |- _ => destruct x as [i x];
      apply find_operator_Some in Hf as [? ?] end. split; [done|]. eauto. }
  match goal with Hf : bind_tenant _ _ _ = (Ok ?b, ?w1) |- _ =>
    assert (w1 = w /\ tenant_of (view w) payload b.1 (join "," b.2)) as [-> Htenant];
      [|clear Hf] end.
  { unfold bind_tenant, tenant_of in *. destruct (ci_tenant_slug payload) as [slug|]; [|by prim_ok].
    match goal with Hf : (bind _ _) _ = _ |- _ => step_ok Hf end. prim_ok.
    match goal with Hf : find_tenant _ _ = Some ?x |- _ => destruct x as [i x];
      apply tbl_first_Some in Hf as [? ?] end. bool_to_prop.
    match goal with Hb : _ && _ = false |- _ => rewrite bool_decide_eq_true_2 in Hb by done end. simpl in *.
    split; [done|]. split; [done|]. eauto 10. }
  match goal with Hi : issue_leaf _ _ _ _ _ = (Ok ?c, _) |- _ =>
    apply issue_leaf_Ok in Hi as (Hiss & Hc & Hv & Hq & _ & Ho);
    destruct (pki_issue_identity _ _ _ _ _ _ Hiss) as [Hcn Hsans]; exists (mkCertificate a2.1 (dec (cert_serial c))
      (ci_cert_type payload) a1 (cert_cn c) (join "," (cert_sans c)) (cert_not_before c) (cert_not_after c)
      false None now None None None), (cert_serial c) end.
  match goal with Hb : dashboard_bundle _ _ _ _ _ = _ |- _ => apply dashboard_bundle_Ok in Hb as [-> Hp12] end.
  match goal with Hb : insert_certificate _ _ = _ |- _ => rewrite insert_certificate_eq in Hb;
    destruct (serial_free _ _) eqn:Hfree in Hb; [|done]; cbv zeta in Hb; injection Hb as <- <- end.
  cbn [cr_certificate cr_pkcs12_b64 committed view queue outside crt_serial crt_revoked crt_type crt_common_name
       crt_operator_id crt_tenant_id crt_sans] in *.
  rewrite Hv in *. rewrite Ho, Hcn, Hsans. split_and!; done.
Qed.

(** Renewal keeps the identity: POST /certs/{id}/renew answers only an admin
    and only for a row that is not revoked; it leaves every existing row as
    it is and adds one live row of the same type, CN and operator for the
    same paths, with the same SANs when none of them is empty or contains a
    comma. *)
Theorem renew_cert_keeps_identity cert_id op w resp w' :
  renew_cert pkcs12 now cert_id op w = (Ok resp, w') ->
  exists o old row, op = Some o /\ op_role o.2 = admin /\
    rows (certificates (view w)) !! cert_id = Some old /\ crt_revoked old = false /\
    cr_certificate resp = (next_id (certificates (view w)), row) /\
    committed w' = on_certificates (tbl_insert row) (view w) /\
    crt_revoked row = false /\ crt_type row = crt_type old /\ crt_common_name row = crt_common_name old /\
    crt_operator_id row = crt_operator_id old /\ crt_out_cert_path row = crt_out_cert_path old /\
    (forall sans, sans <> [] -> Forall (fun s => s <> "" /\ char_in "," s = false) sans ->
       crt_sans old = join "," sans -> crt_sans row = crt_sans old).
Proof.
  unfold renew_cert, mint_leaf. intros E. step_ok E.
  match goal with Ha : RequireAdmin _ _ = (Ok ?o, _) |- _ =>
    apply RequireAdmin_Ok in Ha as (-> & Hop & Hadm); exists o end. prim_ok.
  match goal with Hr : rows _ !! cert_id = Some ?o |- _ => exists o; rename o into old, Hr into Hold end.
  match goal with Hi : issue_leaf _ _ _ _ _ = (Ok ?c, _) |- _ =>
    apply issue_leaf_Ok in Hi as (Hiss & Hc & Hv & Hq & _ & Ho);
    destruct (pki_issue_identity _ _ _ _ _ _ Hiss) as [Hcn Hsans] end.
  match goal with Hb : dashboard_bundle _ _ _ _ _ = _ |- _ => apply dashboard_bundle_Ok in Hb as [-> _] end.
  match goal with Hb : insert_certificate ?r _ = _ |- _ => exists r; rewrite insert_certificate_eq in Hb;
    destruct (serial_free _ _) in Hb; [|done]; cbv zeta in Hb; injection Hb as <- <- end.
  cbn [cr_certificate committed crt_revoked crt_type crt_common_name crt_operator_id crt_out_cert_path crt_sans].
  rewrite Hv, Hcn, Hsans in *. split_and!; try done. intros sans Hne Hall Es. unfold stored_sans. rewrite Es.
  rewrite split_on_join; [|done|by eapply Forall_impl; [done|]; intros ? [_ ?]].
  f_equal. clear -Hall. induction Hall as [|s l [Hs _] _ IH]; [done|]. simpl.
  rewrite (proj2 (nonempty_true s) Hs). by f_equal.
Qed.
End cert_theorems.

Section revocation_theorems.
Context `{Dumps} `{PKIBackend} (now : Z).

(** Revocation is idempotent: after a successful POST /certs/{id}/revoke the
    committed row is revoked, and every further call returns that same row,
    first revocation time included, and changes nothing: no second audit row,
    no second call to the PKI. *)
Theorem revoke_cert_once cert_id a op w i row w' :
  view w = committed w -> revoke_cert now cert_id a op w = (Ok (i, row), w') ->
  i = cert_id /\ crt_revoked row = true /\ rows (certificates (committed w')) !! cert_id = Some row /\
  forall later a', revoke_cert later cert_id a' op w' = (Ok (cert_id, row), w').
Proof.
  intros Hv E. assert (Hadm : forall w, RequireAdmin op w = (Ok (default (0, demo_operator) op), w)).
  { unfold revoke_cert in E. apply bind_Ok in E as (o & w1 & Ha & _).
    apply RequireAdmin_Ok in Ha as (_ & -> & Hr). intros w2. unfold RequireAdmin, get_operator, bind. simpl.
    by rewrite Hr. }
  assert (Hagain : forall later a' w2, view w2 = committed w2 ->
    rows (certificates (committed w2)) !! cert_id = Some row -> crt_revoked row = true ->
    revoke_cert later cert_id a' op w2 = (Ok (cert_id, row), w2)).
  { intros later a' w2 Hv2 Hr2 Hrev. unfold revoke_cert. rewrite (bind_step _ _ _ _ _ (Hadm w2)).
    rewrite bind_get_db, Hv2, Hr2. unfold bind, some_or_raise, ret. by rewrite Hrev. }
  apply revoke_cert_cases in E as (_ & [(_ & e & ?)|[(r & -> & [= -> ->] & Hr & Hrev)|
    (r & n & ev & rv & Hr & Hrev & Hn & [= -> ->] & Hv' & Hc' & Hp' & Ho')]]); [done|..|done].
  - split_and!; try done. intros. by apply Hagain.
  - assert (Hr' : rows (certificates (committed w')) !! cert_id = Some (set_crt_revoked true (Some now) r)).
    { rewrite Hc'. apply lookup_insert_eq. }
    split_and!; try done. intros. by apply Hagain.
Qed.
End revocation_theorems.

(** Renewing drops the tenant of the row. *)
Definition any_signer : signer :=
  mkSigner (fun h => 1000 + Z.of_nat (length h)) (fun _ => "KEY") (fun t => Some ("PEM " +:+ tbs_subject t)).
Definition demo_pki : PKIBackend := LocalDevPKI_backend any_signer 0 demo_hierarchy.
Definition no_pkcs12 (name leaf key : string) (chain password : option string) : outcome bytes :=
  Ok (str_bytes leaf).

Definition issue_demo : CertificateIssueRequest :=
  mkIssueRequest ct_dashboard "bob" None None None "" (Some "lab").

Definition issued_world : World := (@issue_cert demo_pki no_pkcs12 5 issue_demo (Some (1, demo_operator)) (start demo_db)).2.

Lemma renew_drops_tenant :
  (crt_tenant_id <$> rows (certificates (committed issued_world)) !! 1) = Some (Some 2) /\
  exists resp w', @renew_cert demo_pki no_pkcs12 6 1 (Some (1, demo_operator)) issued_world = (Ok resp, w') /\
    crt_tenant_id (cr_certificate resp).2 = None /\
    crt_sans (cr_certificate resp).2 = "bob,tenant:lab".
Proof. split; [vm_compute; reflexivity|]. eexists _, _. split; [vm_compute; reflexivity|]. split; reflexivity. Qed.

(** The certificate's window grows by the backdating minute at each renewal. *)
Lemma renew_stretches_window :
  window_seconds (cr_certificate ((fun r => match r with Ok x => x | Raise _ => mkIssueResponse (0, demo_certificate "" false) "" "" "" None end)
    (@issue_cert demo_pki no_pkcs12 5 issue_demo (Some (1, demo_operator)) (start demo_db)).1)).2 =
  365 * 86400 + 60.
Proof. vm_compute. reflexivity. Qed.

(** ** Witnesses *)

Lemma issue_cert_records_witness :
  exists resp w', @issue_cert demo_pki no_pkcs12 5 issue_demo (Some (1, demo_operator)) (start demo_db) = (Ok resp, w') /\
  exists o row n, Some (1, demo_operator) = Some o /\ op_role o.2 = admin /\
    cr_certificate resp = (1, row) /\
    committed w' = on_certificates (tbl_insert row) demo_db /\ view w' = committed w' /\ queue w' = [] /\
    issued (outside w') = n :: [] /\ crt_serial row = dec n /\
    serial_free (dec n) demo_db = true /\
    crt_revoked row = false /\ crt_type row = ct_dashboard /\ crt_common_name row = "bob" /\
    owner_of demo_db issue_demo (crt_operator_id row) /\
    tenant_of demo_db issue_demo (crt_tenant_id row) (crt_sans row) /\
    (is_Some (cr_pkcs12_b64 resp) <-> ct_dashboard = ct_dashboard).
Proof.
  eexists _, _. split; [vm_compute; reflexivity|].
  apply (@issue_cert_records demo_pki (LocalDevPKI_laws _ _ _) no_pkcs12 5 issue_demo (Some (1, demo_operator)) (start demo_db)).
  vm_compute. reflexivity.
Defined.

Lemma renew_cert_keeps_identity_witness :
  exists resp w', @renew_cert demo_pki no_pkcs12 6 1 (Some (1, demo_operator)) issued_world = (Ok resp, w') /\
  exists o old row, Some (1, demo_operator) = Some o /\ op_role o.2 = admin /\
    rows (certificates (view issued_world)) !! 1 = Some old /\ crt_revoked old = false /\
    cr_certificate resp = (next_id (certificates (view issued_world)), row) /\
    committed w' = on_certificates (tbl_insert row) (view issued_world) /\
    crt_revoked row = false /\ crt_type row = crt_type old /\ crt_common_name row = crt_common_name old /\
    crt_operator_id row = crt_operator_id old /\ crt_out_cert_path row = crt_out_cert_path old /\
    (forall sans, sans <> [] -> Forall (fun s => s <> "" /\ char_in "," s = false) sans ->
       crt_sans old = join "," sans -> crt_sans row = crt_sans old).
Proof.
  eexists _, _. split; [vm_compute; reflexivity|].
  apply (@renew_cert_keeps_identity demo_pki (LocalDevPKI_laws _ _ _) no_pkcs12 6 1 (Some (1, demo_operator)) issued_world).
  vm_compute. reflexivity.
Defined.

(** [demo_db] with Alice's certificate registered. *)
Definition live_db : DB := on_certificates (tbl_insert (demo_certificate "77" false)) demo_db.
Definition revoke_demo :=
  @revoke_cert id_dumps demo_pki 5 1 (mkActor (Some (1, demo_operator)) (Some 77)) (Some (1, demo_operator))
    (start live_db).
Definition revoked_row : Certificate := set_crt_revoked true (Some 5) (demo_certificate "77" false).

Lemma revoke_demo_runs : revoke_demo.1 = Ok (1, revoked_row).
Proof. vm_compute. reflexivity. Qed.

Lemma revoke_cert_once_witness :
  1 = 1 /\ crt_revoked revoked_row = true /\
  rows (certificates (committed revoke_demo.2)) !! 1 = Some revoked_row /\
  forall later a', @revoke_cert id_dumps demo_pki later 1 a' (Some (1, demo_operator)) revoke_demo.2 =
    (Ok (1, revoked_row), revoke_demo.2).
Proof.
  apply (@revoke_cert_once id_dumps demo_pki 5 1 (mkActor (Some (1, demo_operator)) (Some 77))
           (Some (1, demo_operator)) (start live_db) 1 revoked_row).
  - reflexivity.
  - rewrite (surjective_pairing revoke_demo) at 1. by rewrite revoke_demo_runs.
Defined.
