(* ===== verification/CliCerts.v ===== *)
(** * The certificate commands of the CLI

    [certs issue], [certs revoke] and [certs renew] of
    [src/src/wg_manager/cli.py].  They work on the database and the PKI
    backend directly, beside the API of [RouterCerts.v], and write key
    material to files.  A command that ends with [typer.Exit] raises [Exit]
    with what it printed to stderr. *)

From Stdlib Require Import QArith.
From S2P Require Import Prelude PyStr Hashing Base64 Models Session Demo AuditLog TenantScope RouterServers RouterClients RouterTenants Auth Pki RouterCerts.
Open Scope Z_scope.

(** ** Files *)

Definition write_bytes (path body : string) (mode : Z) : M unit := fun w =>
  (Ok tt, mkWorld (committed w) (view w) (queue w) (audit_log w)
     (mkOutside (issued (outside w)) (revoked_serials (outside w)) (<[path := (body, mode)]> (files (outside w)))
        (samples (outside w)) (outcomes (outside w)) (broker (outside w)))).

Definition write_pem (path body : string) (mode : Z) : M unit := write_bytes path body mode.

Definition KEY_MODE : Z := 384.  (** 0o600 *)
Definition CERT_MODE : Z := 420. (** 0o644 *)

Definition write_triple (cert_path key_path chain_path : string) (c : Cert) : M unit :=
  write_pem cert_path (cert_pem c) CERT_MODE ;;
  write_pem key_path (private_pem c) KEY_MODE ;;
  write_pem chain_path (chain_pem c) CERT_MODE.

(** ** Issuing *)

Record issue_args := mkIssueArgs {
  ia_cert_type : CertificateType; ia_common_name : string; ia_sans : option (list string);
  ia_ttl_days : option Z; ia_operator_cn : option string; ia_tenant_slug : option string;
  ia_out_cert : option string; ia_out_key : option string; ia_out_chain : option string;
  ia_out_pkcs12 : option string; ia_pkcs12_password : string
}.

Definition missing_flags (a : issue_args) : list string :=
  fst <$> List.filter (fun f => bool_decide (f.2 = None))
    [("--out-cert", ia_out_cert a); ("--out-key", ia_out_key a); ("--out-chain", ia_out_chain a)].

(** Where the key material goes: a PKCS#12 file, or three PEM files. *)
Inductive outputs := ToPkcs12 (path : string) | ToPems (cert key chain : string).

Definition check_outputs (a : issue_args) : outcome outputs :=
  if bool_decide (ia_cert_type a = ct_dashboard) then
    match ia_out_pkcs12 a with
    | None => Raise (Exit 1 "--out-pkcs12 is required for --type dashboard")
    | Some p => Ok (ToPkcs12 p)
    end
  else match ia_out_cert a, ia_out_key a, ia_out_chain a with
  | Some c, Some k, Some ch => Ok (ToPems c k ch)
  | _, _, _ => Raise (Exit 1 ("missing required output flag(s): " +:+ join ", " (missing_flags a)))
  end.

Section cli_certs.
Context `{PKIBackend}
  (pkcs12 : string -> string -> string -> option string -> option string -> outcome bytes) (now : Z).

Definition cli_operator_id (t : CertificateType) (cn : string) (operator_cn : option string) : M (option Z) :=
  if negb (pr_requires_operator (CERT_PROFILES t)) then ret None
  else
    let target_cn := or_else operator_cn cn in
    with_session (
      d <- get_db ;;
      row <- some_or_raise (find_operator d target_cn)
        (Exit 1 ("no operator registered with CN " +:+ repr target_cn +:+
           " — run `wg-manager` (or the CP3.4 dashboard) to register the operator first")) ;;
      ret (Some row.1)).

Definition cli_tenant_id (slug : option string) : M (option Z) :=
  match slug with
  | None => ret None
  | Some slug => with_session (
      d <- get_db ;;
      t <- some_or_raise (find_tenant d (fun t => bool_decide (tn_slug t = slug)))
        (Exit 1 ("no tenant with slug " +:+ repr slug)) ;;
      ret (Some t.1))
  end.

(** The bundle of a dashboard certificate, or the three PEM files. *)
Definition write_outputs (o : outputs) (a : issue_args) (c : Cert) : M unit :=
  match o with
  | ToPkcs12 p =>
      blob <- lift (pkcs12 (ia_common_name a) (cert_pem c) (private_pem c)
        (if nonempty (strip (chain_pem c)) then Some (chain_pem c) else None)
        (if nonempty (ia_pkcs12_password a) then Some (ia_pkcs12_password a) else None)) ;;
      write_bytes p (String.string_of_list_byte blob) KEY_MODE
  | ToPems cp kp chp => write_triple cp kp chp c
  end.

Definition certs_issue (a : issue_args) : M (Z * Certificate) :=
  let t := ia_cert_type a in
  let profile := CERT_PROFILES t in
  raise_if (bool_decide (ia_tenant_slug a <> None) && pr_server_eku profile)
    (Exit 1 ("--tenant is not allowed for --type " +:+ repr (CertificateType_value t) +:+
       " (server-EKU certs don't carry an operator/service-client tenant binding)")) ;;
  let sans := resolve_sans t (ia_common_name a) (ia_sans a) in
  let sans := match ia_tenant_slug a with None => sans | Some slug => sans ++ ["tenant:" +:+ slug] end in
  let ttl := default (pr_ttl_days profile) (ia_ttl_days a) in
  o <- lift (check_outputs a) ;;
  operator_id <- cli_operator_id t (ia_common_name a) (ia_operator_cn a) ;;
  tenant_id <- cli_tenant_id (ia_tenant_slug a) ;;
  cert <- issue_leaf (pr_server_eku profile) (ia_common_name a) sans (ttl * 24 * 60 * 60) ;;
  write_outputs o a cert ;;
  with_session (
    insert_certificate (mkCertificate tenant_id (dec (cert_serial cert)) t operator_id (cert_cn cert)
      (join "," (cert_sans cert)) (cert_not_before cert) (cert_not_after cert) false None now
      (ia_out_cert a) (ia_out_key a) (ia_out_chain a))).

(** ** Revoking *)

Definition certs_revoke (serial : Z) : M unit :=
  with_session (
    d <- get_db ;;
    row <- some_or_raise (find_certificate d (dec serial))
      (Exit 1 ("no certificate registered with serial " +:+ dec serial)) ;;
    revoke_leaf serial ;;
    modify_db (on_certificates (tbl_set row.1 (set_crt_revoked true (Some now) row.2))) ;;
    commit).

(** ** Renewing *)

(** [out or (Path(col) if col else None)] *)
Definition resolve_path (out col : option string) : option string :=
  match out with Some p => Some p | None => if truthy col then col else None end.

(** The triple to write: the flags, else the row's columns. *)
Definition resolve_paths (out_cert out_key out_chain : option string) (row : Certificate)
  : option (string * string * string) :=
  match resolve_path out_cert (crt_out_cert_path row), resolve_path out_key (crt_out_key_path row),
        resolve_path out_chain (crt_out_chain_path row) with
  | Some c, Some k, Some ch => Some (c, k, ch)
  | _, _, _ => None
  end.

(** [_renew_row] *)
Definition renew_row (out_cert out_key out_chain : option string) (r : Z * Certificate) : M (Z * Certificate) :=
  let '(id, row) := r in
  paths <- some_or_raise (resolve_paths out_cert out_key out_chain row)
    (RuntimeError ("cannot renew certificate id=" +:+ dec id +:+ ": the row has no stored out-paths")) ;;
  let '(cp, kp, chp) := paths in
  cert <- issue_leaf (pr_server_eku (CERT_PROFILES (crt_type row))) (crt_common_name row)
    (stored_sans row) (window_seconds row) ;;
  write_triple cp kp chp cert ;;
  insert_certificate (mkCertificate None (dec (cert_serial cert)) (crt_type row) (crt_operator_id row)
    (cert_cn cert) (join "," (cert_sans cert)) (cert_not_before cert) (cert_not_after cert) false None now
    (Some cp) (Some kp) (Some chp)).

(** [newest_by_path]: the highest id among the rows with this path. *)
Definition newest_for (path : string) (rows : list (Z * Certificate)) : Z :=
  fold_left (fun m r => if bool_decide (crt_out_cert_path r.2 = Some path) then Z.max m r.1 else m) rows 0.

Definition drop_superseded (rows : list (Z * Certificate)) : list (Z * Certificate) :=
  List.filter (fun r =>
    match crt_out_cert_path r.2 with
    | Some p => negb (nonempty p) || (r.1 =? newest_for p rows)
    | None => true
    end) rows.

(** The elapsed percentage against the threshold, without the rounding of
    Python's floats. *)
Definition row_is_due (row : Certificate) (threshold_pct : Q) (at_ : Z) : bool :=
  let window := crt_not_after row - crt_not_before row in
  if window <=? 0 then true
  else Qnum threshold_pct * window <=? (at_ - crt_not_before row) * 100 * Z.pos (Qden threshold_pct).

Record renew_args := mkRenewArgs {
  ra_cert_id : option Z; ra_due : bool; ra_threshold_pct : Q; ra_dry_run : bool;
  ra_out_cert : option string; ra_out_key : option string; ra_out_chain : option string
}.

Inductive renew_report :=
| WouldRenew (ids : list Z)
| RenewedOne (old : Z) (new : Z * Certificate)
| NothingDue (scanned : Z)
| RenewedDue (renewed : list (Z * (Z * Certificate))) (skipped : list Z) (scanned : Z).

(** [except RuntimeError]: its subclasses too. *)
Definition is_runtime_error (e : exn) : bool :=
  match e with RuntimeError _ | PKIError _ | SSHCAError _ => true | _ => false end.

Definition catch_runtime {A} (m : M A) (h : string -> M A) : M A :=
  try_except m (fun e => match e with
    | RuntimeError s | PKIError s | SSHCAError s => h s
    | _ => raise e
    end).

(** The walker's loop. *)
Fixpoint renew_each (rows : list (Z * Certificate)) : M (list (Z * (Z * Certificate)) * list Z) :=
  match rows with
  | [] => ret ([], [])
  | r :: rows' =>
      o <- catch_runtime (new <- renew_row None None None r ;; ret (Some new)) (fun _ => ret None) ;;
      rest <- renew_each rows' ;;
      match o with
      | Some new => ret ((r.1, new) :: rest.1, rest.2)
      | None => ret (rest.1, r.1 :: rest.2)
      end
  end.

(** The rows the walker acts on, and how many it scanned. *)
Definition live_certificates (d : DB) : list (Z * Certificate) :=
  List.filter (fun r => negb (crt_revoked r.2)) (rows_by_id (certificates d)).
Definition due_rows (threshold_pct : Q) (d : DB) : list (Z * Certificate) :=
  List.filter (fun r => row_is_due r.2 threshold_pct now) (drop_superseded (live_certificates d)).

Definition certs_renew (a : renew_args) : M renew_report :=
  match ra_cert_id a with
  | Some cert_id =>
      raise_if (ra_due a) (Exit 2 "exactly one of --id or --due must be supplied") ;;
      with_session (
        d <- get_db ;;
        row <- some_or_raise (rows (certificates d) !! cert_id)
          (Exit 1 ("no certificate registered with id=" +:+ dec cert_id)) ;;
        raise_if (crt_revoked row) (Exit 1 ("certificate id=" +:+ dec cert_id +:+
          " is revoked; renewal is not supported for revoked certs")) ;;
        if ra_dry_run a then ret (WouldRenew [cert_id])
        else
          new <- catch_runtime (renew_row (ra_out_cert a) (ra_out_key a) (ra_out_chain a) (cert_id, row))
                   (fun s => raise (Exit 1 s)) ;;
          ret (RenewedOne cert_id new))
  | None =>
      raise_if (negb (ra_due a)) (Exit 2 "exactly one of --id or --due must be supplied") ;;
      with_session (
        d <- get_db ;;
        let scanned := Z.of_nat (length (live_certificates d)) in
        match due_rows (ra_threshold_pct a) d with
        | [] => ret (NothingDue scanned)
        | due =>
            if ra_dry_run a then ret (WouldRenew (fst <$> due))
            else r <- renew_each due ;; ret (RenewedDue r.1 r.2 scanned)
        end)
  end.
End cli_certs.

(** ** The registry and the revocation list

    Both the API and the CLI change them; each operation runs in a session of
    its own. *)

(** The serial of a row is on the backend's revocation list; a serial is not
    negative. *)
Definition listed (w : World) (c : Certificate) : Prop :=
  exists n, (0 <= n -> n ∈ revoked_serials (outside w)) /\ (py_int (crt_serial c) = Some n \/ crt_serial c = dec n).

Definition settled (w : World) : Prop := view w = committed w /\ wf_table (certificates (committed w)).

(** No row disappears or changes its serial, revocation is permanent, and a
    row that becomes revoked is on the list. *)
Record crl_step (w w' : World) : Prop := {
  crl_grows : revoked_serials (outside w) ⊆ revoked_serials (outside w');
  crl_rows i c : rows (certificates (committed w)) !! i = Some c ->
    exists c', rows (certificates (committed w')) !! i = Some c' /\ crt_serial c' = crt_serial c /\
      (crt_revoked c = true -> crt_revoked c' = true);
  crl_new i c' : rows (certificates (committed w')) !! i = Some c' -> crt_revoked c' = true ->
    listed w' c' \/
    exists c, rows (certificates (committed w)) !! i = Some c /\ crt_revoked c = true
}.

Definition crl_agrees (w : World) : Prop :=
  forall i c, rows (certificates (committed w)) !! i = Some c -> crt_revoked c = true -> listed w c.

Lemma listed_mono w w' c c' : revoked_serials (outside w) ⊆ revoked_serials (outside w') ->
  crt_serial c' = crt_serial c -> listed w c -> listed w' c'.
Proof. intros Hs Hc (n & Hn & H). exists n. rewrite Hc. split; [by intros ?; apply Hs, Hn|done]. Qed.

Lemma crl_step_refl w w' : committed w' = committed w ->
  revoked_serials (outside w') = revoked_serials (outside w) -> crl_step w w'.
Proof. intros Hc Hr. split; [by rewrite Hr|rewrite Hc; eauto|rewrite Hc; eauto]. Qed.

Lemma crl_step_trans w1 w2 w3 : crl_step w1 w2 -> crl_step w2 w3 -> crl_step w1 w3.
Proof.
  intros [G1 R1 N1] [G2 R2 N2]. split.
  - by trans (revoked_serials (outside w2)).
  - intros i c Hc. destruct (R1 i c Hc) as (c2 & H2 & Hs2 & Hr2). destruct (R2 i c2 H2) as (c3 & H3 & Hs3 & Hr3).
    exists c3. split; [done|]. split; [congruence|auto].
  - intros i c3 H3 Hr. destruct (N2 i c3 H3 Hr) as [?|(c2 & H2 & Hr2)]; [by left|].
    destruct (N1 i c2 H2 Hr2) as [Hl|(c1 & H1 & Hr1)]; [|right; eauto]. left.
    destruct (R2 i c2 H2) as (c3' & H3' & Hs & _). rewrite H3 in H3'. injection H3' as <-.
    by eapply listed_mono.
Qed.

Lemma crl_step_agrees w w' : crl_step w w' -> crl_agrees w -> crl_agrees w'.
Proof.
  intros [G R N] H i c' Hc' Hr. destruct (N i c' Hc' Hr) as [?|(c & Hc & Hrc)]; [done|].
  destruct (R i c Hc) as (c2 & H2 & Hs & _). rewrite Hc' in H2. injection H2 as <-.
  eapply listed_mono; eauto.
Qed.

Definition keeps_crl {A} (m : M A) : Prop := forall w r w', m w = (r, w') ->
  settled w -> settled w' /\ crl_step w w'.

Lemma keeps_crl_calm {A} (m : M A) : calm m -> keeps_crl m.
Proof.
  intros Hm w r w' (Hc & Hv & _ & Hr)%Hm [Hvw Hwf]. split; [split; [congruence|by rewrite Hc]|].
  by apply crl_step_refl.
Qed.

Lemma keeps_crl_bind {A B} (m : M A) (k : A -> M B) :
  keeps_crl m -> (forall a, keeps_crl (k a)) -> keeps_crl (x <- m ;; k x).
Proof.
  intros Hm Hk w r w'. unfold bind. destruct (m w) as [[a|e] w1] eqn:E; intros H Hs.
  - destruct (Hm _ _ _ E Hs) as [Hs1 H1]. destruct (Hk _ _ _ _ H Hs1) as [Hs2 H2].
    split; [done|by eapply crl_step_trans].
  - simplify_eq. by eapply Hm.
Qed.

Lemma keeps_crl_session {A} (m : M A) : keeps_crl m -> keeps_crl (with_session m).
Proof.
  intros Hm w r w' E [Hv Hwf]. unfold with_session in E.
  set (w0 := mkWorld (committed w) (committed w) (queue w) (audit_log w) (outside w)) in E.
  destruct (m w0) as [r1 w1] eqn:Em. simplify_eq.
  destruct (Hm _ _ _ Em (conj eq_refl Hwf)) as [[_ Hwf1] [G R N]]. split; [done|]. by split.
Qed.

Lemma keeps_crl_catch {A} (m : M A) h : keeps_crl m -> (forall s, keeps_crl (h s)) -> keeps_crl (catch_runtime m h).
Proof.
  intros Hm Hh w r w'. unfold catch_runtime, try_except. destruct (m w) as [[a|e] w1] eqn:E; intros H Hs.
  - simplify_eq. by eapply Hm.
  - destruct (Hm _ _ _ E Hs) as [Hs1 H1].
    assert (Hk : settled w' /\ crl_step w1 w').
    { destruct e; try (by eapply Hh); unfold raise in H; simplify_eq; (split; [done|by apply crl_step_refl]). }
    destruct Hk as [? ?]. split; [done|by eapply crl_step_trans].
Qed.

Lemma keeps_crl_insert row : crt_revoked row = false -> keeps_crl (insert_certificate row).
Proof.
  intros Hrow w r w' E [Hv Hwf]. rewrite insert_certificate_eq in E.
  destruct (serial_free _ _); cbv zeta in E; simplify_eq; [|split; [done|by apply crl_step_refl]].
  unfold settled. cbn [committed view]. rewrite Hv. split; [split; [done|by apply wf_table_insert]|].
  split; cbn [committed outside]; [done| |].
  - intros i c Hc. exists c. simpl. rewrite lookup_insert_ne; [done|].
    intros <-. by rewrite (wf_table_fresh _ Hwf) in Hc.
  - intros i c' Hc' Hr. right. simpl in Hc'. rewrite lookup_insert in Hc'. case_decide; [|eauto].
    simplify_eq. congruence.
Qed.

Lemma calm_write path body mode : calm (write_bytes path body mode).
Proof. by intros w r w' [= <- <-]. Qed.
#[export] Hint Resolve calm_write : wg.

Ltac solve_crl :=
  repeat first
    [ progress intros | progress cbv zeta
    | apply keeps_crl_insert; reflexivity
    | apply keeps_crl_calm; solve [solve_calm]
    | apply keeps_crl_session | apply keeps_crl_catch | apply keeps_crl_bind
    | match goal with |- keeps_crl (match ?x with _ => _ end) => destruct x end ].

Section crl_facts.
Context `{Dumps} `{PKIBackend} `{Hrevocation : !RevocationLaws}
  (pkcs12 : string -> string -> string -> option string -> option string -> outcome bytes) (now : Z).

Lemma issue_cert_keeps_crl payload op : keeps_crl (issue_cert pkcs12 now payload op).
Proof. unfold issue_cert, mint_leaf. solve_crl. Qed.

Lemma renew_cert_keeps_crl cert_id op : keeps_crl (renew_cert pkcs12 now cert_id op).
Proof. unfold renew_cert, mint_leaf. solve_crl. Qed.

Lemma calm_write_outputs o a c : calm (write_outputs pkcs12 o a c).
Proof. unfold write_outputs, write_triple, write_pem. solve_calm. Qed.

Lemma certs_issue_keeps_crl a : keeps_crl (certs_issue pkcs12 now a).
Proof.
  unfold certs_issue, cli_operator_id, cli_tenant_id. solve_crl. apply keeps_crl_calm, calm_write_outputs.
Qed.

Lemma renew_row_keeps_crl oc ok och r : keeps_crl (renew_row now oc ok och r).
Proof. unfold renew_row, write_triple, write_pem. solve_crl. Qed.

Lemma renew_each_keeps_crl l : keeps_crl (renew_each now l).
Proof.
  induction l as [|r l IH]; cbn [renew_each]; solve_crl; [apply renew_row_keeps_crl|done].
Qed.

Lemma certs_renew_keeps_crl a : keeps_crl (certs_renew now a).
Proof.
  unfold certs_renew. solve_crl; [apply renew_row_keeps_crl|apply renew_each_keeps_crl].
Qed.
(** Flipping a row whose serial was just put on the list. *)
Lemma crl_step_flip w w' i row n at_ : settled w ->
  rows (certificates (committed w)) !! i = Some row ->
  (py_int (crt_serial row) = Some n \/ crt_serial row = dec n) ->
  certificates (committed w') = tbl_set i (set_crt_revoked true at_ row) (certificates (committed w)) ->
  view w' = committed w' -> pki_revoke (revoked_serials (outside w)) n = Ok (revoked_serials (outside w')) ->
  settled w' /\ crl_step w w'.
Proof.
  intros [Hv Hwf] Hi Hn Hc Hv' [Hr Hl]%pki_revoke_lists. split; [split; [done|rewrite Hc; by eapply wf_table_set]|].
  split; [done| |]; rewrite Hc; cbn [rows tbl_set].
  - intros j c Hj. destruct (decide (j = i)) as [->|Hne]; [|rewrite lookup_insert_ne by done; eauto].
    rewrite lookup_insert_eq. simplify_eq. eauto.
  - intros j c' Hj Hrev. destruct (decide (j = i)) as [->|Hne]; [|rewrite lookup_insert_ne in Hj by done; eauto].
    rewrite lookup_insert_eq in Hj. simplify_eq. left. by exists n.
Qed.

Lemma revoke_cert_keeps_crl cert_id a op : keeps_crl (revoke_cert now cert_id a op).
Proof.
  intros w r w' E Hs. pose proof Hs as [Hv _]. apply revoke_cert_cases in E as (_ & Hcase); [|done].
  destruct Hcase as [(-> & _)|[(row & -> & _)|(row & n & ev & revoked & Hi & _ & Hn & _ & Hv' & Hc & Hp & Ho)]];
    [split; [done|by apply crl_step_refl]..|].
  eapply crl_step_flip; eauto; [by rewrite Hc|by rewrite Ho].
Qed.

Lemma certs_revoke_keeps_crl serial : keeps_crl (certs_revoke now serial).
Proof.
  apply keeps_crl_session. intros w r w' E Hs. pose proof Hs as [Hv Hwf]. unfold bind, get_db in E.
  unfold some_or_raise in E. destruct (find_certificate (view w) (dec serial)) as [[i row]|] eqn:Ef.
  2: { unfold raise in E. simplify_eq. split; [done|by apply crl_step_refl]. }
  unfold ret, revoke_leaf in E. destruct (pki_revoke _ _) as [u|e] eqn:Ep.
  2: { simplify_eq. split; [done|by apply crl_step_refl]. }
  unfold modify_db, commit in E. simplify_eq. unfold find_certificate in Ef.
  apply tbl_first_Some in Ef as [Hi Hser]. bool_to_prop. rewrite Hv in Hi.
  eapply (crl_step_flip w _ i row serial); eauto. simpl. by rewrite Hv.
Qed.
End crl_facts.

(** ** Histories of certificate operations *)

Section history.
Context `{Dumps} `{PKIBackend} `{Hrevocation : !RevocationLaws}
  (pkcs12 : string -> string -> string -> option string -> option string -> outcome bytes).

Inductive cert_op :=
| ApiIssue (payload : CertificateIssueRequest) (op : option (Z * Operator))
| ApiRenew (cert_id : Z) (op : option (Z * Operator))
| ApiRevoke (cert_id : Z) (a : actor) (op : option (Z * Operator))
| CliIssue (a : issue_args)
| CliRenew (a : renew_args)
| CliRevoke (serial : Z).

Definition perform (now : Z) (o : cert_op) : M unit :=
  match o with
  | ApiIssue p op => with_session (issue_cert pkcs12 now p op ;; ret tt)
  | ApiRenew i op => with_session (renew_cert pkcs12 now i op ;; ret tt)
  | ApiRevoke i a op => with_session (revoke_cert now i a op ;; ret tt)
  | CliIssue a => certs_issue pkcs12 now a ;; ret tt
  | CliRenew a => certs_renew now a ;; ret tt
  | CliRevoke n => certs_revoke now n
  end.

(** One after the other, whatever each returns. *)
Definition perform_all (ops : list (Z * cert_op)) (w : World) : World :=
  fold_left (fun w o => (perform o.1 o.2 w).2) ops w.

Lemma perform_keeps_crl now o : keeps_crl (perform now o).
Proof.
  destruct o; cbn [perform];
    first [apply certs_revoke_keeps_crl | apply keeps_crl_session, keeps_crl_bind | apply keeps_crl_bind];
    first [ apply issue_cert_keeps_crl | apply renew_cert_keeps_crl | apply revoke_cert_keeps_crl
          | apply certs_issue_keeps_crl | apply certs_renew_keeps_crl
          | intros; apply keeps_crl_calm, calm_ret ].
Qed.

Lemma perform_all_steps ops w : settled w -> settled (perform_all ops w) /\ crl_step w (perform_all ops w).
Proof.
  revert w. induction ops as [|[now o] ops IH]; intros w Hs; [split; [done|by apply crl_step_refl]|].
  cbn [perform_all fold_left fst snd]. destruct (perform now o w) as [r w1] eqn:E.
  destruct (perform_keeps_crl _ _ _ _ _ E Hs) as [Hs1 H1]. destruct (IH w1 Hs1) as [Hs2 H2].
  split; [done|]. by eapply crl_step_trans.
Qed.

(** C7. On one PKI backend that lists what it is asked to revoke - Vault, or
    the in-process backend within one process - whatever the API and the CLI do
    with certificates, in any order, with any arguments and failures: a row that
    the registry shows as revoked has its serial on the backend's revocation
    list, and a revoked row stays revoked, with the same serial. *)
Theorem registry_agrees_with_crl ops w : settled w -> crl_agrees w ->
  crl_agrees (perform_all ops w) /\
  forall i c, rows (certificates (committed w)) !! i = Some c -> crt_revoked c = true ->
    exists c', rows (certificates (committed (perform_all ops w))) !! i = Some c' /\
      crt_revoked c' = true /\ crt_serial c' = crt_serial c.
Proof.
  intros Hs Ha. destruct (perform_all_steps ops w Hs) as [_ Hst]. split; [by eapply crl_step_agrees|].
  intros i c Hi Hr. destruct (crl_rows _ _ Hst i c Hi) as (c' & ? & ? & ?). eauto.
Qed.
End history.

(** ** Renewed rows are superseded *)

Lemma adds_extends w w' i c : settled w -> adds_at_most_one w w' ->
  rows (certificates (committed w)) !! i = Some c -> rows (certificates (committed w')) !! i = Some c.
Proof.
  intros [Hv Hwf] (_ & _ & [->|(row & _ & _ & ->)]) Hi; [done|]. rewrite Hv. simpl.
  rewrite lookup_insert_ne; [done|]. intros <-. by rewrite (wf_table_fresh _ Hwf) in Hi.
Qed.

Lemma newest_for_ge p r rows : r ∈ rows -> crt_out_cert_path r.2 = Some p -> r.1 <= newest_for p rows.
Proof.
  unfold newest_for. intros Hr Hp.
  assert (Hmono : forall l m, m <= fold_left (fun m r => if bool_decide (crt_out_cert_path r.2 = Some p)
    then Z.max m r.1 else m) l m).
  { induction l as [|x l IH]; intros m; simpl; [lia|]. etrans; [|apply IH]. case_bool_decide; lia. }
  generalize 0. induction rows as [|x l IH]; intros m; [set_solver|]. simpl.
  apply elem_of_cons in Hr as [->|Hr]; [|by apply IH].
  rewrite bool_decide_eq_true_2 by done. etrans; [|apply Hmono]. lia.
Qed.

(** A row with a newer live row on the same file is not due, however old. *)
Lemma superseded_not_due thr at_ d old orow new nrow p :
  rows (certificates d) !! old = Some orow -> rows (certificates d) !! new = Some nrow -> old < new ->
  crt_out_cert_path orow = Some p -> p <> "" -> crt_out_cert_path nrow = Some p -> crt_revoked nrow = false ->
  old ∉ fst <$> due_rows at_ thr d.
Proof.
  intros Ho Hn Hlt Hp Hne Hnp Hlive Hin. apply list_elem_of_fmap in Hin as ([i r] & -> & Hin). simpl in *.
  unfold due_rows, drop_superseded in Hin. apply list_elem_of_In, filter_In in Hin as [Hin _].
  apply filter_In in Hin as [Hin Hdrop]. apply list_elem_of_In in Hin.
  assert (r = orow) as ->.
  { unfold live_certificates in Hin. apply list_elem_of_In, filter_In in Hin as [Hin _].
    apply list_elem_of_In, rows_by_id_elem in Hin. congruence. }
  simpl in Hdrop. rewrite Hp in Hdrop. rewrite (proj2 (nonempty_true p) Hne) in Hdrop. simpl in Hdrop.
  apply Z.eqb_eq in Hdrop.
  assert (Hmem : (new, nrow) ∈ live_certificates d).
  { unfold live_certificates. apply list_elem_of_In, filter_In. split; [apply list_elem_of_In, rows_by_id_elem; done|].
    simpl. by rewrite Hlive. }
  pose proof (newest_for_ge p (new, nrow) _ Hmem Hnp) as Hge. simpl in Hge. lia.
Qed.

Section superseded.
Context `{PKIBackend} (now : Z).

Lemma renew_row_Ok oc ok och id row w new w' : settled w ->
  renew_row now oc ok och (id, row) w = (Ok new, w') ->
  exists cp kp chp, resolve_paths oc ok och row = Some (cp, kp, chp) /\
    new.1 = next_id (certificates (committed w)) /\ rows (certificates (committed w')) !! new.1 = Some new.2 /\
    crt_revoked new.2 = false /\ crt_out_cert_path new.2 = Some cp.
Proof.
  intros [Hv Hwf] E. unfold renew_row in E. apply bind_Ok in E as ([[cp kp] chp] & w1 & [Hp ->]%some_or_raise_Ok & E).
  apply bind_Ok in E as (c & w1 & (_ & _ & Hv1 & _)%issue_leaf_Ok & E).
  apply bind_Ok in E as (u & w2 & Hw & E). unfold write_triple, write_pem, write_bytes, bind in Hw. simplify_eq.
  rewrite insert_certificate_eq in E. destruct (serial_free _ _); [|done]. cbv zeta in E. simplify_eq.
  exists cp, kp, chp. cbn [committed view fst snd certificates on_certificates]. rewrite Hv1, Hv. simpl.
  by rewrite lookup_insert_eq.
Qed.

Lemma renew_row_adds oc ok och r : adds (renew_row now oc ok och r).
Proof.
  destruct r as [id row]. unfold renew_row, write_triple, write_pem.
  apply adds_bind; [solve_calm|]. intros [[cp kp] chp].
  apply adds_bind; [solve_calm|]. intros c. apply adds_bind; [solve_calm|]. intros _ w r w' E.
  rewrite insert_certificate_eq in E. destruct (serial_free _ _) eqn:Ef; cbv zeta in E; simplify_eq.
  - split; [done|]. split; [done|]. right. eexists. split; [exact Ef|done].
  - split; [done|]. split; [done|by left].
Qed.

(** The loop keeps every row, and what it reports as renewed has a newer live
    row on the same file. *)
Lemma renew_each_spec l w renewed skipped w' : settled w ->
  renew_each now l w = (Ok (renewed, skipped), w') ->
  (forall i c, (i, c) ∈ l -> rows (certificates (committed w)) !! i = Some c) ->
  (forall i c, rows (certificates (committed w)) !! i = Some c -> rows (certificates (committed w')) !! i = Some c) /\
  forall old new, (old, new) ∈ renewed ->
    exists orow p, (old, orow) ∈ l /\ crt_out_cert_path orow = Some p /\ p <> "" /\ old < new.1 /\
      rows (certificates (committed w')) !! new.1 = Some new.2 /\ crt_out_cert_path new.2 = Some p /\
      crt_revoked new.2 = false.
Proof.
  revert w renewed skipped w'. induction l as [|[id row] l IH]; intros w renewed skipped w' Hs E Hl; cbn [renew_each] in E.
  { unfold ret in E. simplify_eq. split; [done|]. set_solver. }
  apply bind_Ok in E as (o & w1 & E1 & E). apply bind_Ok in E as ([rn sk] & w2 & E2 & E).
  assert (H1 : settled w1 /\ (forall i c, rows (certificates (committed w)) !! i = Some c ->
      rows (certificates (committed w1)) !! i = Some c) /\
    match o with Some new => renew_row now None None None (id, row) w = (Ok new, w1) | None => True end).
  { unfold catch_runtime, try_except, bind in E1.
    destruct (renew_row now None None None (id, row) w) as [[new|e] w3] eqn:Er; cbv beta iota in E1.
    - unfold ret in E1. simplify_eq. split; [by eapply renew_row_keeps_crl|].
      split; [|done]. intros i c. apply adds_extends; [done|]. by eapply renew_row_adds.
    - assert (o = None /\ w1 = w3) as [-> ->] by (destruct e; unfold ret, raise in E1; by simplify_eq).
      split; [by eapply renew_row_keeps_crl|]. split; [|done].
      intros i c. apply adds_extends; [done|]. by eapply renew_row_adds. }
  destruct H1 as (Hs1 & Hk1 & Ho).
  destruct (IH _ _ _ _ Hs1 E2) as [Hk2 Hr2]; [intros i c Hi; apply Hk1, Hl; by right|].
  assert (w' = w2 /\ renewed = match o with Some new => (id, new) :: rn | None => rn end) as [-> ->]
    by (destruct o; unfold ret in E; by simplify_eq).
  split; [eauto|]. intros old new Hin.
  assert (Hold : (old, new) ∈ rn \/ (o = Some new /\ old = id)).
  { destruct o as [n|]; [|by left]. apply elem_of_cons in Hin as [[= -> ->]|?]; [by right|by left]. }
  destruct Hold as [Hin'|[-> ->]].
  { destruct (Hr2 _ _ Hin') as (orow & p & ? & ?). exists orow, p. split; [by right|done]. }
  destruct (renew_row_Ok _ _ _ _ _ _ _ _ Hs Ho) as (cp & kp & chp & Hp & Hid & Hnew & Hlive & Hpath).
  exists row, cp.
  assert (Hcp : crt_out_cert_path row = Some cp /\ cp <> "").
  { unfold resolve_paths, resolve_path in Hp. simpl in Hp. destruct (crt_out_cert_path row) as [q|]; simpl in Hp; [|done].
    destruct (nonempty q) eqn:En; [|done]. repeat case_match; simplify_eq. split; [done|by apply nonempty_true]. }
  split; [by left|]. destruct Hcp. split; [done|]. split; [done|]. split; [|split; [by apply Hk2|done]].
  rewrite Hid. apply (proj2 (proj2 Hs) id row), Hl. by left.
Qed.

(** A renewed row is superseded: after [certs renew --due], every row it
    reports as renewed has a newer live row for the same file, and no later
    run at any time and threshold picks the old row again, as long as both
    rows are as the run left them. *)
Theorem renewed_rows_superseded a w renewed skipped scanned w' old new : settled w ->
  certs_renew now a w = (Ok (RenewedDue renewed skipped scanned), w') -> (old, new) ∈ renewed ->
  old < new.1 /\ rows (certificates (committed w')) !! new.1 = Some new.2 /\ crt_revoked new.2 = false /\
  forall d thr later,
    rows (certificates d) !! old = rows (certificates (committed w')) !! old ->
    rows (certificates d) !! new.1 = Some new.2 ->
    old ∉ fst <$> due_rows later thr d.
Proof.
  intros Hs E Hin. unfold certs_renew in E. destruct (ra_cert_id a) as [cid|].
  { exfalso. apply bind_Ok in E as (u & w1 & _ & E). unfold with_session in E. 
    destruct (bind _ _ _) as [r wx] eqn:Eb in E. simplify_eq.
    step_ok Eb. destruct (ra_dry_run a); [by prim_ok|]. step_ok Eb. by prim_ok. }
  apply bind_Ok in E as (u & w1 & [_ [-> _]]%raise_if_Ok & E). unfold with_session in E.
  set (w0 := mkWorld (committed w) (committed w) (queue w) (audit_log w) (outside w)) in E.
  assert (Hs0 : settled w0) by (split; [done|apply Hs]).
  destruct (bind _ _ w0) as [r wx] eqn:Eb in E. simplify_eq. rewrite bind_get_db in Eb. cbv zeta in Eb.
  destruct (due_rows now (ra_threshold_pct a) (view w0)) as [|x due] eqn:Ed; [by prim_ok|].
  destruct (ra_dry_run a); [by prim_ok|]. apply bind_Ok in Eb as ([rn sk] & w2 & Er & Eb).
  unfold ret in Eb. simplify_eq. simpl in Hin.
  destruct (renew_each_spec (x :: due) w0 _ _ _ Hs0 Er) as [Hk Hr].
  { intros i c Hi. rewrite <- Ed in Hi. unfold due_rows, drop_superseded, live_certificates in Hi.
    apply list_elem_of_In, filter_In in Hi as [Hi _]. apply filter_In in Hi as [Hi _].
    apply filter_In in Hi as [Hi _]. by apply list_elem_of_In, rows_by_id_elem in Hi. }
  destruct (Hr _ _ Hin) as (orow & p & Hl & Hp & Hne & Hlt & Hn & Hnp & Hlive). simpl.
  split; [done|]. split; [done|]. split; [done|]. intros d thr later Ho Hnd.
  eapply (superseded_not_due thr later d old orow new.1 new.2 p); eauto. rewrite Ho. apply Hk.
  rewrite <- Ed in Hl. unfold due_rows, drop_superseded, live_certificates in Hl.
  apply list_elem_of_In, filter_In in Hl as [Hl _]. apply filter_In in Hl as [Hl _].
  apply filter_In in Hl as [Hl _]. by apply list_elem_of_In, rows_by_id_elem in Hl.
Qed.
End superseded.

(** ** The CLI and the API issue the same certificates *)

Definition set_crt_paths (cert key chain : option string) (c : Certificate) : Certificate :=
  mkCertificate (crt_tenant_id c) (crt_serial c) (crt_type c) (crt_operator_id c) (crt_common_name c) (crt_sans c)
    (crt_not_before c) (crt_not_after c) (crt_revoked c) (crt_revoked_at c) (crt_created_at c) cert key chain.

(** The payload that corresponds to a command line. *)
Definition payload_of (a : issue_args) : CertificateIssueRequest :=
  mkIssueRequest (ia_cert_type a) (ia_common_name a) (ia_sans a) (ia_ttl_days a) (ia_operator_cn a)
    (ia_pkcs12_password a) (ia_tenant_slug a).

Lemma session_same {A} (m : M A) w r w' : view w = committed w ->
  (forall r w', m w = (r, w') -> w' = w) -> with_session m w = (r, w') -> m w = (r, w) /\ w' = w.
Proof.
  intros Hv Hm E. unfold with_session in E. destruct w as [c v q l o]. simpl in *. subst v.
  destruct (m (mkWorld c c q l o)) as [r1 w1] eqn:Em. simplify_eq. by rewrite (Hm _ _ eq_refl).
Qed.

Section issue_props.
Context `{PKIBackend} `{Dumps} `{!PKILaws}
  (pkcs12 pkcs12' : string -> string -> string -> option string -> option string -> outcome bytes) (now : Z).

Lemma cli_operator_id_Ok t cn ocn w x w' : view w = committed w ->
  cli_operator_id t cn ocn w = (Ok x, w') -> w' = w /\ resolve_operator_fk t cn ocn w = (Ok x, w).
Proof.
  intros Hv E. unfold cli_operator_id, resolve_operator_fk in *. destruct (negb _); [by prim_ok|]. cbv zeta in *.
  apply session_same in E as [E ->]; [|done|].
  - split; [done|]. step_ok E. prim_ok. rewrite bind_get_db. unfold bind, some_or_raise.
    match goal with Hf : find_operator _ _ = Some _ |- _ => by rewrite Hf end.
  - intros r w1 Hr. rewrite bind_get_db in Hr. unfold bind, some_or_raise in Hr.
    destruct (find_operator _ _); unfold raise, ret in Hr; by simplify_eq.
Qed.

Lemma cli_tenant_id_Ok slug sans w x w' : view w = committed w ->
  cli_tenant_id slug w = (Ok x, w') -> w' = w /\
  bind_tenant slug sans w = (Ok (x, match slug with None => sans | Some s => sans ++ ["tenant:" +:+ s] end), w).
Proof.
  intros Hv E. unfold cli_tenant_id, bind_tenant in *. destruct slug as [slug|]; [|by prim_ok].
  apply session_same in E as [E ->]; [|done|].
  - split; [done|]. step_ok E. prim_ok. rewrite bind_get_db. unfold bind, some_or_raise.
    match goal with Hf : find_tenant _ _ = Some _ |- _ => by rewrite Hf end.
  - intros r w1 Hr. rewrite bind_get_db in Hr. unfold bind, some_or_raise in Hr.
    destruct (find_tenant _ _); unfold raise, ret in Hr; by simplify_eq.
Qed.

Lemma write_outputs_Ok o a c w u w' : write_outputs pkcs12 o a c w = (Ok u, w') ->
  committed w' = committed w /\ view w' = view w /\
  match o with
  | ToPkcs12 p => exists blob, files (outside w') = <[p := (blob, KEY_MODE)]> (files (outside w))
  | ToPems cp kp chp => files (outside w') = <[chp := (chain_pem c, CERT_MODE)]>
      (<[kp := (private_pem c, KEY_MODE)]> (<[cp := (cert_pem c, CERT_MODE)]> (files (outside w))))
  end.
Proof.
  unfold write_outputs. destruct o as [p|cp kp chp]; intros E.
  - apply bind_Ok in E as (blob & w1 & [_ ->]%lift_Ok & E). unfold write_bytes in E. simplify_eq. eauto.
  - unfold write_triple, write_pem, write_bytes, bind in E. simplify_eq. done.
Qed.

(** [certs issue] writes the key material before it records the
    certificate: on success the files hold the leaf, the private key (mode
    0600) and the chain of exactly the certificate that one new row records,
    the row carries the paths, and apart from them the API would have
    recorded the same row under the same id for the same request (a zero
    lifetime excepted). *)
Theorem certs_issue_files_and_row a w id row w' :
  view w = committed w -> certs_issue pkcs12 now a w = (Ok (id, row), w') ->
  committed w' = on_certificates (tbl_insert row) (committed w) /\ id = next_id (certificates (committed w)) /\
  crt_out_cert_path row = ia_out_cert a /\ crt_out_key_path row = ia_out_key a /\
  crt_out_chain_path row = ia_out_chain a /\
  (exists c, crt_serial row = dec (cert_serial c) /\
     match check_outputs a with
     | Ok (ToPems cp kp chp) => files (outside w') = <[chp := (chain_pem c, CERT_MODE)]>
         (<[kp := (private_pem c, KEY_MODE)]> (<[cp := (cert_pem c, CERT_MODE)]> (files (outside w))))
     | Ok (ToPkcs12 p) => exists blob, files (outside w') = <[p := (blob, KEY_MODE)]> (files (outside w))
     | Raise _ => False
     end) /\
  (ia_ttl_days a <> Some 0 -> forall op resp w2,
     issue_cert pkcs12' now (payload_of a) op w = (Ok resp, w2) ->
     cr_certificate resp = (id, set_crt_paths None None None row)).
Proof.
  intros Hv E. unfold certs_issue in E. cbv zeta in E.
  apply bind_Ok in E as (u & w1 & [Ht [-> _]]%raise_if_Ok & E).
  apply bind_Ok in E as (o & w1 & [Ho ->]%lift_Ok & E).
  apply bind_Ok in E as (oid & w1 & [-> Hfk]%cli_operator_id_Ok & E); [|done].
  apply bind_Ok in E as (tid & w1 & Htid & E).
  apply (cli_tenant_id_Ok _ (resolve_sans (ia_cert_type a) (ia_common_name a) (ia_sans a))) in Htid as [-> Hbt]; [|done].
  apply bind_Ok in E as (c & w1 & Hi & E). pose proof Hi as (Hiss & Hc1 & Hv1 & _ & _ & Ho1)%issue_leaf_Ok.
  apply bind_Ok in E as (u2 & w2 & (Hc2 & Hv2 & Hf)%write_outputs_Ok & E).
  unfold with_session in E. destruct (insert_certificate _ _) as [r wx] eqn:Ei in E. simplify_eq.
  rewrite insert_certificate_eq in Ei. cbn [view] in Ei. destruct (serial_free _ _) eqn:Esf in Ei; [|done].
  cbv zeta in Ei. simplify_eq. cbn [committed outside]. rewrite Hc2, Hc1 in *.
  split; [done|]. split; [done|]. split; [done|]. split; [done|]. split; [done|]. split.
  { exists c. split; [done|]. rewrite Ho. rewrite Ho1 in Hf. exact Hf. }
  intros Httl op resp w3 Ea. unfold issue_cert in Ea. cbv zeta in Ea. cbn [payload_of ci_cert_type ci_common_name
    ci_operator_cn ci_sans ci_ttl_days ci_tenant_slug ci_pkcs12_password] in Ea.
  apply bind_Ok in Ea as (adm & w4 & (-> & _)%RequireAdmin_Ok & Ea).
  apply bind_Ok in Ea as (u3 & w4 & [_ [-> _]]%raise_if_Ok & Ea).
  rewrite (bind_step _ _ _ _ _ Hfk), (bind_step _ _ _ _ _ Hbt) in Ea. cbn [fst snd] in Ea.
  replace (match ia_ttl_days a with Some n => if n =? 0 then _ else n | None => _ end)
    with (default (pr_ttl_days (CERT_PROFILES (ia_cert_type a))) (ia_ttl_days a)) in Ea.
  2: { destruct (ia_ttl_days a) as [n|]; [|done]. simpl. destruct (Z.eqb_spec n 0); [congruence|done]. }
  unfold mint_leaf in Ea. rewrite (bind_step _ _ _ _ _ Hi) in Ea.
  apply bind_Ok in Ea as (p12 & w4 & [-> _]%dashboard_bundle_Ok & Ea).
  apply bind_Ok in Ea as (nr & w5 & Hins & Ea). unfold ret in Ea. simplify_eq.
  rewrite insert_certificate_eq in Hins. destruct (serial_free _ _) in Hins; [|done]. cbv zeta in Hins. simplify_eq.
  simpl. by rewrite Hv1, Hv.
Qed.
End issue_props.

(** ** What the walker does after a revocation *)

Definition filed (c : Certificate) : Certificate := set_crt_paths (Some "/tls/api.pem") (Some "/tls/api.key") (Some "/tls/ca.pem") c.

(** A renewed API certificate: the old row and its successor, which is then
    revoked. *)
Definition rotated_db : DB :=
  on_certificates (fun _ => mkTable {[1 := filed (demo_certificate "70" false); 2 := filed (demo_certificate "77" true)]} 3)
    demo_db.

(** Revoking the newest row of a file makes its superseded predecessor the
    newest live one: the walker mints a fresh leaf for the identity that was
    decommissioned. *)
Lemma revoking_revives_predecessor :
  (fst <$> due_rows 90 50 rotated_db) = [1] /\
  (fst <$> due_rows 90 50 (on_certificates (tbl_set 2 (filed (demo_certificate "77" false))) rotated_db)) = [2].
Proof. split; vm_compute; reflexivity. Qed.

(** Revoking twice from the CLI moves the revocation time. *)
Lemma cli_revoke_restamps :
  let w1 := (@certs_revoke demo_pki 5 77 (start live_db)).2 in
  let w2 := (@certs_revoke demo_pki 9 77 w1).2 in
  (crt_revoked_at <$> rows (certificates (committed w1)) !! 1) = Some (Some 5) /\
  (crt_revoked_at <$> rows (certificates (committed w2)) !! 1) = Some (Some 9).
Proof. split; vm_compute; reflexivity. Qed.

(** ** Witnesses *)

Definition demo_history : list (Z * cert_op) :=
  [(5, ApiIssue issue_demo (Some (1, demo_operator))); (6, CliRevoke 1000);
   (7, ApiRenew 1 (Some (1, demo_operator)))].

Lemma registry_agrees_with_crl_witness :
  crl_agrees (@perform_all id_dumps demo_pki no_pkcs12 demo_history (start demo_db)) /\
  (crt_revoked <$> rows (certificates (committed
     (@perform_all id_dumps demo_pki no_pkcs12 demo_history (start demo_db)))) !! 1) = Some true.
Proof.
  split; [|vm_compute; reflexivity].
  apply (@registry_agrees_with_crl id_dumps demo_pki (LocalDevPKI_revocation _ _ _) no_pkcs12 demo_history (start demo_db)).
  - split; [reflexivity|apply wf_table_empty].
  - intros i c Hi. by vm_compute in Hi.
Defined.

(** The in-process backend has a list per process: what the CLI revokes is in
    the shared database, and not on the list of the API process. *)
Lemma local_list_is_per_process :
  let cli := (@certs_revoke demo_pki 5 77 (start live_db)).2 in
  let api := mkWorld (committed cli) (committed cli) [] [] (outside (start live_db)) in
  crl_agrees cli /\ ~ crl_agrees api.
Proof.
  cbv zeta. set (cli := (certs_revoke 5 77 (start live_db)).2).
  assert (Hrow : rows (certificates (committed cli)) = {[1 := set_crt_revoked true (Some 5) (demo_certificate "77" false)]})
    by (vm_compute; reflexivity).
  split.
  - intros i c Hi _. rewrite Hrow in Hi. apply lookup_singleton_Some in Hi as [<- <-].
    exists 77. split; [|by left]. intros _. apply (bool_decide_unpack _). vm_compute. exact I.
  - intros Ha. destruct (Ha 1 (set_crt_revoked true (Some 5) (demo_certificate "77" false))) as (n & Hn & Hs).
    + cbn [committed]. rewrite Hrow. apply lookup_singleton_eq.
    + reflexivity.
    + assert (n = 77) as ->.
      { destruct Hs as [E|E]; [vm_compute in E; by injection E|]. destruct (Z.ltb_spec n 0) as [Hlt|Hge].
        - unfold dec in E. rewrite (proj2 (Z.ltb_lt n 0) Hlt) in E. discriminate E.
        - symmetry. apply dec_inj; [lia|lia|exact E]. }
      destruct (elem_of_nil 77) as [Hf _]. by apply Hf, Hn.
Qed.

Definition due_args : renew_args := mkRenewArgs None true 50 false None None None.
Definition due_db : DB :=
  on_certificates (fun _ => mkTable {[1 := filed (demo_certificate "70" false)]} 2) demo_db.
Definition due_run : outcome renew_report * World := @certs_renew demo_pki 90 due_args (start due_db).
Definition due_new : Z * Certificate :=
  match due_run.1 with Ok (RenewedDue ((_, n) :: _) _ _) => n | _ => (0, demo_certificate "" false) end.

Lemma renewed_rows_superseded_witness :
  due_run.1 = Ok (RenewedDue [(1, due_new)] [] 1) /\
  1 < due_new.1 /\
  rows (certificates (committed due_run.2)) !! due_new.1 = Some due_new.2 /\ crt_revoked due_new.2 = false /\
  forall d thr later,
    rows (certificates d) !! 1 = rows (certificates (committed due_run.2)) !! 1 ->
    rows (certificates d) !! due_new.1 = Some due_new.2 -> 1 ∉ fst <$> due_rows later thr d.
Proof.
  assert (E : due_run.1 = Ok (RenewedDue [(1, due_new)] [] 1)) by (vm_compute; reflexivity).
  split; [exact E|].
  apply (@renewed_rows_superseded demo_pki 90 due_args (start due_db) [(1, due_new)] [] 1 due_run.2).
  - split; [reflexivity|]. split; [vm_compute; discriminate|]. intros i r Hr. simpl in Hr.
    apply lookup_singleton_Some in Hr as [<- _]. split; vm_compute; done.
  - rewrite <- E. apply surjective_pairing.
  - by left.
Defined.

Definition cli_issue_demo : issue_args :=
  mkIssueArgs ct_cli "alice" None (Some 1) None (Some "lab") (Some "/c.pem") (Some "/c.key") (Some "/ca.pem") None "".
Definition cli_issue_run : outcome (Z * Certificate) * World :=
  @certs_issue demo_pki no_pkcs12 5 cli_issue_demo (start demo_db).
Definition cli_issue_row : Certificate :=
  match cli_issue_run.1 with Ok r => r.2 | Raise _ => demo_certificate "" false end.

Lemma certs_issue_files_and_row_witness :
  cli_issue_run.1 = Ok (1, cli_issue_row) /\
  (exists c, crt_serial cli_issue_row = dec (cert_serial c) /\
     files (outside cli_issue_run.2) = <["/ca.pem" := (chain_pem c, CERT_MODE)]>
       (<["/c.key" := (private_pem c, KEY_MODE)]> (<["/c.pem" := (cert_pem c, CERT_MODE)]> ∅))) /\
  forall op resp w2, @issue_cert demo_pki no_pkcs12 5 (payload_of cli_issue_demo) op (start demo_db) = (Ok resp, w2) ->
    cr_certificate resp = (1, set_crt_paths None None None cli_issue_row).
Proof.
  assert (E : cli_issue_run.1 = Ok (1, cli_issue_row)) by (vm_compute; reflexivity).
  split; [exact E|].
  destruct (@certs_issue_files_and_row demo_pki no_pkcs12 no_pkcs12 5 cli_issue_demo (start demo_db) 1
    cli_issue_row cli_issue_run.2) as (_ & _ & _ & _ & _ & Hf & Ha).
  - reflexivity.
  - rewrite <- E. apply surjective_pairing.
  - split; [exact Hf|]. apply Ha. discriminate.
Defined.
