(* ===== verification/Cli.v ===== *)
(** * The administrative and HTTP commands of the CLI

    The direct-database commands of [src/src/wg_manager/cli.py] for operators
    and tenants, and the helpers that its HTTP commands share: the base URL,
    the response handler, the task poller and the duration parser.  The
    certificate commands are in [CliCerts.v]. *)

From S2P Require Import Prelude PyStr IpAddr Hashing Models Session Demo Ipam TenantScope RouterClients RouterTenants Auth.

(** ** Operators and tenants *)

Section admin.
Context (now : Z) (exc : string).

Definition operators_add (cn : string) (role : OperatorRole) (display_name : option string) : M (Z * Operator) :=
  with_session (
    d <- get_db ;;
    match find_operator d cn with
    | Some existing => raise (Exit 1 ("operator with CN " +:+ repr cn +:+ " already exists (id=" +:+
        dec existing.1 +:+ ", role=" +:+ OperatorRole_value (op_role existing.2) +:+ ")"))
    | None => ret tt
    end ;;
    insert_operator (mkOperator None cn display_name role active now)).

(** The walk over the other tenants: the first overlap ends the command. *)
Fixpoint cli_pool_overlap (pool : string) (others : list (Z * Tenant)) : M unit :=
  match others with
  | [] => ret tt
  | (_, other) :: rest =>
      if negb (nonempty (tn_subnet_pool other)) then cli_pool_overlap pool rest
      else
        b <- some_or_raise (pools_overlap pool (tn_subnet_pool other)) (ValueError "invalid IPv4 network") ;;
        raise_if b (Exit 1 ("--subnet-pool " +:+ repr pool +:+ " overlaps tenant " +:+ repr (tn_slug other) +:+
                            "'s pool " +:+ repr (tn_subnet_pool other))) ;;
        cli_pool_overlap pool rest
  end.

Definition target_slug (name : string) (slug : option string) : string :=
  match slug with Some s => if nonempty s then s else slugify name | None => slugify name end.

Definition tenants_create (name : string) (slug subnet_pool : option string) : M (Z * Tenant) :=
  let target := target_slug name slug in
  match subnet_pool with
  | Some pool => raise_if (bool_decide (IPv4Network true pool = None))
      (Exit 1 ("invalid --subnet-pool " +:+ repr pool +:+ ": " +:+ exc))
  | None => ret tt
  end ;;
  with_session (
    d <- get_db ;;
    match find_tenant d (fun t => bool_decide (tn_slug t = target)) with
    | Some e => raise (Exit 1 ("tenant with slug " +:+ repr target +:+ " already exists (id=" +:+ dec e.1 +:+
        ", name=" +:+ repr (tn_name e.2) +:+ ")"))
    | None => ret tt
    end ;;
    match find_tenant d (fun t => bool_decide (tn_name t = name)) with
    | Some e => raise (Exit 1 ("tenant with name " +:+ repr name +:+ " already exists (id=" +:+ dec e.1 +:+
        ", slug=" +:+ repr (tn_slug e.2) +:+ ")"))
    | None => ret tt
    end ;;
    match subnet_pool with
    | Some pool => cli_pool_overlap pool (rows_by_id (tenants d))
    | None => ret tt
    end ;;
    let row := mkTenant name target (default default_subnet_pool subnet_pool) now in
    modify_db (on_tenants (tbl_insert row)) ;;
    commit ;;
    ret (next_id (tenants d), row)).

Definition lookup_operator (d : DB) (cn : string) : option (Z * Operator) := find_operator d cn.
Definition lookup_tenant (d : DB) (slug : string) : option (Z * Tenant) :=
  find_tenant d (fun t => bool_decide (tn_slug t = slug)).

Definition no_operator (cn : string) : exn := Exit 1 ("no operator with CN " +:+ repr cn).
Definition no_tenant (slug : string) : exn := Exit 1 ("no tenant with slug " +:+ repr slug).

Definition operators_attach_tenant (cn tenant : string) (role : OperatorRole) : M (Z * OperatorTenant) :=
  with_session (
    d <- get_db ;;
    op_row <- some_or_raise (lookup_operator d cn) (no_operator cn) ;;
    tenant_row <- some_or_raise (lookup_tenant d tenant) (no_tenant tenant) ;;
    match find_join d op_row.1 tenant_row.1 with
    | Some e => raise (Exit 1 ("operator " +:+ repr cn +:+ " already attached to tenant " +:+ repr tenant +:+
        " (role=" +:+ OperatorRole_value (ot_role e.2) +:+ ")"))
    | None => ret tt
    end ;;
    let join := mkOperatorTenant op_row.1 tenant_row.1 role now in
    modify_db (on_operator_tenants (tbl_insert join)) ;;
    commit ;;
    ret (next_id (operator_tenants d), join)).

Definition operators_detach_tenant (cn tenant : string) : M unit :=
  with_session (
    d <- get_db ;;
    op_row <- some_or_raise (lookup_operator d cn) (no_operator cn) ;;
    tenant_row <- some_or_raise (lookup_tenant d tenant) (no_tenant tenant) ;;
    join <- some_or_raise (find_join d op_row.1 tenant_row.1)
      (Exit 1 ("operator " +:+ repr cn +:+ " is not attached to tenant " +:+ repr tenant)) ;;
    modify_db (on_operator_tenants (tbl_delete join.1)) ;;
    commit).
End admin.

(** ** HTTP helpers *)

(** [s.rstrip("/")]. *)
Fixpoint rstrip_slash (s : string) : string :=
  match s with
  | "" => ""
  | String c s' => let r := rstrip_slash s' in if ceqb c "/" && negb (nonempty r) then "" else String c r
  end.

(** [s.endswith(suffix)]. *)
Fixpoint endswith (s suffix : string) : bool :=
  bool_decide (s = suffix) || match s with "" => false | String _ s' => endswith s' suffix end.

Definition base_url (api_url : string) : string :=
  let base := rstrip_slash api_url in
  if endswith base "/v1" then base else base +:+ "/v1".

(** A response: status, text, and its JSON if it parses. *)
Record http_response := mkHttpResponse { hr_status : Z; hr_text : string; hr_json : option json }.

(** [handle]: [None] for an empty body.  [show] is the formatting of a detail;
    a body that is JSON but not an object has no [get]. *)
Definition handle_response (show : json -> string) (r : http_response) : outcome (option json) :=
  if 400 <=? hr_status r then
    match hr_json r with
    | Some (JObj l) =>
        let detail := match find_first (fun kv => bool_decide (kv.1 = "detail")) l with
                      | Some kv => show kv.2 | None => hr_text r end in
        Raise (Exit 1 ("[error " +:+ dec (hr_status r) +:+ "] " +:+ detail))
    | Some _ => Raise (AttributeError "get")
    | None => Raise (Exit 1 ("[error " +:+ dec (hr_status r) +:+ "] " +:+ hr_text r))
    end
  else if (hr_status r =? 204) || negb (nonempty (hr_text r)) then Ok None
  else match hr_json r with Some j => Ok (Some j) | None => Raise (ValueError "Expecting value") end.

(** ** Waiting for a task *)

Definition TERMINAL_STATES : list string := ["SUCCESS"; "FAILURE"; "REVOKED"].

(** The status payload: its state, [UNKNOWN] when it has none. *)
Definition task_state (data : list (string * json)) : string :=
  match find_first (fun kv => bool_decide (kv.1 = "state")) data with
  | Some (_, JStr s) => s
  | _ => "UNKNOWN"
  end.

Section waiting.
(** Poll number [i] takes [took i] and ends with [reply i]. *)
Context (took : nat -> Z) (reply : nat -> outcome (list (string * json))) (task_id : string)
  (deadline interval : Z).

(** The loop from poll [i] at clock [t]; [None]: [fuel] polls were not
    enough. *)
Fixpoint wait_loop (fuel i : nat) (t : Z) : option (outcome (list (string * json))) :=
  match fuel with
  | O => None
  | S fuel' =>
      match reply i with
      | Raise e => Some (Raise e)
      | Ok data =>
          let state := task_state data in
          if mem state TERMINAL_STATES then
            Some (if bool_decide (state = "SUCCESS") then Ok data else Raise (Exit 1 ""))
          else if deadline <=? t + took i then
            Some (Raise (Exit 1 ("timeout waiting for task " +:+ task_id +:+ " (last state=" +:+ state +:+ ")")))
          else wait_loop fuel' (S i) (t + took i + interval)
      end
  end.
End waiting.

Definition wait_task (took : nat -> Z) (reply : nat -> outcome (list (string * json))) (task_id : string)
  (timeout interval : Z) (fuel : nat) (start_clock : Z) : option (outcome (list (string * json))) :=
  wait_loop took reply task_id (start_clock + timeout) interval fuel 0 start_clock.

(** ** Durations *)

Definition DURATION_UNITS (c : ascii) : option Z :=
  if ceqb c "s" then Some 1 else if ceqb c "m" then Some 60
  else if ceqb c "h" then Some 3600 else if ceqb c "d" then Some 86400 else None.

Definition unit_seconds (rest : string) : option Z :=
  match rest with
  | "" => Some 1
  | String c "" => DURATION_UNITS c
  | _ => None
  end.

Definition bad_duration (value : string) : exn :=
  Exit 2 (repr value +:+ " is not a duration; use seconds or a number with s/m/h/d").

Definition parse_duration (value : string) : outcome Z :=
  let '(digits, rest) := span_digits (strip value) in
  match digits, unit_seconds rest with
  | String c _, Some unit =>
      if ceqb c "0" then Raise (bad_duration value)
      else match py_int digits with
      | Some n => Ok (n * unit)
      | None => Raise (ValueError "Exceeds the limit (4300 digits) for integer string conversion")
      end
  | _, _ => Raise (bad_duration value)
  end.

(** ** The CLI and the API change the registry alike *)

Definition is_ok {A} (r : outcome A) : bool := match r with Ok _ => true | Raise _ => false end.

(** Both succeed or both fail, and leave the same committed database. *)
Definition same_effect {A B} (m1 : M A) (m2 : M B) : Prop := forall w, view w = committed w ->
  is_ok (m1 w).1 = is_ok (m2 w).1 /\ committed (m1 w).2 = committed (m2 w).2.

(** Checks that leave the world alone. *)
Definition checks {A} (m : M A) : Prop := forall w, (m w).2 = w.

Lemma overlap_checks pool l : checks (cli_pool_overlap pool l) /\ checks (reject_pool_overlap pool None l) /\
  forall w, is_ok (cli_pool_overlap pool l w).1 = is_ok (reject_pool_overlap pool None l w).1.
Proof.
  induction l as [|[id t] l (IH1 & IH2 & IH3)]; [by repeat split|]. cbn [cli_pool_overlap reject_pool_overlap].
  rewrite bool_decide_eq_false_2 by done. simpl. destruct (nonempty _); simpl; [|done].
  unfold bind, some_or_raise, raise_if, raise, ret, checks.
  destruct (pools_overlap _ _) as [[|]|]; simpl; [done| |done]. auto.
Qed.

Section same.
Context (now : Z) (exc : string) (o : Z * Operator) (Hadmin : op_role o.2 = admin).

Lemma admin_passes {B} (k : Z * Operator -> M B) w : (x <- RequireAdmin (Some o) ;; k x) w = k o w.
Proof.
  unfold RequireAdmin, get_operator, bind, some_or_raise, raise_if, ret.
  by rewrite bool_decide_eq_true_2.
Qed.

Ltac compare_runs w Hv :=
  destruct w as [c v q l ou]; simpl in Hv; subst v;
  cbv beta iota delta [with_session bind get_db some_or_raise raise_if];
  cbn [view committed queue audit_log outside]; cbv beta iota.

Lemma tenants_create_same name slug pool :
  same_effect (tenants_create now exc name slug pool) (create_tenant now exc (mkTenantCreate name slug pool) (Some o)).
Proof.
  intros w Hv. unfold create_tenant. rewrite admin_passes, bind_get_db. cbv zeta. cbn [tc_slug tc_name tc_subnet_pool].
  fold (target_slug name slug). unfold tenants_create, require_pool_shape. cbv zeta.
  set (target := target_slug name slug).
  destruct (overlap_checks (default "" pool) (rows_by_id (tenants (view w)))) as (H1 & H2 & H3).
  specialize (H1 w). specialize (H2 w). specialize (H3 w). revert H1 H2 H3. compare_runs w Hv. intros H1 H2 H3.
  unfold ret, raise. destruct pool as [pool|]; cbv beta iota; cbn [view committed queue audit_log outside].
  - cbn [default] in *. unfold id in *.
    destruct (bool_decide (IPv4Network true pool = None)); cbv beta iota; cbn [view committed queue audit_log outside];
      (destruct (find_tenant c (fun t => bool_decide (tn_slug t = target))); [done|]);
      (destruct (find_tenant c (fun t => bool_decide (tn_name t = name))); [done|]); [done|].
    cbv beta iota. cbn [view committed queue audit_log outside].
    destruct (cli_pool_overlap _ _ _) as [[u|e] w1], (reject_pool_overlap _ _ _ _) as [[u'|e'] w2];
      simpl in *; subst; done.
  - destruct (find_tenant c (fun t => bool_decide (tn_slug t = target))); [done|].
    by destruct (find_tenant c (fun t => bool_decide (tn_name t = name))).
Qed.

Lemma attach_same cn slug role :
  same_effect (operators_attach_tenant now cn slug role)
    (attach_operator now slug (mkAttachRequest cn role) (Some o)).
Proof.
  intros w Hv. unfold attach_operator. rewrite admin_passes, bind_get_db. cbn [at_cn at_role].
  unfold operators_attach_tenant, require_tenant, require_operator, lookup_operator, lookup_tenant.
  compare_runs w Hv.
  destruct (find_operator c cn) as [op|], (find_tenant c (fun t => bool_decide (tn_slug t = slug))) as [tn|]; try done.
  unfold ret. cbv beta iota. cbn [fst snd]. by destruct (find_join c op.1 tn.1).
Qed.

Lemma detach_same cn slug :
  same_effect (operators_detach_tenant cn slug) (detach_operator slug cn (Some o)).
Proof.
  intros w Hv. unfold detach_operator. rewrite admin_passes, bind_get_db.
  unfold operators_detach_tenant, require_tenant, lookup_operator, lookup_tenant.
  compare_runs w Hv.
  destruct (find_operator c cn) as [op|], (find_tenant c (fun t => bool_decide (tn_slug t = slug))) as [tn|]; try done.
  unfold ret. cbv beta iota. cbn [fst snd]. by destruct (find_join c op.1 tn.1).
Qed.

(** C30. The CLI's direct-database path and the API change the tenant registry
    alike: creating a tenant, attaching and detaching an operator from the
    command line succeeds exactly when the API request of an admin would, and
    leaves the same committed database, failures included. *)
Theorem cli_registry_matches_api name slug pool cn role :
  same_effect (tenants_create now exc name slug pool) (create_tenant now exc (mkTenantCreate name slug pool) (Some o)) /\
  (forall tenant, same_effect (operators_attach_tenant now cn tenant role)
     (attach_operator now tenant (mkAttachRequest cn role) (Some o))) /\
  (forall tenant, same_effect (operators_detach_tenant cn tenant) (detach_operator tenant cn (Some o))).
Proof. split; [apply tenants_create_same|]. split; intros tenant; [apply attach_same|apply detach_same]. Qed.
End same.

(** ** Waiting ends *)

Section waiting_props.
Context (took : nat -> Z) (reply : nat -> outcome (list (string * json))) (task_id : string)
  (interval : Z) (Hint : 0 < interval) (Htook : forall i, 0 <= took i).

Lemma wait_loop_ends deadline fuel i t :
  (1 <= fuel)%nat -> deadline <= t + (Z.of_nat fuel - 1) * interval ->
  exists r, wait_loop took reply task_id deadline interval fuel i t = Some r.
Proof.
  revert i t. induction fuel as [|fuel IH]; intros i t H1 H2; [lia|]. cbn [wait_loop].
  destruct (reply i) as [data|e]; [|eauto]. cbv zeta. destruct (mem _ _); [eauto|].
  destruct (Z.leb_spec deadline (t + took i)); [eauto|]. specialize (Htook i).
  destruct fuel as [|fuel]; [lia|]. apply IH; [lia|]. nia.
Qed.

Lemma wait_loop_Ok deadline fuel i t data :
  wait_loop took reply task_id deadline interval fuel i t = Some (Ok data) ->
  exists k, (i <= k)%nat /\ reply k = Ok data /\ task_state data = "SUCCESS" /\
    forall j, (i <= j < k)%nat -> exists d, reply j = Ok d /\ task_state d ∉ TERMINAL_STATES.
Proof.
  revert i t. induction fuel as [|fuel IH]; intros i t H; [done|]. cbn [wait_loop] in H.
  destruct (reply i) as [d|e] eqn:Er; [|done]. cbv zeta in H. destruct (mem (task_state d) TERMINAL_STATES) eqn:Em.
  - case_bool_decide as Hs; [|done]. simplify_eq. exists i. split_and!; [lia|done|done|]. intros j. lia.
  - destruct (_ <=? _); [done|]. apply IH in H as (k & Hk & Hd & Hs & Hj). exists k.
    split_and!; [lia|done|done|]. intros j Hij. destruct (decide (j = i)) as [->|]; [|apply Hj; lia].
    exists d. split; [done|]. by apply mem_false.
Qed.

(** C31. [_wait_task] returns: with a positive poll interval it ends within
    [timeout / interval + 2] polls whatever the API answers, and what it
    returns is the payload of the first poll that found the task finished,
    which reported success; otherwise the command exits with an error. *)
Theorem wait_task_terminates timeout start_clock fuel :
  (Z.to_nat (timeout / interval) + 2 <= fuel)%nat ->
  exists r, wait_task took reply task_id timeout interval fuel start_clock = Some r /\
    forall data, r = Ok data ->
      exists k, reply k = Ok data /\ task_state data = "SUCCESS" /\
        forall j, (j < k)%nat -> exists d, reply j = Ok d /\ task_state d ∉ TERMINAL_STATES.
Proof.
  intros Hf. destruct (wait_loop_ends (start_clock + timeout) fuel 0 start_clock) as [r Hr]; [lia| |].
  { pose proof (Z.mul_succ_div_gt timeout interval Hint). nia. }
  exists r. split; [exact Hr|]. intros data ->. apply wait_loop_Ok in Hr as (k & _ & Hk & Hs & Hj).
  exists k. split_and!; [done|done|]. intros j Hj'. apply Hj. lia.
Qed.
End waiting_props.

(** ** Durations *)

Definition unit_suffix (u : string) (k : Z) : Prop :=
  (u, k) ∈ [("", 1); ("s", 1); ("m", 60); ("h", 3600); ("d", 86400)].

(** A positive number with an optional unit parses to that many seconds. *)
Lemma parse_duration_reads n u k : 1 <= n < 10 ^ max_str_digits -> unit_suffix u k ->
  parse_duration (dec n +:+ u) = Ok (n * k).
Proof.
  intros Hn Hu. assert (Hd : str_forall is_decimal (dec n) = true) by (apply dec_decimal; lia).
  assert (Hsu : str_forall (fun c => negb (is_space c)) u = true /\
    match u with "" => True | String c _ => is_decimal c = false end /\ unit_seconds u = Some k).
  { unfold unit_suffix in Hu. repeat (apply elem_of_cons in Hu as [[= -> ->]|Hu]; [done|]). set_solver. }
  destruct Hsu as (Hs & Hdec & Hus). unfold parse_duration. rewrite strip_no_space.
  2: { rewrite str_forall_app, Hs, andb_true_r. eapply str_forall_impl; [|exact Hd]. apply is_decimal_not_space. }
  rewrite span_digits_app by done. rewrite Hus. destruct (dec_head n) as (c & s & Hc & H0); [lia|].
  rewrite Hc. replace (ceqb c "0") with false.
  2: { symmetry. apply ceqb_neq. intros ->. by apply H0. }
  rewrite <- Hc, py_int_dec by lia. done.
Qed.

(** ** The base URL *)

Lemma endswith_suffix s suffix : endswith (s +:+ suffix) suffix = true.
Proof.
  induction s as [|c s IH].
  - change ("" +:+ suffix) with suffix. destruct suffix; cbn [endswith]; by rewrite bool_decide_eq_true_2.
  - rewrite append_cons. cbn [endswith]. rewrite IH. apply orb_true_r.
Qed.

(** Every command addresses the versioned surface, also when the configured
    URL is the bare host. *)
Lemma base_url_versioned api_url : endswith (base_url api_url) "/v1" = true.
Proof. unfold base_url. destruct (endswith (rstrip_slash api_url) "/v1") eqn:E; [done|]. apply endswith_suffix. Qed.

(** ** Witnesses *)

Lemma cli_registry_matches_api_witness :
  op_role demo_operator = admin /\
  (tenants_create 5 "" "Lab 2" None (Some "10.77.0.0/16") (start demo_db)).1 =
    Ok (3, mkTenant "Lab 2" "lab-2" "10.77.0.0/16" 5) /\
  same_effect (tenants_create 5 "" "Lab 2" None (Some "10.77.0.0/16"))
    (create_tenant 5 "" (mkTenantCreate "Lab 2" None (Some "10.77.0.0/16")) (Some (1, demo_operator))).
Proof.
  split; [reflexivity|]. split; [vm_compute; reflexivity|].
  apply (cli_registry_matches_api 5 "" (1, demo_operator) eq_refl "Lab 2" None (Some "10.77.0.0/16") "bob" operator).
Defined.

(** Two pending polls, then success. *)
Definition demo_replies (i : nat) : outcome (list (string * json)) :=
  Ok [("state", JStr (if (i <? 2)%nat then "PENDING" else "SUCCESS"))].

Lemma wait_task_terminates_witness :
  wait_task (fun _ => 1) demo_replies "t" 60 2 32 0 = Some (Ok [("state", JStr "SUCCESS")]) /\
  exists r, wait_task (fun _ => 1) demo_replies "t" 60 2 32 0 = Some r /\
    forall data, r = Ok data ->
      exists k, demo_replies k = Ok data /\ task_state data = "SUCCESS" /\
        forall j, (j < k)%nat -> exists d, demo_replies j = Ok d /\ task_state d ∉ TERMINAL_STATES.
Proof.
  split; [vm_compute; reflexivity|]. apply (wait_task_terminates (fun _ => 1) demo_replies "t" 2); [lia|intros; lia|].
  vm_compute. lia.
Defined.
