(* ===== verification/Backup.v ===== *)
(** * Backup and restore

    [db backup] and [db restore] of [src/src/wg_manager/cli.py]: the tables of
    [models.py] with their columns, the rows as JSON, the encrypted envelope
    and the restoring transaction.  AES-GCM is a parameter, the key is wrapped
    by a [CryptoBackend].  A row value of another type than its column's is
    refused here; drivers may coerce it. *)

From S2P Require Import Prelude PyStr Hashing Base64 Json IsoTime Models Session Demo AuditLog Auth Crypto CliCerts.

(** ** Tables and columns *)

Inductive tname :=
| T_tenant | T_sshkey | T_server | T_client | T_operator | T_operatortenant | T_discoveredpeer
| T_certificate | T_auditevent | T_enrollmenttoken.
#[export] Instance tname_eq_dec : EqDecision tname.
Proof. solve_decision. Defined.

(** [__tablename__]: the class name in lower case. *)
Definition table_name (t : tname) : string :=
  match t with
  | T_tenant => "tenant" | T_sshkey => "sshkey" | T_server => "server" | T_client => "client"
  | T_operator => "operator" | T_operatortenant => "operatortenant" | T_discoveredpeer => "discoveredpeer"
  | T_certificate => "certificate" | T_auditevent => "auditevent" | T_enrollmenttoken => "enrollmenttoken"
  end.

(** [_backup_tables]: [sorted_tables] orders by dependency, then by name. *)
Definition backup_tables : list tname :=
  [T_tenant; T_auditevent; T_operator; T_sshkey; T_certificate; T_operatortenant; T_server;
   T_client; T_discoveredpeer; T_enrollmenttoken].

(** A value of a Core row; an enum member is known by its [value]. *)
Inductive value := VNull | VInt (n : Z) | VStr (s : string) | VBool (b : bool) | VDate (t : Z) | VEnum (s : string)
| VOther (j : json).

Inductive col_type := CInt | CStr | CBool | CDateTime | CEnum (values : list string).

(** A column: key, type and client-side default, which may read the clock. *)
Record column := mkColumn { col_key : string; col_ty : col_type; col_default : option (Z -> value) }.
Definition req (k : string) (ty : col_type) : column := mkColumn k ty None.
Definition with_default (k : string) (ty : col_type) (v : value) : column := mkColumn k ty (Some (fun _ => v)).
Definition nullable_col (k : string) (ty : col_type) : column := with_default k ty VNull.
Definition stamped (k : string) : column := mkColumn k CDateTime (Some VDate).

Definition node_statuses : list string := ["pending"; "ready"; "error"].
Definition roles : list string := ["admin"; "operator"; "auditor"].
Definition cert_types : list string := ["api"; "cli"; "dashboard"; "mysql"; "mysql-client"].

Definition host_cert_columns : list column :=
  [nullable_col "host_cert_pem" CStr; nullable_col "host_cert_serial" CInt; nullable_col "host_cert_principals" CStr;
   nullable_col "host_cert_valid_after" CDateTime; nullable_col "host_cert_valid_before" CDateTime;
   nullable_col "host_cert_ca_public_key" CStr].

Definition columns (t : tname) : list column :=
  nullable_col "id" CInt ::
  match t with
  | T_tenant => [req "name" CStr; req "slug" CStr; with_default "subnet_pool" CStr (VStr default_subnet_pool); stamped "created_at"]
  | T_sshkey => [nullable_col "tenant_id" CInt; req "name" CStr; with_default "mode" (CEnum ["legacy"; "ca"]) (VEnum "ca"); stamped "created_at"]
  | T_server =>
      [nullable_col "tenant_id" CInt; req "hostname" CStr; with_default "ssh_port" CInt (VInt 22); req "ssh_username" CStr;
       req "ssh_key_id" CInt; req "endpoint_host" CStr; with_default "endpoint_port" CInt (VInt 51820);
       with_default "interface" CStr (VStr "wg0"); with_default "subnet" CStr (VStr "10.9.0.0/24");
       with_default "address" CStr (VStr "10.9.0.1/24"); with_default "public_key" CStr (VStr "");
       with_default "status" (CEnum node_statuses) (VEnum "pending"); stamped "created_at"]
      ++ host_cert_columns
      ++ [with_default "reconfig_requested_gen" CInt (VInt 0); with_default "reconfig_applied_gen" CInt (VInt 0)]
  | T_client =>
      [nullable_col "tenant_id" CInt; req "name" CStr; nullable_col "hostname" CStr; with_default "ssh_port" CInt (VInt 22);
       nullable_col "ssh_username" CStr; nullable_col "ssh_key_id" CInt; req "server_id" CInt;
       with_default "address" CStr (VStr ""); with_default "public_key" CStr (VStr "");
       with_default "is_manual" CBool (VBool false); with_default "status" (CEnum node_statuses) (VEnum "pending");
       stamped "created_at"] ++ host_cert_columns
  | T_operator =>
      [nullable_col "tenant_id" CInt; req "cn" CStr; nullable_col "display_name" CStr;
       with_default "role" (CEnum roles) (VEnum "operator"); with_default "status" (CEnum ["active"; "disabled"]) (VEnum "active");
       stamped "created_at"]
  | T_operatortenant =>
      [req "operator_id" CInt; req "tenant_id" CInt; with_default "role" (CEnum roles) (VEnum "operator"); stamped "created_at"]
  | T_discoveredpeer =>
      [req "server_id" CInt; req "public_key" CStr; with_default "allowed_ips" CStr (VStr ""); nullable_col "endpoint" CStr;
       nullable_col "last_handshake_at" CDateTime; with_default "rx_bytes" CInt (VInt 0); with_default "tx_bytes" CInt (VInt 0);
       nullable_col "persistent_keepalive" CInt; with_default "is_managed" CBool (VBool false);
       stamped "first_seen_at"; stamped "last_seen_at"]
  | T_certificate =>
      [nullable_col "tenant_id" CInt; req "serial" CStr; req "cert_type" (CEnum cert_types); nullable_col "operator_id" CInt;
       req "common_name" CStr; with_default "sans" CStr (VStr ""); req "not_before" CDateTime; req "not_after" CDateTime;
       with_default "revoked" CBool (VBool false); nullable_col "revoked_at" CDateTime; stamped "created_at";
       nullable_col "out_cert_path" CStr; nullable_col "out_key_path" CStr; nullable_col "out_chain_path" CStr]
  | T_auditevent =>
      [nullable_col "tenant_id" CInt; stamped "ts"; req "event" CStr; nullable_col "actor_cn" CStr;
       nullable_col "actor_serial" CStr; nullable_col "actor_role" CStr; req "resource_type" CStr;
       nullable_col "resource_id" CInt; req "action" CStr; nullable_col "before_hash" CStr; nullable_col "after_hash" CStr;
       nullable_col "payload" CStr; nullable_col "request_id" CStr]
  | T_enrollmenttoken =>
      [nullable_col "tenant_id" CInt; req "server_id" CInt; req "ssh_key_id" CInt; req "ssh_username" CStr;
       with_default "name_prefix" CStr (VStr "node"); req "token_hash" CStr; with_default "max_uses" CInt (VInt 1);
       with_default "use_count" CInt (VInt 0); req "expires_at" CDateTime; nullable_col "created_by_cn" CStr;
       stamped "created_at"; nullable_col "revoked_at" CDateTime; nullable_col "revoked_by_cn" CStr;
       nullable_col "allowed_cidrs" CStr]
  end.

(** ** Rows as column values *)

Definition row_of (t : tname) : Type :=
  match t with
  | T_tenant => Tenant | T_sshkey => SSHKey | T_server => Server | T_client => Client | T_operator => Operator
  | T_operatortenant => OperatorTenant | T_discoveredpeer => DiscoveredPeer | T_certificate => Certificate
  | T_auditevent => AuditEvent | T_enrollmenttoken => EnrollmentToken
  end.

Definition oint (o : option Z) : value := from_option VInt VNull o.
Definition ostr (o : option string) : value := from_option VStr VNull o.
Definition odate (o : option Z) : value := from_option VDate VNull o.

Definition SSHKeyMode_value (m : SSHKeyMode) : string := match m with legacy => "legacy" | ca => "ca" end.
Definition OperatorStatus_value (s : OperatorStatus) : string := match s with active => "active" | disabled => "disabled" end.

Definition host_cert_values (h : HostCertCols) : list value :=
  [ostr (hc_pem h); oint (hc_serial h); ostr (hc_principals h); odate (hc_valid_after h); odate (hc_valid_before h);
   ostr (hc_ca_public_key h)].

(** The values of a row, in the order of the columns after [id]. *)
Definition row_values (t : tname) : row_of t -> list value :=
  match t with
  | T_tenant => fun r => [VStr (tn_name r); VStr (tn_slug r); VStr (tn_subnet_pool r); VDate (tn_created_at r)]
  | T_sshkey => fun r => [oint (key_tenant_id r); VStr (key_name r); VEnum (SSHKeyMode_value (key_mode r)); VDate (key_created_at r)]
  | T_server => fun r =>
      [oint (srv_tenant_id r); VStr (srv_hostname r); VInt (srv_ssh_port r); VStr (srv_ssh_username r);
       VInt (srv_ssh_key_id r); VStr (srv_endpoint_host r); VInt (srv_endpoint_port r); VStr (srv_interface r);
       VStr (srv_subnet r); VStr (srv_address r); VStr (srv_public_key r); VEnum (NodeStatus_value (srv_status r));
       VDate (srv_created_at r)] ++ host_cert_values (srv_host_cert r)
      ++ [VInt (srv_reconfig_requested_gen r); VInt (srv_reconfig_applied_gen r)]
  | T_client => fun r =>
      [oint (cl_tenant_id r); VStr (cl_name r); ostr (cl_hostname r); VInt (cl_ssh_port r); ostr (cl_ssh_username r);
       oint (cl_ssh_key_id r); VInt (cl_server_id r); VStr (cl_address r); VStr (cl_public_key r); VBool (cl_is_manual r);
       VEnum (NodeStatus_value (cl_status r)); VDate (cl_created_at r)] ++ host_cert_values (cl_host_cert r)
  | T_operator => fun r =>
      [oint (op_tenant_id r); VStr (op_cn r); ostr (op_display_name r); VEnum (OperatorRole_value (op_role r));
       VEnum (OperatorStatus_value (op_status r)); VDate (op_created_at r)]
  | T_operatortenant => fun r =>
      [VInt (ot_operator_id r); VInt (ot_tenant_id r); VEnum (OperatorRole_value (ot_role r)); VDate (ot_created_at r)]
  | T_discoveredpeer => fun r =>
      [VInt (dp_server_id r); VStr (dp_public_key r); VStr (dp_allowed_ips r); ostr (dp_endpoint r);
       odate (dp_last_handshake_at r); VInt (dp_rx_bytes r); VInt (dp_tx_bytes r); oint (dp_persistent_keepalive r);
       VBool (dp_is_managed r); VDate (dp_first_seen_at r); VDate (dp_last_seen_at r)]
  | T_certificate => fun r =>
      [oint (crt_tenant_id r); VStr (crt_serial r); VEnum (CertificateType_value (crt_type r)); oint (crt_operator_id r);
       VStr (crt_common_name r); VStr (crt_sans r); VDate (crt_not_before r); VDate (crt_not_after r);
       VBool (crt_revoked r); odate (crt_revoked_at r); VDate (crt_created_at r); ostr (crt_out_cert_path r);
       ostr (crt_out_key_path r); ostr (crt_out_chain_path r)]
  | T_auditevent => fun r =>
      [oint (ev_tenant_id r); VDate (ev_ts r); VStr (ev_event r); ostr (ev_actor_cn r); ostr (ev_actor_serial r);
       ostr (ev_actor_role r); VStr (ev_resource_type r); oint (ev_resource_id r); VStr (ev_action r);
       ostr (ev_before_hash r); ostr (ev_after_hash r); ostr (ev_payload r); ostr (ev_request_id r)]
  | T_enrollmenttoken => fun r =>
      [oint (tok_tenant_id r); VInt (tok_server_id r); VInt (tok_ssh_key_id r); VStr (tok_ssh_username r);
       VStr (tok_name_prefix r); VStr (tok_token_hash r); VInt (tok_max_uses r); VInt (tok_use_count r);
       VDate (tok_expires_at r); ostr (tok_created_by_cn r); VDate (tok_created_at r); odate (tok_revoked_at r);
       ostr (tok_revoked_by_cn r); ostr (tok_allowed_cidrs r)]
  end.

Definition as_int (v : value) : option (option Z) :=
  match v with VNull => Some None | VInt n => Some (Some n) | _ => None end.
Definition as_str (v : value) : option (option string) :=
  match v with VNull => Some None | VStr s => Some (Some s) | _ => None end.
Definition as_date (v : value) : option (option Z) :=
  match v with VNull => Some None | VDate t => Some (Some t) | _ => None end.

(** The member of an enumeration with a given [value]. *)
Definition by_value {A} (f : A -> string) (members : list A) (s : string) : option A :=
  find_first (fun m => bool_decide (f m = s)) members.
Definition NodeStatus_of : string -> option NodeStatus := by_value NodeStatus_value [pending; ready; error].
Definition Role_of : string -> option OperatorRole := by_value OperatorRole_value [admin; operator; auditor].
Definition Mode_of : string -> option SSHKeyMode := by_value SSHKeyMode_value [legacy; ca].
Definition Status_of : string -> option OperatorStatus := by_value OperatorStatus_value [active; disabled].
Definition CertificateType_of : string -> option CertificateType :=
  by_value CertificateType_value [ct_api; ct_cli; ct_dashboard; ct_mysql; ct_mysql_client].

Definition host_cert_of (a b c d e f : value) : option HostCertCols :=
  a ← as_str a; b ← as_int b; c ← as_str c; d ← as_date d; e ← as_date e; f ← as_str f;
  Some (mkHostCertCols a b c d e f).

(** The row with these values; [None] when a required column is [NULL] or a
    value has the wrong type. *)
Definition row_from (t : tname) : list value -> option (row_of t) :=
  match t with
  | T_tenant => fun vs => match vs with
      | [VStr a; VStr b; VStr c; VDate d] => Some (mkTenant a b c d) | _ => None end
  | T_sshkey => fun vs => match vs with
      | [a; VStr b; VEnum c; VDate d] => a ← as_int a; c ← Mode_of c; Some (mkSSHKey a b c d) | _ => None end
  | T_server => fun vs => match vs with
      | [a; VStr b; VInt c; VStr d; VInt e; VStr f; VInt g; VStr h; VStr i; VStr j; VStr k; VEnum l; VDate m;
         h1; h2; h3; h4; h5; h6; VInt o; VInt p] =>
          a ← as_int a; l ← NodeStatus_of l; n ← host_cert_of h1 h2 h3 h4 h5 h6;
          Some (mkServer a b c d e f g h i j k l m n o p)
      | _ => None end
  | T_client => fun vs => match vs with
      | [a; VStr b; c; VInt d; e; f; VInt g; VStr h; VStr i; VBool j; VEnum k; VDate l; h1; h2; h3; h4; h5; h6] =>
          a ← as_int a; c ← as_str c; e ← as_str e; f ← as_int f; k ← NodeStatus_of k;
          n ← host_cert_of h1 h2 h3 h4 h5 h6; Some (mkClient a b c d e f g h i j k l n)
      | _ => None end
  | T_operator => fun vs => match vs with
      | [a; VStr b; c; VEnum d; VEnum e; VDate f] =>
          a ← as_int a; c ← as_str c; d ← Role_of d; e ← Status_of e; Some (mkOperator a b c d e f)
      | _ => None end
  | T_operatortenant => fun vs => match vs with
      | [VInt a; VInt b; VEnum c; VDate d] => c ← Role_of c; Some (mkOperatorTenant a b c d) | _ => None end
  | T_discoveredpeer => fun vs => match vs with
      | [VInt a; VStr b; VStr c; d; e; VInt f; VInt g; h; VBool i; VDate j; VDate k] =>
          d ← as_str d; e ← as_date e; h ← as_int h; Some (mkDiscoveredPeer a b c d e f g h i j k)
      | _ => None end
  | T_certificate => fun vs => match vs with
      | [a; VStr b; VEnum c; d; VStr e; VStr f; VDate g; VDate h; VBool i; j; VDate k; l; m; n] =>
          a ← as_int a; c ← CertificateType_of c; d ← as_int d; j ← as_date j; l ← as_str l; m ← as_str m; n ← as_str n;
          Some (mkCertificate a b c d e f g h i j k l m n)
      | _ => None end
  | T_auditevent => fun vs => match vs with
      | [a; VDate b; VStr c; d; e; f; VStr g; h; VStr i; j; k; l; m] =>
          a ← as_int a; d ← as_str d; e ← as_str e; f ← as_str f; h ← as_int h; j ← as_str j; k ← as_str k;
          l ← as_str l; m ← as_str m; Some (mkAuditEvent a b c d e f g h i j k l m)
      | _ => None end
  | T_enrollmenttoken => fun vs => match vs with
      | [a; VInt b; VInt c; VStr d; VStr e; VStr f; VInt g; VInt h; VDate i; j; VDate k; l; m; n] =>
          a ← as_int a; j ← as_str j; l ← as_date l; m ← as_str m; n ← as_str n;
          Some (mkEnrollmentToken a b c d e f g h i j k l m n)
      | _ => None end
  end.

Definition get_table (t : tname) : DB -> table (row_of t) :=
  match t with
  | T_tenant => tenants | T_sshkey => sshkeys | T_server => servers | T_client => clients | T_operator => operators
  | T_operatortenant => operator_tenants | T_discoveredpeer => discovered | T_certificate => certificates
  | T_auditevent => audit_events | T_enrollmenttoken => tokens
  end.

Definition set_table (t : tname) : table (row_of t) -> DB -> DB :=
  match t with
  | T_tenant => fun x => on_tenants (fun _ => x) | T_sshkey => fun x => on_sshkeys (fun _ => x)
  | T_server => fun x => on_servers (fun _ => x) | T_client => fun x => on_clients (fun _ => x)
  | T_operator => fun x => on_operators (fun _ => x) | T_operatortenant => fun x => on_operator_tenants (fun _ => x)
  | T_discoveredpeer => fun x => on_discovered (fun _ => x) | T_certificate => fun x => on_certificates (fun _ => x)
  | T_auditevent => fun x => on_audit_events (fun _ => x) | T_enrollmenttoken => fun x => on_tokens (fun _ => x)
  end.

(** The foreign keys of a table: column and referenced table. *)
Definition foreign_keys (t : tname) : list ((row_of t -> option Z) * tname) :=
  match t with
  | T_tenant => []
  | T_sshkey => [(key_tenant_id, T_tenant)]
  | T_server => [(srv_tenant_id, T_tenant); (fun r => Some (srv_ssh_key_id r), T_sshkey)]
  | T_client => [(cl_tenant_id, T_tenant); (cl_ssh_key_id, T_sshkey); (fun r => Some (cl_server_id r), T_server)]
  | T_operator => [(op_tenant_id, T_tenant)]
  | T_operatortenant => [(fun r => Some (ot_operator_id r), T_operator); (fun r => Some (ot_tenant_id r), T_tenant)]
  | T_discoveredpeer => [(fun r => Some (dp_server_id r), T_server)]
  | T_certificate => [(crt_tenant_id, T_tenant); (crt_operator_id, T_operator)]
  | T_auditevent => [(ev_tenant_id, T_tenant)]
  | T_enrollmenttoken =>
      [(tok_tenant_id, T_tenant); (fun r => Some (tok_server_id r), T_server); (fun r => Some (tok_ssh_key_id r), T_sshkey)]
  end.

(** The unique constraints of a table besides the primary key. *)
Definition unique_keys (t : tname) : list (row_of t -> string * Z * Z) :=
  match t with
  | T_tenant => [fun r => (tn_name r, 0, 0); fun r => (tn_slug r, 0, 0)]
  | T_sshkey => [fun r => (key_name r, 0, 0)]
  | T_server => []
  | T_client => [fun r => (cl_name r, 0, 0)]
  | T_operator => [fun r => (op_cn r, 0, 0)]
  | T_operatortenant => [fun r => ("", ot_operator_id r, ot_tenant_id r)]
  | T_discoveredpeer => [fun r => (dp_public_key r, dp_server_id r, 0)]
  | T_certificate => [fun r => (crt_serial r, 0, 0)]
  | T_auditevent => []
  | T_enrollmenttoken => [fun r => (tok_token_hash r, 0, 0)]
  end.

(** ** Rows as JSON *)

(** [_serialize_row], of one value and of a row. *)
Definition serialize_value (v : value) : json :=
  match v with
  | VNull => JNull | VInt n => JInt n | VStr s => JStr s | VBool b => JBool b
  | VDate t => JStr (isoformat t) | VEnum s => JStr s | VOther j => j
  end.

Definition core_row (t : tname) (ir : Z * row_of t) : list value := VInt ir.1 :: row_values t ir.2.

Definition serialize_row (t : tname) (ir : Z * row_of t) : json :=
  JObj (zip (col_key <$> columns t) (serialize_value <$> core_row t ir)).

(** [_deserialize_row], of one value and of a row: the columns that the row
    has, with their values. *)
Definition deserialize_value (ty : col_type) (j : json) : outcome value :=
  match j with
  | JStr s =>
      match ty with
      | CDateTime => match fromisoformat s with Some t => Ok (VDate t) | None => Raise (ValueError "Invalid isoformat string") end
      | CEnum values => if mem s values then Ok (VEnum s) else Raise (ValueError (repr s +:+ " is not a valid member"))
      | _ => Ok (VStr s)
      end
  | JNull => Ok VNull | JInt n => Ok (VInt n) | JBool b => Ok (VBool b)
  | _ => Ok (VOther j)
  end.

Fixpoint deserialize_cols (cols : list column) (row : list (string * json)) : outcome (list (string * value)) :=
  match cols with
  | [] => Ok []
  | c :: cols' =>
      match dict_get (col_key c) row with
      | None => deserialize_cols cols' row
      | Some j =>
          match deserialize_value (col_ty c) j with
          | Raise e => Raise e
          | Ok v => match deserialize_cols cols' row with
                    | Raise e => Raise e
                    | Ok out => Ok ((col_key c, v) :: out)
                    end
          end
      end
  end.

Definition deserialize_row (t : tname) (j : json) : outcome (list (string * value)) :=
  match j with
  | JObj row => deserialize_cols (columns t) row
  | _ => Raise (TypeError "row is not a dict")
  end.

(** ** Core statements *)

Definition has_row (t : tname) (d : DB) (k : Z) : bool := bool_decide (is_Some (rows (get_table t d) !! k)).

Definition fk_ok (t : tname) (r : row_of t) (d : DB) : bool :=
  forallb (fun fk => match fk.1 r with None => true | Some k => has_row fk.2 d k end) (foreign_keys t).

Definition unique_ok (t : tname) (r : row_of t) (d : DB) : bool :=
  forallb (fun u => forallb (fun ir => negb (bool_decide (u ir.2 = u r))) (map_to_list (rows (get_table t d)))) (unique_keys t).

Definition insert_ok (t : tname) (id : Z) (r : row_of t) (d : DB) : bool :=
  negb (has_row t d id) && fk_ok t r d && unique_ok t r d.

(** A row with an explicit key moves the auto-increment counter past it. *)
Definition put {A} (id : Z) (r : A) (tb : table A) : table A :=
  mkTable (<[id := r]> (rows tb)) (Z.max (next_id tb) (id + 1)).

(** The value a column gets from an [INSERT] of the columns [keys]. *)
Definition column_value (now : Z) (keys : list string) (given : list (string * value)) (c : column) : value :=
  if mem (col_key c) keys then default VNull (dict_get (col_key c) given)
  else match col_default c with Some f => f now | None => VNull end.

Definition insert_row (now : Z) (t : tname) (keys : list string) (given : list (string * value)) : M unit :=
  raise_if (existsb (fun k => bool_decide (dict_get k given = None)) keys) (ValueError "A value is required for bind parameter") ;;
  d <- get_db ;;
  match column_value now keys given <$> columns t with
  | idv :: vs =>
      match as_int idv, row_from t vs with
      | Some oid, Some r =>
          let id := default (next_id (get_table t d)) oid in
          flush_checked (insert_ok t id r) (fun d => set_table t (put id r (get_table t d)) d)
      | _, _ => raise IntegrityError
      end
  | [] => raise IntegrityError
  end.

(** [conn.execute(table.insert(), rows)]: the first row decides the columns. *)
Fixpoint insert_each (now : Z) (t : tname) (keys : list string) (l : list (list (string * value))) : M unit :=
  match l with
  | [] => ret tt
  | given :: l' => insert_row now t keys given ;; insert_each now t keys l'
  end.

Definition insert_rows (now : Z) (t : tname) (l : list (list (string * value))) : M unit :=
  match l with [] => ret tt | given :: _ => insert_each now t (map fst given) l end.

(** Rows of [t'] that refer to a row of [t]. *)
Definition refers_to (t t' : tname) (d : DB) : bool :=
  existsb (fun ir => existsb (fun fk => bool_decide (fk.2 = t) &&
      match fk.1 ir.2 with Some k => has_row t d k | None => false end) (foreign_keys t'))
    (map_to_list (rows (get_table t' d))).

(** [conn.execute(table.delete())] *)
Definition delete_rows (t : tname) : M unit :=
  flush_checked (fun d => negb (existsb (fun t' => refers_to t t' d) backup_tables))
    (fun d => set_table t (mkTable ∅ (next_id (get_table t d))) d).

(** [with engine.begin() as conn: m] *)
Definition transaction {A} (m : M A) : M A := with_session (x <- m ;; commit ;; ret x).

(** ** The dump *)

Definition BACKUP_VERSION : Z := 2.
Definition SUPPORTED_BACKUP_VERSIONS : list Z := [1; 2].

(** [SELECT ... ORDER BY id] *)
Definition id_le {A} (x y : Z * A) : Prop := x.1 <= y.1.
#[export] Instance id_le_dec {A} : RelDecision (@id_le A).
Proof. intros x y. unfold id_le. apply _. Defined.
Definition select_all (t : tname) (d : DB) : list (Z * row_of t) :=
  sorting.merge_sort id_le (map_to_list (rows (get_table t d))).

Definition dump_table (d : DB) (t : tname) : string * json :=
  (table_name t, JList (serialize_row t <$> select_all t d)).

Definition dump (d : DB) : json :=
  JObj [("version", JInt BACKUP_VERSION); ("tables", JObj (dump_table d <$> backup_tables))].

(** ** The envelope *)

(** AES-GCM under a key and a nonce, and the random bytes of one backup. *)
Record aead := mkAead {
  gcm_encrypt : bytes -> bytes -> bytes -> bytes; gcm_decrypt : bytes -> bytes -> bytes -> option bytes
}.

(** [base64.b64decode(s)] without validation: characters outside the alphabet
    are skipped, and the padding that completes a group ends the data. *)
Fixpoint a2b_base64 (quad_pos pads left : Z) (s : string) : option bytes :=
  match s with
  | "" => if quad_pos =? 0 then Some [] else None
  | String c s' =>
      if ceqb c b64_pad then
        if (2 <=? quad_pos) && (4 <=? quad_pos + pads + 1) then Some []
        else a2b_base64 quad_pos (if 2 <=? quad_pos then pads + 1 else pads) left s'
      else match b64_val c with
      | None => a2b_base64 quad_pos pads left s'
      | Some v =>
          if quad_pos =? 0 then a2b_base64 1 0 v s'
          else if quad_pos =? 1 then cons (z_byte (left * 4 + v / 16)) <$> a2b_base64 2 0 (v mod 16) s'
          else if quad_pos =? 2 then cons (z_byte (left * 16 + v / 4)) <$> a2b_base64 3 0 (v mod 4) s'
          else cons (z_byte (left * 64 + v)) <$> a2b_base64 0 0 0 s'
      end
  end.

Definition b64decode_lenient (s : string) : option bytes := if isascii s then a2b_base64 0 0 0 s else None.

Section envelope.
Context `{CryptoBackend} (gcm : aead).

Definition envelope_context (now : Z) : string := "backup:" +:+ isoformat_us now.

Definition envelope_encrypt (now : Z) (dek nonce plaintext : bytes) : outcome json :=
  let context := envelope_context now in
  match cb_encrypt dek context with
  | Raise e => Raise e
  | Ok dek_ct => Ok (JObj
      [("version", JInt BACKUP_VERSION); ("encrypted", JBool true); ("created_at", JStr (isoformat now));
       ("context", JStr context); ("dek_ct", JStr dek_ct); ("nonce_b64", JStr (b64encode nonce));
       ("ciphertext_b64", JStr (b64encode (gcm_encrypt gcm dek nonce plaintext)))])
  end.

Definition get_str (k : string) (env : list (string * json)) : outcome string :=
  match dict_get k env with
  | None => Raise (ValueError "envelope missing required fields")
  | Some (JStr s) => Ok s
  | Some _ => Raise (TypeError k)
  end.

Definition envelope_decrypt (env : list (string * json)) : outcome bytes :=
  match get_str "dek_ct" env, get_str "context" env, get_str "nonce_b64" env, get_str "ciphertext_b64" env with
  | Ok dek_ct, Ok context, Ok nonce_b64, Ok ciphertext_b64 =>
      match cb_decrypt dek_ct context with
      | Raise e => Raise e
      | Ok dek =>
          match b64decode_lenient nonce_b64, b64decode_lenient ciphertext_b64 with
          | Some nonce, Some ciphertext =>
              match gcm_decrypt gcm dek nonce ciphertext with
              | Some plaintext => Ok plaintext
              | None => Raise (CryptoError "InvalidTag")
              end
          | _, _ => Raise (ValueError "Incorrect padding")
          end
      end
  | Raise e, _, _, _ | _, Raise e, _, _ | _, _, Raise e, _ | _, _, _, Raise e => Raise e
  end.
End envelope.

(** ** The commands *)

(** [path.write_text(body)] keeps the mode of an existing file. *)
Definition write_text (path body : string) : M unit := fun w =>
  write_bytes path body (match files (outside w) !! path with Some (_, mode) => mode | None => CERT_MODE end) w.

Definition read_text (path : string) : M string := fun w =>
  match files (outside w) !! path with
  | Some (body, _) => (Ok body, w)
  | None => (Raise (Exit 2 ("Invalid value for '--input' / '-i': File " +:+ repr path +:+ " does not exist.")), w)
  end.

Section commands.
Context `{CryptoBackend} (gcm : aead) (now : Z).

(** [db backup]; [dek] and [nonce] are the random bytes of the envelope. *)
Definition db_backup (dek nonce : bytes) (output : string) (encrypt : bool) : M unit :=
  d <- with_session get_db ;;
  let plaintext := json_pretty (dump d) in
  if encrypt then
    env <- lift (envelope_encrypt gcm now dek nonce (utf8 plaintext)) ;;
    write_text output (json_pretty env)
  else write_text output plaintext.

Definition json_truthy (j : json) : bool :=
  match j with
  | JNull => false | JBool b => b | JInt n => negb (n =? 0) | JStr s => nonempty s
  | JList l => negb (bool_decide (length l = 0%nat)) | JObj l => negb (bool_decide (length l = 0%nat))
  end.

Definition as_dict (e : exn) (j : json) : M (list (string * json)) :=
  match j with JObj l => ret l | _ => raise e end.

(** [version in _SUPPORTED_BACKUP_VERSIONS]; [True == 1]. *)
Definition supported_version (j : json) : bool :=
  match j with JInt n => mem n SUPPORTED_BACKUP_VERSIONS | JBool b => b | _ => false end.

Fixpoint deserialize_all (t : tname) (l : list json) : outcome (list (list (string * value))) :=
  match l with
  | [] => Ok []
  | j :: l' =>
      match deserialize_row t j with
      | Raise e => Raise e
      | Ok r => match deserialize_all t l' with Raise e => Raise e | Ok rs => Ok (r :: rs) end
      end
  end.

(** The check that refuses to overwrite rows. *)
Fixpoint check_empty (drop_existing : bool) (ts : list tname) : M unit :=
  match ts with
  | [] => ret tt
  | t :: ts' =>
      d <- get_db ;;
      let existing := Z.of_nat (size (rows (get_table t d))) in
      raise_if ((0 <? existing) && negb drop_existing)
        (Exit 1 ("table " +:+ repr (table_name t) +:+ " has " +:+ dec existing +:+
           " existing row(s); pass --drop-existing to truncate before restore")) ;;
      check_empty drop_existing ts'
  end.

Fixpoint delete_each (ts : list tname) : M unit :=
  match ts with [] => ret tt | t :: ts' => delete_rows t ;; delete_each ts' end.

Definition restore_table (data : list (string * json)) (t : tname) : M unit :=
  match dict_get (table_name t) data with
  | Some (JList l) => rs <- lift (deserialize_all t l) ;; insert_rows now t rs
  | _ => raise (TypeError "table is not a list")
  end.

Fixpoint restore_each (data : list (string * json)) (ts : list tname) : M unit :=
  match ts with [] => ret tt | t :: ts' => restore_table data t ;; restore_each data ts' end.

(** The transaction: refuse, delete children first, insert parents first. *)
Definition restore_tables (drop_existing : bool) (data : list (string * json)) (ts : list tname) : M unit :=
  check_empty drop_existing ts ;;
  (if drop_existing then delete_each (rev ts) else ret tt) ;;
  restore_each data ts.

(** [exc_text] is [str] of an exception, [show] of a JSON value. *)
Definition open_envelope (exc_text : exn -> string) (raw : list (string * json)) : M (list (string * json)) :=
  plaintext <- match envelope_decrypt gcm raw with
               | Ok p => ret p
               | Raise e => raise (Exit 1 ("decrypt failed: " +:+ exc_text e))
               end ;;
  text <- some_or_raise (utf8_decode plaintext) (ValueError "'utf-8' codec can't decode bytes") ;;
  j <- some_or_raise (json_loads text) (ValueError "Expecting value") ;;
  as_dict (AttributeError "get") j.

(** The command from the version check on. *)
Definition restore_dump (show : json -> string) (drop_existing : bool) (raw : list (string * json)) : M unit :=
  let version := default (JInt 0) (dict_get "version" raw) in
  raise_if (negb (supported_version version))
    (Exit 1 ("unsupported backup version " +:+ show version +:+ " (expected one of (1, 2))")) ;;
  tables <- some_or_raise (dict_get "tables" raw) (KeyError "tables") ;;
  data <- as_dict (TypeError "tables is not a dict") tables ;;
  transaction (restore_tables drop_existing data
    (List.filter (fun t => mem (table_name t) (map fst data)) backup_tables)).

Definition db_restore (exc_text : exn -> string) (show : json -> string) (input_file : string)
    (drop_existing decrypt : bool) : M unit :=
  raw_text <- read_text input_file ;;
  j <- some_or_raise (json_loads raw_text) (Exit 1 "backup file is not valid JSON") ;;
  raw <- as_dict (AttributeError "get") j ;;
  let file_is_encrypted := match dict_get "encrypted" raw with Some j => json_truthy j | None => false end in
  raise_if (file_is_encrypted && negb decrypt) (Exit 1 "backup file is encrypted; pass --decrypt to restore") ;;
  raise_if (decrypt && negb file_is_encrypted) (Exit 1 "backup file is plain JSON, not encrypted — drop --decrypt") ;;
  raw <- (if decrypt then open_envelope exc_text raw else ret raw) ;;
  restore_dump show drop_existing raw.
End commands.

(** ** A run *)

Definition demo_gcm : aead := mkAead (fun _ _ p => p) (fun _ _ c => Some c).
Definition demo_dek : bytes := be_bytes 32 12345.
Definition demo_nonce : bytes := be_bytes 12 678.

Definition demo_backup_world (encrypt : bool) : World :=
  (@db_backup (LocalDevBackend demo_fernet) demo_gcm 1709210096000456 demo_dek demo_nonce "backup.json" encrypt (start demo_db)).2.

Definition demo_restore (encrypt : bool) : outcome unit * World :=
  @db_restore (LocalDevBackend demo_fernet) demo_gcm 9 (fun _ => "") (fun _ => "") "backup.json" false encrypt
    (mkWorld empty_db empty_db [] [] (outside (demo_backup_world encrypt))).

Example restore_example :
  (demo_restore false).1 = Ok tt /\ (demo_restore true).1 = Ok tt /\
  rows (clients (committed (demo_restore true).2)) = rows (clients demo_db) /\
  rows (operator_tenants (committed (demo_restore true).2)) = rows (operator_tenants demo_db).
Proof. vm_compute. split_and!; reflexivity. Qed.

(** ** Lemmas: rows and values *)

Lemma as_int_oint o : as_int (oint o) = Some o.
Proof. by destruct o. Qed.
Lemma as_str_ostr o : as_str (ostr o) = Some o.
Proof. by destruct o. Qed.
Lemma as_date_odate o : as_date (odate o) = Some o.
Proof. by destruct o. Qed.
Lemma node_by_value s : NodeStatus_of (NodeStatus_value s) = Some s.
Proof. by destruct s. Qed.
Lemma role_by_value s : Role_of (OperatorRole_value s) = Some s.
Proof. by destruct s. Qed.
Lemma mode_by_value s : Mode_of (SSHKeyMode_value s) = Some s.
Proof. by destruct s. Qed.
Lemma status_by_value s : Status_of (OperatorStatus_value s) = Some s.
Proof. by destruct s. Qed.
Lemma cert_type_by_value s : CertificateType_of (CertificateType_value s) = Some s.
Proof. by destruct s. Qed.

Lemma host_cert_by_values h : host_cert_of (ostr (hc_pem h)) (oint (hc_serial h)) (ostr (hc_principals h))
  (odate (hc_valid_after h)) (odate (hc_valid_before h)) (ostr (hc_ca_public_key h)) = Some h.
Proof. unfold host_cert_of. rewrite !as_str_ostr, as_int_oint, !as_date_odate. by destruct h. Qed.

(** A row is determined by its values. *)
Lemma row_from_values t r : row_from t (row_values t r) = Some r.
Proof.
  destruct t; cbn [row_values row_from host_cert_values app];
    rewrite ?as_int_oint, ?as_str_ostr, ?as_date_odate, ?node_by_value, ?role_by_value, ?mode_by_value,
      ?status_by_value, ?cert_type_by_value, ?host_cert_by_values; by destruct r.
Qed.

Definition typed (ty : col_type) (v : value) : bool :=
  match ty, v with
  | _, VNull | CInt, VInt _ | CStr, VStr _ | CBool, VBool _ | CDateTime, VDate _ => true
  | CEnum values, VEnum s => mem s values
  | _, _ => false
  end.

Lemma typed_oint o : typed CInt (oint o) = true.
Proof. by destruct o. Qed.
Lemma typed_ostr o : typed CStr (ostr o) = true.
Proof. by destruct o. Qed.
Lemma typed_odate o : typed CDateTime (odate o) = true.
Proof. by destruct o. Qed.
#[local] Hint Resolve typed_oint typed_ostr typed_odate : wg.

Lemma core_row_typed t ir : Forall2 (fun c v => typed (col_ty c) v = true) (columns t) (core_row t ir).
Proof.
  destruct ir as [i r]. unfold core_row, columns. constructor; [done|].
  destruct t; cbn [row_values host_cert_values host_cert_columns app fst snd];
    repeat (apply Forall2_cons; split; [cbn [col_ty req with_default nullable_col stamped]; auto with wg|]); try done;
    cbn [col_ty req with_default nullable_col stamped];
    match goal with |- typed _ (VEnum (?f ?x)) = true => by destruct x end.
Qed.

(** What a backup can carry: instants of the calendar, and the integers of the
    columns, which have at most 64 bits. *)
Definition storable (v : value) : bool :=
  match v with VDate t => representable t | VInt n => Z.abs n <? UINT64_LIMIT | VOther _ => false | _ => true end.

Lemma deserialize_serialize ty v : typed ty v = true -> storable v = true ->
  deserialize_value ty (serialize_value v) = Ok v.
Proof.
  destruct ty, v; simpl; try done; intros Ht Hs.
  - by rewrite (proj1 (isoformat_roundtrip _ Hs)).
  - by rewrite Ht.
Qed.

Lemma column_keys_distinct t : NoDup (col_key <$> columns t).
Proof. destruct t; apply (bool_decide_unpack _); vm_compute; reflexivity. Qed.

Lemma core_row_length t ir : length (core_row t ir) = length (columns t).
Proof. symmetry. eapply Forall2_length, core_row_typed. Qed.

(** Looking a column up in the zipped row. *)
Lemma dict_get_zip {A} ks (vs : list A) i k v : NoDup ks -> ks !! i = Some k -> vs !! i = Some v ->
  dict_get k (zip ks vs) = Some v.
Proof.
  revert vs i. induction ks as [|k' ks IH]; intros vs i Hnd Hk Hv; [done|].
  destruct vs as [|v' vs]; [done|]. apply NoDup_cons in Hnd as [Hn Hnd]. simpl.
  destruct i as [|i]; simpl in *; [simplify_eq; by rewrite bool_decide_eq_true_2|].
  rewrite bool_decide_eq_false_2; [eauto|]. intros ->. apply Hn. by apply list_elem_of_lookup_2 in Hk.
Qed.

Lemma zip_keys {A} (ks : list string) (vs : list A) : length vs = length ks -> map fst (zip ks vs) = ks.
Proof. revert vs. induction ks as [|k ks IH]; intros [|v vs]; simpl; try done. intros [= E]. by rewrite IH. Qed.

(** Reading a serialised row back gives its columns and values. *)
Lemma deserialize_cols_ok cols vs row :
  Forall2 (fun c v => typed (col_ty c) v = true /\ storable v = true /\
    dict_get (col_key c) row = Some (serialize_value v)) cols vs ->
  deserialize_cols cols row = Ok (zip (col_key <$> cols) vs).
Proof.
  induction 1 as [|c v cols vs (Ht & Hs & Hg) _ IH]; simpl; [done|].
  by rewrite Hg, (deserialize_serialize _ _ Ht Hs), IH.
Qed.

Lemma json_sorted_value v : storable v = true -> json_sorted (serialize_value v) = serialize_value v.
Proof. by destruct v. Qed.

Lemma json_sorted_row t ir : forallb storable (core_row t ir) = true ->
  json_sorted (serialize_row t ir) = JObj (sort_items (zip (col_key <$> columns t) (serialize_value <$> core_row t ir))).
Proof.
  intros Hs. unfold serialize_row. cbn [json_sorted]. f_equal. f_equal.
  generalize (col_key <$> columns t). rewrite forallb_forall in Hs. revert Hs.
  generalize (core_row t ir). intros vs Hs ks. revert vs Hs.
  induction ks as [|k ks IH]; intros [|v vs] Hs; simpl; try done.
  rewrite json_sorted_value by (apply Hs; by left). f_equal. apply IH. intros x Hx. apply Hs. by right.
Qed.

Lemma deserialize_row_ok t ir : forallb storable (core_row t ir) = true ->
  deserialize_row t (json_sorted (serialize_row t ir)) = Ok (zip (col_key <$> columns t) (core_row t ir)).
Proof.
  intros Hs. rewrite json_sorted_row by done. cbn [deserialize_row].
  apply deserialize_cols_ok, Forall2_same_length_lookup_2; [symmetry; apply core_row_length|].
  intros n c v Hc Hv. split.
  - exact (Forall2_lookup_lr _ _ _ _ _ _ (core_row_typed t ir) Hc Hv).
  - rewrite forallb_forall in Hs. split; [apply Hs; rewrite <- list_elem_of_In; by eapply list_elem_of_lookup_2|].
    assert (Hl : length (serialize_value <$> core_row t ir) = length (col_key <$> columns t))
      by (by rewrite !length_fmap, core_row_length).
    rewrite dict_get_sorted by (rewrite zip_keys by done; apply column_keys_distinct).
    apply (dict_get_zip _ _ n); [apply column_keys_distinct|..]; rewrite list_lookup_fmap, ?Hc, ?Hv; done.
Qed.

Lemma deserialize_all_ok t l : forallb (fun ir => forallb storable (core_row t ir)) l = true ->
  deserialize_all t (json_sorted <$> (serialize_row t <$> l)) =
  Ok ((fun ir => zip (col_key <$> columns t) (core_row t ir)) <$> l).
Proof.
  induction l as [|ir l IH]; cbn [forallb fmap list_fmap deserialize_all]; [done|].
  intros [H1 H2]%andb_true_iff. rewrite deserialize_row_ok by done.
  change (list_fmap ?A ?B ?f ?x) with (f <$> x) in *. by rewrite IH.
Qed.

(** ** Lemmas: inserting rows *)

Lemma get_set_same t x d : get_table t (set_table t x d) = x.
Proof. by destruct t. Qed.
Lemma get_set_other t t' x d : t' <> t -> get_table t' (set_table t x d) = get_table t' d.
Proof. destruct t, t'; done. Qed.

Lemma column_values_all now t vs : length vs = length (columns t) ->
  column_value now (col_key <$> columns t) (zip (col_key <$> columns t) vs) <$> columns t = vs.
Proof.
  intros Hl. apply list_eq_same_length with (length vs); [done|by rewrite length_fmap|].
  intros n x y _ Hx Hy. rewrite list_lookup_fmap in Hx. destruct (columns t !! n) as [c|] eqn:Hc; [|done].
  apply (inj Some) in Hx. rewrite <- Hx. unfold column_value.
  assert (Hk : (col_key <$> columns t) !! n = Some (col_key c)) by (by rewrite list_lookup_fmap, Hc).
  rewrite (proj2 (mem_true _ _)) by (by eapply list_elem_of_lookup_2).
  by rewrite (dict_get_zip _ _ n _ y (column_keys_distinct t) Hk Hy).
Qed.

Lemma insert_row_full now t ir w :
  insert_row now t (col_key <$> columns t) (zip (col_key <$> columns t) (core_row t ir)) w =
  flush_checked (insert_ok t ir.1 ir.2) (fun d => set_table t (put ir.1 ir.2 (get_table t d)) d) w.
Proof.
  unfold insert_row.
  assert (E : existsb (fun k => bool_decide (dict_get k (zip (col_key <$> columns t) (core_row t ir)) = None))
      (col_key <$> columns t) = false).
  { apply existsb_none. intros k [n Hk]%list_elem_of_lookup_1. apply bool_decide_eq_false.
    destruct (lookup_lt_is_Some_2 (core_row t ir) n) as [v Hv].
    { rewrite core_row_length. apply lookup_lt_Some in Hk. by rewrite length_fmap in Hk. }
    by rewrite (dict_get_zip _ _ n _ v (column_keys_distinct t) Hk Hv). }
  rewrite E. unfold raise_if. rewrite bind_ret, bind_get_db, column_values_all by apply core_row_length.
  unfold core_row. cbv beta iota. cbn [as_int]. by rewrite row_from_values.
Qed.

(** The world [w] with the session's view [d]. *)
Definition with_view (w : World) (d : DB) : World := mkWorld (committed w) d (queue w) (audit_log w) (outside w).

Lemma fk_no_self t : Forall (fun fk => fk.2 <> t) (foreign_keys t).
Proof. destruct t; repeat constructor; done. Qed.

Lemma fk_ok_other t r d d' : (forall t', t' <> t -> get_table t' d' = get_table t' d) -> fk_ok t r d' = fk_ok t r d.
Proof.
  intros Ho. unfold fk_ok. pose proof (fk_no_self t) as Hs. induction Hs as [|fk l Hf _ IH]; simpl; [done|].
  rewrite IH. unfold has_row. by rewrite Ho.
Qed.

(** Rows with new keys, valid references and fresh unique columns. *)
Record insertable (t : tname) (l : list (Z * row_of t)) (d : DB) : Prop := mkInsertable {
  ins_ids : NoDup l.*1;
  ins_new : forall ir, ir ∈ l -> rows (get_table t d) !! ir.1 = None;
  ins_refs : forall ir, ir ∈ l -> fk_ok t ir.2 d = true;
  ins_unique : forall u, u ∈ unique_keys t -> NoDup ((fun ir => u ir.2) <$> l);
  ins_fresh : forall u ir j r, u ∈ unique_keys t -> ir ∈ l -> rows (get_table t d) !! j = Some r -> u r <> u ir.2
}.

Lemma insertable_ok t ir l d : insertable t (ir :: l) d -> insert_ok t ir.1 ir.2 d = true.
Proof.
  intros [_ Hn Hr _ Hf]. unfold insert_ok. rewrite !andb_true_iff. split_and!.
  - unfold has_row. rewrite Hn by by left. done.
  - apply Hr. by left.
  - unfold unique_ok. rewrite forallb_forall. intros u Hu. rewrite forallb_forall. intros [j r] Hj.
    apply list_elem_of_In in Hu. apply list_elem_of_In in Hj. apply elem_of_map_to_list in Hj.
    apply negb_true_iff, bool_decide_eq_false. apply (Hf u ir j r); [done|by left|done].
Qed.

Lemma insertable_next t i r l d : insertable t ((i, r) :: l) d ->
  insertable t l (set_table t (put i r (get_table t d)) d).
Proof.
  intros [Hi Hn Hr Hu Hf]. rewrite fmap_cons in Hi. apply NoDup_cons in Hi as [Hi Hnd]. split.
  - done.
  - intros ir Hin. rewrite get_set_same. simpl. rewrite lookup_insert_ne; [apply Hn; by right|].
    intros E. apply Hi. simpl. rewrite E. by apply (list_elem_of_fmap_2 fst).
  - intros ir Hin. rewrite (fk_ok_other t ir.2 d); [apply Hr; by right|]. intros. by apply get_set_other.
  - intros u Hin. specialize (Hu u Hin). rewrite fmap_cons in Hu. by apply NoDup_cons in Hu as [_ ?].
  - intros u ir j r' Hin Hir. rewrite get_set_same. simpl. rewrite lookup_insert. case_decide.
    + intros [= <-] E. specialize (Hu u Hin). rewrite fmap_cons in Hu. apply NoDup_cons in Hu as [Hnew _].
      apply Hnew. simpl. rewrite E. by apply (list_elem_of_fmap_2 (fun ir => u ir.2)).
    + intros Hj. apply (Hf u ir j r' Hin); [by right|done].
Qed.

Lemma insert_each_rows now t l w : insertable t l (view w) ->
  exists d', insert_each now t (col_key <$> columns t) ((fun ir => zip (col_key <$> columns t) (core_row t ir)) <$> l) w
    = (Ok tt, with_view w d') /\
    (forall t', t' <> t -> get_table t' d' = get_table t' (view w)) /\
    rows (get_table t d') = list_to_map l ∪ rows (get_table t (view w)).
Proof.
  revert w. induction l as [|[i r] l IH]; intros w Hins.
  - exists (view w). split_and!; [by destruct w|done|]. simpl. by rewrite (left_id_L ∅ (∪)).
  - rewrite fmap_cons. cbn [insert_each]. unfold bind at 1. rewrite insert_row_full. unfold flush_checked.
    rewrite (insertable_ok t (i, r) l (view w) Hins). cbn [modify_db fst snd].
    destruct (IH _ (insertable_next t i r l (view w) Hins : insertable t l (view (mkWorld (committed w)
      (set_table t (put i r (get_table t (view w))) (view w)) (queue w) (audit_log w) (outside w)))))
      as (d' & E & Ho & Hrows). exists d'. split; [exact E|]. cbn [view] in *. split.
    + intros t' Ht. rewrite Ho by done. by apply get_set_other.
    + rewrite Hrows, get_set_same. simpl. rewrite <- insert_union_l, insert_union_r; [done|].
      apply not_elem_of_list_to_map_1. destruct Hins as [Hi _ _ _ _]. rewrite fmap_cons in Hi. by apply NoDup_cons in Hi as [? _].
Qed.

Lemma insert_rows_ok now t l w : insertable t l (view w) ->
  exists d', insert_rows now t ((fun ir => zip (col_key <$> columns t) (core_row t ir)) <$> l) w = (Ok tt, with_view w d') /\
    (forall t', t' <> t -> get_table t' d' = get_table t' (view w)) /\
    rows (get_table t d') = list_to_map l ∪ rows (get_table t (view w)).
Proof.
  intros Hins. destruct l as [|ir l].
  - exists (view w). split_and!; [by destruct w|done|]. simpl. by rewrite (left_id_L ∅ (∪)).
  - unfold insert_rows. rewrite fmap_cons. rewrite zip_keys by (by rewrite length_fmap, core_row_length).
    rewrite <- (fmap_cons (fun ir => zip (col_key <$> columns t) (core_row t ir))). by apply insert_each_rows.
Qed.

(** ** Lemmas: the order of the tables *)

(** Every table comes after the tables it refers to. *)
Fixpoint parents_first (before ts : list tname) : bool :=
  match ts with
  | [] => true
  | t :: ts' => forallb (fun fk => mem fk.2 before) (foreign_keys t) && negb (mem t before) && parents_first (t :: before) ts'
  end.

(** Every table comes after the tables that refer to it. *)
Fixpoint children_first (before ts : list tname) : bool :=
  match ts with
  | [] => true
  | t :: ts' =>
      forallb (fun t' => mem t' before || negb (existsb (fun fk => bool_decide (fk.2 = t)) (foreign_keys t'))) backup_tables
      && children_first (t :: before) ts'
  end.

Lemma parents_first_new before ts t : parents_first before ts = true -> t ∈ before -> t ∉ ts.
Proof.
  revert before. induction ts as [|x ts IH]; intros before; simpl; [by intros _ _ ?%elem_of_nil|].
  rewrite !andb_true_iff. intros [[_ Hx%negb_true_iff%mem_false] Hp] Hin [->|Ht]%elem_of_cons; [done|].
  apply (IH _ Hp) in Ht; [done|by right].
Qed.

Lemma backup_tables_parents_first : parents_first [] backup_tables = true.
Proof. vm_compute. reflexivity. Qed.
Lemma backup_tables_children_first : children_first [] (rev backup_tables) = true.
Proof. vm_compute. reflexivity. Qed.
Lemma backup_tables_all t : t ∈ backup_tables.
Proof. apply mem_true. by destruct t. Qed.
Lemma table_names_distinct : NoDup (table_name <$> backup_tables).
Proof. apply (bool_decide_unpack _). vm_compute. reflexivity. Qed.
Lemma table_name_inj t t' : table_name t = table_name t' -> t = t'.
Proof. by destruct t, t'. Qed.

(** ** Lemmas: what can be restored *)

Definition db_storable (d : DB) : bool :=
  forallb (fun t => forallb (fun ir => forallb storable (core_row t ir)) (select_all t d)) backup_tables.
Definition db_refs (d : DB) : bool :=
  forallb (fun t => forallb (fun ir => fk_ok t ir.2 d) (select_all t d)) backup_tables.
Definition db_unique (d : DB) : bool :=
  forallb (fun t => forallb (fun u => bool_decide (NoDup ((fun ir => u ir.2) <$> select_all t d))) (unique_keys t)) backup_tables.

(** A database whose contents a backup can carry, with valid references and
    unique columns. *)
Definition backup_ok (d : DB) : bool := db_storable d && db_refs d && db_unique d.

Lemma for_table (p : tname -> bool) t : forallb p backup_tables = true -> p t = true.
Proof. rewrite forallb_forall. intros H. apply H, list_elem_of_In, backup_tables_all. Qed.

Lemma select_all_perm t d : select_all t d ≡ₚ map_to_list (rows (get_table t d)).
Proof. apply sorting.merge_sort_Permutation. Qed.

Lemma select_all_map t d : list_to_map (select_all t d) = rows (get_table t d).
Proof.
  etransitivity; [|apply list_to_map_to_list]. apply list_to_map_proper.
  - rewrite select_all_perm. apply NoDup_fst_map_to_list.
  - apply select_all_perm.
Qed.

Lemma restorable d d' before t : backup_ok d = true ->
  forallb (fun fk => mem fk.2 before) (foreign_keys t) = true ->
  (forall t', t' ∈ before -> rows (get_table t' d') = rows (get_table t' d)) -> rows (get_table t d') = ∅ ->
  insertable t (select_all t d) d'.
Proof.
  unfold backup_ok. rewrite !andb_true_iff. intros [[_ Hr] Hu] Hp Hb He. split.
  - rewrite select_all_perm. apply NoDup_fst_map_to_list.
  - intros ir _. rewrite He. apply lookup_empty.
  - intros ir Hir. apply (for_table _ t) in Hr. rewrite forallb_forall in Hr.
    specialize (Hr ir (proj1 (list_elem_of_In _ _) Hir)). unfold fk_ok in *.
    rewrite forallb_forall in Hr, Hp |- *. intros fk Hfk. specialize (Hr fk Hfk). specialize (Hp fk Hfk).
    apply mem_true in Hp. unfold has_row in *. by rewrite (Hb _ Hp).
  - intros u Hin. apply (for_table _ t) in Hu. rewrite forallb_forall in Hu.
    by apply (bool_decide_eq_true_1 _), Hu, list_elem_of_In.
  - intros u ir j r _ _. rewrite He. by rewrite lookup_empty.
Qed.

(** The rows of a backup in the file. *)
Definition carries (data : list (string * json)) (d : DB) : Prop := forall t,
  dict_get (table_name t) data = Some (JList (json_sorted <$> (serialize_row t <$> select_all t d))).

Lemma restore_each_ok now data d : carries data d -> backup_ok d = true ->
  forall ts before w, parents_first before ts = true ->
  (forall t, t ∈ before -> rows (get_table t (view w)) = rows (get_table t d)) ->
  (forall t, t ∈ ts -> rows (get_table t (view w)) = ∅) ->
  exists d', restore_each now data ts w = (Ok tt, with_view w d') /\
    (forall t, t ∈ before \/ t ∈ ts -> rows (get_table t d') = rows (get_table t d)).
Proof.
  intros Hc Hok. induction ts as [|t ts IH]; intros before w Hp Hb He.
  - exists (view w). split; [by destruct w|]. intros t [?|?%elem_of_nil]; [by apply Hb|done].
  - simpl in Hp. rewrite !andb_true_iff in Hp. destruct Hp as [[Hfk Hnew] Hp]. apply negb_true_iff, mem_false in Hnew.
    cbn [restore_each]. unfold restore_table. rewrite (Hc t).
    assert (Hs : forallb (fun ir => forallb storable (core_row t ir)) (select_all t d) = true).
    { unfold backup_ok, db_storable in Hok. rewrite !andb_true_iff in Hok. destruct Hok as [[Hs _] _].
      by apply (for_table _ t) in Hs. }
    rewrite deserialize_all_ok by done.
    destruct (insert_rows_ok now t (select_all t d) w) as (d1 & E & Ho & Hrows).
    { apply (restorable d _ before); [done|done|done|apply He; by left]. }
    unfold bind at 1 2, lift. rewrite E.
    destruct (IH (t :: before) (with_view w d1)) as (d' & E' & Hd').
    + done.
    + intros t' [->|Hin]%elem_of_cons; cbn [view with_view].
      * rewrite Hrows, He by by left. by rewrite (right_id_L ∅ (∪)), select_all_map.
      * rewrite Ho; [by apply Hb|]. intros ->. done.
    + intros t' Hin. cbn [view with_view]. destruct (decide (t' = t)) as [->|].
      * by apply (parents_first_new _ _ _ Hp) in Hin; [|by left].
      * rewrite Ho by done. apply He. by right.
    + exists d'. split; [exact E'|]. intros t' [Hin|[->|Hin]%elem_of_cons]; apply Hd'; [left; by right|left; by left|by right].
Qed.

Lemma not_referred t d before :
  forallb (fun t' => mem t' before || negb (existsb (fun fk => bool_decide (fk.2 = t)) (foreign_keys t'))) backup_tables = true ->
  (forall t', t' ∈ before -> rows (get_table t' d) = ∅) ->
  existsb (fun t' => refers_to t t' d) backup_tables = false.
Proof.
  intros Hc Hb. apply existsb_none. intros t' _. apply (for_table _ t') in Hc.
  apply existsb_none. intros ir Hir. apply orb_true_iff in Hc as [Hm|Hn].
  - apply mem_true in Hm. rewrite (Hb _ Hm), map_to_list_empty in Hir. by apply elem_of_nil in Hir.
  - apply existsb_none. intros fk Hfk. apply negb_true_iff in Hn. rewrite existsb_none in Hn.
    by rewrite (Hn fk Hfk).
Qed.

Lemma delete_each_ok ts before w : children_first before ts = true ->
  (forall t, t ∈ before -> rows (get_table t (view w)) = ∅) ->
  exists d', delete_each ts w = (Ok tt, with_view w d') /\
    (forall t, t ∈ before \/ t ∈ ts -> rows (get_table t d') = ∅).
Proof.
  revert before w. induction ts as [|t ts IH]; intros before w Hc Hb.
  - exists (view w). split; [by destruct w|]. intros t [?|?%elem_of_nil]; [by apply Hb|done].
  - simpl in Hc. apply andb_true_iff in Hc as [Hn Hc]. cbn [delete_each]. unfold bind at 1, delete_rows, flush_checked.
    rewrite (not_referred t (view w) before Hn Hb). cbn [negb modify_db].
    destruct (IH (t :: before) (with_view w (set_table t (mkTable ∅ (next_id (get_table t (view w)))) (view w))) Hc)
      as (d' & E & Hd').
    + intros t' Ht'. cbn [view with_view]. destruct (decide (t' = t)) as [->|Hne]; [by rewrite get_set_same|].
      rewrite get_set_other by done. apply elem_of_cons in Ht' as [?|?]; [done|by apply Hb].
    + exists d'. split; [exact E|]. intros t' [Hin|[->|Hin]%elem_of_cons]; apply Hd'; [left; by right|left; by left|by right].
Qed.

Lemma check_empty_ok drop ts w : drop = true \/ (forall t, rows (get_table t (view w)) = ∅) ->
  check_empty drop ts w = (Ok tt, w).
Proof.
  intros H. induction ts as [|t ts IH]; [done|]. cbn [check_empty]. rewrite bind_get_db.
  assert (E : (0 <? Z.of_nat (size (rows (get_table t (view w))))) && negb drop = false).
  { destruct H as [->|H]; [apply andb_false_r|]. by rewrite H, map_size_empty. }
  rewrite E. exact IH.
Qed.

(** The transaction on the contents of a backup. *)
Lemma restore_tables_ok now drop data d w : carries data d -> backup_ok d = true ->
  drop = true \/ (forall t, rows (get_table t (view w)) = ∅) ->
  exists d', restore_tables now drop data backup_tables w = (Ok tt, with_view w d') /\
    forall t, rows (get_table t d') = rows (get_table t d).
Proof.
  intros Hc Hok H. unfold restore_tables. rewrite (bind_step _ _ _ _ _ (check_empty_ok drop backup_tables w H)).
  assert (Hdel : exists d1, (if drop then delete_each (rev backup_tables) else ret tt) w = (Ok tt, with_view w d1) /\
    forall t, rows (get_table t d1) = ∅).
  { destruct drop.
    - destruct (delete_each_ok (rev backup_tables) [] w backup_tables_children_first) as (d1 & E & Hd1);
        [by intros t ?%elem_of_nil|]. exists d1. split; [done|]. intros t. apply Hd1. right.
      apply list_elem_of_In, in_rev. rewrite rev_involutive. apply list_elem_of_In, backup_tables_all.
    - exists (view w). split; [by destruct w|]. by destruct H. }
  destruct Hdel as (d1 & E1 & He). rewrite (bind_step _ _ _ _ _ E1).
  destruct (restore_each_ok now data d Hc Hok backup_tables [] (with_view w d1) backup_tables_parents_first)
    as (d' & E & Hd'); [by intros t ?%elem_of_nil|by intros; apply He|].
  exists d'. split; [exact E|]. intros t. apply Hd'. right. apply backup_tables_all.
Qed.

(** ** Lemmas: the file *)

Lemma uint64_prints : UINT64_LIMIT <= 10 ^ max_str_digits.
Proof.
  unfold UINT64_LIMIT, max_str_digits. transitivity (10 ^ 20); [vm_compute; discriminate|].
  apply Z.pow_le_mono_r; lia.
Qed.

Lemma json_ok_row t ir : forallb storable (core_row t ir) = true -> json_ok (serialize_row t ir) = true.
Proof.
  intros Hs. unfold serialize_row. cbn [json_ok]. apply andb_true_iff. split.
  - apply bool_decide_eq_true. rewrite zip_keys by (by rewrite !length_fmap, core_row_length).
    apply column_keys_distinct.
  - rewrite forallb_forall in Hs |- *. intros [k j] Hin%list_elem_of_In.
    apply elem_of_zip_r in Hin. apply list_elem_of_fmap in Hin as (v & -> & Hv%list_elem_of_In).
    apply Hs in Hv. simpl. destruct v; try done. simpl in *. pose proof uint64_prints. blia.
Qed.

Lemma json_ok_dump d : db_storable d = true -> json_ok (dump d) = true.
Proof.
  intros Hs. unfold dump. cbn [json_ok forallb snd fst map]. rewrite !andb_true_iff. split_and!; try done.
  rewrite forallb_forall. intros [k j] Hin%list_elem_of_In.
    apply list_elem_of_fmap in Hin as (t & [= -> ->] & _). cbn [snd json_ok]. rewrite forallb_forall.
    intros x Hx%list_elem_of_In. apply list_elem_of_fmap in Hx as (ir & -> & Hir%list_elem_of_In).
    apply (for_table _ t) in Hs. rewrite forallb_forall in Hs. by apply json_ok_row, Hs.
Qed.

(** What [json.loads] returns for the dump. *)
Definition loaded_tables (d : DB) : list (string * json) :=
  sort_items (map (fun kv => (kv.1, json_sorted kv.2)) (dump_table d <$> backup_tables)).

Lemma loaded_keys d : map fst (map (fun kv : string * json => (kv.1, json_sorted kv.2)) (dump_table d <$> backup_tables))
  = table_name <$> backup_tables.
Proof. done. Qed.

Lemma loaded_carries d : carries (loaded_tables d) d.
Proof.
  intros t. unfold loaded_tables. rewrite dict_get_sorted by (rewrite loaded_keys; apply table_names_distinct).
  apply dict_get_elem; [rewrite loaded_keys; apply table_names_distinct|].
  apply list_elem_of_In, in_map_iff. exists (dump_table d t). split; [done|].
  apply list_elem_of_In, list_elem_of_fmap_2, backup_tables_all.
Qed.

Lemma loaded_all d : List.filter (fun t => mem (table_name t) (map fst (loaded_tables d))) backup_tables = backup_tables.
Proof.
  assert (H : forall t, mem (table_name t) (map fst (loaded_tables d)) = true).
  { intros t. apply mem_true. unfold loaded_tables. rewrite sort_items_self, loaded_keys.
    apply list_elem_of_fmap_2, backup_tables_all. }
  enough (G : forall l, List.filter (fun t => mem (table_name t) (map fst (loaded_tables d))) l = l) by apply G.
  intros l. induction l as [|t l IH]; [done|]. cbn [List.filter]. rewrite H. by f_equal.
Qed.

(** One step of the decoder on a character of the alphabet. *)
Lemma a2b_chr q p left n s : 0 <= n < 64 ->
  a2b_base64 q p left (String (b64std_chr n) s) =
  if q =? 0 then a2b_base64 1 0 n s
  else if q =? 1 then cons (z_byte (left * 4 + n / 16)) <$> a2b_base64 2 0 (n mod 16) s
  else if q =? 2 then cons (z_byte (left * 16 + n / 4)) <$> a2b_base64 3 0 (n mod 4) s
  else cons (z_byte (left * 64 + n)) <$> a2b_base64 0 0 0 s.
Proof. intros Hn. destruct (b64_chr_val n Hn) as [Hv Hp]. cbn [a2b_base64]. by rewrite Hp, Hv. Qed.

Lemma a2b_pads l : a2b_base64 2 0 l (String b64_pad (String b64_pad "")) = Some [] /\
  a2b_base64 3 0 l (String b64_pad "") = Some [].
Proof. split; reflexivity. Qed.

Lemma a2b_encode b : a2b_base64 0 0 0 (b64encode b) = Some b.
Proof.
  assert (Hz : forall n x, n = byte_z x -> z_byte n = x) by (intros n x ->; apply z_byte_byte_z).
  induction b as [b IH] using (induction_ltof1 _ (@length _)).
  destruct b as [|x [|y [|z b]]]; [done| | |]; cbn [b64encode]; cbv zeta; unfold be_int; cbn [fold_left];
    pose proof (byte_z_range x); try pose proof (byte_z_range y); try pose proof (byte_z_range z).
  - rewrite !a2b_chr by (Z.div_mod_to_equations; lia). cbn [Z.eqb Pos.eqb]. rewrite (proj1 (a2b_pads _)).
    cbn [fmap option_fmap option_map]. f_equal. f_equal. apply Hz. Z.div_mod_to_equations. lia.
  - rewrite !a2b_chr by (Z.div_mod_to_equations; lia). cbn [Z.eqb Pos.eqb]. rewrite (proj2 (a2b_pads _)).
    cbn [fmap option_fmap option_map]. f_equal. f_equal; [|f_equal]; apply Hz; Z.div_mod_to_equations; lia.
  - rewrite !a2b_chr by (Z.div_mod_to_equations; lia). cbn [Z.eqb Pos.eqb].
    rewrite IH by (unfold ltof; simpl; lia). cbn [fmap option_fmap option_map]. f_equal. f_equal; [|f_equal; [|f_equal]]; apply Hz; Z.div_mod_to_equations; lia.
Qed.

Lemma b64decode_lenient_encode b : b64decode_lenient (b64encode b) = Some b.
Proof.
  unfold b64decode_lenient. pose proof (b64decode_alphabet _ _ (b64_decode_encode b)) as H.
  assert (Ha : isascii (b64encode b) = true).
  { revert H. apply str_forall_impl. intros c Hc. blia. }
  by rewrite Ha, a2b_encode.
Qed.

(** ** Theorems *)

Lemma json_sorted_dump d : json_sorted (dump d) =
  JObj [("tables", JObj (loaded_tables d)); ("version", JInt BACKUP_VERSION)].
Proof. done. Qed.

Lemma restore_dump_ok now show drop d w : backup_ok d = true ->
  drop = true \/ (forall t, rows (get_table t (committed w)) = ∅) ->
  exists w', restore_dump now show drop [("tables", JObj (loaded_tables d)); ("version", JInt BACKUP_VERSION)] w = (Ok tt, w') /\
    forall t, rows (get_table t (committed w')) = rows (get_table t d).
Proof.
  intros Hok H. unfold restore_dump. set (raw := [("tables", _); _]).
  assert (Ev : dict_get "version" raw = Some (JInt BACKUP_VERSION)) by reflexivity.
  assert (Et : dict_get "tables" raw = Some (JObj (loaded_tables d))) by reflexivity.
  rewrite Ev, Et. cbv zeta. unfold some_or_raise, as_dict.
  assert (Es : negb (supported_version (default (JInt 0) (Some (JInt BACKUP_VERSION)))) = false) by reflexivity.
  rewrite Es. unfold raise_if. rewrite !bind_ret, loaded_all. unfold transaction, with_session.
  destruct (restore_tables_ok now drop (loaded_tables d) d
    (mkWorld (committed w) (committed w) (queue w) (audit_log w) (outside w)) (loaded_carries d) Hok H) as (d' & E & Hd').
  rewrite (bind_step _ _ _ _ _ E). eexists. split; [reflexivity|]. exact Hd'.
Qed.

Section theorems.
Context `{B : CryptoBackend, !CryptoLaws B} (gcm : aead) (now : Z).
Hypothesis gcm_ok : forall k n p, gcm_decrypt gcm k n (gcm_encrypt gcm k n p) = Some p.

(** The envelope opens to the text it was made for. *)
Lemma envelope_opens exc_text dek nonce text raw env w : json_loads text = Some (JObj raw) ->
  envelope_encrypt gcm now dek nonce (utf8 text) = Ok env ->
  exists items, json_ok env = true /\ json_sorted env = JObj items /\
    dict_get "encrypted" items = Some (JBool true) /\ open_envelope gcm exc_text items w = (Ok raw, w).
Proof.
  intros Hs. unfold envelope_encrypt. cbv zeta. destruct (cb_encrypt dek _) as [dek_ct|e] eqn:Ec; [|done]. intros [= <-].
  set (n64 := b64encode nonce). set (ct := b64encode (gcm_encrypt _ _ _ _)). set (ctx := envelope_context now) in *.
  set (items := [("ciphertext_b64", JStr ct); ("context", JStr ctx); ("created_at", JStr (isoformat now)); ("dek_ct", JStr dek_ct);
    ("encrypted", JBool true); ("nonce_b64", JStr n64); ("version", JInt BACKUP_VERSION)]).
  exists items. split; [reflexivity|]. split; [reflexivity|]. split; [reflexivity|].
  assert (H1 : get_str "dek_ct" items = Ok dek_ct) by reflexivity.
  assert (H2 : get_str "context" items = Ok ctx) by reflexivity.
  assert (H3 : get_str "nonce_b64" items = Ok n64) by reflexivity.
  assert (H4 : get_str "ciphertext_b64" items = Ok ct) by reflexivity.
  unfold open_envelope, envelope_decrypt. rewrite H1, H2, H3, H4. unfold n64, ct.
  cbv iota beta. rewrite (decrypt_encrypt _ _ _ Ec), !b64decode_lenient_encode, gcm_ok. unfold some_or_raise, as_dict.
  by rewrite bind_ret, utf8_decode_encode, bind_ret, Hs, bind_ret.
Qed.

(** What [db backup] leaves in the file. *)
Lemma db_backup_file dek nonce path enc w w1 : db_backup gcm now dek nonce path enc w = (Ok tt, w1) ->
  exists mode text, files (outside w1) !! path = Some (text, mode) /\
    if enc then exists env, envelope_encrypt gcm now dek nonce (utf8 (json_pretty (dump (committed w)))) = Ok env /\
                  text = json_pretty env
    else text = json_pretty (dump (committed w)).
Proof.
  unfold db_backup. intros (d & w2 & Eg & E)%bind_Ok. unfold with_session, get_db in Eg. injection Eg as <- <-.
  cbv zeta in E. cbn [view] in E. destruct enc.
  - apply bind_Ok in E as (env & w3 & [He ->]%lift_Ok & E). unfold write_text, write_bytes in E. injection E as <-.
    cbn [outside files]. rewrite lookup_insert_eq. eauto 10.
  - unfold write_text, write_bytes in E. injection E as <-. cbn [outside files]. rewrite lookup_insert_eq. eauto 10.
Qed.

(** A backup restores to the database it was taken from: restoring the file
    that [db backup] wrote, encrypted or not, succeeds on any database when
    [--drop-existing] is given and otherwise on an empty one, and leaves
    exactly the rows, keys and values of the backed-up database in every
    table. *)
Theorem restore_inverts_backup dek nonce path enc w w1 exc_text show now' drop w2 :
  backup_ok (committed w) = true ->
  db_backup gcm now dek nonce path enc w = (Ok tt, w1) ->
  files (outside w2) !! path = files (outside w1) !! path ->
  drop = true \/ (forall t, rows (get_table t (committed w2)) = ∅) ->
  exists w3, db_restore gcm now' exc_text show path drop enc w2 = (Ok tt, w3) /\
    forall t, rows (get_table t (committed w3)) = rows (get_table t (committed w)).
Proof.
  intros Hok (mode & text & Hf & Ht)%db_backup_file Hfile Hdrop. set (d := committed w) in *.
  assert (Hl : json_loads (json_pretty (dump d)) =
    Some (JObj [("tables", JObj (loaded_tables d)); ("version", JInt BACKUP_VERSION)])).
  { rewrite json_loads_pretty; [by rewrite json_sorted_dump|]. apply json_ok_dump.
    unfold backup_ok in Hok. rewrite !andb_true_iff in Hok. apply Hok. }
  unfold db_restore, bind at 1, read_text. rewrite Hfile, Hf. destruct enc.
  - destruct Ht as (env & He & ->). destruct (envelope_opens exc_text _ _ _ _ _ w2 Hl He) as (items & Hj & Hs & Hx & Ho).
    rewrite (json_loads_pretty env Hj), Hs. unfold some_or_raise, as_dict at 1. rewrite !bind_ret, Hx.
    unfold raise_if. cbn [json_truthy andb negb]. rewrite !bind_ret, (bind_step _ _ _ _ _ Ho).
    apply (restore_dump_ok now' show drop d w2 Hok Hdrop).
  - subst text. rewrite Hl. unfold some_or_raise, as_dict at 1. rewrite !bind_ret.
    assert (Hx : dict_get "encrypted" [("tables", JObj (loaded_tables d)); ("version", JInt BACKUP_VERSION)] = None) by reflexivity.
    rewrite Hx. unfold raise_if. cbn [andb negb]. rewrite !bind_ret.
    apply (restore_dump_ok now' show drop d w2 Hok Hdrop).
Qed.
End theorems.

(** Programs that lose no row of the session's view. *)
Definition loses_nothing {A} (m : M A) : Prop := forall w r w', m w = (r, w') ->
  forall t i row, rows (get_table t (view w)) !! i = Some row -> rows (get_table t (view w')) !! i = Some row.

Lemma loses_bind {A C} (m : M A) (k : A -> M C) :
  loses_nothing m -> (forall a, loses_nothing (k a)) -> loses_nothing (x <- m ;; k x).
Proof.
  intros Hm Hk w r w'. unfold bind. destruct (m w) as [[a|e] w1] eqn:E; intros H t i row Hi.
  - eapply Hk; [exact H|]. by eapply Hm.
  - simplify_eq. by eapply Hm.
Qed.

(** A program that does not touch the world. *)
Lemma loses_pure {A} (m : M A) : (forall w, (m w).2 = w) -> loses_nothing m.
Proof. intros H w r w' E t i row. specialize (H w). rewrite E in H. simpl in H. by subst. Qed.

Lemma loses_insert t id row : loses_nothing (flush_checked (insert_ok t id row)
  (fun d => set_table t (put id row (get_table t d)) d)).
Proof.
  intros w r w'. unfold flush_checked. destruct (insert_ok t id row (view w)) eqn:Hok; [|by intros [= <- <-]].
  intros [= <- <-] t' i row' Hi. cbn [view]. destruct (decide (t' = t)) as [->|Hne]; [|by rewrite get_set_other].
  rewrite get_set_same. simpl. rewrite lookup_insert_ne; [done|]. intros <-.
  unfold insert_ok, has_row in Hok. by rewrite Hi in Hok.
Qed.

Lemma loses_insert_row now t keys given : loses_nothing (insert_row now t keys given).
Proof.
  unfold insert_row. apply loses_bind; [apply loses_pure; intros; by destruct (existsb _ _)|]. intros _.
  apply loses_bind; [by apply loses_pure|]. intros d.
  repeat case_match; try (by apply loses_pure). apply loses_insert.
Qed.

Lemma loses_restore_each now data ts : loses_nothing (restore_each now data ts).
Proof.
  induction ts as [|t ts IH]; [by apply loses_pure|]. cbn [restore_each]. apply loses_bind; [|done].
  unfold restore_table. repeat case_match; try (by apply loses_pure). apply loses_bind; [by apply loses_pure|].
  intros [|g gl]; [by apply loses_pure|]. unfold insert_rows. generalize (map fst g). intros keys. generalize (g :: gl).
  intros gs. induction gs as [|x gs IHg]; [by apply loses_pure|]. cbn [insert_each].
  apply loses_bind; [apply loses_insert_row|done].
Qed.

Lemma check_empty_pure drop ts w : (check_empty drop ts w).2 = w.
Proof.
  induction ts as [|t ts IH]; [done|]. cbn [check_empty]. rewrite bind_get_db. unfold bind, raise_if.
  by destruct (_ && _).
Qed.

Lemma quiet_restore_tables now drop data ts : quiet (restore_tables now drop data ts).
Proof.
  assert (Hd : forall ts, quiet (delete_each ts)) by (induction ts0; cbn [delete_each]; unfold delete_rows; auto with wg).
  assert (Hi : forall t keys l, quiet (insert_each now t keys l)).
  { intros t keys l. induction l as [|g l IH]; cbn [insert_each]; [auto with wg|]. apply quiet_bind; [|done].
    unfold insert_row. solve_effect. }
  unfold restore_tables. apply quiet_bind; [|intros _; apply quiet_bind; [destruct drop; auto with wg|intros _]].
  - intros w r w' E. pose proof (check_empty_pure drop ts w) as H. rewrite E in H. simpl in H. by subst.
  - induction ts as [|t ts IH]; cbn [restore_each]; [auto with wg|]. apply quiet_bind; [|done].
    unfold restore_table, insert_rows. solve_effect.
Qed.

(** What a transaction leaves: nothing on failure, its view on success. *)
Lemma transaction_committed {A} (m : M A) w r w' : quiet m -> transaction m w = (r, w') ->
  match r with
  | Raise _ => committed w' = committed w
  | Ok _ => exists w1, m (with_view w (committed w)) = (r, w1) /\ committed w' = view w1
  end.
Proof.
  intros Hq. unfold transaction, with_session, with_view. set (w0 := mkWorld _ _ _ _ _). unfold bind at 1.
  destruct (m w0) as [[a|e] w1] eqn:E; cbn; intros [= <- <-]; [eauto|]. by apply Hq in E as [-> _].
Qed.

Lemma open_envelope_pure `{CryptoBackend} gcm exc_text raw w : (open_envelope gcm exc_text raw w).2 = w.
Proof.
  unfold open_envelope, bind, some_or_raise, as_dict. destruct (envelope_decrypt gcm raw) as [p|]; [|done]. simpl.
  destruct (utf8_decode p) as [text|]; [|done]. simpl. destruct (json_loads text) as [[]|]; done.
Qed.

(** C20. A restore is all or nothing, and without [--drop-existing] it loses no
    row: a command that fails, for whatever reason and at whatever point,
    leaves the database as it was, and one that succeeds without the flag
    keeps every existing row. *)
Theorem restore_is_safe `{CryptoBackend} gcm now exc_text show path drop decrypt w r w' :
  db_restore gcm now exc_text show path drop decrypt w = (r, w') ->
  (forall e, r = Raise e -> committed w' = committed w) /\
  (drop = false -> forall t i row, rows (get_table t (committed w)) !! i = Some row ->
     rows (get_table t (committed w')) !! i = Some row).
Proof.
  assert (Hpre : forall A B (m : M A) (k : A -> M B) (Q : World -> outcome B * World -> Prop),
    (forall w, (m w).2 = w) -> (forall w e, Q w (Raise e, w)) -> (forall a w, Q w (k a w)) ->
    forall w, Q w ((x <- m ;; k x) w)).
  { intros A B m k Q Hm Hr Hk w0. unfold bind. specialize (Hm w0). destruct (m w0) as [[a|e] w1]; simpl in Hm; subst; auto. }
  pose (Q := fun (w : World) (x : outcome unit * World) =>
    (forall e, x.1 = Raise e -> committed x.2 = committed w) /\
    (drop = false -> forall t i row, rows (get_table t (committed w)) !! i = Some row ->
       rows (get_table t (committed x.2)) !! i = Some row)).
  enough (G : Q w (db_restore gcm now exc_text show path drop decrypt w)) by (intros E; by rewrite E in G).
  clear r w'. revert w. unfold db_restore.
  assert (Hr : forall w e, Q w (Raise e, w)) by done.
  apply Hpre; [intros w; unfold read_text; by destruct (_ !! path) as [[]|]|done|intros text].
  apply Hpre; [intros w; by destruct (json_loads text)|done|intros j].
  apply Hpre; [intros w; by destruct j|done|intros raw]. cbv zeta.
  apply Hpre; [intros w; unfold raise_if; by destruct (_ && _)|done|intros _].
  apply Hpre; [intros w; unfold raise_if; by destruct (_ && _)|done|intros _].
  apply Hpre; [|done|intros raw'].
  { intros w. destruct decrypt; [|done]. apply open_envelope_pure. }
  unfold restore_dump. cbv zeta.
  apply Hpre; [intros w; unfold raise_if; by destruct (negb _)|done|intros _].
  apply Hpre; [intros w; by destruct (dict_get "tables" raw')|done|intros tables_json].
  apply Hpre; [intros w; by destruct tables_json|done|intros data w].
  destruct (transaction _ w) as [r w'] eqn:E. apply transaction_committed in E; [|apply quiet_restore_tables].
  destruct r as [u|e]; [|split; [intros; exact E|intros _; cbn [snd]; by rewrite E]].
  destruct E as (w1 & E & Hc). split; [by intros e|]. intros -> t i row Hi. cbn [snd]. rewrite Hc.
  assert (Hl : loses_nothing (restore_tables now false data
    (List.filter (fun t => mem (table_name t) (map fst data)) backup_tables))).
  { unfold restore_tables. apply loses_bind; [apply loses_pure, check_empty_pure|intros _].
    apply loses_bind; [by apply loses_pure|intros _; apply loses_restore_each]. }
  by apply (Hl _ _ _ E).
Qed.

(** ** Witnesses *)

Lemma restore_inverts_backup_witness :
  backup_ok demo_db = true /\
  exists w3, @db_restore (LocalDevBackend demo_fernet) demo_gcm 9 (fun _ => "") (fun _ => "") "backup.json" true true
      (mkWorld revoked_db revoked_db [] [] (outside (demo_backup_world true))) = (Ok tt, w3) /\
    forall t, rows (get_table t (committed w3)) = rows (get_table t demo_db).
Proof.
  assert (Hok : backup_ok demo_db = true) by (vm_compute; reflexivity). split; [exact Hok|].
  apply (@restore_inverts_backup (LocalDevBackend demo_fernet) (LocalDevBackend_laws _ demo_fernet_ok) demo_gcm 1709210096000456
    (fun _ _ _ => eq_refl) demo_dek demo_nonce "backup.json" true (start demo_db) (demo_backup_world true)).
  - exact Hok.
  - unfold demo_backup_world. destruct (db_backup _ _ _ _ _ _ _) as [r w'] eqn:E.
    assert (Hr : (@db_backup (LocalDevBackend demo_fernet) demo_gcm 1709210096000456 demo_dek demo_nonce "backup.json" true
      (start demo_db)).1 = Ok tt) by (vm_compute; reflexivity). rewrite E in Hr. simpl in Hr. by subst.
  - reflexivity.
  - by left.
Defined.

Lemma restore_is_safe_witness : exists r w',
  @db_restore (LocalDevBackend demo_fernet) demo_gcm 9 (fun _ => "") (fun _ => "") "backup.json" false true
    (mkWorld demo_db demo_db [] [] (outside (demo_backup_world false))) = (r, w') /\
  r = Raise (Exit 1 "backup file is plain JSON, not encrypted — drop --decrypt") /\ committed w' = demo_db.
Proof.
  eexists _, _. split; [apply surjective_pairing|].
  match goal with |- ?x = _ /\ _ => assert (Hr : x = Raise (Exit 1 "backup file is plain JSON, not encrypted — drop --decrypt"))
    by (vm_compute; reflexivity) end.
  split; [exact Hr|].
  destruct (@restore_is_safe (LocalDevBackend demo_fernet) demo_gcm 9 (fun _ => "") (fun _ => "") "backup.json" false true
    (mkWorld demo_db demo_db [] [] (outside (demo_backup_world false))) _ _ (surjective_pairing _)) as [H _].
  exact (H _ Hr).
Defined.
