(* ===== verification/RouterTokens.v ===== *)
(** * The enrollment-tokens router

    [src/src/wg_manager/routers/enrollment_tokens.py] and the payload of its
    schema.  The row an audit snapshot shows leaves the token hash out. *)

From S2P Require Import Prelude PyStr IpAddr Hashing Models Session Demo TenantScope AuditLog Enrollment RouterServers RouterClients.

(** ** The payload *)

Definition ENROLL_TOKEN_MIN_TTL_SECONDS : Z := 60.
Definition ENROLL_TOKEN_MAX_TTL_SECONDS : Z := 7 * 86400.
Definition ENROLL_TOKEN_MAX_USES : Z := 100.
Definition ENROLL_TOKEN_MAX_CIDRS : Z := 16.

Record EnrollmentTokenCreate := mkEnrollmentTokenCreate {
  ec_server_id : Z; ec_ssh_key_id : Z; ec_ssh_username : string; ec_name_prefix : string;
  ec_ttl_seconds : Z; ec_max_uses : Z; ec_allowed_cidrs : option (list string)
}.

Definition is_lower (c : ascii) : bool := (97 <=? code c) && (code c <=? 122).
Definition is_alnum (c : ascii) : bool := is_lower c || is_decimal c.

(** [^FIRST REST{0,31}$] *)
Definition head_tail_pattern (first rest : ascii -> bool) (s : string) : bool :=
  match s with
  | "" => false
  | String c s' => first c && str_forall rest s' && (len s' <=? 31)
  end.

(** [^[a-z_][a-z0-9_-]{0,31}$] *)
Definition username_ok : string -> bool :=
  head_tail_pattern (fun c => is_lower c || ceqb c "_")
    (fun c => is_alnum c || ceqb c "_" || ceqb c "-").

(** [^[a-z0-9][a-z0-9-]{0,31}$] *)
Definition prefix_ok : string -> bool :=
  head_tail_pattern is_alnum (fun c => is_alnum c || ceqb c "-").

(** The validated payload, or [None] for a 422. *)
Definition validate_token_create (p : EnrollmentTokenCreate) : option EnrollmentTokenCreate :=
  if username_ok (ec_ssh_username p) && prefix_ok (ec_name_prefix p) &&
     (ENROLL_TOKEN_MIN_TTL_SECONDS <=? ec_ttl_seconds p) && (ec_ttl_seconds p <=? ENROLL_TOKEN_MAX_TTL_SECONDS) &&
     (1 <=? ec_max_uses p) && (ec_max_uses p <=? ENROLL_TOKEN_MAX_USES)
  then
    match ec_allowed_cidrs p with
    | None => Some p
    | Some l =>
        if (1 <=? Z.of_nat (length l)) && (Z.of_nat (length l) <=? ENROLL_TOKEN_MAX_CIDRS) then
          l' ← normalize_cidrs l;
          Some (mkEnrollmentTokenCreate (ec_server_id p) (ec_ssh_key_id p) (ec_ssh_username p)
                  (ec_name_prefix p) (ec_ttl_seconds p) (ec_max_uses p) (Some l'))
        else None
    end
  else None.

(** ** The view of a row *)

Record EnrollmentTokenRead := mkEnrollmentTokenRead {
  er_id : Z; er_tenant_id : option Z; er_server_id : Z; er_ssh_key_id : Z; er_ssh_username : string;
  er_name_prefix : string; er_max_uses : Z; er_use_count : Z; er_expires_at : Z;
  er_created_by_cn : option string; er_created_at : Z; er_revoked_at : option Z;
  er_revoked_by_cn : option string; er_allowed_cidrs : option (list string);
  er_status : EnrollmentTokenStatus
}.

(** [_split_stored_cidrs] *)
Definition split_stored_cidrs (value : option string) : option (list string) :=
  value ≫= (fun v => if nonempty v then Some (split_on "," v) else None).

(** [_read] *)
Definition read_token (now id : Z) (r : EnrollmentToken) : EnrollmentTokenRead :=
  mkEnrollmentTokenRead id (tok_tenant_id r) (tok_server_id r) (tok_ssh_key_id r) (tok_ssh_username r)
    (tok_name_prefix r) (tok_max_uses r) (tok_use_count r) (tok_expires_at r) (tok_created_by_cn r)
    (tok_created_at r) (tok_revoked_at r) (tok_revoked_by_cn r) (split_stored_cidrs (tok_allowed_cidrs r))
    (token_status now r).

(** [_admin_tenant_ids] *)
Definition admin_tenant_ids (s : TenantScope) : list Z :=
  fst <$> List.filter (fun tr => bool_decide (tr.2 = admin)) (map_to_list (tenant_roles s)).

Record EnrollmentTokenCreateResponse := mkTokenCreateResponse {
  cr_id : Z; cr_token : string; cr_server_id : Z; cr_tenant_id : option Z; cr_max_uses : Z;
  cr_expires_at : Z
}.

Section tokens.
Context `{Dumps} (now : Z).

(** ** Handlers *)

Definition create_enrollment_token (rnd : bytes) (p : EnrollmentTokenCreate) (a : actor) (s : TenantScope)
  : M EnrollmentTokenCreateResponse :=
  d <- get_db ;;
  server <- some_or_raise (rows (servers d) !! ec_server_id p) (http_error 404 "Server not found") ;;
  require_tenant_role s (srv_tenant_id server) [admin] ;;
  key <- some_or_raise (rows (sshkeys d) !! ec_ssh_key_id p) (http_error 404 "SSH key not found") ;;
  raise_if (negb (bool_decide (key_tenant_id key = srv_tenant_id server)))
    (http_error 400 "SSH key must belong to the same tenant as the server") ;;
  raise_if (negb (bool_decide (srv_status server = ready)))
    (http_error 400 ("Server is not ready (status=" +:+ NodeStatus_value (srv_status server) +:+
                     "); enrollment needs the hub's public key")) ;;
  let actor := actor_from_request a in
  minted <- mint_token now rnd server (ec_server_id p) (ec_ssh_key_id p) (ec_ssh_username p)
    (ec_name_prefix p) (ec_ttl_seconds p) (ec_max_uses p) (actor_cn actor) (ec_allowed_cidrs p) ;;
  d' <- get_db ;;
  row <- some_or_raise (rows (tokens d') !! minted.1) IntegrityError ;;
  persist now (mkAuditArgs "enrollment_token.create" actor "enrollment_token" (Some minted.1) "create" None
    (Some (dump_token minted.1 row))
    (Some (JObj [("server_id", JInt (tok_server_id row)); ("max_uses", JInt (tok_max_uses row));
                 ("ttl_seconds", JInt (ec_ttl_seconds p));
                 ("allowed_cidrs", from_option (fun l => JList (JStr <$> l)) JNull (ec_allowed_cidrs p))]))
    None (tok_tenant_id row)) ;;
  commit ;;
  ret (mkTokenCreateResponse minted.1 minted.2 (tok_server_id row) (tok_tenant_id row) (tok_max_uses row)
         (tok_expires_at row)).

Definition list_enrollment_tokens (s : TenantScope) (server_id : option Z) (only_active : bool)
  : M (list EnrollmentTokenRead) :=
  d <- get_db ;;
  let keep (r : EnrollmentToken) :=
    (is_super_admin s || match tok_tenant_id r with Some t => mem t (admin_tenant_ids s) | None => false end) &&
    match server_id with Some i => tok_server_id r =? i | None => true end &&
    (negb only_active || active_filter now r) in
  ret ((fun ir => read_token now ir.1 ir.2) <$>
         rev (List.filter (fun ir => keep ir.2) (rows_by_id (tokens d)))).

Definition get_enrollment_token (token_id : Z) (s : TenantScope) : M EnrollmentTokenRead :=
  d <- get_db ;;
  row <- some_or_raise (rows (tokens d) !! token_id) (http_error 404 "Enrollment token not found") ;;
  require_tenant_role s (tok_tenant_id row) [admin] ;;
  ret (read_token now token_id row).

Definition revoke_enrollment_token (token_id : Z) (a : actor) (s : TenantScope) : M EnrollmentTokenRead :=
  d <- get_db ;;
  row <- some_or_raise (rows (tokens d) !! token_id) (http_error 404 "Enrollment token not found") ;;
  require_tenant_role s (tok_tenant_id row) [admin] ;;
  let actor := actor_from_request a in
  changed <- revoke_token now token_id row (actor_cn actor) ;;
  if changed : bool then
    d' <- get_db ;;
    row' <- some_or_raise (rows (tokens d') !! token_id) IntegrityError ;;
    persist now (mkAuditArgs "enrollment_token.revoke" actor "enrollment_token" (Some token_id) "revoke"
      (Some (dump_token token_id row)) (Some (dump_token token_id row'))
      (Some (JObj [("server_id", JInt (tok_server_id row')); ("use_count", JInt (tok_use_count row'))]))
      None (tok_tenant_id row')) ;;
    commit ;;
    ret (read_token now token_id row')
  else ret (read_token now token_id row).
End tokens.

(** Every prefix that minting stores has passed the check of the schema. *)
Lemma minted_prefix_ok `{Dumps} now rnd p p' a s w resp w' :
  validate_token_create p = Some p' -> committed w = view w ->
  (forall i t, rows (tokens (view w)) !! i = Some t -> prefix_ok (tok_name_prefix t) = true) ->
  create_enrollment_token now rnd p' a s w = (Ok resp, w') ->
  forall i t, rows (tokens (committed w')) !! i = Some t -> prefix_ok (tok_name_prefix t) = true.
Proof.
  intros Hv Hcv Hall E.
  assert (Hp : prefix_ok (ec_name_prefix p') = true).
  { unfold validate_token_create in Hv. case_match; [|done]. bool_to_prop.
    destruct (ec_allowed_cidrs p); [|by simplify_eq]. case_match; [|done].
    destruct (normalize_cidrs _); simpl in Hv; by simplify_eq. }
  unfold create_enrollment_token, mint_token, persist in E. step_ok E. prim_ok.
  repeat match goal with Hb : (bind _ _) _ = (Ok _, _) |- _ => step_ok Hb end. prim_ok.
  match goal with Hr : require_tenant_role s ?t ?r ?w = (Ok _, _) |- _ =>
    destruct (require_tenant_role_spec s t r w ltac:(done)) as [[E' _]|(dt & E' & _)]; rewrite E' in Hr; simplify_eq end.
  match goal with Hf : flush_checked ?ok _ ?w = _ |- _ => unfold flush_checked, modify_db in Hf;
    destruct (ok (view w)); simplify_eq end.
  simpl in *. intros i t Hi. apply lookup_insert_Some in Hi as [[_ <-]|[_ Hi]]; [done|]. by eapply Hall.
Qed.
