(* ===== verification/EnrollMetrics.v ===== *)
(** * Outcome counters of the enrollment listener

    [src/src/wg_manager/enroll_metrics.py].  Both backends implement one
    interface, [EnrollMetrics], whose laws [EnrollMetricsLaws] say what a
    scrape may rely on: a snapshot shows, for every counter, how many
    recordings reached the store.  [RedisEnrollMetrics] is modelled over a
    server that is a parameter; the class [RedisHash] has the documented
    behaviour of the two commands the code sends, and [reference_hash] is one
    server that has it.  Several listener processes share one server. *)

From Stdlib Require Import Sorted.
From S2P Require Import Prelude PyStr Session Ratelimit Pki Config.

(** ** Snapshots *)

Definition HASH_KEY : string := "wgm:enroll:metrics".
Definition KINDS : list string := ["response"; "reject"; "rate_limited"].
Definition LOG_EVERY : Z := 60 * 1000000000. (** nanoseconds, as the clocks *)

Record EnrollMetricsSnapshot := mkSnapshot {
  responses : gmap string Z; rejects : gmap string Z; rate_limited : gmap string Z
}.

(** One step of the loop of [_snapshot_from_fields] on the dict of dicts. *)
Definition add_field (by_kind : gmap string (gmap string Z)) (field : string * Z) : gmap string (gmap string Z) :=
  let '(kind, sep, label) := partition ":" field.1 in
  if sep && nonempty label && bool_decide (is_Some (by_kind !! kind))
  then alter <[label := field.2]> kind by_kind else by_kind.

Definition no_fields : gmap string (gmap string Z) := list_to_map ((fun k => (k, ∅)) <$> KINDS).

Definition snapshot_from_fields (fields : gmap string Z) : EnrollMetricsSnapshot :=
  let by_kind := fold_left add_field (map_to_list fields) no_fields in
  let counts_of k := default ∅ (by_kind !! k) in
  mkSnapshot (counts_of "response") (counts_of "reject") (counts_of "rate_limited").

(** ** The interface *)

(** A call of one listener process: which one, its clock, and what the call
    meets on the way to the store. *)
Record call := mkCall { c_replica : nat; c_now : Z; c_fate : backend_fate }.

Class EnrollMetrics (S : Type) := {
  em_incr : call -> string -> S -> S;
  em_snapshot : call -> S -> outcome EnrollMetricsSnapshot
}.

Section recorder.
Context {S : Type} `{EnrollMetrics S}.
Definition record_response (c : call) (status : Z) : S -> S := em_incr c ("response:" +:+ dec status).
Definition record_reject (c : call) (reason : string) : S -> S := em_incr c ("reject:" +:+ reason).
Definition record_rate_limited (c : call) (bucket : string) : S -> S := em_incr c ("rate_limited:" +:+ bucket).
End recorder.

Definition bump (name : string) (counts : gmap string Z) : gmap string Z :=
  <[name := default 0 (counts !! name) + 1]> counts.

(** Counters below this bound can be incremented. *)
Definition COUNTER_LIMIT : Z := 2 ^ 63 - 1.

Class EnrollMetricsLaws (S : Type) `{EnrollMetrics S} := {
  em_ok : S -> Prop;
  em_counts : S -> gmap string Z;
  em_reaches : call -> bool;
  em_incr_law c name s : em_ok s -> default 0 (em_counts s !! name) < COUNTER_LIMIT ->
    em_ok (em_incr c name s) /\
    em_counts (em_incr c name s) = if em_reaches c then bump name (em_counts s) else em_counts s;
  em_snapshot_law c s : em_ok s -> c_fate c = Answers ->
    em_snapshot c s = Ok (snapshot_from_fields (em_counts s))
}.

(** ** [MemoryEnrollMetrics] *)

Definition memory_metrics : Type := gmap string Z.

#[global] Instance MemoryEnrollMetrics : EnrollMetrics memory_metrics := {
  em_incr _ name s := bump name s;
  em_snapshot _ s := Ok (snapshot_from_fields s)
}.

#[global] Program Instance MemoryEnrollMetrics_laws : EnrollMetricsLaws memory_metrics := {
  em_ok _ := True; em_counts s := s; em_reaches _ := true
}.
Solve All Obligations with done.

(** ** [RedisEnrollMetrics] *)

(** HGETALL, and HINCRBY, which answers with an error when the field does not
    hold an integer or would leave 64 bits. *)
Class RedisHash (R : Type) := {
  h_getall : string -> R -> gmap string string;
  h_incrby : string -> string -> Z -> R -> option R
}.

Class RedisHashLaws (R : Type) `{RedisHash R} := {
  h_incrby_law key field n (s : R) v :
    (h_getall key s !! field = Some (dec v) \/ h_getall key s !! field = None /\ v = 0) ->
    0 <= v < 2 ^ 63 -> 0 <= v + n < 2 ^ 63 ->
    exists s', h_incrby key field n s = Some s' /\ h_getall key s' = <[field := dec (v + n)]> (h_getall key s)
}.

(** The shared server, and of each process the time of its last warning and
    the warnings it has logged. *)
Record redis_metrics (R : Type) := mkRedisMetrics {
  rm_server : R; rm_last_warning : gmap nat Z; rm_warnings : list (nat * Z)
}.
Arguments mkRedisMetrics {R}.
Arguments rm_server {R}.
Arguments rm_last_warning {R}.
Arguments rm_warnings {R}.

Section redis.
Context {R : Type} `{RedisHash R}.

(** The [except] branch: at most one warning in [LOG_EVERY]. *)
Definition warn_throttled (c : call) (s : redis_metrics R) : redis_metrics R :=
  if match rm_last_warning s !! c_replica c with
     | Some last => LOG_EVERY <=? c_now c - last
     | None => true
     end
  then mkRedisMetrics (rm_server s) (<[c_replica c := c_now c]> (rm_last_warning s))
         (rm_warnings s ++ [(c_replica c, c_now c)])
  else s.

Definition redis_incr (c : call) (name : string) (s : redis_metrics R) : redis_metrics R :=
  let sent := match c_fate c with FailsBefore => None | _ => h_incrby HASH_KEY name 1 (rm_server s) end in
  let s' := mkRedisMetrics (default (rm_server s) sent) (rm_last_warning s) (rm_warnings s) in
  match c_fate c, sent with
  | Answers, Some _ => s'
  | _, _ => warn_throttled c s'
  end.

(** Values that are not integers are left out. *)
Definition redis_snapshot (c : call) (s : redis_metrics R) : outcome EnrollMetricsSnapshot :=
  match c_fate c with
  | Answers => Ok (snapshot_from_fields (omap py_int (h_getall HASH_KEY (rm_server s))))
  | _ => Raise EnrollMetricsBackendError
  end.

#[global] Instance RedisEnrollMetrics : EnrollMetrics (redis_metrics R) := {
  em_incr := redis_incr; em_snapshot := redis_snapshot
}.
End redis.

(** ** The factory *)

Inductive metrics_choice := UseMemory | UseRedis (url : string).

Definition make_enroll_metrics (s : limiter_settings) : outcome metrics_choice :=
  let backend := enroll_rate_limit_backend s in
  if bool_decide (backend = "memory") then Ok UseMemory
  else if bool_decide (backend = "redis")
  then Ok (UseRedis (if truthy (enroll_rate_limit_redis_url s)
                     then default "" (enroll_rate_limit_redis_url s) else celery_broker_url s))
  else Raise (ValueError ("ENROLL_RATE_LIMIT_BACKEND must be 'redis' or 'memory', got " +:+ repr backend)).

(** ** Lemmas: snapshots *)

Lemma partition_found c s a b : partition c s = (a, true, b) -> s = a +:+ String c b.
Proof.
  revert a b. induction s as [|x s IH]; intros a b; [done|]. simpl.
  destruct (ceqb x c) eqn:E; [intros [= <- <-]; apply ceqb_eq in E; by subst|].
  destruct (partition c s) as [[a' f'] b']. intros [= <- -> <-]. by rewrite (IH a' b' eq_refl) at 1.
Qed.

Lemma partition_app c k l : char_in c k = false -> partition c (k +:+ String c l) = (k, true, l).
Proof.
  intros Hk. apply char_in_false in Hk. revert Hk. induction k as [|x k IH]; simpl; intros Hk.
  - by rewrite ceqb_refl.
  - apply andb_true_iff in Hk as [Hx Hk]. rewrite (IH Hk). apply negb_true_iff, ceqb_neq in Hx.
    by rewrite (proj2 (ceqb_neq x c)).
Qed.

(** The value under a kind and a label. *)
Definition at_label (by_kind : gmap string (gmap string Z)) (k l : string) : option Z := by_kind !! k ≫= (.!! l).

Lemma add_field_other by_kind f k l : f.1 <> k +:+ ":" +:+ l -> at_label (add_field by_kind f) k l = at_label by_kind k l.
Proof.
  destruct f as [name v]. simpl. intros Hne. unfold add_field, at_label. cbn [fst snd].
  destruct (partition ":" name) as [[k' f'] l'] eqn:E. destruct f'; [|done]. simpl.
  destruct (nonempty l'); [|done]. simpl. case_bool_decide; [|done]. apply partition_found in E.
  destruct (decide (k' = k)) as [->|]; [|by rewrite lookup_alter_ne].
  rewrite lookup_alter_eq. destruct (by_kind !! k); [|done]. simpl. rewrite lookup_insert_ne; [done|]. by intros ->.
Qed.

Lemma add_field_same by_kind v k l : char_in ":" k = false -> l <> "" -> is_Some (by_kind !! k) ->
  at_label (add_field by_kind (k +:+ ":" +:+ l, v)) k l = Some v.
Proof.
  intros Hk Hl [m Hm]. unfold add_field, at_label. cbn [fst snd]. change (":" +:+ l) with (String ":" l).
  rewrite partition_app by done. rewrite (proj2 (nonempty_true l) Hl), (bool_decide_eq_true_2 (is_Some _)) by (by eexists).
  cbn [andb]. rewrite lookup_alter_eq, Hm. simpl. by rewrite lookup_insert_eq.
Qed.

Lemma add_field_kinds by_kind f k : is_Some (by_kind !! k) -> is_Some (add_field by_kind f !! k).
Proof.
  intros Hk. unfold add_field. destruct (partition ":" f.1) as [[k' sep] l']. destruct (_ && _ && _); [|done].
  rewrite lookup_alter. case_decide; [|done]. subst. by apply fmap_is_Some.
Qed.

Lemma fold_fields fields by_kind k l : char_in ":" k = false -> l <> "" -> is_Some (by_kind !! k) ->
  NoDup (fields.*1) ->
  at_label (fold_left add_field fields by_kind) k l =
    match (list_to_map fields : gmap string Z) !! (k +:+ ":" +:+ l) with
    | Some v => Some v
    | None => at_label by_kind k l
    end.
Proof.
  intros Hk Hl. revert by_kind. induction fields as [|[name v] fields IH]; intros by_kind Hb Hnd; [done|].
  apply NoDup_cons in Hnd as [Hn Hnd]. cbn [fold_left list_to_map foldr fst snd uncurry]. rewrite IH; [|by apply add_field_kinds|done].
  destruct (decide (name = k +:+ ":" +:+ l)) as [->|Hne].
  - rewrite (not_elem_of_list_to_map_1 _ _ Hn), lookup_insert_eq. by apply add_field_same.
  - rewrite lookup_insert_ne by done. destruct (list_to_map fields !! _); [done|]. by apply add_field_other.
Qed.

(** A snapshot shows the counter stored under [kind:label]. *)
Lemma snapshot_lookup fields l : l <> "" ->
  responses (snapshot_from_fields fields) !! l = fields !! ("response:" +:+ l) /\
  rejects (snapshot_from_fields fields) !! l = fields !! ("reject:" +:+ l) /\
  rate_limited (snapshot_from_fields fields) !! l = fields !! ("rate_limited:" +:+ l).
Proof.
  intros Hl.
  assert (Hof : forall k, char_in ":" k = false -> no_fields !! k = Some ∅ ->
    default ∅ (fold_left add_field (map_to_list fields) no_fields !! k) !! l = fields !! (k +:+ ":" +:+ l)).
  { intros k Hk Hno. assert (Ha : at_label no_fields k l = None) by (unfold at_label; rewrite Hno; apply lookup_empty).
    pose proof (fold_fields (map_to_list fields) no_fields k l Hk Hl ltac:(by eexists) (NoDup_fst_map_to_list _)) as H.
    rewrite list_to_map_to_list, Ha in H. unfold at_label in H.
    destruct (fold_left _ _ _ !! k); simpl in *; rewrite ?H, ?lookup_empty; by destruct (fields !! _). }
  unfold snapshot_from_fields. cbn [responses rejects rate_limited].
  split_and!; (etransitivity; [apply Hof; vm_compute; reflexivity|reflexivity]).
Qed.

(** ** The Redis backend satisfies the interface *)

Lemma int64_prints : 2 ^ 63 <= 10 ^ max_str_digits.
Proof. apply (Z.le_trans _ (10 ^ 19)); [lia|]. apply Z.pow_le_mono_r; unfold max_str_digits; lia. Qed.

Section redis_laws.
Context {R : Type} `{RedisHash R, !RedisHashLaws R}.

(** Every field of the hash is a counter. *)
Definition redis_ok (s : redis_metrics R) : Prop := forall f v,
  h_getall HASH_KEY (rm_server s) !! f = Some v -> exists n, v = dec n /\ 0 <= n < 2 ^ 63.

Definition redis_counts (s : redis_metrics R) : gmap string Z := omap py_int (h_getall HASH_KEY (rm_server s)).

Lemma warn_server c (s : redis_metrics R) : rm_server (warn_throttled c s) = rm_server s.
Proof. unfold warn_throttled. by case_match. Qed.

Lemma redis_field s f : redis_ok s ->
  let v := default 0 (redis_counts s !! f) in
  0 <= v /\ (h_getall HASH_KEY (rm_server s) !! f = Some (dec v) \/ h_getall HASH_KEY (rm_server s) !! f = None /\ v = 0).
Proof.
  intros Hok. unfold redis_counts. rewrite lookup_omap.
  destruct (h_getall HASH_KEY (rm_server s) !! f) as [x|] eqn:E; simpl; [|split; [done|by right]].
  destruct (Hok f x E) as (n & -> & Hn). rewrite py_int_dec by (pose proof int64_prints; lia). simpl. split; [lia|by left].
Qed.

Lemma redis_incr_law c name s : redis_ok s -> default 0 (redis_counts s !! name) < COUNTER_LIMIT ->
  redis_ok (redis_incr c name s) /\
  redis_counts (redis_incr c name s) =
    if negb (bool_decide (c_fate c = FailsBefore)) then bump name (redis_counts s) else redis_counts s.
Proof.
  intros Hok Hlim. destruct (redis_field s name Hok) as [Hv Hf]. unfold COUNTER_LIMIT in Hlim.
  destruct (h_incrby_law HASH_KEY name 1 (rm_server s) _ Hf ltac:(lia) ltac:(lia)) as (srv & Hi & Hg).
  assert (Hnew : forall t, rm_server t = srv -> redis_ok t /\ redis_counts t = bump name (redis_counts s)).
  { intros t Ht. unfold redis_ok, redis_counts, bump in *. rewrite Ht, Hg. split.
    - intros f v. rewrite lookup_insert. case_decide; [|apply Hok]. intros [= <-]. eexists. split; [done|lia].
    - apply map_eq. intros k. rewrite lookup_omap, !lookup_insert. case_decide; [|by rewrite lookup_omap]. simpl.
      apply py_int_dec. pose proof int64_prints. lia. }
  unfold redis_incr. rewrite Hi. destruct (c_fate c); cbn [default negb].
  - by apply Hnew.
  - rewrite bool_decide_eq_true_2 by done. unfold redis_ok, redis_counts. by rewrite warn_server.
  - apply Hnew. by rewrite warn_server.
Qed.

#[global] Program Instance RedisEnrollMetrics_laws : EnrollMetricsLaws (redis_metrics R) := {
  em_ok := redis_ok; em_counts := redis_counts; em_reaches := fun c : call => negb (bool_decide (c_fate c = FailsBefore));
  em_incr_law := redis_incr_law
}.
Next Obligation. intros c s Hok Hf. cbn. unfold redis_snapshot. by rewrite Hf. Qed.
End redis_laws.

(** One server with the documented behaviour. *)
#[global] Instance reference_hash : RedisHash (gmap string (gmap string string)) := {
  h_getall key s := default ∅ (s !! key);
  h_incrby key field n s :=
    let fields := default ∅ (s !! key) in
    v ← match fields !! field with Some x => py_int x | None => Some 0 end;
    if (- 2 ^ 63 <=? v + n) && (v + n <? 2 ^ 63) then Some (<[key := <[field := dec (v + n)]> fields]> s) else None
}.

(** ** Theorems *)

Section scrape.
Context {S : Type} `{EnrollMetrics S, !EnrollMetricsLaws S}.

(** What the processes record, in the order in which the store sees it. *)
Definition replay (evs : list (call * string)) (s : S) : S := fold_left (fun s e => em_incr e.1 e.2 s) evs s.

Definition reached (name : string) (evs : list (call * string)) : Z :=
  Z.of_nat (length (List.filter (fun e => em_reaches e.1 && bool_decide (e.2 = name)) evs)).

Lemma replay_counts evs s : em_ok s ->
  (forall name, default 0 (em_counts s !! name) + Z.of_nat (length evs) <= COUNTER_LIMIT) ->
  em_ok (replay evs s) /\
  forall name, default 0 (em_counts (replay evs s) !! name) = default 0 (em_counts s !! name) + reached name evs.
Proof.
  revert s. induction evs as [|[c n] evs IH]; intros s Hok Hlim.
  - split; [done|]. intros name. unfold reached. simpl. lia.
  - cbn [length] in Hlim. destruct (em_incr_law c n s Hok ltac:(specialize (Hlim n); lia)) as [Hok' Hc].
    assert (Hone : forall name, default 0 (em_counts (em_incr c n s) !! name) =
      default 0 (em_counts s !! name) + if em_reaches c && bool_decide (n = name) then 1 else 0).
    { intros name. rewrite Hc. destruct (em_reaches c); cbn [andb]; [|lia]. unfold bump. rewrite lookup_insert.
      case_decide; subst.
      - by rewrite bool_decide_eq_true_2.
      - rewrite bool_decide_eq_false_2 by done. cbn [andb]. lia. }
    destruct (IH (em_incr c n s) Hok') as [Hok'' Hn].
    { intros name. rewrite Hone. specialize (Hlim name). destruct (_ && _); lia. }
    split; [exact Hok''|]. intros name. change (replay ((c, n) :: evs) s) with (replay evs (em_incr c n s)).
    rewrite Hn, Hone. unfold reached. cbn [List.filter fst snd]. destruct (_ && _); cbn [length]; lia.
Qed.

(** A scrape shows what was recorded: after any interleaving of recordings
    of any number of listener processes, of which some do not reach the
    store, a scrape that can read it shows for every status, rejection reason
    and rate-limit bucket exactly how many recordings reached it, with either
    backend. *)
Theorem scrape_counts_recordings evs s c label : em_ok s -> em_counts s = ∅ ->
  Z.of_nat (length evs) <= COUNTER_LIMIT -> c_fate c = Answers -> label <> "" ->
  exists snap, em_snapshot c (replay evs s) = Ok snap /\
    default 0 (responses snap !! label) = reached ("response:" +:+ label) evs /\
    default 0 (rejects snap !! label) = reached ("reject:" +:+ label) evs /\
    default 0 (rate_limited snap !! label) = reached ("rate_limited:" +:+ label) evs.
Proof.
  intros Hok He Hlim Hf Hl. destruct (replay_counts evs s Hok) as [Hok' Hn].
  { intros name. rewrite He, lookup_empty. simpl. lia. }
  eexists. split; [by apply em_snapshot_law|].
  destruct (snapshot_lookup (em_counts (replay evs s)) label Hl) as (-> & -> & ->). rewrite !Hn, He, !lookup_empty. simpl. lia.
Qed.
End scrape.

(** ** Warnings are throttled *)

Section throttle.
Context {R : Type} `{RedisHash R}.

(** The times at which process [r] has warned. *)
Definition warned (r : nat) (s : redis_metrics R) : list Z :=
  snd <$> List.filter (fun x => bool_decide (x.1 = r)) (rm_warnings s).

Definition gap_ok (a b : Z) : Prop := a + LOG_EVERY <= b.

Definition throttled (s : redis_metrics R) : Prop :=
  forall r, rm_last_warning s !! r = last (warned r s) /\ StronglySorted gap_ok (warned r s).

Lemma sorted_snoc l x : StronglySorted gap_ok l -> (forall y, last l = Some y -> gap_ok y x) ->
  StronglySorted gap_ok (l ++ [x]).
Proof.
  induction l as [|a l IH]; intros Hs Hl; simpl; [repeat constructor|].
  apply StronglySorted_inv in Hs as [Hs Ha]. assert (Hs' : StronglySorted gap_ok (l ++ [x])).
  { apply IH; [done|]. intros y Hy. apply Hl. destruct l; [done|exact Hy]. }
  constructor; [done|]. apply Forall_app. split; [done|]. constructor; [|done].
  destruct (last l) as [y|] eqn:E.
  - assert (Hy : gap_ok y x) by (apply Hl; destruct l; [done|exact E]).
    rewrite Forall_forall in Ha. specialize (Ha y). apply last_Some in E as [l' ->].
    unfold gap_ok in *. assert (a + LOG_EVERY <= y) by (apply Ha, elem_of_app; right; by left). unfold LOG_EVERY in *. lia.
  - apply last_None in E as ->. by apply Hl.
Qed.

Lemma warn_keeps_throttled c s : throttled s -> throttled (warn_throttled c s).
Proof.
  intros Ht. unfold warn_throttled.
  destruct (match rm_last_warning s !! c_replica c with Some _ => _ | None => _ end) eqn:E; [|done].
  intros r. destruct (Ht r) as [Hl Hs]. unfold warned in *. cbn [rm_last_warning rm_warnings].
  rewrite List.filter_app, fmap_app. cbn [List.filter fst].
  destruct (decide (c_replica c = r)) as [<-|Hne].
  - rewrite bool_decide_eq_true_2 by done. cbn [fmap list_fmap snd]. rewrite lookup_insert_eq, last_snoc. split; [done|].
    apply sorted_snoc; [done|]. intros y Hy. rewrite Hl, Hy in E. unfold gap_ok. lia.
  - rewrite bool_decide_eq_false_2 by done. rewrite lookup_insert_ne by done. by rewrite app_nil_r.
Qed.

Lemma incr_keeps_throttled c name s : throttled s -> throttled (redis_incr c name s).
Proof.
  intros Ht. unfold redis_incr.
  assert (Ht' : forall srv, throttled (mkRedisMetrics srv (rm_last_warning s) (rm_warnings s))) by (intros srv; exact Ht).
  destruct (c_fate c); [destruct (h_incrby _ _ _ _)|..]; auto using warn_keeps_throttled.
Qed.

Lemma spaced_count l a T : StronglySorted gap_ok l -> Forall (fun t => a <= t <= a + T) l -> 0 <= T ->
  Z.of_nat (length l) <= T / LOG_EVERY + 1.
Proof.
  revert a T. induction l as [|x l IH]; intros a T Hs Hf HT.
  - simpl. assert (0 <= T / LOG_EVERY) by (apply Z.div_pos; unfold LOG_EVERY; lia). lia.
  - apply StronglySorted_inv in Hs as [Hs Hx]. apply Forall_cons in Hf as [Hax Hf].
    destruct l as [|y l]; [simpl; assert (0 <= T / LOG_EVERY) by (apply Z.div_pos; unfold LOG_EVERY; lia); lia|].
    assert (Hxy : gap_ok x y) by (by apply Forall_cons in Hx as [? _]).
    assert (Hya : a <= y <= a + T) by (by apply Forall_cons in Hf as [? _]).
    specialize (IH (a + LOG_EVERY) (T - LOG_EVERY) Hs).
    replace ((T - LOG_EVERY) / LOG_EVERY) with (T / LOG_EVERY - 1) in IH
      by (replace (T - LOG_EVERY) with (T + (-1) * LOG_EVERY) by lia; rewrite Z.div_add by done; lia).
    assert (Z.of_nat (length (y :: l)) <= T / LOG_EVERY - 1 + 1); [|cbn [length] in *; lia].
    unfold gap_ok in *. apply IH; [|lia]. apply Forall_forall. intros t Ht.
    rewrite Forall_forall in Hf, Hx. specialize (Hf t Ht). specialize (Hx t Ht). simpl in Hx. lia.
Qed.

(** An outage cannot flood the log: whatever the calls and their outcomes,
    and whatever the clock does, two warnings of one process are at least a
    minute apart, so it writes at most one more than the minutes of any
    period. *)
Theorem warnings_throttled (evs : list (call * string)) srv r a T : 0 <= T ->
  Z.of_nat (length (List.filter (fun t => (a <=? t) && (t <=? a + T))
    (warned r (replay evs (mkRedisMetrics srv ∅ []))))) <= T / LOG_EVERY + 1.
Proof.
  intros HT. set (s0 := mkRedisMetrics srv ∅ []).
  assert (Ht : throttled (replay evs s0)).
  { assert (H0 : throttled s0) by (intros x; split; [apply lookup_empty|constructor]).
    revert H0. generalize s0. unfold replay. induction evs as [|[c n] evs IH]; intros s Hs; [done|].
    apply IH. by apply incr_keeps_throttled. }
  apply (spaced_count _ a); [|apply Forall_forall; intros t [_ Ht']%list_elem_of_In%filter_In; blia|done].
  destruct (Ht r) as [_ Hs]. revert Hs. induction (warned r _) as [|x l IH]; intros Hs; [constructor|].
  apply StronglySorted_inv in Hs as [Hs Hx]. simpl. destruct (_ && _); [|by apply IH]. constructor; [by apply IH|].
  rewrite Forall_forall in Hx |- *. intros y [Hy _]%list_elem_of_In%filter_In. by apply Hx, list_elem_of_In.
Qed.
End throttle.

(** ** Witnesses *)

#[global] Instance reference_hash_laws : RedisHashLaws (gmap string (gmap string string)).
Proof.
  split. intros key field n s v Hf Hv Hr. cbn [h_getall h_incrby reference_hash] in *.
  assert (E : match default ∅ (s !! key) !! field with Some x => py_int x | None => Some 0 end = Some v).
  { destruct Hf as [->|[-> ->]]; [|done]. apply py_int_dec. pose proof int64_prints. lia. }
  rewrite E. cbn [mbind option_bind]. rewrite (proj2 (Z.leb_le _ _)), (proj2 (Z.ltb_lt _ _)) by lia.
  eexists. split; [done|]. by rewrite lookup_insert_eq.
Qed.

(** Two listener processes; one recording is lost on the way. *)
Definition demo_calls : list (call * string) :=
  [(mkCall 0 5 Answers, "response:201"); (mkCall 1 6 Answers, "response:401"); (mkCall 1 6 Answers, "reject:expired");
   (mkCall 0 7 FailsBefore, "response:401"); (mkCall 0 8 FailsAfter, "response:401"); (mkCall 1 9 Answers, "rate_limited:failures")].
Definition fresh_redis : redis_metrics (gmap string (gmap string string)) := mkRedisMetrics ∅ ∅ [].

Lemma scrape_counts_recordings_witness :
  reached (S := redis_metrics (gmap string (gmap string string))) ("response:" +:+ "401") demo_calls = 2 /\
  exists snap, em_snapshot (mkCall 7 10 Answers) (replay demo_calls fresh_redis) = Ok snap /\
    default 0 (responses snap !! "401") = reached (S := redis_metrics (gmap string (gmap string string))) ("response:" +:+ "401") demo_calls /\
    default 0 (rejects snap !! "401") = reached (S := redis_metrics (gmap string (gmap string string))) ("reject:" +:+ "401") demo_calls /\
    default 0 (rate_limited snap !! "401") =
      reached (S := redis_metrics (gmap string (gmap string string))) ("rate_limited:" +:+ "401") demo_calls.
Proof.
  split; [vm_compute; reflexivity|].
  apply (scrape_counts_recordings demo_calls fresh_redis (mkCall 7 10 Answers) "401").
  - intros f v Hf. vm_compute in Hf. discriminate Hf.
  - reflexivity.
  - vm_compute. discriminate.
  - reflexivity.
  - discriminate.
Defined.

Lemma warnings_throttled_witness :
  Z.of_nat (length (List.filter (fun t => (0 <=? t) && (t <=? 0 + LOG_EVERY))
    (warned 0 (replay demo_calls fresh_redis)))) <= LOG_EVERY / LOG_EVERY + 1 /\
  warned 0 (replay demo_calls fresh_redis) = [7].
Proof.
  split; [|vm_compute; reflexivity]. apply (warnings_throttled demo_calls ∅ 0 0 LOG_EVERY). unfold LOG_EVERY. lia.
Defined.
