(* ===== verification/Metrics.v ===== *)
(** * Prometheus metrics

    [src/src/wg_manager/metrics.py] apart from its HTTP layer, which is part of
    the middleware stack in [ApiVersion.v]: the Celery and Vault counters and
    the collectors that read the database or the enrollment counters at every
    scrape.  Clocks and the values of the gauges are integers (nanoseconds and
    microseconds since the epoch) where Python has floats. *)

From stdpp Require sorting.
From S2P Require Import Prelude PyStr Hashing Models Session Demo Tasks RouterClients RouterTenants Ratelimit EnrollMetrics.

(** ** Counters and histograms *)

(** Counters, and the values a histogram has observed, by name and labels. *)
Record registry := mkRegistry {
  counters : gmap (string * list string) Z; observed : gmap (string * list string) (list Z)
}.
Definition empty_registry : registry := mkRegistry ∅ ∅.

Definition counter_value (name : string) (labels : list string) (r : registry) : Z :=
  default 0 (counters r !! (name, labels)).

Definition inc (name : string) (labels : list string) (r : registry) : registry :=
  mkRegistry (<[(name, labels) := counter_value name labels r + 1]> (counters r)) (observed r).

Definition observe (name : string) (labels : list string) (v : Z) (r : registry) : registry :=
  mkRegistry (counters r) (<[(name, labels) := default [] (observed r !! (name, labels)) ++ [v]]> (observed r)).

(** ** Celery tasks *)

Definition CELERY_TASKS : string := "wg_manager_celery_tasks_total".
Definition CELERY_DURATION : string := "wg_manager_celery_task_duration_seconds".

(** [_TASK_START] beside the registry. *)
Record celery_state := mkCelery { task_start : gmap string Z; celery_registry : registry }.

Definition on_task_prerun (now : Z) (task_id : option string) (s : celery_state) : celery_state :=
  match task_id with
  | Some id => if nonempty id then mkCelery (<[id := now]> (task_start s)) (celery_registry s) else s
  | None => s
  end.

(** [name] is [getattr(task, "name", "unknown")]. *)
Definition on_task_postrun (now : Z) (task_id : option string) (name : string) (state : option string) (s : celery_state)
  : celery_state :=
  let id := match task_id with Some i => if nonempty i then Some i else None | None => None end in
  let start := id ≫= fun i => task_start s !! i in
  let starts := match id with Some i => delete i (task_start s) | None => task_start s end in
  let r := match start with Some t => observe CELERY_DURATION [name] (now - t) (celery_registry s)
                          | None => celery_registry s end in
  mkCelery starts (inc CELERY_TASKS [name; match state with Some x => if nonempty x then x else "UNKNOWN" | None => "UNKNOWN" end] r).

(** ** Vault round-trips *)

Definition VAULT_REQUESTS : string := "wg_manager_vault_requests_total".
Definition VAULT_DURATION : string := "wg_manager_vault_request_duration_seconds".

(** A finished span: name, engine, operation, and whether it is an error. *)
Record span := mkSpan { sp_name : string; sp_engine : string; sp_operation : string; sp_error : bool }.

(** [with vault_call(engine=..., operation=...): body]; the body may itself use
    the registry.  [t0] and [t1] are the clock readings around it. *)
Definition vault_call {A} (engine operation : string) (t0 t1 : Z)
  (body : registry * list span -> outcome A * (registry * list span)) (s : registry * list span)
  : outcome A * (registry * list span) :=
  let '(res, (r, spans)) := body s in
  let failed := match res with Ok _ => false | Raise _ => true end in
  let r := inc VAULT_REQUESTS [engine; operation; if failed then "error" else "ok"] r in
  let r := observe VAULT_DURATION [engine; operation] (t1 - t0) r in
  (res, (r, spans ++ [mkSpan ("vault." +:+ engine +:+ "." +:+ operation) engine operation failed])).

(** ** Collectors *)

(** A gauge sample: label values and value. *)
Abbreviation sample := (list string * Z)%type.

(** [CertificateLifecycleCollector.collect]; nothing when the query fails. *)
Definition cert_collect (db_ok : bool) (d : DB) : option (list sample) :=
  if db_ok then Some ((fun r => ([crt_serial r.2; crt_common_name r.2; CertificateType_value (crt_type r.2)], crt_not_after r.2))
                      <$> List.filter (fun r => negb (crt_revoked r.2)) (rows_by_id (certificates d)))
  else None.

Definition server_sampled (s : Server) : option Z :=
  if bool_decide (srv_status s = ready) then hc_valid_before (srv_host_cert s) else None.
Definition client_sampled (c : Client) : option Z :=
  if bool_decide (cl_status c = ready) && negb (cl_is_manual c) then hc_valid_before (cl_host_cert c) else None.

(** [getattr(row, "name", None) or row.hostname]; servers have no name. *)
Definition client_label (c : Client) : string := if nonempty (cl_name c) then cl_name c else default "" (cl_hostname c).

(** [HostCertCollector.collect] *)
Definition host_collect (db_ok : bool) (d : DB) : option (list sample) :=
  if db_ok then Some (
    omap (fun r => (fun t => (["server"; dec r.1; srv_hostname r.2; srv_hostname r.2], t)) <$> server_sampled r.2)
      (rows_by_id (servers d)) ++
    omap (fun r => (fun t => (["client"; dec r.1; client_label r.2; default "" (cl_hostname r.2)], t)) <$> client_sampled r.2)
      (rows_by_id (clients d)))
  else None.

(** A metric family of the enrollment collector: name, label name, samples. *)
Record family := mkFamily { fam_name : string; fam_label : option string; fam_samples : list sample }.

Definition key_le (x y : string * Z) : Prop := str_leb x.1 y.1 = true.
#[global] Instance key_le_dec : RelDecision key_le.
Proof. intros x y. unfold key_le. apply _. Defined.

(** [sorted(values.items())]: the keys are distinct. *)
Definition sorted_items (m : gmap string Z) : list sample :=
  (fun kv => ([kv.1], kv.2)) <$> sorting.merge_sort key_le (map_to_list m).

(** [EnrollMetricsCollector.collect]: the store is made at the first scrape; an
    error of the factory other than an unreadable store leaves the scrape. *)
Definition enroll_families (snap : EnrollMetricsSnapshot) : list family :=
  [mkFamily "wg_manager_enroll_responses" (Some "status") (sorted_items (responses snap));
   mkFamily "wg_manager_enroll_rejects" (Some "reason") (sorted_items (rejects snap));
   mkFamily "wg_manager_enroll_rate_limited" (Some "bucket") (sorted_items (rate_limited snap))].
Definition up_family (v : Z) : family := mkFamily "wg_manager_enroll_metrics_up" None [([], v)].

Definition enroll_collect {S} `{EnrollMetrics S} (c : call) (factory : outcome S) (store : option S)
  : outcome (list family) * option S :=
  match match store with Some s => Ok s | None => factory end with
  | Raise EnrollMetricsBackendError => (Ok [up_family 0], store)
  | Raise e => (Raise e, store)
  | Ok s =>
      match em_snapshot c s with
      | Raise EnrollMetricsBackendError => (Ok [up_family 0], Some s)
      | Raise e => (Raise e, Some s)
      | Ok snap => (Ok (up_family 1 :: enroll_families snap), Some s)
      end
  end.

(** ** The host-certificate gauge and the rotation sweep *)

(** The rotations a sweep queues when the broker takes every message. *)
Definition sweep_queue (now renew_before : Z) (d : DB) : list task_msg :=
  dispatched (rotate_expiring_host_certs_task now renew_before) d.

Lemma sweep_queue_eq now renew d : sweep_queue now renew d =
  (RotateHostCert <$> (fst <$> tbl_select (fun _ s =>
     bool_decide (srv_status s = ready) && cert_due (now + renew * 1000000) (srv_host_cert s)) (servers d))) ++
  (RotateClientHostCert <$> (fst <$> tbl_select (fun _ c => bool_decide (cl_status c = ready) && negb (cl_is_manual c) &&
     cert_due (now + renew * 1000000) (cl_host_cert c)) (clients d))).
Proof.
  unfold sweep_queue, dispatched, run, rotate_expiring_host_certs_task. rewrite bind_get_db. cbv zeta.
  unfold bind. by rewrite !dispatch_each_all by done.
Qed.

Lemma sweep_server now renew d i : RotateHostCert i ∈ sweep_queue now renew d <->
  exists s, rows (servers d) !! i = Some s /\ srv_status s = ready /\ cert_due (now + renew * 1000000) (srv_host_cert s) = true.
Proof.
  rewrite sweep_queue_eq, elem_of_app. split.
  - intros [Hx|Hx]; apply list_elem_of_fmap in Hx as (j & [= <-] & Hj).
    apply list_elem_of_fmap in Hj as ([k s] & -> & [Hs Hp]%tbl_select_spec). simpl. bool_to_prop. eauto.
  - intros (s & Hs & Hr & Hd). left. apply list_elem_of_fmap. exists i. split; [done|]. apply list_elem_of_fmap.
    exists (i, s). split; [done|]. apply tbl_select_spec. split; [done|]. by rewrite bool_decide_eq_true_2, Hd.
Qed.

Lemma sweep_client now renew d i : RotateClientHostCert i ∈ sweep_queue now renew d <->
  exists c, rows (clients d) !! i = Some c /\ cl_status c = ready /\ cl_is_manual c = false /\
    cert_due (now + renew * 1000000) (cl_host_cert c) = true.
Proof.
  rewrite sweep_queue_eq, elem_of_app. split.
  - intros [Hx|Hx]; apply list_elem_of_fmap in Hx as (j & [= <-] & Hj).
    apply list_elem_of_fmap in Hj as ([k c] & -> & [Hc Hp]%tbl_select_spec). simpl. bool_to_prop. eauto 6.
  - intros (c & Hc & Hr & Hm & Hd). right. apply list_elem_of_fmap. exists i. split; [done|]. apply list_elem_of_fmap.
    exists (i, c). split; [done|]. apply tbl_select_spec. split; [done|]. by rewrite bool_decide_eq_true_2, Hm, Hd.
Qed.

Section samples.
Context (d : DB) (samples : list sample) (i : Z).
Hypotheses (Hws : wf_table (servers d)) (Hwc : wf_table (clients d)) (Hi : 0 <= i) (Hc : host_collect true d = Some samples).

Lemma server_sample t : (exists name host, (["server"; dec i; name; host], t) ∈ samples) <->
  exists s, rows (servers d) !! i = Some s /\ server_sampled s = Some t.
Proof.
  injection Hc as <-. setoid_rewrite elem_of_app. setoid_rewrite list_elem_of_omap. split.
  - intros (n & h & [([j s] & Hj & E)|([j c] & _ & E)]).
    + apply rows_by_id_elem in Hj. simpl in E. destruct (server_sampled s) eqn:Es; simpl in E; [|done].
      injection E as E _ _ <-. apply dec_inj in E as <-; [eauto|..|done]. apply Hws in Hj. lia.
    + simpl in E. by destruct (client_sampled c).
  - intros (s & Hs & Ht). exists (srv_hostname s), (srv_hostname s). left. exists (i, s).
    split; [by apply rows_by_id_elem|]. simpl. by rewrite Ht.
Qed.

Lemma client_sample t : (exists name host, (["client"; dec i; name; host], t) ∈ samples) <->
  exists c, rows (clients d) !! i = Some c /\ client_sampled c = Some t.
Proof.
  injection Hc as <-. setoid_rewrite elem_of_app. setoid_rewrite list_elem_of_omap. split.
  - intros (n & h & [([j s] & _ & E)|([j c] & Hj & E)]).
    + simpl in E. by destruct (server_sampled s).
    + apply rows_by_id_elem in Hj. simpl in E. destruct (client_sampled c) eqn:Es; simpl in E; [|done].
      injection E as E _ _ <-. apply dec_inj in E as <-; [eauto|..|done]. apply Hwc in Hj. lia.
  - intros (c & Hs & Ht). exists (client_label c), (default "" (cl_hostname c)). right. exists (i, c).
    split; [by apply rows_by_id_elem|]. simpl. by rewrite Ht.
Qed.
End samples.

(** C39. The alert watches what the sweep renews: the host-certificate gauge
    has a sample for a hub or a client that is below the sweep's cutoff
    exactly when the sweep would queue a rotation for a host with a recorded
    certificate; so a rotation that keeps failing shows. *)
Theorem gauge_watches_the_sweep now renew d samples i : wf_table (servers d) -> wf_table (clients d) -> 0 <= i ->
  host_collect true d = Some samples ->
  let below kind := exists name host t, ([kind; dec i; name; host], t) ∈ samples /\ t < now + renew * 1000000 in
  (below "server" <-> RotateHostCert i ∈ sweep_queue now renew d /\
     exists s, rows (servers d) !! i = Some s /\ hc_valid_before (srv_host_cert s) <> None) /\
  (below "client" <-> RotateClientHostCert i ∈ sweep_queue now renew d /\
     exists c, rows (clients d) !! i = Some c /\ hc_valid_before (cl_host_cert c) <> None).
Proof.
  intros Hws Hwc Hi Hc below. unfold below. rewrite sweep_server, sweep_client. split; split.
  - intros (n & h & t & Ht & Hlt). destruct (proj1 (server_sample d samples i Hws Hi Hc t)) as (s & Hs & E); [eauto|].
    unfold server_sampled in E. case_bool_decide; [|done]. split; [exists s|exists s; by rewrite E].
    unfold cert_due. rewrite E. split_and!; [done..|]. by apply Z.ltb_lt.
  - intros [(s & Hs & Hr & Hd) (s' & Hs' & Hn)]. simplify_eq. unfold cert_due in Hd.
    destruct (hc_valid_before (srv_host_cert s)) as [t|] eqn:E; [|done]. apply Z.ltb_lt in Hd.
    destruct (proj2 (server_sample d samples i Hws Hi Hc t)) as (n & h & Ht); [|eauto 6].
    exists s. unfold server_sampled. by rewrite bool_decide_eq_true_2.
  - intros (n & h & t & Ht & Hlt). destruct (proj1 (client_sample d samples i Hwc Hi Hc t)) as (c & Hs & E); [eauto|].
    unfold client_sampled in E. destruct (_ && _) eqn:Eb; [|done]. bool_to_prop. split; [exists c|exists c; by rewrite E].
    unfold cert_due. rewrite E. split_and!; [done..|]. by apply Z.ltb_lt.
  - intros [(c & Hs & Hr & Hm & Hd) (c' & Hs' & Hn)]. simplify_eq. unfold cert_due in Hd.
    destruct (hc_valid_before (cl_host_cert c)) as [t|] eqn:E; [|done]. apply Z.ltb_lt in Hd.
    destruct (proj2 (client_sample d samples i Hwc Hi Hc t)) as (n & h & Ht); [|eauto 6].
    exists c. unfold client_sampled. by rewrite bool_decide_eq_true_2, Hm.
Qed.

(** The sweep also renews hosts without a recorded certificate, which the
    gauge leaves out: their failing rotations raise no alert. *)
Definition bare_server : Server := set_srv_host_cert (mkHostCertCols None None None None None None) (set_srv_status ready demo_server).
Definition bare_db : DB := on_servers (fun _ => mkTable {[1 := bare_server]} 2) empty_db.
Lemma unrecorded_host_unwatched :
  sweep_queue 0 43200 bare_db = [RotateHostCert 1] /\ host_collect true bare_db = Some [].
Proof. vm_compute. done. Qed.

(** ** The certificate gauge *)

(** One sample per certificate that is not revoked, with its expiry. *)
Lemma cert_gauge_exact d samples labels t : cert_collect true d = Some samples ->
  (labels, t) ∈ samples <->
  exists i c, rows (certificates d) !! i = Some c /\ crt_revoked c = false /\ t = crt_not_after c /\
    labels = [crt_serial c; crt_common_name c; CertificateType_value (crt_type c)].
Proof.
  intros [= <-]. rewrite list_elem_of_fmap. split.
  - intros ([i c] & [= -> ->] & Hc). apply list_elem_of_In, filter_In in Hc as [Hc Hr].
    apply list_elem_of_In, rows_by_id_elem in Hc. apply negb_true_iff in Hr. eauto 6.
  - intros (i & c & Hc & Hr & -> & ->). exists (i, c). split; [done|]. apply list_elem_of_In, filter_In.
    split; [by apply list_elem_of_In, rows_by_id_elem|]. simpl. by rewrite Hr.
Qed.

(** ** Vault and Celery counters *)

Lemma inc_value name labels r name' labels' : counter_value name' labels' (inc name labels r) =
  counter_value name' labels' r + if bool_decide ((name', labels') = (name, labels)) then 1 else 0.
Proof.
  unfold counter_value at 1, inc. cbn [counters]. rewrite lookup_insert. case_decide as E.
  - injection E as -> ->. by rewrite bool_decide_eq_true_2.
  - rewrite bool_decide_eq_false_2 by congruence. unfold counter_value. lia.
Qed.

(** A round-trip is counted once, as ok or as error, whatever its outcome,
    which the caller gets unchanged. *)
Lemma vault_call_counts {A} engine operation t0 t1 (body : _ -> outcome A * _) s res r spans result :
  body s = (res, (r, spans)) ->
  let '(res', (r', spans')) := vault_call engine operation t0 t1 body s in
  res' = res /\ length spans' = Datatypes.S (length spans) /\
  counter_value VAULT_REQUESTS [engine; operation; result] r' =
    counter_value VAULT_REQUESTS [engine; operation; result] r +
    if bool_decide (result = match res with Ok _ => "ok" | Raise _ => "error" end) then 1 else 0.
Proof.
  intros E. unfold vault_call. rewrite E. split_and!; [done|rewrite length_app; simpl; lia|].
  unfold observe. unfold counter_value at 1. cbn [counters]. fold (counter_value VAULT_REQUESTS [engine; operation; result]
    (inc VAULT_REQUESTS [engine; operation; if match res with Ok _ => false | Raise _ => true end then "error" else "ok"] r)).
  rewrite inc_value. destruct res; do 2 case_bool_decide; congruence.
Qed.

Inductive celery_event :=
| Prerun (now : Z) (task_id : string)
| Postrun (now : Z) (task_id name state : string).

Definition celery_step (s : celery_state) (e : celery_event) : celery_state :=
  match e with
  | Prerun now id => on_task_prerun now (Some id) s
  | Postrun now id name state => on_task_postrun now (Some id) name (Some state) s
  end.
Definition celery_run (evs : list celery_event) : celery_state := fold_left celery_step evs (mkCelery ∅ empty_registry).

(** The tasks of a run that have started and not ended since. *)
Fixpoint running (evs : list celery_event) (live : gset string) : gset string :=
  match evs with
  | [] => live
  | Prerun _ id :: evs' => running evs' (live ∪ {[id]})
  | Postrun _ id _ _ :: evs' => running evs' (live ∖ {[id]})
  end.

(** The table of start times holds exactly the tasks that are running, so it
    does not grow with the tasks that have ended; and every end is counted
    once under its name and state. *)
Lemma celery_accounting evs name state :
  Forall (fun e => match e with Prerun _ id => id <> "" | Postrun _ id _ st => id <> "" /\ st <> "" end) evs ->
  dom (task_start (celery_run evs)) = running evs ∅ /\
  counter_value CELERY_TASKS [name; state] (celery_registry (celery_run evs)) =
    Z.of_nat (length (List.filter (fun e => match e with
      | Postrun _ _ n st => bool_decide (n = name) && bool_decide (st = state) | _ => false end) evs)).
Proof.
  intros Hne. unfold celery_run.
  assert (G : forall s live, dom (task_start s) = live ->
    dom (task_start (fold_left celery_step evs s)) = running evs live /\
    counter_value CELERY_TASKS [name; state] (celery_registry (fold_left celery_step evs s)) =
      counter_value CELERY_TASKS [name; state] (celery_registry s) + Z.of_nat (length (List.filter (fun e => match e with
        | Postrun _ _ n st => bool_decide (n = name) && bool_decide (st = state) | _ => false end) evs))).
  { induction Hne as [|e evs He Hne IH]; intros s live Hl; [simpl; split; [done|lia]|]. destruct e as [now id|now id n st].
    - cbn [fold_left running List.filter celery_step]. destruct (IH (on_task_prerun now (Some id) s) (live ∪ {[id]})) as [H1 H2].
      + simpl. rewrite (proj2 (nonempty_true id) He). simpl. rewrite dom_insert_L, Hl. set_solver.
      + split; [done|]. rewrite H2. simpl. by destruct (nonempty id).
    - destruct He as [Hid Hst]. cbn [fold_left running List.filter celery_step].
      destruct (IH (on_task_postrun now (Some id) n (Some st) s) (live ∖ {[id]})) as [H1 H2].
      + unfold on_task_postrun. rewrite (proj2 (nonempty_true id) Hid). simpl. rewrite dom_delete_L, Hl. done.
      + split; [done|]. rewrite H2. unfold on_task_postrun. rewrite (proj2 (nonempty_true id) Hid), (proj2 (nonempty_true st) Hst).
        cbn [celery_registry]. rewrite inc_value.
        assert (Ho : forall v r, counter_value CELERY_TASKS [name; state] (observe CELERY_DURATION [n] v r) =
          counter_value CELERY_TASKS [name; state] r) by done.
        replace (counter_value CELERY_TASKS [name; state] (match _ with Some t => _ | None => _ end))
          with (counter_value CELERY_TASKS [name; state] (celery_registry s)) by (case_match; by rewrite ?Ho).
        repeat case_bool_decide; simplify_eq; cbn [andb length]; try lia; congruence. }
  destruct (G (mkCelery ∅ empty_registry) ∅ (dom_empty_L)) as [H1 H2]. split; [done|]. rewrite H2. unfold counter_value. simpl.
  rewrite lookup_empty. simpl. lia.
Qed.

(** ** Witnesses *)

Definition expiring_server : Server :=
  set_srv_host_cert (mkHostCertCols (Some "cert") (Some 7) (Some "hub") (Some 0) (Some 100) None) (set_srv_status ready demo_server).
Definition expiring_db : DB := on_servers (fun _ => mkTable {[1 := expiring_server]} 2) empty_db.

Lemma gauge_watches_the_sweep_witness : exists samples, host_collect true expiring_db = Some samples /\
  samples = [(["server"; "1"; srv_hostname demo_server; srv_hostname demo_server], 100)] /\
  let below kind := exists name host t, ([kind; dec 1; name; host], t) ∈ samples /\ t < 5 + 60 * 1000000 in
  (below "server" <-> RotateHostCert 1 ∈ sweep_queue 5 60 expiring_db /\
     exists s, rows (servers expiring_db) !! 1 = Some s /\ hc_valid_before (srv_host_cert s) <> None) /\
  (below "client" <-> RotateClientHostCert 1 ∈ sweep_queue 5 60 expiring_db /\
     exists c, rows (clients expiring_db) !! 1 = Some c /\ hc_valid_before (cl_host_cert c) <> None).
Proof.
  eexists. split; [vm_compute; reflexivity|]. split; [reflexivity|].
  apply (gauge_watches_the_sweep 5 60 expiring_db _ 1).
  - split; [done|]. intros i r Hr. change (rows (servers expiring_db)) with ({[1 := expiring_server]} : gmap Z Server) in Hr.
    apply lookup_singleton_Some in Hr as [<- _]. simpl. lia.
  - apply wf_table_empty.
  - lia.
  - vm_compute. reflexivity.
Defined.
