(* ===== verification/EnrollApp.v ===== *)
(** * The enrollment listener

    [src/src/wg_manager/enroll_app.py] and the request body of its schema.
    Parameters: pydantic's decoding of the JSON body into its three string
    fields, the check that a text is an Ed25519 OpenSSH key ([cryptography]),
    the SSH CA, and whether the hub's [ipam] lock was acquired ([Locks.v]).
    Outcomes are handed to the counters of [EnrollMetrics.v]. *)

From S2P Require Import Prelude PyStr IpAddr Hashing Base64 Models Session Broker Demo Ipam TenantScope AuditLog Ratelimit EnrollMetrics Enrollment Wireguard Tasks RouterServers RouterClients RouterTokens.

Definition ENROLL_PATH : string := "/v1/enroll".
Definition IPAM_LOCK_TIMEOUT_SECONDS : Z := 10.

(** ** The request body *)

Record EnrollRequest := mkEnrollRequest {
  rq_hostname : string; rq_wg_public_key : string; rq_ssh_host_public_key : string
}.

(** [[a-z0-9]([a-z0-9-]*[a-z0-9])?] *)
Definition label_ok (s : string) : bool :=
  match s with
  | "" => false
  | String c _ =>
      is_alnum c && str_forall (fun c => is_alnum c || ceqb c "-") s &&
      match String.get (String.length s - 1) s with Some l => is_alnum l | None => false end
  end.

(** [_ENROLL_HOSTNAME_PATTERN] *)
Definition hostname_ok (s : string) : bool := forallb label_ok (split_on "." s).

(** [_wg_key_shape] *)
Definition wg_key_ok (s : string) : bool :=
  match b64decode s with Some raw => Z.of_nat (length raw) =? 32 | None => false end.

(** [str.split()]: the maximal runs without white space. *)
Fixpoint split_ws (s : string) : list string :=
  match s with
  | "" => []
  | String c s' =>
      if is_space c then split_ws s'
      else match s' with
           | "" => [String c ""]
           | String c' _ =>
               if is_space c' then String c "" :: split_ws s'
               else match split_ws s' with
                    | w :: ws => String c w :: ws
                    | [] => [String c ""]
                    end
           end
  end.

(** [_ssh_key_is_ed25519]: the key without its comment. *)
Definition normalise_ssh_key (is_ed25519 : string -> bool) (value : string) : option string :=
  match split_ws (strip value) with
  | ty :: b64 :: _ =>
      let normalised := ty +:+ " " +:+ b64 in
      if isascii normalised && is_ed25519 normalised then Some normalised else None
  | _ => None
  end.

(** [EnrollRequest.model_validate_json]; [decode] is the JSON decoder. *)
Definition validate_enroll_request (decode : bytes -> option (string * string * string))
  (is_ed25519 : string -> bool) (body : bytes) : option EnrollRequest :=
  '(hostname, wg_key, ssh_key) ← decode body;
  ssh_key' ← normalise_ssh_key is_ed25519 ssh_key;
  if (len hostname <=? 63) && hostname_ok hostname && wg_key_ok wg_key
  then Some (mkEnrollRequest hostname wg_key ssh_key') else None.

(** ** The endpoint *)

(** [_bearer] *)
Definition bearer (authorization : option string) : option string :=
  match authorization with
  | None => None
  | Some h =>
      if negb (nonempty h) then None
      else
        let '(scheme, _, value) := partition " " h in
        if negb (bool_decide (lower scheme = "bearer")) || negb (nonempty (strip value)) then None
        else Some (strip value)
  end.

Record enroll_env := mkEnrollEnv {
  ee_decode : bytes -> option (string * string * string);
  ee_is_ed25519 : string -> bool;
  ee_mint_host_cert : string -> list string -> outcome HostCert;
  ee_ca_public_key : string
}.

Record EnrollResponse := mkEnrollResponse {
  rs_client_id : Z; rs_name : string; rs_address : string; rs_wg_config : string;
  rs_ssh_username : string; rs_user_ca_public_key : string; rs_host_certificate : string;
  rs_host_cert_principals : list string
}.

Definition uniform_401 : exn :=
  HTTPException 401 "invalid enrollment token" [("WWW-Authenticate", "Bearer")].

Section enroll.
Context `{Dumps} (env : enroll_env) (now : Z).

(** [_reject] *)
Definition reject {A} (peer : option string) (reason : string) (token_id : option Z) : M A :=
  emit now "enroll.reject" [("reason", JStr reason); ("token_id", jopt_int token_id); ("peer", jopt peer)] ;;
  count_outcome ("reject:" +:+ reason) ;;
  raise uniform_401.

(** [_parse_body] *)
Definition parse_body (body : bytes) : M EnrollRequest :=
  some_or_raise (validate_enroll_request (ee_decode env) (ee_is_ed25519 env) body) RequestValidationError.

Definition public_key_taken (d : DB) (key : string) : bool :=
  negb (bool_decide (tbl_select (fun _ c => bool_decide (cl_public_key c = key)) (clients d) = [])).

(** [_admit]: id and row of the new client, its hub and its certificate. *)
Definition admit_host (row : EnrollmentToken) (payload : EnrollRequest)
  : M (Z * Client * Server * HostCert) :=
  d <- get_db ;;
  server <- some_or_raise (rows (servers d) !! tok_server_id row ≫= fun s =>
                             if bool_decide (srv_status s = ready) then Some s else None)
    (HTTPException 503 "hub not ready; retry later" [("Retry-After", "30")]) ;;
  let name := tok_name_prefix row +:+ "-" +:+ rq_hostname payload in
  raise_if (client_name_taken d name) (http_error 409 ("client " +:+ repr name +:+ " already exists")) ;;
  raise_if (public_key_taken d (rq_wg_public_key payload)) (http_error 409 "wg_public_key already enrolled") ;;
  address <- allocate_or_409 d (tok_server_id row) server ;;
  cert <- match ee_mint_host_cert env (rq_ssh_host_public_key payload) [v4_str address] with
          | Raise (SSHCAError _) => raise (http_error 502 "certificate authority unavailable; retry later")
          | o => lift o
          end ;;
  let client := mkClient (tok_tenant_id row) name (Some (v4_str address)) 22 (Some (tok_ssh_username row))
                  (Some (tok_ssh_key_id row)) (tok_server_id row) (client_cidr address)
                  (rq_wg_public_key payload) false ready now
                  (persist_host_cert cert (ee_ca_public_key env)) in
  let id := next_id (clients d) in
  modify_db (on_clients (tbl_insert client)) ;;
  ret (id, client, server, cert).

(** The body of the [try] under the lock. *)
Definition redeem (peer : option string) (token_id : Z) (row : EnrollmentToken) (payload : EnrollRequest)
  : M (Z * Client * Server * HostCert) :=
  ok <- consume_token token_id ;;
  (if negb ok then reject peer "exhausted" (Some token_id) else ret tt) ;;
  r <- admit_host row payload ;;
  persist now (mkAuditArgs "client.enroll" no_actor "client" (Some r.1.1.1) "create" None
    (Some (dump_client r.1.1.1 r.1.1.2))
    (Some (JObj [("token_id", JInt token_id); ("hostname", JStr (rq_hostname payload));
                 ("server_id", JInt (tok_server_id row)); ("peer", jopt peer)])) None
    (cl_tenant_id r.1.1.2)) ;;
  commit ;;
  ret r.

Definition enroll (acquired : bool) (peer : option string) (body : bytes) (authorization : option string)
  : M EnrollResponse :=
  d <- get_db ;;
  match bearer authorization with
  | None => reject peer "missing_token" None
  | Some token =>
  match find_token d token with
  | None => reject peer "unknown_token" None
  | Some (token_id, row) =>
      if negb (bool_decide (tok_revoked_at row = None)) then reject peer "revoked" (Some token_id)
      else if is_expired now row then reject peer "expired" (Some token_id)
      else if tok_max_uses row <=? tok_use_count row then reject peer "exhausted" (Some token_id)
      else
        allowed <- some_or_raise (source_allowed row peer) (ValueError "invalid network") ;;
        if negb allowed then reject peer "source_not_allowed" (Some token_id)
        else
          payload <- parse_body body ;;
          raise_if (negb acquired) (HTTPException 503 "enrollment busy; retry" [("Retry-After", "5")]) ;;
          r <- try_except (redeem peer token_id row payload) (fun e => rollback ;; raise e) ;;
          let '(id, client, server, cert) := r in
          request_reconfigure (tok_server_id row) ;;
          ret (mkEnrollResponse id (cl_name client) (cl_address client)
                 (render_enrolled_client_config client server) (default "" (cl_ssh_username client))
                 (ee_ca_public_key env) (cert_pem cert) (principals cert))
  end end.
End enroll.

(** ** Lemmas *)

(** The request carries a token that may be redeemed now, from here. *)
Definition token_live (now : Z) (d : DB) (peer : option string) (authorization : option string)
  (token_id : Z) (row : EnrollmentToken) : Prop :=
  exists token, bearer authorization = Some token /\ find_token d token = Some (token_id, row) /\
    token_status now row = ts_active /\ source_allowed row peer = Some true.

Lemma token_active_iff now row :
  token_status now row = ts_active <->
  tok_revoked_at row = None /\ is_expired now row = false /\ tok_use_count row < tok_max_uses row.
Proof.
  unfold token_status. destruct (tok_revoked_at row); [split; [done|intros [? _]; done]|].
  destruct (is_expired now row); [split; [done|intros (_ & ? & _); done]|].
  destruct (Z.leb_spec (tok_max_uses row) (tok_use_count row)); split; try done; lia.
Qed.

Section enroll_lemmas.
Context `{Dumps} (env : enroll_env) (now : Z).

(** What a rejection leaves outside the database. *)
Definition count_in (name : string) (o : Outside) : Outside :=
  mkOutside (issued o) (revoked_serials o) (files o) (samples o) (outcomes o ++ [name]) (broker o).

Lemma reject_spec {A} peer reason id w :
  exists line, reject (A := A) now peer reason id w =
    (Raise uniform_401, mkWorld (committed w) (view w) (queue w) (audit_log w ++ [line])
      (count_in ("reject:" +:+ reason) (outside w))).
Proof. unfold reject, bind, emit, log, raise. eauto. Qed.

Lemma quiet_reject {A} peer reason id : quiet (reject (A := A) now peer reason id).
Proof. unfold reject, emit. solve_effect. Qed.

Lemma quiet_parse_body body : quiet (parse_body env body).
Proof. unfold parse_body. solve_effect. Qed.

Lemma quiet_consume id : quiet (consume_token id).
Proof. unfold consume_token. solve_effect. Qed.

Lemma quiet_admit_host row payload : quiet (admit_host env now row payload).
Proof. unfold admit_host. solve_effect. Qed.

Lemma consume_token_live id row w :
  rows (tokens (view w)) !! id = Some row -> token_status now row = ts_active ->
  consume_token id w =
    (Ok true, mkWorld (committed w)
       (on_tokens (tbl_set id (set_tok_use_count (tok_use_count row + 1) row)) (view w))
       (queue w) (audit_log w) (outside w)).
Proof.
  intros Hr (Hrev & _ & Hu)%token_active_iff. unfold consume_token, bind, get_db. rewrite Hr. simpl.
  assert (E : consume_row row = Some (set_tok_use_count (tok_use_count row + 1) row))
    by (by apply consume_row_Some).
  by rewrite E.
Qed.

(** The request before its token is redeemed: either it is turned down with
    nothing changed but the audit log, or the token is live and the rest is
    the redemption. *)
Lemma enroll_cases acquired peer body auth w r w' :
  enroll env now acquired peer body auth w = (r, w') ->
  (exists line reason, (forall id row, ~ token_live now (view w) peer auth id row) /\ r = Raise uniform_401 /\
     w' = mkWorld (committed w) (view w) (queue w) (audit_log w ++ [line])
       (count_in ("reject:" +:+ reason) (outside w))) \/
  (r = Raise (ValueError "invalid network") /\ w' = w /\
     exists id row, rows (tokens (view w)) !! id = Some row /\ source_allowed row peer = None) \/
  (exists token_id row, token_live now (view w) peer auth token_id row /\
     (r = Raise RequestValidationError \/
      r = Raise (HTTPException 503 "enrollment busy; retry" [("Retry-After", "5")])) /\ w' = w) \/
  (exists token_id row payload,
     token_live now (view w) peer auth token_id row /\ acquired = true /\
     validate_enroll_request (ee_decode env) (ee_is_ed25519 env) body = Some payload /\
     (q <- try_except (redeem env now peer token_id row payload) (fun e => rollback ;; raise e) ;;
      let '(id, client, server, cert) := q in
      request_reconfigure (tok_server_id row) ;;
      ret (mkEnrollResponse id (cl_name client) (cl_address client)
             (render_enrolled_client_config client server) (default "" (cl_ssh_username client))
             (ee_ca_public_key env) (cert_pem cert) (principals cert))) w = (r, w')).
Proof.
  assert (Hrej : forall reason id, reject now peer reason id w = (r, w') ->
    (forall id row, ~ token_live now (view w) peer auth id row) ->
    exists line reason, (forall id row, ~ token_live now (view w) peer auth id row) /\ r = Raise uniform_401 /\
     w' = mkWorld (committed w) (view w) (queue w) (audit_log w ++ [line])
       (count_in ("reject:" +:+ reason) (outside w))).
  { intros reason id E Hn. destruct (reject_spec (A := EnrollResponse) peer reason id w) as [line El].
    rewrite El in E. simplify_eq. eauto. }
  unfold enroll. rewrite bind_get_db.
  destruct (bearer auth) as [token|] eqn:Eb.
  2: { intros E. left. eapply Hrej; [done|]. intros id row (t & ? & _). congruence. }
  destruct (find_token (view w) token) as [[token_id row]|] eqn:Ef.
  2: { intros E. left. eapply Hrej; [done|]. intros id row (t & ? & ? & _). congruence. }
  assert (Hdead : (token_status now row <> ts_active \/ source_allowed row peer <> Some true) ->
    forall id row, ~ token_live now (view w) peer auth id row).
  { intros Hd id row' (t & ? & ? & ? & ?). simplify_eq. naive_solver. }
  rewrite (token_active_iff now row) in Hdead.
  case_bool_decide as Er; cbn [negb].
  2: { intros E. left. eapply Hrej; [done|]. apply Hdead. tauto. }
  destruct (is_expired now row) eqn:Ee.
  { intros E. left. eapply Hrej; [done|]. apply Hdead. left. intros (_ & ? & _). congruence. }
  destruct (Z.leb_spec (tok_max_uses row) (tok_use_count row)) as [El|El].
  { intros E. left. eapply Hrej; [done|]. apply Hdead. left. lia. }
  destruct (source_allowed row peer) as [[|]|] eqn:Es; unfold some_or_raise at 1.
  3: { intros E. right; left. unfold bind, raise in E. simplify_eq. split_and!; try done.
       apply find_token_Some in Ef as [? _]. eauto. }
  2: { rewrite bind_ret. cbn [negb]. intros E. left. eapply Hrej; [done|]. apply Hdead. by right. }
  rewrite bind_ret. cbn [negb].
  assert (Hlive : token_live now (view w) peer auth token_id row).
  { exists token. split_and!; try done. apply token_active_iff. done. }
  unfold parse_body.
  destruct (validate_enroll_request _ _ body) as [payload|] eqn:Ev; unfold some_or_raise at 1.
  2: { intros E. right; right; left. exists token_id, row. unfold bind, raise in E. simplify_eq. auto. }
  rewrite bind_ret. destruct acquired; cbn [negb raise_if].
  - rewrite bind_ret. intros E. do 3 right. eauto 10.
  - intros E. right; right; left. exists token_id, row. unfold bind, raise in E. simplify_eq. auto.
Qed.

(** The row of an admitted host. *)
Definition enrolled_client (row : EnrollmentToken) (payload : EnrollRequest) (address : Z) (cert : HostCert)
  : Client :=
  mkClient (tok_tenant_id row) (tok_name_prefix row +:+ "-" +:+ rq_hostname payload)
    (Some (v4_str address)) 22 (Some (tok_ssh_username row)) (Some (tok_ssh_key_id row))
    (tok_server_id row) (client_cidr address) (rq_wg_public_key payload) false ready now
    (persist_host_cert cert (ee_ca_public_key env)).

Lemma admit_host_Ok row payload w cid client server cert w' :
  admit_host env now row payload w = (Ok (cid, client, server, cert), w') ->
  exists address,
    rows (servers (view w)) !! tok_server_id row = Some server /\ srv_status server = ready /\
    client_name_taken (view w) (cl_name client) = false /\
    public_key_taken (view w) (cl_public_key client) = false /\
    allocate_client_ip (view w) (tok_server_id row) server = Ok address /\
    ee_mint_host_cert env (rq_ssh_host_public_key payload) [v4_str address] = Ok cert /\
    client = enrolled_client row payload address cert /\ cid = next_id (clients (view w)) /\
    w' = mkWorld (committed w) (on_clients (tbl_insert client) (view w)) (queue w) (audit_log w) (outside w).
Proof.
  unfold admit_host. intros H0. step_ok H0. prim_ok.
  match goal with Ha : allocate_or_409 _ _ _ _ = (Ok ?a, _) |- _ =>
    apply allocate_or_409_Ok in Ha as [-> Ha]; exists a end.
  match goal with Hc : match ee_mint_host_cert _ _ _ with _ => _ end _ = _ |- _ => rename Hc into Hcert end.
  destruct (ee_mint_host_cert _ _ _) as [c|[]] eqn:Em; unfold lift, raise in Hcert; simplify_eq.
  match goal with Hs : (rows (servers _) !! _ ≫= _) = Some _ |- _ =>
    apply bind_Some in Hs as (s0 & Hs & Hst) end.
  case_bool_decide; simplify_eq. by split_and!.
Qed.

Lemma redeem_Ok peer token_id row payload w cid client server cert w' :
  rows (tokens (view w)) !! token_id = Some row -> token_status now row = ts_active ->
  redeem env now peer token_id row payload w = (Ok (cid, client, server, cert), w') ->
  exists address ev,
    rows (servers (view w)) !! tok_server_id row = Some server /\ srv_status server = ready /\
    client_name_taken (view w) (cl_name client) = false /\
    public_key_taken (view w) (cl_public_key client) = false /\
    allocate_client_ip (view w) (tok_server_id row) server = Ok address /\
    ee_mint_host_cert env (rq_ssh_host_public_key payload) [v4_str address] = Ok cert /\
    client = enrolled_client row payload address cert /\ cid = next_id (clients (view w)) /\
    ev_event ev = "client.enroll" /\ ev_resource_id ev = Some cid /\
    committed w' = on_audit_events (tbl_insert ev) (on_clients (tbl_insert client)
      (on_tokens (tbl_set token_id (set_tok_use_count (tok_use_count row + 1) row)) (view w))) /\
    view w' = committed w' /\ queue w' = queue w /\ ev_tenant_id ev = tok_tenant_id row /\
    outside w' = outside w.
Proof.
  intros Hr Ha. unfold redeem. intros H0. step_ok H0. unfold persist in *.
  repeat match goal with Hb : (bind _ _) _ = (Ok _, _) |- _ => step_ok Hb end.
  match goal with Hc : consume_token _ _ = _ |- _ => rewrite (consume_token_live _ row) in Hc by done end.
  simplify_eq. cbn [negb] in *. prim_ok.
  match goal with Hc : admit_host _ _ _ _ _ = _ |- _ =>
    apply admit_host_Ok in Hc as (address & Hs & Hst & Hn & Hk & Hal & Hm & Hcl & Hid & ->) end.
  cbn [view committed queue] in *. subst client. exists address. eexists. split_and!; try done; reflexivity.
Qed.
End enroll_lemmas.

(** ** Theorems *)

Section enroll_theorems.
Context `{Dumps} (env : enroll_env) (now : Z).

Lemma token_live_row d peer auth token_id row :
  token_live now d peer auth token_id row ->
  rows (tokens d) !! token_id = Some row /\ token_status now row = ts_active.
Proof. intros (t & _ & [? _]%find_token_Some & ? & _). done. Qed.

Lemma atomic_redeem peer token_id row payload : atomic (redeem env now peer token_id row payload).
Proof.
  unfold redeem. pose proof quiet_consume. pose proof (quiet_admit_host env now).
  pose proof (@quiet_reject now unit). solve_effect.
Qed.

Lemma steady_reject {A} peer reason id : steady (reject (A := A) now peer reason id).
Proof. unfold reject, emit. solve_steady. Qed.

Lemma steady_redeem peer token_id row payload : steady (redeem env now peer token_id row payload).
Proof.
  pose proof (@steady_reject unit). unfold redeem, consume_token, admit_host, allocate_or_409, persist, emit. solve_steady.
Qed.

(** What is left of a redemption that succeeded or failed. *)
Lemma redemption_outcome peer token_id row payload w r w' :
  rows (tokens (view w)) !! token_id = Some row -> token_status now row = ts_active ->
  committed w = view w ->
  (q <- try_except (redeem env now peer token_id row payload) (fun e => rollback ;; raise e) ;;
   let '(id, client, server, cert) := q in
   request_reconfigure (tok_server_id row) ;;
   ret (mkEnrollResponse id (cl_name client) (cl_address client)
          (render_enrolled_client_config client server) (default "" (cl_ssh_username client))
          (ee_ca_public_key env) (cert_pem cert) (principals cert))) w = (r, w') ->
  match r with
  | Raise e => queue w' = queue w /\
      ((committed w' = committed w /\ exists w1, redeem env now peer token_id row payload w = (Raise e, w1)) \/
       e = BrokerError /\ exists q w1, redeem env now peer token_id row payload w = (Ok q, w1) /\
         committed w' = bump_generation (tok_server_id row) (committed w1))
  | Ok resp => exists cid client server cert w1,
      redeem env now peer token_id row payload w = (Ok (cid, client, server, cert), w1) /\
      rs_client_id resp = cid /\ rs_address resp = cl_address client /\ rs_name resp = cl_name client /\
      rs_wg_config resp = render_enrolled_client_config client server /\
      rs_host_certificate resp = cert_pem cert /\
      committed w' = bump_generation (tok_server_id row) (committed w1) /\
      queue w' = queue w ++ [ReconfigureServer (tok_server_id row) (srv_reconfig_requested_gen server + 1)]
  end.
Proof.
  intros Hrow Ha Hcv. unfold bind at 1, try_except.
  destruct (redeem env now peer token_id row payload w) as [[[[[cid client] server] cert]|e] w1] eqn:E.
  - destruct (redeem_Ok _ _ _ _ _ _ _ _ _ _ _ _ Hrow Ha E)
      as (address & ev & Hs & _ & _ & _ & _ & _ & _ & _ & _ & _ & Hc & Hv & Hq & _).
    assert (Hs' : rows (servers (view w1)) !! tok_server_id row = Some server) by (by rewrite Hv, Hc).
    unfold bind. rewrite (request_reconfigure_eq _ _ _ Hs'). destruct (broker _ _); intros [= <- <-].
    + exists cid, client, server, cert, w1. rewrite Hv, Hq. by split_and!.
    + split; [done|]. right. split; [done|]. eexists _, w1. split; [done|]. by rewrite Hv.
  - unfold bind, rollback, raise. intros [= <- <-].
    destruct (atomic_redeem peer token_id row payload _ _ _ E) as [Hc Hq]. split; [done|]. left. split; [done|]. eauto.
Qed.

(** A refused message is the only failure that comes after the commit. *)
Lemma late_redemption peer token_id row payload (k : Z -> Client -> Server -> HostCert -> EnrollResponse) w :
  rows (tokens (view w)) !! token_id = Some row -> token_status now row = ts_active -> accepting w ->
  late (q <- try_except (redeem env now peer token_id row payload) (fun e => rollback ;; raise e) ;;
        let '(id, client, server, cert) := q in
        request_reconfigure (tok_server_id row) ;; ret (k id client server cert)) w.
Proof.
  intros Hrow Ha Hacc. apply late_atomic; [apply steady_try; [apply steady_redeem|solve_steady]| |done|].
  - intros w0 e w'. unfold try_except. destruct (redeem _ _ _ _ _ _ w0) as [[q|e0] w1] eqn:E; [done|].
    apply atomic_redeem in E as [<- <-]. unfold bind, rollback, raise. by intros [= <- <-].
  - intros [[[cid client] server] cert] w1 Hacc1. unfold try_except.
    destruct (redeem _ _ _ _ _ _ w) as [[q|e0] w2] eqn:E; [|done]. intros [= -> ->].
    destruct (redeem_Ok _ _ _ _ _ _ _ _ _ _ _ _ Hrow Ha E)
      as (address & ev & Hs & _ & _ & _ & _ & _ & _ & _ & _ & _ & Hc & Hv & _).
    apply late_total_then; [|intros g; split_and!; [solve_steady|solve_effect..]].
    apply (late_total_reconfigure _ server); [by rewrite Hv, Hc|done].
Qed.

Lemma late_enroll acquired peer body auth w : accepting w -> late (enroll env now acquired peer body auth) w.
Proof.
  intros Hacc.
  pose proof (@quiet_reject now EnrollResponse) as Hqr. pose proof (@steady_reject EnrollResponse) as Hsr.
  unfold enroll. apply late_quiet; [solve_steady|solve_effect|done|]. intros d0 w0 _ Hc0 E0. prim_ok.
  destruct (bearer auth) as [token|]; [|solve_late].
  destruct (find_token _ token) as [[token_id row]|] eqn:Ef; [|solve_late].
  destruct (negb _) eqn:Er; [solve_late|]. destruct (is_expired now row) eqn:Ee; [solve_late|].
  destruct (tok_max_uses row <=? tok_use_count row) eqn:Eu; [solve_late|].
  assert (Ha : token_status now row = ts_active).
  { apply token_active_iff. bool_to_prop. by split_and!. }
  apply find_token_Some in Ef as [Hrow _]. unfold parse_body.
  apply late_quiet; [solve_steady|solve_effect|done|]. intros allowed w1 _ _ E1. prim_ok.
  destruct (negb allowed); [solve_late|].
  apply late_quiet; [solve_steady|solve_effect|done|]. intros payload w1 _ _ E2. prim_ok.
  apply late_quiet; [solve_steady|solve_effect|done|]. intros u w1 _ _ E3. prim_ok.
  by refine (late_redemption peer token_id row payload _ w Hrow Ha _).
Qed.

(** C15. Enrollment is all or nothing, whatever the broker does: a request that
    fails queues no task and leaves the database as it was, the token use
    included; the one exception is a broker that refuses the hub's
    reconfigure, which is asked after the commit: the request then fails with
    the broker's error, and the database is the one of the successful
    request. *)
Theorem enroll_all_or_nothing o acquired peer body auth d e w :
  run_in o (enroll env now acquired peer body auth) d = (Raise e, w) ->
  queue w = [] /\
  (committed w = d \/
   e = BrokerError /\ exists resp w1, run_in (open_broker o) (enroll env now acquired peer body auth) d = (Ok resp, w1) /\
     committed w = committed w1).
Proof. apply late_run, late_enroll, accepting_start. Qed.

(** C16. Token failures are indistinguishable: when the request does not carry a
    live token (missing, unknown, revoked, expired, used up, or presented
    from a network it is not bound to), the answer is one and the same 401,
    whatever the body; the stored networks are assumed to parse. *)
Theorem enroll_uniform_401 acquired peer body auth d :
  (forall i r, rows (tokens d) !! i = Some r -> is_Some (source_allowed r peer)) ->
  (forall id row, ~ token_live now d peer auth id row) ->
  result (enroll env now acquired peer body auth) d = Raise uniform_401.
Proof.
  intros Hparse Hno. unfold result, run.
  destruct (enroll env now acquired peer body auth (start d)) as [r w] eqn:E. simpl.
  apply enroll_cases in E as [(line & reason & _ & -> & _)|[(_ & _ & id & row & Hr & Hs)|[(id & row & Hl & _)|
    (id & row & payload & Hl & _)]]]; [done| |by apply Hno in Hl..].
  destruct (Hparse _ _ Hr) as [b Hb]. cbn [start view] in *. congruence.
Qed.

(** C5. What an admission does: a successful enrollment redeems a live token,
    uses it exactly once, and inserts one ready client on the token's hub and
    in its tenant, with a name and a WireGuard key no other client has, the
    address allocated for it and a host certificate whose only principal is
    that address; audit row and client are in one commit, and the hub is told
    to reconfigure at a generation of its own. *)
Theorem enroll_admits acquired peer body auth d resp w :
  run (enroll env now acquired peer body auth) d = (Ok resp, w) ->
  exists token_id row payload server address cert ev,
    token_live now d peer auth token_id row /\ acquired = true /\
    validate_enroll_request (ee_decode env) (ee_is_ed25519 env) body = Some payload /\
    rows (servers d) !! tok_server_id row = Some server /\ srv_status server = ready /\
    allocate_client_ip d (tok_server_id row) server = Ok address /\
    ee_mint_host_cert env (rq_ssh_host_public_key payload) [v4_str address] = Ok cert /\
    let client := enrolled_client env now row payload address cert in
    (forall i c, rows (clients d) !! i = Some c ->
       cl_name c <> cl_name client /\ cl_public_key c <> cl_public_key client) /\
    ev_event ev = "client.enroll" /\ ev_resource_id ev = Some (next_id (clients d)) /\
    rs_client_id resp = next_id (clients d) /\ rs_address resp = cl_address client /\
    committed w = bump_generation (tok_server_id row)
      (on_audit_events (tbl_insert ev) (on_clients (tbl_insert client)
        (on_tokens (tbl_set token_id (set_tok_use_count (tok_use_count row + 1) row)) d))) /\
    queue w = [ReconfigureServer (tok_server_id row) (srv_reconfig_requested_gen server + 1)].
Proof.
  intros (w1 & E & -> & -> & _)%run_world.
  apply enroll_cases in E as [(line & reason & _ & ? & _)|[(? & _)|[(id & row & _ & [?|?] & _)|
    (id & row & payload & Hl & Hacq & Hv & E)]]]; try done.
  pose proof (token_live_row _ _ _ _ _ Hl) as [Hr Ha].
  apply redemption_outcome in E as (cid & client & server & cert & w2 & E & Hid & Had & _ & _ & _ & -> & ->);
    [|done..].
  apply redeem_Ok in E as (address & ev & Hs & Hst & Hn & Hk & Hal & Hm & -> & -> & He & Hei & -> & _); [|done..].
  exists id, row, payload, server, address, cert, ev. split_and!; try done.
  cbv zeta. split_and!; try done. intros i c Hi. split; [by eapply client_name_taken_false|].
  unfold public_key_taken in Hk. bool_to_prop. rewrite tbl_select_nil in Hk. apply Hk in Hi.
  by bool_to_prop.
Qed.

(** ** Configuration text of enrolled hosts *)

Lemma no_newline_forall (p : ascii -> bool) s :
  p "010"%char = false -> str_forall p s = true -> no_newline s.
Proof.
  intros Hp Hs. unfold no_newline. apply char_in_false. eapply str_forall_impl; [|done].
  intros c Hc. apply negb_true_iff, ceqb_neq. intros <-. congruence.
Qed.

Lemma label_ok_clean s : label_ok s = true -> no_newline s.
Proof.
  destruct s as [|c s]; [done|]. intros E. unfold label_ok in E. bool_to_prop.
  by eapply no_newline_forall; [|done].
Qed.

Lemma hostname_ok_clean s : hostname_ok s = true -> no_newline s.
Proof.
  unfold hostname_ok. rewrite forallb_forall. intros Hl. rewrite <- (join_split_on "." s).
  unfold no_newline. apply char_in_false, str_forall_join; [done|]. apply Forall_forall.
  intros x Hx. apply char_in_false, label_ok_clean, Hl. by apply list_elem_of_In.
Qed.

Lemma prefix_ok_clean s : prefix_ok s = true -> no_newline s.
Proof.
  unfold prefix_ok, head_tail_pattern. destruct s as [|c s]; [done|]. intros E. bool_to_prop.
  apply (no_newline_forall (fun c => is_alnum c || ceqb c "-")); [done|]. simpl.
  apply andb_true_iff. split; [by apply orb_true_iff; left|done].
Qed.

Lemma wg_key_ok_clean s : wg_key_ok s = true -> no_newline s.
Proof.
  unfold wg_key_ok. destruct (b64decode s) eqn:E; [|done]. intros _.
  by eapply no_newline_forall; [|by eapply b64decode_alphabet].
Qed.

Lemma client_cidr_clean a : 0 <= a < 2 ^ 32 -> no_newline (client_cidr a).
Proof. intros Ha. unfold client_cidr. apply no_newline_app; [|done]. by apply v4_str_no_char. Qed.

Lemma enrolled_client_clean row payload body address cert :
  prefix_ok (tok_name_prefix row) = true ->
  validate_enroll_request (ee_decode env) (ee_is_ed25519 env) body = Some payload ->
  0 <= address < 2 ^ 32 -> clean_client (enrolled_client env now row payload address cert).
Proof.
  intros Hp Hv Ha. unfold validate_enroll_request in Hv.
  destruct (ee_decode env body) as [[[host key] ssh]|]; simpl in Hv; [|done].
  destruct (normalise_ssh_key _ ssh); simpl in Hv; [|done].
  destruct ((_ <=? _) && hostname_ok host && wg_key_ok key) eqn:E; [|done]. simplify_eq. bool_to_prop.
  unfold clean_client. simpl. split_and!.
  - apply no_newline_app; [by apply prefix_ok_clean|]. apply no_newline_app; [done|by apply hostname_ok_clean].
  - by apply wg_key_ok_clean.
  - by apply client_cidr_clean.
Qed.

Lemma omap_lookup_other (m : gmap Z Client) i c (ids : list Z) : i ∉ ids ->
  omap (fun j => <[i := c]> m !! j) ids = omap (fun j => m !! j) ids.
Proof.
  induction ids as [|j ids IH]; [done|]. intros [Hne Hni]%not_elem_of_cons. cbn [omap list_omap].
  rewrite lookup_insert_ne by done. by rewrite IH.
Qed.

(** C35. An enrolled host cannot write into the hub's configuration: when
    [POST /v1/enroll] admits a host on a token whose prefix passed the check of
    minting, rendering any hub with any of the clients, the new one among
    them, gives the peers of the same rendering without it and one more, with
    the host's key and address; this holds whatever text the hub and the other
    clients carry. *)
Theorem enroll_cannot_inject acquired peer body auth d resp w server (ids1 ids2 : list Z) :
  (forall i t, rows (tokens d) !! i = Some t -> prefix_ok (tok_name_prefix t) = true) ->
  run (enroll env now acquired peer body auth) d = (Ok resp, w) ->
  rs_client_id resp ∉ ids1 -> rs_client_id resp ∉ ids2 ->
  let rendered d ids := conf_peers None (split_on "010" (render_server_config server
                          (omap (fun i => rows (clients d) !! i) ids))) in
  exists client before after, rows (clients (committed w)) !! rs_client_id resp = Some client /\
    rendered (committed w) (ids1 ++ rs_client_id resp :: ids2) =
      before ++ (cl_public_key client, cl_address client) :: after /\
    rendered d (ids1 ++ ids2) = before ++ after.
Proof.
  intros Htok E Hn1 Hn2 rendered. apply run_world in E as (w1 & E & Hcm & _).
  apply enroll_cases in E as [(line & reason & _ & ? & _)|[(? & _)|[(id & row & _ & [?|?] & _)|
    (id & row & payload & Hl & _ & Hv & E)]]]; try done.
  pose proof (token_live_row _ _ _ _ _ Hl) as [Hr Ha].
  apply redemption_outcome in E as (cid & client & srv & cert & w2 & E & Hid & _ & _ & _ & _ & Hw & _); [|done..].
  apply redeem_Ok in E as (address & ev & _ & _ & _ & _ & Hal & _ & Hcl & Hcid & _ & _ & Hw2 & _); [|done..].
  cbn [start view] in *. subst cid. rewrite Hid in *.
  assert (Hcl' : rows (clients (committed w)) = <[next_id (clients d) := client]> (rows (clients d)))
    by (by rewrite Hcm, Hw, Hw2).
  assert (Hclean : clean_client client) by (subst client; eapply enrolled_client_clean; eauto using allocate_range).
  destruct (clean_client_adds_peer server (omap (fun i => rows (clients d) !! i) ids1) client
    (omap (fun i => rows (clients d) !! i) ids2) Hclean) as (before & after & E1 & E2).
  exists client, before, after. subst rendered. cbv beta. rewrite Hcl', !omap_app.
  cbn [omap list_omap]. rewrite lookup_insert_eq, !omap_lookup_other by done. by split_and!.
Qed.
End enroll_theorems.

(** ** Per-address rate limits *)

Record enroll_limits := mkEnrollLimits {
  enroll_failure_limit : Z; enroll_failure_window_seconds : Z;
  enroll_rate_limit_requests : Z; enroll_rate_limit_window_seconds : Z
}.

Record http_response := mkResponse {
  status_code : Z; content : string; headers : list (string * string)
}.

Definition FAILURE_STATUSES : list Z := [401; 422].

(** [_too_many] *)
Definition too_many (retry_after : Z) : http_response :=
  mkResponse 429 "too many requests" [("Retry-After", dec retry_after)].

Definition unavailable : http_response :=
  mkResponse 503 "enrollment temporarily unavailable; retry" [("Retry-After", "5")].

(** The calls one request may make on the limiter. *)
Record middleware_env := mkMwEnv { e_peek : call_env; e_hit : call_env; e_fail : call_env }.

(** What the middlewares leave behind: a line of the audit log, or an outcome
    handed to the metrics store. *)
Inductive mw_effect := AuditLine (line : string) | Counted (name : string).

Section rate_limit.
Context {S : Type} `{Limiter S} {W : Type} (s : enroll_limits) (now : Z).

Definition fail_key (ip : string) : string := "enroll-fail:" +:+ ip.
Definition req_key (ip : string) : string := "enroll-req:" +:+ ip.

Definition rate_limited_line (ip bucket : string) (retry_after : Z) : mw_effect :=
  AuditLine (emit_line now "enroll.rate_limited"
    [("peer", JStr ip); ("bucket", JStr bucket); ("retry_after", JInt retry_after)]).

(** [_blocked] *)
Definition blocked (bucket : string) (retry_after : Z) : http_response * mw_effect :=
  (too_many retry_after, Counted ("rate_limited:" +:+ bucket)).

(** The checks before the application is called: a response, or pass. *)
Definition before_app (e : middleware_env) (ip : string) (st : S) : option http_response * list mw_effect * S :=
  let '(locked, st) :=
    if 0 <? enroll_failure_limit s
    then peek (e_peek e) (fail_key ip) (enroll_failure_limit s) (enroll_failure_window_seconds s) st
    else (Some (mkDecision true 0 0), st) in
  match locked with
  | None => (Some unavailable, [], st)
  | Some locked =>
      if negb (allowed locked) then
        let '(r, counted) := blocked "failures" (retry_after locked) in (Some r, [counted], st)
      else if 0 <? enroll_rate_limit_requests s then
        match hit (e_hit e) (req_key ip) (enroll_rate_limit_requests s)
                (enroll_rate_limit_window_seconds s) st with
        | (None, st) => (Some unavailable, [], st)
        | (Some decision, st) =>
            if negb (allowed decision) then
              let '(r, counted) := blocked "requests" (retry_after decision) in
              (Some r,
               (if count decision =? enroll_rate_limit_requests s + 1
                then [rate_limited_line ip "requests" (retry_after decision)] else []) ++ [counted], st)
            else (None, [], st)
        end
      else (None, [], st)
  end.

(** Counting a failed response. *)
Definition after_app (e : middleware_env) (ip : string) (response : http_response) (st : S)
  : list mw_effect * S :=
  if mem (status_code response) FAILURE_STATUSES && (0 <? enroll_failure_limit s) then
    match hit (e_fail e) (fail_key ip) (enroll_failure_limit s) (enroll_failure_window_seconds s) st with
    | (Some failed, st) =>
        (if count failed =? enroll_failure_limit s
         then [rate_limited_line ip "failures" (retry_after failed)] else [], st)
    | (None, st) => ([], st)
    end
  else ([], st).

(** [EnrollRateLimitMiddleware.dispatch]: response, application state, what
    the middleware leaves behind and limiter state. *)
Definition mw_dispatch (e : middleware_env) (method path : string) (client : option string)
  (call_next : W -> http_response * W) (w : W) (st : S) : http_response * W * list mw_effect * S :=
  if negb (bool_decide (method = "POST")) || negb (bool_decide (path = ENROLL_PATH)) then
    let '(r, w) := call_next w in (r, w, [], st)
  else
    let ip := default "unknown" client in
    match before_app e ip st with
    | (Some r, lines, st) => (r, w, lines, st)
    | (None, _, st) =>
        let '(r, w) := call_next w in
        let '(lines, st) := after_app e ip r st in
        (r, w, lines, st)
    end.

(** [EnrollMetricsMiddleware.dispatch], installed outermost: the response is
    passed on and counted under its status. *)
Definition metrics_dispatch (e : middleware_env) (method path : string) (client : option string)
  (call_next : W -> http_response * W) (w : W) (st : S) : http_response * W * list mw_effect * S :=
  let '(response, w, effs, st) := mw_dispatch e method path client call_next w st in
  if bool_decide (method = "POST") && bool_decide (path = ENROLL_PATH)
  then (response, w, effs ++ [Counted ("response:" +:+ dec (status_code response))], st)
  else (response, w, effs, st).

(** ** What the counters show *)

(** A request to the listener, with the application's answer to it. *)
Record listener_request := mkListenerRequest {
  lr_env : middleware_env; lr_method : string; lr_path : string; lr_client : option string;
  lr_app : W -> http_response * W
}.

Definition is_enroll (q : listener_request) : bool :=
  bool_decide (lr_method q = "POST") && bool_decide (lr_path q = ENROLL_PATH).

(** The listener serving requests: each with its response, and whether the
    limiter answered it 429; and everything left behind. *)
Fixpoint serve_all (qs : list listener_request) (w : W) (st : S)
  : list (listener_request * http_response * bool) * list mw_effect :=
  match qs with
  | [] => ([], [])
  | q :: qs' =>
      let turned_away := is_enroll q && match before_app (lr_env q) (default "unknown" (lr_client q)) st with
        | (Some r, _, _) => status_code r =? 429 | _ => false end in
      let '(r, w1, effs, st1) := metrics_dispatch (lr_env q) (lr_method q) (lr_path q) (lr_client q) (lr_app q) w st in
      let '(rs, effs') := serve_all qs' w1 st1 in
      ((q, r, turned_away) :: rs, effs ++ effs')
  end.

Definition counted_names (effs : list mw_effect) : list string :=
  omap (fun e => match e with Counted n => Some n | AuditLine _ => None end) effs.

Lemma counted_app l k : counted_names (l ++ k) = counted_names l ++ counted_names k.
Proof. apply omap_app. Qed.

Lemma after_app_uncounted e ip r st : counted_names (after_app e ip r st).1 = [].
Proof. unfold after_app. destruct (_ && _); [|done]. destruct (hit _ _ _ _ _) as [[f|] ?]; [|done]. by case_match. Qed.

(** The limiter counts exactly its own 429 answers. *)
Lemma before_app_counted e ip st o effs st' : before_app e ip st = (o, effs, st') ->
  match o with
  | Some r => if status_code r =? 429 then exists b, b ∈ ["failures"; "requests"] /\ counted_names effs = ["rate_limited:" +:+ b]
              else counted_names effs = []
  | None => counted_names effs = []
  end.
Proof.
  unfold before_app, blocked. destruct (if 0 <? enroll_failure_limit s then _ else _) as [[locked|] st1]; [|by intros [= <- <- <-]].
  destruct (allowed locked); cbn [negb]; [|intros [= <- <- <-]; exists "failures"; split; [by left|done]].
  destruct (0 <? enroll_rate_limit_requests s); [|by intros [= <- <- <-]].
  destruct (hit _ _ _ _ _) as [[decision|] st2]; [|by intros [= <- <- <-]].
  destruct (allowed decision); cbn [negb]; [by intros [= <- <- <-]|]. intros [= <- <- <-].
  exists "requests". split; [right; by left|]. rewrite counted_app. by case_match.
Qed.

Lemma metrics_dispatch_counted q w st r w1 effs st1 :
  metrics_dispatch (lr_env q) (lr_method q) (lr_path q) (lr_client q) (lr_app q) w st = (r, w1, effs, st1) ->
  let turned_away := is_enroll q && match before_app (lr_env q) (default "unknown" (lr_client q)) st with
        | (Some r, _, _) => status_code r =? 429 | _ => false end in
  exists b, b ∈ ["failures"; "requests"] /\
  counted_names effs = (if turned_away then ["rate_limited:" +:+ b] else []) ++
    (if is_enroll q then ["response:" +:+ dec (status_code r)] else []).
Proof.
  unfold metrics_dispatch, mw_dispatch, is_enroll. intros E.
  destruct (bool_decide (lr_method q = "POST")), (bool_decide (lr_path q = ENROLL_PATH)); cbn [negb orb andb] in *.
  2-4: (destruct (lr_app q w) as [r0 w0]; simplify_eq; exists "failures"; split; [by left|done]).
  destruct (before_app _ _ st) as [[[r0|] effs0] st0] eqn:Eb; apply before_app_counted in Eb.
  - simplify_eq. rewrite counted_app. destruct (status_code r =? 429).
    + destruct Eb as (b & Hb & ->). exists b. done.
    + rewrite Eb. exists "failures". split; [by left|done].
  - destruct (lr_app q w) as [r0 w0]. destruct (after_app _ _ r0 st0) as [lines st2] eqn:Ea. simplify_eq.
    rewrite counted_app. pose proof (after_app_uncounted (lr_env q) (default "unknown" (lr_client q)) r st0) as Hl.
    rewrite Ea in Hl. cbn [fst] in Hl. rewrite Hl. exists "failures". split; [by left|done].
Qed.

Definition occurs (name : string) (names : list string) : Z :=
  Z.of_nat (length (List.filter (fun n => bool_decide (n = name)) names)).

Lemma occurs_app name l k : occurs name (l ++ k) = occurs name l + occurs name k.
Proof. unfold occurs. rewrite List.filter_app, length_app. lia. Qed.

(** How many responses of a run satisfy a test. *)
Definition how_many (p : listener_request * http_response * bool -> bool)
  (rs : list (listener_request * http_response * bool)) : Z := Z.of_nat (length (List.filter p rs)).

Lemma serve_all_counted qs w st rs effs label : serve_all qs w st = (rs, effs) ->
  occurs ("response:" +:+ label) (counted_names effs) =
    how_many (fun x => is_enroll x.1.1 && bool_decide (dec (status_code x.1.2) = label)) rs /\
  occurs "rate_limited:failures" (counted_names effs) + occurs "rate_limited:requests" (counted_names effs) =
    how_many (fun x => x.2) rs.
Proof.
  revert w st rs effs. induction qs as [|q qs IH]; intros w st rs effs; [by intros [= <- <-]|]. cbn [serve_all]. cbv zeta.
  destruct (metrics_dispatch _ _ _ _ _ w st) as [[[r w1] effs0] st1] eqn:E.
  destruct (serve_all qs w1 st1) as [rs' effs'] eqn:Es. intros [= <- <-].
  apply metrics_dispatch_counted in E as (b & Hb & E). destruct (IH _ _ _ _ Es) as [IH1 IH2].
  rewrite counted_app, !occurs_app, IH1, E. cbv zeta. rewrite !occurs_app.
  set (t := is_enroll q && _). unfold how_many. cbn [List.filter fst snd]. split.
  - assert (Hl : occurs ("response:" +:+ label) (if t then ["rate_limited:" +:+ b] else []) = 0) by (by destruct t).
    rewrite Hl. destruct (is_enroll q); cbn [andb]; [|change (occurs _ []) with 0; lia].
    unfold occurs at 1. cbn [List.filter length]. destruct (decide (dec (status_code r) = label)) as [->|Hne].
    + rewrite !bool_decide_eq_true_2 by done. cbn [length]. lia.
    + rewrite !bool_decide_eq_false_2; [cbn [length]; lia|done|]. intros [= He]. done.
  - assert (Hl : forall n, occurs ("rate_limited:" +:+ n) (if is_enroll q then ["response:" +:+ dec (status_code r)] else []) = 0)
      by (intros n; by destruct (is_enroll q)).
    pose proof (Hl "failures") as Hf. pose proof (Hl "requests") as Hr.
    change ("rate_limited:" +:+ "failures") with "rate_limited:failures" in Hf.
    change ("rate_limited:" +:+ "requests") with "rate_limited:requests" in Hr. rewrite Hf, Hr.
    assert (Ht : occurs "rate_limited:failures" (if t then ["rate_limited:" +:+ b] else []) +
      occurs "rate_limited:requests" (if t then ["rate_limited:" +:+ b] else []) = if t then 1 else 0).
    { destruct t; [|done]. apply elem_of_cons in Hb as [->|Hb]; [|apply list_elem_of_singleton in Hb as ->]; reflexivity. }
    unfold how_many in IH2. destruct t; cbn [length]; lia.
Qed.

Context {Store : Type} `{EnrollMetrics Store, !EnrollMetricsLaws Store}.

(** Recordings that all reach the store. *)
Lemma reached_zip name (calls : list call) names : length calls = length names ->
  Forall (fun c => em_reaches c = true) calls -> reached name (zip calls names) = occurs name names.
Proof.
  intros Hl Hr. unfold reached, occurs. f_equal. revert calls Hl Hr.
  induction names as [|n names IH]; intros [|c calls] Hl Hr; try discriminate Hl; [done|].
  injection Hl as Hl. apply Forall_cons in Hr as [Hc Hr].
  cbn [zip zip_with List.filter fst snd]. rewrite Hc. cbn [andb].
  destruct (bool_decide (n = name)); cbn [length]; by rewrite (IH calls).
Qed.

(** What a scrape shows of the listener: after any sequence of requests
    from any peers, with any limiter and any answers of the application, and
    when the recordings reach a store that was empty, the scrape shows under
    each status exactly the number of enrollment requests answered with it,
    the limiter's own answers included, and in the rate-limit buckets exactly
    the requests that the limiter turned away. *)
Theorem scrape_shows_responses qs w st rs effs calls m c label :
  serve_all qs w st = (rs, effs) -> length calls = length (counted_names effs) ->
  Forall (fun c => em_reaches c = true) calls -> em_ok m -> em_counts m = ∅ ->
  Z.of_nat (length calls) <= COUNTER_LIMIT -> c_fate c = Answers -> label <> "" ->
  exists snap, em_snapshot c (replay (zip calls (counted_names effs)) m) = Ok snap /\
    default 0 (responses snap !! label) =
      how_many (fun x => is_enroll x.1.1 && bool_decide (dec (status_code x.1.2) = label)) rs /\
    default 0 (rate_limited snap !! "failures") + default 0 (rate_limited snap !! "requests") =
      how_many (fun x => x.2) rs.
Proof.
  intros E Hl Hr Hok He Hlim Hf Hlab. destruct (replay_counts (zip calls (counted_names effs)) m Hok) as [Hok' Hn].
  { intros name. rewrite He, lookup_empty, length_zip_with_l_eq by done. simpl. lia. }
  eexists. split; [by apply em_snapshot_law|].
  destruct (serve_all_counted qs w st rs effs label E) as [<- <-].
  destruct (snapshot_lookup (em_counts (replay (zip calls (counted_names effs)) m)) label Hlab) as (-> & _).
  destruct (snapshot_lookup (em_counts (replay (zip calls (counted_names effs)) m)) "failures" ltac:(done)) as (_ & _ & ->).
  destruct (snapshot_lookup (em_counts (replay (zip calls (counted_names effs)) m)) "requests" ltac:(done)) as (_ & _ & ->).
  rewrite !Hn, He, !lookup_empty, !reached_zip by done. split; reflexivity.
Qed.

(** ** Lockout *)

Context `{!LimiterLaws S}.

Definition mw_ordered (e : middleware_env) : Prop :=
  env_ok (e_peek e) /\ env_ok (e_hit e) /\ env_ok (e_fail e) /\
  t_start (e_peek e) <= t_read (e_hit e) /\ t_start (e_hit e) <= t_read (e_fail e).

(** Lockout: once the failures counted for a source address reach the
    limit, every enroll request from it, with a valid token or not, is
    answered 429 (or 503 when the limiter cannot be asked) until the window
    ends; the application is not called and the window is not extended. *)
Theorem lockout_blocks_everything e ip call_next w st c r :
  0 < enroll_failure_limit s ->
  limiter_ok (t_read (e_peek e)) st -> mw_ordered e ->
  live st (t_read (e_peek e)) (fail_key ip) = Some (c, r) -> enroll_failure_limit s <= c ->
  exists resp effs st', mw_dispatch e "POST" ENROLL_PATH (Some ip) call_next w st = (resp, w, effs, st') /\
    (status_code resp = 429 \/ status_code resp = 503) /\
    same_windows (t_start (e_peek e)) st st'.
Proof.
  intros Hl Hok (Hp & _) Hlive Hc.
  assert (E : exists resp effs st', before_app e ip st = (Some resp, effs, st') /\
    (status_code resp = 429 \/ status_code resp = 503) /\ same_windows (t_start (e_peek e)) st st').
  { unfold before_app. rewrite (proj2 (Z.ltb_lt 0 (enroll_failure_limit s))) by done.
    destruct (peek (e_peek e) (fail_key ip) (enroll_failure_limit s)
                (enroll_failure_window_seconds s) st) as [locked st'] eqn:E.
    destruct (peek_law _ _ _ _ _ _ _ Hok Hp E) as [Hsame Hd]. destruct locked as [locked|]; [|eauto 10].
    specialize (Hd _ eq_refl). rewrite Hlive in Hd. destruct Hd as [Ha _].
    rewrite (proj2 (Z.ltb_ge c (enroll_failure_limit s))) in Ha by done. rewrite Ha. simpl. eauto 10. }
  destruct E as (resp & effs & st' & E & ?). unfold mw_dispatch. simpl. rewrite E. eauto.
Qed.

(** ** Guessing *)

(** The listener serves requests concurrently: a request arrives and passes the
    checks or is turned away; one that passed is in flight until the
    application has answered it, and only then is its failure counted. *)
Inductive mw_event :=
| Arrives (e : middleware_env) (ip : string)
| Answered (e : middleware_env) (n : nat) (response : http_response).

(** Sources of the requests in flight, and the limiter. *)
Definition mw_state : Type := list string * S.

Definition mw_next (ev : mw_event) (x : mw_state) : mw_state :=
  match ev with
  | Arrives e ip =>
      match before_app e ip x.2 with
      | (None, _, st) => (x.1 ++ [ip], st)
      | (Some _, _, st) => (x.1, st)
      end
  | Answered e n response =>
      match x.1 !! n with
      | Some ip => (delete n x.1, (after_app e ip response x.2).2)
      | None => x
      end
  end.

(** The request answered here came from [ip] and failed in the application. *)
Definition fails_here (ip : string) (ev : mw_event) (x : mw_state) : bool :=
  match ev with
  | Arrives _ _ => false
  | Answered _ n response => bool_decide (x.1 !! n = Some ip) && mem (status_code response) FAILURE_STATUSES
  end.

Fixpoint failures (ip : string) (evs : list mw_event) (x : mw_state) : Z :=
  match evs with
  | [] => 0
  | ev :: evs' => (if fails_here ip ev x then 1 else 0) + failures ip evs' (mw_next ev x)
  end.

(** How many requests of [ip] are in flight, and the most at one time. *)
Fixpoint in_flight (ip : string) (flight : list string) : Z :=
  match flight with [] => 0 | q :: fl => (if bool_decide (q = ip) then 1 else 0) + in_flight ip fl end.

Fixpoint peak (ip : string) (evs : list mw_event) (x : mw_state) : Z :=
  match evs with
  | [] => in_flight ip x.1
  | ev :: evs' => Z.max (in_flight ip x.1) (peak ip evs' (mw_next ev x))
  end.

Definition begins (ev : mw_event) : Z :=
  match ev with Arrives e _ => t_read (e_peek e) | Answered e _ _ => t_read (e_fail e) end.
Definition ends (ev : mw_event) : Z :=
  match ev with Arrives e _ => t_start (e_hit e) | Answered e _ _ => t_start (e_fail e) end.

(** The calls on the limiter in the order of its clock; it answers when
    failures of [ip] are counted. *)
Definition event_ok (ip : string) (ev : mw_event) : Prop :=
  match ev with
  | Arrives e _ => env_ok (e_peek e) /\ env_ok (e_hit e) /\ t_start (e_peek e) <= t_read (e_hit e)
  | Answered e _ _ => env_ok (e_fail e) /\
      forall st, is_Some (hit (e_fail e) (fail_key ip) (enroll_failure_limit s) (enroll_failure_window_seconds s) st).1
  end.
Fixpoint mw_in_order (ip : string) (t : Z) (evs : list mw_event) : Prop :=
  match evs with
  | [] => True
  | ev :: evs' => t <= begins ev /\ event_ok ip ev /\ mw_in_order ip (ends ev) evs'
  end.

(** A request served alone is its arrival and its answer. *)
Lemma mw_dispatch_alone e ip call_next (w : W) st flight response w' effs st' :
  mw_dispatch e "POST" ENROLL_PATH (Some ip) call_next w st = (response, w', effs, st') ->
  (w' = w /\ mw_next (Arrives e ip) (flight, st) = (flight, st')) \/
  ((response, w') = call_next w /\
   mw_next (Answered e (length flight) response) (mw_next (Arrives e ip) (flight, st)) = (flight, st')).
Proof.
  unfold mw_dispatch, mw_next. simpl.
  destruct (before_app e ip st) as [[[r|] ls] st1]; [intros [= <- <- <- <-]; by left|].
  destruct (call_next w) as [r w1]. destruct (after_app e ip r st1) as [ls' st2] eqn:Ea. intros [= <- <- <- <-].
  right. split; [done|]. cbn [fst snd]. rewrite lookup_app_r, Nat.sub_diag by lia. cbn [lookup list_lookup]. rewrite Ea.
  f_equal. rewrite delete_take_drop, take_app_length, drop_ge; [by rewrite app_nil_r|]. rewrite length_app. simpl. lia.
Qed.

Lemma fail_req_keys ip src : fail_key ip <> req_key src.
Proof. done. Qed.

Lemma before_app_windows e ip st o lines st' :
  limiter_ok (t_read (e_peek e)) st -> event_ok ip (Arrives e ip) -> 0 < enroll_failure_limit s ->
  before_app e ip st = (o, lines, st') ->
  limiter_ok (t_start (e_hit e)) st' /\
  (forall t' any, t_start (e_hit e) <= t' -> live st' t' (fail_key any) = live st t' (fail_key any)) /\
  (o = None -> forall c r, live st (t_read (e_peek e)) (fail_key ip) = Some (c, r) -> c < enroll_failure_limit s).
Proof.
  intros Hok (Hp & Hh & H1) Hl. unfold before_app.
  rewrite (proj2 (Z.ltb_lt 0 (enroll_failure_limit s))) by done.
  destruct (peek (e_peek e) (fail_key ip) (enroll_failure_limit s)
              (enroll_failure_window_seconds s) st) as [locked st1] eqn:E.
  assert (Hok1 : limiter_ok (t_start (e_peek e)) st1).
  { pose proof (peek_ok (e_peek e) (fail_key ip) (enroll_failure_limit s)
      (enroll_failure_window_seconds s) st Hok Hp) as Hx. by rewrite E in Hx. }
  destruct (peek_law _ _ _ _ _ _ _ Hok Hp E) as [Hsame Hd].
  unfold env_ok in Hp, Hh.
  assert (Hst1 : forall t' any, t_start (e_hit e) <= t' -> live st1 t' (fail_key any) = live st t' (fail_key any)).
  { intros t' any Ht. apply Hsame. lia. }
  assert (Hok1' : limiter_ok (t_start (e_hit e)) st1) by (eapply ok_later; [done|lia]).
  destruct locked as [locked|]; [|intros [= <- <- <-]; by split_and!].
  specialize (Hd _ eq_refl). destruct (allowed locked) eqn:Ea; cbn [negb]; [|intros [= <- <- <-]; by split_and!].
  assert (Hc : forall c r, live st (t_read (e_peek e)) (fail_key ip) = Some (c, r) -> c < enroll_failure_limit s).
  { intros c r Hlive. rewrite Hlive in Hd. destruct Hd as [Hd _]. symmetry in Hd. by apply Z.ltb_lt. }
  destruct (0 <? enroll_rate_limit_requests s); [|intros [= <- <- <-]; by split_and!].
  destruct (hit (e_hit e) (req_key ip) (enroll_rate_limit_requests s)
              (enroll_rate_limit_window_seconds s) st1) as [d st2] eqn:Eh.
  assert (Hok2 : limiter_ok (t_start (e_hit e)) st2).
  { assert (Hx : limiter_ok (t_read (e_hit e)) st1) by exact (ok_later _ _ _ Hok1 H1).
    pose proof (hit_ok (e_hit e) (req_key ip) (enroll_rate_limit_requests s)
      (enroll_rate_limit_window_seconds s) st1 Hx Hh) as Hy. by rewrite Eh in Hy. }
  assert (Hst2 : forall t' any, t_start (e_hit e) <= t' -> live st2 t' (fail_key any) = live st t' (fail_key any)).
  { intros t' any Ht. rewrite <- Hst1 by done.
    pose proof (hit_law _ _ _ _ _ _ _ (ok_later _ _ _ Hok1 H1) Hh Eh) as Hlaw.
    destruct d as [d|]; [destruct Hlaw as (r & (_ & _ & Ho) & _)|
      destruct Hlaw as [Hs|(c & r & _ & _ & Ho)]; [by apply Hs|]]; by apply Ho, fail_req_keys. }
  destruct d as [d|]; [|intros [= <- <- <-]; by split_and!].
  destruct (negb (allowed d)); intros [= <- <- <-]; by split_and!.
Qed.

Lemma after_app_windows e src ip response st : 0 < enroll_failure_limit s ->
  limiter_ok (t_read (e_fail e)) st -> event_ok ip (Answered e 0 response) ->
  let st' := (after_app e src response st).2 in
  limiter_ok (t_start (e_fail e)) st' /\
  if bool_decide (src = ip) && mem (status_code response) FAILURE_STATUSES
  then exists c r,
      match live st (t_read (e_fail e)) (fail_key ip) with
      | Some (c0, r0) => c = c0 + 1 /\ r = r0
      | None => c = 1 /\ t_read (e_fail e) + enroll_failure_window_seconds s * second <= r
      end /\ live st' (t_start (e_fail e)) (fail_key ip) = at_time (t_start (e_fail e)) (Some (c, r))
  else live st' (t_start (e_fail e)) (fail_key ip) = live st (t_start (e_fail e)) (fail_key ip).
Proof.
  intros Hl Hok (Hf & Hans). unfold after_app. rewrite (proj2 (Z.ltb_lt 0 (enroll_failure_limit s))) by done.
  rewrite andb_true_r. pose proof Hf as Hf'. unfold env_ok in Hf'.
  destruct (mem (status_code response) FAILURE_STATUSES).
  2: { rewrite andb_false_r. split; [eapply ok_later; [done|lia]|done]. }
  rewrite andb_true_r. specialize (Hans st).
  destruct (hit (e_fail e) (fail_key src) (enroll_failure_limit s) (enroll_failure_window_seconds s) st) as [d st2] eqn:Eh.
  pose proof (hit_ok (e_fail e) (fail_key src) (enroll_failure_limit s)
    (enroll_failure_window_seconds s) st Hok Hf) as Hok2. rewrite Eh in Hok2. cbn [snd] in Hok2.
  assert (E2 : (match d with
      | Some failed => (if count failed =? enroll_failure_limit s
          then [rate_limited_line src "failures" (retry_after failed)] else [], st2)
      | None => ([], st2) end).2 = st2) by (by destruct d).
  case_bool_decide as Hsrc.
  - subst src. rewrite Eh in Hans. destruct Hans as [d' Hd']. simpl in Hd'. subst d. cbn [snd]. split; [done|].
    apply hit_law in Eh as (rr & (Hcount & Hlive & _) & _); [|done..].
    exists (count d'), rr. split; [|by apply Hlive]. unfold counted in Hcount.
    destruct (live st (t_read (e_fail e)) (fail_key ip)) as [[c0 r0]|]; [exact Hcount|lia].
  - assert (Hk : fail_key ip <> fail_key src) by (unfold fail_key; intros ?%(inj _); congruence).
    pose proof (hit_law _ _ _ _ _ _ _ Hok Hf Eh) as Hlaw.
    destruct d as [d|]; cbn [snd]; (split; [done|]).
    + destruct Hlaw as (r & (_ & _ & Ho) & _). by apply Ho.
    + destruct Hlaw as [Hs|(c & r & _ & _ & Ho)]; [by apply Hs|by apply Ho].
Qed.

(** Requests in flight. *)
Lemma in_flight_app ip l k : in_flight ip (l ++ k) = in_flight ip l + in_flight ip k.
Proof. induction l as [|q l IH]; simpl; [done|]. rewrite IH. lia. Qed.

Lemma in_flight_nonneg ip l : 0 <= in_flight ip l.
Proof. induction l as [|q l IH]; simpl; [lia|]. case_bool_decide; lia. Qed.

Lemma in_flight_delete ip l n q : l !! n = Some q ->
  in_flight ip l = (if bool_decide (q = ip) then 1 else 0) + in_flight ip (delete n l).
Proof.
  intros Hn. rewrite <- (take_drop_middle l n q Hn) at 1. rewrite delete_take_drop, !in_flight_app. simpl. lia.
Qed.

Lemma peak_now ip evs x : in_flight ip x.1 <= peak ip evs x.
Proof. destruct evs; simpl; lia. Qed.

(** One event, the failure window of [ip] and its requests in flight. *)
Lemma mw_next_window ip ev x :
  limiter_ok (begins ev) x.2 -> 0 < enroll_failure_limit s -> event_ok ip ev ->
  begins ev <= ends ev /\ limiter_ok (ends ev) (mw_next ev x).2 /\
  if fails_here ip ev x
  then in_flight ip x.1 = 1 + in_flight ip (mw_next ev x).1 /\
    exists c r,
      match live x.2 (begins ev) (fail_key ip) with
      | Some (c0, r0) => c = c0 + 1 /\ r = r0
      | None => c = 1 /\ begins ev + enroll_failure_window_seconds s * second <= r
      end /\ live (mw_next ev x).2 (ends ev) (fail_key ip) = at_time (ends ev) (Some (c, r))
  else live (mw_next ev x).2 (ends ev) (fail_key ip) = live x.2 (ends ev) (fail_key ip) /\
    (in_flight ip (mw_next ev x).1 <= in_flight ip x.1 \/
     forall c r, live x.2 (begins ev) (fail_key ip) = Some (c, r) -> c < enroll_failure_limit s).
Proof.
  destruct x as [flight st]. intros Hok Hl Hev. destruct ev as [e src|e n response]; cbn [begins ends fst snd mw_next fails_here] in *.
  - destruct Hev as (Hp & Hh & Ho). pose proof Hp as Hp'. pose proof Hh as Hh'. unfold env_ok in Hp', Hh'. split; [lia|].
    destruct (before_app e src st) as [[o ls] st'] eqn:E.
    apply before_app_windows in E as (Hok' & Hsame & Hpass); [|done..].
    destruct o as [r0|]; cbn [fst snd]; (split; [done|]); (split; [apply Hsame; lia|]); [by left|].
    rewrite in_flight_app. simpl. case_bool_decide as Hs; [subst src; right; by apply Hpass|left; lia].
  - pose proof (proj1 Hev) as Hf. unfold env_ok in Hf. split; [lia|].
    destruct (flight !! n) as [src|] eqn:En; cbn [fst snd].
    + destruct (after_app_windows e src ip response st Hl Hok Hev) as [Hok' Hw]. split; [done|].
      rewrite (in_flight_delete ip _ _ _ En).
      assert (Eb : bool_decide (Some src = Some ip) = bool_decide (src = ip)) by (apply bool_decide_ext; naive_solver).
      rewrite Eb. clear Eb. destruct (bool_decide (src = ip)); cbn [andb] in *.
      * destruct (mem (status_code response) FAILURE_STATUSES); [split; [lia|done]|]. split; [done|]. left. lia.
      * split; [done|]. left. lia.
    + rewrite bool_decide_eq_false_2 by done. cbn [andb]. split; [eapply ok_later; [done|lia]|]. split; [done|]. left. lia.
Qed.

(** A window that is open bounds the failures until it ends. *)
Lemma failures_same_window ip evs : forall x t c r,
  limiter_ok t x.2 -> 0 < enroll_failure_limit s -> mw_in_order ip t evs ->
  Forall (fun ev => ends ev < r) evs -> live x.2 t (fail_key ip) = Some (c, r) ->
  failures ip evs x <= (if c <? enroll_failure_limit s then enroll_failure_limit s - c - 1 + Z.max 1 (peak ip evs x)
                        else in_flight ip x.1).
Proof.
  induction evs as [|ev evs IH]; intros x t c r Hok Hl Ho Hr Hlive.
  { pose proof (in_flight_nonneg ip x.1). cbn [failures]. destruct (Z.ltb_spec c (enroll_failure_limit s)); lia. }
  destruct Ho as (Ht & Hev & Ho). apply Forall_cons in Hr as [Hr1 Hr].
  destruct (mw_next_window ip ev x) as (Hbe & Hok' & Hstep); [by eapply ok_later|done..|].
  assert (Hat : forall u, t <= u < r -> live x.2 u (fail_key ip) = Some (c, r)).
  { intros u Hu. rewrite (live_later x.2 t) by (done || lia). rewrite Hlive. apply at_time_Some. split; [done|lia]. }
  cbn [failures peak]. pose proof (peak_now ip evs (mw_next ev x)) as Hpk.
  destruct (fails_here ip ev x).
  - destruct Hstep as (Hfl & c' & r' & Hc & Hnew). rewrite Hat in Hc by lia. destruct Hc as [-> ->].
    specialize (IH (mw_next ev x) (ends ev) (c + 1) r Hok' Hl Ho Hr). rewrite Hnew in IH.
    specialize (IH ltac:(by apply at_time_Some)).
    destruct (Z.ltb_spec c (enroll_failure_limit s)), (Z.ltb_spec (c + 1) (enroll_failure_limit s)); lia.
  - destruct Hstep as [Hsame Hfl]. specialize (IH (mw_next ev x) (ends ev) c r Hok' Hl Ho Hr).
    rewrite Hsame, Hat in IH by lia. specialize (IH eq_refl).
    destruct Hfl as [Hfl|Hfl]; [|specialize (Hfl c r ltac:(apply Hat; lia))];
      destruct (Z.ltb_spec c (enroll_failure_limit s)); lia.
Qed.

Lemma failures_fresh ip T evs : forall x t,
  limiter_ok t x.2 -> 0 < enroll_failure_limit s -> mw_in_order ip t evs ->
  Forall (fun ev => T <= begins ev /\ ends ev < T + enroll_failure_window_seconds s * second) evs ->
  live x.2 t (fail_key ip) = None ->
  failures ip evs x <= enroll_failure_limit s - 1 + Z.max 1 (peak ip evs x).
Proof.
  induction evs as [|ev evs IH]; intros x t Hok Hl Ho Hr Hlive; [cbn [failures]; lia|].
  destruct Ho as (Ht & Hev & Ho). apply Forall_cons in Hr as [[Hr1 Hr2] Hr].
  destruct (mw_next_window ip ev x) as (Hbe & Hok' & Hstep); [by eapply ok_later|done..|].
  assert (Hat : forall u, t <= u -> live x.2 u (fail_key ip) = None).
  { intros u Hu. rewrite (live_later x.2 t) by done. by rewrite Hlive. }
  cbn [failures peak]. pose proof (peak_now ip evs (mw_next ev x)) as Hpk. destruct (fails_here ip ev x).
  - destruct Hstep as (Hfl & c' & r' & Hc & Hnew). rewrite Hat in Hc by lia. destruct Hc as [-> Hr'].
    pose proof (failures_same_window ip evs (mw_next ev x) (ends ev) 1 r' Hok' Hl Ho) as IH2. rewrite Hnew in IH2.
    specialize (IH2 ltac:(eapply Forall_impl; [exact Hr|]; simpl; intros ? [? ?]; lia)
                    ltac:(apply at_time_Some; split; [done|lia])).
    destruct (Z.ltb_spec 1 (enroll_failure_limit s)); lia.
  - destruct Hstep as [Hsame _]. specialize (IH (mw_next ev x) (ends ev) Hok' Hl Ho Hr).
    rewrite Hsame, Hat in IH by lia. specialize (IH eq_refl). lia.
Qed.

(** C34. Guessing is bounded, also for concurrent requests: while the limiter
    answers, the requests of one source address that pass the checks and fail
    in the application (401 or 422) within one failure window number at most
    [enroll_failure_limit] plus the most of its requests in flight at one time
    less one, so at most the limit when it sends them one after the other; in
    a window that is open with [c] failures, at most [limit - c] plus the same
    surplus, and once the limit is reached, at most the requests in flight.
    Requests of other addresses may come in between. *)
Theorem guessing_is_bounded ip evs x t T :
  limiter_ok t x.2 -> 0 < enroll_failure_limit s -> mw_in_order ip t evs ->
  (live x.2 t (fail_key ip) = None ->
   Forall (fun ev => T <= begins ev /\ ends ev < T + enroll_failure_window_seconds s * second) evs ->
   failures ip evs x <= enroll_failure_limit s - 1 + Z.max 1 (peak ip evs x)) /\
  (forall c r, live x.2 t (fail_key ip) = Some (c, r) -> Forall (fun ev => ends ev < r) evs ->
   failures ip evs x <= if c <? enroll_failure_limit s then enroll_failure_limit s - c - 1 + Z.max 1 (peak ip evs x)
                        else in_flight ip x.1).
Proof.
  intros Hok Hl Ho. split.
  - intros Hn HF. by eapply failures_fresh.
  - intros c r Hlive HF. by eapply failures_same_window.
Qed.
End rate_limit.

(** ** Witnesses *)

Definition demo_token : EnrollmentToken :=
  mkEnrollmentToken (Some 1) 1 1 "ubuntu" "node" (hash_token "wgmenr_abc") 2 1 1000000 None 0 None None
    (Some "192.0.2.0/24").
Definition enroll_db : DB := on_tokens (tbl_insert demo_token) demo_db.
Definition demo_cert : HostCert := mkHostCert "cert" 0 10 7 ["10.9.0.3"].
Definition demo_key_text : string := "AAECAwQFBgcICQoLDA0ODxAREhMUFRYXGBkaGxwdHh8=".
Definition demo_enroll_env : enroll_env :=
  mkEnrollEnv (fun _ => Some ("web-1", demo_key_text, "ssh-ed25519 AAAA root@web-1")) (fun _ => true)
    (fun _ _ => Ok demo_cert) "ca-key".

Definition demo_enroll (auth : option string) : outcome EnrollResponse * World :=
  run (@enroll id_dumps demo_enroll_env 5 true (Some "192.0.2.9") [] auth) enroll_db.

Example bearer_examples :
  bearer (Some "Bearer  abc ") = Some "abc" /\ bearer (Some "bearer") = None /\ bearer (Some "Basic x") = None /\
  split_ws ("  ssh-ed25519" +:+ nl +:+ " AAAA c ") = ["ssh-ed25519"; "AAAA"; "c"] /\
  hostname_ok "a-b.c1" = true /\ hostname_ok "a-.c" = false /\ hostname_ok "a..b" = false.
Proof. split_and!; vm_compute; reflexivity. Qed.

(** A broker that is down: the request fails with the client and the token use
    committed. *)
Definition down : Outside := mkOutside [] [] ∅ [] [] (fun _ => false).

Lemma admission_survives_refusal :
  let res := run_in down (@enroll id_dumps demo_enroll_env 5 true (Some "192.0.2.9") [] (Some "Bearer wgmenr_abc")) enroll_db in
  res.1 = Raise BrokerError /\ queue res.2 = [] /\
  cl_name <$> rows (clients (committed res.2)) !! 3 = Some "node-web-1" /\
  tok_use_count <$> rows (tokens (committed res.2)) !! 1 = Some 2.
Proof. vm_compute. by split_and!. Qed.

Lemma enroll_all_or_nothing_witness :
  let m := @enroll id_dumps demo_enroll_env 5 true (Some "192.0.2.9") [] (Some "Bearer wgmenr_abc") in
  let res := run_in down m enroll_db in
  res.1 = Raise BrokerError /\ size (rows (clients (committed res.2))) = 3%nat /\
  queue res.2 = [] /\
  (committed res.2 = enroll_db \/
   BrokerError = BrokerError /\ exists resp w1, run_in (open_broker down) m enroll_db = (Ok resp, w1) /\ committed res.2 = committed w1).
Proof.
  intros m res. split; [vm_compute; reflexivity|]. split; [vm_compute; reflexivity|].
  apply (@enroll_all_or_nothing id_dumps demo_enroll_env 5 down true (Some "192.0.2.9") []
           (Some "Bearer wgmenr_abc") enroll_db BrokerError res.2).
  vm_compute. reflexivity.
Defined.

Lemma enroll_uniform_401_witness :
  result (@enroll id_dumps demo_enroll_env 1000000 true (Some "192.0.2.9") [] (Some "Bearer wgmenr_abc"))
    enroll_db = Raise uniform_401.
Proof.
  apply (@enroll_uniform_401 id_dumps demo_enroll_env 1000000 true).
  - intros i r Hr. change (rows (tokens enroll_db)) with ({[1 := demo_token]} : gmap Z EnrollmentToken) in Hr.
    apply lookup_singleton_Some in Hr as [_ <-]. eexists. vm_compute. reflexivity.
  - intros id row (t & _ & Hf & Ha & _). apply find_token_Some in Hf as [Hr _].
    change (rows (tokens enroll_db)) with ({[1 := demo_token]} : gmap Z EnrollmentToken) in Hr.
    apply lookup_singleton_Some in Hr as [_ <-]. vm_compute in Ha. discriminate Ha.
Defined.

Lemma enroll_admits_witness :
  let res := demo_enroll (Some "Bearer wgmenr_abc") in
  exists resp, res.1 = Ok resp /\ rs_address resp = "10.9.0.3/32" /\ rs_name resp = "node-web-1" /\
  exists token_id row payload server address cert ev,
    token_live 5 enroll_db (Some "192.0.2.9") (Some "Bearer wgmenr_abc") token_id row /\ true = true /\
    validate_enroll_request (ee_decode demo_enroll_env) (ee_is_ed25519 demo_enroll_env) [] = Some payload /\
    rows (servers enroll_db) !! tok_server_id row = Some server /\ srv_status server = ready /\
    allocate_client_ip enroll_db (tok_server_id row) server = Ok address /\
    ee_mint_host_cert demo_enroll_env (rq_ssh_host_public_key payload) [v4_str address] = Ok cert /\
    let client := enrolled_client demo_enroll_env 5 row payload address cert in
    (forall i c, rows (clients enroll_db) !! i = Some c ->
       cl_name c <> cl_name client /\ cl_public_key c <> cl_public_key client) /\
    ev_event ev = "client.enroll" /\ ev_resource_id ev = Some (next_id (clients enroll_db)) /\
    rs_client_id resp = next_id (clients enroll_db) /\ rs_address resp = cl_address client /\
    committed res.2 = bump_generation (tok_server_id row)
      (on_audit_events (tbl_insert ev) (on_clients (tbl_insert client)
        (on_tokens (tbl_set token_id (set_tok_use_count (tok_use_count row + 1) row)) enroll_db))) /\
    queue res.2 = [ReconfigureServer (tok_server_id row) (srv_reconfig_requested_gen server + 1)].
Proof.
  intros res. eexists. split; [vm_compute; reflexivity|]. split; [reflexivity|]. split; [reflexivity|].
  apply (@enroll_admits id_dumps demo_enroll_env 5 true (Some "192.0.2.9") [] (Some "Bearer wgmenr_abc")).
  vm_compute. reflexivity.
Defined.

Definition demo_resp : EnrollResponse :=
  match (demo_enroll (Some "Bearer wgmenr_abc")).1 with Ok r => r | _ => mkEnrollResponse 0 "" "" "" "" "" "" [] end.

Lemma enroll_cannot_inject_witness :
  let w := (demo_enroll (Some "Bearer wgmenr_abc")).2 in
  let rendered d ids := conf_peers None (split_on "010" (render_server_config demo_server
                          (omap (fun i => rows (clients d) !! i) ids))) in
  rs_client_id demo_resp = 3 /\
  exists client before after, rows (clients (committed w)) !! rs_client_id demo_resp = Some client /\
    rendered (committed w) ([1; 2] ++ rs_client_id demo_resp :: []) =
      before ++ (cl_public_key client, cl_address client) :: after /\
    rendered enroll_db ([1; 2] ++ []) = before ++ after.
Proof.
  intros w rendered. split; [vm_compute; reflexivity|].
  apply (@enroll_cannot_inject id_dumps demo_enroll_env 5 true (Some "192.0.2.9") []
            (Some "Bearer wgmenr_abc") enroll_db demo_resp w demo_server [1; 2] []).
  - intros i t Hr. change (rows (tokens enroll_db)) with ({[1 := demo_token]} : gmap Z EnrollmentToken) in Hr.
    apply lookup_singleton_Some in Hr as [_ <-]. reflexivity.
  - vm_compute. reflexivity.
  - change (3 ∉ [1; 2]). intros Hin. repeat (apply elem_of_cons in Hin as [Hin|Hin]; [discriminate Hin|]).
    by apply elem_of_nil in Hin.
  - by apply not_elem_of_nil.
Defined.

Definition demo_limits : enroll_limits := mkEnrollLimits 2 60 0 60.
Definition demo_mw (t : Z) : middleware_env := mkMwEnv (demo_env t) (demo_env t) (demo_env t).
Definition deny (w : nat) : http_response * nat := (mkResponse 401 "invalid enrollment token" [], S w).

Lemma demo_windows_ok t (m : windows) :
  map_Forall (fun _ cr => 1 <= cr.1) m -> limiter_ok t m.
Proof. intros Hm k c r Hk. by apply (Hm k (c, r)). Qed.

Lemma lockout_blocks_everything_witness :
  let st : windows := {["enroll-fail:ip" := (2, 1000)]} in
  exists resp effs st', mw_dispatch demo_limits 0 (demo_mw 5) "POST" ENROLL_PATH (Some "ip") deny 0%nat st =
      (resp, 0%nat, effs, st') /\
    (status_code resp = 429 \/ status_code resp = 503) /\ same_windows (t_start (e_peek (demo_mw 5))) st st'.
Proof.
  intros st.
  apply (lockout_blocks_everything (S := windows) (W := nat) demo_limits 0 (demo_mw 5) "ip" deny 0%nat st 2 1000).
  - reflexivity.
  - apply demo_windows_ok. apply map_Forall_singleton. simpl. lia.
  - repeat split; simpl; lia.
  - reflexivity.
  - simpl. lia.
Defined.

(** Two requests of one address in flight, and then one after the other, with
    one of another address in between. *)
Definition guesses : list mw_event :=
  let no := mkResponse 401 "invalid enrollment token" [] in
  [Arrives (demo_mw 1) "ip"; Arrives (demo_mw 2) "ip"; Arrives (demo_mw 3) "other"; Answered (demo_mw 4) 0 no;
   Arrives (demo_mw 5) "ip"; Answered (demo_mw 6) 0 no; Answered (demo_mw 7) 1 no; Arrives (demo_mw 8) "ip"].

Lemma guessing_is_bounded_witness :
  let x : mw_state := ([], ∅ : windows) in
  failures demo_limits 0 "ip" guesses x = 3 /\ peak demo_limits 0 "ip" guesses x = 2 /\
  failures demo_limits 0 "ip" guesses x <= 2 - 1 + Z.max 1 (peak demo_limits 0 "ip" guesses x).
Proof.
  intros x. split; [vm_compute; reflexivity|]. split; [vm_compute; reflexivity|].
  apply (proj1 (guessing_is_bounded (S := windows) demo_limits 0 "ip" guesses x 0 0
    ltac:(apply demo_windows_ok, map_Forall_empty) ltac:(reflexivity)
    ltac:(repeat split; simpl; try lia; intros; destruct (mem_hit _ _ _ _ _); simpl; eauto))).
  - reflexivity.
  - repeat constructor; simpl; unfold ns; lia.
Defined.

(** Two failures lock the peer out; a third request is turned away. *)
Definition listener_demo : list listener_request :=
  [mkListenerRequest (demo_mw 1) "POST" ENROLL_PATH (Some "ip") deny; mkListenerRequest (demo_mw 2) "GET" "/healthz" None deny;
   mkListenerRequest (demo_mw 3) "POST" ENROLL_PATH (Some "ip") deny; mkListenerRequest (demo_mw 4) "POST" ENROLL_PATH (Some "ip") deny].
Definition listener_run := serve_all demo_limits 0 listener_demo 0%nat (∅ : windows).

Lemma scrape_shows_responses_witness :
  counted_names listener_run.2 = ["response:401"; "response:401"; "rate_limited:failures"; "response:429"] /\
  exists snap, em_snapshot (mkCall 0 9 Answers)
      (replay (zip (replicate 4 (mkCall 0 5 Answers)) (counted_names listener_run.2)) (∅ : memory_metrics)) = Ok snap /\
    default 0 (responses snap !! "401") =
      how_many (fun x => is_enroll x.1.1 && bool_decide (dec (status_code x.1.2) = "401")) listener_run.1 /\
    default 0 (rate_limited snap !! "failures") + default 0 (rate_limited snap !! "requests") =
      how_many (fun x => x.2) listener_run.1.
Proof.
  split; [vm_compute; reflexivity|].
  apply (scrape_shows_responses demo_limits 0 listener_demo 0%nat (∅ : windows)).
  - apply surjective_pairing.
  - vm_compute. reflexivity.
  - repeat constructor.
  - exact I.
  - reflexivity.
  - vm_compute. discriminate.
  - reflexivity.
  - discriminate.
Defined.
