(* ===== verification/Invariant.v ===== *)
(** * The database invariant

    What the programs rely on and keep: every foreign key and unique column
    that [models.py] declares, at most [max_uses] redemptions per token, no
    two clients of a hub on one address (which no constraint of the database
    enforces), and that a given set of revoked certificates stays revoked. *)

From S2P Require Import Prelude PyStr Models Session Demo Ipam Enrollment Wireguard Tasks.

Definition refers {A B} (t : table A) (f : A -> option Z) (t' : table B) : Prop :=
  forall i r k, rows t !! i = Some r -> f r = Some k -> is_Some (rows t' !! k).

Definition unique_column {A B} (t : table A) (f : A -> B) : Prop :=
  forall i j r r', rows t !! i = Some r -> rows t !! j = Some r' -> f r = f r' -> i = j.

Definition token_uses_ok (t : EnrollmentToken) : Prop := 0 <= tok_use_count t <= tok_max_uses t.

(** Serials known to be revoked: the invariant says that they stay so. *)
Class Known := known_revoked : list string.

Definition registered_revoked (d : DB) (serial : string) : Prop :=
  exists i c, rows (certificates d) !! i = Some c /\ crt_serial c = serial /\ crt_revoked c = true.

Record db_inv `{Known} (d : DB) : Prop := mkInv {
  inv_wf_tenants : wf_table (tenants d);
  inv_wf_keys : wf_table (sshkeys d);
  inv_wf_servers : wf_table (servers d);
  inv_wf_clients : wf_table (clients d);
  inv_wf_operators : wf_table (operators d);
  inv_wf_joins : wf_table (operator_tenants d);
  inv_wf_certificates : wf_table (certificates d);
  inv_wf_audit : wf_table (audit_events d);
  inv_wf_tokens : wf_table (tokens d);
  inv_key_tenant : refers (sshkeys d) key_tenant_id (tenants d);
  inv_server_tenant : refers (servers d) srv_tenant_id (tenants d);
  inv_server_key : refers (servers d) (fun s => Some (srv_ssh_key_id s)) (sshkeys d);
  inv_client_tenant : refers (clients d) cl_tenant_id (tenants d);
  inv_client_server : refers (clients d) (fun c => Some (cl_server_id c)) (servers d);
  inv_client_key : refers (clients d) cl_ssh_key_id (sshkeys d);
  inv_operator_tenant : refers (operators d) op_tenant_id (tenants d);
  inv_join_operator : refers (operator_tenants d) (fun j => Some (ot_operator_id j)) (operators d);
  inv_join_tenant : refers (operator_tenants d) (fun j => Some (ot_tenant_id j)) (tenants d);
  inv_peer_server : refers (discovered d) (fun p => Some (dp_server_id p)) (servers d);
  inv_cert_tenant : refers (certificates d) crt_tenant_id (tenants d);
  inv_cert_operator : refers (certificates d) crt_operator_id (operators d);
  inv_audit_tenant : refers (audit_events d) ev_tenant_id (tenants d);
  inv_token_tenant : refers (tokens d) tok_tenant_id (tenants d);
  inv_token_server : refers (tokens d) (fun t => Some (tok_server_id t)) (servers d);
  inv_token_key : refers (tokens d) (fun t => Some (tok_ssh_key_id t)) (sshkeys d);
  inv_tenant_names : unique_column (tenants d) tn_name;
  inv_tenant_slugs : unique_column (tenants d) tn_slug;
  inv_key_names : unique_column (sshkeys d) key_name;
  inv_client_names : unique_column (clients d) cl_name;
  inv_operator_cns : unique_column (operators d) op_cn;
  inv_joins_once : unique_column (operator_tenants d) (fun j => (ot_operator_id j, ot_tenant_id j));
  inv_peers_once : unique_column (discovered d) (fun p => (dp_server_id p, dp_public_key p));
  inv_cert_serials : unique_column (certificates d) crt_serial;
  inv_token_hashes : unique_column (tokens d) tok_token_hash;
  inv_token_uses : forall i t, rows (tokens d) !! i = Some t -> token_uses_ok t;
  inv_addresses : unique_addresses d;
  inv_revoked : forall s, s ∈ known_revoked -> registered_revoked d s
}.

(** ** References and unique columns under table operations *)

Lemma refers_row {A B} (t : table A) f (t' : table B) i r k :
  refers t f t' -> rows t !! i = Some r -> f r = Some k -> is_Some (rows t' !! k).
Proof. intros Hr Hi Hk. by eapply Hr. Qed.

Lemma refers_src_set {A B} (t : table A) f (t' : table B) i r n :
  refers t f t' -> (forall k, f r = Some k -> is_Some (rows t' !! k)) ->
  refers (mkTable (<[i := r]> (rows t)) n) f t'.
Proof.
  intros Hr Hn j x k. simpl. rewrite lookup_insert. case_decide; [intros [= <-]; auto|eauto].
Qed.

Lemma refers_src_delete {A B} (t : table A) f (t' : table B) i : refers t f t' -> refers (tbl_delete i t) f t'.
Proof. intros Hr j x k. simpl. intros [_ Hx]%lookup_delete_Some. eauto. Qed.

Lemma refers_src_sub {A B} (t u : table A) f (t' : table B) :
  (forall i r, rows u !! i = Some r -> rows t !! i = Some r) -> refers t f t' -> refers u f t'.
Proof. intros Hs Hr j x k Hx. eauto. Qed.

Lemma refers_dst_set {A B} (t : table A) f (t' : table B) i r n :
  refers t f t' -> refers t f (mkTable (<[i := r]> (rows t')) n).
Proof. intros Hr j x k Hx Hk. simpl. rewrite lookup_insert. case_decide; eauto. Qed.

Lemma refers_dst_delete {A B} (t : table A) f (t' : table B) i :
  refers t f t' -> (forall j r, rows t !! j = Some r -> f r <> Some i) -> refers t f (tbl_delete i t').
Proof.
  intros Hr Hn j x k Hx Hk. simpl. rewrite lookup_delete_ne; [eauto|].
  intros ->. by apply (Hn j x Hx).
Qed.

Lemma refers_dst_alter {A B} (t : table A) f (t' : table B) i g :
  refers t f t' -> refers t f (tbl_update i g t').
Proof. intros Hr j x k Hx Hk. simpl. rewrite lookup_alter. case_decide; subst; [apply fmap_is_Some|]; eauto. Qed.

Lemma refers_src_alter {A B} (t : table A) f (t' : table B) i g :
  refers t f t' -> (forall r, f (g r) = f r) -> refers (tbl_update i g t) f t'.
Proof.
  intros Hr Hg j x k. simpl. rewrite lookup_alter. case_decide; [|eauto].
  intros (y & Hy & ->)%fmap_Some Hk. subst. rewrite Hg in Hk. eauto.
Qed.

Lemma unique_set {A B} (t : table A) (f : A -> B) i r n :
  unique_column t f -> (forall j x, rows t !! j = Some x -> f x = f r -> j = i) ->
  unique_column (mkTable (<[i := r]> (rows t)) n) f.
Proof.
  intros Hu Hn j k x y. simpl. rewrite !lookup_insert. do 2 case_decide; subst; try done.
  - intros [= <-] Hy E. symmetry. by eapply Hn.
  - intros Hx [= <-] E. by eapply Hn.
  - apply Hu.
Qed.

Lemma unique_sub {A B} (t u : table A) (f : A -> B) :
  (forall i r, rows u !! i = Some r -> rows t !! i = Some r) -> unique_column t f -> unique_column u f.
Proof. intros Hs Hu j k x y Hx Hy. eauto. Qed.

Lemma unique_alter {A B} (t : table A) (f : A -> B) i g :
  unique_column t f -> (forall r, f (g r) = f r) -> unique_column (tbl_update i g t) f.
Proof.
  intros Hu Hg.
  assert (Hl : forall j x, rows (tbl_update i g t) !! j = Some x -> exists y, rows t !! j = Some y /\ f x = f y).
  { intros j x. simpl. rewrite lookup_alter. case_decide; [|eauto].
    intros (y & Hy & ->)%fmap_Some. subst. eauto. }
  intros j k x y (x' & Hx & ->)%Hl (y' & Hy & ->)%Hl. by apply Hu.
Qed.

Lemma wf_table_alter {A} (t : table A) i g : wf_table t -> wf_table (tbl_update i g t).
Proof.
  intros [H1 H2]. split; [done|]. intros j x. simpl. rewrite lookup_alter. case_decide; [|apply H2].
  intros (y & Hy & ->)%fmap_Some. subst. eauto.
Qed.

Lemma wf_table_sub {A} (t u : table A) :
  (forall i r, rows u !! i = Some r -> rows t !! i = Some r) -> next_id u = next_id t ->
  wf_table t -> wf_table u.
Proof. intros Hs Hn [H1 H2]. split; [lia|]. intros i r Hr. rewrite Hn. eauto. Qed.

Lemma delete_all_sub {A} ids (t : table A) i r :
  rows (tbl_delete_all ids t) !! i = Some r -> rows t !! i = Some r.
Proof. rewrite tbl_delete_all_lookup. by case_bool_decide. Qed.

Lemma delete_all_next {A} ids (t : table A) : next_id (tbl_delete_all ids t) = next_id t.
Proof. unfold tbl_delete_all. induction ids; [done|]. simpl. done. Qed.
#[export] Hint Resolve refers_src_set refers_src_delete refers_dst_set refers_dst_delete refers_dst_alter
  unique_set wf_table_alter : wg.

(** A client row that keeps hub and address keeps addresses distinct. *)
Lemma unique_addresses_set d i c c' :
  unique_addresses d -> rows (clients d) !! i = Some c ->
  cl_server_id c' = cl_server_id c -> cl_address c' = cl_address c ->
  unique_addresses (on_clients (tbl_set i c') d).
Proof.
  intros Hu Hi Hs Ha j k cj ck h Hjk. simpl. rewrite !lookup_insert. do 2 case_decide; subst; try done.
  - intros [= <-] Hk. rewrite Hs, Ha. exact (Hu _ _ _ _ h Hjk Hi Hk).
  - intros Hj [= <-]. rewrite Hs, Ha. exact (Hu _ _ _ _ h Hjk Hj Hi).
  - exact (Hu _ _ _ _ h Hjk).
Qed.

Lemma unique_addresses_sub d d' :
  (forall i c, rows (clients d') !! i = Some c -> rows (clients d) !! i = Some c) ->
  unique_addresses d -> unique_addresses d'.
Proof. intros Hs Hu i j ci cj h Hij Hi Hj. eapply Hu; eauto. Qed.

(** ** The invariant under the writes of the handlers *)

(** Rebuild the invariant field by field from [H : db_inv d]. *)
Ltac rebuild_inv H :=
  destruct H; constructor; cbn [tenants sshkeys servers clients operators operator_tenants discovered
    certificates audit_events tokens on_tenants on_sshkeys on_servers on_clients on_operators
    on_operator_tenants on_discovered on_certificates on_audit_events on_tokens] in *;
  try assumption; eauto 3 with wg.

(** A new row whose value of a unique column is taken by no row. *)
Ltac fresh_column := apply unique_set; [done|]; let E := fresh in intros ? ? ? E; exfalso; naive_solver.

Section writes.
Context `{Known} (d : DB) (Hd : db_inv d).

(** A reference to a tenant, if there is one, is valid. *)
Definition tenant_ok (t : option Z) : Prop := forall k, t = Some k -> is_Some (rows (tenants d) !! k).

Lemma inv_insert_audit ev : tenant_ok (ev_tenant_id ev) -> db_inv (on_audit_events (tbl_insert ev) d).
Proof. intros Ht. rebuild_inv Hd. Qed.

Lemma inv_insert_tenant t :
  (forall i x, rows (tenants d) !! i = Some x -> tn_slug x <> tn_slug t /\ tn_name x <> tn_name t) ->
  db_inv (on_tenants (tbl_insert t) d).
Proof. intros Hs. rebuild_inv Hd; fresh_column. Qed.

Lemma inv_set_tenant i t t' :
  rows (tenants d) !! i = Some t -> tn_slug t' = tn_slug t -> tn_name t' = tn_name t ->
  db_inv (on_tenants (tbl_set i t') d).
Proof.
  intros Hi Hs Hn. rebuild_inv Hd; (apply unique_set; [done|]); intros j x Hx E.
  - rewrite Hn in E. by eapply inv_tenant_names0.
  - rewrite Hs in E. by eapply inv_tenant_slugs0.
Qed.

Lemma inv_insert_operator o :
  tenant_ok (op_tenant_id o) -> (forall i x, rows (operators d) !! i = Some x -> op_cn x <> op_cn o) ->
  db_inv (on_operators (tbl_insert o) d).
Proof. intros Ht Hc. rebuild_inv Hd; fresh_column. Qed.

Lemma inv_insert_join j :
  is_Some (rows (operators d) !! ot_operator_id j) -> is_Some (rows (tenants d) !! ot_tenant_id j) ->
  (forall i x, rows (operator_tenants d) !! i = Some x ->
     ot_operator_id x <> ot_operator_id j \/ ot_tenant_id x <> ot_tenant_id j) ->
  db_inv (on_operator_tenants (tbl_insert j) d).
Proof.
  intros Ho Ht Hn. rebuild_inv Hd; [apply refers_src_set; [done|]; by intros k [= <-]..|].
  apply unique_set; [done|]. intros i x Hx [= E1 E2]. exfalso. destruct (Hn i x Hx); done.
Qed.

Lemma inv_delete_join i : db_inv (on_operator_tenants (tbl_delete i) d).
Proof. rebuild_inv Hd. eapply unique_sub; [|done]. exact (delete_all_sub [i] (operator_tenants d)). Qed.

Lemma inv_insert_certificate c :
  tenant_ok (crt_tenant_id c) -> (forall k, crt_operator_id c = Some k -> is_Some (rows (operators d) !! k)) ->
  (forall i x, rows (certificates d) !! i = Some x -> crt_serial x <> crt_serial c) ->
  db_inv (on_certificates (tbl_insert c) d).
Proof.
  intros Ht Ho Hs. rebuild_inv Hd; [fresh_column|].
  intros s (i & x & Hx & E & Hr)%inv_revoked0. exists i, x. simpl. rewrite lookup_insert_ne; [done|].
  intros <-. by rewrite (wf_table_fresh _ inv_wf_certificates0) in Hx.
Qed.

Lemma inv_set_certificate i c c' :
  rows (certificates d) !! i = Some c -> crt_tenant_id c' = crt_tenant_id c ->
  crt_operator_id c' = crt_operator_id c -> crt_serial c' = crt_serial c -> crt_revoked c' = true ->
  db_inv (on_certificates (tbl_set i c') d).
Proof.
  intros Hi Ht Ho Hs Hr. rebuild_inv Hd.
  - apply refers_src_set; [done|]. intros k. rewrite Ht. eauto.
  - apply refers_src_set; [done|]. intros k. rewrite Ho. eauto.
  - apply unique_set; [done|]. intros j x Hx E. rewrite Hs in E. by eapply inv_cert_serials0.
  - intros s (j & x & Hx & E & Hrx)%inv_revoked0. destruct (decide (j = i)) as [->|Hne].
    + exists i, c'. simpl. rewrite lookup_insert_eq. split_and!; [done|congruence|done].
    + exists j, x. simpl. by rewrite lookup_insert_ne.
Qed.

Lemma inv_insert_key k :
  tenant_ok (key_tenant_id k) -> (forall i x, rows (sshkeys d) !! i = Some x -> key_name x <> key_name k) ->
  db_inv (on_sshkeys (tbl_insert k) d).
Proof. intros Ht Hs. rebuild_inv Hd; fresh_column. Qed.

Lemma inv_set_key i k k' :
  rows (sshkeys d) !! i = Some k -> key_tenant_id k' = key_tenant_id k ->
  (forall j x, rows (sshkeys d) !! j = Some x -> key_name x = key_name k' -> j = i) ->
  db_inv (on_sshkeys (tbl_set i k') d).
Proof. intros Hi Ht Hs. rebuild_inv Hd. apply refers_src_set; [done|]. intros t. rewrite Ht. eauto. Qed.

Lemma inv_delete_key i :
  (forall j s, rows (servers d) !! j = Some s -> srv_ssh_key_id s <> i) ->
  (forall j c, rows (clients d) !! j = Some c -> cl_ssh_key_id c <> Some i) ->
  (forall j t, rows (tokens d) !! j = Some t -> tok_ssh_key_id t <> i) ->
  db_inv (on_sshkeys (tbl_delete i) d).
Proof.
  intros Hs Hc Ht. rebuild_inv Hd.
  - apply refers_dst_delete; [done|]. intros j s Hj [= E]. by eapply Hs.
  - apply refers_dst_delete; [done|]. intros j t Hj [= E]. by eapply Ht.
  - eapply unique_sub; [|done]. exact (delete_all_sub [i] (sshkeys d)).
Qed.

Lemma inv_insert_server s :
  tenant_ok (srv_tenant_id s) ->
  is_Some (rows (sshkeys d) !! srv_ssh_key_id s) -> db_inv (on_servers (tbl_insert s) d).
Proof. intros Ht Hk. rebuild_inv Hd. apply refers_src_set; [done|]. by intros k [= <-]. Qed.

Lemma inv_set_server i s s' :
  rows (servers d) !! i = Some s -> srv_tenant_id s' = srv_tenant_id s ->
  is_Some (rows (sshkeys d) !! srv_ssh_key_id s') -> db_inv (on_servers (tbl_set i s') d).
Proof.
  intros Hi Ht Hk. rebuild_inv Hd.
  - apply refers_src_set; [done|]. intros k. rewrite Ht. eauto.
  - apply refers_src_set; [done|]. by intros k [= <-].
Qed.

Lemma inv_alter_server i f :
  (forall s, srv_tenant_id (f s) = srv_tenant_id s /\ srv_ssh_key_id (f s) = srv_ssh_key_id s) ->
  db_inv (on_servers (tbl_update i f) d).
Proof.
  intros Hf. rebuild_inv Hd.
  - apply refers_src_alter; [done|]. apply Hf.
  - apply refers_src_alter; [done|]. intros s. f_equal. apply Hf.
Qed.

Lemma inv_delete_server i :
  (forall j c, rows (clients d) !! j = Some c -> cl_server_id c <> i) ->
  (forall j p, rows (discovered d) !! j = Some p -> dp_server_id p <> i) ->
  (forall j t, rows (tokens d) !! j = Some t -> tok_server_id t <> i) ->
  db_inv (on_servers (tbl_delete i) d).
Proof.
  intros Hc Hp Ht. rebuild_inv Hd; (apply refers_dst_delete; [done|]); intros j x Hj [= E]; naive_solver.
Qed.

Lemma inv_delete_discovered ids : db_inv (on_discovered (tbl_delete_all ids) d).
Proof.
  rebuild_inv Hd; [eapply refers_src_sub|eapply unique_sub]; try apply delete_all_sub; done.
Qed.

Lemma inv_insert_client sid server a c :
  rows (servers d) !! sid = Some server -> allocate_client_ip d sid server = Ok a ->
  cl_server_id c = sid -> cl_address c = client_cidr a -> tenant_ok (cl_tenant_id c) ->
  (forall k, cl_ssh_key_id c = Some k -> is_Some (rows (sshkeys d) !! k)) ->
  (forall i x, rows (clients d) !! i = Some x -> cl_name x <> cl_name c) ->
  db_inv (on_clients (tbl_insert c) d).
Proof.
  intros Hs Ha Hsid Hadr Ht Hk Hn. pose proof (insert_allocated_unique d sid server a c (inv_addresses d Hd)) as Hu.
  rebuild_inv Hd.
  - apply refers_src_set; [done|]. intros k [= <-]. rewrite Hsid. eauto.
  - apply unique_set; [done|]. intros j x Hx E. by apply Hn in Hx.
Qed.

Lemma inv_set_client i c c' :
  rows (clients d) !! i = Some c -> cl_server_id c' = cl_server_id c -> cl_address c' = cl_address c ->
  cl_tenant_id c' = cl_tenant_id c -> (forall k, cl_ssh_key_id c' = Some k -> is_Some (rows (sshkeys d) !! k)) ->
  (forall j x, rows (clients d) !! j = Some x -> cl_name x = cl_name c' -> j = i) ->
  db_inv (on_clients (tbl_set i c') d).
Proof.
  intros Hi Hs Ha Ht Hk Hn. pose proof (unique_addresses_set d i c c' (inv_addresses d Hd) Hi Hs Ha) as Hu.
  rebuild_inv Hd.
  - apply refers_src_set; [done|]. intros k. rewrite Ht. eauto.
  - apply refers_src_set; [done|]. intros k [= <-]. rewrite Hs. eauto.
Qed.

Lemma inv_delete_clients ids : db_inv (on_clients (tbl_delete_all ids) d).
Proof.
  pose proof (unique_addresses_sub d (on_clients (tbl_delete_all ids) d)
    (delete_all_sub ids (clients d)) (inv_addresses d Hd)) as Hu.
  rebuild_inv Hd.
  - eapply wf_table_sub; [apply delete_all_sub|apply delete_all_next|done].
  - eapply refers_src_sub; [apply delete_all_sub|done].
  - eapply refers_src_sub; [apply delete_all_sub|done].
  - eapply refers_src_sub; [apply delete_all_sub|done].
  - eapply unique_sub; [apply delete_all_sub|done].
Qed.

Lemma inv_delete_client i : db_inv (on_clients (tbl_delete i) d).
Proof. exact (inv_delete_clients [i]). Qed.

Lemma inv_insert_token t :
  tenant_ok (tok_tenant_id t) ->
  is_Some (rows (servers d) !! tok_server_id t) -> is_Some (rows (sshkeys d) !! tok_ssh_key_id t) ->
  (forall i x, rows (tokens d) !! i = Some x -> tok_token_hash x <> tok_token_hash t) ->
  token_uses_ok t -> db_inv (on_tokens (tbl_insert t) d).
Proof.
  intros Ht Hs Hk Hh Hu. rebuild_inv Hd.
  - apply refers_src_set; [done|]. by intros k [= <-].
  - apply refers_src_set; [done|]. by intros k [= <-].
  - apply unique_set; [done|]. intros j x Hx E. by apply Hh in Hx.
  - intros i x. simpl. rewrite lookup_insert. case_decide; [by intros [= <-]|eauto].
Qed.

Lemma inv_set_token i t t' :
  rows (tokens d) !! i = Some t -> tok_tenant_id t' = tok_tenant_id t -> tok_server_id t' = tok_server_id t ->
  tok_ssh_key_id t' = tok_ssh_key_id t -> tok_token_hash t' = tok_token_hash t ->
  token_uses_ok t' -> db_inv (on_tokens (tbl_set i t') d).
Proof.
  intros Hi Ht Hs Hk Hh Hu. rebuild_inv Hd.
  - apply refers_src_set; [done|]. intros k. rewrite Ht. eauto.
  - apply refers_src_set; [done|]. intros k [= <-]. rewrite Hs. eauto.
  - apply refers_src_set; [done|]. intros k [= <-]. rewrite Hk. eauto.
  - apply unique_set; [done|]. intros j x Hx E. rewrite Hh in E. by eapply inv_token_hashes0.
  - intros j x. simpl. rewrite lookup_insert. case_decide; [by intros [= <-]|eauto].
Qed.
End writes.

(** ** The invariant under the writes of the tasks *)

Lemma unique_addresses_alter d i f :
  unique_addresses d ->
  (forall c, cl_server_id (f c) = cl_server_id c /\ cl_address (f c) = cl_address c) ->
  unique_addresses (on_clients (tbl_update i f) d).
Proof.
  intros Hu Hf.
  assert (Hl : forall j x, rows (tbl_update i f (clients d)) !! j = Some x -> exists y,
    rows (clients d) !! j = Some y /\ cl_server_id x = cl_server_id y /\ cl_address x = cl_address y).
  { intros j x. simpl. rewrite lookup_alter. case_decide; [|eauto].
    intros (y & Hy & ->)%fmap_Some. subst. exists y. split; [done|]. apply Hf. }
  intros j k x y h Hjk (x' & Hx & Hxs & Hxa)%Hl (y' & Hy & Hys & Hya)%Hl. rewrite Hxs, Hxa, Hys, Hya.
  exact (Hu _ _ _ _ h Hjk Hx Hy).
Qed.

(** A discovery pass keeps one row per hub and peer key. *)
Lemma record_peers_once sid now managed peers t t' counts :
  record_peers sid now managed peers t = (t', counts) ->
  unique_column t (fun p => (dp_server_id p, dp_public_key p)) ->
  unique_column t' (fun p => (dp_server_id p, dp_public_key p)).
Proof.
  unfold record_peers. destruct (fold_left _ _ _) as [[t1 n] u] eqn:E. intros [= <- <-] Hu.
  eapply unique_sub; [apply delete_all_sub|]. revert t E Hu. generalize 0 at 1 as n0. generalize 0 at 1 as u0.
  induction peers as [|p ps IH]; intros u0 n0 t E Hu; [by simpl in E; simplify_eq|].
  cbn [fold_left] in E. unfold upsert_peer in E at 2.
  destruct (find_discovered sid (pi_public_key p) t) as [[j old]|] eqn:Ef; apply (IH _ _ _ E); clear IH E;
    (apply unique_set; [done|]); unfold find_discovered in Ef; simpl; intros i x Hx [= E1 E2].
  - apply tbl_first_Some in Ef as [Hj Hp]. bool_to_prop. eapply Hu; [done|done|]. simpl. congruence.
  - exfalso. eapply tbl_first_None in Ef; [|done]. simpl in Ef. apply andb_false_iff in Ef as [Ef|Ef]; bool_to_prop; congruence.
Qed.

(** A row written by a discovery pass is a row of the scanned hub. *)
Lemma record_peers_rows sid now managed peers t t' counts i r :
  record_peers sid now managed peers t = (t', counts) -> rows t' !! i = Some r ->
  dp_server_id r = sid \/ rows t !! i = Some r.
Proof.
  unfold record_peers. destruct (fold_left _ _ _) as [[t1 n] u] eqn:E.
  intros [= <- <-] Hr%delete_all_sub.
  revert t E. generalize 0 at 1 as n0. generalize 0 at 1 as u0. revert Hr.
  induction peers as [|p ps IH]; intros Hr u0 n0 t E; [by right; simpl in E; simplify_eq|].
  cbn [fold_left] in E. unfold upsert_peer in E at 2.
  destruct (find_discovered sid (pi_public_key p) t) as [[j old]|];
    (destruct (IH Hr _ _ _ E) as [?|Hr']; [by left|]); simpl in Hr'; rewrite lookup_insert in Hr';
    case_decide; simplify_eq; auto.
Qed.

Section task_writes.
Context `{Known} (d : DB) (Hd : db_inv d).

Lemma inv_alter_client i f :
  (forall c, cl_server_id (f c) = cl_server_id c /\ cl_address (f c) = cl_address c /\
             cl_ssh_key_id (f c) = cl_ssh_key_id c /\ cl_name (f c) = cl_name c /\
             cl_tenant_id (f c) = cl_tenant_id c) ->
  db_inv (on_clients (tbl_update i f) d).
Proof.
  intros Hf.
  pose proof (unique_addresses_alter d i f (inv_addresses d Hd) ltac:(intros c; split; apply Hf)) as Hu.
  rebuild_inv Hd.
  - apply refers_src_alter; [done|]. apply Hf.
  - apply refers_src_alter; [done|]. intros c. f_equal. apply Hf.
  - apply refers_src_alter; [done|]. apply Hf.
  - apply unique_alter; [done|]. apply Hf.
Qed.

Lemma inv_record_peers sid now managed peers t counts :
  is_Some (rows (servers d) !! sid) ->
  record_peers sid now managed peers (discovered d) = (t, counts) ->
  db_inv (on_discovered (fun _ => t) d).
Proof.
  intros Hs E. rebuild_inv Hd; [|by eapply record_peers_once]. intros i r k Hr [= <-].
  destruct (record_peers_rows _ _ _ _ _ _ _ _ _ E Hr) as [->|Ho]; eauto.
Qed.

Lemma inv_delete_tokens ids : db_inv (on_tokens (tbl_delete_all ids) d).
Proof.
  rebuild_inv Hd.
  - eapply wf_table_sub; [apply delete_all_sub|apply delete_all_next|done].
  - eapply refers_src_sub; [apply delete_all_sub|done].
  - eapply refers_src_sub; [apply delete_all_sub|done].
  - eapply refers_src_sub; [apply delete_all_sub|done].
  - eapply unique_sub; [apply delete_all_sub|done].
  - intros i t Ht%delete_all_sub. eauto.
Qed.
End task_writes.
