(* ===== verification/Keeps.v ===== *)
(** * Programs that keep the invariant

    A small program logic for the invariant of [Invariant.v], and its
    application to every handler, task and command that changes the database.
    [keeps m w Q] says that running [m] in world [w] either returns a value
    and a world in [Q], or raises with a committed database that satisfies
    the invariant. *)

From S2P Require Import Prelude PyStr IpAddr Hashing Base64 Models Session Demo Ipam TenantScope AuditLog Enrollment Wireguard Tasks RouterServers RouterClients RouterSshKeys RouterTenants RouterTokens EnrollApp Invariant.

(** ** Keeping the invariant *)

Definition keeps `{Known} {A} (m : M A) (w : World) (Q : A -> World -> Prop) : Prop :=
  match m w with
  | (Ok a, w') => Q a w'
  | (Raise _, w') => db_inv (committed w')
  end.

Section rules.
Context `{Known} {A B : Type} (w : World).

Lemma keeps_bind (m : M A) (k : A -> M B) Q :
  keeps m w (fun a w' => keeps (k a) w' Q) -> keeps (x <- m ;; k x) w Q.
Proof. unfold keeps, bind. by destruct (m w) as [[a|e] w']. Qed.

Lemma keeps_ret (a : A) (Q : A -> World -> Prop) : Q a w -> keeps (ret a) w Q.
Proof. done. Qed.

Lemma keeps_raise e (Q : A -> World -> Prop) : db_inv (committed w) -> keeps (raise e) w Q.
Proof. done. Qed.

Lemma keeps_some (o : option A) e (Q : A -> World -> Prop) :
  db_inv (committed w) -> (forall a, o = Some a -> Q a w) -> keeps (some_or_raise o e) w Q.
Proof. intros Hi HQ. destruct o; [by apply HQ|done]. Qed.

Lemma keeps_lift (o : outcome A) (Q : A -> World -> Prop) :
  db_inv (committed w) -> (forall a, o = Ok a -> Q a w) -> keeps (lift o) w Q.
Proof. intros Hi HQ. unfold keeps, lift. destruct o; [by apply HQ|done]. Qed.

(** A computation known by its result on success, and quiet otherwise. *)
Lemma keeps_quiet (m : M A) (Q : A -> World -> Prop) :
  quiet m -> db_inv (committed w) -> (forall a w', m w = (Ok a, w') -> Q a w') -> keeps m w Q.
Proof.
  intros Hq Hi HQ. unfold keeps. destruct (m w) as [[a|e] w'] eqn:E; [by apply HQ|].
  apply Hq in E as [-> _]. done.
Qed.
End rules.

Lemma keeps_raise_if `{Known} b e w Q :
  db_inv (committed w) -> (b = false -> Q tt w) -> keeps (raise_if b e) w Q.
Proof. intros Hi HQ. destruct b; [done|by apply HQ]. Qed.

Lemma keeps_get_db `{Known} w (Q : DB -> World -> Prop) : Q (view w) w -> keeps get_db w Q.
Proof. done. Qed.

Lemma keeps_modify `{Known} f w Q :
  Q tt (mkWorld (committed w) (f (view w)) (queue w) (audit_log w) (outside w)) -> keeps (modify_db f) w Q.
Proof. done. Qed.

Lemma keeps_flush `{Known} ok f w Q :
  db_inv (committed w) ->
  (ok (view w) = true -> Q tt (mkWorld (committed w) (f (view w)) (queue w) (audit_log w) (outside w))) ->
  keeps (flush_checked ok f) w Q.
Proof. intros Hi HQ. unfold keeps, flush_checked. destruct (ok (view w)); [by apply HQ|done]. Qed.

Lemma keeps_commit `{Known} w (Q : unit -> World -> Prop) :
  db_inv (view w) ->
  (forall w', committed w' = view w -> view w' = view w -> db_inv (committed w') -> Q tt w') ->
  keeps commit w Q.
Proof. intros Hi HQ. unfold keeps, commit. by apply HQ. Qed.

Lemma keeps_dispatch `{Known} t w (Q : unit -> World -> Prop) :
  db_inv (committed w) ->
  (forall w', committed w' = committed w -> view w' = view w -> Q tt w') -> keeps (dispatch t) w Q.
Proof. intros Hi HQ. unfold keeps, dispatch. destruct (broker (outside w) t); [by apply HQ|done]. Qed.

Lemma keeps_persist `{Known} now a w (Q : unit -> World -> Prop) :
  (forall ev log', ev_tenant_id ev = aa_tenant_id a ->
     Q tt (mkWorld (committed w) (on_audit_events (tbl_insert ev) (view w)) (queue w) log' (outside w))) ->
  keeps (persist now a) w Q.
Proof. intros HQ. by apply HQ. Qed.

Lemma keeps_load_mutable `{Known} {A} (tbl : DB -> table A) tenant what s id w (Q : A -> World -> Prop) :
  db_inv (committed w) -> (forall row, rows (tbl (view w)) !! id = Some row -> Q row w) ->
  keeps (load_mutable tbl tenant what s id) w Q.
Proof.
  intros Hi HQ. apply keeps_quiet; [auto with wg|done|]. intros a w' [-> Hm]%load_mutable_Ok.
  apply HQ, Hm.
Qed.

Lemma keeps_require `{Known} s tid roles w (Q : unit -> World -> Prop) :
  db_inv (committed w) -> Q tt w -> keeps (require_tenant_role s tid roles) w Q.
Proof.
  intros Hi HQ. destruct roles as [|r rs]; [done|].
  unfold keeps. destruct (require_tenant_role_spec s tid (r :: rs) w ltac:(done)) as [[-> _]|(dt & -> & _)]; done.
Qed.

Lemma keeps_resolve `{Known} s t roles w (Q : Z * Tenant -> World -> Prop) :
  db_inv (committed w) ->
  (forall tid tn, rows (tenants (view w)) !! tid = Some tn -> Q (tid, tn) w) ->
  keeps (resolve_create_tenant s t roles) w Q.
Proof.
  intros Hi HQ. apply keeps_quiet; [auto with wg|done|].
  intros [tid tn] w' (-> & Ht & _)%resolve_create_facts. by apply HQ.
Qed.

Lemma keeps_allocate `{Known} d sid server w (Q : Z -> World -> Prop) :
  db_inv (committed w) -> (forall a, allocate_client_ip d sid server = Ok a -> Q a w) ->
  keeps (allocate_or_409 d sid server) w Q.
Proof.
  intros Hi HQ. apply keeps_quiet; [auto with wg|done|]. intros a w' [-> Ha]%allocate_or_409_Ok. by apply HQ.
Qed.

Lemma keeps_encrypt `{Known} encrypt kind p w (Q : bootstrap_kwargs -> World -> Prop) :
  db_inv (committed w) -> (forall b, Q b w) -> keeps (encrypt_bootstrap_kwargs encrypt kind p) w Q.
Proof.
  intros Hi HQ. apply keeps_quiet; [unfold encrypt_bootstrap_kwargs; solve_effect|done|].
  intros b w' ->%encrypt_world. apply HQ.
Qed.

Lemma inv_bump `{Known} d sid : db_inv d -> db_inv (bump_generation sid d).
Proof. intros Hd. by apply inv_alter_server. Qed.

Lemma keeps_reconfigure `{Known} sid w (Q : Z -> World -> Prop) :
  db_inv (committed w) -> committed w = view w ->
  (forall g w', db_inv (committed w') -> Q g w') -> keeps (request_reconfigure sid) w Q.
Proof.
  intros Hi Hcv HQ. destruct (rows (servers (view w)) !! sid) as [s|] eqn:E.
  - unfold keeps. rewrite (request_reconfigure_eq sid s w E).
    assert (Hb : db_inv (bump_generation sid (view w))) by (apply inv_bump; by rewrite <- Hcv).
    destruct (broker _ _); [by apply HQ|done].
  - unfold keeps, request_reconfigure, bind, get_db. by rewrite E.
Qed.

(** One step of the logic, following the program. *)
Ltac keeps_step :=
  cbn [fst snd negb] in *;
  lazymatch goal with
  | |- keeps (bind _ _) _ _ => apply keeps_bind
  | |- keeps (ret _) _ _ => apply keeps_ret
  | |- keeps (raise _) _ _ => apply keeps_raise; try assumption
  | |- keeps (raise_if _ _) _ _ => apply keeps_raise_if; [try assumption|intros]
  | |- keeps (some_or_raise _ _) _ _ => apply keeps_some; [try assumption|intros]
  | |- keeps (lift _) _ _ => apply keeps_lift; [try assumption|intros]
  | |- keeps get_db _ _ => apply keeps_get_db
  | |- keeps (modify_db _) _ _ => apply keeps_modify
  | |- keeps (flush_checked _ _) _ _ => apply keeps_flush; [try assumption|intros]
  | |- keeps commit _ _ => apply keeps_commit; [cbn [view committed]|intros; cbn [view committed] in *]
  | |- keeps (dispatch _) _ _ => apply keeps_dispatch; [try assumption|intros; cbn [view committed] in *]
  | |- keeps (persist _ _) _ _ => apply keeps_persist; intros; cbn [view committed aa_tenant_id] in *
  | |- keeps (load_mutable _ _ _ _ _) _ _ => apply keeps_load_mutable; [try assumption|intros]
  | |- keeps (require_tenant_role _ _ _) _ _ => apply keeps_require; [try assumption|]
  | |- keeps (resolve_create_tenant _ _ _) _ _ => apply keeps_resolve; [try assumption|intros]
  | |- keeps (allocate_or_409 _ _ _) _ _ => apply keeps_allocate; [try assumption|intros]
  | |- keeps (encrypt_bootstrap_kwargs _ _ _) _ _ => apply keeps_encrypt; [try assumption|intros]
  | |- keeps (request_reconfigure _) _ _ => apply keeps_reconfigure; [try assumption|congruence|intros]
  | |- keeps (match ?x with _ => _ end) _ _ => destruct x eqn:?
  | |- db_inv (committed _) => congruence || assumption
  end.
Ltac keeps_go := repeat (keeps_step; cbn [view committed queue audit_log] in *).

(** A handler that keeps the invariant, whatever the broker accepts. *)
Definition kept `{Known} {A} (m : M A) : Prop :=
  forall o d, db_inv d -> keeps m (start_in o d) (fun _ w' => db_inv (committed w')).

Ltac start_keeps d Hd :=
  intros o d Hd; assert (Hc : db_inv (committed (start_in o d))) by exact Hd.

Section handlers.
Context `{Known} `{Dumps} (encrypt : string -> string -> outcome string) (default_subnet : string)
  (x25519_base : bytes -> bytes) (env : enroll_env) (exc : string) (now : Z).

(** A reference copied from a row of a consistent database, or resolved. *)
Ltac ref_ok :=
  try match goal with H : ev_tenant_id ?e = _ |- tenant_ok _ (ev_tenant_id ?e) => rewrite H end;
  intros ? ?; simpl in *; simplify_eq;
  eauto 3 using refers_row, inv_key_tenant, inv_server_tenant, inv_client_tenant, inv_cert_tenant,
    inv_cert_operator, inv_token_tenant, inv_token_key, inv_client_key.

(** ** Servers *)

Lemma kept_register_server p a s : kept (register_server encrypt default_subnet now p a s).
Proof.
  start_keeps d Hd. unfold register_server. keeps_go.
  apply inv_insert_audit; [apply inv_insert_server; [done| |by eauto]|]; ref_ok.
Qed.

Lemma kept_reprovision_server id : kept (reprovision_server id).
Proof.
  start_keeps d Hd. unfold reprovision_server. keeps_go.
  eapply inv_set_server; [done|done|done|]. by eapply (inv_server_key d Hd).
Qed.

Lemma kept_update_server id u a s : kept (update_server now id u a s).
Proof.
  start_keeps d Hd. unfold update_server. keeps_go.
  all: apply inv_insert_audit; [|by ref_ok]; (eapply inv_set_server; [done|done|done|]); simpl;
    match goal with E : su_ssh_key_id _ = _ |- _ => rewrite E end; simpl.
  - eauto.
  - by eapply (inv_server_key d Hd).
Qed.

Lemma kept_delete_server id s force : kept (delete_server id s force).
Proof.
  start_keeps d Hd. unfold delete_server. destruct force; keeps_go.
  all: match goal with Hu : server_unreferenced _ _ = true |- _ =>
    apply server_unreferenced_spec in Hu as (? & ? & ?) end; apply inv_delete_server; try done.
  by apply inv_delete_discovered, inv_delete_clients.
Qed.

Lemma kept_discover_server_peers id : kept (discover_server_peers id).
Proof. start_keeps d Hd. unfold discover_server_peers. keeps_go. Qed.

Lemma kept_rotate_server_host_cert id : kept (rotate_server_host_cert id).
Proof. start_keeps d Hd. unfold rotate_server_host_cert. keeps_go. Qed.

Lemma kept_discover_all_servers : kept discover_all_servers.
Proof. start_keeps d Hd. unfold discover_all_servers. keeps_go. Qed.

(** ** Clients *)

Lemma kept_register_client p : kept (register_client encrypt now p).
Proof.
  start_keeps d Hd. unfold register_client. keeps_go.
  eapply inv_insert_client; try done; simpl; try (by ref_ok). intros i x Hx. by eapply client_name_taken_false.
Qed.

Lemma kept_register_manual_client priv p : kept (register_manual_client x25519_base now priv p).
Proof.
  start_keeps d Hd. unfold register_manual_client. keeps_go.
  eapply inv_insert_client; try done; simpl; try (by ref_ok). intros i x Hx. by eapply client_name_taken_false.
Qed.

(** A client row rewritten in place, possibly under a new free name. *)
Lemma inv_rename_client d i c c' :
  db_inv d -> rows (clients d) !! i = Some c -> cl_server_id c' = cl_server_id c ->
  cl_address c' = cl_address c -> cl_tenant_id c' = cl_tenant_id c ->
  (forall k, cl_ssh_key_id c' = Some k -> is_Some (rows (sshkeys d) !! k)) ->
  (cl_name c' = cl_name c \/ client_name_taken d (cl_name c') = false) ->
  db_inv (on_clients (tbl_set i c') d).
Proof.
  intros Hd Hi Hs Ha Ht Hk Hn. eapply inv_set_client; try done. intros j x Hx E. destruct Hn as [Hn|Hn].
  - eapply (inv_client_names d Hd); [done|done|congruence].
  - exfalso. by eapply client_name_taken_false.
Qed.

Lemma kept_reprovision_client id : kept (reprovision_client id).
Proof.
  start_keeps d Hd. unfold reprovision_client. keeps_go.
  eapply inv_rename_client; try done; [|by left]. simpl. intros k. by eapply (inv_client_key d Hd).
Qed.

Lemma kept_rotate_client_host_cert id : kept (rotate_client_host_cert id).
Proof. start_keeps d Hd. unfold rotate_client_host_cert. keeps_go. Qed.

Lemma kept_update_client id u s : kept (update_client id u s).
Proof.
  start_keeps d Hd. unfold update_client. keeps_go.
  all: eapply inv_rename_client; try done; simpl;
    repeat match goal with E : cu_ssh_key_id _ = _ |- _ => rewrite E | E : cu_name _ = _ |- _ => rewrite E end;
    simpl; try (by left); try (intros k [= <-]; by eauto);
    try (intros k; by eapply (inv_client_key d Hd)).
  all: match goal with E : _ && _ = false |- _ => apply andb_false_iff in E as [E|E]; bool_to_prop; auto end.
Qed.

Lemma kept_delete_client id a s : kept (delete_client now id a s).
Proof.
  start_keeps d Hd. unfold delete_client. keeps_go.
  apply inv_insert_audit; [by apply inv_delete_client|by ref_ok].
Qed.

(** ** SSH keys *)

Lemma kept_create_ssh_key p a s : kept (create_ssh_key now p a s).
Proof.
  start_keeps d Hd. unfold create_ssh_key. keeps_go.
  apply inv_insert_audit; [apply inv_insert_key; [done|by ref_ok|]|by ref_ok]. simpl. by apply key_name_taken_false.
Qed.

Lemma kept_update_ssh_key id u s : kept (update_ssh_key id u s).
Proof.
  start_keeps d Hd. unfold update_ssh_key. keeps_go.
  all: eapply inv_set_key; try done; simpl; intros j x Hx Hn.
  - match goal with E : _ && _ = false |- _ => apply andb_false_iff in E as [E|E]; bool_to_prop end.
    + subst. by eapply (inv_key_names d Hd).
    + exfalso. by eapply key_name_taken_false.
  - by eapply (inv_key_names d Hd).
Qed.

Lemma kept_delete_ssh_key id s : kept (delete_ssh_key id s).
Proof.
  start_keeps d Hd. unfold delete_ssh_key. keeps_go.
  match goal with Hu : key_unreferenced _ _ = true |- _ => apply key_unreferenced_spec in Hu as (? & ? & ?) end.
  by apply inv_delete_key.
Qed.

(** ** Tenants *)

Lemma keeps_require_admin op w (Q : Z * Operator -> World -> Prop) :
  db_inv (committed w) -> (forall o, Q o w) -> keeps (RequireAdmin op) w Q.
Proof.
  intros Hi HQ. apply keeps_quiet; [unfold RequireAdmin, get_operator; solve_effect|done|].
  intros o w' (-> & _)%RequireAdmin_Ok. apply HQ.
Qed.

Lemma quiet_reject_overlap pool ex others : quiet (reject_pool_overlap pool ex others).
Proof. induction others as [|[id other] rest IH]; simpl; solve_effect. Qed.

Lemma kept_create_tenant body op : kept (create_tenant now exc body op).
Proof.
  intros o d Hd. unfold keeps. destruct (create_tenant now exc body op (start_in o d)) as [[[id row]|e] w] eqn:E.
  - apply create_tenant_Ok in E as (_ & -> & _ & _ & _ & Hn & _). apply inv_insert_tenant; [done|].
    exact Hn.
  - assert (Ha : atomic (create_tenant now exc body op)).
    { unfold create_tenant, RequireAdmin, get_operator, require_pool_shape.
      pose proof quiet_reject_overlap. solve_effect. }
    by apply Ha in E as [-> _].
Qed.

Lemma kept_update_tenant slug body op : kept (update_tenant exc slug body op).
Proof.
  start_keeps d Hd. unfold update_tenant. apply keeps_bind, keeps_require_admin; [done|]. intros op0.
  apply keeps_bind, keeps_get_db, keeps_bind, keeps_quiet; [unfold require_tenant; solve_effect|done|].
  intros [id t] w' (-> & Ht & _)%require_tenant_Ok. apply keeps_bind, keeps_quiet.
  - pose proof quiet_reject_overlap. unfold require_pool_shape. solve_effect.
  - done.
  - intros u w' E. assert (w' = start_in o d) as ->.
    { destruct (tu_subnet_pool body); [|by unfold ret in E; simplify_eq].
      step_ok E. unfold require_pool_shape in *. prim_ok. by apply reject_pool_overlap_Ok in E as [-> _]. }
    keeps_go. by eapply inv_set_tenant.
Qed.

(** A membership between an operator and a tenant that have none yet. *)
Lemma inv_attach d cn p o t role at_ : db_inv d ->
  find_operator d cn = Some o -> find_tenant d p = Some t -> find_join d o.1 t.1 = None ->
  db_inv (on_operator_tenants (tbl_insert (mkOperatorTenant o.1 t.1 role at_)) d).
Proof.
  destruct o as [oi o], t as [ti t]. intros Hd [Ho _]%tbl_first_Some [Ht _]%tbl_first_Some Hj.
  apply inv_insert_join; [done|by eexists..|]. intros i x Hx. simpl.
  eapply (proj1 (tbl_first_None _ _)) in Hj; [|done]. simpl in Hj.
  apply andb_false_iff in Hj as [?|?]; bool_to_prop; auto.
Qed.

Lemma kept_attach_operator slug body op : kept (attach_operator now slug body op).
Proof.
  start_keeps d Hd. unfold attach_operator. apply keeps_bind, keeps_require_admin; [done|]. intros op0.
  unfold require_tenant, require_operator. keeps_go. by eapply inv_attach.
Qed.

Lemma kept_detach_operator slug cn op : kept (detach_operator slug cn op).
Proof.
  start_keeps d Hd. unfold detach_operator. apply keeps_bind, keeps_require_admin; [done|]. intros op0.
  unfold require_tenant. keeps_go. by apply inv_delete_join.
Qed.

(** ** Enrollment tokens *)

(** A token row read back after it was written. *)
Ltac reread :=
  match goal with Hx : rows (tokens (on_tokens _ _)) !! _ = Some _ |- _ =>
    simpl in Hx; rewrite lookup_insert_eq in Hx; simplify_eq end.

Lemma kept_create_token rnd p p' a s :
  validate_token_create p = Some p' -> kept (create_enrollment_token now rnd p' a s).
Proof.
  intros Hv. assert (Huses : 0 <= ec_max_uses p').
  { unfold validate_token_create in Hv. case_match; [|done]. bool_to_prop.
    destruct (ec_allowed_cidrs p); [|simplify_eq; lia]. case_match; [|done].
    destruct (normalize_cidrs _); simpl in Hv; simplify_eq. simpl. lia. }
  start_keeps d Hd. unfold create_enrollment_token, mint_token. keeps_go.
  reread.
  apply inv_insert_audit; [apply inv_insert_token|]; simpl; try (by ref_ok); try by eauto.
  intros i x Hx. by eapply hash_free_spec.
Qed.

Lemma kept_revoke_token id a s : kept (revoke_enrollment_token now id a s).
Proof.
  start_keeps d Hd. unfold revoke_enrollment_token, revoke_token. keeps_go; try done.
  reread. apply inv_insert_audit; [|by ref_ok].
  match goal with Hx : rows (tokens _) !! id = Some ?r, Hn : tok_revoked_at ?r = None |- _ =>
    eapply inv_set_token; [done|exact Hx|done|done|done|done|exact (inv_token_uses d Hd _ _ Hx)] end.
Qed.

(** ** Enrollment *)

(** The database after a redemption, with the hub's generation bumped. *)
Lemma inv_redeemed peer id row payload w r w2 : db_inv (view w) ->
  rows (tokens (view w)) !! id = Some row -> token_status now row = ts_active ->
  redeem env now peer id row payload w = (Ok r, w2) -> db_inv (bump_generation (tok_server_id row) (committed w2)).
Proof.
  destruct r as [[[cid client] server] cert]. intros Hd Hr Ha E.
  apply redeem_Ok in E as (address & ev & Hs & _ & Hn & _ & Hal & _ & -> & _ & _ & _ & -> & _ & _ & Hev & _); [|done..].
  apply inv_bump, inv_insert_audit; [|by ref_ok].
  eapply inv_insert_client; try done; try (by ref_ok).
  - eapply inv_set_token; try done. apply token_active_iff in Ha as (_ & _ & Hu).
    pose proof (inv_token_uses _ Hd _ _ Hr). unfold token_uses_ok in *. simpl. lia.
  - intros i x Hx. by eapply client_name_taken_false.
Qed.

Lemma kept_enroll acquired peer body auth : kept (enroll env now acquired peer body auth).
Proof.
  intros o d Hd. unfold keeps. destruct (enroll env now acquired peer body auth (start_in o d)) as [[resp|e] w] eqn:E;
    apply enroll_cases in E as [(line & reason & _ & ? & ->)|[(? & -> & _)|[(id & row & _ & [?|?] & ->)|
      (id & row & payload & Hl & _ & _ & E)]]]; try done;
    pose proof (token_live_row _ _ _ _ _ _ Hl) as [Hr Ha]; apply redemption_outcome in E; try done.
  - destruct E as (cid & client & server & cert & w2 & E & _ & _ & _ & _ & _ & -> & _). by eapply (inv_redeemed _ _ _ _ (start_in o d)).
  - destruct E as [_ [[-> _]|(_ & [[[cid client] server] cert] & w2 & E & ->)]]; [done|]. by eapply (inv_redeemed _ _ _ _ (start_in o d)).
Qed.

End handlers.

(** ** Tasks *)

(** A computation that leaves the world alone. *)
Definition pure_world {A} (m : M A) : Prop := forall w r w', m w = (r, w') -> w' = w.

Lemma pure_lift {A} (o : outcome A) : pure_world (lift o).
Proof. by intros w r w' [= <- <-]. Qed.
Lemma pure_ret {A} (a : A) : pure_world (ret a).
Proof. by intros w r w' [= <- <-]. Qed.
Lemma pure_some {A} (o : option A) e : pure_world (some_or_raise o e).
Proof. destruct o; by intros w r w' [= <- <-]. Qed.
Lemma pure_bind {A B} (m : M A) (k : A -> M B) :
  pure_world m -> (forall a, pure_world (k a)) -> pure_world (x <- m ;; k x).
Proof.
  intros Hm Hk w r w'. unfold bind. destruct (m w) as [[a|e] w1] eqn:E; intros H.
  - apply Hm in E as ->. by apply Hk in H.
  - simplify_eq. by apply Hm in E.
Qed.

Ltac solve_pure :=
  repeat first
    [ progress intros | apply pure_bind | apply pure_lift | apply pure_ret | apply pure_some
    | match goal with |- pure_world (match ?x with _ => _ end) => destruct x end ].

Lemma keeps_try_pure `{Known} {A} (m : M A) h w Q :
  pure_world m -> (forall a, Q a w) -> (forall e, keeps (h e) w Q) -> keeps (try_except m h) w Q.
Proof.
  intros Hm HQ Hh. unfold keeps, try_except. destruct (m w) as [[a|e] w'] eqn:E; apply Hm in E as ->; [done|].
  apply Hh.
Qed.

Lemma pure_bootstrap e b : pure_world (run_bootstrap_if_supplied e b).
Proof. unfold run_bootstrap_if_supplied. solve_pure. Qed.

Lemma keeps_mark_error_server `{Known} id w (Q : unit -> World -> Prop) :
  db_inv (view w) -> (forall w', db_inv (committed w') -> Q tt w') -> keeps (mark_error_server id) w Q.
Proof. intros Hv HQ. unfold mark_error_server, alter_server. keeps_go; [by apply inv_alter_server|auto]. Qed.

Lemma keeps_mark_error_client `{Known} id w (Q : unit -> World -> Prop) :
  db_inv (view w) -> (forall w', db_inv (committed w') -> Q tt w') -> keeps (mark_error_client id) w Q.
Proof. intros Hv HQ. unfold mark_error_client, alter_client. keeps_go; [by apply inv_alter_client|auto]. Qed.

Lemma kept_provision_server_task `{Known} acq e id b : kept (provision_server_task acq e id b).
Proof.
  start_keeps d Hd. unfold provision_server_task. destruct acq; keeps_go.
  - apply keeps_try_pure.
    + apply pure_bind; [apply pure_bootstrap|]. unfold on_runner, install_host_cert_cols. solve_pure.
    + intros r. unfold alter_server. keeps_go. by apply inv_alter_server.
    + intros x. apply keeps_bind, keeps_mark_error_server; [done|]. intros w' Hw. by keeps_go.
  - apply keeps_mark_error_server; [done|]. intros w' Hw. by keeps_go.
Qed.

Lemma kept_rotate_host_cert_task `{Known} acq e id : kept (rotate_host_cert_task acq e id).
Proof.
  start_keeps d Hd. unfold rotate_host_cert_task. destruct acq; keeps_go.
  apply keeps_try_pure.
  - unfold install_host_cert_cols. solve_pure.
  - intros r. unfold alter_server. keeps_go. by apply inv_alter_server.
  - intros x. by keeps_go.
Qed.

Lemma kept_rotate_client_host_cert_task `{Known} acq e id : kept (rotate_client_host_cert_task acq e id).
Proof.
  start_keeps d Hd. unfold rotate_client_host_cert_task. destruct acq; keeps_go.
  apply keeps_try_pure.
  - unfold install_host_cert_cols. solve_pure.
  - intros r. unfold alter_client. keeps_go. by apply inv_alter_client.
  - intros x. by keeps_go.
Qed.

Lemma kept_reconfigure_server_task `{Known} acq e id g : kept (reconfigure_server_task acq e id g).
Proof.
  start_keeps d Hd. unfold reconfigure_server_task. destruct acq; keeps_go.
  apply keeps_try_pure.
  - unfold on_runner. solve_pure.
  - intros r. keeps_go. apply inv_alter_server; [done|]. intros s. by case_match.
  - intros x. by keeps_go.
Qed.

Lemma kept_provision_client_task `{Known} acq e id b : kept (provision_client_task acq e id b).
Proof.
  start_keeps d Hd. unfold provision_client_task. destruct acq; keeps_go.
  - apply keeps_try_pure.
    + apply pure_bind; [apply pure_bootstrap|]. unfold on_runner, install_host_cert_cols. solve_pure.
    + intros r. unfold alter_client. keeps_go. by apply inv_alter_client.
    + intros x. apply keeps_bind, keeps_mark_error_client; [done|]. intros w' Hw. by keeps_go.
  - apply keeps_mark_error_client; [done|]. intros w' Hw. by keeps_go.
  - apply keeps_mark_error_client; [done|]. intros w' Hw. by keeps_go.
Qed.

(** A discovery pass either raises and changes nothing, or keeps the
    invariant. *)
Lemma discover_peers_keeps `{Known} e now id w :
  db_inv (committed w) -> committed w = view w ->
  match discover_peers_task e now id w with
  | (Ok _, w') => db_inv (committed w') /\ committed w' = view w'
  | (Raise _, w') => w' = w
  end.
Proof.
  intros Hi Hcv. unfold discover_peers_task. rewrite bind_get_db.
  destruct (rows (servers (view w)) !! id) as [server|] eqn:Es; [|done]. unfold some_or_raise at 1.
  rewrite bind_ret. destruct (rows (sshkeys (view w)) !! _); [|done]. unfold some_or_raise at 1.
  rewrite bind_ret. destruct (bind _ _ _) as [[[i peers]|x] w1]; [|by destruct (is_ssh_expected x)].
  destruct (record_peers _ _ _ _ _) as [t [[n u] p]] eqn:Er. unfold bind, modify_db, commit, ret. simpl.
  split; [|done]. eapply inv_record_peers; [by rewrite <- Hcv|by eauto|done].
Qed.

Lemma kept_discover_peers_task `{Known} e now id : kept (discover_peers_task e now id).
Proof.
  intros o d Hd. pose proof (discover_peers_keeps e now id (start_in o d) Hd eq_refl) as Hx. unfold keeps.
  destruct (discover_peers_task _ _ _ _) as [[a|x] w']; [apply Hx|by rewrite Hx].
Qed.

Lemma kept_discover_all_peers_task `{Known} envs now : kept (discover_all_peers_task envs now).
Proof.
  assert (Hloop : forall ids acc w, db_inv (committed w) -> committed w = view w ->
    keeps (discover_each envs now ids acc) w (fun _ w' => db_inv (committed w'))).
  { induction ids as [|i ids IH]; intros [[ok failed] peers] w Hi Hcv; [done|].
    cbn [discover_each]. apply keeps_bind. unfold keeps at 1, try_except.
    pose proof (discover_peers_keeps (envs i) now i w Hi Hcv) as Hx.
    destruct (discover_peers_task _ _ _ _) as [[a|x] w']; [by apply IH; apply Hx|]. subst w'. by apply IH. }
  start_keeps d Hd. unfold discover_all_peers_task. apply keeps_bind, keeps_get_db, keeps_bind.
  specialize (Hloop (List.filter (fun i => negb (i =? 0)) (fst <$> map_to_list (rows (servers (view (start_in o d))))))
    (0, 0, 0) (start_in o d) Hd eq_refl). unfold keeps in *.
  destruct (discover_each _ _ _ _ _) as [[[[ok failed] peers]|x] w']; done.
Qed.

Lemma kept_rotate_expiring `{Known} now renew : kept (rotate_expiring_host_certs_task now renew).
Proof.
  assert (Hloop : forall mk ids w, db_inv (committed w) ->
    keeps (dispatch_each mk ids) w (fun _ w' => db_inv (committed w'))).
  { intros mk. induction ids as [|i ids IH]; intros w Hi; [done|]. cbn [dispatch_each].
    apply keeps_bind. unfold keeps at 1, try_except, bind at 1, dispatch.
    assert (Hk : forall (b : bool) w', db_inv (committed w') ->
      keeps (r <- dispatch_each mk ids ;; ret (if b then (i :: r.1, r.2) else (r.1, i :: r.2))) w' (fun _ w' => db_inv (committed w'))).
    { intros b w' Hw. apply keeps_bind. specialize (IH w' Hw). unfold keeps in *.
      by destruct (dispatch_each _ _ _) as [[r|x] w2]. }
    destruct (broker (outside w) (mk i)); by apply Hk. }
  start_keeps d Hd. unfold rotate_expiring_host_certs_task. cbv zeta. apply keeps_bind, keeps_get_db.
  apply keeps_bind. set (ids := fst <$> _). pose proof (Hloop RotateHostCert ids (start_in o d) Hd) as H1.
  unfold keeps in H1 |- *. destruct (dispatch_each _ ids _) as [[r|x] w1]; [|done].
  unfold bind. set (cids := fst <$> _). specialize (Hloop RotateClientHostCert cids w1 H1). unfold keeps in Hloop.
  by destruct (dispatch_each _ cids _) as [[r2|x] w2].
Qed.

Lemma kept_sweep_tokens `{Known} ret_s now : kept (sweep_enrollment_tokens_task ret_s now).
Proof.
  start_keeps d Hd. unfold sweep_enrollment_tokens_task, delete_dead_tokens. keeps_go.
  by apply inv_delete_tokens.
Qed.
