(* ===== verification/KeepsRegistry.v ===== *)
(** * The registry programs keep the invariant

    The program logic of [Keeps.v] applied to what works on operators,
    memberships and certificates: the certificate endpoints and commands, the
    administration commands and the authentication middleware. *)

From Stdlib Require Import QArith.
From S2P Require Import Prelude PyStr Hashing Models Session Demo AuditLog TenantScope RouterServers RouterClients RouterTenants Auth Pki RouterCerts CliCerts Cli Invariant Keeps.
Open Scope Z_scope.

(** ** Rules *)

(** The world in which a new session opens. *)
Definition reopen (w : World) : World := mkWorld (committed w) (committed w) (queue w) (audit_log w) (outside w).

Lemma keeps_session `{Known} {A} (m : M A) w (Q : A -> World -> Prop) :
  keeps m (reopen w) (fun a w' => Q a (reopen w')) -> keeps (with_session m) w Q.
Proof. unfold keeps, with_session. fold (reopen w). by destruct (m (reopen w)) as [[a|e] w']. Qed.

Lemma keeps_calm `{Known} {A} (m : M A) w (Q : A -> World -> Prop) :
  calm m -> db_inv (committed w) ->
  (forall a q l o, Q a (mkWorld (committed w) (view w) q l o)) -> keeps m w Q.
Proof.
  intros Hm Hi HQ. unfold keeps. destruct (m w) as [[a|e] [c v q l o]] eqn:E; apply Hm in E as (Hc & Hv & _ & _);
    simpl in *; subst; [by apply HQ|done].
Qed.

Lemma keeps_revoke_leaf `{Known} `{PKIBackend} n w (Q : unit -> World -> Prop) :
  db_inv (committed w) -> (forall q l o, Q tt (mkWorld (committed w) (view w) q l o)) -> keeps (revoke_leaf n) w Q.
Proof. intros Hi HQ. unfold keeps, revoke_leaf. by destruct (pki_revoke _ _). Qed.

Lemma keeps_conseq `{Known} {A} (m : M A) w (Q Q' : A -> World -> Prop) :
  keeps m w Q -> (forall a w', Q a w' -> Q' a w') -> keeps m w Q'.
Proof. unfold keeps. destruct (m w) as [[a|e] w']; auto. Qed.

Lemma keeps_certificate `{Known} row w (Q : Z * Certificate -> World -> Prop) :
  db_inv (committed w) -> db_inv (view w) -> tenant_ok (view w) (crt_tenant_id row) ->
  (forall k, crt_operator_id row = Some k -> is_Some (rows (operators (view w)) !! k)) ->
  (forall r w', view w' = committed w' -> db_inv (committed w') ->
     operators (committed w') = operators (view w) -> Q r w') ->
  keeps (insert_certificate row) w Q.
Proof.
  intros Hc Hv Ht Ho HQ. unfold keeps. rewrite insert_certificate_eq.
  destruct (serial_free (crt_serial row) (view w)) eqn:E; [|done]. cbv zeta. apply HQ; [done| |done].
  apply inv_insert_certificate; [done..|]. by apply serial_free_spec.
Qed.

Lemma keeps_operator `{Known} row w (Q : Z * Operator -> World -> Prop) :
  db_inv (committed w) -> db_inv (view w) -> tenant_ok (view w) (op_tenant_id row) ->
  (forall r w', db_inv (committed w') -> Q r w') -> keeps (insert_operator row) w Q.
Proof.
  intros Hc Hv Ht HQ. unfold keeps, insert_operator, bind, get_db, flush_checked, modify_db, commit.
  destruct (cn_free (op_cn row) (view w)) eqn:E; [|done]. apply HQ. simpl.
  apply inv_insert_operator; [done..|]. unfold cn_free in E. bool_to_prop. by apply find_operator_None.
Qed.

Ltac registry_step :=
  lazymatch goal with
  | |- keeps (with_session _) _ _ => apply keeps_session; cbn [reopen view committed]
  | |- keeps (issue_leaf _ _ _ _) _ _ => apply keeps_calm; [auto with wg|try assumption|intros]
  | |- keeps (log _) _ _ => apply keeps_calm; [by intros ? ? ? [= <- <-]|try assumption|intros]
  | |- keeps (revoke_leaf _) _ _ => apply keeps_revoke_leaf; [try assumption|intros]
  | |- keeps (RequireAdmin _) _ _ => apply keeps_calm; [auto with wg|try assumption|intros]
  | |- keeps (dashboard_bundle _ _ _ _) _ _ => apply keeps_calm; [auto with wg|try assumption|intros]
  | |- keeps (write_bytes _ _ _) _ _ => apply keeps_calm; [auto with wg|try assumption|intros]
  | |- keeps (write_outputs _ _ _ _) _ _ => apply keeps_calm; [apply calm_write_outputs|try assumption|intros]
  | |- _ => keeps_step
  end; cbn [view committed queue audit_log reopen] in *.
Ltac registry_go := repeat registry_step.

(** A program that keeps the invariant in every world with an open session,
    whatever was issued, revoked and written to disk before. *)
Definition kept_anywhere `{Known} {A} (m : M A) : Prop := forall d q l o, db_inv d ->
  keeps m (mkWorld d d q l o) (fun _ w' => db_inv (committed w')).

Lemma kept_anywhere_session `{Known} {A} (m : M A) : kept_anywhere m -> kept_anywhere (with_session m).
Proof.
  intros Hm d q l o Hd. apply keeps_session. specialize (Hm d q l o Hd). unfold keeps in *. cbn [reopen] in *.
  by destruct (m _) as [[a|e] w'].
Qed.

Lemma kept_anywhere_then `{Known} {A} (m : M A) : kept_anywhere m -> kept_anywhere (m ;; ret tt).
Proof.
  intros Hm d q l o Hd. apply keeps_bind. specialize (Hm d q l o Hd). unfold keeps in *.
  by destruct (m _) as [[a|e] w'].
Qed.

Section certificates.
Context `{Known} `{Dumps} `{PKIBackend}
  (pkcs12 : string -> string -> string -> option string -> option string -> outcome bytes) (now : Z).

Lemma operator_ref d cn o : find_operator d cn = Some o -> is_Some (rows (operators d) !! o.1).
Proof. destruct o as [i o]. intros [Hi _]%find_operator_Some. by eexists. Qed.
Lemma tenant_ref d p t : find_tenant d p = Some t -> is_Some (rows (tenants d) !! t.1).
Proof. destruct t as [i t]. intros [Hi _]%tbl_first_Some. by eexists. Qed.

(** An insertion whose references were looked up, or copied from a row. *)
Ltac certificate_ok :=
  apply keeps_certificate; cbn [crt_tenant_id crt_operator_id];
  [assumption|assumption
  |intros ? ?; simplify_eq; eauto using tenant_ref
  |intros ? ?; simplify_eq; eauto using operator_ref, refers_row, inv_cert_operator
  |intros; registry_go].

Lemma kept_issue_cert p op : kept_anywhere (issue_cert pkcs12 now p op).
Proof.
  intros d q l o Hd. unfold issue_cert, resolve_operator_fk, bind_tenant, mint_leaf. registry_go.
  all: certificate_ok.
Qed.

Lemma kept_renew_cert cert_id op : kept_anywhere (renew_cert pkcs12 now cert_id op).
Proof. intros d q l o Hd. unfold renew_cert, mint_leaf. registry_go. certificate_ok. Qed.

Lemma kept_revoke_cert cert_id a op : kept_anywhere (revoke_cert now cert_id a op).
Proof.
  intros d q l o Hd. unfold revoke_cert. registry_go; [done|]. apply inv_insert_audit; [by eapply inv_set_certificate|].
  intros k Hk. simpl in *. eapply (refers_row _ _ _ _ _ _ (inv_cert_tenant d Hd)); [done|congruence].
Qed.

Lemma kept_certs_issue a : kept_anywhere (certs_issue pkcs12 now a).
Proof.
  intros d q l o Hd. unfold certs_issue, cli_operator_id, cli_tenant_id. registry_go.
  all: certificate_ok.
Qed.

Lemma kept_certs_revoke n : kept_anywhere (certs_revoke now n).
Proof.
  intros d q l o Hd. unfold certs_revoke. registry_go.
  match goal with E : find_certificate _ _ = Some ?r |- _ => destruct r as [i row]; apply tbl_first_Some in E as [E _] end.
  by eapply inv_set_certificate.
Qed.

(** One renewal, successful or not, leaves a consistent database and the
    operators alone. *)
Lemma renew_row_consistent oc ok och r w : view w = committed w -> db_inv (committed w) ->
  (forall k, crt_operator_id r.2 = Some k -> is_Some (rows (operators (committed w)) !! k)) ->
  let w' := (renew_row now oc ok och r w).2 in
  view w' = committed w' /\ db_inv (committed w') /\ operators (committed w') = operators (committed w).
Proof.
  destruct r as [id row], w as [c v q l o]. simpl. intros -> Hd Ho. unfold renew_row.
  destruct (resolve_paths oc ok och row) as [[[cp kp] chp]|]; [|done].
  unfold some_or_raise, write_triple, write_pem, write_bytes, issue_leaf, bind, ret.
  destruct (pki_issue _ _ _ _ _) as [cert|e]; [|done]. cbn [committed view queue audit_log outside].
  rewrite insert_certificate_eq. cbn [view crt_serial].
  destruct (serial_free (dec (cert_serial cert)) c) eqn:E; [|done]. simpl. split_and!; [done| |done].
  apply inv_insert_certificate; [done|done|done|]. by apply serial_free_spec.
Qed.

Lemma renew_each_consistent rs w : view w = committed w -> db_inv (committed w) ->
  (forall r k, r ∈ rs -> crt_operator_id r.2 = Some k -> is_Some (rows (operators (committed w)) !! k)) ->
  db_inv (committed (renew_each now rs w).2).
Proof.
  revert w. induction rs as [|r rs IH]; intros w Hv Hd Ho; [done|]. cbn [renew_each].
  pose proof (renew_row_consistent None None None r w Hv Hd ltac:(intros k; apply Ho; by left)) as (Hv' & Hd' & Ho').
  unfold bind at 1, catch_runtime, try_except, bind at 1.
  destruct (renew_row now None None None r w) as [[new|e] w1]; cbn [snd] in *.
  all: assert (Hrest : db_inv (committed (renew_each now rs w1).2))
    by (apply IH; [done..|]; intros r' k Hr; rewrite Ho'; apply Ho; by right).
  - unfold ret, bind. destruct (renew_each now rs w1) as [[rest|e] w2]; done.
  - destruct e; try done; unfold ret, bind; destruct (renew_each now rs w1) as [[rest|e'] w2]; done.
Qed.

Lemma due_rows_rows thr d r : r ∈ due_rows now thr d -> rows (certificates d) !! r.1 = Some r.2.
Proof.
  unfold due_rows, drop_superseded, live_certificates.
  intros [[[Hr _]%filter_In _]%filter_In _]%list_elem_of_In%filter_In. destruct r.
  by apply list_elem_of_In, rows_by_id_elem in Hr.
Qed.

(** A program that ends consistent whatever its outcome. *)
Lemma keeps_snd {A} (m : M A) w (Q : A -> World -> Prop) :
  db_inv (committed (m w).2) -> (forall a w', db_inv (committed w') -> Q a w') -> keeps m w Q.
Proof. intros Hm HQ. unfold keeps. destruct (m w) as [[a|e] w']; auto. Qed.

Lemma kept_certs_renew a : kept_anywhere (certs_renew now a).
Proof.
  intros d q l o Hd. unfold certs_renew. registry_go. all: try done.
  - apply keeps_snd; [|done]. unfold catch_runtime, try_except.
    match goal with |- context [renew_row now ?x ?y ?z ?r ?w] =>
      pose proof (renew_row_consistent x y z r w eq_refl Hd
        ltac:(intros k; by eapply (inv_cert_operator d Hd))) as (_ & Hr & _);
      destruct (renew_row now x y z r w) as [[new|e] w1] end; [done|by destruct e].
  - apply keeps_snd; [|done]. apply renew_each_consistent; [done..|]. intros r k Hr Hk.
    eapply (refers_row _ _ _ _ _ _ (inv_cert_operator d Hd)); [|done]. apply (due_rows_rows (ra_threshold_pct a)).
    match goal with E : due_rows _ _ _ = _ |- _ => by rewrite E end.
Qed.

Lemma kept_cert_op c : kept_anywhere (CliCerts.perform pkcs12 now c).
Proof.
  destruct c; cbn [CliCerts.perform];
    first [apply kept_certs_revoke | apply kept_anywhere_session, kept_anywhere_then | apply kept_anywhere_then];
    first [apply kept_issue_cert|apply kept_renew_cert|apply kept_revoke_cert|apply kept_certs_issue|apply kept_certs_renew].
Qed.
End certificates.

(** ** Administration *)

Section admin.
Context `{Known} (now : Z) (exc : string).

Lemma kept_operators_add cn role name : kept_anywhere (operators_add now cn role name).
Proof.
  intros d q l o Hd. unfold operators_add. registry_go. by apply keeps_operator.
Qed.

Lemma calm_cli_overlap pool others : calm (cli_pool_overlap pool others).
Proof. induction others as [|[i t] rest IH]; cbn [cli_pool_overlap]; solve_calm. Qed.

Lemma kept_tenants_create name slug pool : kept_anywhere (tenants_create now exc name slug pool).
Proof.
  intros d q l o Hd. unfold tenants_create. registry_go.
  1: apply keeps_calm; [apply calm_cli_overlap|done|intros; registry_go].
  all: apply inv_insert_tenant; [done|]; intros i t Ht; simpl; split;
    match goal with Hs : find_tenant _ _ = None |- _ =>
      pose proof (find_tenant_None _ _ Hs i t Ht) as Hf; simpl in Hf; bool_to_prop; done end.
Qed.

Lemma kept_operators_attach cn t role : kept_anywhere (operators_attach_tenant now cn t role).
Proof.
  intros d q l o Hd. unfold operators_attach_tenant, lookup_operator, lookup_tenant. registry_go.
  by eapply inv_attach.
Qed.

Lemma kept_operators_detach cn t : kept_anywhere (operators_detach_tenant cn t).
Proof.
  intros d q l o Hd. unfold operators_detach_tenant, lookup_operator, lookup_tenant. registry_go.
  by apply inv_delete_join.
Qed.
End admin.

(** ** Authentication *)

Section auth.
Context `{Known} (load_pem : string -> option x509_cert) (cfg : auth_settings) (now : Z) (faults : db_faults).

(** Resolving an operator may register the bootstrap operator. *)
Lemma keeps_resolve_operator s d q l o (Q : option (Z * Operator) -> World -> Prop) : db_inv d ->
  (forall r d', db_inv d' -> Q r (mkWorld d' d' q l o)) ->
  keeps (resolve_operator cfg now faults id s) (mkWorld d d q l o) Q.
Proof.
  intros Hd HQ. unfold resolve_operator. registry_go; [by apply HQ|].
  unfold keeps. rewrite maybe_bootstrap_eq. destruct (bootstrap_row cfg now _) as [row|] eqn:E; [|by apply HQ].
  cbv zeta. destruct (cn_free _ _) eqn:Ef; [|by apply HQ]. apply HQ. simpl.
  unfold bootstrap_row in E. destruct (auth_bootstrap_operator_cn cfg); [|done].
  destruct (OperatorRole_of _); [|done]. case_match; simplify_eq. apply inv_insert_operator; [done|done|]. simpl.
  unfold cn_free in Ef. bool_to_prop. by apply find_operator_None.
Qed.

Lemma kept_authenticate rq : kept_anywhere (authenticate load_pem cfg now faults id rq).
Proof.
  intros d q l o Hd. unfold authenticate, reject_auth, emit. registry_go; try done.
  apply keeps_resolve_operator; [done|]. intros r d' Hd'. unfold serial_is_revoked, resolve_tenant_set.
  registry_go; done.
Qed.
End auth.
