(* ===== verification/Evidence.v ===== *)
(** * Evidence packs

    [src/src/wg_manager/evidence.py] and the [evidence pack] command of
    [cli.py]: the dumps of the audit log and the registries, the slice of
    Vault's audit log with its integrity report, and the assembly of the pack
    with its manifest and checksums.  The Vault log may hold any JSON and any
    ISO 8601 time, so [json.loads] and [datetime.fromisoformat] are parameters
    here; so is the archive format ([tar_gz]). *)

From Stdlib Require Import Sorted.
From stdpp Require sorting.
From S2P Require Import Prelude PyStr Hashing Json IsoTime Models Session Demo Wireguard RouterClients RouterTenants AuditLog Crypto CliCerts Backup.

(** ** Dumps *)

Definition PACK_VERSION : Z := 1.

Definition jdate (t : Z) : json := JStr (isoformat t).
Definition jodate (t : option Z) : json := from_option jdate JNull t.

Definition day : Z := 86400 * 1000000.

Definition ts_le (x y : Z * AuditEvent) : Prop := ev_ts x.2 <= ev_ts y.2.
#[global] Instance ts_le_dec : RelDecision ts_le.
Proof. intros x y. unfold ts_le. apply _. Defined.
#[global] Instance ts_le_total : Total ts_le.
Proof. intros x y. unfold ts_le. lia. Qed.
#[global] Instance ts_le_trans : Transitive ts_le.
Proof. intros x y z. unfold ts_le. lia. Qed.

(** [_utcnow() - timedelta(days=since_days)] *)
Definition threshold (now since_days : Z) : outcome Z :=
  let t := now - since_days * day in if representable t then Ok t else Raise OverflowError.

(** [WHERE ts >= threshold ORDER BY ts]; rows of the same instant, which the
    query leaves in any order, in the order of their ids. *)
Definition recent_events (since : Z) (d : DB) : list (Z * AuditEvent) :=
  sorting.merge_sort ts_le (List.filter (fun r => since <=? ev_ts r.2) (rows_by_id (audit_events d))).

Definition event_json (r : Z * AuditEvent) : json :=
  JObj [("id", JInt r.1); ("ts", jdate (ev_ts r.2)); ("event", JStr (ev_event r.2)); ("actor_cn", jopt (ev_actor_cn r.2));
        ("actor_role", jopt (ev_actor_role r.2)); ("resource_type", JStr (ev_resource_type r.2));
        ("resource_id", jopt_int (ev_resource_id r.2)); ("action", JStr (ev_action r.2));
        ("before_hash", jopt (ev_before_hash r.2)); ("after_hash", jopt (ev_after_hash r.2));
        ("request_id", jopt (ev_request_id r.2)); ("payload", jopt (ev_payload r.2))].

Definition audit_dump (now since_days : Z) (rows : list (Z * AuditEvent)) : json :=
  JObj [("since_days", JInt since_days); ("generated_at", jdate now); ("row_count", JInt (Z.of_nat (length rows)));
        ("rows", JList (event_json <$> rows))].

Definition dump_audit_events (now since_days : Z) (d : DB) : outcome json :=
  match threshold now since_days with
  | Ok since => Ok (audit_dump now since_days (recent_events since d))
  | Raise e => Raise e
  end.

Definition certificate_json (r : Z * Certificate) : json :=
  JObj [("id", JInt r.1); ("serial", JStr (crt_serial r.2)); ("cert_type", JStr (CertificateType_value (crt_type r.2)));
        ("common_name", JStr (crt_common_name r.2)); ("sans", JStr (crt_sans r.2));
        ("operator_id", jopt_int (crt_operator_id r.2)); ("not_before", jdate (crt_not_before r.2));
        ("not_after", jdate (crt_not_after r.2)); ("revoked", JBool (crt_revoked r.2));
        ("revoked_at", jodate (crt_revoked_at r.2)); ("created_at", jdate (crt_created_at r.2));
        ("out_cert_path", jopt (crt_out_cert_path r.2)); ("out_key_path", jopt (crt_out_key_path r.2));
        ("out_chain_path", jopt (crt_out_chain_path r.2))].

Definition dump_certificates (now : Z) (d : DB) : json :=
  let rows := rows_by_id (certificates d) in
  JObj [("generated_at", jdate now); ("row_count", JInt (Z.of_nat (length rows))); ("rows", JList (certificate_json <$> rows))].

Definition operator_json (r : Z * Operator) : json :=
  JObj [("id", JInt r.1); ("cn", JStr (op_cn r.2)); ("role", JStr (OperatorRole_value (op_role r.2)));
        ("status", JStr (OperatorStatus_value (op_status r.2)));
        ("created_at", jdate (op_created_at r.2))].

Definition dump_operators (now : Z) (d : DB) : json :=
  let rows := rows_by_id (operators d) in
  JObj [("generated_at", jdate now); ("row_count", JInt (Z.of_nat (length rows))); ("rows", JList (operator_json <$> rows))].

(** ** The Vault audit log *)

(** What [datetime.fromisoformat] returns: an instant with its offset, or a
    naive time. *)
Inductive parsed_time := Aware (t : Z) | Naive (t : Z).

Fixpoint replace_char (c : ascii) (by_ s : string) : string :=
  match s with
  | "" => ""
  | String x s' => if ceqb x c then by_ +:+ replace_char c by_ s' else String x (replace_char c by_ s')
  end.

Record slice_state := mkSlice {
  kept_lines : list string; request_ids : gmap string Z; malformed : Z; missing_time : Z; total : Z
}.
Definition empty_slice : slice_state := mkSlice [] ∅ 0 0 0.

(** [_maybe_track_request_id] *)
Definition maybe_track_request_id (record : list (string * json)) (counter : gmap string Z) : gmap string Z :=
  match dict_get "request" record with
  | Some (JObj req) =>
      match dict_get "id" req with
      | Some (JStr rid) => if nonempty rid then <[rid := default 0 (counter !! rid) + 1]> counter else counter
      | _ => counter
      end
  | _ => counter
  end.

Section vault_log.
Context (loads : string -> option json) (parse_time : string -> option parsed_time) (now since_days : Z).

(** The body of the loop on one line. *)
Definition slice_line (since : Z) (s : slice_state) (raw : string) : outcome slice_state :=
  if negb (nonempty (strip raw)) then Ok s
  else
    let total' := total s + 1 in
    match loads raw with
    | None => Ok (mkSlice (kept_lines s) (request_ids s) (malformed s + 1) (missing_time s) total')
    | Some (JObj record) =>
        let untimed := Ok (mkSlice (kept_lines s) (request_ids s) (malformed s) (missing_time s + 1) total') in
        match dict_get "time" record with
        | Some (JStr time_str) =>
            match parse_time (replace_char "Z" "+00:00" time_str) with
            | None => untimed
            | Some (Naive _) => Raise (TypeError "can't compare offset-naive and offset-aware datetimes")
            | Some (Aware line_time) =>
                let ids := maybe_track_request_id record (request_ids s) in
                Ok (mkSlice (if line_time <? since then kept_lines s else kept_lines s ++ [raw])
                      ids (malformed s) (missing_time s) total')
            end
        | _ => untimed
        end
    | Some _ => Raise (AttributeError "get")
    end.

Fixpoint slice_lines (since : Z) (s : slice_state) (lines : list string) : outcome slice_state :=
  match lines with
  | [] => Ok s
  | raw :: lines' => match slice_line since s raw with Ok s' => slice_lines since s' lines' | Raise e => Raise e end
  end.

Definition unpaired (ids : gmap string Z) : Z :=
  Z.of_nat (length (List.filter (fun kv => negb (kv.2 mod 2 =? 0)) (map_to_list ids))).

Definition slice_ok (s : slice_state) : bool := (malformed s =? 0) && (missing_time s =? 0) && (unpaired (request_ids s) =? 0).

Definition METHOD : string := "structural: per-line JSON parseability + ``time`` field presence + request/response ``request.id`` pairing. Vault does NOT ship cryptographic chain across records.".

Definition missing_report (path : string) : json :=
  JObj [("ok", JBool false); ("reason", JStr ("missing: vault audit log file not found at the configured path (" +:+ path +:+ ")"));
        ("method", JStr "structural"); ("lines", JInt 0); ("malformed", JInt 0); ("unpaired", JInt 0); ("checked_at", jdate now)].

Definition slice_report (s : slice_state) : json :=
  JObj [("ok", JBool (slice_ok s)); ("method", JStr METHOD); ("lines", JInt (total s));
        ("kept_lines", JInt (Z.of_nat (length (kept_lines s)))); ("malformed", JInt (malformed s));
        ("missing_time", JInt (missing_time s)); ("unpaired", JInt (unpaired (request_ids s))); ("checked_at", jdate now)].

(** [text] is the decoded file, if it exists. *)
Definition slice_vault_audit_log (path : string) (text : option string) : outcome (string * json) :=
  match text with
  | None => Ok ("", missing_report path)
  | Some text =>
      match threshold now since_days with
      | Raise e => Raise e
      | Ok since =>
          match slice_lines since empty_slice (splitlines text) with
          | Raise e => Raise e
          | Ok s => Ok (join nl (kept_lines s), slice_report s)
          end
      end
  end.
End vault_log.

(** ** System information *)

(** Version lookup, [git rev-parse] (exit status and output, [None] when it
    cannot run or times out) and the migrations directory. *)
Record system_env := mkSystemEnv {
  se_version : option string; se_git : option (Z * string); se_migrations : option (list string)
}.

Definition wg_manager_version (e : system_env) : string := default "unknown" (se_version e).

Definition git_commit (e : system_env) : string :=
  match se_git e with Some (0, out) => strip out | _ => "unknown" end.

(** The stem of the last file of [*.py] in name order. *)
Definition stem (name : string) : string :=
  if String.eqb name ".py" then name else String.substring 0 (String.length name - 3) name.
Definition str_le (x y : string) : Prop := str_leb x y = true.
#[global] Instance str_le_dec : RelDecision str_le.
Proof. intros x y. unfold str_le. apply _. Defined.
Definition alembic_head (e : system_env) : string :=
  match se_migrations e with
  | Some files => match last (sorting.merge_sort str_le files) with Some f => stem f | None => "unknown" end
  | None => "unknown"
  end.

Definition collect_system_info (e : system_env) (now since_days : Z) : json :=
  JObj [("generated_at", jdate now); ("since_days", JInt since_days); ("wg_manager_version", JStr (wg_manager_version e));
        ("git_commit", JStr (git_commit e)); ("alembic_head", JStr (alembic_head e)); ("pack_version", JInt PACK_VERSION)].

(** ** The pack *)

(** A file of the pack. *)
Notation pack_file := (string * bytes)%type.

(** Text with characters above U+00FF, as the bytes of its UTF-8 encoding. *)
Definition raw (s : string) : bytes := str_bytes s.

Definition ARTIFACT_DESCRIPTIONS : list (string * bytes) :=
  [("audit_events.json", raw "Application mutation audit log from the MySQL ``auditevent`` table, filtered to the last N days. One row per create/update/delete/revoke/rotate event on a managed resource (server / client / sshkey / certificate / crypto).");
   ("certificates.json", raw "Full ``certificate`` table dump (live + revoked). Each row carries serial / CN / SANs / type / validity window / revocation flag — no PEM material.");
   ("operators.json", raw "Full ``operator`` registry dump (active + disabled). One row per registered admin / operator / auditor.");
   ("vault_audit.log", raw "Vault audit log file (default ``/vault/logs/audit.log``) sliced to the last N days by parsing each line's ``time`` field. One JSON object per line, same shape Vault writes.");
   ("vault_audit_integrity.json", raw "Structural integrity report over the included Vault audit log slice. Vault does NOT ship cryptographic chain across records — this report counts lines, malformed JSON, missing ``time`` fields, and unpaired request/response records.");
   ("system.json", raw "Deployment context: wg-manager version, git commit, alembic head revision, the since-days window applied to the time-filtered files.");
   ("MANIFEST.md", raw "This file — operator-facing index of the pack.");
   ("SHA256SUMS", raw "GNU coreutils-shape SHA-256 line per other file. Verify with ``sha256sum -c SHA256SUMS`` after extraction.")].

(** [_build_manifest(...).encode("utf-8")] *)
Definition build_manifest (files : list pack_file) (since_days : Z) (dir_name : string) : bytes :=
  let listed name := bool_decide (name ∈ files.*1) || bool_decide (name ∈ ["MANIFEST.md"; "SHA256SUMS"]) in
  let lines :=
    [raw "# Evidence pack — " ++ utf8 dir_name; [];
     raw "SOC 2-style evidence pack generated by `wg-manager evidence pack`.";
     raw "Last " ++ raw (dec since_days) ++ raw " days of audit events; full cert + operator inventory.";
     []; raw "## Files"; []]
    ++ ((fun nd => raw "- **`" ++ raw nd.1 ++ raw "`** — " ++ nd.2) <$> List.filter (fun nd => listed nd.1) ARTIFACT_DESCRIPTIONS)
    ++ [[]; raw "## Verification"; []; raw "After extracting, verify the contents have not been tampered with:"; [];
        raw "```bash"; raw "cd " ++ utf8 dir_name; raw "sha256sum -c SHA256SUMS"; raw "```"; [];
        raw "Every entry should report `OK`. A mismatch means the pack was modified after generation."; [];
        raw "## Vault audit-log integrity scope"; [];
        raw "`vault_audit_integrity.json` reports **structural** integrity only (per-line JSON parseability, `time` field presence, request/response `request.id` pairing). Vault does not ship a cryptographic chain across audit records — see [`docs/runbooks/backup-restore.md`](../docs/runbooks/backup-restore.md) and [`docs/vault-cookbook.md`](../docs/vault-cookbook.md) §6 for the operator-side guarantees you actually have."] in
  concat ((fun l => l ++ raw nl) <$> lines).

Definition sum_line (f : pack_file) : string := hex_bytes (sha256 f.2) +:+ "  " +:+ f.1.

Definition build_sha256sums (files : list pack_file) : string :=
  join nl (sum_line <$> List.filter (fun f => negb (String.eqb f.1 "SHA256SUMS")) (sort_items files)) +:+ nl.

(** [strftime("%Y%m%dT%H%M%SZ")] *)
Definition default_pack_dir_name (now : Z) : string :=
  let s := now / 1000000 in
  let '(y, m, d) := civil_from_days (s / 86400) in
  let sec := s mod 86400 in
  "evidence-pack-" +:+ pad 4 y +:+ pad 2 m +:+ pad 2 d +:+ "T" +:+ pad 2 (sec / 3600) +:+ pad 2 (sec / 60 mod 60) +:+
  pad 2 (sec mod 60) +:+ "Z".

Definition core_files (audit certs ops : json) (sliced_log : string) (integrity system : json) : list pack_file :=
  [("audit_events.json", utf8 (json_pretty audit)); ("certificates.json", utf8 (json_pretty certs));
   ("operators.json", utf8 (json_pretty ops)); ("vault_audit.log", utf8 sliced_log);
   ("vault_audit_integrity.json", utf8 (json_pretty integrity)); ("system.json", utf8 (json_pretty system))].

(** The manifest, then the checksums, on top of the core files. *)
Definition pack_files (core : list pack_file) (since_days : Z) (dir_name : string) : list pack_file :=
  let files := core ++ [("MANIFEST.md", build_manifest core since_days dir_name)] in
  files ++ [("SHA256SUMS", utf8 (build_sha256sums files))].

Section pack.
(** [tar_gz mtime members]: a gzipped tar with these members, in order. *)
Context (loads : string -> option json) (parse_time : string -> option parsed_time)
  (tar_gz : Z -> list pack_file -> string) (env : system_env) (now : Z).

Definition file_text (path : string) : M (option string) := fun w => (Ok (fst <$> files (outside w) !! path), w).

Definition build_pack (output : string) (since_days : Z) (vault_audit_log : string) (pack_dir_name : option string) : M unit :=
  let dir_name := match pack_dir_name with Some n => if nonempty n then n else default_pack_dir_name now | None => default_pack_dir_name now end in
  d <- get_db ;;
  audit <- lift (dump_audit_events now since_days d) ;;
  text <- file_text vault_audit_log ;;
  sliced <- lift (slice_vault_audit_log loads parse_time now since_days vault_audit_log text) ;;
  let core := core_files audit (dump_certificates now d) (dump_operators now d) sliced.1 sliced.2
                (collect_system_info env now since_days) in
  let members := (fun f => (dir_name +:+ "/" +:+ f.1, f.2)) <$> pack_files core since_days dir_name in
  write_text output (tar_gz (now / 1000000) members).

(** [wg-manager evidence pack] *)
Definition evidence_pack (output : string) (since_days : Z) (vault_audit_log : string) : M unit :=
  with_session (build_pack output since_days vault_audit_log None).
End pack.

(** ** What the slice keeps and counts *)

(** What a line of the log is, told from the line alone. *)
Inductive line_class :=
| Blank | Unparsable | Untimed | Timed (t : Z) (rid : option string) | Crashing (e : exn).

Section classes.
Context (loads : string -> option json) (parse_time : string -> option parsed_time).

(** The id that pairs a request with its response. *)
Definition request_id (record : list (string * json)) : option string :=
  match dict_get "request" record with
  | Some (JObj req) => match dict_get "id" req with Some (JStr rid) => if nonempty rid then Some rid else None | _ => None end
  | _ => None
  end.

Definition classify (line : string) : line_class :=
  if negb (nonempty (strip line)) then Blank
  else match loads line with
  | None => Unparsable
  | Some (JObj record) =>
      match dict_get "time" record with
      | Some (JStr time_str) =>
          match parse_time (replace_char "Z" "+00:00" time_str) with
          | Some (Aware t) => Timed t (request_id record)
          | Some (Naive _) => Crashing (TypeError "can't compare offset-naive and offset-aware datetimes")
          | None => Untimed
          end
      | _ => Untimed
      end
  | Some _ => Crashing (AttributeError "get")
  end.

Definition in_window (since : Z) (line : string) : bool := match classify line with Timed t _ => since <=? t | _ => false end.
Definition before_window (since : Z) (line : string) : bool := match classify line with Timed t _ => t <? since | _ => false end.
Definition is_class (c : line_class -> bool) (line : string) : bool := c (classify line).
Definition carries_id (rid : string) (c : line_class) : bool :=
  match c with Timed _ (Some r) => String.eqb r rid | _ => false end.

Definition count (p : string -> bool) (lines : list string) : Z := Z.of_nat (length (List.filter p lines)).

Definition first_crash (lines : list string) : option exn :=
  head (omap (fun line => match classify line with Crashing e => Some e | _ => None end) lines).

Lemma count_cons p x l : count p (x :: l) = (if p x then 1 else 0) + count p l.
Proof. unfold count. simpl. destruct (p x); simpl length; lia. Qed.

Lemma count_class c x l : count (is_class c) (x :: l) = (if c (classify x) then 1 else 0) + count (is_class c) l.
Proof. apply count_cons. Qed.

Lemma track_request_id record ids rid :
  default 0 (maybe_track_request_id record ids !! rid) =
  default 0 (ids !! rid) + (match request_id record with Some r => if String.eqb r rid then 1 else 0 | None => 0 end).
Proof.
  unfold maybe_track_request_id, request_id.
  destruct (dict_get "request" record) as [[| | | | |req]|]; try lia.
  destruct (dict_get "id" req) as [[| | |r| |]|]; try lia. destruct (nonempty r); [|lia].
  destruct (String.eqb_spec r rid) as [->|Hn].
  - rewrite lookup_insert_eq. simpl. lia.
  - rewrite lookup_insert_ne by done. lia.
Qed.

Definition is_unparsable (c : line_class) : bool := match c with Unparsable => true | _ => false end.
Definition is_untimed (c : line_class) : bool := match c with Untimed => true | _ => false end.
Definition is_entry (c : line_class) : bool := match c with Blank => false | _ => true end.

(** One line, by its class. *)
Lemma slice_line_class since s line :
  match classify line with
  | Crashing e => slice_line loads parse_time since s line = Raise e
  | c => exists ids, slice_line loads parse_time since s line =
           Ok (mkSlice (if in_window since line then kept_lines s ++ [line] else kept_lines s) ids
                 (malformed s + (if is_unparsable c then 1 else 0)) (missing_time s + (if is_untimed c then 1 else 0))
                 (total s + (if is_entry c then 1 else 0))) /\
         forall rid, default 0 (ids !! rid) = default 0 (request_ids s !! rid) + (if carries_id rid c then 1 else 0)
  end.
Proof.
  unfold in_window, classify, slice_line. destruct (negb (nonempty (strip line))).
  { exists (request_ids s). destruct s. cbn. rewrite !Z.add_0_r. split; [reflexivity|]. intros. lia. }
  destruct (loads line) as [[| | | | |record]|]; try reflexivity.
  2: { exists (request_ids s). cbn. rewrite Z.add_0_r. split; [reflexivity|]. intros. lia. }
  destruct (dict_get "time" record) as [[| | |ts| |]|];
    try (destruct (parse_time _) as [[t|t]|]; try reflexivity);
    try (exists (request_ids s); cbn; rewrite Z.add_0_r; split; [reflexivity|]; intros; lia).
  exists (maybe_track_request_id record (request_ids s)). cbn. rewrite !Z.add_0_r, Z.leb_antisym. split.
  - by destruct (t <? since).
  - intros rid. rewrite track_request_id. by destruct (request_id record).
Qed.

Lemma slice_lines_from since lines s :
  match first_crash lines with
  | Some e => slice_lines loads parse_time since s lines = Raise e
  | None => exists ids, slice_lines loads parse_time since s lines =
        Ok (mkSlice (kept_lines s ++ List.filter (in_window since) lines) ids (malformed s + count (is_class is_unparsable) lines)
              (missing_time s + count (is_class is_untimed) lines) (total s + count (is_class is_entry) lines)) /\
      forall rid, default 0 (ids !! rid) = default 0 (request_ids s !! rid) + count (is_class (carries_id rid)) lines
  end.
Proof.
  revert s. induction lines as [|x lines IH]; intros s.
  - cbn. exists (request_ids s). rewrite app_nil_r, !Z.add_0_r. split; [by destruct s|]. intros. unfold count. simpl. lia.
  - pose proof (slice_line_class since s x) as Hx. unfold first_crash in *. cbn [omap list_omap] in *. cbn [slice_lines].
    destruct (classify x) as [| | |t r|e] eqn:Ec; cbn [head]; [..|by rewrite Hx].
    all: destruct Hx as (ids & -> & Hids); specialize (IH (mkSlice (if in_window since x then kept_lines s ++ [x] else kept_lines s) ids
      (malformed s + (if is_unparsable (classify x) then 1 else 0)) (missing_time s + (if is_untimed (classify x) then 1 else 0))
      (total s + (if is_entry (classify x) then 1 else 0)))); rewrite Ec in IH; cbn [malformed missing_time total kept_lines request_ids] in IH.
    all: destruct (head _) as [e|]; [exact IH|]; destruct IH as (ids' & -> & Hids'); exists ids'; split.
    all: try (intros rid; rewrite Hids', Hids, count_class, Ec; lia).
    all: rewrite !count_class, Ec, !Z.add_assoc; cbn [List.filter];
      destruct (in_window since x); [rewrite <- app_assoc|]; reflexivity.
Qed.

(** Every entry is kept, too old, unparsable, untimed or fatal. *)
Lemma entries_accounted since lines : first_crash lines = None ->
  count (is_class is_entry) lines = Z.of_nat (length (List.filter (in_window since) lines)) + count (before_window since) lines +
    count (is_class is_unparsable) lines + count (is_class is_untimed) lines.
Proof.
  fold (count (in_window since) lines). unfold first_crash. induction lines as [|x lines IH]; [done|].
  cbn [omap list_omap]. rewrite !count_class, !count_cons. unfold in_window at 1, before_window at 1.
  destruct (classify x) as [| | |t r|e] eqn:Ec; cbn [is_entry is_unparsable is_untimed head]; [..|done];
    intros ?%IH; try lia. destruct (Z.leb_spec since t), (Z.ltb_spec t since); lia.
Qed.
End classes.

Lemma unpaired_zero ids : unpaired ids = 0 <-> forall rid, default 0 (ids !! rid) mod 2 = 0.
Proof.
  unfold unpaired. split.
  - intros H rid. destruct (ids !! rid) as [v|] eqn:Ei; [|done]. cbn [default].
    destruct (List.filter _ (map_to_list ids)) as [|kv l] eqn:El; [|simpl in H; lia].
    apply elem_of_map_to_list in Ei. destruct (Z.eqb_spec (v mod 2) 0) as [|Hn]; [done|].
    assert (Hin : (rid, v) ∈ List.filter (fun kv : string * Z => negb (kv.2 mod 2 =? 0)) (map_to_list ids)).
    { apply list_elem_of_In, filter_In. split; [by apply list_elem_of_In|]. cbn. apply negb_true_iff. by apply Z.eqb_neq. }
    rewrite El in Hin. by apply elem_of_nil in Hin.
  - intros H. destruct (List.filter _ (map_to_list ids)) as [|[k v] l] eqn:El; [done|exfalso].
    assert (Hin : In (k, v) (List.filter (fun kv : string * Z => negb (kv.2 mod 2 =? 0)) (map_to_list ids))) by (rewrite El; by left).
    apply filter_In in Hin as [Hin Hv]. apply list_elem_of_In, elem_of_map_to_list in Hin.
    specialize (H k). rewrite Hin in H. cbn in H, Hv. rewrite H in Hv. done.
Qed.

(** The slice of the Vault audit log is exact.  A line of the wrong shape
    (JSON that is no object, or a time without an offset) stops the pack.
    Otherwise the slice holds the lines of the window, in order and nothing
    else; every non-blank line is accounted for as kept, older, unparsable or
    untimed; and the report says [ok] exactly when no line is unparsable or
    untimed and every request id is on an even number of timed lines. *)
Theorem slice_is_exact loads parse_time now since_days since path text :
  threshold now since_days = Ok since ->
  let lines := splitlines text in
  let n c := count (is_class loads parse_time c) lines in
  match first_crash loads parse_time lines with
  | Some e => slice_vault_audit_log loads parse_time now since_days path (Some text) = Raise e
  | None => exists s,
      slice_vault_audit_log loads parse_time now since_days path (Some text) = Ok (join nl (kept_lines s), slice_report now s) /\
      kept_lines s = List.filter (in_window loads parse_time since) lines /\
      malformed s = n is_unparsable /\ missing_time s = n is_untimed /\
      total s = Z.of_nat (length (kept_lines s)) + count (before_window loads parse_time since) lines + malformed s + missing_time s /\
      (slice_ok s = true <-> n is_unparsable = 0 /\ n is_untimed = 0 /\ forall rid, n (carries_id rid) mod 2 = 0)
  end.
Proof.
  intros Hs lines n. subst n. unfold slice_vault_audit_log. rewrite Hs. fold lines.
  pose proof (slice_lines_from loads parse_time since lines empty_slice) as H.
  pose proof (entries_accounted loads parse_time since lines) as Ha.
  destruct (first_crash loads parse_time lines) as [e|]; [by rewrite H|].
  destruct H as (ids & -> & Hids). eexists. split; [reflexivity|]. cbn [kept_lines malformed missing_time total empty_slice app].
  rewrite !Z.add_0_l. split_and!; try done; [by apply Ha|].
  unfold slice_ok. cbn [malformed missing_time request_ids]. rewrite !andb_true_iff, !Z.eqb_eq, unpaired_zero.
  assert (Hr : (forall rid, default 0 (ids !! rid) mod 2 = 0) <->
               forall rid, count (is_class loads parse_time (carries_id rid)) lines mod 2 = 0).
  { split; intros Hr rid; specialize (Hr rid); rewrite Hids in *; exact Hr. }
  tauto.
Qed.

(** ** Checking a pack *)

(** [sha256sum -c SHA256SUMS] in a directory that holds [dir]: every line,
    digest, two spaces and name, names a file with that digest. *)
Definition sum_ok (dir : list pack_file) (line : string) : bool :=
  match split_on " " line with
  | digest :: "" :: name =>
      match dict_get (join " " name) dir with Some b => String.eqb digest (hex_bytes (sha256 b)) | None => false end
  | _ => false
  end.

Definition check_sums (dir : list pack_file) : bool :=
  match dict_get "SHA256SUMS" dir with
  | Some b =>
      match utf8_decode b with
      | Some text => forallb (sum_ok dir) (List.filter nonempty (split_on "010" text))
      | None => false
      end
  | None => false
  end.

(** The files below directory [d] of an extracted archive. *)
Definition extracted (d : string) (members : list pack_file) : list pack_file :=
  omap (fun m => name ← eat (d +:+ "/") m.1; Some (name, m.2)) members.

(** A file name that the checksum format can carry. *)
Definition clean (name : string) : bool := negb (char_in " " name) && negb (char_in "010" name).

Lemma hex_bytes_clean b : clean (hex_bytes b) = true.
Proof.
  unfold clean. rewrite andb_true_iff, !negb_true_iff. induction b as [|x b [IH1 IH2]]; [done|].
  cbn [hex_bytes]. rewrite !char_in_cons, IH1, IH2. by destruct x.
Qed.

Lemma sum_ok_line f dir : clean f.1 = true ->
  sum_ok dir (sum_line f) = true <-> exists b, dict_get f.1 dir = Some b /\ hex_bytes (sha256 b) = hex_bytes (sha256 f.2).
Proof.
  intros [H1 H2]%andb_true_iff. apply negb_true_iff in H1. pose proof (hex_bytes_clean (sha256 f.2)) as [Hh _]%andb_true_iff.
  apply negb_true_iff in Hh. unfold sum_ok, sum_line. set (digest := hex_bytes (sha256 f.2)) in *.
  change (digest +:+ "  " +:+ f.1) with (digest +:+ String " " ("" +:+ String " " f.1)).
  rewrite !split_on_app, split_on_none by done. cbn [join]. destruct (dict_get f.1 dir) as [b|].
  - rewrite String.eqb_eq. split; [intros ->; eauto|]. intros (b' & [= <-] & ->). done.
  - split; [done|]. by intros (b & ? & _).
Qed.

Lemma sum_line_nonempty f : nonempty (sum_line f) = true.
Proof. unfold sum_line. by destruct (hex_bytes (sha256 f.2)). Qed.

Lemma sum_line_one_line f : clean f.1 = true -> no_newline (sum_line f).
Proof.
  intros [_ H2%negb_true_iff]%andb_true_iff. pose proof (hex_bytes_clean (sha256 f.2)) as [_ Hh%negb_true_iff]%andb_true_iff.
  apply no_newline_app; [done|]. by apply no_newline_app.
Qed.

Lemma join_unlines ls : ls <> [] -> join nl ls +:+ nl = unlines ls.
Proof.
  induction ls as [|x ls IH]; [done|]. intros _. destruct ls as [|y ls]; [done|].
  change (join nl (x :: y :: ls)) with (x +:+ nl +:+ join nl (y :: ls)). rewrite !append_assoc, IH by done. done.
Qed.

(** A directory with the checksums of [files] passes exactly when it holds,
    for every one of them, a file of the same digest. *)
Lemma check_sums_spec files dir :
  files <> [] -> Forall (fun f => clean f.1 = true /\ f.1 <> "SHA256SUMS") files ->
  dict_get "SHA256SUMS" dir = Some (utf8 (build_sha256sums files)) ->
  check_sums dir = true <->
  forall f, f ∈ files -> exists b, dict_get f.1 dir = Some b /\ hex_bytes (sha256 b) = hex_bytes (sha256 f.2).
Proof.
  intros Hne Hf Hd. unfold check_sums. rewrite Hd, utf8_decode_encode. unfold build_sha256sums.
  pose proof (sort_items_self files) as Hp.
  assert (Hs : Forall (fun f => clean f.1 = true /\ f.1 <> "SHA256SUMS") (sort_items files)) by (by rewrite Hp).
  rewrite (filter_all _ (sort_items files)) by (eapply Forall_impl; [exact Hs|]; intros f [_ Hn]; apply negb_true_iff; by apply String.eqb_neq).
  rewrite join_unlines by (intros ?%fmap_nil_inv; rewrite H in Hp; by apply Permutation_nil in Hp).
  rewrite split_unlines by (apply Forall_fmap; eapply Forall_impl; [exact Hs|]; intros f [? _]; by apply sum_line_one_line).
  rewrite List.filter_app, (filter_all _ (sum_line <$> _)) by (apply Forall_fmap, Forall_true; intros; apply sum_line_nonempty).
  cbn [List.filter nonempty]. rewrite app_nil_r, forallb_forall. split.
  - intros H f Hin. assert (Hin' : f ∈ sort_items files) by (by rewrite Hp). rewrite Forall_forall in Hs.
    apply sum_ok_line; [by apply Hs|]. apply H. apply list_elem_of_In. by apply list_elem_of_fmap_2.
  - intros H line Hin. apply list_elem_of_In, list_elem_of_fmap in Hin as (f & -> & Hin). rewrite Forall_forall in Hs.
    apply sum_ok_line; [by apply Hs|]. apply H. by rewrite <- Hp.
Qed.

Lemma extracted_members d l : extracted d ((fun f => (d +:+ "/" +:+ f.1, f.2)) <$> l) = l.
Proof.
  unfold extracted. induction l as [|[n b] l IH]; [done|]. cbn [fmap list_fmap omap list_omap fst snd].
  rewrite <- append_assoc, eat_app. cbn [mbind option_bind]. f_equal. exact IH.
Qed.

Lemma write_text_Ok path body w r w' : write_text path body w = (r, w') ->
  fst <$> files (outside w') !! path = Some body /\ committed w' = committed w.
Proof. unfold write_text, write_bytes. intros [= _ <-]. cbn [outside files committed]. by rewrite lookup_insert_eq. Qed.

(** What a successful run leaves behind. *)
Lemma evidence_pack_Ok loads parse_time tar_gz env now output since_days log w w' :
  evidence_pack loads parse_time tar_gz env now output since_days log w = (Ok tt, w') ->
  let d := default_pack_dir_name now in
  exists since sliced,
    threshold now since_days = Ok since /\
    slice_vault_audit_log loads parse_time now since_days log (fst <$> files (outside w) !! log) = Ok sliced /\
    let core := core_files (audit_dump now since_days (recent_events since (committed w))) (dump_certificates now (committed w))
                  (dump_operators now (committed w)) sliced.1 sliced.2 (collect_system_info env now since_days) in
    fst <$> files (outside w') !! output =
      Some (tar_gz (now / 1000000) ((fun f => (d +:+ "/" +:+ f.1, f.2)) <$> pack_files core since_days d)) /\
    committed w' = committed w.
Proof.
  unfold evidence_pack, with_session. intros E.
  destruct (build_pack _ _ _ _ _ _ _ _ _ _) as [r w1] eqn:Eb. injection E as -> <-. unfold build_pack in Eb.
  apply bind_Ok in Eb as (d & wa & [= <- <-] & Eb). apply bind_Ok in Eb as (audit & wb & [Ha ->]%lift_Ok & Eb).
  unfold dump_audit_events in Ha. destruct (threshold now since_days) as [since|e] eqn:Et; [|done]. injection Ha as <-.
  apply bind_Ok in Eb as (text & wc & [= <- <-] & Eb). apply bind_Ok in Eb as (sliced & wd & [Hs ->]%lift_Ok & Eb).
  apply write_text_Ok in Eb as [Hf Hc]. exists since, sliced. exact (conj eq_refl (conj Hs (conj Hf Hc))).
Qed.

Definition ARTIFACTS : list string := ARTIFACT_DESCRIPTIONS.*1.

(** Checksums of [listed] beside its files: they pass, and nothing else does. *)
Definition tamper_evident (dir : list pack_file) : Prop :=
  forall dir' name b, dict_get "SHA256SUMS" dir' = dict_get "SHA256SUMS" dir -> check_sums dir' = true ->
    dict_get name dir = Some b -> name <> "SHA256SUMS" ->
    exists b', dict_get name dir' = Some b' /\ (b' = b \/ b' <> b /\ hex_bytes (sha256 b') = hex_bytes (sha256 b)).

Lemma sums_sound listed :
  listed <> [] -> NoDup listed.*1 -> Forall (fun f => clean f.1 = true /\ f.1 <> "SHA256SUMS") listed ->
  let dir := listed ++ [("SHA256SUMS", utf8 (build_sha256sums listed))] in
  check_sums dir = true /\ tamper_evident dir.
Proof.
  intros Hne Hnd Hl dir.
  assert (Hnd' : NoDup dir.*1).
  { unfold dir. rewrite fmap_app. apply NoDup_app. split_and!; [done| |apply NoDup_singleton].
    intros n Hn Hn'. apply list_elem_of_singleton in Hn'. apply list_elem_of_fmap in Hn as (f & -> & Hf).
    rewrite Forall_forall in Hl. by apply Hl in Hf as [_ Hf]. }
  assert (Hsum : dict_get "SHA256SUMS" dir = Some (utf8 (build_sha256sums listed))).
  { apply dict_get_elem; [exact Hnd'|]. apply elem_of_app. right. by apply list_elem_of_singleton. }
  split.
  - apply (check_sums_spec listed); [assumption..|]. intros f Hf. exists f.2. split; [|reflexivity].
    apply dict_get_elem; [exact Hnd'|]. destruct f. apply elem_of_app. by left.
  - intros dir' name b Hs Hc Hb Hn. rewrite Hsum in Hs. apply dict_get_Some, elem_of_app in Hb as [Hb|Hb].
    + destruct (proj1 (check_sums_spec listed dir' Hne Hl Hs) Hc _ Hb) as (b' & Hb' & Hh).
      exists b'. split; [exact Hb'|]. destruct (decide (b' = b)); [by left|by right].
    + apply list_elem_of_singleton in Hb. by injection Hb.
Qed.

Lemma pack_files_sound core since_days d : core.*1 = take 6 ARTIFACTS ->
  (pack_files core since_days d).*1 = ARTIFACTS /\ check_sums (pack_files core since_days d) = true /\
  tamper_evident (pack_files core since_days d).
Proof.
  intros Hcore. unfold pack_files. generalize (build_manifest core since_days d). intros m.
  assert (Hk : (core ++ [("MANIFEST.md", m)]).*1 = take 7 ARTIFACTS) by (by rewrite fmap_app, Hcore).
  split; [by rewrite fmap_app, Hk|]. apply sums_sound.
  - by destruct core.
  - rewrite Hk. apply (bool_decide_unpack _). vm_compute. exact I.
  - apply (Forall_fmap fst (fun n => clean n = true /\ n <> "SHA256SUMS")). rewrite Hk. repeat constructor; done.
Qed.

(** C38. A pack verifies and is tamper-evident.  After [evidence pack] the
    output is an archive of one directory with the eight described files, in
    which [sha256sum -c SHA256SUMS] passes.  And for every directory with the
    same [SHA256SUMS] in which it passes too, each of the other seven files is
    there with the same contents, unless two different contents with the same
    SHA-256 digest have been found.  The database is not changed. *)
Theorem pack_tamper_evident loads parse_time tar_gz untar env now output since_days log w w' :
  (forall mtime members, untar (tar_gz mtime members) = Some members) ->
  evidence_pack loads parse_time tar_gz env now output since_days log w = (Ok tt, w') ->
  exists body members,
    fst <$> files (outside w') !! output = Some body /\ untar body = Some members /\
    let dir := extracted (default_pack_dir_name now) members in
    dir.*1 = ARTIFACTS /\ check_sums dir = true /\
    (forall dir' name b, dict_get "SHA256SUMS" dir' = dict_get "SHA256SUMS" dir -> check_sums dir' = true ->
      dict_get name dir = Some b -> name <> "SHA256SUMS" ->
      exists b', dict_get name dir' = Some b' /\ (b' = b \/ b' <> b /\ hex_bytes (sha256 b') = hex_bytes (sha256 b))) /\
    committed w' = committed w.
Proof.
  intros Htar E. apply evidence_pack_Ok in E as (since & sliced & _ & _ & Hbody & Hdb).
  eexists _, _. split; [exact Hbody|]. split; [apply Htar|]. rewrite extracted_members.
  destruct (pack_files_sound (core_files (audit_dump now since_days (recent_events since (committed w)))
    (dump_certificates now (committed w)) (dump_operators now (committed w)) sliced.1 sliced.2
    (collect_system_info env now since_days)) since_days (default_pack_dir_name now)) as (Hk & Hc & Ht); [reflexivity|].
  exact (conj Hk (conj Hc (conj Ht Hdb))).
Qed.

Lemma rows_by_id_NoDup {A} (t : table A) : NoDup (rows_by_id t).
Proof.
  unfold rows_by_id. set (ks := sort_z _).
  assert (Hk : NoDup ks) by (unfold ks, sort_z; rewrite sorting.merge_sort_Permutation; apply NoDup_fst_map_to_list).
  induction Hk as [|k ks Hn Hk IH]; [constructor|]. cbn [omap list_omap]. destruct (rows t !! k) as [r|]; [|exact IH].
  constructor; [|exact IH]. intros (j & Hj & E)%list_elem_of_omap. destruct (rows t !! j); [|done].
  cbn in E. by simplify_eq.
Qed.

(** The dump holds the events of the window, each once, in the order of time. *)
Lemma recent_events_exact since d :
  StronglySorted ts_le (recent_events since d) /\ NoDup (recent_events since d) /\
  forall i e, (i, e) ∈ recent_events since d <-> rows (audit_events d) !! i = Some e /\ since <= ev_ts e.
Proof.
  unfold recent_events. set (l := List.filter _ _).
  assert (Hp : sorting.merge_sort ts_le l ≡ₚ l) by apply sorting.merge_sort_Permutation. split_and!.
  - apply sorting.StronglySorted_merge_sort; apply _.
  - rewrite Hp. apply NoDup_ListNoDup, List.NoDup_filter, NoDup_ListNoDup, rows_by_id_NoDup.
  - intros i e. rewrite Hp. unfold l. rewrite list_elem_of_In, filter_In, <- list_elem_of_In, rows_by_id_elem. cbn.
    by rewrite Z.leb_le.
Qed.

(** ** A run *)

(** A toy archive format, for the witnesses. *)
Fixpoint mark (s : string) : string := match s with "" => "0" | String c s' => String "1" (String c (mark s')) end.
Definition demo_tar (mtime : Z) (members : list pack_file) : string :=
  foldr (fun f t => mark f.1 +:+ mark (String.string_of_list_byte f.2) +:+ t) "" members.
Fixpoint demo_untar_go (acc : string) (name : option string) (s : string) : option (list pack_file) :=
  match s with
  | "" => Some []
  | String t s' =>
      if ceqb t "1" then match s' with String c s'' => demo_untar_go (acc +:+ String c "") name s'' | "" => None end
      else match name with
           | None => demo_untar_go "" (Some acc) s'
           | Some n => cons (n, str_bytes acc) <$> demo_untar_go "" None s'
           end
  end.
Definition demo_untar : string -> option (list pack_file) := demo_untar_go "" None.

Lemma demo_untar_mark s acc name t :
  demo_untar_go acc name (mark s +:+ t) =
  match name with
  | None => demo_untar_go "" (Some (acc +:+ s)) t
  | Some n => cons (n, str_bytes (acc +:+ s)) <$> demo_untar_go "" None t
  end.
Proof.
  revert acc. induction s as [|c s IH]; intros acc; cbn [mark]; [by rewrite append_nil_r|].
  rewrite !append_cons. cbn [demo_untar_go]. rewrite ceqb_refl, IH, append_assoc. done.
Qed.

Lemma demo_untar_tar mtime members : demo_untar (demo_tar mtime members) = Some members.
Proof.
  unfold demo_untar, demo_tar. induction members as [|[n b] l IH]; [done|]. cbn [foldr fst snd].
  rewrite !demo_untar_mark, IH. change ("" +:+ ?x) with x. unfold str_bytes.
  by rewrite String.list_byte_of_string_of_list_byte.
Qed.

Definition demo_parse_time (s : string) : option parsed_time := Aware <$> fromisoformat s.

Definition log_line (time rid : string) : string :=
  json_dumps true (JObj [("time", JStr time); ("request", JObj [("id", JStr rid)])]).

Definition demo_log : string :=
  unlines [log_line "2024-01-01T00:00:00Z" "a"; log_line "2024-02-28T10:00:00Z" "b"; "";
           log_line "2024-02-28T10:00:01Z" "b"; "not json"].

(** 2024-02-29T12:34:56Z *)
Definition demo_clock : Z := 1709210096000000.

Lemma slice_is_exact_witness :
  threshold demo_clock 30 = Ok (demo_clock - 30 * day) /\
  exists s, slice_vault_audit_log json_loads demo_parse_time demo_clock 30 "/vault/logs/audit.log" (Some demo_log) =
      Ok (join nl (kept_lines s), slice_report demo_clock s) /\
    kept_lines s = [log_line "2024-02-28T10:00:00Z" "b"; log_line "2024-02-28T10:00:01Z" "b"] /\
    malformed s = 1 /\ total s = 4 /\ slice_ok s = false.
Proof.
  split; [vm_compute; reflexivity|].
  assert (Hc : first_crash json_loads demo_parse_time (splitlines demo_log) = None) by (vm_compute; reflexivity).
  assert (Hn : count (is_class json_loads demo_parse_time is_unparsable) (splitlines demo_log) = 1) by (vm_compute; reflexivity).
  assert (Hz : count (is_class json_loads demo_parse_time is_untimed) (splitlines demo_log) = 0) by (vm_compute; reflexivity).
  assert (Hb : count (before_window json_loads demo_parse_time (demo_clock - 30 * day)) (splitlines demo_log) = 1) by (vm_compute; reflexivity).
  assert (Hw : List.filter (in_window json_loads demo_parse_time (demo_clock - 30 * day)) (splitlines demo_log) =
    [log_line "2024-02-28T10:00:00Z" "b"; log_line "2024-02-28T10:00:01Z" "b"]) by (vm_compute; reflexivity).
  assert (Ht : threshold demo_clock 30 = Ok (demo_clock - 30 * day)) by (vm_compute; reflexivity).
  pose proof (slice_is_exact json_loads demo_parse_time demo_clock 30 (demo_clock - 30 * day) "/vault/logs/audit.log" demo_log Ht) as H.
  cbv zeta in H. rewrite Hc, Hn, Hz, Hb, Hw in H. destruct H as (s & E & Hk & Hm & Hu & Htot & Ho).
  exists s. rewrite Hk in Htot. rewrite Hm, Hu in Htot. split_and!; [exact E|exact Hk|exact Hm|exact Htot|].
  destruct (slice_ok s); [|reflexivity]. destruct (proj1 Ho eq_refl) as [? _]. discriminate.
Defined.

Definition demo_env : system_env := mkSystemEnv (Some "0.3.0") (Some (0, "abc1234" +:+ nl)) (Some ["0002_b.py"; "0001_a.py"]).

(** A pack that reads its sources is written. *)
Lemma evidence_pack_writes loads parse_time tar_gz env now output since_days log w since sliced :
  threshold now since_days = Ok since ->
  slice_vault_audit_log loads parse_time now since_days log (fst <$> files (outside w) !! log) = Ok sliced ->
  exists w', evidence_pack loads parse_time tar_gz env now output since_days log w = (Ok tt, w').
Proof.
  intros Ht Hs. unfold evidence_pack, with_session, build_pack, bind, get_db, lift, file_text, dump_audit_events.
  cbn [outside view]. rewrite Ht, Hs. unfold write_text, write_bytes. eexists. reflexivity.
Qed.

Lemma pack_tamper_evident_witness :
  exists w' body members,
    evidence_pack json_loads demo_parse_time demo_tar demo_env demo_clock "/tmp/pack.tar.gz" 30 "/vault/logs/audit.log" (start demo_db)
      = (Ok tt, w') /\
    fst <$> files (outside w') !! "/tmp/pack.tar.gz" = Some body /\ demo_untar body = Some members /\
    check_sums (extracted "evidence-pack-20240229T123456Z" members) = true.
Proof.
  destruct (evidence_pack_writes json_loads demo_parse_time demo_tar demo_env demo_clock "/tmp/pack.tar.gz" 30
    "/vault/logs/audit.log" (start demo_db) (demo_clock - 30 * day) ("", missing_report demo_clock "/vault/logs/audit.log"))
    as [w' E]; [vm_compute; reflexivity|reflexivity|].
  destruct (pack_tamper_evident json_loads demo_parse_time demo_tar demo_untar demo_env demo_clock "/tmp/pack.tar.gz" 30
    "/vault/logs/audit.log" (start demo_db) w' demo_untar_tar E) as (body & members & Hb & Hm & _ & Hc & _).
  exists w', body, members. split; [exact E|]. split; [exact Hb|]. split; [exact Hm|].
  replace "evidence-pack-20240229T123456Z" with (default_pack_dir_name demo_clock) by (vm_compute; reflexivity). exact Hc.
Defined.

(** ** What the report does and does not say *)

Definition report_ok (r : outcome (string * json)) : option bool :=
  match r with
  | Ok (_, JObj items) => match dict_get "ok" items with Some (JBool b) => Some b | _ => None end
  | _ => None
  end.

(** The report covers the whole log, not the slice: a lone request before the
    window makes the report of an empty slice fail. *)
Lemma report_covers_old_lines :
  let r := slice_vault_audit_log json_loads demo_parse_time demo_clock 30 "audit.log" (Some (unlines [log_line "2023-01-01T00:00:00Z" "a"])) in
  report_ok r = Some false /\ exists report, r = Ok ("", report).
Proof. split; [vm_compute; reflexivity|]. eexists. vm_compute. reflexivity. Qed.

(** Pairing is parity: two records of the same kind pass as a pair. *)
Lemma pairing_is_parity :
  let request := json_dumps true (JObj [("time", JStr "2024-02-28T10:00:00Z"); ("type", JStr "request"); ("request", JObj [("id", JStr "a")])]) in
  report_ok (slice_vault_audit_log json_loads demo_parse_time demo_clock 30 "audit.log" (Some (unlines [request; request]))) = Some true.
Proof. vm_compute. reflexivity. Qed.

(** A line that is JSON but no object stops the pack instead of being counted. *)
Lemma scalar_line_stops_the_pack :
  slice_vault_audit_log json_loads demo_parse_time demo_clock 30 "audit.log" (Some (unlines ["null"])) = Raise (AttributeError "get").
Proof. vm_compute. reflexivity. Qed.
