(* ===== verification/Api.v ===== *)
(** * The system as a whole

    The requests, tasks and commands that change rows of the database, as one
    type of events, and what holds of all of them: they keep the database
    invariant, failed requests change nothing and scoped endpoints refuse
    other tenants' rows.  Each event has surroundings of its own: the broker,
    the files, what the PKI has issued and revoked.  [db restore] replaces the
    database as a whole and is not an event; [Backup.v] has its theorems.
    Events happen one at a time here; the races that matter have models of
    their own ([Locks.v], [Enrollment.v], [Reconfig.v]). *)

From S2P Require Import Prelude PyStr IpAddr Hashing Base64 Json Models Session Broker Demo Ipam TenantScope AuditLog Enrollment Wireguard Tasks RouterServers RouterClients RouterSshKeys RouterTenants RouterTokens Auth Pki Crypto RouterCerts CliCerts Cli Backup EnrollApp Invariant Keeps KeepsRegistry.

Section handlers.
Context `{Known} `{Dumps} `{PKIBackend} (encrypt : string -> string -> outcome string) (default_subnet : string)
  (x25519_base : bytes -> bytes) (env : enroll_env) (exc : string)
  (pkcs12 : string -> string -> string -> option string -> option string -> outcome bytes) (now : Z).

(** ** Requests *)

Inductive api_request :=
| RegisterServer (p : ServerCreate) (a : actor) (s : TenantScope)
| ReprovisionServer (server_id : Z)
| UpdateServer (server_id : Z) (u : ServerUpdate) (a : actor) (s : TenantScope)
| DeleteServer (server_id : Z) (s : TenantScope) (force : bool)
| DiscoverServerPeers (server_id : Z)
| RotateServerHostCert (server_id : Z)
| DiscoverAllServers
| RegisterClient (p : ClientCreate)
| RegisterManualClient (priv_raw : bytes) (p : ClientManualCreate)
| ReprovisionClient (client_id : Z)
| RotateClientCert (client_id : Z)
| UpdateClient (client_id : Z) (u : ClientUpdate) (s : TenantScope)
| DeleteClient (client_id : Z) (a : actor) (s : TenantScope)
| CreateSshKey (p : SSHKeyCreate) (a : actor) (s : TenantScope)
| UpdateSshKey (key_id : Z) (u : SSHKeyUpdate) (s : TenantScope)
| DeleteSshKey (key_id : Z) (s : TenantScope)
| CreateTenant (body : TenantCreate) (op : option (Z * Operator))
| UpdateTenant (slug : string) (body : TenantUpdate) (op : option (Z * Operator))
| AttachOperator (slug : string) (body : OperatorTenantAttachRequest) (op : option (Z * Operator))
| DetachOperator (slug cn : string) (op : option (Z * Operator))
| CreateToken (rnd : bytes) (p : EnrollmentTokenCreate) (a : actor) (s : TenantScope)
| RevokeToken (token_id : Z) (a : actor) (s : TenantScope)
| IssueCert (p : CertificateIssueRequest) (op : option (Z * Operator))
| RenewCert (cert_id : Z) (op : option (Z * Operator))
| RevokeCert (cert_id : Z) (a : actor) (op : option (Z * Operator))
| EnrollHost (acquired : bool) (peer : option string) (body : bytes) (authorization : option string).

Definition void {A} (m : M A) : M unit := m ;; ret tt.

Definition handle (r : api_request) : M unit :=
  match r with
  | RegisterServer p a s => void (register_server encrypt default_subnet now p a s)
  | ReprovisionServer i => void (reprovision_server i)
  | UpdateServer i u a s => void (update_server now i u a s)
  | DeleteServer i s f => void (delete_server i s f)
  | DiscoverServerPeers i => void (discover_server_peers i)
  | RotateServerHostCert i => void (rotate_server_host_cert i)
  | DiscoverAllServers => void discover_all_servers
  | RegisterClient p => void (register_client encrypt now p)
  | RegisterManualClient k p => void (register_manual_client x25519_base now k p)
  | ReprovisionClient i => void (reprovision_client i)
  | RotateClientCert i => void (rotate_client_host_cert i)
  | UpdateClient i u s => void (update_client i u s)
  | DeleteClient i a s => void (delete_client now i a s)
  | CreateSshKey p a s => void (create_ssh_key now p a s)
  | UpdateSshKey i u s => void (update_ssh_key i u s)
  | DeleteSshKey i s => void (delete_ssh_key i s)
  | CreateTenant b op => void (create_tenant now exc b op)
  | UpdateTenant sl b op => void (update_tenant exc sl b op)
  | AttachOperator sl b op => void (attach_operator now sl b op)
  | DetachOperator sl cn op => void (detach_operator sl cn op)
  | CreateToken rnd p a s =>
      p' <- some_or_raise (validate_token_create p) RequestValidationError ;;
      void (create_enrollment_token now rnd p' a s)
  | RevokeToken i a s => void (revoke_enrollment_token now i a s)
  | IssueCert p op => void (issue_cert pkcs12 now p op)
  | RenewCert i op => void (renew_cert pkcs12 now i op)
  | RevokeCert i a op => void (revoke_cert now i a op)
  | EnrollHost acq peer body auth => void (enroll env now acq peer body auth)
  end.

Lemma kept_void {A} (m : M A) : kept m -> kept (void m).
Proof.
  intros Hm o d Hd. unfold void. apply keeps_bind. specialize (Hm o d Hd). unfold keeps in *.
  by destruct (m (start_in o d)) as [[a|e] w'].
Qed.

Lemma kept_of_anywhere {A} (m : M A) : kept_anywhere m -> kept m.
Proof. intros Hm o d Hd. by apply Hm. Qed.

Lemma kept_handle r : kept (handle r).
Proof.
  destruct r; simpl; try apply kept_void;
    eauto using kept_register_server, kept_reprovision_server, kept_update_server, kept_delete_server,
      kept_discover_server_peers, kept_rotate_server_host_cert, kept_discover_all_servers,
      kept_register_client, kept_register_manual_client, kept_reprovision_client,
      kept_rotate_client_host_cert, kept_update_client, kept_delete_client, kept_create_ssh_key,
      kept_update_ssh_key, kept_delete_ssh_key, kept_create_tenant, kept_update_tenant,
      kept_attach_operator, kept_detach_operator, kept_revoke_token, kept_enroll,
      kept_of_anywhere, kept_issue_cert, kept_renew_cert, kept_revoke_cert.
  intros o d Hd. apply keeps_bind, keeps_some; [done|]. intros p' Hp.
  by apply kept_void; [eapply kept_create_token|].
Qed.

End handlers.

(** ** Histories *)

(** What can happen to the database: a request, a run of a Celery task with the
    outcome of its lock and the node it meets, an operation on certificates,
    an administration command, or the authentication of a request, which may
    register the bootstrap operator. *)
Inductive event :=
| ApiRequest (r : api_request)
| TaskProvisionServer (acquired : bool) (e : node_env) (server_id : Z) (b : bootstrap_kwargs)
| TaskProvisionClient (acquired : bool) (e : node_env) (client_id : Z) (b : bootstrap_kwargs)
| TaskReconfigureServer (acquired : bool) (e : node_env) (server_id : Z) (generation : option Z)
| TaskRotateHostCert (acquired : bool) (e : node_env) (server_id : Z)
| TaskRotateClientHostCert (acquired : bool) (e : node_env) (client_id : Z)
| TaskRotateExpiring (renew_before_seconds : Z)
| TaskDiscoverPeers (e : node_env) (server_id : Z)
| TaskDiscoverAll (env : Z -> node_env)
| TaskSweepTokens (retention_seconds : Z)
| CertificateOp (c : cert_op)
| CliOperatorsAdd (cn : string) (role : OperatorRole) (display_name : option string)
| CliTenantsCreate (name : string) (slug subnet_pool : option string)
| CliAttach (cn tenant : string) (role : OperatorRole)
| CliDetach (cn tenant : string)
| Authenticate (faults : db_faults) (rq : http_request).

(** An event, when it happens and what is around it: the broker, the files, the
    certificates issued and revoked so far. *)
Record moment := mkMoment { m_time : Z; m_around : Outside; m_event : event }.

Section histories.
Context `{Dumps} `{PKIBackend} (encrypt : string -> string -> outcome string) (default_subnet : string)
  (x25519_base : bytes -> bytes) (env : enroll_env) (exc : string)
  (pkcs12 : string -> string -> string -> option string -> option string -> outcome bytes)
  (load_pem : string -> option x509_cert) (cfg : auth_settings).

Definition perform (now : Z) (ev : event) : M unit :=
  match ev with
  | ApiRequest r => handle encrypt default_subnet x25519_base env exc pkcs12 now r
  | TaskProvisionServer acq e i b => void (provision_server_task acq e i b)
  | TaskProvisionClient acq e i b => void (provision_client_task acq e i b)
  | TaskReconfigureServer acq e i g => void (reconfigure_server_task acq e i g)
  | TaskRotateHostCert acq e i => void (rotate_host_cert_task acq e i)
  | TaskRotateClientHostCert acq e i => void (rotate_client_host_cert_task acq e i)
  | TaskRotateExpiring renew => void (rotate_expiring_host_certs_task now renew)
  | TaskDiscoverPeers e i => void (discover_peers_task e now i)
  | TaskDiscoverAll envs => void (discover_all_peers_task envs now)
  | TaskSweepTokens retention => void (sweep_enrollment_tokens_task retention now)
  | CertificateOp c => CliCerts.perform pkcs12 now c
  | CliOperatorsAdd cn role name => void (operators_add now cn role name)
  | CliTenantsCreate name slug pool => void (tenants_create now exc name slug pool)
  | CliAttach cn t role => void (operators_attach_tenant now cn t role)
  | CliDetach cn t => void (operators_detach_tenant cn t)
  | Authenticate faults rq => void (authenticate load_pem cfg now faults id rq)
  end.

(** The database after a sequence of events, each at its time, in its
    surroundings and on a session of its own. *)
Definition history (evs : list moment) (d : DB) : DB :=
  fold_left (fun d m => committed (run_in (m_around m) (perform (m_time m) (m_event m)) d).2) evs d.

Lemma kept_perform `{Known} now ev : kept (perform now ev).
Proof.
  destruct ev; simpl;
    try (apply kept_of_anywhere, kept_cert_op); try apply kept_void;
    try (apply kept_of_anywhere; first [apply kept_operators_add | apply kept_tenants_create
      | apply kept_operators_attach | apply kept_operators_detach | apply kept_authenticate]); eauto using kept_handle, kept_provision_server_task,
    kept_provision_client_task, kept_reconfigure_server_task, kept_rotate_host_cert_task,
    kept_rotate_client_host_cert_task, kept_rotate_expiring, kept_discover_peers_task,
    kept_discover_all_peers_task, kept_sweep_tokens.
Qed.

Lemma history_inv `{Known} evs d : db_inv d -> db_inv (history evs d).
Proof.
  unfold history. revert d. induction evs as [|[now o ev] evs IH]; intros d Hd; simpl; [done|]. apply IH.
  pose proof (kept_perform now ev o d Hd) as Hk. unfold keeps in Hk. unfold run_in.
  by destruct (perform now ev (start_in o d)) as [[a|e] w].
Qed.

(** ** Theorems *)

(** C1. The system keeps its database consistent: from a consistent database,
    after any sequence of requests, task runs, certificate operations,
    administration commands and authentications, whatever their arguments and
    outcomes, every foreign key points at a row, the unique columns are
    unique, no token is used more often than allowed, no two clients of a hub
    have the same address, and certificates known to be revoked still are. *)
Theorem system_preserves_invariant `{Known} evs d : db_inv d -> db_inv (history evs d).
Proof. apply history_inv. Qed.

(** ** Revocation over time *)

Lemma inv_known (K K' : Known) d : @db_inv K d -> (forall s, s ∈ (K' : list string) -> registered_revoked d s) -> @db_inv K' d.
Proof. intros H3 Hk. by destruct H3; constructor. Qed.

Lemma inv_identities `{Known} d : db_inv d -> unique_identities d.
Proof. intros Hd. split; [exact (inv_operator_cns d Hd)|exact (inv_cert_serials d Hd)]. Qed.

(** C18. Revocation is final: once POST /certs/{id}/revoke has succeeded on a
    consistent database, and whatever requests, tasks, commands and
    authentications follow (a restored backup is not among them), a protected
    request that presents a certificate with the revoked serial does not reach
    the application while the registry lookup works, whatever else commits
    while it is authenticated: it is answered 401, or fails when the operator
    table cannot be read. *)
Theorem revocation_is_final `{K0 : Known} {R} (app : auth_state -> M R) rq s cert_id a op t d w i row w' evs evs' w2 t2 faults :
  db_inv d -> committed w = d -> view w = d -> revoke_cert t cert_id a op w = (Ok (i, row), w') ->
  crt_serial row = dec (cs_serial s) -> committed w2 = history evs (committed w') ->
  protected cfg rq -> extract_subject_from_scope load_pem (rq_scope rq) = Some s ->
  serial_lookup_fails faults = false ->
  exists r w3, mtls_dispatch load_pem cfg t2 faults (history evs') app rq w2 = (r, w3) /\
    ((exists detail, r = Ok (JSONResponse 401 detail)) \/
     operator_lookup_fails faults = true /\ r = Raise OperationalError).
Proof.
  intros Hd Hc Hv E Hs H2 Hp He Hf.
  assert (Hd' : db_inv (committed w')).
  { destruct w as [c v q l o]. simpl in *. subst.
    pose proof (kept_revoke_cert t cert_id a op d q l o Hd) as Hk. unfold keeps in Hk. by rewrite E in Hk. }
  destruct (revoke_cert_once t cert_id a op w i row w' (eq_trans Hv (eq_sym Hc)) E) as (_ & Hrev & Hi & _).
  assert (Hr : registered_revoked (committed w') (dec (cs_serial s))) by (exists cert_id, row; auto).
  pose (K := [dec (cs_serial s)] : Known).
  assert (Hk : @db_inv K (committed w')) by (apply (inv_known K0 K); [exact Hd'|]; by intros x ->%list_elem_of_singleton).
  apply (history_inv evs) in Hk. rewrite <- H2 in Hk. pose proof (history_inv evs' _ Hk) as Hk'.
  pose proof (inv_revoked _ Hk _ (list_elem_of_here _ _)) as Hr2. pose proof (inv_revoked _ Hk' _ (list_elem_of_here _ _)) as Hr3.
  pose proof (inv_identities _ Hk) as Hu. pose proof (inv_identities _ Hk') as Hu'.
  by apply (revoked_serial_rejected load_pem cfg t2 (history evs') faults app rq w2 s).
Qed.

(** ** Backups of what the system reaches *)

Lemma consistent_refs `{Known} d : db_inv d -> db_refs d = true.
Proof.
  intros Hd. unfold db_refs. apply forallb_forall. intros t _. apply forallb_forall. intros [i r] Hi.
  apply list_elem_of_In in Hi. rewrite select_all_perm in Hi. apply elem_of_map_to_list in Hi.
  unfold fk_ok. apply forallb_forall. intros fk Hfk. cbn [snd] in *.
  destruct (fk.1 r) as [k|] eqn:Ek; [|done]. unfold has_row. apply bool_decide_eq_true. destruct Hd.
  destruct t; simpl in Hfk; repeat (destruct Hfk as [<-|Hfk]; [simpl in *; by eauto using refers_row|]); done.
Qed.

Lemma unique_NoDup {A B} (t : table A) (u : A -> B) :
  unique_column t u -> NoDup ((fun ir => u ir.2) <$> map_to_list (rows t)).
Proof.
  intros Hu. apply NoDup_fmap_2_strong; [|apply NoDup_map_to_list].
  intros [i x] [j y] Hi%elem_of_map_to_list Hj%elem_of_map_to_list E. simpl in E.
  assert (i = j) as <- by (by eapply Hu). congruence.
Qed.

(** A coarser key that determines the unique column is unique too. *)
Lemma unique_weaken {A B C} (t : table A) (u : A -> B) (v : A -> C) :
  unique_column t u -> (forall r r', v r = v r' -> u r = u r') -> unique_column t v.
Proof. intros Hu Hv i j r r' Hi Hj E. eapply Hu; eauto. Qed.

Lemma consistent_unique `{Known} d : db_inv d -> db_unique d = true.
Proof.
  intros Hd. unfold db_unique. apply forallb_forall. intros t _. apply forallb_forall. intros u Hu.
  apply bool_decide_eq_true. rewrite select_all_perm. apply unique_NoDup. destruct Hd.
  destruct t; simpl in Hu; repeat (destruct Hu as [<-|Hu]; [
    match goal with Hq : unique_column _ _ |- _ =>
      solve [apply (unique_weaken _ _ _ Hq); simpl; intros; congruence] end|]); done.
Qed.

(** C11. A reachable database survives a restore: the database that any history
    leads to from a consistent one, as far as its values can be stored, is
    what restoring its backup gives back, row by row, whether the backup is
    encrypted or not, into an empty database or with [--drop-existing]. *)
Theorem reachable_database_restores `{Known} `{B : CryptoBackend, !CryptoLaws B} gcm evs d now dek nonce path enc w w1
    exc_text show now' drop w2 :
  (forall k n p, gcm_decrypt gcm k n (gcm_encrypt gcm k n p) = Some p) ->
  db_inv d -> committed w = history evs d -> db_storable (committed w) = true ->
  db_backup gcm now dek nonce path enc w = (Ok tt, w1) ->
  files (outside w2) !! path = files (outside w1) !! path ->
  drop = true \/ (forall t, rows (get_table t (committed w2)) = ∅) ->
  exists w3, db_restore gcm now' exc_text show path drop enc w2 = (Ok tt, w3) /\
    forall t, rows (get_table t (committed w3)) = rows (get_table t (history evs d)).
Proof.
  intros Hg Hd Hw Hs Hb Hf Hdrop. rewrite <- Hw.
  assert (Hk : db_inv (committed w)) by (rewrite Hw; by apply history_inv).
  eapply restore_inverts_backup; eauto. unfold backup_ok. by rewrite Hs, (consistent_refs _ Hk), (consistent_unique _ Hk).
Qed.

(** ** Failed requests *)

(** Requests that do not end in a second transaction. *)
Definition single_commit (r : api_request) : bool :=
  match r with
  | RegisterManualClient _ _ | DeleteClient _ _ _ | EnrollHost _ _ _ _ => false
  | _ => true
  end.

Lemma quiet_revoke now id row cn : quiet (revoke_token now id row cn).
Proof. unfold revoke_token. solve_effect. Qed.
Lemma quiet_mint now rnd server sid kid user prefix ttl uses cn cidrs :
  quiet (mint_token now rnd server sid kid user prefix ttl uses cn cidrs).
Proof. unfold mint_token. solve_effect. Qed.
Lemma quiet_issue_leaf srv cn sans ttl : quiet (issue_leaf srv cn sans ttl).
Proof. intros w r w'. unfold issue_leaf. by destruct (pki_issue _ _ _ _ _); intros [= <- <-]. Qed.
Lemma quiet_revoke_leaf n : quiet (revoke_leaf n).
Proof. intros w r w'. unfold revoke_leaf. by destruct (pki_revoke _ _); intros [= <- <-]. Qed.
Lemma steady_issue_leaf srv cn sans ttl : steady (issue_leaf srv cn sans ttl).
Proof. intros w. unfold issue_leaf. cbn [with_broker outside issued]. by destruct (pki_issue _ _ _ _ _). Qed.
Lemma steady_revoke_leaf n : steady (revoke_leaf n).
Proof. intros w. unfold revoke_leaf. cbn [with_broker outside revoked_serials]. by destruct (pki_revoke _ _). Qed.
#[local] Hint Resolve quiet_revoke quiet_mint quiet_issue_leaf quiet_revoke_leaf steady_issue_leaf steady_revoke_leaf : wg.

Lemma steady_load_mutable {A} (tbl : DB -> table A) tenant what sc id : steady (load_mutable tbl tenant what sc id).
Proof. unfold load_mutable, require_tenant_role. solve_steady. Qed.
Lemma steady_require sc tid roles : steady (require_tenant_role sc tid roles).
Proof. unfold require_tenant_role. solve_steady. Qed.
Lemma steady_resolve_tenant sc t roles : steady (resolve_create_tenant sc t roles).
Proof. unfold resolve_create_tenant, require_tenant_role. solve_steady. Qed.
Lemma steady_persist now a : steady (persist now a).
Proof. unfold persist, emit. solve_steady. Qed.
Lemma steady_allocate d sid server : steady (allocate_or_409 d sid server).
Proof. unfold allocate_or_409. solve_steady. Qed.
Lemma steady_encrypt kind p : steady (encrypt_bootstrap_kwargs encrypt kind p).
Proof. unfold encrypt_bootstrap_kwargs. solve_steady. Qed.
Lemma steady_require_admin op : steady (RequireAdmin op).
Proof. unfold RequireAdmin, get_operator. solve_steady. Qed.
Lemma steady_overlap pool ex others : steady (reject_pool_overlap pool ex others).
Proof. induction others as [|[id other] rest IH]; simpl; solve_steady. Qed.
Lemma steady_revoke_token now id row cn : steady (revoke_token now id row cn).
Proof. unfold revoke_token. solve_steady. Qed.
#[local] Hint Resolve steady_revoke_token steady_load_mutable steady_require steady_resolve_tenant steady_persist steady_allocate
  steady_encrypt steady_require_admin steady_overlap : wg.

Lemma late_single_commit now r w : accepting w ->
  (forall t c, exists x, encrypt t c = Ok x) -> single_commit r = true ->
  late (handle encrypt default_subnet x25519_base env exc pkcs12 now r) w.
Proof.
  intros Hacc He Hr. pose proof (fun k p => never_encrypt encrypt k p He) as Hen. pose proof quiet_reject_overlap.
  assert (Hv : forall A (m : M A), late m w -> late (m ;; ret tt) w)
    by (intros A m Hm; apply late_then; [done|intros; split_and!; [solve_steady|solve_effect..]]).
  destruct r; try discriminate Hr; cbn [handle]; unfold void; try (apply Hv; clear Hv);
    unfold register_server, reprovision_server, update_server, delete_server, discover_server_peers,
      rotate_server_host_cert, discover_all_servers, register_client, reprovision_client,
      rotate_client_host_cert, update_client, create_ssh_key, update_ssh_key, delete_ssh_key,
      create_tenant, update_tenant, attach_operator, detach_operator,
      revoke_enrollment_token, require_tenant, require_operator,
      require_pool_shape, issue_cert, renew_cert, revoke_cert, insert_certificate, mint_leaf, resolve_operator_fk,
      bind_tenant, dashboard_bundle, create_enrollment_token.
  all: try solve [solve_late].
Qed.

(** Registering a manual client or deleting a client ends with a second
    transaction, which fails on a consistent database only when the broker
    refuses its message. *)
Lemma late_manual_client now priv p w : accepting w -> priv <> [] ->
  late (register_manual_client x25519_base now priv p) w.
Proof.
  intros Hacc Hp. unfold register_manual_client.
  apply late_quiet; [solve_steady|solve_effect|done|]. intros d w1 Ha1 Hc1 E1. prim_ok.
  apply late_quiet; [solve_steady|solve_effect|done|]. intros u w1 Ha2 Hc2 E2. prim_ok.
  apply late_quiet; [solve_steady|solve_effect|done|]. intros server w1 Ha3 Hc3 E3. prim_ok.
  apply late_quiet; [solve_steady|solve_effect|done|]. intros u' w1 Ha4 Hc4 E4. prim_ok.
  apply late_quiet; [solve_steady|solve_effect|done|]. intros address w1 Ha5 Hc5 E5.
  apply allocate_or_409_Ok in E5 as [-> _]. cbn [generate_wireguard_keypair]. left.
  apply late_total_steady; [solve_steady|solve_effect|done|]. intros u5 w1 Ha6 E6. prim_ok.
  apply late_total_steady; [solve_steady|solve_effect|done|]. intros u6 w1 Ha7 E7. prim_ok.
  assert (Hne : nonempty (b64encode priv) = true) by (apply nonempty_true; by destruct priv as [|x [|y [|z l]]]).
  unfold render_manual_client_config. cbn [cl_is_manual negb]. rewrite Hne. cbn [negb].
  apply late_total_steady; [solve_steady|by intros ? ? ? ?|done|]. intros cfg_text w1 Ha8 E8. unfold lift in E8. injection E8 as <- <-.
  apply late_total_then; [|intros g; split_and!; [solve_steady|solve_effect..]].
  by apply (late_total_reconfigure _ server).
Qed.

Lemma late_delete_client `{Known} now id a s w : accepting w -> db_inv (view w) -> late (delete_client now id a s) w.
Proof.
  intros Hacc Hd. unfold delete_client.
  apply late_quiet; [solve_steady|solve_effect|done|]. intros row w1 Ha1 _ [-> [Hrow _]]%load_mutable_Ok.
  destruct (inv_client_server _ Hd _ _ _ Hrow eq_refl) as [server Hs]. left. unfold persist, emit.
  apply late_total_steady; [solve_steady|solve_effect|done|]. intros u w1 Ha2 E2. prim_ok.
  apply late_total_steady; [solve_steady|solve_effect|done|]. intros u2 w1 Ha3 E3. step_ok E3. prim_ok.
  apply late_total_steady; [solve_steady|solve_effect|done|]. intros u3 w1 Ha4 E4. prim_ok.
  apply late_total_then; [|intros g; split_and!; [solve_steady|solve_effect..]].
  by apply (late_total_reconfigure _ server).
Qed.

(** Key material that was really drawn. *)
Definition keys_drawn (r : api_request) : Prop :=
  match r with RegisterManualClient priv _ => priv <> [] | _ => True end.

(** C10. A request that fails changes nothing: whatever the endpoint and the
    error, on a consistent database and while the crypto backend answers, no
    task was queued and the committed database is the one before the request;
    the one exception is a broker that refuses the task, which is asked after
    the commit: the request then fails with the broker's error, and the
    database is the one of the same request with a broker that accepts. *)
Theorem failed_request_changes_nothing `{Known} now r o d e w :
  db_inv d -> (forall t c, exists x, encrypt t c = Ok x) -> keys_drawn r ->
  run_in o (handle encrypt default_subnet x25519_base env exc pkcs12 now r) d = (Raise e, w) ->
  queue w = [] /\
  (committed w = d \/
   e = BrokerError /\ exists w1,
     run_in (open_broker o) (handle encrypt default_subnet x25519_base env exc pkcs12 now r) d = (Ok tt, w1) /\
     committed w = committed w1).
Proof.
  intros Hd He Hk E. pose proof (accepting_start o d) as Ha.
  apply late_run in E as [Hq [?|(-> & [] & ?)]]; [by auto|by eauto|].
  destruct (single_commit r) eqn:Er; [by apply late_single_commit|].
  destruct r; try discriminate Er; cbn [handle]; unfold void;
    (apply late_then; [|intros; split_and!; [solve_steady|solve_effect..]]).
  - by apply late_manual_client.
  - by apply late_delete_client.
  - by apply late_enroll.
Qed.
End histories.

(** ** The tenant gate on every scoped endpoint *)

(** The row a request would change, with its tenant, for the endpoints that
    are gated by the caller's tenant scope and role. *)
Definition gated_target (r : api_request) (d : DB) : option (TenantScope * option (option Z)) :=
  match r with
  | UpdateServer i _ _ s | DeleteServer i s _ => Some (s, srv_tenant_id <$> rows (servers d) !! i)
  | UpdateClient i _ s | DeleteClient i _ s => Some (s, cl_tenant_id <$> rows (clients d) !! i)
  | UpdateSshKey i _ s | DeleteSshKey i s => Some (s, key_tenant_id <$> rows (sshkeys d) !! i)
  | _ => None
  end.

Lemma load_mutable_refuses {A B} (tbl : DB -> table A) tenant what s id d (k : A -> M B) :
  (forall row, rows (tbl d) !! id = Some row ->
     out_of_scope s (tenant row) = true \/ ~ permits s (tenant row) [admin; operator]) ->
  exists code detail, (code = 404 \/ code = 403) /\
    (row <- load_mutable tbl tenant what s id ;; k row) (start d) = (Raise (http_error code detail), start d).
Proof.
  intros Hno. destruct (load_mutable_spec tbl tenant what s id (start d))
    as [(row & (Hr & Ho & Hp) & _)|(code & dt & Hc & E & _)].
  - destruct (Hno row Hr) as [?|?]; [congruence|done].
  - exists code, dt. unfold bind. by rewrite E.
Qed.

(** C9. No change across tenants: a request to update or delete a server, a
    client or an SSH key is answered 404 or 403, and changes and queues
    nothing, when the caller's scope does not include the row's tenant or the
    caller's role there is neither admin nor operator. *)
Theorem gated_endpoints_isolate_tenants `{Dumps} `{PKIBackend} encrypt default_subnet x25519_base env exc pkcs12 now r d s t :
  gated_target r d = Some (s, t) ->
  (forall tid, t = Some tid -> out_of_scope s tid = true \/ ~ permits s tid [admin; operator]) ->
  exists code detail w, (code = 404 \/ code = 403) /\
    run (handle encrypt default_subnet x25519_base env exc pkcs12 now r) d = (Raise (http_error code detail), w) /\
    committed w = d /\ queue w = [] /\ audit_log w = [].
Proof.
  intros Hg Hno.
  assert (Hfin : forall A (m : M A), (exists code detail, (code = 404 \/ code = 403) /\
      m (start d) = (Raise (http_error code detail), start d)) ->
    exists code detail w, (code = 404 \/ code = 403) /\ run (void m) d = (Raise (http_error code detail), w) /\
      committed w = d /\ queue w = [] /\ audit_log w = []).
  { intros A m (code & dt & Hc & E). exists code, dt. unfold run, void, bind. rewrite E.
    eexists. split; [done|]. split; [reflexivity|done]. }
  destruct r; simpl in Hg; try discriminate Hg; simplify_eq; apply Hfin;
    unfold update_server, delete_server, update_client, delete_client, update_ssh_key, delete_ssh_key;
    apply load_mutable_refuses; intros row Hr; apply Hno; by rewrite Hr.
Qed.

(** ** Witnesses *)

#[local] Instance none_known : Known := [].

Lemma empty_db_inv : db_inv empty_db.
Proof.
  assert (He : forall A (i : Z) (r : A), (∅ : gmap Z A) !! i = Some r -> False)
    by (intros A i r Hr; by rewrite lookup_empty in Hr).
  constructor; try apply wf_table_empty;
    unfold refers, unique_column, unique_addresses; simpl; intros; exfalso; try by eapply He.
  by eapply elem_of_nil.
Qed.

Definition null_x25519 (b : bytes) : bytes := b.
Definition super_op : option (Z * Operator) := Some (1, demo_operator).

(** An event with nothing around it and a broker that accepts. *)
Definition plainly (t : Z) (ev : event) : moment := mkMoment t nothing_outside ev.

(** A tenant, a key and a hub are created and the hub is provisioned; then a
    manual client joins. *)
Definition demo_history : list moment :=
  [plainly 1 (ApiRequest (CreateTenant (mkTenantCreate "Default" None (Some "10.9.0.0/16")) super_op));
   plainly 2 (ApiRequest (CreateSshKey (mkSSHKeyCreate "ops" None) demo_actor unscoped));
   plainly 3 (ApiRequest (RegisterServer demo_payload demo_actor unscoped));
   plainly 4 (TaskProvisionServer true quiet_env 1 no_bootstrap);
   plainly 5 (ApiRequest (RegisterManualClient (str_bytes "k") (mkClientManualCreate "phone" 1)));
   plainly 6 (ApiRequest (RegisterManualClient (str_bytes "k") (mkClientManualCreate "phone" 1)))].

(** A PKI that counts serials from 77. *)
Definition pki77 : PKIBackend :=
  LocalDevPKI_backend (mkSigner (fun h => 77 + Z.of_nat (length h)) (fun _ => "KEY") (fun t => Some ("PEM " +:+ tbs_subject t)))
    0 demo_hierarchy.

Definition demo_run (evs : list moment) : DB :=
  @history id_dumps pki77 plain_encrypt "10.9.0.0/24" null_x25519 demo_enroll_env "" no_pkcs12 demo_load_pem
    demo_auth evs empty_db.

Lemma system_preserves_invariant_witness :
  (exists c, rows (clients (demo_run demo_history)) !! 1 = Some c /\ cl_address c = "10.9.8.2/32") /\
  size (rows (clients (demo_run demo_history))) = 1%nat /\ db_inv (demo_run demo_history).
Proof.
  split; [|split].
  - eexists. split; [vm_compute; reflexivity|reflexivity].
  - vm_compute. reflexivity.
  - apply (@system_preserves_invariant id_dumps pki77 plain_encrypt "10.9.0.0/24" null_x25519 demo_enroll_env ""
             no_pkcs12 demo_load_pem demo_auth none_known demo_history empty_db). exact empty_db_inv.
Defined.

(** Alice is registered, gets a certificate with serial 77 that an admin then
    revokes; later she gets a new one and Bob is registered. *)
Definition issue_alice : issue_args :=
  mkIssueArgs ct_cli "alice" None None None None (Some "a.pem") (Some "a.key") (Some "a.chain") None "".
Definition issued_db : DB :=
  demo_run [plainly 1 (CliOperatorsAdd "alice" admin None); plainly 2 (CertificateOp (CliIssue issue_alice))].
Definition later_events : list moment :=
  [mkMoment 6 (mkOutside [77] [77] ∅ [] [] all_accepted) (CertificateOp (CliIssue issue_alice));
   plainly 7 (CliOperatorsAdd "bob" auditor None); plainly 8 (Authenticate no_faults (demo_request "PEM alice"))].
Definition alice_row : Certificate :=
  set_crt_revoked true (Some 5) (default (demo_certificate "" false) (rows (certificates issued_db) !! 1)).
Definition revoke_alice :=
  @revoke_cert id_dumps pki77 5 1 (mkActor super_op None) super_op (start issued_db).
Definition later_db : DB :=
  @history id_dumps pki77 plain_encrypt "10.9.0.0/24" null_x25519 demo_enroll_env "" no_pkcs12 demo_load_pem
    demo_auth later_events (committed revoke_alice.2).

Lemma revoke_alice_runs : revoke_alice.1 = Ok (1, alice_row).
Proof. vm_compute. reflexivity. Qed.

(** While the request is authenticated, another one registers an operator. *)
Definition meanwhile : list moment := [plainly 9 (CliOperatorsAdd "carol" auditor None)].

Lemma revocation_is_final_witness :
  next_id (certificates later_db) = 3 /\
  exists r w3, mtls_dispatch demo_load_pem demo_auth 9 (mkFaults false false true)
      (@history id_dumps pki77 plain_encrypt "10.9.0.0/24" null_x25519 demo_enroll_env "" no_pkcs12 demo_load_pem
         demo_auth meanwhile) (fun st => ret (as_subject st))
    (demo_request "PEM alice") (start later_db) = (r, w3) /\
    ((exists detail, r = Ok (JSONResponse 401 detail)) \/ false = true /\ r = Raise OperationalError).
Proof.
  split; [vm_compute; reflexivity|].
  apply (@revocation_is_final id_dumps pki77 plain_encrypt "10.9.0.0/24" null_x25519 demo_enroll_env "" no_pkcs12
           demo_load_pem demo_auth none_known (option CertSubject) (fun st => ret (as_subject st)) (demo_request "PEM alice")
           (mkSubject "alice" ["alice.example"; "10.0.0.1"] 77 0 100 "PEM alice") 1
           (mkActor super_op None) super_op 5 issued_db (start issued_db) 1 alice_row revoke_alice.2 later_events meanwhile
           (start later_db) 9 (mkFaults false false true)).
  - apply history_inv. exact empty_db_inv.
  - reflexivity.
  - reflexivity.
  - rewrite (surjective_pairing revoke_alice) at 1. by rewrite revoke_alice_runs.
  - vm_compute. reflexivity.
  - reflexivity.
  - split; [reflexivity|]. split; [apply mem_false; reflexivity|discriminate].
  - vm_compute. reflexivity.
  - reflexivity.
Defined.

Definition demo_dump_world : World :=
  (@db_backup (LocalDevBackend demo_fernet) demo_gcm 1709210096000456 demo_dek demo_nonce "b.json" true
    (start (demo_run demo_history))).2.

Lemma outside_mk c v q l o path : files (outside (mkWorld c v q l o)) !! path = files o !! path.
Proof. reflexivity. Qed.

Lemma reachable_database_restores_witness :
  exists w3, @db_restore (LocalDevBackend demo_fernet) demo_gcm 9 (fun _ => "") (fun _ => "") "b.json" true true
      (mkWorld issued_db issued_db [] [] (outside demo_dump_world)) = (Ok tt, w3) /\
    forall t, rows (get_table t (committed w3)) = rows (get_table t (demo_run demo_history)).
Proof.
  apply (@reachable_database_restores id_dumps pki77 plain_encrypt "10.9.0.0/24" null_x25519 demo_enroll_env ""
           no_pkcs12 demo_load_pem demo_auth none_known (LocalDevBackend demo_fernet)
           (LocalDevBackend_laws _ demo_fernet_ok) demo_gcm demo_history empty_db 1709210096000456 demo_dek demo_nonce
           "b.json" true (start (demo_run demo_history)) demo_dump_world).
  - intros k n p. reflexivity.
  - exact empty_db_inv.
  - reflexivity.
  - vm_compute. reflexivity.
  - unfold demo_dump_world. destruct (db_backup _ _ _ _ _ _ _) as [r w'] eqn:E.
    assert (Hr : (@db_backup (LocalDevBackend demo_fernet) demo_gcm 1709210096000456 demo_dek demo_nonce "b.json" true
      (start (demo_run demo_history))).1 = Ok tt) by (vm_compute; reflexivity). rewrite E in Hr. simpl in Hr. by subst.
  - apply outside_mk.
  - by left.
Defined.

(** A broker that is down: the hub is registered all the same. *)
Definition broker_down : Outside := mkOutside [] [] ∅ [] [] (fun _ => false).
Definition two_rows : DB := demo_run (take 2 demo_history).

Lemma registration_survives_refusal :
  let res := run_in broker_down (@handle id_dumps pki77 plain_encrypt "10.9.0.0/24" null_x25519 demo_enroll_env "" no_pkcs12 9
               (RegisterServer demo_payload demo_actor unscoped)) two_rows in
  res.1 = Raise BrokerError /\ queue res.2 = [] /\ srv_status <$> rows (servers (committed res.2)) !! 1 = Some pending.
Proof. vm_compute. by split_and!. Qed.

Lemma failed_request_changes_nothing_witness :
  let m := @handle id_dumps pki77 plain_encrypt "10.9.0.0/24" null_x25519 demo_enroll_env "" no_pkcs12 9
             (RegisterServer demo_payload demo_actor unscoped) in
  let res := run_in broker_down m two_rows in
  res.1 = Raise BrokerError /\ size (rows (servers (committed res.2))) = 1%nat /\
  queue res.2 = [] /\
  (committed res.2 = two_rows \/
   BrokerError = BrokerError /\ exists w1, run_in (open_broker broker_down) m two_rows = (Ok tt, w1) /\
     committed res.2 = committed w1).
Proof.
  intros m res. split; [vm_compute; reflexivity|]. split; [vm_compute; reflexivity|].
  apply (@failed_request_changes_nothing id_dumps pki77 plain_encrypt "10.9.0.0/24" null_x25519 demo_enroll_env ""
           no_pkcs12 none_known 9 (RegisterServer demo_payload demo_actor unscoped) broker_down two_rows BrokerError res.2).
  - apply history_inv. exact empty_db_inv.
  - intros t c. eexists. reflexivity.
  - exact I.
  - vm_compute. reflexivity.
Defined.

Lemma gated_endpoints_isolate_tenants_witness :
  exists code detail w, (code = 404 \/ code = 403) /\
    run (@handle id_dumps pki77 plain_encrypt "10.9.0.0/24" null_x25519 demo_enroll_env "" no_pkcs12 9
           (DeleteServer 2 bob_scope true)) demo_db = (Raise (http_error code detail), w) /\
    committed w = demo_db /\ queue w = [] /\ audit_log w = [].
Proof.
  apply (@gated_endpoints_isolate_tenants id_dumps pki77 plain_encrypt "10.9.0.0/24" null_x25519 demo_enroll_env ""
           no_pkcs12 9 (DeleteServer 2 bob_scope true) demo_db bob_scope (Some (Some 2))).
  - vm_compute. reflexivity.
  - intros tid [= <-]. left. vm_compute. reflexivity.
Defined.
