(* ===== verification/Routes.v ===== *)
(** * Routing

    The routes of the operator API: the decorators of [routers/*.py] and the
    mounting of [create_app] in [main.py], and from a request to the handler it
    reaches, with the payload it is given.  Matching is Starlette's: the routes
    in the order they were added, a path parameter is one non-empty segment.
    pydantic's coercions of values that do not have the declared type, and of
    path and query texts, are parameters. *)

From S2P Require Import Prelude PyStr Hashing Json Models Session TenantScope AuditLog RouterServers RouterClients RouterSshKeys RouterTenants RouterTokens EnrollApp Api.

(** ** The table *)

Inductive endpoint :=
| E_create_ssh_key | E_list_ssh_keys | E_get_ssh_key | E_update_ssh_key | E_delete_ssh_key
| E_register_server | E_reprovision_server | E_list_servers | E_get_server | E_update_server | E_delete_server
| E_discover_server_peers | E_list_server_discovered_peers | E_list_all_discovered_peers | E_rotate_server_host_cert
| E_discover_all_servers
| E_register_client | E_register_manual_client | E_reprovision_client | E_rotate_client_host_cert | E_list_clients
| E_export_ssh_config | E_get_client | E_update_client | E_delete_client
| E_get_task_status | E_get_crypto_status
| E_whoami | E_list_certs | E_issue_cert | E_renew_cert | E_revoke_cert
| E_list_audit_events
| E_list_tenants | E_get_tenant | E_create_tenant | E_update_tenant | E_attach_operator | E_detach_operator | E_list_tenant_operators
| E_create_enrollment_token | E_list_enrollment_tokens | E_get_enrollment_token | E_revoke_enrollment_token
| E_healthz | E_readyz | E_metrics | E_v1_openapi
| E_enroll. (** on the enrollment listener *)
#[export] Instance endpoint_eq_dec : EqDecision endpoint.
Proof. solve_decision. Defined.

Inductive seg := Lit (s : string) | Param.
Record route := mkRoute { rt_method : string; rt_path : list seg; rt_endpoint : endpoint }.

(** A router: its prefix before every path. *)
Definition under (prefix : list seg) (routes : list route) : list route :=
  (fun r => mkRoute (rt_method r) (prefix ++ rt_path r) (rt_endpoint r)) <$> routes.

Definition ssh_keys_router : list route := under [Lit "ssh-keys"]
  [mkRoute "POST" [] E_create_ssh_key; mkRoute "GET" [] E_list_ssh_keys; mkRoute "GET" [Param] E_get_ssh_key;
   mkRoute "PATCH" [Param] E_update_ssh_key; mkRoute "DELETE" [Param] E_delete_ssh_key].

Definition servers_router : list route := under [Lit "servers"]
  [mkRoute "POST" [] E_register_server; mkRoute "POST" [Param; Lit "reprovision"] E_reprovision_server;
   mkRoute "GET" [] E_list_servers; mkRoute "GET" [Param] E_get_server; mkRoute "PATCH" [Param] E_update_server;
   mkRoute "DELETE" [Param] E_delete_server; mkRoute "POST" [Param; Lit "discover"] E_discover_server_peers;
   mkRoute "GET" [Param; Lit "discovered-peers"] E_list_server_discovered_peers;
   mkRoute "GET" [Lit "discovered-peers"; Lit "all"] E_list_all_discovered_peers;
   mkRoute "POST" [Param; Lit "rotate-host-cert"] E_rotate_server_host_cert;
   mkRoute "POST" [Lit "discover-all"] E_discover_all_servers].

Definition clients_router : list route := under [Lit "clients"]
  [mkRoute "POST" [] E_register_client; mkRoute "POST" [Lit "manual"] E_register_manual_client;
   mkRoute "POST" [Param; Lit "reprovision"] E_reprovision_client;
   mkRoute "POST" [Param; Lit "rotate-host-cert"] E_rotate_client_host_cert; mkRoute "GET" [] E_list_clients;
   mkRoute "GET" [Lit "export"; Lit "ssh-config"] E_export_ssh_config; mkRoute "GET" [Param] E_get_client;
   mkRoute "PATCH" [Param] E_update_client; mkRoute "DELETE" [Param] E_delete_client].

Definition tasks_router : list route := under [Lit "tasks"] [mkRoute "GET" [Param] E_get_task_status].
Definition crypto_router : list route := under [Lit "crypto"] [mkRoute "GET" [Lit "status"] E_get_crypto_status].

Definition certs_router : list route := under [Lit "certs"]
  [mkRoute "GET" [Lit "whoami"] E_whoami; mkRoute "GET" [] E_list_certs; mkRoute "POST" [] E_issue_cert;
   mkRoute "POST" [Param; Lit "renew"] E_renew_cert; mkRoute "POST" [Param; Lit "revoke"] E_revoke_cert].

Definition audit_router : list route := under [Lit "audit"] [mkRoute "GET" [] E_list_audit_events].

Definition tenants_router : list route := under [Lit "tenants"]
  [mkRoute "GET" [] E_list_tenants; mkRoute "GET" [Param] E_get_tenant; mkRoute "POST" [] E_create_tenant;
   mkRoute "PATCH" [Param] E_update_tenant; mkRoute "POST" [Param; Lit "operators"] E_attach_operator;
   mkRoute "DELETE" [Param; Lit "operators"; Param] E_detach_operator; mkRoute "GET" [Param; Lit "operators"] E_list_tenant_operators].

Definition enrollment_tokens_router : list route := under [Lit "enrollment-tokens"]
  [mkRoute "POST" [] E_create_enrollment_token; mkRoute "GET" [] E_list_enrollment_tokens;
   mkRoute "GET" [Param] E_get_enrollment_token; mkRoute "POST" [Param; Lit "revoke"] E_revoke_enrollment_token].

Definition health_router : list route := [mkRoute "GET" [Lit "healthz"] E_healthz; mkRoute "GET" [Lit "readyz"] E_readyz].

Definition ROUTERS : list route :=
  ssh_keys_router ++ servers_router ++ clients_router ++ tasks_router ++ crypto_router ++ certs_router ++ audit_router ++
  tenants_router ++ enrollment_tokens_router ++ health_router.

(** Every router at the root and below [/v1], then the two routes of the
    application itself. *)
Definition app_routes : list route :=
  ROUTERS ++ under [Lit "v1"] ROUTERS ++
  [mkRoute "GET" [Lit "metrics"] E_metrics; mkRoute "GET" [Lit "v1"; Lit "openapi.json"] E_v1_openapi].

(** ** Matching *)

Fixpoint match_segs (pattern : list seg) (parts : list string) : option (list string) :=
  match pattern, parts with
  | [], [] => Some []
  | Lit s :: pattern', p :: parts' => if String.eqb s p then match_segs pattern' parts' else None
  | Param :: pattern', p :: parts' => if nonempty p then cons p <$> match_segs pattern' parts' else None
  | _, _ => None
  end.

Definition match_path (pattern : list seg) (parts : list string) : option (list string) :=
  if Nat.eqb (length pattern) (length parts) then match_segs pattern parts else None.

Fixpoint find_route (routes : list route) (method : string) (parts : list string) : option (endpoint * list string) :=
  match routes with
  | [] => None
  | r :: routes' =>
      if String.eqb (rt_method r) method then
        match match_path (rt_path r) parts with
        | Some params => Some (rt_endpoint r, params)
        | None => find_route routes' method parts
        end
      else find_route routes' method parts
  end.

(** The segments of a path; it starts with a slash. *)
Definition segments (path : string) : list string := tail (split_on "/" path).

Definition route_request (method path : string) : option (endpoint * list string) := find_route app_routes method (segments path).

(** ** Payloads *)

(** Requests as the handlers see them. *)
Record api_http := mkApiHttp { ah_method : string; ah_path : string; ah_params : list (string * string); ah_json : option json }.

(** What a request reaches: an operation of [Api], or a read. *)
Inductive read_request :=
| ListSshKeys | GetSshKey (key_id : Z) | ListServers | GetServer (server_id : Z) | ListServerPeers (server_id : Z) | ListAllPeers
| ListClients | GetClient (client_id : Z) | ExportSshConfig | GetTaskStatus (task_id : string)
| ListTokens (server_id : option Z) (active : bool) | GetToken (token_id : Z).
Inductive served := Change (r : api_request) | View (r : read_request) | Elsewhere (e : endpoint) (params : list string).

(** Who asks, and the random bytes the handler draws. *)
Record caller := mkCaller { by_actor : actor; in_scope : TenantScope; as_operator : option (Z * Operator); drawn : bytes }.

Section decoding.
Context (coerce_str : json -> option string) (coerce_int : json -> option Z)
  (int_text : string -> option Z) (bool_text : string -> option bool).

Definition as_str_field (j : json) : option string := match j with JStr s => Some s | _ => coerce_str j end.
Definition as_int_field (j : json) : option Z := match j with JInt n => Some n | _ => coerce_int j end.
Fixpoint as_str_list (l : list json) : option (list string) :=
  match l with [] => Some [] | j :: l' => s ← as_str_field j; ss ← as_str_list l'; Some (s :: ss) end.

(** A required field, one with a default, one that may be null. *)
Definition field {A} (conv : json -> option A) (k : string) (l : list (string * json)) : option A := dict_get k l ≫= conv.
Definition field_or {A} (conv : json -> option A) (k : string) (d : A) (l : list (string * json)) : option A :=
  match dict_get k l with Some j => conv j | None => Some d end.
Definition field_opt {A} (conv : json -> option A) (k : string) (l : list (string * json)) : option (option A) :=
  match dict_get k l with Some JNull | None => Some None | Some j => Some <$> conv j end.

(** [extra="forbid"] *)
Definition only (keys : list string) (l : list (string * json)) : bool := forallb (fun kv => mem kv.1 keys) l.

Definition decode_ssh_key_create (l : list (string * json)) : option SSHKeyCreate :=
  if only ["name"; "tenant_id"] l then
    name ← field as_str_field "name" l; tenant ← field_opt as_int_field "tenant_id" l; Some (mkSSHKeyCreate name tenant)
  else None.

Definition decode_bootstrap (l : list (string * json)) : option BootstrapKeyFields :=
  pem ← field_opt as_str_field "bootstrap_ssh_key_pem" l;
  pass ← field_opt as_str_field "bootstrap_ssh_key_passphrase" l;
  Some (mkBootstrapKeyFields pem pass).

Definition decode_server_create (l : list (string * json)) : option ServerCreate :=
  hostname ← field as_str_field "hostname" l; port ← field_or as_int_field "ssh_port" 22 l;
  user ← field as_str_field "ssh_username" l; key ← field as_int_field "ssh_key_id" l;
  ehost ← field as_str_field "endpoint_host" l; eport ← field_or as_int_field "endpoint_port" 51820 l;
  iface ← field_or as_str_field "interface" "wg0" l; subnet ← field_opt as_str_field "subnet" l;
  tenant ← field_opt as_int_field "tenant_id" l; b ← decode_bootstrap l;
  Some (mkServerCreate hostname port user key ehost eport iface subnet tenant b).

Definition decode_client_create (l : list (string * json)) : option ClientCreate :=
  name ← field as_str_field "name" l; hostname ← field as_str_field "hostname" l;
  port ← field_or as_int_field "ssh_port" 22 l; user ← field as_str_field "ssh_username" l;
  key ← field as_int_field "ssh_key_id" l; server ← field as_int_field "server_id" l; b ← decode_bootstrap l;
  Some (mkClientCreate name hostname port user key server b).

Definition decode_manual_create (l : list (string * json)) : option ClientManualCreate :=
  name ← field as_str_field "name" l; server ← field as_int_field "server_id" l; Some (mkClientManualCreate name server).

Definition as_str_list_field (j : json) : option (list string) := match j with JList l => as_str_list l | _ => None end.

Definition decode_token_create (l : list (string * json)) : option EnrollmentTokenCreate :=
  server ← field as_int_field "server_id" l; key ← field as_int_field "ssh_key_id" l;
  user ← field as_str_field "ssh_username" l; prefix ← field_or as_str_field "name_prefix" "node" l;
  ttl ← field_or as_int_field "ttl_seconds" 3600 l; uses ← field_or as_int_field "max_uses" 1 l;
  cidrs ← field_opt as_str_list_field "allowed_cidrs" l;
  Some (mkEnrollmentTokenCreate server key user prefix ttl uses cidrs).

(** A body that must be an object. *)
Definition object_body {A} (decode : list (string * json) -> option A) (rq : api_http) : option A :=
  match ah_json rq with Some (JObj l) => decode l | _ => None end.

(** From a request to the handler's call: [None] is 404, 405 or 422. *)
Definition serve (c : caller) (rq : api_http) : option served :=
  '(e, params) ← route_request (ah_method rq) (ah_path rq);
  match e, params with
  | E_create_ssh_key, [] => p ← object_body decode_ssh_key_create rq; Some (Change (CreateSshKey p (by_actor c) (in_scope c)))
  | E_list_ssh_keys, [] => Some (View ListSshKeys)
  | E_get_ssh_key, [i] => i ← int_text i; Some (View (GetSshKey i))
  | E_delete_ssh_key, [i] => i ← int_text i; Some (Change (DeleteSshKey i (in_scope c)))
  | E_register_server, [] => p ← object_body decode_server_create rq; Some (Change (RegisterServer p (by_actor c) (in_scope c)))
  | E_reprovision_server, [i] => i ← int_text i; Some (Change (ReprovisionServer i))
  | E_list_servers, [] => Some (View ListServers)
  | E_get_server, [i] => i ← int_text i; Some (View (GetServer i))
  | E_delete_server, [i] =>
      i ← int_text i; force ← match dict_get "force" (ah_params rq) with Some t => bool_text t | None => Some false end;
      Some (Change (DeleteServer i (in_scope c) force))
  | E_discover_server_peers, [i] => i ← int_text i; Some (Change (DiscoverServerPeers i))
  | E_list_server_discovered_peers, [i] => i ← int_text i; Some (View (ListServerPeers i))
  | E_list_all_discovered_peers, [] => Some (View ListAllPeers)
  | E_rotate_server_host_cert, [i] => i ← int_text i; Some (Change (RotateServerHostCert i))
  | E_discover_all_servers, [] => Some (Change DiscoverAllServers)
  | E_register_client, [] => p ← object_body decode_client_create rq; Some (Change (RegisterClient p))
  | E_register_manual_client, [] => p ← object_body decode_manual_create rq; Some (Change (RegisterManualClient (drawn c) p))
  | E_reprovision_client, [i] => i ← int_text i; Some (Change (ReprovisionClient i))
  | E_rotate_client_host_cert, [i] => i ← int_text i; Some (Change (RotateClientCert i))
  | E_list_clients, [] => Some (View ListClients)
  | E_export_ssh_config, [] => Some (View ExportSshConfig)
  | E_get_client, [i] => i ← int_text i; Some (View (GetClient i))
  | E_delete_client, [i] => i ← int_text i; Some (Change (DeleteClient i (by_actor c) (in_scope c)))
  | E_get_task_status, [t] => Some (View (GetTaskStatus t))
  | E_create_enrollment_token, [] =>
      p ← object_body decode_token_create rq; Some (Change (CreateToken (drawn c) p (by_actor c) (in_scope c)))
  | E_list_enrollment_tokens, [] =>
      server ← match dict_get "server_id" (ah_params rq) with Some t => Some <$> int_text t | None => Some None end;
      active ← match dict_get "active" (ah_params rq) with Some t => bool_text t | None => Some false end;
      Some (View (ListTokens server active))
  | E_get_enrollment_token, [i] => i ← int_text i; Some (View (GetToken i))
  | E_revoke_enrollment_token, [i] => i ← int_text i; Some (Change (RevokeToken i (by_actor c) (in_scope c)))
  | E_detach_operator, [slug; cn] => Some (Change (DetachOperator slug cn (as_operator c)))
  | e, params => Some (Elsewhere e params)
  end.
End decoding.
