(* ===== verification/CliHttp.v ===== *)
(** * The HTTP commands of the command line

    The commands of [src/src/wg_manager/cli.py] that call the API: the request
    each sends ([_client] and the command's body), and what it does with the
    answer.  [httpx] puts the base URL, which ends in [/v1], before the path. *)

From S2P Require Import Prelude PyStr Hashing Json Models Session TenantScope AuditLog RouterServers RouterClients RouterSshKeys RouterTenants RouterTokens CliCerts Cli Backup Api Routes.

(** ** Requests *)

Definition get_ (path : string) : api_http := mkApiHttp "GET" ("/v1" +:+ path) [] None.
Definition post_ (path : string) (body : option json) : api_http := mkApiHttp "POST" ("/v1" +:+ path) [] body.

Definition keys_add (name : string) : api_http := post_ "/ssh-keys" (Some (JObj [("name", JStr name)])).
Definition keys_list : api_http := get_ "/ssh-keys".
Definition keys_get (key_id : Z) : api_http := get_ ("/ssh-keys/" +:+ dec key_id).
Definition keys_delete (key_id : Z) : api_http := mkApiHttp "DELETE" ("/v1" +:+ "/ssh-keys/" +:+ dec key_id) [] None.

Definition servers_register (hostname ssh_username : string) (ssh_key_id : Z) (endpoint_host : string) (ssh_port endpoint_port : Z)
  (interface : string) : api_http :=
  post_ "/servers" (Some (JObj
    [("hostname", JStr hostname); ("ssh_username", JStr ssh_username); ("ssh_key_id", JInt ssh_key_id);
     ("endpoint_host", JStr endpoint_host); ("ssh_port", JInt ssh_port); ("endpoint_port", JInt endpoint_port);
     ("interface", JStr interface)])).
Definition servers_list : api_http := get_ "/servers".
Definition servers_get (server_id : Z) : api_http := get_ ("/servers/" +:+ dec server_id).
Definition servers_reprovision (server_id : Z) : api_http := post_ ("/servers/" +:+ dec server_id +:+ "/reprovision") None.
Definition servers_discover (server_id : Z) : api_http := post_ ("/servers/" +:+ dec server_id +:+ "/discover") None.
Definition servers_discovered_peers (server_id : Z) : api_http := get_ ("/servers/" +:+ dec server_id +:+ "/discovered-peers").
Definition servers_discover_all : api_http := post_ "/servers/discover-all" None.

Definition clients_register (name hostname ssh_username : string) (ssh_key_id server_id ssh_port : Z) : api_http :=
  post_ "/clients" (Some (JObj
    [("name", JStr name); ("hostname", JStr hostname); ("ssh_username", JStr ssh_username); ("ssh_key_id", JInt ssh_key_id);
     ("server_id", JInt server_id); ("ssh_port", JInt ssh_port)])).
Definition clients_list : api_http := get_ "/clients".
Definition clients_get (client_id : Z) : api_http := get_ ("/clients/" +:+ dec client_id).
Definition clients_add_manual (name : string) (server_id : Z) : api_http :=
  post_ "/clients/manual" (Some (JObj [("name", JStr name); ("server_id", JInt server_id)])).
Definition clients_ssh_config : api_http := get_ "/clients/export/ssh-config".
Definition clients_reprovision (client_id : Z) : api_http := post_ ("/clients/" +:+ dec client_id +:+ "/reprovision") None.

Definition tasks_status (task_id : string) : api_http := get_ ("/tasks/" +:+ task_id).

Definition enroll_tokens_create (server_id ssh_key_id : Z) (ssh_username name_prefix ttl : string) (max_uses : Z)
  (allow_cidr : list string) : outcome api_http :=
  match parse_duration ttl with
  | Raise e => Raise e
  | Ok ttl_seconds => Ok (post_ "/enrollment-tokens" (Some (JObj
      ([("server_id", JInt server_id); ("ssh_key_id", JInt ssh_key_id); ("ssh_username", JStr ssh_username);
        ("name_prefix", JStr name_prefix); ("ttl_seconds", JInt ttl_seconds); ("max_uses", JInt max_uses)] ++
       (if bool_decide (allow_cidr = []) then [] else [("allowed_cidrs", JList (JStr <$> allow_cidr))])))))
  end.
Definition enroll_tokens_list (server_id : option Z) (active : bool) : api_http :=
  mkApiHttp "GET" ("/v1" +:+ "/enrollment-tokens")
    ((match server_id with Some i => [("server_id", dec i)] | None => [] end) ++ (if active then [("active", "true")] else [])) None.
Definition enroll_tokens_revoke (token_id : Z) : api_http := post_ ("/enrollment-tokens/" +:+ dec token_id +:+ "/revoke") None.

(** ** The commands *)

Inductive http_cmd :=
| KeysAdd (name : string) | KeysList | KeysGet (key_id : Z) | KeysDelete (key_id : Z)
| ServersRegister (hostname ssh_username : string) (ssh_key_id : Z) (endpoint_host : string) (ssh_port endpoint_port : Z) (interface : string)
| ServersList | ServersGet (server_id : Z) | ServersReprovision (server_id : Z) | ServersDiscover (server_id : Z)
| ServersDiscoveredPeers (server_id : Z) | ServersDiscoverAll
| ClientsRegister (name hostname ssh_username : string) (ssh_key_id server_id ssh_port : Z)
| ClientsList | ClientsGet (client_id : Z) | ClientsAddManual (name : string) (server_id : Z) | ClientsSshConfig
| ClientsReprovision (client_id : Z)
| TasksStatus (task_id : string)
| TokensCreate (server_id ssh_key_id : Z) (ssh_username name_prefix ttl : string) (max_uses : Z) (allow_cidr : list string)
| TokensList (server_id : option Z) (active : bool) | TokensRevoke (token_id : Z).

Definition request_of (cmd : http_cmd) : outcome api_http :=
  match cmd with
  | KeysAdd n => Ok (keys_add n) | KeysList => Ok keys_list | KeysGet i => Ok (keys_get i) | KeysDelete i => Ok (keys_delete i)
  | ServersRegister h u k eh p ep i => Ok (servers_register h u k eh p ep i)
  | ServersList => Ok servers_list | ServersGet i => Ok (servers_get i) | ServersReprovision i => Ok (servers_reprovision i)
  | ServersDiscover i => Ok (servers_discover i) | ServersDiscoveredPeers i => Ok (servers_discovered_peers i)
  | ServersDiscoverAll => Ok servers_discover_all
  | ClientsRegister n h u k s p => Ok (clients_register n h u k s p)
  | ClientsList => Ok clients_list | ClientsGet i => Ok (clients_get i) | ClientsAddManual n s => Ok (clients_add_manual n s)
  | ClientsSshConfig => Ok clients_ssh_config | ClientsReprovision i => Ok (clients_reprovision i)
  | TasksStatus t => Ok (tasks_status t)
  | TokensCreate s k u n t m cs => enroll_tokens_create s k u n t m cs
  | TokensList s a => Ok (enroll_tokens_list s a) | TokensRevoke i => Ok (enroll_tokens_revoke i)
  end.

(** ** What a command means *)

Definition no_bootstrap_fields : BootstrapKeyFields := mkBootstrapKeyFields None None.

(** The operation of the API a command stands for, with its options as the
    payload. *)
Definition meant (c : caller) (cmd : http_cmd) : outcome served :=
  match cmd with
  | KeysAdd name => Ok (Change (CreateSshKey (mkSSHKeyCreate name None) (by_actor c) (in_scope c)))
  | KeysList => Ok (View ListSshKeys)
  | KeysGet i => Ok (View (GetSshKey i))
  | KeysDelete i => Ok (Change (DeleteSshKey i (in_scope c)))
  | ServersRegister hostname user key ehost port eport iface =>
      Ok (Change (RegisterServer (mkServerCreate hostname port user key ehost eport iface None None no_bootstrap_fields)
                    (by_actor c) (in_scope c)))
  | ServersList => Ok (View ListServers)
  | ServersGet i => Ok (View (GetServer i))
  | ServersReprovision i => Ok (Change (ReprovisionServer i))
  | ServersDiscover i => Ok (Change (DiscoverServerPeers i))
  | ServersDiscoveredPeers i => Ok (View (ListServerPeers i))
  | ServersDiscoverAll => Ok (Change DiscoverAllServers)
  | ClientsRegister name hostname user key server port =>
      Ok (Change (RegisterClient (mkClientCreate name hostname port user key server no_bootstrap_fields)))
  | ClientsList => Ok (View ListClients)
  | ClientsGet i => Ok (View (GetClient i))
  | ClientsAddManual name server => Ok (Change (RegisterManualClient (drawn c) (mkClientManualCreate name server)))
  | ClientsSshConfig => Ok (View ExportSshConfig)
  | ClientsReprovision i => Ok (Change (ReprovisionClient i))
  | TasksStatus t => Ok (View (GetTaskStatus t))
  | TokensCreate server key user prefix ttl uses cidrs =>
      match parse_duration ttl with
      | Raise e => Raise e
      | Ok seconds => Ok (Change (CreateToken (drawn c) (mkEnrollmentTokenCreate server key user prefix seconds uses
                                    (if bool_decide (cidrs = []) then None else Some cidrs)) (by_actor c) (in_scope c)))
      end
  | TokensList server only_active => Ok (View (ListTokens server only_active))
  | TokensRevoke i => Ok (Change (RevokeToken i (by_actor c) (in_scope c)))
  end.

(** Identifiers that are row ids, and a task id of one plain segment. *)
Definition row_id (i : Z) : Prop := 0 <= i < 2 ^ 63.
Definition ids_ok (cmd : http_cmd) : Prop :=
  match cmd with
  | KeysGet i | KeysDelete i | ServersGet i | ServersReprovision i | ServersDiscover i | ServersDiscoveredPeers i
  | ClientsGet i | ClientsReprovision i | TokensRevoke i | TokensList (Some i) _ => row_id i
  | TasksStatus t => t <> "" /\ str_forall (fun ch => negb (char_in ch "/?#%")) t = true
  | _ => True
  end.

(** ** Every command reaches its handler *)

Lemma segments_v1 a t : char_in "/" a = false -> segments ("/v1" +:+ "/" +:+ a +:+ "/" +:+ t) = "v1" :: a :: split_on "/" t.
Proof.
  intros Ha. unfold segments. change ("/v1" +:+ ?x) with ("" +:+ String "/" ("v1" +:+ x)). rewrite split_on_app by done. cbn [tail].
  change ("v1" +:+ "/" +:+ a +:+ "/" +:+ t) with ("v1" +:+ String "/" (a +:+ String "/" t)). by rewrite !split_on_app.
Qed.

Lemma row_id_text i : row_id i -> (exists ch s, dec i = String ch s) /\ char_in "/" (dec i) = false.
Proof.
  intros [Hi _]. split; [|apply decimal_no_char; [done|by apply dec_decimal]].
  destruct (dec i) as [|ch s] eqn:E; [by apply dec_nonnil in E|eauto].
Qed.

Lemma segments_id a i : char_in "/" a = false -> row_id i ->
  segments ("/v1" +:+ "/" +:+ a +:+ "/" +:+ dec i) = ["v1"; a; dec i].
Proof. intros Ha [_ Hi]%row_id_text. by rewrite segments_v1, split_on_none. Qed.

Lemma segments_id_op a i op : char_in "/" a = false -> char_in "/" op = false -> row_id i ->
  segments ("/v1" +:+ "/" +:+ a +:+ "/" +:+ (dec i +:+ "/" +:+ op)) = ["v1"; a; dec i; op].
Proof.
  intros Ha Ho [_ Hi]%row_id_text. rewrite segments_v1 by done. change (dec i +:+ "/" +:+ op) with (dec i +:+ String "/" op).
  by rewrite split_on_app, split_on_none.
Qed.

Lemma as_str_list_strs cs l : as_str_list cs (JStr <$> l) = Some l.
Proof. induction l as [|x l IH]; [done|]. cbn. by rewrite IH. Qed.

Section commands.
Context (coerce_str : json -> option string) (coerce_int : json -> option Z)
  (int_text : string -> option Z) (bool_text : string -> option bool)
  (int_text_dec : forall i, row_id i -> int_text (dec i) = Some i) (bool_text_true : bool_text "true" = Some true).

Let serve_ := serve coerce_str coerce_int int_text bool_text.

(** A request with one row id in its path. *)
Lemma serve_id c rq ep (k : Z -> option served) i parts : row_id i -> segments (ah_path rq) = parts (dec i) ->
  (forall ch s, find_route app_routes (ah_method rq) (parts (String ch s)) = Some (ep, [String ch s])) ->
  (forall s, find_route app_routes (ah_method rq) (segments (ah_path rq)) = Some (ep, [s]) ->
     serve_ c rq = int_text s ≫= k) ->
  serve_ c rq = k i.
Proof.
  intros Hi Hs Hr Hk. destruct (row_id_text i Hi) as [(ch & s & E) _].
  rewrite (Hk (dec i)); [by rewrite int_text_dec|]. by rewrite Hs, E, Hr.
Qed.

Ltac served_by := let s := fresh "s" in let H := fresh "H" in intros s H; unfold serve_, serve, route_request; by rewrite H.
Ltac by_id E k i a :=
  apply (serve_id _ _ E k i (fun x => ["v1"; a; x])); [assumption|by apply (segments_id a)|reflexivity|served_by].
Ltac by_id_op E k i a op :=
  apply (serve_id _ _ E k i (fun x => ["v1"; a; x; op])); [assumption|by apply (segments_id_op a i op)|reflexivity|served_by].

Lemma serve_task c t : t <> "" -> str_forall (fun ch => negb (char_in ch "/?#%")) t = true ->
  serve_ c (tasks_status t) = Some (View (GetTaskStatus t)).
Proof.
  intros Hn Ht. assert (Hs : segments (ah_path (tasks_status t)) = ["v1"; "tasks"; t]).
  { assert (Hc : char_in "/" t = false).
    { apply char_in_false. eapply str_forall_impl; [|exact Ht]. intros ch. rewrite !negb_true_iff. intros Hch.
      destruct (ceqb "/" ch) eqn:E; [|done]. apply ceqb_eq in E as <-. discriminate Hch. }
    etransitivity; [exact (segments_v1 "tasks" t eq_refl)|]. by rewrite split_on_none. }
  unfold serve_, serve, route_request. rewrite Hs. by destruct t.
Qed.

Lemma serve_token_create c sv k u pre ttl uses cidrs :
  match enroll_tokens_create sv k u pre ttl uses cidrs, meant c (TokensCreate sv k u pre ttl uses cidrs) with
  | Ok rq, Ok m => serve_ c rq = Some m
  | Raise e, Raise e' => e = e'
  | _, _ => False
  end.
Proof.
  unfold enroll_tokens_create. cbn [meant]. destruct (parse_duration ttl) as [n|e]; [|done]. case_bool_decide as Hc; [reflexivity|].
  transitivity (l ← as_str_list coerce_str (JStr <$> cidrs);
    Some (Change (CreateToken (drawn c) (mkEnrollmentTokenCreate sv k u pre n uses (Some l)) (by_actor c) (in_scope c)))).
  - unfold serve_, serve, route_request. cbn [ah_json ah_method ah_path post_].
    change (find_route app_routes "POST" (segments ("/v1" +:+ "/enrollment-tokens"))) with (Some (E_create_enrollment_token, @nil string)).
    transitivity (p ← (l ← as_str_list coerce_str (JStr <$> cidrs); Some (mkEnrollmentTokenCreate sv k u pre n uses (Some l)));
      Some (Change (CreateToken (drawn c) p (by_actor c) (in_scope c)))); [|by destruct (as_str_list _ _)].
    transitivity (p ← (o ← Some <$> as_str_list coerce_str (JStr <$> cidrs); Some (mkEnrollmentTokenCreate sv k u pre n uses o));
      Some (Change (CreateToken (drawn c) p (by_actor c) (in_scope c)))); [reflexivity|by destruct (as_str_list _ _)].
  - by rewrite as_str_list_strs.
Qed.

Lemma serve_token_list c sv act : match sv with Some i => row_id i | None => True end ->
  serve_ c (enroll_tokens_list sv act) = Some (View (ListTokens sv act)).
Proof.
  intros Hi. transitivity (server ← match sv with Some i => Some <$> int_text (dec i) | None => Some None end;
    a ← (if act then bool_text "true" else Some false); Some (View (ListTokens server a))); [by destruct sv, act|].
  destruct sv as [i|], act; rewrite ?int_text_dec, ?bool_text_true by done; reflexivity.
Qed.

(** C29. The HTTP commands call what they say.  Every command of the command line
    that goes through the API sends a request that the router of the API hands
    to exactly the handler the command stands for, with the command's options,
    the defaults of the schema included, as the payload; a duration that does
    not parse is refused before anything is sent. *)
Theorem commands_reach_their_handlers c cmd : ids_ok cmd ->
  match request_of cmd, meant c cmd with
  | Ok rq, Ok m => serve_ c rq = Some m
  | Raise e, Raise e' => e = e'
  | _, _ => False
  end.
Proof.
  intros Hid. destruct cmd as [| |i|i|h u k eh pt ep ifc| |i|i|i|i| |n h u k sv pt| |i|n sv| |i|t|sv k u pre ttl uses cidrs|sv act|i];
    cbn [request_of meant ids_ok] in *; try reflexivity.
  - by_id E_get_ssh_key (fun i => Some (View (GetSshKey i))) i "ssh-keys".
  - by_id E_delete_ssh_key (fun i => Some (Change (DeleteSshKey i (in_scope c)))) i "ssh-keys".
  - by_id E_get_server (fun i => Some (View (GetServer i))) i "servers".
  - by_id_op E_reprovision_server (fun i => Some (Change (ReprovisionServer i))) i "servers" "reprovision".
  - by_id_op E_discover_server_peers (fun i => Some (Change (DiscoverServerPeers i))) i "servers" "discover".
  - by_id_op E_list_server_discovered_peers (fun i => Some (View (ListServerPeers i))) i "servers" "discovered-peers".
  - by_id E_get_client (fun i => Some (View (GetClient i))) i "clients".
  - by_id_op E_reprovision_client (fun i => Some (Change (ReprovisionClient i))) i "clients" "reprovision".
  - destruct Hid as [Hn Ht]. by apply serve_task.
  - exact (serve_token_create c sv k u pre ttl uses cidrs).
  - apply serve_token_list. by destruct sv.
  - by_id_op E_revoke_enrollment_token (fun i => Some (Change (RevokeToken i (by_actor c) (in_scope c)))) i "enrollment-tokens" "revoke".
Qed.
End commands.

(** ** What a command does with the answer *)

(** [data\[k\]] on a decoded body. *)
Definition subscript (data : option json) (k : string) : outcome json :=
  match data with
  | Some (JObj l) => match dict_get k l with Some j => Ok j | None => Raise (KeyError k) end
  | Some (JList _) => Raise (TypeError "list indices must be integers or slices, not str")
  | Some (JStr _) => Raise (TypeError "string indices must be integers, not 'str'")
  | _ => Raise (TypeError "object is not subscriptable")
  end.

(** [register], [reprovision] and [discover]: the answer, then with [--wait]
    the task it names; [show] is [str].  [None]: the fuel was not enough. *)
Definition finish_task (show : json -> string) (took : nat -> Z) (reply : string -> nat -> outcome (list (string * json)))
  (wait : bool) (timeout interval : Z) (fuel : nat) (clock : Z) (answer : outcome (option json)) : option (outcome unit) :=
  match answer with
  | Raise e => Some (Raise e)
  | Ok data =>
      if negb wait then Some (Ok tt)
      else match subscript data "task_id" with
           | Raise e => Some (Raise e)
           | Ok t => (fun r => match r with Ok _ => Ok tt | Raise e => Raise e end) <$>
                       wait_task took (reply (show t)) (show t) timeout interval fuel clock
           end
  end.

(** [clients add-manual]: the answer without the configuration, which goes to
    the file, or to the terminal. *)
Definition finish_add_manual (config_output : option string) (data : option json) : M (json * option json) :=
  body <- lift (subscript data "wg_config") ;;
  let redacted := match data with Some (JObj l) => JObj (List.filter (fun kv => negb (String.eqb kv.1 "wg_config")) l) | _ => JNull end in
  match config_output with
  | Some path => text <- lift (match body with JStr t => Ok t | _ => Raise (TypeError "data must be str") end) ;;
                 write_text path text ;; ret (redacted, None)
  | None => ret (redacted, Some body)
  end.

(** [clients ssh-config]: the body as it is. *)
Definition finish_ssh_config (show : json -> string) (output : option string) (r : http_response) : M (option string) :=
  if 400 <=? hr_status r then lift (handle_response show r) ;; ret None
  else match output with
       | Some path => write_text path (hr_text r) ;; ret None
       | None => ret (Some (hr_text r))
       end.

(** [enroll-tokens create]: the token alone, or the whole answer. *)
Definition finish_token_create (token_only : bool) (data : option json) : outcome (option json) :=
  if token_only then match subscript data "token" with Ok t => Ok (Some t) | Raise e => Raise e end else Ok data.

(** The private key is shown once: with [--config-output] it is in the file and
    not in what is printed. *)
Lemma add_manual_keeps_key_in_file path l text w r w' : dict_get "wg_config" l = Some (JStr text) ->
  finish_add_manual (Some path) (Some (JObj l)) w = (Ok r, w') ->
  fst <$> files (outside w') !! path = Some text /\ r.2 = None /\
  exists items, r.1 = JObj items /\ forall j, ("wg_config", j) ∉ items.
Proof.
  intros Hg. unfold finish_add_manual, subscript, bind, lift, ret. rewrite Hg. unfold write_text, write_bytes. intros [= <- <-].
  cbn [outside files]. rewrite lookup_insert_eq. split_and!; [done..|]. eexists. split; [done|].
  intros j [_ Hj]%list_elem_of_In%filter_In. cbn in Hj. discriminate.
Qed.

(** ** Witness *)

Definition demo_caller : caller := mkCaller (mkActor None None) unscoped None [].
Definition demo_bool (s : string) : option bool := if String.eqb s "true" then Some true else None.

Lemma small_id i : row_id i -> py_int (dec i) = Some i.
Proof.
  intros [H1 H2]. apply py_int_dec. split; [done|]. apply (Z.lt_le_trans _ (2 ^ 63)); [done|].
  apply (Z.le_trans _ (10 ^ 19)); [vm_compute; discriminate|]. apply Z.pow_le_mono_r; [lia|]. vm_compute. discriminate.
Qed.

Lemma commands_reach_their_handlers_witness :
  serve (fun _ => None) (fun _ => None) py_int demo_bool demo_caller (servers_register "hub" "root" 1 "vpn.example" 22 51820 "wg0") =
    Some (Change (RegisterServer (mkServerCreate "hub" 22 "root" 1 "vpn.example" 51820 "wg0" None None no_bootstrap_fields)
                    (mkActor None None) unscoped)) /\
  serve (fun _ => None) (fun _ => None) py_int demo_bool demo_caller (enroll_tokens_revoke 7) =
    Some (Change (RevokeToken 7 (mkActor None None) unscoped)).
Proof.
  split.
  - exact (commands_reach_their_handlers (fun _ => None) (fun _ => None) py_int demo_bool small_id eq_refl demo_caller
      (ServersRegister "hub" "root" 1 "vpn.example" 22 51820 "wg0") I).
  - exact (commands_reach_their_handlers (fun _ => None) (fun _ => None) py_int demo_bool small_id eq_refl demo_caller
      (TokensRevoke 7) ltac:(split; [discriminate|reflexivity])).
Defined.
