(* ===== verification/Migrations.v ===== *)
(** * Schema migrations

    [src/alembic/versions/]: the twenty-two revisions as functions on a
    database with its schema, and the walk along the revision chain.  A
    statement changes schema and rows; neither dialect has transactional DDL, so
    what a failed revision did before it failed stays.  The rules that only
    MySQL enforces (foreign keys, and the index a foreign key needs) are marked
    with the dialect.  Column widths are part of the schema but are not enforced
    on text. *)

From S2P Require Import Prelude PyStr Hashing Json Models Session Backup.

(** ** Schema and rows *)

Inductive sql_type :=
| Integer | BigInteger | BigIntUnsigned | VarChar (length : Z) | TextType | BooleanType | DateTimeType | EnumType (values : list string).
#[export] Instance sql_type_eq_dec : EqDecision sql_type.
Proof. solve_decision. Defined.

Inductive sql_value := SNull | SInt (n : Z) | SText (s : string) | SBool (b : bool) | STime (t : Z).
#[export] Instance sql_value_eq_dec : EqDecision sql_value.
Proof. solve_decision. Defined.

(** [sa.Column], [op.create_index] and a table; the primary key is [id]. *)
Record sa_column := Column_ { c_name : string; c_type : sql_type; c_nullable : bool; c_default : option sql_value }.
Record sa_index := Index_ { ix_name : string; ix_columns : list string; ix_unique : bool }.
Record sa_table := Table_ {
  t_columns : list sa_column; t_fks : list (string * string); t_uniques : list (list string); t_indexes : list sa_index
}.
#[export] Instance sa_column_eq_dec : EqDecision sa_column.
Proof. solve_decision. Defined.
#[export] Instance sa_index_eq_dec : EqDecision sa_index.
Proof. solve_decision. Defined.
#[export] Instance sa_table_eq_dec : EqDecision sa_table.
Proof. solve_decision. Defined.

Definition schema : Type := list (string * sa_table).
Notation sql_row := (gmap string sql_value).
Record mdb := mkMdb { m_schema : schema; m_rows : gmap string (list sql_row) }.

Definition rows_of (t : string) (d : mdb) : list sql_row := default [] (m_rows d !! t).
Definition cell (c : string) (r : sql_row) : sql_value := default SNull (r !! c).
Definition is_null (v : sql_value) : bool := match v with SNull => true | _ => false end.

Definition names (t : sa_table) : list string := c_name <$> t_columns t.
Definition find_column (c : string) (t : sa_table) : option sa_column := List.find (fun k => String.eqb (c_name k) c) (t_columns t).

Fixpoint set_entry (name : string) (t : sa_table) (s : schema) : schema :=
  match s with
  | [] => [(name, t)]
  | (n, t0) :: s' => if String.eqb n name then (name, t) :: s' else (n, t0) :: set_entry name t s'
  end.
Definition drop_entry (name : string) (s : schema) : schema := List.filter (fun e => negb (String.eqb e.1 name)) s.

(** ** Statements *)

Inductive mig_error := Db_error (reason : string) | Refused (message : string).
Definition mig : Type := mdb -> option mig_error * mdb.

Fixpoint seq (l : list mig) : mig :=
  match l with
  | [] => fun d => (None, d)
  | m :: l' => fun d => match m d with (None, d') => seq l' d' | (Some e, d') => (Some e, d') end
  end.

Definition stmt_fail (why : string) : mig := fun d => (Some (Db_error why), d).
Definition with_table (t : string) (k : sa_table -> mig) : mig := fun d =>
  match dict_get t (m_schema d) with Some tb => k tb d | None => stmt_fail "no such table" d end.

(** A change of the schema of one table and of its rows. *)
Definition alter (t : string) (tb : sa_table) (f : list sql_row -> list sql_row) : mig := fun d =>
  (None, mkMdb (set_entry t tb (m_schema d)) (<[t := f (rows_of t d)]> (m_rows d))).

Section statements.
(** Whether the dialect is MySQL or MariaDB. *)
Context (mysql : bool).

Definition create_table (t : string) (columns : list sa_column) (fks : list (string * string)) (uniques : list (list string)) : mig := fun d =>
  if bool_decide (is_Some (dict_get t (m_schema d))) then stmt_fail "table already exists" d
  else if mysql && negb (forallb (fun fk => mem fk.2 (t :: (fst <$> m_schema d))) fks) then stmt_fail "failed to open the referenced table" d
  else alter t (Table_ columns fks uniques []) (fun _ => []) d.

(** A table that a foreign key of another refers to stays. *)
Definition drop_table (t : string) : mig := with_table t (fun _ d =>
  if mysql && existsb (fun e => negb (String.eqb e.1 t) && existsb (fun fk => String.eqb fk.2 t) (t_fks e.2)) (m_schema d)
  then stmt_fail "cannot drop table referenced by a foreign key constraint" d
  else (None, mkMdb (drop_entry t (m_schema d)) (delete t (m_rows d)))).

Definition duplicated (columns : list string) (rows : list sql_row) : bool :=
  negb (bool_decide (NoDup (List.filter (fun k => negb (existsb is_null k)) ((fun r => (fun c => cell c r) <$> columns) <$> rows)))).

Definition create_index (name t : string) (columns : list string) (unique : bool) : mig := with_table t (fun tb d =>
  if mem name (ix_name <$> t_indexes tb) then stmt_fail "duplicate key name" d
  else if negb (forallb (fun c => mem c (names tb)) columns) then stmt_fail "no such column" d
  else if unique && duplicated columns (rows_of t d) then stmt_fail "duplicate entry" d
  else alter t (Table_ (t_columns tb) (t_fks tb) (t_uniques tb) (t_indexes tb ++ [Index_ name columns unique])) id d).

(** The index that the foreign key on a column uses: any whose first column it
    is. *)
Definition backs (c : string) (columns : list string) : bool := match columns with c' :: _ => String.eqb c c' | [] => false end.
Definition needed_by_fk (name : string) (tb : sa_table) : bool :=
  let rest := List.filter (fun ix => negb (String.eqb (ix_name ix) name)) (t_indexes tb) in
  existsb (fun fk => existsb (fun ix => String.eqb (ix_name ix) name && backs fk.1 (ix_columns ix)) (t_indexes tb) &&
                     negb (existsb (backs fk.1) (t_uniques tb ++ (ix_columns <$> rest)))) (t_fks tb).

Definition drop_index (name t : string) : mig := with_table t (fun tb d =>
  if negb (mem name (ix_name <$> t_indexes tb)) then stmt_fail "no such index" d
  else if mysql && needed_by_fk name tb then stmt_fail "cannot drop index: needed in a foreign key constraint" d
  else alter t (Table_ (t_columns tb) (t_fks tb) (t_uniques tb)
                  (List.filter (fun ix => negb (String.eqb (ix_name ix) name)) (t_indexes tb))) id d).

(** Rows that are there get the server default, or [NULL]. *)
Definition add_column_fk (t : string) (c : sa_column) (fk : option string) : mig := with_table t (fun tb d =>
  if mem (c_name c) (names tb) then stmt_fail "duplicate column name" d
  else if negb (c_nullable c) && bool_decide (c_default c = None) && negb (bool_decide (rows_of t d = []))
  then stmt_fail "cannot add a NOT NULL column without a default" d
  else alter t (Table_ (t_columns tb ++ [c]) (t_fks tb ++ from_option (fun t' => [(c_name c, t')]) [] fk) (t_uniques tb) (t_indexes tb))
         (fmap (insert (c_name c) (default SNull (c_default c)))) d).
Definition add_column (t : string) (c : sa_column) : mig := add_column_fk t c None.

Definition drop_column (t c : string) : mig := with_table t (fun tb d =>
  if negb (mem c (names tb)) then stmt_fail "no such column" d
  else if mysql && existsb (fun fk => String.eqb fk.1 c) (t_fks tb) then stmt_fail "cannot drop column: needed in a foreign key constraint" d
  else if existsb (fun ix => mem c (ix_columns ix)) (t_indexes tb) || existsb (mem c) (t_uniques tb) then stmt_fail "column is indexed" d
  else alter t (Table_ (List.filter (fun k => negb (String.eqb (c_name k) c)) (t_columns tb))
                  (List.filter (fun fk => negb (String.eqb fk.1 c)) (t_fks tb)) (t_uniques tb) (t_indexes tb))
         (fmap (delete c)) d).

Definition on_column (c : string) (f : sa_column -> sa_column) (tb : sa_table) : sa_table :=
  Table_ ((fun k => if String.eqb (c_name k) c then f k else k) <$> t_columns tb) (t_fks tb) (t_uniques tb) (t_indexes tb).

Definition alter_nullable (t c : string) (nullable : bool) : mig := with_table t (fun tb d =>
  if negb (mem c (names tb)) then stmt_fail "no such column" d
  else if negb nullable && existsb (fun r => is_null (cell c r)) (rows_of t d) then stmt_fail "column cannot be null" d
  else alter t (on_column c (fun k => Column_ (c_name k) (c_type k) nullable (c_default k)) tb) id d).

(** [MODIFY] of an integer column; a value the new type cannot hold stops it. *)
Definition holds_int (ty : sql_type) (v : sql_value) : bool :=
  match v, ty with
  | SInt n, Integer => (- 2 ^ 31 <=? n) && (n <? 2 ^ 31)
  | SInt n, BigInteger => (- INT64_LIMIT <=? n) && (n <? INT64_LIMIT)
  | SInt n, BigIntUnsigned => (0 <=? n) && (n <? UINT64_LIMIT)
  | _, _ => is_null v
  end.
Definition alter_type (t c : string) (ty : sql_type) : mig := with_table t (fun tb d =>
  if negb (mem c (names tb)) then stmt_fail "no such column" d
  else if negb (forallb (fun r => holds_int ty (cell c r)) (rows_of t d)) then stmt_fail "out of range value for column" d
  else alter t (on_column c (fun k => Column_ (c_name k) ty (c_nullable k) (c_default k)) tb) id d).

(** [UPDATE t SET c = v WHERE ...]; the foreign key on the column is checked. *)
Definition id_in (t : string) (d : mdb) (v : sql_value) : bool :=
  is_null v || existsb (fun r => bool_decide (cell "id" r = v)) (rows_of t d).
Definition fk_stored (tb : sa_table) (d : mdb) (r : sql_row) : bool :=
  negb mysql || forallb (fun fk => id_in fk.2 d (cell fk.1 r)) (t_fks tb).

Definition update_set (t c : string) (v : sql_value) (where_ : sql_row -> bool) : mig := with_table t (fun tb d =>
  match find_column c tb with
  | None => stmt_fail "no such column" d
  | Some k =>
      let touched := List.filter where_ (rows_of t d) in
      if negb (c_nullable k) && is_null v && negb (bool_decide (touched = [])) then stmt_fail "column cannot be null" d
      else if mysql && negb (bool_decide (touched = [])) && negb (forallb (fun fk => negb (String.eqb fk.1 c) || id_in fk.2 d v) (t_fks tb))
      then stmt_fail "foreign key constraint fails" d
      else alter t tb (fmap (fun r => if where_ r then <[c := v]> r else r)) d
  end).

Definition delete_where (t : string) (where_ : sql_row -> bool) : mig := with_table t (fun tb d =>
  let gone := cell "id" <$> List.filter where_ (rows_of t d) in
  if mysql && existsb (fun e => existsb (fun fk => String.eqb fk.2 t &&
       existsb (fun r => mem (cell fk.1 r) gone && negb (is_null (cell fk.1 r))) (rows_of e.1 d)) (t_fks e.2)) (m_schema d)
  then stmt_fail "a foreign key constraint fails" d
  else alter t tb (List.filter (fun r => negb (where_ r))) d).

(** [INSERT]: given cells, the next id, server defaults, [NULL]. *)
Definition next_row_id (rows : list sql_row) : Z :=
  foldr (fun r m => match cell "id" r with SInt n => Z.max (n + 1) m | _ => m end) 1 rows.
Definition complete_row (tb : sa_table) (rows : list sql_row) (given : sql_row) : sql_row :=
  list_to_map ((fun k => (c_name k,
    match given !! c_name k with
    | Some v => v
    | None => if String.eqb (c_name k) "id" then SInt (next_row_id rows) else default SNull (c_default k)
    end)) <$> t_columns tb).

Definition insert_into (t : string) (given : sql_row) : mig := with_table t (fun tb d =>
  let r := complete_row tb (rows_of t d) given in
  let rows := rows_of t d ++ [r] in
  if existsb (fun k => negb (c_nullable k) && is_null (cell (c_name k) r)) (t_columns tb) then stmt_fail "column cannot be null" d
  else if duplicated ["id"] rows || existsb (fun u => duplicated u rows) (t_uniques tb ++ (ix_columns <$> List.filter ix_unique (t_indexes tb)))
  then stmt_fail "duplicate entry" d
  else if negb (fk_stored tb d r) then stmt_fail "foreign key constraint fails" d
  else alter t tb (fun _ => rows) d).
End statements.
