(* ===== verification/Revisions.v ===== *)
(** * The revisions

    One definition per [upgrade] and [downgrade] of [src/alembic/versions/], in
    the order of the chain, and [alembic upgrade] and [downgrade] along it. *)

From S2P Require Import Prelude PyStr Hashing Json Models Session Backup Migrations.

Definition col (name : string) (ty : sql_type) (nullable : bool) : sa_column := Column_ name ty nullable None.
Definition col_default_ (name : string) (ty : sql_type) (v : sql_value) : sa_column := Column_ name ty false (Some v).
Definition id_column : sa_column := col "id" Integer false.
Definition STATUS_VALUES : list string := ["pending"; "ready"; "error"].

Section revisions.
(** [mysql]: what [_is_mysql] of 0020 asks of the dialect ([native_dialect] of
    [Models]); the clock readings of 0014 and 0015; [Settings.default_subnet]. *)
Context (mysql : bool) (now now' : Z) (default_subnet : string).

Let create_table := create_table mysql.
Let drop_table := drop_table mysql.
Let drop_index := drop_index mysql.
Let drop_column := drop_column mysql.
Let update_set := update_set mysql.
Let insert_into := insert_into mysql.

(** ** 0001 to 0005 *)

Definition upgrade_0001 : mig := seq
  [create_table "sshkey"
     [id_column; col "name" (VarChar 255) false; col "private_key" TextType false; col "passphrase" (VarChar 255) true;
      col "created_at" DateTimeType false] [] [];
   create_index "ix_sshkey_name" "sshkey" ["name"] true;
   create_table "server"
     [id_column; col "hostname" (VarChar 255) false; col "ssh_port" Integer false; col "ssh_username" (VarChar 255) false;
      col "ssh_key_id" Integer false; col "endpoint_host" (VarChar 255) false; col "endpoint_port" Integer false;
      col "interface" (VarChar 64) false; col "subnet" (VarChar 64) false; col "address" (VarChar 64) false;
      col "public_key" (VarChar 255) false; col "status" (EnumType STATUS_VALUES) false; col "created_at" DateTimeType false]
     [("ssh_key_id", "sshkey")] [];
   create_table "client"
     [id_column; col "name" (VarChar 255) false; col "hostname" (VarChar 255) false; col "ssh_port" Integer false;
      col "ssh_username" (VarChar 255) false; col "ssh_key_id" Integer false; col "server_id" Integer false;
      col "address" (VarChar 64) false; col "public_key" (VarChar 255) false; col "status" (EnumType STATUS_VALUES) false;
      col "created_at" DateTimeType false]
     [("server_id", "server"); ("ssh_key_id", "sshkey")] [];
   create_index "ix_client_name" "client" ["name"] true].
Definition downgrade_0001 : mig := seq
  [drop_index "ix_client_name" "client"; drop_table "client"; drop_table "server"; drop_index "ix_sshkey_name" "sshkey";
   drop_table "sshkey"].

Definition upgrade_0002 : mig := seq
  [create_table "discoveredpeer"
     [id_column; col "server_id" Integer false; col "public_key" (VarChar 255) false; col "allowed_ips" (VarChar 255) false;
      col "endpoint" (VarChar 255) true; col "last_handshake_at" DateTimeType true; col "rx_bytes" BigInteger false;
      col "tx_bytes" BigInteger false; col "persistent_keepalive" Integer true; col "is_managed" BooleanType false;
      col "first_seen_at" DateTimeType false; col "last_seen_at" DateTimeType false]
     [("server_id", "server")] [["server_id"; "public_key"]];
   create_index "ix_discoveredpeer_server_id" "discoveredpeer" ["server_id"] false;
   create_index "ix_discoveredpeer_public_key" "discoveredpeer" ["public_key"] false].
Definition downgrade_0002 : mig := seq
  [drop_index "ix_discoveredpeer_public_key" "discoveredpeer"; drop_index "ix_discoveredpeer_server_id" "discoveredpeer";
   drop_table "discoveredpeer"].

Definition upgrade_0003 : mig := seq
  [alter_nullable "client" "hostname" true; alter_nullable "client" "ssh_username" true; alter_nullable "client" "ssh_key_id" true;
   add_column "client" (col "private_key" TextType true); add_column "client" (col_default_ "is_manual" BooleanType (SBool false))].
Definition downgrade_0003 : mig := seq
  [delete_where mysql "client" (fun r => bool_decide (cell "is_manual" r = SBool true));
   drop_column "client" "is_manual"; drop_column "client" "private_key"; alter_nullable "client" "ssh_key_id" false;
   alter_nullable "client" "ssh_username" false; alter_nullable "client" "hostname" false].

Definition upgrade_0004 : mig := seq
  [add_column "sshkey" (col "private_key_ct" TextType true); add_column "sshkey" (col "passphrase_ct" (VarChar 512) true);
   add_column "client" (col "private_key_ct" TextType true)].
Definition downgrade_0004 : mig := seq
  [drop_column "client" "private_key_ct"; drop_column "sshkey" "passphrase_ct"; drop_column "sshkey" "private_key_ct"].

Definition upgrade_0005 : mig := seq
  [drop_column "sshkey" "passphrase"; drop_column "sshkey" "private_key"; drop_column "client" "private_key"].
Definition downgrade_0005 : mig := seq
  [add_column "sshkey" (col "private_key" TextType true); add_column "sshkey" (col "passphrase" (VarChar 512) true);
   add_column "client" (col "private_key" (VarChar 512) true)].

(** ** 0006 to 0009 *)

Definition add_host_cert (t : string) : mig := seq
  [add_column t (col "host_cert_pem" TextType true); add_column t (col "host_cert_serial" BigInteger true);
   add_column t (col "host_cert_principals" (VarChar 512) true); add_column t (col "host_cert_valid_after" DateTimeType true);
   add_column t (col "host_cert_valid_before" DateTimeType true); add_column t (col "host_cert_ca_public_key" TextType true)].
Definition drop_host_cert (t : string) : mig := seq
  [drop_column t "host_cert_ca_public_key"; drop_column t "host_cert_valid_before"; drop_column t "host_cert_valid_after";
   drop_column t "host_cert_principals"; drop_column t "host_cert_serial"; drop_column t "host_cert_pem"].

Definition upgrade_0006 : mig := add_host_cert "server".
Definition downgrade_0006 : mig := drop_host_cert "server".

(** A key row with stored material is [legacy], one without is [ca]. *)
Definition unset_or (v : string) (r : sql_row) : bool :=
  is_null (cell "mode" r) || bool_decide (cell "mode" r = SText v).
Definition upgrade_0007 : mig := seq
  [add_column "sshkey" (col_default_ "mode" (VarChar 16) (SText "legacy"));
   update_set "sshkey" "mode" (SText "legacy") (fun r => negb (is_null (cell "private_key_ct" r)) && unset_or "legacy" r);
   update_set "sshkey" "mode" (SText "ca") (fun r => is_null (cell "private_key_ct" r) && unset_or "legacy" r)].
Definition downgrade_0007 : mig := drop_column "sshkey" "mode".

Definition legacy_rows (d : mdb) : list sql_row := List.filter (fun r => bool_decide (cell "mode" r = SText "legacy")) (rows_of "sshkey" d).
Definition refusal (legacy_count : nat) : string :=
  "Alembic 0008 refuses to run — " +:+ dec (Z.of_nat legacy_count) +:+ " sshkey row(s) still in mode='legacy'. Dropping the ciphertext columns now would destroy the bootstrap material those rows still need. Migrate them to CA mode first; see docs/migrations/2c-ssh-ca.md for the two supported recovery paths (prior-release CLI or manual SQL fixup). Inspect the offending rows with: SELECT id, name FROM sshkey WHERE mode = 'legacy';".
Definition guard_0008 : mig := fun d =>
  match length (legacy_rows d) with O => (None, d) | n => (Some (Refused (refusal n)), d) end.
Definition upgrade_0008 : mig := seq [guard_0008; drop_column "sshkey" "private_key_ct"; drop_column "sshkey" "passphrase_ct"].
Definition downgrade_0008 : mig := seq
  [add_column "sshkey" (col "passphrase_ct" TextType true); add_column "sshkey" (col "private_key_ct" TextType true)].

Definition upgrade_0009 : mig := drop_column "client" "private_key_ct".
Definition downgrade_0009 : mig := add_column "client" (col "private_key_ct" TextType true).

(** ** 0010 to 0013 *)

Definition upgrade_0010 : mig := seq
  [create_table "operator"
     [id_column; col "cn" (VarChar 255) false; col "display_name" (VarChar 255) true;
      col_default_ "role" (VarChar 16) (SText "operator"); col_default_ "status" (VarChar 16) (SText "active");
      col "created_at" DateTimeType false] [] [];
   create_index "ix_operator_cn" "operator" ["cn"] true].
Definition downgrade_0010 : mig := seq [drop_index "ix_operator_cn" "operator"; drop_table "operator"].

Definition upgrade_0011 : mig := seq
  [create_table "certificate"
     [id_column; col "serial" (VarChar 64) false; col "cert_type" (VarChar 16) false; col "operator_id" Integer true;
      col "common_name" (VarChar 255) false; col_default_ "sans" (VarChar 1024) (SText ""); col "not_before" DateTimeType false;
      col "not_after" DateTimeType false; col_default_ "revoked" BooleanType (SBool false); col "revoked_at" DateTimeType true;
      col "created_at" DateTimeType false]
     [("operator_id", "operator")] [];
   create_index "ix_certificate_serial" "certificate" ["serial"] true; create_index "ix_certificate_cert_type" "certificate" ["cert_type"] false;
   create_index "ix_certificate_operator_id" "certificate" ["operator_id"] false;
   create_index "ix_certificate_common_name" "certificate" ["common_name"] false;
   create_index "ix_certificate_revoked" "certificate" ["revoked"] false].
Definition downgrade_0011 : mig := seq
  [drop_index "ix_certificate_revoked" "certificate"; drop_index "ix_certificate_common_name" "certificate";
   drop_index "ix_certificate_operator_id" "certificate"; drop_index "ix_certificate_cert_type" "certificate";
   drop_index "ix_certificate_serial" "certificate"; drop_table "certificate"].

Definition upgrade_0012 : mig := seq
  [add_column "certificate" (col "out_cert_path" (VarChar 512) true); add_column "certificate" (col "out_key_path" (VarChar 512) true);
   add_column "certificate" (col "out_chain_path" (VarChar 512) true)].
Definition downgrade_0012 : mig := seq
  [drop_column "certificate" "out_chain_path"; drop_column "certificate" "out_key_path"; drop_column "certificate" "out_cert_path"].

Definition upgrade_0013 : mig := seq
  [create_table "auditevent"
     [id_column; col "ts" DateTimeType false; col "event" (VarChar 64) false; col "actor_cn" (VarChar 255) true;
      col "actor_serial" (VarChar 64) true; col "actor_role" (VarChar 16) true; col "resource_type" (VarChar 32) false;
      col "resource_id" Integer true; col "action" (VarChar 16) false; col "before_hash" (VarChar 64) true;
      col "after_hash" (VarChar 64) true; col "payload" TextType true; col "request_id" (VarChar 64) true] [] [];
   create_index "ix_auditevent_ts" "auditevent" ["ts"] false; create_index "ix_auditevent_event" "auditevent" ["event"] false;
   create_index "ix_auditevent_actor_cn" "auditevent" ["actor_cn"] false;
   create_index "ix_auditevent_resource" "auditevent" ["resource_type"; "resource_id"] false].
Definition downgrade_0013 : mig := seq
  [drop_index "ix_auditevent_resource" "auditevent"; drop_index "ix_auditevent_actor_cn" "auditevent";
   drop_index "ix_auditevent_event" "auditevent"; drop_index "ix_auditevent_ts" "auditevent"; drop_table "auditevent"].

(** ** 0014 to 0016: tenants *)

Definition TENANTED_TABLES : list string := ["operator"; "server"; "client"; "sshkey"; "certificate"; "auditevent"].
Definition default_tenant_row : sql_row :=
  {["id" := SInt 1; "name" := SText "default"; "slug" := SText "default"; "created_at" := STime now]}.

Definition add_tenant_id (t : string) : mig := seq
  [add_column_fk t (col "tenant_id" Integer true) (Some "tenant"); create_index ("ix_" +:+ t +:+ "_tenant_id") t ["tenant_id"] false].
Definition backfill_tenant (t : string) : mig := update_set t "tenant_id" (SInt 1) (fun r => is_null (cell "tenant_id" r)).
Definition drop_tenant_id (t : string) : mig := seq [drop_index ("ix_" +:+ t +:+ "_tenant_id") t; drop_column t "tenant_id"].

Definition upgrade_0014 : mig := seq
  ([create_table "tenant"
      [id_column; col "name" (VarChar 64) false; col "slug" (VarChar 64) false; col "created_at" DateTimeType false] []
      [["name"]; ["slug"]];
    create_index "ix_tenant_name" "tenant" ["name"] true; create_index "ix_tenant_slug" "tenant" ["slug"] true;
    insert_into "tenant" default_tenant_row] ++
   (add_tenant_id <$> TENANTED_TABLES) ++ (backfill_tenant <$> TENANTED_TABLES)).
Definition downgrade_0014 : mig := seq
  ((drop_tenant_id <$> TENANTED_TABLES) ++
   [drop_index "ix_tenant_slug" "tenant"; drop_index "ix_tenant_name" "tenant"; drop_table "tenant"]).

Definition membership_row (operator : sql_row) : sql_row :=
  {["operator_id" := cell "id" operator; "tenant_id" := SInt 1; "role" := cell "role" operator; "created_at" := STime now']}.
Definition backfill_memberships : mig := fun d =>
  seq ((fun o => insert_into "operatortenant" (membership_row o)) <$> rows_of "operator" d) d.

Definition upgrade_0015 : mig := seq
  [create_table "operatortenant"
     [id_column; col "operator_id" Integer false; col "tenant_id" Integer false; col "role" (VarChar 32) false;
      col "created_at" DateTimeType false]
     [("operator_id", "operator"); ("tenant_id", "tenant")] [["operator_id"; "tenant_id"]];
   create_index "ix_operatortenant_operator_id" "operatortenant" ["operator_id"] false;
   create_index "ix_operatortenant_tenant_id" "operatortenant" ["tenant_id"] false;
   backfill_memberships].
Definition downgrade_0015 : mig := seq
  [drop_index "ix_operatortenant_tenant_id" "operatortenant"; drop_index "ix_operatortenant_operator_id" "operatortenant";
   drop_table "operatortenant"].

Definition FALLBACK_POOL : string := "10.0.0.0/8".
Definition upgrade_0016 : mig := seq
  [add_column "tenant" (col "subnet_pool" (VarChar 64) true);
   update_set "tenant" "subnet_pool" (SText default_subnet) (fun r => bool_decide (cell "id" r = SInt 1));
   update_set "tenant" "subnet_pool" (SText FALLBACK_POOL) (fun r => is_null (cell "subnet_pool" r));
   alter_nullable "tenant" "subnet_pool" false].
Definition downgrade_0016 : mig := drop_column "tenant" "subnet_pool".

(** ** 0017 to 0022 *)

Definition upgrade_0017 : mig := add_host_cert "client".
Definition downgrade_0017 : mig := drop_host_cert "client".

Definition upgrade_0018 : mig := seq
  [create_table "enrollmenttoken"
     [id_column; col "tenant_id" Integer true; col "server_id" Integer false; col "ssh_key_id" Integer false;
      col "ssh_username" (VarChar 64) false; col "name_prefix" (VarChar 32) false; col "token_hash" (VarChar 64) false;
      col "max_uses" Integer false; col_default_ "use_count" Integer (SInt 0); col "expires_at" DateTimeType false;
      col "created_by_cn" (VarChar 255) true; col "created_at" DateTimeType false]
     [("tenant_id", "tenant"); ("server_id", "server"); ("ssh_key_id", "sshkey")] [];
   create_index "ix_enrollmenttoken_token_hash" "enrollmenttoken" ["token_hash"] true;
   create_index "ix_enrollmenttoken_tenant_id" "enrollmenttoken" ["tenant_id"] false;
   create_index "ix_enrollmenttoken_server_id" "enrollmenttoken" ["server_id"] false].
Definition downgrade_0018 : mig := seq
  [drop_index "ix_enrollmenttoken_server_id" "enrollmenttoken"; drop_index "ix_enrollmenttoken_tenant_id" "enrollmenttoken";
   drop_index "ix_enrollmenttoken_token_hash" "enrollmenttoken"; drop_table "enrollmenttoken"].

Definition upgrade_0019 : mig := seq
  [add_column "server" (col_default_ "reconfig_requested_gen" Integer (SInt 0));
   add_column "server" (col_default_ "reconfig_applied_gen" Integer (SInt 0))].
Definition downgrade_0019 : mig := seq [drop_column "server" "reconfig_applied_gen"; drop_column "server" "reconfig_requested_gen"].

Definition out_of_range (r : sql_row) : bool := match cell "host_cert_serial" r with SInt n => 2 ^ 63 <=? n | _ => false end.
Definition upgrade_0020 : mig :=
  if mysql
  then seq ((fun t => alter_type t "host_cert_serial" BigIntUnsigned) <$> ["server"; "client"]) else seq [].
Definition downgrade_0020 : mig :=
  if mysql
  then seq (mjoin ((fun t => [update_set t "host_cert_serial" SNull out_of_range; alter_type t "host_cert_serial" BigInteger])
                     <$> ["server"; "client"])) else seq [].

Definition upgrade_0021 : mig := seq
  [add_column "enrollmenttoken" (col "revoked_at" DateTimeType true); add_column "enrollmenttoken" (col "revoked_by_cn" (VarChar 255) true)].
Definition downgrade_0021 : mig := seq [drop_column "enrollmenttoken" "revoked_by_cn"; drop_column "enrollmenttoken" "revoked_at"].

Definition upgrade_0022 : mig := with_table "enrollmenttoken" (fun tb =>
  if mem "allowed_cidrs" (names tb) then seq []
  else add_column "enrollmenttoken" (col "allowed_cidrs" (VarChar 1024) true)).
Definition downgrade_0022 : mig := drop_column "enrollmenttoken" "allowed_cidrs".

(** ** The chain *)

Record revision := mkRevision { rev_id : string; down_revision : option string; rev_upgrade : mig; rev_downgrade : mig }.

Definition REVISIONS : list revision :=
  [mkRevision "0001_initial" None upgrade_0001 downgrade_0001;
   mkRevision "0002_discovered_peer" (Some "0001_initial") upgrade_0002 downgrade_0002;
   mkRevision "0003_manual_client" (Some "0002_discovered_peer") upgrade_0003 downgrade_0003;
   mkRevision "0004_encryption_at_rest" (Some "0003_manual_client") upgrade_0004 downgrade_0004;
   mkRevision "0005_drop_plaintext" (Some "0004_encryption_at_rest") upgrade_0005 downgrade_0005;
   mkRevision "0006_host_cert_columns" (Some "0005_drop_plaintext") upgrade_0006 downgrade_0006;
   mkRevision "0007_sshkey_mode" (Some "0006_host_cert_columns") upgrade_0007 downgrade_0007;
   mkRevision "0008_drop_sshkey_ciphertext" (Some "0007_sshkey_mode") upgrade_0008 downgrade_0008;
   mkRevision "0009_drop_client_private_key_ct" (Some "0008_drop_sshkey_ciphertext") upgrade_0009 downgrade_0009;
   mkRevision "0010_add_operator_table" (Some "0009_drop_client_private_key_ct") upgrade_0010 downgrade_0010;
   mkRevision "0011_add_certificate_table" (Some "0010_add_operator_table") upgrade_0011 downgrade_0011;
   mkRevision "0012_add_certificate_out_paths" (Some "0011_add_certificate_table") upgrade_0012 downgrade_0012;
   mkRevision "0013_add_audit_event_table" (Some "0012_add_certificate_out_paths") upgrade_0013 downgrade_0013;
   mkRevision "0014_add_tenant_table" (Some "0013_add_audit_event_table") upgrade_0014 downgrade_0014;
   mkRevision "0015_add_operator_tenant" (Some "0014_add_tenant_table") upgrade_0015 downgrade_0015;
   mkRevision "0016_add_tenant_subnet_pool" (Some "0015_add_operator_tenant") upgrade_0016 downgrade_0016;
   mkRevision "0017_client_host_cert_columns" (Some "0016_add_tenant_subnet_pool") upgrade_0017 downgrade_0017;
   mkRevision "0018_add_enrollment_token" (Some "0017_client_host_cert_columns") upgrade_0018 downgrade_0018;
   mkRevision "0019_server_reconfig_generations" (Some "0018_add_enrollment_token") upgrade_0019 downgrade_0019;
   mkRevision "0020_host_cert_serial_unsigned" (Some "0019_server_reconfig_generations") upgrade_0020 downgrade_0020;
   mkRevision "0021_enrollment_token_revocation" (Some "0020_host_cert_serial_unsigned") upgrade_0021 downgrade_0021;
   mkRevision "0022_enroll_token_source_binding" (Some "0021_enrollment_token_revocation") upgrade_0022 downgrade_0022].

(** [alembic_version.version_num] is [VARCHAR(32)]; MySQL refuses a longer id. *)
Definition VERSION_NUM_LEN : nat := 32.

(** A database with the revision it is recorded at. *)
Record versioned := mkVersioned { v_revision : option string; v_db : mdb }.

(** [alembic upgrade head]: the revisions after the recorded one, each followed
    by the recording of its id. *)
Fixpoint after_revision (v : string) (l : list revision) : list revision :=
  match l with [] => [] | r :: l' => if String.eqb (rev_id r) v then l' else after_revision v l' end.
Definition pending_revisions (v : option string) : list revision :=
  match v with None => REVISIONS | Some v => after_revision v REVISIONS end.

Definition stamp (r : revision) (d : mdb) (before : option string) : option mig_error * versioned :=
  if mysql && Nat.ltb VERSION_NUM_LEN (String.length (rev_id r))
  then (Some (Db_error "data too long for column 'version_num'"), mkVersioned before d)
  else (None, mkVersioned (Some (rev_id r)) d).

Fixpoint apply_upgrades (l : list revision) (s : versioned) : option mig_error * versioned :=
  match l with
  | [] => (None, s)
  | r :: l' =>
      match rev_upgrade r (v_db s) with
      | (Some e, d) => (Some e, mkVersioned (v_revision s) d)
      | (None, d) => match stamp r d (v_revision s) with (None, s') => apply_upgrades l' s' | failed => failed end
      end
  end.
Definition upgrade_head (s : versioned) : option mig_error * versioned := apply_upgrades (pending_revisions (v_revision s)) s.

(** [alembic downgrade <revision>]: the applied revisions after it, newest
    first. *)
Fixpoint apply_downgrades (l : list revision) (s : versioned) : option mig_error * versioned :=
  match l with
  | [] => (None, s)
  | r :: l' =>
      match rev_downgrade r (v_db s) with
      | (Some e, d) => (Some e, mkVersioned (v_revision s) d)
      | (None, d) => apply_downgrades l' (mkVersioned (down_revision r) d)
      end
  end.
Definition applied_revisions (v : option string) : list revision :=
  firstn (length REVISIONS - length (pending_revisions v)) REVISIONS.
Definition downgrade_to (v : option string) (s : versioned) : option mig_error * versioned :=
  apply_downgrades (rev (drop (length (applied_revisions v)) (applied_revisions (v_revision s)))) s.
End revisions.

Definition empty_mdb : mdb := mkMdb [] ∅.
Definition fresh : versioned := mkVersioned None empty_mdb.
