(* ===== verification/Upgrades.v ===== *)
(** * What the migrations do to a database

    The schema that the revisions lead to is the one of [models.py]; a
    populated database of the first release comes up at the head; no upgrade
    loses a row. *)

From S2P Require Import Prelude PyStr Hashing Json Models Session Backup Migrations Revisions.

(** ** Statement by statement *)

(** Running a statement on a database is like running it on a template with the
    same schema where it succeeds, provided its condition on the rows holds;
    [F] is what it does to the rows.  Both may look at the template. *)
Definition table_rows : Type := string -> list sql_row.
Definition on (t : string) (f : list sql_row -> list sql_row) (rs : table_rows) : table_rows :=
  fun t' => if String.eqb t t' then f (rs t') else rs t'.
Definition sim (m : mig) (F : mdb -> table_rows -> table_rows) (C : mdb -> table_rows -> Prop) : Prop :=
  forall d0 d rs, m_schema d0 = m_schema d -> (m d0).1 = None -> (forall t, rows_of t d = rs t) -> C d0 rs ->
  (m d).1 = None /\ m_schema (m d).2 = m_schema (m d0).2 /\ forall t, rows_of t (m d).2 = F d0 rs t.
Definition always : mdb -> table_rows -> Prop := fun _ _ => True.

Lemma rows_of_alter t tb f d t' : rows_of t' (alter t tb f d).2 = on t f (fun t => rows_of t d) t'.
Proof.
  unfold alter, rows_of, on. simpl. destruct (String.eqb_spec t t') as [->|Hn].
  - by rewrite lookup_insert_eq.
  - by rewrite lookup_insert_ne.
Qed.

Lemma on_ext t f rs rs' : (forall t', rs t' = rs' t') -> forall t', on t f rs t' = on t f rs' t'.
Proof. intros H t'. unfold on. case_match; by rewrite H. Qed.

Lemma sim_seq_nil : sim (seq []) (fun _ rs => rs) always.
Proof. intros d0 d rs Hs _ Hr _. by split_and!. Qed.

Lemma sim_seq_cons m l F G C D : sim m F C -> sim (seq l) G D ->
  sim (seq (m :: l)) (fun d0 rs => G (m d0).2 (F d0 rs)) (fun d0 rs => C d0 rs /\ D (m d0).2 (F d0 rs)).
Proof.
  intros Hm Hl d0 d rs Hs H0 Hr [HC HD]. simpl in H0 |- *. specialize (Hm d0 d rs Hs).
  destruct (m d0) as [[e|] d0'] eqn:E0; [done|]. destruct Hm as (H1 & H2 & H3); [done..|].
  destruct (m d) as [[e|] d'] eqn:E; [done|]. simpl in *. by apply (Hl d0' d' (F d0 rs)).
Qed.

Lemma sim_weaken m F C D : (forall d0 rs, D d0 rs -> C d0 rs) -> sim m F C -> sim m F D.
Proof. intros H Hm d0 d rs ? ? ? HD. apply Hm; auto. Qed.

(** The last step of every statement. *)
Lemma alter_sim t (tb tb0 : sa_table) f f0 (d0 d : mdb) rs : tb = tb0 -> m_schema d0 = m_schema d -> (forall t, rows_of t d = rs t) ->
  (alter t tb f d).1 = None /\ m_schema (alter t tb f d).2 = m_schema (alter t tb0 f0 d0).2 /\
  forall t', rows_of t' (alter t tb f d).2 = on t f rs t'.
Proof.
  intros -> Hs Hr. split; [done|]. split; [simpl; by rewrite Hs|]. intros t'. rewrite rows_of_alter. by apply on_ext.
Qed.

Ltac sim_start t :=
  intros d0 d rs Hs H0 Hr HC; unfold with_table in *; rewrite Hs in *; destruct (dict_get t (m_schema d)) as [tb|]; [|done].

Section statements.
Context (mysql : bool).

Lemma sim_create_table t columns fks uniques : sim (create_table mysql t columns fks uniques) (fun _ => on t (fun _ => [])) always.
Proof.
  intros d0 d rs Hs H0 Hr _. unfold create_table in *. rewrite Hs in *. case_bool_decide; [done|].
  destruct (_ && _); [done|]. by apply alter_sim.
Qed.

Lemma sim_create_index name t columns : sim (create_index name t columns false) (fun _ => on t id) always.
Proof.
  unfold create_index. sim_start t. destruct (mem _ _); [done|]. destruct (negb _); [done|]. by apply alter_sim.
Qed.

(** A unique index on rows that have no two equal keys. *)
Lemma sim_create_unique_index name t columns :
  sim (create_index name t columns true) (fun _ => on t id) (fun _ rs => duplicated columns (rs t) = false).
Proof.
  unfold create_index. sim_start t. destruct (mem _ _); [done|]. destruct (negb _); [done|].
  rewrite Hr, HC. destruct (true && _); [done|]. by apply alter_sim.
Qed.

Lemma sim_add_column_fk t c fk : c_nullable c = true \/ c_default c <> None ->
  sim (add_column_fk t c fk) (fun _ => on t (fmap (insert (c_name c) (default SNull (c_default c))))) always.
Proof.
  intros Hc. unfold add_column_fk. sim_start t. destruct (mem _ _); [done|].
  assert (negb (c_nullable c) && bool_decide (c_default c = None) = false) as ->
    by (destruct Hc as [->|Hc]; [done|rewrite (bool_decide_eq_false_2 _ Hc); apply andb_false_r]).
  by apply alter_sim.
Qed.
Lemma sim_add_column t c : c_nullable c = true \/ c_default c <> None ->
  sim (add_column t c) (fun _ => on t (fmap (insert (c_name c) (default SNull (c_default c))))) always.
Proof. apply sim_add_column_fk. Qed.

Lemma sim_drop_column t c : sim (drop_column mysql t c) (fun _ => on t (fmap (delete c))) always.
Proof.
  unfold drop_column. sim_start t. destruct (negb _); [done|]. destruct (_ && _); [done|]. destruct (_ || _); [done|].
  by apply alter_sim.
Qed.

Lemma sim_alter_nullable t c nullable :
  sim (alter_nullable t c nullable) (fun _ => on t id) (fun _ rs => nullable = true \/ Forall (fun r => is_null (cell c r) = false) (rs t)).
Proof.
  unfold alter_nullable. sim_start t. destruct (negb (mem _ _)); [done|].
  assert (negb nullable && existsb (fun r => is_null (cell c r)) (rows_of t d) = false) as ->.
  { destruct HC as [->|HC]; [done|]. rewrite Hr. apply andb_false_iff. right. apply not_true_iff_false.
    intros (r & Hin & Hn)%existsb_exists. rewrite Forall_forall in HC. apply list_elem_of_In in Hin. rewrite (HC r Hin) in Hn. done. }
  destruct (_ && _); [done|]. by apply alter_sim.
Qed.

Lemma sim_alter_type t c ty :
  sim (alter_type t c ty) (fun _ => on t id) (fun _ rs => Forall (fun r => holds_int ty (cell c r) = true) (rs t)).
Proof.
  unfold alter_type. sim_start t. destruct (negb (mem _ _)); [done|].
  assert (forallb (fun r => holds_int ty (cell c r)) (rows_of t d) = true) as ->.
  { rewrite Hr. apply forallb_forall. intros r Hin. rewrite Forall_forall in HC. by apply HC, list_elem_of_In. }
  destruct (negb (forallb _ _)); [done|]. by apply alter_sim.
Qed.

(** The tables that the foreign keys on a column refer to. *)
Definition fk_targets (t c : string) (d : mdb) : list string :=
  match dict_get t (m_schema d) with
  | Some tb => snd <$> List.filter (fun fk => String.eqb fk.1 c) (t_fks tb)
  | None => []
  end.
Definition has_id (v : sql_value) (rows : list sql_row) : bool := existsb (fun r => bool_decide (cell "id" r = v)) rows.

Lemma sim_update_set t c v where_ : is_null v = false ->
  sim (update_set mysql t c v where_) (fun _ => on t (fmap (fun r => if where_ r then <[c := v]> r else r)))
    (fun d0 rs => Forall (fun t' => has_id v (rs t') = true) (fk_targets t c d0)).
Proof.
  intros Hv d0 d rs Hs H0 Hr HC. unfold fk_targets in HC. unfold update_set, with_table in *. rewrite Hs in *.
  destruct (dict_get t (m_schema d)) as [tb|]; [|done]. destruct (find_column c tb); [|done]. rewrite Hv, andb_false_r in *. cbn [andb] in *.
  assert (Hfk : forallb (fun fk => negb (String.eqb fk.1 c) || id_in fk.2 d v) (t_fks tb) = true).
  { apply forallb_forall. intros fk Hin. destruct (String.eqb fk.1 c) eqn:E; [|done]. cbn. unfold id_in. rewrite Hr.
    apply orb_true_iff. right. rewrite Forall_forall in HC. apply HC. apply list_elem_of_fmap. exists fk. split; [done|].
    apply list_elem_of_In, filter_In. by split. }
  rewrite Hfk, andb_false_r. destruct (_ && _ && _); [done|]. by apply alter_sim.
Qed.

Definition table_in (t : string) (d : mdb) : sa_table := default (Table_ [] [] [] []) (dict_get t (m_schema d)).
(** The row can be inserted. *)
Definition insertable (tb : sa_table) (t : string) (given : sql_row) (rs : table_rows) : Prop :=
  let r := complete_row tb (rs t) given in
  forallb (fun k => c_nullable k || negb (is_null (cell (c_name k) r))) (t_columns tb) = true /\
  Forall (fun u => duplicated u (rs t ++ [r]) = false) (["id"] :: t_uniques tb ++ (ix_columns <$> List.filter ix_unique (t_indexes tb))) /\
  Forall (fun fk => has_id (cell fk.1 r) (rs fk.2) = true) (t_fks tb).

Lemma existsb_negb {A} (p q : A -> bool) l : (forall x, p x = negb (q x)) -> forallb q l = true -> existsb p l = false.
Proof. intros Hp Hq. induction l as [|x l IH]; [done|]. cbn in *. apply andb_true_iff in Hq as [H1 H2]. by rewrite Hp, H1, IH. Qed.

Lemma insert_into_run t given d rs tb : dict_get t (m_schema d) = Some tb -> (forall t, rows_of t d = rs t) -> insertable tb t given rs ->
  insert_into mysql t given d = alter t tb (fun _ => rs t ++ [complete_row tb (rs t) given]) d.
Proof.
  intros Ht Hr (Hn & Hu & Hf). unfold insert_into, with_table. rewrite Ht. cbv zeta. rewrite Hr.
  rewrite (existsb_negb _ (fun k => c_nullable k || negb (is_null (cell (c_name k) (complete_row tb (rs t) given)))));
    [|intros k; by destruct (c_nullable k), (is_null _)|exact Hn].
  rewrite Forall_cons in Hu. destruct Hu as [-> Hu]. cbn [orb].
  erewrite (existsb_negb _ (fun u => negb (duplicated u _))); [|intros u; by rewrite negb_involutive|].
  2: { apply forallb_forall. intros u Hin. rewrite Forall_forall in Hu. apply negb_true_iff, Hu. by apply list_elem_of_In. }
  assert (fk_stored mysql tb d (complete_row tb (rs t) given) = true) as ->; [|done].
  unfold fk_stored. apply orb_true_iff. right. apply forallb_forall. intros fk Hin. unfold id_in. rewrite Hr. apply orb_true_iff. right.
  rewrite Forall_forall in Hf. apply Hf. by apply list_elem_of_In.
Qed.

Lemma sim_insert_into t given :
  sim (insert_into mysql t given) (fun d0 => on t (fun l => l ++ [complete_row (table_in t d0) l given]))
    (fun d0 rs => insertable (table_in t d0) t given rs).
Proof.
  intros d0 d rs Hs H0 Hr HC. unfold table_in in *. rewrite Hs in HC.
  destruct (dict_get t (m_schema d)) as [tb|] eqn:E; [|unfold insert_into, with_table in H0; by rewrite Hs, E in H0].
  cbn [default] in HC. rewrite (insert_into_run _ _ _ _ _ E Hr HC).
  assert (H0' : m_schema (insert_into mysql t given d0).2 = set_entry t tb (m_schema d)).
  { revert H0. unfold insert_into, with_table. rewrite Hs, E. repeat (case_match; try done). by rewrite <- Hs. }
  split; [done|]. split; [done|]. intros t'. rewrite rows_of_alter. unfold on. rewrite Hs, E. cbn [default].
  destruct (String.eqb_spec t t') as [<-|]; [done|apply Hr].
Qed.
End statements.

(** ** The memberships of 0015 *)

Definition ot_table : sa_table := Table_
  [id_column; col "operator_id" Integer false; col "tenant_id" Integer false; col "role" (VarChar 32) false; col "created_at" DateTimeType false]
  [("operator_id", "operator"); ("tenant_id", "tenant")] [["operator_id"; "tenant_id"]]
  [Index_ "ix_operatortenant_operator_id" ["operator_id"] false; Index_ "ix_operatortenant_tenant_id" ["tenant_id"] false].

Definition membership (now : Z) (k : Z) (o : sql_row) : sql_row := list_to_map
  [("id", SInt k); ("operator_id", cell "id" o); ("tenant_id", SInt 1); ("role", cell "role" o); ("created_at", STime now)].
Fixpoint memberships (now k : Z) (os : list sql_row) : list sql_row :=
  match os with [] => [] | o :: os' => membership now k o :: memberships now (k + 1) os' end.

(** Operators have an id and a role, as the schema of 0010 wants them. *)
Definition operator_rows_ok (os : list sql_row) : Prop :=
  NoDup (cell "id" <$> os) /\ Forall (fun o => is_null (cell "id" o) = false /\ is_null (cell "role" o) = false) os.

Lemma memberships_app now k l l' : memberships now k (l ++ l') = memberships now k l ++ memberships now (k + Z.of_nat (length l)) l'.
Proof.
  revert k. induction l as [|o l IH]; intros k; cbn [memberships app length]; [by rewrite Z.add_0_r|].
  rewrite IH. do 2 f_equal. f_equal. lia.
Qed.

Lemma memberships_keys now k l : (fun r => (fun c => cell c r) <$> ["operator_id"; "tenant_id"]) <$> memberships now k l =
  (fun o => [cell "id" o; SInt 1]) <$> l.
Proof. revert k. induction l as [|o l IH]; intros k; [done|]. cbn [memberships]. rewrite !fmap_cons, IH. reflexivity. Qed.

Lemma memberships_ids now k l : (fun r => (fun c => cell c r) <$> ["id"]) <$> memberships now k l = (fun i => [SInt i]) <$> seqZ k (Z.of_nat (length l)).
Proof.
  revert k. induction l as [|o l IH]; intros k; [done|]. cbn [memberships length]. rewrite (seqZ_cons k) by lia.
  rewrite !fmap_cons, IH. f_equal. by replace (Z.pred (Z.of_nat (S (length l)))) with (Z.of_nat (length l)) by lia.
Qed.

Lemma next_membership_id now k l : 1 <= k -> next_row_id (memberships now k l) = if bool_decide (l = []) then 1 else k + Z.of_nat (length l).
Proof.
  revert k. induction l as [|o l IH]; intros k Hk; [done|]. cbn [memberships]. unfold next_row_id. cbn [foldr].
  fold (next_row_id (memberships now (k + 1) l)). change (cell "id" (membership now k o)) with (SInt k). cbn iota. rewrite IH by lia.
  rewrite (bool_decide_eq_false_2 (o :: l = [])) by done. destruct l; [rewrite bool_decide_eq_true_2 by done; cbn [length]; lia|]. rewrite bool_decide_eq_false_2 by done. cbn [length]. lia.
Qed.

Lemma not_duplicated columns rows : NoDup ((fun r => (fun c => cell c r) <$> columns) <$> rows) -> duplicated columns rows = false.
Proof.
  intros H. unfold duplicated. apply negb_false_iff, bool_decide_eq_true. apply NoDup_ListNoDup, List.NoDup_filter. by apply NoDup_ListNoDup.
Qed.

Lemma complete_membership now l o : complete_row ot_table l (membership_row now o) = membership now (next_row_id l) o.
Proof. reflexivity. Qed.

Lemma memberships_insertable now os o (rs : table_rows) : operator_rows_ok (os ++ [o]) -> rs "operatortenant" = memberships now 1 os ->
  has_id (cell "id" o) (rs "operator") = true -> has_id (SInt 1) (rs "tenant") = true ->
  insertable ot_table "operatortenant" (membership_row now o) rs /\
  rs "operatortenant" ++ [complete_row ot_table (rs "operatortenant") (membership_row now o)] = memberships now 1 (os ++ [o]).
Proof.
  intros [Hnd Hall] Hrs Ho Ht. rewrite complete_membership.
  assert (Hid : next_row_id (rs "operatortenant") = 1 + Z.of_nat (length os)).
  { rewrite Hrs, next_membership_id by lia. case_bool_decide; [by subst|done]. }
  assert (Hrow : rs "operatortenant" ++ [membership now (next_row_id (rs "operatortenant")) o] = memberships now 1 (os ++ [o])).
  { by rewrite memberships_app, Hid, Hrs. }
  split; [|done]. unfold insertable. cbv zeta. rewrite complete_membership, Hrow.
  apply Forall_app in Hall as [_ Hall]. rewrite Forall_singleton in Hall. destruct Hall as [Hi Hro]. split_and!.
  - cbn [ot_table t_columns forallb c_nullable c_name id_column col orb].
    change (cell "id" (membership now ?k o)) with (SInt k). change (cell "operator_id" (membership now ?k o)) with (cell "id" o).
    change (cell "tenant_id" (membership now ?k o)) with (SInt 1). change (cell "role" (membership now ?k o)) with (cell "role" o).
    change (cell "created_at" (membership now ?k o)) with (STime now). by rewrite Hi, Hro.
  - constructor; [|constructor; [|constructor]]; apply not_duplicated.
    + rewrite memberships_ids. apply NoDup_fmap_2; [intros ? ? [=]; done|]. apply NoDup_seqZ.
    + rewrite memberships_keys.
      change (fun o0 : sql_row => [cell "id" o0; SInt 1]) with (compose (fun v => [v; SInt 1]) (cell "id")).
      rewrite list_fmap_compose. apply NoDup_fmap_2; [intros ? ? [=]; done|done].
  - constructor; [|constructor; [|constructor]]; [exact Ho|exact Ht].
Qed.

Lemma set_entry_same t tb s : dict_get t s = Some tb -> set_entry t tb s = s.
Proof.
  induction s as [|[n t0] s IH]; [done|]. cbn. case_bool_decide as Hn.
  - intros [= ->]. subst. by rewrite String.eqb_refl.
  - intros H. destruct (String.eqb_spec n t); [done|]. by rewrite IH.
Qed.

Section memberships.
Context (mysql : bool) (now : Z).
Let insert_membership (o : sql_row) : mig := insert_into mysql "operatortenant" (membership_row now o).

Lemma insert_into_schema t given d : m_schema (insert_into mysql t given d).2 = m_schema d.
Proof.
  unfold insert_into, with_table. destruct (dict_get t (m_schema d)) as [tb|] eqn:E; [|done]. cbv zeta.
  repeat (case_match; try done). simpl. by apply set_entry_same.
Qed.

Lemma insert_all_schema os d : m_schema (seq (insert_membership <$> os) d).2 = m_schema d.
Proof.
  revert d. induction os as [|o os IH]; intros d; [done|]. rewrite fmap_cons. cbn [seq].
  pose proof (insert_into_schema "operatortenant" (membership_row now o) d) as Hs. unfold insert_membership at 1.
  destruct (insert_into _ _ _ d) as [[e|] d']; [done|]. by rewrite IH.
Qed.

Lemma insert_all_run os done d rs : dict_get "operatortenant" (m_schema d) = Some ot_table -> (forall t, rows_of t d = rs t) ->
  rs "operatortenant" = memberships now 1 done -> operator_rows_ok (done ++ os) ->
  Forall (fun o => has_id (cell "id" o) (rs "operator") = true) os -> has_id (SInt 1) (rs "tenant") = true ->
  (seq (insert_membership <$> os) d).1 = None /\
  forall t, rows_of t (seq (insert_membership <$> os) d).2 = on "operatortenant" (fun _ => memberships now 1 (done ++ os)) rs t.
Proof.
  revert done d rs. induction os as [|o os IH]; intros done d rs Ht Hr Hm Hok Ho Htn.
  - rewrite app_nil_r. split; [done|]. intros t. cbn. rewrite Hr. unfold on. destruct (String.eqb_spec "operatortenant" t) as [<-|]; done.
  - rewrite Forall_cons in Ho. destruct Ho as [Ho Hos]. change (done ++ o :: os) with (done ++ [o] ++ os) in *. rewrite app_assoc in *.
    assert (Hok1 : operator_rows_ok (done ++ [o])).
    { destruct Hok as [Hnd Hall]. rewrite fmap_app in Hnd. apply NoDup_app in Hnd as [? _]. by apply Forall_app in Hall as [? _]. }
    destruct (memberships_insertable now done o rs Hok1 Hm Ho Htn) as [Hins Hrow].
    rewrite fmap_cons. cbn [seq]. unfold insert_membership at 1 3. rewrite (insert_into_run mysql _ _ _ _ _ Ht Hr Hins).
    pose proof (rows_of_alter "operatortenant" ot_table (fun _ => rs "operatortenant" ++ [complete_row ot_table (rs "operatortenant") (membership_row now o)]) d) as Ha.
    assert (Hsch : m_schema (alter "operatortenant" ot_table (fun _ => rs "operatortenant" ++ [complete_row ot_table (rs "operatortenant") (membership_row now o)]) d).2 = m_schema d)
      by (by apply set_entry_same).
    destruct (alter _ _ _ d) as [e d'] eqn:E. assert (e = None) as -> by (by injection E). cbn [snd] in *. rewrite <- Hsch in Ht.
    destruct (IH (done ++ [o]) d' _ Ht Ha) as [-> Hrun].
    + unfold on at 1. rewrite String.eqb_refl. exact Hrow.
    + done.
    + apply (Forall_impl _ _ _ Hos). intros x Hx. change (has_id (cell "id" x) (rows_of "operator" d) = true). by rewrite Hr.
    + change (has_id (SInt 1) (rows_of "tenant" d) = true). by rewrite Hr.
    + split; [done|]. intros t. rewrite Hrun. unfold on. destruct (String.eqb_spec "operatortenant" t); [done|]. apply Hr.
Qed.

Lemma has_own_id r rows : r ∈ rows -> has_id (cell "id" r) rows = true.
Proof. intros Hr. apply existsb_exists. exists r. split; [by apply list_elem_of_In|]. by apply bool_decide_eq_true. Qed.

Lemma sim_backfill_memberships : sim (backfill_memberships mysql now)
  (fun _ rs => on "operatortenant" (fun _ => memberships now 1 (rs "operator")) rs)
  (fun d0 rs => table_in "operatortenant" d0 = ot_table /\ rs "operatortenant" = [] /\ operator_rows_ok (rs "operator") /\
     has_id (SInt 1) (rs "tenant") = true).
Proof.
  intros d0 d rs Hs H0 Hr (Ht & Hm & Hok & Htn). unfold backfill_memberships. rewrite !insert_all_schema, Hs. unfold table_in in Ht.
  rewrite Hs in Ht. destruct (dict_get "operatortenant" (m_schema d)) as [tb|] eqn:E; [|done]. change (tb = ot_table) in Ht. subst tb.
  rewrite Hr. destruct (insert_all_run (rs "operator") [] d rs E Hr Hm Hok) as [H1 H2]; [|done|by split_and!].
  apply Forall_forall. intros o Ho. by apply has_own_id.
Qed.
End memberships.

(** ** Revisions 0014 to 0022 *)

Lemma sim_upgrade_0022 : sim upgrade_0022
  (fun d0 => if mem "allowed_cidrs" (names (table_in "enrollmenttoken" d0)) then fun rs => rs
             else on "enrollmenttoken" (fmap (insert "allowed_cidrs" SNull))) always.
Proof.
  intros d0 d rs Hs H0 Hr HC. pose proof (sim_add_column "enrollmenttoken" (col "allowed_cidrs" (VarChar 1024) true) (or_introl eq_refl) d0 d rs Hs) as Ha.
  unfold upgrade_0022, with_table, table_in in *. rewrite Hs in *.
  destruct (dict_get "enrollmenttoken" (m_schema d)) as [tb|]; [|done]. cbn [default] in *. change (id tb) with tb.
  destruct (mem "allowed_cidrs" (names tb)); [|by apply Ha]. cbn [seq fst snd]. auto.
Qed.

Ltac sim_step :=
  lazymatch goal with
  | |- sim (seq []) _ _ => apply sim_seq_nil
  | |- sim (seq (_ :: _)) _ _ => eapply sim_seq_cons
  | |- sim (create_table _ _ _ _ _) _ _ => apply sim_create_table
  | |- sim (create_index _ _ _ false) _ _ => apply sim_create_index
  | |- sim (create_index _ _ _ true) _ _ => apply sim_create_unique_index
  | |- sim (add_column _ _) _ _ => apply sim_add_column; first [left; reflexivity|right; discriminate]
  | |- sim (add_column_fk _ _ _) _ _ => apply sim_add_column_fk; first [left; reflexivity|right; discriminate]
  | |- sim (drop_column _ _ _) _ _ => apply sim_drop_column
  | |- sim (alter_nullable _ _ _) _ _ => apply sim_alter_nullable
  | |- sim (alter_type _ _ _) _ _ => apply sim_alter_type
  | |- sim (update_set _ _ _ _ _) _ _ => apply sim_update_set; reflexivity
  | |- sim (insert_into _ _ _) _ _ => apply sim_insert_into
  | |- sim (backfill_memberships _ _) _ _ => apply sim_backfill_memberships
  | |- sim upgrade_0022 _ _ => apply sim_upgrade_0022
  end.

(** The schema at a revision, from the revisions on an empty database. *)
Definition template (mysql : bool) (n : nat) : mdb := v_db (apply_upgrades mysql (firstn n (REVISIONS mysql 0 0 "")) fresh).2.
Definition schema_at (mysql : bool) (n : nat) : schema := m_schema (template mysql n).

Section tenants.
Context (mysql : bool) (now now' : Z) (default_subnet : string).

Definition later_upgrades : list mig :=
  [upgrade_0014 mysql now; upgrade_0015 mysql now'; upgrade_0016 mysql default_subnet; upgrade_0017; upgrade_0018 mysql; upgrade_0019;
   upgrade_0020 mysql; upgrade_0021; upgrade_0022].

(** What the back-fill of 0014 does to a row. *)
Definition owned (l : list sql_row) : list sql_row :=
  (fun r => if is_null (cell "tenant_id" r) then <["tenant_id" := SInt 1]> r else r) <$> (insert "tenant_id" SNull <$> l).

Lemma owned_eq l : owned l = insert "tenant_id" (SInt 1) <$> l.
Proof.
  unfold owned. induction l as [|r l IH]; [done|]. rewrite !fmap_cons, IH. f_equal. unfold cell.
  rewrite lookup_insert_eq. simpl. by rewrite insert_insert_eq.
Qed.

Lemma cell_insert_ne c k v r : k <> c -> cell c (<[k := v]> r) = cell c r.
Proof. intros H. unfold cell. by rewrite lookup_insert_ne. Qed.

Lemma owned_operators_ok l : operator_rows_ok l -> operator_rows_ok (owned l).
Proof.
  intros [Hn Ha]. rewrite owned_eq. split.
  - rewrite <- list_fmap_compose. erewrite list_fmap_ext; [exact Hn|]. intros i r Hi. by apply cell_insert_ne.
  - apply Forall_fmap. apply (Forall_impl _ _ _ Ha). intros r. unfold compose. by rewrite !cell_insert_ne.
Qed.

Lemma owned_memberships k l : memberships now' k (owned l) = memberships now' k l.
Proof.
  rewrite owned_eq. revert k. induction l as [|o l IH]; intros k; [done|]. rewrite fmap_cons. cbn [memberships]. rewrite IH.
  f_equal. unfold membership. by rewrite !cell_insert_ne.
Qed.

(** Where the rows of each table end up. *)
Definition add_cells (l : list (string * sql_value)) (rows : list sql_row) : list sql_row :=
  foldl (fun rows kv => insert kv.1 kv.2 <$> rows) rows l.
Definition null_host_cert : list (string * sql_value) :=
  [("host_cert_pem", SNull); ("host_cert_serial", SNull); ("host_cert_principals", SNull); ("host_cert_valid_after", SNull);
   ("host_cert_valid_before", SNull); ("host_cert_ca_public_key", SNull)].
Definition no_generations : list (string * sql_value) := [("reconfig_requested_gen", SInt 0); ("reconfig_applied_gen", SInt 0)].
Definition seeded_tenant : sql_row := <["subnet_pool" := SText default_subnet]> (<["subnet_pool" := SNull]> (default_tenant_row now)).

Definition after_upgrade (rs F : table_rows) : Prop :=
  F "tenant" = [seeded_tenant] /\ F "operatortenant" = memberships now' 1 (owned (rs "operator")) /\ F "enrollmenttoken" = [] /\
  F "discoveredpeer" = rs "discoveredpeer" /\ F "server" = add_cells no_generations (owned (rs "server")) /\
  F "client" = add_cells null_host_cert (owned (rs "client")) /\
  Forall (fun t => F t = owned (rs t)) ["operator"; "sshkey"; "certificate"; "auditevent"].

(** [Forall] over a list that can be evaluated. *)
Ltac forall_evaluated :=
  lazymatch goal with
  | |- Forall _ ?l =>
      let l' := eval vm_compute in l in replace l with l' by (vm_compute; reflexivity);
      repeat (apply List.Forall_cons || apply List.Forall_nil); cbv beta; vm_compute; reflexivity
  end.
Ltac later_condition Hop Hsv Hcl :=
  lazymatch goal with
  | |- _ /\ _ => split; later_condition Hop Hsv Hcl
  | |- always _ _ => exact I
  | |- insertable _ _ _ _ => split; [vm_compute; reflexivity|split; forall_evaluated]
  | |- operator_rows_ok _ => exact (owned_operators_ok _ Hop)
  | |- _ \/ _ => right; forall_evaluated
  | |- Forall _ (fk_targets _ _ _) => forall_evaluated
  | |- Forall _ (_ _ "server") => exact Hsv
  | |- Forall _ (_ _ "client") => exact Hcl
  | |- _ = _ => vm_compute; reflexivity
  end.

Lemma Forall_add_cells (P : sql_row -> Prop) l rows : Forall (fun r => P (foldl (fun r kv => <[kv.1 := kv.2]> r) r l)) rows -> Forall P (add_cells l rows).
Proof.
  revert rows. induction l as [|kv l IH]; intros rows H; [done|]. unfold add_cells. cbn [foldl]. apply IH. apply Forall_fmap. exact H.
Qed.

Definition serial_fits (r : sql_row) : Prop := holds_int BigIntUnsigned (cell "host_cert_serial" r) = true.

Lemma later_sim rs : operator_rows_ok (rs "operator") -> Forall serial_fits (rs "server") ->
  exists F C, sim (seq later_upgrades) F C /\ C (template mysql 13) rs /\ after_upgrade rs (F (template mysql 13) rs).
Proof.
  intros Hop Hser.
  assert (Hcl : Forall serial_fits (add_cells null_host_cert (owned (rs "client")))).
  { apply Forall_add_cells, Forall_forall. intros r _. cbn [foldl null_host_cert fst snd]. unfold serial_fits.
    rewrite !cell_insert_ne by done. unfold cell. by rewrite lookup_insert_eq. }
  assert (Hsv : Forall serial_fits (add_cells no_generations (owned (rs "server")))).
  { apply Forall_add_cells. rewrite owned_eq. apply Forall_fmap. apply (Forall_impl _ _ _ Hser). intros r. cbn [foldl no_generations fst snd].
    unfold compose, serial_fits. by rewrite !cell_insert_ne. }
  unfold later_upgrades, upgrade_0014, upgrade_0015, upgrade_0016, upgrade_0017, upgrade_0018, upgrade_0019, upgrade_0020, upgrade_0021,
    add_host_cert, add_tenant_id, backfill_tenant. cbv [TENANTED_TABLES fmap list_fmap app].
  destruct mysql; (eexists _, _; split; [repeat sim_step|]); cbv beta; (split; [later_condition Hop Hsv Hcl|]).
  all: unfold after_upgrade; split_and!; repeat (apply List.Forall_cons || apply List.Forall_nil); try reflexivity.
Qed.

End tenants.
