(* ===== verification/SchemaHead.v ===== *)
(** * The release upgrade and the schema

    A populated database of the first release comes up at the head; the schema
    there is the one of [models.py]; what stands in the way of downgrades. *)

From S2P Require Import Prelude PyStr Hashing Json Models Session Ipam Backup Migrations Revisions Upgrades.

Section release.
Context (mysql : bool) (now now' : Z) (default_subnet : string).

(** The rows that a database of a release has: only cells of its columns. *)
Definition conforming (d : mdb) : Prop := forall t tb r c,
  dict_get t (m_schema d) = Some tb -> r ∈ rows_of t d -> is_Some (r !! c) -> mem c (names tb) = true.

(** A row that got more cells and the default tenant. *)
Definition owned_copy (r r' : sql_row) : Prop := r ⊆ r' /\ cell "tenant_id" r' = SInt 1.

Lemma add_cells_copy l rows rows' : Forall (fun kv => kv.1 <> "tenant_id") l ->
  Forall2 (fun r r' => owned_copy r r' /\ Forall (fun kv => r !! kv.1 = None) l) rows rows' ->
  Forall2 owned_copy rows (add_cells l rows').
Proof.
  revert rows'. induction l as [|[k v] l IH]; intros rows' Hk H2; [apply (Forall2_impl _ _ _ _ H2); by intros r r' [? _]|].
  apply Forall_cons in Hk as [Hk Hl]. unfold add_cells. cbn [foldl fst snd]. apply IH; [done|]. apply Forall2_fmap_r.
  apply (Forall2_impl _ _ _ _ H2). intros r r' [[Hsub Ht] [Hn Hf]%Forall_cons]. split; [|done]. split.
  - by apply insert_subseteq_r.
  - by rewrite cell_insert_ne.
Qed.

Lemma owned_copies l rows : Forall (fun r => r !! "tenant_id" = None /\ Forall (fun kv => r !! kv.1 = None) l) rows ->
  Forall2 (fun r r' => owned_copy r r' /\ Forall (fun kv : string * sql_value => r !! kv.1 = None) l) rows (owned rows).
Proof.
  intros H. rewrite owned_eq. apply Forall2_fmap_r. apply Forall_Forall2_diag. apply (Forall_impl _ _ _ H). intros r [Hn Hl].
  split; [|done]. split; [by apply insert_subseteq|]. unfold cell. by rewrite lookup_insert_eq.
Qed.

(** A column the schema does not have is in no row. *)
Lemma conforming_fresh d t tb (cs : list (string * sql_value)) : conforming d -> dict_get t (m_schema d) = Some tb ->
  forallb (fun c => negb (mem c (names tb))) ("tenant_id" :: (fst <$> cs)) = true ->
  Forall (fun r => r !! "tenant_id" = None /\ Forall (fun kv => r !! kv.1 = None) cs) (rows_of t d).
Proof.
  intros Hd Ht Hc. rewrite forallb_forall in Hc.
  assert (H : forall r c, r ∈ rows_of t d -> c ∈ "tenant_id" :: (fst <$> cs) -> r !! c = None).
  { intros r c Hr Hin. apply eq_None_not_Some. intros Hs. pose proof (Hd _ _ _ _ Ht Hr Hs) as Hm.
    specialize (Hc c (proj1 (list_elem_of_In _ _) Hin)). by rewrite Hm in Hc. }
  apply Forall_forall. intros r Hr. split; [apply (H r "tenant_id" Hr); by left|]. apply Forall_forall. intros kv Hkv.
  apply (H r _ Hr). right. apply list_elem_of_fmap. eauto.
Qed.

Lemma upgrades_seq l v d : Forall (fun r => Nat.ltb VERSION_NUM_LEN (String.length (rev_id r)) = false) l ->
  (seq (rev_upgrade <$> l) d).1 = None ->
  apply_upgrades mysql l (mkVersioned v d) = (None, mkVersioned (from_option (fun r => Some (rev_id r)) v (last l)) (seq (rev_upgrade <$> l) d).2).
Proof.
  intros Hl. revert v d. induction Hl as [|r l Hr Hl IH]; intros v d H; [done|]. rewrite fmap_cons in *. cbn [seq apply_upgrades v_db v_revision] in *.
  destruct (rev_upgrade r d) as [[e|] d']; [done|]. unfold stamp. rewrite Hr, andb_false_r. rewrite IH by done. f_equal. f_equal.
  destruct l as [|r0 l]; [done|]. rewrite (last_cons_cons r r0). destruct (last (r0 :: l)) eqn:E; [done|]. by apply last_None in E.
Qed.

Definition FIRST_RELEASE : string := "0013_add_audit_event_table".
Definition HEAD : string := "0022_enroll_token_source_binding".

Lemma later_run d : m_schema d = schema_at mysql 13 -> operator_rows_ok (rows_of "operator" d) -> Forall serial_fits (rows_of "server" d) ->
  exists d', upgrade_head mysql now now' default_subnet (mkVersioned (Some FIRST_RELEASE) d) = (None, mkVersioned (Some HEAD) d') /\
    m_schema d' = schema_at mysql 22 /\ after_upgrade now now' default_subnet (fun t => rows_of t d) (fun t => rows_of t d').
Proof.
  intros Hs Hop Hser. destruct (later_sim mysql now now' default_subnet (fun t => rows_of t d) Hop Hser) as (F & C & Hsim & HC & Hafter).
  assert (H0 : (seq (later_upgrades mysql now now' default_subnet) (template mysql 13)).1 = None /\
    m_schema (seq (later_upgrades mysql now now' default_subnet) (template mysql 13)).2 = schema_at mysql 22)
    by (clear; destruct mysql; split; vm_compute; reflexivity).
  destruct H0 as [H0 H0s]. destruct (Hsim (template mysql 13) d _ (eq_sym Hs) H0 (fun t => eq_refl) HC) as (H1 & H2 & H3).
  exists (seq (later_upgrades mysql now now' default_subnet) d).2. split; [|split; [by rewrite H2|]].
  - unfold upgrade_head. change (pending_revisions mysql now now' default_subnet _) with (drop 13 (REVISIONS mysql now now' default_subnet)).
    rewrite upgrades_seq; [reflexivity| |exact H1]. repeat (apply List.Forall_cons || apply List.Forall_nil); reflexivity.
  - destruct Hafter as (A1 & A2 & A3 & A4 & A5 & A6 & A7). rewrite !Forall_cons in A7. unfold after_upgrade.
    rewrite !Forall_cons. rewrite !H3. split_and!; try done; apply A7.
Qed.

(** C25. The release upgrade: a database of the first release, with whatever
    rows, comes up at the head of the migrations on SQLite and on MySQL.  Every
    row is there with every cell it had and belongs to the default tenant, whose
    pool is the configured subnet; every operator is a member of it with the
    role it had; there are no enrollment tokens. *)
Theorem first_release_comes_up d :
  m_schema d = schema_at mysql 13 -> conforming d -> operator_rows_ok (rows_of "operator" d) -> Forall serial_fits (rows_of "server" d) ->
  exists d', upgrade_head mysql now now' default_subnet (mkVersioned (Some FIRST_RELEASE) d) = (None, mkVersioned (Some HEAD) d') /\
    m_schema d' = schema_at mysql 22 /\
    (forall t, t ∈ TENANTED_TABLES -> Forall2 owned_copy (rows_of t d) (rows_of t d')) /\
    rows_of "discoveredpeer" d' = rows_of "discoveredpeer" d /\
    rows_of "tenant" d' = [<["subnet_pool" := SText default_subnet]> (default_tenant_row now)] /\
    rows_of "operatortenant" d' = memberships now' 1 (rows_of "operator" d) /\ rows_of "enrollmenttoken" d' = [].
Proof.
  intros Hs Hc Hop Hser. destruct (later_run d Hs Hop Hser) as (d' & Hrun & Hsch & A1 & A2 & A3 & A4 & A5 & A6 & A7).
  exists d'. split; [done|]. split; [done|]. split; [|split_and!; [done| |by rewrite A2, owned_memberships|done]].
  - assert (Hfresh : forall t cs, forallb (fun c => negb (mem c (names (table_in t (template mysql 13))))) ("tenant_id" :: (fst <$> cs)) = true ->
      is_Some (dict_get t (schema_at mysql 13)) -> Forall (fun kv => kv.1 <> "tenant_id") cs ->
      Forall2 owned_copy (rows_of t d) (add_cells cs (owned (rows_of t d)))).
    { intros t cs Hcs [tb Ht] Hk. apply add_cells_copy; [done|]. apply owned_copies. rewrite <- Hs in Ht.
      apply (conforming_fresh d t tb); [done..|]. unfold table_in in Hcs. fold (schema_at mysql 13) in Hcs. by rewrite <- Hs, Ht in Hcs. }
    rewrite !Forall_cons in A7. destruct A7 as (B1 & B2 & B3 & B4 & _). intros t Ht.
    repeat (apply elem_of_cons in Ht as [->|Ht]); [rewrite B1; apply (Hfresh _ [])|rewrite A5; apply Hfresh|rewrite A6; apply Hfresh|
      rewrite B2; apply (Hfresh _ [])|rewrite B3; apply (Hfresh _ [])|rewrite B4; apply (Hfresh _ [])|by apply elem_of_nil in Ht];
      try (clear; destruct mysql; vm_compute; first [reflexivity|eexists; reflexivity]); repeat constructor; discriminate.
  - rewrite A1. unfold seeded_tenant. by rewrite insert_insert_eq.
Qed.
End release.

(** ** The schema of the models *)

(** A column of [models.py] and one of the schema: the same kind of value, an
    enum member by its text; the primary key is never [NULL], any other column
    where the model allows [None]. *)
Definition stores (ty : col_type) (sty : sql_type) : bool :=
  match ty, sty with
  | CInt, (Integer | BigInteger | BigIntUnsigned) | CStr, (VarChar _ | TextType) | CBool, BooleanType | CDateTime, DateTimeType => true
  | CEnum vs, EnumType vs' => bool_decide (vs = vs')
  | CEnum vs, VarChar n => forallb (fun v => Z.of_nat (String.length v) <=? n) vs
  | _, _ => false
  end.
Definition model_nullable (c : column) : bool :=
  negb (String.eqb (col_key c) "id") && match col_default c with Some f => match f 0 with VNull => true | _ => false end | None => false end.
Definition column_agrees (tb : sa_table) (c : column) : bool :=
  match find_column (col_key c) tb with
  | Some k => stores (col_ty c) (c_type k) && Bool.eqb (c_nullable k) (model_nullable c)
  | None => false
  end.

(** The foreign keys and unique keys of [models.py] by column name. *)
Definition model_fks (t : tname) : list (string * tname) :=
  match t with
  | T_tenant => []
  | T_sshkey | T_operator | T_auditevent => [("tenant_id", T_tenant)]
  | T_server => [("tenant_id", T_tenant); ("ssh_key_id", T_sshkey)]
  | T_client => [("tenant_id", T_tenant); ("ssh_key_id", T_sshkey); ("server_id", T_server)]
  | T_operatortenant => [("operator_id", T_operator); ("tenant_id", T_tenant)]
  | T_discoveredpeer => [("server_id", T_server)]
  | T_certificate => [("tenant_id", T_tenant); ("operator_id", T_operator)]
  | T_enrollmenttoken => [("tenant_id", T_tenant); ("server_id", T_server); ("ssh_key_id", T_sshkey)]
  end.
Definition model_uniques (t : tname) : list (list string) :=
  match t with
  | T_tenant => [["name"]; ["slug"]]
  | T_sshkey | T_client => [["name"]]
  | T_operator => [["cn"]]
  | T_operatortenant => [["operator_id"; "tenant_id"]]
  | T_discoveredpeer => [["server_id"; "public_key"]]
  | T_certificate => [["serial"]]
  | T_enrollmenttoken => [["token_hash"]]
  | T_server | T_auditevent => []
  end.

(** The value of a named column of a row of the models. *)
Definition column_of (t : tname) (c : string) (ir : Z * row_of t) : value :=
  default VNull (dict_get c (zip (col_key <$> columns t) (core_row t ir))).

Lemma model_fks_correct t ir :
  (fun fk => (oint (fk.1 ir.2), fk.2)) <$> foreign_keys t = (fun fk => (column_of t fk.1 ir, fk.2)) <$> model_fks t.
Proof. destruct ir as [i r], t; reflexivity. Qed.

Definition uniques_of (tb : sa_table) : list (list string) := t_uniques tb ++ (ix_columns <$> List.filter ix_unique (t_indexes tb)).
Definition same_elements {A} `{EqDecision A} (l k : list A) : bool := forallb (fun x => mem x k) l && forallb (fun x => mem x l) k.

Definition table_agrees (t : tname) (tb : sa_table) : bool :=
  same_elements (names tb) (col_key <$> columns t) && bool_decide (NoDup (names tb)) && forallb (column_agrees tb) (columns t) &&
  same_elements (t_fks tb) ((fun fk => (fk.1, table_name fk.2)) <$> model_fks t) && same_elements (uniques_of tb) (model_uniques t).

(** C26. The migrations lead to the schema of the models: on an empty database
    all of them succeed, on SQLite and on MySQL, and end with exactly the tables
    that the models declare, each with exactly their columns (type and
    nullability included), foreign keys and unique keys. *)
Theorem migrated_schema_is_the_models mysql now now' default_subnet :
  exists d, upgrade_head mysql now now' default_subnet fresh = (None, mkVersioned (Some HEAD) d) /\
    (fst <$> m_schema d) ≡ₚ (table_name <$> backup_tables) /\
    forall t, exists tb, dict_get (table_name t) (m_schema d) = Some tb /\ table_agrees t tb = true.
Proof.
  pose proof (upgrades_seq mysql (REVISIONS mysql now now' default_subnet) None empty_mdb) as Hrun.
  assert (Hok : (seq (rev_upgrade <$> REVISIONS mysql now now' default_subnet) empty_mdb).1 = None /\
    m_schema (seq (rev_upgrade <$> REVISIONS mysql now now' default_subnet) empty_mdb).2 = schema_at mysql 22)
    by (clear; destruct mysql; split; vm_compute; reflexivity).
  destruct Hok as [Hok Hs]. exists (seq (rev_upgrade <$> REVISIONS mysql now now' default_subnet) empty_mdb).2.
  split; [|rewrite Hs; clear; split].
  - apply Hrun; [|done]. repeat (apply List.Forall_cons || apply List.Forall_nil); reflexivity.
  - apply (bool_decide_unpack _). destruct mysql; vm_compute; exact I.
  - intros t. exists (table_in (table_name t) (template mysql 22)). destruct mysql, t; vm_compute; split; reflexivity.
Qed.

(** ** Details of single revisions *)

Lemma revision_ids_fit mysql now now' s : Forall (fun r => (String.length (rev_id r) <= VERSION_NUM_LEN)%nat) (REVISIONS mysql now now' s).
Proof. apply (bool_decide_unpack _). vm_compute. exact I. Qed.

(** One chain, each revision after the one before it. *)
Lemma revisions_chain mysql now now' s :
  down_revision <$> REVISIONS mysql now now' s = None :: (Some ∘ rev_id <$> firstn 21 (REVISIONS mysql now now' s)).
Proof. reflexivity. Qed.

(** 0008 refuses before it changes anything. *)
Lemma refused_0008_changes_nothing mysql d :
  legacy_rows d <> [] -> upgrade_0008 mysql d = (Some (Refused (refusal (length (legacy_rows d)))), d).
Proof. intros H. unfold upgrade_0008. cbn [seq]. unfold guard_0008. by destruct (legacy_rows d). Qed.

(** 0022 goes through again on the database that a failed recording left. *)
Lemma retry_0022 d d' : upgrade_0022 d = (None, d') -> upgrade_0022 d' = (None, d').
Proof.
  unfold upgrade_0022, with_table. destruct (dict_get "enrollmenttoken" (m_schema d)) as [tb|] eqn:E; [|done].
  destruct (mem "allowed_cidrs" (names tb)) eqn:Em; [intros [= <-]; by rewrite E, Em|].
  unfold add_column, add_column_fk, with_table. rewrite E. change (c_name _) with "allowed_cidrs". rewrite Em. cbn [c_nullable col negb andb].
  intros [= <-]. cbn [m_schema alter].
  assert (Hg : forall tb' s, dict_get "enrollmenttoken" s = Some tb -> dict_get "enrollmenttoken" (set_entry "enrollmenttoken" tb' s) = Some tb').
  { intros tb' s. induction s as [|[n t0] s IH]; [done|]. cbn [dict_get set_entry]. case_bool_decide as Hn.
    - intros _. subst. rewrite String.eqb_refl. cbn [dict_get]. by rewrite bool_decide_eq_true_2.
    - intros Hs. destruct (String.eqb_spec n "enrollmenttoken"); [done|]. cbn [dict_get]. rewrite bool_decide_eq_false_2 by done. by apply IH. }
  erewrite Hg by exact E. unfold names. cbn [t_columns]. rewrite fmap_app.
  assert (Hm : mem "allowed_cidrs" ((c_name <$> t_columns tb) ++ (c_name <$> [col "allowed_cidrs" (VarChar 1024) true])) = true).
  { apply bool_decide_eq_true. apply elem_of_app. right. by left. }
  rewrite Hm. done.
Qed.

(** ** Downgrades *)

(** On SQLite each downgrade undoes its upgrade, but for the columns that 0005
    and 0008 bring back in another shape. *)
Definition downgraded (mysql : bool) (n : nat) : option mig_error * schema :=
  match nth_error (REVISIONS mysql 0 0 "") n with
  | Some r => let '(e, d) := rev_downgrade r (template mysql (n + 1)) in (e, m_schema d)
  | None => (None, [])
  end.
Definition undoes (mysql : bool) (n : nat) : bool :=
  match downgraded mysql n with (None, s) => bool_decide (s = schema_at mysql n) | _ => false end.

Lemma sqlite_downgrades_undo :
  (fun n => undoes false n) <$> List.seq 0 22 = replicate 4 true ++ [false] ++ replicate 2 true ++ [false] ++ replicate 14 true.
Proof. vm_compute. reflexivity. Qed.

(** The ciphertext of the passphrase was [VARCHAR(512)]; it comes back as
    [TEXT]. *)
Lemma downgrade_0008_changes_type :
  c_type <$> find_column "passphrase_ct" (table_in "sshkey" (template false 7)) = Some (VarChar 512) /\
  c_type <$> find_column "passphrase_ct" (table_in "sshkey" (downgrade_0008 (template false 8)).2) = Some TextType.
Proof. vm_compute. by split. Qed.

(** On MySQL the downgrades of 0011, 0014, 0015 and 0018 stop at the index that
    a foreign key needs. *)
Lemma mysql_downgrades_stop :
  (fun n => (downgraded true n).1) <$> [10; 13; 14; 17]%nat =
  replicate 4 (Some (Db_error "cannot drop index: needed in a foreign key constraint")).
Proof. vm_compute. reflexivity. Qed.

(** 0016 gives the default tenant the configured subnet, also when a hub of it
    was registered with another. *)
Definition hub_elsewhere : mdb :=
  mkMdb (schema_at false 13) {["server" := [{["id" := SInt 1; "subnet" := SText "192.168.7.0/24"]}]]}.
Lemma upgraded_hub_outside_pool :
  let d := v_db (upgrade_head false 0 0 "10.9.0.0/24" (mkVersioned (Some FIRST_RELEASE) hub_elsewhere)).2 in
  (cell "tenant_id" <$> rows_of "server" d) = [SInt 1] /\ (cell "subnet_pool" <$> rows_of "tenant" d) = [SText "10.9.0.0/24"] /\
  (cell "subnet" <$> rows_of "server" d) = [SText "192.168.7.0/24"] /\ subnet_in_pool "192.168.7.0/24" "10.9.0.0/24" = Some false.
Proof. vm_compute. by split_and!. Qed.

(** ** 0020 *)

Lemma sim_update_null mysql t c where_ :
  sim (update_set mysql t c SNull where_) (fun _ => on t (fmap (fun r => if where_ r then <[c := SNull]> r else r)))
    (fun d0 _ => c_nullable <$> (dict_get t (m_schema d0) ≫= find_column c) = Some true).
Proof.
  intros d0 d rs Hs H0 Hr HC. unfold update_set, with_table in *. rewrite Hs in *.
  destruct (dict_get t (m_schema d)) as [tb|]; [|done]. change (c_nullable <$> find_column c tb = Some true) in HC.
  destruct (find_column c tb) as [k|]; [|done]. injection HC as HC. rewrite HC in *. cbn [negb andb] in *.
  assert (Hfk : forall d, forallb (fun fk => negb (String.eqb fk.1 c) || id_in fk.2 d SNull) (t_fks tb) = true).
  { intros d1. apply forallb_forall. intros fk _. unfold id_in. cbn [is_null orb]. apply orb_true_r. }
  rewrite !Hfk, !andb_false_r in *. by apply alter_sim.
Qed.

(** A row after the downgrade of 0020: a serial of the upper half is dropped. *)
Definition narrowed (r : sql_row) : sql_row := if out_of_range r then <["host_cert_serial" := SNull]> r else r.

Lemma narrowed_fits rows : Forall serial_fits rows -> Forall (fun r => holds_int BigInteger (cell "host_cert_serial" r) = true) (narrowed <$> rows).
Proof.
  intros H. apply Forall_fmap, (Forall_impl _ _ _ H). intros r Hr. unfold compose, narrowed, out_of_range, serial_fits in *.
  destruct (cell "host_cert_serial" r) as [|n| | |] eqn:E; try done; [by rewrite E|].
  destruct (2 ^ 63 <=? n) eqn:Hn; [unfold cell; by rewrite lookup_insert_eq|]. rewrite E. cbn [holds_int is_null] in *.
  unfold INT64_LIMIT, UINT64_LIMIT in *. apply andb_true_iff in Hr as [H1 H2]. apply Z.leb_le in H1. apply Z.leb_gt in Hn.
  apply andb_true_iff. split; [apply Z.leb_le|apply Z.ltb_lt]; lia.
Qed.

(** The downgrade of 0020 on MySQL: whatever 64-bit serials the rows have,
    it goes through, and afterwards each stored serial is the one before when a
    signed column holds it and NULL otherwise; nothing else changes, and a
    database where no serial was in the upper half is as before the upgrade. *)
Theorem downgrade_0020_narrows d : m_schema d = schema_at true 20 -> Forall serial_fits (rows_of "server" d ++ rows_of "client" d) ->
  exists d', downgrade_0020 true d = (None, d') /\ m_schema d' = schema_at true 19 /\
    (forall t, rows_of t d' = (if mem t ["server"; "client"] then narrowed <$> rows_of t d else rows_of t d)) /\
    (Forall (fun r => out_of_range r = false) (rows_of "server" d ++ rows_of "client" d) -> forall t, rows_of t d' = rows_of t d).
Proof.
  intros Hs [Hsv Hcl]%Forall_app.
  assert (Hsim : exists F C, sim (downgrade_0020 true) F C /\ C (template true 20) (fun t => rows_of t d) /\
    forall t, F (template true 20) (fun t => rows_of t d) t = if mem t ["server"; "client"] then narrowed <$> rows_of t d else rows_of t d).
  { eexists _, _. split; [|split].
    - unfold downgrade_0020. cbv [fmap list_fmap mjoin list_join app].
      eapply sim_seq_cons; [apply sim_update_null|]. eapply sim_seq_cons; [apply sim_alter_type|].
      eapply sim_seq_cons; [apply sim_update_null|]. eapply sim_seq_cons; [apply sim_alter_type|]. apply sim_seq_nil.
    - cbv beta. split; [vm_compute; reflexivity|]. split; [exact (narrowed_fits _ Hsv)|]. split; [vm_compute; reflexivity|].
      split; [exact (narrowed_fits _ Hcl)|exact I].
    - intros t. unfold on. destruct (String.eqb_spec "client" t) as [<-|Hc]; [reflexivity|].
      destruct (String.eqb_spec "server" t) as [<-|Hv]; [reflexivity|].
      assert (mem t ["server"; "client"] = false) as ->; [|done].
      apply bool_decide_eq_false. intros Ht. rewrite !elem_of_cons, elem_of_nil in Ht. destruct Ht as [|[|]]; congruence. }
  destruct Hsim as (F & C & Hsim & HC & HF).
  assert (H0 : (downgrade_0020 true (template true 20)).1 = None /\ m_schema (downgrade_0020 true (template true 20)).2 = schema_at true 19)
    by (clear; split; vm_compute; reflexivity).
  destruct H0 as [H0 H0s]. destruct (Hsim _ d _ (eq_sym Hs) H0 (fun t => eq_refl) HC) as (H1 & H2 & H3).
  assert (Hrows : forall t, rows_of t (downgrade_0020 true d).2 = if mem t ["server"; "client"] then narrowed <$> rows_of t d else rows_of t d)
    by (intros t; by rewrite H3, HF).
  exists (downgrade_0020 true d).2. split; [rewrite <- H1; apply surjective_pairing|].
  split; [exact (eq_trans H2 H0s)|]. split; [exact Hrows|]. intros [Hn1 Hn2]%Forall_app t. rewrite Hrows. destruct (mem t _) eqn:Em; [|reflexivity]. apply mem_true in Em.
  assert (Hid : forall l, Forall (fun r => out_of_range r = false) l -> narrowed <$> l = l).
  { clear. intros l Hl. induction Hl as [|r l Hr _ IH]; [done|]. rewrite fmap_cons, IH. unfold narrowed. by rewrite Hr. }
  rewrite !elem_of_cons, elem_of_nil in Em. destruct Em as [->|[->|[]]]; apply Hid; assumption.
Qed.

(** ** Concrete runs *)

(** A database of the first release with a hub and two operators. *)
Definition first_release_rows : gmap string (list sql_row) :=
  {["operator" := [{["id" := SInt 1; "cn" := SText "alice"; "role" := SText "admin"]};
                   {["id" := SInt 4; "cn" := SText "bob"; "role" := SText "auditor"]}];
    "server" := [{["id" := SInt 1; "hostname" := SText "hub"; "host_cert_serial" := SInt 77]}]]}.
Definition first_release_db : mdb := mkMdb (schema_at true 13) first_release_rows.

Lemma first_release_comes_up_witness :
  exists d', upgrade_head true 5 6 "10.9.0.0/24" (mkVersioned (Some FIRST_RELEASE) first_release_db) = (None, mkVersioned (Some HEAD) d') /\
    (cell "role" <$> rows_of "operatortenant" d') = [SText "admin"; SText "auditor"] /\
    Forall2 owned_copy (rows_of "server" first_release_db) (rows_of "server" d').
Proof.
  destruct (first_release_comes_up true 5 6 "10.9.0.0/24" first_release_db) as (d' & Hrun & _ & Hown & _ & _ & Hm & _).
  - reflexivity.
  - intros t tb r c Ht Hr Hc.
    assert (Hall : forallb (fun t => forallb (fun r : sql_row => forallb (fun kv => mem kv.1 (names (table_in t (template true 13)))) (map_to_list r))
      (rows_of t first_release_db)) ["operator"; "server"] = true) by (vm_compute; reflexivity).
    rewrite forallb_forall in Hall.
    assert (Hin : t ∈ ["operator"; "server"]).
    { clear - Hr. unfold rows_of, first_release_db, first_release_rows in Hr. cbn [m_rows] in Hr.
      destruct (decide (t = "operator")) as [->|]; [by left|]. destruct (decide (t = "server")) as [->|]; [right; by left|].
      rewrite lookup_insert_ne, lookup_singleton_ne in Hr by done. by apply elem_of_nil in Hr. }
    specialize (Hall t (proj1 (list_elem_of_In _ _) Hin)). rewrite forallb_forall in Hall.
    specialize (Hall r (proj1 (list_elem_of_In _ _) Hr)). rewrite forallb_forall in Hall. destruct Hc as [v Hc].
    specialize (Hall (c, v) (proj1 (list_elem_of_In _ _) (proj2 (elem_of_map_to_list r c v) Hc))). cbn [fst] in Hall.
    unfold table_in in Hall. change (m_schema (template true 13)) with (m_schema first_release_db) in Hall. rewrite Ht in Hall. exact Hall.
  - split; [apply (bool_decide_unpack _); vm_compute; exact I|repeat constructor].
  - repeat constructor.
  - exists d'. split; [exact Hrun|]. split; [rewrite Hm; reflexivity|]. apply Hown. apply list_elem_of_In. right. left. reflexivity.
Defined.

(** One serial of each half. *)
Definition two_serials : mdb := mkMdb (schema_at true 20)
  {["server" := [{["id" := SInt 1; "host_cert_serial" := SInt 77]}; {["id" := SInt 2; "host_cert_serial" := SInt (2 ^ 63 + 5)]}]]}.

Lemma downgrade_0020_narrows_witness :
  exists d', downgrade_0020 true two_serials = (None, d') /\
    (cell "host_cert_serial" <$> rows_of "server" d') = [SInt 77; SNull].
Proof.
  destruct (downgrade_0020_narrows two_serials) as (d' & Hrun & _ & Hrows & _).
  - reflexivity.
  - assert (Hall : forallb (fun r => holds_int BigIntUnsigned (cell "host_cert_serial" r)) (rows_of "server" two_serials ++ rows_of "client" two_serials) = true)
      by (vm_compute; reflexivity).
    rewrite forallb_forall in Hall. apply Forall_forall. intros r Hr. by apply Hall, list_elem_of_In.
  - exists d'. split; [exact Hrun|]. rewrite (Hrows "server"). vm_compute. reflexivity.
Defined.
