(* ===== verification/UpgradesKeep.v ===== *)
(** * No upgrade loses a row

    What every statement that an upgrade uses leaves of the rows that were
    there, whether it succeeds or not. *)

From S2P Require Import Prelude PyStr Hashing Json Models Session Backup Migrations Revisions Upgrades.

(** Rows belong to tables of the schema and have cells of its columns only. *)
Definition tidy (d : mdb) : Prop := forall t r, r ∈ rows_of t d ->
  exists tb, dict_get t (m_schema d) = Some tb /\ forall c, is_Some (r !! c) -> c ∈ names tb.

(** The cells of a row are still there, but for some columns of the table and
    for [NULL]. *)
Definition row_kept (lost : list (string * string)) (t : string) (r r' : sql_row) : Prop :=
  forall c v, r !! c = Some v -> v <> SNull -> (t, c) ∉ lost -> r' !! c = Some v.
Definition rows_kept (lost : list (string * string)) (t : string) (rows rows' : list sql_row) : Prop :=
  exists new, Forall2 (row_kept lost t) rows (firstn (length rows) rows') /\ rows' = firstn (length rows) rows' ++ new.
Definition keeps_rows (lost : list (string * string)) (m : mig) : Prop :=
  forall d, tidy d -> tidy (m d).2 /\ forall t, rows_kept lost t (rows_of t d) (rows_of t (m d).2).

Lemma rows_kept_alt lost t rows rows' :
  rows_kept lost t rows rows' <-> exists l new, rows' = l ++ new /\ Forall2 (row_kept lost t) rows l.
Proof.
  split.
  - intros (new & H2 & ->). eauto.
  - intros (l & new & -> & H2). exists new. rewrite (Forall2_length _ _ _ H2), firstn_app, Nat.sub_diag, firstn_all, app_nil_r. done.
Qed.

#[export] Instance row_kept_refl lost t : Reflexive (row_kept lost t).
Proof. by intros r c v. Qed.
#[export] Instance row_kept_trans lost t : Transitive (row_kept lost t).
Proof. intros r1 r2 r3 H12 H23 c v Hc Hv Hl. apply H23; [by apply H12|done..]. Qed.
#[export] Instance rows_kept_refl lost t : Reflexive (rows_kept lost t).
Proof. intros rows. apply rows_kept_alt. exists rows, []. rewrite app_nil_r. done. Qed.
#[export] Instance rows_kept_trans lost t : Transitive (rows_kept lost t).
Proof.
  intros r1 r2 r3 (l1 & n1 & -> & H1)%rows_kept_alt (l2 & n2 & -> & H2)%rows_kept_alt. apply rows_kept_alt.
  apply Forall2_app_inv_l in H2 as (a & b & Ha & Hb & ->). exists a, (b ++ n2). rewrite app_assoc. split; [done|].
  by etrans.
Qed.

Lemma rows_kept_fmap lost t (f : sql_row -> sql_row) rows : Forall (fun r => row_kept lost t r (f r)) rows -> rows_kept lost t rows (f <$> rows).
Proof.
  intros H. apply rows_kept_alt. exists (f <$> rows), []. rewrite app_nil_r. split; [done|]. apply Forall2_fmap_r. by apply Forall_Forall2_diag.
Qed.

Lemma keeps_mono lost lost' m : lost ⊆ lost' -> keeps_rows lost m -> keeps_rows lost' m.
Proof.
  intros Hsub Hm d Hd. destruct (Hm d Hd) as [Ht Hk]. split; [done|]. intros t.
  destruct (proj1 (rows_kept_alt _ _ _ _) (Hk t)) as (l & new & E & H2). apply rows_kept_alt. exists l, new. split; [done|].
  apply (Forall2_impl _ _ _ _ H2). intros r r' H c v ? ? Hl. apply H; [done..|]. intros ?. by apply Hl, Hsub.
Qed.

Lemma keeps_fail lost why : keeps_rows lost (stmt_fail why).
Proof. intros d Hd. by split. Qed.

Lemma keeps_seq lost l : Forall (keeps_rows lost) l -> keeps_rows lost (seq l).
Proof.
  induction 1 as [|m l Hm _ IH]; intros d Hd; [by split|]. cbn [seq]. destruct (Hm d Hd) as [Ht Hk].
  revert Ht Hk. destruct (m d) as [[e|] d']; cbn [snd]; intros Ht Hk; [by split|]. destruct (IH d' Ht) as [Ht' Hk']. split; [done|]. intros t. etrans; [apply Hk|apply Hk'].
Qed.

(** ** Statements *)

Lemma dict_get_set_entry t t' tb s : dict_get t' (set_entry t tb s) = if String.eqb t t' then Some tb else dict_get t' s.
Proof.
  induction s as [|[n t0] s IH]; cbn [set_entry dict_get].
  - destruct (String.eqb_spec t t'); [by rewrite bool_decide_eq_true_2|by rewrite bool_decide_eq_false_2].
  - destruct (String.eqb_spec n t) as [->|Hn]; cbn [dict_get].
    + case_bool_decide as H; destruct (String.eqb_spec t t'); congruence.
    + rewrite IH. case_bool_decide as H; [|done]. subst. by destruct (String.eqb_spec t t').
Qed.

(** The cells of the new rows are columns of the new table. *)
Definition cells_in (tb : sa_table) (rows : list sql_row) : Prop := Forall (fun r : sql_row => forall c, is_Some (r !! c) -> c ∈ names tb) rows.

Lemma keeps_alter lost t tb f d : tidy d -> cells_in tb (f (rows_of t d)) -> rows_kept lost t (rows_of t d) (f (rows_of t d)) ->
  tidy (alter t tb f d).2 /\ forall t', rows_kept lost t' (rows_of t' d) (rows_of t' (alter t tb f d).2).
Proof.
  intros Hd Hc Hk. split.
  - intros t' r. rewrite rows_of_alter. cbn [alter snd m_schema]. rewrite dict_get_set_entry. unfold on. destruct (String.eqb_spec t t') as [<-|].
    + intros Hr. exists tb. split; [done|]. unfold cells_in in Hc. rewrite Forall_forall in Hc. by apply Hc.
    + apply Hd.
  - intros t'. rewrite rows_of_alter. unfold on. by destruct (String.eqb_spec t t') as [<-|].
Qed.

Lemma tidy_cells d t tb : tidy d -> dict_get t (m_schema d) = Some tb -> cells_in tb (rows_of t d).
Proof. intros Hd Ht. apply Forall_forall. intros r Hr. destruct (Hd t r Hr) as (tb' & Ht' & H). by simplify_eq. Qed.

(** With the rows untouched only the names of the columns count. *)
Lemma keeps_alter_id lost t tb tb' d : tidy d -> dict_get t (m_schema d) = Some tb -> (forall c, c ∈ names tb -> c ∈ names tb') ->
  tidy (alter t tb' id d).2 /\ forall t', rows_kept lost t' (rows_of t' d) (rows_of t' (alter t tb' id d).2).
Proof.
  intros Hd Ht Hn. apply keeps_alter; [done| |reflexivity]. apply (Forall_impl _ _ _ (tidy_cells _ _ _ Hd Ht)). intros r H c Hc. by apply Hn, H.
Qed.

Ltac keeps_start t :=
  intros d Hd; unfold with_table; destruct (dict_get t (m_schema d)) as [tb|] eqn:Ht; [|by apply keeps_fail];
  repeat (case_match; [by apply keeps_fail|]).

Section keeps.
Context (mysql : bool) (lost : list (string * string)).

Lemma keeps_create_table t columns fks uniques : keeps_rows lost (create_table mysql t columns fks uniques).
Proof.
  intros d Hd. unfold create_table. case_bool_decide as Hn; [by apply keeps_fail|]. case_match; [by apply keeps_fail|].
  assert (Hr : rows_of t d = []).
  { destruct (rows_of t d) as [|r l] eqn:E; [done|]. destruct (Hd t r) as (tb & Ht & _); [rewrite E; by left|]. rewrite Ht in Hn. by destruct Hn. }
  apply keeps_alter; [done|constructor|]. by rewrite Hr.
Qed.

Lemma keeps_create_index name t columns unique : keeps_rows lost (create_index name t columns unique).
Proof. unfold create_index. keeps_start t. by apply (keeps_alter_id lost t tb). Qed.

Lemma keeps_add_column_fk t c fk : keeps_rows lost (add_column_fk t c fk).
Proof.
  unfold add_column_fk. intros d Hd. unfold with_table. destruct (dict_get t (m_schema d)) as [tb|] eqn:Ht; [|by apply keeps_fail].
  destruct (mem (c_name c) (names tb)) eqn:Hm; [by apply keeps_fail|]. case_match; [by apply keeps_fail|].
  pose proof (tidy_cells _ _ _ Hd Ht) as Hc. apply keeps_alter; [done| |].
  - apply Forall_fmap, (Forall_impl _ _ _ Hc). intros r H' c' Hs. unfold names. cbn [t_columns]. rewrite fmap_app, elem_of_app.
    destruct (decide (c' = c_name c)) as [->|Hne]; [right; by left|]. left. apply H'. by rewrite lookup_insert_ne in Hs.
  - apply rows_kept_fmap, (Forall_impl _ _ _ Hc). intros r H' c' v Hl _ _. rewrite lookup_insert_ne; [done|]. intros <-.
    apply bool_decide_eq_false in Hm. by apply Hm, H'.
Qed.

Lemma keeps_drop_column t c : (t, c) ∈ lost -> keeps_rows lost (drop_column mysql t c).
Proof.
  intros Hl. unfold drop_column. keeps_start t. pose proof (tidy_cells _ _ _ Hd Ht) as Hc. apply keeps_alter; [done| |].
  - apply Forall_fmap, (Forall_impl _ _ _ Hc). intros r H' c' Hs. apply lookup_delete_is_Some in Hs as [Hne Hs]. apply H' in Hs.
    unfold names in *. apply list_elem_of_fmap in Hs as (k & -> & Hk). apply list_elem_of_fmap. exists k. split; [done|]. cbn [t_columns].
    apply list_elem_of_In, filter_In. split; [by apply list_elem_of_In|]. apply negb_true_iff, String.eqb_neq. congruence.
  - apply rows_kept_fmap, Forall_true. intros r c' v Hs _ Hn. rewrite lookup_delete_ne; [done|]. by intros <-.
Qed.

Lemma names_on_column c f tb : (forall k, c_name (f k) = c_name k) -> names (on_column c f tb) = names tb.
Proof.
  intros Hf. unfold names, on_column. cbn [t_columns]. induction (t_columns tb) as [|k l IH]; [done|]. rewrite !fmap_cons, IH. f_equal. by case_match.
Qed.

Lemma keeps_alter_nullable t c nullable : keeps_rows lost (alter_nullable t c nullable).
Proof. unfold alter_nullable. keeps_start t. apply (keeps_alter_id lost t tb); [done..|]. by rewrite names_on_column. Qed.

Lemma keeps_alter_type t c ty : keeps_rows lost (alter_type t c ty).
Proof. unfold alter_type. keeps_start t. apply (keeps_alter_id lost t tb); [done..|]. by rewrite names_on_column. Qed.

Lemma find_column_name c tb k : find_column c tb = Some k -> c ∈ names tb.
Proof.
  unfold find_column, names. induction (t_columns tb) as [|k' l IH]; [done|]. cbn. destruct (String.eqb_spec (c_name k') c) as [<-|]; [by left|].
  intros H. right. by apply IH.
Qed.

(** An update of a column that may be lost, or of rows where it is unset. *)
Lemma keeps_update_set t c v where_ : (t, c) ∈ lost \/ (forall r, where_ r = true -> is_null (cell c r) = true) ->
  keeps_rows lost (update_set mysql t c v where_).
Proof.
  intros Hw. unfold update_set. intros d Hd. unfold with_table. destruct (dict_get t (m_schema d)) as [tb|] eqn:Ht; [|by apply keeps_fail].
  destruct (find_column c tb) as [k|] eqn:Hk; [|by apply keeps_fail]. cbv zeta. repeat (case_match; [by apply keeps_fail|]).
  pose proof (tidy_cells _ _ _ Hd Ht) as Hc. apply keeps_alter; [done| |].
  - apply Forall_fmap, (Forall_impl _ _ _ Hc). intros r H' c' Hs. destruct (where_ r); [|by apply H'].
    destruct (decide (c' = c)) as [->|Hne]; [by eapply find_column_name|]. apply H'. by rewrite lookup_insert_ne in Hs.
  - apply rows_kept_fmap, Forall_true. intros r c' v' Hs Hv Hn. destruct (where_ r) eqn:E; [|done]. rewrite lookup_insert_ne; [done|].
    intros <-. destruct Hw as [Hw|Hw]; [done|]. specialize (Hw _ E). unfold cell in Hw. rewrite Hs in Hw. by destruct v'.
Qed.

Lemma complete_row_cells tb rows given c : is_Some (complete_row tb rows given !! c) -> c ∈ names tb.
Proof.
  intros [v Hv]. unfold complete_row in Hv. apply elem_of_list_to_map_2 in Hv. apply list_elem_of_fmap in Hv as (k & [= -> _] & Hk).
  apply list_elem_of_fmap. eauto.
Qed.

Lemma keeps_insert_into t given : keeps_rows lost (insert_into mysql t given).
Proof.
  unfold insert_into. intros d Hd. unfold with_table. destruct (dict_get t (m_schema d)) as [tb|] eqn:Ht; [|by apply keeps_fail]. cbv zeta.
  repeat (case_match; [by apply keeps_fail|]). apply keeps_alter; [done| |].
  - apply Forall_app. split; [by apply tidy_cells|]. constructor; [|constructor]. intros c. apply complete_row_cells.
  - apply rows_kept_alt. eexists _, _. split; [done|]. apply Forall_Forall2_diag, Forall_true. intros r. reflexivity.
Qed.

Lemma keeps_with_table t (k : sa_table -> mig) : (forall tb, keeps_rows lost (k tb)) -> keeps_rows lost (with_table t k).
Proof. intros Hk d Hd. unfold with_table. case_match; [by apply Hk|by apply keeps_fail]. Qed.

Lemma keeps_backfill now : keeps_rows lost (backfill_memberships mysql now).
Proof.
  intros d Hd. unfold backfill_memberships. apply keeps_seq; [|done]. apply Forall_fmap, Forall_true. intros o. apply keeps_insert_into.
Qed.

Lemma keeps_guard : keeps_rows lost guard_0008.
Proof. intros d Hd. unfold guard_0008. by case_match; split. Qed.
End keeps.

(** ** The upgrades *)

(** The secrets that 0005, 0008 and 0009 remove on purpose, and the two columns
    that 0007 and 0016 fill. *)
Definition DROPPED : list (string * string) :=
  [("sshkey", "private_key"); ("sshkey", "passphrase"); ("client", "private_key"); ("sshkey", "private_key_ct"); ("sshkey", "passphrase_ct");
   ("client", "private_key_ct")].
Definition FILLED : list (string * string) := [("sshkey", "mode"); ("tenant", "subnet_pool")].

Ltac keeps_step :=
  lazymatch goal with
  | |- Forall _ [] => constructor
  | |- Forall _ (_ :: _) => constructor
  | |- keeps_rows _ (seq _) => apply keeps_seq
  | |- keeps_rows _ (create_table _ _ _ _ _) => apply keeps_create_table
  | |- keeps_rows _ (create_index _ _ _ _) => apply keeps_create_index
  | |- keeps_rows _ (add_column _ _) => apply keeps_add_column_fk
  | |- keeps_rows _ (add_column_fk _ _ _) => apply keeps_add_column_fk
  | |- keeps_rows _ (drop_column _ _ _) => apply keeps_drop_column; apply (bool_decide_unpack _); vm_compute; exact I
  | |- keeps_rows _ (alter_nullable _ _ _) => apply keeps_alter_nullable
  | |- keeps_rows _ (alter_type _ _ _) => apply keeps_alter_type
  | |- keeps_rows _ (update_set _ _ "tenant_id" _ _) => apply keeps_update_set; right; intros r Hr; exact Hr
  | |- keeps_rows _ (update_set _ _ _ _ _) => apply keeps_update_set; left; apply (bool_decide_unpack _); vm_compute; exact I
  | |- keeps_rows _ (insert_into _ _ _) => apply keeps_insert_into
  | |- keeps_rows _ (backfill_memberships _ _) => apply keeps_backfill
  | |- keeps_rows _ guard_0008 => apply keeps_guard
  | |- keeps_rows _ (with_table _ _) => apply keeps_with_table; intros tb
  | |- keeps_rows _ (if ?b then _ else _) => destruct b
  end.

Section upgrades_keep.
Context (mysql : bool) (now now' : Z) (default_subnet : string).

Lemma revisions_keep : Forall (fun r => keeps_rows (DROPPED ++ FILLED) (rev_upgrade r)) (REVISIONS mysql now now' default_subnet).
Proof.
  unfold REVISIONS. repeat (apply List.Forall_cons || apply List.Forall_nil); cbn [rev_upgrade].
  all: unfold upgrade_0001, upgrade_0002, upgrade_0003, upgrade_0004, upgrade_0005, upgrade_0006, upgrade_0007, upgrade_0008, upgrade_0009,
    upgrade_0010, upgrade_0011, upgrade_0012, upgrade_0013, upgrade_0014, upgrade_0015, upgrade_0016, upgrade_0017, upgrade_0018, upgrade_0019,
    upgrade_0020, upgrade_0021, upgrade_0022, add_host_cert, add_tenant_id, backfill_tenant; cbv [TENANTED_TABLES fmap list_fmap app].
  all: repeat keeps_step.
Qed.

Lemma apply_upgrades_keep lost l s : Forall (fun r => keeps_rows lost (rev_upgrade r)) l -> tidy (v_db s) ->
  let d' := v_db (apply_upgrades mysql l s).2 in tidy d' /\ forall t, rows_kept lost t (rows_of t (v_db s)) (rows_of t d').
Proof.
  intros Hl. revert s. induction Hl as [|r l Hr _ IH]; intros s Hd; [by split|]. cbv zeta. cbn [apply_upgrades].
  destruct (Hr _ Hd) as [Ht Hk]. revert Ht Hk. destruct (rev_upgrade r (v_db s)) as [[e|] d]; cbn [snd v_db]; intros Ht Hk; [by split|].
  unfold stamp. destruct (mysql && Nat.ltb _ _); cbn [snd v_db]; [by split|]. destruct (IH (mkVersioned (Some (rev_id r)) d) Ht) as [Ht' Hk']. split; [done|].
  intros t. etrans; [apply Hk|apply Hk'].
Qed.

Lemma after_revision_incl v l r : r ∈ after_revision v l -> r ∈ l.
Proof. induction l as [|r' l IH]; [done|]. cbn. case_match; intros H'; right; [done|by apply IH]. Qed.

(** C27. No upgrade loses data: whatever the recorded revision of a database,
    after alembic upgrade head, and also when it stops at any statement of any
    revision (no statement is rolled back), every row of every table is still
    there, at its place, with every value it had; the only values that may go
    are the secrets of the six columns removed on purpose, and the two filled
    columns may change. *)
Theorem upgrades_lose_nothing v d :
  tidy d ->
  let s := (upgrade_head mysql now now' default_subnet (mkVersioned v d)).2 in
  tidy (v_db s) /\ forall t, rows_kept (DROPPED ++ FILLED) t (rows_of t d) (rows_of t (v_db s)).
Proof.
  intros Hd. apply (apply_upgrades_keep _ _ (mkVersioned v d)); [|done]. pose proof revisions_keep as Hall. rewrite Forall_forall in Hall.
  apply Forall_forall. intros r Hr. apply Hall. unfold pending_revisions in Hr. destruct v; [exact (after_revision_incl _ _ _ Hr)|exact Hr].
Qed.
End upgrades_keep.

(** ** A concrete run *)

(** A key with its secret, and a hub: 0008 stops the upgrade. *)
Definition legacy_db : mdb := mkMdb (schema_at true 7)
  {["sshkey" := [{["id" := SInt 3; "name" := SText "ops"; "mode" := SText "legacy"; "private_key_ct" := SText "vault:v1:xx"]}]]}.

Lemma legacy_db_tidy : tidy legacy_db.
Proof.
  intros t r Hr. destruct (decide (t = "sshkey")) as [->|Hn].
  - exists (table_in "sshkey" (template true 7)). split; [reflexivity|].
    assert (Hall : forallb (fun r : sql_row => forallb (fun kv => mem kv.1 (names (table_in "sshkey" (template true 7)))) (map_to_list r))
      (rows_of "sshkey" legacy_db) = true) by (vm_compute; reflexivity).
    rewrite forallb_forall in Hall. specialize (Hall r (proj1 (list_elem_of_In _ _) Hr)). rewrite forallb_forall in Hall.
    intros c [v Hc]. apply elem_of_map_to_list, list_elem_of_In, Hall, mem_true in Hc. exact Hc.
  - clear - Hr Hn. exfalso. unfold rows_of, legacy_db in Hr. cbn [m_rows] in Hr. rewrite lookup_singleton_ne in Hr by done. by apply elem_of_nil in Hr.
Qed.

Lemma upgrades_lose_nothing_witness :
  let s := upgrade_head true 0 0 "10.9.0.0/24" (mkVersioned (Some "0007_sshkey_mode") legacy_db) in
  s.1 = Some (Refused (refusal 1)) /\ v_revision s.2 = Some "0007_sshkey_mode" /\
  (cell "private_key_ct" <$> rows_of "sshkey" (v_db s.2)) = [SText "vault:v1:xx"] /\ tidy (v_db s.2).
Proof.
  cbv zeta. split; [vm_compute; reflexivity|]. split; [vm_compute; reflexivity|]. split; [vm_compute; reflexivity|].
  exact (proj1 (upgrades_lose_nothing true 0 0 "10.9.0.0/24" (Some "0007_sshkey_mode") legacy_db legacy_db_tidy)).
Defined.
