(* ===== verification/Views.v ===== *)
(** * What the API and the CLI show of a row

    The read models [ServerRead], [ClientRead], [CertificateRead],
    [ClientManualRegisterResponse] and [CryptoStatusResponse] of
    [src/src/wg_manager/schemas.py], and the listings of
    [src/src/wg_manager/cli.py]: [certs list], [operators list],
    [operators list-tenants], [tenants list], [tenants get] and [crypto rewrap].
    How pydantic writes a time is a parameter. *)

From S2P Require Import Prelude PyStr Hashing IsoTime Json Models Session Demo Auth RouterClients RouterTenants Pki Crypto RouterCerts Cli Backup.
Open Scope Z_scope.

Definition opt_json {A} (f : A -> json) (o : option A) : json := from_option f JNull o.

(** ** Read models *)

Section reads.
Context (time : Z -> string).
Let at_ (t : Z) : json := JStr (time t).

Definition host_cert_read (h : HostCertCols) : list (string * json) :=
  [("host_cert_serial", opt_json JInt (hc_serial h)); ("host_cert_principals", opt_json JStr (hc_principals h));
   ("host_cert_valid_after", opt_json at_ (hc_valid_after h)); ("host_cert_valid_before", opt_json at_ (hc_valid_before h));
   ("host_cert_pem", opt_json JStr (hc_pem h)); ("host_cert_ca_public_key", opt_json JStr (hc_ca_public_key h))].

Definition ServerRead (ir : Z * Server) : list (string * json) :=
  let '(i, r) := ir in
  [("id", JInt i); ("hostname", JStr (srv_hostname r)); ("ssh_port", JInt (srv_ssh_port r));
   ("ssh_username", JStr (srv_ssh_username r)); ("ssh_key_id", JInt (srv_ssh_key_id r));
   ("endpoint_host", JStr (srv_endpoint_host r)); ("endpoint_port", JInt (srv_endpoint_port r));
   ("interface", JStr (srv_interface r)); ("subnet", JStr (srv_subnet r)); ("address", JStr (srv_address r));
   ("public_key", JStr (srv_public_key r)); ("status", JStr (NodeStatus_value (srv_status r)));
   ("created_at", at_ (srv_created_at r)); ("tenant_id", opt_json JInt (srv_tenant_id r))] ++ host_cert_read (srv_host_cert r).

Definition ClientRead (ir : Z * Client) : list (string * json) :=
  let '(i, r) := ir in
  [("id", JInt i); ("name", JStr (cl_name r)); ("hostname", opt_json JStr (cl_hostname r)); ("ssh_port", JInt (cl_ssh_port r));
   ("ssh_username", opt_json JStr (cl_ssh_username r)); ("ssh_key_id", opt_json JInt (cl_ssh_key_id r));
   ("server_id", JInt (cl_server_id r)); ("address", JStr (cl_address r)); ("public_key", JStr (cl_public_key r));
   ("is_manual", JBool (cl_is_manual r)); ("status", JStr (NodeStatus_value (cl_status r)));
   ("created_at", at_ (cl_created_at r)); ("tenant_id", opt_json JInt (cl_tenant_id r))] ++ host_cert_read (cl_host_cert r).

Definition ClientManualRegisterResponse (task_id : string) (client : Z * Client) (wg_config : string) : list (string * json) :=
  [("task_id", JStr task_id); ("client", JObj (ClientRead client)); ("wg_config", JStr wg_config)].

Definition CertificateRead (ir : Z * Certificate) : list (string * json) :=
  let '(i, r) := ir in
  [("id", JInt i); ("serial", JStr (crt_serial r)); ("cert_type", JStr (CertificateType_value (crt_type r)));
   ("operator_id", opt_json JInt (crt_operator_id r)); ("common_name", JStr (crt_common_name r)); ("sans", JStr (crt_sans r));
   ("not_before", at_ (crt_not_before r)); ("not_after", at_ (crt_not_after r)); ("revoked", JBool (crt_revoked r));
   ("revoked_at", opt_json at_ (crt_revoked_at r)); ("created_at", at_ (crt_created_at r));
   ("tenant_id", opt_json JInt (crt_tenant_id r)); ("out_cert_path", opt_json JStr (crt_out_cert_path r));
   ("out_key_path", opt_json JStr (crt_out_key_path r)); ("out_chain_path", opt_json JStr (crt_out_chain_path r))].
End reads.

Definition CryptoStatusResponse (backend : string) (key_version : Z) : list (string * json) :=
  [("backend", JStr backend); ("key_version", JInt key_version)].

(** ** Listings of the CLI *)

Definition echo_json (j : json) : string := json_pretty j.
Definition iso (t : Z) : json := JStr (isoformat t).

Definition certs_list_entry (ir : Z * Certificate) : list (string * json) :=
  let '(i, row) := ir in
  [("id", JInt i); ("serial", JStr (crt_serial row)); ("cert_type", JStr (CertificateType_value (crt_type row)));
   ("operator_id", opt_json JInt (crt_operator_id row)); ("common_name", JStr (crt_common_name row)); ("sans", JStr (crt_sans row));
   ("not_before", iso (crt_not_before row)); ("not_after", iso (crt_not_after row)); ("revoked", JBool (crt_revoked row));
   ("revoked_at", opt_json iso (crt_revoked_at row)); ("created_at", iso (crt_created_at row))].
Definition certs_list : M string :=
  rows <- with_session (d <- get_db ;; ret (rows_by_id (certificates d))) ;;
  ret (echo_json (JList (JObj ∘ certs_list_entry <$> rows))).

Definition operators_list_entry (ir : Z * Operator) : list (string * json) :=
  let '(i, row) := ir in
  [("id", JInt i); ("cn", JStr (op_cn row)); ("display_name", opt_json JStr (op_display_name row));
   ("role", JStr (OperatorRole_value (op_role row))); ("status", JStr (OperatorStatus_value (op_status row)));
   ("created_at", iso (op_created_at row))].
Definition operators_list : M string :=
  rows <- with_session (d <- get_db ;; ret (rows_by_id (operators d))) ;;
  ret (echo_json (JList (JObj ∘ operators_list_entry <$> rows))).

Definition tenants_entry (ir : Z * Tenant) : list (string * json) :=
  let '(i, row) := ir in
  [("id", JInt i); ("name", JStr (tn_name row)); ("slug", JStr (tn_slug row)); ("subnet_pool", JStr (tn_subnet_pool row));
   ("created_at", iso (tn_created_at row))].
Definition tenants_list : M string :=
  rows <- with_session (d <- get_db ;; ret (rows_by_id (tenants d))) ;;
  ret (echo_json (JList (JObj ∘ tenants_entry <$> rows))).
Definition tenants_get (slug : string) : M string :=
  row <- with_session (d <- get_db ;; ret (lookup_tenant d slug)) ;;
  row <- some_or_raise row (no_tenant slug) ;;
  ret (echo_json (JObj (tenants_entry row))).

(** The rows of the join, by the membership. *)
Definition joined_tenants (d : DB) (operator_id : Z) : list ((Z * OperatorTenant) * (Z * Tenant)) :=
  omap (fun j => if bool_decide (ot_operator_id j.2 = operator_id)
                 then (fun t => (j, (ot_tenant_id j.2, t))) <$> rows (tenants d) !! ot_tenant_id j.2 else None)
    (rows_by_id (operator_tenants d)).
Definition list_tenants_entry (jt : (Z * OperatorTenant) * (Z * Tenant)) : list (string * json) :=
  let '((i, join), (tid, tenant)) := jt in
  [("id", JInt i); ("tenant_id", JInt tid); ("tenant_slug", JStr (tn_slug tenant)); ("tenant_name", JStr (tn_name tenant));
   ("role", JStr (OperatorRole_value (ot_role join))); ("created_at", iso (ot_created_at join))].
Definition operators_list_tenants (cn : string) : M string :=
  joins <- with_session (
    d <- get_db ;;
    op_row <- some_or_raise (lookup_operator d cn) (no_operator cn) ;;
    ret (joined_tenants d op_row.1)) ;;
  ret (echo_json (JList (JObj ∘ list_tenants_entry <$> joins))).

(** [crypto rewrap]: the lines it prints for the backend that [make_backend]
    made. *)
Definition crypto_rewrap (B : CryptoBackend) (dry_run : bool) : outcome (list string) :=
  match cb_key_version with
  | Raise e => Raise e
  | Ok v => Ok ["crypto rewrap complete" +:+ (if dry_run then " (dry-run; no rows written)" else "");
                "  backend: " +:+ cb_name +:+ " key_version=" +:+ dec v;
                "  no encrypted-at-rest columns remain — nothing to rewrap"]
  end.

(** ** The rows behind them *)

(** A row with its times written by [time]; the backup writes them with
    [isoformat]. *)
Definition shown_value (time : Z -> string) (v : value) : json :=
  match v with
  | VNull => JNull | VInt n => JInt n | VStr s => JStr s | VBool b => JBool b
  | VDate t => JStr (time t) | VEnum s => JStr s | VOther j => j
  end.
Definition shown_row (time : Z -> string) (t : tname) (ir : Z * row_of t) : list (string * json) :=
  zip (col_key <$> columns t) (shown_value time <$> core_row t ir).

Lemma shown_in_backup t ir : serialize_row t ir = JObj (shown_row isoformat t ir).
Proof. reflexivity. Qed.

(** The columns that a read model leaves out. *)
Definition hidden (t : tname) : list string :=
  match t with T_server => ["reconfig_requested_gen"; "reconfig_applied_gen"] | _ => [] end.

Definition same_fields {A} (hide : list string) (shown row : list (string * A)) : Prop :=
  forall k, k ∉ hide -> dict_get k shown = dict_get k row.

(** Keys are compared one by one. *)
Lemma same_fields_by_keys {A} (hide keys : list string) (shown row : list (string * A)) :
  forallb (fun k => mem k keys) shown.*1 = true -> forallb (fun k => mem k (keys ++ hide)) row.*1 = true ->
  Forall (fun k => dict_get k shown = dict_get k row) keys -> same_fields hide shown row.
Proof.
  intros Hs Hr HF k Hk. destruct (decide (k ∈ keys)) as [Hin|Hout]; [by eapply Forall_forall in HF|].
  assert (Hnone : forall (l : list (string * A)) ks, forallb (fun k => mem k ks) l.*1 = true -> k ∉ ks -> dict_get k l = None).
  { intros l ks Hl Hn. destruct (dict_get k l) as [v|] eqn:E; [|done]. destruct Hn. apply dict_get_Some in E.
    rewrite forallb_forall in Hl. apply (mem_true k ks), Hl, list_elem_of_In, list_elem_of_fmap. by exists (k, v). }
  rewrite (Hnone _ _ Hs) by done. symmetry. apply (Hnone _ _ Hr). rewrite elem_of_app. tauto.
Qed.

(** [shown] is a list whose keys can be computed. *)
Ltac by_keys shown :=
  let ks := eval vm_compute in (fst <$> shown) in
  apply (same_fields_by_keys _ ks); [vm_compute; reflexivity|vm_compute; reflexivity|
  repeat (apply Forall_cons; split; [vm_compute; solve [reflexivity | repeat case_match; reflexivity]|]); apply Forall_nil; exact I].

Lemma ServerRead_shows time ir : same_fields (hidden T_server) (ServerRead time ir) (shown_row time T_server ir).
Proof. destruct ir as [i r]. by_keys (ServerRead time (i, r)). Qed.
Lemma ClientRead_shows time ir : same_fields (hidden T_client) (ClientRead time ir) (shown_row time T_client ir).
Proof. destruct ir as [i r]. by_keys (ClientRead time (i, r)). Qed.
Lemma CertificateRead_shows time ir : same_fields (hidden T_certificate) (CertificateRead time ir) (shown_row time T_certificate ir).
Proof. destruct ir as [i r]. by_keys (CertificateRead time (i, r)). Qed.

(** ** Listings read back *)

Lemma json_loads_listing (entries : list (list (string * json))) : json_ok (JList (JObj <$> entries)) = true ->
  json_loads (echo_json (JList (JObj <$> entries))) =
    Some (JList ((fun e => JObj (sort_items (map (fun kv => (kv.1, json_sorted kv.2)) e))) <$> entries)).
Proof.
  intros Hok. unfold echo_json. rewrite json_loads_pretty by done. cbn [json_sorted]. do 2 f_equal.
  change (JObj <$> entries) with (map JObj entries). by rewrite map_map.
Qed.

(** Entries without nested values. *)
Definition flat (e : list (string * json)) : Prop := Forall (fun kv => json_sorted kv.2 = kv.2) e /\ NoDup (map fst e).

Lemma flat_sorted e : flat e -> map (fun kv => (kv.1, json_sorted kv.2)) e = e.
Proof.
  intros [HF _]. induction HF as [|[k v] e Hv _ IH]; [done|]. cbn in *. by rewrite Hv, IH.
Qed.

Lemma opt_flat {A} (f : A -> json) o : (forall a, json_sorted (f a) = f a) -> json_sorted (opt_json f o) = opt_json f o.
Proof. intros Hf. destruct o; [apply Hf|done]. Qed.

Ltac solve_flat :=
  split; [repeat (apply Forall_cons; split; [first [reflexivity | by apply opt_flat]|]); apply Forall_nil; exact I
         |apply (bool_decide_unpack _); vm_compute; exact I].

Lemma certs_list_flat ir : flat (certs_list_entry ir).
Proof. destruct ir as [i r]. solve_flat. Qed.

(** A script that reads a listing gets the entries, with their keys sorted. *)
Lemma listing_reads_back (entries : list (list (string * json))) : Forall flat entries -> json_ok (JList (JObj <$> entries)) = true ->
  json_loads (echo_json (JList (JObj <$> entries))) = Some (JList (JObj ∘ sort_items <$> entries)).
Proof.
  intros HF Hok. rewrite json_loads_listing by done. do 2 f_equal. clear Hok.
  induction HF as [|e es He _ IH]; [done|]. cbn [fmap list_fmap]. by rewrite flat_sorted, IH.
Qed.

Lemma get_sorted e k : flat e -> dict_get k (sort_items e) = dict_get k e.
Proof. intros [_ Hnd]. by apply dict_get_sorted. Qed.

Definition CERT_TIMES : list string := ["not_before"; "not_after"; "revoked_at"; "created_at"].
Definition CERT_API_ONLY : list string := ["tenant_id"; "out_cert_path"; "out_key_path"; "out_chain_path"].

(** Two ways to write times differ in the times. *)
Lemma CertificateRead_times t1 t2 ir : same_fields CERT_TIMES (CertificateRead t1 ir) (CertificateRead t2 ir).
Proof.
  destruct ir as [i r]. intros k Hk. unfold CertificateRead. cbn [dict_get].
  repeat (case_bool_decide; [first [reflexivity | exfalso; apply Hk; subst k; apply (bool_decide_unpack _); vm_compute; exact I]|]).
  reflexivity.
Qed.

(** An entry of the CLI is the response of the API without four fields. *)
Lemma certs_list_prefix ir : exists rest, CertificateRead isoformat ir = certs_list_entry ir ++ rest /\ rest.*1 = CERT_API_ONLY.
Proof. destruct ir as [i r]. by eexists. Qed.

Lemma dict_get_app {A} k (l rest : list (string * A)) : k ∉ rest.*1 -> dict_get k (l ++ rest) = dict_get k l.
Proof.
  intros Hk. induction l as [|[k' v] l IH]; cbn [app dict_get].
  - destruct (dict_get k rest) as [v|] eqn:E; [|done]. destruct Hk. apply dict_get_Some in E.
    apply list_elem_of_fmap. by exists (k, v).
  - by rewrite IH.
Qed.

Lemma cert_entry_matches time ir : same_fields (CERT_TIMES ++ CERT_API_ONLY) (certs_list_entry ir) (CertificateRead time ir) /\
  same_fields CERT_API_ONLY (certs_list_entry ir) (CertificateRead isoformat ir).
Proof.
  destruct (certs_list_prefix ir) as (rest & E & Er).
  assert (H : same_fields CERT_API_ONLY (certs_list_entry ir) (CertificateRead isoformat ir)).
  { intros k Hk. rewrite E, dict_get_app; [done|by rewrite Er]. }
  split; [|done]. intros k Hk. rewrite elem_of_app in Hk. rewrite H by tauto. apply CertificateRead_times. tauto.
Qed.

(** What [wg-manager certs list] prints reads back as the rows the API lists:
    the same rows in the same order, and in every row each field of the API
    other than the tenant and the three paths, which the CLI leaves out, with
    the value the API shows, times apart; a time is the same where pydantic
    writes it as [isoformat] does. *)
Theorem certs_list_reads_as_api time op w text w1 certs w2 :
  json_ok (JList (JObj ∘ certs_list_entry <$> rows_by_id (certificates (view w)))) = true -> view w = committed w ->
  certs_list w = (Ok text, w1) -> list_certs op w = (Ok certs, w2) ->
  exists entries, json_loads text = Some (JList (JObj <$> entries)) /\
    Forall2 (fun e r => same_fields (CERT_TIMES ++ CERT_API_ONLY) e (CertificateRead time r) /\
                        same_fields CERT_API_ONLY e (CertificateRead isoformat r)) entries certs.
Proof.
  intros Hok Hv E1 E2. unfold list_certs in E2. step_ok E2. unfold RequireAdminOrAuditor, get_operator in *.
  match goal with Hg : bind _ _ _ = (Ok _, _) |- _ => step_ok Hg end. prim_ok.
  unfold certs_list, with_session, get_db, bind, ret in E1. injection E1 as <- _. rewrite <- Hv. clear Hv. cbn [view].
  set (rs := rows_by_id (certificates (view w2))) in *. rewrite list_fmap_compose in Hok |- *.
  exists (sort_items ∘ certs_list_entry <$> rs). rewrite listing_reads_back.
  - split; [by rewrite !list_fmap_compose|]. apply Forall2_fmap_l, Forall2_same_length_lookup_2; [done|].
    intros i x y -> [= <-]. destruct (cert_entry_matches time x) as [H1 H2].
    split; intros k Hk; cbn; rewrite (get_sorted _ _ (certs_list_flat x)); [by apply H1|by apply H2].
  - apply Forall_fmap, Forall_true. intros x. apply certs_list_flat.
  - done.
Qed.

(** The read models show every column of their table, the two counters of the
    reconfiguration apart, with the values of the row, and nothing else. *)
Theorem reads_mirror_rows time :
  (forall ir, same_fields (hidden T_server) (ServerRead time ir) (shown_row time T_server ir)) /\
  (forall ir, same_fields [] (ClientRead time ir) (shown_row time T_client ir)) /\
  (forall ir, same_fields [] (CertificateRead time ir) (shown_row time T_certificate ir)).
Proof. split_and!; intros; [apply ServerRead_shows|apply ClientRead_shows|apply CertificateRead_shows]. Qed.

(** The CLI writes a time with an offset; where the API writes it otherwise, the
    two are different texts. *)
Lemma cli_times_have_offset time i r : time (crt_not_after r) <> isoformat (crt_not_after r) ->
  dict_get "not_after" (certs_list_entry (i, r)) <> dict_get "not_after" (CertificateRead time (i, r)).
Proof. intros Hne [= E]. by apply Hne. Qed.

Definition zulu (t : Z) : string := iso_seconds t +:+ "Z".

Lemma certs_list_reads_as_api_witness :
  exists text entries, certs_list (start (committed issued_world)) = (Ok text, start (committed issued_world)) /\
    json_loads text = Some (JList (JObj <$> entries)) /\ length entries = 1%nat /\
    Forall2 (fun e r => same_fields (CERT_TIMES ++ CERT_API_ONLY) e (CertificateRead zulu r) /\
                        same_fields CERT_API_ONLY e (CertificateRead isoformat r))
      entries (rows_by_id (certificates (committed issued_world))).
Proof.
  destruct (certs_list_reads_as_api zulu (Some (1, demo_operator)) (start (committed issued_world))
    _ (start (committed issued_world)) (rows_by_id (certificates (committed issued_world))) (start (committed issued_world)) eq_refl eq_refl eq_refl)
    as (entries & E & HF).
  - vm_compute. reflexivity.
  - eexists _, entries. split; [reflexivity|]. split; [exact E|]. split; [|exact HF].
    apply Forall2_length in HF. rewrite HF. vm_compute. reflexivity.
Defined.
