(* ===== verification/VaultOps.v ===== *)
(** * Preparing Vault

    [src/scripts/transit_bootstrap.py], [src/src/wg_manager/vault_audit.py] with
    [src/scripts/vault_audit_bootstrap.py], and the scripts that call the
    bootstraps of the two certificate authorities
    ([src/scripts/pki_bootstrap.py], [src/scripts/ssh_ca_bootstrap.py]).  Vault is
    an interface ([TransitAdmin], [AuditAdmin]) with laws that state what its
    documentation says of these calls. *)

From S2P Require Import Prelude PyStr Hashing Base64 Json Models Session AuditLog Auth Pki SshCa Crypto PkiBootstrap.
Open Scope Z_scope.

(** ** The Transit engine and its key *)

Class TransitAdmin (V : Type) := {
  ta_authenticated : V -> bool;
  ta_enable : string -> string -> V -> (vault_error + unit) * V; (** type, path *)
  ta_read_key : string -> string -> V -> vault_error + unit; (** mount, name *)
  ta_create_key : string -> string -> bool -> V -> (vault_error + unit) * V (** mount, name, [derived] *)
}.

Section transit_script.
Context {V : Type} `{TransitAdmin V}.

Definition enable_transit_idempotent (mount_point : string) : call (V := V) bool := fun v =>
  match ta_enable "transit" mount_point v with
  | (inr _, v') => (inr true, v')
  | (inl (InvalidRequest s), v') =>
      if contains "path is already in use" s then (inr false, v') else (inl (InvalidRequest s), v')
  | (inl e, v') => (inl e, v')
  end.

Definition create_key_idempotent (key_name mount_point : string) : call (V := V) bool := fun v =>
  match ta_read_key mount_point key_name v with
  | inr _ => (inr false, v)
  | inl (InvalidPath _) => then_ (ta_create_key mount_point key_name true) (fun _ => done_with true) v
  | inl e => (inl e, v)
  end.

Definition transit_line (mount key engine_state key_state : string) : string :=
  "transit engine mount=" +:+ mount +:+ ": " +:+ engine_state +:+ "; key name=" +:+ key +:+ " derived=True: " +:+ key_state.

(** [main] after its arguments have been parsed: the exit code and the line
    that is printed, on [stderr] for exit code 1. *)
Definition transit_main (vault_addr key_name mount_point : string) : call (V := V) (Z * string) := fun v =>
  if negb (ta_authenticated v) then (inr (1, "ERROR: vault authentication failed at " +:+ vault_addr), v)
  else
    then_ (enable_transit_idempotent mount_point) (fun enabled =>
    then_ (create_key_idempotent key_name mount_point) (fun created =>
    done_with (0, transit_line mount_point key_name (if enabled then "enabled" else "already present")
                    (if created then "created" else "already present")))) v.
End transit_script.

(** What Vault documents: a path holds at most one engine, a Transit mount holds
    keys, creating a key that exists changes nothing, and encryption under a
    derived key is bound to the context. *)
Class TransitLaws (V : Type) `{TransitAdmin V} := {
  engine : V -> string -> option string;
  key : V -> string -> string -> option bool; (** [derived] *)
  transit_at : V -> string -> string -> transit;
  enable_transit_law ty m v r v' : ta_authenticated v = true -> ta_enable ty m v = (r, v') ->
    match engine v m with
    | Some _ => v' = v /\ exists s, r = inl (InvalidRequest s) /\ contains "path is already in use" s = true
    | None => r = inr tt /\ ta_authenticated v' = true /\ engine v' m = Some ty /\ (forall n, key v' m n = None) /\
        forall m', m' <> m -> engine v' m' = engine v m' /\ forall n, key v' m' n = key v m' n
    end;
  read_key_law m n v : ta_authenticated v = true -> engine v m = Some "transit" ->
    match key v m n with Some _ => ta_read_key m n v = inr tt | None => exists s, ta_read_key m n v = inl (InvalidPath s) end;
  create_key_law m n derived v r v' : ta_authenticated v = true -> engine v m = Some "transit" -> key v m n = None ->
    ta_create_key m n derived v = (r, v') -> r = inr tt /\ ta_authenticated v' = true /\ (forall m', engine v' m' = engine v m') /\
      key v' m n = Some derived /\ forall m' n', (m', n') <> (m, n) -> key v' m' n' = key v m' n';
  derived_law m n v : key v m n = Some true -> transit_ok (transit_at v m n)
}.

(** ** The audit device *)

Class AuditAdmin (V : Type) := {
  aa_authenticated : V -> bool;
  aa_list : V -> vault_error + json; (** what [list_enabled_audit_devices] returns *)
  aa_enable : string -> string -> string -> V -> (vault_error + unit) * V (** type, path, [file_path] *)
}.

Definition DEFAULT_AUDIT_DEVICE_PATH : string := "file".
Definition DEFAULT_LOG_FILE_PATH : string := "/vault/logs/audit.log".

(** [client... or {}], a dictionary; [None] is [JNull]. *)
Definition payload_dict (raw : json) : list (string * json) := match raw with JObj l => l | _ => [] end.

(** [_list_enabled_audit_devices] *)
Definition enabled_devices (raw : json) : list (string * json) :=
  let l := payload_dict raw in
  match dict_get "data" l with Some (JObj devices) => devices | _ => l end.

Section audit_script.
Context {V : Type} `{AuditAdmin V}.

Definition bootstrap_file_audit_device (device_path log_file_path : string) : call (V := V) bool :=
  then_ (reading aa_list) (fun raw =>
  if bool_decide (is_Some (dict_get (device_path +:+ "/") (enabled_devices raw))) then done_with false
  else then_ (aa_enable "file" device_path log_file_path) (fun _ => done_with true)).

Definition audit_main (vault_addr device_path log_file : string) : call (V := V) (Z * string) := fun v =>
  if negb (aa_authenticated v) then (inr (1, "ERROR: vault authentication failed at " +:+ vault_addr), v)
  else
    then_ (bootstrap_file_audit_device device_path log_file) (fun newly_enabled =>
    done_with (0, "audit device path=" +:+ device_path +:+ " log_file=" +:+ log_file +:+ ": " +:+
                  (if newly_enabled then "enabled" else "already present"))) v.
End audit_script.

(** Devices by their path with the trailing slash; the list is one of the two
    payloads [hvac] has returned. *)
Class AuditLaws (V : Type) `{AuditAdmin V} := {
  devices : V -> list (string * json);
  list_law v : aa_authenticated v = true -> exists raw, aa_list v = inr raw /\
    (dict_get "data" (devices v) = None) /\
    (raw = JObj (devices v) \/ exists l, raw = JObj l /\ dict_get "data" l = Some (JObj (devices v)));
  enable_device_law ty p file v r v' : aa_authenticated v = true -> dict_get (p +:+ "/") (devices v) = None ->
    aa_enable ty p file v = (r, v') ->
    r = inr tt /\ aa_authenticated v' = true /\ (exists d, dict_get (p +:+ "/") (devices v') = Some d) /\
    forall k, k <> p +:+ "/" -> dict_get k (devices v') = dict_get k (devices v)
}.

(** ** The scripts of the certificate authorities *)

Definition PKI_MAX_TTL : string := "8760h".
Definition NO_TOKEN : string := "ERROR: VAULT_TOKEN (or CRYPTO_VAULT_TOKEN) is unset — cannot bootstrap".

(** A certificate by its subject, as attributes with the object identifier, and
    the text of [not_valid_after_utc]. *)
Record chain_cert := mkChainCert { cc_subject : list (string * string); cc_not_after : string }.

Definition chain_cn (c : chain_cert) : string :=
  match List.find (fun a => bool_decide (a.1 = "2.5.4.3")) (cc_subject c) with Some a => a.2 | None => "<no-cn>" end.
Definition summarise_chain (certs : list chain_cert) : list string :=
  (fun c => "CN=" +:+ chain_cn c +:+ ", NotAfter=" +:+ cc_not_after c) <$> certs.

Section ca_scripts.
Context {V : Type} `{VaultAdmin V} (load_chain : string -> outcome (list chain_cert)).

(** [pki_bootstrap.py]: the exit code with the lines on [stderr] or [stdout],
    or an exception that is not a [PKIError]. *)
Definition pki_main (token : option string) (root_mount int_mount server_role client_role allowed_domains : string) (v : V)
  : outcome (Z * list string) * V :=
  if negb (truthy token) then (Ok (2, [NO_TOKEN]), v)
  else
    match pki_bootstrap root_mount int_mount server_role client_role allowed_domains PKI_MAX_TTL v with
    | (Raise (PKIError s), v') => (Ok (1, ["ERROR: bootstrap failed: " +:+ s]), v')
    | (Raise e, v') => (Raise e, v')
    | (Ok (_, bundle), v') =>
        (match load_chain bundle with
         | Raise e => Raise e
         | Ok certs =>
             Ok (0, ["[OK] PKI configured"; "     root mount:         " +:+ root_mount; "     intermediate mount: " +:+ int_mount;
                     "     server role:        " +:+ server_role; "     client role:        " +:+ client_role;
                     "     allowed domains:    " +:+ (if nonempty allowed_domains then allowed_domains else "(any — dev default)");
                     "     ca_bundle:"] ++ ((fun line => "       - " +:+ line) <$> summarise_chain certs))
         end, v')
    end.
End ca_scripts.

Definition USER_TTL : string := "5m".
Definition HOST_TTL : string := "24h".

Section ssh_script.
Context {V : Type} (vcall : vault_call -> V -> option vault_error * V) (read_ca_public : V -> outcome string).

(** [ssh_ca_bootstrap.py] *)
Definition ssh_ca_main (token : option string) (mount user_role host_role allowed_users allowed_host_domains : string) (v : V)
  : outcome (Z * list string) * V :=
  if negb (truthy token) then (Ok (2, [NO_TOKEN]), v)
  else
    match bootstrap vcall mount user_role host_role USER_TTL HOST_TTL allowed_users allowed_host_domains read_ca_public v with
    | (Raise (SSHCAError s), v') => (Ok (1, ["ERROR: bootstrap failed: " +:+ s]), v')
    | (Raise e, v') => (Raise e, v')
    | (Ok backend, v') =>
        (Ok (0, ["[OK] SSH CA configured at " +:+ repr mount; "     user role: " +:+ user_role; "     host role: " +:+ host_role;
                 "     allowed user principals: " +:+ allowed_users;
                 "     allowed host domains: " +:+ (if nonempty allowed_host_domains then allowed_host_domains else "(any — dev default)");
                 "     CA public key (drop into /etc/ssh/wg-manager-user-ca.pub):"; "       " +:+ vs_ca_public backend]), v')
    end.
End ssh_script.

(** ** What the scripts leave behind *)

Section transit_theorems.
Context {V : Type} `{TransitLaws V}.

Lemma enable_transit_up m v : ta_authenticated v = true -> engine v m = None \/ engine v m = Some "transit" ->
  exists v', enable_transit_idempotent m v = (inr (bool_decide (engine v m = None)), v') /\ ta_authenticated v' = true /\
    engine v' m = Some "transit" /\ (engine v m = Some "transit" -> v' = v) /\ (engine v m = None -> forall n, key v' m n = None) /\
    forall m', m' <> m -> forall n, key v' m' n = key v m' n.
Proof.
  intros Ha He. unfold enable_transit_idempotent. destruct (ta_enable "transit" m v) as [r v'] eqn:E.
  pose proof (enable_transit_law _ _ _ _ _ Ha E) as Hl. destruct He as [He|He]; rewrite He in *.
  - destruct Hl as (-> & Ha' & He' & Hk & Ho). exists v'. split_and!; try done. intros m' Hne n. by apply Ho.
  - destruct Hl as (-> & s & -> & Hs). rewrite Hs. exists v. by split_and!.
Qed.

Lemma create_key_up m n v : ta_authenticated v = true -> engine v m = Some "transit" ->
  exists v', create_key_idempotent n m v = (inr (bool_decide (key v m n = None)), v') /\ ta_authenticated v' = true /\
    engine v' m = Some "transit" /\ key v' m n = Some (default true (key v m n)) /\ (key v m n <> None -> v' = v) /\
    forall m' n', (m', n') <> (m, n) -> key v' m' n' = key v m' n'.
Proof.
  intros Ha He. unfold create_key_idempotent. pose proof (read_key_law m n v Ha He) as Hl.
  destruct (key v m n) as [d|] eqn:Hk.
  - rewrite Hl. exists v. by split_and!.
  - destruct Hl as [s ->]. unfold then_, done_with. destruct (ta_create_key m n true v) as [r v'] eqn:E.
    destruct (create_key_law _ _ _ _ _ _ Ha He Hk E) as (-> & Ha' & He' & Hk' & Ho). exists v'.
    split_and!; try done. by rewrite He'.
Qed.

(** The state of the script's mount and key decides what it prints. *)
Lemma transit_main_up addr n m v : ta_authenticated v = true -> engine v m = None \/ engine v m = Some "transit" ->
  exists v', transit_main addr n m v = (inr (0, transit_line m n
      (if bool_decide (engine v m = None) then "enabled" else "already present")
      (if bool_decide (engine v m = None \/ key v m n = None) then "created" else "already present")), v') /\
    ta_authenticated v' = true /\ engine v' m = Some "transit" /\
    key v' m n = Some (if decide (engine v m = None) then true else default true (key v m n)) /\
    (engine v m = Some "transit" -> key v m n <> None -> v' = v) /\
    forall m' n', m' <> m -> key v' m' n' = key v m' n'.
Proof.
  intros Ha He. unfold transit_main. rewrite Ha. cbn [negb]. unfold then_, done_with.
  destruct (enable_transit_up m v Ha He) as (v1 & -> & Ha1 & He1 & Hsame & Hnew & Ho1).
  destruct (create_key_up m n v1 Ha1 He1) as (v2 & -> & Ha2 & He2 & Hk2 & Hkeep & Ho2). exists v2.
  assert (Hother : forall m' n', m' <> m -> key v2 m' n' = key v m' n').
  { intros m' n' Hne. rewrite Ho2 by congruence. by apply Ho1. }
  destruct He as [He|He]; rewrite He in *.
  - rewrite Hnew in * by done. split_and!; try done.
  - rewrite Hsame in * by done. rewrite (bool_decide_eq_false_2 (Some "transit" = None)) by done.
    rewrite (bool_decide_ext (Some "transit" = None \/ key v m n = None) (key v m n = None)) by naive_solver. by split_and!.
Qed.

(** C24. After the Transit script, rows are bound to their ciphertext unless an
    underived key was there before.  On a Vault the token is good for and whose
    mount path is free or holds a Transit engine, the script exits with 0 and
    the key is there: a key it had to create is derived, one that existed is
    kept as it was, derived or not.  With a derived key the crypto backend on
    it has the laws the rows rely on.  The line it prints says what it created,
    other mounts keep their keys, and a second run changes nothing. *)
Theorem transit_bootstrap_protects addr n m v : ta_authenticated v = true ->
  engine v m = None \/ engine v m = Some "transit" ->
  exists v', let before := if decide (engine v m = None) then None else key v m n in
    transit_main addr n m v = (inr (0, transit_line m n (if decide (engine v m = None) then "enabled" else "already present")
      (if before then "already present" else "created")), v') /\
    key v' m n = Some (default true before) /\
    (before <> Some false -> CryptoLaws (VaultTransitBackend (transit_at v' m n))) /\
    (forall m' n', m' <> m -> key v' m' n' = key v m' n') /\
    transit_main addr n m v' = (inr (0, transit_line m n "already present" "already present"), v').
Proof.
  intros Ha Hd. destruct (transit_main_up addr n m v Ha Hd) as (v' & E & Ha' & He' & Hk & _ & Ho).
  exists v'. cbv zeta. set (before := if decide (engine v m = None) then None else key v m n).
  assert (Hk' : key v' m n = Some (default true before)) by (rewrite Hk; subst before; by destruct (decide _)).
  split_and!; [| |intros Hb|exact Ho|].
  - rewrite E. subst before. destruct (decide (engine v m = None)) as [Hn|Hn].
    + by rewrite !bool_decide_eq_true_2 by auto.
    + rewrite (bool_decide_eq_false_2 (engine v m = None)) by done.
      destruct (key v m n); [rewrite bool_decide_eq_false_2 by naive_solver|rewrite bool_decide_eq_true_2 by auto]; done.
  - done.
  - apply VaultTransitBackend_laws, derived_law. rewrite Hk'. by destruct before as [[]|].
  - destruct (transit_main_up addr n m v' Ha') as (v2 & -> & _ & _ & _ & Hsame & _); [by right|].
    rewrite Hsame, He', Hk', !bool_decide_eq_false_2 by naive_solver. done.
Qed.

(** A key that was created without [derived] is reported as a derived one. *)
Lemma underived_key_reported_derived addr n m v : ta_authenticated v = true -> engine v m = Some "transit" -> key v m n = Some false ->
  transit_main addr n m v = (inr (0, transit_line m n "already present" "already present"), v).
Proof.
  intros Ha He Hk. destruct (transit_main_up addr n m v Ha) as (v' & -> & _ & _ & _ & Hsame & _); [by right|].
  rewrite Hsame, He, Hk, !bool_decide_eq_false_2 by naive_solver. done.
Qed.
End transit_theorems.

Section audit_theorems.
Context {V : Type} `{AuditLaws V}.

Lemma listed_devices v : aa_authenticated v = true -> exists raw, aa_list v = inr raw /\ enabled_devices raw = devices v.
Proof.
  intros Ha. destruct (list_law v Ha) as (raw & -> & Hd & Hr). exists raw. split; [done|].
  destruct Hr as [->|(l & -> & Hl)]; unfold enabled_devices; cbn [payload_dict]; [by rewrite Hd|by rewrite Hl].
Qed.

(** The audit device is enabled once: a path that has a device, of whatever
    type, keeps it and nothing is called; a free path gets one; either way the
    next run finds it, with both payloads of the list. *)
Theorem audit_device_enabled_once p file v : aa_authenticated v = true ->
  exists new v', bootstrap_file_audit_device p file v = (inr new, v') /\
    (new = true <-> dict_get (p +:+ "/") (devices v) = None) /\ (new = false -> v' = v) /\
    (forall k, k <> p +:+ "/" -> dict_get k (devices v') = dict_get k (devices v)) /\
    forall file', bootstrap_file_audit_device p file' v' = (inr false, v').
Proof.
  intros Ha. unfold bootstrap_file_audit_device, then_, reading, done_with.
  destruct (listed_devices v Ha) as (raw & El & Ed). rewrite El, Ed.
  destruct (dict_get (p +:+ "/") (devices v)) as [d|] eqn:Ek.
  - exists false, v. rewrite bool_decide_eq_true_2 by eauto. split_and!; try done. intros file'. by rewrite El, Ed, Ek.
  - rewrite bool_decide_eq_false_2 by (by intros []). destruct (aa_enable "file" p file v) as [r v'] eqn:E.
    destruct (enable_device_law _ _ _ _ _ _ Ha Ek E) as (-> & Ha' & (d & Ed') & Ho). exists true, v'.
    split_and!; try done. intros file'. destruct (listed_devices v' Ha') as (raw' & -> & ->). by rewrite Ed'.
Qed.
End audit_theorems.

(** ** An engine in memory *)

(** A sealed text carries its context, a mark before each character. *)
Fixpoint seal (ctx text : string) : string :=
  match ctx with "" => String "." text | String c ctx' => String "x" (String c (seal ctx' text)) end.
Fixpoint open_with (ctx sealed : string) : option string :=
  match ctx, sealed with
  | "", String a text => if Ascii.eqb a "." then Some text else None
  | String c ctx', String a (String d rest) => if Ascii.eqb a "x" && Ascii.eqb c d then open_with ctx' rest else None
  | _, _ => None
  end.

Lemma open_seal ctx ctx' text : open_with ctx' (seal ctx text) = if bool_decide (ctx' = ctx) then Some text else None.
Proof.
  revert ctx'. induction ctx as [|c ctx IH]; intros [|d ctx']; cbn [seal open_with]; try done.
  - by destruct text.
  - cbn [Ascii.eqb]. change (Ascii.eqb "x" "x") with true. cbn [andb]. destruct (Ascii.eqb_spec d c) as [->|Hne].
    + rewrite IH. by rewrite (bool_decide_ext (String c ctx' = String c ctx) (ctx' = ctx)) by naive_solver.
    + by rewrite bool_decide_eq_false_2 by naive_solver.
Qed.

Definition sealed_transit (derived : bool) : transit :=
  mkTransit (fun p ctx => Ok (VAULT_PREFIX +:+ seal (if derived then ctx else "") p))
    (fun blob ctx => match open_with (if derived then ctx else "") (str_drop 6 blob) with
                     | Some p => Plaintext p | None => TransitRefused end) (Ok 1).

Lemma sealed_transit_ok : transit_ok (sealed_transit true).
Proof.
  intros p ctx blob [= <-]. split_and!; [apply startswith_app| |].
  - cbn [te_decrypt sealed_transit]. change (str_drop 6 _) with (seal ctx p). by rewrite open_seal, bool_decide_eq_true_2.
  - intros ctx' Hne. cbn [te_decrypt sealed_transit]. change (str_drop 6 _) with (seal ctx p). by rewrite open_seal, bool_decide_eq_false_2.
Qed.

(** Mounts by path: the type of the engine and its keys with their flag. *)
Notation dev_transit := (gmap string (string * gmap string bool)).

#[export] Instance dev_transit_admin : TransitAdmin dev_transit := {|
  ta_authenticated _ := true;
  ta_enable ty m v := match v !! m with Some _ => (inl (in_use m), v) | None => (inr tt, <[m := (ty, ∅)]> v) end;
  ta_read_key m n v := match v !! m ≫= (fun e => e.2 !! n) with Some _ => inr tt | None => inl (no_handler m) end;
  ta_create_key m n derived v := match v !! m with
                                 | Some (ty, keys) => (inr tt, <[m := (ty, <[n := derived]> keys)]> v)
                                 | None => (inl (no_handler m), v) end
|}.

Definition dev_key (v : dev_transit) (m n : string) : option bool := v !! m ≫= (fun e => e.2 !! n).

Definition dev_engine (v : dev_transit) (m : string) : option string := fst <$> v !! m.

#[export] Instance dev_transit_laws : TransitLaws dev_transit.
Proof.
  apply (Build_TransitLaws dev_transit dev_transit_admin dev_engine dev_key (fun v m n => sealed_transit (default false (dev_key v m n)))); unfold dev_engine.
  - intros ty m v r v' _. cbn. destruct (v !! m) as [e|] eqn:E; cbn; intros [= <- <-].
    + split; [done|]. eexists. split; [done|]. apply contains_start.
    + rewrite lookup_insert_eq. split_and!; try done; [intros n; unfold dev_key; by rewrite lookup_insert_eq|].
      intros m' Hne. split; [by rewrite lookup_insert_ne|]. intros n. unfold dev_key. by rewrite lookup_insert_ne.
  - intros m n v _ _. cbn. fold (dev_key v m n). destruct (dev_key v m n); eauto.
  - intros m n d v r v' _. cbn. destruct (v !! m) as [[ty keys]|] eqn:E; cbn; [|done]. intros Hty Hk [= <- <-].
    split_and!; try done.
    + intros m'. destruct (decide (m' = m)) as [->|]; [by rewrite lookup_insert_eq, E|by rewrite lookup_insert_ne].
    + unfold dev_key. rewrite lookup_insert_eq. cbn. apply lookup_insert_eq.
    + intros m' n' Hne. unfold dev_key. destruct (decide (m' = m)) as [->|]; [|by rewrite lookup_insert_ne].
      rewrite lookup_insert_eq, E. cbn. apply lookup_insert_ne. congruence.
  - intros m n v ->. apply sealed_transit_ok.
Defined.

Lemma transit_bootstrap_protects_witness :
  exists v', transit_main "http://127.0.0.1:8200" "wg-manager" "transit" (∅ : dev_transit) =
      (inr (0, transit_line "transit" "wg-manager" "enabled" "created"), v') /\
    dev_key v' "transit" "wg-manager" = Some true /\
    transit_main "http://127.0.0.1:8200" "wg-manager" "transit" v' =
      (inr (0, transit_line "transit" "wg-manager" "already present" "already present"), v').
Proof.
  destruct (transit_bootstrap_protects "http://127.0.0.1:8200" "wg-manager" "transit" (∅ : dev_transit))
    as (v' & E & Hk & _ & _ & E2); [reflexivity|left; reflexivity|].
  exists v'. split_and!; [exact E|exact Hk|exact E2].
Defined.
