(* ===== verification/Failover.v ===== *)
(** * Failover of Vault

    [src/scripts/vault_snapshot.py] and [src/scripts/vault_restore.py]: fetching
    the raft snapshot of the primary, restoring it on the standby, and the check
    after the restart.  Vault is a parameter: a state, the answer to a request
    and the passing of half a second; the theorems ask of it what the API
    documents, as a state machine that it follows. *)

From S2P Require Import Prelude PyStr Hashing Json Models Session AuditLog.

(** ** Requests and answers *)

Inductive payload := JsonBody (j : json) | RawBody (content : string).
Record vault_request := mkVaultRequest { vr_method : string; vr_path : string; vr_token : string; vr_body : option payload }.

(** The body of an answer by what [json.loads] makes of it. *)
Inductive reply := NoBody | Decoded (j : json) | Garbage.
Definition json_loads (r : reply) : outcome json :=
  match r with NoBody => Ok (JObj []) | Decoded j => Ok j | Garbage => Raise (ValueError "not JSON") end.

(** [bool(j)] *)
Definition truthy_json (j : json) : bool :=
  match j with
  | JNull => false | JBool b => b | JInt n => negb (n =? 0) | JStr s => nonempty s
  | JList l => negb (bool_decide (length l = 0%nat)) | JObj l => negb (bool_decide (length l = 0%nat))
  end.
(** [d.get(k, default)]; only a dictionary has it. *)
Definition get_or (j : json) (k : string) (d : json) : outcome json :=
  match j with JObj l => Ok (default d (dict_get k l)) | _ => Raise (AttributeError "get") end.
(** [d.get(a) or d.get(b) or []] *)
Definition first_truthy (j : json) (a b : string) : outcome json :=
  match get_or j a JNull with
  | Raise e => Raise e
  | Ok x => if truthy_json x then Ok x else
      match get_or j b JNull with Raise e => Raise e | Ok y => Ok (if truthy_json y then y else JList []) end
  end.
(** [for x in j] *)
Definition iterate (j : json) : outcome (list json) :=
  match j with
  | JList l => Ok l
  | JObj l => Ok (JStr ∘ fst <$> l)
  | JStr s => Ok ((fun c => JStr (String c "")) <$> String.list_ascii_of_string s)
  | _ => Raise (TypeError "not iterable")
  end.

Definition restore_error (message : string) : exn := RuntimeError message.
Definition REQUIRED_MOUNTS : list string := ["ssh/"; "pki/"; "transit/"].

(** ** The commands *)

Section vault.
Context {V : Type} (vcall : vault_request -> V -> option (Z * reply) * V) (pause : V -> V).

(** An operation: its outcome, unless the fuel was not enough, and Vault. *)
Definition op (A : Type) : Type := V -> option (outcome A) * V.
Definition give {A} (o : outcome A) : op A := fun v => (Some o, v).
Definition and_then {A B} (m : op A) (k : A -> op B) : op B := fun v =>
  match m v with
  | (Some (Ok a), v') => k a v'
  | (Some (Raise e), v') => (Some (Raise e), v')
  | (None, v') => (None, v')
  end.
Notation "x <~ m ;; k" := (and_then m (fun x => k)) (at level 100, m at next level, right associativity).

(** [_call]: HTTP errors are answers; only an unreachable Vault raises. *)
Definition call (rq : vault_request) : op (Z * reply) := fun v =>
  match vcall rq v with
  | (Some answer, v') => (Some (Ok answer), v')
  | (None, v') => (Some (Raise (restore_error "cannot reach Vault")), v')
  end.

(** [_json] *)
Definition json_call (rq : vault_request) : op json :=
  answer <~ call rq ;;
  if 300 <=? answer.1 then give (Raise (restore_error (vr_method rq +:+ " " +:+ vr_path rq +:+ " -> HTTP " +:+ dec answer.1)))
  else give (json_loads answer.2).

(** [_unseal] *)
Fixpoint unseal_each (keys : list json) : op unit :=
  match keys with
  | [] => give (Raise (restore_error "Vault is still sealed after submitting every unseal key"))
  | key :: keys' =>
      resp <~ json_call (mkVaultRequest "PUT" "/v1/sys/unseal" "" (Some (JsonBody (JObj [("key", key)])))) ;;
      sealed <~ give (get_or resp "sealed" (JBool true)) ;;
      if truthy_json sealed then unseal_each keys' else give (Ok tt)
  end.
Definition unseal (keys : json) : op unit := l <~ give (iterate keys) ;; unseal_each l.

Definition health : vault_request := mkVaultRequest "GET" "/v1/sys/health" "" None.

(** [_wait_active]; [late i]: the clock is past the deadline at the [i]-th
    check.  Without fuel there is no result. *)
Fixpoint wait_active (late : nat -> bool) (unseal_keys : option json) (fuel i : nat) : op unit :=
  match fuel with
  | O => fun v => (None, v)
  | S fuel' => fun v =>
      let '(answer, v) := vcall health v in
      let status := from_option fst 0 answer in
      if status =? 200 then (Some (Ok tt), v)
      else if (status =? 503) && from_option truthy_json false unseal_keys then
        (_ <~ unseal (default JNull unseal_keys) ;; wait_active late unseal_keys fuel' i) v
      else if late i then
        (Some (Raise (restore_error ("Vault did not become active (last health: HTTP " +:+ dec status +:+ ")"))), v)
      else wait_active late unseal_keys fuel' (S i) (pause v)
  end.

(** [_shipped_keys]; [init_file] is the file by what [json.load] makes of it. *)
Definition shipped_keys (init_file : option reply) : outcome json :=
  match init_file with
  | None => Raise (OSError "vault-init.json")
  | Some r =>
      match json_loads r with
      | Raise e => Raise e
      | Ok init =>
          match first_truthy init "unseal_keys_b64" "keys_base64" with
          | Raise e => Raise e
          | Ok keys => if truthy_json keys then Ok keys else Raise (restore_error "no unseal keys in vault-init.json")
          end
      end
  end.

(** [init["root_token"]] *)
Definition item (j : json) (k : string) : outcome json :=
  match j with
  | JObj l => match dict_get k l with Some x => Ok x | None => Raise (KeyError k) end
  | _ => Raise (TypeError "indices")
  end.
Definition as_header (j : json) : outcome string := match j with JStr s => Ok s | _ => Raise (TypeError "header") end.

(** [restore] *)
Definition restore_vault (late : nat -> bool) (fuel : nat) (token : string) (init_file : option reply) (snapshot : string) : op unit :=
  if negb (nonempty snapshot) then give (Raise (restore_error "the snapshot is empty — nothing to restore (run make standby-pull)"))
  else
    keys <~ give (shipped_keys init_file) ;;
    status <~ json_call (mkVaultRequest "GET" "/v1/sys/init" "" None) ;;
    initialized <~ give (get_or status "initialized" (JBool false)) ;;
    restore_token <~
      (if negb (truthy_json initialized) then
         init <~ json_call (mkVaultRequest "PUT" "/v1/sys/init" ""
                   (Some (JsonBody (JObj [("secret_shares", JInt 1); ("secret_threshold", JInt 1)])))) ;;
         own <~ give (first_truthy init "keys_base64" "keys") ;;
         _ <~ unseal own ;;
         root <~ give (item init "root_token") ;;
         give (as_header root)
       else
         seal <~ json_call (mkVaultRequest "GET" "/v1/sys/seal-status" "" None) ;;
         sealed <~ give (get_or seal "sealed" (JBool true)) ;;
         _ <~ (if truthy_json sealed then unseal keys else give (Ok tt)) ;;
         give (Ok token)) ;;
    _ <~ wait_active late None fuel 0 ;;
    answer <~ call (mkVaultRequest "POST" "/v1/sys/storage/raft/snapshot-force" restore_token (Some (RawBody snapshot))) ;;
    if 300 <=? answer.1 then give (Raise (restore_error ("the snapshot restore failed: HTTP " +:+ dec answer.1))) else give (Ok tt).

(** [sorted((mounts.get("data") or mounts).keys())] *)
Definition mount_paths (mounts : json) : outcome (list string) :=
  match get_or mounts "data" JNull with
  | Raise e => Raise e
  | Ok data =>
      match (if truthy_json data then data else mounts) with
      | JObj l => Ok (fst <$> sort_items l)
      | _ => Raise (AttributeError "keys")
      end
  end.

(** The loop of [verify]; [late'] is its own deadline. *)
Fixpoint mounts_loop (late late' : nat -> bool) (keys : json) (token : string) (fuel i : nat) : op json :=
  match fuel with
  | O => fun v => (None, v)
  | S fuel' =>
      _ <~ wait_active late (Some keys) fuel' 0 ;;
      answer <~ call (mkVaultRequest "GET" "/v1/sys/mounts" token None) ;;
      if answer.1 =? 200 then give (match answer.2 with NoBody => Raise (ValueError "not JSON") | r => json_loads r end)
      else if negb (mem answer.1 [429; 500; 503]) || late' i
      then give (Raise (restore_error ("GET /v1/sys/mounts -> HTTP " +:+ dec answer.1 +:+ " after the restore")))
      else fun v => mounts_loop late late' keys token fuel' (S i) (pause v)
  end.

(** [verify] *)
Definition verify_vault (late late' : nat -> bool) (fuel : nat) (token : string) (init_file : option reply) : op (list string) :=
  keys <~ give (shipped_keys init_file) ;;
  mounts <~ mounts_loop late late' keys token fuel 0 ;;
  paths <~ give (mount_paths mounts) ;;
  match List.filter (fun m => negb (mem m paths)) REQUIRED_MOUNTS with
  | [] => give (Ok paths)
  | missing => give (Raise (restore_error ("the restored Vault lacks " +:+ join ", " missing +:+
                 " — wrong or damaged snapshot (try standby/vault.snap.prev)")))
  end.

(** [main]: the exit code; other exceptions leave it. *)
Definition restore_main (late late' : nat -> bool) (fuel : nat) (addr token : string) (init_file : option reply) (argv : list string) (stdin : string)
  : op Z := fun v =>
  let body : op unit :=
    if negb (nonempty addr) || negb (nonempty token)
    then give (Raise (restore_error "VAULT_ADDR and VAULT_TOKEN must be set (run via the entrypoint shim)"))
    else if bool_decide (argv = ["--verify"]) then _ <~ verify_vault late late' fuel token init_file ;; give (Ok tt)
    else if bool_decide (argv = []) then restore_vault late fuel token init_file stdin
    else give (Raise (restore_error "usage: vault_restore.py [--verify]")) in
  match body v with
  | (Some (Ok _), v') => (Some (Ok 0), v')
  | (Some (Raise (RuntimeError _ | OSError _ | ValueError _)), v') => (Some (Ok 1), v')
  | (Some (Raise e), v') => (Some (Raise e), v')
  | (None, v') => (None, v')
  end.
End vault.

(** ** The snapshot *)

(** [vault_snapshot.main]: what [urlopen] gives is an HTTP error, an error of
    the connection after some chunks, or the chunks; the exit code with what
    was written to stdout. *)
Inductive fetched := HttpError (code : Z) | Broken (chunks : list string) | Chunks (chunks : list string).
Definition snapshot_main (addr token : string) (isatty : bool) (fetch : fetched) : Z * string :=
  if negb (nonempty addr) then (1, "") else if negb (nonempty token) then (1, "") else if isatty then (1, "")
  else match fetch with
       | HttpError _ => (1, "")
       | Broken chunks => (1, String.concat "" chunks)
       | Chunks chunks => let out := String.concat "" chunks in (if nonempty out then 0 else 1, out)
       end.

(** ** What Vault documents *)

(** A cluster as its storage holds it: unseal shares and threshold, root token
    and mounts. *)
Record cluster := mkCluster { shares : list string; threshold : nat; root_token : string; mounts : list string }.

(** A raft node: its storage; the seal configuration in memory, which is the one
    of the storage at the last start or initialization; the shares submitted so
    far; how long the election and the start still take. *)
Record raft := mkRaft {
  stored : option cluster; seal_shares : list string; seal_threshold : nat; submitted : list string; unsealed : bool;
  electing : nat; starting : nat
}.

Section documented.
Context (throwaway : cluster) (decode : string -> option cluster) (election start_up : nat).

Definition sealed_reply (b : bool) : option (Z * reply) := Some (200, Decoded (JObj [("sealed", JBool b)])).
Definition http (code : Z) : option (Z * reply) := Some (code, Decoded (JObj [("errors", JList [])])).

Definition health_status (s : raft) : Z :=
  if bool_decide (stored s = None) then 501 else if negb (unsealed s) then 503 else if bool_decide (electing s = 0%nat) then 200 else 429.

(** One share: a known one counts once. *)
Definition submit (key : string) (s : raft) : option (Z * reply) * raft :=
  if unsealed s then (sealed_reply false, s)
  else if negb (mem key (seal_shares s)) then (http 400, s)
  else
    let given := if mem key (submitted s) then submitted s else key :: submitted s in
    if Nat.leb (seal_threshold s) (length given)
    then (sealed_reply false, mkRaft (stored s) (seal_shares s) (seal_threshold s) [] true election (starting s))
    else (sealed_reply true, mkRaft (stored s) (seal_shares s) (seal_threshold s) given false (electing s) (starting s)).

Definition answer (rq : vault_request) (s : raft) : option (Z * reply) * raft :=
  if negb (bool_decide (starting s = 0%nat)) then (None, s)
  else if bool_decide ((vr_method rq, vr_path rq) = ("GET", "/v1/sys/health")) then (Some (health_status s, NoBody), s)
  else if bool_decide ((vr_method rq, vr_path rq) = ("GET", "/v1/sys/init"))
  then (Some (200, Decoded (JObj [("initialized", JBool (bool_decide (is_Some (stored s))))])), s)
  else if bool_decide ((vr_method rq, vr_path rq) = ("PUT", "/v1/sys/init")) then
    match stored s with
    | Some _ => (http 400, s)
    | None => (Some (200, Decoded (JObj [("keys_base64", JList (JStr <$> shares throwaway)); ("root_token", JStr (root_token throwaway))])),
               mkRaft (Some throwaway) (shares throwaway) (threshold throwaway) [] false 0 0)
    end
  else match stored s with
  | None => (http 503, s)
  | Some c =>
      if bool_decide ((vr_method rq, vr_path rq) = ("PUT", "/v1/sys/unseal")) then
        match vr_body rq with Some (JsonBody (JObj [("key", JStr key)])) => submit key s | _ => (http 400, s) end
      else if bool_decide ((vr_method rq, vr_path rq) = ("GET", "/v1/sys/seal-status")) then (sealed_reply (negb (unsealed s)), s)
      else if negb (unsealed s) then (http 503, s)
      else if negb (bool_decide (electing s = 0%nat)) then (http 500, s)
      else if negb (String.eqb (vr_token rq) (root_token c)) then (http 403, s)
      else if bool_decide ((vr_method rq, vr_path rq) = ("POST", "/v1/sys/storage/raft/snapshot-force")) then
        match vr_body rq with
        | Some (RawBody snapshot) =>
            match decode snapshot with
            | Some c' => (Some (204, NoBody), mkRaft (Some c') (seal_shares s) (seal_threshold s) [] false 0 0)
            | None => (http 400, s)
            end
        | _ => (http 400, s)
        end
      else if bool_decide ((vr_method rq, vr_path rq) = ("GET", "/v1/sys/mounts"))
      then (Some (200, Decoded (JObj [("data", JObj ((fun m => (m, JObj [])) <$> mounts c))])), s)
      else (http 404, s)
  end.

(** Half a second, and a restart. *)
Definition half_second (s : raft) : raft :=
  mkRaft (stored s) (seal_shares s) (seal_threshold s) (submitted s) (unsealed s)
    (if bool_decide (starting s = 0%nat) then pred (electing s) else electing s) (pred (starting s)).
Definition restarted (s : raft) : raft :=
  mkRaft (stored s) (from_option shares [] (stored s)) (from_option threshold 0%nat (stored s)) [] false 0 start_up.

(** A Vault that does what the documentation says. *)
Record follows {V} (vcall : vault_request -> V -> option (Z * reply) * V) (pause restart : V -> V) (view : V -> raft) : Prop := {
  follows_call : forall rq v, (vcall rq v).1 = (answer rq (view v)).1 /\ view (vcall rq v).2 = (answer rq (view v)).2;
  follows_pause : forall v, view (pause v) = half_second (view v);
  follows_restart : forall v, view (restart v) = restarted (view v)
}.
End documented.

Lemma filter_none_bool {A} (p : A -> bool) l : List.filter p l = [] <-> forall x, x ∈ l -> p x = false.
Proof.
  split.
  - intros H x Hx. destruct (p x) eqn:E; [|done]. assert (Hin : x ∈ List.filter p l) by (by apply list_elem_of_In, filter_In; split; [apply list_elem_of_In|]).
    rewrite H in Hin. by apply elem_of_nil in Hin.
  - intros H. destruct (List.filter p l) as [|x k] eqn:E; [done|]. assert (Hin : In x (List.filter p l)) by (rewrite E; by left).
    apply filter_In in Hin as [Hin Hp]. rewrite H in Hp; [done|]. by apply list_elem_of_In.
Qed.

(** ** Recovery *)

Section recovery.
Context (throwaway : cluster) (decode : string -> option cluster) (election start_up : nat)
  {V : Type} (vcall : vault_request -> V -> option (Z * reply) * V) (pause restart : V -> V) (view : V -> raft)
  (F : follows throwaway decode election start_up vcall pause restart view).
Let answer_ := answer throwaway decode election.

Lemma call_run rq v a s : answer_ rq (view v) = (Some a, s) -> exists v', call vcall rq v = (Some (Ok a), v') /\ view v' = s.
Proof.
  intros Ha. destruct (follows_call _ _ _ _ _ _ _ _ F rq v) as [H1 H2]. fold answer_ in H1, H2. rewrite Ha in H1, H2. unfold call.
  destruct (vcall rq v) as [a' v']. simpl in *. subst. eauto.
Qed.

Lemma json_call_run rq v code j s : answer_ rq (view v) = (Some (code, Decoded j), s) -> code < 300 ->
  exists v', json_call vcall rq v = (Some (Ok j), v') /\ view v' = s.
Proof.
  intros Ha Hc. destruct (call_run _ _ _ _ Ha) as (v' & E & Hv). exists v'. split; [|done]. unfold json_call, and_then. rewrite E. cbn [fst snd].
  destruct (Z.leb_spec 300 code); [lia|done].
Qed.

(** A sealed node that has some shares is unsealed by the rest of them. *)
Lemma unseal_each_run c ks t el rest : forall given v,
  view v = mkRaft (Some c) ks t given false el 0 -> NoDup (rest ++ given) -> rest ⊆ ks ->
  (length given < t <= length rest + length given)%nat ->
  exists v', unseal_each vcall (JStr <$> rest) v = (Some (Ok tt), v') /\ view v' = mkRaft (Some c) ks t [] true election 0.
Proof.
  induction rest as [|key rest IH]; intros given v Hv Hnd Hsub Hlen; [simpl in Hlen; lia|].
  rewrite fmap_cons. cbn [unseal_each]. rewrite <- app_comm_cons in Hnd. apply NoDup_cons in Hnd as [Hk Hnd]. rewrite elem_of_app in Hk.
  assert (Hks : mem key ks = true) by (apply mem_true, Hsub; by left).
  assert (Hgiven : mem key given = false) by (apply bool_decide_eq_false; tauto).
  assert (Ha : answer_ (mkVaultRequest "PUT" "/v1/sys/unseal" "" (Some (JsonBody (JObj [("key", JStr key)])))) (view v) =
    submit election key (view v)) by (by rewrite Hv).
  unfold submit in Ha. rewrite Hv in Ha. cbn [unsealed seal_shares submitted seal_threshold stored electing starting] in Ha. rewrite Hks, Hgiven in Ha.
  cbn [negb] in Ha. cbn [length] in Ha. destruct (Nat.leb_spec t (S (length given))) as [Ht|Ht].
  - rewrite <- Hv in Ha. destruct (json_call_run _ _ _ _ _ Ha) as (v' & E & Hv'); [lia|]. exists v'. split; [|done].
    unfold and_then at 1. rewrite E. done.
  - rewrite <- Hv in Ha. destruct (json_call_run _ _ _ _ _ Ha) as (v' & E & Hv'); [lia|]. unfold and_then at 1. rewrite E. cbn.
    apply (IH (key :: given)); [done| |set_solver|cbn [length] in *; lia].
    rewrite <- Permutation_middle. apply NoDup_cons. split; [|done]. rewrite elem_of_app. tauto.
Qed.

Lemma unseal_run c ks t el v : view v = mkRaft (Some c) ks t [] false el 0 -> NoDup ks -> (1 <= t <= length ks)%nat ->
  exists v', unseal vcall (JList (JStr <$> ks)) v = (Some (Ok tt), v') /\ view v' = mkRaft (Some c) ks t [] true election 0.
Proof.
  intros Hv Hnd Ht. unfold unseal, and_then. cbn [iterate give]. eapply unseal_each_run; [done|by rewrite app_nil_r|done|simpl; lia].
Qed.

Lemma health_run v : exists v', vcall health v = ((answer_ health (view v)).1, v') /\ view v' = view v.
Proof.
  destruct (follows_call _ _ _ _ _ _ _ _ F health v) as [H1 H2]. destruct (vcall health v) as [a v']. simpl in *. exists v'.
  split; [by rewrite H1|]. rewrite H2. unfold answer. by case_match.
Qed.

Lemma wait_elected late uk c ks t n : forall fuel i v,
  view v = mkRaft (Some c) ks t [] true n 0 -> (forall j, (i <= j < i + n)%nat -> late j = false) -> (n < fuel)%nat ->
  exists v', wait_active vcall pause late uk fuel i v = (Some (Ok tt), v') /\ view v' = mkRaft (Some c) ks t [] true 0 0.
Proof.
  induction n as [|n IH]; intros [|fuel] i v Hv Hl Hf; try lia; cbn [wait_active]; destruct (health_run v) as (v1 & E & Hv1); rewrite E, Hv;
    rewrite Hv in Hv1.
  - cbn. eauto.
  - replace (answer_ health _).1 with (Some (429, NoBody)) by done. cbn [from_option fst]. cbn [Z.eqb Pos.eqb andb].
    rewrite Hl by lia. apply (IH fuel); [|intros j Hj; apply Hl; lia|lia]. by rewrite (follows_pause _ _ _ _ _ _ _ _ F), Hv1.
Qed.

Lemma wait_unsealed late c ks t el fuel i v :
  view v = mkRaft (Some c) ks t [] false el 0 -> NoDup ks -> (1 <= t <= length ks)%nat ->
  (forall j, (i <= j < i + election)%nat -> late j = false) -> (S election < fuel)%nat ->
  exists v', wait_active vcall pause late (Some (JList (JStr <$> ks))) fuel i v = (Some (Ok tt), v') /\
    view v' = mkRaft (Some c) ks t [] true 0 0.
Proof.
  intros Hv Hnd Ht Hl Hf. destruct fuel as [|fuel]; [lia|]. cbn [wait_active]. destruct (health_run v) as (v1 & E & Hv1). rewrite E, Hv.
  rewrite Hv in Hv1. replace (answer_ health _).1 with (Some (503, NoBody)) by done. cbn [from_option fst]. cbn [Z.eqb Pos.eqb andb].
  assert (truthy_json (JList (JStr <$> ks)) = true) as ->.
  { cbn [truthy_json]. rewrite length_fmap. apply negb_true_iff, bool_decide_eq_false. lia. }
  destruct (unseal_run c ks t el v1 Hv1 Hnd Ht) as (v2 & E2 & Hv2). unfold and_then. cbn [default from_option]. change (id ?x) with x.
  rewrite E2. apply (wait_elected late _ c ks t election); [done..|lia].
Qed.

Lemma wait_started late c ks t d : forall fuel i v,
  view v = mkRaft (Some c) ks t [] false 0 d -> NoDup ks -> (1 <= t <= length ks)%nat ->
  (forall j, (i <= j < i + d + election)%nat -> late j = false) -> (S election + d < fuel)%nat ->
  exists v', wait_active vcall pause late (Some (JList (JStr <$> ks))) fuel i v = (Some (Ok tt), v') /\
    view v' = mkRaft (Some c) ks t [] true 0 0.
Proof.
  induction d as [|d IH]; intros fuel i v Hv Hnd Ht Hl Hf; [eapply wait_unsealed; [done..| |lia]; intros j Hj; apply Hl; lia|].
  destruct fuel as [|fuel]; [lia|]. cbn [wait_active]. destruct (health_run v) as (v1 & E & Hv1). rewrite E, Hv. rewrite Hv in Hv1.
  replace (answer_ health _).1 with (@None (Z * reply)) by done. cbn [from_option]. cbn [Z.eqb andb].
  rewrite Hl by lia. apply (IH fuel); [|done..|intros j Hj; apply Hl; lia|lia]. by rewrite (follows_pause _ _ _ _ _ _ _ _ F), Hv1.
Qed.

(** A set of shares that can unseal. *)
Definition usable (c : cluster) : Prop := NoDup (shares c) /\ (1 <= threshold c <= length (shares c))%nat.

(** The standby before a failover: never initialized, or restored earlier from
    the same primary (sealed, or unsealed and perhaps still electing). *)
Definition standby (c : cluster) (s : raft) : Prop :=
  starting s = 0%nat /\
  (stored s = None \/
   exists c0 b n, s = mkRaft (Some c0) (shares c) (threshold c) [] b n 0 /\ root_token c0 = root_token c /\ (n <= election)%nat).

Lemma unseal_own v : usable throwaway -> view v = mkRaft (Some throwaway) (shares throwaway) (threshold throwaway) [] false 0 0 ->
  exists v', unseal vcall (JList (JStr <$> shares throwaway)) v = (Some (Ok tt), v') /\
    view v' = mkRaft (Some throwaway) (shares throwaway) (threshold throwaway) [] true election 0.
Proof. intros [Hnd Ht] Hv. by eapply unseal_run. Qed.

Lemma shares_truthy c : usable c -> truthy_json (JList (JStr <$> shares c)) = true.
Proof. intros [_ Ht]. cbn [truthy_json]. rewrite length_fmap. apply negb_true_iff, bool_decide_eq_false. lia. Qed.

Ltac op_step E := unfold and_then at 1; rewrite E; cbv beta iota.

(** The token the snapshot is posted with, on a node that will be active. *)
Lemma restore_run c late fuel init snapshot v : usable c -> usable throwaway -> standby c (view v) -> nonempty snapshot = true -> decode snapshot = Some c ->
  shipped_keys init = Ok (JList (JStr <$> shares c)) -> (forall j, (j < election)%nat -> late j = false) -> (election < fuel)%nat ->
  exists v', restore_vault vcall pause late fuel (root_token c) init snapshot v = (Some (Ok tt), v') /\
    exists ks t, view v' = mkRaft (Some c) ks t [] false 0 0.
Proof.
  intros Hc Ht [H0 Hst] Hn Hdec Hkeys Hl Hf. unfold restore_vault. rewrite Hn. cbn [negb].
  unfold and_then at 1. cbn [give]. rewrite Hkeys. cbv beta iota.
  assert (Hinit : exists v1, json_call vcall (mkVaultRequest "GET" "/v1/sys/init" "" None) v =
    (Some (Ok (JObj [("initialized", JBool (bool_decide (is_Some (stored (view v)))))])), v1) /\ view v1 = view v).
  { eapply json_call_run; [|exact (ltac:(lia) : 200 < 300)]. unfold answer_, answer. rewrite bool_decide_eq_true_2 by done. done. }
  destruct Hinit as (v1 & E1 & Hv1). op_step E1. cbn [get_or dict_get give default]. unfold and_then at 1. cbn [give].
  rewrite bool_decide_eq_true_2 by done. change (default _ (Some ?x)) with x. cbv beta iota. cbn [truthy_json].
  (* the post, once the node is unsealed *)
  assert (Hpost : forall c0 ks t n v2, view v2 = mkRaft (Some c0) ks t [] true n 0 -> (n <= election)%nat ->
    exists v', and_then (wait_active vcall pause late None fuel 0) (fun _ =>
      and_then (call vcall (mkVaultRequest "POST" "/v1/sys/storage/raft/snapshot-force" (root_token c0) (Some (RawBody snapshot)))) (fun answer =>
      if 300 <=? answer.1 then give (Raise (restore_error ("the snapshot restore failed: HTTP " +:+ dec answer.1))) else give (Ok tt))) v2 =
      (Some (Ok tt), v') /\ view v' = mkRaft (Some c) ks t [] false 0 0).
  { intros c0 ks t n v2 Hv2 Hle. destruct (wait_elected late None c0 ks t n fuel 0 v2 Hv2) as (v3 & E3 & Hv3); [intros j Hj; apply Hl; lia|lia|].
    op_step E3. assert (Ha : answer_ (mkVaultRequest "POST" "/v1/sys/storage/raft/snapshot-force" (root_token c0) (Some (RawBody snapshot))) (view v3) =
      (Some (204, NoBody), mkRaft (Some c) ks t [] false 0 0)).
    { rewrite Hv3. unfold answer_, answer. cbn [starting stored unsealed electing vr_method vr_path vr_token vr_body].
      rewrite (String.eqb_refl (root_token c0)), Hdec. done. }
    destruct (call_run _ _ _ _ Ha) as (v4 & E4 & Hv4). op_step E4. cbn. eauto. }
  destruct Hst as [Hnone|(c0 & b & n & Hs & Htok & Hle)].
  - rewrite Hnone. change (bool_decide (is_Some None)) with false. cbn [negb]. rewrite Hnone in *.
    assert (Ha : answer_ (mkVaultRequest "PUT" "/v1/sys/init" "" (Some (JsonBody (JObj [("secret_shares", JInt 1); ("secret_threshold", JInt 1)])))) (view v1) =
      (Some (200, Decoded (JObj [("keys_base64", JList (JStr <$> shares throwaway)); ("root_token", JStr (root_token throwaway))])),
       mkRaft (Some throwaway) (shares throwaway) (threshold throwaway) [] false 0 0)).
    { rewrite Hv1. unfold answer_, answer. rewrite H0. cbn. by rewrite Hnone. }
    destruct (json_call_run _ _ _ _ _ Ha) as (v2 & E2 & Hv2); [lia|].
    destruct (unseal_own v2 Ht Hv2) as (v3 & E3 & Hv3). destruct (Hpost _ _ _ _ v3 Hv3 (le_n _)) as (v4 & E4 & Hv4).
    exists v4. split; [|eauto]. unfold and_then at 1. op_step E2. unfold and_then at 1. cbn [give].
    unfold first_truthy. cbn [get_or dict_get]. rewrite bool_decide_eq_true_2 by done. change (default _ (Some ?x)) with x.
    rewrite shares_truthy by done. op_step E3. exact E4.
  - rewrite Hs in Hv1. rewrite Hs. cbn [stored]. rewrite bool_decide_eq_true_2 by done. cbn [negb].
    assert (Ha : answer_ (mkVaultRequest "GET" "/v1/sys/seal-status" "" None) (view v1) = (sealed_reply (negb b), view v1)) by (by rewrite Hv1).
    destruct (json_call_run _ _ _ _ _ Ha) as (v2 & E2 & Hv2); [lia|]. rewrite Hv1 in Hv2. rewrite <- Htok.
    unfold and_then at 1. op_step E2. unfold and_then at 1. cbn [give get_or dict_get]. rewrite bool_decide_eq_true_2 by done.
    change (default _ (Some ?x)) with x. cbn [truthy_json]. destruct b; cbn [negb].
    + destruct (Hpost _ _ _ _ v2 Hv2 Hle) as (v4 & E4 & Hv4). exists v4. split; [exact E4|eauto].
    + destruct Hc as [Hnd Hth]. destruct (unseal_run c0 (shares c) (threshold c) n v2 Hv2 Hnd Hth) as (v3 & E3 & Hv3).
      destruct (Hpost _ _ _ _ v3 Hv3 (le_n _)) as (v4 & E4 & Hv4). exists v4. split; [|eauto]. op_step E3. exact E4.
Qed.

Lemma mount_paths_run c : mounts c <> [] ->
  exists paths, mount_paths (JObj [("data", JObj ((fun m => (m, JObj [])) <$> mounts c))]) = Ok paths /\ paths ≡ₚ mounts c.
Proof.
  intros Hm. unfold mount_paths. cbn [get_or dict_get]. rewrite bool_decide_eq_true_2 by done. change (default _ (Some ?x)) with x.
  assert (truthy_json (JObj ((fun m => (m, JObj [])) <$> mounts c)) = true) as ->.
  { cbn [truthy_json]. rewrite length_fmap. apply negb_true_iff, bool_decide_eq_false. by destruct (mounts c). }
  eexists. split; [reflexivity|]. rewrite sort_items_self. rewrite <- list_fmap_compose. unfold compose. cbn [fst]. by rewrite list_fmap_id.
Qed.

Lemma verify_run c late late' fuel init v : usable c -> REQUIRED_MOUNTS ⊆ mounts c -> shipped_keys init = Ok (JList (JStr <$> shares c)) ->
  view v = mkRaft (Some c) (shares c) (threshold c) [] false 0 start_up ->
  (forall j, (j < start_up + election)%nat -> late j = false) -> (election + start_up + 2 < fuel)%nat ->
  exists v' paths, verify_vault vcall pause late late' fuel (root_token c) init v = (Some (Ok paths), v') /\ paths ≡ₚ mounts c /\
    view v' = mkRaft (Some c) (shares c) (threshold c) [] true 0 0.
Proof.
  intros [Hnd Ht] Hreq Hkeys Hv Hl Hf. unfold verify_vault. unfold and_then at 1. cbn [give]. rewrite Hkeys. cbv beta iota.
  destruct fuel as [|fuel]; [lia|]. cbn [mounts_loop].
  destruct (wait_started late c (shares c) (threshold c) start_up fuel 0 v Hv Hnd Ht) as (v1 & E1 & Hv1); [intros j Hj; apply Hl; lia|lia|].
  assert (Ha : answer_ (mkVaultRequest "GET" "/v1/sys/mounts" (root_token c) None) (view v1) =
    (Some (200, Decoded (JObj [("data", JObj ((fun m => (m, JObj [])) <$> mounts c))])), view v1)).
  { rewrite Hv1. unfold answer_, answer. cbn [starting stored unsealed electing vr_method vr_path vr_token vr_body].
    rewrite (String.eqb_refl (root_token c)). done. }
  destruct (call_run _ _ _ _ Ha) as (v2 & E2 & Hv2).
  assert (Hne : mounts c <> []) by (intros Hm; rewrite Hm in Hreq; by eapply elem_of_nil, Hreq; left).
  destruct (mount_paths_run c Hne) as (paths & Hp & Hperm). exists v2, paths. split; [|split; [done|by rewrite Hv2]].
  unfold and_then at 1. unfold and_then at 1. rewrite E1. op_step E2. cbn [fst snd Z.eqb Pos.eqb give json_loads]. unfold and_then at 1. cbn [give].
  rewrite Hp. cbv beta iota. assert (List.filter (fun m => negb (mem m paths)) REQUIRED_MOUNTS = []) as ->; [|done].
  apply filter_none_bool. intros m Hm. apply negb_false_iff, mem_true. rewrite Hperm. by apply Hreq.
Qed.

(** C23. Failover recovers the primary's Vault: on a Vault that does what its
    documentation says, whatever state the standby is in, restoring the
    snapshot succeeds, and after the restart the check succeeds: Vault is
    unsealed with the shipped keys, active, holds the primary's cluster and
    shows its mounts, provided it starts and elects within the deadline. *)
Theorem failover_recovers c late late' fuel init snapshot v : usable c -> usable throwaway -> standby c (view v) ->
  nonempty snapshot = true -> decode snapshot = Some c -> REQUIRED_MOUNTS ⊆ mounts c -> shipped_keys init = Ok (JList (JStr <$> shares c)) ->
  (forall j, (j < start_up + election)%nat -> late j = false) -> (election + start_up + 2 < fuel)%nat ->
  exists v1 v2 paths, restore_vault vcall pause late fuel (root_token c) init snapshot v = (Some (Ok tt), v1) /\
    verify_vault vcall pause late late' fuel (root_token c) init (restart v1) = (Some (Ok paths), v2) /\ paths ≡ₚ mounts c /\
    view v2 = mkRaft (Some c) (shares c) (threshold c) [] true 0 0.
Proof.
  intros Hc Ht Hst Hn Hdec Hreq Hkeys Hl Hf.
  destruct (restore_run c late fuel init snapshot v Hc Ht Hst Hn Hdec Hkeys) as (v1 & E1 & ks & t & Hv1); [intros j Hj; apply Hl; lia|lia|].
  destruct (verify_run c late late' fuel init (restart v1) Hc Hreq Hkeys) as (v2 & paths & E2 & Hp & Hv2); [|done|lia|eauto 10].
  by rewrite (follows_restart _ _ _ _ _ _ _ _ F), Hv1.
Qed.
End recovery.

(** ** Any Vault *)

Section any_vault.
Context {V : Type} (vcall : vault_request -> V -> option (Z * reply) * V) (pause : V -> V).

(** Without a snapshot, or without the shipped keys, Vault is not touched. *)
Lemma restore_needs_files late fuel token init snapshot v :
  snapshot = "" \/ (forall keys, shipped_keys init <> Ok keys) ->
  exists e, restore_vault vcall pause late fuel token init snapshot v = (Some (Raise e), v).
Proof.
  intros H. unfold restore_vault. destruct snapshot; [by eexists|]. cbn [nonempty negb]. destruct H as [|H]; [done|].
  unfold and_then at 1. cbn [give]. destruct (shipped_keys init) as [keys|e]; [by destruct (H keys)|eauto].
Qed.

(** A check that succeeds has seen the engines. *)
Lemma verify_saw_mounts late late' fuel token init v paths v' :
  verify_vault vcall pause late late' fuel token init v = (Some (Ok paths), v') -> REQUIRED_MOUNTS ⊆ paths.
Proof.
  unfold verify_vault. unfold and_then at 1. cbn [give]. destruct (shipped_keys init); [|done]. unfold and_then at 1.
  destruct (mounts_loop _ _ _ _ _ _ _ _ v) as [[[m|e]|] v1]; [|done..]. unfold and_then at 1. cbn [give].
  destruct (mount_paths m) as [ps|]; [|done]. destruct (List.filter _ _) eqn:E; [|done]. intros [= <- <-] x Hx.
  apply (proj1 (filter_none_bool _ _)) with (x := x) in E; [|done]. by apply negb_false_iff, mem_true in E.
Qed.

(** A Vault that seals itself again after every unseal keeps the wait going past
    any deadline: the deadline is not looked at on that path. *)
Lemma resealing_outlasts_deadline late key : 
  (forall v, (vcall health v).1 = Some (503, NoBody)) ->
  (forall v, (vcall (mkVaultRequest "PUT" "/v1/sys/unseal" "" (Some (JsonBody (JObj [("key", JStr key)])))) v).1 = sealed_reply false) ->
  forall fuel i v, (wait_active vcall pause late (Some (JList [JStr key])) fuel i v).1 = None.
Proof.
  intros Hh Hu fuel. induction fuel as [|fuel IH]; intros i v; [done|]. cbn [wait_active]. specialize (Hh v).
  destruct (vcall health v) as [a v1]. simpl in Hh. subst a. cbn [from_option fst]. cbn [Z.eqb Pos.eqb andb].
  change (truthy_json (JList [JStr key])) with true. cbv iota.
  assert (exists v2, unseal vcall (JList [JStr key]) v1 = (Some (Ok tt), v2)) as [v2 E].
  { unfold unseal, and_then, give, iterate, unseal_each, and_then, json_call, and_then, call. specialize (Hu v1).
    destruct (vcall _ v1) as [a v2]. simpl in Hu. subst a. by eexists. }
  unfold and_then. change (id ?x) with x. rewrite E. apply IH.
Qed.
End any_vault.

(** An empty or refused snapshot is never taken for one. *)
Lemma snapshot_ok_is_whole addr token isatty fetch out : snapshot_main addr token isatty fetch = (0, out) ->
  isatty = false /\ out <> "" /\ exists chunks, fetch = Chunks chunks /\ out = String.concat "" chunks.
Proof.
  unfold snapshot_main. destruct (negb _); [done|]. destruct (negb _); [done|]. destruct isatty; [done|]. destruct fetch as [| |chunks]; [done..|].
  cbv zeta. intros [= H <-]. split; [done|]. split; [|eauto]. intros E. by rewrite E in H.
Qed.

(** ** A concrete failover *)

(** The documented node itself, on a standby that was never initialized. *)
Definition primary : cluster := mkCluster ["k1"; "k2"; "k3"] 2 "hvs.root" ["cubbyhole/"; "ssh/"; "pki/"; "transit/"].
Definition fresh_node : cluster := mkCluster ["k0"] 1 "hvs.throwaway" [].
Definition snapshot_decode (s : string) : option cluster := if String.eqb s "snap" then Some primary else None.
Definition blank : raft := mkRaft None [] 0 [] false 0 0.
Definition primary_init : option reply := Some (Decoded (JObj [("unseal_keys_b64", JList [JStr "k1"; JStr "k2"; JStr "k3"])])).

Lemma failover_recovers_witness :
  exists v1 v2 paths, restore_vault (answer fresh_node snapshot_decode 3) half_second (fun _ => false) 20 "hvs.root" primary_init "snap" blank = (Some (Ok tt), v1) /\
    verify_vault (answer fresh_node snapshot_decode 3) half_second (fun _ => false) (fun _ => false) 20 "hvs.root" primary_init (restarted 4 v1) =
      (Some (Ok paths), v2) /\ paths ≡ₚ mounts primary /\ v2 = mkRaft (Some primary) (shares primary) 2 [] true 0 0.
Proof.
  apply (failover_recovers fresh_node snapshot_decode 3 4 (answer fresh_node snapshot_decode 3) half_second (restarted 4) (fun s => s)
           ltac:(split; [intros rq v; split; reflexivity|reflexivity..]) primary).
  - split; [apply (bool_decide_unpack _); vm_compute; exact I|simpl; lia].
  - split; [apply (bool_decide_unpack _); vm_compute; exact I|simpl; lia].
  - split; [reflexivity|by left].
  - reflexivity.
  - reflexivity.
  - intros x Hx. unfold REQUIRED_MOUNTS, primary in *. simpl. set_solver.
  - reflexivity.
  - reflexivity.
  - lia.
Defined.
