(* ===== verification/Rotation.v ===== *)
(** * Rotation of the TLS files

    [src/scripts/certs_due.py], [src/scripts/bootstrap_mysql_tls_files.py] and
    [src/scripts/extract_changelog.py].  Parsing of PEM files and the PKCS#8
    encoder are parameters; the percentage of a lifetime is exact, where Python
    computes it in floating point. *)

From Stdlib Require Import QArith.
From S2P Require Import Prelude PyStr Models Session Demo Auth Pki RouterCerts CliCerts.
Open Scope Z_scope.

(** ** [certs_due.py] *)

Definition EXIT_OK : Z := 0.
Definition EXIT_ERROR : Z := 2.
Definition EXIT_DUE : Z := 10.
Definition DEFAULT_LEAVES : list string := ["mysql/server.crt"; "mysql/client.crt"; "server.crt"; "client.crt"].

(** A certificate of a file: [BasicConstraints], if it has the extension, and
    its validity. *)
Record pem_cert := mkPemCert { pc_basic : option bool; pc_start : Z; pc_end : Z }.
Definition is_ca (c : pem_cert) : bool := default false (pc_basic c).

Definition elapsed_pct (c : pem_cert) (now : Z) : Q :=
  let window := pc_end c - pc_start c in
  if window <=? 0 then 100 else Qmake ((now - pc_start c) * 100) (Z.to_pos window).

Section due.
Context (load_certs : string -> option (list pem_cert)) (threshold_pct : Q) (now : Z).

Definition leaf_due (c : pem_cert) : bool := Qle_bool threshold_pct (elapsed_pct c now).

Definition read_file (path : string) : M string := fun w =>
  match files (outside w) !! path with Some (body, _) => (Ok body, w) | None => (Raise (OSError path), w) end.

Definition check_file (path : string) : M bool :=
  text <- read_file path ;;
  certs <- some_or_raise (load_certs text) (ValueError "no certificate") ;;
  match List.filter (fun c => negb (is_ca c)) certs with
  | [] => raise (ValueError "no leaf certificate in file (only CA certs)")
  | leaves => ret (existsb leaf_due leaves)
  end.

(** The loop of [main]: the first file that cannot be checked ends it. *)
Fixpoint check_files (paths : list string) (any_due : bool) : M Z :=
  match paths with
  | [] => ret (if any_due then EXIT_DUE else EXIT_OK)
  | path :: paths' => fun w =>
      match check_file path w with
      | (Ok due, w') => check_files paths' (due || any_due) w'
      | (Raise (OSError _ | ValueError _), w') => (Ok EXIT_ERROR, w')
      | (Raise e, w') => (Raise e, w')
      end
  end.
Definition certs_due_main (paths : list string) (tls_dir : string) : M Z :=
  check_files (if bool_decide (paths = []) then (fun rel => tls_dir +:+ "/" +:+ rel) <$> DEFAULT_LEAVES else paths) false.
End due.

(** ** [bootstrap_mysql_tls_files.py] *)

Definition BASE_SERVER_SANS : list string := ["localhost"; "127.0.0.1"; "mysql"; "wg_manager_mysql"].
Definition MYSQL_TTL_SECONDS : Z := 30 * 24 * 60 * 60.
Definition server_sans (extra : string) : list string := BASE_SERVER_SANS ++ List.filter nonempty (strip <$> split_on "," extra).

Section mysql_files.
Context `{PKIBackend} (to_pkcs8_pem : string -> outcome string) (extra_sans tls_dir : string).
Let path (name : string) : string := tls_dir +:+ "/mysql/" +:+ name.

(** [_write] *)
Definition write_file (name contents : string) (mode : Z) : M unit := write_pem (path name) contents mode.

Definition write_leaf (name ca : string) (c : Cert) : M unit :=
  write_file (name +:+ ".crt") (cert_pem c) CERT_MODE ;;
  key <- lift (to_pkcs8_pem (private_pem c)) ;;
  write_file (name +:+ ".key") key KEY_MODE ;;
  write_file ca (chain_pem c) CERT_MODE.

Definition mysql_files_main : M Z :=
  server <- issue_leaf true "localhost" (server_sans extra_sans) MYSQL_TTL_SECONDS ;;
  write_leaf "server" "ca.crt" server ;;
  client <- issue_leaf false "wg-manager-app" ["wg-manager-app"] MYSQL_TTL_SECONDS ;;
  write_leaf "client" "client-ca.crt" client ;;
  ret 0.
End mysql_files.

(** ** [extract_changelog.py] *)

Definition normalise_version (version : string) : string :=
  match version with String "v" rest => rest | _ => version end.

(** The lines after the first line that starts with the heading and is not the
    last one, up to the next heading. *)
Fixpoint until_heading (lines : list string) : list string :=
  match lines with
  | [] => []
  | l :: lines' => if startswith l "## [" then [] else l :: until_heading lines'
  end.
Fixpoint find_section (heading : string) (lines : list string) : option (list string) :=
  match lines with
  | l :: ((_ :: _) as lines') => if startswith l heading then Some (until_heading lines') else find_section heading lines'
  | _ => None
  end.

Definition extract_section (changelog version : string) : outcome string :=
  let v := normalise_version version in
  let lines := split_on (chr 10) changelog in
  match find_section ("## [v" +:+ v +:+ "]") lines with
  | Some body => Ok (strip (join newline body))
  | None =>
      match find_section ("## [" +:+ v +:+ "]") lines with
      | Some body => Ok (strip (join newline body))
      | None => Raise (KeyError ("no `## [v" +:+ v +:+ "]` heading in CHANGELOG.md"))
      end
  end.

(** Exit code and what is printed. *)
Definition changelog_main (args : list string) (changelog : option string) : Z * string :=
  match args with
  | [version] =>
      match changelog with
      | None => (1, "")
      | Some text => match extract_section text version with Ok body => (0, body) | Raise _ => (1, "") end
      end
  | _ => (2, "")
  end.

(** A section ends before the next heading, whatever its own text. *)
Lemma until_heading_app body rest : Forall (fun l => startswith l "## [" = false) body ->
  hd_error rest = None \/ (exists l, hd_error rest = Some l /\ startswith l "## [" = true) ->
  until_heading (body ++ rest) = body.
Proof.
  induction 1 as [|l body Hl _ IH]; intros Hr; cbn [app until_heading].
  - destruct rest as [|l rest]; [done|]. destruct Hr as [?|(l' & [= <-] & Hl)]; [done|]. cbn [until_heading]. by rewrite Hl.
  - by rewrite Hl, IH.
Qed.

Lemma find_section_app heading pre line body rest : Forall (fun l => startswith l heading = false) pre ->
  startswith line heading = true -> body ++ rest <> [] -> Forall (fun l => startswith l "## [" = false) body ->
  hd_error rest = None \/ (exists l, hd_error rest = Some l /\ startswith l "## [" = true) ->
  find_section heading (pre ++ line :: body ++ rest) = Some body.
Proof.
  intros Hpre Hline Hne Hbody Hrest. induction Hpre as [|l pre Hl _ IH].
  - cbn [app find_section]. destruct (body ++ rest) as [|l' tl] eqn:E; [done|]. rewrite Hline, <- E. by rewrite until_heading_app.
  - cbn [app]. cbn [find_section]. destruct (pre ++ line :: body ++ rest) eqn:E; [by destruct pre|]. rewrite Hl. exact IH.
Qed.

(** The release notes of a version are the text between its heading and the
    next one, under either spelling of the version. *)
Theorem release_notes_are_the_section v pre line body rest :
  Forall (fun l => char_in (chr 10) l = false) (pre ++ line :: body ++ rest) ->
  startswith line ("## [v" +:+ v +:+ "]") = true ->
  Forall (fun l => startswith l ("## [v" +:+ v +:+ "]") = false) pre ->
  Forall (fun l => startswith l "## [" = false) body -> body ++ rest <> [] ->
  hd_error rest = None \/ (exists l, hd_error rest = Some l /\ startswith l "## [" = true) ->
  changelog_main ["v" +:+ v] (Some (join newline (pre ++ line :: body ++ rest))) = (0, strip (join newline body)).
Proof.
  intros Hnl Hline Hpre Hbody Hne Hrest. unfold changelog_main, extract_section, newline.
  rewrite split_on_join by (done || by destruct pre). cbn [normalise_version String.append]. cbv zeta.
  cbn [String.append] in *. by rewrite find_section_app.
Qed.

(** ** When a rotated file is due again *)

Lemma check_files_ends (load : string -> option (list pem_cert)) (thr : Q) (now : Z) (paths : list string) (w : World) (any : bool) :
  (forall p, p ∈ paths -> exists b, check_file load thr now p w = (Ok b, w)) ->
  exists b : bool, check_files load thr now paths any w = (Ok (if b then EXIT_DUE else EXIT_OK), w) /\
    (b = true <-> any = true \/ exists p, p ∈ paths /\ check_file load thr now p w = (Ok true, w)).
Proof.
  revert any. induction paths as [|p paths IH]; intros any H.
  - exists any. split; [done|]. split; [by left|]. intros [?|(p & Hp & _)]; [done|]. by apply elem_of_nil in Hp.
  - destruct (H p) as [b E]; [by left|]. cbn [check_files]. rewrite E. destruct (IH (b || any)) as (r & Er & Hr); [intros q Hq; apply H; by right|].
    exists r. split; [done|]. rewrite Hr. split.
    + intros [Ho|(q & Hq & Hc)]; [|right; exists q; split; [by right|done]].
      apply orb_true_iff in Ho as [-> | ->]; [|by left]. right. exists p. split; [by left|done].
    + intros [->|(q & Hq & Hc)]; [left; apply orb_true_r|]. apply elem_of_cons in Hq as [->|Hq]; [|right; eauto].
      rewrite E in Hc. injection Hc as ->. by left.
Qed.

Section cycle.
Context `{PKIBackend} (to_pkcs8_pem : string -> outcome string) (load_certs : string -> option (list pem_cert)) (now : Z).

(** The backend backdates a leaf by at most a minute, and the PEM text of a leaf
    parses to the validity it was issued with. *)
Definition issues_at : Prop := forall h srv cn sans c, pki_issue h srv cn sans MYSQL_TTL_SECONDS = Ok c ->
  now - minutes 1 <= cert_not_before c <= now /\
  load_certs (cert_pem c) = Some [mkPemCert (Some false) (cert_not_before c) (now + seconds MYSQL_TTL_SECONDS)].

(** Half of the lifetime of a thirty-day leaf. *)
Lemma half_life nb t : now - minutes 1 <= nb <= now ->
  leaf_due 50 t (mkPemCert (Some false) nb (now + seconds MYSQL_TTL_SECONDS)) = bool_decide (now + days 30 - nb <= 2 * (t - nb)).
Proof.
  intros Hnb. unfold leaf_due, elapsed_pct, MYSQL_TTL_SECONDS, seconds, minutes, days in *. cbn [pc_start pc_end].
  destruct (Z.leb_spec (now + 30 * 24 * 60 * 60 * 1000000 - nb) 0); [unfold seconds in *; lia|].
  unfold seconds in *. unfold Qle_bool. cbn [Qnum Qden]. rewrite Z2Pos.id by lia.
  apply eq_bool_prop_intro. rewrite Is_true_true, Z.leb_le, Is_true_true, bool_decide_eq_true. lia.
Qed.

(** What a run leaves in the directory. *)
Lemma write_leaf_files tls name ca c w u w' : write_leaf to_pkcs8_pem tls name ca c w = (Ok u, w') ->
  exists key, files (outside w') = <[tls +:+ "/mysql/" +:+ ca := (chain_pem c, CERT_MODE)]>
    (<[tls +:+ "/mysql/" +:+ (name +:+ ".key") := (key, KEY_MODE)]>
    (<[tls +:+ "/mysql/" +:+ (name +:+ ".crt") := (cert_pem c, CERT_MODE)]> (files (outside w)))).
Proof.
  intros E. unfold write_leaf in E. step_ok E. prim_ok. unfold write_file, write_pem, write_bytes in *. simplify_eq. eauto.
Qed.

Lemma issue_leaf_files srv cn sans ttl w c w' : issue_leaf srv cn sans ttl w = (Ok c, w') ->
  files (outside w') = files (outside w) /\ exists h, pki_issue h srv cn sans ttl = Ok c.
Proof. unfold issue_leaf. destruct (pki_issue _ _ _ _ _) as [c'|] eqn:Ec; [|done]. intros [= <- <-]. eauto. Qed.

Ltac look_past :=
  repeat (rewrite lookup_insert_ne; [|intros X; apply (inj (String.append _)) in X; discriminate X]);
  apply lookup_insert_eq.

Definition holds_leaf (w : World) (path : string) : Prop := exists nb text mode, now - minutes 1 <= nb <= now /\
  files (outside w) !! path = Some (text, mode) /\
  load_certs text = Some [mkPemCert (Some false) nb (now + seconds MYSQL_TTL_SECONDS)].

Lemma written_leaf extra tls w w' : issues_at -> mysql_files_main to_pkcs8_pem extra tls w = (Ok 0, w') ->
  holds_leaf w' (tls +:+ "/mysql/server.crt") /\ holds_leaf w' (tls +:+ "/mysql/client.crt").
Proof.
  intros Hiss E. unfold mysql_files_main in E. step_ok E. prim_ok.
  repeat match goal with
  | Hx : issue_leaf _ _ _ _ _ = (Ok _, _) |- _ => apply issue_leaf_files in Hx as [? [? Hx]]; apply Hiss in Hx as (? & ?)
  | Hx : write_leaf _ _ _ _ _ _ = (Ok _, _) |- _ => apply write_leaf_files in Hx as [? ?]
  end.
  unfold holds_leaf. repeat match goal with Hx : files _ = _ |- _ => rewrite Hx; clear Hx end.
  cbn [String.append]. split; eexists _, _, _; (split; [|split]); [|look_past|eassumption| |look_past|eassumption]; assumption.
Qed.

Lemma check_holding w path t : holds_leaf w path -> exists b, check_file load_certs 50 t path w = (Ok b, w) /\
  (t < now + days 15 - seconds 30 -> b = false) /\ (now + days 15 <= t -> b = true).
Proof.
  intros (nb & text & mode & Hnb & Hf & Hl).
  exists (bool_decide (now + days 30 - nb <= 2 * (t - nb))). split.
  - unfold check_file, read_file, bind, some_or_raise, ret. rewrite Hf. cbn beta iota. rewrite Hl.
    change (List.filter _ _) with [mkPemCert (Some false) nb (now + seconds MYSQL_TTL_SECONDS)]. cbn iota. unfold existsb. by rewrite half_life, orb_false_r.
  - unfold days, minutes, seconds in *. split; intros Ht; [apply bool_decide_eq_false|apply bool_decide_eq_true]; lia.
Qed.

(** One rotation holds for half of the lifetime: after the MySQL files have
    been written at [now], the due check at its default threshold reports
    nothing due before fifteen days less half a minute have passed, and reports
    the files due from fifteen days on. *)
Theorem rotation_cycle extra tls w w' : issues_at -> mysql_files_main to_pkcs8_pem extra tls w = (Ok 0, w') ->
  let check t := certs_due_main load_certs 50 t [tls +:+ "/mysql/server.crt"; tls +:+ "/mysql/client.crt"] tls w' in
  (forall t, t < now + days 15 - seconds 30 -> check t = (Ok EXIT_OK, w')) /\
  (forall t, now + days 15 <= t -> check t = (Ok EXIT_DUE, w')).
Proof.
  intros Hiss [Hs Hc]%written_leaf; [|done].
  unfold certs_due_main. cbn zeta. rewrite bool_decide_eq_false_2 by done.
  split; intros t Ht; destruct (check_holding _ _ t Hs) as (b1 & E1 & Ho1 & Hd1), (check_holding _ _ t Hc) as (b2 & E2 & Ho2 & Hd2);
    cbn [check_files]; rewrite E1, E2.
  - by rewrite Ho1, Ho2.
  - by rewrite Hd1, Hd2.
Qed.
End cycle.

Lemma rotation_cycle_witness :
  let pki := demo_pki in let load := fun _ => Some [mkPemCert (Some false) (- minutes 1) (days 30)] in
  exists w', @mysql_files_main pki Ok "db-a, db-b" "/app/tls" (start demo_db) = (Ok 0, w') /\
    certs_due_main load 50 (days 14) ["/app/tls/mysql/server.crt"; "/app/tls/mysql/client.crt"] "/app/tls" w' = (Ok EXIT_OK, w') /\
    certs_due_main load 50 (days 15) ["/app/tls/mysql/server.crt"; "/app/tls/mysql/client.crt"] "/app/tls" w' = (Ok EXIT_DUE, w').
Proof.
  intros pki load. eexists. split; [vm_compute; reflexivity|].
  split; eapply (@rotation_cycle pki Ok load 0 "db-a, db-b" "/app/tls" (start demo_db)).
  all: try (vm_compute; (reflexivity || discriminate)).
  all: intros h srv cn sans c; cbn; intros [= <-]; vm_compute; split; [split; discriminate|reflexivity].
Defined.
