(* ===== verification/Listeners.v ===== *)
(** * Processes and listeners

    [src/src/wg_manager/tls_listeners.py], the entry points [__main__.py] and
    [enroll_listener.py], the application of the enrollment listener
    ([create_enroll_app] of [enroll_app.py]), the beat schedule of
    [celery_app.py], the task status of [routers/tasks.py] and the patch of
    uvicorn in [_tls_uvicorn.py].  What
    [uvicorn.run] is given is a record; uvicorn and OpenSSL are outside. *)

From S2P Require Import Prelude PyStr IpAddr Hashing Json Models Session Ipam AuditLog Ratelimit ProxyProtocol Auth Pki Config EnrollApp Routes.

(** ** TLS settings *)

Inductive cert_reqs := CERT_NONE | CERT_OPTIONAL | CERT_REQUIRED.

Record listener_settings := mkListenerSettings {
  tls_required : bool; tls_cert_pem : option string; tls_key_pem : option string; tls_ca_bundle_pem : option string;
  bind_host : string; bind_port : Z; enroll_bind_host : string; enroll_bind_port : Z
}.

Record ssl_kwargs := mkSslKwargs {
  ssl_certfile : option string; ssl_keyfile : option string; ssl_ca_certs : option string; ssl_cert_reqs : cert_reqs
}.

Definition api_ssl_kwargs (s : listener_settings) : ssl_kwargs :=
  mkSslKwargs (tls_cert_pem s) (tls_key_pem s) (tls_ca_bundle_pem s) (if tls_required s then CERT_REQUIRED else CERT_OPTIONAL).

Definition enroll_ssl_kwargs (s : listener_settings) : ssl_kwargs := mkSslKwargs (tls_cert_pem s) (tls_key_pem s) None CERT_NONE.

(** The policy of the context that [create_ssl_context] builds. *)
Definition enroll_ssl_context (s : listener_settings) : ssl_kwargs :=
  let kwargs := enroll_ssl_kwargs s in mkSslKwargs (ssl_certfile kwargs) (ssl_keyfile kwargs) None (ssl_cert_reqs kwargs).

(** ** Entry points *)

(** The arguments of [uvicorn.run]: TLS in uvicorn, or in the protocol class
    with the networks it trusts. *)
Inductive transport := UvicornTls (k : ssl_kwargs) | ProxyTls (context : ssl_kwargs) (trusted : list net).
Record uvicorn_run := mkUvicornRun { ur_app : string; ur_factory : bool; ur_host : string; ur_port : Z; ur_transport : transport }.
Inductive started := ExitCode (n : Z) (message : string) | Serving (r : uvicorn_run).

Definition missing (vars : list (string * option string)) : list string :=
  fst <$> List.filter (fun nv => negb (truthy nv.2)) vars.

(** [python -m wg_manager] *)
Definition api_main (s : listener_settings) : started :=
  match missing [("TLS_CERT_PEM", tls_cert_pem s); ("TLS_KEY_PEM", tls_key_pem s); ("TLS_CA_BUNDLE_PEM", tls_ca_bundle_pem s)] with
  | [] => Serving (mkUvicornRun "wg_manager.main:app" false (bind_host s) (bind_port s) (UvicornTls (api_ssl_kwargs s)))
  | names => ExitCode 2 ("ERROR: the following TLS env vars must be set to run wg-manager: " +:+ join ", " names)
  end.

(** [python -m wg_manager.enroll_listener] *)
Definition enroll_main (s : listener_settings) (cfg : settings) : outcome started :=
  match missing [("TLS_CERT_PEM", tls_cert_pem s); ("TLS_KEY_PEM", tls_key_pem s)] with
  | [] =>
      let run t := Ok (Serving (mkUvicornRun "wg_manager.enroll_app:create_enroll_app" true (enroll_bind_host s) (enroll_bind_port s) t)) in
      if enroll_proxy_protocol cfg then
        match parse_cidrs (enroll_proxy_trusted_cidrs cfg) with
        | None => Raise (ValueError "enroll_proxy_trusted_cidrs")
        | Some networks =>
            match make_proxy_protocol_class networks with
            | None => Raise (ValueError "trusted")
            | Some trusted => run (ProxyTls (enroll_ssl_context s) trusted)
            end
        end
      else run (UvicornTls (enroll_ssl_kwargs s))
  | names => Ok (ExitCode 2 ("enrollment listener needs a server cert; unset: " +:+ join ", " names))
  end.

(** ** The enrollment application *)

(** The routes of [create_enroll_app]; there are no docs and no OpenAPI. *)
Definition enroll_routes : list route :=
  mkRoute "POST" [Lit "v1"; Lit "enroll"] E_enroll :: health_router ++ under [Lit "v1"] health_router.

Definition route_enroll (method path : string) : option (endpoint * list string) := find_route enroll_routes method (segments path).

(** The middleware added last is outermost: counting, then the limits, then
    the routes. *)
Section enroll_app.
Context {S : Type} `{Limiter S} {W : Type} (limits : enroll_limits) (now : Z)
  (endpoints : endpoint -> W -> http_response * W) (not_found : W -> http_response * W).

Definition enroll_router (method path : string) : W -> http_response * W :=
  match route_enroll method path with Some (e, _) => endpoints e | None => not_found end.

Definition create_enroll_app (e : middleware_env) (method path : string) (client : option string) (w : W) (st : S)
  : http_response * W * list mw_effect * S :=
  metrics_dispatch limits now e method path client (enroll_router method path) w st.
End enroll_app.

(** ** Celery *)

(** [beat_schedule]: task and interval in seconds. *)
Definition beat_schedule (cfg : settings) (enroll_token_sweep_interval_seconds : Z) : list (string * string * Z) :=
  [("rotate-expiring-host-certs", "wg_manager.tasks.rotate_expiring_host_certs", ssh_host_cert_rotation_interval_seconds cfg);
   ("sweep-enrollment-tokens", "wg_manager.tasks.sweep_enrollment_tokens", enroll_token_sweep_interval_seconds)].

(** [get_task_status]: the state of a result; [show] is [str]. *)
Record TaskStatusResponse := mkTaskStatus { ts_task_id : string; ts_state : string; ts_result : option json; ts_error : option string }.
Definition get_task_status (show : json -> string) (lookup : string -> string * json) (task_id : string) : TaskStatusResponse :=
  let '(state, raw) := lookup task_id in
  if String.eqb state "SUCCESS" then
    mkTaskStatus task_id state (Some (match raw with JObj _ => raw | _ => JObj [("value", raw)] end)) None
  else if String.eqb state "FAILURE" then mkTaskStatus task_id state None (Some (show raw))
  else mkTaskStatus task_id state None None.

(** ** The surface of the enrollment port *)

Lemma segments_path t parts : parts <> [] -> segments ("/" +:+ t) = parts -> "/" +:+ t = "/" +:+ join "/" parts.
Proof.
  intros Hn H.
  pose proof (join_split_on "/" ("/" +:+ t)) as J. revert H J. unfold segments.
  change ("/" +:+ t) with ("" +:+ String "/" t). rewrite split_on_app by done. cbn [tail]. intros -> <-. by destruct parts.
Qed.

(** What a matched route says of the request. *)
Lemma find_route_Some routes method parts e params : find_route routes method parts = Some (e, params) ->
  exists r, r ∈ routes /\ rt_endpoint r = e /\ rt_method r = method /\ match_path (rt_path r) parts = Some params.
Proof.
  induction routes as [|r routes IH]; [done|]. cbn. destruct (String.eqb_spec (rt_method r) method) as [Hm|_].
  - destruct (match_path (rt_path r) parts) as [ps|] eqn:E.
    + intros [= <- <-]. exists r. split_and!; [by left|done..].
    + intros (r' & ? & ?)%IH. exists r'. split; [by right|done].
  - intros (r' & ? & ?)%IH. exists r'. split; [by right|done].
Qed.

Lemma match_literals lits parts params : match_path (Lit <$> lits) parts = Some params -> parts = lits.
Proof.
  unfold match_path. case_match; [|done]. revert parts params H. induction lits as [|s lits IH]; intros [|p parts] params H; try done.
  cbn in *. destruct (String.eqb_spec s p) as [->|]; [|done]. intros Hm. f_equal. by eapply IH.
Qed.

(** The requests that the port answers with an endpoint. *)
Definition enroll_surface : list (endpoint * string * string) :=
  [(E_enroll, "POST", ENROLL_PATH); (E_healthz, "GET", "/healthz"); (E_readyz, "GET", "/readyz");
   (E_healthz, "GET", "/v1/healthz"); (E_readyz, "GET", "/v1/readyz")].

Lemma route_enroll_spec method t e params :
  route_enroll method ("/" +:+ t) = Some (e, params) <-> params = [] /\ (e, method, "/" +:+ t) ∈ enroll_surface.
Proof.
  split.
  - intros (r & Hr & <- & <- & Hm)%find_route_Some.
    assert (exists lits, lits <> [] /\ rt_path r = Lit <$> lits /\
      (rt_endpoint r, rt_method r, "/" +:+ join "/" lits) ∈ enroll_surface) as (lits & Hn & Hl & Hin).
    { rewrite list_elem_of_In in Hr. simpl in Hr. destruct Hr as [<-|[<-|[<-|[<-|[<-|[]]]]]];
        [exists ["v1"; "enroll"]|exists ["healthz"]|exists ["readyz"]|exists ["v1"; "healthz"]|exists ["v1"; "readyz"]];
        (split; [done|]); (split; [done|]); apply list_elem_of_In; vm_compute; tauto. }
    rewrite Hl in Hm. pose proof (match_literals _ _ _ Hm) as Hp. rewrite (segments_path _ _ Hn Hp). split; [|done].
    rewrite Hp in Hm. clear -Hm. unfold match_path in Hm. rewrite length_fmap, Nat.eqb_refl in Hm.
    revert params Hm. induction lits as [|s lits IH]; intros params; cbn; [by intros [= <-]|]. rewrite String.eqb_refl. apply IH.
  - intros [-> Hin]. change ("/" +:+ t) with (String "/" t) in *. rewrite list_elem_of_In in Hin. simpl in Hin.
    destruct Hin as [E|[E|[E|[E|[E|[]]]]]]; injection E as <- <- <-; vm_compute; reflexivity.
Qed.

(** The operator API has no enroll endpoint. *)
Lemma api_has_no_enroll method path params : route_request method path <> Some (E_enroll, params).
Proof.
  assert (Hall : Forall (fun r => rt_endpoint r <> E_enroll) app_routes) by (apply (bool_decide_unpack _); vm_compute; exact I).
  intros (r & Hr & He & _)%find_route_Some. rewrite Forall_forall in Hall. by apply (Hall r).
Qed.

Section port.
Context {S : Type} `{Limiter S} {W : Type} (limits : enroll_limits) (now : Z)
  (endpoints : endpoint -> W -> http_response * W) (not_found : W -> http_response * W)
  (probes_read : forall e w, e ∈ [E_healthz; E_readyz] -> (endpoints e w).2 = w)
  (not_found_reads : forall w, (not_found w).2 = w).

(** C28. The enrollment port has no way around its limits: whatever the method
    and path, a request is answered by the enroll endpoint (at one method and
    path only), by a health probe or as not found, and while the limiter
    refuses a source address nothing it sends changes the application's
    state. *)
Theorem refused_peer_changes_nothing e method t client w st r effs0 st0 :
  before_app limits now e (default "unknown" client) st = (Some r, effs0, st0) ->
  (forall ep params, route_enroll method ("/" +:+ t) = Some (ep, params) ->
     ep ∈ [E_enroll; E_healthz; E_readyz] /\ (ep = E_enroll -> method = "POST" /\ "/" +:+ t = ENROLL_PATH)) /\
  exists resp effs st', create_enroll_app limits now endpoints not_found e method ("/" +:+ t) client w st = (resp, w, effs, st').
Proof.
  intros Hb. assert (Hr : forall ep params, route_enroll method ("/" +:+ t) = Some (ep, params) ->
     ep ∈ [E_enroll; E_healthz; E_readyz] /\ (ep = E_enroll -> method = "POST" /\ "/" +:+ t = ENROLL_PATH)).
  { intros ep params [_ Hin]%route_enroll_spec. change ("/" +:+ t) with (String "/" t) in *. rewrite list_elem_of_In in Hin. simpl in Hin.
    destruct Hin as [E|[E|[E|[E|[E|[]]]]]]; injection E as <- <- <-; (split; [set_solver|done]). }
  split; [done|]. unfold create_enroll_app, metrics_dispatch, mw_dispatch. rewrite Hb.
  assert (Hc : method = "POST" /\ "/" +:+ t = ENROLL_PATH \/ (enroll_router endpoints not_found method ("/" +:+ t) w).2 = w).
  { unfold enroll_router. destruct (route_enroll method ("/" +:+ t)) as [[ep params]|] eqn:E; [|by right].
    destruct (Hr _ _ eq_refl) as [Hin He]. destruct (decide (ep = E_enroll)) as [->|Hne]; [left; by apply He|].
    right. apply probes_read. set_solver. }
  destruct Hc as [[-> ->]|Hc]; [rewrite !bool_decide_eq_true_2 by done; cbn [negb orb andb]; eauto|].
  destruct (enroll_router _ _ _ _ _) as [resp w'] eqn:Er. simpl in Hc. subst w'.
  destruct (bool_decide (method = "POST")), (bool_decide ("/" +:+ t = ENROLL_PATH)); cbn [negb orb andb]; eauto.
Qed.
End port.

(** ** Nothing is served in the clear *)

(** The transport serves a certificate with its key, and asks for client
    certificates as said, with the authorities said. *)
Definition offers (r : cert_reqs) (ca : option string) (k : ssl_kwargs) : Prop :=
  ssl_cert_reqs k = r /\ ssl_ca_certs k = ca /\ truthy (ssl_certfile k) = true /\ truthy (ssl_keyfile k) = true.

Lemma missing_nil vars : missing vars = [] -> Forall (fun nv => truthy nv.2 = true) vars.
Proof.
  unfold missing. induction vars as [|[n v] vars IH]; [done|].
  cbn [List.filter snd negb]. destruct (truthy v) eqn:E; cbn [negb]; [|discriminate]. intros Hn. constructor; auto.
Qed.

(** No wg-manager process serves in the clear: one that starts has a
    certificate and its key; the operator API loads its authorities, and with
    TLS_REQUIRED it demands a client certificate; the enrollment port never
    asks for one and loads no authority, and behind a proxy it trusts a
    non-empty set of networks, those of the settings. *)
Theorem listeners_serve_tls s cfg cfg' :
  validate_settings cfg = Ok cfg' ->
  (forall r, api_main s = Serving r -> exists k, ur_transport r = UvicornTls k /\
     offers (if tls_required s then CERT_REQUIRED else CERT_OPTIONAL) (tls_ca_bundle_pem s) k /\
     truthy (tls_ca_bundle_pem s) = true) /\
  exists st, enroll_main s cfg' = Ok st /\
    (truthy (tls_cert_pem s) && truthy (tls_key_pem s) = false <-> exists m, st = ExitCode 2 m) /\
    forall r, st = Serving r -> match ur_transport r with
      | UvicornTls k => enroll_proxy_protocol cfg = false /\ offers CERT_NONE None k
      | ProxyTls k trusted => enroll_proxy_protocol cfg = true /\ offers CERT_NONE None k /\ trusted <> [] /\
          parse_cidrs (enroll_proxy_trusted_cidrs cfg) = Some trusted
      end.
Proof.
  intros Hv. pose proof (validate_settings_ok _ _ Hv) as (_ & _ & (nets & Hp & Hne) & _).
  assert (Hsame : enroll_proxy_protocol cfg' = enroll_proxy_protocol cfg /\
    enroll_proxy_trusted_cidrs cfg' = enroll_proxy_trusted_cidrs cfg).
  { revert Hv. unfold validate_settings.
    rewrite Hp. destruct (parse_strict_subnet _); [|discriminate].
    destruct (_ && _); [discriminate|]. do 2 (destruct (_ <=? _); [discriminate|]). intros [= <-]. by split. }
  destruct Hsame as [Hs1 Hs2]. split.
  - intros r. unfold api_main. destruct (missing _) eqn:E; [|done]. apply missing_nil in E. intros [= <-].
    rewrite !Forall_cons in E. destruct E as (Hc & Hk & Ha & _). eexists. by split_and!.
  - unfold enroll_main. rewrite Hs1, Hs2, Hp. destruct (missing _) as [|n ns] eqn:E.
    + apply missing_nil in E. rewrite !Forall_cons in E. destruct E as (Hc & Hk & _). simpl in Hc, Hk.
      destruct (enroll_proxy_protocol cfg); [destruct nets as [|n nets]; [by specialize (Hne eq_refl)|]|];
        eexists; (split; [done|]); rewrite Hc, Hk; (split; [split; [done|by intros [? ?]]|]); intros r [= <-]; by split_and!.
    + eexists. split; [done|]. split; [|done]. split; [by eauto|intros _].
      destruct (truthy (tls_cert_pem s)) eqn:H1, (truthy (tls_key_pem s)) eqn:H2; try done.
      unfold missing in E. cbn [List.filter snd] in E. by rewrite H1, H2 in E.
Qed.

(** ** Concrete runs *)

Definition port_settings : listener_settings :=
  mkListenerSettings true (Some "tls/server.crt") (Some "tls/server.key") (Some "tls/ca-bundle.crt") "127.0.0.1" 8000 "127.0.0.1" 8001.
Definition proxy_settings : settings := mkSettings true "10.0.0.0/24, 10.0.1.0/24" 86400 21600 3600 "10.8.0.0/24".
Definition proxy_networks : list net := default [] (parse_cidrs "10.0.0.0/24, 10.0.1.0/24").

Lemma listeners_serve_tls_witness :
  length proxy_networks = 2%nat /\
  enroll_main port_settings proxy_settings = Ok (Serving (mkUvicornRun "wg_manager.enroll_app:create_enroll_app" true "127.0.0.1" 8001
    (ProxyTls (enroll_ssl_context port_settings) proxy_networks))) /\
  exists st, enroll_main port_settings proxy_settings = Ok st /\ ~ (exists m, st = ExitCode 2 m).
Proof.
  split; [vm_compute; reflexivity|]. split; [vm_compute; reflexivity|].
  destruct (listeners_serve_tls port_settings proxy_settings proxy_settings) as [_ (st & E & Hx & _)]; [vm_compute; reflexivity|].
  exists st. split; [exact E|]. intros Hm. apply Hx in Hm. discriminate Hm.
Defined.

(** A peer at its failure limit asks for everything the port has. *)
Definition count_calls (ep : endpoint) (w : nat) : http_response * nat :=
  if bool_decide (ep = E_enroll) then deny w else (mkResponse 200 "ok" [], w).

Lemma refused_peer_changes_nothing_witness :
  let st : windows := {["enroll-fail:ip" := (2, 1000)]} in
  let app := create_enroll_app demo_limits 0 count_calls (fun w => (mkResponse 404 "Not Found" [], w)) (demo_mw 5) in
  (app "POST" "/v1/enroll" (Some "other") 0%nat st).1.1.2 = 1%nat /\
  exists resp effs st', app "POST" "/v1/enroll" (Some "ip") 0%nat st = (resp, 0%nat, effs, st').
Proof.
  intros st app. split; [vm_compute; reflexivity|].
  refine (proj2 (refused_peer_changes_nothing demo_limits 0 count_calls (fun w => (mkResponse 404 "Not Found" [], w)) _ _
    (demo_mw 5) "POST" "v1/enroll" (Some "ip") 0%nat st (too_many 1) [Counted "rate_limited:failures"] st _)).
  - intros ep w Hin. rewrite list_elem_of_In in Hin. by destruct Hin as [<-|[<-|[]]].
  - done.
  - vm_compute. reflexivity.
Defined.

(** ** The patch of uvicorn *)

(** [__init__] of a [RequestResponseCycle]: uvicorn's own, or a wrapper, which
    carries the marker. *)
Inductive cycle_init := Original | Wrapped (original : cycle_init).
Definition marked (i : cycle_init) : bool := match i with Wrapped _ => true | Original => false end.
Definition wrap_cycle_init (i : cycle_init) : cycle_init := if marked i then i else Wrapped i.

(** [_PATCHED] and the two classes; [httptools] may not be installed. *)
Record uvicorn_state := mkUvicorn { uv_patched : bool; uv_h11 : cycle_init; uv_httptools : option cycle_init }.
Definition enable_tls_extension (u : uvicorn_state) : uvicorn_state :=
  if uv_patched u then u else mkUvicorn true (wrap_cycle_init (uv_h11 u)) (wrap_cycle_init <$> uv_httptools u).

(** The scope of a request as uvicorn's own [__init__] gets it: a wrapper stamps
    it when it is given both a scope and a transport, here by its TLS object. *)
Fixpoint init_scope (load_der : bytes -> option string) (i : cycle_init) (transport : option (option (option bytes)))
  (scope : asgi_scope) : asgi_scope :=
  match i with
  | Original => scope
  | Wrapped original => init_scope load_der original transport
      (match transport with Some ssl_object => inject_tls_extension load_der ssl_object scope | None => scope end)
  end.

Lemma enable_fixed n u : Nat.iter (S n) enable_tls_extension u = enable_tls_extension u.
Proof.
  induction n as [|n IH]; [done|]. cbn [Nat.iter nat_rect] in IH |- *. rewrite IH.
  unfold enable_tls_extension at 1. by destruct u as [[]].
Qed.

(** However many modules install the patch, a request is stamped once: with the
    certificate chain of its connection, under both HTTP implementations. *)
Theorem patched_once load_der n httptools ssl_object scope :
  let u := Nat.iter (S n) enable_tls_extension (mkUvicorn false Original httptools) in
  init_scope load_der (uv_h11 u) (Some ssl_object) scope = inject_tls_extension load_der ssl_object scope /\
  (httptools = Some Original -> uv_httptools u = Some (uv_h11 u)).
Proof. intros u. unfold u. rewrite enable_fixed. split; [done|]. by intros ->. Qed.
